(* ===== verification/_CoqProject ===== *)
-Q . S2P
Prelude.v
Bytes.v
EventDefs.v
EventTable.v
FillerTable.v
SyscallTable.v
ValToRing.v
ValToRingSpec.v
FlagDefs.v
Flags.v
Fillers.v
FillerOps.v
SyscallFillers.v
SockFillers.v
ProcFillers.v
AllFillers.v
FillerStorage.v
FillerFaults.v
FillerData.v
Ring.v
RingSpec.v
Reader.v
RingSystem.v
RecordSpec.v
Consumers.v
ConsumersSpec.v
DriverSystem.v
Probes.v
ReaderSpec.v
PerfReader.v
PerfReaderSpec.v
Suppress.v
SaveFile.v
SaveFileSpec.v
BlockIO.v
FdList.v
ProcList.v
UserList.v
IfList.v
CaptureFile.v
CaptureFileSpec.v
Text.v
PathSearch.v
Paths.v
Filter.v
FilterCompiler.v
FilterSpec.v
FilterPrint.v
FilterErrors.v
RuleSets.v
RuleSetsSpec.v
Interfaces.v
FilterCheck.v
FilterEngine.v
BpfRing.v
BpfRingSpec.v
BpfProbe.v
BpfFillers.v
BpfProbeSpec.v
BpfFillersSpec.v
BpfModule.v
BpfLive.v
BpfSock.v
BpfData.v
BpfProc.v
BpfNet.v
BpfPrograms.v
BpfHash.v
CpuAnalysis.v
CpuAnalysisSpec.v
BpfTrace.v
BpfTraceSpec.v
BpfControl.v
LiveControl.v
LiveControlSpec.v
BpfLoader.v
BpfLoaderSpec.v
