(* ===== verification/Prelude.v ===== *)
(** * agent-libs: the event path from the kernel driver to the capture file

    agent-libs captures system activity.  A kernel driver ([src/driver]) turns
    system calls and other kernel events into event records in a ring buffer per
    CPU; the user-level library libscap ([src/userspace/libscap]) reads the rings,
    merges them by time, filters suppressed threads, and writes and reads capture
    files; the C++ library libsinsp ([src/userspace/libsinsp]) on top of it decides
    with filters which events a client sees.  This development models the code of
    that path, file by file, and proves what makes each part correct.

    ** The parts and how they interact

    - tables: [event_table.c], [fillers_table.c], [syscall_table.c] and
      [dynamic_params_table.c] describe every event type, which filler builds it
      and which syscall it comes from ([EventDefs], [EventTable], [FillerTable],
      [SyscallTable]);
    - the parameter writer: [val_to_ring] of [ppm_events.c] appends one encoded
      parameter to the event being built ([ValToRing], specification and proofs
      in [ValToRingSpec]);
    - flag translation: the [_to_scap] functions of [ppm_flag_helpers.h] with the
      name tables of [flags_table.c] and libsinsp's printing loop ([FlagDefs],
      [Flags]);
    - the fillers: [f_sys_autofill] of [ppm_events.c] and the functions of
      [ppm_fillers.c] call it once per parameter: [Fillers] has the automatic and
      the simplest ones, [FillerOps] the steps the others are made of,
      [SyscallFillers] those of plain system calls and network events,
      [SockFillers] those of sockets and I/O vectors with the encodings and the
      vector parser of [ppm_events.c], [ProcFillers] that of clone, fork and
      execve; [AllFillers] is the table of all of them, and [FillerStorage],
      [FillerFaults] and [FillerData] say what they do to the string page and
      what they record from it;
    - the ring writer: [record_event_consumer] of [main.c] decides whether an
      event is kept, finds room, writes the header, calls the filler and
      publishes the new head ([Ring], proofs in [RingSpec] and [RecordSpec]);
    - consumers and device operations: [ppm_open], [ppm_release], [ppm_ioctl],
      [ppm_mmap] and the hotplug callback of [main.c] ([Consumers], lemmas in
      [ConsumersSpec]); [DriverSystem] runs them in any order on the driver and
      the table of open files;
    - the probes: the tracepoint and kprobe handlers of [main.c] ([Probes]);
    - the ring reader: [scap_next_live] and what it calls in [scap.c]
      ([Reader], proofs in [ReaderSpec]), written once for every kind of device:
      the rings of the module are one, and the perf buffers of the eBPF driver
      ([scap_bpf.h]: [PerfReader], proofs in [PerfReaderSpec]) another;
      [RingSystem] interleaves writer and reader on one ring;
    - the control operations of libscap, which start, stop and configure a capture
      ([scap_bpf.c] on the settings map of the eBPF driver: [BpfControl]; [scap.c] on a
      handle of either driver: [LiveControl], compared in [LiveControlSpec]);
    - the eBPF loader: [scap_bpf_load] and what it calls in [scap_bpf.c], and the
      tracepoints of interest of [sinsp_tp.cpp] ([BpfLoader], proofs in
      [BpfLoaderSpec]);
    - suppression and thread id maps: [scap_procs.c] and [scap.c] ([Suppress]);
    - capture files: the events of [scap_savefile.c] ([SaveFile], proofs in
      [SaveFileSpec]); the tables in front of them, in blocks whose readers and
      writers share the steps of [BlockIO]: descriptors ([FdList], with
      [scap_fds.c]), threads in all nine versions of the format ([ProcList]),
      users and groups ([UserList]), network interfaces ([IfList]); and the file
      itself, [scap_setup_dump] and [scap_read_init], which write and read the
      header and all the tables ([CaptureFile], proofs in [CaptureFileSpec]);
    - filters of libsinsp: the tree of a filter and its evaluation
      ([gen_filter.cpp]: [Filter]), the compiler from a text ([filter.cpp]:
      [FilterCompiler], proofs in [FilterSpec]; [FilterPrint] writes filters for it
      and [FilterErrors] has the texts it mistreats), the values of a check and the
      comparisons ([filter.cpp], [value_parser.cpp]: [FilterCheck]), the two put
      together ([FilterEngine]), and the sets of rules that run many filters on an
      event ([sinsp_evttype_filter]: [RuleSets], its specification and the
      refinement in [RuleSetsSpec]);
    - paths and addresses of libsinsp: the prefix tree behind [pmatch]
      ([prefix_search.h]: [PathSearch], with the strings of [Text]), the full path of
      a file ([utils.cpp]: [Paths]), local addresses, interfaces and networks
      ([ifinfo.cpp], [tuples.cpp]: [Interfaces]);
    - the eBPF driver, which records the same events without the module: how a program
      writes parameters to the scratch area of its CPU and hands the frame to the perf
      buffer ([filler_helpers.h], [ring_helpers.h]: [BpfRing], proofs in [BpfRingSpec]);
      the chain of programs that handles an event, its sampling and its counters
      ([plumbing_helpers.h] and the macros of [fillers.h]: [BpfProbe], proofs in
      [BpfProbeSpec]); the fillers of [fillers.h]: [BpfFillers] has those that hand values,
      strings and buffers on (proofs in [BpfFillersSpec]), [BpfSock] those of sockets with
      the tuples of [filler_helpers.h], [BpfData] those of descriptor lists and I/O
      vectors, [BpfProc] those of clone, fork and execve, [BpfNet] those of packets and
      TCP functions; [BpfPrograms] is the array of all of them; [BpfModule] compares
      fillers with those of the module, and [BpfLive] follows an event of numbers through
      its programs to the perf buffer;
    - the CPU analysis of the eBPF driver ([plumbing_helpers.h], [maps.h]: [CpuAnalysis]),
      which keeps for each thread its times on and off the CPU in hash maps of the kernel
      ([BpfHash]), and its specification ([CpuAnalysisSpec]);
    - the tracepoints of the eBPF driver ([probe.c]: [BpfTrace]), which decide, take notes
      in the maps and start the programs; [BpfTraceSpec] proves the whole probe.

    The interfaces between them are type classes: [KernelOK] is what the driver
    relies on of the kernel's user memory primitives; [FillersOK] is what the
    ring writer relies on of the table of fillers; [FillerOK], [FillerSpec] (the
    parameters a filler records) and [PageSafe] (the kernel memory it may change)
    are proved for a filler by composing instances for its steps; [LiveDevice] is
    what the loop of the ring reader asks of a device and [Hands] what the device
    promises it, both with an instance for each driver; [GzWriter],
    [GzReader] and [GzSeeker] are what the capture file code relies on of zlib,
    [Appends] and [writes] what the block writers promise, [parses] what a reader
    makes of the bytes of an entry, and [Counts], composed by instances too, that
    it consumes them.  [field_table] is what the filter compiler asks of the table of
    the fields, and [FilterEngine] has the instance with the checks of [FilterCheck];
    [Moves] and [Keeps] are what the steps of the compiler do to the position and to
    the tree; [libc] is what the value parser asks of the C library.  For the eBPF
    driver, [BpfOK] is what it relies on of the helpers of the kernel, [Chained] what
    the probe relies on of its program array, [FrameOK] what a filler does to the frame,
    [Prepares] what a step that builds a parameter on the frame may change, [AreasOK] that
    a task has its argument and environment areas the right way round, [BpfHash] and
    [BpfHashOK] the hash maps of the kernel and what the probe relies on of them, with a
    bounded finite map as instance, and [SameKernel] that both drivers look at one kernel;
    [Same] compares two fillers.

    ** How the model corresponds to the code

    Machine integers are [Z], with every conversion that can wrap written out
    ([u16], [u32], [u64], [s32]).  Memory is a function from addresses to bytes
    ([Bytes]); words are little endian.  The ring memory and the rest of kernel
    memory are two such functions, and the reader sees the ring through its
    double mapping, that is, modulo the ring size.  A function that changes
    state takes and returns it; a filler is a function on the state of the event
    being built; [record_event_consumer] is split where it reads the tail and
    where it publishes the head, so that the reader can move in between.  What
    the driver observes of the kernel (user memory, descriptors, sockets, the
    syscall's arguments and result) is the record [kenv], an argument; what the
    fillers read of the current task, its credentials, namespaces, cgroups and
    files is the record [task_env].  Constants of the system call interface are
    those of x86-64, and the conditionals are those of a 4.14 kernel.  The
    consumer list is a list of addresses with the memory behind it, and an
    operation that follows a freed or null pointer has no result; the answers of
    the allocator, of the tracepoint registration and of the user copies are
    arguments ([open_env], [ioctl_env], [event_env]).  The eBPF driver is taken as
    compiled for raw tracepoints and with the CPU analysis; [bpf_env] is what its programs
    see, [prog_view] the task, sockets and packets of an event, and a [hit] is a
    tracepoint with all of these and the readings of the clock.

    Loops are structural recursion, or carry fuel that is shown to be enough:
    [strncpy_loop] has one turn more than the bytes it may copy,
    [scap_bpf_advance_to_evt] one more than the bytes unread, [map_pages] one
    more than the pages of the ring, [accumulate_loop] one more than the bytes
    available, and [offline_loop] and [read_entries] one turn
    more than the bytes left in the file, each turn consuming at least one.  Two
    loops of the capture file reader can fail to end: those are [run], a loop that
    has no result when the turns do not suffice, and the theorems say exactly when
    no number of turns does ([read_init_ends_or_hangs],
    [parse_iflist_ends_or_hangs]).  The loop of the filter compiler is such a [run]
    too, shown to end within two turns more than the text has characters; the list of
    an 'in' has one turn for each character ([filter_compile_terminates] has both).
    A chain of eBPF programs has [MAX_TAIL_CALL_CNT] tail calls, the limit of the kernel.
    [poll_loop] has [poll_fuel] turns, more than the string page has room for
    entries; where that is not enough ([poll_count_wraps]) the code's loop does not
    end at all.

    ** What the theorems show

    - [ring_interleaving_fifo], [record_event_consumer_appends]: the ring is a
      FIFO of whole event records under every interleaving; no byte outside the
      allocation and no unread byte is ever overwritten;
    - [val_to_ring_appends], [val_to_ring_no_bug], [autofill_complete]: a record
      holds exactly the specified encodings of its parameters, as many as the
      event table declares;
    - [fillers_complete]: every filler that succeeds has recorded the declared
      parameters; [fillers_keep_to_page]: no filler writes kernel memory other
      than its CPU's string page; [writev_records_gathered], [poll_records_ready]:
      what is gathered in the page is what a reference definition says;
    - [flag_words_print], [commands_print], [open_flags_print]: a translated flag
      word or command prints as the names of what the caller passed; the flags of open
      also as names of other flags that share their bits;
    - [scap_next_live_earliest], [drain_merges], [scap_next_live_in_span]: the
      reader merges the rings by time and stays inside what was published;
      [perf_interleaving_fifo]: a perf buffer is a FIFO of records too, whatever the
      order of kernel and reader, and reading it ends with every event handed over;
    - [control_drivers_agree]: the control operations leave both drivers in states that
      mean the same; [bpf_stats_sum]: the statistics;
    - [relocations_refer], [kt_switches_refine]: the programs that are loaded refer to
      their maps, and switching tracepoints on and off refines a set of attached programs;
    - [drop_event_policy]: the dropping decision;
    - [driver_safety], [last_close_stops_capture]: while probes can be registered, the
      driver never follows a dangling pointer, its list, files, probes and mask agree in
      every reachable state, and the last close frees and unregisters everything if each
      consumer has an open ring;
    - [mmap_double_mapping], [events_mask_policy], [proclist_complete]: what
      single device operations do; [syscall_probes_agree]: the enter and exit
      probes record matching events;
    - [check_suppressed_decides]: which events are suppressed, for the documented cases
      that the code gets right, and the other theorems of [Suppress];
    - [dump_read_roundtrip], [v1_event_converted], [scap_next_offline_terminates],
      [offline_defined]: the events written to a capture file are those read;
    - [capture_file_roundtrip]: a file that [scap_setup_dump] wrote is opened by
      [scap_read_init] to the same tables and left at its first event; the parts
      of this are [fdlist_roundtrip], [proclist_versions_read],
      [proclist_roundtrip], [userlist_roundtrip] and [iflist_roundtrip];
    - [read_init_ends_or_hangs], [parse_iflist_ends_or_hangs],
      [fdlist_padding_in_buffer]: what the readers do on a file that was not
      written by the library;
    - [filter_compile_terminates], [compiled_filters_uniform]: compiling ends on every
      text, and what is accepted mixes no operators; [filter_print_compiles]: every
      filter has a text, and what that compiles to means the filter;
      [in_list_is_any_equal], [string_sets_spec]: lists of values, from the text to the
      comparison of bytes; [number_values_wrap]: numbers;
    - [rulesets_refine]: running an event against the indexed rule sets is asking
      whether an enabled rule that applies to it matches;
    - [path_match_spec]: the prefix tree is a prefix test; [concatenate_paths_walks],
      [concatenate_paths_in_buffer]: the full path of a file, and the memory written
      for it; [net_matches_prefix], [update_fd_fills_unknown]: networks and sockets;
    - [drivers_record_same_params], [bpf_frame_is_module_record],
      [snaplen_drivers_agree]: the eBPF driver records what the module records;
      [bpf_syscalls_as_module]: and chooses the same events for system calls;
      [bpf_trace_accounted], [bpf_trace_records], [bpf_call_records_event],
      [bpf_event_delivered]: in any sequence of tracepoint hits every event is counted,
      what is sent is a complete record, and nothing but masks, sampling and failures
      keeps an event from being sent; [bpf_writes_in_scratch];
    - [cpu_switch_refines], [cpu_record_delivered]: the CPU analysis appends the intervals
      of the threads to their lists, and a list that is due arrives in an event;
    - [syscall_table_routes] and the other table theorems: every system call has the
      events of its name, and the tables agree with each other.

    Theorems that show a defect of the code say so in their comment
    ([tcp_reset_rows_swapped], [child_of_suppressed_parent_escapes],
    [evf_v1_short_block_undefined], [sendmmsg_overruns_page],
    [poll_count_wraps], [short_records_dropped], [failed_open_dangles],
    [offline_open_leaks_consumer], [failed_xmit_probe_leaks],
    [rejected_ratio_drops_all], [signal_sender_lost],
    [check_skb_accepts_truncated], [ipv6_write_error_ignored],
    [long_homedir_unreadable], [iflist_zero_entry_hangs],
    [iflist_second_pass_overflows], [old_iflist_resaved_short],
    [looping_file_hangs], [unbalanced_filters_undefined], [unjoined_checks_ignored],
    [intersects_refused], [private_internets_wrong], [number_values_wrap],
    [address_families_mixed], [short_buffer_overread], [cached_extract_loses_length],
    [taken_name_never_enabled], [unused_ruleset_query], [trailing_dot_joins],
    [unknown_dir_underruns], [unknown_socket_self_connected], [null_strings_lost],
    [bpf_snaplen_capped], [sample_traced_counts], [bpf_stats_offline_cpu],
    [index_behind_table_closes_first], [stale_index_closes_other],
    [reopened_handle_has_no_maps]).

    ** What is not modelled

    Loading and unloading the module, which is registration with the kernel; the scan of
    the proc file system, which is reading and scanning text files of the kernel, and
    whose result is a parameter of [scap_setup_dump]; what libelf decodes of the program
    file and what the kernel answers to the loader, which are arguments of it; the variants
    of the eBPF driver for kernels without raw tracepoints; udig and the Windows port; and of the C++ libraries
    above libscap all but filters, paths, addresses and the loop that prints flags: the
    extraction of the fields of an event is a parameter of the filters, and so are
    [std::regex], [fnmatch], [inet_pton] and [getservbyname].  Allocation failures of
    libscap are not modelled. *)

From Stdlib Require Import ZArith Lia List Bool.
From stdpp Require Import relations base tactics list numbers option.

Local Open Scope Z_scope.

(** ** Machine integers: a [w]-bit value is a [Z] and every C conversion or
    wrapping operation is written out with one of these. *)

Definition u8 (v : Z) : Z := v mod 2 ^ 8.
Definition u16 (v : Z) : Z := v mod 2 ^ 16.
Definition u32 (v : Z) : Z := v mod 2 ^ 32.
Definition u64 (v : Z) : Z := v mod 2 ^ 64.
Definition s32 (v : Z) : Z := (v + 2 ^ 31) mod 2 ^ 32 - 2 ^ 31.
Definition s64 (v : Z) : Z := (v + 2 ^ 63) mod 2 ^ 64 - 2 ^ 63.

Create HintDb scap discriminated.

Lemma u8_small v : 0 <= v < 256 -> u8 v = v.
Proof. intros; unfold u8; apply Z.mod_small; lia. Qed.
Lemma u16_small v : 0 <= v < 65536 -> u16 v = v.
Proof. intros; unfold u16; apply Z.mod_small; lia. Qed.
Lemma u32_small v : 0 <= v < 4294967296 -> u32 v = v.
Proof. intros; unfold u32; apply Z.mod_small; lia. Qed.
Lemma u64_small v : 0 <= v < 18446744073709551616 -> u64 v = v.
Proof. intros; unfold u64; apply Z.mod_small; lia. Qed.
Lemma s32_small v : -2147483648 <= v < 2147483648 -> s32 v = v.
Proof. intros; unfold s32; rewrite Z.mod_small; lia. Qed.

Lemma u8_range v : 0 <= u8 v < 256.
Proof. apply Z.mod_pos_bound; lia. Qed.
Lemma u16_range v : 0 <= u16 v < 65536.
Proof. apply Z.mod_pos_bound; lia. Qed.
Lemma u32_range v : 0 <= u32 v < 4294967296.
Proof. apply Z.mod_pos_bound; lia. Qed.
Lemma u64_range v : 0 <= u64 v < 18446744073709551616.
Proof. apply Z.mod_pos_bound; lia. Qed.

#[export] Hint Resolve u8_range u16_range u32_range u64_range : scap.

(** A flag test of the C code: [(x & f) != 0]. *)
Definition has_flag (x f : Z) : bool := negb (Z.land x f =? 0).

(** ** Tactics shared by the components. *)

(** Turn every boolean comparison in the context and the goal into a
    proposition that [lia] reads. *)
Ltac bool_to_prop :=
  repeat match goal with
  | H : (_ && _)%bool = true |- _ => apply andb_true_iff in H; destruct H
  | H : (_ || _)%bool = false |- _ => apply orb_false_iff in H; destruct H
  | H : negb _ = true |- _ => apply negb_true_iff in H
  | H : negb _ = false |- _ => apply negb_false_iff in H
  | H : (_ <? _) = true |- _ => apply Z.ltb_lt in H
  | H : (_ <? _) = false |- _ => apply Z.ltb_ge in H
  | H : (_ <=? _) = true |- _ => apply Z.leb_le in H
  | H : (_ <=? _) = false |- _ => apply Z.leb_gt in H
  | H : (_ =? _) = true |- _ => apply Z.eqb_eq in H
  | H : (_ =? _) = false |- _ => apply Z.eqb_neq in H
  end.

(** Case analysis on the first conditional or match scrutinee of the goal. *)
Ltac case_if :=
  match goal with
  | |- context [if ?b then _ else _] => destruct b eqn:?
  | |- context [match ?x with _ => _ end] => destruct x eqn:?
  end.

(** The same in a hypothesis. *)
Ltac case_in H :=
  match type of H with
  | context [if ?b then _ else _] => destruct b eqn:?
  | context [match ?x with _ => _ end] => destruct x eqn:?
  end.

Ltac zsolve := bool_to_prop; simplify_eq; try lia; auto with scap.

(** The capping idiom of the C code is a minimum. *)
Lemma if_ltb_min a b : (if a <? b then a else b) = Z.min b a.
Proof. case_if; lia. Qed.
Lemma if_leb_min a b : (if a <=? b then a else b) = Z.min a b.
Proof. case_if; lia. Qed.

(** ** Lists. *)

Lemma length_Z_app {A} (l k : list A) :
  Z.of_nat (length (l ++ k)) = Z.of_nat (length l) + Z.of_nat (length k).
Proof. rewrite length_app; lia. Qed.

(** Sum of a list of integers. *)
Definition zsum (l : list Z) : Z := foldr Z.add 0 l.

Lemma zsum_app l k : zsum (l ++ k) = zsum l + zsum k.
Proof. induction l as [|x l IH]; simpl; [done|]. unfold zsum in *; simpl; lia. Qed.

Lemma zsum_snoc l x : zsum (l ++ [x]) = zsum l + x.
Proof. rewrite zsum_app; unfold zsum; simpl; lia. Qed.

Lemma zsum_nonneg l : Forall (fun x => 0 <= x) l -> 0 <= zsum l.
Proof. induction 1; unfold zsum in *; simpl; lia. Qed.

(** ** Loops that may not end: a step gives the next state or the result. *)

Fixpoint run {S A : Type} (step : S -> S + A) (fuel : nat) (s : S) : option A :=
  match fuel with
  | O => None
  | Datatypes.S fuel' => match step s with inl s' => run step fuel' s' | inr a => Some a end
  end.

Section run.
Context {S A : Type} (step : S -> S + A).

Lemma run_mono n : forall m s a, run step n s = Some a -> (n <= m)%nat -> run step m s = Some a.
Proof.
  induction n as [|n IH]; intros [|m] s a E Hm; try done; [lia|]. cbn [run] in *.
  destruct (step s); [apply IH; [done|lia]|done].
Qed.

(** A measure that every step decreases, unless it reaches a state from which
    the loop does not end. *)
Context (measure : S -> nat) (stuck : S -> Prop).
Hypothesis stuck_step : forall s, stuck s -> exists s', step s = inl s' /\ stuck s'.
Hypothesis measure_step :
  forall s s', step s = inl s' -> (measure s' < measure s)%nat \/ stuck s.

Lemma stuck_runs n : forall s, stuck s -> run step n s = None.
Proof using stuck_step.
  induction n as [|n IH]; intros s Hs; [done|]. cbn [run].
  destruct (stuck_step s Hs) as (s' & -> & Hs'). by apply IH.
Qed.

(** The loop ends within the measure, or it reaches such a state and never
    does. *)
Lemma run_reaches_stuck n : forall s, (measure s < n)%nat ->
  (exists a, run step n s = Some a) \/
  (exists s', rtc (fun x y => step x = inl y) s s' /\ stuck s' /\ forall m, run step m s = None).
Proof using measure_step stuck_step.
  induction n as [|n IH]; intros s Hs; [lia|]. cbn [run].
  destruct (step s) as [s'|a] eqn:E; [|left; by exists a].
  destruct (measure_step _ _ E) as [Hm|Hst];
    [|right; exists s; split_and!; [apply rtc_refl|done|]; intros m; by apply stuck_runs].
  destruct (IH s' ltac:(lia)) as [?|(x & Hr & Hx & Hn)]; [by left|right].
  exists x. split_and!; [by eapply rtc_l|done|]. intros [|m]; [done|]. cbn [run]. by rewrite E.
Qed.
End run.

Lemma run_ends_inv {S A} (step : S -> S + A) (inv : S -> Prop) (measure : S -> nat) n s :
  (forall s s', inv s -> step s = inl s' -> inv s' /\ (measure s' < measure s)%nat) ->
  inv s -> (measure s < n)%nat -> exists a, run step n s = Some a.
Proof.
  intros Hm. revert s. induction n as [|n IH]; intros s Hi Hs; [lia|]. cbn [run].
  destruct (step s) as [s'|a] eqn:E; [|by exists a]. apply Hm in E as [Hi' ?]; [|done].
  apply IH; [done|lia].
Qed.

Lemma run_ends {S A} (step : S -> S + A) (measure : S -> nat) n s :
  (forall s s', step s = inl s' -> (measure s' < measure s)%nat) -> (measure s < n)%nat ->
  exists a, run step n s = Some a.
Proof. intros Hm. apply (run_ends_inv step (fun _ => True) measure); [|done]. auto. Qed.

(** A result that is reached is the result of enough turns. *)
(** The state in which the loop ends. *)
Lemma run_last {S A} (step : S -> S + A) n : forall s a,
  run step n s = Some a -> exists s', rtc (fun x y => step x = inl y) s s' /\ step s' = inr a.
Proof.
  induction n as [|n IH]; intros s a E; [done|]. cbn [run] in E.
  destruct (step s) as [s1|b] eqn:Es; [|simplify_eq; exists s; split; [apply rtc_refl|done]].
  destruct (IH _ _ E) as (s' & Hr & Hs). exists s'. split; [by eapply rtc_l|done].
Qed.

Lemma run_steps {S A} (step : S -> S + A) s s' a :
  rtc (fun x y => step x = inl y) s s' -> step s' = inr a -> exists n, run step n s = Some a.
Proof.
  intros Hr E. induction Hr as [s|s s1 s' E1 _ IH]; [exists 1%nat; simpl; by rewrite E|].
  destruct (IH E) as [n Hn]. exists (Datatypes.S n). simpl. by rewrite E1.
Qed.

(** The state in which the loop ends has what every step keeps. *)
Lemma run_inv {S A} (step : S -> S + A) (inv : S -> Prop) n : forall s a,
  (forall s s', inv s -> step s = inl s' -> inv s') -> inv s -> run step n s = Some a ->
  exists s', inv s' /\ step s' = inr a.
Proof.
  induction n as [|n IH]; intros s a Hstep Hi E; [done|]. cbn [run] in E.
  destruct (step s) as [s'|b] eqn:Es; [apply (IH s'); eauto|]. exists s. split; [done|congruence].
Qed.

Lemma run_det {S A} (step : S -> S + A) n m s a b :
  run step n s = Some a -> run step m s = Some b -> a = b.
Proof.
  intros Ha Hb. destruct (Nat.le_ge_cases n m) as [H|H].
  - apply (run_mono _ _ _ _ _ Ha) in H. congruence.
  - apply (run_mono _ _ _ _ _ Hb) in H. congruence.
Qed.
