(* ===== verification/Bytes.v ===== *)
(** * Bytes, little-endian words and byte-addressed memory

    The driver and libscap move data by storing a 16, 32 or 64 bit word
    through a cast byte pointer and with [memcpy]; on the supported targets words
    are little endian.  [le_bytes]/[le_val] are those casts, [mem] is a byte
    addressed memory and [mem_write]/[mem_read] are the stores and loads. *)

From Stdlib Require Import ZArith Lia List Bool.
From Stdlib Require Import Strings.Byte.
From Stdlib Require Strings.String.
From stdpp Require Import base tactics list numbers option.
From S2P Require Import Prelude.

Local Open Scope Z_scope.
Abbreviation byte := Byte.byte.

Definition byte_of_Z (v : Z) : byte :=
  default x00 (Byte.of_N (Z.to_N (v mod 256))).
Definition Z_of_byte (b : byte) : Z := Z.of_N (Byte.to_N b).

Lemma Z_of_byte_range b : 0 <= Z_of_byte b < 256.
Proof. unfold Z_of_byte. pose proof (Byte.to_N_bounded b). lia. Qed.

Lemma Z_of_byte_of_Z v : Z_of_byte (byte_of_Z v) = v mod 256.
Proof.
  unfold Z_of_byte, byte_of_Z.
  pose proof (Z.mod_pos_bound v 256 ltac:(lia)).
  destruct (Byte.of_N (Z.to_N (v mod 256))) as [b|] eqn:E; simpl.
  - apply Byte.to_of_N in E. rewrite E. lia.
  - apply Byte.of_N_None_iff in E. lia.
Qed.

Lemma byte_of_Z_of_byte b : byte_of_Z (Z_of_byte b) = b.
Proof.
  unfold byte_of_Z, Z_of_byte.
  pose proof (Byte.to_N_bounded b).
  rewrite Z.mod_small by lia. rewrite N2Z.id, Byte.of_to_N. done.
Qed.

#[export] Hint Resolve Z_of_byte_range : scap.

(** The [n]-byte little-endian image of [v] and its inverse. *)
Fixpoint le_bytes (n : nat) (v : Z) : list byte :=
  match n with
  | O => []
  | S n' => byte_of_Z v :: le_bytes n' (v / 256)
  end.

Fixpoint le_val (bs : list byte) : Z :=
  match bs with
  | [] => 0
  | b :: bs' => Z_of_byte b + 256 * le_val bs'
  end.

Lemma length_le_bytes n v : length (le_bytes n v) = n.
Proof. revert v; induction n; intros; simpl; auto. Qed.

Lemma le_val_bytes n v : le_val (le_bytes n v) = v mod 256 ^ Z.of_nat n.
Proof.
  revert v; induction n as [|n IH]; intros v; simpl.
  - rewrite Z.mod_1_r; done.
  - rewrite IH, Z_of_byte_of_Z.
    replace (256 ^ Z.of_nat (S n)) with (256 * 256 ^ Z.of_nat n)
      by (rewrite Nat2Z.inj_succ, Z.pow_succ_r; lia).
    rewrite Z.rem_mul_r by lia. lia.
Qed.

Lemma le_val_range bs : 0 <= le_val bs < 256 ^ Z.of_nat (length bs).
Proof.
  induction bs as [|b bs IH]; simpl; [lia|].
  replace (256 ^ Z.of_nat (S (length bs))) with (256 * 256 ^ Z.of_nat (length bs))
    by (rewrite Nat2Z.inj_succ, Z.pow_succ_r; lia).
  pose proof (Z_of_byte_range b). lia.
Qed.

Lemma le_bytes_val bs : le_bytes (length bs) (le_val bs) = bs.
Proof.
  induction bs as [|b bs IH]; simpl; [done|].
  pose proof (Z_of_byte_range b).
  replace (Z_of_byte b + 256 * le_val bs) with (Z_of_byte b + le_val bs * 256) by lia.
  f_equal.
  - rewrite <- (byte_of_Z_of_byte b) at 2. unfold byte_of_Z.
    by rewrite Z.mod_add by lia.
  - rewrite Z.div_add, Z.div_small by lia. simpl. done.
Qed.

Lemma le_val_bytes_small n v :
  0 <= v < 256 ^ Z.of_nat n -> le_val (le_bytes n v) = v.
Proof. intros; rewrite le_val_bytes, Z.mod_small; lia. Qed.

(** Words as the code reads and writes them. *)
Definition le16 (v : Z) : list byte := le_bytes 2 v.
Definition le32 (v : Z) : list byte := le_bytes 4 v.
Definition le64 (v : Z) : list byte := le_bytes 8 v.

Lemma le_val_le16 v : le_val (le16 v) = u16 v.
Proof. apply (le_val_bytes 2). Qed.
Lemma le_val_le32 v : le_val (le32 v) = u32 v.
Proof. apply (le_val_bytes 4). Qed.
Lemma le_val_le64 v : le_val (le64 v) = u64 v.
Proof. apply (le_val_bytes 8). Qed.

(** ** Memory. *)

Definition mem := Z -> byte.

Definition mem_zero : mem := fun _ => x00.

Definition mem_write (m : mem) (a : Z) (bs : list byte) : mem :=
  fun x => if (a <=? x) && (x <? a + Z.of_nat (length bs))
           then nth (Z.to_nat (x - a)) bs x00 else m x.

Fixpoint mem_read (m : mem) (a : Z) (n : nat) : list byte :=
  match n with
  | O => []
  | S n' => m a :: mem_read m (a + 1) n'
  end.

(** Two memories with the same contents: the equality the loads respect. *)
Definition mem_eq (m1 m2 : mem) : Prop := forall x, m1 x = m2 x.

#[export] Instance mem_eq_equiv : Equivalence mem_eq.
Proof.
  split; unfold mem_eq; [by intros ?|by intros ?? H x|].
  intros m1 m2 m3 H1 H2 x. by rewrite H1.
Qed.

#[export] Instance mem_write_proper :
  Proper (mem_eq ==> eq ==> eq ==> mem_eq) mem_write.
Proof. intros m1 m2 H a ? <- bs ? <- x. unfold mem_write. by rewrite (H x). Qed.

Lemma mem_read_ext m1 m2 a n :
  (forall x, a <= x < a + Z.of_nat n -> m1 x = m2 x) ->
  mem_read m1 a n = mem_read m2 a n.
Proof.
  revert a; induction n as [|n IH]; intros a H; simpl; [done|].
  rewrite (H a) by lia. f_equal. apply IH. intros; apply H; lia.
Qed.

#[export] Instance mem_read_proper :
  Proper (mem_eq ==> eq ==> eq ==> eq) mem_read.
Proof. intros m1 m2 H a ? <- n ? <-. apply mem_read_ext; intros; apply H. Qed.

Lemma length_mem_read m a n : length (mem_read m a n) = n.
Proof. revert a; induction n; intros; simpl; auto. Qed.

Lemma mem_write_out m a bs x :
  x < a \/ a + Z.of_nat (length bs) <= x -> mem_write m a bs x = m x.
Proof.
  intros H; unfold mem_write.
  destruct (Z.leb_spec a x), (Z.ltb_spec x (a + Z.of_nat (length bs))); simpl; auto; lia.
Qed.

Lemma mem_write_in m a bs x :
  a <= x < a + Z.of_nat (length bs) ->
  mem_write m a bs x = nth (Z.to_nat (x - a)) bs x00.
Proof.
  intros H; unfold mem_write.
  destruct (Z.leb_spec a x), (Z.ltb_spec x (a + Z.of_nat (length bs))); simpl; auto; lia.
Qed.

Lemma mem_write_nil m a : mem_eq (mem_write m a []) m.
Proof. intros x; apply mem_write_out; simpl; lia. Qed.

Lemma mem_read_app m a n k :
  mem_read m a (n + k) = mem_read m a n ++ mem_read m (a + Z.of_nat n) k.
Proof.
  revert a; induction n as [|n IH]; intros a; simpl.
  - f_equal; lia.
  - f_equal. rewrite IH. f_equal. f_equal. lia.
Qed.

Lemma mem_read_write_out m a bs b n :
  b + Z.of_nat n <= a \/ a + Z.of_nat (length bs) <= b ->
  mem_read (mem_write m a bs) b n = mem_read m b n.
Proof. intros; apply mem_read_ext; intros; apply mem_write_out; lia. Qed.

Lemma mem_read_write_same m a bs :
  mem_read (mem_write m a bs) a (length bs) = bs.
Proof.
  revert m a; induction bs as [|b bs IH]; intros m a; simpl; [done|].
  f_equal.
  - rewrite mem_write_in by (simpl; lia). by rewrite Z.sub_diag.
  - etrans; [|apply (IH m (a + 1))].
    apply mem_read_ext; intros x Hx.
    rewrite !mem_write_in by (simpl; lia).
    replace (Z.to_nat (x - a)) with (S (Z.to_nat (x - (a + 1)))) by lia. done.
Qed.

Lemma mem_read_nth m a n i :
  (i < n)%nat -> nth i (mem_read m a n) x00 = m (a + Z.of_nat i).
Proof.
  revert a i; induction n as [|n IH]; intros a i H; [lia|].
  destruct i as [|i]; simpl; [f_equal; lia|].
  rewrite IH by lia. f_equal. lia.
Qed.

(** A sub-range of a range with known content. *)
(** Equal bytes, at possibly different addresses, read the same. *)
Lemma mem_read_shift m m' a a' n :
  (forall o, 0 <= o < Z.of_nat n -> m' (a' + o) = m (a + o)) -> mem_read m' a' n = mem_read m a n.
Proof.
  intros H. apply nth_ext with x00 x00; rewrite !length_mem_read; [done|].
  intros i Hi. rewrite !mem_read_nth by lia. apply H. lia.
Qed.

Lemma mem_read_sub m a n k j l :
  mem_read m a n = l -> (k + j <= n)%nat ->
  mem_read m (a + Z.of_nat k) j = take j (drop k l).
Proof.
  intros H Hn. replace n with (k + (j + (n - k - j)))%nat in H by lia.
  rewrite !mem_read_app in H. subst l.
  rewrite drop_app_length' by (by rewrite length_mem_read).
  by rewrite take_app_length' by (by rewrite length_mem_read).
Qed.

(** Reading back a word that was stored. *)
Lemma mem_read_write_le m a n v k :
  k = n -> mem_read (mem_write m a (le_bytes n v)) a k = le_bytes n v.
Proof.
  intros ->. rewrite <- (length_le_bytes n v) at 2. apply mem_read_write_same.
Qed.

(** Loads of a 16, 32 and 64 bit word. *)
Definition ld16 (m : mem) (a : Z) : Z := le_val (mem_read m a 2).
Definition ld32 (m : mem) (a : Z) : Z := le_val (mem_read m a 4).
Definition ld64 (m : mem) (a : Z) : Z := le_val (mem_read m a 8).

Lemma ld16_range m a : 0 <= ld16 m a < 65536.
Proof. apply (le_val_range (mem_read m a 2)). Qed.

Lemma ld16_write_same m a v : ld16 (mem_write m a (le16 v)) a = u16 v.
Proof. unfold ld16, le16. rewrite mem_read_write_le by done. apply le_val_le16. Qed.

Lemma ld16_write_out m a bs b :
  b + 2 <= a \/ a + Z.of_nat (length bs) <= b ->
  ld16 (mem_write m a bs) b = ld16 m b.
Proof. intros; unfold ld16; rewrite mem_read_write_out; auto. Qed.

(** The bytes of a C string literal. *)
Definition bytes_of_string (s : String.string) : list byte :=
  String.list_byte_of_string s.
