(* ===== verification/EventDefs.v ===== *)
(** * Event, parameter and flag definitions of the driver interface

    The enumerations, limits and records of [driver/ppm_events_public.h] that
    the driver and libscap share: event types, parameter types, event flags,
    syscall flags, filler identifiers and the records of the static tables. *)

From Stdlib Require Import ZArith Lia List Bool.
From Stdlib Require Import Strings.String.
From stdpp Require Import base tactics list numbers option.
From S2P Require Import Prelude.
Import ListNotations.
Local Open Scope string_scope.
Local Open Scope list_scope.
Local Open Scope Z_scope.

(** [enum ppm_param_type]. *)
Inductive ppm_param_type : Set :=
  | PT_NONE | PT_INT8 | PT_INT16 | PT_INT32 | PT_INT64
  | PT_UINT8 | PT_UINT16 | PT_UINT32 | PT_UINT64 | PT_CHARBUF
  | PT_BYTEBUF | PT_ERRNO | PT_SOCKADDR | PT_SOCKTUPLE | PT_FD
  | PT_PID | PT_FDLIST | PT_FSPATH | PT_SYSCALLID | PT_SIGTYPE
  | PT_RELTIME | PT_ABSTIME | PT_PORT | PT_L4PROTO | PT_SOCKFAMILY
  | PT_BOOL | PT_IPV4ADDR | PT_DYN | PT_FLAGS8 | PT_FLAGS16
  | PT_FLAGS32 | PT_UID | PT_GID | PT_DOUBLE | PT_SIGSET
  | PT_CHARBUFARRAY | PT_CHARBUF_PAIR_ARRAY | PT_IPV4NET | PT_IPV6ADDR | PT_IPV6NET
  | PT_IPADDR | PT_IPNET | PT_MODE | PT_FSRELPATH | PT_MAX.

#[export] Instance ppm_param_type_eq_dec : EqDecision ppm_param_type.
Proof. unfold EqDecision, Decision; decide equality. Defined.

(** [enum ppm_print_format]. *)
Inductive ppm_print_format : Set :=
  | PF_NA | PF_DEC | PF_HEX | PF_10_PADDED_DEC | PF_ID
  | PF_DIR | PF_OCT.

(** [enum ppm_event_category]: two enumerators share the value 32. *)
Definition EC_UNKNOWN : Z := 0.
Definition EC_OTHER : Z := 1.
Definition EC_FILE : Z := 2.
Definition EC_NET : Z := 3.
Definition EC_IPC : Z := 4.
Definition EC_MEMORY : Z := 5.
Definition EC_PROCESS : Z := 6.
Definition EC_SLEEP : Z := 7.
Definition EC_SYSTEM : Z := 8.
Definition EC_SIGNAL : Z := 9.
Definition EC_USER : Z := 10.
Definition EC_TIME : Z := 11.
Definition EC_PROCESSING : Z := 12.
Definition EC_IO_BASE : Z := 32.
Definition EC_IO_READ : Z := 32.
Definition EC_IO_WRITE : Z := 33.
Definition EC_IO_OTHER : Z := 34.
Definition EC_WAIT : Z := 64.
Definition EC_SCHEDULER : Z := 128.
Definition EC_INTERNAL : Z := 256.

(** [enum ppm_event_flags]. *)
Definition EF_NONE : Z := 0.
Definition EF_CREATES_FD : Z := 1.
Definition EF_DESTROYS_FD : Z := 2.
Definition EF_USES_FD : Z := 4.
Definition EF_READS_FROM_FD : Z := 8.
Definition EF_WRITES_TO_FD : Z := 16.
Definition EF_MODIFIES_STATE : Z := 32.
Definition EF_UNUSED : Z := 64.
Definition EF_WAITS : Z := 128.
Definition EF_SKIPPARSERESET : Z := 256.
Definition EF_OLD_VERSION : Z := 512.
Definition EF_DROP_SIMPLE_CONS : Z := 1024.
Definition EF_NONE_PARSE : Z := 2048.

(** [enum syscall_flags]. *)
Definition UF_NONE : Z := 0.
Definition UF_USED : Z := 1.
Definition UF_NEVER_DROP : Z := 2.
Definition UF_ALWAYS_DROP : Z := 4.
Definition UF_SIMPLEDRIVER_KEEP : Z := 8.
Definition UF_ATOMIC : Z := 16.

(** [enum ppm_capture_category]. *)
Definition PPMC_NONE : Z := 0.
Definition PPMC_SYSCALL : Z := 1.
Definition PPMC_CONTEXT_SWITCH : Z := 2.
Definition PPMC_SIGNAL : Z := 3.
Definition PPMC_PAGE_FAULT : Z := 4.
Definition PPMC_SKB_CAPTURE : Z := 5.
Definition PPMC_TCP_RCV_ESTABLISHED : Z := 6.
Definition PPMC_TCP_DROP : Z := 7.
Definition PPMC_TCP_RETRANSMIT_SKB : Z := 8.

(** [enum ppm_driver_event_id]. *)
Definition DEI_NONE : Z := 0.
Definition DEI_DISABLE_DROPPING : Z := 1.
Definition DEI_ENABLE_DROPPING : Z := 2.

(** [enum ppm_event_type]: enter events are even, exit events odd. *)
Definition PPME_GENERIC_E : Z := 0.
Definition PPME_GENERIC_X : Z := 1.
Definition PPME_SYSCALL_OPEN_E : Z := 2.
Definition PPME_SYSCALL_OPEN_X : Z := 3.
Definition PPME_SYSCALL_CLOSE_E : Z := 4.
Definition PPME_SYSCALL_CLOSE_X : Z := 5.
Definition PPME_SYSCALL_READ_E : Z := 6.
Definition PPME_SYSCALL_READ_X : Z := 7.
Definition PPME_SYSCALL_WRITE_E : Z := 8.
Definition PPME_SYSCALL_WRITE_X : Z := 9.
Definition PPME_SYSCALL_BRK_1_E : Z := 10.
Definition PPME_SYSCALL_BRK_1_X : Z := 11.
Definition PPME_SYSCALL_EXECVE_8_E : Z := 12.
Definition PPME_SYSCALL_EXECVE_8_X : Z := 13.
Definition PPME_SYSCALL_CLONE_11_E : Z := 14.
Definition PPME_SYSCALL_CLONE_11_X : Z := 15.
Definition PPME_PROCEXIT_E : Z := 16.
Definition PPME_PROCEXIT_X : Z := 17.
Definition PPME_SOCKET_SOCKET_E : Z := 18.
Definition PPME_SOCKET_SOCKET_X : Z := 19.
Definition PPME_SOCKET_BIND_E : Z := 20.
Definition PPME_SOCKET_BIND_X : Z := 21.
Definition PPME_SOCKET_CONNECT_E : Z := 22.
Definition PPME_SOCKET_CONNECT_X : Z := 23.
Definition PPME_SOCKET_LISTEN_E : Z := 24.
Definition PPME_SOCKET_LISTEN_X : Z := 25.
Definition PPME_SOCKET_ACCEPT_E : Z := 26.
Definition PPME_SOCKET_ACCEPT_X : Z := 27.
Definition PPME_SOCKET_SEND_E : Z := 28.
Definition PPME_SOCKET_SEND_X : Z := 29.
Definition PPME_SOCKET_SENDTO_E : Z := 30.
Definition PPME_SOCKET_SENDTO_X : Z := 31.
Definition PPME_SOCKET_RECV_E : Z := 32.
Definition PPME_SOCKET_RECV_X : Z := 33.
Definition PPME_SOCKET_RECVFROM_E : Z := 34.
Definition PPME_SOCKET_RECVFROM_X : Z := 35.
Definition PPME_SOCKET_SHUTDOWN_E : Z := 36.
Definition PPME_SOCKET_SHUTDOWN_X : Z := 37.
Definition PPME_SOCKET_GETSOCKNAME_E : Z := 38.
Definition PPME_SOCKET_GETSOCKNAME_X : Z := 39.
Definition PPME_SOCKET_GETPEERNAME_E : Z := 40.
Definition PPME_SOCKET_GETPEERNAME_X : Z := 41.
Definition PPME_SOCKET_SOCKETPAIR_E : Z := 42.
Definition PPME_SOCKET_SOCKETPAIR_X : Z := 43.
Definition PPME_SOCKET_SETSOCKOPT_E : Z := 44.
Definition PPME_SOCKET_SETSOCKOPT_X : Z := 45.
Definition PPME_SOCKET_GETSOCKOPT_E : Z := 46.
Definition PPME_SOCKET_GETSOCKOPT_X : Z := 47.
Definition PPME_SOCKET_SENDMSG_E : Z := 48.
Definition PPME_SOCKET_SENDMSG_X : Z := 49.
Definition PPME_SOCKET_SENDMMSG_E : Z := 50.
Definition PPME_SOCKET_SENDMMSG_X : Z := 51.
Definition PPME_SOCKET_RECVMSG_E : Z := 52.
Definition PPME_SOCKET_RECVMSG_X : Z := 53.
Definition PPME_SOCKET_RECVMMSG_E : Z := 54.
Definition PPME_SOCKET_RECVMMSG_X : Z := 55.
Definition PPME_SOCKET_ACCEPT4_E : Z := 56.
Definition PPME_SOCKET_ACCEPT4_X : Z := 57.
Definition PPME_SYSCALL_CREAT_E : Z := 58.
Definition PPME_SYSCALL_CREAT_X : Z := 59.
Definition PPME_SYSCALL_PIPE_E : Z := 60.
Definition PPME_SYSCALL_PIPE_X : Z := 61.
Definition PPME_SYSCALL_EVENTFD_E : Z := 62.
Definition PPME_SYSCALL_EVENTFD_X : Z := 63.
Definition PPME_SYSCALL_FUTEX_E : Z := 64.
Definition PPME_SYSCALL_FUTEX_X : Z := 65.
Definition PPME_SYSCALL_STAT_E : Z := 66.
Definition PPME_SYSCALL_STAT_X : Z := 67.
Definition PPME_SYSCALL_LSTAT_E : Z := 68.
Definition PPME_SYSCALL_LSTAT_X : Z := 69.
Definition PPME_SYSCALL_FSTAT_E : Z := 70.
Definition PPME_SYSCALL_FSTAT_X : Z := 71.
Definition PPME_SYSCALL_STAT64_E : Z := 72.
Definition PPME_SYSCALL_STAT64_X : Z := 73.
Definition PPME_SYSCALL_LSTAT64_E : Z := 74.
Definition PPME_SYSCALL_LSTAT64_X : Z := 75.
Definition PPME_SYSCALL_FSTAT64_E : Z := 76.
Definition PPME_SYSCALL_FSTAT64_X : Z := 77.
Definition PPME_SYSCALL_EPOLLWAIT_E : Z := 78.
Definition PPME_SYSCALL_EPOLLWAIT_X : Z := 79.
Definition PPME_SYSCALL_POLL_E : Z := 80.
Definition PPME_SYSCALL_POLL_X : Z := 81.
Definition PPME_SYSCALL_SELECT_E : Z := 82.
Definition PPME_SYSCALL_SELECT_X : Z := 83.
Definition PPME_SYSCALL_NEWSELECT_E : Z := 84.
Definition PPME_SYSCALL_NEWSELECT_X : Z := 85.
Definition PPME_SYSCALL_LSEEK_E : Z := 86.
Definition PPME_SYSCALL_LSEEK_X : Z := 87.
Definition PPME_SYSCALL_LLSEEK_E : Z := 88.
Definition PPME_SYSCALL_LLSEEK_X : Z := 89.
Definition PPME_SYSCALL_IOCTL_2_E : Z := 90.
Definition PPME_SYSCALL_IOCTL_2_X : Z := 91.
Definition PPME_SYSCALL_GETCWD_E : Z := 92.
Definition PPME_SYSCALL_GETCWD_X : Z := 93.
Definition PPME_SYSCALL_CHDIR_E : Z := 94.
Definition PPME_SYSCALL_CHDIR_X : Z := 95.
Definition PPME_SYSCALL_FCHDIR_E : Z := 96.
Definition PPME_SYSCALL_FCHDIR_X : Z := 97.
Definition PPME_SYSCALL_MKDIR_E : Z := 98.
Definition PPME_SYSCALL_MKDIR_X : Z := 99.
Definition PPME_SYSCALL_RMDIR_E : Z := 100.
Definition PPME_SYSCALL_RMDIR_X : Z := 101.
Definition PPME_SYSCALL_OPENAT_E : Z := 102.
Definition PPME_SYSCALL_OPENAT_X : Z := 103.
Definition PPME_SYSCALL_LINK_E : Z := 104.
Definition PPME_SYSCALL_LINK_X : Z := 105.
Definition PPME_SYSCALL_LINKAT_E : Z := 106.
Definition PPME_SYSCALL_LINKAT_X : Z := 107.
Definition PPME_SYSCALL_UNLINK_E : Z := 108.
Definition PPME_SYSCALL_UNLINK_X : Z := 109.
Definition PPME_SYSCALL_UNLINKAT_E : Z := 110.
Definition PPME_SYSCALL_UNLINKAT_X : Z := 111.
Definition PPME_SYSCALL_PREAD_E : Z := 112.
Definition PPME_SYSCALL_PREAD_X : Z := 113.
Definition PPME_SYSCALL_PWRITE_E : Z := 114.
Definition PPME_SYSCALL_PWRITE_X : Z := 115.
Definition PPME_SYSCALL_READV_E : Z := 116.
Definition PPME_SYSCALL_READV_X : Z := 117.
Definition PPME_SYSCALL_WRITEV_E : Z := 118.
Definition PPME_SYSCALL_WRITEV_X : Z := 119.
Definition PPME_SYSCALL_PREADV_E : Z := 120.
Definition PPME_SYSCALL_PREADV_X : Z := 121.
Definition PPME_SYSCALL_PWRITEV_E : Z := 122.
Definition PPME_SYSCALL_PWRITEV_X : Z := 123.
Definition PPME_SYSCALL_DUP_E : Z := 124.
Definition PPME_SYSCALL_DUP_X : Z := 125.
Definition PPME_SYSCALL_SIGNALFD_E : Z := 126.
Definition PPME_SYSCALL_SIGNALFD_X : Z := 127.
Definition PPME_SYSCALL_KILL_E : Z := 128.
Definition PPME_SYSCALL_KILL_X : Z := 129.
Definition PPME_SYSCALL_TKILL_E : Z := 130.
Definition PPME_SYSCALL_TKILL_X : Z := 131.
Definition PPME_SYSCALL_TGKILL_E : Z := 132.
Definition PPME_SYSCALL_TGKILL_X : Z := 133.
Definition PPME_SYSCALL_NANOSLEEP_E : Z := 134.
Definition PPME_SYSCALL_NANOSLEEP_X : Z := 135.
Definition PPME_SYSCALL_TIMERFD_CREATE_E : Z := 136.
Definition PPME_SYSCALL_TIMERFD_CREATE_X : Z := 137.
Definition PPME_SYSCALL_INOTIFY_INIT_E : Z := 138.
Definition PPME_SYSCALL_INOTIFY_INIT_X : Z := 139.
Definition PPME_SYSCALL_GETRLIMIT_E : Z := 140.
Definition PPME_SYSCALL_GETRLIMIT_X : Z := 141.
Definition PPME_SYSCALL_SETRLIMIT_E : Z := 142.
Definition PPME_SYSCALL_SETRLIMIT_X : Z := 143.
Definition PPME_SYSCALL_PRLIMIT_E : Z := 144.
Definition PPME_SYSCALL_PRLIMIT_X : Z := 145.
Definition PPME_SCHEDSWITCH_1_E : Z := 146.
Definition PPME_SCHEDSWITCH_1_X : Z := 147.
Definition PPME_DROP_E : Z := 148.
Definition PPME_DROP_X : Z := 149.
Definition PPME_SYSCALL_FCNTL_E : Z := 150.
Definition PPME_SYSCALL_FCNTL_X : Z := 151.
Definition PPME_SCHEDSWITCH_6_E : Z := 152.
Definition PPME_SCHEDSWITCH_6_X : Z := 153.
Definition PPME_SYSCALL_EXECVE_13_E : Z := 154.
Definition PPME_SYSCALL_EXECVE_13_X : Z := 155.
Definition PPME_SYSCALL_CLONE_16_E : Z := 156.
Definition PPME_SYSCALL_CLONE_16_X : Z := 157.
Definition PPME_SYSCALL_BRK_4_E : Z := 158.
Definition PPME_SYSCALL_BRK_4_X : Z := 159.
Definition PPME_SYSCALL_MMAP_E : Z := 160.
Definition PPME_SYSCALL_MMAP_X : Z := 161.
Definition PPME_SYSCALL_MMAP2_E : Z := 162.
Definition PPME_SYSCALL_MMAP2_X : Z := 163.
Definition PPME_SYSCALL_MUNMAP_E : Z := 164.
Definition PPME_SYSCALL_MUNMAP_X : Z := 165.
Definition PPME_SYSCALL_SPLICE_E : Z := 166.
Definition PPME_SYSCALL_SPLICE_X : Z := 167.
Definition PPME_SYSCALL_PTRACE_E : Z := 168.
Definition PPME_SYSCALL_PTRACE_X : Z := 169.
Definition PPME_SYSCALL_IOCTL_3_E : Z := 170.
Definition PPME_SYSCALL_IOCTL_3_X : Z := 171.
Definition PPME_SYSCALL_EXECVE_14_E : Z := 172.
Definition PPME_SYSCALL_EXECVE_14_X : Z := 173.
Definition PPME_SYSCALL_RENAME_E : Z := 174.
Definition PPME_SYSCALL_RENAME_X : Z := 175.
Definition PPME_SYSCALL_RENAMEAT_E : Z := 176.
Definition PPME_SYSCALL_RENAMEAT_X : Z := 177.
Definition PPME_SYSCALL_SYMLINK_E : Z := 178.
Definition PPME_SYSCALL_SYMLINK_X : Z := 179.
Definition PPME_SYSCALL_SYMLINKAT_E : Z := 180.
Definition PPME_SYSCALL_SYMLINKAT_X : Z := 181.
Definition PPME_SYSCALL_FORK_E : Z := 182.
Definition PPME_SYSCALL_FORK_X : Z := 183.
Definition PPME_SYSCALL_VFORK_E : Z := 184.
Definition PPME_SYSCALL_VFORK_X : Z := 185.
Definition PPME_PROCEXIT_1_E : Z := 186.
Definition PPME_PROCEXIT_1_X : Z := 187.
Definition PPME_SYSCALL_SENDFILE_E : Z := 188.
Definition PPME_SYSCALL_SENDFILE_X : Z := 189.
Definition PPME_SYSCALL_QUOTACTL_E : Z := 190.
Definition PPME_SYSCALL_QUOTACTL_X : Z := 191.
Definition PPME_SYSCALL_SETRESUID_E : Z := 192.
Definition PPME_SYSCALL_SETRESUID_X : Z := 193.
Definition PPME_SYSCALL_SETRESGID_E : Z := 194.
Definition PPME_SYSCALL_SETRESGID_X : Z := 195.
Definition PPME_SYSDIGEVENT_E : Z := 196.
Definition PPME_SYSDIGEVENT_X : Z := 197.
Definition PPME_SYSCALL_SETUID_E : Z := 198.
Definition PPME_SYSCALL_SETUID_X : Z := 199.
Definition PPME_SYSCALL_SETGID_E : Z := 200.
Definition PPME_SYSCALL_SETGID_X : Z := 201.
Definition PPME_SYSCALL_GETUID_E : Z := 202.
Definition PPME_SYSCALL_GETUID_X : Z := 203.
Definition PPME_SYSCALL_GETEUID_E : Z := 204.
Definition PPME_SYSCALL_GETEUID_X : Z := 205.
Definition PPME_SYSCALL_GETGID_E : Z := 206.
Definition PPME_SYSCALL_GETGID_X : Z := 207.
Definition PPME_SYSCALL_GETEGID_E : Z := 208.
Definition PPME_SYSCALL_GETEGID_X : Z := 209.
Definition PPME_SYSCALL_GETRESUID_E : Z := 210.
Definition PPME_SYSCALL_GETRESUID_X : Z := 211.
Definition PPME_SYSCALL_GETRESGID_E : Z := 212.
Definition PPME_SYSCALL_GETRESGID_X : Z := 213.
Definition PPME_SYSCALL_EXECVE_15_E : Z := 214.
Definition PPME_SYSCALL_EXECVE_15_X : Z := 215.
Definition PPME_SYSCALL_CLONE_17_E : Z := 216.
Definition PPME_SYSCALL_CLONE_17_X : Z := 217.
Definition PPME_SYSCALL_FORK_17_E : Z := 218.
Definition PPME_SYSCALL_FORK_17_X : Z := 219.
Definition PPME_SYSCALL_VFORK_17_E : Z := 220.
Definition PPME_SYSCALL_VFORK_17_X : Z := 221.
Definition PPME_SYSCALL_CLONE_20_E : Z := 222.
Definition PPME_SYSCALL_CLONE_20_X : Z := 223.
Definition PPME_SYSCALL_FORK_20_E : Z := 224.
Definition PPME_SYSCALL_FORK_20_X : Z := 225.
Definition PPME_SYSCALL_VFORK_20_E : Z := 226.
Definition PPME_SYSCALL_VFORK_20_X : Z := 227.
Definition PPME_CONTAINER_E : Z := 228.
Definition PPME_CONTAINER_X : Z := 229.
Definition PPME_SYSCALL_EXECVE_16_E : Z := 230.
Definition PPME_SYSCALL_EXECVE_16_X : Z := 231.
Definition PPME_SIGNALDELIVER_E : Z := 232.
Definition PPME_SIGNALDELIVER_X : Z := 233.
Definition PPME_PROCINFO_E : Z := 234.
Definition PPME_PROCINFO_X : Z := 235.
Definition PPME_SYSCALL_GETDENTS_E : Z := 236.
Definition PPME_SYSCALL_GETDENTS_X : Z := 237.
Definition PPME_SYSCALL_GETDENTS64_E : Z := 238.
Definition PPME_SYSCALL_GETDENTS64_X : Z := 239.
Definition PPME_SYSCALL_SETNS_E : Z := 240.
Definition PPME_SYSCALL_SETNS_X : Z := 241.
Definition PPME_SYSCALL_FLOCK_E : Z := 242.
Definition PPME_SYSCALL_FLOCK_X : Z := 243.
Definition PPME_CPU_HOTPLUG_E : Z := 244.
Definition PPME_CPU_HOTPLUG_X : Z := 245.
Definition PPME_SOCKET_ACCEPT_5_E : Z := 246.
Definition PPME_SOCKET_ACCEPT_5_X : Z := 247.
Definition PPME_SOCKET_ACCEPT4_5_E : Z := 248.
Definition PPME_SOCKET_ACCEPT4_5_X : Z := 249.
Definition PPME_SYSCALL_SEMOP_E : Z := 250.
Definition PPME_SYSCALL_SEMOP_X : Z := 251.
Definition PPME_SYSCALL_SEMCTL_E : Z := 252.
Definition PPME_SYSCALL_SEMCTL_X : Z := 253.
Definition PPME_SYSCALL_PPOLL_E : Z := 254.
Definition PPME_SYSCALL_PPOLL_X : Z := 255.
Definition PPME_SYSCALL_MOUNT_E : Z := 256.
Definition PPME_SYSCALL_MOUNT_X : Z := 257.
Definition PPME_SYSCALL_UMOUNT_E : Z := 258.
Definition PPME_SYSCALL_UMOUNT_X : Z := 259.
Definition PPME_K8S_E : Z := 260.
Definition PPME_K8S_X : Z := 261.
Definition PPME_SYSCALL_SEMGET_E : Z := 262.
Definition PPME_SYSCALL_SEMGET_X : Z := 263.
Definition PPME_SYSCALL_ACCESS_E : Z := 264.
Definition PPME_SYSCALL_ACCESS_X : Z := 265.
Definition PPME_SYSCALL_CHROOT_E : Z := 266.
Definition PPME_SYSCALL_CHROOT_X : Z := 267.
Definition PPME_TRACER_E : Z := 268.
Definition PPME_TRACER_X : Z := 269.
Definition PPME_MESOS_E : Z := 270.
Definition PPME_MESOS_X : Z := 271.
Definition PPME_CONTAINER_JSON_E : Z := 272.
Definition PPME_CONTAINER_JSON_X : Z := 273.
Definition PPME_SYSCALL_SETSID_E : Z := 274.
Definition PPME_SYSCALL_SETSID_X : Z := 275.
Definition PPME_SYSCALL_MKDIR_2_E : Z := 276.
Definition PPME_SYSCALL_MKDIR_2_X : Z := 277.
Definition PPME_SYSCALL_RMDIR_2_E : Z := 278.
Definition PPME_SYSCALL_RMDIR_2_X : Z := 279.
Definition PPME_NOTIFICATION_E : Z := 280.
Definition PPME_NOTIFICATION_X : Z := 281.
Definition PPME_SYSCALL_EXECVE_17_E : Z := 282.
Definition PPME_SYSCALL_EXECVE_17_X : Z := 283.
Definition PPME_SYSCALL_UNSHARE_E : Z := 284.
Definition PPME_SYSCALL_UNSHARE_X : Z := 285.
Definition PPME_INFRASTRUCTURE_EVENT_E : Z := 286.
Definition PPME_INFRASTRUCTURE_EVENT_X : Z := 287.
Definition PPME_SYSCALL_EXECVE_18_E : Z := 288.
Definition PPME_SYSCALL_EXECVE_18_X : Z := 289.
Definition PPME_PAGE_FAULT_E : Z := 290.
Definition PPME_PAGE_FAULT_X : Z := 291.
Definition PPME_SYSCALL_EXECVE_19_E : Z := 292.
Definition PPME_SYSCALL_EXECVE_19_X : Z := 293.
Definition PPME_SYSCALL_SETPGID_E : Z := 294.
Definition PPME_SYSCALL_SETPGID_X : Z := 295.
Definition PPME_SYSCALL_BPF_E : Z := 296.
Definition PPME_SYSCALL_BPF_X : Z := 297.
Definition PPME_SYSCALL_SECCOMP_E : Z := 298.
Definition PPME_SYSCALL_SECCOMP_X : Z := 299.
Definition PPME_SYSCALL_UNLINK_2_E : Z := 300.
Definition PPME_SYSCALL_UNLINK_2_X : Z := 301.
Definition PPME_SYSCALL_UNLINKAT_2_E : Z := 302.
Definition PPME_SYSCALL_UNLINKAT_2_X : Z := 303.
Definition PPME_SYSCALL_MKDIRAT_E : Z := 304.
Definition PPME_SYSCALL_MKDIRAT_X : Z := 305.
Definition PPME_SYSCALL_OPENAT_2_E : Z := 306.
Definition PPME_SYSCALL_OPENAT_2_X : Z := 307.
Definition PPME_SYSCALL_LINK_2_E : Z := 308.
Definition PPME_SYSCALL_LINK_2_X : Z := 309.
Definition PPME_SYSCALL_LINKAT_2_E : Z := 310.
Definition PPME_SYSCALL_LINKAT_2_X : Z := 311.
Definition PPME_SYSCALL_FCHMODAT_E : Z := 312.
Definition PPME_SYSCALL_FCHMODAT_X : Z := 313.
Definition PPME_SYSCALL_CHMOD_E : Z := 314.
Definition PPME_SYSCALL_CHMOD_X : Z := 315.
Definition PPME_SYSCALL_FCHMOD_E : Z := 316.
Definition PPME_SYSCALL_FCHMOD_X : Z := 317.
Definition PPME_SYSCALL_RENAMEAT2_E : Z := 318.
Definition PPME_SYSCALL_RENAMEAT2_X : Z := 319.
Definition PPME_SYSCALL_USERFAULTFD_E : Z := 320.
Definition PPME_SYSCALL_USERFAULTFD_X : Z := 321.
Definition PPME_NETIF_RECEIVE_SKB_E : Z := 322.
Definition PPME_NETIF_RECEIVE_SKB_X : Z := 323.
Definition PPME_NET_DEV_XMIT_E : Z := 324.
Definition PPME_NET_DEV_START_XMIT_X : Z := 325.
Definition PPME_TCP_RCV_ESTABLISHED_E : Z := 326.
Definition PPME_TCP_RCV_ESTABLISHED_x : Z := 327.
Definition PPME_TCP_CLOSE_E : Z := 328.
Definition PPME_TCP_CLOSE_X : Z := 329.
Definition PPME_TCP_DROP_E : Z := 330.
Definition PPME_TCP_DROP_X : Z := 331.
Definition PPME_TCP_RETRANCESMIT_SKB_E : Z := 332.
Definition PPME_TCP_RETRANCESMIT_SKB_X : Z := 333.
Definition PPME_TCP_CONNECT_E : Z := 334.
Definition PPME_TCP_CONNECT_X : Z := 335.
Definition PPME_TCP_SET_STATE_E : Z := 336.
Definition PPME_TCP_SET_STATE_X : Z := 337.
Definition PPME_TCP_RECEIVE_RESET_E : Z := 338.
Definition PPME_TCP_RECEIVE_RESET_X : Z := 339.
Definition PPME_TCP_SEND_RESET_E : Z := 340.
Definition PPME_TCP_SEND_RESET_X : Z := 341.
Definition PPME_CPU_ANALYSIS_E : Z := 342.
Definition PPME_CPU_ANALYSIS_X : Z := 343.
Definition PPM_EVENT_MAX : Z := 344.

(** [enum ppm_syscall_code]. *)
Definition PPM_SC_UNKNOWN : Z := 0.
Definition PPM_SC_RESTART_SYSCALL : Z := 1.
Definition PPM_SC_EXIT : Z := 2.
Definition PPM_SC_READ : Z := 3.
Definition PPM_SC_WRITE : Z := 4.
Definition PPM_SC_OPEN : Z := 5.
Definition PPM_SC_CLOSE : Z := 6.
Definition PPM_SC_CREAT : Z := 7.
Definition PPM_SC_LINK : Z := 8.
Definition PPM_SC_UNLINK : Z := 9.
Definition PPM_SC_CHDIR : Z := 10.
Definition PPM_SC_TIME : Z := 11.
Definition PPM_SC_MKNOD : Z := 12.
Definition PPM_SC_CHMOD : Z := 13.
Definition PPM_SC_STAT : Z := 14.
Definition PPM_SC_LSEEK : Z := 15.
Definition PPM_SC_GETPID : Z := 16.
Definition PPM_SC_MOUNT : Z := 17.
Definition PPM_SC_PTRACE : Z := 18.
Definition PPM_SC_ALARM : Z := 19.
Definition PPM_SC_FSTAT : Z := 20.
Definition PPM_SC_PAUSE : Z := 21.
Definition PPM_SC_UTIME : Z := 22.
Definition PPM_SC_ACCESS : Z := 23.
Definition PPM_SC_SYNC : Z := 24.
Definition PPM_SC_KILL : Z := 25.
Definition PPM_SC_RENAME : Z := 26.
Definition PPM_SC_MKDIR : Z := 27.
Definition PPM_SC_RMDIR : Z := 28.
Definition PPM_SC_DUP : Z := 29.
Definition PPM_SC_PIPE : Z := 30.
Definition PPM_SC_TIMES : Z := 31.
Definition PPM_SC_BRK : Z := 32.
Definition PPM_SC_ACCT : Z := 33.
Definition PPM_SC_IOCTL : Z := 34.
Definition PPM_SC_FCNTL : Z := 35.
Definition PPM_SC_SETPGID : Z := 36.
Definition PPM_SC_UMASK : Z := 37.
Definition PPM_SC_CHROOT : Z := 38.
Definition PPM_SC_USTAT : Z := 39.
Definition PPM_SC_DUP2 : Z := 40.
Definition PPM_SC_GETPPID : Z := 41.
Definition PPM_SC_GETPGRP : Z := 42.
Definition PPM_SC_SETSID : Z := 43.
Definition PPM_SC_SETHOSTNAME : Z := 44.
Definition PPM_SC_SETRLIMIT : Z := 45.
Definition PPM_SC_GETRUSAGE : Z := 46.
Definition PPM_SC_GETTIMEOFDAY : Z := 47.
Definition PPM_SC_SETTIMEOFDAY : Z := 48.
Definition PPM_SC_SYMLINK : Z := 49.
Definition PPM_SC_LSTAT : Z := 50.
Definition PPM_SC_READLINK : Z := 51.
Definition PPM_SC_USELIB : Z := 52.
Definition PPM_SC_SWAPON : Z := 53.
Definition PPM_SC_REBOOT : Z := 54.
Definition PPM_SC_MMAP : Z := 55.
Definition PPM_SC_MUNMAP : Z := 56.
Definition PPM_SC_TRUNCATE : Z := 57.
Definition PPM_SC_FTRUNCATE : Z := 58.
Definition PPM_SC_FCHMOD : Z := 59.
Definition PPM_SC_GETPRIORITY : Z := 60.
Definition PPM_SC_SETPRIORITY : Z := 61.
Definition PPM_SC_STATFS : Z := 62.
Definition PPM_SC_FSTATFS : Z := 63.
Definition PPM_SC_SYSLOG : Z := 64.
Definition PPM_SC_SETITIMER : Z := 65.
Definition PPM_SC_GETITIMER : Z := 66.
Definition PPM_SC_UNAME : Z := 67.
Definition PPM_SC_VHANGUP : Z := 68.
Definition PPM_SC_WAIT4 : Z := 69.
Definition PPM_SC_SWAPOFF : Z := 70.
Definition PPM_SC_SYSINFO : Z := 71.
Definition PPM_SC_FSYNC : Z := 72.
Definition PPM_SC_SETDOMAINNAME : Z := 73.
Definition PPM_SC_ADJTIMEX : Z := 74.
Definition PPM_SC_MPROTECT : Z := 75.
Definition PPM_SC_INIT_MODULE : Z := 76.
Definition PPM_SC_DELETE_MODULE : Z := 77.
Definition PPM_SC_QUOTACTL : Z := 78.
Definition PPM_SC_GETPGID : Z := 79.
Definition PPM_SC_FCHDIR : Z := 80.
Definition PPM_SC_SYSFS : Z := 81.
Definition PPM_SC_PERSONALITY : Z := 82.
Definition PPM_SC_GETDENTS : Z := 83.
Definition PPM_SC_SELECT : Z := 84.
Definition PPM_SC_FLOCK : Z := 85.
Definition PPM_SC_MSYNC : Z := 86.
Definition PPM_SC_READV : Z := 87.
Definition PPM_SC_WRITEV : Z := 88.
Definition PPM_SC_GETSID : Z := 89.
Definition PPM_SC_FDATASYNC : Z := 90.
Definition PPM_SC_MLOCK : Z := 91.
Definition PPM_SC_MUNLOCK : Z := 92.
Definition PPM_SC_MLOCKALL : Z := 93.
Definition PPM_SC_MUNLOCKALL : Z := 94.
Definition PPM_SC_SCHED_SETPARAM : Z := 95.
Definition PPM_SC_SCHED_GETPARAM : Z := 96.
Definition PPM_SC_SCHED_SETSCHEDULER : Z := 97.
Definition PPM_SC_SCHED_GETSCHEDULER : Z := 98.
Definition PPM_SC_SCHED_YIELD : Z := 99.
Definition PPM_SC_SCHED_GET_PRIORITY_MAX : Z := 100.
Definition PPM_SC_SCHED_GET_PRIORITY_MIN : Z := 101.
Definition PPM_SC_SCHED_RR_GET_INTERVAL : Z := 102.
Definition PPM_SC_NANOSLEEP : Z := 103.
Definition PPM_SC_MREMAP : Z := 104.
Definition PPM_SC_POLL : Z := 105.
Definition PPM_SC_PRCTL : Z := 106.
Definition PPM_SC_RT_SIGACTION : Z := 107.
Definition PPM_SC_RT_SIGPROCMASK : Z := 108.
Definition PPM_SC_RT_SIGPENDING : Z := 109.
Definition PPM_SC_RT_SIGTIMEDWAIT : Z := 110.
Definition PPM_SC_RT_SIGQUEUEINFO : Z := 111.
Definition PPM_SC_RT_SIGSUSPEND : Z := 112.
Definition PPM_SC_GETCWD : Z := 113.
Definition PPM_SC_CAPGET : Z := 114.
Definition PPM_SC_CAPSET : Z := 115.
Definition PPM_SC_SENDFILE : Z := 116.
Definition PPM_SC_GETRLIMIT : Z := 117.
Definition PPM_SC_LCHOWN : Z := 118.
Definition PPM_SC_GETUID : Z := 119.
Definition PPM_SC_GETGID : Z := 120.
Definition PPM_SC_GETEUID : Z := 121.
Definition PPM_SC_GETEGID : Z := 122.
Definition PPM_SC_SETREUID : Z := 123.
Definition PPM_SC_SETREGID : Z := 124.
Definition PPM_SC_GETGROUPS : Z := 125.
Definition PPM_SC_SETGROUPS : Z := 126.
Definition PPM_SC_FCHOWN : Z := 127.
Definition PPM_SC_SETRESUID : Z := 128.
Definition PPM_SC_GETRESUID : Z := 129.
Definition PPM_SC_SETRESGID : Z := 130.
Definition PPM_SC_GETRESGID : Z := 131.
Definition PPM_SC_CHOWN : Z := 132.
Definition PPM_SC_SETUID : Z := 133.
Definition PPM_SC_SETGID : Z := 134.
Definition PPM_SC_SETFSUID : Z := 135.
Definition PPM_SC_SETFSGID : Z := 136.
Definition PPM_SC_PIVOT_ROOT : Z := 137.
Definition PPM_SC_MINCORE : Z := 138.
Definition PPM_SC_MADVISE : Z := 139.
Definition PPM_SC_GETTID : Z := 140.
Definition PPM_SC_SETXATTR : Z := 141.
Definition PPM_SC_LSETXATTR : Z := 142.
Definition PPM_SC_FSETXATTR : Z := 143.
Definition PPM_SC_GETXATTR : Z := 144.
Definition PPM_SC_LGETXATTR : Z := 145.
Definition PPM_SC_FGETXATTR : Z := 146.
Definition PPM_SC_LISTXATTR : Z := 147.
Definition PPM_SC_LLISTXATTR : Z := 148.
Definition PPM_SC_FLISTXATTR : Z := 149.
Definition PPM_SC_REMOVEXATTR : Z := 150.
Definition PPM_SC_LREMOVEXATTR : Z := 151.
Definition PPM_SC_FREMOVEXATTR : Z := 152.
Definition PPM_SC_TKILL : Z := 153.
Definition PPM_SC_FUTEX : Z := 154.
Definition PPM_SC_SCHED_SETAFFINITY : Z := 155.
Definition PPM_SC_SCHED_GETAFFINITY : Z := 156.
Definition PPM_SC_SET_THREAD_AREA : Z := 157.
Definition PPM_SC_GET_THREAD_AREA : Z := 158.
Definition PPM_SC_IO_SETUP : Z := 159.
Definition PPM_SC_IO_DESTROY : Z := 160.
Definition PPM_SC_IO_GETEVENTS : Z := 161.
Definition PPM_SC_IO_SUBMIT : Z := 162.
Definition PPM_SC_IO_CANCEL : Z := 163.
Definition PPM_SC_EXIT_GROUP : Z := 164.
Definition PPM_SC_EPOLL_CREATE : Z := 165.
Definition PPM_SC_EPOLL_CTL : Z := 166.
Definition PPM_SC_EPOLL_WAIT : Z := 167.
Definition PPM_SC_REMAP_FILE_PAGES : Z := 168.
Definition PPM_SC_SET_TID_ADDRESS : Z := 169.
Definition PPM_SC_TIMER_CREATE : Z := 170.
Definition PPM_SC_TIMER_SETTIME : Z := 171.
Definition PPM_SC_TIMER_GETTIME : Z := 172.
Definition PPM_SC_TIMER_GETOVERRUN : Z := 173.
Definition PPM_SC_TIMER_DELETE : Z := 174.
Definition PPM_SC_CLOCK_SETTIME : Z := 175.
Definition PPM_SC_CLOCK_GETTIME : Z := 176.
Definition PPM_SC_CLOCK_GETRES : Z := 177.
Definition PPM_SC_CLOCK_NANOSLEEP : Z := 178.
Definition PPM_SC_TGKILL : Z := 179.
Definition PPM_SC_UTIMES : Z := 180.
Definition PPM_SC_MQ_OPEN : Z := 181.
Definition PPM_SC_MQ_UNLINK : Z := 182.
Definition PPM_SC_MQ_TIMEDSEND : Z := 183.
Definition PPM_SC_MQ_TIMEDRECEIVE : Z := 184.
Definition PPM_SC_MQ_NOTIFY : Z := 185.
Definition PPM_SC_MQ_GETSETATTR : Z := 186.
Definition PPM_SC_KEXEC_LOAD : Z := 187.
Definition PPM_SC_WAITID : Z := 188.
Definition PPM_SC_ADD_KEY : Z := 189.
Definition PPM_SC_REQUEST_KEY : Z := 190.
Definition PPM_SC_KEYCTL : Z := 191.
Definition PPM_SC_IOPRIO_SET : Z := 192.
Definition PPM_SC_IOPRIO_GET : Z := 193.
Definition PPM_SC_INOTIFY_INIT : Z := 194.
Definition PPM_SC_INOTIFY_ADD_WATCH : Z := 195.
Definition PPM_SC_INOTIFY_RM_WATCH : Z := 196.
Definition PPM_SC_OPENAT : Z := 197.
Definition PPM_SC_MKDIRAT : Z := 198.
Definition PPM_SC_MKNODAT : Z := 199.
Definition PPM_SC_FCHOWNAT : Z := 200.
Definition PPM_SC_FUTIMESAT : Z := 201.
Definition PPM_SC_UNLINKAT : Z := 202.
Definition PPM_SC_RENAMEAT : Z := 203.
Definition PPM_SC_LINKAT : Z := 204.
Definition PPM_SC_SYMLINKAT : Z := 205.
Definition PPM_SC_READLINKAT : Z := 206.
Definition PPM_SC_FCHMODAT : Z := 207.
Definition PPM_SC_FACCESSAT : Z := 208.
Definition PPM_SC_PSELECT6 : Z := 209.
Definition PPM_SC_PPOLL : Z := 210.
Definition PPM_SC_UNSHARE : Z := 211.
Definition PPM_SC_SET_ROBUST_LIST : Z := 212.
Definition PPM_SC_GET_ROBUST_LIST : Z := 213.
Definition PPM_SC_SPLICE : Z := 214.
Definition PPM_SC_TEE : Z := 215.
Definition PPM_SC_VMSPLICE : Z := 216.
Definition PPM_SC_GETCPU : Z := 217.
Definition PPM_SC_EPOLL_PWAIT : Z := 218.
Definition PPM_SC_UTIMENSAT : Z := 219.
Definition PPM_SC_SIGNALFD : Z := 220.
Definition PPM_SC_TIMERFD_CREATE : Z := 221.
Definition PPM_SC_EVENTFD : Z := 222.
Definition PPM_SC_TIMERFD_SETTIME : Z := 223.
Definition PPM_SC_TIMERFD_GETTIME : Z := 224.
Definition PPM_SC_SIGNALFD4 : Z := 225.
Definition PPM_SC_EVENTFD2 : Z := 226.
Definition PPM_SC_EPOLL_CREATE1 : Z := 227.
Definition PPM_SC_DUP3 : Z := 228.
Definition PPM_SC_PIPE2 : Z := 229.
Definition PPM_SC_INOTIFY_INIT1 : Z := 230.
Definition PPM_SC_PREADV : Z := 231.
Definition PPM_SC_PWRITEV : Z := 232.
Definition PPM_SC_RT_TGSIGQUEUEINFO : Z := 233.
Definition PPM_SC_PERF_EVENT_OPEN : Z := 234.
Definition PPM_SC_FANOTIFY_INIT : Z := 235.
Definition PPM_SC_PRLIMIT64 : Z := 236.
Definition PPM_SC_CLOCK_ADJTIME : Z := 237.
Definition PPM_SC_SYNCFS : Z := 238.
Definition PPM_SC_SETNS : Z := 239.
Definition PPM_SC_GETDENTS64 : Z := 240.
Definition PPM_SC_SOCKET : Z := 241.
Definition PPM_SC_BIND : Z := 242.
Definition PPM_SC_CONNECT : Z := 243.
Definition PPM_SC_LISTEN : Z := 244.
Definition PPM_SC_ACCEPT : Z := 245.
Definition PPM_SC_GETSOCKNAME : Z := 246.
Definition PPM_SC_GETPEERNAME : Z := 247.
Definition PPM_SC_SOCKETPAIR : Z := 248.
Definition PPM_SC_SENDTO : Z := 249.
Definition PPM_SC_RECVFROM : Z := 250.
Definition PPM_SC_SHUTDOWN : Z := 251.
Definition PPM_SC_SETSOCKOPT : Z := 252.
Definition PPM_SC_GETSOCKOPT : Z := 253.
Definition PPM_SC_SENDMSG : Z := 254.
Definition PPM_SC_SENDMMSG : Z := 255.
Definition PPM_SC_RECVMSG : Z := 256.
Definition PPM_SC_RECVMMSG : Z := 257.
Definition PPM_SC_ACCEPT4 : Z := 258.
Definition PPM_SC_SEMOP : Z := 259.
Definition PPM_SC_SEMGET : Z := 260.
Definition PPM_SC_SEMCTL : Z := 261.
Definition PPM_SC_MSGSND : Z := 262.
Definition PPM_SC_MSGRCV : Z := 263.
Definition PPM_SC_MSGGET : Z := 264.
Definition PPM_SC_MSGCTL : Z := 265.
Definition PPM_SC_SHMDT : Z := 266.
Definition PPM_SC_SHMGET : Z := 267.
Definition PPM_SC_SHMCTL : Z := 268.
Definition PPM_SC_STATFS64 : Z := 269.
Definition PPM_SC_FSTATFS64 : Z := 270.
Definition PPM_SC_FSTATAT64 : Z := 271.
Definition PPM_SC_SENDFILE64 : Z := 272.
Definition PPM_SC_UGETRLIMIT : Z := 273.
Definition PPM_SC_BDFLUSH : Z := 274.
Definition PPM_SC_SIGPROCMASK : Z := 275.
Definition PPM_SC_IPC : Z := 276.
Definition PPM_SC_SOCKETCALL : Z := 277.
Definition PPM_SC_STAT64 : Z := 278.
Definition PPM_SC_LSTAT64 : Z := 279.
Definition PPM_SC_FSTAT64 : Z := 280.
Definition PPM_SC_FCNTL64 : Z := 281.
Definition PPM_SC_MMAP2 : Z := 282.
Definition PPM_SC__NEWSELECT : Z := 283.
Definition PPM_SC_SGETMASK : Z := 284.
Definition PPM_SC_SSETMASK : Z := 285.
Definition PPM_SC_SIGPENDING : Z := 286.
Definition PPM_SC_OLDUNAME : Z := 287.
Definition PPM_SC_UMOUNT : Z := 288.
Definition PPM_SC_SIGNAL : Z := 289.
Definition PPM_SC_NICE : Z := 290.
Definition PPM_SC_STIME : Z := 291.
Definition PPM_SC__LLSEEK : Z := 292.
Definition PPM_SC_WAITPID : Z := 293.
Definition PPM_SC_PREAD64 : Z := 294.
Definition PPM_SC_PWRITE64 : Z := 295.
Definition PPM_SC_ARCH_PRCTL : Z := 296.
Definition PPM_SC_SHMAT : Z := 297.
Definition PPM_SC_SIGRETURN : Z := 298.
Definition PPM_SC_FALLOCATE : Z := 299.
Definition PPM_SC_NEWFSSTAT : Z := 300.
Definition PPM_SC_PROCESS_VM_READV : Z := 301.
Definition PPM_SC_PROCESS_VM_WRITEV : Z := 302.
Definition PPM_SC_FORK : Z := 303.
Definition PPM_SC_VFORK : Z := 304.
Definition PPM_SC_SETUID32 : Z := 305.
Definition PPM_SC_GETUID32 : Z := 306.
Definition PPM_SC_SETGID32 : Z := 307.
Definition PPM_SC_GETEUID32 : Z := 308.
Definition PPM_SC_GETGID32 : Z := 309.
Definition PPM_SC_SETRESUID32 : Z := 310.
Definition PPM_SC_SETRESGID32 : Z := 311.
Definition PPM_SC_GETRESUID32 : Z := 312.
Definition PPM_SC_GETRESGID32 : Z := 313.
Definition PPM_SC_FINIT_MODULE : Z := 314.
Definition PPM_SC_BPF : Z := 315.
Definition PPM_SC_SECCOMP : Z := 316.
Definition PPM_SC_SIGALTSTACK : Z := 317.
Definition PPM_SC_GETRANDOM : Z := 318.
Definition PPM_SC_FADVISE64 : Z := 319.
Definition PPM_SC_RENAMEAT2 : Z := 320.
Definition PPM_SC_USERFAULTFD : Z := 321.
Definition PPM_SC_MAX : Z := 322.

(** Limits and return codes. *)
Definition PPM_MAX_EVENT_PARAMS : Z := 32.
Definition PPM_SOCKOPT_IDX_UNKNOWN : Z := 0.
Definition PPM_SOCKOPT_IDX_ERRNO : Z := 1.
Definition PPM_SOCKOPT_IDX_UINT32 : Z := 2.
Definition PPM_SOCKOPT_IDX_UINT64 : Z := 3.
Definition PPM_SOCKOPT_IDX_TIMEVAL : Z := 4.
Definition PPM_SOCKOPT_IDX_MAX : Z := 5.
Definition PPM_PTRACE_IDX_UINT64 : Z := 0.
Definition PPM_PTRACE_IDX_SIGTYPE : Z := 1.
Definition PPM_PTRACE_IDX_MAX : Z := 2.
Definition PPM_BPF_IDX_FD : Z := 0.
Definition PPM_BPF_IDX_RES : Z := 1.
Definition PPM_BPF_IDX_MAX : Z := 2.
Definition SYSCALL_TABLE_SIZE : Z := 512.
Definition PPM_MAX_AUTOFILL_ARGS : Z := 4.
Definition PPM_MAX_ARG_SIZE : Z := 65000.
Definition AF_ID_RETVAL : Z := (-1).
Definition AF_ID_USEDEFAULT : Z := (-2).
Definition PRB_FLAG_PUSH_SIZE : Z := 1.
Definition PRB_FLAG_PUSH_DATA : Z := 2.
Definition PRB_FLAG_IS_WRITE : Z := 4.
Definition PPM_SUCCESS : Z := 0.
Definition PPM_FAILURE_BUFFER_FULL : Z := (-1).
Definition PPM_FAILURE_INVALID_USER_MEMORY : Z := (-2).
Definition PPM_FAILURE_BUG : Z := (-3).
Definition RW_SNAPLEN : Z := 80.
Definition RW_MAX_FULLCAPTURE_PORT_SNAPLEN : Z := 16000.
Definition RW_MAX_SNAPLEN : Z := PPM_MAX_ARG_SIZE.

(** What the [info] pointer of a parameter refers to: a name/value table, the
    index of the parameter that holds the directory fd, or the alternatives of
    a dynamic parameter. *)
Inductive param_ref : Set :=
| FlagsTable (table : string)
| DirfdParam (param : Z)
| DynParams (alts : list ppm_param_type).

(** [struct ppm_param_info]; [info = None] is the null pointer. *)
Record ppm_param_info : Set := mk_param {
  pi_name : string;
  pi_type : ppm_param_type;
  pi_fmt : ppm_print_format;
  pi_info : option param_ref;
  pi_ninfo : Z }.

(** [struct ppm_event_info]. *)
Record ppm_event_info : Set := mk_event {
  ei_name : string;
  ei_category : Z;
  ei_flags : Z;
  ei_nparams : Z;
  ei_params : list ppm_param_info }.

(** [struct syscall_evt_pair]. *)
Record syscall_evt_pair : Set := mk_pair {
  sp_flags : Z;
  enter_event_type : Z;
  exit_event_type : Z }.

(** [enum autofill_paramtype], [struct ppm_autofill_arg] and
    [struct ppm_event_entry]. *)
Inductive autofill_paramtype : Set := APT_REG | APT_SOCK.

Record ppm_autofill_arg : Set := mk_autofill {
  af_id : Z;
  default_val : Z }.

(** [enum ppm_filler_id], one constructor per entry of [FILLER_LIST_MAPPER]. *)
Inductive ppm_filler_id : Set :=
  | F_sys_autofill | F_sys_generic | F_sys_empty | F_sys_single
  | F_sys_single_x | F_sys_open_x | F_sys_read_x | F_sys_write_x
  | F_sys_execve_e | F_proc_startupdate | F_proc_startupdate_2 | F_proc_startupdate_3
  | F_sys_socketpair_x | F_sys_setsockopt_x | F_sys_getsockopt_x | F_sys_connect_x
  | F_sys_accept4_e | F_sys_accept_x | F_sys_send_e | F_sys_send_x
  | F_sys_sendto_e | F_sys_sendmsg_e | F_sys_sendmsg_x | F_sys_sendmmsg_x
  | F_sys_recv_x | F_sys_recvfrom_x | F_sys_recvmsg_x | F_sys_recvmsg_x_2
  | F_sys_shutdown_e | F_sys_creat_x | F_sys_pipe_x | F_sys_eventfd_e
  | F_sys_futex_e | F_sys_lseek_e | F_sys_llseek_e | F_sys_socket_bind_x
  | F_sys_poll_e | F_sys_poll_x | F_sys_pread64_e | F_sys_preadv64_e
  | F_sys_writev_e | F_sys_pwrite64_e | F_sys_readv_preadv_x | F_sys_writev_pwritev_x
  | F_sys_pwritev_e | F_sys_nanosleep_e | F_sys_getrlimit_setrlimit_e | F_sys_getrlimit_setrlrimit_x
  | F_sys_prlimit_e | F_sys_prlimit_x | F_sched_switch_e | F_sched_drop
  | F_sys_fcntl_e | F_sys_ptrace_e | F_sys_ptrace_x | F_sys_mmap_e
  | F_sys_brk_munmap_mmap_x | F_sys_renameat_x | F_sys_renameat2_x | F_sys_symlinkat_x
  | F_sys_procexit_e | F_sys_sendfile_e | F_sys_sendfile_x | F_sys_quotactl_e
  | F_sys_quotactl_x | F_sys_sysdigevent_e | F_sys_getresuid_and_gid_x | F_sys_signaldeliver_e
  | F_sys_pagefault_e | F_sys_setns_e | F_sys_unshare_e | F_sys_flock_e
  | F_cpu_hotplug_e | F_sys_semop_x | F_sys_semget_e | F_sys_semctl_e
  | F_sys_ppoll_e | F_sys_mount_e | F_sys_access_e | F_sys_socket_x
  | F_sys_bpf_x | F_sys_unlinkat_x | F_sys_fchmodat_x | F_sys_chmod_x
  | F_sys_fchmod_x | F_sys_mkdirat_x | F_sys_openat_x | F_sys_linkat_x
  | F_tcp_rcv_established_e | F_tcp_drop_e | F_tcp_retransmit_skb_e | F_netif_receive_skb_e
  | F_net_dev_start_xmit_e | F_tcp_connect_x | F_tcp_set_state_e | F_tcp_receive_reset_e
  | F_tcp_send_reset_e | F_cpu_analysis_e | F_sys_epoll_wait_x | F_terminate_filler.

#[export] Instance ppm_filler_id_eq_dec : EqDecision ppm_filler_id.
Proof. unfold EqDecision, Decision; decide equality. Defined.

Record ppm_event_entry : Set := mk_entry {
  filler_id : ppm_filler_id;
  n_autofill_args : Z;
  paramtype : autofill_paramtype;
  autofill_args : list ppm_autofill_arg }.
