(* ===== verification/EventTable.v ===== *)
(** * The event table: [driver/event_table.c] and [driver/dynamic_params_table.c]

    [g_event_info] has one row per event type, in the order of the array; a row
    is found by its position.  The driver ([val_to_ring],
    [record_event_consumer]) and libscap read it. *)

From Stdlib Require Import ZArith Lia List Bool.
From Stdlib Require Import Strings.String.
From stdpp Require Import base tactics list numbers option.
From S2P Require Import Prelude EventDefs.
Import ListNotations.
Local Open Scope string_scope.
Local Open Scope list_scope.
Local Open Scope Z_scope.

Definition sockopt_dynamic_param : param_ref := DynParams [PT_BYTEBUF; PT_ERRNO; PT_UINT32; PT_UINT64; PT_RELTIME].
Definition ptrace_dynamic_param : param_ref := DynParams [PT_UINT64; PT_SIGTYPE].
Definition bpf_dynamic_param : param_ref := DynParams [PT_FD; PT_ERRNO].

Definition g_event_info_0 : list ppm_event_info := [
  (* PPME_GENERIC_E *) mk_event "syscall" EC_OTHER EF_NONE 2 [mk_param "ID" PT_SYSCALLID PF_DEC None 0;
      mk_param "nativeID" PT_UINT16 PF_DEC None 0];
  (* PPME_GENERIC_X *) mk_event "syscall" EC_OTHER EF_NONE 1 [mk_param "ID" PT_SYSCALLID PF_DEC None 0];
  (* PPME_SYSCALL_OPEN_E *) mk_event "open" EC_FILE (Z.lor EF_CREATES_FD EF_MODIFIES_STATE) 0 [];
  (* PPME_SYSCALL_OPEN_X *) mk_event "open" EC_FILE (Z.lor EF_CREATES_FD EF_MODIFIES_STATE) 5 [mk_param "fd" PT_FD PF_DEC None 0;
      mk_param "name" PT_FSPATH PF_NA None 0;
      mk_param "flags" PT_FLAGS32 PF_HEX (Some (FlagsTable "file_flags")) 0;
      mk_param "mode" PT_UINT32 PF_OCT None 0;
      mk_param "dev" PT_UINT32 PF_HEX None 0];
  (* PPME_SYSCALL_CLOSE_E *) mk_event "close" EC_IO_OTHER (Z.lor (Z.lor (Z.lor EF_DESTROYS_FD EF_USES_FD) EF_MODIFIES_STATE) EF_DROP_SIMPLE_CONS) 1 [mk_param "fd" PT_FD PF_DEC None 0];
  (* PPME_SYSCALL_CLOSE_X *) mk_event "close" EC_IO_OTHER (Z.lor (Z.lor (Z.lor EF_DESTROYS_FD EF_USES_FD) EF_MODIFIES_STATE) EF_DROP_SIMPLE_CONS) 1 [mk_param "res" PT_ERRNO PF_DEC None 0];
  (* PPME_SYSCALL_READ_E *) mk_event "read" EC_IO_READ (Z.lor (Z.lor EF_USES_FD EF_READS_FROM_FD) EF_DROP_SIMPLE_CONS) 2 [mk_param "fd" PT_FD PF_DEC None 0;
      mk_param "size" PT_UINT32 PF_DEC None 0];
  (* PPME_SYSCALL_READ_X *) mk_event "read" EC_IO_READ (Z.lor (Z.lor EF_USES_FD EF_READS_FROM_FD) EF_DROP_SIMPLE_CONS) 2 [mk_param "res" PT_ERRNO PF_DEC None 0;
      mk_param "data" PT_BYTEBUF PF_NA None 0];
  (* PPME_SYSCALL_WRITE_E *) mk_event "write" EC_IO_WRITE (Z.lor (Z.lor EF_USES_FD EF_WRITES_TO_FD) EF_DROP_SIMPLE_CONS) 2 [mk_param "fd" PT_FD PF_DEC None 0;
      mk_param "size" PT_UINT32 PF_DEC None 0];
  (* PPME_SYSCALL_WRITE_X *) mk_event "write" EC_IO_WRITE (Z.lor (Z.lor EF_USES_FD EF_WRITES_TO_FD) EF_DROP_SIMPLE_CONS) 2 [mk_param "res" PT_ERRNO PF_DEC None 0;
      mk_param "data" PT_BYTEBUF PF_NA None 0];
  (* PPME_SYSCALL_BRK_1_E *) mk_event "brk" EC_MEMORY EF_OLD_VERSION 1 [mk_param "size" PT_UINT32 PF_DEC None 0];
  (* PPME_SYSCALL_BRK_1_X *) mk_event "brk" EC_MEMORY EF_OLD_VERSION 1 [mk_param "res" PT_UINT64 PF_HEX None 0];
  (* PPME_SYSCALL_EXECVE_8_E *) mk_event "execve" EC_PROCESS (Z.lor EF_MODIFIES_STATE EF_OLD_VERSION) 0 [];
  (* PPME_SYSCALL_EXECVE_8_X *) mk_event "execve" EC_PROCESS (Z.lor EF_MODIFIES_STATE EF_OLD_VERSION) 8 [mk_param "res" PT_ERRNO PF_DEC None 0;
      mk_param "exe" PT_CHARBUF PF_NA None 0;
      mk_param "args" PT_BYTEBUF PF_NA None 0;
      mk_param "tid" PT_PID PF_DEC None 0;
      mk_param "pid" PT_PID PF_DEC None 0;
      mk_param "ptid" PT_PID PF_DEC None 0;
      mk_param "cwd" PT_CHARBUF PF_NA None 0;
      mk_param "fdlimit" PT_UINT64 PF_DEC None 0];
  (* PPME_CLONE_11_E *) mk_event "clone" EC_PROCESS (Z.lor EF_MODIFIES_STATE EF_OLD_VERSION) 0 [];
  (* PPME_CLONE_11_X *) mk_event "clone" EC_PROCESS (Z.lor EF_MODIFIES_STATE EF_OLD_VERSION) 11 [mk_param "res" PT_PID PF_DEC None 0;
      mk_param "exe" PT_CHARBUF PF_NA None 0;
      mk_param "args" PT_BYTEBUF PF_NA None 0;
      mk_param "tid" PT_PID PF_DEC None 0;
      mk_param "pid" PT_PID PF_DEC None 0;
      mk_param "ptid" PT_PID PF_DEC None 0;
      mk_param "cwd" PT_CHARBUF PF_NA None 0;
      mk_param "fdlimit" PT_INT64 PF_DEC None 0;
      mk_param "flags" PT_FLAGS32 PF_HEX (Some (FlagsTable "clone_flags")) 0;
      mk_param "uid" PT_UINT32 PF_DEC None 0;
      mk_param "gid" PT_UINT32 PF_DEC None 0];
  (* PPME_PROCEXIT_E *) mk_event "procexit" EC_PROCESS (Z.lor EF_MODIFIES_STATE EF_OLD_VERSION) 0 [];
  (* PPME_NA1 *) mk_event "NA1" EC_PROCESS EF_UNUSED 0 [];
  (* PPME_SOCKET_SOCKET_E *) mk_event "socket" EC_NET (Z.lor EF_CREATES_FD EF_MODIFIES_STATE) 3 [mk_param "domain" PT_FLAGS32 PF_DEC (Some (FlagsTable "socket_families")) 0;
      mk_param "type" PT_UINT32 PF_DEC None 0;
      mk_param "proto" PT_UINT32 PF_DEC None 0];
  (* PPME_SOCKET_SOCKET_X *) mk_event "socket" EC_NET (Z.lor EF_CREATES_FD EF_MODIFIES_STATE) 1 [mk_param "fd" PT_FD PF_DEC None 0];
  (* PPME_SOCKET_BIND_E *) mk_event "bind" EC_NET (Z.lor EF_USES_FD EF_MODIFIES_STATE) 1 [mk_param "fd" PT_FD PF_DEC None 0];
  (* PPME_SOCKET_BIND_X *) mk_event "bind" EC_NET (Z.lor EF_USES_FD EF_MODIFIES_STATE) 2 [mk_param "res" PT_ERRNO PF_DEC None 0;
      mk_param "addr" PT_SOCKADDR PF_NA None 0];
  (* PPME_SOCKET_CONNECT_E *) mk_event "connect" EC_NET (Z.lor EF_USES_FD EF_MODIFIES_STATE) 1 [mk_param "fd" PT_FD PF_DEC None 0];
  (* PPME_SOCKET_CONNECT_X *) mk_event "connect" EC_NET (Z.lor EF_USES_FD EF_MODIFIES_STATE) 2 [mk_param "res" PT_ERRNO PF_DEC None 0;
      mk_param "tuple" PT_SOCKTUPLE PF_NA None 0];
  (* PPME_SOCKET_LISTEN_E *) mk_event "listen" EC_NET EF_USES_FD 2 [mk_param "fd" PT_FD PF_DEC None 0;
      mk_param "backlog" PT_UINT32 PF_DEC None 0];
  (* PPME_SOCKET_LISTEN_X *) mk_event "listen" EC_NET EF_USES_FD 1 [mk_param "res" PT_ERRNO PF_DEC None 0];
  (* PPME_SOCKET_ACCEPT_E *) mk_event "accept" EC_NET (Z.lor (Z.lor EF_CREATES_FD EF_MODIFIES_STATE) EF_OLD_VERSION) 0 [];
  (* PPME_SOCKET_ACCEPT_X *) mk_event "accept" EC_NET (Z.lor (Z.lor EF_CREATES_FD EF_MODIFIES_STATE) EF_OLD_VERSION) 3 [mk_param "fd" PT_FD PF_DEC None 0;
      mk_param "tuple" PT_SOCKTUPLE PF_NA None 0;
      mk_param "queuepct" PT_UINT8 PF_DEC None 0];
  (* PPME_SYSCALL_SEND_E *) mk_event "send" EC_IO_WRITE (Z.lor (Z.lor EF_USES_FD EF_WRITES_TO_FD) EF_DROP_SIMPLE_CONS) 2 [mk_param "fd" PT_FD PF_DEC None 0;
      mk_param "size" PT_UINT32 PF_DEC None 0];
  (* PPME_SYSCALL_SEND_X *) mk_event "send" EC_IO_WRITE (Z.lor (Z.lor EF_USES_FD EF_WRITES_TO_FD) EF_DROP_SIMPLE_CONS) 2 [mk_param "res" PT_ERRNO PF_DEC None 0;
      mk_param "data" PT_BYTEBUF PF_NA None 0];
  (* PPME_SOCKET_SENDTO_E *) mk_event "sendto" EC_IO_WRITE (Z.lor (Z.lor EF_USES_FD EF_WRITES_TO_FD) EF_MODIFIES_STATE) 3 [mk_param "fd" PT_FD PF_DEC None 0;
      mk_param "size" PT_UINT32 PF_DEC None 0;
      mk_param "tuple" PT_SOCKTUPLE PF_NA None 0];
  (* PPME_SOCKET_SENDTO_X *) mk_event "sendto" EC_IO_WRITE (Z.lor (Z.lor EF_USES_FD EF_WRITES_TO_FD) EF_MODIFIES_STATE) 2 [mk_param "res" PT_ERRNO PF_DEC None 0;
      mk_param "data" PT_BYTEBUF PF_NA None 0];
  (* PPME_SOCKET_RECV_E *) mk_event "recv" EC_IO_READ (Z.lor (Z.lor EF_USES_FD EF_READS_FROM_FD) EF_DROP_SIMPLE_CONS) 2 [mk_param "fd" PT_FD PF_DEC None 0;
      mk_param "size" PT_UINT32 PF_DEC None 0];
  (* PPME_SOCKET_RECV_X *) mk_event "recv" EC_IO_READ (Z.lor (Z.lor EF_USES_FD EF_READS_FROM_FD) EF_DROP_SIMPLE_CONS) 2 [mk_param "res" PT_ERRNO PF_DEC None 0;
      mk_param "data" PT_BYTEBUF PF_NA None 0];
  (* PPME_SOCKET_RECVFROM_E *) mk_event "recvfrom" EC_IO_READ (Z.lor (Z.lor EF_USES_FD EF_READS_FROM_FD) EF_MODIFIES_STATE) 2 [mk_param "fd" PT_FD PF_DEC None 0;
      mk_param "size" PT_UINT32 PF_DEC None 0];
  (* PPME_SOCKET_RECVFROM_X *) mk_event "recvfrom" EC_IO_READ (Z.lor (Z.lor EF_USES_FD EF_READS_FROM_FD) EF_MODIFIES_STATE) 3 [mk_param "res" PT_ERRNO PF_DEC None 0;
      mk_param "data" PT_BYTEBUF PF_NA None 0;
      mk_param "tuple" PT_SOCKTUPLE PF_NA None 0];
  (* PPME_SOCKET_SHUTDOWN_E *) mk_event "shutdown" EC_NET (Z.lor (Z.lor EF_USES_FD EF_MODIFIES_STATE) EF_DROP_SIMPLE_CONS) 2 [mk_param "fd" PT_FD PF_DEC None 0;
      mk_param "how" PT_FLAGS8 PF_HEX (Some (FlagsTable "shutdown_how")) 0];
  (* PPME_SOCKET_SHUTDOWN_X *) mk_event "shutdown" EC_NET (Z.lor (Z.lor EF_USES_FD EF_MODIFIES_STATE) EF_DROP_SIMPLE_CONS) 1 [mk_param "res" PT_ERRNO PF_DEC None 0];
  (* PPME_SOCKET_GETSOCKNAME_E *) mk_event "getsockname" EC_NET EF_DROP_SIMPLE_CONS 0 [];
  (* PPME_SOCKET_GETSOCKNAME_X *) mk_event "getsockname" EC_NET EF_DROP_SIMPLE_CONS 0 [];
  (* PPME_SOCKET_GETPEERNAME_E *) mk_event "getpeername" EC_NET EF_DROP_SIMPLE_CONS 0 [];
  (* PPME_SOCKET_GETPEERNAME_X *) mk_event "getpeername" EC_NET EF_DROP_SIMPLE_CONS 0 [];
  (* PPME_SOCKET_SOCKETPAIR_E *) mk_event "socketpair" EC_IPC (Z.lor EF_CREATES_FD EF_MODIFIES_STATE) 3 [mk_param "domain" PT_FLAGS32 PF_DEC (Some (FlagsTable "socket_families")) 0;
      mk_param "type" PT_UINT32 PF_DEC None 0;
      mk_param "proto" PT_UINT32 PF_DEC None 0];
  (* PPME_SOCKET_SOCKETPAIR_X *) mk_event "socketpair" EC_IPC (Z.lor EF_CREATES_FD EF_MODIFIES_STATE) 5 [mk_param "res" PT_ERRNO PF_DEC None 0;
      mk_param "fd1" PT_FD PF_DEC None 0;
      mk_param "fd2" PT_FD PF_DEC None 0;
      mk_param "source" PT_UINT64 PF_HEX None 0;
      mk_param "peer" PT_UINT64 PF_HEX None 0];
  (* PPME_SOCKET_SETSOCKOPT_E *) mk_event "setsockopt" EC_NET EF_NONE 0 [];
  (* PPME_SOCKET_SETSOCKOPT_X *) mk_event "setsockopt" EC_NET EF_USES_FD 6 [mk_param "res" PT_ERRNO PF_DEC None 0;
      mk_param "fd" PT_FD PF_DEC None 0;
      mk_param "level" PT_FLAGS8 PF_DEC (Some (FlagsTable "sockopt_levels")) 0;
      mk_param "optname" PT_FLAGS8 PF_DEC (Some (FlagsTable "sockopt_options")) 0;
      mk_param "val" PT_DYN PF_DEC (Some sockopt_dynamic_param) PPM_SOCKOPT_IDX_MAX;
      mk_param "optlen" PT_UINT32 PF_DEC None 0];
  (* PPME_SOCKET_GETSOCKOPT_E *) mk_event "getsockopt" EC_NET (Z.lor EF_MODIFIES_STATE EF_DROP_SIMPLE_CONS) 0 [];
  (* PPME_SOCKET_GETSOCKOPT_X *) mk_event "getsockopt" EC_NET (Z.lor (Z.lor EF_USES_FD EF_MODIFIES_STATE) EF_DROP_SIMPLE_CONS) 6 [mk_param "res" PT_ERRNO PF_DEC None 0;
      mk_param "fd" PT_FD PF_DEC None 0;
      mk_param "level" PT_FLAGS8 PF_DEC (Some (FlagsTable "sockopt_levels")) 0;
      mk_param "optname" PT_FLAGS8 PF_DEC (Some (FlagsTable "sockopt_options")) 0;
      mk_param "val" PT_DYN PF_DEC (Some sockopt_dynamic_param) PPM_SOCKOPT_IDX_MAX;
      mk_param "optlen" PT_UINT32 PF_DEC None 0];
  (* PPME_SOCKET_SENDMSG_E *) mk_event "sendmsg" EC_IO_WRITE (Z.lor (Z.lor EF_USES_FD EF_WRITES_TO_FD) EF_MODIFIES_STATE) 3 [mk_param "fd" PT_FD PF_DEC None 0;
      mk_param "size" PT_UINT32 PF_DEC None 0;
      mk_param "tuple" PT_SOCKTUPLE PF_NA None 0];
  (* PPME_SOCKET_SENDMSG_X *) mk_event "sendmsg" EC_IO_WRITE (Z.lor (Z.lor EF_USES_FD EF_WRITES_TO_FD) EF_MODIFIES_STATE) 2 [mk_param "res" PT_ERRNO PF_DEC None 0;
      mk_param "data" PT_BYTEBUF PF_NA None 0];
  (* PPME_SOCKET_SENDMMSG_E *) mk_event "sendmmsg" EC_IO_WRITE (Z.lor (Z.lor EF_USES_FD EF_WRITES_TO_FD) EF_MODIFIES_STATE) 1 [mk_param "fd" PT_FD PF_DEC None 0];
  (* PPME_SOCKET_SENDMMSG_X *) mk_event "sendmmsg" EC_IO_WRITE (Z.lor (Z.lor EF_USES_FD EF_WRITES_TO_FD) EF_MODIFIES_STATE) 3 [mk_param "res" PT_ERRNO PF_DEC None 0;
      mk_param "vlen" PT_UINT32 PF_DEC None 0;
      mk_param "data" PT_BYTEBUF PF_NA None 0];
  (* PPME_SOCKET_RECVMSG_E *) mk_event "recvmsg" EC_IO_READ (Z.lor (Z.lor EF_USES_FD EF_READS_FROM_FD) EF_MODIFIES_STATE) 1 [mk_param "fd" PT_FD PF_DEC None 0];
  (* PPME_SOCKET_RECVMSG_X *) mk_event "recvmsg" EC_IO_READ (Z.lor (Z.lor EF_USES_FD EF_READS_FROM_FD) EF_MODIFIES_STATE) 4 [mk_param "res" PT_ERRNO PF_DEC None 0;
      mk_param "size" PT_UINT32 PF_DEC None 0;
      mk_param "data" PT_BYTEBUF PF_NA None 0;
      mk_param "tuple" PT_SOCKTUPLE PF_NA None 0];
  (* PPME_SOCKET_RECVMMSG_E *) mk_event "recvmmsg" EC_IO_READ EF_DROP_SIMPLE_CONS 0 [];
  (* PPME_SOCKET_RECVMMSG_X *) mk_event "recvmmsg" EC_IO_READ EF_DROP_SIMPLE_CONS 0 [];
  (* PPME_SOCKET_ACCEPT4_E *) mk_event "accept" EC_NET (Z.lor (Z.lor EF_CREATES_FD EF_MODIFIES_STATE) EF_OLD_VERSION) 1 [mk_param "flags" PT_INT32 PF_HEX None 0];
  (* PPME_SOCKET_ACCEPT4_X *) mk_event "accept" EC_NET (Z.lor (Z.lor EF_CREATES_FD EF_MODIFIES_STATE) EF_OLD_VERSION) 3 [mk_param "fd" PT_FD PF_DEC None 0;
      mk_param "tuple" PT_SOCKTUPLE PF_NA None 0;
      mk_param "queuepct" PT_UINT8 PF_DEC None 0];
  (* PPME_SYSCALL_CREAT_E *) mk_event "creat" EC_FILE (Z.lor EF_CREATES_FD EF_MODIFIES_STATE) 0 [];
  (* PPME_SYSCALL_CREAT_X *) mk_event "creat" EC_FILE (Z.lor EF_CREATES_FD EF_MODIFIES_STATE) 4 [mk_param "fd" PT_FD PF_DEC None 0;
      mk_param "name" PT_FSPATH PF_NA None 0;
      mk_param "mode" PT_UINT32 PF_OCT None 0;
      mk_param "dev" PT_UINT32 PF_HEX None 0]].

Definition g_event_info_1 : list ppm_event_info := [
  (* PPME_SOCKET_PIPE_E *) mk_event "pipe" EC_IPC (Z.lor EF_CREATES_FD EF_MODIFIES_STATE) 0 [];
  (* PPME_SOCKET_PIPE_X *) mk_event "pipe" EC_IPC (Z.lor EF_CREATES_FD EF_MODIFIES_STATE) 4 [mk_param "res" PT_ERRNO PF_DEC None 0;
      mk_param "fd1" PT_FD PF_DEC None 0;
      mk_param "fd2" PT_FD PF_DEC None 0;
      mk_param "ino" PT_UINT64 PF_DEC None 0];
  (* PPME_SYSCALL_EVENTFD_E *) mk_event "eventfd" EC_IPC (Z.lor (Z.lor EF_CREATES_FD EF_MODIFIES_STATE) EF_DROP_SIMPLE_CONS) 2 [mk_param "initval" PT_UINT64 PF_DEC None 0;
      mk_param "flags" PT_FLAGS32 PF_HEX None 0];
  (* PPME_SYSCALL_EVENTFD_X *) mk_event "eventfd" EC_IPC (Z.lor (Z.lor EF_CREATES_FD EF_MODIFIES_STATE) EF_DROP_SIMPLE_CONS) 1 [mk_param "res" PT_FD PF_DEC None 0];
  (* PPME_SYSCALL_FUTEX_E *) mk_event "futex" EC_IPC EF_DROP_SIMPLE_CONS 3 [mk_param "addr" PT_UINT64 PF_HEX None 0;
      mk_param "op" PT_FLAGS16 PF_HEX (Some (FlagsTable "futex_operations")) 0;
      mk_param "val" PT_UINT64 PF_DEC None 0];
  (* PPME_SYSCALL_FUTEX_X *) mk_event "futex" EC_IPC EF_DROP_SIMPLE_CONS 1 [mk_param "res" PT_ERRNO PF_DEC None 0];
  (* PPME_SYSCALL_STAT_E *) mk_event "stat" EC_FILE EF_DROP_SIMPLE_CONS 0 [];
  (* PPME_SYSCALL_STAT_X *) mk_event "stat" EC_FILE EF_DROP_SIMPLE_CONS 2 [mk_param "res" PT_ERRNO PF_DEC None 0;
      mk_param "path" PT_FSPATH PF_NA None 0];
  (* PPME_SYSCALL_LSTAT_E *) mk_event "lstat" EC_FILE EF_DROP_SIMPLE_CONS 0 [];
  (* PPME_SYSCALL_LSTAT_X *) mk_event "lstat" EC_FILE EF_DROP_SIMPLE_CONS 2 [mk_param "res" PT_ERRNO PF_DEC None 0;
      mk_param "path" PT_FSPATH PF_NA None 0];
  (* PPME_SYSCALL_FSTAT_E *) mk_event "fstat" EC_FILE (Z.lor EF_USES_FD EF_DROP_SIMPLE_CONS) 1 [mk_param "fd" PT_FD PF_NA None 0];
  (* PPME_SYSCALL_FSTAT_X *) mk_event "fstat" EC_FILE (Z.lor EF_USES_FD EF_DROP_SIMPLE_CONS) 1 [mk_param "res" PT_ERRNO PF_DEC None 0];
  (* PPME_SYSCALL_STAT64_E *) mk_event "stat64" EC_FILE EF_DROP_SIMPLE_CONS 0 [];
  (* PPME_SYSCALL_STAT64_X *) mk_event "stat64" EC_FILE EF_DROP_SIMPLE_CONS 2 [mk_param "res" PT_ERRNO PF_DEC None 0;
      mk_param "path" PT_FSPATH PF_NA None 0];
  (* PPME_SYSCALL_LSTAT64_E *) mk_event "lstat64" EC_FILE EF_DROP_SIMPLE_CONS 0 [];
  (* PPME_SYSCALL_LSTAT64_X *) mk_event "lstat64" EC_FILE EF_DROP_SIMPLE_CONS 2 [mk_param "res" PT_ERRNO PF_DEC None 0;
      mk_param "path" PT_FSPATH PF_NA None 0];
  (* PPME_SYSCALL_FSTAT64_E *) mk_event "fstat64" EC_FILE (Z.lor EF_USES_FD EF_DROP_SIMPLE_CONS) 1 [mk_param "fd" PT_FD PF_NA None 0];
  (* PPME_SYSCALL_FSTAT64_X *) mk_event "fstat64" EC_FILE (Z.lor EF_USES_FD EF_DROP_SIMPLE_CONS) 1 [mk_param "res" PT_ERRNO PF_DEC None 0];
  (* PPME_SYSCALL_EPOLLWAIT_E *) mk_event "epoll_wait" EC_WAIT (Z.lor EF_WAITS EF_DROP_SIMPLE_CONS) 1 [mk_param "maxevents" PT_ERRNO PF_DEC None 0];
  (* PPME_SYSCALL_EPOLLWAIT_X *) mk_event "epoll_wait" EC_WAIT (Z.lor EF_WAITS EF_DROP_SIMPLE_CONS) 2 [mk_param "res" PT_ERRNO PF_DEC None 0;
      mk_param "fds" PT_FDLIST PF_DEC None 0];
  (* PPME_SYSCALL_POLL_E *) mk_event "poll" EC_WAIT (Z.lor EF_WAITS EF_DROP_SIMPLE_CONS) 2 [mk_param "fds" PT_FDLIST PF_DEC None 0;
      mk_param "timeout" PT_INT64 PF_DEC None 0];
  (* PPME_SYSCALL_POLL_X *) mk_event "poll" EC_WAIT (Z.lor EF_WAITS EF_DROP_SIMPLE_CONS) 2 [mk_param "res" PT_ERRNO PF_DEC None 0;
      mk_param "fds" PT_FDLIST PF_DEC None 0];
  (* PPME_SYSCALL_SELECT_E *) mk_event "select" EC_WAIT (Z.lor EF_WAITS EF_DROP_SIMPLE_CONS) 0 [];
  (* PPME_SYSCALL_SELECT_X *) mk_event "select" EC_WAIT (Z.lor EF_WAITS EF_DROP_SIMPLE_CONS) 1 [mk_param "res" PT_ERRNO PF_DEC None 0];
  (* PPME_SYSCALL_NEWSELECT_E *) mk_event "select" EC_WAIT (Z.lor EF_WAITS EF_DROP_SIMPLE_CONS) 0 [];
  (* PPME_SYSCALL_NEWSELECT_X *) mk_event "select" EC_WAIT (Z.lor EF_WAITS EF_DROP_SIMPLE_CONS) 1 [mk_param "res" PT_ERRNO PF_DEC None 0];
  (* PPME_SYSCALL_LSEEK_E *) mk_event "lseek" EC_FILE (Z.lor EF_USES_FD EF_DROP_SIMPLE_CONS) 3 [mk_param "fd" PT_FD PF_DEC None 0;
      mk_param "offset" PT_UINT64 PF_DEC None 0;
      mk_param "whence" PT_FLAGS8 PF_DEC (Some (FlagsTable "lseek_whence")) 0];
  (* PPME_SYSCALL_LSEEK_X *) mk_event "lseek" EC_FILE (Z.lor EF_USES_FD EF_DROP_SIMPLE_CONS) 1 [mk_param "res" PT_ERRNO PF_DEC None 0];
  (* PPME_SYSCALL_LLSEEK_E *) mk_event "llseek" EC_FILE (Z.lor EF_USES_FD EF_DROP_SIMPLE_CONS) 3 [mk_param "fd" PT_FD PF_DEC None 0;
      mk_param "offset" PT_UINT64 PF_DEC None 0;
      mk_param "whence" PT_FLAGS8 PF_DEC (Some (FlagsTable "lseek_whence")) 0];
  (* PPME_SYSCALL_LLSEEK_X *) mk_event "llseek" EC_FILE (Z.lor EF_USES_FD EF_DROP_SIMPLE_CONS) 1 [mk_param "res" PT_ERRNO PF_DEC None 0];
  (* PPME_SYSCALL_IOCTL_2_E *) mk_event "ioctl" EC_IO_OTHER (Z.lor EF_USES_FD EF_OLD_VERSION) 2 [mk_param "fd" PT_FD PF_DEC None 0;
      mk_param "request" PT_UINT64 PF_HEX None 0];
  (* PPME_SYSCALL_IOCTL_2_X *) mk_event "ioctl" EC_IO_OTHER (Z.lor EF_USES_FD EF_OLD_VERSION) 1 [mk_param "res" PT_ERRNO PF_DEC None 0];
  (* PPME_SYSCALL_GETCWD_E *) mk_event "getcwd" EC_FILE EF_DROP_SIMPLE_CONS 0 [];
  (* PPME_SYSCALL_GETCWD_X *) mk_event "getcwd" EC_FILE EF_DROP_SIMPLE_CONS 2 [mk_param "res" PT_ERRNO PF_DEC None 0;
      mk_param "path" PT_CHARBUF PF_NA None 0];
  (* PPME_SYSCALL_CHDIR_E *) mk_event "chdir" EC_FILE EF_MODIFIES_STATE 0 [];
  (* PPME_SYSCALL_CHDIR_X *) mk_event "chdir" EC_FILE EF_MODIFIES_STATE 2 [mk_param "res" PT_ERRNO PF_DEC None 0;
      mk_param "path" PT_CHARBUF PF_NA None 0];
  (* PPME_SYSCALL_FCHDIR_E *) mk_event "fchdir" EC_FILE (Z.lor EF_USES_FD EF_MODIFIES_STATE) 1 [mk_param "fd" PT_FD PF_NA None 0];
  (* PPME_SYSCALL_FCHDIR_X *) mk_event "fchdir" EC_FILE (Z.lor EF_USES_FD EF_MODIFIES_STATE) 1 [mk_param "res" PT_ERRNO PF_DEC None 0];
  (* PPME_SYSCALL_MKDIR_E *) mk_event "mkdir" EC_FILE EF_NONE 2 [mk_param "path" PT_FSPATH PF_NA None 0;
      mk_param "mode" PT_UINT32 PF_HEX None 0];
  (* PPME_SYSCALL_MKDIR_X *) mk_event "mkdir" EC_FILE EF_NONE 1 [mk_param "res" PT_ERRNO PF_DEC None 0];
  (* PPME_SYSCALL_RMDIR_E *) mk_event "rmdir" EC_FILE EF_NONE 1 [mk_param "path" PT_FSPATH PF_NA None 0];
  (* PPME_SYSCALL_RMDIR_X *) mk_event "rmdir" EC_FILE EF_NONE 1 [mk_param "res" PT_ERRNO PF_DEC None 0];
  (* PPME_SYSCALL_OPENAT_E *) mk_event "openat" EC_FILE (Z.lor (Z.lor EF_CREATES_FD EF_MODIFIES_STATE) EF_OLD_VERSION) 4 [mk_param "dirfd" PT_FD PF_DEC None 0;
      mk_param "name" PT_CHARBUF PF_NA None 0;
      mk_param "flags" PT_FLAGS32 PF_HEX (Some (FlagsTable "file_flags")) 0;
      mk_param "mode" PT_UINT32 PF_OCT None 0];
  (* PPME_SYSCALL_OPENAT_X *) mk_event "openat" EC_FILE (Z.lor (Z.lor EF_CREATES_FD EF_MODIFIES_STATE) EF_OLD_VERSION) 1 [mk_param "fd" PT_FD PF_DEC None 0];
  (* PPME_SYSCALL_LINK_E *) mk_event "link" EC_FILE EF_OLD_VERSION 2 [mk_param "oldpath" PT_FSPATH PF_NA None 0;
      mk_param "newpath" PT_FSPATH PF_NA None 0];
  (* PPME_SYSCALL_LINK_X *) mk_event "link" EC_FILE EF_OLD_VERSION 1 [mk_param "res" PT_ERRNO PF_DEC None 0];
  (* PPME_SYSCALL_LINKAT_E *) mk_event "linkat" EC_FILE EF_OLD_VERSION 4 [mk_param "olddir" PT_FD PF_DEC None 0;
      mk_param "oldpath" PT_CHARBUF PF_NA None 0;
      mk_param "newdir" PT_FD PF_DEC None 0;
      mk_param "newpath" PT_CHARBUF PF_NA None 0];
  (* PPME_SYSCALL_LINKAT_X *) mk_event "linkat" EC_FILE EF_OLD_VERSION 1 [mk_param "res" PT_ERRNO PF_DEC None 0];
  (* PPME_SYSCALL_UNLINK_E *) mk_event "unlink" EC_FILE EF_OLD_VERSION 1 [mk_param "path" PT_FSPATH PF_NA None 0];
  (* PPME_SYSCALL_UNLINK_X *) mk_event "unlink" EC_FILE EF_OLD_VERSION 1 [mk_param "res" PT_ERRNO PF_DEC None 0];
  (* PPME_SYSCALL_UNLINKAT_E *) mk_event "unlinkat" EC_FILE EF_OLD_VERSION 2 [mk_param "dirfd" PT_FD PF_DEC None 0;
      mk_param "name" PT_CHARBUF PF_NA None 0];
  (* PPME_SYSCALL_UNLINKAT_X *) mk_event "unlinkat" EC_FILE EF_OLD_VERSION 1 [mk_param "res" PT_ERRNO PF_DEC None 0];
  (* PPME_SYSCALL_PREAD_E *) mk_event "pread" EC_IO_READ (Z.lor (Z.lor EF_USES_FD EF_READS_FROM_FD) EF_DROP_SIMPLE_CONS) 3 [mk_param "fd" PT_FD PF_DEC None 0;
      mk_param "size" PT_UINT32 PF_DEC None 0;
      mk_param "pos" PT_UINT64 PF_DEC None 0];
  (* PPME_SYSCALL_PREAD_X *) mk_event "pread" EC_IO_READ (Z.lor (Z.lor EF_USES_FD EF_READS_FROM_FD) EF_DROP_SIMPLE_CONS) 2 [mk_param "res" PT_ERRNO PF_DEC None 0;
      mk_param "data" PT_BYTEBUF PF_NA None 0];
  (* PPME_SYSCALL_PWRITE_E *) mk_event "pwrite" EC_IO_WRITE (Z.lor (Z.lor EF_USES_FD EF_WRITES_TO_FD) EF_DROP_SIMPLE_CONS) 3 [mk_param "fd" PT_FD PF_DEC None 0;
      mk_param "size" PT_UINT32 PF_DEC None 0;
      mk_param "pos" PT_UINT64 PF_DEC None 0];
  (* PPME_SYSCALL_PWRITE_X *) mk_event "pwrite" EC_IO_WRITE (Z.lor (Z.lor EF_USES_FD EF_WRITES_TO_FD) EF_DROP_SIMPLE_CONS) 2 [mk_param "res" PT_ERRNO PF_DEC None 0;
      mk_param "data" PT_BYTEBUF PF_NA None 0];
  (* PPME_SYSCALL_READV_E *) mk_event "readv" EC_IO_READ (Z.lor (Z.lor EF_USES_FD EF_READS_FROM_FD) EF_DROP_SIMPLE_CONS) 1 [mk_param "fd" PT_FD PF_DEC None 0];
  (* PPME_SYSCALL_READV_X *) mk_event "readv" EC_IO_READ (Z.lor (Z.lor EF_USES_FD EF_READS_FROM_FD) EF_DROP_SIMPLE_CONS) 3 [mk_param "res" PT_ERRNO PF_DEC None 0;
      mk_param "size" PT_UINT32 PF_DEC None 0;
      mk_param "data" PT_BYTEBUF PF_NA None 0];
  (* PPME_SYSCALL_WRITEV_E *) mk_event "writev" EC_IO_WRITE (Z.lor (Z.lor EF_USES_FD EF_WRITES_TO_FD) EF_DROP_SIMPLE_CONS) 2 [mk_param "fd" PT_FD PF_DEC None 0;
      mk_param "size" PT_UINT32 PF_DEC None 0];
  (* PPME_SYSCALL_WRITEV_X *) mk_event "writev" EC_IO_WRITE (Z.lor (Z.lor EF_USES_FD EF_WRITES_TO_FD) EF_DROP_SIMPLE_CONS) 2 [mk_param "res" PT_ERRNO PF_DEC None 0;
      mk_param "data" PT_BYTEBUF PF_NA None 0]].

Definition g_event_info_2 : list ppm_event_info := [
  (* PPME_SYSCALL_PREADV_E *) mk_event "preadv" EC_IO_READ (Z.lor (Z.lor EF_USES_FD EF_READS_FROM_FD) EF_DROP_SIMPLE_CONS) 2 [mk_param "fd" PT_FD PF_DEC None 0;
      mk_param "pos" PT_UINT64 PF_DEC None 0];
  (* PPME_SYSCALL_PREADV_X *) mk_event "preadv" EC_IO_READ (Z.lor (Z.lor EF_USES_FD EF_READS_FROM_FD) EF_DROP_SIMPLE_CONS) 3 [mk_param "res" PT_ERRNO PF_DEC None 0;
      mk_param "size" PT_UINT32 PF_DEC None 0;
      mk_param "data" PT_BYTEBUF PF_NA None 0];
  (* PPME_SYSCALL_PWRITEV_E *) mk_event "pwritev" EC_IO_WRITE (Z.lor (Z.lor EF_USES_FD EF_WRITES_TO_FD) EF_DROP_SIMPLE_CONS) 3 [mk_param "fd" PT_FD PF_DEC None 0;
      mk_param "size" PT_UINT32 PF_DEC None 0;
      mk_param "pos" PT_UINT64 PF_DEC None 0];
  (* PPME_SYSCALL_PWRITEV_X *) mk_event "pwritev" EC_IO_WRITE (Z.lor (Z.lor EF_USES_FD EF_WRITES_TO_FD) EF_DROP_SIMPLE_CONS) 2 [mk_param "res" PT_ERRNO PF_DEC None 0;
      mk_param "data" PT_BYTEBUF PF_NA None 0];
  (* PPME_SYSCALL_DUP_E *) mk_event "dup" EC_IO_OTHER (Z.lor (Z.lor EF_CREATES_FD EF_USES_FD) EF_MODIFIES_STATE) 1 [mk_param "fd" PT_FD PF_DEC None 0];
  (* PPME_SYSCALL_DUP_X *) mk_event "dup" EC_IO_OTHER (Z.lor (Z.lor EF_CREATES_FD EF_USES_FD) EF_MODIFIES_STATE) 1 [mk_param "res" PT_FD PF_DEC None 0];
  (* PPME_SYSCALL_SIGNALFD_E *) mk_event "signalfd" EC_SIGNAL (Z.lor EF_CREATES_FD EF_MODIFIES_STATE) 3 [mk_param "fd" PT_FD PF_DEC None 0;
      mk_param "mask" PT_UINT32 PF_HEX None 0;
      mk_param "flags" PT_FLAGS8 PF_HEX None 0];
  (* PPME_SYSCALL_SIGNALFD_X *) mk_event "signalfd" EC_SIGNAL (Z.lor EF_CREATES_FD EF_MODIFIES_STATE) 1 [mk_param "res" PT_FD PF_DEC None 0];
  (* PPME_SYSCALL_KILL_E *) mk_event "kill" EC_SIGNAL EF_NONE 2 [mk_param "pid" PT_PID PF_DEC None 0;
      mk_param "sig" PT_SIGTYPE PF_DEC None 0];
  (* PPME_SYSCALL_KILL_X *) mk_event "kill" EC_SIGNAL EF_NONE 1 [mk_param "res" PT_ERRNO PF_DEC None 0];
  (* PPME_SYSCALL_TKILL_E *) mk_event "tkill" EC_SIGNAL EF_NONE 2 [mk_param "tid" PT_PID PF_DEC None 0;
      mk_param "sig" PT_SIGTYPE PF_DEC None 0];
  (* PPME_SYSCALL_TKILL_X *) mk_event "tkill" EC_SIGNAL EF_NONE 1 [mk_param "res" PT_ERRNO PF_DEC None 0];
  (* PPME_SYSCALL_TGKILL_E *) mk_event "tgkill" EC_SIGNAL EF_NONE 3 [mk_param "pid" PT_PID PF_DEC None 0;
      mk_param "tid" PT_PID PF_DEC None 0;
      mk_param "sig" PT_SIGTYPE PF_DEC None 0];
  (* PPME_SYSCALL_TGKILL_X *) mk_event "tgkill" EC_SIGNAL EF_NONE 1 [mk_param "res" PT_ERRNO PF_DEC None 0];
  (* PPME_SYSCALL_NANOSLEEP_E *) mk_event "nanosleep" EC_SLEEP (Z.lor EF_WAITS EF_DROP_SIMPLE_CONS) 1 [mk_param "interval" PT_RELTIME PF_DEC None 0];
  (* PPME_SYSCALL_NANOSLEEP_X *) mk_event "nanosleep" EC_SLEEP (Z.lor EF_WAITS EF_DROP_SIMPLE_CONS) 1 [mk_param "res" PT_ERRNO PF_DEC None 0];
  (* PPME_SYSCALL_TIMERFD_CREATE_E *) mk_event "timerfd_create" EC_TIME (Z.lor (Z.lor EF_CREATES_FD EF_MODIFIES_STATE) EF_DROP_SIMPLE_CONS) 2 [mk_param "clockid" PT_UINT8 PF_DEC None 0;
      mk_param "flags" PT_FLAGS8 PF_HEX None 0];
  (* PPME_SYSCALL_TIMERFD_CREATE_X *) mk_event "timerfd_create" EC_TIME (Z.lor (Z.lor EF_CREATES_FD EF_MODIFIES_STATE) EF_DROP_SIMPLE_CONS) 1 [mk_param "res" PT_FD PF_DEC None 0];
  (* PPME_SYSCALL_INOTIFY_INIT_E *) mk_event "inotify_init" EC_IPC (Z.lor EF_CREATES_FD EF_MODIFIES_STATE) 1 [mk_param "flags" PT_FLAGS8 PF_HEX None 0];
  (* PPME_SYSCALL_INOTIFY_INIT_X *) mk_event "inotify_init" EC_IPC (Z.lor EF_CREATES_FD EF_MODIFIES_STATE) 1 [mk_param "res" PT_FD PF_DEC None 0];
  (* PPME_SYSCALL_GETRLIMIT_E *) mk_event "getrlimit" EC_PROCESS EF_DROP_SIMPLE_CONS 1 [mk_param "resource" PT_FLAGS8 PF_DEC (Some (FlagsTable "rlimit_resources")) 0];
  (* PPME_SYSCALL_GETRLIMIT_X *) mk_event "getrlimit" EC_PROCESS EF_DROP_SIMPLE_CONS 3 [mk_param "res" PT_ERRNO PF_DEC None 0;
      mk_param "cur" PT_INT64 PF_DEC None 0;
      mk_param "max" PT_INT64 PF_DEC None 0];
  (* PPME_SYSCALL_SETRLIMIT_E *) mk_event "setrlimit" EC_PROCESS EF_DROP_SIMPLE_CONS 1 [mk_param "resource" PT_FLAGS8 PF_DEC (Some (FlagsTable "rlimit_resources")) 0];
  (* PPME_SYSCALL_SETRLIMIT_X *) mk_event "setrlimit" EC_PROCESS EF_DROP_SIMPLE_CONS 3 [mk_param "res" PT_ERRNO PF_DEC None 0;
      mk_param "cur" PT_INT64 PF_DEC None 0;
      mk_param "max" PT_INT64 PF_DEC None 0];
  (* PPME_SYSCALL_PRLIMIT_E *) mk_event "prlimit" EC_PROCESS EF_NONE 2 [mk_param "pid" PT_PID PF_DEC None 0;
      mk_param "resource" PT_FLAGS8 PF_DEC (Some (FlagsTable "rlimit_resources")) 0];
  (* PPME_SYSCALL_PRLIMIT_X *) mk_event "prlimit" EC_PROCESS EF_NONE 5 [mk_param "res" PT_ERRNO PF_DEC None 0;
      mk_param "newcur" PT_INT64 PF_DEC None 0;
      mk_param "newmax" PT_INT64 PF_DEC None 0;
      mk_param "oldcur" PT_INT64 PF_DEC None 0;
      mk_param "oldmax" PT_INT64 PF_DEC None 0];
  (* PPME_SCHEDSWITCH_1_E *) mk_event "switch" EC_SCHEDULER (Z.lor (Z.lor EF_SKIPPARSERESET EF_OLD_VERSION) EF_DROP_SIMPLE_CONS) 1 [mk_param "next" PT_PID PF_DEC None 0];
  (* PPME_SCHEDSWITCH_1_X *) mk_event "NA2" EC_SCHEDULER (Z.lor (Z.lor EF_SKIPPARSERESET EF_UNUSED) EF_OLD_VERSION) 0 [];
  (* PPME_DROP_E *) mk_event "drop" EC_INTERNAL EF_SKIPPARSERESET 1 [mk_param "ratio" PT_UINT32 PF_DEC None 0];
  (* PPME_DROP_X *) mk_event "drop" EC_INTERNAL EF_SKIPPARSERESET 1 [mk_param "ratio" PT_UINT32 PF_DEC None 0];
  (* PPME_SYSCALL_FCNTL_E *) mk_event "fcntl" EC_IO_OTHER (Z.lor (Z.lor EF_USES_FD EF_MODIFIES_STATE) EF_DROP_SIMPLE_CONS) 2 [mk_param "fd" PT_FD PF_DEC None 0;
      mk_param "cmd" PT_FLAGS8 PF_DEC (Some (FlagsTable "fcntl_commands")) 0];
  (* PPME_SYSCALL_FCNTL_X *) mk_event "fcntl" EC_IO_OTHER (Z.lor (Z.lor EF_USES_FD EF_MODIFIES_STATE) EF_DROP_SIMPLE_CONS) 1 [mk_param "res" PT_FD PF_DEC None 0];
  (* PPME_SCHEDSWITCH_6_E *) mk_event "switch" EC_SCHEDULER EF_DROP_SIMPLE_CONS 6 [mk_param "next" PT_PID PF_DEC None 0;
      mk_param "pgft_maj" PT_UINT64 PF_DEC None 0;
      mk_param "pgft_min" PT_UINT64 PF_DEC None 0;
      mk_param "vm_size" PT_UINT32 PF_DEC None 0;
      mk_param "vm_rss" PT_UINT32 PF_DEC None 0;
      mk_param "vm_swap" PT_UINT32 PF_DEC None 0];
  (* PPME_SCHEDSWITCH_6_X *) mk_event "NA2" EC_SCHEDULER EF_UNUSED 0 [];
  (* PPME_SYSCALL_EXECVE_13_E *) mk_event "execve" EC_PROCESS (Z.lor EF_MODIFIES_STATE EF_OLD_VERSION) 0 [];
  (* PPME_SYSCALL_EXECVE_13_X *) mk_event "execve" EC_PROCESS (Z.lor EF_MODIFIES_STATE EF_OLD_VERSION) 13 [mk_param "res" PT_ERRNO PF_DEC None 0;
      mk_param "exe" PT_CHARBUF PF_NA None 0;
      mk_param "args" PT_BYTEBUF PF_NA None 0;
      mk_param "tid" PT_PID PF_DEC None 0;
      mk_param "pid" PT_PID PF_DEC None 0;
      mk_param "ptid" PT_PID PF_DEC None 0;
      mk_param "cwd" PT_CHARBUF PF_NA None 0;
      mk_param "fdlimit" PT_UINT64 PF_DEC None 0;
      mk_param "pgft_maj" PT_UINT64 PF_DEC None 0;
      mk_param "pgft_min" PT_UINT64 PF_DEC None 0;
      mk_param "vm_size" PT_UINT32 PF_DEC None 0;
      mk_param "vm_rss" PT_UINT32 PF_DEC None 0;
      mk_param "vm_swap" PT_UINT32 PF_DEC None 0];
  (* PPME_CLONE_16_E *) mk_event "clone" EC_PROCESS (Z.lor EF_MODIFIES_STATE EF_OLD_VERSION) 0 [];
  (* PPME_CLONE_16_X *) mk_event "clone" EC_PROCESS (Z.lor EF_MODIFIES_STATE EF_OLD_VERSION) 16 [mk_param "res" PT_PID PF_DEC None 0;
      mk_param "exe" PT_CHARBUF PF_NA None 0;
      mk_param "args" PT_BYTEBUF PF_NA None 0;
      mk_param "tid" PT_PID PF_DEC None 0;
      mk_param "pid" PT_PID PF_DEC None 0;
      mk_param "ptid" PT_PID PF_DEC None 0;
      mk_param "cwd" PT_CHARBUF PF_NA None 0;
      mk_param "fdlimit" PT_INT64 PF_DEC None 0;
      mk_param "pgft_maj" PT_UINT64 PF_DEC None 0;
      mk_param "pgft_min" PT_UINT64 PF_DEC None 0;
      mk_param "vm_size" PT_UINT32 PF_DEC None 0;
      mk_param "vm_rss" PT_UINT32 PF_DEC None 0;
      mk_param "vm_swap" PT_UINT32 PF_DEC None 0;
      mk_param "flags" PT_FLAGS32 PF_HEX (Some (FlagsTable "clone_flags")) 0;
      mk_param "uid" PT_UINT32 PF_DEC None 0;
      mk_param "gid" PT_UINT32 PF_DEC None 0];
  (* PPME_SYSCALL_BRK_4_E *) mk_event "brk" EC_MEMORY EF_DROP_SIMPLE_CONS 1 [mk_param "addr" PT_UINT64 PF_HEX None 0];
  (* PPME_SYSCALL_BRK_4_X *) mk_event "brk" EC_MEMORY EF_DROP_SIMPLE_CONS 4 [mk_param "res" PT_UINT64 PF_HEX None 0;
      mk_param "vm_size" PT_UINT32 PF_DEC None 0;
      mk_param "vm_rss" PT_UINT32 PF_DEC None 0;
      mk_param "vm_swap" PT_UINT32 PF_DEC None 0];
  (* PPME_SYSCALL_MMAP_E *) mk_event "mmap" EC_MEMORY EF_DROP_SIMPLE_CONS 6 [mk_param "addr" PT_UINT64 PF_HEX None 0;
      mk_param "length" PT_UINT64 PF_DEC None 0;
      mk_param "prot" PT_FLAGS32 PF_HEX (Some (FlagsTable "prot_flags")) 0;
      mk_param "flags" PT_FLAGS32 PF_HEX (Some (FlagsTable "mmap_flags")) 0;
      mk_param "fd" PT_FD PF_DEC None 0;
      mk_param "offset" PT_UINT64 PF_DEC None 0];
  (* PPME_SYSCALL_MMAP_X *) mk_event "mmap" EC_MEMORY EF_DROP_SIMPLE_CONS 4 [mk_param "res" PT_UINT64 PF_HEX None 0;
      mk_param "vm_size" PT_UINT32 PF_DEC None 0;
      mk_param "vm_rss" PT_UINT32 PF_DEC None 0;
      mk_param "vm_swap" PT_UINT32 PF_DEC None 0];
  (* PPME_SYSCALL_MMAP2_E *) mk_event "mmap2" EC_MEMORY EF_DROP_SIMPLE_CONS 6 [mk_param "addr" PT_UINT64 PF_HEX None 0;
      mk_param "length" PT_UINT64 PF_DEC None 0;
      mk_param "prot" PT_FLAGS32 PF_HEX (Some (FlagsTable "prot_flags")) 0;
      mk_param "flags" PT_FLAGS32 PF_HEX (Some (FlagsTable "mmap_flags")) 0;
      mk_param "fd" PT_FD PF_DEC None 0;
      mk_param "pgoffset" PT_UINT64 PF_DEC None 0];
  (* PPME_SYSCALL_MMAP2_X *) mk_event "mmap2" EC_MEMORY EF_DROP_SIMPLE_CONS 4 [mk_param "res" PT_UINT64 PF_HEX None 0;
      mk_param "vm_size" PT_UINT32 PF_DEC None 0;
      mk_param "vm_rss" PT_UINT32 PF_DEC None 0;
      mk_param "vm_swap" PT_UINT32 PF_DEC None 0];
  (* PPME_SYSCALL_MUNMAP_E *) mk_event "munmap" EC_MEMORY EF_DROP_SIMPLE_CONS 2 [mk_param "addr" PT_UINT64 PF_HEX None 0;
      mk_param "length" PT_UINT64 PF_DEC None 0];
  (* PPME_SYSCALL_MUNMAP_X *) mk_event "munmap" EC_MEMORY EF_DROP_SIMPLE_CONS 4 [mk_param "res" PT_ERRNO PF_DEC None 0;
      mk_param "vm_size" PT_UINT32 PF_DEC None 0;
      mk_param "vm_rss" PT_UINT32 PF_DEC None 0;
      mk_param "vm_swap" PT_UINT32 PF_DEC None 0];
  (* PPME_SYSCALL_SPLICE_E *) mk_event "splice" EC_IO_OTHER (Z.lor EF_USES_FD EF_DROP_SIMPLE_CONS) 4 [mk_param "fd_in" PT_FD PF_DEC None 0;
      mk_param "fd_out" PT_FD PF_DEC None 0;
      mk_param "size" PT_UINT64 PF_DEC None 0;
      mk_param "flags" PT_FLAGS32 PF_HEX (Some (FlagsTable "splice_flags")) 0];
  (* PPME_SYSCALL_SPLICE_X *) mk_event "splice" EC_IO_OTHER (Z.lor EF_USES_FD EF_DROP_SIMPLE_CONS) 1 [mk_param "res" PT_ERRNO PF_DEC None 0];
  (* PPME_SYSCALL_PTRACE_E *) mk_event "ptrace" EC_PROCESS EF_NONE 2 [mk_param "request" PT_FLAGS16 PF_DEC (Some (FlagsTable "ptrace_requests")) 0;
      mk_param "pid" PT_PID PF_DEC None 0];
  (* PPME_SYSCALL_PTRACE_X *) mk_event "ptrace" EC_PROCESS EF_NONE 3 [mk_param "res" PT_ERRNO PF_DEC None 0;
      mk_param "addr" PT_DYN PF_HEX (Some ptrace_dynamic_param) PPM_PTRACE_IDX_MAX;
      mk_param "data" PT_DYN PF_HEX (Some ptrace_dynamic_param) PPM_PTRACE_IDX_MAX];
  (* PPME_SYSCALL_IOCTL_3_E *) mk_event "ioctl" EC_IO_OTHER EF_USES_FD 3 [mk_param "fd" PT_FD PF_DEC None 0;
      mk_param "request" PT_UINT64 PF_HEX None 0;
      mk_param "argument" PT_UINT64 PF_HEX None 0];
  (* PPME_SYSCALL_IOCTL_3_X *) mk_event "ioctl" EC_IO_OTHER EF_USES_FD 1 [mk_param "res" PT_ERRNO PF_DEC None 0];
  (* PPME_SYSCALL_EXECVE_14_E *) mk_event "execve" EC_PROCESS (Z.lor EF_MODIFIES_STATE EF_OLD_VERSION) 0 [];
  (* PPME_SYSCALL_EXECVE_14_X *) mk_event "execve" EC_PROCESS (Z.lor EF_MODIFIES_STATE EF_OLD_VERSION) 14 [mk_param "res" PT_ERRNO PF_DEC None 0;
      mk_param "exe" PT_CHARBUF PF_NA None 0;
      mk_param "args" PT_BYTEBUF PF_NA None 0;
      mk_param "tid" PT_PID PF_DEC None 0;
      mk_param "pid" PT_PID PF_DEC None 0;
      mk_param "ptid" PT_PID PF_DEC None 0;
      mk_param "cwd" PT_CHARBUF PF_NA None 0;
      mk_param "fdlimit" PT_UINT64 PF_DEC None 0;
      mk_param "pgft_maj" PT_UINT64 PF_DEC None 0;
      mk_param "pgft_min" PT_UINT64 PF_DEC None 0;
      mk_param "vm_size" PT_UINT32 PF_DEC None 0;
      mk_param "vm_rss" PT_UINT32 PF_DEC None 0;
      mk_param "vm_swap" PT_UINT32 PF_DEC None 0;
      mk_param "env" PT_BYTEBUF PF_NA None 0];
  (* PPME_SYSCALL_RENAME_E *) mk_event "rename" EC_FILE EF_NONE 0 [];
  (* PPME_SYSCALL_RENAME_X *) mk_event "rename" EC_FILE EF_NONE 3 [mk_param "res" PT_ERRNO PF_DEC None 0;
      mk_param "oldpath" PT_FSPATH PF_NA None 0;
      mk_param "newpath" PT_FSPATH PF_NA None 0];
  (* PPME_SYSCALL_RENAMEAT_E *) mk_event "renameat" EC_FILE EF_NONE 0 [];
  (* PPME_SYSCALL_RENAMEAT_X *) mk_event "renameat" EC_FILE EF_NONE 5 [mk_param "res" PT_ERRNO PF_DEC None 0;
      mk_param "olddirfd" PT_FD PF_DEC None 0;
      mk_param "oldpath" PT_FSRELPATH PF_NA (Some (DirfdParam 1)) 0;
      mk_param "newdirfd" PT_FD PF_DEC None 0;
      mk_param "newpath" PT_FSRELPATH PF_NA (Some (DirfdParam 3)) 0];
  (* PPME_SYSCALL_SYMLINK_E *) mk_event "symlink" EC_FILE EF_NONE 0 [];
  (* PPME_SYSCALL_SYMLINK_X *) mk_event "symlink" EC_FILE EF_NONE 3 [mk_param "res" PT_ERRNO PF_DEC None 0;
      mk_param "target" PT_CHARBUF PF_NA None 0;
      mk_param "linkpath" PT_FSPATH PF_NA None 0]].

Definition g_event_info_3 : list ppm_event_info := [
  (* PPME_SYSCALL_SYMLINKAT_E *) mk_event "symlinkat" EC_FILE EF_NONE 0 [];
  (* PPME_SYSCALL_SYMLINKAT_X *) mk_event "symlinkat" EC_FILE EF_NONE 4 [mk_param "res" PT_ERRNO PF_DEC None 0;
      mk_param "target" PT_CHARBUF PF_NA None 0;
      mk_param "linkdirfd" PT_FD PF_DEC None 0;
      mk_param "linkpath" PT_FSRELPATH PF_NA (Some (DirfdParam 2)) 0];
  (* PPME_SYSCALL_FORK_E *) mk_event "fork" EC_PROCESS (Z.lor EF_MODIFIES_STATE EF_OLD_VERSION) 0 [];
  (* PPME_SYSCALL_FORK_X *) mk_event "fork" EC_PROCESS (Z.lor EF_MODIFIES_STATE EF_OLD_VERSION) 16 [mk_param "res" PT_PID PF_DEC None 0;
      mk_param "exe" PT_CHARBUF PF_NA None 0;
      mk_param "args" PT_BYTEBUF PF_NA None 0;
      mk_param "tid" PT_PID PF_DEC None 0;
      mk_param "pid" PT_PID PF_DEC None 0;
      mk_param "ptid" PT_PID PF_DEC None 0;
      mk_param "cwd" PT_CHARBUF PF_NA None 0;
      mk_param "fdlimit" PT_INT64 PF_DEC None 0;
      mk_param "pgft_maj" PT_UINT64 PF_DEC None 0;
      mk_param "pgft_min" PT_UINT64 PF_DEC None 0;
      mk_param "vm_size" PT_UINT32 PF_DEC None 0;
      mk_param "vm_rss" PT_UINT32 PF_DEC None 0;
      mk_param "vm_swap" PT_UINT32 PF_DEC None 0;
      mk_param "flags" PT_FLAGS32 PF_HEX (Some (FlagsTable "clone_flags")) 0;
      mk_param "uid" PT_UINT32 PF_DEC None 0;
      mk_param "gid" PT_UINT32 PF_DEC None 0];
  (* PPME_SYSCALL_VFORK_E *) mk_event "vfork" EC_PROCESS (Z.lor EF_MODIFIES_STATE EF_OLD_VERSION) 0 [];
  (* PPME_SYSCALL_VFORK_X *) mk_event "vfork" EC_PROCESS (Z.lor EF_MODIFIES_STATE EF_OLD_VERSION) 16 [mk_param "res" PT_PID PF_DEC None 0;
      mk_param "exe" PT_CHARBUF PF_NA None 0;
      mk_param "args" PT_BYTEBUF PF_NA None 0;
      mk_param "tid" PT_PID PF_DEC None 0;
      mk_param "pid" PT_PID PF_DEC None 0;
      mk_param "ptid" PT_PID PF_DEC None 0;
      mk_param "cwd" PT_CHARBUF PF_NA None 0;
      mk_param "fdlimit" PT_INT64 PF_DEC None 0;
      mk_param "pgft_maj" PT_UINT64 PF_DEC None 0;
      mk_param "pgft_min" PT_UINT64 PF_DEC None 0;
      mk_param "vm_size" PT_UINT32 PF_DEC None 0;
      mk_param "vm_rss" PT_UINT32 PF_DEC None 0;
      mk_param "vm_swap" PT_UINT32 PF_DEC None 0;
      mk_param "flags" PT_FLAGS32 PF_HEX (Some (FlagsTable "clone_flags")) 0;
      mk_param "uid" PT_UINT32 PF_DEC None 0;
      mk_param "gid" PT_UINT32 PF_DEC None 0];
  (* PPME_PROCEXIT_1_E *) mk_event "procexit" EC_PROCESS EF_MODIFIES_STATE 1 [mk_param "status" PT_ERRNO PF_DEC None 0];
  (* PPME_NA1 *) mk_event "NA1" EC_PROCESS EF_UNUSED 0 [];
  (* PPME_SYSCALL_SENDFILE_E *) mk_event "sendfile" EC_IO_WRITE (Z.lor EF_USES_FD EF_DROP_SIMPLE_CONS) 4 [mk_param "out_fd" PT_FD PF_DEC None 0;
      mk_param "in_fd" PT_FD PF_DEC None 0;
      mk_param "offset" PT_UINT64 PF_DEC None 0;
      mk_param "size" PT_UINT64 PF_DEC None 0];
  (* PPME_SYSCALL_SENDFILE_X *) mk_event "sendfile" EC_IO_WRITE (Z.lor EF_USES_FD EF_DROP_SIMPLE_CONS) 2 [mk_param "res" PT_ERRNO PF_DEC None 0;
      mk_param "offset" PT_UINT64 PF_DEC None 0];
  (* PPME_SYSCALL_QUOTACTL_E *) mk_event "quotactl" EC_USER EF_NONE 4 [mk_param "cmd" PT_FLAGS16 PF_DEC (Some (FlagsTable "quotactl_cmds")) 0;
      mk_param "type" PT_FLAGS8 PF_DEC (Some (FlagsTable "quotactl_types")) 0;
      mk_param "id" PT_UINT32 PF_DEC None 0;
      mk_param "quota_fmt" PT_FLAGS8 PF_DEC (Some (FlagsTable "quotactl_quota_fmts")) 0];
  (* PPME_SYSCALL_QUOTACTL_X *) mk_event "quotactl" EC_USER EF_NONE 14 [mk_param "res" PT_ERRNO PF_DEC None 0;
      mk_param "special" PT_CHARBUF PF_NA None 0;
      mk_param "quotafilepath" PT_CHARBUF PF_NA None 0;
      mk_param "dqb_bhardlimit" PT_UINT64 PF_DEC None 0;
      mk_param "dqb_bsoftlimit" PT_UINT64 PF_DEC None 0;
      mk_param "dqb_curspace" PT_UINT64 PF_DEC None 0;
      mk_param "dqb_ihardlimit" PT_UINT64 PF_DEC None 0;
      mk_param "dqb_isoftlimit" PT_UINT64 PF_DEC None 0;
      mk_param "dqb_btime" PT_RELTIME PF_DEC None 0;
      mk_param "dqb_itime" PT_RELTIME PF_DEC None 0;
      mk_param "dqi_bgrace" PT_RELTIME PF_DEC None 0;
      mk_param "dqi_igrace" PT_RELTIME PF_DEC None 0;
      mk_param "dqi_flags" PT_FLAGS8 PF_DEC (Some (FlagsTable "quotactl_dqi_flags")) 0;
      mk_param "quota_fmt_out" PT_FLAGS8 PF_DEC (Some (FlagsTable "quotactl_quota_fmts")) 0];
  (* PPME_SYSCALL_SETRESUID_E *) mk_event "setresuid" EC_USER EF_MODIFIES_STATE 3 [mk_param "ruid" PT_UID PF_DEC None 0;
      mk_param "euid" PT_UID PF_DEC None 0;
      mk_param "suid" PT_UID PF_DEC None 0];
  (* PPME_SYSCALL_SETRESUID_X *) mk_event "setresuid" EC_USER EF_MODIFIES_STATE 1 [mk_param "res" PT_ERRNO PF_DEC None 0];
  (* PPME_SYSCALL_SETRESGID_E *) mk_event "setresgid" EC_USER EF_MODIFIES_STATE 3 [mk_param "rgid" PT_GID PF_DEC None 0;
      mk_param "egid" PT_GID PF_DEC None 0;
      mk_param "sgid" PT_GID PF_DEC None 0];
  (* PPME_SYSCALL_SETRESGID_X *) mk_event "setresgid" EC_USER EF_MODIFIES_STATE 1 [mk_param "res" PT_ERRNO PF_DEC None 0];
  (* PPME_SYSDIGEVENT_E *) mk_event "sysdigevent" EC_INTERNAL EF_SKIPPARSERESET 2 [mk_param "event_type" PT_UINT32 PF_DEC None 0;
      mk_param "event_data" PT_UINT64 PF_DEC None 0];
  (* PPME_NA1 *) mk_event "sysdigevent" EC_INTERNAL EF_UNUSED 0 [];
  (* PPME_SYSCALL_SETUID_E *) mk_event "setuid" EC_USER EF_MODIFIES_STATE 1 [mk_param "uid" PT_UID PF_DEC None 0];
  (* PPME_SYSCALL_SETUID_X *) mk_event "setuid" EC_USER EF_MODIFIES_STATE 1 [mk_param "res" PT_ERRNO PF_DEC None 0];
  (* PPME_SYSCALL_SETGID_E *) mk_event "setgid" EC_USER EF_MODIFIES_STATE 1 [mk_param "gid" PT_GID PF_DEC None 0];
  (* PPME_SYSCALL_SETGID_X *) mk_event "setgid" EC_USER EF_MODIFIES_STATE 1 [mk_param "res" PT_ERRNO PF_DEC None 0];
  (* PPME_SYSCALL_GETUID_E *) mk_event "getuid" EC_USER EF_DROP_SIMPLE_CONS 0 [];
  (* PPME_SYSCALL_GETUID_X *) mk_event "getuid" EC_USER EF_DROP_SIMPLE_CONS 1 [mk_param "uid" PT_UID PF_DEC None 0];
  (* PPME_SYSCALL_GETEUID_E *) mk_event "geteuid" EC_USER EF_DROP_SIMPLE_CONS 0 [];
  (* PPME_SYSCALL_GETEUID_X *) mk_event "geteuid" EC_USER EF_DROP_SIMPLE_CONS 1 [mk_param "euid" PT_UID PF_DEC None 0];
  (* PPME_SYSCALL_GETGID_E *) mk_event "getgid" EC_USER EF_DROP_SIMPLE_CONS 0 [];
  (* PPME_SYSCALL_GETGID_X *) mk_event "getgid" EC_USER EF_DROP_SIMPLE_CONS 1 [mk_param "gid" PT_GID PF_DEC None 0];
  (* PPME_SYSCALL_GETEGID_E *) mk_event "getegid" EC_USER EF_DROP_SIMPLE_CONS 0 [];
  (* PPME_SYSCALL_GETEGID_X *) mk_event "getegid" EC_USER EF_DROP_SIMPLE_CONS 1 [mk_param "egid" PT_GID PF_DEC None 0];
  (* PPME_SYSCALL_GETRESUID_E *) mk_event "getresuid" EC_USER EF_DROP_SIMPLE_CONS 0 [];
  (* PPME_SYSCALL_GETRESUID_X *) mk_event "getresuid" EC_USER EF_DROP_SIMPLE_CONS 4 [mk_param "res" PT_ERRNO PF_DEC None 0;
      mk_param "ruid" PT_UID PF_DEC None 0;
      mk_param "euid" PT_UID PF_DEC None 0;
      mk_param "suid" PT_UID PF_DEC None 0];
  (* PPME_SYSCALL_GETRESGID_E *) mk_event "getresgid" EC_USER EF_DROP_SIMPLE_CONS 0 [];
  (* PPME_SYSCALL_GETRESGID_X *) mk_event "getresgid" EC_USER EF_DROP_SIMPLE_CONS 4 [mk_param "res" PT_ERRNO PF_DEC None 0;
      mk_param "rgid" PT_GID PF_DEC None 0;
      mk_param "egid" PT_GID PF_DEC None 0;
      mk_param "sgid" PT_GID PF_DEC None 0];
  (* PPME_SYSCALL_EXECVE_15_E *) mk_event "execve" EC_PROCESS (Z.lor EF_MODIFIES_STATE EF_OLD_VERSION) 0 [];
  (* PPME_SYSCALL_EXECVE_15_X *) mk_event "execve" EC_PROCESS (Z.lor EF_MODIFIES_STATE EF_OLD_VERSION) 15 [mk_param "res" PT_ERRNO PF_DEC None 0;
      mk_param "exe" PT_CHARBUF PF_NA None 0;
      mk_param "args" PT_BYTEBUF PF_NA None 0;
      mk_param "tid" PT_PID PF_DEC None 0;
      mk_param "pid" PT_PID PF_DEC None 0;
      mk_param "ptid" PT_PID PF_DEC None 0;
      mk_param "cwd" PT_CHARBUF PF_NA None 0;
      mk_param "fdlimit" PT_UINT64 PF_DEC None 0;
      mk_param "pgft_maj" PT_UINT64 PF_DEC None 0;
      mk_param "pgft_min" PT_UINT64 PF_DEC None 0;
      mk_param "vm_size" PT_UINT32 PF_DEC None 0;
      mk_param "vm_rss" PT_UINT32 PF_DEC None 0;
      mk_param "vm_swap" PT_UINT32 PF_DEC None 0;
      mk_param "comm" PT_CHARBUF PF_NA None 0;
      mk_param "env" PT_BYTEBUF PF_NA None 0];
  (* PPME_CLONE_17_E *) mk_event "clone" EC_PROCESS (Z.lor EF_MODIFIES_STATE EF_OLD_VERSION) 0 [];
  (* PPME_CLONE_17_X *) mk_event "clone" EC_PROCESS (Z.lor EF_MODIFIES_STATE EF_OLD_VERSION) 17 [mk_param "res" PT_PID PF_DEC None 0;
      mk_param "exe" PT_CHARBUF PF_NA None 0;
      mk_param "args" PT_BYTEBUF PF_NA None 0;
      mk_param "tid" PT_PID PF_DEC None 0;
      mk_param "pid" PT_PID PF_DEC None 0;
      mk_param "ptid" PT_PID PF_DEC None 0;
      mk_param "cwd" PT_CHARBUF PF_NA None 0;
      mk_param "fdlimit" PT_INT64 PF_DEC None 0;
      mk_param "pgft_maj" PT_UINT64 PF_DEC None 0;
      mk_param "pgft_min" PT_UINT64 PF_DEC None 0;
      mk_param "vm_size" PT_UINT32 PF_DEC None 0;
      mk_param "vm_rss" PT_UINT32 PF_DEC None 0;
      mk_param "vm_swap" PT_UINT32 PF_DEC None 0;
      mk_param "comm" PT_CHARBUF PF_NA None 0;
      mk_param "flags" PT_FLAGS32 PF_HEX (Some (FlagsTable "clone_flags")) 0;
      mk_param "uid" PT_UINT32 PF_DEC None 0;
      mk_param "gid" PT_UINT32 PF_DEC None 0];
  (* PPME_SYSCALL_FORK_17_E *) mk_event "fork" EC_PROCESS (Z.lor EF_MODIFIES_STATE EF_OLD_VERSION) 0 [];
  (* PPME_SYSCALL_FORK_17_X *) mk_event "fork" EC_PROCESS (Z.lor EF_MODIFIES_STATE EF_OLD_VERSION) 17 [mk_param "res" PT_PID PF_DEC None 0;
      mk_param "exe" PT_CHARBUF PF_NA None 0;
      mk_param "args" PT_BYTEBUF PF_NA None 0;
      mk_param "tid" PT_PID PF_DEC None 0;
      mk_param "pid" PT_PID PF_DEC None 0;
      mk_param "ptid" PT_PID PF_DEC None 0;
      mk_param "cwd" PT_CHARBUF PF_NA None 0;
      mk_param "fdlimit" PT_INT64 PF_DEC None 0;
      mk_param "pgft_maj" PT_UINT64 PF_DEC None 0;
      mk_param "pgft_min" PT_UINT64 PF_DEC None 0;
      mk_param "vm_size" PT_UINT32 PF_DEC None 0;
      mk_param "vm_rss" PT_UINT32 PF_DEC None 0;
      mk_param "vm_swap" PT_UINT32 PF_DEC None 0;
      mk_param "comm" PT_CHARBUF PF_NA None 0;
      mk_param "flags" PT_FLAGS32 PF_HEX (Some (FlagsTable "clone_flags")) 0;
      mk_param "uid" PT_UINT32 PF_DEC None 0;
      mk_param "gid" PT_UINT32 PF_DEC None 0];
  (* PPME_SYSCALL_VFORK_17_E *) mk_event "vfork" EC_PROCESS (Z.lor EF_MODIFIES_STATE EF_OLD_VERSION) 0 [];
  (* PPME_SYSCALL_VFORK_17_X *) mk_event "vfork" EC_PROCESS (Z.lor EF_MODIFIES_STATE EF_OLD_VERSION) 17 [mk_param "res" PT_PID PF_DEC None 0;
      mk_param "exe" PT_CHARBUF PF_NA None 0;
      mk_param "args" PT_BYTEBUF PF_NA None 0;
      mk_param "tid" PT_PID PF_DEC None 0;
      mk_param "pid" PT_PID PF_DEC None 0;
      mk_param "ptid" PT_PID PF_DEC None 0;
      mk_param "cwd" PT_CHARBUF PF_NA None 0;
      mk_param "fdlimit" PT_INT64 PF_DEC None 0;
      mk_param "pgft_maj" PT_UINT64 PF_DEC None 0;
      mk_param "pgft_min" PT_UINT64 PF_DEC None 0;
      mk_param "vm_size" PT_UINT32 PF_DEC None 0;
      mk_param "vm_rss" PT_UINT32 PF_DEC None 0;
      mk_param "vm_swap" PT_UINT32 PF_DEC None 0;
      mk_param "comm" PT_CHARBUF PF_NA None 0;
      mk_param "flags" PT_FLAGS32 PF_HEX (Some (FlagsTable "clone_flags")) 0;
      mk_param "uid" PT_UINT32 PF_DEC None 0;
      mk_param "gid" PT_UINT32 PF_DEC None 0];
  (* PPME_CLONE_20_E *) mk_event "clone" EC_PROCESS EF_MODIFIES_STATE 0 [];
  (* PPME_CLONE_20_X *) mk_event "clone" EC_PROCESS EF_MODIFIES_STATE 20 [mk_param "res" PT_PID PF_DEC None 0;
      mk_param "exe" PT_CHARBUF PF_NA None 0;
      mk_param "args" PT_BYTEBUF PF_NA None 0;
      mk_param "tid" PT_PID PF_DEC None 0;
      mk_param "pid" PT_PID PF_DEC None 0;
      mk_param "ptid" PT_PID PF_DEC None 0;
      mk_param "cwd" PT_CHARBUF PF_NA None 0;
      mk_param "fdlimit" PT_INT64 PF_DEC None 0;
      mk_param "pgft_maj" PT_UINT64 PF_DEC None 0;
      mk_param "pgft_min" PT_UINT64 PF_DEC None 0;
      mk_param "vm_size" PT_UINT32 PF_DEC None 0;
      mk_param "vm_rss" PT_UINT32 PF_DEC None 0;
      mk_param "vm_swap" PT_UINT32 PF_DEC None 0;
      mk_param "comm" PT_CHARBUF PF_NA None 0;
      mk_param "cgroups" PT_BYTEBUF PF_NA None 0;
      mk_param "flags" PT_FLAGS32 PF_HEX (Some (FlagsTable "clone_flags")) 0;
      mk_param "uid" PT_UINT32 PF_DEC None 0;
      mk_param "gid" PT_UINT32 PF_DEC None 0;
      mk_param "vtid" PT_PID PF_DEC None 0;
      mk_param "vpid" PT_PID PF_DEC None 0];
  (* PPME_SYSCALL_FORK_20_E *) mk_event "fork" EC_PROCESS EF_MODIFIES_STATE 0 [];
  (* PPME_SYSCALL_FORK_20_X *) mk_event "fork" EC_PROCESS EF_MODIFIES_STATE 20 [mk_param "res" PT_PID PF_DEC None 0;
      mk_param "exe" PT_CHARBUF PF_NA None 0;
      mk_param "args" PT_BYTEBUF PF_NA None 0;
      mk_param "tid" PT_PID PF_DEC None 0;
      mk_param "pid" PT_PID PF_DEC None 0;
      mk_param "ptid" PT_PID PF_DEC None 0;
      mk_param "cwd" PT_CHARBUF PF_NA None 0;
      mk_param "fdlimit" PT_INT64 PF_DEC None 0;
      mk_param "pgft_maj" PT_UINT64 PF_DEC None 0;
      mk_param "pgft_min" PT_UINT64 PF_DEC None 0;
      mk_param "vm_size" PT_UINT32 PF_DEC None 0;
      mk_param "vm_rss" PT_UINT32 PF_DEC None 0;
      mk_param "vm_swap" PT_UINT32 PF_DEC None 0;
      mk_param "comm" PT_CHARBUF PF_NA None 0;
      mk_param "cgroups" PT_BYTEBUF PF_NA None 0;
      mk_param "flags" PT_FLAGS32 PF_HEX (Some (FlagsTable "clone_flags")) 0;
      mk_param "uid" PT_UINT32 PF_DEC None 0;
      mk_param "gid" PT_UINT32 PF_DEC None 0;
      mk_param "vtid" PT_PID PF_DEC None 0;
      mk_param "vpid" PT_PID PF_DEC None 0];
  (* PPME_SYSCALL_VFORK_20_E *) mk_event "vfork" EC_PROCESS EF_MODIFIES_STATE 0 [];
  (* PPME_SYSCALL_VFORK_20_X *) mk_event "vfork" EC_PROCESS EF_MODIFIES_STATE 20 [mk_param "res" PT_PID PF_DEC None 0;
      mk_param "exe" PT_CHARBUF PF_NA None 0;
      mk_param "args" PT_BYTEBUF PF_NA None 0;
      mk_param "tid" PT_PID PF_DEC None 0;
      mk_param "pid" PT_PID PF_DEC None 0;
      mk_param "ptid" PT_PID PF_DEC None 0;
      mk_param "cwd" PT_CHARBUF PF_NA None 0;
      mk_param "fdlimit" PT_INT64 PF_DEC None 0;
      mk_param "pgft_maj" PT_UINT64 PF_DEC None 0;
      mk_param "pgft_min" PT_UINT64 PF_DEC None 0;
      mk_param "vm_size" PT_UINT32 PF_DEC None 0;
      mk_param "vm_rss" PT_UINT32 PF_DEC None 0;
      mk_param "vm_swap" PT_UINT32 PF_DEC None 0;
      mk_param "comm" PT_CHARBUF PF_NA None 0;
      mk_param "cgroups" PT_BYTEBUF PF_NA None 0;
      mk_param "flags" PT_FLAGS32 PF_HEX (Some (FlagsTable "clone_flags")) 0;
      mk_param "uid" PT_UINT32 PF_DEC None 0;
      mk_param "gid" PT_UINT32 PF_DEC None 0;
      mk_param "vtid" PT_PID PF_DEC None 0;
      mk_param "vpid" PT_PID PF_DEC None 0];
  (* PPME_CONTAINER_E *) mk_event "container" EC_INTERNAL (Z.lor EF_SKIPPARSERESET EF_MODIFIES_STATE) 4 [mk_param "id" PT_CHARBUF PF_NA None 0;
      mk_param "type" PT_UINT32 PF_DEC None 0;
      mk_param "name" PT_CHARBUF PF_NA None 0;
      mk_param "image" PT_CHARBUF PF_NA None 0];
  (* PPME_CONTAINER_X *) mk_event "container" EC_INTERNAL EF_UNUSED 0 [];
  (* PPME_SYSCALL_EXECVE_16_E *) mk_event "execve" EC_PROCESS EF_MODIFIES_STATE 0 [];
  (* PPME_SYSCALL_EXECVE_16_X *) mk_event "execve" EC_PROCESS EF_MODIFIES_STATE 16 [mk_param "res" PT_ERRNO PF_DEC None 0;
      mk_param "exe" PT_CHARBUF PF_NA None 0;
      mk_param "args" PT_BYTEBUF PF_NA None 0;
      mk_param "tid" PT_PID PF_DEC None 0;
      mk_param "pid" PT_PID PF_DEC None 0;
      mk_param "ptid" PT_PID PF_DEC None 0;
      mk_param "cwd" PT_CHARBUF PF_NA None 0;
      mk_param "fdlimit" PT_UINT64 PF_DEC None 0;
      mk_param "pgft_maj" PT_UINT64 PF_DEC None 0;
      mk_param "pgft_min" PT_UINT64 PF_DEC None 0;
      mk_param "vm_size" PT_UINT32 PF_DEC None 0;
      mk_param "vm_rss" PT_UINT32 PF_DEC None 0;
      mk_param "vm_swap" PT_UINT32 PF_DEC None 0;
      mk_param "comm" PT_CHARBUF PF_NA None 0;
      mk_param "cgroups" PT_BYTEBUF PF_NA None 0;
      mk_param "env" PT_BYTEBUF PF_NA None 0];
  (* PPME_SIGNALDELIVER_E *) mk_event "signaldeliver" EC_SIGNAL EF_DROP_SIMPLE_CONS 3 [mk_param "spid" PT_PID PF_DEC None 0;
      mk_param "dpid" PT_PID PF_DEC None 0;
      mk_param "sig" PT_SIGTYPE PF_DEC None 0];
  (* PPME_SIGNALDELIVER_X *) mk_event "signaldeliver" EC_SIGNAL EF_UNUSED 0 [];
  (* PPME_PROCINFO_E *) mk_event "procinfo" EC_INTERNAL (Z.lor EF_SKIPPARSERESET EF_DROP_SIMPLE_CONS) 2 [mk_param "cpu_usr" PT_UINT64 PF_DEC None 0;
      mk_param "cpu_sys" PT_UINT64 PF_DEC None 0];
  (* PPME_PROCINFO_X *) mk_event "NA2" EC_INTERNAL EF_UNUSED 0 [];
  (* PPME_SYSCALL_GETDENTS_E *) mk_event "getdents" EC_FILE (Z.lor EF_USES_FD EF_DROP_SIMPLE_CONS) 1 [mk_param "fd" PT_FD PF_NA None 0];
  (* PPME_SYSCALL_GETDENTS_X *) mk_event "getdents" EC_FILE (Z.lor EF_USES_FD EF_DROP_SIMPLE_CONS) 1 [mk_param "res" PT_ERRNO PF_DEC None 0];
  (* PPME_SYSCALL_GETDENTS64_E *) mk_event "getdents64" EC_FILE (Z.lor EF_USES_FD EF_DROP_SIMPLE_CONS) 1 [mk_param "fd" PT_FD PF_NA None 0];
  (* PPME_SYSCALL_GETDENTS64_X *) mk_event "getdents64" EC_FILE (Z.lor EF_USES_FD EF_DROP_SIMPLE_CONS) 1 [mk_param "res" PT_ERRNO PF_DEC None 0]].

Definition g_event_info_4 : list ppm_event_info := [
  (* PPME_SYSCALL_SETNS_E *) mk_event "setns" EC_PROCESS EF_USES_FD 2 [mk_param "fd" PT_FD PF_NA None 0;
      mk_param "nstype" PT_FLAGS32 PF_HEX (Some (FlagsTable "clone_flags")) 0];
  (* PPME_SYSCALL_SETNS_X *) mk_event "setns" EC_PROCESS EF_USES_FD 1 [mk_param "res" PT_ERRNO PF_DEC None 0];
  (* PPME_SYSCALL_FLOCK_E *) mk_event "flock" EC_FILE EF_USES_FD 2 [mk_param "fd" PT_FD PF_NA None 0;
      mk_param "operation" PT_FLAGS32 PF_HEX (Some (FlagsTable "flock_flags")) 0];
  (* PPME_SYSCALL_FLOCK_X *) mk_event "flock" EC_FILE EF_USES_FD 1 [mk_param "res" PT_ERRNO PF_DEC None 0];
  (* PPME_CPU_HOTPLUG_E *) mk_event "cpu_hotplug" EC_SYSTEM (Z.lor EF_SKIPPARSERESET EF_MODIFIES_STATE) 2 [mk_param "cpu" PT_UINT32 PF_DEC None 0;
      mk_param "action" PT_UINT32 PF_DEC None 0];
  (* PPME_CPU_HOTPLUG_X *) mk_event "NA2" EC_SYSTEM EF_UNUSED 0 [];
  (* PPME_SOCKET_ACCEPT_5_E *) mk_event "accept" EC_NET (Z.lor EF_CREATES_FD EF_MODIFIES_STATE) 0 [];
  (* PPME_SOCKET_ACCEPT_5_X *) mk_event "accept" EC_NET (Z.lor EF_CREATES_FD EF_MODIFIES_STATE) 5 [mk_param "fd" PT_FD PF_DEC None 0;
      mk_param "tuple" PT_SOCKTUPLE PF_NA None 0;
      mk_param "queuepct" PT_UINT8 PF_DEC None 0;
      mk_param "queuelen" PT_UINT32 PF_DEC None 0;
      mk_param "queuemax" PT_UINT32 PF_DEC None 0];
  (* PPME_SOCKET_ACCEPT4_5_E *) mk_event "accept" EC_NET (Z.lor EF_CREATES_FD EF_MODIFIES_STATE) 1 [mk_param "flags" PT_INT32 PF_HEX None 0];
  (* PPME_SOCKET_ACCEPT4_5_X *) mk_event "accept" EC_NET (Z.lor EF_CREATES_FD EF_MODIFIES_STATE) 5 [mk_param "fd" PT_FD PF_DEC None 0;
      mk_param "tuple" PT_SOCKTUPLE PF_NA None 0;
      mk_param "queuepct" PT_UINT8 PF_DEC None 0;
      mk_param "queuelen" PT_UINT32 PF_DEC None 0;
      mk_param "queuemax" PT_UINT32 PF_DEC None 0];
  (* PPME_SYSCALL_SEMOP_E *) mk_event "semop" EC_PROCESS EF_DROP_SIMPLE_CONS 1 [mk_param "semid" PT_INT32 PF_DEC None 0];
  (* PPME_SYSCALL_SEMOP_X *) mk_event "semop" EC_PROCESS EF_DROP_SIMPLE_CONS 8 [mk_param "res" PT_ERRNO PF_DEC None 0;
      mk_param "nsops" PT_UINT32 PF_DEC None 0;
      mk_param "sem_num_0" PT_UINT16 PF_DEC None 0;
      mk_param "sem_op_0" PT_INT16 PF_DEC None 0;
      mk_param "sem_flg_0" PT_FLAGS16 PF_HEX (Some (FlagsTable "semop_flags")) 0;
      mk_param "sem_num_1" PT_UINT16 PF_DEC None 0;
      mk_param "sem_op_1" PT_INT16 PF_DEC None 0;
      mk_param "sem_flg_1" PT_FLAGS16 PF_HEX (Some (FlagsTable "semop_flags")) 0];
  (* PPME_SYSCALL_SEMCTL_E *) mk_event "semctl" EC_PROCESS EF_DROP_SIMPLE_CONS 4 [mk_param "semid" PT_INT32 PF_DEC None 0;
      mk_param "semnum" PT_INT32 PF_DEC None 0;
      mk_param "cmd" PT_FLAGS16 PF_HEX (Some (FlagsTable "semctl_commands")) 0;
      mk_param "val" PT_INT32 PF_DEC None 0];
  (* PPME_SYSCALL_SEMCTL_X *) mk_event "semctl" EC_PROCESS EF_DROP_SIMPLE_CONS 1 [mk_param "res" PT_ERRNO PF_DEC None 0];
  (* PPME_SYSCALL_PPOLL_E *) mk_event "ppoll" EC_WAIT (Z.lor EF_WAITS EF_DROP_SIMPLE_CONS) 3 [mk_param "fds" PT_FDLIST PF_DEC None 0;
      mk_param "timeout" PT_RELTIME PF_DEC None 0;
      mk_param "sigmask" PT_SIGSET PF_DEC None 0];
  (* PPME_SYSCALL_PPOLL_X *) mk_event "ppoll" EC_WAIT (Z.lor EF_WAITS EF_DROP_SIMPLE_CONS) 2 [mk_param "res" PT_ERRNO PF_DEC None 0;
      mk_param "fds" PT_FDLIST PF_DEC None 0];
  (* PPME_SYSCALL_MOUNT_E *) mk_event "mount" EC_FILE EF_MODIFIES_STATE 1 [mk_param "flags" PT_FLAGS32 PF_HEX (Some (FlagsTable "mount_flags")) 0];
  (* PPME_SYSCALL_MOUNT_X *) mk_event "mount" EC_FILE EF_MODIFIES_STATE 4 [mk_param "res" PT_ERRNO PF_DEC None 0;
      mk_param "dev" PT_CHARBUF PF_NA None 0;
      mk_param "dir" PT_FSPATH PF_NA None 0;
      mk_param "type" PT_CHARBUF PF_NA None 0];
  (* PPME_SYSCALL_UMOUNT_E *) mk_event "umount" EC_FILE EF_MODIFIES_STATE 1 [mk_param "flags" PT_FLAGS32 PF_HEX (Some (FlagsTable "umount_flags")) 0];
  (* PPME_SYSCALL_UMOUNT_X *) mk_event "umount" EC_FILE EF_MODIFIES_STATE 2 [mk_param "res" PT_ERRNO PF_DEC None 0;
      mk_param "name" PT_FSPATH PF_NA None 0];
  (* PPME_K8S_E *) mk_event "k8s" EC_INTERNAL (Z.lor EF_SKIPPARSERESET EF_MODIFIES_STATE) 1 [mk_param "json" PT_CHARBUF PF_NA None 0];
  (* PPME_K8S_X *) mk_event "NA3" EC_SYSTEM EF_UNUSED 0 [];
  (* PPME_SYSCALL_SEMGET_E *) mk_event "semget" EC_PROCESS EF_DROP_SIMPLE_CONS 3 [mk_param "key" PT_INT32 PF_HEX None 0;
      mk_param "nsems" PT_INT32 PF_DEC None 0;
      mk_param "semflg" PT_FLAGS32 PF_HEX (Some (FlagsTable "semget_flags")) 0];
  (* PPME_SYSCALL_SEMGET_X *) mk_event "semget" EC_PROCESS EF_DROP_SIMPLE_CONS 1 [mk_param "res" PT_ERRNO PF_DEC None 0];
  (* PPME_SYSCALL_ACCESS_E *) mk_event "access" EC_FILE EF_DROP_SIMPLE_CONS 1 [mk_param "mode" PT_FLAGS32 PF_HEX (Some (FlagsTable "access_flags")) 0];
  (* PPME_SYSCALL_ACCESS_X *) mk_event "access" EC_FILE EF_DROP_SIMPLE_CONS 2 [mk_param "res" PT_ERRNO PF_DEC None 0;
      mk_param "name" PT_FSPATH PF_NA None 0];
  (* PPME_SYSCALL_CHROOT_E *) mk_event "chroot" EC_PROCESS EF_MODIFIES_STATE 0 [];
  (* PPME_SYSCALL_CHROOT_X *) mk_event "chroot" EC_PROCESS EF_MODIFIES_STATE 2 [mk_param "res" PT_ERRNO PF_DEC None 0;
      mk_param "path" PT_FSPATH PF_NA None 0];
  (* PPME_TRACER_E *) mk_event "tracer" EC_OTHER EF_NONE 3 [mk_param "id" PT_INT64 PF_DEC None 0;
      mk_param "tags" PT_CHARBUFARRAY PF_NA None 0;
      mk_param "args" PT_CHARBUF_PAIR_ARRAY PF_NA None 0];
  (* PPME_TRACER_X *) mk_event "tracer" EC_OTHER EF_NONE 3 [mk_param "id" PT_INT64 PF_DEC None 0;
      mk_param "tags" PT_CHARBUFARRAY PF_NA None 0;
      mk_param "args" PT_CHARBUF_PAIR_ARRAY PF_NA None 0];
  (* PPME_MESOS_E *) mk_event "mesos" EC_INTERNAL (Z.lor EF_SKIPPARSERESET EF_MODIFIES_STATE) 1 [mk_param "json" PT_CHARBUF PF_NA None 0];
  (* PPME_MESOS_X *) mk_event "NA4" EC_SYSTEM EF_UNUSED 0 [];
  (* PPME_CONTAINER_JSON_E *) mk_event "container" EC_PROCESS EF_MODIFIES_STATE 1 [mk_param "json" PT_CHARBUF PF_NA None 0];
  (* PPME_CONTAINER_JSON_X *) mk_event "container" EC_PROCESS EF_UNUSED 0 [];
  (* PPME_SYSCALL_SETSID_E *) mk_event "setsid" EC_PROCESS EF_MODIFIES_STATE 0 [];
  (* PPME_SYSCALL_SETSID_X *) mk_event "setsid" EC_PROCESS EF_MODIFIES_STATE 1 [mk_param "res" PT_PID PF_DEC None 0];
  (* PPME_SYSCALL_MKDIR_2_E *) mk_event "mkdir" EC_FILE EF_NONE 1 [mk_param "mode" PT_UINT32 PF_HEX None 0];
  (* PPME_SYSCALL_MKDIR_2_X *) mk_event "mkdir" EC_FILE EF_NONE 2 [mk_param "res" PT_ERRNO PF_DEC None 0;
      mk_param "path" PT_FSPATH PF_NA None 0];
  (* PPME_SYSCALL_RMDIR_2_E *) mk_event "rmdir" EC_FILE EF_NONE 0 [];
  (* PPME_SYSCALL_RMDIR_2_X *) mk_event "rmdir" EC_FILE EF_NONE 2 [mk_param "res" PT_ERRNO PF_DEC None 0;
      mk_param "path" PT_FSPATH PF_NA None 0];
  (* PPME_NOTIFICATION_E *) mk_event "notification" EC_OTHER EF_SKIPPARSERESET 2 [mk_param "id" PT_CHARBUF PF_DEC None 0;
      mk_param "desc" PT_CHARBUF PF_NA None 0];
  (* PPME_NOTIFICATION_X *) mk_event "NA4" EC_SYSTEM EF_UNUSED 0 [];
  (* PPME_SYSCALL_EXECVE_17_E *) mk_event "execve" EC_PROCESS (Z.lor EF_MODIFIES_STATE EF_OLD_VERSION) 0 [];
  (* PPME_SYSCALL_EXECVE_17_X *) mk_event "execve" EC_PROCESS (Z.lor EF_MODIFIES_STATE EF_OLD_VERSION) 17 [mk_param "res" PT_ERRNO PF_DEC None 0;
      mk_param "exe" PT_CHARBUF PF_NA None 0;
      mk_param "args" PT_BYTEBUF PF_NA None 0;
      mk_param "tid" PT_PID PF_DEC None 0;
      mk_param "pid" PT_PID PF_DEC None 0;
      mk_param "ptid" PT_PID PF_DEC None 0;
      mk_param "cwd" PT_CHARBUF PF_NA None 0;
      mk_param "fdlimit" PT_UINT64 PF_DEC None 0;
      mk_param "pgft_maj" PT_UINT64 PF_DEC None 0;
      mk_param "pgft_min" PT_UINT64 PF_DEC None 0;
      mk_param "vm_size" PT_UINT32 PF_DEC None 0;
      mk_param "vm_rss" PT_UINT32 PF_DEC None 0;
      mk_param "vm_swap" PT_UINT32 PF_DEC None 0;
      mk_param "comm" PT_CHARBUF PF_NA None 0;
      mk_param "cgroups" PT_BYTEBUF PF_NA None 0;
      mk_param "env" PT_BYTEBUF PF_NA None 0;
      mk_param "tty" PT_INT32 PF_DEC None 0];
  (* PPME_SYSCALL_UNSHARE_E *) mk_event "unshare" EC_PROCESS EF_NONE 1 [mk_param "flags" PT_FLAGS32 PF_HEX (Some (FlagsTable "clone_flags")) 0];
  (* PPME_SYSCALL_UNSHARE_X *) mk_event "unshare" EC_PROCESS EF_NONE 1 [mk_param "res" PT_ERRNO PF_DEC None 0];
  (* PPME_INFRASTRUCTURE_EVENT_E *) mk_event "infra" EC_INTERNAL EF_SKIPPARSERESET 4 [mk_param "source" PT_CHARBUF PF_DEC None 0;
      mk_param "name" PT_CHARBUF PF_NA None 0;
      mk_param "description" PT_CHARBUF PF_NA None 0;
      mk_param "scope" PT_CHARBUF PF_NA None 0];
  (* PPME_INFRASTRUCTURE_EVENT_X *) mk_event "NA4" EC_SYSTEM EF_UNUSED 0 [];
  (* PPME_SYSCALL_EXECVE_18_E *) mk_event "execve" EC_PROCESS (Z.lor EF_MODIFIES_STATE EF_OLD_VERSION) 1 [mk_param "filename" PT_FSPATH PF_NA None 0];
  (* PPME_SYSCALL_EXECVE_18_X *) mk_event "execve" EC_PROCESS (Z.lor EF_MODIFIES_STATE EF_OLD_VERSION) 17 [mk_param "res" PT_ERRNO PF_DEC None 0;
      mk_param "exe" PT_CHARBUF PF_NA None 0;
      mk_param "args" PT_BYTEBUF PF_NA None 0;
      mk_param "tid" PT_PID PF_DEC None 0;
      mk_param "pid" PT_PID PF_DEC None 0;
      mk_param "ptid" PT_PID PF_DEC None 0;
      mk_param "cwd" PT_CHARBUF PF_NA None 0;
      mk_param "fdlimit" PT_UINT64 PF_DEC None 0;
      mk_param "pgft_maj" PT_UINT64 PF_DEC None 0;
      mk_param "pgft_min" PT_UINT64 PF_DEC None 0;
      mk_param "vm_size" PT_UINT32 PF_DEC None 0;
      mk_param "vm_rss" PT_UINT32 PF_DEC None 0;
      mk_param "vm_swap" PT_UINT32 PF_DEC None 0;
      mk_param "comm" PT_CHARBUF PF_NA None 0;
      mk_param "cgroups" PT_BYTEBUF PF_NA None 0;
      mk_param "env" PT_BYTEBUF PF_NA None 0;
      mk_param "tty" PT_INT32 PF_DEC None 0];
  (* PPME_PAGE_FAULT_E *) mk_event "page_fault" EC_OTHER (Z.lor EF_SKIPPARSERESET EF_DROP_SIMPLE_CONS) 3 [mk_param "addr" PT_UINT64 PF_HEX None 0;
      mk_param "ip" PT_UINT64 PF_HEX None 0;
      mk_param "error" PT_FLAGS32 PF_HEX (Some (FlagsTable "pf_flags")) 0];
  (* PPME_PAGE_FAULT_X *) mk_event "NA5" EC_OTHER EF_UNUSED 0 [];
  (* PPME_SYSCALL_EXECVE_19_E *) mk_event "execve" EC_PROCESS EF_MODIFIES_STATE 1 [mk_param "filename" PT_FSPATH PF_NA None 0];
  (* PPME_SYSCALL_EXECVE_19_X *) mk_event "execve" EC_PROCESS EF_MODIFIES_STATE 19 [mk_param "res" PT_ERRNO PF_DEC None 0;
      mk_param "exe" PT_CHARBUF PF_NA None 0;
      mk_param "args" PT_BYTEBUF PF_NA None 0;
      mk_param "tid" PT_PID PF_DEC None 0;
      mk_param "pid" PT_PID PF_DEC None 0;
      mk_param "ptid" PT_PID PF_DEC None 0;
      mk_param "cwd" PT_CHARBUF PF_NA None 0;
      mk_param "fdlimit" PT_UINT64 PF_DEC None 0;
      mk_param "pgft_maj" PT_UINT64 PF_DEC None 0;
      mk_param "pgft_min" PT_UINT64 PF_DEC None 0;
      mk_param "vm_size" PT_UINT32 PF_DEC None 0;
      mk_param "vm_rss" PT_UINT32 PF_DEC None 0;
      mk_param "vm_swap" PT_UINT32 PF_DEC None 0;
      mk_param "comm" PT_CHARBUF PF_NA None 0;
      mk_param "cgroups" PT_BYTEBUF PF_NA None 0;
      mk_param "env" PT_BYTEBUF PF_NA None 0;
      mk_param "tty" PT_INT32 PF_DEC None 0;
      mk_param "pgid" PT_PID PF_DEC None 0;
      mk_param "loginuid" PT_INT32 PF_DEC None 0];
  (* PPME_SYSCALL_SETPGID_E *) mk_event "setpgid" EC_PROCESS EF_MODIFIES_STATE 2 [mk_param "pid" PT_PID PF_DEC None 0;
      mk_param "pgid" PT_PID PF_DEC None 0];
  (* PPME_SYSCALL_SETPGID_X *) mk_event "setpgid" EC_PROCESS EF_MODIFIES_STATE 1 [mk_param "res" PT_PID PF_DEC None 0];
  (* PPME_SYSCALL_BPF_E *) mk_event "bpf" EC_OTHER EF_CREATES_FD 1 [mk_param "cmd" PT_INT64 PF_DEC None 0];
  (* PPME_SYSCALL_BPF_X *) mk_event "bpf" EC_OTHER EF_CREATES_FD 1 [mk_param "res_or_fd" PT_DYN PF_DEC (Some bpf_dynamic_param) PPM_BPF_IDX_MAX];
  (* PPME_SYSCALL_SECCOMP_E *) mk_event "seccomp" EC_OTHER EF_NONE 1 [mk_param "op" PT_UINT64 PF_DEC None 0;
      mk_param "flags" PT_UINT64 PF_HEX None 0];
  (* PPME_SYSCALL_SECCOMP_X *) mk_event "seccomp" EC_OTHER EF_NONE 1 [mk_param "res" PT_ERRNO PF_DEC None 0]].

Definition g_event_info_5 : list ppm_event_info := [
  (* PPME_SYSCALL_UNLINK_2_E *) mk_event "unlink" EC_FILE EF_NONE 0 [];
  (* PPME_SYSCALL_UNLINK_2_X *) mk_event "unlink" EC_FILE EF_NONE 2 [mk_param "res" PT_ERRNO PF_DEC None 0;
      mk_param "path" PT_FSPATH PF_NA None 0];
  (* PPME_SYSCALL_UNLINKAT_2_E *) mk_event "unlinkat" EC_FILE EF_NONE 0 [];
  (* PPME_SYSCALL_UNLINKAT_2_X *) mk_event "unlinkat" EC_FILE EF_NONE 4 [mk_param "res" PT_ERRNO PF_DEC None 0;
      mk_param "dirfd" PT_FD PF_DEC None 0;
      mk_param "name" PT_FSRELPATH PF_NA (Some (DirfdParam 1)) 0;
      mk_param "flags" PT_FLAGS32 PF_HEX (Some (FlagsTable "unlinkat_flags")) 0];
  (* PPME_SYSCALL_MKDIRAT_E *) mk_event "mkdirat" EC_FILE EF_NONE 0 [];
  (* PPME_SYSCALL_MKDIRAT_X *) mk_event "mkdirat" EC_FILE EF_NONE 4 [mk_param "res" PT_ERRNO PF_DEC None 0;
      mk_param "dirfd" PT_FD PF_DEC None 0;
      mk_param "path" PT_FSRELPATH PF_NA (Some (DirfdParam 1)) 0;
      mk_param "mode" PT_UINT32 PF_HEX None 0];
  (* PPME_SYSCALL_OPENAT_2_E *) mk_event "openat" EC_FILE (Z.lor EF_CREATES_FD EF_MODIFIES_STATE) 0 [];
  (* PPME_SYSCALL_OPENAT_2_X *) mk_event "openat" EC_FILE (Z.lor EF_CREATES_FD EF_MODIFIES_STATE) 6 [mk_param "fd" PT_FD PF_DEC None 0;
      mk_param "dirfd" PT_FD PF_DEC None 0;
      mk_param "name" PT_FSRELPATH PF_NA (Some (DirfdParam 1)) 0;
      mk_param "flags" PT_FLAGS32 PF_HEX (Some (FlagsTable "file_flags")) 0;
      mk_param "mode" PT_UINT32 PF_OCT None 0;
      mk_param "dev" PT_UINT32 PF_HEX None 0];
  (* PPME_SYSCALL_LINK_2_E *) mk_event "link" EC_FILE EF_NONE 0 [];
  (* PPME_SYSCALL_LINK_2_X *) mk_event "link" EC_FILE EF_NONE 3 [mk_param "res" PT_ERRNO PF_DEC None 0;
      mk_param "oldpath" PT_FSPATH PF_NA None 0;
      mk_param "newpath" PT_FSPATH PF_NA None 0];
  (* PPME_SYSCALL_LINKAT_2_E *) mk_event "linkat" EC_FILE EF_NONE 0 [];
  (* PPME_SYSCALL_LINKAT_2_X *) mk_event "linkat" EC_FILE EF_NONE 6 [mk_param "res" PT_ERRNO PF_DEC None 0;
      mk_param "olddir" PT_FD PF_DEC None 0;
      mk_param "oldpath" PT_FSRELPATH PF_NA (Some (DirfdParam 1)) 0;
      mk_param "newdir" PT_FD PF_DEC None 0;
      mk_param "newpath" PT_FSRELPATH PF_NA (Some (DirfdParam 3)) 0;
      mk_param "flags" PT_FLAGS32 PF_HEX (Some (FlagsTable "linkat_flags")) 0];
  (* PPME_SYSCALL_FCHMODAT_E *) mk_event "fchmodat" EC_FILE EF_NONE 0 [];
  (* PPME_SYSCALL_FCHMODAT_X *) mk_event "fchmodat" EC_FILE EF_NONE 4 [mk_param "res" PT_ERRNO PF_DEC None 0;
      mk_param "dirfd" PT_FD PF_DEC None 0;
      mk_param "filename" PT_FSRELPATH PF_NA (Some (DirfdParam 1)) 0;
      mk_param "mode" PT_MODE PF_OCT (Some (FlagsTable "chmod_mode")) 0];
  (* PPME_SYSCALL_CHMOD_E *) mk_event "chmod" EC_FILE EF_NONE 0 [];
  (* PPME_SYSCALL_CHMOD_X *) mk_event "chmod" EC_FILE EF_NONE 3 [mk_param "res" PT_ERRNO PF_DEC None 0;
      mk_param "filename" PT_FSPATH PF_NA None 0;
      mk_param "mode" PT_MODE PF_OCT (Some (FlagsTable "chmod_mode")) 0];
  (* PPME_SYSCALL_FCHMOD_E *) mk_event "fchmod" EC_FILE EF_NONE 0 [];
  (* PPME_SYSCALL_FCHMOD_X *) mk_event "fchmod" EC_FILE EF_NONE 3 [mk_param "res" PT_ERRNO PF_DEC None 0;
      mk_param "fd" PT_FD PF_DEC None 0;
      mk_param "mode" PT_MODE PF_OCT (Some (FlagsTable "chmod_mode")) 0];
  (* PPME_SYSCALL_RENAMEAT2_E *) mk_event "renameat2" EC_FILE EF_NONE 0 [];
  (* PPME_SYSCALL_RENAMEAT2_X *) mk_event "renameat2" EC_FILE EF_NONE 6 [mk_param "res" PT_ERRNO PF_DEC None 0;
      mk_param "olddirfd" PT_FD PF_DEC None 0;
      mk_param "oldpath" PT_FSRELPATH PF_NA (Some (DirfdParam 1)) 0;
      mk_param "newdirfd" PT_FD PF_DEC None 0;
      mk_param "newpath" PT_FSRELPATH PF_NA (Some (DirfdParam 3)) 0;
      mk_param "flags" PT_FLAGS32 PF_HEX (Some (FlagsTable "renameat2_flags")) 0];
  (* PPME_SYSCALL_USERFAULTFD_E *) mk_event "userfaultfd" EC_FILE (Z.lor EF_CREATES_FD EF_MODIFIES_STATE) 0 [];
  (* PPME_SYSCALL_USERFAULTFD_X *) mk_event "userfaultfd" EC_FILE (Z.lor EF_CREATES_FD EF_MODIFIES_STATE) 2 [mk_param "res" PT_ERRNO PF_DEC None 0;
      mk_param "flags" PT_FLAGS32 PF_HEX (Some (FlagsTable "file_flags")) 0];
  (* PPME_NETIF_RECEIVE_SKB_E *) mk_event "ingress" EC_NET EF_DROP_SIMPLE_CONS 5 [mk_param "dev" PT_CHARBUF PF_NA None 0;
      mk_param "skb_addr" PT_UINT64 PF_HEX None 0;
      mk_param "src_mac" PT_BYTEBUF PF_NA None 0;
      mk_param "dst_mac" PT_BYTEBUF PF_NA None 0;
      mk_param "tuple" PT_SOCKTUPLE PF_NA None 0];
  (* PPME_NETIF_RECEIVE_SKB_X *) mk_event "ingress" EC_NET EF_UNUSED 0 [];
  (* PPME_NET_DEV_XMIT_E *) mk_event "egress" EC_NET (Z.lor EF_DROP_SIMPLE_CONS EF_NONE_PARSE) 5 [mk_param "dev" PT_CHARBUF PF_NA None 0;
      mk_param "skb_addr" PT_UINT64 PF_HEX None 0;
      mk_param "src_mac" PT_BYTEBUF PF_NA None 0;
      mk_param "dst_mac" PT_BYTEBUF PF_NA None 0;
      mk_param "tuple" PT_SOCKTUPLE PF_NA None 0];
  (* PPME_NET_DEV_START_XMIT_X *) mk_event "egress" EC_NET (Z.lor EF_UNUSED EF_NONE_PARSE) 0 [];
  (* PPME_TCP_RCV_ESTABLISHED_E *) mk_event "tcp_rcv_established" EC_NET (Z.lor EF_DROP_SIMPLE_CONS EF_NONE_PARSE) 2 [mk_param "tuple" PT_SOCKTUPLE PF_NA None 0;
      mk_param "srtt" PT_UINT32 PF_DEC None 0];
  (* PPME_TCP_RCV_ESTABLISHED_X *) mk_event "tcp_rcv_established" EC_NET EF_UNUSED 0 [];
  (* PPME_TCP_CLOSE_E *) mk_event "tcp_close" EC_NET (Z.lor EF_DROP_SIMPLE_CONS EF_NONE_PARSE) 2 [mk_param "tuple" PT_SOCKTUPLE PF_NA None 0;
      mk_param "srtt" PT_UINT32 PF_DEC None 0];
  (* PPME_TCP_CLOSE_X *) mk_event "tcp_close" EC_NET EF_UNUSED 0 [];
  (* PPME_TCP_DROP_E *) mk_event "tcp_drop" EC_NET (Z.lor EF_DROP_SIMPLE_CONS EF_NONE_PARSE) 1 [mk_param "tuple" PT_SOCKTUPLE PF_NA None 0];
  (* PPME_TCP_DROP_X *) mk_event "tcp_drop" EC_NET EF_UNUSED 0 [];
  (* PPME_TCP_RETRANSMIT_SKB_E *) mk_event "tcp_retransmit_skb" EC_NET (Z.lor EF_DROP_SIMPLE_CONS EF_NONE_PARSE) 2 [mk_param "tuple" PT_SOCKTUPLE PF_NA None 0;
      mk_param "segs" PT_INT32 PF_DEC None 0];
  (* PPME_TCP_RETRANSMIT_SKB_X *) mk_event "tcp_retransmit_skb" EC_NET EF_UNUSED 0 [];
  (* PPME_TCP_CONNECT_E *) mk_event "tcp_connect" EC_NET EF_UNUSED 0 [];
  (* PPME_TCP_CONNECT_X *) mk_event "tcp_connect" EC_NET (Z.lor EF_DROP_SIMPLE_CONS EF_NONE_PARSE) 2 [mk_param "retval" PT_UINT64 PF_DEC None 0;
      mk_param "tuple" PT_SOCKTUPLE PF_NA None 0];
  (* PPME_TCP_SET_STATE_E *) mk_event "tcp_set_state" EC_NET (Z.lor EF_DROP_SIMPLE_CONS EF_NONE_PARSE) 3 [mk_param "tuple" PT_SOCKTUPLE PF_NA None 0;
      mk_param "old_state" PT_INT32 PF_NA None 0;
      mk_param "new_state" PT_INT32 PF_NA None 0];
  (* PPME_TCP_SET_STATE_X *) mk_event "tcp_set_state" EC_NET EF_UNUSED 0 [];
  (* PPME_TCP_SEND_RESET_E *) mk_event "tcp_send_reset" EC_NET (Z.lor EF_DROP_SIMPLE_CONS EF_NONE_PARSE) 2 [mk_param "tuple" PT_SOCKTUPLE PF_NA None 0;
      mk_param "state" PT_UINT32 PF_DEC None 0];
  (* PPME_TCP_SEND_RESET_X *) mk_event "tcp_send_reset" EC_NET EF_UNUSED 0 [];
  (* PPME_TCP_RECEIVE_RESET_E *) mk_event "tcp_receive_reset" EC_NET (Z.lor EF_DROP_SIMPLE_CONS EF_NONE_PARSE) 2 [mk_param "tuple" PT_SOCKTUPLE PF_NA None 0;
      mk_param "state" PT_UINT32 PF_DEC None 0];
  (* PPME_TCP_RECEIVE_RESET_X *) mk_event "tcp_send_reset" EC_NET EF_UNUSED 0 [];
  (* PPME_CPU_ANALYSIS_E *) mk_event "cpu_analysis" EC_PROCESS EF_NONE_PARSE 6 [mk_param "start_ts" PT_UINT64 PF_DEC None 0;
      mk_param "end_ts" PT_UINT64 PF_DEC None 0;
      mk_param "cnt" PT_UINT32 PF_DEC None 0;
      mk_param "time_specs" PT_BYTEBUF PF_NA None 0;
      mk_param "runq_latency" PT_BYTEBUF PF_NA None 0;
      mk_param "time_type" PT_BYTEBUF PF_NA None 0];
  (* PPME_CPU_ANALYSIS_X *) mk_event "cpu_analysis" EC_PROCESS EF_UNUSED 0 []].

Definition g_event_info_rows : list ppm_event_info :=
  (g_event_info_0 ++ g_event_info_1 ++ g_event_info_2 ++ g_event_info_3 ++ g_event_info_4 ++ g_event_info_5)%list.
(** An array element that no initialiser names is zero. *)
Definition zero_param : ppm_param_info := mk_param "" PT_NONE PF_NA None 0.
Definition zero_event : ppm_event_info := mk_event "" EC_UNKNOWN EF_NONE 0 [].

(** [g_event_info[t]]. *)
Definition g_event_info (t : Z) : ppm_event_info :=
  nth (Z.to_nat t) g_event_info_rows zero_event.

(** [g_event_info[t].params[i]]. *)
Definition event_param (t i : Z) : ppm_param_info :=
  nth (Z.to_nat i) (ei_params (g_event_info t)) zero_param.

(** The event types of the table, in order. *)
Definition event_types : list Z := map Z.of_nat (seq 0 (Z.to_nat PPM_EVENT_MAX)).

(** ** Facts about the table. *)

(** A decidable fact checked on every row holds of every event type. *)
Lemma forall_event_types (P : Z -> bool) :
  forallb P event_types = true -> forall t, 0 <= t < PPM_EVENT_MAX -> P t = true.
Proof.
  intros H t Ht. rewrite forallb_forall in H. apply H.
  unfold event_types. apply in_map_iff. exists (Z.to_nat t). split; [lia|].
  apply in_seq. change (Z.to_nat PPM_EVENT_MAX) with 344%nat.
  unfold PPM_EVENT_MAX in Ht. lia.
Qed.

Definition row_shape_ok (t : Z) : bool :=
  let e := g_event_info t in
  ((ei_nparams e =? Z.of_nat (length (ei_params e)))
   || ((t =? PPME_SYSCALL_SECCOMP_E)
       && (ei_nparams e =? Z.of_nat (length (ei_params e)) - 1)))
  && (Z.of_nat (length (ei_params e)) <=? PPM_MAX_EVENT_PARAMS).

Lemma rows_shape : forallb row_shape_ok event_types = true.
Proof. vm_compute; reflexivity. Qed.

(** The event table has exactly one row per event type, and in every row
    but the one of the seccomp enter event the declared parameter count is the
    number of parameters described, within the array bound. *)
Theorem event_table_shape (t : Z) :
  0 <= t < PPM_EVENT_MAX ->
  Z.of_nat (length g_event_info_rows) = PPM_EVENT_MAX /\
  Z.of_nat (length (ei_params (g_event_info t))) <= PPM_MAX_EVENT_PARAMS /\
  (t <> PPME_SYSCALL_SECCOMP_E ->
   ei_nparams (g_event_info t) = Z.of_nat (length (ei_params (g_event_info t)))).
Proof.
  intros Ht. split; [vm_compute; reflexivity|].
  pose proof (forall_event_types _ rows_shape t Ht) as H.
  unfold row_shape_ok in H. apply andb_true_iff in H as [H1 H2].
  split; [lia|]. intros Hne. lia.
Qed.

Lemma event_table_shape_witness :
  ei_nparams (g_event_info PPME_SYSCALL_OPEN_X) = 5.
Proof.
  pose proof (event_table_shape PPME_SYSCALL_OPEN_X ltac:(vm_compute; split; congruence))
    as (_ & _ & H).
  rewrite H by (vm_compute; congruence). reflexivity.
Defined.

Definition nparams_in_range (t : Z) : bool :=
  let n := ei_nparams (g_event_info t) in (0 <=? n) && (n <=? PPM_MAX_EVENT_PARAMS).

Lemma nparams_in_range_all : forallb nparams_in_range event_types = true.
Proof. vm_compute; reflexivity. Qed.

(** The parameter count of any index, in the table or not. *)
Lemma ei_nparams_range t : 0 <= ei_nparams (g_event_info t) <= PPM_MAX_EVENT_PARAMS.
Proof.
  destruct (decide (0 <= t < PPM_EVENT_MAX)) as [Ht|Ht].
  - pose proof (forall_event_types _ nparams_in_range_all t Ht) as H.
    unfold nparams_in_range in H. zsolve.
  - destruct (decide (t < 0)).
    + unfold g_event_info. replace (Z.to_nat t) with 0%nat by lia. vm_compute; split; congruence.
    + unfold g_event_info. rewrite nth_overflow; [vm_compute; split; congruence|].
      change (length g_event_info_rows) with (Z.to_nat 344). unfold PPM_EVENT_MAX in Ht. lia.
Qed.

#[export] Hint Resolve ei_nparams_range : scap.

(** The rows of the two TCP reset events are in the opposite order of
    their enumerators: looking up the receive-reset event finds the row named
    after the send-reset event, and the other way round. *)
Theorem tcp_reset_rows_swapped :
  ei_name (g_event_info PPME_TCP_RECEIVE_RESET_E) = "tcp_send_reset" /\
  ei_name (g_event_info PPME_TCP_SEND_RESET_E) = "tcp_receive_reset".
Proof. vm_compute; split; reflexivity. Qed.
