(* ===== verification/FillerTable.v ===== *)
(** * The filler table: [driver/fillers_table.c]

    [g_ppm_events] as its designated initialisers, for the kernel build on a
    64 bit target ([_64BIT_ARGS_SINGLE_REGISTER], the [CAPTURE_] switches of
    [ppm.h] defined, [WDIG] not defined). *)

From Stdlib Require Import ZArith Lia List Bool.
From Stdlib Require Import Strings.String.
From stdpp Require Import base tactics list numbers option.
From S2P Require Import Prelude EventDefs EventTable.
Import ListNotations.
Local Open Scope string_scope.
Local Open Scope list_scope.
Local Open Scope Z_scope.

Definition g_ppm_events_0 : list (Z * ppm_event_entry) := [
  (PPME_GENERIC_E, mk_entry F_sys_generic 0 APT_REG []);
  (PPME_GENERIC_X, mk_entry F_sys_generic 0 APT_REG []);
  (PPME_SYSCALL_OPEN_E, mk_entry F_sys_empty 0 APT_REG []);
  (PPME_SYSCALL_OPEN_X, mk_entry F_sys_open_x 0 APT_REG []);
  (PPME_SYSCALL_CLOSE_E, mk_entry F_sys_single 0 APT_REG []);
  (PPME_SYSCALL_CLOSE_X, mk_entry F_sys_single_x 0 APT_REG []);
  (PPME_SYSCALL_READ_E, mk_entry F_sys_autofill 2 APT_REG [mk_autofill 0 0; mk_autofill 2 0]);
  (PPME_SYSCALL_READ_X, mk_entry F_sys_read_x 0 APT_REG []);
  (PPME_SYSCALL_WRITE_E, mk_entry F_sys_autofill 2 APT_REG [mk_autofill 0 0; mk_autofill 2 0]);
  (PPME_SYSCALL_WRITE_X, mk_entry F_sys_write_x 0 APT_REG []);
  (PPME_PROCEXIT_1_E, mk_entry F_sys_procexit_e 0 APT_REG []);
  (PPME_SOCKET_SOCKET_E, mk_entry F_sys_autofill 3 APT_SOCK [mk_autofill 0 0; mk_autofill 1 0; mk_autofill 2 0]);
  (PPME_SOCKET_SOCKET_X, mk_entry F_sys_socket_x 0 APT_REG []);
  (PPME_SOCKET_BIND_E, mk_entry F_sys_autofill 1 APT_SOCK [mk_autofill 0 0]);
  (PPME_SOCKET_BIND_X, mk_entry F_sys_socket_bind_x 0 APT_REG []);
  (PPME_SOCKET_CONNECT_E, mk_entry F_sys_autofill 1 APT_SOCK [mk_autofill 0 0]);
  (PPME_SOCKET_CONNECT_X, mk_entry F_sys_connect_x 0 APT_REG []);
  (PPME_SOCKET_LISTEN_E, mk_entry F_sys_autofill 2 APT_SOCK [mk_autofill 0 0; mk_autofill 1 0]);
  (PPME_SOCKET_LISTEN_X, mk_entry F_sys_single_x 0 APT_REG []);
  (PPME_SOCKET_SEND_E, mk_entry F_sys_send_e 0 APT_REG []);
  (PPME_SOCKET_SEND_X, mk_entry F_sys_send_x 0 APT_REG []);
  (PPME_SOCKET_SENDTO_E, mk_entry F_sys_sendto_e 0 APT_REG []);
  (PPME_SOCKET_SENDTO_X, mk_entry F_sys_send_x 0 APT_REG []);
  (PPME_SOCKET_RECV_E, mk_entry F_sys_autofill 2 APT_SOCK [mk_autofill 0 0; mk_autofill 2 0]);
  (PPME_SOCKET_RECV_X, mk_entry F_sys_recv_x 0 APT_REG []);
  (PPME_SOCKET_RECVFROM_E, mk_entry F_sys_autofill 2 APT_SOCK [mk_autofill 0 0; mk_autofill 2 0]);
  (PPME_SOCKET_RECVFROM_X, mk_entry F_sys_recvfrom_x 0 APT_REG []);
  (PPME_SOCKET_SHUTDOWN_E, mk_entry F_sys_shutdown_e 0 APT_REG []);
  (PPME_SOCKET_SHUTDOWN_X, mk_entry F_sys_single_x 0 APT_REG []);
  (PPME_SOCKET_GETSOCKNAME_E, mk_entry F_sys_empty 0 APT_REG []);
  (PPME_SOCKET_GETSOCKNAME_X, mk_entry F_sys_empty 0 APT_REG []);
  (PPME_SOCKET_GETPEERNAME_E, mk_entry F_sys_empty 0 APT_REG []);
  (PPME_SOCKET_GETPEERNAME_X, mk_entry F_sys_empty 0 APT_REG []);
  (PPME_SOCKET_SOCKETPAIR_E, mk_entry F_sys_autofill 3 APT_SOCK [mk_autofill 0 0; mk_autofill 1 0; mk_autofill 2 0]);
  (PPME_SOCKET_SOCKETPAIR_X, mk_entry F_sys_socketpair_x 0 APT_REG []);
  (PPME_SOCKET_SETSOCKOPT_E, mk_entry F_sys_empty 0 APT_REG []);
  (PPME_SOCKET_SETSOCKOPT_X, mk_entry F_sys_setsockopt_x 0 APT_REG []);
  (PPME_SOCKET_GETSOCKOPT_E, mk_entry F_sys_empty 0 APT_REG []);
  (PPME_SOCKET_GETSOCKOPT_X, mk_entry F_sys_getsockopt_x 0 APT_REG []);
  (PPME_SOCKET_SENDMSG_E, mk_entry F_sys_sendmsg_e 0 APT_REG []);
  (PPME_SOCKET_SENDMSG_X, mk_entry F_sys_sendmsg_x 0 APT_REG []);
  (PPME_SOCKET_SENDMMSG_E, mk_entry F_sys_single 0 APT_REG []);
  (PPME_SOCKET_SENDMMSG_X, mk_entry F_sys_sendmmsg_x 0 APT_REG []);
  (PPME_SOCKET_RECVMSG_E, mk_entry F_sys_autofill 1 APT_SOCK [mk_autofill 0 0]);
  (PPME_SOCKET_RECVMSG_X, mk_entry F_sys_recvmsg_x 0 APT_REG []);
  (PPME_SOCKET_RECVMMSG_E, mk_entry F_sys_empty 0 APT_REG []);
  (PPME_SOCKET_RECVMMSG_X, mk_entry F_sys_empty 0 APT_REG []);
  (PPME_SYSCALL_CREAT_E, mk_entry F_sys_empty 0 APT_REG []);
  (PPME_SYSCALL_CREAT_X, mk_entry F_sys_creat_x 0 APT_REG []);
  (PPME_SYSCALL_PIPE_E, mk_entry F_sys_empty 0 APT_REG []);
  (PPME_SYSCALL_PIPE_X, mk_entry F_sys_pipe_x 0 APT_REG []);
  (PPME_SYSCALL_EVENTFD_E, mk_entry F_sys_eventfd_e 0 APT_REG []);
  (PPME_SYSCALL_EVENTFD_X, mk_entry F_sys_single_x 0 APT_REG []);
  (PPME_SYSCALL_FUTEX_E, mk_entry F_sys_futex_e 0 APT_REG []);
  (PPME_SYSCALL_FUTEX_X, mk_entry F_sys_single_x 0 APT_REG []);
  (PPME_SYSCALL_STAT_E, mk_entry F_sys_empty 0 APT_REG []);
  (PPME_SYSCALL_STAT_X, mk_entry F_sys_autofill 2 APT_REG [mk_autofill AF_ID_RETVAL 0; mk_autofill 0 0]);
  (PPME_SYSCALL_LSTAT_E, mk_entry F_sys_empty 0 APT_REG []);
  (PPME_SYSCALL_LSTAT_X, mk_entry F_sys_autofill 2 APT_REG [mk_autofill AF_ID_RETVAL 0; mk_autofill 0 0]);
  (PPME_SYSCALL_FSTAT_E, mk_entry F_sys_single 0 APT_REG []);
  (PPME_SYSCALL_FSTAT_X, mk_entry F_sys_single_x 0 APT_REG []);
  (PPME_SYSCALL_STAT64_E, mk_entry F_sys_empty 0 APT_REG []);
  (PPME_SYSCALL_STAT64_X, mk_entry F_sys_autofill 2 APT_REG [mk_autofill AF_ID_RETVAL 0; mk_autofill 0 0]);
  (PPME_SYSCALL_LSTAT64_E, mk_entry F_sys_empty 0 APT_REG []);
  (PPME_SYSCALL_LSTAT64_X, mk_entry F_sys_autofill 2 APT_REG [mk_autofill AF_ID_RETVAL 0; mk_autofill 0 0]);
  (PPME_SYSCALL_FSTAT64_E, mk_entry F_sys_single 0 APT_REG []);
  (PPME_SYSCALL_FSTAT64_X, mk_entry F_sys_single_x 0 APT_REG []);
  (PPME_SYSCALL_EPOLLWAIT_E, mk_entry F_sys_autofill 1 APT_REG [mk_autofill 2 0]);
  (PPME_SYSCALL_EPOLLWAIT_X, mk_entry F_sys_epoll_wait_x 0 APT_REG []);
  (PPME_SYSCALL_POLL_E, mk_entry F_sys_poll_e 0 APT_REG [])].

Definition g_ppm_events_1 : list (Z * ppm_event_entry) := [
  (PPME_SYSCALL_POLL_X, mk_entry F_sys_poll_x 0 APT_REG []);
  (PPME_SYSCALL_SELECT_E, mk_entry F_sys_empty 0 APT_REG []);
  (PPME_SYSCALL_SELECT_X, mk_entry F_sys_single_x 0 APT_REG []);
  (PPME_SYSCALL_NEWSELECT_E, mk_entry F_sys_empty 0 APT_REG []);
  (PPME_SYSCALL_NEWSELECT_X, mk_entry F_sys_single_x 0 APT_REG []);
  (PPME_SYSCALL_LSEEK_E, mk_entry F_sys_lseek_e 0 APT_REG []);
  (PPME_SYSCALL_LSEEK_X, mk_entry F_sys_single_x 0 APT_REG []);
  (PPME_SYSCALL_LLSEEK_E, mk_entry F_sys_llseek_e 0 APT_REG []);
  (PPME_SYSCALL_LLSEEK_X, mk_entry F_sys_single_x 0 APT_REG []);
  (PPME_SYSCALL_GETCWD_E, mk_entry F_sys_empty 0 APT_REG []);
  (PPME_SYSCALL_GETCWD_X, mk_entry F_sys_autofill 2 APT_REG [mk_autofill AF_ID_RETVAL 0; mk_autofill 0 0]);
  (PPME_SYSCALL_CHDIR_E, mk_entry F_sys_empty 0 APT_REG []);
  (PPME_SYSCALL_CHDIR_X, mk_entry F_sys_autofill 2 APT_REG [mk_autofill AF_ID_RETVAL 0; mk_autofill 0 0]);
  (PPME_SYSCALL_FCHDIR_E, mk_entry F_sys_single 0 APT_REG []);
  (PPME_SYSCALL_FCHDIR_X, mk_entry F_sys_single_x 0 APT_REG []);
  (PPME_SYSCALL_UNLINK_E, mk_entry F_sys_single 0 APT_REG []);
  (PPME_SYSCALL_UNLINK_X, mk_entry F_sys_single_x 0 APT_REG []);
  (PPME_SYSCALL_UNLINKAT_E, mk_entry F_sys_autofill 2 APT_REG [mk_autofill 0 0; mk_autofill 1 0]);
  (PPME_SYSCALL_UNLINKAT_X, mk_entry F_sys_single_x 0 APT_REG []);
  (PPME_SYSCALL_PREAD_E, mk_entry F_sys_autofill 3 APT_REG [mk_autofill 0 0; mk_autofill 2 0; mk_autofill 3 0]);
  (PPME_SYSCALL_PREAD_X, mk_entry F_sys_read_x 0 APT_REG []);
  (PPME_SYSCALL_PWRITE_E, mk_entry F_sys_autofill 3 APT_REG [mk_autofill 0 0; mk_autofill 2 0; mk_autofill 3 0]);
  (PPME_SYSCALL_PWRITE_X, mk_entry F_sys_write_x 0 APT_REG []);
  (PPME_SYSCALL_READV_E, mk_entry F_sys_single 0 APT_REG []);
  (PPME_SYSCALL_READV_X, mk_entry F_sys_readv_preadv_x 0 APT_REG []);
  (PPME_SYSCALL_WRITEV_E, mk_entry F_sys_writev_e 0 APT_REG []);
  (PPME_SYSCALL_WRITEV_X, mk_entry F_sys_writev_pwritev_x 0 APT_REG []);
  (PPME_SYSCALL_PREADV_E, mk_entry F_sys_autofill 2 APT_REG [mk_autofill 0 0; mk_autofill 3 0]);
  (PPME_SYSCALL_PREADV_X, mk_entry F_sys_readv_preadv_x 0 APT_REG []);
  (PPME_SYSCALL_PWRITEV_E, mk_entry F_sys_pwritev_e 0 APT_REG []);
  (PPME_SYSCALL_PWRITEV_X, mk_entry F_sys_writev_pwritev_x 0 APT_REG []);
  (PPME_SYSCALL_DUP_E, mk_entry F_sys_autofill 1 APT_REG [mk_autofill 0 0]);
  (PPME_SYSCALL_DUP_X, mk_entry F_sys_single_x 0 APT_REG []);
  (PPME_SYSCALL_SIGNALFD_E, mk_entry F_sys_autofill 3 APT_REG [mk_autofill 0 0; mk_autofill AF_ID_USEDEFAULT 0; mk_autofill AF_ID_USEDEFAULT 0]);
  (PPME_SYSCALL_SIGNALFD_X, mk_entry F_sys_single_x 0 APT_REG []);
  (PPME_SYSCALL_KILL_E, mk_entry F_sys_autofill 2 APT_REG [mk_autofill 0 0; mk_autofill 1 0]);
  (PPME_SYSCALL_KILL_X, mk_entry F_sys_single_x 0 APT_REG []);
  (PPME_SYSCALL_TKILL_E, mk_entry F_sys_autofill 2 APT_REG [mk_autofill 0 0; mk_autofill 1 0]);
  (PPME_SYSCALL_TKILL_X, mk_entry F_sys_single_x 0 APT_REG []);
  (PPME_SYSCALL_TGKILL_E, mk_entry F_sys_autofill 3 APT_REG [mk_autofill 0 0; mk_autofill 1 0; mk_autofill 2 0]);
  (PPME_SYSCALL_TGKILL_X, mk_entry F_sys_single_x 0 APT_REG []);
  (PPME_SYSCALL_NANOSLEEP_E, mk_entry F_sys_nanosleep_e 0 APT_REG []);
  (PPME_SYSCALL_NANOSLEEP_X, mk_entry F_sys_single_x 0 APT_REG []);
  (PPME_SYSCALL_TIMERFD_CREATE_E, mk_entry F_sys_autofill 2 APT_REG [mk_autofill AF_ID_USEDEFAULT 0; mk_autofill AF_ID_USEDEFAULT 0]);
  (PPME_SYSCALL_TIMERFD_CREATE_X, mk_entry F_sys_single_x 0 APT_REG []);
  (PPME_SYSCALL_INOTIFY_INIT_E, mk_entry F_sys_autofill 1 APT_REG [mk_autofill AF_ID_USEDEFAULT 0]);
  (PPME_SYSCALL_INOTIFY_INIT_X, mk_entry F_sys_single_x 0 APT_REG []);
  (PPME_SYSCALL_GETRLIMIT_E, mk_entry F_sys_getrlimit_setrlimit_e 0 APT_REG []);
  (PPME_SYSCALL_GETRLIMIT_X, mk_entry F_sys_getrlimit_setrlrimit_x 0 APT_REG []);
  (PPME_SYSCALL_SETRLIMIT_E, mk_entry F_sys_getrlimit_setrlimit_e 0 APT_REG []);
  (PPME_SYSCALL_SETRLIMIT_X, mk_entry F_sys_getrlimit_setrlrimit_x 0 APT_REG []);
  (PPME_SYSCALL_PRLIMIT_E, mk_entry F_sys_prlimit_e 0 APT_REG []);
  (PPME_SYSCALL_PRLIMIT_X, mk_entry F_sys_prlimit_x 0 APT_REG []);
  (PPME_DROP_E, mk_entry F_sched_drop 0 APT_REG []);
  (PPME_DROP_X, mk_entry F_sched_drop 0 APT_REG []);
  (PPME_SYSCALL_FCNTL_E, mk_entry F_sys_fcntl_e 0 APT_REG []);
  (PPME_SYSCALL_FCNTL_X, mk_entry F_sys_single_x 0 APT_REG []);
  (PPME_SCHEDSWITCH_6_E, mk_entry F_sched_switch_e 0 APT_REG []);
  (PPME_SYSCALL_BRK_4_E, mk_entry F_sys_autofill 1 APT_REG [mk_autofill 0 0]);
  (PPME_SYSCALL_BRK_4_X, mk_entry F_sys_brk_munmap_mmap_x 0 APT_REG []);
  (PPME_SYSCALL_MMAP_E, mk_entry F_sys_mmap_e 0 APT_REG []);
  (PPME_SYSCALL_MMAP_X, mk_entry F_sys_brk_munmap_mmap_x 0 APT_REG []);
  (PPME_SYSCALL_MMAP2_E, mk_entry F_sys_mmap_e 0 APT_REG []);
  (PPME_SYSCALL_MMAP2_X, mk_entry F_sys_brk_munmap_mmap_x 0 APT_REG []);
  (PPME_SYSCALL_MUNMAP_E, mk_entry F_sys_autofill 2 APT_REG [mk_autofill 0 0; mk_autofill 1 0]);
  (PPME_SYSCALL_MUNMAP_X, mk_entry F_sys_brk_munmap_mmap_x 0 APT_REG []);
  (PPME_SYSCALL_SPLICE_E, mk_entry F_sys_autofill 4 APT_REG [mk_autofill 0 0; mk_autofill 2 0; mk_autofill 4 0; mk_autofill 5 0]);
  (PPME_SYSCALL_SPLICE_X, mk_entry F_sys_autofill 1 APT_REG [mk_autofill AF_ID_RETVAL 0]);
  (PPME_SYSCALL_PTRACE_E, mk_entry F_sys_ptrace_e 0 APT_REG []);
  (PPME_SYSCALL_PTRACE_X, mk_entry F_sys_ptrace_x 0 APT_REG [])].

Definition g_ppm_events_2 : list (Z * ppm_event_entry) := [
  (PPME_SYSCALL_IOCTL_3_E, mk_entry F_sys_autofill 3 APT_REG [mk_autofill 0 0; mk_autofill 1 0; mk_autofill 2 0]);
  (PPME_SYSCALL_IOCTL_3_X, mk_entry F_sys_single_x 0 APT_REG []);
  (PPME_SYSCALL_RENAME_E, mk_entry F_sys_empty 0 APT_REG []);
  (PPME_SYSCALL_RENAME_X, mk_entry F_sys_autofill 3 APT_REG [mk_autofill AF_ID_RETVAL 0; mk_autofill 0 0; mk_autofill 1 0]);
  (PPME_SYSCALL_RENAMEAT_E, mk_entry F_sys_empty 0 APT_REG []);
  (PPME_SYSCALL_RENAMEAT_X, mk_entry F_sys_renameat_x 0 APT_REG []);
  (PPME_SYSCALL_SYMLINK_E, mk_entry F_sys_empty 0 APT_REG []);
  (PPME_SYSCALL_SYMLINK_X, mk_entry F_sys_autofill 3 APT_REG [mk_autofill AF_ID_RETVAL 0; mk_autofill 0 0; mk_autofill 1 0]);
  (PPME_SYSCALL_SYMLINKAT_E, mk_entry F_sys_empty 0 APT_REG []);
  (PPME_SYSCALL_SYMLINKAT_X, mk_entry F_sys_symlinkat_x 0 APT_REG []);
  (PPME_SYSCALL_SENDFILE_E, mk_entry F_sys_sendfile_e 0 APT_REG []);
  (PPME_SYSCALL_SENDFILE_X, mk_entry F_sys_sendfile_x 0 APT_REG []);
  (PPME_SYSCALL_QUOTACTL_E, mk_entry F_sys_quotactl_e 0 APT_REG []);
  (PPME_SYSCALL_QUOTACTL_X, mk_entry F_sys_quotactl_x 0 APT_REG []);
  (PPME_SYSCALL_SETRESUID_E, mk_entry F_sys_autofill 3 APT_REG [mk_autofill 0 0; mk_autofill 1 0; mk_autofill 2 0]);
  (PPME_SYSCALL_SETRESUID_X, mk_entry F_sys_autofill 1 APT_REG [mk_autofill AF_ID_RETVAL 0]);
  (PPME_SYSCALL_SETRESGID_E, mk_entry F_sys_autofill 3 APT_REG [mk_autofill 0 0; mk_autofill 1 0; mk_autofill 2 0]);
  (PPME_SYSCALL_SETRESGID_X, mk_entry F_sys_autofill 1 APT_REG [mk_autofill AF_ID_RETVAL 0]);
  (PPME_SYSDIGEVENT_E, mk_entry F_sys_sysdigevent_e 0 APT_REG []);
  (PPME_SYSCALL_SETUID_E, mk_entry F_sys_autofill 1 APT_REG [mk_autofill 0 0]);
  (PPME_SYSCALL_SETUID_X, mk_entry F_sys_autofill 1 APT_REG [mk_autofill AF_ID_RETVAL 0]);
  (PPME_SYSCALL_SETGID_E, mk_entry F_sys_autofill 1 APT_REG [mk_autofill 0 0]);
  (PPME_SYSCALL_SETGID_X, mk_entry F_sys_autofill 1 APT_REG [mk_autofill AF_ID_RETVAL 0]);
  (PPME_SYSCALL_GETUID_E, mk_entry F_sys_empty 0 APT_REG []);
  (PPME_SYSCALL_GETUID_X, mk_entry F_sys_autofill 1 APT_REG [mk_autofill AF_ID_RETVAL 0]);
  (PPME_SYSCALL_GETEUID_E, mk_entry F_sys_empty 0 APT_REG []);
  (PPME_SYSCALL_GETEUID_X, mk_entry F_sys_autofill 1 APT_REG [mk_autofill AF_ID_RETVAL 0]);
  (PPME_SYSCALL_GETGID_E, mk_entry F_sys_empty 0 APT_REG []);
  (PPME_SYSCALL_GETGID_X, mk_entry F_sys_autofill 1 APT_REG [mk_autofill AF_ID_RETVAL 0]);
  (PPME_SYSCALL_GETEGID_E, mk_entry F_sys_empty 0 APT_REG []);
  (PPME_SYSCALL_GETEGID_X, mk_entry F_sys_autofill 1 APT_REG [mk_autofill AF_ID_RETVAL 0]);
  (PPME_SYSCALL_GETRESUID_E, mk_entry F_sys_empty 0 APT_REG []);
  (PPME_SYSCALL_GETRESUID_X, mk_entry F_sys_getresuid_and_gid_x 0 APT_REG []);
  (PPME_SYSCALL_GETRESGID_E, mk_entry F_sys_empty 0 APT_REG []);
  (PPME_SYSCALL_GETRESGID_X, mk_entry F_sys_getresuid_and_gid_x 0 APT_REG []);
  (PPME_SYSCALL_CLONE_20_E, mk_entry F_sys_empty 0 APT_REG []);
  (PPME_SYSCALL_CLONE_20_X, mk_entry F_proc_startupdate 0 APT_REG []);
  (PPME_SYSCALL_FORK_20_E, mk_entry F_sys_empty 0 APT_REG []);
  (PPME_SYSCALL_FORK_20_X, mk_entry F_proc_startupdate 0 APT_REG []);
  (PPME_SYSCALL_VFORK_20_E, mk_entry F_sys_empty 0 APT_REG []);
  (PPME_SYSCALL_VFORK_20_X, mk_entry F_proc_startupdate 0 APT_REG []);
  (PPME_SIGNALDELIVER_E, mk_entry F_sys_signaldeliver_e 0 APT_REG []);
  (PPME_SIGNALDELIVER_X, mk_entry F_sys_empty 0 APT_REG []);
  (PPME_SYSCALL_GETDENTS_E, mk_entry F_sys_single 0 APT_REG []);
  (PPME_SYSCALL_GETDENTS_X, mk_entry F_sys_single_x 0 APT_REG []);
  (PPME_SYSCALL_GETDENTS64_E, mk_entry F_sys_single 0 APT_REG []);
  (PPME_SYSCALL_GETDENTS64_X, mk_entry F_sys_single_x 0 APT_REG []);
  (PPME_SYSCALL_SETNS_E, mk_entry F_sys_setns_e 0 APT_REG []);
  (PPME_SYSCALL_SETNS_X, mk_entry F_sys_autofill 1 APT_REG [mk_autofill AF_ID_RETVAL 0]);
  (PPME_SYSCALL_FLOCK_E, mk_entry F_sys_flock_e 0 APT_REG []);
  (PPME_SYSCALL_FLOCK_X, mk_entry F_sys_autofill 1 APT_REG [mk_autofill AF_ID_RETVAL 0]);
  (PPME_CPU_HOTPLUG_E, mk_entry F_cpu_hotplug_e 0 APT_REG []);
  (PPME_SOCKET_ACCEPT_5_E, mk_entry F_sys_empty 0 APT_REG []);
  (PPME_SOCKET_ACCEPT_5_X, mk_entry F_sys_accept_x 0 APT_REG []);
  (PPME_SOCKET_ACCEPT4_5_E, mk_entry F_sys_accept4_e 0 APT_REG []);
  (PPME_SOCKET_ACCEPT4_5_X, mk_entry F_sys_accept_x 0 APT_REG []);
  (PPME_SYSCALL_SEMOP_E, mk_entry F_sys_single 0 APT_REG []);
  (PPME_SYSCALL_SEMOP_X, mk_entry F_sys_semop_x 0 APT_REG []);
  (PPME_SYSCALL_SEMCTL_E, mk_entry F_sys_semctl_e 0 APT_REG []);
  (PPME_SYSCALL_SEMCTL_X, mk_entry F_sys_single_x 0 APT_REG []);
  (PPME_SYSCALL_PPOLL_E, mk_entry F_sys_ppoll_e 0 APT_REG []);
  (PPME_SYSCALL_PPOLL_X, mk_entry F_sys_poll_x 0 APT_REG []);
  (PPME_SYSCALL_MOUNT_E, mk_entry F_sys_mount_e 0 APT_REG []);
  (PPME_SYSCALL_MOUNT_X, mk_entry F_sys_autofill 4 APT_REG [mk_autofill AF_ID_RETVAL 0; mk_autofill 0 0; mk_autofill 1 0; mk_autofill 2 0]);
  (PPME_SYSCALL_UMOUNT_E, mk_entry F_sys_autofill 1 APT_REG [mk_autofill 1 0]);
  (PPME_SYSCALL_UMOUNT_X, mk_entry F_sys_autofill 2 APT_REG [mk_autofill AF_ID_RETVAL 0; mk_autofill 0 0]);
  (PPME_SYSCALL_SEMGET_E, mk_entry F_sys_semget_e 0 APT_REG []);
  (PPME_SYSCALL_SEMGET_X, mk_entry F_sys_single_x 0 APT_REG []);
  (PPME_SYSCALL_ACCESS_E, mk_entry F_sys_access_e 0 APT_REG []);
  (PPME_SYSCALL_ACCESS_X, mk_entry F_sys_autofill 2 APT_REG [mk_autofill AF_ID_RETVAL 0; mk_autofill 0 0])].

Definition g_ppm_events_3 : list (Z * ppm_event_entry) := [
  (PPME_SYSCALL_CHROOT_E, mk_entry F_sys_empty 0 APT_REG []);
  (PPME_SYSCALL_CHROOT_X, mk_entry F_sys_autofill 2 APT_REG [mk_autofill AF_ID_RETVAL 0; mk_autofill 0 0]);
  (PPME_SYSCALL_SETSID_E, mk_entry F_sys_empty 0 APT_REG []);
  (PPME_SYSCALL_SETSID_X, mk_entry F_sys_autofill 1 APT_REG [mk_autofill AF_ID_RETVAL 0]);
  (PPME_SYSCALL_SETPGID_E, mk_entry F_sys_autofill 2 APT_REG [mk_autofill 0 0; mk_autofill 1 0]);
  (PPME_SYSCALL_SETPGID_X, mk_entry F_sys_autofill 1 APT_REG [mk_autofill AF_ID_RETVAL 0]);
  (PPME_SYSCALL_MKDIR_2_E, mk_entry F_sys_autofill 1 APT_REG [mk_autofill AF_ID_USEDEFAULT 0]);
  (PPME_SYSCALL_MKDIR_2_X, mk_entry F_sys_autofill 2 APT_REG [mk_autofill AF_ID_RETVAL 0; mk_autofill 0 0]);
  (PPME_SYSCALL_RMDIR_2_E, mk_entry F_sys_empty 0 APT_REG []);
  (PPME_SYSCALL_RMDIR_2_X, mk_entry F_sys_autofill 2 APT_REG [mk_autofill AF_ID_RETVAL 0; mk_autofill 0 0]);
  (PPME_SYSCALL_UNSHARE_E, mk_entry F_sys_unshare_e 0 APT_REG []);
  (PPME_SYSCALL_UNSHARE_X, mk_entry F_sys_autofill 1 APT_REG [mk_autofill AF_ID_RETVAL 0]);
  (PPME_SYSCALL_EXECVE_19_E, mk_entry F_sys_execve_e 0 APT_REG []);
  (PPME_SYSCALL_EXECVE_19_X, mk_entry F_proc_startupdate 0 APT_REG []);
  (PPME_PAGE_FAULT_E, mk_entry F_sys_pagefault_e 0 APT_REG []);
  (PPME_PAGE_FAULT_X, mk_entry F_sys_empty 0 APT_REG []);
  (PPME_SYSCALL_BPF_E, mk_entry F_sys_autofill 1 APT_REG [mk_autofill 0 0]);
  (PPME_SYSCALL_BPF_X, mk_entry F_sys_bpf_x 0 APT_REG []);
  (PPME_SYSCALL_SECCOMP_E, mk_entry F_sys_autofill 1 APT_REG [mk_autofill 0 0; mk_autofill 1 0]);
  (PPME_SYSCALL_SECCOMP_X, mk_entry F_sys_autofill 1 APT_REG [mk_autofill AF_ID_RETVAL 0]);
  (PPME_SYSCALL_UNLINK_2_E, mk_entry F_sys_empty 0 APT_REG []);
  (PPME_SYSCALL_UNLINK_2_X, mk_entry F_sys_autofill 2 APT_REG [mk_autofill AF_ID_RETVAL 0; mk_autofill 0 0]);
  (PPME_SYSCALL_UNLINKAT_2_E, mk_entry F_sys_empty 0 APT_REG []);
  (PPME_SYSCALL_UNLINKAT_2_X, mk_entry F_sys_unlinkat_x 0 APT_REG []);
  (PPME_SYSCALL_MKDIRAT_E, mk_entry F_sys_empty 0 APT_REG []);
  (PPME_SYSCALL_MKDIRAT_X, mk_entry F_sys_mkdirat_x 0 APT_REG []);
  (PPME_SYSCALL_OPENAT_2_E, mk_entry F_sys_empty 0 APT_REG []);
  (PPME_SYSCALL_OPENAT_2_X, mk_entry F_sys_openat_x 0 APT_REG []);
  (PPME_SYSCALL_LINK_2_E, mk_entry F_sys_empty 0 APT_REG []);
  (PPME_SYSCALL_LINK_2_X, mk_entry F_sys_autofill 3 APT_REG [mk_autofill AF_ID_RETVAL 0; mk_autofill 0 0; mk_autofill 1 0]);
  (PPME_SYSCALL_LINKAT_2_E, mk_entry F_sys_empty 0 APT_REG []);
  (PPME_SYSCALL_LINKAT_2_X, mk_entry F_sys_linkat_x 0 APT_REG []);
  (PPME_SYSCALL_FCHMODAT_E, mk_entry F_sys_empty 0 APT_REG []);
  (PPME_SYSCALL_FCHMODAT_X, mk_entry F_sys_fchmodat_x 0 APT_REG []);
  (PPME_SYSCALL_CHMOD_E, mk_entry F_sys_empty 0 APT_REG []);
  (PPME_SYSCALL_CHMOD_X, mk_entry F_sys_chmod_x 0 APT_REG []);
  (PPME_SYSCALL_FCHMOD_E, mk_entry F_sys_empty 0 APT_REG []);
  (PPME_SYSCALL_FCHMOD_X, mk_entry F_sys_fchmod_x 0 APT_REG []);
  (PPME_SYSCALL_RENAMEAT2_E, mk_entry F_sys_empty 0 APT_REG []);
  (PPME_SYSCALL_RENAMEAT2_X, mk_entry F_sys_renameat2_x 0 APT_REG []);
  (PPME_SYSCALL_USERFAULTFD_E, mk_entry F_sys_empty 0 APT_REG []);
  (PPME_SYSCALL_USERFAULTFD_X, mk_entry F_sys_autofill 2 APT_REG [mk_autofill AF_ID_RETVAL 0; mk_autofill 0 0]);
  (PPME_NETIF_RECEIVE_SKB_E, mk_entry F_netif_receive_skb_e 0 APT_REG []);
  (PPME_NET_DEV_XMIT_E, mk_entry F_net_dev_start_xmit_e 0 APT_REG []);
  (PPME_TCP_RCV_ESTABLISHED_E, mk_entry F_tcp_rcv_established_e 0 APT_REG []);
  (PPME_TCP_DROP_E, mk_entry F_tcp_drop_e 0 APT_REG []);
  (PPME_TCP_RETRANCESMIT_SKB_E, mk_entry F_tcp_retransmit_skb_e 0 APT_REG []);
  (PPME_TCP_CONNECT_X, mk_entry F_tcp_connect_x 0 APT_REG []);
  (PPME_TCP_SET_STATE_E, mk_entry F_tcp_set_state_e 0 APT_REG []);
  (PPME_TCP_SEND_RESET_E, mk_entry F_tcp_send_reset_e 0 APT_REG []);
  (PPME_TCP_RECEIVE_RESET_E, mk_entry F_tcp_receive_reset_e 0 APT_REG []);
  (PPME_CPU_ANALYSIS_E, mk_entry F_cpu_analysis_e 0 APT_REG [])].

Definition g_ppm_events_init : list (Z * ppm_event_entry) :=
  (g_ppm_events_0 ++ g_ppm_events_1 ++ g_ppm_events_2 ++ g_ppm_events_3)%list.
(** [g_ppm_events[t]]: the last initialiser that names [t], as C has it, or a
    null callback. *)
Definition g_ppm_events (t : Z) : option ppm_event_entry :=
  foldl (fun acc e => if fst e =? t then Some (snd e) else acc) None g_ppm_events_init.

(** ** The filler table agrees with the event table. *)

Definition autofill_ok (t : Z) : bool :=
  match g_ppm_events t with
  | Some e =>
      match filler_id e with
      | F_sys_autofill =>
          (n_autofill_args e =? ei_nparams (g_event_info t))
          && (n_autofill_args e <=? Z.of_nat (length (autofill_args e)))
          && (Z.of_nat (length (autofill_args e)) <=? PPM_MAX_AUTOFILL_ARGS)
          && forallb (fun a => ((0 <=? af_id a) && (af_id a <? 6))
                       || (af_id a =? AF_ID_RETVAL) || (af_id a =? AF_ID_USEDEFAULT))
               (autofill_args e)
      | F_sys_empty => ei_nparams (g_event_info t) =? 0
      | F_sys_single | F_sys_single_x | F_sys_socket_x => ei_nparams (g_event_info t) =? 1
      | _ => true
      end
  | None => true
  end.

Lemma autofill_ok_all : forallb autofill_ok event_types = true.
Proof. vm_compute; reflexivity. Qed.

(** For every event type served by the automatic filler, the number of
    automatic arguments is the parameter count of the event table, is at most
    the number of arguments listed and the array bound, and every listed
    argument is a syscall register, the return value or a default; the events
    served by the empty and single fillers declare no and one parameter. *)
Theorem autofill_matches_event_table (t : Z) (e : ppm_event_entry) :
  0 <= t < PPM_EVENT_MAX ->
  g_ppm_events t = Some e ->
  (filler_id e = F_sys_autofill ->
     n_autofill_args e = ei_nparams (g_event_info t) /\
     n_autofill_args e <= Z.of_nat (length (autofill_args e)) <= PPM_MAX_AUTOFILL_ARGS /\
     Forall (fun a => 0 <= af_id a < 6 \/ af_id a = AF_ID_RETVAL
                      \/ af_id a = AF_ID_USEDEFAULT) (autofill_args e)) /\
  (filler_id e = F_sys_empty -> ei_nparams (g_event_info t) = 0) /\
  (filler_id e = F_sys_single \/ filler_id e = F_sys_single_x
     \/ filler_id e = F_sys_socket_x -> ei_nparams (g_event_info t) = 1).
Proof.
  intros Ht He.
  pose proof (forall_event_types _ autofill_ok_all t Ht) as H.
  unfold autofill_ok in H. rewrite He in H.
  split; [|split].
  - intros Hf. rewrite Hf in H. bool_to_prop. split; [done|]. split; [lia|].
    apply Forall_forall. intros a Ha.
    match goal with Hb : forallb _ _ = true |- _ => rewrite forallb_forall in Hb;
      specialize (Hb a Ha) end.
    lia.
  - intros Hf. rewrite Hf in H. zsolve.
  - intros [Hf|[Hf|Hf]]; rewrite Hf in H; zsolve.
Qed.

Lemma autofill_matches_event_table_witness :
  n_autofill_args (mk_entry F_sys_autofill 2 APT_REG [mk_autofill 0 0; mk_autofill 2 0])
  = ei_nparams (g_event_info PPME_SYSCALL_READ_E).
Proof.
  destruct (autofill_matches_event_table PPME_SYSCALL_READ_E
    (mk_entry F_sys_autofill 2 APT_REG [mk_autofill 0 0; mk_autofill 2 0])) as [H _];
    [vm_compute; split; congruence|vm_compute; reflexivity|].
  exact (proj1 (H eq_refl)).
Defined.
