(* ===== verification/SyscallTable.v ===== *)
(** * The syscall routing tables: [driver/syscall_table.c]

    A row is a designated initialiser: the syscall whose number is the index,
    the preprocessor condition it stands under and the flags with the enter and
    exit event types.  The numbers themselves come from the kernel headers, so
    the numbering [nr] is an argument ([nr s = None]: the headers do not define
    the syscall). *)

From Stdlib Require Import ZArith Lia List Bool.
From Stdlib Require Import Strings.String.
From stdpp Require Import base tactics list numbers option.
From S2P Require Import Prelude EventDefs EventTable FillerTable.
Import ListNotations.
Local Open Scope string_scope.
Local Open Scope list_scope.
Local Open Scope Z_scope.

(** The condition of the [#ifdef] or [#ifndef] around an initialiser. *)
Inductive pp_guard : Set := Always | IfDef (s : string) | IfNdef (s : string).

Record syscall_row : Set := mk_row {
  row_nr : string;
  row_guard : pp_guard;
  row_pair : syscall_evt_pair }.

(** A row of a code routing table. *)
Record code_row : Set := mk_code_row {
  crow_nr : string;
  crow_guard : pp_guard;
  crow_code : Z }.

Definition g_syscall_table_0 : list syscall_row := [
  mk_row "open" (IfDef "open") (mk_pair (Z.lor UF_USED UF_NEVER_DROP) PPME_SYSCALL_OPEN_E PPME_SYSCALL_OPEN_X);
  mk_row "creat" (IfDef "creat") (mk_pair (Z.lor UF_USED UF_NEVER_DROP) PPME_SYSCALL_CREAT_E PPME_SYSCALL_CREAT_X);
  mk_row "close" Always (mk_pair (Z.lor (Z.lor UF_USED UF_NEVER_DROP) UF_SIMPLEDRIVER_KEEP) PPME_SYSCALL_CLOSE_E PPME_SYSCALL_CLOSE_X);
  mk_row "brk" Always (mk_pair (Z.lor UF_USED UF_ALWAYS_DROP) PPME_SYSCALL_BRK_4_E PPME_SYSCALL_BRK_4_X);
  mk_row "read" Always (mk_pair UF_USED PPME_SYSCALL_READ_E PPME_SYSCALL_READ_X);
  mk_row "write" Always (mk_pair UF_USED PPME_SYSCALL_WRITE_E PPME_SYSCALL_WRITE_X);
  mk_row "execve" Always (mk_pair (Z.lor (Z.lor UF_USED UF_NEVER_DROP) UF_SIMPLEDRIVER_KEEP) PPME_SYSCALL_EXECVE_19_E PPME_SYSCALL_EXECVE_19_X);
  mk_row "clone" Always (mk_pair (Z.lor (Z.lor UF_USED UF_NEVER_DROP) UF_SIMPLEDRIVER_KEEP) PPME_SYSCALL_CLONE_20_E PPME_SYSCALL_CLONE_20_X);
  mk_row "fork" (IfDef "fork") (mk_pair (Z.lor (Z.lor UF_USED UF_NEVER_DROP) UF_SIMPLEDRIVER_KEEP) PPME_SYSCALL_FORK_20_E PPME_SYSCALL_FORK_20_X);
  mk_row "vfork" (IfDef "vfork") (mk_pair (Z.lor (Z.lor UF_USED UF_NEVER_DROP) UF_SIMPLEDRIVER_KEEP) PPME_SYSCALL_VFORK_20_E PPME_SYSCALL_VFORK_20_X);
  mk_row "pipe" (IfDef "pipe") (mk_pair (Z.lor UF_USED UF_NEVER_DROP) PPME_SYSCALL_PIPE_E PPME_SYSCALL_PIPE_X);
  mk_row "pipe2" Always (mk_pair (Z.lor UF_USED UF_NEVER_DROP) PPME_SYSCALL_PIPE_E PPME_SYSCALL_PIPE_X);
  mk_row "eventfd" (IfDef "eventfd") (mk_pair (Z.lor UF_USED UF_NEVER_DROP) PPME_SYSCALL_EVENTFD_E PPME_SYSCALL_EVENTFD_X);
  mk_row "eventfd2" Always (mk_pair (Z.lor UF_USED UF_NEVER_DROP) PPME_SYSCALL_EVENTFD_E PPME_SYSCALL_EVENTFD_X);
  mk_row "futex" Always (mk_pair (Z.lor UF_USED UF_ALWAYS_DROP) PPME_SYSCALL_FUTEX_E PPME_SYSCALL_FUTEX_X);
  mk_row "stat" (IfDef "stat") (mk_pair (Z.lor UF_USED UF_ALWAYS_DROP) PPME_SYSCALL_STAT_E PPME_SYSCALL_STAT_X);
  mk_row "lstat" (IfDef "lstat") (mk_pair (Z.lor UF_USED UF_ALWAYS_DROP) PPME_SYSCALL_LSTAT_E PPME_SYSCALL_LSTAT_X);
  mk_row "fstat" Always (mk_pair (Z.lor UF_USED UF_ALWAYS_DROP) PPME_SYSCALL_FSTAT_E PPME_SYSCALL_FSTAT_X);
  mk_row "epoll_wait" (IfDef "epoll_wait") (mk_pair (Z.lor UF_USED UF_ALWAYS_DROP) PPME_SYSCALL_EPOLLWAIT_E PPME_SYSCALL_EPOLLWAIT_X);
  mk_row "poll" (IfDef "poll") (mk_pair (Z.lor UF_USED UF_ALWAYS_DROP) PPME_SYSCALL_POLL_E PPME_SYSCALL_POLL_X);
  mk_row "select" (IfDef "select") (mk_pair (Z.lor UF_USED UF_ALWAYS_DROP) PPME_SYSCALL_SELECT_E PPME_SYSCALL_SELECT_X);
  mk_row "lseek" Always (mk_pair (Z.lor UF_USED UF_ALWAYS_DROP) PPME_SYSCALL_LSEEK_E PPME_SYSCALL_LSEEK_X);
  mk_row "ioctl" Always (mk_pair (Z.lor UF_USED UF_ALWAYS_DROP) PPME_SYSCALL_IOCTL_3_E PPME_SYSCALL_IOCTL_3_X);
  mk_row "getcwd" Always (mk_pair (Z.lor UF_USED UF_ALWAYS_DROP) PPME_SYSCALL_GETCWD_E PPME_SYSCALL_GETCWD_X);
  mk_row "chdir" Always (mk_pair (Z.lor (Z.lor UF_USED UF_NEVER_DROP) UF_SIMPLEDRIVER_KEEP) PPME_SYSCALL_CHDIR_E PPME_SYSCALL_CHDIR_X);
  mk_row "fchdir" Always (mk_pair (Z.lor (Z.lor UF_USED UF_NEVER_DROP) UF_SIMPLEDRIVER_KEEP) PPME_SYSCALL_FCHDIR_E PPME_SYSCALL_FCHDIR_X);
  mk_row "mkdir" (IfDef "mkdir") (mk_pair UF_USED PPME_SYSCALL_MKDIR_2_E PPME_SYSCALL_MKDIR_2_X);
  mk_row "rmdir" (IfDef "rmdir") (mk_pair UF_USED PPME_SYSCALL_RMDIR_2_E PPME_SYSCALL_RMDIR_2_X);
  mk_row "openat" Always (mk_pair (Z.lor UF_USED UF_NEVER_DROP) PPME_SYSCALL_OPENAT_2_E PPME_SYSCALL_OPENAT_2_X);
  mk_row "mkdirat" Always (mk_pair UF_USED PPME_SYSCALL_MKDIRAT_E PPME_SYSCALL_MKDIRAT_X);
  mk_row "link" (IfDef "link") (mk_pair UF_USED PPME_SYSCALL_LINK_2_E PPME_SYSCALL_LINK_2_X);
  mk_row "linkat" Always (mk_pair UF_USED PPME_SYSCALL_LINKAT_2_E PPME_SYSCALL_LINKAT_2_X);
  mk_row "unlink" (IfDef "unlink") (mk_pair UF_USED PPME_SYSCALL_UNLINK_2_E PPME_SYSCALL_UNLINK_2_X);
  mk_row "unlinkat" Always (mk_pair UF_USED PPME_SYSCALL_UNLINKAT_2_E PPME_SYSCALL_UNLINKAT_2_X);
  mk_row "pread64" Always (mk_pair UF_USED PPME_SYSCALL_PREAD_E PPME_SYSCALL_PREAD_X);
  mk_row "pwrite64" Always (mk_pair UF_USED PPME_SYSCALL_PWRITE_E PPME_SYSCALL_PWRITE_X);
  mk_row "readv" Always (mk_pair UF_USED PPME_SYSCALL_READV_E PPME_SYSCALL_READV_X);
  mk_row "writev" Always (mk_pair UF_USED PPME_SYSCALL_WRITEV_E PPME_SYSCALL_WRITEV_X);
  mk_row "preadv" Always (mk_pair UF_USED PPME_SYSCALL_PREADV_E PPME_SYSCALL_PREADV_X);
  mk_row "pwritev" Always (mk_pair UF_USED PPME_SYSCALL_PWRITEV_E PPME_SYSCALL_PWRITEV_X);
  mk_row "dup" Always (mk_pair (Z.lor (Z.lor UF_USED UF_NEVER_DROP) UF_SIMPLEDRIVER_KEEP) PPME_SYSCALL_DUP_E PPME_SYSCALL_DUP_X);
  mk_row "dup2" (IfDef "dup2") (mk_pair (Z.lor (Z.lor UF_USED UF_NEVER_DROP) UF_SIMPLEDRIVER_KEEP) PPME_SYSCALL_DUP_E PPME_SYSCALL_DUP_X);
  mk_row "dup3" Always (mk_pair (Z.lor (Z.lor UF_USED UF_NEVER_DROP) UF_SIMPLEDRIVER_KEEP) PPME_SYSCALL_DUP_E PPME_SYSCALL_DUP_X);
  mk_row "signalfd" (IfDef "signalfd") (mk_pair (Z.lor UF_USED UF_NEVER_DROP) PPME_SYSCALL_SIGNALFD_E PPME_SYSCALL_SIGNALFD_X);
  mk_row "signalfd4" Always (mk_pair (Z.lor UF_USED UF_NEVER_DROP) PPME_SYSCALL_SIGNALFD_E PPME_SYSCALL_SIGNALFD_X);
  mk_row "kill" Always (mk_pair UF_USED PPME_SYSCALL_KILL_E PPME_SYSCALL_KILL_X);
  mk_row "tkill" Always (mk_pair UF_USED PPME_SYSCALL_TKILL_E PPME_SYSCALL_TKILL_X);
  mk_row "tgkill" Always (mk_pair UF_USED PPME_SYSCALL_TGKILL_E PPME_SYSCALL_TGKILL_X);
  mk_row "nanosleep" Always (mk_pair (Z.lor UF_USED UF_ALWAYS_DROP) PPME_SYSCALL_NANOSLEEP_E PPME_SYSCALL_NANOSLEEP_X);
  mk_row "timerfd_create" Always (mk_pair (Z.lor UF_USED UF_NEVER_DROP) PPME_SYSCALL_TIMERFD_CREATE_E PPME_SYSCALL_TIMERFD_CREATE_X);
  mk_row "inotify_init" (IfDef "inotify_init") (mk_pair (Z.lor UF_USED UF_NEVER_DROP) PPME_SYSCALL_INOTIFY_INIT_E PPME_SYSCALL_INOTIFY_INIT_X);
  mk_row "inotify_init1" Always (mk_pair (Z.lor UF_USED UF_NEVER_DROP) PPME_SYSCALL_INOTIFY_INIT_E PPME_SYSCALL_INOTIFY_INIT_X);
  mk_row "fchmodat" Always (mk_pair UF_USED PPME_SYSCALL_FCHMODAT_E PPME_SYSCALL_FCHMODAT_X);
  mk_row "fchmod" Always (mk_pair UF_USED PPME_SYSCALL_FCHMOD_E PPME_SYSCALL_FCHMOD_X);
  mk_row "getrlimit" (IfDef "getrlimit") (mk_pair (Z.lor UF_USED UF_NEVER_DROP) PPME_SYSCALL_GETRLIMIT_E PPME_SYSCALL_GETRLIMIT_X);
  mk_row "setrlimit" Always (mk_pair (Z.lor UF_USED UF_NEVER_DROP) PPME_SYSCALL_SETRLIMIT_E PPME_SYSCALL_SETRLIMIT_X);
  mk_row "prlimit64" (IfDef "prlimit64") (mk_pair (Z.lor UF_USED UF_NEVER_DROP) PPME_SYSCALL_PRLIMIT_E PPME_SYSCALL_PRLIMIT_X);
  mk_row "ugetrlimit" (IfDef "ugetrlimit") (mk_pair (Z.lor UF_USED UF_NEVER_DROP) PPME_SYSCALL_GETRLIMIT_E PPME_SYSCALL_GETRLIMIT_X);
  mk_row "fcntl" Always (mk_pair UF_USED PPME_SYSCALL_FCNTL_E PPME_SYSCALL_FCNTL_X);
  mk_row "fcntl64" (IfDef "fcntl64") (mk_pair UF_USED PPME_SYSCALL_FCNTL_E PPME_SYSCALL_FCNTL_X);
  mk_row "pselect6" Always (mk_pair (Z.lor UF_USED UF_ALWAYS_DROP) PPME_GENERIC_E PPME_GENERIC_X);
  mk_row "epoll_create" (IfDef "epoll_create") (mk_pair (Z.lor UF_USED UF_ALWAYS_DROP) PPME_GENERIC_E PPME_GENERIC_X);
  mk_row "epoll_ctl" Always (mk_pair (Z.lor UF_USED UF_ALWAYS_DROP) PPME_GENERIC_E PPME_GENERIC_X);
  mk_row "uselib" (IfDef "uselib") (mk_pair (Z.lor UF_USED UF_ALWAYS_DROP) PPME_GENERIC_E PPME_GENERIC_X);
  mk_row "sched_setparam" Always (mk_pair (Z.lor UF_USED UF_ALWAYS_DROP) PPME_GENERIC_E PPME_GENERIC_X);
  mk_row "sched_getparam" Always (mk_pair (Z.lor UF_USED UF_ALWAYS_DROP) PPME_GENERIC_E PPME_GENERIC_X);
  mk_row "syslog" Always (mk_pair (Z.lor UF_USED UF_ALWAYS_DROP) PPME_GENERIC_E PPME_GENERIC_X);
  mk_row "chmod" (IfDef "chmod") (mk_pair UF_USED PPME_SYSCALL_CHMOD_E PPME_SYSCALL_CHMOD_X);
  mk_row "lchown" (IfDef "lchown") (mk_pair UF_USED PPME_GENERIC_E PPME_GENERIC_X);
  mk_row "utime" (IfDef "utime") (mk_pair (Z.lor UF_USED UF_ALWAYS_DROP) PPME_GENERIC_E PPME_GENERIC_X);
  mk_row "mount" Always (mk_pair UF_USED PPME_SYSCALL_MOUNT_E PPME_SYSCALL_MOUNT_X);
  mk_row "umount2" Always (mk_pair UF_USED PPME_SYSCALL_UMOUNT_E PPME_SYSCALL_UMOUNT_X);
  mk_row "ptrace" Always (mk_pair UF_USED PPME_SYSCALL_PTRACE_E PPME_SYSCALL_PTRACE_X);
  mk_row "alarm" (IfDef "alarm") (mk_pair (Z.lor UF_USED UF_ALWAYS_DROP) PPME_GENERIC_E PPME_GENERIC_X);
  mk_row "pause" (IfDef "pause") (mk_pair (Z.lor UF_USED UF_ALWAYS_DROP) PPME_GENERIC_E PPME_GENERIC_X);
  mk_row "socket" (IfNdef "socketcall") (mk_pair (Z.lor (Z.lor UF_USED UF_NEVER_DROP) UF_SIMPLEDRIVER_KEEP) PPME_SOCKET_SOCKET_E PPME_SOCKET_SOCKET_X);
  mk_row "bind" (IfNdef "socketcall") (mk_pair (Z.lor UF_USED UF_NEVER_DROP) PPME_SOCKET_BIND_E PPME_SOCKET_BIND_X);
  mk_row "connect" (IfNdef "socketcall") (mk_pair (Z.lor UF_USED UF_SIMPLEDRIVER_KEEP) PPME_SOCKET_CONNECT_E PPME_SOCKET_CONNECT_X);
  mk_row "listen" (IfNdef "socketcall") (mk_pair UF_USED PPME_SOCKET_LISTEN_E PPME_SOCKET_LISTEN_X);
  mk_row "accept" (IfNdef "socketcall") (mk_pair (Z.lor UF_USED UF_SIMPLEDRIVER_KEEP) PPME_SOCKET_ACCEPT_5_E PPME_SOCKET_ACCEPT_5_X)].

Definition g_syscall_table_1 : list syscall_row := [
  mk_row "getsockname" (IfNdef "socketcall") (mk_pair (Z.lor UF_USED UF_ALWAYS_DROP) PPME_SOCKET_GETSOCKNAME_E PPME_SOCKET_GETSOCKNAME_X);
  mk_row "getpeername" (IfNdef "socketcall") (mk_pair (Z.lor UF_USED UF_ALWAYS_DROP) PPME_SOCKET_GETPEERNAME_E PPME_SOCKET_GETPEERNAME_X);
  mk_row "socketpair" (IfNdef "socketcall") (mk_pair (Z.lor UF_USED UF_NEVER_DROP) PPME_SOCKET_SOCKETPAIR_E PPME_SOCKET_SOCKETPAIR_X);
  mk_row "sendto" (IfNdef "socketcall") (mk_pair UF_USED PPME_SOCKET_SENDTO_E PPME_SOCKET_SENDTO_X);
  mk_row "recvfrom" (IfNdef "socketcall") (mk_pair UF_USED PPME_SOCKET_RECVFROM_E PPME_SOCKET_RECVFROM_X);
  mk_row "shutdown" (IfNdef "socketcall") (mk_pair UF_USED PPME_SOCKET_SHUTDOWN_E PPME_SOCKET_SHUTDOWN_X);
  mk_row "setsockopt" (IfNdef "socketcall") (mk_pair (Z.lor UF_USED UF_ALWAYS_DROP) PPME_SOCKET_SETSOCKOPT_E PPME_SOCKET_SETSOCKOPT_X);
  mk_row "getsockopt" (IfNdef "socketcall") (mk_pair UF_USED PPME_SOCKET_GETSOCKOPT_E PPME_SOCKET_GETSOCKOPT_X);
  mk_row "sendmsg" (IfNdef "socketcall") (mk_pair UF_USED PPME_SOCKET_SENDMSG_E PPME_SOCKET_SENDMSG_X);
  mk_row "accept4" (IfNdef "socketcall") (mk_pair (Z.lor UF_USED UF_SIMPLEDRIVER_KEEP) PPME_SOCKET_ACCEPT4_5_E PPME_SOCKET_ACCEPT4_5_X);
  mk_row "sendmmsg" (IfDef "sendmmsg") (mk_pair UF_USED PPME_SOCKET_SENDMMSG_E PPME_SOCKET_SENDMMSG_X);
  mk_row "recvmsg" (IfDef "recvmsg") (mk_pair UF_USED PPME_SOCKET_RECVMSG_E PPME_SOCKET_RECVMSG_X);
  mk_row "recvmmsg" (IfDef "recvmmsg") (mk_pair UF_USED PPME_SOCKET_RECVMMSG_E PPME_SOCKET_RECVMMSG_X);
  mk_row "stat64" (IfDef "stat64") (mk_pair (Z.lor UF_USED UF_ALWAYS_DROP) PPME_SYSCALL_STAT64_E PPME_SYSCALL_STAT64_X);
  mk_row "fstat64" (IfDef "fstat64") (mk_pair (Z.lor UF_USED UF_ALWAYS_DROP) PPME_SYSCALL_FSTAT64_E PPME_SYSCALL_FSTAT64_X);
  mk_row "_llseek" (IfDef "_llseek") (mk_pair (Z.lor UF_USED UF_ALWAYS_DROP) PPME_SYSCALL_LLSEEK_E PPME_SYSCALL_LLSEEK_X);
  mk_row "mmap" (IfDef "mmap") (mk_pair (Z.lor UF_USED UF_ALWAYS_DROP) PPME_SYSCALL_MMAP_E PPME_SYSCALL_MMAP_X);
  mk_row "mmap2" (IfDef "mmap2") (mk_pair (Z.lor UF_USED UF_ALWAYS_DROP) PPME_SYSCALL_MMAP2_E PPME_SYSCALL_MMAP2_X);
  mk_row "munmap" Always (mk_pair (Z.lor UF_USED UF_ALWAYS_DROP) PPME_SYSCALL_MUNMAP_E PPME_SYSCALL_MUNMAP_X);
  mk_row "splice" Always (mk_pair UF_USED PPME_SYSCALL_SPLICE_E PPME_SYSCALL_SPLICE_X);
  mk_row "process_vm_readv" (IfDef "process_vm_readv") (mk_pair UF_USED PPME_GENERIC_E PPME_GENERIC_X);
  mk_row "process_vm_writev" (IfDef "process_vm_writev") (mk_pair UF_USED PPME_GENERIC_E PPME_GENERIC_X);
  mk_row "rename" (IfDef "rename") (mk_pair UF_USED PPME_SYSCALL_RENAME_E PPME_SYSCALL_RENAME_X);
  mk_row "renameat" Always (mk_pair UF_USED PPME_SYSCALL_RENAMEAT_E PPME_SYSCALL_RENAMEAT_X);
  mk_row "symlink" (IfDef "symlink") (mk_pair UF_USED PPME_SYSCALL_SYMLINK_E PPME_SYSCALL_SYMLINK_X);
  mk_row "symlinkat" Always (mk_pair UF_USED PPME_SYSCALL_SYMLINKAT_E PPME_SYSCALL_SYMLINKAT_X);
  mk_row "sendfile" Always (mk_pair UF_USED PPME_SYSCALL_SENDFILE_E PPME_SYSCALL_SENDFILE_X);
  mk_row "sendfile64" (IfDef "sendfile64") (mk_pair UF_USED PPME_SYSCALL_SENDFILE_E PPME_SYSCALL_SENDFILE_X);
  mk_row "quotactl" (IfDef "quotactl") (mk_pair UF_USED PPME_SYSCALL_QUOTACTL_E PPME_SYSCALL_QUOTACTL_X);
  mk_row "setresuid" (IfDef "setresuid") (mk_pair UF_USED PPME_SYSCALL_SETRESUID_E PPME_SYSCALL_SETRESUID_X);
  mk_row "setresuid32" (IfDef "setresuid32") (mk_pair UF_USED PPME_SYSCALL_SETRESUID_E PPME_SYSCALL_SETRESUID_X);
  mk_row "setresgid" (IfDef "setresgid") (mk_pair UF_USED PPME_SYSCALL_SETRESGID_E PPME_SYSCALL_SETRESGID_X);
  mk_row "setresgid32" (IfDef "setresgid32") (mk_pair UF_USED PPME_SYSCALL_SETRESGID_E PPME_SYSCALL_SETRESGID_X);
  mk_row "setuid" (IfDef "setuid") (mk_pair UF_USED PPME_SYSCALL_SETUID_E PPME_SYSCALL_SETUID_X);
  mk_row "setuid32" (IfDef "setuid32") (mk_pair UF_USED PPME_SYSCALL_SETUID_E PPME_SYSCALL_SETUID_X);
  mk_row "setgid" (IfDef "setgid") (mk_pair UF_USED PPME_SYSCALL_SETGID_E PPME_SYSCALL_SETGID_X);
  mk_row "setgid32" (IfDef "setgid32") (mk_pair UF_USED PPME_SYSCALL_SETGID_E PPME_SYSCALL_SETGID_X);
  mk_row "getuid" (IfDef "getuid") (mk_pair UF_USED PPME_SYSCALL_GETUID_E PPME_SYSCALL_GETUID_X);
  mk_row "getuid32" (IfDef "getuid32") (mk_pair UF_USED PPME_SYSCALL_GETUID_E PPME_SYSCALL_GETUID_X);
  mk_row "geteuid" (IfDef "geteuid") (mk_pair UF_USED PPME_SYSCALL_GETEUID_E PPME_SYSCALL_GETEUID_X);
  mk_row "geteuid32" (IfDef "geteuid32") (mk_pair UF_USED PPME_SYSCALL_GETEUID_E PPME_SYSCALL_GETEUID_X);
  mk_row "getgid" (IfDef "getgid") (mk_pair UF_USED PPME_SYSCALL_GETGID_E PPME_SYSCALL_GETGID_X);
  mk_row "getgid32" (IfDef "getgid32") (mk_pair UF_USED PPME_SYSCALL_GETGID_E PPME_SYSCALL_GETGID_X);
  mk_row "getegid" (IfDef "getegid") (mk_pair UF_USED PPME_SYSCALL_GETEGID_E PPME_SYSCALL_GETEGID_X);
  mk_row "getegid32" (IfDef "getegid32") (mk_pair UF_USED PPME_SYSCALL_GETEGID_E PPME_SYSCALL_GETEGID_X);
  mk_row "getresuid" (IfDef "getresuid") (mk_pair UF_USED PPME_SYSCALL_GETRESUID_E PPME_SYSCALL_GETRESUID_X);
  mk_row "getresuid32" (IfDef "getresuid32") (mk_pair UF_USED PPME_SYSCALL_GETRESUID_E PPME_SYSCALL_GETRESUID_X);
  mk_row "getresgid" (IfDef "getresgid") (mk_pair UF_USED PPME_SYSCALL_GETRESGID_E PPME_SYSCALL_GETRESGID_X);
  mk_row "getresgid32" (IfDef "getresgid32") (mk_pair UF_USED PPME_SYSCALL_GETRESGID_E PPME_SYSCALL_GETRESGID_X);
  mk_row "getdents" (IfDef "getdents") (mk_pair (Z.lor UF_USED UF_ALWAYS_DROP) PPME_SYSCALL_GETDENTS_E PPME_SYSCALL_GETDENTS_X);
  mk_row "getdents64" Always (mk_pair (Z.lor UF_USED UF_ALWAYS_DROP) PPME_SYSCALL_GETDENTS64_E PPME_SYSCALL_GETDENTS64_X);
  mk_row "setns" (IfDef "setns") (mk_pair UF_USED PPME_SYSCALL_SETNS_E PPME_SYSCALL_SETNS_X);
  mk_row "unshare" (IfDef "unshare") (mk_pair (Z.lor UF_USED UF_ALWAYS_DROP) PPME_SYSCALL_UNSHARE_E PPME_SYSCALL_UNSHARE_X);
  mk_row "flock" Always (mk_pair (Z.lor UF_USED UF_ALWAYS_DROP) PPME_SYSCALL_FLOCK_E PPME_SYSCALL_FLOCK_X);
  mk_row "semop" (IfDef "semop") (mk_pair (Z.lor UF_USED UF_ALWAYS_DROP) PPME_SYSCALL_SEMOP_E PPME_SYSCALL_SEMOP_X);
  mk_row "semget" (IfDef "semget") (mk_pair (Z.lor UF_USED UF_ALWAYS_DROP) PPME_SYSCALL_SEMGET_E PPME_SYSCALL_SEMGET_X);
  mk_row "semctl" (IfDef "semctl") (mk_pair (Z.lor UF_USED UF_ALWAYS_DROP) PPME_SYSCALL_SEMCTL_E PPME_SYSCALL_SEMCTL_X)].

Definition g_syscall_table_2 : list syscall_row := [
  mk_row "ppoll" Always (mk_pair (Z.lor UF_USED UF_ALWAYS_DROP) PPME_SYSCALL_PPOLL_E PPME_SYSCALL_PPOLL_X);
  mk_row "access" (IfDef "access") (mk_pair (Z.lor UF_USED UF_ALWAYS_DROP) PPME_SYSCALL_ACCESS_E PPME_SYSCALL_ACCESS_X);
  mk_row "chroot" (IfDef "chroot") (mk_pair (Z.lor UF_USED UF_NEVER_DROP) PPME_SYSCALL_CHROOT_E PPME_SYSCALL_CHROOT_X);
  mk_row "setsid" Always (mk_pair (Z.lor UF_USED UF_ALWAYS_DROP) PPME_SYSCALL_SETSID_E PPME_SYSCALL_SETSID_X);
  mk_row "setpgid" Always (mk_pair (Z.lor UF_USED UF_ALWAYS_DROP) PPME_SYSCALL_SETPGID_E PPME_SYSCALL_SETPGID_X);
  mk_row "bpf" (IfDef "bpf") (mk_pair UF_USED PPME_SYSCALL_BPF_E PPME_SYSCALL_BPF_X);
  mk_row "seccomp" (IfDef "seccomp") (mk_pair UF_USED PPME_SYSCALL_SECCOMP_E PPME_SYSCALL_SECCOMP_X);
  mk_row "renameat2" (IfDef "renameat2") (mk_pair UF_USED PPME_SYSCALL_RENAMEAT2_E PPME_SYSCALL_RENAMEAT2_X);
  mk_row "userfaultfd" (IfDef "userfaultfd") (mk_pair (Z.lor UF_USED UF_NEVER_DROP) PPME_SYSCALL_USERFAULTFD_E PPME_SYSCALL_USERFAULTFD_X)].

Definition g_syscall_table_rows : list syscall_row :=
  (g_syscall_table_0 ++ g_syscall_table_1 ++ g_syscall_table_2)%list.

Definition g_syscall_code_routing_table_0 : list code_row := [
  mk_code_row "restart_syscall" Always PPM_SC_RESTART_SYSCALL;
  mk_code_row "exit" Always PPM_SC_EXIT;
  mk_code_row "read" Always PPM_SC_READ;
  mk_code_row "write" Always PPM_SC_WRITE;
  mk_code_row "open" (IfDef "open") PPM_SC_OPEN;
  mk_code_row "close" Always PPM_SC_CLOSE;
  mk_code_row "creat" (IfDef "open") PPM_SC_CREAT;
  mk_code_row "link" (IfDef "link") PPM_SC_LINK;
  mk_code_row "unlink" (IfDef "unlink") PPM_SC_UNLINK;
  mk_code_row "chdir" Always PPM_SC_CHDIR;
  mk_code_row "time" (IfDef "time") PPM_SC_TIME;
  mk_code_row "mknod" (IfDef "mknod") PPM_SC_MKNOD;
  mk_code_row "chmod" (IfDef "chmod") PPM_SC_CHMOD;
  mk_code_row "stat" (IfDef "stat") PPM_SC_STAT;
  mk_code_row "lseek" Always PPM_SC_LSEEK;
  mk_code_row "getpid" Always PPM_SC_GETPID;
  mk_code_row "mount" Always PPM_SC_MOUNT;
  mk_code_row "ptrace" Always PPM_SC_PTRACE;
  mk_code_row "alarm" (IfDef "alarm") PPM_SC_ALARM;
  mk_code_row "fstat" Always PPM_SC_FSTAT;
  mk_code_row "pause" (IfDef "pause") PPM_SC_PAUSE;
  mk_code_row "utime" (IfDef "utime") PPM_SC_UTIME;
  mk_code_row "sync" Always PPM_SC_SYNC;
  mk_code_row "kill" Always PPM_SC_KILL;
  mk_code_row "rename" (IfDef "rename") PPM_SC_RENAME;
  mk_code_row "mkdir" (IfDef "mkdir") PPM_SC_MKDIR;
  mk_code_row "rmdir" (IfDef "rmdir") PPM_SC_RMDIR;
  mk_code_row "dup" Always PPM_SC_DUP;
  mk_code_row "pipe" (IfDef "pipe") PPM_SC_PIPE;
  mk_code_row "times" Always PPM_SC_TIMES;
  mk_code_row "brk" Always PPM_SC_BRK;
  mk_code_row "acct" Always PPM_SC_ACCT;
  mk_code_row "ioctl" Always PPM_SC_IOCTL;
  mk_code_row "fcntl" Always PPM_SC_FCNTL;
  mk_code_row "setpgid" Always PPM_SC_SETPGID;
  mk_code_row "umask" Always PPM_SC_UMASK;
  mk_code_row "chroot" Always PPM_SC_CHROOT;
  mk_code_row "ustat" (IfDef "ustat") PPM_SC_USTAT;
  mk_code_row "dup2" (IfDef "dup2") PPM_SC_DUP2;
  mk_code_row "getppid" Always PPM_SC_GETPPID;
  mk_code_row "getpgrp" (IfDef "getpgrp") PPM_SC_GETPGRP;
  mk_code_row "setsid" Always PPM_SC_SETSID;
  mk_code_row "sethostname" Always PPM_SC_SETHOSTNAME;
  mk_code_row "setrlimit" Always PPM_SC_SETRLIMIT;
  mk_code_row "getrusage" Always PPM_SC_GETRUSAGE;
  mk_code_row "gettimeofday" Always PPM_SC_GETTIMEOFDAY;
  mk_code_row "settimeofday" Always PPM_SC_SETTIMEOFDAY;
  mk_code_row "symlink" (IfDef "symlink") PPM_SC_SYMLINK;
  mk_code_row "lstat" (IfDef "lstat") PPM_SC_LSTAT;
  mk_code_row "readlink" (IfDef "readlink") PPM_SC_READLINK;
  mk_code_row "uselib" (IfDef "uselib") PPM_SC_USELIB;
  mk_code_row "swapon" Always PPM_SC_SWAPON;
  mk_code_row "reboot" Always PPM_SC_REBOOT;
  mk_code_row "mmap" (IfDef "mmap") PPM_SC_MMAP;
  mk_code_row "munmap" Always PPM_SC_MUNMAP;
  mk_code_row "truncate" Always PPM_SC_TRUNCATE;
  mk_code_row "ftruncate" Always PPM_SC_FTRUNCATE;
  mk_code_row "fchmod" Always PPM_SC_FCHMOD;
  mk_code_row "getpriority" Always PPM_SC_GETPRIORITY;
  mk_code_row "setpriority" Always PPM_SC_SETPRIORITY;
  mk_code_row "statfs" Always PPM_SC_STATFS;
  mk_code_row "fstatfs" Always PPM_SC_FSTATFS;
  mk_code_row "syslog" Always PPM_SC_SYSLOG;
  mk_code_row "setitimer" Always PPM_SC_SETITIMER;
  mk_code_row "getitimer" Always PPM_SC_GETITIMER;
  mk_code_row "uname" Always PPM_SC_UNAME;
  mk_code_row "vhangup" Always PPM_SC_VHANGUP;
  mk_code_row "wait4" Always PPM_SC_WAIT4;
  mk_code_row "swapoff" Always PPM_SC_SWAPOFF;
  mk_code_row "sysinfo" Always PPM_SC_SYSINFO;
  mk_code_row "fsync" Always PPM_SC_FSYNC;
  mk_code_row "setdomainname" Always PPM_SC_SETDOMAINNAME;
  mk_code_row "adjtimex" Always PPM_SC_ADJTIMEX;
  mk_code_row "mprotect" Always PPM_SC_MPROTECT;
  mk_code_row "init_module" Always PPM_SC_INIT_MODULE].

Definition g_syscall_code_routing_table_1 : list code_row := [
  mk_code_row "delete_module" Always PPM_SC_DELETE_MODULE;
  mk_code_row "getpgid" Always PPM_SC_GETPGID;
  mk_code_row "fchdir" Always PPM_SC_FCHDIR;
  mk_code_row "sysfs" (IfDef "sysfs") PPM_SC_SYSFS;
  mk_code_row "personality" Always PPM_SC_PERSONALITY;
  mk_code_row "getdents" (IfDef "getdents") PPM_SC_GETDENTS;
  mk_code_row "select" (IfDef "select") PPM_SC_SELECT;
  mk_code_row "flock" Always PPM_SC_FLOCK;
  mk_code_row "msync" Always PPM_SC_MSYNC;
  mk_code_row "readv" Always PPM_SC_READV;
  mk_code_row "writev" Always PPM_SC_WRITEV;
  mk_code_row "getsid" Always PPM_SC_GETSID;
  mk_code_row "fdatasync" Always PPM_SC_FDATASYNC;
  mk_code_row "mlock" Always PPM_SC_MLOCK;
  mk_code_row "munlock" Always PPM_SC_MUNLOCK;
  mk_code_row "mlockall" Always PPM_SC_MLOCKALL;
  mk_code_row "munlockall" Always PPM_SC_MUNLOCKALL;
  mk_code_row "sched_setparam" Always PPM_SC_SCHED_SETPARAM;
  mk_code_row "sched_getparam" Always PPM_SC_SCHED_GETPARAM;
  mk_code_row "sched_setscheduler" Always PPM_SC_SCHED_SETSCHEDULER;
  mk_code_row "sched_getscheduler" Always PPM_SC_SCHED_GETSCHEDULER;
  mk_code_row "sched_yield" Always PPM_SC_SCHED_YIELD;
  mk_code_row "sched_get_priority_max" Always PPM_SC_SCHED_GET_PRIORITY_MAX;
  mk_code_row "sched_get_priority_min" Always PPM_SC_SCHED_GET_PRIORITY_MIN;
  mk_code_row "sched_rr_get_interval" Always PPM_SC_SCHED_RR_GET_INTERVAL;
  mk_code_row "nanosleep" Always PPM_SC_NANOSLEEP;
  mk_code_row "mremap" Always PPM_SC_MREMAP;
  mk_code_row "poll" (IfDef "poll") PPM_SC_POLL;
  mk_code_row "prctl" Always PPM_SC_PRCTL;
  mk_code_row "arch_prctl" (IfDef "arch_prctl") PPM_SC_ARCH_PRCTL;
  mk_code_row "rt_sigaction" Always PPM_SC_RT_SIGACTION;
  mk_code_row "rt_sigprocmask" Always PPM_SC_RT_SIGPROCMASK;
  mk_code_row "rt_sigpending" Always PPM_SC_RT_SIGPENDING;
  mk_code_row "rt_sigtimedwait" Always PPM_SC_RT_SIGTIMEDWAIT;
  mk_code_row "rt_sigqueueinfo" Always PPM_SC_RT_SIGQUEUEINFO;
  mk_code_row "rt_sigsuspend" Always PPM_SC_RT_SIGSUSPEND;
  mk_code_row "getcwd" Always PPM_SC_GETCWD;
  mk_code_row "capget" Always PPM_SC_CAPGET;
  mk_code_row "capset" Always PPM_SC_CAPSET;
  mk_code_row "sendfile" Always PPM_SC_SENDFILE;
  mk_code_row "getrlimit" (IfDef "getrlimit") PPM_SC_GETRLIMIT;
  mk_code_row "lchown" (IfDef "lchown") PPM_SC_LCHOWN;
  mk_code_row "setreuid" Always PPM_SC_SETREUID;
  mk_code_row "setregid" Always PPM_SC_SETREGID;
  mk_code_row "getgroups" Always PPM_SC_GETGROUPS;
  mk_code_row "setgroups" Always PPM_SC_SETGROUPS;
  mk_code_row "fchown" Always PPM_SC_FCHOWN;
  mk_code_row "chown" (IfDef "chown") PPM_SC_CHOWN;
  mk_code_row "setfsuid" Always PPM_SC_SETFSUID;
  mk_code_row "setfsgid" Always PPM_SC_SETFSGID;
  mk_code_row "pivot_root" Always PPM_SC_PIVOT_ROOT;
  mk_code_row "mincore" Always PPM_SC_MINCORE;
  mk_code_row "madvise" Always PPM_SC_MADVISE;
  mk_code_row "gettid" Always PPM_SC_GETTID;
  mk_code_row "setxattr" Always PPM_SC_SETXATTR;
  mk_code_row "lsetxattr" Always PPM_SC_LSETXATTR;
  mk_code_row "fsetxattr" Always PPM_SC_FSETXATTR;
  mk_code_row "getxattr" Always PPM_SC_GETXATTR;
  mk_code_row "lgetxattr" Always PPM_SC_LGETXATTR;
  mk_code_row "fgetxattr" Always PPM_SC_FGETXATTR;
  mk_code_row "listxattr" Always PPM_SC_LISTXATTR;
  mk_code_row "llistxattr" Always PPM_SC_LLISTXATTR;
  mk_code_row "flistxattr" Always PPM_SC_FLISTXATTR;
  mk_code_row "removexattr" Always PPM_SC_REMOVEXATTR;
  mk_code_row "lremovexattr" Always PPM_SC_LREMOVEXATTR;
  mk_code_row "fremovexattr" Always PPM_SC_FREMOVEXATTR;
  mk_code_row "tkill" Always PPM_SC_TKILL;
  mk_code_row "futex" Always PPM_SC_FUTEX;
  mk_code_row "sched_setaffinity" Always PPM_SC_SCHED_SETAFFINITY;
  mk_code_row "sched_getaffinity" Always PPM_SC_SCHED_GETAFFINITY;
  mk_code_row "set_thread_area" (IfDef "set_thread_area") PPM_SC_SET_THREAD_AREA;
  mk_code_row "get_thread_area" (IfDef "get_thread_area") PPM_SC_GET_THREAD_AREA;
  mk_code_row "io_setup" Always PPM_SC_IO_SETUP;
  mk_code_row "io_destroy" Always PPM_SC_IO_DESTROY;
  mk_code_row "io_getevents" Always PPM_SC_IO_GETEVENTS;
  mk_code_row "io_submit" Always PPM_SC_IO_SUBMIT;
  mk_code_row "io_cancel" Always PPM_SC_IO_CANCEL;
  mk_code_row "exit_group" Always PPM_SC_EXIT_GROUP;
  mk_code_row "epoll_create" (IfDef "epoll_create") PPM_SC_EPOLL_CREATE;
  mk_code_row "epoll_ctl" Always PPM_SC_EPOLL_CTL;
  mk_code_row "epoll_wait" (IfDef "epoll_wait") PPM_SC_EPOLL_WAIT;
  mk_code_row "remap_file_pages" Always PPM_SC_REMAP_FILE_PAGES;
  mk_code_row "set_tid_address" Always PPM_SC_SET_TID_ADDRESS;
  mk_code_row "timer_create" Always PPM_SC_TIMER_CREATE;
  mk_code_row "timer_settime" Always PPM_SC_TIMER_SETTIME;
  mk_code_row "timer_gettime" Always PPM_SC_TIMER_GETTIME;
  mk_code_row "timer_getoverrun" Always PPM_SC_TIMER_GETOVERRUN;
  mk_code_row "timer_delete" Always PPM_SC_TIMER_DELETE;
  mk_code_row "clock_settime" Always PPM_SC_CLOCK_SETTIME;
  mk_code_row "clock_gettime" Always PPM_SC_CLOCK_GETTIME;
  mk_code_row "clock_getres" Always PPM_SC_CLOCK_GETRES;
  mk_code_row "clock_nanosleep" Always PPM_SC_CLOCK_NANOSLEEP;
  mk_code_row "tgkill" Always PPM_SC_TGKILL;
  mk_code_row "utimes" (IfDef "utimes") PPM_SC_UTIMES;
  mk_code_row "mq_open" Always PPM_SC_MQ_OPEN;
  mk_code_row "mq_unlink" Always PPM_SC_MQ_UNLINK;
  mk_code_row "mq_timedsend" Always PPM_SC_MQ_TIMEDSEND;
  mk_code_row "mq_timedreceive" Always PPM_SC_MQ_TIMEDRECEIVE;
  mk_code_row "mq_notify" Always PPM_SC_MQ_NOTIFY;
  mk_code_row "mq_getsetattr" Always PPM_SC_MQ_GETSETATTR;
  mk_code_row "kexec_load" Always PPM_SC_KEXEC_LOAD;
  mk_code_row "waitid" Always PPM_SC_WAITID;
  mk_code_row "add_key" Always PPM_SC_ADD_KEY;
  mk_code_row "request_key" Always PPM_SC_REQUEST_KEY].

Definition g_syscall_code_routing_table_2 : list code_row := [
  mk_code_row "keyctl" Always PPM_SC_KEYCTL;
  mk_code_row "ioprio_set" Always PPM_SC_IOPRIO_SET;
  mk_code_row "ioprio_get" Always PPM_SC_IOPRIO_GET;
  mk_code_row "inotify_init" (IfDef "inotify_init") PPM_SC_INOTIFY_INIT;
  mk_code_row "inotify_add_watch" Always PPM_SC_INOTIFY_ADD_WATCH;
  mk_code_row "inotify_rm_watch" Always PPM_SC_INOTIFY_RM_WATCH;
  mk_code_row "openat" Always PPM_SC_OPENAT;
  mk_code_row "mkdirat" Always PPM_SC_MKDIRAT;
  mk_code_row "mknodat" Always PPM_SC_MKNODAT;
  mk_code_row "fchownat" Always PPM_SC_FCHOWNAT;
  mk_code_row "futimesat" (IfDef "futimesat") PPM_SC_FUTIMESAT;
  mk_code_row "unlinkat" Always PPM_SC_UNLINKAT;
  mk_code_row "renameat" Always PPM_SC_RENAMEAT;
  mk_code_row "linkat" Always PPM_SC_LINKAT;
  mk_code_row "symlinkat" Always PPM_SC_SYMLINKAT;
  mk_code_row "readlinkat" Always PPM_SC_READLINKAT;
  mk_code_row "fchmodat" Always PPM_SC_FCHMODAT;
  mk_code_row "faccessat" Always PPM_SC_FACCESSAT;
  mk_code_row "pselect6" Always PPM_SC_PSELECT6;
  mk_code_row "ppoll" Always PPM_SC_PPOLL;
  mk_code_row "unshare" Always PPM_SC_UNSHARE;
  mk_code_row "set_robust_list" Always PPM_SC_SET_ROBUST_LIST;
  mk_code_row "get_robust_list" Always PPM_SC_GET_ROBUST_LIST;
  mk_code_row "splice" Always PPM_SC_SPLICE;
  mk_code_row "tee" Always PPM_SC_TEE;
  mk_code_row "vmsplice" Always PPM_SC_VMSPLICE;
  mk_code_row "getcpu" (IfDef "getcpu") PPM_SC_GETCPU;
  mk_code_row "epoll_pwait" Always PPM_SC_EPOLL_PWAIT;
  mk_code_row "utimensat" Always PPM_SC_UTIMENSAT;
  mk_code_row "signalfd" (IfDef "signalfd") PPM_SC_SIGNALFD;
  mk_code_row "timerfd_create" Always PPM_SC_TIMERFD_CREATE;
  mk_code_row "eventfd" (IfDef "eventfd") PPM_SC_EVENTFD;
  mk_code_row "timerfd_settime" Always PPM_SC_TIMERFD_SETTIME;
  mk_code_row "timerfd_gettime" Always PPM_SC_TIMERFD_GETTIME;
  mk_code_row "signalfd4" Always PPM_SC_SIGNALFD4;
  mk_code_row "eventfd2" Always PPM_SC_EVENTFD2;
  mk_code_row "epoll_create1" Always PPM_SC_EPOLL_CREATE1;
  mk_code_row "dup3" Always PPM_SC_DUP3;
  mk_code_row "pipe2" Always PPM_SC_PIPE2;
  mk_code_row "inotify_init1" Always PPM_SC_INOTIFY_INIT1;
  mk_code_row "preadv" Always PPM_SC_PREADV;
  mk_code_row "pwritev" Always PPM_SC_PWRITEV;
  mk_code_row "rt_tgsigqueueinfo" Always PPM_SC_RT_TGSIGQUEUEINFO;
  mk_code_row "perf_event_open" Always PPM_SC_PERF_EVENT_OPEN;
  mk_code_row "fanotify_init" (IfDef "fanotify_init") PPM_SC_FANOTIFY_INIT;
  mk_code_row "prlimit64" (IfDef "prlimit64") PPM_SC_PRLIMIT64;
  mk_code_row "clock_adjtime" (IfDef "clock_adjtime") PPM_SC_CLOCK_ADJTIME;
  mk_code_row "syncfs" (IfDef "syncfs") PPM_SC_SYNCFS;
  mk_code_row "getdents64" Always PPM_SC_GETDENTS64;
  mk_code_row "socket" (IfNdef "socketcall") PPM_SC_SOCKET;
  mk_code_row "bind" (IfNdef "socketcall") PPM_SC_BIND;
  mk_code_row "connect" (IfNdef "socketcall") PPM_SC_CONNECT;
  mk_code_row "listen" (IfNdef "socketcall") PPM_SC_LISTEN;
  mk_code_row "accept" (IfNdef "socketcall") PPM_SC_ACCEPT;
  mk_code_row "getsockname" (IfNdef "socketcall") PPM_SC_GETSOCKNAME;
  mk_code_row "getpeername" (IfNdef "socketcall") PPM_SC_GETPEERNAME;
  mk_code_row "socketpair" (IfNdef "socketcall") PPM_SC_SOCKETPAIR;
  mk_code_row "sendto" (IfNdef "socketcall") PPM_SC_SENDTO;
  mk_code_row "recvfrom" (IfNdef "socketcall") PPM_SC_RECVFROM;
  mk_code_row "shutdown" (IfNdef "socketcall") PPM_SC_SHUTDOWN;
  mk_code_row "setsockopt" (IfNdef "socketcall") PPM_SC_SETSOCKOPT;
  mk_code_row "getsockopt" (IfNdef "socketcall") PPM_SC_GETSOCKOPT;
  mk_code_row "sendmsg" (IfNdef "socketcall") PPM_SC_SENDMSG;
  mk_code_row "recvmsg" (IfNdef "socketcall") PPM_SC_RECVMSG;
  mk_code_row "accept4" (IfNdef "socketcall") PPM_SC_ACCEPT4;
  mk_code_row "socketcall" (IfDef "socketcall") PPM_SC_SOCKETCALL;
  mk_code_row "sendmmsg" (IfDef "sendmmsg") PPM_SC_SENDMMSG;
  mk_code_row "recvmmsg" (IfDef "recvmmsg") PPM_SC_RECVMMSG;
  mk_code_row "semop" (IfDef "semop") PPM_SC_SEMOP;
  mk_code_row "semget" (IfDef "semget") PPM_SC_SEMGET;
  mk_code_row "semctl" (IfDef "semctl") PPM_SC_SEMCTL;
  mk_code_row "msgsnd" (IfDef "msgsnd") PPM_SC_MSGSND;
  mk_code_row "msgrcv" (IfDef "msgrcv") PPM_SC_MSGRCV;
  mk_code_row "msgget" (IfDef "msgget") PPM_SC_MSGGET;
  mk_code_row "msgctl" (IfDef "msgctl") PPM_SC_MSGCTL;
  mk_code_row "shmdt" (IfDef "shmdt") PPM_SC_SHMDT;
  mk_code_row "shmget" (IfDef "shmget") PPM_SC_SHMGET;
  mk_code_row "shmctl" (IfDef "shmctl") PPM_SC_SHMCTL;
  mk_code_row "statfs64" (IfDef "statfs64") PPM_SC_STATFS64;
  mk_code_row "fstatfs64" (IfDef "fstatfs64") PPM_SC_FSTATFS64].

Definition g_syscall_code_routing_table_3 : list code_row := [
  mk_code_row "fstatat64" (IfDef "fstatat64") PPM_SC_FSTATAT64;
  mk_code_row "sendfile64" (IfDef "sendfile64") PPM_SC_SENDFILE64;
  mk_code_row "ugetrlimit" (IfDef "ugetrlimit") PPM_SC_UGETRLIMIT;
  mk_code_row "bdflush" (IfDef "bdflush") PPM_SC_BDFLUSH;
  mk_code_row "sigprocmask" (IfDef "sigprocmask") PPM_SC_SIGPROCMASK;
  mk_code_row "ipc" (IfDef "ipc") PPM_SC_IPC;
  mk_code_row "stat64" (IfDef "stat64") PPM_SC_STAT64;
  mk_code_row "lstat64" (IfDef "lstat64") PPM_SC_LSTAT64;
  mk_code_row "fstat64" (IfDef "fstat64") PPM_SC_FSTAT64;
  mk_code_row "fcntl64" (IfDef "fcntl64") PPM_SC_FCNTL64;
  mk_code_row "mmap2" (IfDef "mmap2") PPM_SC_MMAP2;
  mk_code_row "_newselect" (IfDef "_newselect") PPM_SC__NEWSELECT;
  mk_code_row "sgetmask" (IfDef "sgetmask") PPM_SC_SGETMASK;
  mk_code_row "ssetmask" (IfDef "ssetmask") PPM_SC_SSETMASK;
  mk_code_row "sigpending" (IfDef "sigpending") PPM_SC_SIGPENDING;
  mk_code_row "olduname" (IfDef "olduname") PPM_SC_OLDUNAME;
  mk_code_row "umount" (IfDef "umount") PPM_SC_UMOUNT;
  mk_code_row "signal" (IfDef "signal") PPM_SC_SIGNAL;
  mk_code_row "nice" (IfDef "nice") PPM_SC_NICE;
  mk_code_row "stime" (IfDef "stime") PPM_SC_STIME;
  mk_code_row "_llseek" (IfDef "_llseek") PPM_SC__LLSEEK;
  mk_code_row "waitpid" (IfDef "waitpid") PPM_SC_WAITPID;
  mk_code_row "pread64" (IfDef "pread64") PPM_SC_PREAD64;
  mk_code_row "pwrite64" (IfDef "pwrite64") PPM_SC_PWRITE64;
  mk_code_row "shmat" (IfDef "shmat") PPM_SC_SHMAT;
  mk_code_row "rt_sigreturn" (IfDef "rt_sigreturn") PPM_SC_SIGRETURN;
  mk_code_row "fallocate" (IfDef "fallocate") PPM_SC_FALLOCATE;
  mk_code_row "newfstatat" (IfDef "newfstatat") PPM_SC_NEWFSSTAT;
  mk_code_row "process_vm_readv" (IfDef "process_vm_readv") PPM_SC_PROCESS_VM_READV;
  mk_code_row "process_vm_writev" (IfDef "process_vm_writev") PPM_SC_PROCESS_VM_WRITEV;
  mk_code_row "fork" (IfDef "fork") PPM_SC_FORK;
  mk_code_row "vfork" (IfDef "vfork") PPM_SC_VFORK;
  mk_code_row "quotactl" (IfDef "quotactl") PPM_SC_QUOTACTL;
  mk_code_row "setresuid" (IfDef "setresuid") PPM_SC_SETRESUID;
  mk_code_row "setresuid32" (IfDef "setresuid32") PPM_SC_SETRESUID;
  mk_code_row "setresgid" (IfDef "setresgid") PPM_SC_SETRESGID;
  mk_code_row "setresgid32" (IfDef "setresgid32") PPM_SC_SETRESGID;
  mk_code_row "setuid" (IfDef "setuid") PPM_SC_SETUID;
  mk_code_row "setuid32" (IfDef "setuid32") PPM_SC_SETUID32;
  mk_code_row "setgid" (IfDef "setgid") PPM_SC_SETGID;
  mk_code_row "setgid32" (IfDef "setgid32") PPM_SC_SETGID32;
  mk_code_row "getuid" (IfDef "getuid") PPM_SC_GETUID;
  mk_code_row "getuid32" (IfDef "getuid32") PPM_SC_GETUID32;
  mk_code_row "geteuid" (IfDef "geteuid") PPM_SC_GETEUID;
  mk_code_row "geteuid32" (IfDef "geteuid32") PPM_SC_GETEUID;
  mk_code_row "getgid" (IfDef "getgid") PPM_SC_GETGID].

Definition g_syscall_code_routing_table_4 : list code_row := [
  mk_code_row "getgid32" (IfDef "getgid32") PPM_SC_GETGID;
  mk_code_row "getegid" (IfDef "getegid") PPM_SC_GETEGID;
  mk_code_row "getegid32" (IfDef "getegid32") PPM_SC_GETEGID;
  mk_code_row "getresuid" (IfDef "getresuid") PPM_SC_GETRESUID;
  mk_code_row "getresuid32" (IfDef "getresuid32") PPM_SC_GETRESUID32;
  mk_code_row "getresgid" (IfDef "getresgid") PPM_SC_GETRESGID;
  mk_code_row "getresgid32" (IfDef "getresgid32") PPM_SC_GETRESGID32;
  mk_code_row "setns" (IfDef "setns") PPM_SC_SETNS;
  mk_code_row "access" (IfDef "access") PPM_SC_ACCESS;
  mk_code_row "finit_module" (IfDef "finit_module") PPM_SC_FINIT_MODULE;
  mk_code_row "bpf" (IfDef "bpf") PPM_SC_BPF;
  mk_code_row "seccomp" (IfDef "seccomp") PPM_SC_SECCOMP;
  mk_code_row "sigaltstack" (IfDef "sigaltstack") PPM_SC_SIGALTSTACK;
  mk_code_row "getrandom" (IfDef "getrandom") PPM_SC_GETRANDOM;
  mk_code_row "fadvise64" (IfDef "fadvise64") PPM_SC_FADVISE64;
  mk_code_row "renameat2" (IfDef "renameat2") PPM_SC_RENAMEAT2;
  mk_code_row "userfaultfd" (IfDef "userfaultfd") PPM_SC_USERFAULTFD].

Definition g_syscall_code_routing_table_rows : list code_row :=
  (g_syscall_code_routing_table_0 ++ g_syscall_code_routing_table_1 ++ g_syscall_code_routing_table_2 ++ g_syscall_code_routing_table_3 ++ g_syscall_code_routing_table_4)%list.

Definition g_syscall_ia32_table_0 : list syscall_row := [
  mk_row "open" Always (mk_pair (Z.lor UF_USED UF_NEVER_DROP) PPME_SYSCALL_OPEN_E PPME_SYSCALL_OPEN_X);
  mk_row "creat" Always (mk_pair (Z.lor UF_USED UF_NEVER_DROP) PPME_SYSCALL_CREAT_E PPME_SYSCALL_CREAT_X);
  mk_row "close" Always (mk_pair (Z.lor (Z.lor UF_USED UF_NEVER_DROP) UF_SIMPLEDRIVER_KEEP) PPME_SYSCALL_CLOSE_E PPME_SYSCALL_CLOSE_X);
  mk_row "brk" Always (mk_pair (Z.lor UF_USED UF_ALWAYS_DROP) PPME_SYSCALL_BRK_4_E PPME_SYSCALL_BRK_4_X);
  mk_row "read" Always (mk_pair UF_USED PPME_SYSCALL_READ_E PPME_SYSCALL_READ_X);
  mk_row "write" Always (mk_pair UF_USED PPME_SYSCALL_WRITE_E PPME_SYSCALL_WRITE_X);
  mk_row "execve" Always (mk_pair (Z.lor (Z.lor UF_USED UF_NEVER_DROP) UF_SIMPLEDRIVER_KEEP) PPME_SYSCALL_EXECVE_19_E PPME_SYSCALL_EXECVE_19_X);
  mk_row "clone" Always (mk_pair (Z.lor (Z.lor UF_USED UF_NEVER_DROP) UF_SIMPLEDRIVER_KEEP) PPME_SYSCALL_CLONE_20_E PPME_SYSCALL_CLONE_20_X);
  mk_row "fork" Always (mk_pair (Z.lor (Z.lor UF_USED UF_NEVER_DROP) UF_SIMPLEDRIVER_KEEP) PPME_SYSCALL_FORK_20_E PPME_SYSCALL_FORK_20_X);
  mk_row "vfork" Always (mk_pair (Z.lor (Z.lor UF_USED UF_NEVER_DROP) UF_SIMPLEDRIVER_KEEP) PPME_SYSCALL_VFORK_20_E PPME_SYSCALL_VFORK_20_X);
  mk_row "pipe" Always (mk_pair (Z.lor UF_USED UF_NEVER_DROP) PPME_SYSCALL_PIPE_E PPME_SYSCALL_PIPE_X);
  mk_row "pipe2" Always (mk_pair (Z.lor UF_USED UF_NEVER_DROP) PPME_SYSCALL_PIPE_E PPME_SYSCALL_PIPE_X);
  mk_row "eventfd" Always (mk_pair (Z.lor UF_USED UF_NEVER_DROP) PPME_SYSCALL_EVENTFD_E PPME_SYSCALL_EVENTFD_X);
  mk_row "eventfd2" Always (mk_pair (Z.lor UF_USED UF_NEVER_DROP) PPME_SYSCALL_EVENTFD_E PPME_SYSCALL_EVENTFD_X);
  mk_row "futex" Always (mk_pair (Z.lor UF_USED UF_ALWAYS_DROP) PPME_SYSCALL_FUTEX_E PPME_SYSCALL_FUTEX_X);
  mk_row "stat" Always (mk_pair (Z.lor UF_USED UF_ALWAYS_DROP) PPME_SYSCALL_STAT_E PPME_SYSCALL_STAT_X);
  mk_row "lstat" Always (mk_pair (Z.lor UF_USED UF_ALWAYS_DROP) PPME_SYSCALL_LSTAT_E PPME_SYSCALL_LSTAT_X);
  mk_row "fstat" Always (mk_pair (Z.lor UF_USED UF_ALWAYS_DROP) PPME_SYSCALL_FSTAT_E PPME_SYSCALL_FSTAT_X);
  mk_row "epoll_wait" Always (mk_pair (Z.lor UF_USED UF_ALWAYS_DROP) PPME_SYSCALL_EPOLLWAIT_E PPME_SYSCALL_EPOLLWAIT_X);
  mk_row "poll" Always (mk_pair (Z.lor UF_USED UF_ALWAYS_DROP) PPME_SYSCALL_POLL_E PPME_SYSCALL_POLL_X);
  mk_row "select" (IfDef "select") (mk_pair (Z.lor UF_USED UF_ALWAYS_DROP) PPME_SYSCALL_SELECT_E PPME_SYSCALL_SELECT_X);
  mk_row "lseek" Always (mk_pair (Z.lor UF_USED UF_ALWAYS_DROP) PPME_SYSCALL_LSEEK_E PPME_SYSCALL_LSEEK_X);
  mk_row "ioctl" Always (mk_pair (Z.lor UF_USED UF_ALWAYS_DROP) PPME_SYSCALL_IOCTL_3_E PPME_SYSCALL_IOCTL_3_X);
  mk_row "getcwd" Always (mk_pair (Z.lor UF_USED UF_ALWAYS_DROP) PPME_SYSCALL_GETCWD_E PPME_SYSCALL_GETCWD_X);
  mk_row "chdir" Always (mk_pair (Z.lor (Z.lor UF_USED UF_NEVER_DROP) UF_SIMPLEDRIVER_KEEP) PPME_SYSCALL_CHDIR_E PPME_SYSCALL_CHDIR_X);
  mk_row "fchdir" Always (mk_pair (Z.lor (Z.lor UF_USED UF_NEVER_DROP) UF_SIMPLEDRIVER_KEEP) PPME_SYSCALL_FCHDIR_E PPME_SYSCALL_FCHDIR_X);
  mk_row "mkdir" Always (mk_pair UF_USED PPME_SYSCALL_MKDIR_2_E PPME_SYSCALL_MKDIR_2_X);
  mk_row "rmdir" Always (mk_pair UF_USED PPME_SYSCALL_RMDIR_2_E PPME_SYSCALL_RMDIR_2_X);
  mk_row "openat" Always (mk_pair (Z.lor UF_USED UF_NEVER_DROP) PPME_SYSCALL_OPENAT_2_E PPME_SYSCALL_OPENAT_2_X);
  mk_row "mkdirat" Always (mk_pair UF_USED PPME_SYSCALL_MKDIRAT_E PPME_SYSCALL_MKDIRAT_X);
  mk_row "link" Always (mk_pair UF_USED PPME_SYSCALL_LINK_2_E PPME_SYSCALL_LINK_2_X);
  mk_row "linkat" Always (mk_pair UF_USED PPME_SYSCALL_LINKAT_2_E PPME_SYSCALL_LINKAT_2_X);
  mk_row "unlink" Always (mk_pair UF_USED PPME_SYSCALL_UNLINK_2_E PPME_SYSCALL_UNLINK_2_X);
  mk_row "unlinkat" Always (mk_pair UF_USED PPME_SYSCALL_UNLINKAT_2_E PPME_SYSCALL_UNLINKAT_2_X);
  mk_row "pread64" Always (mk_pair UF_USED PPME_SYSCALL_PREAD_E PPME_SYSCALL_PREAD_X);
  mk_row "pwrite64" Always (mk_pair UF_USED PPME_SYSCALL_PWRITE_E PPME_SYSCALL_PWRITE_X);
  mk_row "readv" Always (mk_pair UF_USED PPME_SYSCALL_READV_E PPME_SYSCALL_READV_X);
  mk_row "writev" Always (mk_pair UF_USED PPME_SYSCALL_WRITEV_E PPME_SYSCALL_WRITEV_X);
  mk_row "preadv" Always (mk_pair UF_USED PPME_SYSCALL_PREADV_E PPME_SYSCALL_PREADV_X);
  mk_row "pwritev" Always (mk_pair UF_USED PPME_SYSCALL_PWRITEV_E PPME_SYSCALL_PWRITEV_X);
  mk_row "dup" Always (mk_pair (Z.lor (Z.lor UF_USED UF_NEVER_DROP) UF_SIMPLEDRIVER_KEEP) PPME_SYSCALL_DUP_E PPME_SYSCALL_DUP_X);
  mk_row "dup2" Always (mk_pair (Z.lor (Z.lor UF_USED UF_NEVER_DROP) UF_SIMPLEDRIVER_KEEP) PPME_SYSCALL_DUP_E PPME_SYSCALL_DUP_X);
  mk_row "dup3" Always (mk_pair (Z.lor (Z.lor UF_USED UF_NEVER_DROP) UF_SIMPLEDRIVER_KEEP) PPME_SYSCALL_DUP_E PPME_SYSCALL_DUP_X);
  mk_row "signalfd" Always (mk_pair (Z.lor UF_USED UF_NEVER_DROP) PPME_SYSCALL_SIGNALFD_E PPME_SYSCALL_SIGNALFD_X);
  mk_row "signalfd4" Always (mk_pair (Z.lor UF_USED UF_NEVER_DROP) PPME_SYSCALL_SIGNALFD_E PPME_SYSCALL_SIGNALFD_X);
  mk_row "kill" Always (mk_pair UF_USED PPME_SYSCALL_KILL_E PPME_SYSCALL_KILL_X);
  mk_row "tkill" Always (mk_pair UF_USED PPME_SYSCALL_TKILL_E PPME_SYSCALL_TKILL_X);
  mk_row "tgkill" Always (mk_pair UF_USED PPME_SYSCALL_TGKILL_E PPME_SYSCALL_TGKILL_X);
  mk_row "nanosleep" Always (mk_pair (Z.lor UF_USED UF_ALWAYS_DROP) PPME_SYSCALL_NANOSLEEP_E PPME_SYSCALL_NANOSLEEP_X);
  mk_row "timerfd_create" Always (mk_pair (Z.lor UF_USED UF_NEVER_DROP) PPME_SYSCALL_TIMERFD_CREATE_E PPME_SYSCALL_TIMERFD_CREATE_X);
  mk_row "inotify_init" Always (mk_pair (Z.lor UF_USED UF_NEVER_DROP) PPME_SYSCALL_INOTIFY_INIT_E PPME_SYSCALL_INOTIFY_INIT_X);
  mk_row "inotify_init1" Always (mk_pair (Z.lor UF_USED UF_NEVER_DROP) PPME_SYSCALL_INOTIFY_INIT_E PPME_SYSCALL_INOTIFY_INIT_X);
  mk_row "getrlimit" Always (mk_pair (Z.lor UF_USED UF_NEVER_DROP) PPME_SYSCALL_GETRLIMIT_E PPME_SYSCALL_GETRLIMIT_X);
  mk_row "setrlimit" Always (mk_pair (Z.lor UF_USED UF_NEVER_DROP) PPME_SYSCALL_SETRLIMIT_E PPME_SYSCALL_SETRLIMIT_X);
  mk_row "fchmodat" Always (mk_pair UF_USED PPME_SYSCALL_FCHMODAT_E PPME_SYSCALL_FCHMODAT_X);
  mk_row "fchmod" Always (mk_pair UF_USED PPME_SYSCALL_FCHMOD_E PPME_SYSCALL_FCHMOD_X);
  mk_row "prlimit64" (IfDef "prlimit64") (mk_pair (Z.lor UF_USED UF_NEVER_DROP) PPME_SYSCALL_PRLIMIT_E PPME_SYSCALL_PRLIMIT_X);
  mk_row "ugetrlimit" (IfDef "ugetrlimit") (mk_pair (Z.lor UF_USED UF_NEVER_DROP) PPME_SYSCALL_GETRLIMIT_E PPME_SYSCALL_GETRLIMIT_X);
  mk_row "fcntl" Always (mk_pair UF_USED PPME_SYSCALL_FCNTL_E PPME_SYSCALL_FCNTL_X);
  mk_row "fcntl64" (IfDef "fcntl64") (mk_pair UF_USED PPME_SYSCALL_FCNTL_E PPME_SYSCALL_FCNTL_X);
  mk_row "ppoll" Always (mk_pair (Z.lor UF_USED UF_ALWAYS_DROP) PPME_SYSCALL_PPOLL_E PPME_SYSCALL_PPOLL_X);
  mk_row "pselect6" Always (mk_pair (Z.lor UF_USED UF_ALWAYS_DROP) PPME_GENERIC_E PPME_GENERIC_X);
  mk_row "epoll_create" Always (mk_pair (Z.lor UF_USED UF_ALWAYS_DROP) PPME_GENERIC_E PPME_GENERIC_X);
  mk_row "epoll_ctl" Always (mk_pair (Z.lor UF_USED UF_ALWAYS_DROP) PPME_GENERIC_E PPME_GENERIC_X);
  mk_row "uselib" Always (mk_pair (Z.lor UF_USED UF_ALWAYS_DROP) PPME_GENERIC_E PPME_GENERIC_X);
  mk_row "sched_setparam" Always (mk_pair (Z.lor UF_USED UF_ALWAYS_DROP) PPME_GENERIC_E PPME_GENERIC_X);
  mk_row "sched_getparam" Always (mk_pair (Z.lor UF_USED UF_ALWAYS_DROP) PPME_GENERIC_E PPME_GENERIC_X);
  mk_row "syslog" Always (mk_pair (Z.lor UF_USED UF_ALWAYS_DROP) PPME_GENERIC_E PPME_GENERIC_X);
  mk_row "chmod" Always (mk_pair UF_USED PPME_SYSCALL_CHMOD_E PPME_SYSCALL_CHMOD_X);
  mk_row "lchown" Always (mk_pair UF_USED PPME_GENERIC_E PPME_GENERIC_X);
  mk_row "utime" Always (mk_pair (Z.lor UF_USED UF_ALWAYS_DROP) PPME_GENERIC_E PPME_GENERIC_X);
  mk_row "mount" Always (mk_pair UF_USED PPME_GENERIC_E PPME_GENERIC_X);
  mk_row "umount2" Always (mk_pair UF_USED PPME_GENERIC_E PPME_GENERIC_X);
  mk_row "ptrace" Always (mk_pair UF_USED PPME_SYSCALL_PTRACE_E PPME_SYSCALL_PTRACE_X);
  mk_row "alarm" Always (mk_pair (Z.lor UF_USED UF_ALWAYS_DROP) PPME_GENERIC_E PPME_GENERIC_X);
  mk_row "pause" Always (mk_pair (Z.lor UF_USED UF_ALWAYS_DROP) PPME_GENERIC_E PPME_GENERIC_X);
  mk_row "socket" (IfNdef "socketcall") (mk_pair (Z.lor UF_USED UF_SIMPLEDRIVER_KEEP) PPME_SOCKET_SOCKET_E PPME_SOCKET_SOCKET_X);
  mk_row "bind" (IfNdef "socketcall") (mk_pair UF_USED PPME_SOCKET_BIND_E PPME_SOCKET_BIND_X);
  mk_row "connect" (IfNdef "socketcall") (mk_pair (Z.lor UF_USED UF_SIMPLEDRIVER_KEEP) PPME_SOCKET_CONNECT_E PPME_SOCKET_CONNECT_X);
  mk_row "listen" (IfNdef "socketcall") (mk_pair UF_USED PPME_SOCKET_LISTEN_E PPME_SOCKET_LISTEN_X);
  mk_row "accept" (IfNdef "socketcall") (mk_pair (Z.lor UF_USED UF_SIMPLEDRIVER_KEEP) PPME_SOCKET_ACCEPT_E PPME_SOCKET_ACCEPT_X);
  mk_row "getsockname" (IfNdef "socketcall") (mk_pair (Z.lor UF_USED UF_ALWAYS_DROP) PPME_SOCKET_GETSOCKNAME_E PPME_SOCKET_GETSOCKNAME_X);
  mk_row "getpeername" (IfNdef "socketcall") (mk_pair (Z.lor UF_USED UF_ALWAYS_DROP) PPME_SOCKET_GETPEERNAME_E PPME_SOCKET_GETPEERNAME_X);
  mk_row "socketpair" (IfNdef "socketcall") (mk_pair (Z.lor UF_USED UF_NEVER_DROP) PPME_SOCKET_SOCKETPAIR_E PPME_SOCKET_SOCKETPAIR_X);
  mk_row "sendto" (IfNdef "socketcall") (mk_pair UF_USED PPME_SOCKET_SENDTO_E PPME_SOCKET_SENDTO_X);
  mk_row "recvfrom" (IfNdef "socketcall") (mk_pair UF_USED PPME_SOCKET_RECVFROM_E PPME_SOCKET_RECVFROM_X);
  mk_row "shutdown" (IfNdef "socketcall") (mk_pair UF_USED PPME_SOCKET_SHUTDOWN_E PPME_SOCKET_SHUTDOWN_X);
  mk_row "setsockopt" (IfNdef "socketcall") (mk_pair (Z.lor UF_USED UF_ALWAYS_DROP) PPME_SOCKET_SETSOCKOPT_E PPME_SOCKET_SETSOCKOPT_X);
  mk_row "getsockopt" (IfNdef "socketcall") (mk_pair UF_USED PPME_SOCKET_GETSOCKOPT_E PPME_SOCKET_GETSOCKOPT_X);
  mk_row "sendmsg" (IfNdef "socketcall") (mk_pair UF_USED PPME_SOCKET_SENDMSG_E PPME_SOCKET_SENDMSG_X);
  mk_row "accept4" (IfNdef "socketcall") (mk_pair (Z.lor UF_USED UF_SIMPLEDRIVER_KEEP) PPME_SOCKET_ACCEPT4_E PPME_SOCKET_ACCEPT4_X);
  mk_row "sendmmsg" (IfDef "sendmmsg") (mk_pair UF_USED PPME_SOCKET_SENDMMSG_E PPME_SOCKET_SENDMMSG_X);
  mk_row "recvmsg" (IfDef "recvmsg") (mk_pair UF_USED PPME_SOCKET_RECVMSG_E PPME_SOCKET_RECVMSG_X);
  mk_row "recvmmsg" (IfDef "recvmmsg") (mk_pair UF_USED PPME_SOCKET_RECVMMSG_E PPME_SOCKET_RECVMMSG_X);
  mk_row "stat64" (IfDef "stat64") (mk_pair (Z.lor UF_USED UF_ALWAYS_DROP) PPME_SYSCALL_STAT64_E PPME_SYSCALL_STAT64_X);
  mk_row "fstat64" (IfDef "fstat64") (mk_pair (Z.lor UF_USED UF_ALWAYS_DROP) PPME_SYSCALL_FSTAT64_E PPME_SYSCALL_FSTAT64_X);
  mk_row "_llseek" (IfDef "_llseek") (mk_pair (Z.lor UF_USED UF_ALWAYS_DROP) PPME_SYSCALL_LLSEEK_E PPME_SYSCALL_LLSEEK_X);
  mk_row "mmap" Always (mk_pair (Z.lor UF_USED UF_ALWAYS_DROP) PPME_SYSCALL_MMAP_E PPME_SYSCALL_MMAP_X);
  mk_row "mmap2" (IfDef "mmap2") (mk_pair (Z.lor UF_USED UF_ALWAYS_DROP) PPME_SYSCALL_MMAP2_E PPME_SYSCALL_MMAP2_X);
  mk_row "munmap" Always (mk_pair (Z.lor UF_USED UF_ALWAYS_DROP) PPME_SYSCALL_MUNMAP_E PPME_SYSCALL_MUNMAP_X);
  mk_row "splice" Always (mk_pair UF_USED PPME_SYSCALL_SPLICE_E PPME_SYSCALL_SPLICE_X);
  mk_row "process_vm_readv" (IfDef "process_vm_readv") (mk_pair UF_USED PPME_GENERIC_E PPME_GENERIC_X);
  mk_row "process_vm_writev" (IfDef "process_vm_writev") (mk_pair UF_USED PPME_GENERIC_E PPME_GENERIC_X);
  mk_row "rename" Always (mk_pair UF_USED PPME_SYSCALL_RENAME_E PPME_SYSCALL_RENAME_X);
  mk_row "renameat" Always (mk_pair UF_USED PPME_SYSCALL_RENAMEAT_E PPME_SYSCALL_RENAMEAT_X);
  mk_row "symlink" Always (mk_pair UF_USED PPME_SYSCALL_SYMLINK_E PPME_SYSCALL_SYMLINK_X);
  mk_row "symlinkat" Always (mk_pair UF_USED PPME_SYSCALL_SYMLINKAT_E PPME_SYSCALL_SYMLINKAT_X);
  mk_row "sendfile" Always (mk_pair UF_USED PPME_SYSCALL_SENDFILE_E PPME_SYSCALL_SENDFILE_X)].

Definition g_syscall_ia32_table_1 : list syscall_row := [
  mk_row "sendfile64" (IfDef "sendfile64") (mk_pair UF_USED PPME_SYSCALL_SENDFILE_E PPME_SYSCALL_SENDFILE_X);
  mk_row "quotactl" (IfDef "quotactl") (mk_pair UF_USED PPME_SYSCALL_QUOTACTL_E PPME_SYSCALL_QUOTACTL_X);
  mk_row "setresuid" (IfDef "setresuid") (mk_pair UF_USED PPME_SYSCALL_SETRESUID_E PPME_SYSCALL_SETRESUID_X);
  mk_row "setresuid32" (IfDef "setresuid32") (mk_pair UF_USED PPME_SYSCALL_SETRESUID_E PPME_SYSCALL_SETRESUID_X);
  mk_row "setresgid" (IfDef "setresgid") (mk_pair UF_USED PPME_SYSCALL_SETRESGID_E PPME_SYSCALL_SETRESGID_X);
  mk_row "setresgid32" (IfDef "setresgid32") (mk_pair UF_USED PPME_SYSCALL_SETRESGID_E PPME_SYSCALL_SETRESGID_X);
  mk_row "setuid" (IfDef "setuid") (mk_pair UF_USED PPME_SYSCALL_SETUID_E PPME_SYSCALL_SETUID_X);
  mk_row "setuid32" (IfDef "setuid32") (mk_pair UF_USED PPME_SYSCALL_SETUID_E PPME_SYSCALL_SETUID_X);
  mk_row "setgid" (IfDef "setgid") (mk_pair UF_USED PPME_SYSCALL_SETGID_E PPME_SYSCALL_SETGID_X);
  mk_row "setgid32" (IfDef "setgid32") (mk_pair UF_USED PPME_SYSCALL_SETGID_E PPME_SYSCALL_SETGID_X);
  mk_row "getuid" (IfDef "getuid") (mk_pair UF_USED PPME_SYSCALL_GETUID_E PPME_SYSCALL_GETUID_X);
  mk_row "getuid32" (IfDef "getuid32") (mk_pair UF_USED PPME_SYSCALL_GETUID_E PPME_SYSCALL_GETUID_X);
  mk_row "geteuid" (IfDef "geteuid") (mk_pair UF_USED PPME_SYSCALL_GETEUID_E PPME_SYSCALL_GETEUID_X);
  mk_row "geteuid32" (IfDef "geteuid32") (mk_pair UF_USED PPME_SYSCALL_GETEUID_E PPME_SYSCALL_GETEUID_X);
  mk_row "getgid" (IfDef "getgid") (mk_pair UF_USED PPME_SYSCALL_GETGID_E PPME_SYSCALL_GETGID_X);
  mk_row "getgid32" (IfDef "getgid32") (mk_pair UF_USED PPME_SYSCALL_GETGID_E PPME_SYSCALL_GETGID_X);
  mk_row "getegid" (IfDef "getegid") (mk_pair UF_USED PPME_SYSCALL_GETEGID_E PPME_SYSCALL_GETEGID_X);
  mk_row "getegid32" (IfDef "getegid32") (mk_pair UF_USED PPME_SYSCALL_GETEGID_E PPME_SYSCALL_GETEGID_X);
  mk_row "getresuid" (IfDef "getresuid") (mk_pair UF_USED PPME_SYSCALL_GETRESUID_E PPME_SYSCALL_GETRESUID_X);
  mk_row "getresuid32" (IfDef "getresuid32") (mk_pair UF_USED PPME_SYSCALL_GETRESUID_E PPME_SYSCALL_GETRESUID_X);
  mk_row "getresgid" (IfDef "getresgid") (mk_pair UF_USED PPME_SYSCALL_GETRESGID_E PPME_SYSCALL_GETRESGID_X);
  mk_row "getresgid32" (IfDef "getresgid32") (mk_pair UF_USED PPME_SYSCALL_GETRESGID_E PPME_SYSCALL_GETRESGID_X);
  mk_row "semop" (IfDef "semop") (mk_pair (Z.lor UF_USED UF_ALWAYS_DROP) PPME_SYSCALL_SEMOP_E PPME_SYSCALL_SEMOP_X);
  mk_row "semget" (IfDef "semget") (mk_pair (Z.lor UF_USED UF_ALWAYS_DROP) PPME_SYSCALL_SEMGET_E PPME_SYSCALL_SEMGET_X);
  mk_row "semctl" (IfDef "semctl") (mk_pair (Z.lor UF_USED UF_ALWAYS_DROP) PPME_SYSCALL_SEMCTL_E PPME_SYSCALL_SEMCTL_X);
  mk_row "access" (IfDef "access") (mk_pair (Z.lor UF_USED UF_ALWAYS_DROP) PPME_SYSCALL_ACCESS_E PPME_SYSCALL_ACCESS_X);
  mk_row "chroot" (IfDef "chroot") (mk_pair (Z.lor UF_USED UF_NEVER_DROP) PPME_SYSCALL_CHROOT_E PPME_SYSCALL_CHROOT_X);
  mk_row "setsid" Always (mk_pair (Z.lor UF_USED UF_ALWAYS_DROP) PPME_SYSCALL_SETSID_E PPME_SYSCALL_SETSID_X);
  mk_row "setpgid" Always (mk_pair (Z.lor UF_USED UF_ALWAYS_DROP) PPME_SYSCALL_SETPGID_E PPME_SYSCALL_SETPGID_X);
  mk_row "bpf" (IfDef "bpf") (mk_pair UF_USED PPME_SYSCALL_BPF_E PPME_SYSCALL_BPF_X);
  mk_row "seccomp" (IfDef "seccomp") (mk_pair UF_USED PPME_SYSCALL_SECCOMP_E PPME_SYSCALL_SECCOMP_X);
  mk_row "renameat2" (IfDef "renameat2") (mk_pair UF_USED PPME_SYSCALL_RENAMEAT2_E PPME_SYSCALL_RENAMEAT2_X);
  mk_row "userfaultfd" (IfDef "userfaultfd") (mk_pair (Z.lor UF_USED UF_NEVER_DROP) PPME_SYSCALL_USERFAULTFD_E PPME_SYSCALL_USERFAULTFD_X)].

Definition g_syscall_ia32_table_rows : list syscall_row :=
  (g_syscall_ia32_table_0 ++ g_syscall_ia32_table_1)%list.

Definition g_syscall_ia32_code_routing_table_0 : list code_row := [
  mk_code_row "restart_syscall" Always PPM_SC_RESTART_SYSCALL;
  mk_code_row "exit" Always PPM_SC_EXIT;
  mk_code_row "read" Always PPM_SC_READ;
  mk_code_row "write" Always PPM_SC_WRITE;
  mk_code_row "open" Always PPM_SC_OPEN;
  mk_code_row "close" Always PPM_SC_CLOSE;
  mk_code_row "creat" Always PPM_SC_CREAT;
  mk_code_row "link" Always PPM_SC_LINK;
  mk_code_row "unlink" Always PPM_SC_UNLINK;
  mk_code_row "chdir" Always PPM_SC_CHDIR;
  mk_code_row "time" Always PPM_SC_TIME;
  mk_code_row "mknod" Always PPM_SC_MKNOD;
  mk_code_row "chmod" Always PPM_SC_CHMOD;
  mk_code_row "stat" Always PPM_SC_STAT;
  mk_code_row "lseek" Always PPM_SC_LSEEK;
  mk_code_row "getpid" Always PPM_SC_GETPID;
  mk_code_row "mount" Always PPM_SC_MOUNT;
  mk_code_row "ptrace" Always PPM_SC_PTRACE;
  mk_code_row "alarm" Always PPM_SC_ALARM;
  mk_code_row "fstat" Always PPM_SC_FSTAT;
  mk_code_row "pause" Always PPM_SC_PAUSE;
  mk_code_row "utime" Always PPM_SC_UTIME;
  mk_code_row "access" Always PPM_SC_ACCESS;
  mk_code_row "sync" Always PPM_SC_SYNC;
  mk_code_row "kill" Always PPM_SC_KILL;
  mk_code_row "rename" Always PPM_SC_RENAME;
  mk_code_row "mkdir" Always PPM_SC_MKDIR;
  mk_code_row "rmdir" Always PPM_SC_RMDIR;
  mk_code_row "dup" Always PPM_SC_DUP;
  mk_code_row "pipe" Always PPM_SC_PIPE;
  mk_code_row "times" Always PPM_SC_TIMES;
  mk_code_row "brk" Always PPM_SC_BRK;
  mk_code_row "acct" Always PPM_SC_ACCT;
  mk_code_row "ioctl" Always PPM_SC_IOCTL;
  mk_code_row "fcntl" Always PPM_SC_FCNTL;
  mk_code_row "setpgid" Always PPM_SC_SETPGID;
  mk_code_row "umask" Always PPM_SC_UMASK;
  mk_code_row "chroot" Always PPM_SC_CHROOT;
  mk_code_row "ustat" Always PPM_SC_USTAT;
  mk_code_row "dup2" Always PPM_SC_DUP2;
  mk_code_row "getppid" Always PPM_SC_GETPPID;
  mk_code_row "getpgrp" Always PPM_SC_GETPGRP;
  mk_code_row "setsid" Always PPM_SC_SETSID;
  mk_code_row "sethostname" Always PPM_SC_SETHOSTNAME;
  mk_code_row "setrlimit" Always PPM_SC_SETRLIMIT;
  mk_code_row "getrusage" Always PPM_SC_GETRUSAGE;
  mk_code_row "gettimeofday" Always PPM_SC_GETTIMEOFDAY;
  mk_code_row "settimeofday" Always PPM_SC_SETTIMEOFDAY;
  mk_code_row "symlink" Always PPM_SC_SYMLINK;
  mk_code_row "lstat" Always PPM_SC_LSTAT;
  mk_code_row "readlink" Always PPM_SC_READLINK;
  mk_code_row "uselib" Always PPM_SC_USELIB;
  mk_code_row "swapon" Always PPM_SC_SWAPON;
  mk_code_row "reboot" Always PPM_SC_REBOOT;
  mk_code_row "mmap" Always PPM_SC_MMAP;
  mk_code_row "munmap" Always PPM_SC_MUNMAP;
  mk_code_row "truncate" Always PPM_SC_TRUNCATE;
  mk_code_row "ftruncate" Always PPM_SC_FTRUNCATE;
  mk_code_row "fchmod" Always PPM_SC_FCHMOD;
  mk_code_row "getpriority" Always PPM_SC_GETPRIORITY;
  mk_code_row "setpriority" Always PPM_SC_SETPRIORITY;
  mk_code_row "statfs" Always PPM_SC_STATFS;
  mk_code_row "fstatfs" Always PPM_SC_FSTATFS;
  mk_code_row "syslog" Always PPM_SC_SYSLOG;
  mk_code_row "setitimer" Always PPM_SC_SETITIMER;
  mk_code_row "getitimer" Always PPM_SC_GETITIMER;
  mk_code_row "uname" Always PPM_SC_UNAME;
  mk_code_row "vhangup" Always PPM_SC_VHANGUP;
  mk_code_row "wait4" Always PPM_SC_WAIT4;
  mk_code_row "swapoff" Always PPM_SC_SWAPOFF;
  mk_code_row "sysinfo" Always PPM_SC_SYSINFO;
  mk_code_row "fsync" Always PPM_SC_FSYNC;
  mk_code_row "setdomainname" Always PPM_SC_SETDOMAINNAME;
  mk_code_row "adjtimex" Always PPM_SC_ADJTIMEX;
  mk_code_row "mprotect" Always PPM_SC_MPROTECT;
  mk_code_row "init_module" Always PPM_SC_INIT_MODULE;
  mk_code_row "delete_module" Always PPM_SC_DELETE_MODULE;
  mk_code_row "quotactl" Always PPM_SC_QUOTACTL;
  mk_code_row "getpgid" Always PPM_SC_GETPGID;
  mk_code_row "fchdir" Always PPM_SC_FCHDIR;
  mk_code_row "sysfs" Always PPM_SC_SYSFS;
  mk_code_row "personality" Always PPM_SC_PERSONALITY;
  mk_code_row "getdents" Always PPM_SC_GETDENTS;
  mk_code_row "select" (IfDef "select") PPM_SC_SELECT;
  mk_code_row "flock" Always PPM_SC_FLOCK;
  mk_code_row "msync" Always PPM_SC_MSYNC;
  mk_code_row "readv" Always PPM_SC_READV;
  mk_code_row "writev" Always PPM_SC_WRITEV;
  mk_code_row "getsid" Always PPM_SC_GETSID;
  mk_code_row "fdatasync" Always PPM_SC_FDATASYNC;
  mk_code_row "mlock" Always PPM_SC_MLOCK;
  mk_code_row "munlock" Always PPM_SC_MUNLOCK;
  mk_code_row "mlockall" Always PPM_SC_MLOCKALL;
  mk_code_row "munlockall" Always PPM_SC_MUNLOCKALL;
  mk_code_row "sched_setparam" Always PPM_SC_SCHED_SETPARAM;
  mk_code_row "sched_getparam" Always PPM_SC_SCHED_GETPARAM;
  mk_code_row "sched_setscheduler" Always PPM_SC_SCHED_SETSCHEDULER;
  mk_code_row "sched_getscheduler" Always PPM_SC_SCHED_GETSCHEDULER;
  mk_code_row "sched_yield" Always PPM_SC_SCHED_YIELD;
  mk_code_row "sched_get_priority_max" Always PPM_SC_SCHED_GET_PRIORITY_MAX;
  mk_code_row "sched_get_priority_min" Always PPM_SC_SCHED_GET_PRIORITY_MIN;
  mk_code_row "sched_rr_get_interval" Always PPM_SC_SCHED_RR_GET_INTERVAL;
  mk_code_row "nanosleep" Always PPM_SC_NANOSLEEP;
  mk_code_row "mremap" Always PPM_SC_MREMAP;
  mk_code_row "poll" Always PPM_SC_POLL;
  mk_code_row "prctl" Always PPM_SC_PRCTL;
  mk_code_row "arch_prctl" (IfDef "arch_prctl") PPM_SC_ARCH_PRCTL;
  mk_code_row "rt_sigaction" Always PPM_SC_RT_SIGACTION;
  mk_code_row "rt_sigprocmask" Always PPM_SC_RT_SIGPROCMASK].

Definition g_syscall_ia32_code_routing_table_1 : list code_row := [
  mk_code_row "rt_sigpending" Always PPM_SC_RT_SIGPENDING;
  mk_code_row "rt_sigtimedwait" Always PPM_SC_RT_SIGTIMEDWAIT;
  mk_code_row "rt_sigqueueinfo" Always PPM_SC_RT_SIGQUEUEINFO;
  mk_code_row "rt_sigsuspend" Always PPM_SC_RT_SIGSUSPEND;
  mk_code_row "getcwd" Always PPM_SC_GETCWD;
  mk_code_row "capget" Always PPM_SC_CAPGET;
  mk_code_row "capset" Always PPM_SC_CAPSET;
  mk_code_row "sendfile" Always PPM_SC_SENDFILE;
  mk_code_row "getrlimit" Always PPM_SC_GETRLIMIT;
  mk_code_row "lchown" Always PPM_SC_LCHOWN;
  mk_code_row "getuid" Always PPM_SC_GETUID;
  mk_code_row "getgid" Always PPM_SC_GETGID;
  mk_code_row "geteuid" Always PPM_SC_GETEUID;
  mk_code_row "getegid" Always PPM_SC_GETEGID;
  mk_code_row "setreuid" Always PPM_SC_SETREUID;
  mk_code_row "setregid" Always PPM_SC_SETREGID;
  mk_code_row "getgroups" Always PPM_SC_GETGROUPS;
  mk_code_row "setgroups" Always PPM_SC_SETGROUPS;
  mk_code_row "fchown" Always PPM_SC_FCHOWN;
  mk_code_row "setresuid" Always PPM_SC_SETRESUID;
  mk_code_row "getresuid" Always PPM_SC_GETRESUID;
  mk_code_row "setresgid" Always PPM_SC_SETRESGID;
  mk_code_row "getresgid" Always PPM_SC_GETRESGID;
  mk_code_row "chown" Always PPM_SC_CHOWN;
  mk_code_row "setuid" Always PPM_SC_SETUID;
  mk_code_row "setgid" Always PPM_SC_SETGID;
  mk_code_row "setfsuid" Always PPM_SC_SETFSUID;
  mk_code_row "setfsgid" Always PPM_SC_SETFSGID;
  mk_code_row "pivot_root" Always PPM_SC_PIVOT_ROOT;
  mk_code_row "mincore" Always PPM_SC_MINCORE;
  mk_code_row "madvise" Always PPM_SC_MADVISE;
  mk_code_row "gettid" Always PPM_SC_GETTID;
  mk_code_row "setxattr" Always PPM_SC_SETXATTR;
  mk_code_row "lsetxattr" Always PPM_SC_LSETXATTR;
  mk_code_row "fsetxattr" Always PPM_SC_FSETXATTR;
  mk_code_row "getxattr" Always PPM_SC_GETXATTR;
  mk_code_row "lgetxattr" Always PPM_SC_LGETXATTR;
  mk_code_row "fgetxattr" Always PPM_SC_FGETXATTR;
  mk_code_row "listxattr" Always PPM_SC_LISTXATTR;
  mk_code_row "llistxattr" Always PPM_SC_LLISTXATTR;
  mk_code_row "flistxattr" Always PPM_SC_FLISTXATTR;
  mk_code_row "removexattr" Always PPM_SC_REMOVEXATTR;
  mk_code_row "lremovexattr" Always PPM_SC_LREMOVEXATTR;
  mk_code_row "fremovexattr" Always PPM_SC_FREMOVEXATTR;
  mk_code_row "tkill" Always PPM_SC_TKILL;
  mk_code_row "futex" Always PPM_SC_FUTEX;
  mk_code_row "sched_setaffinity" Always PPM_SC_SCHED_SETAFFINITY;
  mk_code_row "sched_getaffinity" Always PPM_SC_SCHED_GETAFFINITY;
  mk_code_row "set_thread_area" (IfDef "set_thread_area") PPM_SC_SET_THREAD_AREA;
  mk_code_row "get_thread_area" (IfDef "get_thread_area") PPM_SC_GET_THREAD_AREA;
  mk_code_row "io_setup" Always PPM_SC_IO_SETUP;
  mk_code_row "io_destroy" Always PPM_SC_IO_DESTROY;
  mk_code_row "io_getevents" Always PPM_SC_IO_GETEVENTS;
  mk_code_row "io_submit" Always PPM_SC_IO_SUBMIT;
  mk_code_row "io_cancel" Always PPM_SC_IO_CANCEL;
  mk_code_row "exit_group" Always PPM_SC_EXIT_GROUP;
  mk_code_row "epoll_create" Always PPM_SC_EPOLL_CREATE;
  mk_code_row "epoll_ctl" Always PPM_SC_EPOLL_CTL;
  mk_code_row "epoll_wait" Always PPM_SC_EPOLL_WAIT;
  mk_code_row "remap_file_pages" Always PPM_SC_REMAP_FILE_PAGES;
  mk_code_row "set_tid_address" Always PPM_SC_SET_TID_ADDRESS;
  mk_code_row "timer_create" Always PPM_SC_TIMER_CREATE;
  mk_code_row "timer_settime" Always PPM_SC_TIMER_SETTIME;
  mk_code_row "timer_gettime" Always PPM_SC_TIMER_GETTIME;
  mk_code_row "timer_getoverrun" Always PPM_SC_TIMER_GETOVERRUN;
  mk_code_row "timer_delete" Always PPM_SC_TIMER_DELETE;
  mk_code_row "clock_settime" Always PPM_SC_CLOCK_SETTIME;
  mk_code_row "clock_gettime" Always PPM_SC_CLOCK_GETTIME;
  mk_code_row "clock_getres" Always PPM_SC_CLOCK_GETRES;
  mk_code_row "clock_nanosleep" Always PPM_SC_CLOCK_NANOSLEEP;
  mk_code_row "tgkill" Always PPM_SC_TGKILL;
  mk_code_row "utimes" Always PPM_SC_UTIMES;
  mk_code_row "mq_open" Always PPM_SC_MQ_OPEN;
  mk_code_row "mq_unlink" Always PPM_SC_MQ_UNLINK;
  mk_code_row "mq_timedsend" Always PPM_SC_MQ_TIMEDSEND;
  mk_code_row "mq_timedreceive" Always PPM_SC_MQ_TIMEDRECEIVE;
  mk_code_row "mq_notify" Always PPM_SC_MQ_NOTIFY;
  mk_code_row "mq_getsetattr" Always PPM_SC_MQ_GETSETATTR;
  mk_code_row "kexec_load" Always PPM_SC_KEXEC_LOAD;
  mk_code_row "waitid" Always PPM_SC_WAITID;
  mk_code_row "add_key" Always PPM_SC_ADD_KEY;
  mk_code_row "request_key" Always PPM_SC_REQUEST_KEY;
  mk_code_row "keyctl" Always PPM_SC_KEYCTL;
  mk_code_row "ioprio_set" Always PPM_SC_IOPRIO_SET;
  mk_code_row "ioprio_get" Always PPM_SC_IOPRIO_GET;
  mk_code_row "inotify_init" Always PPM_SC_INOTIFY_INIT;
  mk_code_row "inotify_add_watch" Always PPM_SC_INOTIFY_ADD_WATCH;
  mk_code_row "inotify_rm_watch" Always PPM_SC_INOTIFY_RM_WATCH;
  mk_code_row "openat" Always PPM_SC_OPENAT;
  mk_code_row "mkdirat" Always PPM_SC_MKDIRAT;
  mk_code_row "mknodat" Always PPM_SC_MKNODAT;
  mk_code_row "fchownat" Always PPM_SC_FCHOWNAT;
  mk_code_row "futimesat" Always PPM_SC_FUTIMESAT;
  mk_code_row "unlinkat" Always PPM_SC_UNLINKAT;
  mk_code_row "renameat" Always PPM_SC_RENAMEAT;
  mk_code_row "linkat" Always PPM_SC_LINKAT;
  mk_code_row "symlinkat" Always PPM_SC_SYMLINKAT;
  mk_code_row "readlinkat" Always PPM_SC_READLINKAT;
  mk_code_row "fchmodat" Always PPM_SC_FCHMODAT;
  mk_code_row "faccessat" Always PPM_SC_FACCESSAT;
  mk_code_row "pselect6" Always PPM_SC_PSELECT6;
  mk_code_row "ppoll" Always PPM_SC_PPOLL;
  mk_code_row "unshare" Always PPM_SC_UNSHARE;
  mk_code_row "set_robust_list" Always PPM_SC_SET_ROBUST_LIST;
  mk_code_row "get_robust_list" Always PPM_SC_GET_ROBUST_LIST;
  mk_code_row "splice" Always PPM_SC_SPLICE;
  mk_code_row "tee" Always PPM_SC_TEE;
  mk_code_row "vmsplice" Always PPM_SC_VMSPLICE;
  mk_code_row "getcpu" (IfDef "getcpu") PPM_SC_GETCPU;
  mk_code_row "epoll_pwait" Always PPM_SC_EPOLL_PWAIT;
  mk_code_row "utimensat" Always PPM_SC_UTIMENSAT;
  mk_code_row "signalfd" Always PPM_SC_SIGNALFD;
  mk_code_row "timerfd_create" Always PPM_SC_TIMERFD_CREATE;
  mk_code_row "eventfd" Always PPM_SC_EVENTFD;
  mk_code_row "timerfd_settime" Always PPM_SC_TIMERFD_SETTIME;
  mk_code_row "timerfd_gettime" Always PPM_SC_TIMERFD_GETTIME;
  mk_code_row "signalfd4" Always PPM_SC_SIGNALFD4;
  mk_code_row "eventfd2" Always PPM_SC_EVENTFD2;
  mk_code_row "epoll_create1" Always PPM_SC_EPOLL_CREATE1;
  mk_code_row "dup3" Always PPM_SC_DUP3;
  mk_code_row "pipe2" Always PPM_SC_PIPE2;
  mk_code_row "inotify_init1" Always PPM_SC_INOTIFY_INIT1;
  mk_code_row "preadv" Always PPM_SC_PREADV;
  mk_code_row "pwritev" Always PPM_SC_PWRITEV;
  mk_code_row "rt_tgsigqueueinfo" Always PPM_SC_RT_TGSIGQUEUEINFO;
  mk_code_row "perf_event_open" Always PPM_SC_PERF_EVENT_OPEN;
  mk_code_row "fanotify_init" (IfDef "fanotify_init") PPM_SC_FANOTIFY_INIT;
  mk_code_row "prlimit64" (IfDef "prlimit64") PPM_SC_PRLIMIT64].

Definition g_syscall_ia32_code_routing_table_2 : list code_row := [
  mk_code_row "clock_adjtime" (IfDef "clock_adjtime") PPM_SC_CLOCK_ADJTIME;
  mk_code_row "syncfs" (IfDef "syncfs") PPM_SC_SYNCFS;
  mk_code_row "setns" (IfDef "setns") PPM_SC_SETNS;
  mk_code_row "getdents64" Always PPM_SC_GETDENTS64;
  mk_code_row "socket" (IfNdef "socketcall") PPM_SC_SOCKET;
  mk_code_row "bind" (IfNdef "socketcall") PPM_SC_BIND;
  mk_code_row "connect" (IfNdef "socketcall") PPM_SC_CONNECT;
  mk_code_row "listen" (IfNdef "socketcall") PPM_SC_LISTEN;
  mk_code_row "accept" (IfNdef "socketcall") PPM_SC_ACCEPT;
  mk_code_row "getsockname" (IfNdef "socketcall") PPM_SC_GETSOCKNAME;
  mk_code_row "getpeername" (IfNdef "socketcall") PPM_SC_GETPEERNAME;
  mk_code_row "socketpair" (IfNdef "socketcall") PPM_SC_SOCKETPAIR;
  mk_code_row "sendto" (IfNdef "socketcall") PPM_SC_SENDTO;
  mk_code_row "recvfrom" (IfNdef "socketcall") PPM_SC_RECVFROM;
  mk_code_row "shutdown" (IfNdef "socketcall") PPM_SC_SHUTDOWN;
  mk_code_row "setsockopt" (IfNdef "socketcall") PPM_SC_SETSOCKOPT;
  mk_code_row "getsockopt" (IfNdef "socketcall") PPM_SC_GETSOCKOPT;
  mk_code_row "sendmsg" (IfNdef "socketcall") PPM_SC_SENDMSG;
  mk_code_row "recvmsg" (IfNdef "socketcall") PPM_SC_RECVMSG;
  mk_code_row "accept4" (IfNdef "socketcall") PPM_SC_ACCEPT4;
  mk_code_row "socketcall" (IfDef "socketcall") PPM_SC_SOCKETCALL;
  mk_code_row "sendmmsg" (IfDef "sendmmsg") PPM_SC_SENDMMSG;
  mk_code_row "recvmmsg" (IfDef "recvmmsg") PPM_SC_RECVMMSG;
  mk_code_row "semop" (IfDef "semop") PPM_SC_SEMOP;
  mk_code_row "semget" (IfDef "semget") PPM_SC_SEMGET;
  mk_code_row "semctl" (IfDef "semctl") PPM_SC_SEMCTL;
  mk_code_row "semget" (IfDef "semget") PPM_SC_SEMGET;
  mk_code_row "msgsnd" (IfDef "msgsnd") PPM_SC_MSGSND;
  mk_code_row "msgrcv" (IfDef "msgrcv") PPM_SC_MSGRCV;
  mk_code_row "msgget" (IfDef "msgget") PPM_SC_MSGGET;
  mk_code_row "msgctl" (IfDef "msgctl") PPM_SC_MSGCTL;
  mk_code_row "shmdt" (IfDef "shmdt") PPM_SC_SHMDT;
  mk_code_row "shmget" (IfDef "shmget") PPM_SC_SHMGET;
  mk_code_row "shmctl" (IfDef "shmctl") PPM_SC_SHMCTL;
  mk_code_row "statfs64" (IfDef "statfs64") PPM_SC_STATFS64;
  mk_code_row "fstatfs64" (IfDef "fstatfs64") PPM_SC_FSTATFS64;
  mk_code_row "fstatat64" (IfDef "fstatat64") PPM_SC_FSTATAT64;
  mk_code_row "sendfile64" (IfDef "sendfile64") PPM_SC_SENDFILE64;
  mk_code_row "ugetrlimit" (IfDef "ugetrlimit") PPM_SC_UGETRLIMIT;
  mk_code_row "bdflush" (IfDef "bdflush") PPM_SC_BDFLUSH;
  mk_code_row "sigprocmask" (IfDef "sigprocmask") PPM_SC_SIGPROCMASK;
  mk_code_row "ipc" (IfDef "ipc") PPM_SC_IPC;
  mk_code_row "stat64" (IfDef "stat64") PPM_SC_STAT64;
  mk_code_row "lstat64" (IfDef "lstat64") PPM_SC_LSTAT64;
  mk_code_row "fstat64" (IfDef "fstat64") PPM_SC_FSTAT64;
  mk_code_row "fcntl64" (IfDef "fcntl64") PPM_SC_FCNTL64;
  mk_code_row "mmap2" (IfDef "mmap2") PPM_SC_MMAP2;
  mk_code_row "_newselect" (IfDef "_newselect") PPM_SC__NEWSELECT;
  mk_code_row "sgetmask" (IfDef "sgetmask") PPM_SC_SGETMASK;
  mk_code_row "ssetmask" (IfDef "ssetmask") PPM_SC_SSETMASK;
  mk_code_row "sigpending" (IfDef "sigpending") PPM_SC_SIGPENDING;
  mk_code_row "olduname" (IfDef "olduname") PPM_SC_OLDUNAME;
  mk_code_row "umount" (IfDef "umount") PPM_SC_UMOUNT].

Definition g_syscall_ia32_code_routing_table_3 : list code_row := [
  mk_code_row "signal" (IfDef "signal") PPM_SC_SIGNAL;
  mk_code_row "nice" (IfDef "nice") PPM_SC_NICE;
  mk_code_row "stime" (IfDef "stime") PPM_SC_STIME;
  mk_code_row "_llseek" (IfDef "_llseek") PPM_SC__LLSEEK;
  mk_code_row "waitpid" (IfDef "waitpid") PPM_SC_WAITPID;
  mk_code_row "pread64" (IfDef "pread64") PPM_SC_PREAD64;
  mk_code_row "pwrite64" (IfDef "pwrite64") PPM_SC_PWRITE64;
  mk_code_row "shmat" (IfDef "shmat") PPM_SC_SHMAT;
  mk_code_row "rt_sigreturn" (IfDef "rt_sigreturn") PPM_SC_SIGRETURN;
  mk_code_row "fallocate" (IfDef "fallocate") PPM_SC_FALLOCATE;
  mk_code_row "newfstatat" (IfDef "newfstatat") PPM_SC_NEWFSSTAT;
  mk_code_row "process_vm_readv" (IfDef "process_vm_readv") PPM_SC_PROCESS_VM_READV;
  mk_code_row "process_vm_writev" (IfDef "process_vm_writev") PPM_SC_PROCESS_VM_WRITEV;
  mk_code_row "fork" (IfDef "fork") PPM_SC_FORK;
  mk_code_row "vfork" (IfDef "vfork") PPM_SC_VFORK;
  mk_code_row "quotactl" (IfDef "quotactl") PPM_SC_QUOTACTL;
  mk_code_row "setresuid" (IfDef "setresuid") PPM_SC_SETRESUID;
  mk_code_row "setresuid32" (IfDef "setresuid32") PPM_SC_SETRESUID;
  mk_code_row "setresgid" (IfDef "setresgid") PPM_SC_SETRESGID;
  mk_code_row "setresgid32" (IfDef "setresgid32") PPM_SC_SETRESGID;
  mk_code_row "setuid" (IfDef "setuid") PPM_SC_SETUID;
  mk_code_row "setuid32" (IfDef "setuid32") PPM_SC_SETUID32;
  mk_code_row "setgid" (IfDef "setgid") PPM_SC_SETGID;
  mk_code_row "setgid32" (IfDef "setgid32") PPM_SC_SETGID32;
  mk_code_row "getuid" (IfDef "getuid") PPM_SC_GETUID;
  mk_code_row "getuid32" (IfDef "getuid32") PPM_SC_GETUID32;
  mk_code_row "geteuid" (IfDef "geteuid") PPM_SC_GETEUID;
  mk_code_row "geteuid32" (IfDef "geteuid32") PPM_SC_GETEUID;
  mk_code_row "getgid" (IfDef "getgid") PPM_SC_GETGID;
  mk_code_row "getgid32" (IfDef "getgid32") PPM_SC_GETGID;
  mk_code_row "getegid" (IfDef "getegid") PPM_SC_GETEGID;
  mk_code_row "getegid32" (IfDef "getegid32") PPM_SC_GETEGID;
  mk_code_row "getresuid" (IfDef "getresuid") PPM_SC_GETRESUID;
  mk_code_row "getresuid32" (IfDef "getresuid32") PPM_SC_GETRESUID32;
  mk_code_row "getresgid" (IfDef "getresgid") PPM_SC_GETRESGID;
  mk_code_row "getresgid32" (IfDef "getresgid32") PPM_SC_GETRESGID32;
  mk_code_row "finit_module" (IfDef "finit_module") PPM_SC_FINIT_MODULE;
  mk_code_row "bpf" (IfDef "bpf") PPM_SC_BPF;
  mk_code_row "seccomp" (IfDef "seccomp") PPM_SC_SECCOMP;
  mk_code_row "sigaltstack" (IfDef "sigaltstack") PPM_SC_SIGALTSTACK;
  mk_code_row "getrandom" (IfDef "getrandom") PPM_SC_GETRANDOM;
  mk_code_row "fadvise64" (IfDef "fadvise64") PPM_SC_FADVISE64;
  mk_code_row "renameat2" (IfDef "renameat2") PPM_SC_RENAMEAT2;
  mk_code_row "userfaultfd" (IfDef "userfaultfd") PPM_SC_USERFAULTFD].

Definition g_syscall_ia32_code_routing_table_rows : list code_row :=
  (g_syscall_ia32_code_routing_table_0 ++ g_syscall_ia32_code_routing_table_1 ++ g_syscall_ia32_code_routing_table_2 ++ g_syscall_ia32_code_routing_table_3)%list.
Section numbering.
(** The numbers of [asm/unistd.h] and [SYSCALL_TABLE_ID0]. *)
Context (nr : string -> option Z) (id0 : Z).

Definition guard_holds (g : pp_guard) : bool :=
  match g with
  | Always => true
  | IfDef s => bool_decide (is_Some (nr s))
  | IfNdef s => bool_decide (nr s = None)
  end.

(** Does the designated initialiser of syscall [s] name element [i]? *)
Definition row_at (s : string) (g : pp_guard) (i : Z) : bool :=
  guard_holds g && bool_decide (nr s = Some (i + id0)).

(** [tbl[i]]: the last initialiser for [i], or a zero element. *)
Definition table_entry (rows : list syscall_row) (i : Z) : syscall_evt_pair :=
  foldl (fun acc r => if row_at (row_nr r) (row_guard r) i then row_pair r else acc)
    (mk_pair UF_NONE 0 0) rows.

Definition code_entry (rows : list code_row) (i : Z) : Z :=
  foldl (fun acc r => if row_at (crow_nr r) (crow_guard r) i then crow_code r else acc)
    0 rows.
End numbering.

(** ** Facts about the routing tables. *)

Definition pair_ok (p : syscall_evt_pair) : bool :=
  (0 <=? enter_event_type p) && (exit_event_type p <? PPM_EVENT_MAX)
  && (exit_event_type p =? enter_event_type p + 1)
  && has_flag (sp_flags p) UF_USED
  && negb (has_flag (sp_flags p) UF_NEVER_DROP && has_flag (sp_flags p) UF_ALWAYS_DROP)
  && bool_decide (is_Some (g_ppm_events (enter_event_type p)))
  && bool_decide (is_Some (g_ppm_events (exit_event_type p))).

(** What a listed pair promises the tracepoint probes. *)
Definition pair_routes (p : syscall_evt_pair) : Prop :=
  0 <= enter_event_type p /\ exit_event_type p = enter_event_type p + 1 /\
  exit_event_type p < PPM_EVENT_MAX /\
  has_flag (sp_flags p) UF_USED = true /\
  (has_flag (sp_flags p) UF_NEVER_DROP = true ->
   has_flag (sp_flags p) UF_ALWAYS_DROP = false) /\
  is_Some (g_ppm_events (enter_event_type p)) /\
  is_Some (g_ppm_events (exit_event_type p)).

Lemma pair_ok_routes p : pair_ok p = true -> pair_routes p.
Proof.
  unfold pair_ok, pair_routes. intros H. bool_to_prop.
  repeat match goal with H : bool_decide _ = true |- _ => apply bool_decide_eq_true in H end.
  repeat split; auto; try lia. intros Hn.
  match goal with H : (_ && _)%bool = false |- _ => rewrite Hn in H; simpl in H; done end.
Qed.

(** A property of every row whose condition can hold is a property of every
    element some row names. *)
Lemma table_entry_ind nr id0 rows i (P : syscall_evt_pair -> Prop) :
  Forall (fun r => guard_holds nr (row_guard r) = true -> P (row_pair r)) rows ->
  table_entry nr id0 rows i = mk_pair UF_NONE 0 0 \/ P (table_entry nr id0 rows i).
Proof.
  unfold table_entry. intros H.
  assert (forall acc, acc = mk_pair UF_NONE 0 0 \/ P acc ->
    foldl (fun a r => if row_at nr id0 (row_nr r) (row_guard r) i then row_pair r else a)
      acc rows = mk_pair UF_NONE 0 0 \/
    P (foldl (fun a r => if row_at nr id0 (row_nr r) (row_guard r) i then row_pair r else a)
         acc rows)) as G; [|apply G; by left].
  induction H as [|r rows Hr _ IH]; intros acc Hacc; simpl; [done|].
  apply IH. destruct (row_at _ _ _ _ _) eqn:E; [|done].
  right. apply Hr. unfold row_at in E. by apply andb_true_iff in E as [? _].
Qed.

Lemma native_rows_ok :
  forallb (fun r => pair_ok (row_pair r)) g_syscall_table_rows = true.
Proof. vm_compute; reflexivity. Qed.

Lemma native_entry_routes nr id0 i :
  table_entry nr id0 g_syscall_table_rows i = mk_pair UF_NONE 0 0 \/
  pair_routes (table_entry nr id0 g_syscall_table_rows i).
Proof.
  apply table_entry_ind. apply Forall_forall. intros r Hr _.
  apply pair_ok_routes. pose proof native_rows_ok as H. rewrite forallb_forall in H.
  apply H, Hr.
Qed.

(** The name of the events of a system call: its own without the number of a later
    version, and "syscall" for the calls that have no event type of their own. *)
Definition event_name (s : string) : string :=
  let versions := [("pipe2", "pipe"); ("eventfd2", "eventfd"); ("pread64", "pread");
    ("pwrite64", "pwrite"); ("dup2", "dup"); ("dup3", "dup"); ("signalfd4", "signalfd");
    ("inotify_init1", "inotify_init"); ("prlimit64", "prlimit"); ("ugetrlimit", "getrlimit");
    ("fcntl64", "fcntl"); ("umount2", "umount"); ("accept4", "accept"); ("_llseek", "llseek");
    ("sendfile64", "sendfile"); ("setresuid32", "setresuid"); ("setresgid32", "setresgid");
    ("setuid32", "setuid"); ("setgid32", "setgid"); ("getuid32", "getuid");
    ("geteuid32", "geteuid"); ("getgid32", "getgid"); ("getegid32", "getegid");
    ("getresuid32", "getresuid"); ("getresgid32", "getresgid")] in
  let generic := ["pselect6"; "epoll_create"; "epoll_ctl"; "uselib"; "sched_setparam";
    "sched_getparam"; "syslog"; "lchown"; "utime"; "alarm"; "pause"; "process_vm_readv";
    "process_vm_writev"] in
  match List.find (fun x => String.eqb (fst x) s) versions with
  | Some x => snd x
  | None => if existsb (String.eqb s) generic then "syscall" else s
  end.

Definition named (r : syscall_row) : bool :=
  String.eqb (ei_name (g_event_info (enter_event_type (row_pair r)))) (event_name (row_nr r))
  && String.eqb (ei_name (g_event_info (exit_event_type (row_pair r)))) (event_name (row_nr r)).

Lemma native_rows_named : forallb named g_syscall_table_rows = true.
Proof. vm_compute; reflexivity. Qed.

#[local] Instance string_eq_decision : EqDecision string := String.string_dec.

Lemma native_rows_distinct : NoDup (map row_nr g_syscall_table_rows).
Proof. apply (bool_decide_unpack _). vm_compute. exact I. Qed.

(** No initialiser names an element, and exactly one does. *)
Lemma table_entry_empty nr id0 rows i :
  (forall r, r ∈ rows -> row_at nr id0 (row_nr r) (row_guard r) i = false) ->
  forall acc, foldl (fun acc r => if row_at nr id0 (row_nr r) (row_guard r) i then row_pair r else acc) acc rows
              = acc.
Proof.
  induction rows as [|r rows IH]; intros H acc; [done|]. cbn [foldl].
  rewrite H by (apply list_elem_of_here). apply IH. intros r' Hr. apply H. by apply list_elem_of_further.
Qed.

Lemma table_entry_row nr id0 rows r n :
  NoDup (map row_nr rows) -> r ∈ rows ->
  (forall a b, a ∈ rows -> b ∈ rows -> nr (row_nr a) = nr (row_nr b) -> is_Some (nr (row_nr a)) ->
     row_nr a = row_nr b) ->
  guard_holds nr (row_guard r) = true -> nr (row_nr r) = Some n ->
  table_entry nr id0 rows (n - id0) = row_pair r.
Proof.
  intros Hnd Hr Hinj Hg Hn. unfold table_entry. generalize (mk_pair UF_NONE 0 0).
  apply list_elem_of_split in Hr as (l1 & l2 & ->). intros acc. rewrite foldl_app. cbn [foldl].
  assert (Hat : row_at nr id0 (row_nr r) (row_guard r) (n - id0) = true).
  { unfold row_at. rewrite Hg, Hn, bool_decide_true; [done|]. f_equal. lia. }
  rewrite Hat. apply table_entry_empty. intros r2 H2. unfold row_at. apply andb_false_intro2.
  apply bool_decide_eq_false. intros E. rewrite map_app in Hnd. apply list.NoDup_app in Hnd as (_ & _ & Hnd).
  cbn [map] in Hnd. apply list.NoDup_cons in Hnd as [Hnot _]. apply Hnot.
  assert (E' : nr (row_nr r2) = Some n) by (rewrite E; f_equal; lia).
  rewrite (Hinj r r2); [by apply list_elem_of_fmap_2|apply elem_of_app; right; apply list_elem_of_here|
    apply elem_of_app; right; by apply list_elem_of_further|congruence|by eexists].
Qed.

(** C40: the native syscall table routes every system call to its own events.  Take any
    numbering of the target that gives the calls of the table distinct numbers.  The
    element of a call whose initialiser is compiled in is a pair of consecutive event
    types, each with a filler, that have the name of the call (without the number of its
    version; the calls without events of their own have the generic ones), marked used and
    not both never-drop and always-drop; and an element no initialiser names is empty. *)
Theorem syscall_table_routes (nr : string -> option Z) (id0 : Z) :
  (forall a b, a ∈ g_syscall_table_rows -> b ∈ g_syscall_table_rows ->
     nr (row_nr a) = nr (row_nr b) -> is_Some (nr (row_nr a)) -> row_nr a = row_nr b) ->
  (forall r n, r ∈ g_syscall_table_rows -> guard_holds nr (row_guard r) = true ->
     nr (row_nr r) = Some n ->
     let p := table_entry nr id0 g_syscall_table_rows (n - id0) in
     pair_routes p /\
     ei_name (g_event_info (enter_event_type p)) = event_name (row_nr r) /\
     ei_name (g_event_info (exit_event_type p)) = event_name (row_nr r)) /\
  (forall i, (forall r, r ∈ g_syscall_table_rows -> guard_holds nr (row_guard r) = true ->
                nr (row_nr r) <> Some (i + id0)) ->
     table_entry nr id0 g_syscall_table_rows i = mk_pair UF_NONE 0 0).
Proof.
  intros Hinj. split.
  - intros r n Hr Hg Hn p. unfold p. rewrite (table_entry_row nr id0 _ r n native_rows_distinct Hr Hinj Hg Hn).
    apply list_elem_of_In in Hr. pose proof native_rows_ok as Hok. pose proof native_rows_named as Hna.
    rewrite forallb_forall in Hok, Hna. specialize (Hok r Hr). specialize (Hna r Hr).
    apply andb_true_iff in Hna as [H1%String.eqb_eq H2%String.eqb_eq]. auto using pair_ok_routes.
  - intros i Hi. apply table_entry_empty. intros r Hr. unfold row_at.
    destruct (guard_holds nr (row_guard r)) eqn:E; [|done]. by apply bool_decide_eq_false, Hi.
Qed.

(** A numbering with two calls. *)
Definition two_calls (s : string) : option Z :=
  if String.eqb s "read" then Some 0 else if String.eqb s "write" then Some 1 else None.

Lemma syscall_table_routes_witness :
  let p := table_entry two_calls 0 g_syscall_table_rows (1 - 0) in
  pair_routes p /\ ei_name (g_event_info (enter_event_type p)) = "write".
Proof.
  destruct (syscall_table_routes two_calls 0) as [H _].
  - intros a b _ _. unfold two_calls. intros E [n En].
    destruct (String.eqb_spec (row_nr a) "read"), (String.eqb_spec (row_nr a) "write"),
      (String.eqb_spec (row_nr b) "read"), (String.eqb_spec (row_nr b) "write"); congruence.
  - destruct (H (mk_row "write" Always (mk_pair UF_USED PPME_SYSCALL_WRITE_E PPME_SYSCALL_WRITE_X)) 1)
      as (H1 & H2 & _).
    + apply list_elem_of_In. do 5 right. left. reflexivity.
    + reflexivity.
    + reflexivity.
    + split; [exact H1|exact H2].
Defined.

(** The same for the 32 bit table, where the rows of the separate socket calls
    are compiled out because the ia32 numbering has [socketcall]. *)
Lemma ia32_rows_ok :
  forallb (fun r => match row_guard r with
                    | IfNdef s => String.eqb s "socketcall"
                    | _ => pair_ok (row_pair r) end) g_syscall_ia32_table_rows = true.
Proof. vm_compute; reflexivity. Qed.

Lemma ia32_entry_routes nr id0 i :
  is_Some (nr "socketcall") ->
  table_entry nr id0 g_syscall_ia32_table_rows i = mk_pair UF_NONE 0 0 \/
  pair_routes (table_entry nr id0 g_syscall_ia32_table_rows i).
Proof.
  intros [n Hn]. apply table_entry_ind. apply Forall_forall. intros r Hr Hg.
  apply pair_ok_routes. pose proof ia32_rows_ok as H. rewrite forallb_forall in H.
  specialize (H r Hr). cbv beta in H.
  destruct (row_guard r) as [| |s]; [done|done|].
  apply String.eqb_eq in H as ->. simpl in Hg. rewrite Hn in Hg.
  by apply bool_decide_eq_true in Hg.
Qed.

(** With a numbering that defines socketcall, as the ia32 one does, the
    32 bit syscall table routes in the same way. *)
Theorem ia32_table_routes (nr : string -> option Z) (id0 i : Z) :
  is_Some (nr "socketcall") ->
  table_entry nr id0 g_syscall_ia32_table_rows i = mk_pair UF_NONE 0 0 \/
  pair_routes (table_entry nr id0 g_syscall_ia32_table_rows i).
Proof. apply ia32_entry_routes. Qed.

Definition demo_nr (s : string) : option Z :=
  if String.eqb s "socketcall" then Some 102 else if String.eqb s "close" then Some 6 else None.

Lemma ia32_table_routes_witness :
  pair_routes (table_entry demo_nr 0 g_syscall_ia32_table_rows 6).
Proof.
  destruct (ia32_table_routes demo_nr 0 6 ltac:(vm_compute; eauto)) as [H|H]; [|exact H].
  vm_compute in H. discriminate H.
Defined.
