(* ===== verification/ValToRing.v ===== *)
(** * Writing an event parameter: [driver/ppm_events.c]

    The arguments record the driver hands to a filler, the copies from user
    memory, the dynamic snaplen and [val_to_ring], the one function through
    which every filler writes a parameter to the ring. *)

From Stdlib Require Import Strings.String.
From Stdlib Require Import Strings.Byte.
From Stdlib Require Import ZArith Lia List Bool.
From stdpp Require Import base tactics list numbers option.
From S2P Require Import Prelude Bytes EventDefs EventTable.
Import ListNotations.
Local Open Scope Z_scope.

(** ** Constants of [ppm.h] and [ppm_events.h]. *)

Definition RW_SNAPLEN_EVENT : Z := 4096.
Definition DPI_LOOKAHEAD_SIZE : Z := 16.
(** [MKDEV(1, 3)] *)
Definition PPM_NULL_RDEV : Z := Z.lor (Z.shiftl 1 20) 3.
Definition PPM_PORT_MYSQL : Z := 3306.
Definition PPM_PORT_POSTGRES : Z := 5432.
Definition PPM_PORT_STATSD : Z := 8125.
Definition PPM_PORT_MONGODB : Z := 27017.
Definition SECOND_IN_NS : Z := 1000000000.

Definition AF_UNIX : Z := 1.
Definition AF_INET : Z := 2.
Definition AF_INET6 : Z := 10.

(** The 32 bit image of the first four bytes of a method name, which
    [dpi_lookahead_init] stores in the [g_http_] globals. *)
Definition http_intval (s : String.string) : Z := le_val (take 4 (bytes_of_string s)).

(** ** What the driver observes of the kernel while it handles one event.

    [access_ok] and [copy_inatomic] are the kernel's user memory primitives:
    [copy_inatomic a n] are the bytes [__copy_from_user_inatomic] managed to
    copy from address [a] before it stopped, all [n] of them when it returned
    zero.  A socket carries the answers of [sock_getname]; [uninit] is the
    content of an uninitialised stack buffer, [literal_addr] the address of a
    string literal, [fd_sb_dev] the encoded device of an open file, and the [stale_] fields what an argument record holds before
    it is assigned. *)
Record socket : Type := mk_socket {
  so_sk : bool;
  so_family : Z;
  so_name : option (list byte);
  so_peer : option (list byte) }.

Record kenv : Type := mk_kenv {
  access_ok : Z -> Z -> bool;
  copy_inatomic : Z -> Z -> list byte;
  g_tracers_enabled : bool;
  fd_rdev : Z -> option Z;
  fd_sb_dev : Z -> option Z;
  literal_addr : Z;
  sockfd_lookup : Z -> option socket;
  uninit : list byte;
  syscall_args : list Z;
  syscall_retval : Z;
  current_pid : Z;
  max_fds : Z;
  fd_is_open : Z -> bool;
  stale_spid : Z;
  stale_fd : Z;
  stale_socketcall_args : list Z }.

(** What the code relies on: the primitive never copies more than it was asked,
    and what it copied is a prefix of the range, in a user memory that does not
    change while the event is handled. *)
Class KernelOK (k : kenv) (user : mem) : Prop := {
  copy_len a n : 0 <= n -> Z.of_nat (length (copy_inatomic k a n)) <= n;
  copy_content a n :
    copy_inatomic k a n = mem_read user a (length (copy_inatomic k a n)) }.

(** The settings of [struct ppm_consumer_t] that the fillers read. *)
Record consumer_cfg : Type := mk_cfg {
  snaplen : Z;
  do_dynamic_snaplen : bool;
  fullcapture_port_range_start : Z;
  fullcapture_port_range_end : Z;
  statsd_port : Z }.

(** [struct event_filler_arguments]: [buffer] is the offset of the parameter
    area in the ring memory, [str_storage] the address of the string page. *)
Record event_filler_arguments : Type := mk_args {
  consumer : consumer_cfg;
  buffer : Z;
  buffer_size : Z;
  syscall_id : Z;
  nevents : Z;
  curarg : Z;
  nargs : Z;
  arg_data_offset : Z;
  arg_data_size : Z;
  event_type : Z;
  str_storage : Z;
  socketcall_args : list Z;
  is_socketcall : bool;
  compat : bool;
  fd : Z;
  enforce_snaplen : bool;
  signo : Z;
  spid : Z;
  dpid : Z;
  sched_prev : Z;
  sched_next : Z;
  socketcall_syscall : Z;
  code_routing_table : Z -> Z }.

(** The state a filler works on: its arguments, the ring memory of the CPU and
    the rest of kernel memory. *)
Record fstate : Type := mk_fstate {
  args : event_filler_arguments;
  rmem : mem;
  kmem : mem }.

Definition set_cursor (a : event_filler_arguments) (ca off sz : Z) : event_filler_arguments :=
  mk_args (consumer a) (buffer a) (buffer_size a) (syscall_id a) (nevents a) ca (nargs a)
    off sz (event_type a) (str_storage a) (socketcall_args a) (is_socketcall a) (compat a)
    (fd a) (enforce_snaplen a) (signo a) (spid a) (dpid a) (sched_prev a) (sched_next a)
    (socketcall_syscall a) (code_routing_table a).

Definition set_fd (a : event_filler_arguments) (f : Z) : event_filler_arguments :=
  mk_args (consumer a) (buffer a) (buffer_size a) (syscall_id a) (nevents a) (curarg a)
    (nargs a) (arg_data_offset a) (arg_data_size a) (event_type a) (str_storage a)
    (socketcall_args a) (is_socketcall a) (compat a) f (enforce_snaplen a)
    (signo a) (spid a) (dpid a) (sched_prev a) (sched_next a)
    (socketcall_syscall a) (code_routing_table a).

Definition set_enforce_snaplen (a : event_filler_arguments) (b : bool) :
    event_filler_arguments :=
  mk_args (consumer a) (buffer a) (buffer_size a) (syscall_id a) (nevents a) (curarg a)
    (nargs a) (arg_data_offset a) (arg_data_size a) (event_type a) (str_storage a)
    (socketcall_args a) (is_socketcall a) (compat a) (fd a) b
    (signo a) (spid a) (dpid a) (sched_prev a) (sched_next a)
    (socketcall_syscall a) (code_routing_table a).

Definition set_rmem (s : fstate) (m : mem) : fstate := mk_fstate (args s) m (kmem s).
Definition set_kmem (s : fstate) (m : mem) : fstate := mk_fstate (args s) (rmem s) m.
Definition set_args (s : fstate) (a : event_filler_arguments) : fstate :=
  mk_fstate a (rmem s) (kmem s).

(** Syscall argument [i], from the registers or from the socketcall array. *)
Definition sc_arg (k : kenv) (i : nat) : Z := nth i (syscall_args k) 0.
Definition sock_arg (k : kenv) (a : event_filler_arguments) (i : nat) : Z :=
  if is_socketcall a then nth i (socketcall_args a) 0 else sc_arg k i.

(** ** Copies. *)

(** [ppm_copy_from_user]: the new memory and the number of bytes not read. *)
Definition ppm_copy_from_user (k : kenv) (m : mem) (to from n : Z) : mem * Z :=
  if access_ok k from n then
    let got := copy_inatomic k from n in
    (mem_write m to got, n - Z.of_nat (length got))
  else (m, n).

Fixpoint find_nul (bs : list byte) : option Z :=
  match bs with
  | [] => None
  | b :: bs' => if Z_of_byte b =? 0 then Some 0
                else match find_nul bs' with Some j => Some (j + 1) | None => None end
  end.

(** The loop of [ppm_strncpy_from_user]; every turn but the last consumes
    [bytes_to_read >= 1] bytes, so [n + 1] turns are enough. *)
Fixpoint strncpy_loop (fuel : nat) (k : kenv) (m : mem)
    (to from n string_length bytes_to_read : Z) : mem * Z :=
  match fuel with
  | O => (m, -1)
  | S fuel' =>
      if n =? 0 then (m, -1)
      else
        let bytes_to_read := if n <? bytes_to_read then n else bytes_to_read in
        if negb (access_ok k from bytes_to_read) then (m, -1)
        else
          let got := copy_inatomic k from bytes_to_read in
          let m' := mem_write m to got in
          if Z.of_nat (length got) <? bytes_to_read then (m', -1)
          else match find_nul got with
               | Some j => (m', string_length + j + 1)
               | None => strncpy_loop fuel' k m' (to + bytes_to_read) (from + bytes_to_read)
                           (n - bytes_to_read) (string_length + bytes_to_read) bytes_to_read
               end
  end.

Definition ppm_strncpy_from_user (k : kenv) (m : mem) (to from n : Z) : mem * Z :=
  strncpy_loop (S (Z.to_nat n)) k m to from n 0 4.

(** [strlen], looking no further than [bound] bytes. *)
Fixpoint cstr_len (m : mem) (a : Z) (bound : nat) : Z :=
  match bound with
  | O => 0
  | S b => if Z_of_byte (m a) =? 0 then 0 else 1 + cstr_len m (a + 1) b
  end.

(** The kernel's [strlcpy]; the length it returns is capped at [size], which
    the callers' test [++len > max_arg_size] cannot tell apart. *)
Definition strlcpy (m : mem) (to : Z) (src : mem) (from size : Z) : mem * Z :=
  let ret := cstr_len src from (Z.to_nat size) in
  if size =? 0 then (m, ret)
  else
    let l := if size <=? ret then size - 1 else ret in
    (mem_write m to (mem_read src from (Z.to_nat l) ++ [x00]), ret).

Definition null_literal : mem :=
  mem_write mem_zero 0 (bytes_of_string "(NULL)"%string).

Definition sizeof_sockaddr_storage : Z := 128.

(** [addr_to_kernel]: [None] on error, otherwise the bytes now in the buffer. *)
Definition addr_to_kernel (k : kenv) (uaddr ulen : Z) : option (list byte) :=
  if (ulen <? 0) || (sizeof_sockaddr_storage <? ulen) then None
  else if ulen =? 0 then Some (uninit k)
  else
    let '(m, notread) := ppm_copy_from_user k mem_zero 0 uaddr ulen in
    if negb (notread =? 0) then None
    else Some (mem_read m 0 (Z.to_nat ulen) ++ drop (Z.to_nat ulen) (uninit k)).

(** ** The snaplen of a buffer parameter. *)

Definition in_port_range (port min max : Z) : bool := (min <=? port) && (port <=? max).

Definition byte_at (bs : list byte) (i : nat) : Z := Z_of_byte (nth i bs x00).

(** [ntohs] of the port field, at offset 2 of both address families. *)
Definition sockaddr_port (bs : list byte) : Z := byte_at bs 2 * 256 + byte_at bs 3.

Definition compat_ptr (v : Z) : Z := u32 v.

(** The peer address the heuristics look at: the one in the syscall arguments
    for sendto and sendmsg, the connected peer otherwise. *)
Definition snaplen_peer (k : kenv) (a : event_filler_arguments) (so : socket) :
    option (list byte) :=
  if event_type a =? PPME_SOCKET_SENDTO_X then
    let usrsockaddr := sock_arg k a 4 in
    if usrsockaddr =? 0 then so_peer so
    else
      let val := sock_arg k a 5 in
      if negb (val =? 0) then addr_to_kernel k usrsockaddr (s32 val) else so_peer so
  else if event_type a =? PPME_SOCKET_SENDMSG_X then
    let val := sock_arg k a 1 in
    let '(usrsockaddr, addrlen) :=
      if negb (compat a) then
        let '(m, notread) := ppm_copy_from_user k mem_zero 0 val 56 in
        if negb (notread =? 0) then (0, 0) else (ld64 m 0, s32 (ld32 m 8))
      else
        let '(m, notread) := ppm_copy_from_user k mem_zero 0 (compat_ptr val) 28 in
        if negb (notread =? 0) then (0, 0)
        else (compat_ptr (ld32 m 0), s32 (ld32 m 4)) in
    if negb (usrsockaddr =? 0) && negb (addrlen =? 0)
    then addr_to_kernel k usrsockaddr addrlen
    else so_peer so
  else so_peer so.

(** The port and protocol heuristics on the first [lookahead_size] bytes at
    [buf]. *)
Definition snaplen_heuristics (c : consumer_cfg) (m : mem) (buf lookahead_size : Z)
    (sport dport : Z) : Z :=
  let res := snaplen c in
  let dynamic_snaplen := if 2000 <? snaplen c then snaplen c else 2000 in
  let b i := Z_of_byte (m (buf + i)) in
  let min_port := fullcapture_port_range_start c in
  let max_port := fullcapture_port_range_end c in
  let opcode := s32 (ld32 m (buf + 12)) in
  let word := ld32 m buf in
  if (0 <? max_port) &&
     (in_port_range sport min_port max_port || in_port_range dport min_port max_port)
  then RW_MAX_FULLCAPTURE_PORT_SNAPLEN
  else if (sport =? PPM_PORT_MYSQL) || (dport =? PPM_PORT_MYSQL) then
    if 5 <=? lookahead_size then
      if (b 0 =? 3) || (b 1 =? 3) || (b 2 =? 3) || (b 3 =? 3) || (b 4 =? 3)
      then dynamic_snaplen
      else if (b 2 =? 0) && (b 3 =? 0) then dynamic_snaplen else res
    else res
  else if (sport =? PPM_PORT_POSTGRES) || (dport =? PPM_PORT_POSTGRES) then
    if (2 <=? lookahead_size) &&
       (((b 0 =? 81) && (b 1 =? 0)) || ((b 0 =? 80) && (b 1 =? 0))
        || ((b 0 =? 69) && (b 1 =? 0)))
    then dynamic_snaplen
    else if (7 <=? lookahead_size) && ((b 4 =? 0) && (b 5 =? 3) && (b 6 =? 0))
    then dynamic_snaplen else res
  else if (sport =? PPM_PORT_MONGODB) || (dport =? PPM_PORT_MONGODB)
       || ((16 <=? lookahead_size)
           && ((opcode =? 1) || (opcode =? 2001) || (opcode =? 2002) || (opcode =? 2003)
               || (opcode =? 2004) || (opcode =? 2005) || (opcode =? 2006)
               || (opcode =? 2007)))
  then dynamic_snaplen
  else if dport =? statsd_port c then dynamic_snaplen
  else if (5 <=? lookahead_size)
       && ((word =? http_intval "GET "%string) || (word =? http_intval "POST"%string)
           || (word =? http_intval "PUT "%string) || (word =? http_intval "DELE"%string)
           || (word =? http_intval "TRAC"%string) || (word =? http_intval "CONN"%string)
           || (word =? http_intval "OPTI"%string)
           || ((word =? http_intval "HTTP"%string) && (b 4 =? 47)))
  then dynamic_snaplen
  else res.

(** [compute_snaplen] *)
Definition compute_snaplen (k : kenv) (a : event_filler_arguments) (m : mem)
    (buf lookahead_size : Z) : Z :=
  let c := consumer a in
  let res := snaplen c in
  if g_tracers_enabled k && (event_type a =? PPME_SYSCALL_WRITE_X)
     && match fd_rdev k (fd a) with Some r => r =? PPM_NULL_RDEV | None => false end
  then RW_SNAPLEN_EVENT
  else if negb (do_dynamic_snaplen c) then res
  else match sockfd_lookup k (fd a) with
  | None => res
  | Some so =>
      if negb (so_sk so) then res
      else match so_name so with
      | None => res
      | Some sock_address =>
          match snaplen_peer k a so with
          | None => res
          | Some peer_address =>
              let '(sport, dport) :=
                if (so_family so =? AF_INET) || (so_family so =? AF_INET6)
                then (sockaddr_port sock_address, sockaddr_port peer_address)
                else (0, 0) in
              snaplen_heuristics c m buf lookahead_size sport dport
          end
      end
  end.

(** ** [val_to_ring]. *)

(** The outcome of the type switch: the bytes used, or the error returned. *)
Inductive put_result : Set :=
| Put (len : Z)
| PutErr (code : Z).

(** The store width of the numeric parameter types. *)
Definition scalar_width (t : ppm_param_type) : option nat :=
  match t with
  | PT_FLAGS8 | PT_UINT8 | PT_SIGTYPE | PT_INT8 => Some 1%nat
  | PT_FLAGS16 | PT_UINT16 | PT_SYSCALLID | PT_INT16 => Some 2%nat
  | PT_FLAGS32 | PT_UINT32 | PT_MODE | PT_UID | PT_GID | PT_SIGSET | PT_INT32 => Some 4%nat
  | PT_RELTIME | PT_ABSTIME | PT_UINT64 | PT_INT64 | PT_ERRNO | PT_FD | PT_PID => Some 8%nat
  | _ => None
  end.

(** [PT_CHARBUF], [PT_FSPATH] and [PT_FSRELPATH]; [at] is the address
    [buffer + arg_data_offset]. *)
Definition put_string (k : kenv) (rm km : mem) (at_ max val : Z) (fromuser : bool) :
    mem * put_result :=
  if negb (val =? 0) then
    if fromuser then
      let '(m, len) := ppm_strncpy_from_user k rm at_ val max in
      if len <? 0 then (m, PutErr PPM_FAILURE_INVALID_USER_MEMORY)
      else (mem_write m (at_ + len) [x00], Put len)
    else
      let '(m, ret) := strlcpy rm at_ km val max in
      let len := if max <? ret + 1 then max else ret + 1 in
      (mem_write m (at_ + len) [x00], Put len)
  else
    let '(m, ret) := strlcpy rm at_ null_literal 0 max in
    (m, Put (if max <? ret + 1 then max else ret + 1)).

(** [PT_BYTEBUF] *)
Definition put_bytebuf (k : kenv) (a : event_filler_arguments) (rm km : mem)
    (at_ max val val_len : Z) (fromuser : bool) : mem * put_result :=
  if val =? 0 then (rm, Put 0)
  else if fromuser then
    let look := if val_len <? DPI_LOOKAHEAD_SIZE then val_len else DPI_LOOKAHEAD_SIZE in
    if max <=? look then (rm, PutErr PPM_FAILURE_BUFFER_FULL)
    else
      let '(m1, notread) := ppm_copy_from_user k rm at_ val look in
      if negb (notread =? 0) then (m1, PutErr PPM_FAILURE_INVALID_USER_MEMORY)
      else if look =? val_len then (m1, Put val_len)
      else
        let val_len :=
          if enforce_snaplen a then
            let sl := compute_snaplen k a m1 at_ look in
            if sl <? val_len then sl else val_len
          else val_len in
        let val_len := if max <=? val_len then max else val_len in
        if look <? val_len then
          let '(m2, notread) :=
            ppm_copy_from_user k m1 (at_ + look) (val + look) (val_len - look) in
          if negb (notread =? 0) then (m2, PutErr PPM_FAILURE_INVALID_USER_MEMORY)
          else (m2, Put val_len)
        else (m1, Put val_len)
  else
    let val_len :=
      if enforce_snaplen a then
        let sl := compute_snaplen k a km val val_len in
        if sl <? val_len then sl else val_len
      else val_len in
    if max <=? val_len then (rm, PutErr PPM_FAILURE_BUFFER_FULL)
    else (mem_write rm at_ (mem_read km val (Z.to_nat val_len)), Put val_len).

(** [PT_SOCKADDR], [PT_SOCKTUPLE] and [PT_FDLIST] *)
Definition put_block (k : kenv) (rm km : mem) (at_ max val val_len : Z) (fromuser : bool) :
    mem * put_result :=
  if val =? 0 then (rm, Put 0)
  else if max <=? val_len then (rm, PutErr PPM_FAILURE_BUFFER_FULL)
  else if fromuser then
    let '(m, notread) := ppm_copy_from_user k rm at_ val val_len in
    if negb (notread =? 0) then (m, PutErr PPM_FAILURE_INVALID_USER_MEMORY)
    else (m, Put val_len)
  else (mem_write rm at_ (mem_read km val (Z.to_nat val_len)), Put val_len).

(** The [switch] on the parameter type. *)
Definition put_value (k : kenv) (a : event_filler_arguments) (rm km : mem)
    (t : ppm_param_type) (at_ max val val_len : Z) (fromuser : bool) : mem * put_result :=
  match t with
  | PT_CHARBUF | PT_FSPATH | PT_FSRELPATH => put_string k rm km at_ max val fromuser
  | PT_BYTEBUF => put_bytebuf k a rm km at_ max val val_len fromuser
  | PT_SOCKADDR | PT_SOCKTUPLE | PT_FDLIST => put_block k rm km at_ max val val_len fromuser
  | _ =>
      match scalar_width t with
      | Some w =>
          if Z.of_nat w <=? max
          then (mem_write rm at_ (le_bytes w val), Put (Z.of_nat w))
          else (rm, PutErr PPM_FAILURE_BUFFER_FULL)
      | None => (rm, PutErr PPM_FAILURE_BUG)
      end
  end.

(** The type a parameter has once a dynamic index is chosen; [None] when the
    index is out of range. *)
Definition param_alternative (p : ppm_param_info) (dyn_idx : Z) :
    option (bool * ppm_param_type) :=
  match pi_type p, pi_info p with
  | PT_DYN, Some (DynParams alts) =>
      if pi_ninfo p <=? dyn_idx then None
      else Some (true, nth (Z.to_nat dyn_idx) alts PT_NONE)
  | t, _ => Some (false, t)
  end.

(** The slot of the 16 bit length of the current parameter. *)
Definition psize_addr (a : event_filler_arguments) : Z := buffer a + curarg a * 2.

(** [val_to_ring]; the conversions of the C prototype, [u32 val_len] and
    [u8 dyn_idx], come first. *)
Definition val_to_ring (k : kenv) (s : fstate) (val val_len : Z) (fromuser : bool)
    (dyn_idx : Z) : fstate * Z :=
  let val_len := u32 val_len in
  let dyn_idx := u8 dyn_idx in
  let a := args s in
  let psize := psize_addr a in
  if nargs a <=? curarg a then (s, PPM_FAILURE_BUG)
  else if arg_data_size a =? 0 then (s, PPM_FAILURE_BUFFER_FULL)
  else
    let max := if PPM_MAX_ARG_SIZE <? arg_data_size a then PPM_MAX_ARG_SIZE
               else arg_data_size a in
    match param_alternative (event_param (event_type a) (curarg a)) dyn_idx with
    | None => (s, PPM_FAILURE_BUG)
    | Some (dyn, t) =>
        if dyn && (max <? 1) then (s, PPM_FAILURE_BUFFER_FULL)
        else
          let d := if dyn then 1 else 0 in
          let rm :=
            if dyn
            then mem_write (mem_write (rmem s) (buffer a + arg_data_offset a)
                              (le_bytes 1 dyn_idx)) psize (le16 1)
            else mem_write (rmem s) psize (le16 0) in
          let a1 := set_cursor a (curarg a) (u32 (arg_data_offset a + d))
                      (u32 (arg_data_size a - d)) in
          let '(rm', r) :=
            put_value k a1 rm (kmem s) t (buffer a + arg_data_offset a1) (max - d)
              val val_len fromuser in
          match r with
          | PutErr e => (mk_fstate a1 rm' (kmem s), e)
          | Put len =>
              (mk_fstate
                 (set_cursor a1 (u32 (curarg a + 1)) (u32 (arg_data_offset a1 + len))
                    (u32 (arg_data_size a1 - len)))
                 (mem_write rm' psize (le16 (ld16 rm' psize + u16 len)))
                 (kmem s), PPM_SUCCESS)
          end
    end.
