(* ===== verification/ValToRingSpec.v ===== *)
(** * What [val_to_ring] writes: specification and refinement

    [param_encoding] says which bytes a parameter value is encoded as, as a
    pure function of the value and of the memory it points to.  [filled s ps]
    relates the argument record and the ring memory of a filler to the list
    [ps] of parameters recorded so far.  The lemmas show that every successful
    [val_to_ring] appends exactly the specified encoding, and that no call,
    successful or not, writes outside the area reserved for the event. *)

From Stdlib Require Import Strings.String.
From Stdlib Require Import Strings.Byte.
From Stdlib Require Import ZArith Lia List Bool.
From stdpp Require Import base tactics list numbers option.
From S2P Require Import Prelude Bytes EventDefs EventTable FillerTable ValToRing.
Import ListNotations.
Local Open Scope Z_scope.

(** ** Specification. *)

(** The characters of a C string, at most [bound] of them. *)
Fixpoint cstr (m : mem) (a : Z) (bound : nat) : list byte :=
  match bound with
  | O => []
  | S b => if Z_of_byte (m a) =? 0 then [] else m a :: cstr m (a + 1) b
  end.

(** A string cut to [max] bytes, terminator included. *)
Definition cut_string (max : Z) (cs : list byte) : list byte :=
  if max <=? 0 then [] else take (Z.to_nat (max - 1)) cs ++ [x00].

(** How many bytes of a buffer parameter are captured. *)
Definition captured_len (k : kenv) (a : event_filler_arguments) (src : mem)
    (max val val_len : Z) (fromuser : bool) : Z :=
  let look := Z.min val_len DPI_LOOKAHEAD_SIZE in
  if fromuser then
    if look =? val_len then val_len
    else
      let n := if enforce_snaplen a
               then Z.min val_len (compute_snaplen k a src val look) else val_len in
      Z.min max n
  else if enforce_snaplen a then Z.min val_len (compute_snaplen k a src val val_len)
  else val_len.

Definition param_encoding (k : kenv) (user : mem) (a : event_filler_arguments) (km : mem)
    (t : ppm_param_type) (max val val_len : Z) (fromuser : bool) : list byte :=
  let src := if fromuser then user else km in
  match t with
  | PT_CHARBUF | PT_FSPATH | PT_FSRELPATH =>
      if val =? 0 then cut_string max (bytes_of_string "(NULL)"%string)
      else cut_string max (cstr src val (Z.to_nat max))
  | PT_BYTEBUF =>
      if val =? 0 then []
      else mem_read src val (Z.to_nat (captured_len k a src max val val_len fromuser))
  | PT_SOCKADDR | PT_SOCKTUPLE | PT_FDLIST =>
      if val =? 0 then [] else mem_read src val (Z.to_nat val_len)
  | _ => match scalar_width t with Some w => le_bytes w val | None => [] end
  end.

(** The lengths of the parameters, as they are stored in the length array. *)
Definition lens (ps : list (list byte)) : list Z := map (fun p => Z.of_nat (length p)) ps.

Record filled (s : fstate) (ps : list (list byte)) : Prop := {
  filled_curarg : curarg (args s) = Z.of_nat (length ps);
  filled_nargs : 0 <= curarg (args s) <= nargs (args s);
  filled_nargs_max : nargs (args s) <= PPM_MAX_EVENT_PARAMS;
  filled_offset : arg_data_offset (args s) = 2 * nargs (args s) + zsum (lens ps);
  filled_size : arg_data_offset (args s) + arg_data_size (args s) = buffer_size (args s);
  filled_room : 0 <= arg_data_size (args s);
  filled_snaplen : 0 <= snaplen (consumer (args s));
  filled_u32 : buffer_size (args s) < 2 ^ 31;
  filled_lens : forall i p, nth_error ps i = Some p ->
    ld16 (rmem s) (buffer (args s) + 2 * Z.of_nat i) = Z.of_nat (length p);
  filled_data :
    mem_read (rmem s) (buffer (args s) + 2 * nargs (args s)) (length (concat ps)) = concat ps }.

(** The only addresses that may differ: the event's area and the byte after it. *)
Definition writes_within (s s' : fstate) : Prop :=
  forall x, x < buffer (args s) \/ buffer (args s) + buffer_size (args s) < x ->
    rmem s' x = rmem s x.

(** The fields of the argument record that a parameter write leaves alone. *)
Definition same_event (a a' : event_filler_arguments) : Prop :=
  buffer a' = buffer a /\ buffer_size a' = buffer_size a /\ nargs a' = nargs a /\
  event_type a' = event_type a /\ str_storage a' = str_storage a.

(** ** Strings. *)

Lemma length_cstr m a b : Z.of_nat (length (cstr m a b)) = cstr_len m a b.
Proof.
  revert a; induction b as [|b IH]; intros a; simpl; [done|].
  case_if; simpl; [done|]. rewrite <- IH. lia.
Qed.

Lemma cstr_len_range m a b : 0 <= cstr_len m a b <= Z.of_nat b.
Proof. rewrite <- length_cstr. revert a; induction b as [|b IH]; intros a; simpl; [lia|].
  case_if; simpl; [lia|]. specialize (IH (a + 1)). lia. Qed.

(** Reading a prefix of a C string reads its characters. *)
Lemma mem_read_cstr m a b n :
  (n <= length (cstr m a b))%nat -> mem_read m a n = take n (cstr m a b).
Proof.
  revert a n; induction b as [|b IH]; intros a n; simpl.
  - intros; destruct n; [done|lia].
  - case_if; simpl; intros Hn; destruct n as [|n]; try done; [lia|].
    simpl. f_equal. apply IH. lia.
Qed.

Lemma find_nul_some m a n j :
  find_nul (mem_read m a n) = Some j ->
  0 <= j < Z.of_nat n /\ forall b, (j < Z.of_nat b) -> cstr_len m a b = j.
Proof.
  revert a j; induction n as [|n IH]; intros a j; simpl; [done|].
  case_if; intros H.
  - simplify_eq. split; [lia|]. intros [|b] Hb; [lia|]. simpl. by rewrite Heqb.
  - destruct (find_nul (mem_read m (a + 1) n)) as [j'|] eqn:E; [|done].
    simplify_eq. destruct (IH _ _ E) as [Hj Hc]. split; [lia|].
    intros [|b] Hb; [lia|]. simpl. rewrite Heqb, Hc by lia. lia.
Qed.

Lemma find_nul_none m a n :
  find_nul (mem_read m a n) = None ->
  forall b, cstr_len m a (n + b) = Z.of_nat n + cstr_len m (a + Z.of_nat n) b.
Proof.
  revert a; induction n as [|n IH]; intros a; simpl.
  - intros _ b. simpl. rewrite Z.add_0_r. done.
  - case_if; [done|]. destruct (find_nul _) eqn:E; [done|]. intros _ b.
    rewrite (IH _ E). replace (a + 1 + Z.of_nat n) with (a + Z.of_nat (S n)) by lia. lia.
Qed.

Lemma mem_write_write_read m a p q x :
  mem_write (mem_write m a p) (a + Z.of_nat (length p)) q x = mem_write m a (p ++ q) x.
Proof.
  destruct (decide (x < a \/ a + Z.of_nat (length (p ++ q)) <= x)) as [Ho|Hi];
    rewrite length_app in *.
  - rewrite !mem_write_out; auto; rewrite ?length_app; lia.
  - rewrite (mem_write_in _ a (p ++ q)) by (rewrite length_app; lia).
    destruct (decide (x < a + Z.of_nat (length p))).
    + rewrite mem_write_out, mem_write_in by lia. rewrite app_nth1 by lia. done.
    + rewrite mem_write_in by lia. rewrite app_nth2 by lia. f_equal. lia.
Qed.

(** A prefix of a read is a shorter read. *)
Lemma mem_read_take m x n l :
  (n <= l)%nat -> take n (mem_read m x l) = mem_read m x n.
Proof.
  intros Hn. replace l with (n + (l - n))%nat by lia.
  rewrite mem_read_app, take_app_length'; [done|by rewrite length_mem_read].
Qed.

(** The copy loop: a non-negative result is the length of the user string with
    its terminator, which is what was written; nothing else is touched. *)
Lemma strncpy_loop_spec k user `{!KernelOK k user} fuel : forall m to from n sl bs m' r,
  0 <= n -> 1 <= bs -> (Z.to_nat n < fuel)%nat -> 0 <= sl ->
  strncpy_loop fuel k m to from n sl bs = (m', r) ->
  (forall x, x < to \/ to + n <= x -> m' x = m x) /\
  (r = -1 \/
   let l := cstr_len user from (Z.to_nat n) in
   r = sl + l + 1 /\ l < n /\
   mem_read m' to (Z.to_nat (l + 1)) = mem_read user from (Z.to_nat (l + 1))).
Proof.
  induction fuel as [|fuel IH]; intros m to from n sl bs m' r Hn Hbs Hf Hsl; [lia|].
  simpl. case_if; [intros; simplify_eq; auto|].
  set (btr := if n <? bs then n else bs).
  assert (Hb : 1 <= btr <= n) by (unfold btr; case_if; lia).
  case_if; [intros; simplify_eq; auto|].
  pose proof (copy_len from btr ltac:(lia)) as Hl.
  pose proof (copy_content (k:=k) (user:=user) from btr) as Hc.
  set (got := copy_inatomic k from btr) in *. clearbody got. clearbody btr.
  assert (Hfr : forall x, x < to \/ to + n <= x -> mem_write m to got x = m x)
    by (intros; apply mem_write_out; lia).
  case_if; [intros; simplify_eq; auto|].
  assert (Hlen : Z.of_nat (length got) = btr) by lia.
  destruct (find_nul got) as [j|] eqn:Ej; intros H.
  - simplify_eq. split; [done|]. right. rewrite Hc in Ej.
    destruct (find_nul_some _ _ _ _ Ej) as [Hj Hcs]. rewrite Hcs by lia.
    split; [done|]. split; [lia|].
    rewrite <- !(mem_read_take _ _ (Z.to_nat (j + 1)) (length got)) by lia.
    by rewrite mem_read_write_same, <- Hc.
  - destruct (decide (n = btr)) as [->|Hne].
    { destruct fuel as [|fuel]; [lia|].
      simpl in H. replace (btr - btr) with 0 in H by lia. simpl in H. simplify_eq. auto. }
    apply IH in H; [|lia|lia|lia|lia]. destruct H as [Hfr' Hr]. split.
    + intros x Hx. rewrite Hfr', Hfr by lia. done.
    + destruct Hr as [?|Hr]; [by left|right]. cbv zeta in Hr |- *.
      rewrite Hc in Ej.
      pose proof (find_nul_none _ _ _ Ej (Z.to_nat (n - btr))) as Hs.
      replace (length got + Z.to_nat (n - btr))%nat with (Z.to_nat n) in Hs by lia.
      rewrite Hlen in Hs. rewrite Hs.
      destruct Hr as (-> & Hlt & Hrd).
      pose proof (cstr_len_range user (from + btr) (Z.to_nat (n - btr))) as Hr.
      split; [lia|]. split; [lia|].
      set (l' := cstr_len user (from + btr) (Z.to_nat (n - btr))) in *.
      replace (Z.to_nat (btr + l' + 1)) with (length got + Z.to_nat (l' + 1))%nat by lia.
      rewrite !mem_read_app, Hlen, Hrd. f_equal.
      transitivity got; [|done]. transitivity (mem_read (mem_write m to got) to (length got)).
      * apply mem_read_ext. intros x Hx. apply Hfr'. lia.
      * apply mem_read_write_same.
Qed.

Lemma byte_zero b : Z_of_byte b = 0 -> b = x00.
Proof. intros H. rewrite <- (byte_of_Z_of_byte b), H. done. Qed.

(** A string shorter than the bound is followed by its terminator. *)
Lemma mem_read_cstr_nul m a b :
  cstr_len m a b < Z.of_nat b ->
  mem_read m a (S (length (cstr m a b))) = cstr m a b ++ [x00].
Proof.
  revert a; induction b as [|b IH]; intros a H; [simpl in H; lia|].
  simpl in *. destruct (Z_of_byte (m a) =? 0) eqn:E; simpl.
  - f_equal. apply byte_zero. lia.
  - f_equal. apply IH. lia.
Qed.

Lemma ppm_strncpy_from_user_spec k user `{!KernelOK k user} m to from n m' r :
  0 <= n -> ppm_strncpy_from_user k m to from n = (m', r) ->
  (forall x, x < to \/ to + n <= x -> m' x = m x) /\
  (r = -1 \/
   r = Z.of_nat (length (cut_string n (cstr user from (Z.to_nat n)))) /\ 1 <= r <= n /\
   mem_read m' to (Z.to_nat r) = cut_string n (cstr user from (Z.to_nat n))).
Proof.
  intros Hn H. unfold ppm_strncpy_from_user in H.
  apply (strncpy_loop_spec k user) in H; [|lia..]. destruct H as [Hfr Hr].
  split; [done|]. destruct Hr as [?|(-> & Hlt & Hrd)]; [by left|right].
  pose proof (cstr_len_range user from (Z.to_nat n)) as Hr.
  rewrite <- length_cstr in *. set (cs := cstr user from (Z.to_nat n)) in *.
  assert (Hcut : cut_string n cs = cs ++ [x00]).
  { unfold cut_string. case_if; [lia|]. rewrite take_ge by lia. done. }
  rewrite Hcut, length_Z_app. simpl. split; [lia|]. split; [lia|].
  replace (Z.to_nat (0 + Z.of_nat (length cs) + 1)) with (S (length cs)) by lia.
  replace (Z.to_nat (Z.of_nat (length cs) + 1)) with (S (length cs)) in Hrd by lia.
  rewrite Hrd. apply mem_read_cstr_nul. rewrite <- length_cstr. fold cs. lia.
Qed.

Lemma strlcpy_spec m to src from n m' ret :
  0 <= n -> strlcpy m to src from n = (m', ret) ->
  let enc := cut_string n (cstr src from (Z.to_nat n)) in
  (forall x, x < to \/ to + n <= x -> m' x = m x) /\
  (if n <? ret + 1 then n else ret + 1) = Z.of_nat (length enc) /\
  Z.of_nat (length enc) <= n /\
  mem_read m' to (length enc) = enc.
Proof.
  intros Hn H enc. unfold strlcpy in H.
  pose proof (cstr_len_range src from (Z.to_nat n)) as Hr.
  rewrite <- length_cstr in *. unfold enc, cut_string in *.
  set (cs := cstr src from (Z.to_nat n)) in *.
  case_in H; simplify_eq.
  { replace (n <=? 0) with true by lia. simpl. repeat split; try done. case_if; lia. }
  replace (n <=? 0) with false by lia.
  assert (Hl : mem_read src from (Z.to_nat (if n <=? Z.of_nat (length cs) then n - 1
             else Z.of_nat (length cs))) = take (Z.to_nat (n - 1)) cs).
  { unfold cs at 2. destruct (Z.leb_spec n (Z.of_nat (length cs))).
    - by apply mem_read_cstr; unfold cs in *; lia.
    - rewrite (mem_read_cstr _ _ (Z.to_nat n)) by (unfold cs in *; lia). fold cs.
      rewrite !take_ge; unfold cs in *; try lia. done. }
  rewrite Hl. split; [|split; [|split]].
  - intros x Hx. apply mem_write_out. rewrite length_app, length_take. simpl. lia.
  - rewrite length_app, length_take. simpl. case_if; lia.
  - rewrite length_app, length_take. simpl. lia.
  - apply mem_read_write_same.
Qed.

Lemma ppm_copy_spec k user `{!KernelOK k user} m to from n m' notread :
  0 <= n -> ppm_copy_from_user k m to from n = (m', notread) ->
  (forall x, x < to \/ to + n <= x -> m' x = m x) /\
  (notread = 0 -> mem_read m' to (Z.to_nat n) = mem_read user from (Z.to_nat n)).
Proof.
  intros Hn H. unfold ppm_copy_from_user in H.
  pose proof (copy_len from n Hn) as Hl.
  pose proof (copy_content (k:=k) (user:=user) from n) as Hc.
  case_in H; simplify_eq.
  - split; [intros; apply mem_write_out; lia|]. intros H0.
    replace (Z.to_nat n) with (length (copy_inatomic k from n)) by lia.
    rewrite mem_read_write_same. done.
  - split; [done|]. intros ->. done.
Qed.

(** ** Numeric bounds of the snaplen. *)

Lemma compute_snaplen_nonneg k a m buf look :
  0 <= snaplen (consumer a) -> 0 <= compute_snaplen k a m buf look.
Proof.
  intros H.
  assert (Hh : forall sp dp, 0 <= snaplen_heuristics (consumer a) m buf look sp dp).
  { intros sp dp. unfold snaplen_heuristics, RW_MAX_FULLCAPTURE_PORT_SNAPLEN.
    assert (0 <= (if 2000 <? snaplen (consumer a) then snaplen (consumer a) else 2000))
      by (case_if; lia).
    repeat (match goal with |- context [if ?b then _ else _] => destruct b end; try lia). }
  unfold compute_snaplen, RW_SNAPLEN_EVENT.
  repeat (match goal with |- context [if ?b then _ else _] => destruct b
            | |- context [match ?b with _ => _ end] => destruct b end; try lia; try apply Hh).
Qed.

(** The snaplen depends on the looked-at bytes only. *)
Lemma compute_snaplen_ext k a m1 m2 b1 b2 look :
  (forall i, 0 <= i < look -> m1 (b1 + i) = m2 (b2 + i)) ->
  compute_snaplen k a m1 b1 look = compute_snaplen k a m2 b2 look.
Proof.
  intros H.
  assert (Hrd : forall o n, 0 <= o -> o + Z.of_nat n <= look ->
            mem_read m1 (b1 + o) n = mem_read m2 (b2 + o) n).
  { intros o n. revert o. induction n as [|n IH]; intros o Ho Hn; [done|]. simpl.
    rewrite H by lia. f_equal. rewrite <- !Z.add_assoc. apply IH; lia. }
  assert (Hh : forall sp dp, snaplen_heuristics (consumer a) m1 b1 look sp dp
                             = snaplen_heuristics (consumer a) m2 b2 look sp dp).
  { intros sp dp. unfold snaplen_heuristics, ld32.
    replace (mem_read m1 b1) with (mem_read m1 (b1 + 0)) by (f_equal; lia).
    replace (mem_read m2 b2) with (mem_read m2 (b2 + 0)) by (f_equal; lia).
    destruct (Z.leb_spec 16 look); [rewrite !Hrd, !H by lia; done|].
    destruct (Z.leb_spec 7 look); [rewrite (Hrd 0 4%nat), !H by lia; done|].
    destruct (Z.leb_spec 5 look); [rewrite (Hrd 0 4%nat), !H by lia; done|].
    destruct (Z.leb_spec 2 look); [rewrite !H by lia; done|]. done. }
  unfold compute_snaplen.
  repeat (match goal with |- context [if ?b then _ else _] => destruct b
            | |- context [match ?b with _ => _ end] => destruct b end; try done; try apply Hh).
Qed.

(** ** The type switch refines the encoding. *)

Definition put_ok (rm m' : mem) (at_ max : Z) (enc : list byte) (r : put_result) : Prop :=
  (forall x, x < at_ \/ at_ + max < x -> m' x = rm x) /\
  match r with
  | Put len => len = Z.of_nat (length enc) /\ len <= max /\
               mem_read m' at_ (length enc) = enc
  | PutErr e => e = PPM_FAILURE_BUFFER_FULL \/ e = PPM_FAILURE_INVALID_USER_MEMORY
  end.

Lemma read_after_nul m at_ (p : list byte) :
  mem_read m at_ (length p) = p ->
  mem_read (mem_write m (at_ + Z.of_nat (length p)) [x00]) at_ (length p) = p.
Proof. intros H. by rewrite mem_read_write_out by lia. Qed.

Lemma put_string_ok k user `{!KernelOK k user} a rm km at_ max val val_len fu m' r t :
  t = PT_CHARBUF \/ t = PT_FSPATH \/ t = PT_FSRELPATH ->
  0 <= max -> put_string k rm km at_ max val fu = (m', r) ->
  put_ok rm m' at_ max (param_encoding k user a km t max val val_len fu) r.
Proof.
  intros Ht Hm H. unfold put_string in H.
  assert (Henc : param_encoding k user a km t max val val_len fu =
    if val =? 0 then cut_string max (bytes_of_string "(NULL)"%string)
    else cut_string max (cstr (if fu then user else km) val (Z.to_nat max)))
    by (destruct Ht as [->|[->| ->]]; done).
  rewrite Henc. destruct (val =? 0); simpl in H; [|destruct fu].
  - destruct (strlcpy _ _ _ _ _) as [m ret] eqn:E. simplify_eq.
    apply strlcpy_spec in E as (Hfr & Hlen & Hle & Hrd); [|done].
    assert (Hs : cut_string max (cstr null_literal 0 (Z.to_nat max))
                 = cut_string max (bytes_of_string "(NULL)"%string)).
    { unfold cut_string. case_if; [done|]. f_equal.
      destruct (Z.to_nat max) as [|[|[|[|[|[|[|n]]]]]]] eqn:En; try lia;
        replace (Z.to_nat (max - 1)) with (Z.to_nat max - 1)%nat by lia; rewrite En; reflexivity. }
    rewrite Hs in *. split; [intros; apply Hfr; lia|]. rewrite Hlen. auto.
  - destruct (ppm_strncpy_from_user _ _ _ _ _) as [m len] eqn:E.
    apply (ppm_strncpy_from_user_spec k user) in E as [Hfr Hr]; [|done].
    case_in H; simplify_eq.
    + split; [intros; apply Hfr; lia|auto].
    + destruct Hr as [?|(Hlen & Hle & Hrd)]; [lia|].
      set (enc := cut_string _ _) in *. split.
      * intros x Hx. rewrite mem_write_out by (simpl; lia). apply Hfr. lia.
      * rewrite Hlen. split; [done|]. split; [lia|]. apply read_after_nul.
        rewrite <- Hrd at 2. f_equal. lia.
  - destruct (strlcpy _ _ _ _ _) as [m ret] eqn:E. simplify_eq.
    apply strlcpy_spec in E as (Hfr & Hlen & Hle & Hrd); [|done].
    set (enc := cut_string _ _) in *. rewrite Hlen in *. split.
    + intros x Hx. rewrite mem_write_out by (simpl; lia). apply Hfr. lia.
    + split; [done|]. split; [done|]. by apply read_after_nul.
Qed.

Lemma put_read_ok rm m' at_ max (src : mem) val n :
  0 <= n <= max -> (forall x, x < at_ \/ at_ + max < x -> m' x = rm x) ->
  mem_read m' at_ (Z.to_nat n) = mem_read src val (Z.to_nat n) ->
  put_ok rm m' at_ max (mem_read src val (Z.to_nat n)) (Put n).
Proof.
  intros Hn Hfr Hrd. split; [done|]. rewrite length_mem_read.
  split; [lia|]. split; [lia|done].
Qed.

Lemma put_memcpy_ok rm at_ max (km : mem) val n :
  0 <= n <= max ->
  put_ok rm (mem_write rm at_ (mem_read km val (Z.to_nat n))) at_ max
    (mem_read km val (Z.to_nat n)) (Put n).
Proof.
  intros Hn. apply put_read_ok; [done| |].
  - intros x Hx. apply mem_write_out. rewrite length_mem_read. lia.
  - rewrite <- (length_mem_read km val (Z.to_nat n)) at 2. apply mem_read_write_same.
Qed.

Lemma put_nil_ok rm at_ max : 0 <= max -> put_ok rm rm at_ max [] (Put 0).
Proof. intros Hm. split; [done|]. simpl. auto with lia. Qed.

Lemma put_block_ok k user `{!KernelOK k user} a rm km at_ max val val_len fu m' r t :
  t = PT_SOCKADDR \/ t = PT_SOCKTUPLE \/ t = PT_FDLIST ->
  0 <= max -> 0 <= val_len ->
  put_block k rm km at_ max val val_len fu = (m', r) ->
  put_ok rm m' at_ max (param_encoding k user a km t max val val_len fu) r.
Proof.
  intros Ht Hm Hv H. unfold put_block in H.
  assert (Henc : param_encoding k user a km t max val val_len fu =
    if val =? 0 then [] else mem_read (if fu then user else km) val (Z.to_nat val_len))
    by (destruct Ht as [->|[->| ->]]; done).
  rewrite Henc. destruct (val =? 0); [simplify_eq; by apply put_nil_ok|].
  case_in H; [simplify_eq; split; auto|]. destruct fu.
  - destruct (ppm_copy_from_user _ _ _ _ _) as [m nr] eqn:E.
    apply (ppm_copy_spec k user) in E as [Hfr Hrd]; [|done].
    case_in H; simplify_eq; [split; [intros; apply Hfr; lia|auto]|].
    apply put_read_ok; [lia|intros; apply Hfr; lia|]. apply Hrd. lia.
  - simplify_eq. apply put_memcpy_ok. lia.
Qed.

(** Two adjacent copies read as one. *)
Lemma read_two_copies (m : mem) at_ (user : mem) val look n :
  0 <= look <= n ->
  mem_read m at_ (Z.to_nat look) = mem_read user val (Z.to_nat look) ->
  mem_read m (at_ + look) (Z.to_nat (n - look))
    = mem_read user (val + look) (Z.to_nat (n - look)) ->
  mem_read m at_ (Z.to_nat n) = mem_read user val (Z.to_nat n).
Proof.
  intros Hl H1 H2. replace (Z.to_nat n) with (Z.to_nat look + Z.to_nat (n - look))%nat by lia.
  rewrite !mem_read_app, H1, Z2Nat.id, H2 by lia. done.
Qed.

Lemma mem_read_shorter (m : mem) at_ (user : mem) val look n :
  0 <= n <= look ->
  mem_read m at_ (Z.to_nat look) = mem_read user val (Z.to_nat look) ->
  mem_read m at_ (Z.to_nat n) = mem_read user val (Z.to_nat n).
Proof.
  intros Hl. replace (Z.to_nat look) with (Z.to_nat n + Z.to_nat (look - n))%nat by lia.
  rewrite !mem_read_app. intros H. apply app_inj_1 in H as [H _]; [done|].
  by rewrite !length_mem_read.
Qed.

Lemma mem_read_pointwise (m : mem) at_ (user : mem) val look i :
  0 <= i < look ->
  mem_read m at_ (Z.to_nat look) = mem_read user val (Z.to_nat look) ->
  m (at_ + i) = user (val + i).
Proof.
  intros Hi H. pose proof (f_equal (fun l => nth (Z.to_nat i) l x00) H) as Hn.
  cbv beta in Hn. rewrite !mem_read_nth in Hn by lia. rewrite Z2Nat.id in Hn by lia. done.
Qed.

(** The part of a user buffer after the lookahead. *)
Lemma put_rest_ok k user `{!KernelOK k user} rm m1 at_ max val look n m' r :
  0 <= look < max -> 0 <= n <= max ->
  (forall x, x < at_ \/ at_ + look <= x -> m1 x = rm x) ->
  mem_read m1 at_ (Z.to_nat look) = mem_read user val (Z.to_nat look) ->
  (if look <? n then
     let '(m2, notread) := ppm_copy_from_user k m1 (at_ + look) (val + look) (n - look) in
     if negb (notread =? 0) then (m2, PutErr PPM_FAILURE_INVALID_USER_MEMORY)
     else (m2, Put n)
   else (m1, Put n)) = (m', r) ->
  put_ok rm m' at_ max (mem_read user val (Z.to_nat n)) r.
Proof.
  intros Hl Hn Hfr1 Hrd1 H. case_in H.
  - destruct (ppm_copy_from_user _ m1 _ _ _) as [m2 nr2] eqn:E2.
    apply (ppm_copy_spec k user) in E2 as [Hfr2 Hrd2]; [|lia].
    assert (Hfr : forall x, x < at_ \/ at_ + max < x -> m2 x = rm x)
      by (intros; rewrite Hfr2, Hfr1 by lia; done).
    case_in H; simplify_eq; [split; auto|].
    apply put_read_ok; [lia|done|]. apply (read_two_copies _ _ _ _ look); [lia| |apply Hrd2; lia].
    rewrite <- Hrd1. apply mem_read_ext. intros; apply Hfr2. lia.
  - simplify_eq. apply put_read_ok; [lia|intros; apply Hfr1; lia|].
    apply (mem_read_shorter _ _ _ _ look); [lia|done].
Qed.

Lemma put_bytebuf_ok k user `{!KernelOK k user} a rm km at_ max val val_len fu m' r :
  0 <= snaplen (consumer a) -> 0 <= max -> 0 <= val_len ->
  put_bytebuf k a rm km at_ max val val_len fu = (m', r) ->
  put_ok rm m' at_ max (param_encoding k user a km PT_BYTEBUF max val val_len fu) r.
Proof.
  intros Hsn Hm Hv H. unfold put_bytebuf in H. simpl.
  destruct (val =? 0); [simplify_eq; by apply put_nil_ok|].
  unfold captured_len.
  assert (Hlk : (if val_len <? DPI_LOOKAHEAD_SIZE then val_len else DPI_LOOKAHEAD_SIZE)
                = Z.min val_len DPI_LOOKAHEAD_SIZE) by (case_if; lia).
  rewrite Hlk in H.
  destruct fu.
  - set (look := Z.min val_len DPI_LOOKAHEAD_SIZE) in *.
    assert (Hlook : 0 <= look <= val_len) by (unfold look, DPI_LOOKAHEAD_SIZE; lia).
    clear Hlk. clearbody look. case_in H; [simplify_eq; split; auto|].
    destruct (ppm_copy_from_user _ _ _ _ _) as [m1 nr] eqn:E.
    apply (ppm_copy_spec k user) in E as [Hfr1 Hrd1]; [|lia].
    case_in H; [simplify_eq; split; [intros; apply Hfr1; lia|auto]|].
    assert (nr = 0) as -> by lia. specialize (Hrd1 eq_refl).
    destruct (look =? val_len) eqn:El.
    { simplify_eq. assert (look = val_len) as -> by lia.
      apply put_read_ok; [lia|intros; apply Hfr1; lia|done]. }
    rewrite (compute_snaplen_ext k a m1 user at_ val look) in H
      by (intros; by apply (mem_read_pointwise _ _ _ _ look)).
    pose proof (compute_snaplen_nonneg k a user val look Hsn) as Hs.
    set (sl := compute_snaplen k a user val look) in *. clearbody sl.
    cbv zeta in H. rewrite if_ltb_min, if_leb_min in H.
    eapply put_rest_ok; [done|..|exact H]; [lia| |done|done]. case_if; lia.
  - pose proof (compute_snaplen_nonneg k a km val val_len Hsn) as Hs.
    set (sl := compute_snaplen k a km val val_len) in *. clearbody sl.
    rewrite if_ltb_min in H.
    assert (0 <= if enforce_snaplen a then Z.min val_len sl else val_len) by (case_if; lia).
    set (n := if enforce_snaplen a then _ else _) in *. clearbody n.
    case_in H; simplify_eq; [split; auto|]. apply put_memcpy_ok. lia.
Qed.

(** Types the switch handles. *)
Definition encodable (t : ppm_param_type) : bool :=
  match t with
  | PT_CHARBUF | PT_FSPATH | PT_FSRELPATH | PT_BYTEBUF
  | PT_SOCKADDR | PT_SOCKTUPLE | PT_FDLIST => true
  | _ => match scalar_width t with Some _ => true | None => false end
  end.

Lemma put_scalar_ok rm at_ max val w m' r :
  0 <= max ->
  (if Z.of_nat w <=? max then (mem_write rm at_ (le_bytes w val), Put (Z.of_nat w))
   else (rm, PutErr PPM_FAILURE_BUFFER_FULL)) = (m', r) ->
  put_ok rm m' at_ max (le_bytes w val) r.
Proof.
  intros Hm H. case_in H; simplify_eq; [|split; auto]. split.
  - intros x Hx. apply mem_write_out. rewrite length_le_bytes. lia.
  - rewrite length_le_bytes. repeat split; [lia|]. by rewrite mem_read_write_le.
Qed.

Lemma put_value_ok k user `{!KernelOK k user} a rm km t at_ max val val_len fu m' r :
  0 <= snaplen (consumer a) -> 0 <= max -> 0 <= val_len ->
  put_value k a rm km t at_ max val val_len fu = (m', r) ->
  put_ok rm m' at_ max (param_encoding k user a km t max val val_len fu) r \/
  (encodable t = false /\ m' = rm /\ r = PutErr PPM_FAILURE_BUG).
Proof.
  intros Hsn Hm Hv H.
  destruct t; cbn [put_value scalar_width] in H;
    try (right; simplify_eq; done); left;
    try (eapply put_scalar_ok; [done|exact H]);
    try (eapply put_string_ok; [done| |done|exact H]; auto);
    try (eapply put_block_ok; [done| |done|done|exact H]; auto).
  eapply put_bytebuf_ok; eauto.
Qed.

(** ** A successful write appends one parameter. *)

Definition arg_room (a : event_filler_arguments) : Z :=
  Z.min (arg_data_size a) PPM_MAX_ARG_SIZE.

(** The bytes recorded for one parameter: the dynamic index, if the parameter
    has one, and the value. *)
Definition val_encoding (k : kenv) (user : mem) (s : fstate) (val val_len : Z)
    (fromuser : bool) (dyn_idx : Z) : list byte :=
  let val_len := u32 val_len in
  let dyn_idx := u8 dyn_idx in
  let a := args s in
  match param_alternative (event_param (event_type a) (curarg a)) dyn_idx with
  | Some (true, t) =>
      le_bytes 1 dyn_idx ++
      param_encoding k user a (kmem s) t (arg_room a - 1) val val_len fromuser
  | Some (false, t) => param_encoding k user a (kmem s) t (arg_room a) val val_len fromuser
  | None => []
  end.

Lemma lens_app ps qs : lens (ps ++ qs) = lens ps ++ lens qs.
Proof. apply map_app. Qed.

Lemma length_concat_lens ps : Z.of_nat (length (concat ps)) = zsum (lens ps).
Proof.
  induction ps as [|p ps IH]; [done|]. simpl. rewrite length_Z_app, IH.
  unfold zsum; simpl. done.
Qed.

Lemma zsum_lens_nonneg ps : 0 <= zsum (lens ps).
Proof. rewrite <- length_concat_lens. lia. Qed.

Lemma filled_push s ps p rm' km' :
  filled s ps -> curarg (args s) < nargs (args s) ->
  Z.of_nat (length p) <= arg_data_size (args s) ->
  (forall x, x < buffer (args s) + arg_data_offset (args s) ->
     x < psize_addr (args s) \/ psize_addr (args s) + 2 <= x -> rm' x = rmem s x) ->
  ld16 rm' (psize_addr (args s)) = Z.of_nat (length p) ->
  mem_read rm' (buffer (args s) + arg_data_offset (args s)) (length p) = p ->
  let a := args s in
  filled (mk_fstate (set_cursor a (curarg a + 1) (arg_data_offset a + Z.of_nat (length p))
                       (arg_data_size a - Z.of_nat (length p))) rm' km') (ps ++ [p]).
Proof.
  intros F Hlt Hp Hfr Hsz Hrd. cbv zeta. unfold psize_addr in *.
  destruct F as [Fc Fn Fm Fo Fs Fr Fsn Fu Fl Fd].
  assert (Hz : zsum (lens (ps ++ [p])) = zsum (lens ps) + Z.of_nat (length p))
    by (rewrite lens_app; apply zsum_snoc).
  pose proof (zsum_lens_nonneg ps) as Hnn.
  split; cbn [args rmem curarg nargs arg_data_offset arg_data_size buffer_size buffer
              consumer set_cursor]; try lia.
  - rewrite length_app. simpl. lia.
  - intros i q Hq. destruct (decide (i < length ps)%nat) as [Hi|Hi].
    + rewrite nth_error_app1 in Hq by done. rewrite <- (Fl i q Hq).
      unfold ld16. f_equal. apply mem_read_ext. intros x Hx. apply Hfr; lia.
    + assert (i = length ps) as ->.
      { assert (i < length (ps ++ [p]))%nat by (apply nth_error_Some; congruence).
        rewrite length_app in *. simpl in *. lia. }
      rewrite nth_error_app2, Nat.sub_diag in Hq by lia. simpl in Hq. simplify_eq.
      rewrite <- Hsz. f_equal. lia.
  - rewrite concat_app. cbn [concat]. rewrite app_nil_r, length_app, mem_read_app.
    rewrite length_concat_lens. f_equal.
    + rewrite <- Fd at 2. apply mem_read_ext. intros x Hx.
      rewrite length_concat_lens in Hx. apply Hfr; lia.
    + rewrite <- Hrd at 2. f_equal. lia.
Qed.

(** What a call did, by its result. *)
Definition vtr_result (k : kenv) (user : mem) (s s' : fstate) (ps : list (list byte))
    (p : list byte) (dyn_idx r : Z) : Prop :=
  (r = PPM_SUCCESS /\ filled s' (ps ++ [p])) \/
  r = PPM_FAILURE_BUFFER_FULL \/ r = PPM_FAILURE_INVALID_USER_MEMORY \/
  (r = PPM_FAILURE_BUG /\
   (nargs (args s) <= curarg (args s) \/
    match param_alternative (event_param (event_type (args s)) (curarg (args s))) (u8 dyn_idx) with
    | Some (_, t) => encodable t = false
    | None => True
    end)).

(** The memory just before the switch: the index byte, if any, and the length
    slot holding what was written so far. *)
Definition vtr_prefix (a : event_filler_arguments) (rm : mem) (dyn : bool) (dyn_idx : Z) : mem :=
  if dyn
  then mem_write (mem_write rm (buffer a + arg_data_offset a) (le_bytes 1 dyn_idx))
         (psize_addr a) (le16 1)
  else mem_write rm (psize_addr a) (le16 0).

Lemma vtr_prefix_spec a rm (dyn : bool) dyn_idx :
  let d : Z := if dyn then 1 else 0 in
  let m := vtr_prefix a rm dyn dyn_idx in
  psize_addr a + 2 <= buffer a + arg_data_offset a ->
  (forall x, (x < buffer a + arg_data_offset a \/ buffer a + arg_data_offset a + d <= x) ->
     (x < psize_addr a \/ psize_addr a + 2 <= x) -> m x = rm x) /\
  ld16 m (psize_addr a) = d /\
  mem_read m (buffer a + arg_data_offset a) (Z.to_nat d)
    = (if dyn then le_bytes 1 dyn_idx else []).
Proof.
  intros d m Hp. unfold m, d, vtr_prefix. destruct dyn.
  - split; [|split].
    + intros x Hx Hy. rewrite !mem_write_out; [done| |];
        unfold le16; rewrite !length_le_bytes; simpl; lia.
    + apply ld16_write_same.
    + rewrite mem_read_write_out by (unfold le16; rewrite !length_le_bytes; simpl; lia).
      by apply mem_read_write_le.
  - split; [|split; [apply ld16_write_same|done]].
    intros x Hx Hy. rewrite mem_write_out; [done|]. unfold le16. rewrite length_le_bytes. lia.
Qed.

(** The bytes of a parameter: its dynamic index, if it has one, then its value. *)
Definition param_bytes (dyn : bool) (dyn_idx : Z) (enc : list byte) : list byte :=
  (if dyn then le_bytes 1 dyn_idx else []) ++ enc.

Lemma length_param_bytes (dyn : bool) dyn_idx enc :
  Z.of_nat (length (param_bytes dyn dyn_idx enc))
  = (if dyn then 1 else 0) + Z.of_nat (length enc).
Proof.
  unfold param_bytes. rewrite length_Z_app.
  destruct dyn; [rewrite length_le_bytes|simpl]; lia.
Qed.

(** Storing the value after the prefix and rewriting the size entry records one
    more parameter. *)
Lemma filled_commit s ps (dyn : bool) di rm' enc :
  let a := args s in
  let d : Z := if dyn then 1 else 0 in
  let p := param_bytes dyn di enc in
  filled s ps -> curarg a < nargs a ->
  d + Z.of_nat (length enc) <= arg_room a ->
  (forall x, x < buffer a + (arg_data_offset a + d) -> rm' x = vtr_prefix a (rmem s) dyn di x) ->
  mem_read rm' (buffer a + (arg_data_offset a + d)) (length enc) = enc ->
  ld16 rm' (psize_addr a) = d /\
  filled (mk_fstate (set_cursor a (curarg a + 1) (arg_data_offset a + Z.of_nat (length p))
            (arg_data_size a - Z.of_nat (length p)))
          (mem_write rm' (psize_addr a) (le16 (d + u16 (Z.of_nat (length enc)))))
          (kmem s)) (ps ++ [p]).
Proof.
  intros a d p F Hlt Hroom Hfr Hrd.
  pose proof (filled_nargs _ _ F) as Hna. pose proof (filled_offset _ _ F) as Hoff.
  pose proof (zsum_lens_nonneg ps) as Hz. fold a in Hna, Hoff.
  pose proof (length_param_bytes dyn di enc) as Hp. fold p d in Hp.
  assert (Hd : 0 <= d <= 1) by (unfold d; destruct dyn; lia).
  assert (Hps : psize_addr a + 2 <= buffer a + arg_data_offset a) by (unfold psize_addr; lia).
  destruct (vtr_prefix_spec a (rmem s) dyn di Hps) as (Pfr & Psz & Prd).
  fold d in Pfr, Psz, Prd.
  unfold arg_room, PPM_MAX_ARG_SIZE in Hroom. split.
  { rewrite <- Psz. unfold ld16. f_equal. apply mem_read_ext. intros x Hx. apply Hfr. lia. }
  apply filled_push; [done|done|fold a; lia| | |]; fold a.
  - intros x Hx Hy. rewrite mem_write_out by (unfold le16; rewrite length_le_bytes; lia).
    rewrite Hfr by lia. apply Pfr; lia.
  - rewrite ld16_write_same, (u16_small (Z.of_nat _)), u16_small by lia. lia.
  - rewrite mem_read_write_out by (unfold le16; rewrite length_le_bytes; lia).
    unfold p at 1, param_bytes. rewrite length_app, mem_read_app.
    replace (length (if dyn then le_bytes 1 di else [])) with (Z.to_nat d)
      by (unfold d; destruct dyn; done).
    rewrite Z2Nat.id, <- Z.add_assoc, Hrd by lia. unfold p, param_bytes. f_equal.
    rewrite <- Prd. apply mem_read_ext. intros x Hx. apply Hfr. lia.
Qed.

(** [val_to_ring] on a filled state: what it writes, keeps and returns. *)
Lemma val_to_ring_ok k user `{!KernelOK k user} s ps val val_len fu dyn_idx s' r :
  filled s ps ->
  val_to_ring k s val val_len fu dyn_idx = (s', r) ->
  writes_within s s' /\ same_event (args s) (args s') /\ kmem s' = kmem s /\
  vtr_result k user s s' ps (val_encoding k user s val val_len fu dyn_idx) dyn_idx r.
Proof.
  intros F H. unfold val_to_ring in H. unfold vtr_result, val_encoding.
  assert (Hv : 0 <= u32 val_len) by apply u32_range.
  set (vl := u32 val_len) in *. set (di := u8 dyn_idx) in *. clearbody vl di.
  case_in H; [simplify_eq; repeat split; auto 10 with lia|].
  case_in H; [simplify_eq; repeat split; auto|].
  destruct (param_alternative _ _) as [[dyn t]|] eqn:Ealt;
    [|simplify_eq; repeat split; auto 10].
  pose proof (filled_room _ _ F) as Hroom. pose proof (filled_u32 _ _ F) as Hu.
  pose proof (filled_size _ _ F) as Hsize. pose proof (filled_nargs _ _ F) as Hna.
  pose proof (filled_offset _ _ F) as Hoff. pose proof (zsum_lens_nonneg ps) as Hz.
  pose proof (filled_nargs_max _ _ F) as Hnm.
  rewrite (if_ltb_min PPM_MAX_ARG_SIZE) in H. fold (arg_room (args s)) in H.
  assert (Hmax : 1 <= arg_room (args s) <= arg_data_size (args s))
    by (unfold arg_room, PPM_MAX_ARG_SIZE; lia).
  assert (Hmax' : arg_room (args s) <= 65000) by (unfold arg_room, PPM_MAX_ARG_SIZE; lia).
  destruct (vtr_prefix_spec (args s) (rmem s) dyn di) as (Pfr & Psz & Prd);
    [unfold psize_addr; lia|].
  fold (vtr_prefix (args s) (rmem s) dyn di) in H.
  case_in H; [simplify_eq; repeat split; auto|].
  set (d := if dyn then 1 else 0) in *.
  assert (Hd : 0 <= d <= 1) by (unfold d; destruct dyn; lia).
  set (m0 := vtr_prefix _ _ _ _) in *. set (room := arg_room (args s)) in *.
  cbn [arg_data_offset arg_data_size set_cursor] in H.
  rewrite !(u32_small (arg_data_offset (args s) + d)) in H by lia.
  rewrite !(u32_small (arg_data_size (args s) - d)) in H by lia.
  set (a1 := set_cursor (args s) _ _ _) in H.
  destruct (put_value _ _ _ _ _ _ _ _ _ _) as [rm' pr] eqn:Eput.
  assert (Hsn : 0 <= snaplen (consumer a1)) by apply (filled_snaplen _ _ F).
  assert (Hmd : 0 <= room - d) by lia.
  pose proof (put_value_ok k user a1 m0 (kmem s) t _ _ _ _ _ _ _ Hsn Hmd Hv Eput) as Hput.
  assert (Henc : param_encoding k user a1 (kmem s) t (room - d) val vl fu
                 = param_encoding k user (args s) (kmem s) t (room - d) val vl fu)
    by done.
  rewrite Henc in Hput. clear Henc.
  set (enc := param_encoding k user (args s) (kmem s) t (room - d) val vl fu) in *.
  assert (Hw : (forall x, x < buffer (args s) + (arg_data_offset (args s) + d) \/
                  buffer (args s) + (arg_data_offset (args s) + d) + (room - d) < x ->
                  rm' x = m0 x) -> forall x,
     x < buffer (args s) \/ buffer (args s) + buffer_size (args s) < x -> rm' x = rmem s x).
  { intros Hfr x Hx. rewrite Hfr by lia. apply Pfr; unfold psize_addr; lia. }
  destruct Hput as [[Hfr Hres]|(Hne & -> & ->)]; cycle 1.
  { injection H as <- <-. split; [exact (Hw ltac:(done))|]. repeat split; auto 10. }
  destruct pr as [len|e]; injection H as <- <-; cycle 1.
  { split; [exact (Hw Hfr)|]. repeat split. destruct Hres as [-> | ->]; auto. }
  destruct Hres as (-> & Hle & Hrd).
  destruct (filled_commit s ps dyn di rm' enc F) as [Hps Hfinal];
    [lia|fold d room; lia|intros x Hx; apply Hfr; fold d in Hx; lia|exact Hrd|].
  fold d in Hps, Hfinal. rewrite Hps.
  set (p := param_bytes dyn di enc) in *.
  assert (Hp : Z.of_nat (length p) = d + Z.of_nat (length enc)) by apply length_param_bytes.
  assert (Hst : forall c o z m, mk_fstate (set_cursor a1 c o z) m (kmem s)
                = mk_fstate (set_cursor (args s) c o z) m (kmem s)) by done.
  rewrite Hst, (u32_small (curarg _ + 1)), !u32_small by (unfold PPM_MAX_EVENT_PARAMS in *; lia).
  assert (Hp' : (if dyn
                 then le_bytes 1 di ++
                   param_encoding k user (args s) (kmem s) t (room - 1) val vl fu
                 else param_encoding k user (args s) (kmem s) t room val vl fu) = p).
  { unfold p, param_bytes, enc, d. destruct dyn; [done|]. by rewrite Z.sub_0_r. }
  rewrite Hp'. split; [|split; [|split; [done|left; split; [done|]]]].
  - intros x Hx. cbn [rmem]. rewrite mem_write_out; [apply Hw; [exact Hfr|lia]|].
    unfold le16, psize_addr. rewrite length_le_bytes. lia.
  - repeat split.
  - replace (arg_data_offset (args s) + d + Z.of_nat (length enc))
      with (arg_data_offset (args s) + Z.of_nat (length p)) by lia.
    replace (arg_data_size (args s) - d - Z.of_nat (length enc))
      with (arg_data_size (args s) - Z.of_nat (length p)) by lia.
    exact Hfinal.
Qed.

(** ** A concrete kernel: all of user memory is readable. *)

Definition sample_user : mem := mem_write mem_zero 4096 (bytes_of_string "/etc/hosts"%string).

Definition sample_kenv : kenv :=
  {| access_ok := fun _ _ => true;
     copy_inatomic := fun a n => mem_read sample_user a (Z.to_nat n);
     g_tracers_enabled := false;
     fd_rdev := fun _ => None;
     fd_sb_dev := fun _ => None;
     literal_addr := 1;
     sockfd_lookup := fun _ => None;
     uninit := [];
     syscall_args := [4096; 0; 0; 0; 0; 0];
     syscall_retval := 3;
     current_pid := 42;
     max_fds := 1024;
     fd_is_open := fun _ => true;
     stale_spid := 0;
     stale_fd := 0;
     stale_socketcall_args := [0; 0; 0; 0; 0; 0] |}.

#[export] Instance sample_kenv_ok : KernelOK sample_kenv sample_user.
Proof.
  split; intros a n; simpl; rewrite length_mem_read; [lia|done].
Qed.

Definition sample_cfg : consumer_cfg := mk_cfg 80 false 0 0 8125.

(** The argument record of an event of type [t] with [size] bytes of room. *)
Definition sample_state (t size : Z) : fstate :=
  let n := ei_nparams (g_event_info t) in
  mk_fstate
    {| consumer := sample_cfg; buffer := 26; buffer_size := size; syscall_id := 0;
       nevents := 0; curarg := 0; nargs := n; arg_data_offset := n * 2;
       arg_data_size := size - n * 2; event_type := t; str_storage := 65536;
       socketcall_args := []; is_socketcall := false; compat := false; fd := 0;
       enforce_snaplen := false; signo := 0; spid := 0; dpid := 0; sched_prev := 0;
       sched_next := 0; socketcall_syscall := -1; code_routing_table := fun _ => 0 |}
    mem_zero mem_zero.


Lemma sample_filled t size :
  ei_nparams (g_event_info t) * 2 <= size -> size < 2 ^ 31 -> filled (sample_state t size) [].
Proof.
  intros H1 H2. pose proof (ei_nparams_range t).
  split; cbn -[g_event_info]; try done; try lia. intros [|i] p Hp; discriminate.
Qed.

Lemma sample_mkdir_res :
  snd (val_to_ring sample_kenv (sample_state PPME_SYSCALL_MKDIR_E 1000) 4096 0 true 0) = 0.
Proof. vm_compute. reflexivity. Qed.

Lemma sample_mkdir_bytes :
  val_encoding sample_kenv sample_user (sample_state PPME_SYSCALL_MKDIR_E 1000) 4096 0 true 0
  = bytes_of_string "/etc/hosts"%string ++ [x00].
Proof. vm_compute. reflexivity. Qed.


(** ** Parameters that can be written. *)

(** Whatever index is chosen, the parameter has a type [val_to_ring] encodes, or
    the index is refused. *)
Definition param_encodable (p : ppm_param_info) : bool :=
  match pi_type p, pi_info p with
  | PT_DYN, Some (DynParams alts) =>
      (0 <? pi_ninfo p) && (pi_ninfo p =? Z.of_nat (length alts)) && forallb encodable alts
  | t, _ => encodable t
  end.

(** Every event that has a filler declares only parameters that can be written. *)
Definition event_encodable (t : Z) : bool :=
  match g_ppm_events t with
  | Some _ =>
      forallb (fun i => param_encodable (event_param t (Z.of_nat i)))
        (seq 0 (Z.to_nat (ei_nparams (g_event_info t))))
  | None => true
  end.

Lemma event_encodable_all : forallb event_encodable event_types = true.
Proof. vm_compute. reflexivity. Qed.

Lemma param_encodable_alt p i :
  param_encodable p = true -> 0 <= i ->
  match param_alternative p i with
  | Some (_, t) => encodable t = true
  | None => pi_ninfo p <= i
  end.
Proof.
  unfold param_encodable, param_alternative. intros H Hi.
  destruct (pi_type p) eqn:Et, (pi_info p) as [[| |alts]|] eqn:Ei; try done;
    try (destruct (pi_ninfo p <=? i) eqn:El; bool_to_prop; try lia).
  apply (proj1 (forallb_forall _ _) H0). apply nth_In. lia.
Qed.

Lemma event_param_encodable t e i :
  0 <= t < PPM_EVENT_MAX -> g_ppm_events t = Some e -> 0 <= i < ei_nparams (g_event_info t) ->
  param_encodable (event_param t i) = true.
Proof.
  intros Ht He Hi. pose proof (forall_event_types _ event_encodable_all t Ht) as H.
  unfold event_encodable in H. rewrite He in H.
  rewrite forallb_forall in H. specialize (H (Z.to_nat i)).
  rewrite Z2Nat.id in H by lia. apply H. apply in_seq. lia.
Qed.

(** A parameter of an event that has a filler is never refused as a bug:
    when the argument record still expects it and the dynamic index, if the
    parameter has one, is among its alternatives, [val_to_ring] succeeds, finds
    the buffer full or finds user memory unreadable. *)
Theorem val_to_ring_no_bug (k : kenv) (user : mem) (s s' : fstate) (ps : list (list byte))
    (e : ppm_event_entry) (val val_len : Z) (fromuser : bool) (dyn_idx r : Z) :
  KernelOK k user -> filled s ps ->
  0 <= event_type (args s) < PPM_EVENT_MAX -> g_ppm_events (event_type (args s)) = Some e ->
  nargs (args s) = ei_nparams (g_event_info (event_type (args s))) ->
  curarg (args s) < nargs (args s) ->
  (pi_type (event_param (event_type (args s)) (curarg (args s))) = PT_DYN ->
   0 <= dyn_idx < 256 /\
   dyn_idx < pi_ninfo (event_param (event_type (args s)) (curarg (args s)))) ->
  val_to_ring k s val val_len fromuser dyn_idx = (s', r) ->
  r = PPM_SUCCESS \/ r = PPM_FAILURE_BUFFER_FULL \/ r = PPM_FAILURE_INVALID_USER_MEMORY.
Proof.
  intros HK F Ht He Hn Hlt Hdyn H.
  destruct (val_to_ring_ok k user _ _ _ _ _ _ _ _ F H) as (_ & _ & _ & Hr).
  destruct Hr as [[-> _]|[->|[->|[_ [Hbad|Hbad]]]]]; auto; [lia|].
  pose proof (filled_nargs _ _ F) as Hc.
  pose proof (event_param_encodable _ e (curarg (args s)) Ht He ltac:(lia)) as Hp.
  pose proof (param_encodable_alt _ (u8 dyn_idx) Hp (proj1 (u8_range _))) as Halt.
  destruct (param_alternative _ _) as [[d t]|] eqn:Ea; [congruence|].
  unfold param_alternative in Ea.
  destruct (pi_type _) eqn:Et in Ea; try done.
  destruct (Hdyn Et) as [Hd1 Hd2]. rewrite u8_small in Halt by lia. lia.
Qed.

(** A state of a [read] exit event with its result recorded. *)
Lemma val_to_ring_no_bug_witness :
  let r := snd (val_to_ring sample_kenv (sample_state PPME_SYSCALL_READ_X 1000) 3 0 false 0) in
  r = PPM_SUCCESS \/ r = PPM_FAILURE_BUFFER_FULL \/ r = PPM_FAILURE_INVALID_USER_MEMORY.
Proof.
  intros r.
  apply (val_to_ring_no_bug sample_kenv sample_user (sample_state PPME_SYSCALL_READ_X 1000)
    (fst (val_to_ring sample_kenv (sample_state PPME_SYSCALL_READ_X 1000) 3 0 false 0))
    [] (mk_entry F_sys_read_x 0 APT_REG []) 3 0 false 0 r).
  - exact sample_kenv_ok.
  - apply sample_filled; vm_compute; congruence.
  - vm_compute. split; congruence.
  - vm_compute. reflexivity.
  - reflexivity.
  - vm_compute. reflexivity.
  - vm_compute. discriminate.
  - apply surjective_pairing.
Defined.
