(* ===== verification/FlagDefs.v ===== *)
(** * Flag and command encodings of the driver interface

    The flag words, command numbers and identifiers of
    [driver/ppm_events_public.h] that event parameters carry, and the name
    tables of [driver/flags_table.c] that give them names. *)

From Stdlib Require Import ZArith Lia List Bool.
From Stdlib Require Import Strings.String.
From stdpp Require Import base tactics list numbers option.
From S2P Require Import Prelude EventDefs EventTable.
Import ListNotations.
Local Open Scope string_scope.
Local Open Scope list_scope.
Local Open Scope Z_scope.

(** Socket families *)
Definition PPM_AF_UNSPEC : Z := 0.
Definition PPM_AF_UNIX : Z := 1.
Definition PPM_AF_LOCAL : Z := 1.
Definition PPM_AF_INET : Z := 2.
Definition PPM_AF_AX25 : Z := 3.
Definition PPM_AF_IPX : Z := 4.
Definition PPM_AF_APPLETALK : Z := 5.
Definition PPM_AF_NETROM : Z := 6.
Definition PPM_AF_BRIDGE : Z := 7.
Definition PPM_AF_ATMPVC : Z := 8.
Definition PPM_AF_X25 : Z := 9.
Definition PPM_AF_INET6 : Z := 10.
Definition PPM_AF_ROSE : Z := 11.
Definition PPM_AF_DECnet : Z := 12.
Definition PPM_AF_NETBEUI : Z := 13.
Definition PPM_AF_SECURITY : Z := 14.
Definition PPM_AF_KEY : Z := 15.
Definition PPM_AF_NETLINK : Z := 16.
Definition PPM_AF_ROUTE : Z := PPM_AF_NETLINK.
Definition PPM_AF_PACKET : Z := 17.
Definition PPM_AF_ASH : Z := 18.
Definition PPM_AF_ECONET : Z := 19.
Definition PPM_AF_ATMSVC : Z := 20.
Definition PPM_AF_RDS : Z := 21.
Definition PPM_AF_SNA : Z := 22.
Definition PPM_AF_IRDA : Z := 23.
Definition PPM_AF_PPPOX : Z := 24.
Definition PPM_AF_WANPIPE : Z := 25.
Definition PPM_AF_LLC : Z := 26.
Definition PPM_AF_CAN : Z := 29.
Definition PPM_AF_TIPC : Z := 30.
Definition PPM_AF_BLUETOOTH : Z := 31.
Definition PPM_AF_IUCV : Z := 32.
Definition PPM_AF_RXRPC : Z := 33.
Definition PPM_AF_ISDN : Z := 34.
Definition PPM_AF_PHONET : Z := 35.
Definition PPM_AF_IEEE802154 : Z := 36.
Definition PPM_AF_CAIF : Z := 37.
Definition PPM_AF_ALG : Z := 38.
Definition PPM_AF_NFC : Z := 39.
(** File flags *)
Definition PPM_O_NONE : Z := 0.
Definition PPM_O_RDONLY : Z := 2 ^ 0.
Definition PPM_O_WRONLY : Z := 2 ^ 1.
Definition PPM_O_RDWR : Z := Z.lor PPM_O_RDONLY PPM_O_WRONLY.
Definition PPM_O_CREAT : Z := 2 ^ 2.
Definition PPM_O_APPEND : Z := 2 ^ 3.
Definition PPM_O_DSYNC : Z := 2 ^ 4.
Definition PPM_O_EXCL : Z := 2 ^ 5.
Definition PPM_O_NONBLOCK : Z := 2 ^ 6.
Definition PPM_O_SYNC : Z := 2 ^ 7.
Definition PPM_O_TRUNC : Z := 2 ^ 8.
Definition PPM_O_DIRECT : Z := 2 ^ 9.
Definition PPM_O_DIRECTORY : Z := 2 ^ 10.
Definition PPM_O_LARGEFILE : Z := 2 ^ 11.
Definition PPM_O_CLOEXEC : Z := 2 ^ 12.
Definition PPM_O_TMPFILE : Z := 2 ^ 13.
(** File modes *)
Definition PPM_S_NONE : Z := 0.
Definition PPM_S_IXOTH : Z := 2 ^ 0.
Definition PPM_S_IWOTH : Z := 2 ^ 1.
Definition PPM_S_IROTH : Z := 2 ^ 2.
Definition PPM_S_IXGRP : Z := 2 ^ 3.
Definition PPM_S_IWGRP : Z := 2 ^ 4.
Definition PPM_S_IRGRP : Z := 2 ^ 5.
Definition PPM_S_IXUSR : Z := 2 ^ 6.
Definition PPM_S_IWUSR : Z := 2 ^ 7.
Definition PPM_S_IRUSR : Z := 2 ^ 8.
Definition PPM_S_ISVTX : Z := 2 ^ 9.
Definition PPM_S_ISGID : Z := 2 ^ 10.
Definition PPM_S_ISUID : Z := 2 ^ 11.
(** flock() flags *)
Definition PPM_LOCK_NONE : Z := 0.
Definition PPM_LOCK_SH : Z := 2 ^ 0.
Definition PPM_LOCK_EX : Z := 2 ^ 1.
Definition PPM_LOCK_NB : Z := 2 ^ 2.
Definition PPM_LOCK_UN : Z := 2 ^ 3.
(** Clone flags *)
Definition PPM_CL_NONE : Z := 0.
Definition PPM_CL_CLONE_FILES : Z := 2 ^ 0.
Definition PPM_CL_CLONE_FS : Z := 2 ^ 1.
Definition PPM_CL_CLONE_IO : Z := 2 ^ 2.
Definition PPM_CL_CLONE_NEWIPC : Z := 2 ^ 3.
Definition PPM_CL_CLONE_NEWNET : Z := 2 ^ 4.
Definition PPM_CL_CLONE_NEWNS : Z := 2 ^ 5.
Definition PPM_CL_CLONE_NEWPID : Z := 2 ^ 6.
Definition PPM_CL_CLONE_NEWUTS : Z := 2 ^ 7.
Definition PPM_CL_CLONE_PARENT : Z := 2 ^ 8.
Definition PPM_CL_CLONE_PARENT_SETTID : Z := 2 ^ 9.
Definition PPM_CL_CLONE_PTRACE : Z := 2 ^ 10.
Definition PPM_CL_CLONE_SIGHAND : Z := 2 ^ 11.
Definition PPM_CL_CLONE_SYSVSEM : Z := 2 ^ 12.
Definition PPM_CL_CLONE_THREAD : Z := 2 ^ 13.
Definition PPM_CL_CLONE_UNTRACED : Z := 2 ^ 14.
Definition PPM_CL_CLONE_VM : Z := 2 ^ 15.
Definition PPM_CL_CLONE_INVERTED : Z := 2 ^ 16.
Definition PPM_CL_NAME_CHANGED : Z := 2 ^ 17.
Definition PPM_CL_CLOSED : Z := 2 ^ 18.
Definition PPM_CL_ACTIVE : Z := 2 ^ 19.
Definition PPM_CL_CLONE_NEWUSER : Z := 2 ^ 20.
Definition PPM_CL_PIPE_SRC : Z := 2 ^ 21.
Definition PPM_CL_PIPE_DST : Z := 2 ^ 22.
Definition PPM_CL_CLONE_CHILD_CLEARTID : Z := 2 ^ 23.
Definition PPM_CL_CLONE_CHILD_SETTID : Z := 2 ^ 24.
Definition PPM_CL_CLONE_SETTLS : Z := 2 ^ 25.
Definition PPM_CL_CLONE_STOPPED : Z := 2 ^ 26.
Definition PPM_CL_CLONE_VFORK : Z := 2 ^ 27.
Definition PPM_CL_CLONE_NEWCGROUP : Z := 2 ^ 28.
Definition PPM_CL_CHILD_IN_PIDNS : Z := 2 ^ 29.
Definition PPM_CL_IS_MAIN_THREAD : Z := 2 ^ 30.
(** Futex Operations *)
Definition PPM_FU_FUTEX_WAIT : Z := 0.
Definition PPM_FU_FUTEX_WAKE : Z := 1.
Definition PPM_FU_FUTEX_FD : Z := 2.
Definition PPM_FU_FUTEX_REQUEUE : Z := 3.
Definition PPM_FU_FUTEX_CMP_REQUEUE : Z := 4.
Definition PPM_FU_FUTEX_WAKE_OP : Z := 5.
Definition PPM_FU_FUTEX_LOCK_PI : Z := 6.
Definition PPM_FU_FUTEX_UNLOCK_PI : Z := 7.
Definition PPM_FU_FUTEX_TRYLOCK_PI : Z := 8.
Definition PPM_FU_FUTEX_WAIT_BITSET : Z := 9.
Definition PPM_FU_FUTEX_WAKE_BITSET : Z := 10.
Definition PPM_FU_FUTEX_WAIT_REQUEUE_PI : Z := 11.
Definition PPM_FU_FUTEX_CMP_REQUEUE_PI : Z := 12.
Definition PPM_FU_FUTEX_PRIVATE_FLAG : Z := 128.
Definition PPM_FU_FUTEX_CLOCK_REALTIME : Z := 256.
(** lseek() and llseek() whence *)
Definition PPM_SEEK_SET : Z := 0.
Definition PPM_SEEK_CUR : Z := 1.
Definition PPM_SEEK_END : Z := 2.
(** poll() flags *)
Definition PPM_POLLIN : Z := 2 ^ 0.
Definition PPM_POLLPRI : Z := 2 ^ 1.
Definition PPM_POLLOUT : Z := 2 ^ 2.
Definition PPM_POLLRDHUP : Z := 2 ^ 3.
Definition PPM_POLLERR : Z := 2 ^ 4.
Definition PPM_POLLHUP : Z := 2 ^ 5.
Definition PPM_POLLNVAL : Z := 2 ^ 6.
Definition PPM_POLLRDNORM : Z := 2 ^ 7.
Definition PPM_POLLRDBAND : Z := 2 ^ 8.
Definition PPM_POLLWRNORM : Z := 2 ^ 9.
Definition PPM_POLLWRBAND : Z := 2 ^ 10.
(** epoll() flags *)
Definition PPM_EPOLLIN : Z := 2 ^ 0.
Definition PPM_EPOLLOUT : Z := 2 ^ 1.
Definition PPM_EPOLLRDHUP : Z := 2 ^ 2.
Definition PPM_EPOLLPRI : Z := 2 ^ 3.
Definition PPM_EPOLLERR : Z := 2 ^ 4.
Definition PPM_EPOLLHUP : Z := 2 ^ 5.
Definition PPM_EPOLLET : Z := 2 ^ 6.
Definition PPM_EPOLLONESHOT : Z := 2 ^ 7.
Definition PPM_EPOLLWAKEUP : Z := 2 ^ 8.
Definition PPM_EPOLLEXCLUSIVE : Z := 2 ^ 9.
(** mount() flags *)
Definition PPM_MS_RDONLY : Z := 2 ^ 0.
Definition PPM_MS_NOSUID : Z := 2 ^ 1.
Definition PPM_MS_NODEV : Z := 2 ^ 2.
Definition PPM_MS_NOEXEC : Z := 2 ^ 3.
Definition PPM_MS_SYNCHRONOUS : Z := 2 ^ 4.
Definition PPM_MS_REMOUNT : Z := 2 ^ 5.
Definition PPM_MS_MANDLOCK : Z := 2 ^ 6.
Definition PPM_MS_DIRSYNC : Z := 2 ^ 7.
Definition PPM_MS_NOATIME : Z := 2 ^ 10.
Definition PPM_MS_NODIRATIME : Z := 2 ^ 11.
Definition PPM_MS_BIND : Z := 2 ^ 12.
Definition PPM_MS_MOVE : Z := 2 ^ 13.
Definition PPM_MS_REC : Z := 2 ^ 14.
Definition PPM_MS_SILENT : Z := 2 ^ 15.
Definition PPM_MS_POSIXACL : Z := 2 ^ 16.
Definition PPM_MS_UNBINDABLE : Z := 2 ^ 17.
Definition PPM_MS_PRIVATE : Z := 2 ^ 18.
Definition PPM_MS_SLAVE : Z := 2 ^ 19.
Definition PPM_MS_SHARED : Z := 2 ^ 20.
Definition PPM_MS_RELATIME : Z := 2 ^ 21.
Definition PPM_MS_KERNMOUNT : Z := 2 ^ 22.
Definition PPM_MS_I_VERSION : Z := 2 ^ 23.
Definition PPM_MS_STRICTATIME : Z := 2 ^ 24.
Definition PPM_MS_LAZYTIME : Z := 2 ^ 25.
Definition PPM_MS_NOSEC : Z := 2 ^ 28.
Definition PPM_MS_BORN : Z := 2 ^ 29.
Definition PPM_MS_ACTIVE : Z := 2 ^ 30.
Definition PPM_MS_NOUSER : Z := 2 ^ 31.
(** umount() flags *)
Definition PPM_MNT_FORCE : Z := 1.
Definition PPM_MNT_DETACH : Z := 2.
Definition PPM_MNT_EXPIRE : Z := 4.
Definition PPM_UMOUNT_NOFOLLOW : Z := 8.
(** shutdown() how *)
Definition PPM_SHUT_RD : Z := 0.
Definition PPM_SHUT_WR : Z := 1.
Definition PPM_SHUT_RDWR : Z := 2.
(** fs *at() flags *)
Definition PPM_AT_FDCWD : Z := (-100).
(** unlinkat() flags *)
Definition PPM_AT_REMOVEDIR : Z := 512.
(** linkat() flags *)
Definition PPM_AT_SYMLINK_FOLLOW : Z := 1024.
Definition PPM_AT_EMPTY_PATH : Z := 4096.
(** rlimit resources *)
Definition PPM_RLIMIT_CPU : Z := 0.
Definition PPM_RLIMIT_FSIZE : Z := 1.
Definition PPM_RLIMIT_DATA : Z := 2.
Definition PPM_RLIMIT_STACK : Z := 3.
Definition PPM_RLIMIT_CORE : Z := 4.
Definition PPM_RLIMIT_RSS : Z := 5.
Definition PPM_RLIMIT_NPROC : Z := 6.
Definition PPM_RLIMIT_NOFILE : Z := 7.
Definition PPM_RLIMIT_MEMLOCK : Z := 8.
Definition PPM_RLIMIT_AS : Z := 9.
Definition PPM_RLIMIT_LOCKS : Z := 10.
Definition PPM_RLIMIT_SIGPENDING : Z := 11.
Definition PPM_RLIMIT_MSGQUEUE : Z := 12.
Definition PPM_RLIMIT_NICE : Z := 13.
Definition PPM_RLIMIT_RTPRIO : Z := 14.
Definition PPM_RLIMIT_RTTIME : Z := 15.
Definition PPM_RLIMIT_UNKNOWN : Z := 255.
(** fcntl commands *)
Definition PPM_FCNTL_UNKNOWN : Z := 0.
Definition PPM_FCNTL_F_DUPFD : Z := 1.
Definition PPM_FCNTL_F_GETFD : Z := 2.
Definition PPM_FCNTL_F_SETFD : Z := 3.
Definition PPM_FCNTL_F_GETFL : Z := 4.
Definition PPM_FCNTL_F_SETFL : Z := 5.
Definition PPM_FCNTL_F_GETLK : Z := 6.
Definition PPM_FCNTL_F_SETLK : Z := 8.
Definition PPM_FCNTL_F_SETLKW : Z := 9.
Definition PPM_FCNTL_F_SETOWN : Z := 10.
Definition PPM_FCNTL_F_GETOWN : Z := 12.
Definition PPM_FCNTL_F_SETSIG : Z := 13.
Definition PPM_FCNTL_F_GETSIG : Z := 15.
Definition PPM_FCNTL_F_GETLK64 : Z := 17.
Definition PPM_FCNTL_F_SETLK64 : Z := 18.
Definition PPM_FCNTL_F_SETLKW64 : Z := 19.
Definition PPM_FCNTL_F_SETOWN_EX : Z := 21.
Definition PPM_FCNTL_F_GETOWN_EX : Z := 22.
Definition PPM_FCNTL_F_SETLEASE : Z := 23.
Definition PPM_FCNTL_F_GETLEASE : Z := 24.
Definition PPM_FCNTL_F_CANCELLK : Z := 25.
Definition PPM_FCNTL_F_DUPFD_CLOEXEC : Z := 26.
Definition PPM_FCNTL_F_NOTIFY : Z := 27.
Definition PPM_FCNTL_F_SETPIPE_SZ : Z := 28.
Definition PPM_FCNTL_F_GETPIPE_SZ : Z := 29.
Definition PPM_FCNTL_F_OFD_GETLK : Z := 30.
Definition PPM_FCNTL_F_OFD_SETLK : Z := 31.
Definition PPM_FCNTL_F_OFD_SETLKW : Z := 32.
(** getsockopt/setsockopt levels *)
Definition PPM_SOCKOPT_LEVEL_UNKNOWN : Z := 0.
Definition PPM_SOCKOPT_LEVEL_SOL_SOCKET : Z := 1.
Definition PPM_SOCKOPT_LEVEL_SOL_TCP : Z := 2.
(** getsockopt/setsockopt options *)
Definition PPM_SOCKOPT_UNKNOWN : Z := 0.
Definition PPM_SOCKOPT_SO_DEBUG : Z := 1.
Definition PPM_SOCKOPT_SO_REUSEADDR : Z := 2.
Definition PPM_SOCKOPT_SO_TYPE : Z := 3.
Definition PPM_SOCKOPT_SO_ERROR : Z := 4.
Definition PPM_SOCKOPT_SO_DONTROUTE : Z := 5.
Definition PPM_SOCKOPT_SO_BROADCAST : Z := 6.
Definition PPM_SOCKOPT_SO_SNDBUF : Z := 7.
Definition PPM_SOCKOPT_SO_RCVBUF : Z := 8.
Definition PPM_SOCKOPT_SO_SNDBUFFORCE : Z := 32.
Definition PPM_SOCKOPT_SO_RCVBUFFORCE : Z := 33.
Definition PPM_SOCKOPT_SO_KEEPALIVE : Z := 9.
Definition PPM_SOCKOPT_SO_OOBINLINE : Z := 10.
Definition PPM_SOCKOPT_SO_NO_CHECK : Z := 11.
Definition PPM_SOCKOPT_SO_PRIORITY : Z := 12.
Definition PPM_SOCKOPT_SO_LINGER : Z := 13.
Definition PPM_SOCKOPT_SO_BSDCOMPAT : Z := 14.
Definition PPM_SOCKOPT_SO_REUSEPORT : Z := 15.
Definition PPM_SOCKOPT_SO_PASSCRED : Z := 16.
Definition PPM_SOCKOPT_SO_PEERCRED : Z := 17.
Definition PPM_SOCKOPT_SO_RCVLOWAT : Z := 18.
Definition PPM_SOCKOPT_SO_SNDLOWAT : Z := 19.
Definition PPM_SOCKOPT_SO_RCVTIMEO : Z := 20.
Definition PPM_SOCKOPT_SO_SNDTIMEO : Z := 21.
Definition PPM_SOCKOPT_SO_SECURITY_AUTHENTICATION : Z := 22.
Definition PPM_SOCKOPT_SO_SECURITY_ENCRYPTION_TRANSPORT : Z := 23.
Definition PPM_SOCKOPT_SO_SECURITY_ENCRYPTION_NETWORK : Z := 24.
Definition PPM_SOCKOPT_SO_BINDTODEVICE : Z := 25.
Definition PPM_SOCKOPT_SO_ATTACH_FILTER : Z := 26.
Definition PPM_SOCKOPT_SO_DETACH_FILTER : Z := 27.
Definition PPM_SOCKOPT_SO_PEERNAME : Z := 28.
Definition PPM_SOCKOPT_SO_TIMESTAMP : Z := 29.
Definition PPM_SOCKOPT_SO_ACCEPTCONN : Z := 30.
Definition PPM_SOCKOPT_SO_PEERSEC : Z := 31.
Definition PPM_SOCKOPT_SO_PASSSEC : Z := 34.
Definition PPM_SOCKOPT_SO_TIMESTAMPNS : Z := 35.
Definition PPM_SOCKOPT_SO_MARK : Z := 36.
Definition PPM_SOCKOPT_SO_TIMESTAMPING : Z := 37.
Definition PPM_SOCKOPT_SO_PROTOCOL : Z := 38.
Definition PPM_SOCKOPT_SO_DOMAIN : Z := 39.
Definition PPM_SOCKOPT_SO_RXQ_OVFL : Z := 40.
Definition PPM_SOCKOPT_SO_WIFI_STATUS : Z := 41.
Definition PPM_SOCKOPT_SO_PEEK_OFF : Z := 42.
Definition PPM_SOCKOPT_SO_NOFCS : Z := 43.
Definition PPM_SOCKOPT_SO_LOCK_FILTER : Z := 44.
Definition PPM_SOCKOPT_SO_SELECT_ERR_QUEUE : Z := 45.
Definition PPM_SOCKOPT_SO_BUSY_POLL : Z := 46.
Definition PPM_SOCKOPT_SO_MAX_PACING_RATE : Z := 47.
Definition PPM_SOCKOPT_SO_BPF_EXTENSIONS : Z := 48.
Definition PPM_SOCKOPT_SO_INCOMING_CPU : Z := 49.
Definition PPM_SOCKOPT_SO_ATTACH_BPF : Z := 50.
Definition PPM_SOCKOPT_SO_PEERGROUPS : Z := 51.
Definition PPM_SOCKOPT_SO_MEMINFO : Z := 52.
Definition PPM_SOCKOPT_SO_COOKIE : Z := 53.
(** getsockopt/setsockopt dynamic params *)
Definition PPM_SOCKOPT_IDX_UNKNOWN : Z := 0.
Definition PPM_SOCKOPT_IDX_ERRNO : Z := 1.
Definition PPM_SOCKOPT_IDX_UINT32 : Z := 2.
Definition PPM_SOCKOPT_IDX_UINT64 : Z := 3.
Definition PPM_SOCKOPT_IDX_TIMEVAL : Z := 4.
Definition PPM_SOCKOPT_IDX_MAX : Z := 5.
(** ptrace requests *)
Definition PPM_PTRACE_UNKNOWN : Z := 0.
Definition PPM_PTRACE_TRACEME : Z := 1.
Definition PPM_PTRACE_PEEKTEXT : Z := 2.
Definition PPM_PTRACE_PEEKDATA : Z := 3.
Definition PPM_PTRACE_PEEKUSR : Z := 4.
Definition PPM_PTRACE_POKETEXT : Z := 5.
Definition PPM_PTRACE_POKEDATA : Z := 6.
Definition PPM_PTRACE_POKEUSR : Z := 7.
Definition PPM_PTRACE_CONT : Z := 8.
Definition PPM_PTRACE_KILL : Z := 9.
Definition PPM_PTRACE_SINGLESTEP : Z := 10.
Definition PPM_PTRACE_ATTACH : Z := 11.
Definition PPM_PTRACE_DETACH : Z := 12.
Definition PPM_PTRACE_SYSCALL : Z := 13.
Definition PPM_PTRACE_SETOPTIONS : Z := 14.
Definition PPM_PTRACE_GETEVENTMSG : Z := 15.
Definition PPM_PTRACE_GETSIGINFO : Z := 16.
Definition PPM_PTRACE_SETSIGINFO : Z := 17.
Definition PPM_PTRACE_GETREGSET : Z := 18.
Definition PPM_PTRACE_SETREGSET : Z := 19.
Definition PPM_PTRACE_SEIZE : Z := 20.
Definition PPM_PTRACE_INTERRUPT : Z := 21.
Definition PPM_PTRACE_LISTEN : Z := 22.
Definition PPM_PTRACE_PEEKSIGINFO : Z := 23.
Definition PPM_PTRACE_GETSIGMASK : Z := 24.
Definition PPM_PTRACE_SETSIGMASK : Z := 25.
Definition PPM_PTRACE_GETREGS : Z := 26.
Definition PPM_PTRACE_SETREGS : Z := 27.
Definition PPM_PTRACE_GETFPREGS : Z := 28.
Definition PPM_PTRACE_SETFPREGS : Z := 29.
Definition PPM_PTRACE_GETFPXREGS : Z := 30.
Definition PPM_PTRACE_SETFPXREGS : Z := 31.
Definition PPM_PTRACE_OLDSETOPTIONS : Z := 32.
Definition PPM_PTRACE_GET_THREAD_AREA : Z := 33.
Definition PPM_PTRACE_SET_THREAD_AREA : Z := 34.
Definition PPM_PTRACE_ARCH_PRCTL : Z := 35.
Definition PPM_PTRACE_SYSEMU : Z := 36.
Definition PPM_PTRACE_SYSEMU_SINGLESTEP : Z := 37.
Definition PPM_PTRACE_SINGLEBLOCK : Z := 38.
(** ptrace dynamic table indexes *)
Definition PPM_PTRACE_IDX_UINT64 : Z := 0.
Definition PPM_PTRACE_IDX_SIGTYPE : Z := 1.
Definition PPM_PTRACE_IDX_MAX : Z := 2.
Definition PPM_BPF_IDX_FD : Z := 0.
Definition PPM_BPF_IDX_RES : Z := 1.
Definition PPM_BPF_IDX_MAX : Z := 2.
(** memory protection flags *)
Definition PPM_PROT_NONE : Z := 0.
Definition PPM_PROT_READ : Z := 2 ^ 0.
Definition PPM_PROT_WRITE : Z := 2 ^ 1.
Definition PPM_PROT_EXEC : Z := 2 ^ 2.
Definition PPM_PROT_SEM : Z := 2 ^ 3.
Definition PPM_PROT_GROWSDOWN : Z := 2 ^ 4.
Definition PPM_PROT_GROWSUP : Z := 2 ^ 5.
Definition PPM_PROT_SAO : Z := 2 ^ 6.
(** mmap flags *)
Definition PPM_MAP_SHARED : Z := 2 ^ 0.
Definition PPM_MAP_PRIVATE : Z := 2 ^ 1.
Definition PPM_MAP_FIXED : Z := 2 ^ 2.
Definition PPM_MAP_ANONYMOUS : Z := 2 ^ 3.
Definition PPM_MAP_32BIT : Z := 2 ^ 4.
Definition PPM_MAP_RENAME : Z := 2 ^ 5.
Definition PPM_MAP_NORESERVE : Z := 2 ^ 6.
Definition PPM_MAP_POPULATE : Z := 2 ^ 7.
Definition PPM_MAP_NONBLOCK : Z := 2 ^ 8.
Definition PPM_MAP_GROWSDOWN : Z := 2 ^ 9.
Definition PPM_MAP_DENYWRITE : Z := 2 ^ 10.
Definition PPM_MAP_EXECUTABLE : Z := 2 ^ 11.
Definition PPM_MAP_INHERIT : Z := 2 ^ 12.
Definition PPM_MAP_FILE : Z := 2 ^ 13.
Definition PPM_MAP_LOCKED : Z := 2 ^ 14.
(** splice flags *)
Definition PPM_SPLICE_F_MOVE : Z := 2 ^ 0.
Definition PPM_SPLICE_F_NONBLOCK : Z := 2 ^ 1.
Definition PPM_SPLICE_F_MORE : Z := 2 ^ 2.
Definition PPM_SPLICE_F_GIFT : Z := 2 ^ 3.
(** quotactl cmds *)
Definition PPM_Q_QUOTAON : Z := 2 ^ 0.
Definition PPM_Q_QUOTAOFF : Z := 2 ^ 1.
Definition PPM_Q_GETFMT : Z := 2 ^ 2.
Definition PPM_Q_GETINFO : Z := 2 ^ 3.
Definition PPM_Q_SETINFO : Z := 2 ^ 4.
Definition PPM_Q_GETQUOTA : Z := 2 ^ 5.
Definition PPM_Q_SETQUOTA : Z := 2 ^ 6.
Definition PPM_Q_SYNC : Z := 2 ^ 7.
Definition PPM_Q_XQUOTAON : Z := 2 ^ 8.
Definition PPM_Q_XQUOTAOFF : Z := 2 ^ 9.
Definition PPM_Q_XGETQUOTA : Z := 2 ^ 10.
Definition PPM_Q_XSETQLIM : Z := 2 ^ 11.
Definition PPM_Q_XGETQSTAT : Z := 2 ^ 12.
Definition PPM_Q_XQUOTARM : Z := 2 ^ 13.
Definition PPM_Q_XQUOTASYNC : Z := 2 ^ 14.
Definition PPM_Q_XGETQSTATV : Z := 2 ^ 15.
(** quotactl types *)
Definition PPM_USRQUOTA : Z := 2 ^ 0.
Definition PPM_GRPQUOTA : Z := 2 ^ 1.
(** quotactl dqi_flags *)
Definition PPM_DQF_NONE : Z := 2 ^ 0.
Definition PPM_V1_DQF_RSQUASH : Z := 2 ^ 1.
(** quotactl quotafmts *)
Definition PPM_QFMT_NOT_USED : Z := 2 ^ 0.
Definition PPM_QFMT_VFS_OLD : Z := 2 ^ 1.
Definition PPM_QFMT_VFS_V0 : Z := 2 ^ 2.
Definition PPM_QFMT_VFS_V1 : Z := 2 ^ 3.
(** Semop flags *)
Definition PPM_IPC_NOWAIT : Z := 2 ^ 0.
Definition PPM_SEM_UNDO : Z := 2 ^ 1.
(** Semget flags *)
Definition PPM_IPC_CREAT : Z := 2 ^ 13.
Definition PPM_IPC_EXCL : Z := 2 ^ 14.
Definition PPM_IPC_STAT : Z := 2 ^ 0.
Definition PPM_IPC_SET : Z := 2 ^ 1.
Definition PPM_IPC_RMID : Z := 2 ^ 2.
Definition PPM_IPC_INFO : Z := 2 ^ 3.
Definition PPM_SEM_INFO : Z := 2 ^ 4.
Definition PPM_SEM_STAT : Z := 2 ^ 5.
Definition PPM_GETALL : Z := 2 ^ 6.
Definition PPM_GETNCNT : Z := 2 ^ 7.
Definition PPM_GETPID : Z := 2 ^ 8.
Definition PPM_GETVAL : Z := 2 ^ 9.
Definition PPM_GETZCNT : Z := 2 ^ 10.
Definition PPM_SETALL : Z := 2 ^ 11.
Definition PPM_SETVAL : Z := 2 ^ 12.
(** Access flags *)
Definition PPM_F_OK : Z := 0.
Definition PPM_X_OK : Z := 2 ^ 0.
Definition PPM_W_OK : Z := 2 ^ 1.
Definition PPM_R_OK : Z := 2 ^ 2.
(** Page fault flags *)
Definition PPM_PF_PROTECTION_VIOLATION : Z := 2 ^ 0.
Definition PPM_PF_PAGE_NOT_PRESENT : Z := 2 ^ 1.
Definition PPM_PF_WRITE_ACCESS : Z := 2 ^ 2.
Definition PPM_PF_READ_ACCESS : Z := 2 ^ 3.
Definition PPM_PF_USER_FAULT : Z := 2 ^ 4.
Definition PPM_PF_SUPERVISOR_FAULT : Z := 2 ^ 5.
Definition PPM_PF_RESERVED_PAGE : Z := 2 ^ 6.
Definition PPM_PF_INSTRUCTION_FETCH : Z := 2 ^ 7.
(** Rename flags *)
Definition PPM_RENAME_NOREPLACE : Z := 2 ^ 0.
Definition PPM_RENAME_EXCHANGE : Z := 2 ^ 1.
Definition PPM_RENAME_WHITEOUT : Z := 2 ^ 2.

(** ** Name tables

    The arrays of [flags_table.c], in their order, without the null entry that
    closes each.  libscap compiles them for user space, where [CONFIG_64BIT] is
    not defined. *)
Module flags_table.

Definition socket_families : list (string * Z) :=
  [ ("AF_NFC", PPM_AF_NFC);
    ("AF_ALG", PPM_AF_ALG);
    ("AF_CAIF", PPM_AF_CAIF);
    ("AF_IEEE802154", PPM_AF_IEEE802154);
    ("AF_PHONET", PPM_AF_PHONET);
    ("AF_ISDN", PPM_AF_ISDN);
    ("AF_RXRPC", PPM_AF_RXRPC);
    ("AF_IUCV", PPM_AF_IUCV);
    ("AF_BLUETOOTH", PPM_AF_BLUETOOTH);
    ("AF_TIPC", PPM_AF_TIPC);
    ("AF_CAN", PPM_AF_CAN);
    ("AF_LLC", PPM_AF_LLC);
    ("AF_WANPIPE", PPM_AF_WANPIPE);
    ("AF_PPPOX", PPM_AF_PPPOX);
    ("AF_IRDA", PPM_AF_IRDA);
    ("AF_SNA", PPM_AF_SNA);
    ("AF_RDS", PPM_AF_RDS);
    ("AF_ATMSVC", PPM_AF_ATMSVC);
    ("AF_ECONET", PPM_AF_ECONET);
    ("AF_ASH", PPM_AF_ASH);
    ("AF_PACKET", PPM_AF_PACKET);
    ("AF_ROUTE", PPM_AF_ROUTE);
    ("AF_NETLINK", PPM_AF_NETLINK);
    ("AF_KEY", PPM_AF_KEY);
    ("AF_SECURITY", PPM_AF_SECURITY);
    ("AF_NETBEUI", PPM_AF_NETBEUI);
    ("AF_DECnet", PPM_AF_DECnet);
    ("AF_ROSE", PPM_AF_ROSE);
    ("AF_INET6", PPM_AF_INET6);
    ("AF_X25", PPM_AF_X25);
    ("AF_ATMPVC", PPM_AF_ATMPVC);
    ("AF_BRIDGE", PPM_AF_BRIDGE);
    ("AF_NETROM", PPM_AF_NETROM);
    ("AF_APPLETALK", PPM_AF_APPLETALK);
    ("AF_IPX", PPM_AF_IPX);
    ("AF_AX25", PPM_AF_AX25);
    ("AF_INET", PPM_AF_INET);
    ("AF_LOCAL", PPM_AF_LOCAL);
    ("AF_UNIX", PPM_AF_UNIX);
    ("AF_UNSPEC", PPM_AF_UNSPEC) ].

Definition file_flags : list (string * Z) :=
  [ ("O_LARGEFILE", PPM_O_LARGEFILE);
    ("O_DIRECTORY", PPM_O_DIRECTORY);
    ("O_DIRECT", PPM_O_DIRECT);
    ("O_TRUNC", PPM_O_TRUNC);
    ("O_SYNC", PPM_O_SYNC);
    ("O_NONBLOCK", PPM_O_NONBLOCK);
    ("O_EXCL", PPM_O_EXCL);
    ("O_DSYNC", PPM_O_DSYNC);
    ("O_APPEND", PPM_O_APPEND);
    ("O_CREAT", PPM_O_CREAT);
    ("O_RDWR", PPM_O_RDWR);
    ("O_WRONLY", PPM_O_WRONLY);
    ("O_RDONLY", PPM_O_RDONLY);
    ("O_CLOEXEC", PPM_O_CLOEXEC);
    ("O_NONE", PPM_O_NONE);
    ("O_TMPFILE", PPM_O_TMPFILE) ].

Definition flock_flags : list (string * Z) :=
  [ ("LOCK_SH", PPM_LOCK_SH);
    ("LOCK_EX", PPM_LOCK_EX);
    ("LOCK_NB", PPM_LOCK_NB);
    ("LOCK_UN", PPM_LOCK_UN);
    ("LOCK_NONE", PPM_LOCK_NONE) ].

Definition clone_flags : list (string * Z) :=
  [ ("CLONE_FILES", PPM_CL_CLONE_FILES);
    ("CLONE_FS", PPM_CL_CLONE_FS);
    ("CLONE_IO", PPM_CL_CLONE_IO);
    ("CLONE_NEWIPC", PPM_CL_CLONE_NEWIPC);
    ("CLONE_NEWNET", PPM_CL_CLONE_NEWNET);
    ("CLONE_NEWNS", PPM_CL_CLONE_NEWNS);
    ("CLONE_NEWPID", PPM_CL_CLONE_NEWPID);
    ("CLONE_NEWUTS", PPM_CL_CLONE_NEWUTS);
    ("CLONE_PARENT", PPM_CL_CLONE_PARENT);
    ("CLONE_PARENT_SETTID", PPM_CL_CLONE_PARENT_SETTID);
    ("CLONE_PTRACE", PPM_CL_CLONE_PTRACE);
    ("CLONE_SIGHAND", PPM_CL_CLONE_SIGHAND);
    ("CLONE_SYSVSEM", PPM_CL_CLONE_SYSVSEM);
    ("CLONE_THREAD", PPM_CL_CLONE_THREAD);
    ("CLONE_UNTRACED", PPM_CL_CLONE_UNTRACED);
    ("CLONE_VM", PPM_CL_CLONE_VM);
    ("CLONE_INVERTED", PPM_CL_CLONE_INVERTED);
    ("NAME_CHANGED", PPM_CL_NAME_CHANGED);
    ("CLOSED", PPM_CL_CLOSED);
    ("CLONE_NEWUSER", PPM_CL_CLONE_NEWUSER);
    ("CLONE_CHILD_CLEARTID", PPM_CL_CLONE_CHILD_CLEARTID);
    ("CLONE_CHILD_SETTID", PPM_CL_CLONE_CHILD_SETTID);
    ("CLONE_SETTLS", PPM_CL_CLONE_SETTLS);
    ("CLONE_STOPPED", PPM_CL_CLONE_STOPPED);
    ("CLONE_VFORK", PPM_CL_CLONE_VFORK);
    ("CLONE_NEWCGROUP", PPM_CL_CLONE_NEWCGROUP) ].

Definition futex_operations : list (string * Z) :=
  [ ("FUTEX_CLOCK_REALTIME", PPM_FU_FUTEX_CLOCK_REALTIME);
    ("FUTEX_PRIVATE_FLAG", PPM_FU_FUTEX_PRIVATE_FLAG);
    ("FUTEX_CMP_REQUEUE_PI", PPM_FU_FUTEX_CMP_REQUEUE_PI);
    ("FUTEX_WAIT_REQUEUE_PI", PPM_FU_FUTEX_WAIT_REQUEUE_PI);
    ("FUTEX_WAKE_BITSET", PPM_FU_FUTEX_WAKE_BITSET);
    ("FUTEX_WAIT_BITSET", PPM_FU_FUTEX_WAIT_BITSET);
    ("FUTEX_TRYLOCK_PI", PPM_FU_FUTEX_TRYLOCK_PI);
    ("FUTEX_UNLOCK_PI", PPM_FU_FUTEX_UNLOCK_PI);
    ("FUTEX_LOCK_PI", PPM_FU_FUTEX_LOCK_PI);
    ("FUTEX_WAKE_OP", PPM_FU_FUTEX_WAKE_OP);
    ("FUTEX_CMP_REQUEUE", PPM_FU_FUTEX_CMP_REQUEUE);
    ("FUTEX_REQUEUE", PPM_FU_FUTEX_REQUEUE);
    ("FUTEX_FD", PPM_FU_FUTEX_FD);
    ("FUTEX_WAKE", PPM_FU_FUTEX_WAKE);
    ("FUTEX_WAIT", PPM_FU_FUTEX_WAIT) ].

Definition poll_flags : list (string * Z) :=
  [ ("POLLIN", PPM_POLLIN);
    ("POLLPRI", PPM_POLLPRI);
    ("POLLOUT", PPM_POLLOUT);
    ("POLLRDHUP", PPM_POLLRDHUP);
    ("POLLERR", PPM_POLLERR);
    ("POLLHUP", PPM_POLLHUP);
    ("POLLNVAL", PPM_POLLNVAL);
    ("POLLRDNORM", PPM_POLLRDNORM);
    ("POLLRDBAND", PPM_POLLRDBAND);
    ("POLLWRNORM", PPM_POLLWRNORM);
    ("POLLWRBAND", PPM_POLLWRBAND) ].

Definition mount_flags : list (string * Z) :=
  [ ("RDONLY", PPM_MS_RDONLY);
    ("NOSUID", PPM_MS_NOSUID);
    ("NODEV", PPM_MS_NODEV);
    ("NOEXEC", PPM_MS_NOEXEC);
    ("SYNCHRONOUS", PPM_MS_SYNCHRONOUS);
    ("REMOUNT", PPM_MS_REMOUNT);
    ("MANDLOCK", PPM_MS_MANDLOCK);
    ("DIRSYNC", PPM_MS_DIRSYNC);
    ("NOATIME", PPM_MS_NOATIME);
    ("NODIRATIME", PPM_MS_NODIRATIME);
    ("BIND", PPM_MS_BIND);
    ("MOVE", PPM_MS_MOVE);
    ("REC", PPM_MS_REC);
    ("SILENT", PPM_MS_SILENT);
    ("POSIXACL", PPM_MS_POSIXACL);
    ("UNBINDABLE", PPM_MS_UNBINDABLE);
    ("PRIVATE", PPM_MS_PRIVATE);
    ("SLAVE", PPM_MS_SLAVE);
    ("SHARED", PPM_MS_SHARED);
    ("RELATIME", PPM_MS_RELATIME);
    ("KERNMOUNT", PPM_MS_KERNMOUNT);
    ("I_VERSION", PPM_MS_I_VERSION);
    ("STRICTATIME", PPM_MS_STRICTATIME);
    ("LAZYTIME", PPM_MS_LAZYTIME);
    ("NOSEC", PPM_MS_NOSEC);
    ("BORN", PPM_MS_BORN);
    ("ACTIVE", PPM_MS_ACTIVE);
    ("NOUSER", PPM_MS_NOUSER) ].

Definition umount_flags : list (string * Z) :=
  [ ("FORCE", PPM_MNT_FORCE);
    ("DETACH", PPM_MNT_DETACH);
    ("EXPIRE", PPM_MNT_EXPIRE);
    ("NOFOLLOW", PPM_UMOUNT_NOFOLLOW) ].

Definition lseek_whence : list (string * Z) :=
  [ ("SEEK_END", PPM_SEEK_END);
    ("SEEK_CUR", PPM_SEEK_CUR);
    ("SEEK_SET", PPM_SEEK_SET) ].

Definition shutdown_how : list (string * Z) :=
  [ ("SHUT_RDWR", PPM_SHUT_RDWR);
    ("SHUT_WR", PPM_SHUT_WR);
    ("SHUT_RD", PPM_SHUT_RD) ].

Definition rlimit_resources : list (string * Z) :=
  [ ("RLIMIT_UNKNOWN", PPM_RLIMIT_UNKNOWN);
    ("RLIMIT_RTTIME", PPM_RLIMIT_RTTIME);
    ("RLIMIT_RTPRIO", PPM_RLIMIT_RTPRIO);
    ("RLIMIT_NICE", PPM_RLIMIT_NICE);
    ("RLIMIT_MSGQUEUE", PPM_RLIMIT_MSGQUEUE);
    ("RLIMIT_SIGPENDING", PPM_RLIMIT_SIGPENDING);
    ("RLIMIT_LOCKS", PPM_RLIMIT_LOCKS);
    ("RLIMIT_AS", PPM_RLIMIT_AS);
    ("RLIMIT_MEMLOCK", PPM_RLIMIT_MEMLOCK);
    ("RLIMIT_NOFILE", PPM_RLIMIT_NOFILE);
    ("RLIMIT_NPROC", PPM_RLIMIT_NPROC);
    ("RLIMIT_RSS", PPM_RLIMIT_RSS);
    ("RLIMIT_CORE", PPM_RLIMIT_CORE);
    ("RLIMIT_STACK", PPM_RLIMIT_STACK);
    ("RLIMIT_DATA", PPM_RLIMIT_DATA);
    ("RLIMIT_FSIZE", PPM_RLIMIT_FSIZE);
    ("RLIMIT_CPU", PPM_RLIMIT_CPU) ].

Definition fcntl_commands : list (string * Z) :=
  [ ("F_GETPIPE_SZ", PPM_FCNTL_F_GETPIPE_SZ);
    ("F_SETPIPE_SZ", PPM_FCNTL_F_SETPIPE_SZ);
    ("F_NOTIFY", PPM_FCNTL_F_NOTIFY);
    ("F_DUPFD_CLOEXEC", PPM_FCNTL_F_DUPFD_CLOEXEC);
    ("F_CANCELLK", PPM_FCNTL_F_CANCELLK);
    ("F_GETLEASE", PPM_FCNTL_F_GETLEASE);
    ("F_SETLEASE", PPM_FCNTL_F_SETLEASE);
    ("F_GETOWN_EX", PPM_FCNTL_F_GETOWN_EX);
    ("F_SETOWN_EX", PPM_FCNTL_F_SETOWN_EX);
    ("F_SETLKW64", PPM_FCNTL_F_SETLKW64);
    ("F_SETLK64", PPM_FCNTL_F_SETLK64);
    ("F_GETLK64", PPM_FCNTL_F_GETLK64);
    ("F_GETSIG", PPM_FCNTL_F_GETSIG);
    ("F_SETSIG", PPM_FCNTL_F_SETSIG);
    ("F_GETOWN", PPM_FCNTL_F_GETOWN);
    ("F_SETOWN", PPM_FCNTL_F_SETOWN);
    ("F_SETLKW", PPM_FCNTL_F_SETLKW);
    ("F_SETLK", PPM_FCNTL_F_SETLK);
    ("F_GETLK", PPM_FCNTL_F_GETLK);
    ("F_SETFL", PPM_FCNTL_F_SETFL);
    ("F_GETFL", PPM_FCNTL_F_GETFL);
    ("F_SETFD", PPM_FCNTL_F_SETFD);
    ("F_GETFD", PPM_FCNTL_F_GETFD);
    ("F_DUPFD", PPM_FCNTL_F_DUPFD);
    ("F_OFD_GETLK", PPM_FCNTL_F_OFD_GETLK);
    ("F_OFD_SETLK", PPM_FCNTL_F_OFD_SETLK);
    ("F_OFD_SETLKW", PPM_FCNTL_F_OFD_SETLKW);
    ("UNKNOWN", PPM_FCNTL_UNKNOWN) ].

Definition sockopt_levels : list (string * Z) :=
  [ ("SOL_SOCKET", PPM_SOCKOPT_LEVEL_SOL_SOCKET);
    ("SOL_TCP", PPM_SOCKOPT_LEVEL_SOL_TCP);
    ("UNKNOWN", PPM_SOCKOPT_LEVEL_UNKNOWN) ].

Definition sockopt_options : list (string * Z) :=
  [ ("SO_COOKIE", PPM_SOCKOPT_SO_COOKIE);
    ("SO_MEMINFO", PPM_SOCKOPT_SO_MEMINFO);
    ("SO_PEERGROUPS", PPM_SOCKOPT_SO_PEERGROUPS);
    ("SO_ATTACH_BPF", PPM_SOCKOPT_SO_ATTACH_BPF);
    ("SO_INCOMING_CPU", PPM_SOCKOPT_SO_INCOMING_CPU);
    ("SO_BPF_EXTENSIONS", PPM_SOCKOPT_SO_BPF_EXTENSIONS);
    ("SO_MAX_PACING_RATE", PPM_SOCKOPT_SO_MAX_PACING_RATE);
    ("SO_BUSY_POLL", PPM_SOCKOPT_SO_BUSY_POLL);
    ("SO_SELECT_ERR_QUEUE", PPM_SOCKOPT_SO_SELECT_ERR_QUEUE);
    ("SO_LOCK_FILTER", PPM_SOCKOPT_SO_LOCK_FILTER);
    ("SO_NOFCS", PPM_SOCKOPT_SO_NOFCS);
    ("SO_PEEK_OFF", PPM_SOCKOPT_SO_PEEK_OFF);
    ("SO_WIFI_STATUS", PPM_SOCKOPT_SO_WIFI_STATUS);
    ("SO_RXQ_OVFL", PPM_SOCKOPT_SO_RXQ_OVFL);
    ("SO_DOMAIN", PPM_SOCKOPT_SO_DOMAIN);
    ("SO_PROTOCOL", PPM_SOCKOPT_SO_PROTOCOL);
    ("SO_TIMESTAMPING", PPM_SOCKOPT_SO_TIMESTAMPING);
    ("SO_MARK", PPM_SOCKOPT_SO_MARK);
    ("SO_TIMESTAMPNS", PPM_SOCKOPT_SO_TIMESTAMPNS);
    ("SO_PASSSEC", PPM_SOCKOPT_SO_PASSSEC);
    ("SO_PEERSEC", PPM_SOCKOPT_SO_PEERSEC);
    ("SO_ACCEPTCONN", PPM_SOCKOPT_SO_ACCEPTCONN);
    ("SO_TIMESTAMP", PPM_SOCKOPT_SO_TIMESTAMP);
    ("SO_PEERNAME", PPM_SOCKOPT_SO_PEERNAME);
    ("SO_DETACH_FILTER", PPM_SOCKOPT_SO_DETACH_FILTER);
    ("SO_ATTACH_FILTER", PPM_SOCKOPT_SO_ATTACH_FILTER);
    ("SO_BINDTODEVICE", PPM_SOCKOPT_SO_BINDTODEVICE);
    ("SO_SECURITY_ENCRYPTION_NETWORK", PPM_SOCKOPT_SO_SECURITY_ENCRYPTION_NETWORK);
    ("SO_SECURITY_ENCRYPTION_TRANSPORT", PPM_SOCKOPT_SO_SECURITY_ENCRYPTION_TRANSPORT);
    ("SO_SECURITY_AUTHENTICATION", PPM_SOCKOPT_SO_SECURITY_AUTHENTICATION);
    ("SO_SNDTIMEO", PPM_SOCKOPT_SO_SNDTIMEO);
    ("SO_RCVTIMEO", PPM_SOCKOPT_SO_RCVTIMEO);
    ("SO_SNDLOWAT", PPM_SOCKOPT_SO_SNDLOWAT);
    ("SO_RCVLOWAT", PPM_SOCKOPT_SO_RCVLOWAT);
    ("SO_PEERCRED", PPM_SOCKOPT_SO_PEERCRED);
    ("SO_PASSCRED", PPM_SOCKOPT_SO_PASSCRED);
    ("SO_REUSEPORT", PPM_SOCKOPT_SO_REUSEPORT);
    ("SO_BSDCOMPAT", PPM_SOCKOPT_SO_BSDCOMPAT);
    ("SO_LINGER", PPM_SOCKOPT_SO_LINGER);
    ("SO_PRIORITY", PPM_SOCKOPT_SO_PRIORITY);
    ("SO_NO_CHECK", PPM_SOCKOPT_SO_NO_CHECK);
    ("SO_OOBINLINE", PPM_SOCKOPT_SO_OOBINLINE);
    ("SO_KEEPALIVE", PPM_SOCKOPT_SO_KEEPALIVE);
    ("SO_RCVBUFFORCE", PPM_SOCKOPT_SO_RCVBUFFORCE);
    ("SO_SNDBUFFORCE", PPM_SOCKOPT_SO_SNDBUFFORCE);
    ("SO_RCVBUF", PPM_SOCKOPT_SO_RCVBUF);
    ("SO_SNDBUF", PPM_SOCKOPT_SO_SNDBUF);
    ("SO_BROADCAST", PPM_SOCKOPT_SO_BROADCAST);
    ("SO_DONTROUTE", PPM_SOCKOPT_SO_DONTROUTE);
    ("SO_ERROR", PPM_SOCKOPT_SO_ERROR);
    ("SO_TYPE", PPM_SOCKOPT_SO_TYPE);
    ("SO_REUSEADDR", PPM_SOCKOPT_SO_REUSEADDR);
    ("SO_DEBUG", PPM_SOCKOPT_SO_DEBUG);
    ("UNKNOWN", PPM_SOCKOPT_UNKNOWN) ].

Definition ptrace_requests : list (string * Z) :=
  [ ("PTRACE_SINGLEBLOCK", PPM_PTRACE_SINGLEBLOCK);
    ("PTRACE_SYSEMU_SINGLESTEP", PPM_PTRACE_SYSEMU_SINGLESTEP);
    ("PTRACE_SYSEMU", PPM_PTRACE_SYSEMU);
    ("PTRACE_ARCH_PRCTL", PPM_PTRACE_ARCH_PRCTL);
    ("PTRACE_SET_THREAD_AREA", PPM_PTRACE_SET_THREAD_AREA);
    ("PTRACE_GET_THREAD_AREA", PPM_PTRACE_GET_THREAD_AREA);
    ("PTRACE_OLDSETOPTIONS", PPM_PTRACE_OLDSETOPTIONS);
    ("PTRACE_SETFPXREGS", PPM_PTRACE_SETFPXREGS);
    ("PTRACE_GETFPXREGS", PPM_PTRACE_GETFPXREGS);
    ("PTRACE_SETFPREGS", PPM_PTRACE_SETFPREGS);
    ("PTRACE_GETFPREGS", PPM_PTRACE_GETFPREGS);
    ("PTRACE_SETREGS", PPM_PTRACE_SETREGS);
    ("PTRACE_GETREGS", PPM_PTRACE_GETREGS);
    ("PTRACE_SETSIGMASK", PPM_PTRACE_SETSIGMASK);
    ("PTRACE_GETSIGMASK", PPM_PTRACE_GETSIGMASK);
    ("PTRACE_PEEKSIGINFO", PPM_PTRACE_PEEKSIGINFO);
    ("PTRACE_LISTEN", PPM_PTRACE_LISTEN);
    ("PTRACE_INTERRUPT", PPM_PTRACE_INTERRUPT);
    ("PTRACE_SEIZE", PPM_PTRACE_SEIZE);
    ("PTRACE_SETREGSET", PPM_PTRACE_SETREGSET);
    ("PTRACE_GETREGSET", PPM_PTRACE_GETREGSET);
    ("PTRACE_SETSIGINFO", PPM_PTRACE_SETSIGINFO);
    ("PTRACE_GETSIGINFO", PPM_PTRACE_GETSIGINFO);
    ("PTRACE_GETEVENTMSG", PPM_PTRACE_GETEVENTMSG);
    ("PTRACE_SETOPTIONS", PPM_PTRACE_SETOPTIONS);
    ("PTRACE_SYSCALL", PPM_PTRACE_SYSCALL);
    ("PTRACE_DETACH", PPM_PTRACE_DETACH);
    ("PTRACE_ATTACH", PPM_PTRACE_ATTACH);
    ("PTRACE_SINGLESTEP", PPM_PTRACE_SINGLESTEP);
    ("PTRACE_KILL", PPM_PTRACE_KILL);
    ("PTRACE_CONT", PPM_PTRACE_CONT);
    ("PTRACE_POKEUSR", PPM_PTRACE_POKEUSR);
    ("PTRACE_POKEDATA", PPM_PTRACE_POKEDATA);
    ("PTRACE_POKETEXT", PPM_PTRACE_POKETEXT);
    ("PTRACE_PEEKUSR", PPM_PTRACE_PEEKUSR);
    ("PTRACE_PEEKDATA", PPM_PTRACE_PEEKDATA);
    ("PTRACE_PEEKTEXT", PPM_PTRACE_PEEKTEXT);
    ("PTRACE_TRACEME", PPM_PTRACE_TRACEME);
    ("PTRACE_UNKNOWN", PPM_PTRACE_UNKNOWN) ].

Definition prot_flags : list (string * Z) :=
  [ ("PROT_READ", PPM_PROT_READ);
    ("PROT_WRITE", PPM_PROT_WRITE);
    ("PROT_EXEC", PPM_PROT_EXEC);
    ("PROT_SEM", PPM_PROT_SEM);
    ("PROT_GROWSDOWN", PPM_PROT_GROWSDOWN);
    ("PROT_GROWSUP", PPM_PROT_GROWSUP);
    ("PROT_SAO", PPM_PROT_SAO);
    ("PROT_NONE", PPM_PROT_NONE) ].

Definition mmap_flags : list (string * Z) :=
  [ ("MAP_SHARED", PPM_MAP_SHARED);
    ("MAP_PRIVATE", PPM_MAP_PRIVATE);
    ("MAP_FIXED", PPM_MAP_FIXED);
    ("MAP_ANONYMOUS", PPM_MAP_ANONYMOUS);
    ("MAP_32BIT", PPM_MAP_32BIT);
    ("MAP_RENAME", PPM_MAP_RENAME);
    ("MAP_NORESERVE", PPM_MAP_NORESERVE);
    ("MAP_POPULATE", PPM_MAP_POPULATE);
    ("MAP_NONBLOCK", PPM_MAP_NONBLOCK);
    ("MAP_GROWSDOWN", PPM_MAP_GROWSDOWN);
    ("MAP_DENYWRITE", PPM_MAP_DENYWRITE);
    ("MAP_EXECUTABLE", PPM_MAP_EXECUTABLE);
    ("MAP_INHERIT", PPM_MAP_INHERIT);
    ("MAP_FILE", PPM_MAP_FILE);
    ("MAP_LOCKED", PPM_MAP_LOCKED) ].

Definition splice_flags : list (string * Z) :=
  [ ("SPLICE_F_MOVE", PPM_SPLICE_F_MOVE);
    ("SPLICE_F_NONBLOCK", PPM_SPLICE_F_NONBLOCK);
    ("SPLICE_F_MORE", PPM_SPLICE_F_MORE);
    ("SPLICE_F_GIFT", PPM_SPLICE_F_GIFT) ].

Definition quotactl_dqi_flags : list (string * Z) :=
  [ ("DQF_NONE", PPM_DQF_NONE);
    ("V1_DQF_RSQUASH", PPM_V1_DQF_RSQUASH) ].

Definition quotactl_cmds : list (string * Z) :=
  [ ("Q_QUOTAON", PPM_Q_QUOTAON);
    ("Q_QUOTAOFF", PPM_Q_QUOTAOFF);
    ("Q_GETFMT", PPM_Q_GETFMT);
    ("Q_GETINFO", PPM_Q_GETINFO);
    ("Q_SETINFO", PPM_Q_SETINFO);
    ("Q_GETQUOTA", PPM_Q_GETQUOTA);
    ("Q_SETQUOTA", PPM_Q_SETQUOTA);
    ("Q_SYNC", PPM_Q_SYNC);
    ("Q_XQUOTAON", PPM_Q_XQUOTAON);
    ("Q_XQUOTAOFF", PPM_Q_XQUOTAOFF);
    ("Q_XGETQUOTA", PPM_Q_XGETQUOTA);
    ("Q_XSETQLIM", PPM_Q_XSETQLIM);
    ("Q_XGETQSTAT", PPM_Q_XGETQSTAT);
    ("Q_XQUOTARM", PPM_Q_XQUOTARM);
    ("Q_XQUOTASYNC", PPM_Q_XQUOTASYNC) ].

Definition quotactl_types : list (string * Z) :=
  [ ("USRQUOTA", PPM_USRQUOTA);
    ("GRPQUOTA", PPM_GRPQUOTA) ].

Definition quotactl_quota_fmts : list (string * Z) :=
  [ ("QFMT_NOT_USED", PPM_QFMT_NOT_USED);
    ("QFMT_VFS_OLD", PPM_QFMT_VFS_OLD);
    ("QFMT_VFS_V0", PPM_QFMT_VFS_V0);
    ("QFMT_VFS_V1", PPM_QFMT_VFS_V1) ].

Definition semop_flags : list (string * Z) :=
  [ ("IPC_NOWAIT", PPM_IPC_NOWAIT);
    ("SEM_UNDO", PPM_SEM_UNDO) ].

Definition semget_flags : list (string * Z) :=
  [ ("IPC_EXCL", PPM_IPC_EXCL);
    ("IPC_CREAT", PPM_IPC_CREAT) ].

Definition semctl_commands : list (string * Z) :=
  [ ("IPC_STAT", PPM_IPC_STAT);
    ("IPC_SET", PPM_IPC_SET);
    ("IPC_RMID", PPM_IPC_RMID);
    ("IPC_INFO", PPM_IPC_INFO);
    ("SEM_INFO", PPM_SEM_INFO);
    ("SEM_STAT", PPM_SEM_STAT);
    ("GETALL", PPM_GETALL);
    ("GETNCNT", PPM_GETNCNT);
    ("GETPID", PPM_GETPID);
    ("GETVAL", PPM_GETVAL);
    ("GETZCNT", PPM_GETZCNT);
    ("SETALL", PPM_SETALL);
    ("SETVAL", PPM_SETVAL) ].

Definition access_flags : list (string * Z) :=
  [ ("F_OK", PPM_F_OK);
    ("R_OK", PPM_R_OK);
    ("W_OK", PPM_W_OK);
    ("X_OK", PPM_X_OK) ].

Definition pf_flags : list (string * Z) :=
  [ ("PROTECTION_VIOLATION", PPM_PF_PROTECTION_VIOLATION);
    ("PAGE_NOT_PRESENT", PPM_PF_PAGE_NOT_PRESENT);
    ("WRITE_ACCESS", PPM_PF_WRITE_ACCESS);
    ("READ_ACCESS", PPM_PF_READ_ACCESS);
    ("USER_FAULT", PPM_PF_USER_FAULT);
    ("SUPERVISOR_FAULT", PPM_PF_SUPERVISOR_FAULT);
    ("RESERVED_PAGE", PPM_PF_RESERVED_PAGE);
    ("INSTRUCTION_FETCH", PPM_PF_INSTRUCTION_FETCH) ].

Definition unlinkat_flags : list (string * Z) :=
  [ ("AT_REMOVEDIR", PPM_AT_REMOVEDIR) ].

Definition linkat_flags : list (string * Z) :=
  [ ("AT_SYMLINK_FOLLOW", PPM_AT_SYMLINK_FOLLOW);
    ("AT_EMPTY_PATH", PPM_AT_EMPTY_PATH) ].

Definition chmod_mode : list (string * Z) :=
  [ ("S_IXOTH", PPM_S_IXOTH);
    ("S_IWOTH", PPM_S_IWOTH);
    ("S_IROTH", PPM_S_IROTH);
    ("S_IXGRP", PPM_S_IXGRP);
    ("S_IWGRP", PPM_S_IWGRP);
    ("S_IRGRP", PPM_S_IRGRP);
    ("S_IXUSR", PPM_S_IXUSR);
    ("S_IWUSR", PPM_S_IWUSR);
    ("S_IRUSR", PPM_S_IRUSR);
    ("S_ISVTX", PPM_S_ISVTX);
    ("S_ISGID", PPM_S_ISGID);
    ("S_ISUID", PPM_S_ISUID) ].

Definition renameat2_flags : list (string * Z) :=
  [ ("RENAME_NOREPLACE", PPM_RENAME_NOREPLACE);
    ("RENAME_EXCHANGE", PPM_RENAME_EXCHANGE);
    ("RENAME_WHITEOUT", PPM_RENAME_WHITEOUT) ].

End flags_table.

(** The table a parameter's [info] pointer names. *)
Definition name_table (t : string) : list (string * Z) :=
  if String.eqb t "socket_families" then flags_table.socket_families else
  if String.eqb t "file_flags" then flags_table.file_flags else
  if String.eqb t "flock_flags" then flags_table.flock_flags else
  if String.eqb t "clone_flags" then flags_table.clone_flags else
  if String.eqb t "futex_operations" then flags_table.futex_operations else
  if String.eqb t "poll_flags" then flags_table.poll_flags else
  if String.eqb t "mount_flags" then flags_table.mount_flags else
  if String.eqb t "umount_flags" then flags_table.umount_flags else
  if String.eqb t "lseek_whence" then flags_table.lseek_whence else
  if String.eqb t "shutdown_how" then flags_table.shutdown_how else
  if String.eqb t "rlimit_resources" then flags_table.rlimit_resources else
  if String.eqb t "fcntl_commands" then flags_table.fcntl_commands else
  if String.eqb t "sockopt_levels" then flags_table.sockopt_levels else
  if String.eqb t "sockopt_options" then flags_table.sockopt_options else
  if String.eqb t "ptrace_requests" then flags_table.ptrace_requests else
  if String.eqb t "prot_flags" then flags_table.prot_flags else
  if String.eqb t "mmap_flags" then flags_table.mmap_flags else
  if String.eqb t "splice_flags" then flags_table.splice_flags else
  if String.eqb t "quotactl_dqi_flags" then flags_table.quotactl_dqi_flags else
  if String.eqb t "quotactl_cmds" then flags_table.quotactl_cmds else
  if String.eqb t "quotactl_types" then flags_table.quotactl_types else
  if String.eqb t "quotactl_quota_fmts" then flags_table.quotactl_quota_fmts else
  if String.eqb t "semop_flags" then flags_table.semop_flags else
  if String.eqb t "semget_flags" then flags_table.semget_flags else
  if String.eqb t "semctl_commands" then flags_table.semctl_commands else
  if String.eqb t "access_flags" then flags_table.access_flags else
  if String.eqb t "pf_flags" then flags_table.pf_flags else
  if String.eqb t "unlinkat_flags" then flags_table.unlinkat_flags else
  if String.eqb t "linkat_flags" then flags_table.linkat_flags else
  if String.eqb t "chmod_mode" then flags_table.chmod_mode else
  if String.eqb t "renameat2_flags" then flags_table.renameat2_flags else
  [].
