(* ===== verification/Flags.v ===== *)
(** * Flag translation: [driver/ppm_flag_helpers.h]

    The kernel's flag words and command numbers are translated to the
    interface's own encoding before they are recorded.  A flag word is
    translated by a sequence of tests ([or_flags]), a command by a switch
    ([switch_to]).  The kernel side of each pair is the x86-64 ABI of a 4.14
    kernel; the tests that such a kernel compiles out are left out. *)

From Stdlib Require Import ZArith Lia List Bool.
From Stdlib Require Import Strings.String.
From stdpp Require Import base tactics list numbers option.
From S2P Require Import Prelude Bytes EventDefs EventTable ValToRing FlagDefs.
Import ListNotations.
Local Open Scope string_scope.
Local Open Scope list_scope.
Local Open Scope Z_scope.

(** ** The kernel's constants. *)

Definition O_WRONLY : Z := 1.
Definition O_RDWR : Z := 2.
Definition O_CREAT : Z := 64.
Definition O_EXCL : Z := 128.
Definition O_TRUNC : Z := 512.
Definition O_APPEND : Z := 1024.
Definition O_NONBLOCK : Z := 2048.
Definition O_DSYNC : Z := 4096.
Definition O_DIRECT : Z := 16384.
Definition O_LARGEFILE : Z := 32768.
Definition O_DIRECTORY : Z := 65536.
Definition O_CLOEXEC : Z := 524288.
Definition __O_SYNC : Z := 1048576.
Definition O_SYNC : Z := Z.lor __O_SYNC O_DSYNC.
Definition __O_TMPFILE : Z := 4194304.
Definition O_TMPFILE : Z := Z.lor __O_TMPFILE O_DIRECTORY.
Definition S_ISUID : Z := 2048.
Definition S_ISGID : Z := 1024.
Definition S_ISVTX : Z := 512.
Definition S_IRUSR : Z := 256.
Definition S_IWUSR : Z := 128.
Definition S_IXUSR : Z := 64.
Definition S_IRGRP : Z := 32.
Definition S_IWGRP : Z := 16.
Definition S_IXGRP : Z := 8.
Definition S_IROTH : Z := 4.
Definition S_IWOTH : Z := 2.
Definition S_IXOTH : Z := 1.
Definition CLONE_VM : Z := 256.
Definition CLONE_FS : Z := 512.
Definition CLONE_FILES : Z := 1024.
Definition CLONE_SIGHAND : Z := 2048.
Definition CLONE_PTRACE : Z := 8192.
Definition CLONE_VFORK : Z := 16384.
Definition CLONE_PARENT : Z := 32768.
Definition CLONE_THREAD : Z := 65536.
Definition CLONE_NEWNS : Z := 131072.
Definition CLONE_SYSVSEM : Z := 262144.
Definition CLONE_SETTLS : Z := 524288.
Definition CLONE_PARENT_SETTID : Z := 1048576.
Definition CLONE_CHILD_CLEARTID : Z := 2097152.
Definition CLONE_UNTRACED : Z := 8388608.
Definition CLONE_CHILD_SETTID : Z := 16777216.
Definition CLONE_NEWCGROUP : Z := 33554432.
Definition CLONE_NEWUTS : Z := 67108864.
Definition CLONE_NEWIPC : Z := 134217728.
Definition CLONE_NEWUSER : Z := 268435456.
Definition CLONE_NEWPID : Z := 536870912.
Definition CLONE_NEWNET : Z := 1073741824.
Definition CLONE_IO : Z := 2147483648.
Definition AF_UNSPEC : Z := 0.
Definition AF_AX25 : Z := 3.
Definition AF_IPX : Z := 4.
Definition AF_APPLETALK : Z := 5.
Definition AF_NETROM : Z := 6.
Definition AF_BRIDGE : Z := 7.
Definition AF_ATMPVC : Z := 8.
Definition AF_X25 : Z := 9.
Definition AF_ROSE : Z := 11.
Definition AF_DECnet : Z := 12.
Definition AF_NETBEUI : Z := 13.
Definition AF_SECURITY : Z := 14.
Definition AF_KEY : Z := 15.
Definition AF_NETLINK : Z := 16.
Definition AF_ROUTE : Z := 16.
Definition AF_PACKET : Z := 17.
Definition AF_ASH : Z := 18.
Definition AF_ECONET : Z := 19.
Definition AF_ATMSVC : Z := 20.
Definition AF_RDS : Z := 21.
Definition AF_SNA : Z := 22.
Definition AF_IRDA : Z := 23.
Definition AF_PPPOX : Z := 24.
Definition AF_WANPIPE : Z := 25.
Definition AF_LLC : Z := 26.
Definition AF_CAN : Z := 29.
Definition AF_TIPC : Z := 30.
Definition AF_BLUETOOTH : Z := 31.
Definition AF_IUCV : Z := 32.
Definition AF_RXRPC : Z := 33.
Definition AF_ISDN : Z := 34.
Definition AF_PHONET : Z := 35.
Definition AF_IEEE802154 : Z := 36.
Definition AF_CAIF : Z := 37.
Definition AF_ALG : Z := 38.
Definition AF_NFC : Z := 39.
Definition PROT_READ : Z := 1.
Definition PROT_WRITE : Z := 2.
Definition PROT_EXEC : Z := 4.
Definition PROT_SEM : Z := 8.
Definition PROT_GROWSDOWN : Z := 16777216.
Definition PROT_GROWSUP : Z := 33554432.
Definition MAP_SHARED : Z := 1.
Definition MAP_PRIVATE : Z := 2.
Definition MAP_FIXED : Z := 16.
Definition MAP_ANONYMOUS : Z := 32.
Definition MAP_32BIT : Z := 64.
Definition MAP_GROWSDOWN : Z := 256.
Definition MAP_DENYWRITE : Z := 2048.
Definition MAP_EXECUTABLE : Z := 4096.
Definition MAP_LOCKED : Z := 8192.
Definition MAP_NORESERVE : Z := 16384.
Definition MAP_POPULATE : Z := 32768.
Definition MAP_NONBLOCK : Z := 65536.
Definition MAP_FILE : Z := 0.
Definition F_DUPFD : Z := 0.
Definition F_GETFD : Z := 1.
Definition F_SETFD : Z := 2.
Definition F_GETFL : Z := 3.
Definition F_SETFL : Z := 4.
Definition F_GETLK : Z := 5.
Definition F_SETLK : Z := 6.
Definition F_SETLKW : Z := 7.
Definition F_SETOWN : Z := 8.
Definition F_GETOWN : Z := 9.
Definition F_SETSIG : Z := 10.
Definition F_GETSIG : Z := 11.
Definition F_SETOWN_EX : Z := 15.
Definition F_GETOWN_EX : Z := 16.
Definition F_OFD_GETLK : Z := 36.
Definition F_OFD_SETLK : Z := 37.
Definition F_OFD_SETLKW : Z := 38.
Definition F_SETLEASE : Z := 1024.
Definition F_GETLEASE : Z := 1025.
Definition F_NOTIFY : Z := 1026.
Definition F_CANCELLK : Z := 1029.
Definition F_DUPFD_CLOEXEC : Z := 1030.
Definition F_SETPIPE_SZ : Z := 1031.
Definition F_GETPIPE_SZ : Z := 1032.
Definition SOL_SOCKET : Z := 1.
Definition SOL_TCP : Z := 6.
Definition SO_DEBUG : Z := 1.
Definition SO_REUSEADDR : Z := 2.
Definition SO_TYPE : Z := 3.
Definition SO_ERROR : Z := 4.
Definition SO_DONTROUTE : Z := 5.
Definition SO_BROADCAST : Z := 6.
Definition SO_SNDBUF : Z := 7.
Definition SO_RCVBUF : Z := 8.
Definition SO_KEEPALIVE : Z := 9.
Definition SO_OOBINLINE : Z := 10.
Definition SO_NO_CHECK : Z := 11.
Definition SO_PRIORITY : Z := 12.
Definition SO_LINGER : Z := 13.
Definition SO_BSDCOMPAT : Z := 14.
Definition SO_REUSEPORT : Z := 15.
Definition SO_PASSCRED : Z := 16.
Definition SO_PEERCRED : Z := 17.
Definition SO_RCVLOWAT : Z := 18.
Definition SO_SNDLOWAT : Z := 19.
Definition SO_RCVTIMEO : Z := 20.
Definition SO_SNDTIMEO : Z := 21.
Definition SO_SECURITY_AUTHENTICATION : Z := 22.
Definition SO_SECURITY_ENCRYPTION_TRANSPORT : Z := 23.
Definition SO_SECURITY_ENCRYPTION_NETWORK : Z := 24.
Definition SO_BINDTODEVICE : Z := 25.
Definition SO_ATTACH_FILTER : Z := 26.
Definition SO_DETACH_FILTER : Z := 27.
Definition SO_PEERNAME : Z := 28.
Definition SO_TIMESTAMP : Z := 29.
Definition SO_ACCEPTCONN : Z := 30.
Definition SO_PEERSEC : Z := 31.
Definition SO_SNDBUFFORCE : Z := 32.
Definition SO_RCVBUFFORCE : Z := 33.
Definition SO_PASSSEC : Z := 34.
Definition SO_TIMESTAMPNS : Z := 35.
Definition SO_MARK : Z := 36.
Definition SO_TIMESTAMPING : Z := 37.
Definition SO_PROTOCOL : Z := 38.
Definition SO_DOMAIN : Z := 39.
Definition SO_RXQ_OVFL : Z := 40.
Definition SO_WIFI_STATUS : Z := 41.
Definition SO_PEEK_OFF : Z := 42.
Definition SO_NOFCS : Z := 43.
Definition SO_LOCK_FILTER : Z := 44.
Definition SO_SELECT_ERR_QUEUE : Z := 45.
Definition SO_BUSY_POLL : Z := 46.
Definition SO_MAX_PACING_RATE : Z := 47.
Definition SO_BPF_EXTENSIONS : Z := 48.
Definition SO_INCOMING_CPU : Z := 49.
Definition SO_ATTACH_BPF : Z := 50.
Definition SO_MEMINFO : Z := 55.
Definition SO_COOKIE : Z := 57.
Definition SO_PEERGROUPS : Z := 59.
Definition POLLIN : Z := 1.
Definition POLLPRI : Z := 2.
Definition POLLOUT : Z := 4.
Definition POLLERR : Z := 8.
Definition POLLHUP : Z := 16.
Definition POLLNVAL : Z := 32.
Definition POLLRDNORM : Z := 64.
Definition POLLRDBAND : Z := 128.
Definition POLLWRNORM : Z := 256.
Definition POLLWRBAND : Z := 512.
Definition POLLRDHUP : Z := 8192.
Definition EPOLLIN : Z := 1.
Definition EPOLLPRI : Z := 2.
Definition EPOLLOUT : Z := 4.
Definition EPOLLERR : Z := 8.
Definition EPOLLHUP : Z := 16.
Definition EPOLLRDHUP : Z := 8192.
Definition EPOLLEXCLUSIVE : Z := 268435456.
Definition EPOLLWAKEUP : Z := 536870912.
Definition EPOLLONESHOT : Z := 1073741824.
Definition EPOLLET : Z := 2147483648.
Definition FUTEX_WAIT : Z := 0.
Definition FUTEX_WAKE : Z := 1.
Definition FUTEX_FD : Z := 2.
Definition FUTEX_REQUEUE : Z := 3.
Definition FUTEX_CMP_REQUEUE : Z := 4.
Definition FUTEX_WAKE_OP : Z := 5.
Definition FUTEX_LOCK_PI : Z := 6.
Definition FUTEX_UNLOCK_PI : Z := 7.
Definition FUTEX_TRYLOCK_PI : Z := 8.
Definition FUTEX_WAIT_BITSET : Z := 9.
Definition FUTEX_WAKE_BITSET : Z := 10.
Definition FUTEX_WAIT_REQUEUE_PI : Z := 11.
Definition FUTEX_CMP_REQUEUE_PI : Z := 12.
Definition FUTEX_PRIVATE_FLAG : Z := 128.
Definition FUTEX_CLOCK_REALTIME : Z := 256.
Definition MAY_EXEC : Z := 1.
Definition MAY_WRITE : Z := 2.
Definition MAY_READ : Z := 4.
Definition RLIMIT_CPU : Z := 0.
Definition RLIMIT_FSIZE : Z := 1.
Definition RLIMIT_DATA : Z := 2.
Definition RLIMIT_STACK : Z := 3.
Definition RLIMIT_CORE : Z := 4.
Definition RLIMIT_RSS : Z := 5.
Definition RLIMIT_NPROC : Z := 6.
Definition RLIMIT_NOFILE : Z := 7.
Definition RLIMIT_MEMLOCK : Z := 8.
Definition RLIMIT_AS : Z := 9.
Definition RLIMIT_LOCKS : Z := 10.
Definition RLIMIT_SIGPENDING : Z := 11.
Definition RLIMIT_MSGQUEUE : Z := 12.
Definition RLIMIT_NICE : Z := 13.
Definition RLIMIT_RTPRIO : Z := 14.
Definition RLIMIT_RTTIME : Z := 15.
Definition SEEK_SET : Z := 0.
Definition SEEK_CUR : Z := 1.
Definition SEEK_END : Z := 2.
Definition IPC_CREAT : Z := 512.
Definition IPC_EXCL : Z := 1024.
Definition IPC_NOWAIT : Z := 2048.
Definition SEM_UNDO : Z := 4096.
Definition IPC_RMID : Z := 0.
Definition IPC_SET : Z := 1.
Definition IPC_STAT : Z := 2.
Definition IPC_INFO : Z := 3.
Definition GETPID : Z := 11.
Definition GETVAL : Z := 12.
Definition GETALL : Z := 13.
Definition GETNCNT : Z := 14.
Definition GETZCNT : Z := 15.
Definition SETVAL : Z := 16.
Definition SETALL : Z := 17.
Definition SEM_STAT : Z := 18.
Definition SEM_INFO : Z := 19.
Definition LOCK_SH : Z := 1.
Definition LOCK_EX : Z := 2.
Definition LOCK_NB : Z := 4.
Definition LOCK_UN : Z := 8.
Definition SUBCMDMASK : Z := 255.
Definition SUBCMDSHIFT : Z := 8.
Definition USRQUOTA : Z := 0.
Definition GRPQUOTA : Z := 1.
Definition Q_SYNC : Z := 8388609.
Definition Q_QUOTAON : Z := 8388610.
Definition Q_QUOTAOFF : Z := 8388611.
Definition Q_GETFMT : Z := 8388612.
Definition Q_GETINFO : Z := 8388613.
Definition Q_SETINFO : Z := 8388614.
Definition Q_GETQUOTA : Z := 8388615.
Definition Q_SETQUOTA : Z := 8388616.
Definition Q_XQUOTAON : Z := 22529.
Definition Q_XQUOTAOFF : Z := 22530.
Definition Q_XGETQUOTA : Z := 22531.
Definition Q_XSETQLIM : Z := 22532.
Definition Q_XGETQSTAT : Z := 22533.
Definition Q_XQUOTARM : Z := 22534.
Definition Q_XQUOTASYNC : Z := 22535.
Definition QFMT_VFS_OLD : Z := 1.
Definition QFMT_VFS_V0 : Z := 2.
Definition QFMT_VFS_V1 : Z := 4.
Definition PTRACE_TRACEME : Z := 0.
Definition PTRACE_PEEKTEXT : Z := 1.
Definition PTRACE_PEEKDATA : Z := 2.
Definition PTRACE_PEEKUSR : Z := 3.
Definition PTRACE_POKETEXT : Z := 4.
Definition PTRACE_POKEDATA : Z := 5.
Definition PTRACE_POKEUSR : Z := 6.
Definition PTRACE_CONT : Z := 7.
Definition PTRACE_KILL : Z := 8.
Definition PTRACE_SINGLESTEP : Z := 9.
Definition PTRACE_GETREGS : Z := 12.
Definition PTRACE_SETREGS : Z := 13.
Definition PTRACE_GETFPREGS : Z := 14.
Definition PTRACE_SETFPREGS : Z := 15.
Definition PTRACE_ATTACH : Z := 16.
Definition PTRACE_DETACH : Z := 17.
Definition PTRACE_GETFPXREGS : Z := 18.
Definition PTRACE_SETFPXREGS : Z := 19.
Definition PTRACE_OLDSETOPTIONS : Z := 21.
Definition PTRACE_SYSCALL : Z := 24.
Definition PTRACE_GET_THREAD_AREA : Z := 25.
Definition PTRACE_SET_THREAD_AREA : Z := 26.
Definition PTRACE_ARCH_PRCTL : Z := 30.
Definition PTRACE_SYSEMU : Z := 31.
Definition PTRACE_SYSEMU_SINGLESTEP : Z := 32.
Definition PTRACE_SINGLEBLOCK : Z := 33.
Definition PTRACE_SETOPTIONS : Z := 16896.
Definition PTRACE_GETEVENTMSG : Z := 16897.
Definition PTRACE_GETSIGINFO : Z := 16898.
Definition PTRACE_SETSIGINFO : Z := 16899.
Definition PTRACE_GETREGSET : Z := 16900.
Definition PTRACE_SETREGSET : Z := 16901.
Definition PTRACE_SEIZE : Z := 16902.
Definition PTRACE_INTERRUPT : Z := 16903.
Definition PTRACE_LISTEN : Z := 16904.
Definition PTRACE_PEEKSIGINFO : Z := 16905.
Definition PTRACE_GETSIGMASK : Z := 16906.
Definition PTRACE_SETSIGMASK : Z := 16907.
Definition AT_REMOVEDIR : Z := 512.
Definition AT_SYMLINK_FOLLOW : Z := 1024.
Definition AT_EMPTY_PATH : Z := 4096.
(** ** The two shapes of translation. *)

(** A sequence of [if (flags & f) res |= p;]. *)
Fixpoint or_flags (flags : Z) (rows : list (Z * Z)) (res : Z) : Z :=
  match rows with
  | [] => res
  | (f, p) :: rows' => or_flags flags rows' (if has_flag flags f then Z.lor res p else res)
  end.

(** A [switch], or a chain of comparisons, that yields a code. *)
Fixpoint switch_to (key : Z) (rows : list (Z * Z)) (dflt : Z) : Z :=
  match rows with
  | [] => dflt
  | (c, p) :: rows' => if key =? c then p else switch_to key rows' dflt
  end.

(** A value converted to [short]. *)
Definition s16 (v : Z) : Z := (v + 2 ^ 15) mod 2 ^ 16 - 2 ^ 15.

(** ** The tests and cases. *)

(** The tests of [open_flags_to_scap], in order. *)
Definition open_flags_rows : list (Z * Z) :=
  [ (O_CREAT, PPM_O_CREAT);
    (O_TMPFILE, PPM_O_TMPFILE);
    (O_APPEND, PPM_O_APPEND);
    (O_DSYNC, PPM_O_DSYNC);
    (O_EXCL, PPM_O_EXCL);
    (O_NONBLOCK, PPM_O_NONBLOCK);
    (O_SYNC, PPM_O_SYNC);
    (O_TRUNC, PPM_O_TRUNC);
    (O_DIRECT, PPM_O_DIRECT);
    (O_DIRECTORY, PPM_O_DIRECTORY);
    (O_LARGEFILE, PPM_O_LARGEFILE);
    (O_CLOEXEC, PPM_O_CLOEXEC) ].

(** The tests of [open_modes_to_scap], in order. *)
Definition open_modes_rows : list (Z * Z) :=
  [ (S_IRUSR, PPM_S_IRUSR);
    (S_IWUSR, PPM_S_IWUSR);
    (S_IXUSR, PPM_S_IXUSR);
    (S_IRGRP, PPM_S_IRGRP);
    (S_IWGRP, PPM_S_IWGRP);
    (S_IXGRP, PPM_S_IXGRP);
    (S_IROTH, PPM_S_IROTH);
    (S_IWOTH, PPM_S_IWOTH);
    (S_IXOTH, PPM_S_IXOTH);
    (S_ISUID, PPM_S_ISUID);
    (S_ISGID, PPM_S_ISGID);
    (S_ISVTX, PPM_S_ISVTX) ].

(** The tests of [clone_flags_to_scap], in order. *)
Definition clone_flags_rows : list (Z * Z) :=
  [ (CLONE_FILES, PPM_CL_CLONE_FILES);
    (CLONE_FS, PPM_CL_CLONE_FS);
    (CLONE_IO, PPM_CL_CLONE_IO);
    (CLONE_NEWIPC, PPM_CL_CLONE_NEWIPC);
    (CLONE_NEWNET, PPM_CL_CLONE_NEWNET);
    (CLONE_NEWNS, PPM_CL_CLONE_NEWNS);
    (CLONE_NEWPID, PPM_CL_CLONE_NEWPID);
    (CLONE_NEWUTS, PPM_CL_CLONE_NEWUTS);
    (CLONE_PARENT_SETTID, PPM_CL_CLONE_PARENT_SETTID);
    (CLONE_PARENT, PPM_CL_CLONE_PARENT);
    (CLONE_PTRACE, PPM_CL_CLONE_PTRACE);
    (CLONE_SIGHAND, PPM_CL_CLONE_SIGHAND);
    (CLONE_SYSVSEM, PPM_CL_CLONE_SYSVSEM);
    (CLONE_THREAD, PPM_CL_CLONE_THREAD);
    (CLONE_UNTRACED, PPM_CL_CLONE_UNTRACED);
    (CLONE_VM, PPM_CL_CLONE_VM);
    (CLONE_NEWUSER, PPM_CL_CLONE_NEWUSER);
    (CLONE_CHILD_CLEARTID, PPM_CL_CLONE_CHILD_CLEARTID);
    (CLONE_CHILD_SETTID, PPM_CL_CLONE_CHILD_SETTID);
    (CLONE_SETTLS, PPM_CL_CLONE_SETTLS);
    (CLONE_VFORK, PPM_CL_CLONE_VFORK);
    (CLONE_NEWCGROUP, PPM_CL_CLONE_NEWCGROUP) ].

(** The tests of [prot_flags_to_scap], in order. *)
Definition prot_flags_rows : list (Z * Z) :=
  [ (PROT_READ, PPM_PROT_READ);
    (PROT_WRITE, PPM_PROT_WRITE);
    (PROT_EXEC, PPM_PROT_EXEC);
    (PROT_SEM, PPM_PROT_SEM);
    (PROT_GROWSDOWN, PPM_PROT_GROWSDOWN);
    (PROT_GROWSUP, PPM_PROT_GROWSUP) ].

(** The tests of [mmap_flags_to_scap], in order. *)
Definition mmap_flags_rows : list (Z * Z) :=
  [ (MAP_SHARED, PPM_MAP_SHARED);
    (MAP_PRIVATE, PPM_MAP_PRIVATE);
    (MAP_FIXED, PPM_MAP_FIXED);
    (MAP_ANONYMOUS, PPM_MAP_ANONYMOUS);
    (MAP_32BIT, PPM_MAP_32BIT);
    (MAP_NORESERVE, PPM_MAP_NORESERVE);
    (MAP_POPULATE, PPM_MAP_POPULATE);
    (MAP_NONBLOCK, PPM_MAP_NONBLOCK);
    (MAP_GROWSDOWN, PPM_MAP_GROWSDOWN);
    (MAP_DENYWRITE, PPM_MAP_DENYWRITE);
    (MAP_EXECUTABLE, PPM_MAP_EXECUTABLE);
    (MAP_FILE, PPM_MAP_FILE);
    (MAP_LOCKED, PPM_MAP_LOCKED) ].

(** The tests of [poll_events_to_scap], in order. *)
Definition poll_events_rows : list (Z * Z) :=
  [ (POLLIN, PPM_POLLIN);
    (PPM_POLLPRI, PPM_POLLPRI);
    (POLLOUT, PPM_POLLOUT);
    (POLLRDHUP, PPM_POLLRDHUP);
    (POLLERR, PPM_POLLERR);
    (POLLHUP, PPM_POLLHUP);
    (POLLNVAL, PPM_POLLNVAL);
    (POLLRDNORM, PPM_POLLRDNORM);
    (POLLRDBAND, PPM_POLLRDBAND);
    (POLLWRNORM, PPM_POLLWRNORM);
    (POLLWRBAND, PPM_POLLWRBAND) ].

(** The tests of [epoll_events_to_scap], in order. *)
Definition epoll_events_rows : list (Z * Z) :=
  [ (EPOLLIN, PPM_EPOLLIN);
    (EPOLLPRI, PPM_EPOLLPRI);
    (EPOLLOUT, PPM_EPOLLOUT);
    (EPOLLRDHUP, PPM_EPOLLRDHUP);
    (EPOLLERR, PPM_EPOLLERR);
    (EPOLLHUP, PPM_EPOLLHUP);
    (EPOLLET, PPM_EPOLLET);
    (EPOLLONESHOT, PPM_EPOLLONESHOT);
    (EPOLLWAKEUP, PPM_EPOLLWAKEUP);
    (EPOLLEXCLUSIVE, PPM_EPOLLEXCLUSIVE) ].

(** The tests of [semop_flags_to_scap], in order. *)
Definition semop_flags_rows : list (Z * Z) :=
  [ (IPC_NOWAIT, PPM_IPC_NOWAIT);
    (SEM_UNDO, PPM_SEM_UNDO) ].

(** The tests of [flock_flags_to_scap], in order. *)
Definition flock_flags_rows : list (Z * Z) :=
  [ (LOCK_EX, PPM_LOCK_EX);
    (LOCK_SH, PPM_LOCK_SH);
    (LOCK_UN, PPM_LOCK_UN);
    (LOCK_NB, PPM_LOCK_NB) ].

(** The tests of [semget_flags_to_scap], in order. *)
Definition semget_flags_rows : list (Z * Z) :=
  [ (IPC_CREAT, PPM_IPC_CREAT);
    (IPC_EXCL, PPM_IPC_EXCL) ].

(** The tests of [unlinkat_flags_to_scap], in order. *)
Definition unlinkat_flags_rows : list (Z * Z) :=
  [ (AT_REMOVEDIR, PPM_AT_REMOVEDIR) ].

(** The tests of [linkat_flags_to_scap], in order. *)
Definition linkat_flags_rows : list (Z * Z) :=
  [ (AT_SYMLINK_FOLLOW, PPM_AT_SYMLINK_FOLLOW);
    (AT_EMPTY_PATH, PPM_AT_EMPTY_PATH) ].

(** The tests of [chmod_mode_to_scap], in order. *)
Definition chmod_mode_rows : list (Z * Z) :=
  [ (S_IRUSR, PPM_S_IRUSR);
    (S_IWUSR, PPM_S_IWUSR);
    (S_IXUSR, PPM_S_IXUSR);
    (S_IRGRP, PPM_S_IRGRP);
    (S_IWGRP, PPM_S_IWGRP);
    (S_IXGRP, PPM_S_IXGRP);
    (S_IROTH, PPM_S_IROTH);
    (S_IWOTH, PPM_S_IWOTH);
    (S_IXOTH, PPM_S_IXOTH);
    (S_ISUID, PPM_S_ISUID);
    (S_ISGID, PPM_S_ISGID);
    (S_ISVTX, PPM_S_ISVTX) ].

(** The cases of [socket_family_to_scap], in order. *)
Definition socket_family_cases : list (Z * Z) :=
  [ (AF_INET, PPM_AF_INET);
    (AF_INET6, PPM_AF_INET6);
    (AF_UNIX, PPM_AF_UNIX);
    (AF_NETLINK, PPM_AF_NETLINK);
    (AF_PACKET, PPM_AF_PACKET);
    (AF_UNSPEC, PPM_AF_UNSPEC);
    (AF_AX25, PPM_AF_AX25);
    (AF_IPX, PPM_AF_IPX);
    (AF_APPLETALK, PPM_AF_APPLETALK);
    (AF_NETROM, PPM_AF_NETROM);
    (AF_BRIDGE, PPM_AF_BRIDGE);
    (AF_ATMPVC, PPM_AF_ATMPVC);
    (AF_X25, PPM_AF_X25);
    (AF_ROSE, PPM_AF_ROSE);
    (AF_DECnet, PPM_AF_DECnet);
    (AF_NETBEUI, PPM_AF_NETBEUI);
    (AF_SECURITY, PPM_AF_SECURITY);
    (AF_KEY, PPM_AF_KEY);
    (AF_ROUTE, PPM_AF_ROUTE);
    (AF_ASH, PPM_AF_ASH);
    (AF_ECONET, PPM_AF_ECONET);
    (AF_ATMSVC, PPM_AF_ATMSVC);
    (AF_RDS, PPM_AF_RDS);
    (AF_SNA, PPM_AF_SNA);
    (AF_IRDA, PPM_AF_IRDA);
    (AF_PPPOX, PPM_AF_PPPOX);
    (AF_WANPIPE, PPM_AF_WANPIPE);
    (AF_LLC, PPM_AF_LLC);
    (AF_CAN, PPM_AF_CAN);
    (AF_TIPC, PPM_AF_TIPC);
    (AF_BLUETOOTH, PPM_AF_BLUETOOTH);
    (AF_IUCV, PPM_AF_IUCV);
    (AF_RXRPC, PPM_AF_RXRPC);
    (AF_ISDN, PPM_AF_ISDN);
    (AF_PHONET, PPM_AF_PHONET);
    (AF_IEEE802154, PPM_AF_IEEE802154);
    (AF_CAIF, PPM_AF_CAIF);
    (AF_ALG, PPM_AF_ALG);
    (AF_NFC, PPM_AF_NFC) ].

(** The cases of [fcntl_cmd_to_scap], in order. *)
Definition fcntl_cmd_cases : list (Z * Z) :=
  [ (F_DUPFD, PPM_FCNTL_F_DUPFD);
    (F_GETFD, PPM_FCNTL_F_GETFD);
    (F_SETFD, PPM_FCNTL_F_SETFD);
    (F_GETFL, PPM_FCNTL_F_GETFL);
    (F_SETFL, PPM_FCNTL_F_SETFL);
    (F_GETLK, PPM_FCNTL_F_GETLK);
    (F_SETLK, PPM_FCNTL_F_SETLK);
    (F_SETLKW, PPM_FCNTL_F_SETLKW);
    (F_SETOWN, PPM_FCNTL_F_SETOWN);
    (F_GETOWN, PPM_FCNTL_F_GETOWN);
    (F_SETSIG, PPM_FCNTL_F_SETSIG);
    (F_GETSIG, PPM_FCNTL_F_GETSIG);
    (F_SETOWN_EX, PPM_FCNTL_F_SETOWN_EX);
    (F_GETOWN_EX, PPM_FCNTL_F_GETOWN_EX);
    (F_SETLEASE, PPM_FCNTL_F_SETLEASE);
    (F_GETLEASE, PPM_FCNTL_F_GETLEASE);
    (F_CANCELLK, PPM_FCNTL_F_CANCELLK);
    (F_DUPFD_CLOEXEC, PPM_FCNTL_F_DUPFD_CLOEXEC);
    (F_NOTIFY, PPM_FCNTL_F_NOTIFY);
    (F_SETPIPE_SZ, PPM_FCNTL_F_SETPIPE_SZ);
    (F_GETPIPE_SZ, PPM_FCNTL_F_GETPIPE_SZ);
    (F_OFD_GETLK, PPM_FCNTL_F_OFD_GETLK);
    (F_OFD_SETLK, PPM_FCNTL_F_OFD_SETLK);
    (F_OFD_SETLKW, PPM_FCNTL_F_OFD_SETLKW) ].

(** The cases of [sockopt_level_to_scap], in order. *)
Definition sockopt_level_cases : list (Z * Z) :=
  [ (SOL_SOCKET, PPM_SOCKOPT_LEVEL_SOL_SOCKET);
    (SOL_TCP, PPM_SOCKOPT_LEVEL_SOL_TCP) ].

(** The cases of [sockopt_optname_to_scap], in order. *)
Definition sockopt_optname_cases : list (Z * Z) :=
  [ (SO_DEBUG, PPM_SOCKOPT_SO_DEBUG);
    (SO_REUSEADDR, PPM_SOCKOPT_SO_REUSEADDR);
    (SO_TYPE, PPM_SOCKOPT_SO_TYPE);
    (SO_ERROR, PPM_SOCKOPT_SO_ERROR);
    (SO_DONTROUTE, PPM_SOCKOPT_SO_DONTROUTE);
    (SO_BROADCAST, PPM_SOCKOPT_SO_BROADCAST);
    (SO_SNDBUF, PPM_SOCKOPT_SO_SNDBUF);
    (SO_RCVBUF, PPM_SOCKOPT_SO_RCVBUF);
    (SO_SNDBUFFORCE, PPM_SOCKOPT_SO_SNDBUFFORCE);
    (SO_RCVBUFFORCE, PPM_SOCKOPT_SO_RCVBUFFORCE);
    (SO_KEEPALIVE, PPM_SOCKOPT_SO_KEEPALIVE);
    (SO_OOBINLINE, PPM_SOCKOPT_SO_OOBINLINE);
    (SO_NO_CHECK, PPM_SOCKOPT_SO_NO_CHECK);
    (SO_PRIORITY, PPM_SOCKOPT_SO_PRIORITY);
    (SO_LINGER, PPM_SOCKOPT_SO_LINGER);
    (SO_BSDCOMPAT, PPM_SOCKOPT_SO_BSDCOMPAT);
    (SO_REUSEPORT, PPM_SOCKOPT_SO_REUSEPORT);
    (SO_PASSCRED, PPM_SOCKOPT_SO_PASSCRED);
    (SO_PEERCRED, PPM_SOCKOPT_SO_PEERCRED);
    (SO_RCVLOWAT, PPM_SOCKOPT_SO_RCVLOWAT);
    (SO_SNDLOWAT, PPM_SOCKOPT_SO_SNDLOWAT);
    (SO_RCVTIMEO, PPM_SOCKOPT_SO_RCVTIMEO);
    (SO_SNDTIMEO, PPM_SOCKOPT_SO_SNDTIMEO);
    (SO_SECURITY_AUTHENTICATION, PPM_SOCKOPT_SO_SECURITY_AUTHENTICATION);
    (SO_SECURITY_ENCRYPTION_TRANSPORT, PPM_SOCKOPT_SO_SECURITY_ENCRYPTION_TRANSPORT);
    (SO_SECURITY_ENCRYPTION_NETWORK, PPM_SOCKOPT_SO_SECURITY_ENCRYPTION_NETWORK);
    (SO_BINDTODEVICE, PPM_SOCKOPT_SO_BINDTODEVICE);
    (SO_ATTACH_FILTER, PPM_SOCKOPT_SO_ATTACH_FILTER);
    (SO_DETACH_FILTER, PPM_SOCKOPT_SO_DETACH_FILTER);
    (SO_PEERNAME, PPM_SOCKOPT_SO_PEERNAME);
    (SO_TIMESTAMP, PPM_SOCKOPT_SO_TIMESTAMP);
    (SO_ACCEPTCONN, PPM_SOCKOPT_SO_ACCEPTCONN);
    (SO_PEERSEC, PPM_SOCKOPT_SO_PEERSEC);
    (SO_PASSSEC, PPM_SOCKOPT_SO_PASSSEC);
    (SO_TIMESTAMPNS, PPM_SOCKOPT_SO_TIMESTAMPNS);
    (SO_MARK, PPM_SOCKOPT_SO_MARK);
    (SO_TIMESTAMPING, PPM_SOCKOPT_SO_TIMESTAMPING);
    (SO_PROTOCOL, PPM_SOCKOPT_SO_PROTOCOL);
    (SO_DOMAIN, PPM_SOCKOPT_SO_DOMAIN);
    (SO_RXQ_OVFL, PPM_SOCKOPT_SO_RXQ_OVFL);
    (SO_WIFI_STATUS, PPM_SOCKOPT_SO_WIFI_STATUS);
    (SO_PEEK_OFF, PPM_SOCKOPT_SO_PEEK_OFF);
    (SO_NOFCS, PPM_SOCKOPT_SO_NOFCS);
    (SO_LOCK_FILTER, PPM_SOCKOPT_SO_LOCK_FILTER);
    (SO_SELECT_ERR_QUEUE, PPM_SOCKOPT_SO_SELECT_ERR_QUEUE);
    (SO_BUSY_POLL, PPM_SOCKOPT_SO_BUSY_POLL);
    (SO_MAX_PACING_RATE, PPM_SOCKOPT_SO_MAX_PACING_RATE);
    (SO_BPF_EXTENSIONS, PPM_SOCKOPT_SO_BPF_EXTENSIONS);
    (SO_INCOMING_CPU, PPM_SOCKOPT_SO_INCOMING_CPU);
    (SO_ATTACH_BPF, PPM_SOCKOPT_SO_ATTACH_BPF);
    (SO_PEERGROUPS, PPM_SOCKOPT_SO_PEERGROUPS);
    (SO_MEMINFO, PPM_SOCKOPT_SO_MEMINFO);
    (SO_COOKIE, PPM_SOCKOPT_SO_COOKIE) ].

(** The cases of [futex_op_to_scap], in order. *)
Definition futex_op_cases : list (Z * Z) :=
  [ (FUTEX_WAIT, PPM_FU_FUTEX_WAIT);
    (FUTEX_WAKE, PPM_FU_FUTEX_WAKE);
    (FUTEX_FD, PPM_FU_FUTEX_FD);
    (FUTEX_REQUEUE, PPM_FU_FUTEX_REQUEUE);
    (FUTEX_CMP_REQUEUE, PPM_FU_FUTEX_CMP_REQUEUE);
    (FUTEX_WAKE_OP, PPM_FU_FUTEX_WAKE_OP);
    (FUTEX_LOCK_PI, PPM_FU_FUTEX_LOCK_PI);
    (FUTEX_UNLOCK_PI, PPM_FU_FUTEX_UNLOCK_PI);
    (FUTEX_TRYLOCK_PI, PPM_FU_FUTEX_TRYLOCK_PI);
    (FUTEX_WAIT_BITSET, PPM_FU_FUTEX_WAIT_BITSET);
    (FUTEX_WAKE_BITSET, PPM_FU_FUTEX_WAKE_BITSET);
    (FUTEX_WAIT_REQUEUE_PI, PPM_FU_FUTEX_WAIT_REQUEUE_PI);
    (FUTEX_CMP_REQUEUE_PI, PPM_FU_FUTEX_CMP_REQUEUE_PI) ].

(** The cases of [rlimit_resource_to_scap], in order. *)
Definition rlimit_resource_cases : list (Z * Z) :=
  [ (RLIMIT_CPU, PPM_RLIMIT_CPU);
    (RLIMIT_FSIZE, PPM_RLIMIT_FSIZE);
    (RLIMIT_DATA, PPM_RLIMIT_DATA);
    (RLIMIT_STACK, PPM_RLIMIT_STACK);
    (RLIMIT_CORE, PPM_RLIMIT_CORE);
    (RLIMIT_RSS, PPM_RLIMIT_RSS);
    (RLIMIT_NPROC, PPM_RLIMIT_NPROC);
    (RLIMIT_NOFILE, PPM_RLIMIT_NOFILE);
    (RLIMIT_MEMLOCK, PPM_RLIMIT_MEMLOCK);
    (RLIMIT_AS, PPM_RLIMIT_AS);
    (RLIMIT_LOCKS, PPM_RLIMIT_LOCKS);
    (RLIMIT_SIGPENDING, PPM_RLIMIT_SIGPENDING);
    (RLIMIT_MSGQUEUE, PPM_RLIMIT_MSGQUEUE);
    (RLIMIT_NICE, PPM_RLIMIT_NICE);
    (RLIMIT_RTPRIO, PPM_RLIMIT_RTPRIO);
    (RLIMIT_RTTIME, PPM_RLIMIT_RTTIME) ].

(** The cases of [lseek_whence_to_scap], in order. *)
Definition lseek_whence_cases : list (Z * Z) :=
  [ (SEEK_SET, PPM_SEEK_SET);
    (SEEK_CUR, PPM_SEEK_CUR);
    (SEEK_END, PPM_SEEK_END) ].

(** The cases of [quotactl_type_to_scap], in order. *)
Definition quotactl_type_cases : list (Z * Z) :=
  [ (USRQUOTA, PPM_USRQUOTA);
    (GRPQUOTA, PPM_GRPQUOTA) ].

(** The cases of [quotactl_cmd_to_scap], in order. *)
Definition quotactl_cmd_cases : list (Z * Z) :=
  [ (Q_SYNC, PPM_Q_SYNC);
    (Q_QUOTAON, PPM_Q_QUOTAON);
    (Q_QUOTAOFF, PPM_Q_QUOTAOFF);
    (Q_GETFMT, PPM_Q_GETFMT);
    (Q_GETINFO, PPM_Q_GETINFO);
    (Q_SETINFO, PPM_Q_SETINFO);
    (Q_GETQUOTA, PPM_Q_GETQUOTA);
    (Q_SETQUOTA, PPM_Q_SETQUOTA);
    (Q_XQUOTAON, PPM_Q_XQUOTAON);
    (Q_XQUOTAOFF, PPM_Q_XQUOTAOFF);
    (Q_XGETQUOTA, PPM_Q_XGETQUOTA);
    (Q_XSETQLIM, PPM_Q_XSETQLIM);
    (Q_XGETQSTAT, PPM_Q_XGETQSTAT);
    (Q_XQUOTARM, PPM_Q_XQUOTARM);
    (Q_XQUOTASYNC, PPM_Q_XQUOTASYNC) ].

(** The cases of [quotactl_fmt_to_scap], in order. *)
Definition quotactl_fmt_cases : list (Z * Z) :=
  [ (QFMT_VFS_OLD, PPM_QFMT_VFS_OLD);
    (QFMT_VFS_V0, PPM_QFMT_VFS_V0);
    (QFMT_VFS_V1, PPM_QFMT_VFS_V1) ].

(** The cases of [semctl_cmd_to_scap], in order. *)
Definition semctl_cmd_cases : list (Z * Z) :=
  [ (IPC_STAT, PPM_IPC_STAT);
    (IPC_SET, PPM_IPC_SET);
    (IPC_RMID, PPM_IPC_RMID);
    (IPC_INFO, PPM_IPC_INFO);
    (SEM_INFO, PPM_SEM_INFO);
    (SEM_STAT, PPM_SEM_STAT);
    (GETALL, PPM_GETALL);
    (GETNCNT, PPM_GETNCNT);
    (GETPID, PPM_GETPID);
    (GETVAL, PPM_GETVAL);
    (GETZCNT, PPM_GETZCNT);
    (SETALL, PPM_SETALL);
    (SETVAL, PPM_SETVAL) ].

(** The cases of [ptrace_requests_to_scap], in order. *)
Definition ptrace_requests_cases : list (Z * Z) :=
  [ (PTRACE_SINGLEBLOCK, PPM_PTRACE_SINGLEBLOCK);
    (PTRACE_SYSEMU_SINGLESTEP, PPM_PTRACE_SYSEMU_SINGLESTEP);
    (PTRACE_SYSEMU, PPM_PTRACE_SYSEMU);
    (PTRACE_ARCH_PRCTL, PPM_PTRACE_ARCH_PRCTL);
    (PTRACE_SET_THREAD_AREA, PPM_PTRACE_SET_THREAD_AREA);
    (PTRACE_GET_THREAD_AREA, PPM_PTRACE_GET_THREAD_AREA);
    (PTRACE_OLDSETOPTIONS, PPM_PTRACE_OLDSETOPTIONS);
    (PTRACE_SETFPXREGS, PPM_PTRACE_SETFPXREGS);
    (PTRACE_GETFPXREGS, PPM_PTRACE_GETFPXREGS);
    (PTRACE_SETFPREGS, PPM_PTRACE_SETFPREGS);
    (PTRACE_GETFPREGS, PPM_PTRACE_GETFPREGS);
    (PTRACE_SETREGS, PPM_PTRACE_SETREGS);
    (PTRACE_GETREGS, PPM_PTRACE_GETREGS);
    (PTRACE_SETSIGMASK, PPM_PTRACE_SETSIGMASK);
    (PTRACE_GETSIGMASK, PPM_PTRACE_GETSIGMASK);
    (PTRACE_PEEKSIGINFO, PPM_PTRACE_PEEKSIGINFO);
    (PTRACE_LISTEN, PPM_PTRACE_LISTEN);
    (PTRACE_INTERRUPT, PPM_PTRACE_INTERRUPT);
    (PTRACE_SEIZE, PPM_PTRACE_SEIZE);
    (PTRACE_SETREGSET, PPM_PTRACE_SETREGSET);
    (PTRACE_GETREGSET, PPM_PTRACE_GETREGSET);
    (PTRACE_SETSIGINFO, PPM_PTRACE_SETSIGINFO);
    (PTRACE_GETSIGINFO, PPM_PTRACE_GETSIGINFO);
    (PTRACE_GETEVENTMSG, PPM_PTRACE_GETEVENTMSG);
    (PTRACE_SETOPTIONS, PPM_PTRACE_SETOPTIONS);
    (PTRACE_SYSCALL, PPM_PTRACE_SYSCALL);
    (PTRACE_DETACH, PPM_PTRACE_DETACH);
    (PTRACE_ATTACH, PPM_PTRACE_ATTACH);
    (PTRACE_SINGLESTEP, PPM_PTRACE_SINGLESTEP);
    (PTRACE_KILL, PPM_PTRACE_KILL);
    (PTRACE_CONT, PPM_PTRACE_CONT);
    (PTRACE_POKEUSR, PPM_PTRACE_POKEUSR);
    (PTRACE_POKEDATA, PPM_PTRACE_POKEDATA);
    (PTRACE_POKETEXT, PPM_PTRACE_POKETEXT);
    (PTRACE_PEEKUSR, PPM_PTRACE_PEEKUSR);
    (PTRACE_PEEKDATA, PPM_PTRACE_PEEKDATA);
    (PTRACE_PEEKTEXT, PPM_PTRACE_PEEKTEXT);
    (PTRACE_TRACEME, PPM_PTRACE_TRACEME) ].

(** ** The translations. *)

Definition open_flags_to_scap (flags : Z) : Z :=
  let acc := Z.land flags (Z.lor O_WRONLY O_RDWR) in
  let res := if acc =? O_WRONLY then PPM_O_WRONLY
             else if acc =? O_RDWR then PPM_O_RDWR
             else PPM_O_RDONLY in
  or_flags flags open_flags_rows res.

Definition open_modes_to_scap (flags modes : Z) : Z :=
  let flags_mask := Z.lor O_CREAT O_TMPFILE in
  if Z.land flags flags_mask =? 0 then 0
  else or_flags modes open_modes_rows 0.

Definition clone_flags_to_scap (flags : Z) : Z := or_flags flags clone_flags_rows 0.

Definition socket_family_to_scap (family : Z) : Z :=
  switch_to (u8 family) socket_family_cases PPM_AF_UNSPEC.

Definition prot_flags_to_scap (prot : Z) : Z := or_flags (s32 prot) prot_flags_rows 0.

Definition mmap_flags_to_scap (flags : Z) : Z := or_flags (s32 flags) mmap_flags_rows 0.

Definition fcntl_cmd_to_scap (cmd : Z) : Z := switch_to cmd fcntl_cmd_cases PPM_FCNTL_UNKNOWN.

Definition sockopt_level_to_scap (level : Z) : Z :=
  switch_to (s32 level) sockopt_level_cases PPM_SOCKOPT_LEVEL_UNKNOWN.

Definition sockopt_optname_to_scap (level optname : Z) : Z :=
  if negb (s32 level =? SOL_SOCKET) then PPM_SOCKOPT_LEVEL_UNKNOWN
  else switch_to (s32 optname) sockopt_optname_cases PPM_SOCKOPT_UNKNOWN.

Definition poll_events_to_scap (revents : Z) : Z := or_flags (s16 revents) poll_events_rows 0.

Definition epoll_events_to_scap (revents : Z) : Z := or_flags (s16 revents) epoll_events_rows 0.

Definition futex_op_to_scap (op : Z) : Z :=
  let flt_op := Z.land op 127 in
  let res := switch_to flt_op futex_op_cases 0 in
  or_flags op [(FUTEX_PRIVATE_FLAG, PPM_FU_FUTEX_PRIVATE_FLAG);
               (FUTEX_CLOCK_REALTIME, PPM_FU_FUTEX_CLOCK_REALTIME)] res.

(** The tests of [access_flags_to_scap], in order. *)
Definition access_flags_rows : list (Z * Z) :=
  [(MAY_EXEC, PPM_X_OK); (MAY_READ, PPM_R_OK); (MAY_WRITE, PPM_W_OK)].

Definition access_flags_to_scap (flags : Z) : Z :=
  if u32 flags =? 0 then PPM_F_OK
  else or_flags (u32 flags) access_flags_rows 0.

Definition rlimit_resource_to_scap (rresource : Z) : Z :=
  switch_to rresource rlimit_resource_cases PPM_RLIMIT_UNKNOWN.

(** The kernel declares [SHUT_RD] as an enumerator, so the tests under
    [#ifdef SHUT_RD] are not compiled. *)
Definition shutdown_how_to_scap (how : Z) : Z := u16 how.

Definition lseek_whence_to_scap (whence : Z) : Z := switch_to whence lseek_whence_cases 0.

Definition semop_flags_to_scap (flags : Z) : Z := or_flags (s16 flags) semop_flags_rows 0.

Definition pf_flags_to_scap (flags : Z) : Z :=
  let res := if has_flag flags 1 then PPM_PF_PROTECTION_VIOLATION
             else PPM_PF_PAGE_NOT_PRESENT in
  let res := if has_flag flags 2 then Z.lor res PPM_PF_WRITE_ACCESS
             else Z.lor res PPM_PF_READ_ACCESS in
  let res := if has_flag flags 4 then Z.lor res PPM_PF_USER_FAULT
             else Z.lor res PPM_PF_SUPERVISOR_FAULT in
  or_flags flags [(8, PPM_PF_RESERVED_PAGE); (16, PPM_PF_INSTRUCTION_FETCH)] res.

Definition flock_flags_to_scap (flags : Z) : Z := or_flags flags flock_flags_rows 0.

Definition quotactl_type_to_scap (cmd : Z) : Z :=
  switch_to (Z.land cmd SUBCMDMASK) quotactl_type_cases 0.

Definition quotactl_cmd_to_scap (cmd : Z) : Z :=
  switch_to (Z.shiftr cmd SUBCMDSHIFT) quotactl_cmd_cases 0.

Definition quotactl_fmt_to_scap (fmt : Z) : Z :=
  switch_to fmt quotactl_fmt_cases PPM_QFMT_NOT_USED.

Definition semget_flags_to_scap (flags : Z) : Z := or_flags (u32 flags) semget_flags_rows 0.

Definition semctl_cmd_to_scap (cmd : Z) : Z := switch_to (u32 cmd) semctl_cmd_cases 0.

Definition ptrace_requests_to_scap (req : Z) : Z :=
  switch_to req ptrace_requests_cases PPM_PTRACE_UNKNOWN.

Definition unlinkat_flags_to_scap (flags : Z) : Z := or_flags flags unlinkat_flags_rows 0.

Definition linkat_flags_to_scap (flags : Z) : Z := or_flags flags linkat_flags_rows 0.

Definition chmod_mode_to_scap (modes : Z) : Z := or_flags modes chmod_mode_rows 0.

(** Membership in a literal list. *)
Ltac find_in := first [apply in_eq | apply in_cons; find_in].

(** ** How libsinsp prints a flag or command parameter.

    The loop of [sinsp_evt::get_param_as_str] over the parameter's name table:
    [initial_val] is the recorded value, [val] what is left of it. *)
Fixpoint resolve_loop (tbl : list (string * Z)) (initial_val val : Z) : list string :=
  match tbl with
  | [] => []
  | (name, value) :: tbl' =>
      if value =? initial_val then [name]
      else if ((value =? 0) && (initial_val =? 0))
              || (negb (value =? 0) && (Z.land val value =? value) && negb (val =? 0))
      then name :: resolve_loop tbl' initial_val (Z.ldiff val value)
      else resolve_loop tbl' initial_val val
  end.

Definition resolve_flags (tbl : list (string * Z)) (val : Z) : list string :=
  resolve_loop tbl val val.

(** ** Bits of a translated word. *)

(** [or_flags] is the union of the codes whose flag is present. *)
Lemma or_flags_lor flags rows : forall res,
  or_flags flags rows res = Z.lor res (or_flags flags rows 0).
Proof.
  induction rows as [|[f p] rows IH]; intros res; simpl; [by rewrite Z.lor_0_r|].
  rewrite IH, (IH (if has_flag flags f then _ else _)).
  destruct (has_flag flags f); [by rewrite Z.lor_0_l, Z.lor_assoc|by rewrite Z.lor_0_l].
Qed.

Lemma or_flags_cons flags f p rows :
  or_flags flags ((f, p) :: rows) 0
  = Z.lor (if has_flag flags f then p else 0) (or_flags flags rows 0).
Proof. simpl. rewrite or_flags_lor. by case_if. Qed.

(** The codes are nonzero and share no bit. *)
Fixpoint disjoint_codes (l : list Z) : bool :=
  match l with
  | [] => true
  | p :: l' => negb (p =? 0) && forallb (fun q => Z.land p q =? 0) l' && disjoint_codes l'
  end.

Lemma disjoint_codes_cons p l :
  disjoint_codes (p :: l) = true ->
  p <> 0 /\ (forall q, In q l -> Z.land p q = 0) /\ disjoint_codes l = true.
Proof.
  simpl. intros H. bool_to_prop. split; [done|]. split; [|done].
  intros q Hq. rewrite forallb_forall in *. apply Z.eqb_eq. eauto.
Qed.

Lemma or_flags_outside flags rows q :
  (forall p, In p (map snd rows) -> Z.land q p = 0) -> Z.land (or_flags flags rows 0) q = 0.
Proof.
  induction rows as [|[f p] rows IH]; intros Hq; [by rewrite Z.land_0_l|].
  rewrite or_flags_cons, Z.land_lor_distr_l, IH, Z.lor_0_r by (intros; apply Hq; simpl; auto).
  case_if; [|by rewrite Z.land_0_l]. rewrite Z.land_comm. apply Hq. simpl. auto.
Qed.

(** A code is present in the translated word exactly when its flag was in the
    original. *)
Lemma or_flags_code flags rows f p :
  disjoint_codes (map snd rows) = true -> In (f, p) rows ->
  Z.land (or_flags flags rows 0) p = if has_flag flags f then p else 0.
Proof.
  induction rows as [|[f1 p1] rows IH]; intros Hd Hin; [done|].
  apply disjoint_codes_cons in Hd as (Hp & Hq & Hd).
  rewrite or_flags_cons, Z.land_lor_distr_l. destruct Hin as [[= -> ->]|Hin].
  - rewrite or_flags_outside, Z.lor_0_r by done.
    case_if; [by rewrite Z.land_diag|by rewrite Z.land_0_l].
  - rewrite (IH Hd Hin). replace (Z.land (if has_flag flags f1 then p1 else 0) p) with 0;
      [by rewrite Z.lor_0_l|].
    case_if; [|by rewrite Z.land_0_l]. symmetry. apply Hq. apply (in_map snd _ _ Hin).
Qed.

(** A small mask does not see a conversion of the word. *)
Lemma has_flag_mod w x f : 0 <= w -> 0 <= f < 2 ^ w -> has_flag (x mod 2 ^ w) f = has_flag x f.
Proof.
  intros Hw Hf. unfold has_flag. f_equal. f_equal.
  rewrite <- (Z.mod_small f (2 ^ w)) by lia. rewrite <- !Z.land_ones by lia.
  rewrite (Z.land_comm f), Z.land_assoc, <- (Z.land_assoc x), Z.land_diag.
  by rewrite Z.land_assoc.
Qed.

Lemma has_flag_s32 x f : 0 <= f < 2 ^ 32 -> has_flag (s32 x) f = has_flag x f.
Proof.
  intros Hf. rewrite <- (has_flag_mod 32 x), <- (has_flag_mod 32 (s32 x)) by lia. f_equal.
  unfold s32. rewrite <- Zminus_mod_idemp_l, Z.mod_mod, Zminus_mod_idemp_l by lia. f_equal. lia.
Qed.

Lemma has_flag_s16 x f : 0 <= f < 2 ^ 16 -> has_flag (s16 x) f = has_flag x f.
Proof.
  intros Hf. rewrite <- (has_flag_mod 16 x), <- (has_flag_mod 16 (s16 x)) by lia. f_equal.
  unfold s16. rewrite <- Zminus_mod_idemp_l, Z.mod_mod, Zminus_mod_idemp_l by lia. f_equal. lia.
Qed.

Lemma or_flags_ext x y rows :
  (forall f p, In (f, p) rows -> has_flag x f = has_flag y f) ->
  forall res, or_flags x rows res = or_flags y rows res.
Proof.
  induction rows as [|[f p] rows IH]; intros H res; [done|]. simpl.
  rewrite (H f p) by (simpl; auto). apply IH. intros; apply (H f0 p0); simpl; auto.
Qed.

(** ** Printing a word of disjoint codes. *)

(** The codes of a name table, without the entry for zero. *)
Definition table_codes (tbl : list (string * Z)) : list Z :=
  List.filter (fun v => negb (v =? 0)) (map snd tbl).

Lemma land_ldiff_disjoint x v u : Z.land v u = 0 -> Z.land (Z.ldiff x v) u = Z.land x u.
Proof.
  intros H. apply Z.bits_inj'. intros n Hn. rewrite !Z.land_spec, Z.ldiff_spec.
  assert (Hb : Z.testbit v n && Z.testbit u n = false) by (by rewrite <- Z.land_spec, H, Z.bits_0).
  destruct (Z.testbit x n), (Z.testbit v n), (Z.testbit u n); done.
Qed.

(** The printed names are those of the codes the word contains. *)
Lemma resolve_loop_names tbl w : forall val,
  w <> 0 -> disjoint_codes (table_codes tbl) = true ->
  (forall v, In v (table_codes tbl) -> Z.land val v = Z.land w v) ->
  resolve_loop tbl w val
  = map fst (List.filter (fun e => negb (snd e =? 0) && (Z.land w (snd e) =? snd e)) tbl).
Proof.
  induction tbl as [|[n v] tbl IH]; intros val Hw Hd Hv; [done|].
  cbn [resolve_loop List.filter snd]. unfold table_codes in *. cbn [map List.filter snd] in *.
  assert (w =? 0 = false) as -> by (by apply Z.eqb_neq). rewrite andb_false_r, orb_false_l.
  destruct (v =? 0) eqn:Ev; cbn [negb andb] in *.
  { bool_to_prop. subst v. assert (0 =? w = false) as -> by (apply Z.eqb_neq; congruence).
    apply IH; auto. }
  apply disjoint_codes_cons in Hd as (Hv0 & Hq & Hd).
  assert (Hrest : forall x, (forall u, In u (List.filter (fun y => negb (y =? 0)) (map snd tbl)) ->
            Z.land x u = Z.land w u) -> forall u, In u
            (List.filter (fun y => negb (y =? 0)) (map snd tbl)) ->
            Z.land (Z.ldiff x v) u = Z.land w u).
  { intros x Hx u Hu. rewrite land_ldiff_disjoint by auto. auto. }
  destruct (v =? w) eqn:Evw.
  - apply Z.eqb_eq in Evw. subst v. rewrite Z.land_diag, Z.eqb_refl. cbn [map fst].
    f_equal. symmetry. rewrite (filter_ext_in _ (fun _ => false)); [by rewrite List.filter_false|]. intros e He. simpl.
    destruct (snd e =? 0) eqn:E0; [done|]. simpl.
    rewrite (Hq (snd e)); [|apply List.filter_In; split; [by apply in_map|by rewrite E0]].
    apply Z.eqb_neq in E0. apply Z.eqb_neq. congruence.
  - rewrite (Hv v) by (by left).
    destruct (Z.land w v =? v) eqn:El; cbn [andb].
    + assert (val =? 0 = false) as ->.
      { apply Z.eqb_neq. intros ->. apply Z.eqb_eq in El.
        rewrite <- (Hv v), Z.land_0_l in El by (by left). congruence. }
      cbn [negb andb map fst]. f_equal. apply IH; [done|done|]. apply Hrest. intros u Hu. apply Hv. by right.
    + apply IH; [done|done|]. intros u Hu. apply Hv. by right.
Qed.

(** ** The flag words that are plain sequences of tests. *)

Definition flag_words : list (string * (Z -> Z) * list (Z * Z)) :=
  [ ("clone_flags", clone_flags_to_scap, clone_flags_rows);
    ("prot_flags", prot_flags_to_scap, prot_flags_rows);
    ("mmap_flags", mmap_flags_to_scap, mmap_flags_rows);
    ("poll_flags", poll_events_to_scap, poll_events_rows);
    ("access_flags", access_flags_to_scap, access_flags_rows);
    ("semop_flags", semop_flags_to_scap, semop_flags_rows);
    ("flock_flags", flock_flags_to_scap, flock_flags_rows);
    ("semget_flags", semget_flags_to_scap, semget_flags_rows);
    ("unlinkat_flags", unlinkat_flags_to_scap, unlinkat_flags_rows);
    ("linkat_flags", linkat_flags_to_scap, linkat_flags_rows);
    ("chmod_mode", chmod_mode_to_scap, chmod_mode_rows) ].

Definition rows_below (w : Z) (rows : list (Z * Z)) : bool :=
  forallb (fun r => (0 <=? fst r) && (fst r <? 2 ^ w)) rows.

Lemma rows_below_in w rows f p :
  rows_below w rows = true -> In (f, p) rows -> 0 <= f < 2 ^ w.
Proof.
  unfold rows_below. rewrite forallb_forall. intros H Hin. specialize (H _ Hin).
  simpl in H. bool_to_prop. lia.
Qed.

Lemma has_flag_zero f : has_flag 0 f = false.
Proof. done. Qed.

Lemma or_flags_zero rows : or_flags 0 rows 0 = 0.
Proof. induction rows as [|[f p] rows IH]; [done|]. rewrite or_flags_cons, IH. done. Qed.

Lemma or_flags_u32 x rows : rows_below 32 rows = true -> or_flags (u32 x) rows 0 = or_flags x rows 0.
Proof. intros H. apply or_flags_ext. intros f p Hin. apply has_flag_mod; [lia|]. eauto using rows_below_in. Qed.
Lemma or_flags_s32 x rows : rows_below 32 rows = true -> or_flags (s32 x) rows 0 = or_flags x rows 0.
Proof. intros H. apply or_flags_ext. intros f p Hin. apply has_flag_s32. eauto using rows_below_in. Qed.
Lemma or_flags_s16 x rows : rows_below 16 rows = true -> or_flags (s16 x) rows 0 = or_flags x rows 0.
Proof. intros H. apply or_flags_ext. intros f p Hin. apply has_flag_s16. eauto using rows_below_in. Qed.

(** The conversions in the prototypes lose nothing the tests look at. *)
Lemma flag_words_or t tr rows :
  In (t, tr, rows) flag_words -> forall flags, tr flags = or_flags flags rows 0.
Proof.
  assert (H : List.Forall (fun e => forall flags, e.1.2 flags = or_flags flags e.2 0) flag_words);
    [|rewrite List.Forall_forall in H; exact (H (t, tr, rows))].
  repeat apply List.Forall_cons; try apply List.Forall_nil; intros flags; cbn [fst snd].
  - reflexivity.
  - by apply or_flags_s32.
  - by apply or_flags_s32.
  - by apply or_flags_s16.
  - unfold access_flags_to_scap. rewrite <- (or_flags_u32 flags) by done.
    destruct (u32 flags =? 0) eqn:E; [|reflexivity]. apply Z.eqb_eq in E as ->. by rewrite or_flags_zero.
  - by apply or_flags_s16.
  - reflexivity.
  - by apply or_flags_u32.
  - reflexivity.
  - reflexivity.
  - reflexivity.
Qed.

Definition flag_word_ok (e : string * (Z -> Z) * list (Z * Z)) : bool :=
  let '(t, _, rows) := e in
  disjoint_codes (map snd rows) && disjoint_codes (table_codes (name_table t))
  && Nat.leb (length (List.filter (fun e => snd e =? 0) (name_table t))) 1
  && forallb (fun r => existsb (fun e => snd e =? snd r) (name_table t)) rows.

Lemma flag_words_ok : forallb flag_word_ok flag_words = true.
Proof. vm_compute. reflexivity. Qed.

Lemma disjoint_codes_in l p : disjoint_codes l = true -> In p l -> p <> 0.
Proof.
  induction l as [|q l IH]; [done|]. intros H Hin. apply disjoint_codes_cons in H as (? & _ & ?).
  destruct Hin as [->|]; auto.
Qed.

(** Codes that share a bit are the same. *)
Lemma disjoint_codes_eq l p q :
  disjoint_codes l = true -> In p l -> In q l -> Z.land p q <> 0 -> p = q.
Proof.
  induction l as [|x l IH]; [done|]. intros Hd Hp Hq Hpq. apply disjoint_codes_cons in Hd as (_ & Hx & Hd).
  destruct Hp as [->|Hp], Hq as [->|Hq]; [done|by destruct (Hpq (Hx q Hq))| |by apply IH].
  destruct Hpq. rewrite Z.land_comm. by apply Hx.
Qed.

Lemma table_codes_in tbl n v : In (n, v) tbl -> v <> 0 -> In v (table_codes tbl).
Proof.
  intros Hin Hv. apply List.filter_In. split; [apply (in_map snd _ _ Hin)|].
  by apply Z.eqb_neq in Hv as ->.
Qed.

(** Only the entry for zero is printed for an empty word. *)
Lemma resolve_zero tbl n :
  le (length (List.filter (fun e : string * Z => snd e =? 0) tbl)) 1 ->
  In n (resolve_flags tbl 0) <-> In (n, 0) tbl.
Proof.
  unfold resolve_flags. induction tbl as [|[m u] tbl IH]; [done|]. cbn [resolve_loop List.filter snd].
  destruct (u =? 0) eqn:E.
  - apply Z.eqb_eq in E as ->. cbn [length]. intros Hl. split; [intros [->|[]]; by left|].
    intros [[= ->]|Hin]; [by left|]. exfalso.
    assert (Hf : In (n, 0) (List.filter (fun e : string * Z => snd e =? 0) tbl))
      by (by apply List.filter_In). destruct (List.filter _ tbl); [done|]. cbn [length] in Hl. lia.
  - cbn [andb orb negb]. rewrite Z.land_0_l, andb_false_r. intros Hl. rewrite (IH Hl).
    split; [by right|]. intros [[= _ ->]|Hin]; [done|done].
Qed.

(** The names of the codes in a word of translated flags. *)
Lemma resolve_word tbl rows flags n :
  disjoint_codes (map snd rows) = true -> disjoint_codes (table_codes tbl) = true ->
  forallb (fun r => existsb (fun e : string * Z => snd e =? snd r) tbl) rows = true ->
  let w := or_flags flags rows 0 in w <> 0 ->
  In n (resolve_flags tbl w) <->
  exists f p, In (f, p) rows /\ In (n, p) tbl /\ has_flag flags f = true.
Proof.
  intros Hr Ht Hnamed w Hw. unfold resolve_flags. rewrite resolve_loop_names by done.
  rewrite in_map_iff. setoid_rewrite List.filter_In. split.
  - intros ([n' v] & <- & Hin & Hb). cbn [fst snd] in *. bool_to_prop. rename H into Hv, H0 into Hwv.
    destruct (existsb (fun p => negb (Z.land v p =? 0)) (map snd rows)) eqn:Ex.
    + apply existsb_exists in Ex as (p & Hp & Hvp). bool_to_prop.
      apply in_map_iff in Hp as ([f p'] & [= ->] & Hfp).
      rewrite forallb_forall in Hnamed. pose proof (Hnamed _ Hfp) as Hx.
      apply existsb_exists in Hx as ([n2 p2] & Hn2 & Hx). cbn [snd] in Hx. apply Z.eqb_eq in Hx as ->.
      pose proof (disjoint_codes_in (map snd rows) p Hr (in_map snd _ _ Hfp)) as Hp0.
      assert (v = p) as -> by (eapply disjoint_codes_eq; [exact Ht| | |done]; by eapply table_codes_in).
      exists f, p. split; [done|]. split; [done|].
      pose proof (or_flags_code flags rows f p Hr Hfp) as Hc. fold w in Hc. rewrite Hwv in Hc.
      destruct (has_flag flags f); [done|]. congruence.
    + exfalso. apply Hv. rewrite <- Hwv. apply or_flags_outside. intros p Hp.
      apply Z.eqb_eq. destruct (Z.land v p =? 0) eqn:E; [done|].
      assert (existsb (fun p => negb (Z.land v p =? 0)) (map snd rows) = true); [|congruence].
      apply existsb_exists. exists p. by rewrite E.
  - intros (f & p & Hfp & Hn & Hf). exists (n, p). split; [done|]. split; [done|]. cbn [snd].
    pose proof (or_flags_code flags rows f p Hr Hfp) as Hc. fold w in Hc. rewrite Hf in Hc.
    pose proof (disjoint_codes_in (map snd rows) p Hr (in_map snd _ _ Hfp)) as Hp0.
    rewrite Hc, Z.eqb_refl. apply Z.eqb_neq in Hp0 as ->. done.
Qed.



(** ** Commands and identifiers. *)

(** The translations by a switch, with the name table of the parameter. *)
Definition command_tables : list (string * list (Z * Z)) :=
  [ ("socket_families", socket_family_cases); ("fcntl_commands", fcntl_cmd_cases);
    ("sockopt_levels", sockopt_level_cases); ("sockopt_options", sockopt_optname_cases);
    ("futex_operations", futex_op_cases); ("rlimit_resources", rlimit_resource_cases);
    ("lseek_whence", lseek_whence_cases); ("quotactl_types", quotactl_type_cases);
    ("quotactl_cmds", quotactl_cmd_cases); ("quotactl_quota_fmts", quotactl_fmt_cases);
    ("semctl_commands", semctl_cmd_cases); ("ptrace_requests", ptrace_requests_cases) ].

(** What is printed for the code of a command: one name, with that code. *)
Definition one_name (t : string) (code : Z) : bool :=
  match resolve_flags (name_table t) code with
  | [n] => existsb (fun e => String.eqb (fst e) n && (snd e =? code)) (name_table t)
  | _ => false
  end.

(** The two file lock commands whose code follows a smaller one in the table. *)
Definition ofd_lock (t : string) (c : Z) : bool :=
  String.eqb t "fcntl_commands" && ((c =? F_OFD_GETLK) || (c =? F_OFD_SETLK)).

Definition command_ok (e : string * list (Z * Z)) : bool :=
  let '(t, rows) := e in
  forallb (fun r =>
    (switch_to (fst r) rows (-1) =? snd r) && (0 <=? snd r)
    && forallb (fun q => negb (snd q =? snd r) || (fst q =? fst r)) rows
    && Bool.eqb (one_name t (snd r)) (negb (ofd_lock t (fst r)))) rows.

Lemma command_tables_ok : forallb command_ok command_tables = true.
Proof. vm_compute. reflexivity. Qed.

(** A case that exists hides the default. *)
Lemma switch_to_default key rows d p :
  switch_to key rows d = p -> p <> d -> forall d', switch_to key rows d' = p.
Proof.
  induction rows as [|[c q] rows IH]; simpl; intros H Hd d'; [congruence|].
  destruct (key =? c); eauto.
Qed.

Lemma one_name_spec t code :
  one_name t code = true <->
  exists n, resolve_flags (name_table t) code = [n] /\ In (n, code) (name_table t).
Proof.
  unfold one_name. split.
  - destruct (resolve_flags _ _) as [|n [|]]; try done. intros H. exists n. split; [done|].
    apply existsb_exists in H as ([m v] & Hin & Hb). simpl in Hb. bool_to_prop.
    match goal with H : String.eqb _ _ = true |- _ => apply String.eqb_eq in H end.
    by subst.
  - intros (n & -> & Hin). apply existsb_exists. exists (n, code). split; [done|].
    by rewrite String.eqb_refl, Z.eqb_refl.
Qed.

(** Every command and identifier the driver translates by a switch has a
    code of its own, and libsinsp prints that code as exactly one name, the one
    its table gives the code, except for the fcntl commands [F_OFD_GETLK] and
    [F_OFD_SETLK]: their codes come after codes they contain as bits, and the
    printing loop lists those names as well. *)
Theorem commands_print (t : string) (rows : list (Z * Z)) (c p : Z) :
  In (t, rows) command_tables -> In (c, p) rows ->
  (forall dflt, switch_to c rows dflt = p) /\
  (forall c', In (c', p) rows -> c' = c) /\
  ((exists n, resolve_flags (name_table t) p = [n] /\ In (n, p) (name_table t)) <->
   ~ (t = "fcntl_commands" /\ (c = F_OFD_GETLK \/ c = F_OFD_SETLK))).
Proof.
  intros Ht Hin. pose proof command_tables_ok as Hok. rewrite forallb_forall in Hok.
  specialize (Hok _ Ht). cbn [command_ok] in Hok. rewrite forallb_forall in Hok.
  specialize (Hok _ Hin). cbn [fst snd] in Hok. bool_to_prop.
  split; [intros d; eapply switch_to_default; [eassumption|lia]|]. split.
  - intros c' Hc'.
    match goal with H : forallb _ rows = true |- _ =>
      rewrite forallb_forall in H; specialize (H _ Hc'); cbn [fst snd] in H;
      rewrite Z.eqb_refl in H; simpl in H; by apply Z.eqb_eq in H end.
  - rewrite <- one_name_spec.
    match goal with H : Bool.eqb _ _ = true |- _ => apply eqb_prop in H as -> end.
    unfold ofd_lock. rewrite negb_true_iff, <- not_true_iff_false, andb_true_iff, orb_true_iff,
      String.eqb_eq, !Z.eqb_eq. done.
Qed.

Lemma commands_print_witness :
  (forall dflt, switch_to F_SETFL fcntl_cmd_cases dflt = PPM_FCNTL_F_SETFL) /\
  (exists n, resolve_flags (name_table "fcntl_commands") PPM_FCNTL_F_SETFL = [n]) /\
  ~ (exists n, resolve_flags (name_table "fcntl_commands") PPM_FCNTL_F_OFD_GETLK = [n] /\
       In (n, PPM_FCNTL_F_OFD_GETLK) (name_table "fcntl_commands")).
Proof.
  destruct (commands_print "fcntl_commands" fcntl_cmd_cases F_SETFL PPM_FCNTL_F_SETFL)
    as (H1 & _ & H2); [find_in..|].
  destruct (commands_print "fcntl_commands" fcntl_cmd_cases F_OFD_GETLK PPM_FCNTL_F_OFD_GETLK)
    as (_ & _ & H3); [find_in..|].
  split; [exact H1|]. split.
  - destruct H2 as [_ H2]. destruct H2 as (n & Hn & _); [|by exists n].
    intros [_ [H|H]]; vm_compute in H; discriminate H.
  - intros H. apply H3 in H. apply H. split; [reflexivity|]. left. reflexivity.
Defined.

(** ** Open flags. *)

Lemma lor_below w a b : 0 <= w -> 0 <= a < 2 ^ w -> 0 <= b < 2 ^ w -> 0 <= Z.lor a b < 2 ^ w.
Proof.
  intros Hw Ha Hb. replace (Z.lor a b) with (Z.lor a b mod 2 ^ w); [apply Z.mod_pos_bound; lia|].
  rewrite <- Z.land_ones, Z.land_lor_distr_l, !Z.land_ones, !Z.mod_small by lia. done.
Qed.

Lemma or_flags_below w flags rows : forall res,
  0 <= w -> forallb (fun r => (0 <=? snd r) && (snd r <? 2 ^ w)) rows = true ->
  0 <= res < 2 ^ w -> 0 <= or_flags flags rows res < 2 ^ w.
Proof.
  induction rows as [|[f p] rows IH]; intros res Hw Hr Hres; [done|].
  cbn [forallb snd] in Hr. apply andb_true_iff in Hr as [Hp Hr]. bool_to_prop. simpl.
  apply IH; [done|done|]. case_if; [|done]. apply lor_below; lia.
Qed.

Definition printed (n : string) (l : list string) : bool := existsb (String.eqb n) l.

Lemma printed_spec n l : printed n l = true <-> In n l.
Proof.
  unfold printed. rewrite existsb_exists. split.
  - intros (m & Hin & Hb). by apply String.eqb_eq in Hb as ->.
  - intros H. exists n. split; [done|apply String.eqb_refl].
Qed.

(** The names printed for an open flags word, for every word of fourteen bits:
    one name per code above the access mode, and one name for the access mode. *)
Definition open_names_ok (tbl : list (string * Z)) (v : Z) : bool :=
  let names := resolve_flags tbl v in
  forallb (fun e => ((snd e <? 4) || Bool.eqb (printed (fst e) names) (has_flag v (snd e)))) tbl
  && ((Z.land v 3 =? 0)
      || (Bool.eqb (printed "O_RDWR" names) (Z.land v 3 =? 3)
          && Bool.eqb (printed "O_WRONLY" names) (Z.land v 3 =? 2)
          && Bool.eqb (printed "O_RDONLY" names) (Z.land v 3 =? 1))).

(** All words of [n] bits. *)
Fixpoint words (n : nat) : list Z :=
  match n with
  | O => [0]
  | S n' => flat_map (fun v => [2 * v; 2 * v + 1]) (words n')
  end.

Lemma in_words n : forall v, 0 <= v < 2 ^ Z.of_nat n -> In v (words n).
Proof.
  induction n as [|n IH]; intros v Hv; [simpl in *; lia|].
  rewrite Nat2Z.inj_succ, Z.pow_succ_r in Hv by lia. cbn [words]. apply in_flat_map.
  exists (v / 2). pose proof (Z.div_mod v 2). pose proof (Z.mod_pos_bound v 2).
  split; [apply IH; lia|]. simpl. lia.
Qed.

Lemma open_names_ok_all : forallb (open_names_ok flags_table.file_flags) (words 14) = true.
Proof. vm_compute. reflexivity. Qed.

Lemma open_names v : 0 <= v < 2 ^ 14 -> open_names_ok flags_table.file_flags v = true.
Proof.
  intros Hv. pose proof open_names_ok_all as H. rewrite forallb_forall in H.
  exact (H v (in_words 14 v Hv)).
Qed.

Lemma open_names_bit tbl v n p :
  open_names_ok tbl v = true -> In (n, p) tbl -> 4 <= p ->
  printed n (resolve_flags tbl v) = has_flag v p.
Proof.
  intros Hv Hin Hp. unfold open_names_ok in Hv.
  apply andb_true_iff in Hv as [Hv _]. rewrite forallb_forall in Hv. specialize (Hv _ Hin).
  apply orb_true_iff in Hv as [Hv|Hv]; [cbn [snd] in Hv; bool_to_prop; lia|].
  by apply eqb_prop in Hv.
Qed.

Lemma open_names_access tbl v :
  open_names_ok tbl v = true -> Z.land v 3 <> 0 ->
  printed "O_RDWR" (resolve_flags tbl v) = (Z.land v 3 =? 3) /\
  printed "O_WRONLY" (resolve_flags tbl v) = (Z.land v 3 =? 2) /\
  printed "O_RDONLY" (resolve_flags tbl v) = (Z.land v 3 =? 1).
Proof.
  intros Hv Ha. unfold open_names_ok in Hv.
  apply andb_true_iff in Hv as [_ Hv]. apply Z.eqb_neq in Ha. rewrite Ha in Hv.
  cbn [orb] in Hv. apply andb_true_iff in Hv as [Hv H1]. apply andb_true_iff in Hv as [Hv H2].
  apply eqb_prop in Hv, H1, H2. done.
Qed.

Lemma open_flags_below flags : 0 <= open_flags_to_scap flags < 2 ^ 14.
Proof.
  apply or_flags_below; [lia|vm_compute; reflexivity|].
  repeat case_if; vm_compute; split; congruence.
Qed.

(** The access mode the driver records. *)
Definition open_access (flags : Z) : Z :=
  let acc := Z.land flags (Z.lor O_WRONLY O_RDWR) in
  if acc =? O_WRONLY then PPM_O_WRONLY else if acc =? O_RDWR then PPM_O_RDWR else PPM_O_RDONLY.

Lemma open_flags_code flags f p :
  In (f, p) open_flags_rows -> has_flag (open_flags_to_scap flags) p = has_flag flags f.
Proof.
  intros Hin. unfold has_flag at 1. unfold open_flags_to_scap.
  rewrite or_flags_lor, Z.land_lor_distr_l, (or_flags_code flags open_flags_rows f p)
    by (done || by vm_compute).
  fold (open_access flags). assert (Z.land (open_access flags) p = 0 /\ p <> 0) as [-> Hp].
  { unfold open_access. simpl in Hin. intuition simplify_eq; repeat case_if; done. }
  rewrite Z.lor_0_l. destruct (has_flag flags f); [by apply Z.eqb_neq in Hp as ->|done].
Qed.

Lemma open_flags_access flags : Z.land (open_flags_to_scap flags) 3 = open_access flags.
Proof.
  unfold open_flags_to_scap. rewrite or_flags_lor, Z.land_lor_distr_l, or_flags_outside, Z.lor_0_r.
  - fold (open_access flags). unfold open_access. repeat case_if; done.
  - intros p Hp. simpl in Hp. intuition (subst; done).
Qed.

Lemma open_rows_codes f p : In (f, p) open_flags_rows -> 4 <= p.
Proof. simpl. intros H. intuition simplify_eq; done. Qed.

Lemma has_flag_lor x f g :
  has_flag x f = true \/ has_flag x g = true -> has_flag x (Z.lor f g) = true.
Proof.
  unfold has_flag. rewrite !negb_true_iff, !Z.eqb_neq, Z.land_lor_distr_r, Z.lor_eq_0_iff. tauto.
Qed.

Lemma open_access_spec flags :
  let acc := Z.land flags 3 in
  open_access flags <> 0 /\
  (open_access flags = 3 <-> acc = O_RDWR) /\ (open_access flags = 2 <-> acc = O_WRONLY) /\
  (open_access flags = 1 <-> acc <> O_RDWR /\ acc <> O_WRONLY).
Proof.
  intros acc. unfold open_access. change (Z.lor O_WRONLY O_RDWR) with 3. fold acc.
  clearbody acc. unfold O_WRONLY, O_RDWR.
  change PPM_O_WRONLY with 2. change PPM_O_RDWR with 3. change PPM_O_RDONLY with 1.
  destruct (acc =? 1) eqn:E1; [|destruct (acc =? 2) eqn:E2]; bool_to_prop; subst; lia.
Qed.

(** What libsinsp prints for the recorded open flags: each translated flag
    is named exactly when one of the bits of its kernel constant is in the
    argument, and the access mode is named by exactly one of [O_RDONLY],
    [O_WRONLY] and [O_RDWR].  As [O_TMPFILE] and [O_SYNC] have two bits in the
    kernel, opening a directory also prints [O_TMPFILE] and records the mode
    argument, and [O_DSYNC] also prints [O_SYNC]. *)
Theorem open_flags_print (flags modes : Z) :
  let names := resolve_flags flags_table.file_flags (open_flags_to_scap flags) in
  let acc := Z.land flags 3 in
  (forall n f p, In (f, p) open_flags_rows -> In (n, p) flags_table.file_flags ->
     (In n names <-> has_flag flags f = true)) /\
  (In "O_RDWR" names <-> acc = O_RDWR) /\
  (In "O_WRONLY" names <-> acc = O_WRONLY) /\
  (In "O_RDONLY" names <-> acc <> O_RDWR /\ acc <> O_WRONLY) /\
  (has_flag flags O_DIRECTORY = true ->
     In "O_TMPFILE" names /\ open_modes_to_scap flags modes = chmod_mode_to_scap modes) /\
  (has_flag flags O_DSYNC = true -> In "O_SYNC" names).
Proof.
  intros names acc. pose proof (open_names _ (open_flags_below flags)) as Hb.
  assert (Hname : forall n f p, In (f, p) open_flags_rows -> In (n, p) flags_table.file_flags ->
            (In n names <-> has_flag flags f = true)).
  { intros n f p Hf Hn. rewrite <- printed_spec, <- (open_flags_code flags f p Hf).
    unfold names. rewrite (open_names_bit _ _ n p Hb Hn); [done|exact (open_rows_codes f p Hf)]. }
  destruct (open_names_access _ _ Hb) as (Hrw & Hw & Hr);
    [rewrite open_flags_access; apply open_access_spec|].
  rewrite open_flags_access in Hrw, Hw, Hr. fold names in Hrw, Hw, Hr.
  destruct (open_access_spec flags) as (_ & Erw & Ew & Er).
  split; [exact Hname|]. split; [by rewrite <- printed_spec, Hrw, Z.eqb_eq|].
  split; [by rewrite <- printed_spec, Hw, Z.eqb_eq|].
  split; [by rewrite <- printed_spec, Hr, Z.eqb_eq|]. split; intros Hd.
  - assert (Ht : has_flag flags O_TMPFILE = true) by (apply has_flag_lor; auto).
    split; [apply (Hname "O_TMPFILE" O_TMPFILE PPM_O_TMPFILE); [find_in..|exact Ht]|].
    unfold open_modes_to_scap. assert (Hm : has_flag flags (Z.lor O_CREAT O_TMPFILE) = true)
      by (apply has_flag_lor; auto).
    apply negb_true_iff in Hm. by rewrite Hm.
  - apply (Hname "O_SYNC" O_SYNC PPM_O_SYNC); [find_in..|]. apply has_flag_lor. auto.
Qed.
