(* ===== verification/Fillers.v ===== *)
(** * Fillers: [driver/ppm_fillers.c] and the automatic filler of
    [driver/ppm_events.c]

    A filler is a function on the filler state that returns a result code.
    [push] is the code's idiom "call [val_to_ring], return on failure";
    [FillerOK] is what the ring writer relies on, [FillerPushes n] adds that
    a successful filler recorded exactly [n] parameters.  Both are proved for a
    filler by composing the instances for its steps. *)

From Stdlib Require Import Strings.String.
From Stdlib Require Import Strings.Byte.
From Stdlib Require Import ZArith Lia List Bool.
From stdpp Require Import base tactics list numbers option.
From S2P Require Import Prelude Bytes EventDefs EventTable FillerTable ValToRing.
From S2P Require Import ValToRingSpec.
Import ListNotations.
Local Open Scope Z_scope.

Definition filler : Type := fstate -> fstate * Z.

(** [res = val_to_ring(...); if (res != PPM_SUCCESS) return res;] *)
Definition push (k : kenv) (val val_len : Z) (fromuser : bool) (dyn_idx : Z)
    (next : filler) : filler :=
  fun s =>
    let '(s', res) := val_to_ring k s val val_len fromuser dyn_idx in
    if negb (res =? PPM_SUCCESS) then (s', res) else next s'.

(** An assignment to a field of [args]. *)
Definition assign (f : event_filler_arguments -> event_filler_arguments) (next : filler) :
    filler :=
  fun s => next (set_args s (f (args s))).

(** A branch that reads the state. *)
Definition with_state (f : fstate -> filler) : filler := fun s => f s s.

Definition fail (code : Z) : filler := fun s => (s, code).

(** [add_sentinel]; the driver is built without [PPM_ENABLE_SENTINEL]. *)
Definition add_sentinel : filler := fun s => (s, PPM_SUCCESS).

(** ** The automatic filler. *)

Fixpoint autofill_loop (k : kenv) (pt : autofill_paramtype) (l : list ppm_autofill_arg) :
    filler :=
  match l with
  | [] => add_sentinel
  | a :: l' =>
      if 0 <=? af_id a then
        with_state (fun s =>
          let val := if is_socketcall (args s)
                        && match pt with APT_SOCK => true | APT_REG => false end
                     then nth (Z.to_nat (af_id a)) (socketcall_args (args s)) 0
                     else sc_arg k (Z.to_nat (af_id a)) in
          push k val 0 true 0 (autofill_loop k pt l'))
      else if af_id a =? AF_ID_RETVAL then
        push k (syscall_retval k) 0 false 0 (autofill_loop k pt l')
      else if af_id a =? AF_ID_USEDEFAULT then
        push k (default_val a) 0 false 0 (autofill_loop k pt l')
      else autofill_loop k pt l'
  end.

Definition f_sys_autofill (k : kenv) : filler :=
  with_state (fun s =>
    match g_ppm_events (event_type (args s)) with
    | Some evinfo =>
        autofill_loop k (paramtype evinfo)
          (take (Z.to_nat (n_autofill_args evinfo)) (autofill_args evinfo))
    | None => add_sentinel
    end).

(** ** The first fillers of [ppm_fillers.c]. *)

Definition SYSCALL_TABLE_ID0 : Z := 0.
Definition SYSCALL_TABLE_SIZE : Z := 512.

Definition f_sys_generic (k : kenv) : filler :=
  with_state (fun s =>
    let a := args s in
    let table_index := syscall_id a - SYSCALL_TABLE_ID0 in
    if syscall_id a =? socketcall_syscall a then fail PPM_FAILURE_BUG
    else if (0 <=? table_index) && (table_index <? SYSCALL_TABLE_SIZE) then
      push k (code_routing_table a table_index) 0 false 0
        (with_state (fun s1 =>
           if event_type (args s1) =? PPME_GENERIC_E
           then push k (syscall_id (args s1)) 0 false 0 add_sentinel
           else add_sentinel))
    else push k (literal_addr k) 0 false 0 add_sentinel).

Definition f_sys_empty : filler := add_sentinel.

Definition f_sys_single (k : kenv) : filler := push k (sc_arg k 0) 0 true 0 add_sentinel.

Definition f_sys_single_x (k : kenv) : filler :=
  push k (syscall_retval k) 0 false 0 add_sentinel.

Definition f_sys_read_x (k : kenv) : filler :=
  assign (fun a => set_fd a (s32 (sc_arg k 0)))
    (push k (syscall_retval k) 0 false 0
      (let val := if syscall_retval k <? 0 then 0 else sc_arg k 1 in
       let bufsize := if syscall_retval k <? 0 then 0 else syscall_retval k in
       assign (fun a => set_enforce_snaplen a true)
         (push k val bufsize true 0 add_sentinel))).

Definition f_sys_write_x (k : kenv) : filler :=
  assign (fun a => set_fd a (s32 (sc_arg k 0)))
    (push k (syscall_retval k) 0 false 0
      (let bufsize := sc_arg k 2 in
       assign (fun a => set_enforce_snaplen a true)
         (push k (sc_arg k 1) bufsize true 0 add_sentinel))).

(** ** The contract. *)

Definition filler_post (n : option nat) (s s' : fstate) (ps : list (list byte)) (r : Z) : Prop :=
  writes_within s s' /\ same_event (args s) (args s') /\
  (r = PPM_SUCCESS -> exists qs, filled s' (ps ++ qs) /\
     match n with Some n => length qs = n | None => True end).

Class FillerOK (f : filler) : Prop :=
  filler_ok s ps s' r : filled s ps -> f s = (s', r) -> filler_post None s s' ps r.

(** What the ring writer relies on: every callback keeps the contract on the
    events whose table entry names it. *)
Class FillersOK (fillers : ppm_filler_id -> filler) : Prop :=
  fillers_ok t e s ps s' r :
    g_ppm_events t = Some e -> event_type (args s) = t -> filled s ps ->
    fillers (filler_id e) s = (s', r) -> filler_post None s s' ps r.

Class FillerPushes (n : nat) (f : filler) : Prop :=
  filler_pushes s ps s' r : filled s ps -> f s = (s', r) -> filler_post (Some n) s s' ps r.

(** An assignment that leaves the cursor and the area alone. *)
Class KeepsArea (f : event_filler_arguments -> event_filler_arguments) : Prop :=
  keeps_area a : same_event a (f a) /\ curarg (f a) = curarg a /\
    arg_data_offset (f a) = arg_data_offset a /\ arg_data_size (f a) = arg_data_size a /\
    consumer (f a) = consumer a.

#[export] Instance set_fd_keeps g : KeepsArea (fun a => set_fd a (g a)).
Proof. intros a. repeat split. Qed.

#[export] Instance set_enforce_keeps b : KeepsArea (fun a => set_enforce_snaplen a b).
Proof. intros a. repeat split. Qed.

Lemma filled_same_area s s' ps :
  filled s ps -> rmem s' = rmem s -> same_event (args s) (args s') ->
  curarg (args s') = curarg (args s) -> arg_data_offset (args s') = arg_data_offset (args s) ->
  arg_data_size (args s') = arg_data_size (args s) -> consumer (args s') = consumer (args s) ->
  filled s' ps.
Proof.
  intros [Fc Fn Fm Fo Fs Fr Fsn Fu Fl Fd] Hm (Hb & Hbs & Hna & _) Hc Ho Hz Hcs.
  split; rewrite ?Hm, ?Hb, ?Hbs, ?Hna, ?Hc, ?Ho, ?Hz, ?Hcs; auto.
Qed.

Lemma same_event_trans a b c : same_event a b -> same_event b c -> same_event a c.
Proof. unfold same_event. intuition congruence. Qed.

Lemma writes_within_trans s1 s2 s3 :
  same_event (args s1) (args s2) -> writes_within s1 s2 -> writes_within s2 s3 ->
  writes_within s1 s3.
Proof.
  intros (Hb & Hs & _) H1 H2 x Hx. rewrite H2, H1; [done|done|]. rewrite Hb, Hs. done.
Qed.

(** Running [f] after a step that recorded [p]. *)
Lemma filler_post_step n s s1 s' ps (qs0 : list (list byte)) r :
  same_event (args s) (args s1) -> writes_within s s1 ->
  filler_post n s1 s' (ps ++ qs0) r ->
  filler_post (option_map (Nat.add (length qs0)) n) s s' ps r.
Proof.
  intros Hse Hw (Hw' & Hse' & Hr). split; [by eapply writes_within_trans|].
  split; [by eapply same_event_trans|]. intros H0. destruct (Hr H0) as (qs & F & Hn).
  exists (qs0 ++ qs). rewrite app_assoc. split; [done|].
  destruct n; simpl; [|done]. rewrite length_app. lia.
Qed.

Section contract.
Context (k : kenv) (user : mem) `{!KernelOK k user}.

Lemma push_post n val val_len fu di next s ps s' r :
  (forall s1 p, filled s1 (ps ++ [p]) -> next s1 = (s', r) ->
     filler_post n s1 s' (ps ++ [p]) r) ->
  filled s ps -> push k val val_len fu di next s = (s', r) ->
  filler_post (option_map S n) s s' ps r.
Proof.
  intros Hn F H. unfold push in H.
  destruct (val_to_ring _ _ _ _ _ _) as [s1 r1] eqn:E.
  destruct (val_to_ring_ok k user _ _ _ _ _ _ _ _ F E) as (Hw & Hse & _ & Hres).
  case_in H; bool_to_prop.
  - simplify_eq. split; [done|]. split; [done|]. intros; congruence.
  - destruct Hres as [[_ F1]|[Hr|[Hr|[Hr _]]]]; [|subst; discriminate..].
    exact (filler_post_step _ _ _ _ _ _ _ Hse Hw (Hn _ _ F1 H)).
Qed.

#[export] Instance push_ok val val_len fu di next :
  FillerOK next -> FillerOK (push k val val_len fu di next).
Proof. intros Hn s ps s' r F H. exact (push_post None _ _ _ _ _ _ _ _ _ (fun s1 p => Hn s1 _ _ _) F H). Qed.

#[export] Instance push_pushes n val val_len fu di next :
  FillerPushes n next -> FillerPushes (S n) (push k val val_len fu di next).
Proof. intros Hn s ps s' r F H. exact (push_post (Some n) _ _ _ _ _ _ _ _ _ (fun s1 p => Hn s1 _ _ _) F H). Qed.

Lemma assign_post n f `{!KeepsArea f} next s ps s' r :
  (forall s1, filled s1 ps -> next s1 = (s', r) -> filler_post n s1 s' ps r) ->
  filled s ps -> assign f next s = (s', r) -> filler_post n s s' ps r.
Proof.
  intros Hn F H. unfold assign in H.
  destruct (keeps_area (args s)) as (Hse & Hc & Ho & Hz & Hcs).
  assert (F1 : filled (set_args s (f (args s))) ps) by (by eapply filled_same_area).
  destruct (Hn _ F1 H) as (Hw & Hse' & Hr).
  split; [|split; [by eapply same_event_trans|done]].
  apply (writes_within_trans s (set_args s (f (args s))) s'); [exact Hse|done|exact Hw].
Qed.

#[export] Instance assign_ok f `{!KeepsArea f} next :
  FillerOK next -> FillerOK (assign f next).
Proof. intros Hn s ps s' r F H. eapply assign_post; eauto. Qed.

#[export] Instance assign_pushes n f `{!KeepsArea f} next :
  FillerPushes n next -> FillerPushes n (assign f next).
Proof. intros Hn s ps s' r F H. eapply assign_post; eauto. Qed.

#[export] Instance with_state_ok f :
  (forall s, FillerOK (f s)) -> FillerOK (with_state f).
Proof. intros Hn s ps s' r F H. exact (Hn _ _ _ _ _ F H). Qed.

#[export] Instance with_state_pushes n f :
  (forall s, FillerPushes n (f s)) -> FillerPushes n (with_state f).
Proof. intros Hn s ps s' r F H. exact (Hn _ _ _ _ _ F H). Qed.

#[export] Instance add_sentinel_pushes : FillerPushes 0 add_sentinel.
Proof.
  intros s ps s' r F H. unfold add_sentinel in H. simplify_eq.
  split; [done|]. split; [repeat split|]. intros _. exists []. by rewrite app_nil_r.
Qed.

Lemma fail_post n code s ps s' r :
  code <> PPM_SUCCESS -> fail code s = (s', r) -> filler_post n s s' ps r.
Proof.
  unfold fail. intros Hc H. simplify_eq. split; [done|]. split; [repeat split|]. done.
Qed.

#[export] Instance pushes_ok n f : FillerPushes n f -> FillerOK f | 100.
Proof.
  intros Hn s ps s' r F H. destruct (Hn _ _ _ _ F H) as (Hw & Hse & Hr).
  split; [done|]. split; [done|]. intros H0. destruct (Hr H0) as (qs & F' & _). eauto.
Qed.
End contract.

(** ** The fillers satisfy the contract. *)

Lemma autofill_valid t e :
  0 <= t < PPM_EVENT_MAX -> g_ppm_events t = Some e -> filler_id e = F_sys_autofill ->
  n_autofill_args e = ei_nparams (g_event_info t) /\
  n_autofill_args e <= Z.of_nat (length (autofill_args e)) /\
  Forall (fun a => 0 <= af_id a \/ af_id a = AF_ID_RETVAL \/ af_id a = AF_ID_USEDEFAULT)
    (autofill_args e).
Proof.
  intros Ht He Hf. pose proof (forall_event_types _ autofill_ok_all t Ht) as H.
  unfold autofill_ok in H. rewrite He, Hf in H. bool_to_prop. split; [done|]. split; [done|].
  apply List.Forall_forall. intros a Ha.
  match goal with Hb : forallb _ _ = true |- _ => rewrite forallb_forall in Hb;
    specialize (Hb a Ha) end. lia.
Qed.

Section fillers.
Context (k : kenv) (user : mem) `{!KernelOK k user}.

Lemma autofill_loop_ok pt l : FillerOK (autofill_loop k pt l).
Proof.
  induction l as [|a l IH]; simpl; [exact _|]. repeat case_if; exact _.
Qed.

Lemma autofill_loop_pushes pt l :
  Forall (fun a => 0 <= af_id a \/ af_id a = AF_ID_RETVAL \/ af_id a = AF_ID_USEDEFAULT) l ->
  FillerPushes (length l) (autofill_loop k pt l).
Proof.
  induction 1 as [|a l Ha Hl IH]; simpl; [exact _|]. repeat case_if; try exact _. lia.
Qed.

#[export] Instance f_sys_autofill_ok : FillerOK (f_sys_autofill k).
Proof.
  apply with_state_ok. intros s. case_if; [apply autofill_loop_ok|exact _].
Qed.

#[export] Instance f_sys_generic_ok : FillerOK (f_sys_generic k).
Proof.
  apply with_state_ok. intros s. cbv zeta. case_if.
  - intros s0 ps s' r F H. eapply fail_post; [|exact H]. done.
  - case_if; [|exact _]. apply (push_ok k user). apply with_state_ok. intros s1. cbv zeta.
    case_if; exact _.
Qed.

#[export] Instance f_sys_empty_pushes : FillerPushes 0 f_sys_empty.
Proof. exact _. Qed.
#[export] Instance f_sys_single_pushes : FillerPushes 1 (f_sys_single k).
Proof. unfold f_sys_single. exact _. Qed.
#[export] Instance f_sys_single_x_pushes : FillerPushes 1 (f_sys_single_x k).
Proof. unfold f_sys_single_x. exact _. Qed.
#[export] Instance f_sys_read_x_pushes : FillerPushes 2 (f_sys_read_x k).
Proof. unfold f_sys_read_x. exact _. Qed.
#[export] Instance f_sys_write_x_pushes : FillerPushes 2 (f_sys_write_x k).
Proof. unfold f_sys_write_x. exact _. Qed.
End fillers.

Lemma each_filler_ok fillers : (forall id, FillerOK (fillers id)) -> FillersOK fillers.
Proof. intros H t e s ps s' r _ _ F E. exact (H _ _ _ _ _ F E). Qed.

(** ** The automatic filler is complete. *)

Definition autofill_id_ok (a : ppm_autofill_arg) : Prop :=
  0 <= af_id a \/ af_id a = AF_ID_RETVAL \/ af_id a = AF_ID_USEDEFAULT.

(** The parameters an automatic filler writes carry no dynamic index, except
    index 0. *)
Definition autofill_dyn_ok (t : Z) : bool :=
  match g_ppm_events t with
  | Some e =>
      match filler_id e with
      | F_sys_autofill =>
          forallb (fun i => match pi_type (event_param t (Z.of_nat i)) with
                            | PT_DYN => 0 <? pi_ninfo (event_param t (Z.of_nat i))
                            | _ => true end)
            (seq 0 (Z.to_nat (ei_nparams (g_event_info t))))
      | _ => true
      end
  | None => true
  end.

Lemma autofill_dyn_ok_all : forallb autofill_dyn_ok event_types = true.
Proof. vm_compute. reflexivity. Qed.

Section autofill.
Context (k : kenv) (user : mem) `{!KernelOK k user}.
Context (t : Z) (e : ppm_event_entry) (Ht : 0 <= t < PPM_EVENT_MAX).
Context (He : g_ppm_events t = Some e) (Hauto : filler_id e = F_sys_autofill).

(** The record of this event with some parameters still to come. *)
Definition expecting (s : fstate) (ps : list (list byte)) : Prop :=
  filled s ps /\ event_type (args s) = t /\ nargs (args s) = ei_nparams (g_event_info t).

Lemma push_expecting val val_len fu s s' ps r :
  expecting s ps -> Z.of_nat (length ps) < ei_nparams (g_event_info t) ->
  val_to_ring k s val val_len fu 0 = (s', r) ->
  (r = PPM_SUCCESS /\ exists p, expecting s' (ps ++ [p])) \/
  r = PPM_FAILURE_BUFFER_FULL \/ r = PPM_FAILURE_INVALID_USER_MEMORY.
Proof.
  intros (F & Hty & Hn) Hlt H.
  destruct (val_to_ring_ok k user _ _ _ _ _ _ _ _ F H) as (_ & (Hb & Hs & Hna & Het & _) & _ & Hr).
  pose proof (filled_curarg _ _ F) as Hc.
  destruct Hr as [[-> F']|[->|[->|[_ Hbad]]]]; auto.
  - left. split; [done|]. eexists. split; [exact F'|]. split; congruence.
  - exfalso. destruct Hbad as [Hbad|Hbad]; [lia|].
    pose proof (event_param_encodable t e (curarg (args s)) Ht He ltac:(lia)) as Hp.
    pose proof (param_encodable_alt _ (u8 0) Hp (proj1 (u8_range _))) as Halt.
    rewrite Hty in Hbad. destruct (param_alternative _ _) as [[d ty]|] eqn:Ea; [congruence|].
    pose proof (forall_event_types _ autofill_dyn_ok_all t Ht) as Hd.
    unfold autofill_dyn_ok in Hd. rewrite He, Hauto, forallb_forall in Hd.
    specialize (Hd (Z.to_nat (curarg (args s))) ltac:(apply in_seq; lia)).
    rewrite Z2Nat.id in Hd by lia. unfold param_alternative in Ea.
    destruct (pi_type _) in Ea, Hd; try done. change (u8 0) with 0 in Halt. lia.
Qed.

Lemma autofill_loop_complete pt l : forall s s' ps r,
  Forall autofill_id_ok l -> expecting s ps ->
  Z.of_nat (length ps) + Z.of_nat (length l) = ei_nparams (g_event_info t) ->
  autofill_loop k pt l s = (s', r) ->
  (r = PPM_SUCCESS /\ exists qs, filled s' qs /\ Z.of_nat (length qs) = ei_nparams (g_event_info t))
  \/ r = PPM_FAILURE_BUFFER_FULL \/ r = PPM_FAILURE_INVALID_USER_MEMORY.
Proof.
  induction l as [|a l IH]; intros s s' ps r HF Hex Hlen H.
  { cbn [autofill_loop] in H. injection H as <- <-. left. split; [reflexivity|].
    exists ps. split; [apply Hex|]. simpl in Hlen. lia. }
  apply Forall_cons_1 in HF as [Ha HF]. simpl length in Hlen.
  assert (Hpush : forall v vl fu, push k v vl fu 0 (autofill_loop k pt l) s = (s', r) ->
    (r = PPM_SUCCESS /\ exists qs, filled s' qs /\ Z.of_nat (length qs) = ei_nparams (g_event_info t))
    \/ r = PPM_FAILURE_BUFFER_FULL \/ r = PPM_FAILURE_INVALID_USER_MEMORY).
  { intros v vl fu Hp. unfold push in Hp. destruct (val_to_ring _ _ _ _ _ _) as [s1 r1] eqn:E.
    destruct (push_expecting _ _ _ _ _ _ _ Hex ltac:(lia) E) as [[-> (p & Hex1)]|[->| ->]];
      [|simpl in Hp; simplify_eq; auto..].
    simpl in Hp. eapply IH; [done|exact Hex1| |exact Hp].
    rewrite length_app. simpl. lia. }
  cbn [autofill_loop] in H. unfold with_state in H. unfold autofill_id_ok in Ha.
  case_in H; [by eapply Hpush|]. case_in H; [by eapply Hpush|].
  case_in H; [by eapply Hpush|]. lia.
Qed.
End autofill.

(** For every event type served by the automatic filler, started on the
    event's empty argument record, the filler succeeds with exactly the
    parameters the event table declares, or reports a full buffer or unreadable
    user memory; it never records too few parameters and never reports a bug. *)
Theorem autofill_complete (k : kenv) (user : mem) (e : ppm_event_entry) (s s' : fstate) (r : Z) :
  KernelOK k user -> filled s [] ->
  0 <= event_type (args s) < PPM_EVENT_MAX -> g_ppm_events (event_type (args s)) = Some e ->
  filler_id e = F_sys_autofill ->
  nargs (args s) = ei_nparams (g_event_info (event_type (args s))) ->
  f_sys_autofill k s = (s', r) ->
  (r = PPM_SUCCESS /\
   exists ps, filled s' ps /\
     Z.of_nat (length ps) = ei_nparams (g_event_info (event_type (args s)))) \/
  r = PPM_FAILURE_BUFFER_FULL \/ r = PPM_FAILURE_INVALID_USER_MEMORY.
Proof.
  intros HK F Ht He Hauto Hn H.
  destruct (autofill_valid _ e Ht He Hauto) as (Hna & Hlen & HF).
  pose proof (ei_nparams_range (event_type (args s))) as Hnr.
  unfold f_sys_autofill, with_state in H. rewrite He in H.
  eapply (autofill_loop_complete k user _ e Ht He Hauto) in H; [exact H| | |].
  - by apply Forall_take.
  - split; [exact F|]. by split.
  - rewrite length_take. simpl. lia.
Qed.

Lemma autofill_complete_witness :
  let s := sample_state PPME_SYSCALL_READ_E 1000 in
  let r := snd (f_sys_autofill sample_kenv s) in
  (r = PPM_SUCCESS /\ exists ps, filled (fst (f_sys_autofill sample_kenv s)) ps /\
     Z.of_nat (length ps) = 2) \/
  r = PPM_FAILURE_BUFFER_FULL \/ r = PPM_FAILURE_INVALID_USER_MEMORY.
Proof.
  intros s r.
  apply (autofill_complete sample_kenv sample_user
    (mk_entry F_sys_autofill 2 APT_REG [mk_autofill 0 0; mk_autofill 2 0]) s
    (fst (f_sys_autofill sample_kenv s)) r).
  - exact sample_kenv_ok.
  - apply sample_filled; vm_compute; congruence.
  - vm_compute. split; congruence.
  - vm_compute. reflexivity.
  - reflexivity.
  - reflexivity.
  - apply surjective_pairing.
Defined.
