(* ===== verification/FillerOps.v ===== *)
(** * Building blocks of the fillers of [driver/ppm_fillers.c]

    What a filler observes of the current task beyond the syscall ([task]), the
    steps fillers are made of besides [push], and [FillerSpec t n f]: started on
    an event of type [t], a successful [f] records exactly [n] parameters
    ([None]: any type, any number).  A filler's specification is found by
    composing the instances for its steps. *)

From Stdlib Require Import Strings.Byte.
From Stdlib Require Import ZArith Lia List Bool.
From stdpp Require Import base tactics list numbers option.
From S2P Require Import Prelude Bytes EventDefs EventTable FillerTable ValToRing.
From S2P Require Import ValToRingSpec FlagDefs Flags Fillers.
Import ListNotations.
Local Open Scope Z_scope.

(** ** The current task. *)

(** The parts of [struct mm_struct] that are recorded; counters are in pages. *)
Record mm_struct : Type := mk_mm {
  arg_start : Z;
  arg_end : Z;
  env_start : Z;
  env_end : Z;
  total_vm : Z;
  rss : Z;
  swap : Z }.

(** A task: [task_comm] is the address of its name. *)
Record task_struct : Type := mk_task {
  task_pid : Z;
  task_tgid : Z;
  task_real_parent : option Z;
  task_maj_flt : Z;
  task_min_flt : Z;
  task_exit_code : Z;
  task_comm : Z;
  task_mm : option mm_struct }.

(** An IPv4 socket as the tcp fillers read it, in host byte order except for the
    addresses. *)
Record inet_sock : Type := mk_inet_sock {
  skc_family : Z;
  inet_sport : Z;
  inet_dport : Z;
  inet_saddr : Z;
  inet_daddr : Z;
  srtt_us : Z }.

(** What the fillers read of the kernel besides [kenv]: the current task and the
    task behind a pointer, its credentials and namespaces, a file's inode, the
    backlog of a listening socket, the unix socket of a descriptor with its peer,
    the error of a failed descriptor lookup, the terminal of the session, the
    cgroup path of each subsystem (a negative [cgroup_path] is [None]), the
    network buffer of the event, and the addresses of the string literals. *)
Record task_env : Type := mk_task_env {
  cur : task_struct;
  task_at : Z -> task_struct;
  rlimit_nofile : Z;
  cur_euid : Z;
  cur_egid : Z;
  cur_vtid : Z;
  cur_vpid : Z;
  in_child_pidns : bool;
  cur_pgid : Z;
  cur_loginuid : Z;
  cur_tty : option (Z * Z * Z);
  cgroups : list (list byte * option (option (list byte)));
  fd_ino : Z -> option Z;
  sk_backlog : Z -> option (Z * Z);
  unix_sock : Z -> option (Z * Z);
  lookup_err : Z;
  sampling_ratio : Z;
  fault_address : Z;
  fault_ip : Z;
  fault_error_code : Z;
  ev_sk : inet_sock;
  ev_skb : Z;
  ev_dev : Z;
  skb_head : Z;
  skb_mac_header : Z;
  skb_network_header : Z;
  empty_literal : Z;
  na_literal : Z }.

(** ** Steps. *)

(** [res = val_to_ring(args, val, 0, fromuser, 0); if (res != PPM_SUCCESS) return res;] *)
Definition pushv (k : kenv) (val : Z) : filler -> filler := push k val 0 false 0.
Definition pushu (k : kenv) (val : Z) : filler -> filler := push k val 0 true 0.

(** [return 0], as some fillers end. *)
Definition return_0 : filler := fun s => (s, 0).

(** A store to kernel memory outside the ring. *)
Definition store (f : event_filler_arguments -> mem -> mem) (next : filler) : filler :=
  fun s => next (set_kmem s (f (args s) (kmem s))).

(** [ppm_copy_from_user] into kernel memory, with both outcomes. *)
Definition copy_in (k : kenv) (to from n : Z) (ok err : filler) : filler :=
  fun s =>
    let '(m, notread) := ppm_copy_from_user k (kmem s) to from n in
    (if notread =? 0 then ok else err) (set_kmem s m).

(** [ppm_copy_from_user] into a local variable: its bytes when all were read. *)
Definition copy_local (k : kenv) (from n : Z) : option (list byte) :=
  let '(m, notread) := ppm_copy_from_user k mem_zero 0 from n in
  if notread =? 0 then Some (mem_read m 0 (Z.to_nat n)) else None.

(** A copy whose failure aborts the filler. *)
Definition copy_or_fail (k : kenv) (from n : Z) (next : list byte -> filler) : filler :=
  match copy_local k from n with
  | Some bs => next bs
  | None => fail PPM_FAILURE_INVALID_USER_MEMORY
  end.

(** Syscall argument [i], which a socketcall takes from its own array. *)
Definition with_sock_arg (k : kenv) (i : nat) (next : Z -> filler) : filler :=
  with_state (fun s => next (sock_arg k (args s) i)).

(** A user pointer as the task's ABI has it. *)
Definition with_user_ptr (v : Z) (next : Z -> filler) : filler :=
  with_state (fun s => next (if compat (args s) then compat_ptr v else v)).

(** Field of [w] bytes at offset [o] of a copied structure. *)
Definition field (bs : list byte) (o w : nat) : Z := le_val (take w (drop o bs)).
Definition sfield (bs : list byte) (o w : nat) : Z :=
  let v := field bs o w in
  if v <? 2 ^ (8 * Z.of_nat w - 1) then v else v - 2 ^ (8 * Z.of_nat w).

(** Resolution goes by the head of a filler and never unfolds a step. *)
#[export] Typeclasses Opaque push pushv pushu assign store copy_in copy_or_fail with_state
  with_sock_arg with_user_ptr add_sentinel return_0 fail.

(** ** Specifications. *)

Definition of_type (t : option Z) (s : fstate) : Prop :=
  match t with Some t => event_type (args s) = t | None => True end.

Class FillerSpec (t : option Z) (n : option nat) (f : filler) : Prop :=
  filler_spec s ps s' r :
    of_type t s -> filled s ps -> f s = (s', r) -> filler_post n s s' ps r.

Lemma spec_ok f : FillerSpec None None f -> FillerOK f.
Proof. intros H s ps s' r F E. exact (H s ps s' r I F E). Qed.

Lemma ok_spec t f : FillerOK f -> FillerSpec t None f.
Proof. intros H s ps s' r _ F E. exact (H s ps s' r F E). Qed.

Lemma filler_post_any n s s' ps r : filler_post n s s' ps r -> filler_post None s s' ps r.
Proof.
  intros (Hw & Hse & Hr). split; [done|]. split; [done|]. intros H0.
  destruct (Hr H0) as (qs & F & _). eauto.
Qed.

(** The number of parameters may be forgotten. *)
Lemma spec_any t n f : FillerSpec t n f -> FillerSpec t None f.
Proof. intros H s ps s' r Ht F E. eapply filler_post_any, H; eauto. Qed.

Lemma of_type_same t s s1 : same_event (args s) (args s1) -> of_type t s -> of_type t s1.
Proof. destruct t; simpl; [|done]. intros (_ & _ & _ & -> & _). done. Qed.

Section steps.
Context (k : kenv) (user : mem) `{!KernelOK k user} (t : option Z).

(** What a single [val_to_ring] guarantees, whatever the parameter's type. *)
Lemma vtr_step s ps val vl fu di s1 r1 :
  filled s ps -> val_to_ring k s val vl fu di = (s1, r1) ->
  writes_within s s1 /\ same_event (args s) (args s1) /\ kmem s1 = kmem s /\
  (r1 = PPM_SUCCESS -> exists p, filled s1 (ps ++ [p])).
Proof.
  intros F E. destruct (val_to_ring_ok k user _ _ _ _ _ _ _ _ F E) as (Hw & Hse & Hk & Hres).
  split; [done|]. split; [done|]. split; [done|]. intros ->.
  destruct Hres as [[_ F1]|[Hr|[Hr|[Hr _]]]]; [eauto|discriminate..].
Qed.

Lemma push_spec_post n val vl fu di next s ps s' r :
  FillerSpec t n next -> of_type t s -> filled s ps ->
  push k val vl fu di next s = (s', r) -> filler_post (option_map S n) s s' ps r.
Proof.
  intros Hn Ht F H. unfold push in H. destruct (val_to_ring _ _ _ _ _ _) as [s1 r1] eqn:E.
  destruct (vtr_step _ _ _ _ _ _ _ _ F E) as (Hw & Hse & _ & Hs1). case_in H; bool_to_prop.
  - simplify_eq. split; [done|]. split; [done|]. intros; congruence.
  - destruct Hs1 as [p F1]; [done|].
    exact (filler_post_step n _ _ _ _ [p] _ Hse Hw (Hn _ _ _ _ (of_type_same _ _ _ Hse Ht) F1 H)).
Qed.

#[export] Instance push_spec n val vl fu di next :
  FillerSpec t (Some n) next -> FillerSpec t (Some (S n)) (push k val vl fu di next).
Proof. intros Hn s ps s' r Ht F E. exact (push_spec_post (Some n) _ _ _ _ _ _ _ _ _ Hn Ht F E). Qed.

#[export] Instance push_spec_any val vl fu di next :
  FillerSpec t None next -> FillerSpec t None (push k val vl fu di next).
Proof. intros Hn s ps s' r Ht F E. exact (push_spec_post None _ _ _ _ _ _ _ _ _ Hn Ht F E). Qed.

(** A step that leaves the event's area alone. *)
Lemma frame_spec n next s s1 ps s' r :
  FillerSpec t n next -> of_type t s -> filled s ps ->
  rmem s1 = rmem s -> same_event (args s) (args s1) -> curarg (args s1) = curarg (args s) ->
  arg_data_offset (args s1) = arg_data_offset (args s) ->
  arg_data_size (args s1) = arg_data_size (args s) -> consumer (args s1) = consumer (args s) ->
  next s1 = (s', r) -> filler_post n s s' ps r.
Proof.
  intros Hn Ht F Hm Hse Hc Ho Hz Hcs E.
  assert (F1 : filled s1 ps) by (by eapply filled_same_area).
  destruct (Hn _ _ _ _ (of_type_same _ _ _ Hse Ht) F1 E) as (Hw & Hse' & Hr).
  split; [|split; [by eapply same_event_trans|done]].
  eapply writes_within_trans; [exact Hse| |exact Hw]. intros x _. by rewrite Hm.
Qed.

#[export] Instance assign_spec n f `{!KeepsArea f} next :
  FillerSpec t n next -> FillerSpec t n (assign f next).
Proof.
  intros Hn s ps s' r Ht F E. destruct (keeps_area (args s)) as (Hse & Hc & Ho & Hz & Hcs).
  exact (frame_spec n next s (set_args s (f (args s))) ps s' r Hn Ht F eq_refl Hse Hc Ho Hz Hcs E).
Qed.

Lemma kmem_spec n next s m ps s' r :
  FillerSpec t n next -> of_type t s -> filled s ps -> next (set_kmem s m) = (s', r) ->
  filler_post n s s' ps r.
Proof.
  intros Hn Ht F E. apply (frame_spec n next s (set_kmem s m) ps s' r Hn Ht F); try reflexivity;
    [repeat split|exact E].
Qed.

#[export] Instance store_spec n f next : FillerSpec t n next -> FillerSpec t n (store f next).
Proof.
  intros Hn s ps s' r Ht F E. exact (kmem_spec n next s _ ps s' r Hn Ht F E).
Qed.

#[export] Instance copy_in_spec n to from len ok err :
  FillerSpec t n ok -> FillerSpec t n err -> FillerSpec t n (copy_in k to from len ok err).
Proof.
  intros Ho He s ps s' r Ht F E. unfold copy_in in E.
  destruct (ppm_copy_from_user _ _ _ _ _) as [m nr].
  destruct (nr =? 0); [exact (kmem_spec n ok s m ps s' r Ho Ht F E)|].
  exact (kmem_spec n err s m ps s' r He Ht F E).
Qed.

#[export] Instance with_state_spec n f :
  (forall s, of_type t s -> FillerSpec t n (f s)) -> FillerSpec t n (with_state f).
Proof. intros Hn s ps s' r Ht F E. exact (Hn s Ht s ps s' r Ht F E). Qed.

#[export] Instance add_sentinel_spec : FillerSpec t (Some 0%nat) add_sentinel.
Proof. intros s ps s' r _ F E. exact (add_sentinel_pushes s ps s' r F E). Qed.

#[export] Instance add_sentinel_spec_any : FillerSpec t None add_sentinel.
Proof. eapply spec_any. exact _. Qed.

#[export] Instance return_0_spec : FillerSpec t (Some 0%nat) return_0.
Proof. exact add_sentinel_spec. Qed.

#[export] Instance return_0_spec_any : FillerSpec t None return_0.
Proof. exact add_sentinel_spec_any. Qed.

Lemma fail_spec n code : code <> PPM_SUCCESS -> FillerSpec t n (fail code).
Proof. intros Hc s ps s' r _ _ E. exact (fail_post n code s ps s' r Hc E). Qed.

#[export] Instance fail_user_memory_spec n : FillerSpec t n (fail PPM_FAILURE_INVALID_USER_MEMORY).
Proof. by apply fail_spec. Qed.
#[export] Instance fail_buffer_full_spec n : FillerSpec t n (fail PPM_FAILURE_BUFFER_FULL).
Proof. by apply fail_spec. Qed.
#[export] Instance fail_bug_spec n : FillerSpec t n (fail PPM_FAILURE_BUG).
Proof. by apply fail_spec. Qed.

#[export] Instance if_spec n (b : bool) f g :
  FillerSpec t n f -> FillerSpec t n g -> FillerSpec t n (if b then f else g).
Proof. by destruct b. Qed.

#[export] Instance fail_m1_spec n : FillerSpec t n (fail (-1)).
Proof. by apply fail_spec. Qed.

#[export] Instance if_app_spec n (b : bool) (f g : filler -> filler) next :
  FillerSpec t n (f next) -> FillerSpec t n (g next) ->
  FillerSpec t n ((if b then f else g) next).
Proof. by destruct b. Qed.

#[export] Instance match_option_spec {A} n (o : option A) f g :
  (forall x, FillerSpec t n (f x)) -> FillerSpec t n g ->
  FillerSpec t n (match o with Some x => f x | None => g end).
Proof. by destruct o. Qed.

#[export] Instance match_pair_spec {A B} n (p : A * B) f :
  (forall x y, FillerSpec t n (f x y)) -> FillerSpec t n (let '(x, y) := p in f x y).
Proof. by destruct p. Qed.

#[export] Instance copy_or_fail_spec n from len next :
  (forall bs, FillerSpec t n (next bs)) -> FillerSpec t n (copy_or_fail k from len next).
Proof. intros H. unfold copy_or_fail. exact _. Qed.

#[export] Instance with_sock_arg_spec n i next :
  (forall v, FillerSpec t n (next v)) -> FillerSpec t n (with_sock_arg k i next).
Proof. intros H. unfold with_sock_arg. exact _. Qed.

#[export] Instance with_user_ptr_spec n v next :
  (forall p, FillerSpec t n (next p)) -> FillerSpec t n (with_user_ptr v next).
Proof. intros H. unfold with_user_ptr. exact _. Qed.

#[export] Instance pushv_spec n val next :
  FillerSpec t (Some n) next -> FillerSpec t (Some (S n)) (pushv k val next).
Proof. apply push_spec. Qed.
#[export] Instance pushu_spec n val next :
  FillerSpec t (Some n) next -> FillerSpec t (Some (S n)) (pushu k val next).
Proof. apply push_spec. Qed.
#[export] Instance pushv_spec_any val next :
  FillerSpec t None next -> FillerSpec t None (pushv k val next).
Proof. apply push_spec_any. Qed.
#[export] Instance pushu_spec_any val next :
  FillerSpec t None next -> FillerSpec t None (pushu k val next).
Proof. apply push_spec_any. Qed.
End steps.

(** A filler's specification, by its steps. *)
Ltac filler_steps := cbv zeta; typeclasses eauto.
