(* ===== verification/SyscallFillers.v ===== *)
(** * Fillers of [driver/ppm_fillers.c]: files, memory, limits, processes, IPC

    One definition per function, its calls to [val_to_ring] in the code's order.
    The code is taken as compiled for a 64 bit x86 kernel with [CONFIG_COMPAT].
    [filler_steps] derives how many parameters each records. *)

From Stdlib Require Import Strings.Byte.
From Stdlib Require Import ZArith Lia List Bool.
From stdpp Require Import base tactics list numbers option.
From S2P Require Import Prelude Bytes EventDefs EventTable FillerTable ValToRing.
From S2P Require Import ValToRingSpec FlagDefs Flags Fillers FillerOps.
Import ListNotations.
Local Open Scope Z_scope.

Definition AT_FDCWD : Z := -100.
Definition STR_STORAGE_SIZE : Z := 4096.
Definition PPM_MS_MGC_MSK : Z := 4294901760.
Definition PPM_MS_MGC_VAL : Z := 3236757504.
Definition BPF_MAP_CREATE : Z := 0.
Definition BPF_PROG_LOAD : Z := 5.
Definition QIF_BLIMITS : Z := 1.
Definition QIF_SPACE : Z := 2.
Definition QIF_ILIMITS : Z := 4.
Definition QIF_BTIME : Z := 16.
Definition QIF_ITIME : Z := 32.
Definition IIF_BGRACE : Z := 1.
Definition IIF_IGRACE : Z := 2.
Definition IIF_FLAGS : Z := 4.
Definition IPPROTO_TCP : Z := 6.
Definition IPPROTO_UDP : Z := 17.

Section fillers.
Context (k : kenv) (tk : task_env).

Let retval : Z := syscall_retval k.
Let arg (i : nat) : Z := sc_arg k i.

(** The descriptor argument of the [*at] calls. *)
Definition dirfd_to_scap (val : Z) : Z := if s32 val =? AT_FDCWD then PPM_AT_FDCWD else val.

(** [get_fd_dev]; the descriptor [max_fds] itself is looked up in the table. *)
Definition get_fd_dev (fd : Z) : Z :=
  if fd <? 0 then 0
  else if max_fds k <? fd then 0
  else match fd_sb_dev k fd with Some dev => u32 dev | None => 0 end.

(** ** Files. *)

Definition f_sys_open_x : filler :=
  pushv k retval $ pushu k (arg 0) $
  pushv k (open_flags_to_scap (arg 1)) $
  pushv k (open_modes_to_scap (arg 1) (arg 2)) $
  pushv k (get_fd_dev retval) $ add_sentinel.

Definition f_sys_openat_x : filler :=
  pushv k retval $ pushv k (dirfd_to_scap (arg 0)) $ pushu k (arg 1) $
  pushv k (open_flags_to_scap (arg 2)) $
  pushv k (open_modes_to_scap (arg 2) (arg 3)) $
  pushv k (get_fd_dev retval) $ add_sentinel.

Definition f_sys_creat_x : filler :=
  pushv k retval $ pushu k (arg 0) $
  pushv k (open_modes_to_scap O_CREAT (arg 1)) $
  pushv k (get_fd_dev retval) $ add_sentinel.

Definition f_sys_unlinkat_x : filler :=
  pushv k retval $ pushv k (dirfd_to_scap (arg 0)) $ pushu k (arg 1) $
  pushv k (unlinkat_flags_to_scap (arg 2)) $ add_sentinel.

Definition f_sys_linkat_x : filler :=
  pushv k retval $ pushv k (dirfd_to_scap (arg 0)) $ pushu k (arg 1) $
  pushv k (dirfd_to_scap (arg 2)) $ pushu k (arg 3) $
  pushv k (linkat_flags_to_scap (arg 4)) $ add_sentinel.

Definition f_sys_renameat_x : filler :=
  pushv k retval $ pushv k (dirfd_to_scap (arg 0)) $ pushu k (arg 1) $
  pushv k (dirfd_to_scap (arg 2)) $ pushu k (arg 3) $ add_sentinel.

Definition f_sys_renameat2_x : filler :=
  pushv k retval $ pushv k (dirfd_to_scap (arg 0)) $ pushu k (arg 1) $
  pushv k (dirfd_to_scap (arg 2)) $ pushu k (arg 3) $ pushv k (arg 4) $ add_sentinel.

Definition f_sys_symlinkat_x : filler :=
  pushv k retval $ pushu k (arg 0) $ pushv k (dirfd_to_scap (arg 1)) $
  pushu k (arg 2) $ add_sentinel.

Definition f_sys_mkdirat_x : filler :=
  pushv k retval $ pushv k (dirfd_to_scap (arg 0)) $ pushu k (arg 1) $
  pushv k (arg 2) $ add_sentinel.

Definition f_sys_fchmodat_x : filler :=
  pushv k retval $ pushv k (dirfd_to_scap (arg 0)) $ pushu k (arg 1) $
  pushv k (chmod_mode_to_scap (arg 2)) $ add_sentinel.

Definition f_sys_chmod_x : filler :=
  pushv k retval $ pushu k (arg 0) $ pushv k (chmod_mode_to_scap (arg 1)) $ add_sentinel.

Definition f_sys_fchmod_x : filler :=
  pushv k retval $ pushv k (arg 0) $ pushv k (chmod_mode_to_scap (arg 1)) $ add_sentinel.

Definition f_sys_mount_e : filler :=
  let val := arg 3 in
  pushv k (if Z.land val PPM_MS_MGC_MSK =? PPM_MS_MGC_VAL then Z.land val 65535 else val) $
  add_sentinel.

Definition f_sys_lseek_e : filler :=
  pushv k (arg 0) $ pushv k (arg 1) $ pushv k (lseek_whence_to_scap (arg 2)) $ add_sentinel.

Definition f_sys_llseek_e : filler :=
  pushv k (arg 0) $ pushv k (u64 (Z.shiftl (arg 1) 32 + arg 2)) $
  pushv k (lseek_whence_to_scap (arg 4)) $ add_sentinel.

Definition f_sys_fcntl_e : filler :=
  pushv k (arg 0) $ pushv k (fcntl_cmd_to_scap (arg 1)) $ add_sentinel.

Definition f_sys_flock_e : filler :=
  pushv k (arg 0) $ pushv k (flock_flags_to_scap (arg 1)) $ add_sentinel.

Definition f_sys_access_e : filler := pushu k (access_flags_to_scap (arg 1)) $ add_sentinel.

Definition f_sys_pipe_x : filler :=
  pushv k retval $
  with_user_ptr (arg 0) (fun p => copy_or_fail k p 8 (fun fds =>
    pushv k (sfield fds 0 4) $ pushv k (sfield fds 4 4) $
    pushv k (match fd_ino tk (sfield fds 0 4) with Some ino => ino | None => 0 end) $
    add_sentinel)).

Definition f_sys_eventfd_e : filler := pushv k (arg 0) $ pushv k 0 $ add_sentinel.

Definition f_sys_futex_e : filler :=
  pushv k (arg 0) $ pushv k (futex_op_to_scap (arg 1)) $ pushv k (arg 2) $ add_sentinel.

(** The offset of sendfile: what could be read behind the pointer, else zero.  A
    compat task's offset has four bytes, stored over an uninitialised variable of
    eight. *)
Definition sendfile_offset (compat_task : bool) : Z :=
  let val := arg 2 in
  if val =? 0 then 0
  else if negb compat_task then
    match copy_local k val 8 with Some bs => field bs 0 8 | None => 0 end
  else
    match copy_local k (compat_ptr val) 4 with
    | Some bs => field (bs ++ drop 4 (uninit k)) 0 8
    | None => 0
    end.

Definition f_sys_sendfile_e : filler :=
  pushu k (arg 0) $ pushu k (arg 1) $
  with_state (fun s => pushu k (sendfile_offset (compat (args s))) $
    pushu k (arg 3) $ add_sentinel).

Definition f_sys_sendfile_x : filler :=
  pushv k retval $
  with_state (fun s => pushu k (sendfile_offset (compat (args s))) $ add_sentinel).

(** ** Memory. *)

(** The three sizes of a task's memory, in kilobytes. *)
Definition mm_size (get : mm_struct -> Z) (mm : option mm_struct) : Z :=
  match mm with Some m => Z.shiftl (get m) 2 | None => 0 end.

Definition f_sys_brk_munmap_mmap_x : filler :=
  let mm := task_mm (cur tk) in
  pushv k retval $ pushv k (mm_size total_vm mm) $ pushv k (mm_size rss mm) $
  pushv k (mm_size swap mm) $ add_sentinel.

Definition f_sys_mmap_e : filler :=
  pushv k (arg 0) $ pushv k (arg 1) $ pushv k (prot_flags_to_scap (arg 2)) $
  pushv k (mmap_flags_to_scap (arg 3)) $ pushv k (arg 4) $ pushv k (arg 5) $ add_sentinel.

Definition f_sys_pagefault_e : filler :=
  pushv k (fault_address tk) $ pushv k (fault_ip tk) $
  pushv k (pf_flags_to_scap (fault_error_code tk)) $ add_sentinel.

(** ** Limits and quotas. *)

Definition f_sys_getrlimit_setrlimit_e : filler :=
  pushv k (rlimit_resource_to_scap (arg 0)) $ add_sentinel.

(** The pair of a [struct rlimit], or of its compat form. *)
Definition rlimit_pair (compat_task : bool) (from : Z) : option (Z * Z) :=
  if negb compat_task then
    match copy_local k from 16 with
    | Some bs => Some (field bs 0 8, field bs 8 8)
    | None => None
    end
  else
    match copy_local k from 8 with
    | Some bs => Some (field bs 0 4, field bs 4 4)
    | None => None
    end.

Definition f_sys_getrlimit_setrlrimit_x : filler :=
  pushv k retval $
  with_state (fun s =>
    if (0 <=? retval) || (event_type (args s) =? PPME_SYSCALL_SETRLIMIT_X) then
      let p := if compat (args s) then compat_ptr (arg 1) else arg 1 in
      match rlimit_pair (compat (args s)) p with
      | Some cm => pushv k (fst cm) $ pushv k (snd cm) $ add_sentinel
      | None => fail PPM_FAILURE_INVALID_USER_MEMORY
      end
    else pushv k (-1) $ pushv k (-1) $ add_sentinel).

Definition f_sys_prlimit_e : filler :=
  pushv k (arg 0) $ pushv k (rlimit_resource_to_scap (arg 1)) $ add_sentinel.

Definition f_sys_prlimit_x : filler :=
  pushv k retval $
  with_state (fun s =>
    let new := if 0 <=? retval
               then default (-1, -1) (rlimit_pair (compat (args s)) (arg 2)) else (-1, -1) in
    let old := default (-1, -1) (rlimit_pair (compat (args s)) (arg 3)) in
    pushv k (fst new) $ pushv k (snd new) $ pushv k (fst old) $ pushv k (snd old) $
    add_sentinel).

Definition f_sys_quotactl_e : filler :=
  let cmd := quotactl_cmd_to_scap (arg 0) in
  pushv k cmd $ pushv k (quotactl_type_to_scap (arg 0)) $
  pushv k (if (cmd =? PPM_Q_GETQUOTA) || (cmd =? PPM_Q_SETQUOTA)
              || (cmd =? PPM_Q_XGETQUOTA) || (cmd =? PPM_Q_XSETQLIM)
           then u32 (arg 2) else 0) $
  pushv k (if cmd =? PPM_Q_QUOTAON then quotactl_fmt_to_scap (arg 2) else PPM_QFMT_NOT_USED) $
  add_sentinel.

(** A field that is pushed only when its validity bit is set. *)
Definition if_valid (valid bit v : Z) : Z := if has_flag valid bit then v else 0.

(** The copies of [f_sys_quotactl_x]: a structure when the command has one. *)
Definition copy_when (b : bool) (n : Z) (next : list byte -> filler) : filler :=
  if b then copy_or_fail k (arg 3) n next else next [].

Definition f_sys_quotactl_x : filler :=
  let cmd := quotactl_cmd_to_scap (arg 0) in
  pushv k retval $ pushu k (arg 1) $
  (if cmd =? PPM_Q_QUOTAON then pushu k (arg 3) else pushv k (empty_literal tk)) $
  copy_when ((cmd =? PPM_Q_GETQUOTA) || (cmd =? PPM_Q_SETQUOTA)) 72 (fun b =>
    let valid := field b 64 4 in
    pushv k (if_valid valid QIF_BLIMITS (field b 0 8)) $
    pushv k (if_valid valid QIF_BLIMITS (field b 8 8)) $
    pushv k (if_valid valid QIF_SPACE (field b 16 8)) $
    pushv k (if_valid valid QIF_ILIMITS (field b 24 8)) $
    pushv k (if_valid valid QIF_ILIMITS (field b 32 8)) $
    pushv k (if_valid valid QIF_BTIME (field b 48 8)) $
    pushv k (if_valid valid QIF_ITIME (field b 56 8)) $
  copy_when ((cmd =? PPM_Q_GETINFO) || (cmd =? PPM_Q_SETINFO)) 24 (fun i =>
    let ivalid := field i 20 4 in
    pushv k (if_valid ivalid IIF_BGRACE (field i 0 8)) $
    pushv k (if_valid ivalid IIF_IGRACE (field i 8 8)) $
    pushv k (if_valid ivalid IIF_FLAGS (field i 16 4)) $
  copy_when (cmd =? PPM_Q_GETFMT) 4 (fun f =>
    pushv k (if cmd =? PPM_Q_GETFMT then quotactl_fmt_to_scap (field f 0 4)
             else PPM_QFMT_NOT_USED) $
    add_sentinel))).

(** ** Processes, signals and scheduling. *)

Definition f_sched_switch_e : filler :=
  with_state (fun s =>
    if (sched_prev (args s) =? 0) || (sched_next (args s) =? 0) then fail (-1)
    else
      let prev := task_at tk (sched_prev (args s)) in
      let next := task_at tk (sched_next (args s)) in
      pushv k (task_pid next) $ pushv k (task_maj_flt prev) $ pushv k (task_min_flt prev) $
      pushv k (mm_size total_vm (task_mm prev)) $ pushv k (mm_size rss (task_mm prev)) $
      pushv k (mm_size swap (task_mm prev)) $ add_sentinel).

Definition f_sched_drop : filler := pushv k (sampling_ratio tk) $ add_sentinel.

Definition f_sys_procexit_e : filler :=
  with_state (fun s =>
    if sched_prev (args s) =? 0 then fail (-1)
    else pushv k (task_exit_code (task_at tk (sched_prev (args s)))) $ add_sentinel).

Definition f_sys_sysdigevent_e : filler :=
  with_state (fun s =>
    pushv k (sched_prev (args s)) $ pushv k (sched_next (args s)) $ add_sentinel).

Definition f_cpu_hotplug_e : filler :=
  with_state (fun s =>
    pushv k (sched_prev (args s)) $ pushv k (sched_next (args s)) $ add_sentinel).

Definition f_sys_signaldeliver_e : filler :=
  with_state (fun s =>
    pushv k (spid (args s)) $ pushv k (dpid (args s)) $ pushv k (signo (args s)) $ add_sentinel).

Definition f_sys_setns_e : filler :=
  pushu k (arg 0) $ pushu k (clone_flags_to_scap (arg 1)) $ add_sentinel.

Definition f_sys_unshare_e : filler := pushu k (clone_flags_to_scap (arg 0)) $ add_sentinel.

(** The return value passes through an [int16_t]; only the first pointer is
    converted for a compat task. *)
Definition f_sys_getresuid_and_gid_x : filler :=
  pushv k (s16 retval) $
  with_user_ptr (arg 0) (fun p => copy_or_fail k p 4 (fun ruid =>
    pushv k (field ruid 0 4) $
  copy_or_fail k (arg 1) 4 (fun euid =>
    pushv k (field euid 0 4) $
  copy_or_fail k (arg 2) 4 (fun suid =>
    pushv k (field suid 0 4) $ add_sentinel)))).

Definition f_sys_execve_e : filler :=
  fun s =>
    let '(s1, res) := val_to_ring k s (arg 0) 0 true 0 in
    let '(s2, res) := if res =? PPM_FAILURE_INVALID_USER_MEMORY
                      then val_to_ring k s1 (na_literal tk) 0 false 0 else (s1, res) in
    if negb (res =? PPM_SUCCESS) then (s2, res) else add_sentinel s2.

Definition f_sys_bpf_x : filler :=
  if retval <? 0 then push k retval 0 false PPM_BPF_IDX_RES $ add_sentinel
  else if (arg 0 =? BPF_MAP_CREATE) || (arg 0 =? BPF_PROG_LOAD)
  then push k retval 0 false PPM_BPF_IDX_FD $ add_sentinel
  else push k retval 0 false PPM_BPF_IDX_RES $ add_sentinel.

(** ** ptrace. *)

Definition parse_ptrace_addr (request : Z) (next : filler) : filler :=
  push k (arg 2) 0 false PPM_PTRACE_IDX_UINT64 next.

(** The word behind the data pointer of a peek request; a compat task's word
    has four bytes, stored over an uninitialised variable of eight. *)
Definition ptrace_peek (compat_task : bool) : option Z :=
  if negb compat_task then option_map (fun bs => field bs 0 8) (copy_local k (arg 3) 8)
  else option_map (fun bs => field (bs ++ drop 4 (uninit k)) 0 8)
         (copy_local k (compat_ptr (arg 3)) 4).

Definition parse_ptrace_data (request : Z) (next : filler) : filler :=
  if (request =? PPM_PTRACE_PEEKTEXT) || (request =? PPM_PTRACE_PEEKDATA)
     || (request =? PPM_PTRACE_PEEKUSR) then
    with_state (fun s =>
      match ptrace_peek (compat (args s)) with
      | Some dst => push k dst 0 false PPM_PTRACE_IDX_UINT64 next
      | None => fail PPM_FAILURE_INVALID_USER_MEMORY
      end)
  else if (request =? PPM_PTRACE_CONT) || (request =? PPM_PTRACE_SINGLESTEP)
          || (request =? PPM_PTRACE_DETACH) || (request =? PPM_PTRACE_SYSCALL)
  then push k (arg 3) 0 false PPM_PTRACE_IDX_SIGTYPE next
  else push k (arg 3) 0 false PPM_PTRACE_IDX_UINT64 next.

Definition f_sys_ptrace_e : filler :=
  pushv k (ptrace_requests_to_scap (arg 0)) $ pushv k (arg 1) $ add_sentinel.

Definition f_sys_ptrace_x : filler :=
  pushv k retval $
  if retval <? 0 then pushv k 0 $ pushv k 0 $ add_sentinel
  else
    let request := ptrace_requests_to_scap (arg 0) in
    parse_ptrace_addr request $ parse_ptrace_data request $ add_sentinel.

(** ** System V semaphores. *)

(** One turn of the loop of [f_sys_semop_x]; [more] is the old value of the
    counter [nsops] that the code decrements as it tests it. *)
Definition semop_turn (more : bool) (ptr : Z) (next : filler) : filler :=
  let push_sops num op flg :=
    pushu k num $ pushu k op $ pushu k (semop_flags_to_scap flg) $ next in
  if more then copy_or_fail k ptr 6 (fun b => push_sops (field b 0 2) (sfield b 2 2) (sfield b 4 2))
  else push_sops 0 0 0.

Definition f_sys_semop_x : filler :=
  let nsops := arg 2 in
  let ptr := arg 1 in
  pushv k retval $ pushu k nsops $
  if negb (nsops =? 0) && negb (ptr =? 0) then
    semop_turn true ptr $ semop_turn (negb (nsops =? 1)) (ptr + 6) $ add_sentinel
  else add_sentinel.

Definition f_sys_semget_e : filler :=
  pushu k (arg 0) $ pushu k (arg 1) $ pushu k (semget_flags_to_scap (arg 2)) $ add_sentinel.

Definition f_sys_semctl_e : filler :=
  pushu k (arg 0) $ pushu k (arg 1) $ pushu k (semctl_cmd_to_scap (arg 2)) $
  pushu k (if arg 2 =? SETVAL then arg 3 else 0) $ add_sentinel.

(** ** poll. *)

(** The loop of [poll_parse_fds] on the array of [struct pollfd] at [fds]: [j]
    and [pos] are 32 bits wide.  It is given more turns than the storage page has
    room for entries; [None] when it has not ended by then. *)
Fixpoint poll_loop (fuel : nat) (enter_event : bool) (fds targetbuf nfds j pos count : Z)
    (m : mem) : mem * option (Z * Z) :=
  match fuel with
  | O => (m, None)
  | S fuel' =>
      if negb (j <? nfds) then (m, Some (pos, count))
      else
        let events := s16 (ld16 m (fds + 8 * j + 4)) in
        let revents := s16 (ld16 m (fds + 8 * j + 6)) in
        if negb enter_event && (revents =? 0)
        then poll_loop fuel' enter_event fds targetbuf nfds (u32 (j + 1)) pos count m
        else
          let flags := poll_events_to_scap (if enter_event then events else revents) in
          let m1 := mem_write m (targetbuf + pos) (le64 (s32 (ld32 m (fds + 8 * j)))) in
          let m2 := mem_write m1 (targetbuf + pos + 8) (le16 flags) in
          poll_loop fuel' enter_event fds targetbuf nfds (u32 (j + 1)) (u32 (pos + 10))
            (count + 1) m2
  end.

Definition poll_fuel : nat := 500.

(** Not a result of the code: the loop is still running. *)
Definition STILL_RUNNING : Z := -1000.

Definition poll_parse_fds (enter_event : bool) (next : filler) : filler :=
  let nfds := arg 1 in
  if STR_STORAGE_SIZE <? u64 (8 * nfds + 2 + 10 * nfds) then fail PPM_FAILURE_BUFFER_FULL
  else
    with_state (fun s =>
      let fds := str_storage (args s) in
      let val := if compat (args s) then compat_ptr (arg 0) else arg 0 in
      copy_in k fds val (u64 (nfds * 8))
        (fun s1 =>
           let targetbuf := fds + u64 (nfds * 8) + 2 in
           match poll_loop poll_fuel enter_event fds targetbuf nfds 0 2 0 (kmem s1) with
           | (m, Some (pos, count)) =>
               push k targetbuf pos false 0 next
                 (set_kmem s1 (mem_write m targetbuf (le16 count)))
           | (m, None) => (set_kmem s1 m, STILL_RUNNING)
           end)
        (fail PPM_FAILURE_INVALID_USER_MEMORY)).

Definition f_sys_poll_e : filler := poll_parse_fds true $ pushv k (arg 2) $ add_sentinel.

Definition f_sys_poll_x : filler := pushv k retval $ poll_parse_fds false $ add_sentinel.

(** [timespec_parse]: the structure is copied to the storage page first. *)
Definition timespec_parse (val : Z) (next : filler) : filler :=
  with_state (fun s =>
    let targetbuf := str_storage (args s) in
    if negb (compat (args s)) then
      copy_in k targetbuf val 16
        (with_state (fun s1 =>
           pushv k (u64 (ld64 (kmem s1) targetbuf * 1000000000
                         + s64 (ld64 (kmem s1) (targetbuf + 8)))) next))
        (fail PPM_FAILURE_INVALID_USER_MEMORY)
    else
      copy_in k targetbuf (compat_ptr val) 8
        (with_state (fun s1 =>
           pushv k (u64 (s32 (ld32 (kmem s1) targetbuf) * 1000000000
                         + s32 (ld32 (kmem s1) (targetbuf + 4)))) next))
        (fail PPM_FAILURE_INVALID_USER_MEMORY)).

Definition f_sys_nanosleep_e : filler := timespec_parse (arg 0) $ add_sentinel.

Definition f_sys_ppoll_e : filler :=
  poll_parse_fds true $
  (if arg 2 =? 0 then pushv k (-1) else timespec_parse (arg 2)) $
  if arg 3 =? 0 then pushv k 0 $ add_sentinel
  else copy_or_fail k (arg 3) 8 (fun b => pushv k (field b 0 8) $ add_sentinel).

(** ** Network events that do not come from a syscall. *)

(** The IPv4 tuple the network fillers build at the start of the storage page. *)
Definition store_tuple4 (family sip sport dip dport : Z) : filler -> filler :=
  store (fun a m =>
    mem_write m (str_storage a)
      (le_bytes 1 (socket_family_to_scap family) ++ le_bytes 4 sip ++ le16 sport
       ++ le_bytes 4 dip ++ le16 dport)).

Definition push_tuple4 (next : filler) : filler :=
  with_state (fun s => push k (str_storage (args s)) 13 false 0 next).

Definition f_tcp_rcv_established_e : filler :=
  let sk := ev_sk tk in
  store_tuple4 (skc_family sk) (inet_saddr sk) (inet_sport sk) (inet_daddr sk) (inet_dport sk) $
  push_tuple4 $ pushv k (Z.shiftr (srtt_us sk) 3) $ return_0.

Definition f_tcp_drop_e : filler :=
  let sk := ev_sk tk in
  store_tuple4 (skc_family sk) (inet_saddr sk) (inet_sport sk) (inet_daddr sk) (inet_dport sk) $
  push_tuple4 $ return_0.

Definition f_tcp_retransmit_skb_e : filler :=
  let sk := ev_sk tk in
  store_tuple4 (skc_family sk) (inet_saddr sk) (inet_sport sk) (inet_daddr sk) (inet_dport sk) $
  push_tuple4 $ pushv k 1 $ return_0.

(** [ntohs] of the two bytes at [a]. *)
Definition be16 (m : mem) (a : Z) : Z := Z_of_byte (m a) * 256 + Z_of_byte (m (a + 1)).

Definition f_net_dev_start_xmit_e : filler :=
  if skb_head tk =? 0 then fail (-1)
  else if u16 (skb_mac_header tk) =? 65535 then fail (-1)
  else
    pushv k (ev_dev tk) $ pushv k (ev_skb tk) $
    let ethh := skb_head tk + u16 (skb_mac_header tk) in
    push k (ethh + 6) 6 false 0 $ push k ethh 6 false 0 $
    with_state (fun s =>
      let iph := skb_head tk + u16 (skb_network_header tk) in
      let ipp := Z_of_byte (kmem s (iph + 9)) in
      let ports := (ipp =? IPPROTO_TCP) || (ipp =? IPPROTO_UDP) in
      store_tuple4 AF_INET (ld32 (kmem s) (iph + 12))
        (if ports then be16 (kmem s) (iph + 20) else 0) (ld32 (kmem s) (iph + 16))
        (if ports then be16 (kmem s) (iph + 22) else 0) $
      push_tuple4 $ return_0).

(** The functions that only the eBPF driver implements. *)
Definition f_netif_receive_skb_e : filler := return_0.
Definition f_tcp_connect_x : filler := return_0.
Definition f_tcp_set_state_e : filler := return_0.
Definition f_tcp_receive_reset_e : filler := return_0.
Definition f_tcp_send_reset_e : filler := return_0.
Definition f_cpu_analysis_e : filler := return_0.
Definition f_sys_epoll_wait_x : filler := return_0.
End fillers.

#[export] Typeclasses Opaque timespec_parse poll_parse_fds semop_turn copy_when
  parse_ptrace_addr parse_ptrace_data store_tuple4 push_tuple4.

(** ** What the fillers record. *)

Section specs.
Context (k : kenv) (user : mem) `{!KernelOK k user} (tk : task_env) (t : option Z).

#[export] Instance timespec_parse_spec n val next :
  FillerSpec t (Some n) next -> FillerSpec t (Some (S n)) (timespec_parse k val next).
Proof. intros H. unfold timespec_parse. filler_steps. Qed.

#[export] Instance poll_parse_fds_spec n enter next :
  FillerSpec t (Some n) next -> FillerSpec t (Some (S n)) (poll_parse_fds k enter next).
Proof.
  intros H. unfold poll_parse_fds. cbv zeta. apply if_spec; [exact _|].
  apply with_state_spec. intros s0 _. apply copy_in_spec; [|exact _].
  intros s ps s' r Ht F E.
  destruct (poll_loop _ _ _ _ _ _ _ _ _) as [m [[pos count]|]].
  - exact (kmem_spec t (Some (S n)) (push k _ pos false 0 next) s _ ps s' r _ Ht F E).
  - simplify_eq. split; [done|]. split; [repeat split|]. intros Hc. discriminate Hc.
Qed.

#[export] Instance semop_turn_spec n more ptr next :
  FillerSpec t (Some n) next -> FillerSpec t (Some (S (S (S n)))) (semop_turn k more ptr next).
Proof. intros H. unfold semop_turn. filler_steps. Qed.

#[export] Instance copy_when_spec n b len next :
  (forall bs, FillerSpec t n (next bs)) -> FillerSpec t n (copy_when k b len next).
Proof. intros H. unfold copy_when. filler_steps. Qed.

#[export] Instance parse_ptrace_addr_spec n req next :
  FillerSpec t (Some n) next -> FillerSpec t (Some (S n)) (parse_ptrace_addr k req next).
Proof. intros H. unfold parse_ptrace_addr. filler_steps. Qed.

#[export] Instance parse_ptrace_data_spec n req next :
  FillerSpec t (Some n) next -> FillerSpec t (Some (S n)) (parse_ptrace_data k req next).
Proof. intros H. unfold parse_ptrace_data. filler_steps. Qed.

#[export] Instance store_tuple4_spec n a b c d e next :
  FillerSpec t n next -> FillerSpec t n (store_tuple4 a b c d e next).
Proof. intros H. unfold store_tuple4. filler_steps. Qed.

#[export] Instance push_tuple4_spec n next :
  FillerSpec t (Some n) next -> FillerSpec t (Some (S n)) (push_tuple4 k next).
Proof. intros H. unfold push_tuple4. filler_steps. Qed.

#[export] Instance f_sys_open_x_spec : FillerSpec t (Some 5%nat) (f_sys_open_x k).
Proof. unfold f_sys_open_x. filler_steps. Qed.
#[export] Instance f_sys_openat_x_spec : FillerSpec t (Some 6%nat) (f_sys_openat_x k).
Proof. unfold f_sys_openat_x. filler_steps. Qed.
#[export] Instance f_sys_creat_x_spec : FillerSpec t (Some 4%nat) (f_sys_creat_x k).
Proof. unfold f_sys_creat_x. filler_steps. Qed.
#[export] Instance f_sys_unlinkat_x_spec : FillerSpec t (Some 4%nat) (f_sys_unlinkat_x k).
Proof. unfold f_sys_unlinkat_x. filler_steps. Qed.
#[export] Instance f_sys_linkat_x_spec : FillerSpec t (Some 6%nat) (f_sys_linkat_x k).
Proof. unfold f_sys_linkat_x. filler_steps. Qed.
#[export] Instance f_sys_renameat_x_spec : FillerSpec t (Some 5%nat) (f_sys_renameat_x k).
Proof. unfold f_sys_renameat_x. filler_steps. Qed.
#[export] Instance f_sys_renameat2_x_spec : FillerSpec t (Some 6%nat) (f_sys_renameat2_x k).
Proof. unfold f_sys_renameat2_x. filler_steps. Qed.
#[export] Instance f_sys_symlinkat_x_spec : FillerSpec t (Some 4%nat) (f_sys_symlinkat_x k).
Proof. unfold f_sys_symlinkat_x. filler_steps. Qed.
#[export] Instance f_sys_mkdirat_x_spec : FillerSpec t (Some 4%nat) (f_sys_mkdirat_x k).
Proof. unfold f_sys_mkdirat_x. filler_steps. Qed.
#[export] Instance f_sys_fchmodat_x_spec : FillerSpec t (Some 4%nat) (f_sys_fchmodat_x k).
Proof. unfold f_sys_fchmodat_x. filler_steps. Qed.
#[export] Instance f_sys_chmod_x_spec : FillerSpec t (Some 3%nat) (f_sys_chmod_x k).
Proof. unfold f_sys_chmod_x. filler_steps. Qed.
#[export] Instance f_sys_fchmod_x_spec : FillerSpec t (Some 3%nat) (f_sys_fchmod_x k).
Proof. unfold f_sys_fchmod_x. filler_steps. Qed.
#[export] Instance f_sys_mount_e_spec : FillerSpec t (Some 1%nat) (f_sys_mount_e k).
Proof. unfold f_sys_mount_e. filler_steps. Qed.
#[export] Instance f_sys_lseek_e_spec : FillerSpec t (Some 3%nat) (f_sys_lseek_e k).
Proof. unfold f_sys_lseek_e. filler_steps. Qed.
#[export] Instance f_sys_llseek_e_spec : FillerSpec t (Some 3%nat) (f_sys_llseek_e k).
Proof. unfold f_sys_llseek_e. filler_steps. Qed.
#[export] Instance f_sys_fcntl_e_spec : FillerSpec t (Some 2%nat) (f_sys_fcntl_e k).
Proof. unfold f_sys_fcntl_e. filler_steps. Qed.
#[export] Instance f_sys_flock_e_spec : FillerSpec t (Some 2%nat) (f_sys_flock_e k).
Proof. unfold f_sys_flock_e. filler_steps. Qed.
#[export] Instance f_sys_access_e_spec : FillerSpec t (Some 1%nat) (f_sys_access_e k).
Proof. unfold f_sys_access_e. filler_steps. Qed.
#[export] Instance f_sys_pipe_x_spec : FillerSpec t (Some 4%nat) (f_sys_pipe_x k tk).
Proof. unfold f_sys_pipe_x. filler_steps. Qed.
#[export] Instance f_sys_eventfd_e_spec : FillerSpec t (Some 2%nat) (f_sys_eventfd_e k).
Proof. unfold f_sys_eventfd_e. filler_steps. Qed.
#[export] Instance f_sys_futex_e_spec : FillerSpec t (Some 3%nat) (f_sys_futex_e k).
Proof. unfold f_sys_futex_e. filler_steps. Qed.
#[export] Instance f_sys_sendfile_e_spec : FillerSpec t (Some 4%nat) (f_sys_sendfile_e k).
Proof. unfold f_sys_sendfile_e. filler_steps. Qed.
#[export] Instance f_sys_sendfile_x_spec : FillerSpec t (Some 2%nat) (f_sys_sendfile_x k).
Proof. unfold f_sys_sendfile_x. filler_steps. Qed.
#[export] Instance f_sys_brk_munmap_mmap_x_spec : FillerSpec t (Some 4%nat) (f_sys_brk_munmap_mmap_x k tk).
Proof. unfold f_sys_brk_munmap_mmap_x. filler_steps. Qed.
#[export] Instance f_sys_mmap_e_spec : FillerSpec t (Some 6%nat) (f_sys_mmap_e k).
Proof. unfold f_sys_mmap_e. filler_steps. Qed.
#[export] Instance f_sys_pagefault_e_spec : FillerSpec t (Some 3%nat) (f_sys_pagefault_e k tk).
Proof. unfold f_sys_pagefault_e. filler_steps. Qed.
#[export] Instance f_sys_getrlimit_setrlimit_e_spec : FillerSpec t (Some 1%nat) (f_sys_getrlimit_setrlimit_e k).
Proof. unfold f_sys_getrlimit_setrlimit_e. filler_steps. Qed.
#[export] Instance f_sys_getrlimit_setrlrimit_x_spec : FillerSpec t (Some 3%nat) (f_sys_getrlimit_setrlrimit_x k).
Proof. unfold f_sys_getrlimit_setrlrimit_x. filler_steps. Qed.
#[export] Instance f_sys_prlimit_e_spec : FillerSpec t (Some 2%nat) (f_sys_prlimit_e k).
Proof. unfold f_sys_prlimit_e. filler_steps. Qed.
#[export] Instance f_sys_prlimit_x_spec : FillerSpec t (Some 5%nat) (f_sys_prlimit_x k).
Proof. unfold f_sys_prlimit_x. filler_steps. Qed.
#[export] Instance f_sys_quotactl_e_spec : FillerSpec t (Some 4%nat) (f_sys_quotactl_e k).
Proof. unfold f_sys_quotactl_e. filler_steps. Qed.
#[export] Instance f_sys_quotactl_x_spec : FillerSpec t (Some 14%nat) (f_sys_quotactl_x k tk).
Proof. unfold f_sys_quotactl_x. filler_steps. Qed.
#[export] Instance f_sched_switch_e_spec : FillerSpec t (Some 6%nat) (f_sched_switch_e k tk).
Proof. unfold f_sched_switch_e. filler_steps. Qed.
#[export] Instance f_sched_drop_spec : FillerSpec t (Some 1%nat) (f_sched_drop k tk).
Proof. unfold f_sched_drop. filler_steps. Qed.
#[export] Instance f_sys_procexit_e_spec : FillerSpec t (Some 1%nat) (f_sys_procexit_e k tk).
Proof. unfold f_sys_procexit_e. filler_steps. Qed.
#[export] Instance f_sys_sysdigevent_e_spec : FillerSpec t (Some 2%nat) (f_sys_sysdigevent_e k).
Proof. unfold f_sys_sysdigevent_e. filler_steps. Qed.
#[export] Instance f_cpu_hotplug_e_spec : FillerSpec t (Some 2%nat) (f_cpu_hotplug_e k).
Proof. unfold f_cpu_hotplug_e. filler_steps. Qed.
#[export] Instance f_sys_signaldeliver_e_spec : FillerSpec t (Some 3%nat) (f_sys_signaldeliver_e k).
Proof. unfold f_sys_signaldeliver_e. filler_steps. Qed.
#[export] Instance f_sys_setns_e_spec : FillerSpec t (Some 2%nat) (f_sys_setns_e k).
Proof. unfold f_sys_setns_e. filler_steps. Qed.
#[export] Instance f_sys_unshare_e_spec : FillerSpec t (Some 1%nat) (f_sys_unshare_e k).
Proof. unfold f_sys_unshare_e. filler_steps. Qed.
#[export] Instance f_sys_getresuid_and_gid_x_spec : FillerSpec t (Some 4%nat) (f_sys_getresuid_and_gid_x k).
Proof. unfold f_sys_getresuid_and_gid_x. filler_steps. Qed.
#[export] Instance f_sys_bpf_x_spec : FillerSpec t (Some 1%nat) (f_sys_bpf_x k).
Proof. unfold f_sys_bpf_x. filler_steps. Qed.
#[export] Instance f_sys_ptrace_e_spec : FillerSpec t (Some 2%nat) (f_sys_ptrace_e k).
Proof. unfold f_sys_ptrace_e. filler_steps. Qed.
#[export] Instance f_sys_ptrace_x_spec : FillerSpec t (Some 3%nat) (f_sys_ptrace_x k).
Proof. unfold f_sys_ptrace_x. filler_steps. Qed.
#[export] Instance f_sys_semget_e_spec : FillerSpec t (Some 3%nat) (f_sys_semget_e k).
Proof. unfold f_sys_semget_e. filler_steps. Qed.
#[export] Instance f_sys_semctl_e_spec : FillerSpec t (Some 4%nat) (f_sys_semctl_e k).
Proof. unfold f_sys_semctl_e. filler_steps. Qed.
#[export] Instance f_sys_poll_e_spec : FillerSpec t (Some 2%nat) (f_sys_poll_e k).
Proof. unfold f_sys_poll_e. filler_steps. Qed.
#[export] Instance f_sys_poll_x_spec : FillerSpec t (Some 2%nat) (f_sys_poll_x k).
Proof. unfold f_sys_poll_x. filler_steps. Qed.
#[export] Instance f_sys_nanosleep_e_spec : FillerSpec t (Some 1%nat) (f_sys_nanosleep_e k).
Proof. unfold f_sys_nanosleep_e. filler_steps. Qed.
#[export] Instance f_sys_ppoll_e_spec : FillerSpec t (Some 3%nat) (f_sys_ppoll_e k).
Proof. unfold f_sys_ppoll_e. filler_steps. Qed.
#[export] Instance f_tcp_rcv_established_e_spec : FillerSpec t (Some 2%nat) (f_tcp_rcv_established_e k tk).
Proof. unfold f_tcp_rcv_established_e. filler_steps. Qed.
#[export] Instance f_tcp_drop_e_spec : FillerSpec t (Some 1%nat) (f_tcp_drop_e k tk).
Proof. unfold f_tcp_drop_e. filler_steps. Qed.
#[export] Instance f_tcp_retransmit_skb_e_spec : FillerSpec t (Some 2%nat) (f_tcp_retransmit_skb_e k tk).
Proof. unfold f_tcp_retransmit_skb_e. filler_steps. Qed.
#[export] Instance f_net_dev_start_xmit_e_spec : FillerSpec t (Some 5%nat) (f_net_dev_start_xmit_e k tk).
Proof. unfold f_net_dev_start_xmit_e. filler_steps. Qed.
End specs.
