(* ===== verification/SockFillers.v ===== *)
(** * Fillers of [driver/ppm_fillers.c]: sockets and vectored I/O

    The address and tuple encodings ([pack_addr], [fd_to_socktuple]) and the
    gathering of I/O vectors ([parse_readv_writev_bufs]) of
    [driver/ppm_events.c], and the fillers that use them. *)

From Stdlib Require Import Strings.Byte.
From Stdlib Require Import ZArith Lia List Bool.
From stdpp Require Import base tactics list numbers option.
From S2P Require Import Prelude Bytes EventDefs EventTable FillerTable ValToRing.
From S2P Require Import ValToRingSpec FlagDefs Flags Fillers FillerOps SyscallFillers.
Import ListNotations.
Local Open Scope Z_scope.

Definition UNIX_PATH_MAX : nat := 108.
Definition PRB_FLAG_PUSH_SIZE : Z := 1.
Definition PRB_FLAG_PUSH_DATA : Z := 2.
Definition PRB_FLAG_PUSH_ALL : Z := Z.lor PRB_FLAG_PUSH_SIZE PRB_FLAG_PUSH_DATA.
Definition PRB_FLAG_IS_WRITE : Z := 4.

(** ** Addresses. *)

(** The bytes [o .. o+n) of a socket address; beyond it, zeros. *)
Definition slice (o n : nat) (bs : list byte) : list byte :=
  take n (drop o bs ++ replicate n x00).

(** The family, the IPv4 address, the IPv6 address, the port in host order and
    the path of a socket address. *)
Definition sa_family (bs : list byte) : Z := le_val (slice 0 2 bs).
Definition sin_addr (bs : list byte) : list byte := slice 4 4 bs.
Definition sin6_addr (bs : list byte) : list byte := slice 8 16 bs.
Definition sin_port (bs : list byte) : list byte := le16 (sockaddr_port bs).
Definition sun_path (bs : list byte) : list byte := slice 2 UNIX_PATH_MAX bs.

(** The bytes up to the first NUL. *)
Fixpoint until_nul (bs : list byte) : list byte :=
  match bs with
  | [] => []
  | b :: bs' => if Z_of_byte b =? 0 then [] else b :: until_nul bs'
  end.

(** [strncpy(dest, name, UNIX_PATH_MAX); dest[UNIX_PATH_MAX - 1] = 0;] with the
    length of the string that results. *)
Definition unix_name (name : list byte) : list byte * Z :=
  let s := until_nul (take (UNIX_PATH_MAX - 1) name) in
  (s ++ replicate (UNIX_PATH_MAX - length s) x00, Z.of_nat (length s)).

(** The zero put after a user address of [ulen] bytes. *)
Definition terminate (addr : list byte) (ulen : Z) : list byte :=
  if ulen =? sizeof_sockaddr_storage then <[Z.to_nat (ulen - 1) := x00]> addr
  else <[Z.to_nat ulen := x00]> addr.

(** [pack_addr]: the bytes written to [targetbuf] and the size returned. *)
Definition pack_addr (addr : list byte) (ulen : Z) : list byte * Z :=
  let family := sa_family addr in
  let fam := le_bytes 1 (socket_family_to_scap (u8 family)) in
  if family =? AF_INET then (fam ++ sin_addr addr ++ sin_port addr, 7)
  else if family =? AF_INET6 then (fam ++ sin6_addr addr ++ sin_port addr, 19)
  else if family =? AF_UNIX then
    let '(name, len) := unix_name (sun_path (terminate addr ulen)) in
    (fam ++ name, 1 + len + 1)
  else ([], 0).

Section sockets.
Context (k : kenv) (tk : task_env).

(** The tuple of two endpoints, as the code lays it out. *)
Definition tuple4 (fam src dst : list byte) : list byte :=
  fam ++ sin_addr src ++ sin_port src ++ sin_addr dst ++ sin_port dst.
Definition tuple6 (fam src dst : list byte) : list byte :=
  fam ++ sin6_addr src ++ sin_port src ++ sin6_addr dst ++ sin_port dst.

(** [fd_to_socktuple]: the bytes written to [targetbuf] and the size returned.
    [user] is the user address with its length when [use_userdata] is set.  An
    address that [sock_getname] does not deliver is whatever the stack held. *)
Definition fd_to_socktuple (fd : Z) (user : option (list byte * Z)) (is_inbound : bool) :
    list byte * Z :=
  match sockfd_lookup k fd with
  | None => ([], 0)
  | Some so =>
      if negb (so_sk so) then ([], 0)
      else
        let sock_address := default (uninit k) (so_name so) in
        let family := u16 (so_family so) in
        let fam := le_bytes 1 (socket_family_to_scap (u8 family)) in
        let ends (tuple : list byte -> list byte -> list byte -> list byte) (peer : list byte) :=
          if is_inbound then tuple fam peer sock_address else tuple fam sock_address peer in
        if family =? AF_INET then
          (match user with
           | None =>
               match so_peer so with
               | Some peer => ends tuple4 peer
               | None => tuple4 fam [] []
               end
           | Some (addr, _) => ends tuple4 addr
           end, 13)
        else if family =? AF_INET6 then
          (match user with
           | None => ends tuple6 (default (uninit k) (so_peer so))
           | Some (addr, _) => ends tuple6 addr
           end, 37)
        else if family =? AF_UNIX then
          let '(us, speer) := default (0, 0) (unix_sock tk fd) in
          let ptrs := if is_inbound then le64 us ++ le64 speer else le64 speer ++ le64 us in
          let us_name :=
            match user with
            | None => if is_inbound then sun_path sock_address
                      else sun_path (default (uninit k) (so_peer so))
            | Some (addr, ulen) => if is_inbound then sun_path sock_address
                                   else sun_path (terminate addr ulen)
            end in
          let '(name, len) := unix_name us_name in
          (fam ++ ptrs ++ name, 17 + len + 1)
        else ([], 0)
  end.

(** A tuple or address stored at the start of the storage page and pushed. *)
Definition push_packed (p : list byte * Z) (next : filler) : filler :=
  store (fun a m => mem_write m (str_storage a) (fst p)) $
  with_state (fun s => push k (str_storage (args s)) (snd p) false 0 next).

(** The tuple of a user address of [ulen] bytes at [uaddr], if there is one. *)
Definition user_tuple (fd uaddr ulen : Z) (is_inbound : bool) : list byte * Z :=
  if negb (uaddr =? 0) && negb (ulen =? 0) then
    match addr_to_kernel k uaddr (s32 ulen) with
    | Some addr => fd_to_socktuple fd (Some (addr, s32 ulen)) is_inbound
    | None => ([], 0)
    end
  else ([], 0).

Let retval : Z := syscall_retval k.
Let arg (i : nat) : Z := sc_arg k i.

(** A call of [val_to_ring] whose result is not tested. *)
Definition push_unchecked (val : Z) (next : filler) : filler :=
  fun s => next (fst (val_to_ring k s val 0 false 0)).

Definition f_sys_socket_bind_x : filler :=
  push_unchecked retval $
  with_sock_arg k 1 (fun usrsockaddr => with_sock_arg k 2 (fun val =>
    push_packed
      (if negb (usrsockaddr =? 0) && negb (val =? 0) then
         match addr_to_kernel k usrsockaddr (s32 val) with
         | Some address => pack_addr address (s32 val)
         | None => ([], 0)
         end
       else ([], 0)) $
    add_sentinel)).

Definition f_sys_connect_x : filler :=
  push_unchecked retval $
  with_sock_arg k 0 (fun fd => with_sock_arg k 1 (fun usrsockaddr => with_sock_arg k 2 (fun val =>
    push_packed (if 0 <=? s32 fd then user_tuple (s32 fd) usrsockaddr val false else ([], 0)) $
    add_sentinel))).

Definition f_sys_socketpair_x : filler :=
  pushv k retval $
  if 0 <=? retval then
    with_sock_arg k 3 (fun val => with_user_ptr val (fun p => copy_or_fail k p 8 (fun fds =>
      pushv k (sfield fds 0 4) $ pushv k (sfield fds 4 4) $
      match sockfd_lookup k (sfield fds 0 4) with
      | Some _ =>
          let '(us, speer) := default (0, 0) (unix_sock tk (sfield fds 0 4)) in
          pushv k us $ pushv k speer $ add_sentinel
      | None => fail (lookup_err tk)
      end)))
  else pushv k 0 $ pushv k 0 $ pushv k 0 $ pushv k 0 $ add_sentinel.

(** The options whose value is recorded as a 32 bit number. *)
Definition sockopt_uint32 : list Z :=
  [ SO_DEBUG; SO_REUSEADDR; SO_TYPE; SO_DONTROUTE; SO_BROADCAST; SO_SNDBUF; SO_RCVBUF;
    SO_SNDBUFFORCE; SO_RCVBUFFORCE; SO_KEEPALIVE; SO_OOBINLINE; SO_NO_CHECK; SO_PRIORITY;
    SO_BSDCOMPAT; SO_REUSEPORT; SO_PASSCRED; SO_RCVLOWAT; SO_SNDLOWAT;
    SO_SECURITY_AUTHENTICATION; SO_SECURITY_ENCRYPTION_TRANSPORT;
    SO_SECURITY_ENCRYPTION_NETWORK; SO_BINDTODEVICE; SO_DETACH_FILTER; SO_TIMESTAMP;
    SO_ACCEPTCONN; SO_PEERSEC; SO_PASSSEC; SO_TIMESTAMPNS; SO_MARK; SO_TIMESTAMPING;
    SO_PROTOCOL; SO_DOMAIN; SO_RXQ_OVFL; SO_WIFI_STATUS; SO_PEEK_OFF; SO_NOFCS;
    SO_LOCK_FILTER; SO_SELECT_ERR_QUEUE; SO_BUSY_POLL; SO_MAX_PACING_RATE;
    SO_BPF_EXTENSIONS; SO_INCOMING_CPU ].

Definition parse_sockopt (level optname optval optlen : Z) (next : filler) : filler :=
  if level =? SOL_SOCKET then
    if optname =? SO_ERROR then
      copy_or_fail k optval 4 (fun b =>
        push k (- sfield b 0 4) 0 false PPM_SOCKOPT_IDX_ERRNO next)
    else if (optname =? SO_RCVTIMEO) || (optname =? SO_SNDTIMEO) then
      copy_or_fail k optval 16 (fun b =>
        push k (u64 (sfield b 0 8 * SECOND_IN_NS + sfield b 8 8 * 1000)) 0 false
          PPM_SOCKOPT_IDX_TIMEVAL next)
    else if optname =? SO_COOKIE then
      copy_or_fail k optval 8 (fun b => push k (field b 0 8) 0 false PPM_SOCKOPT_IDX_UINT64 next)
    else if existsb (Z.eqb optname) sockopt_uint32 then
      copy_or_fail k optval 4 (fun b => push k (field b 0 4) 0 false PPM_SOCKOPT_IDX_UINT32 next)
    else push k optval optlen true PPM_SOCKOPT_IDX_UNKNOWN next
  else push k optval optlen true PPM_SOCKOPT_IDX_UNKNOWN next.

Definition f_sys_setsockopt_x : filler :=
  pushv k retval $ pushu k (arg 0) $ pushu k (sockopt_level_to_scap (arg 1)) $
  pushu k (sockopt_optname_to_scap (arg 1) (arg 2)) $
  parse_sockopt (s32 (arg 1)) (s32 (arg 2)) (arg 3) (s32 (arg 4)) $
  pushu k (arg 4) $ add_sentinel.

Definition f_sys_getsockopt_x : filler :=
  pushv k retval $ pushu k (arg 0) $ pushu k (sockopt_level_to_scap (arg 1)) $
  pushu k (sockopt_optname_to_scap (arg 1) (arg 2)) $
  copy_or_fail k (arg 4) 4 (fun b =>
    parse_sockopt (s32 (arg 1)) (s32 (arg 2)) (arg 3) (sfield b 0 4) $
    pushu k (field b 0 4) $ add_sentinel).

Definition f_sys_accept4_e : filler := pushv k 0 $ add_sentinel.

(** The backlog of the listening socket and how full it is, in percent. *)
Definition f_sys_accept_x : filler :=
  let fd := s32 retval in
  pushv k fd $ push_packed (fd_to_socktuple fd None true) $
  with_sock_arg k 0 (fun srvskfd =>
    let '(ack_backlog, max_ack_backlog) := default (0, 0) (sk_backlog tk (s32 srvskfd)) in
    pushv k (if max_ack_backlog =? 0 then 0 else ack_backlog * 100 / max_ack_backlog) $
    pushv k ack_backlog $ pushv k max_ack_backlog $ add_sentinel).

(** [f_sys_send_e_common]; [next] receives the descriptor. *)
Definition f_sys_send_e_common (next : Z -> filler) : filler :=
  with_sock_arg k 0 (fun val => pushv k val $
  with_sock_arg k 2 (fun size => pushv k size $ next (s32 val))).

Definition f_sys_send_e : filler := f_sys_send_e_common (fun _ => add_sentinel).

Definition f_sys_sendto_e : filler :=
  store (fun a m => mem_write m (str_storage a) (le_bytes 1 250)) $
  f_sys_send_e_common (fun fd =>
    with_sock_arg k 4 (fun usrsockaddr => with_sock_arg k 5 (fun val =>
      push_packed (user_tuple fd usrsockaddr val false) $ add_sentinel))).

(** The data of a completed transfer, truncated by the snaplen; the buffer and
    its length are empty when the call failed. *)
Definition push_data (next : filler) : filler :=
  if retval <? 0 then
    assign (fun a => set_enforce_snaplen a true) $ push k 0 0 true 0 next
  else
    with_sock_arg k 1 (fun val =>
      assign (fun a => set_enforce_snaplen a true) $ push k val retval true 0 next).

Definition f_sys_send_x : filler :=
  assign (fun a => set_fd a (s32 (sock_arg k a 0))) $
  pushv k retval $ push_data $ add_sentinel.

(** For a socketcall the descriptor is taken from the second argument. *)
Definition f_sys_recv_x_common (next : filler) : filler :=
  assign (fun a => set_fd a (s32 (if is_socketcall a then nth 1 (socketcall_args a) 0
                                  else arg 0))) $
  pushv k retval $ push_data $ next.

Definition f_sys_recv_x : filler := f_sys_recv_x_common $ add_sentinel.

Definition f_sys_recvfrom_x : filler :=
  f_sys_recv_x_common $
  if 0 <=? retval then
    with_sock_arg k 0 (fun fd => with_sock_arg k 4 (fun usrsockaddr => with_sock_arg k 5 (fun val =>
      if negb (usrsockaddr =? 0) && negb (val =? 0) then
        with_user_ptr val (fun p => copy_or_fail k p 4 (fun b =>
          let addrlen := sfield b 0 4 in
          push_packed
            (match addr_to_kernel k usrsockaddr addrlen with
             | Some address => fd_to_socktuple (s32 fd) (Some (address, addrlen)) true
             | None => ([], 0)
             end) $ add_sentinel))
      else push_packed ([], 0) $ add_sentinel)))
  else push_packed ([], 0) $ add_sentinel.

Definition f_sys_shutdown_e : filler :=
  with_sock_arg k 0 (fun fd => pushv k fd $
  with_sock_arg k 1 (fun how => pushv k (shutdown_how_to_scap how) $ add_sentinel)).
End sockets.

(** ** I/O vectors. *)

Section vectors.
Context (k : kenv) (tk : task_env).

Let retval : Z := syscall_retval k.
Let arg (i : nat) : Z := sc_arg k i.

(** [struct iovec] and [struct compat_iovec]: the size of an entry, its base and
    its length at address [a], and the conversion to [size_t] or
    [compat_size_t]. *)
Definition iov_size (c : bool) : Z := if c then 8 else 16.
Definition iov_base (c : bool) (m : mem) (a : Z) : Z := if c then compat_ptr (ld32 m a) else ld64 m a.
Definition iov_len (c : bool) (m : mem) (a : Z) : Z := if c then ld32 m (a + 4) else ld64 m (a + 8).
Definition size_conv (c : bool) (v : Z) : Z := if c then u32 v else u64 v.

(** The sum of the lengths, in 64 bits. *)
Fixpoint iov_total (c : bool) (m : mem) (iov : Z) (n : nat) : Z :=
  match n with
  | O => 0
  | S n' => u64 (iov_len c m iov + iov_total c m (iov + iov_size c) n')
  end.

(** The bytes to copy of an entry of length [len]. *)
Definition tocopy_len (c is_write : bool) (len limit bufsize targetbuflen : Z) : Z :=
  let cap := size_conv c (targetbuflen - bufsize - 1) in
  if is_write then Z.min len cap
  else Z.min (Z.min len (size_conv c (u64 (limit - bufsize)))) cap.

(** The merge loop of [parse_readv_writev_bufs] over [n] entries at [iov]; no
    result when a copy failed. *)
Fixpoint merge_bufs (c is_write : bool) (limit targetbuf targetbuflen : Z) (n : nat)
    (iov bufsize : Z) (m : mem) : mem * option Z :=
  match n with
  | O => (m, Some bufsize)
  | S n' =>
      if negb is_write && (u64 limit <=? bufsize) then (m, Some bufsize)
      else
        let len := iov_len c m iov in
        let tocopy := tocopy_len c is_write len limit bufsize targetbuflen in
        let '(m1, notcopied) :=
          ppm_copy_from_user k m (targetbuf + bufsize) (iov_base c m iov) tocopy in
        if negb (u32 notcopied =? 0) then (m1, None)
        else
          let bufsize' := u64 (bufsize + tocopy) in
          if negb (tocopy =? len) then (m1, Some bufsize')
          else merge_bufs c is_write limit targetbuf targetbuflen n' (iov + iov_size c) bufsize' m1
  end.

(** [parse_readv_writev_bufs] and, for [c] set, its compat version; [limit] is
    the parameter [retval]. *)
Definition parse_bufs (c : bool) (iovsrc iovcnt limit flags : Z) (next : filler) : filler :=
  let copylen := u64 (iovcnt * iov_size c) in
  if 4294967295 <=? iovcnt then fail PPM_FAILURE_BUFFER_FULL
  else if STR_STORAGE_SIZE <=? copylen then fail PPM_FAILURE_BUFFER_FULL
  else
    with_state (fun s =>
      let iov := str_storage (args s) in
      let targetbuf := iov + copylen in
      let targetbuflen := u32 (STR_STORAGE_SIZE - copylen) in
      let n := Z.to_nat iovcnt in
      let is_write := has_flag flags PRB_FLAG_IS_WRITE in
      let push_bufs : filler :=
        if has_flag flags PRB_FLAG_PUSH_DATA then
          if (0 <? limit) && (0 <? iovcnt) then
            assign (fun a => set_fd a (s32 (sock_arg k a 0))) $
            (fun s1 =>
               match merge_bufs c is_write limit targetbuf targetbuflen n iov 0 (kmem s1) with
               | (m, Some bufsize) =>
                   (assign (fun a => set_enforce_snaplen a true) $
                    push k targetbuf bufsize false 0 next) (set_kmem s1 m)
               | (m, None) => (set_kmem s1 m, PPM_FAILURE_INVALID_USER_MEMORY)
               end)
          else pushv k 0 next
        else next in
      copy_in k iov iovsrc copylen
        (if has_flag flags PRB_FLAG_PUSH_SIZE then
           with_state (fun s1 =>
             let size := iov_total c (kmem s1) iov n in
             pushv k (if negb is_write && (u64 limit <? size) then limit else size) push_bufs)
         else push_bufs)
        (fail PPM_FAILURE_INVALID_USER_MEMORY)).

Definition parse_readv_writev_bufs : Z -> Z -> Z -> Z -> filler -> filler := parse_bufs false.
Definition compat_parse_readv_writev_bufs : Z -> Z -> Z -> Z -> filler -> filler := parse_bufs true.

(** The call with the version that fits the task's ABI. *)
Definition parse_user_bufs (val iovcnt : Z) (limit : fstate -> Z) (flags : Z) (next : filler) :
    filler :=
  with_state (fun s =>
    if compat (args s)
    then compat_parse_readv_writev_bufs (compat_ptr val) iovcnt (limit s) flags next
    else parse_readv_writev_bufs val iovcnt (limit s) flags next).

Definition the_snaplen (s : fstate) : Z := snaplen (consumer (args s)).

Definition f_sys_readv_preadv_x : filler :=
  pushv k retval $ parse_user_bufs (arg 1) (arg 2) (fun _ => retval) PRB_FLAG_PUSH_ALL $
  add_sentinel.

Definition f_sys_writev_e : filler :=
  pushv k (arg 0) $
  parse_user_bufs (arg 1) (arg 2) the_snaplen (Z.lor PRB_FLAG_PUSH_SIZE PRB_FLAG_IS_WRITE) $
  add_sentinel.

Definition f_sys_writev_pwritev_x : filler :=
  pushv k retval $
  parse_user_bufs (arg 1) (arg 2) the_snaplen (Z.lor PRB_FLAG_PUSH_DATA PRB_FLAG_IS_WRITE) $
  add_sentinel.

Definition f_sys_pwritev_e : filler :=
  pushv k (arg 0) $
  parse_user_bufs (arg 1) (arg 2) the_snaplen (Z.lor PRB_FLAG_PUSH_SIZE PRB_FLAG_IS_WRITE) $
  pushv k (arg 3) $ add_sentinel.

(** The message header of a call: the I/O vector, its length, the address and
    its length, in the task's ABI. *)
Record msghdr : Type := mk_msghdr {
  msg_iov : Z;
  msg_iovlen : Z;
  msg_name : Z;
  msg_namelen : Z }.

Definition msghdr_of (b : list byte) : msghdr :=
  mk_msghdr (field b 16 8) (field b 24 8) (field b 0 8) (sfield b 8 4).
Definition compat_msghdr_of (b : list byte) : msghdr :=
  mk_msghdr (compat_ptr (field b 8 4)) (field b 12 4) (compat_ptr (field b 0 4)) (sfield b 4 4).

(** Read the header at [val], and pass the vectors to the right version. *)
Definition with_msghdr (val limit flags : Z) (next : msghdr -> filler) : filler :=
  with_state (fun s =>
    if negb (compat (args s)) then
      copy_or_fail k val 56 (fun b =>
        let mh := msghdr_of b in
        parse_readv_writev_bufs (msg_iov mh) (msg_iovlen mh) limit flags (next mh))
    else
      copy_or_fail k (compat_ptr val) 28 (fun b =>
        let mh := compat_msghdr_of b in
        compat_parse_readv_writev_bufs (msg_iov mh) (msg_iovlen mh) limit flags (next mh))).

Definition f_sys_sendmsg_e : filler :=
  with_sock_arg k 0 (fun fd => pushv k fd $
  with_sock_arg k 1 (fun val => with_state (fun s =>
    with_msghdr val (the_snaplen s) (Z.lor PRB_FLAG_PUSH_SIZE PRB_FLAG_IS_WRITE) (fun mh =>
      push_packed k (user_tuple k tk (s32 fd) (msg_name mh) (msg_namelen mh) false) $
      add_sentinel)))).

Definition f_sys_sendmsg_x : filler :=
  pushv k retval $
  with_sock_arg k 1 (fun val => with_state (fun s =>
    with_msghdr val (the_snaplen s) (Z.lor PRB_FLAG_PUSH_DATA PRB_FLAG_IS_WRITE)
      (fun _ => add_sentinel))).

(** For a compat task the header variable that holds the address is not the one
    that was read: it is still uninitialised. *)
Definition f_sys_recvmsg_x : filler :=
  pushv k retval $
  with_sock_arg k 1 (fun val =>
    with_msghdr val retval PRB_FLAG_PUSH_ALL (fun mh =>
      with_state (fun s =>
        let mh := if compat (args s) then msghdr_of (uninit k) else mh in
        with_sock_arg k 0 (fun fd =>
          push_packed k
            (if 0 <=? retval then user_tuple k tk (s32 fd) (msg_name mh) (msg_namelen mh) true
             else ([], 0)) $
          add_sentinel)))).

(** ** sendmmsg. *)

(** The inner loop: the data of one message, [n] entries at [iov]. *)
Fixpoint mmsg_data (slen targetbuf targetbuflen : Z) (n : nat) (iov bufsize : Z) (m : mem) :
    mem * option Z :=
  match n with
  | O => (m, Some bufsize)
  | S n' =>
      if slen <=? bufsize then (m, Some bufsize)
      else
        let len := iov_len false m iov in
        let tocopy := Z.min (Z.min len (u64 (slen - bufsize))) (u64 (targetbuflen - bufsize - 1)) in
        let '(m1, notcopied) :=
          ppm_copy_from_user k m (targetbuf + bufsize) (iov_base false m iov) tocopy in
        if negb (u32 notcopied =? 0) then (m1, None)
        else
          let bufsize' := u64 (bufsize + tocopy) in
          if negb (tocopy =? len) then (m1, Some bufsize')
          else mmsg_data slen targetbuf targetbuflen n' (iov + 16) bufsize' m1
  end.

(** The outer loop over the messages still to do, [i] of them done: each puts
    its size and then its data behind what is already in the buffer.  The buffer
    starts behind the vector of the first message. *)
Fixpoint mmsg_loop (storage slen mmsgs : Z) (todo : nat) (i : Z) (targetbuf targetbuflen bufsize : Z)
    (m : mem) : mem * (Z * Z + Z) :=
  match todo with
  | O => (m, inl (targetbuf, bufsize))
  | S todo' =>
      match copy_local k (mmsgs + 64 * i) 64 with
      | None => (m, inr PPM_FAILURE_INVALID_USER_MEMORY)
      | Some mmh =>
          let iovsrc := field mmh 16 8 in
          let iovcnt := field mmh 24 8 in
          let msglen := field mmh 56 4 in
          let copylen := u64 (iovcnt * 16) in
          if 4294967295 <=? iovcnt then (m, inr PPM_FAILURE_BUFFER_FULL)
          else if STR_STORAGE_SIZE <=? copylen then (m, inr PPM_FAILURE_BUFFER_FULL)
          else
            let '(m1, notread) := ppm_copy_from_user k m storage iovsrc copylen in
            if negb (notread =? 0) then (m1, inr PPM_FAILURE_INVALID_USER_MEMORY)
            else
              let targetbuf := if i =? 0 then targetbuf + copylen else targetbuf in
              let targetbuflen := if i =? 0 then u32 (targetbuflen - copylen) else targetbuflen in
              let size := Z.min (u32 (iov_total false m1 storage (Z.to_nat iovcnt))) msglen in
              let m2 := mem_write m1 (targetbuf + bufsize) (le_bytes 4 size) in
              match mmsg_data slen targetbuf targetbuflen (Z.to_nat iovcnt) storage
                      (bufsize + 4) m2 with
              | (m3, None) => (m3, inr PPM_FAILURE_INVALID_USER_MEMORY)
              | (m3, Some bufsize') =>
                  mmsg_loop storage slen mmsgs todo' (i + 1) targetbuf targetbuflen bufsize' m3
              end
      end
  end.

Definition f_sys_sendmmsg_x : filler :=
  pushv k retval $
  with_sock_arg k 2 (fun vlen => with_sock_arg k 1 (fun val =>
    pushv k (u32 vlen) $
    (fun s =>
       let storage := str_storage (args s) in
       let '(m, r) :=
         if compat (args s) then (kmem s, inl (storage, 0))
         else mmsg_loop storage (the_snaplen s) val (Z.to_nat retval) 0 storage STR_STORAGE_SIZE 0
                (kmem s) in
       match r with
       | inl (targetbuf, bufsize) =>
           (assign (fun a => set_enforce_snaplen a true) $
            push k targetbuf bufsize false 0 $ add_sentinel) (set_kmem s m)
       | inr code => (set_kmem s m, code)
       end))).
End vectors.

#[export] Typeclasses Opaque push_packed push_unchecked parse_sockopt f_sys_send_e_common
  push_data f_sys_recv_x_common parse_bufs parse_readv_writev_bufs
  compat_parse_readv_writev_bufs parse_user_bufs with_msghdr.

(** ** A failed push of a number is not followed by a successful one. *)

(** A type whose value never fits in [max] bytes. *)
Definition never_fits (t : ppm_param_type) (max : Z) : Prop :=
  forall k a rm km at_ max' val vl fu, max' <= max ->
    exists e, put_value k a rm km t at_ max' val vl fu = (rm, PutErr e) /\ e <> PPM_SUCCESS.

Lemma put_kernel_error k a rm km t at_ max val m e :
  put_value k a rm km t at_ max val 0 false = (m, PutErr e) ->
  m = rm /\ e <> PPM_SUCCESS /\ (max <= 0 \/ never_fits t max).
Proof.
  intros H. assert (Hscalar : forall w, scalar_width t = Some w ->
    (forall k a rm km at_ max' val vl fu, put_value k a rm km t at_ max' val vl fu =
       if Z.of_nat w <=? max' then (mem_write rm at_ (le_bytes w val), Put (Z.of_nat w))
       else (rm, PutErr PPM_FAILURE_BUFFER_FULL)) ->
    m = rm /\ e <> PPM_SUCCESS /\ (max <= 0 \/ never_fits t max)).
  { intros w Hw Hput. rewrite Hput in H. case_in H; simplify_eq. bool_to_prop.
    split; [done|]. split; [done|]. right. intros k' a' rm' km' at' max' val' vl' fu' Hm.
    rewrite Hput. exists PPM_FAILURE_BUFFER_FULL.
    assert (Z.of_nat w <=? max' = false) as -> by (apply Z.leb_gt; lia). done. }
  destruct t; try (eapply Hscalar; [reflexivity|reflexivity]); clear Hscalar;
    cbn [put_value scalar_width] in H;
    try (simplify_eq; split; [done|]; split; [done|]; right; intros ? ? ? ? ? ? ? ? ? _;
         exists PPM_FAILURE_BUG; done);
    try (unfold put_string in H; repeat case_in H; simplify_eq; done).
  - unfold put_bytebuf in H. destruct (val =? 0); [simplify_eq|]. cbv zeta in H.
    set (v := if enforce_snaplen a then _ else 0) in H.
    assert (v <= 0).
    { unfold v. destruct (enforce_snaplen a); [|lia].
      destruct (_ <? 0) eqn:Ev; [apply Z.ltb_lt in Ev|]; lia. }
    destruct (max <=? v) eqn:Em; simplify_eq. apply Z.leb_le in Em. split_and!; [done..|].
    left. lia.
  - unfold put_block in H. repeat case_in H; simplify_eq; bool_to_prop; split_and!; auto.
  - unfold put_block in H. repeat case_in H; simplify_eq; bool_to_prop; split_and!; auto.
  - unfold put_block in H. repeat case_in H; simplify_eq; bool_to_prop; split_and!; auto.
Qed.

(** What a failed [val_to_ring] of a kernel value leaves behind: nothing but
    the size entry and the byte of a dynamic index were written, and the next
    call finds the same parameter with no more room. *)
Record failed_push (s s1 : fstate) : Prop := {
  failed_same : same_event (args s) (args s1);
  failed_nargs : nargs (args s1) = nargs (args s);
  failed_curarg : curarg (args s1) = curarg (args s);
  failed_room : 0 <= arg_data_size (args s1) <= arg_data_size (args s);
  failed_end : arg_data_offset (args s1) + arg_data_size (args s1) = buffer_size (args s);
  failed_writes : writes_within s s1 }.

Lemma failed_push_refl s ps : filled s ps -> failed_push s s.
Proof.
  intros F. pose proof (filled_room _ _ F). pose proof (filled_size _ _ F).
  split; try done; lia.
Qed.

(** The memory a failed call leaves: the size entry and the dynamic index. *)
Lemma prefix_within s s1 (dyn : bool) di :
  failed_push s s1 -> curarg (args s) < nargs (args s) -> 0 <= curarg (args s) ->
  2 * nargs (args s) <= arg_data_offset (args s1) -> 1 <= arg_data_size (args s1) ->
  forall x, x < buffer (args s) \/ buffer (args s) + buffer_size (args s) < x ->
    vtr_prefix (args s1) (rmem s1) dyn di x = rmem s x.
Proof.
  intros [(Hb & _) Hn Hc Hr He Hw] Hlt H0 Hoff Hsz x Hx. rewrite <- (Hw x Hx).
  unfold vtr_prefix, psize_addr. rewrite Hb, Hc.
  destruct dyn; rewrite ?mem_write_out; try done; unfold le16; rewrite length_le_bytes; lia.
Qed.

(** After a failed [val_to_ring] of a kernel value of no length, another one
    fails too. *)
Lemma vtr_fails_again k s ps v s1 r1 m v' vl' s2 r2 :
  filled s ps -> val_to_ring k s v 0 false 0 = (s1, r1) -> r1 <> PPM_SUCCESS ->
  val_to_ring k (set_kmem s1 m) v' vl' false 0 = (s2, r2) ->
  r2 <> PPM_SUCCESS /\ same_event (args s) (args s2) /\ writes_within s s2.
Proof.
  intros F H1 Hr H2.
  pose proof (filled_room _ _ F) as Hroom. pose proof (filled_u32 _ _ F) as Hu.
  pose proof (filled_size _ _ F) as Hsize. pose proof (filled_nargs _ _ F) as Hna.
  pose proof (filled_offset _ _ F) as Hoff. pose proof (zsum_lens_nonneg ps) as Hz.
  unfold val_to_ring in H1. change (u32 0) with 0 in H1. change (u8 0) with 0 in H1.
  destruct (nargs (args s) <=? curarg (args s)) eqn:E1.
  { injection H1 as <- <-. unfold val_to_ring in H2. cbn [args set_kmem] in H2. rewrite E1 in H2.
    simplify_eq. done. }
  destruct (arg_data_size (args s) =? 0) eqn:E2.
  { injection H1 as <- <-. unfold val_to_ring in H2. cbn [args set_kmem] in H2.
    rewrite E1, E2 in H2. simplify_eq. done. }
  rewrite (if_ltb_min PPM_MAX_ARG_SIZE) in H1. fold (arg_room (args s)) in H1.
  destruct (param_alternative _ _) as [[dyn ty]|] eqn:Ealt; cycle 1.
  { injection H1 as <- <-. unfold val_to_ring in H2. cbn [args set_kmem] in H2.
    change (u8 0) with 0 in H2. rewrite E1, E2, Ealt in H2. simplify_eq. done. }
  bool_to_prop. assert (Hmax : 1 <= arg_room (args s) <= arg_data_size (args s))
    by (unfold arg_room, PPM_MAX_ARG_SIZE; lia).
  assert (Hlt : arg_room (args s) <? 1 = false) by (apply Z.ltb_ge; lia).
  rewrite Hlt, andb_false_r in H1. fold (vtr_prefix (args s) (rmem s) dyn 0) in H1.
  set (d := if dyn then 1 else 0) in *.
  assert (Hd : 0 <= d <= 1) by (unfold d; destruct dyn; lia).
  cbn [arg_data_offset arg_data_size set_cursor] in H1.
  rewrite !(u32_small (arg_data_offset (args s) + d)) in H1 by lia.
  rewrite !(u32_small (arg_data_size (args s) - d)) in H1 by lia.
  destruct (put_value _ _ _ _ _ _ _ _ _ _) as [rm' [len|e]] eqn:Eput; injection H1 as <- <-;
    [done|].
  apply put_kernel_error in Eput as (-> & _ & Hfit).
  set (s1 := mk_fstate _ _ _) in *.
  assert (Hfp : failed_push s s1).
  { constructor; [repeat split|done|done|simpl; lia|simpl; lia|].
    intros x Hx. cbn [rmem s1].
    apply (prefix_within s s dyn 0 (failed_push_refl s ps F)); lia || done. }
  unfold val_to_ring in H2. cbn [args set_kmem rmem kmem] in H2. change (u8 0) with 0 in H2.
  rewrite (failed_nargs _ _ Hfp), (failed_curarg _ _ Hfp) in H2.
  assert (nargs (args s) <=? curarg (args s) = false) as Hlb by (apply Z.leb_gt; lia).
  rewrite Hlb in H2. change (event_type (args s1)) with (event_type (args s)) in H2.
  change (arg_data_size (args s1)) with (arg_data_size (args s) - d) in H2.
  destruct (arg_data_size (args s) - d =? 0) eqn:E3.
  { injection H2 as <- <-. split; [done|]. split; [apply Hfp|]. exact (failed_writes _ _ Hfp). }
  rewrite Ealt in H2. rewrite (if_ltb_min PPM_MAX_ARG_SIZE) in H2. bool_to_prop.
  set (max' := Z.min (arg_data_size (args s) - d) PPM_MAX_ARG_SIZE) in H2.
  assert (Hmax' : 1 <= max' <= arg_room (args s))
    by (unfold max', arg_room, PPM_MAX_ARG_SIZE in *; lia).
  assert (max' <? 1 = false) as Hm1 by (apply Z.ltb_ge; lia).
  rewrite Hm1, andb_false_r in H2. fold (vtr_prefix (args s1) (rmem s1) dyn 0) in H2.
  destruct Hfit as [Hfit|Hfit]; [unfold arg_room, PPM_MAX_ARG_SIZE, max' in *; lia|].
  match type of H2 with context [put_value k ?a ?rm ?km ty ?at_ ?mx ?v ?l ?fu] =>
    destruct (Hfit k a rm km at_ mx v l fu) as (e' & Hput & He'); [lia|] end.
  rewrite Hput in H2. injection H2 as <- <-. split; [done|]. split; [repeat split|].
  intros x Hx. cbn [rmem]. apply (prefix_within s s1 dyn 0 Hfp); [lia|lia| |cbn; lia|exact Hx].
  change (arg_data_offset (args s1)) with (arg_data_offset (args s) + d). lia.
Qed.

(** ** What the fillers record. *)

(** The parameters [parse_readv_writev_bufs] pushes for its flags. *)
Definition bufs_params (flags : Z) : nat :=
  (if has_flag flags PRB_FLAG_PUSH_SIZE then 1 else 0)
  + (if has_flag flags PRB_FLAG_PUSH_DATA then 1 else 0).

Section specs.
Context (k : kenv) (user : mem) `{!KernelOK k user} (tk : task_env) (t : option Z).

#[export] Instance push_packed_spec n p next :
  FillerSpec t (Some n) next -> FillerSpec t (Some (S n)) (push_packed k p next).
Proof. intros H. unfold push_packed. filler_steps. Qed.

#[export] Instance parse_sockopt_spec n level optname optval optlen next :
  FillerSpec t (Some n) next ->
  FillerSpec t (Some (S n)) (parse_sockopt k level optname optval optlen next).
Proof. intros H. unfold parse_sockopt. filler_steps. Qed.

#[export] Instance f_sys_send_e_common_spec n next :
  (forall fd, FillerSpec t (Some n) (next fd)) ->
  FillerSpec t (Some (S (S n))) (f_sys_send_e_common k next).
Proof. intros H. unfold f_sys_send_e_common. filler_steps. Qed.

#[export] Instance push_data_spec n next :
  FillerSpec t (Some n) next -> FillerSpec t (Some (S n)) (push_data k next).
Proof. intros H. unfold push_data. filler_steps. Qed.

#[export] Instance f_sys_recv_x_common_spec n next :
  FillerSpec t (Some n) next -> FillerSpec t (Some (S (S n))) (f_sys_recv_x_common k next).
Proof.
  intros H. unfold f_sys_recv_x_common. cbv zeta.
  apply (assign_spec t); [apply (set_fd_keeps (fun a => s32 _))|]. exact _.
Qed.

Lemma merge_step_spec n c w limit tb tbl cnt iov next :
  FillerSpec t (Some n) next ->
  FillerSpec t (Some (S n))
    (fun s1 => match merge_bufs k c w limit tb tbl cnt iov 0 (kmem s1) with
               | (m, Some bufsize) =>
                   assign (fun a => set_enforce_snaplen a true) (push k tb bufsize false 0 next)
                     (set_kmem s1 m)
               | (m, None) => (set_kmem s1 m, PPM_FAILURE_INVALID_USER_MEMORY)
               end).
Proof.
  intros H s ps s' r Ht F E. destruct (merge_bufs _ _ _ _ _ _ _ _ _ _) as [m [bs|]].
  - exact (kmem_spec t (Some (S n)) _ s m ps s' r _ Ht F E).
  - simplify_eq. split; [done|]. split; [repeat split|done].
Qed.

Lemma parse_bufs_spec n c iovsrc iovcnt limit flags next :
  FillerSpec t (Some n) next ->
  FillerSpec t (Some (bufs_params flags + n)%nat) (parse_bufs k c iovsrc iovcnt limit flags next).
Proof.
  intros H. unfold parse_bufs. cbv zeta. do 2 (apply if_spec; [exact _|]).
  apply with_state_spec. intros s0 _. apply copy_in_spec; [|exact _].
  set (pb := if has_flag flags PRB_FLAG_PUSH_DATA then _ else next).
  assert (Hpb : FillerSpec t (Some ((if has_flag flags PRB_FLAG_PUSH_DATA then 1 else 0) + n)%nat) pb).
  { unfold pb. destruct (has_flag flags PRB_FLAG_PUSH_DATA); [|exact H].
    apply if_spec; [|apply (pushv_spec k user t); exact H].
    apply assign_spec; [apply (set_fd_keeps (fun a => s32 _))|]. by apply merge_step_spec. }
  unfold bufs_params. destruct (has_flag flags PRB_FLAG_PUSH_SIZE); [|exact Hpb].
  apply with_state_spec. intros s1 _. exact (pushv_spec k user t _ _ _ Hpb).
Qed.

Lemma parse_user_bufs_spec n val iovcnt limit flags next :
  FillerSpec t (Some n) next ->
  FillerSpec t (Some (bufs_params flags + n)%nat) (parse_user_bufs k val iovcnt limit flags next).
Proof.
  intros H. apply with_state_spec. intros s _. apply if_spec; by apply parse_bufs_spec.
Qed.

Lemma with_msghdr_spec n val limit flags next :
  (forall mh, FillerSpec t (Some n) (next mh)) ->
  FillerSpec t (Some (bufs_params flags + n)%nat) (with_msghdr k val limit flags next).
Proof.
  intros H. apply with_state_spec. intros s _.
  apply if_spec; apply copy_or_fail_spec; intros b; by apply parse_bufs_spec.
Qed.

(** The three combinations of flags the fillers use. *)
#[export] Instance user_bufs_all n val cnt limit next :
  FillerSpec t (Some n) next ->
  FillerSpec t (Some (S (S n))) (parse_user_bufs k val cnt limit PRB_FLAG_PUSH_ALL next).
Proof. apply parse_user_bufs_spec. Qed.
#[export] Instance user_bufs_size n val cnt limit next :
  FillerSpec t (Some n) next -> FillerSpec t (Some (S n))
    (parse_user_bufs k val cnt limit (Z.lor PRB_FLAG_PUSH_SIZE PRB_FLAG_IS_WRITE) next).
Proof. apply parse_user_bufs_spec. Qed.
#[export] Instance user_bufs_data n val cnt limit next :
  FillerSpec t (Some n) next -> FillerSpec t (Some (S n))
    (parse_user_bufs k val cnt limit (Z.lor PRB_FLAG_PUSH_DATA PRB_FLAG_IS_WRITE) next).
Proof. apply parse_user_bufs_spec. Qed.
#[export] Instance msghdr_all n val limit next :
  (forall mh, FillerSpec t (Some n) (next mh)) ->
  FillerSpec t (Some (S (S n))) (with_msghdr k val limit PRB_FLAG_PUSH_ALL next).
Proof. apply with_msghdr_spec. Qed.
#[export] Instance msghdr_size n val limit next :
  (forall mh, FillerSpec t (Some n) (next mh)) -> FillerSpec t (Some (S n))
    (with_msghdr k val limit (Z.lor PRB_FLAG_PUSH_SIZE PRB_FLAG_IS_WRITE) next).
Proof. apply with_msghdr_spec. Qed.
#[export] Instance msghdr_data n val limit next :
  (forall mh, FillerSpec t (Some n) (next mh)) -> FillerSpec t (Some (S n))
    (with_msghdr k val limit (Z.lor PRB_FLAG_PUSH_DATA PRB_FLAG_IS_WRITE) next).
Proof. apply with_msghdr_spec. Qed.

(** A push that is not tested, followed by one that is. *)
Lemma unchecked_spec n v rest next :
  FillerSpec t (Some n) next ->
  (forall s, exists m val vl, rest s = push k val vl false 0 next (set_kmem s m)) ->
  FillerSpec t (Some (S (S n))) (push_unchecked k v rest).
Proof.
  intros Hn Hrest s ps s' r Ht F E. unfold push_unchecked in E.
  destruct (val_to_ring k s v 0 false 0) as [s1 r1] eqn:E1. cbn [fst] in E.
  destruct (Hrest s1) as (m & val & vl & Hr). rewrite Hr in E.
  destruct (decide (r1 = PPM_SUCCESS)) as [->|Hne].
  - destruct (vtr_step k user _ _ _ _ _ _ _ _ F E1) as (Hw & Hse & _ & Hs1).
    destruct Hs1 as [p F1]; [done|].
    apply (filler_post_step (Some (S n)) _ s1 _ _ [p] _ Hse Hw).
    eapply (kmem_spec t (Some (S n)) (push k val vl false 0 next)); [exact _| |exact F1|exact E].
    exact (of_type_same _ _ _ Hse Ht).
  - unfold push in E. destruct (val_to_ring k (set_kmem s1 m) val vl false 0) as [s2 r2] eqn:E2.
    destruct (vtr_fails_again _ _ _ _ _ _ _ _ _ _ _ F E1 Hne E2) as (Hr2 & Hse & Hw).
    apply Z.eqb_neq in Hr2 as Hb. rewrite Hb in E. injection E as <- <-.
    split; [done|]. split; [done|]. intros; congruence.
Qed.

#[export] Instance f_sys_socket_bind_x_spec : FillerSpec t (Some 2%nat) (f_sys_socket_bind_x k).
Proof. apply (unchecked_spec 0 _ _ add_sentinel _). intros s. eexists _, _, _. reflexivity. Qed.
#[export] Instance f_sys_connect_x_spec : FillerSpec t (Some 2%nat) (f_sys_connect_x k tk).
Proof. apply (unchecked_spec 0 _ _ add_sentinel _). intros s. eexists _, _, _. reflexivity. Qed.

Lemma mmsg_loop_code storage slen mmsgs todo : forall i tb tbl bs m m' code,
  mmsg_loop k storage slen mmsgs todo i tb tbl bs m = (m', inr code) -> code <> PPM_SUCCESS.
Proof.
  induction todo as [|todo IH]; intros i tb tbl bs m m' code H; [done|]. cbn [mmsg_loop] in H.
  destruct (copy_local _ _ _) as [mmh|]; [|by simplify_eq]. cbv zeta in H.
  do 2 (case_in H; [by simplify_eq|]).
  destruct (ppm_copy_from_user _ _ _ _ _) as [m1 nr]. case_in H; [by simplify_eq|].
  destruct (mmsg_data _ _ _ _ _ _ _ _) as [m3 [bs'|]]; [|by simplify_eq]. eapply IH, H.
Qed.

#[export] Instance f_sys_sendmmsg_x_spec : FillerSpec t (Some 3%nat) (f_sys_sendmmsg_x k).
Proof.
  unfold f_sys_sendmmsg_x. cbv zeta. apply (pushv_spec k user t).
  do 2 (apply with_sock_arg_spec; intros ?). apply (pushv_spec k user t).
  intros s ps s' r Ht F E.
  destruct (if compat (args s) then _ else _) as [m [[tb bs]|code]] eqn:Em.
  - exact (kmem_spec t (Some 1%nat) _ s m ps s' r _ Ht F E).
  - destruct (compat (args s)); [done|]. apply mmsg_loop_code in Em.
    simplify_eq. split; [done|]. split; [repeat split|done].
Qed.

#[export] Instance f_sys_setsockopt_x_spec : FillerSpec t (Some 6%nat) (f_sys_setsockopt_x k).
Proof. unfold f_sys_setsockopt_x. filler_steps. Qed.
#[export] Instance f_sys_getsockopt_x_spec : FillerSpec t (Some 6%nat) (f_sys_getsockopt_x k).
Proof. unfold f_sys_getsockopt_x. filler_steps. Qed.
#[export] Instance f_sys_accept4_e_spec : FillerSpec t (Some 1%nat) (f_sys_accept4_e k).
Proof. unfold f_sys_accept4_e. filler_steps. Qed.
#[export] Instance f_sys_accept_x_spec : FillerSpec t (Some 5%nat) (f_sys_accept_x k tk).
Proof. unfold f_sys_accept_x. filler_steps. Qed.
#[export] Instance f_sys_send_e_spec : FillerSpec t (Some 2%nat) (f_sys_send_e k).
Proof. unfold f_sys_send_e. filler_steps. Qed.
#[export] Instance f_sys_sendto_e_spec : FillerSpec t (Some 3%nat) (f_sys_sendto_e k tk).
Proof. unfold f_sys_sendto_e. filler_steps. Qed.
#[export] Instance f_sys_send_x_spec : FillerSpec t (Some 2%nat) (f_sys_send_x k).
Proof. unfold f_sys_send_x. filler_steps. Qed.
#[export] Instance f_sys_recv_x_spec : FillerSpec t (Some 2%nat) (f_sys_recv_x k).
Proof. unfold f_sys_recv_x. filler_steps. Qed.
#[export] Instance f_sys_recvfrom_x_spec : FillerSpec t (Some 3%nat) (f_sys_recvfrom_x k tk).
Proof. unfold f_sys_recvfrom_x. filler_steps. Qed.
#[export] Instance f_sys_shutdown_e_spec : FillerSpec t (Some 2%nat) (f_sys_shutdown_e k).
Proof. unfold f_sys_shutdown_e. filler_steps. Qed.
#[export] Instance f_sys_readv_preadv_x_spec : FillerSpec t (Some 3%nat) (f_sys_readv_preadv_x k).
Proof. unfold f_sys_readv_preadv_x. filler_steps. Qed.
#[export] Instance f_sys_writev_e_spec : FillerSpec t (Some 2%nat) (f_sys_writev_e k).
Proof. unfold f_sys_writev_e. filler_steps. Qed.
#[export] Instance f_sys_writev_pwritev_x_spec : FillerSpec t (Some 2%nat) (f_sys_writev_pwritev_x k).
Proof. unfold f_sys_writev_pwritev_x. filler_steps. Qed.
#[export] Instance f_sys_pwritev_e_spec : FillerSpec t (Some 3%nat) (f_sys_pwritev_e k).
Proof. unfold f_sys_pwritev_e. filler_steps. Qed.
#[export] Instance f_sys_sendmsg_e_spec : FillerSpec t (Some 3%nat) (f_sys_sendmsg_e k tk).
Proof. unfold f_sys_sendmsg_e. filler_steps. Qed.
#[export] Instance f_sys_sendmsg_x_spec : FillerSpec t (Some 2%nat) (f_sys_sendmsg_x k).
Proof. unfold f_sys_sendmsg_x. filler_steps. Qed.
#[export] Instance f_sys_recvmsg_x_spec : FillerSpec t (Some 4%nat) (f_sys_recvmsg_x k tk).
Proof. unfold f_sys_recvmsg_x. filler_steps. Qed.

(** The error of a failed lookup is not the success code. *)
#[export] Instance f_sys_socketpair_x_spec :
  lookup_err tk <> PPM_SUCCESS -> FillerSpec t (Some 5%nat) (f_sys_socketpair_x k tk).
Proof.
  intros He. pose proof (fail_spec t (Some 2%nat) _ He). unfold f_sys_socketpair_x. filler_steps.
Qed.
End specs.
