(* ===== verification/ProcFillers.v ===== *)
(** * Fillers of [driver/ppm_fillers.c]: clone, fork and execve

    [f_proc_startupdate] and what it calls: the strings of the arguments and of
    the environment, the cgroup paths and the terminal. *)

From Stdlib Require Import Strings.Byte.
From Stdlib Require Import ZArith Lia List Bool.
From stdpp Require Import base tactics list numbers option.
From S2P Require Import Prelude Bytes EventDefs EventTable FillerTable ValToRing.
From S2P Require Import ValToRingSpec FlagDefs Flags Fillers FillerOps SyscallFillers.
Import ListNotations.
Local Open Scope Z_scope.

Definition PAGE_SIZE : Z := 4096.

Section proc.
Context (k : kenv) (tk : task_env).

Let retval : Z := syscall_retval k.
Let arg (i : nat) : Z := sc_arg k i.

(** [accumulate_argv_or_env] and, for [c] set, its compat version: the strings
    behind the pointers at [argv], one after the other at [storage].  Every turn
    but the last uses at least one of the [available] bytes, so one turn more
    than that is enough. *)
Fixpoint accumulate_loop (fuel : nat) (c : bool) (argv storage available len : Z) (m : mem) :
    mem * Z :=
  match fuel with
  | O => (m, STILL_RUNNING)
  | S fuel' =>
      match (if c then option_map (fun b => compat_ptr (field b 0 4)) (copy_local k (compat_ptr argv) 4)
             else option_map (fun b => field b 0 8) (copy_local k argv 8)) with
      | None => (m, PPM_FAILURE_INVALID_USER_MEMORY)
      | Some p =>
          if p =? 0 then (m, len)
          else if available <? 1 then (m, PPM_FAILURE_BUFFER_FULL)
          else
            let '(m1, n) := ppm_strncpy_from_user k m (storage + len) p available in
            let n_bytes_copied := n - 1 in
            if n_bytes_copied <? 0 then (m1, PPM_FAILURE_INVALID_USER_MEMORY)
            else if available <=? n_bytes_copied then (m1, PPM_FAILURE_BUFFER_FULL)
            else accumulate_loop fuel' c (if c then u32 (argv + 4) else argv + 8) storage
                   (available - (n_bytes_copied + 1)) (len + (n_bytes_copied + 1)) m1
      end
  end.

Definition accumulate (c : bool) (argv storage available : Z) (m : mem) : mem * Z :=
  if (if c then compat_ptr argv else argv) =? 0 then (m, 0)
  else accumulate_loop (S (Z.to_nat available)) c argv storage available 0 m.

Definition accumulate_argv_or_env : Z -> Z -> Z -> mem -> mem * Z := accumulate false.
Definition compat_accumulate_argv_or_env : Z -> Z -> Z -> mem -> mem * Z := accumulate true.

(** The strings of a running process: [n] bytes of user memory at [start], at
    most a page of them, the last replaced by a NUL; none when they cannot be
    read.  [n] is an [int] for the arguments and a [long] for the environment;
    either way a negative value counts as a large one. *)
Definition user_strings (storage start n : Z) (m : mem) : mem * Z :=
  if n =? 0 then (m, 0)
  else
    let n := if PAGE_SIZE <? u64 n then PAGE_SIZE else n in
    let '(m1, notread) := ppm_copy_from_user k m storage start n in
    if negb (notread =? 0) then (m1, 0)
    else (mem_write m1 (storage + (n - 1)) [x00], n).

(** The strings behind an argument of a failed execve, none on an error. *)
Definition failed_strings (c : bool) (argv storage available : Z) (m : mem) : mem * Z :=
  let '(m1, len) := if c then compat_accumulate_argv_or_env (u32 argv) storage available m
                    else accumulate_argv_or_env argv storage available m in
  (m1, if len <? 0 then 0 else len).

(** [strnlen] *)
Definition strnlen (m : mem) (a n : Z) : Z := cstr_len m a (Z.to_nat n).

Definition NA : list byte := [x4e; x41].

(** [append_cgroup] at [buf]: the path is first written there, then moved behind
    the name of the subsystem.  The result is the memory and what is left, or
    [None] when the loop over the subsystems ends. *)
Definition append_cgroup (sub : list byte * option (option (list byte))) (buf available : Z)
    (m : mem) : mem * option Z :=
  let '(subsys_name, css) := sub in
  match css with
  | None => (m, None)
  | Some path =>
      let m1 := match path with
                | Some p => mem_write m buf (take (Z.to_nat available) (p ++ [x00]))
                | None => m
                end in
      let path := match path with
                  | Some p => mem_read m1 buf (Z.to_nat (cstr_len m1 buf (Z.to_nat available)))
                  | None => NA
                  end in
      let need := Z.of_nat (length subsys_name) + 1 + Z.of_nat (length path) + 1 in
      if available <? need then (m1, None)
      else (mem_write m1 buf (subsys_name ++ [x3d] ++ path ++ [x00]), Some (available - need))
  end.

(** The loop over the subsystems: what is left of the storage page. *)
Fixpoint append_cgroups (subs : list (list byte * option (option (list byte))))
    (storage available : Z) (m : mem) : mem * Z :=
  match subs with
  | [] => (m, available)
  | sub :: subs' =>
      match append_cgroup sub (storage + STR_STORAGE_SIZE - available) available m with
      | (m1, Some available') => append_cgroups subs' storage available' m1
      | (m1, None) => (m1, available)
      end
  end.

(** [ppm_get_tty]; [MKDEV] and [new_encode_dev] of the kernel. *)
Definition ppm_get_tty : Z :=
  match cur_tty tk with
  | Some (major, minor_start, index) =>
      let dev := u32 (Z.lor (Z.shiftl major 20) minor_start + index) in
      let minor := Z.land dev 1048575 in
      s32 (Z.lor (Z.lor (Z.land minor 255) (Z.shiftl (Z.shiftr dev 20) 8))
             (Z.shiftl (Z.land minor (Z.lnot 255)) 12))
  | None => 0
  end.

(** A store that also computes a value for the rest of the filler. *)
Definition store_with (f : event_filler_arguments -> mem -> mem * Z) (next : Z -> filler) : filler :=
  fun s => let '(m, v) := f (args s) (kmem s) in next v (set_kmem s m).

Definition clear_storage : filler -> filler :=
  store (fun a m => mem_write m (str_storage a) [x00]).

(** Executable and arguments. *)
Definition push_exe_args (next : filler) : filler :=
  with_state (fun s =>
    let storage := str_storage (args s) in
    if (retval <? 0) && negb (event_type (args s) =? PPME_SYSCALL_EXECVE_19_X) then
      clear_storage $ pushv k storage $ pushv k storage next
    else
      let rest : Z -> filler := fun args_len =>
        store (fun a m => if args_len =? 0 then mem_write m (str_storage a) [x00] else m) $
        with_state (fun s1 =>
          let exe_len := strnlen (kmem s1) storage args_len in
          let exe_len := if exe_len <? args_len then exe_len + 1 else exe_len in
          pushv k storage $ push k (storage + exe_len) (args_len - exe_len) false 0 next) in
      if 0 <=? retval then
        match task_mm (cur tk) with
        | None => clear_storage $ fail PPM_FAILURE_BUG
        | Some mm =>
            if arg_end mm =? 0 then clear_storage $ fail PPM_FAILURE_BUG
            else store_with (fun a m =>
                   user_strings (str_storage a) (arg_start mm) (s32 (arg_end mm - arg_start mm)) m)
                   rest
        end
      else
        clear_storage $
        store_with (fun a m =>
          failed_strings (compat a) (arg 1) (str_storage a) STR_STORAGE_SIZE m) rest).

(** The parameters only clone, fork and vfork have. *)
Definition push_clone_params (next : filler) : filler :=
  with_state (fun s =>
    let flags := if event_type (args s) =? PPME_SYSCALL_CLONE_20_X then arg 0 else 0 in
    pushv k (Z.lor (clone_flags_to_scap flags)
               (if in_child_pidns tk then PPM_CL_CHILD_IN_PIDNS else 0)) $
    pushv k (cur_euid tk) $ pushv k (cur_egid tk) $ pushv k (cur_vtid tk) $
    pushv k (cur_vpid tk) next).

(** The parameters only execve has. *)
Definition push_execve_params (available : Z) (next : filler) : filler :=
  store_with (fun a m =>
    if 0 <=? retval then
      match task_mm (cur tk) with
      | Some mm => user_strings (str_storage a) (env_start mm) (s64 (env_end mm - env_start mm)) m
      | None => (m, 0)
      end
    else failed_strings (compat a) (arg 2) (str_storage a) available m)
    (fun env_len =>
       store (fun a m => if env_len =? 0 then mem_write m (str_storage a) [x00] else m) $
       with_state (fun s => push k (str_storage (args s)) env_len false 0 $
         pushv k ppm_get_tty $ pushv k (cur_pgid tk) $ pushv k (cur_loginuid tk) next)).

Definition f_proc_startupdate : filler :=
  let mm := task_mm (cur tk) in
  pushv k retval $
  push_exe_args $
  pushv k (task_pid (cur tk)) $ pushv k (task_tgid (cur tk)) $
  pushv k (match task_real_parent (cur tk) with Some p => p | None => 0 end) $
  pushv k (empty_literal tk) $ pushv k (rlimit_nofile tk) $
  pushv k (task_maj_flt (cur tk)) $ pushv k (task_min_flt (cur tk)) $
  pushv k (mm_size total_vm mm) $ pushv k (mm_size rss mm) $ pushv k (mm_size swap mm) $
  pushv k (task_comm (cur tk)) $
  clear_storage $
  store_with (fun a m => append_cgroups (cgroups tk) (str_storage a) STR_STORAGE_SIZE m)
    (fun available => with_state (fun s =>
       push k (str_storage (args s)) (STR_STORAGE_SIZE - available) false 0 $
       with_state (fun s1 =>
         let t := event_type (args s1) in
         if (t =? PPME_SYSCALL_CLONE_20_X) || (t =? PPME_SYSCALL_FORK_20_X)
            || (t =? PPME_SYSCALL_VFORK_20_X)
         then push_clone_params add_sentinel
         else if t =? PPME_SYSCALL_EXECVE_19_X then push_execve_params available add_sentinel
         else add_sentinel))).
End proc.

#[export] Typeclasses Opaque store_with clear_storage push_exe_args push_clone_params
  push_execve_params.

(** ** What the filler records. *)

Section specs.
Context (k : kenv) (user : mem) `{!KernelOK k user} (tk : task_env).

#[export] Instance store_with_spec t n f next :
  (forall v, FillerSpec t n (next v)) -> FillerSpec t n (store_with f next).
Proof.
  intros H s ps s' r Ht F E. unfold store_with in E. destruct (f _ _) as [m v].
  exact (kmem_spec t n (next v) s m ps s' r (H v) Ht F E).
Qed.

#[export] Instance clear_storage_spec t n next :
  FillerSpec t n next -> FillerSpec t n (clear_storage next).
Proof. intros H. unfold clear_storage. filler_steps. Qed.

#[export] Instance push_exe_args_spec t n next :
  FillerSpec t (Some n) next -> FillerSpec t (Some (S (S n))) (push_exe_args k tk next).
Proof. intros H. unfold push_exe_args. filler_steps. Qed.

#[export] Instance push_clone_params_spec t n next :
  FillerSpec t (Some n) next ->
  FillerSpec t (Some (S (S (S (S (S n)))))) (push_clone_params k tk next).
Proof. intros H. unfold push_clone_params. filler_steps. Qed.

#[export] Instance push_execve_params_spec t n av next :
  FillerSpec t (Some n) next ->
  FillerSpec t (Some (S (S (S (S n))))) (push_execve_params k tk av next).
Proof. intros H. unfold push_execve_params. filler_steps. Qed.

(** The number of parameters for each event type the filler serves. *)
Definition startupdate_params (t : Z) : nat :=
  if (t =? PPME_SYSCALL_CLONE_20_X) || (t =? PPME_SYSCALL_FORK_20_X)
     || (t =? PPME_SYSCALL_VFORK_20_X) then 20
  else if t =? PPME_SYSCALL_EXECVE_19_X then 19 else 15.

#[export] Instance f_proc_startupdate_spec t :
  FillerSpec (Some t) (Some (startupdate_params t)) (f_proc_startupdate k tk).
Proof.
  set (tail := (startupdate_params t - 15)%nat).
  assert (Hn : startupdate_params t = (15 + tail)%nat)
    by (unfold tail, startupdate_params; repeat case_if; done).
  assert (Htail : forall available, FillerSpec (Some t) (Some tail)
    (with_state (fun s1 =>
       if (event_type (args s1) =? PPME_SYSCALL_CLONE_20_X)
          || (event_type (args s1) =? PPME_SYSCALL_FORK_20_X)
          || (event_type (args s1) =? PPME_SYSCALL_VFORK_20_X)
       then push_clone_params k tk add_sentinel
       else if event_type (args s1) =? PPME_SYSCALL_EXECVE_19_X
       then push_execve_params k tk available add_sentinel else add_sentinel))).
  { intros av. apply with_state_spec. intros s Ht. simpl in Ht. rewrite Ht. unfold tail, startupdate_params.
    destruct (_ || _); [exact _|]. destruct (t =? PPME_SYSCALL_EXECVE_19_X); exact _. }
  rewrite Hn. unfold f_proc_startupdate. cbv zeta. exact _.
Qed.

#[export] Instance f_proc_startupdate_ok : FillerOK (f_proc_startupdate k tk).
Proof.
  intros s ps s' r F E.
  exact (filler_post_any _ _ _ _ _ (f_proc_startupdate_spec _ s ps s' r eq_refl F E)).
Qed.
End specs.
