(* ===== verification/AllFillers.v ===== *)
(** * The callbacks of [g_ppm_events]

    All fillers the kernel module's table refers to, by filler id, and what they
    have in common: each keeps to the event's area, and each that reports success
    has recorded as many parameters as the event table declares, with the
    exceptions stated. *)

From Stdlib Require Import Strings.Byte.
From Stdlib Require Import ZArith Lia List Bool.
From stdpp Require Import base tactics list numbers option.
From S2P Require Import Prelude Bytes EventDefs EventTable FillerTable ValToRing.
From S2P Require Import ValToRingSpec FlagDefs Flags Fillers FillerOps SyscallFillers.
From S2P Require Import SockFillers ProcFillers.
Import ListNotations.
Local Open Scope Z_scope.

(** The functions of the table; the ids at the end are named by no entry of
    [g_ppm_events] on a 64 bit kernel. *)
Definition kmod_fillers (k : kenv) (tk : task_env) (id : ppm_filler_id) : filler :=
  match id with
  | F_sys_autofill => f_sys_autofill k
  | F_sys_generic => f_sys_generic k
  | F_sys_empty => f_sys_empty
  | F_sys_single => f_sys_single k
  | F_sys_single_x => f_sys_single_x k
  | F_sys_socket_x => f_sys_single_x k
  | F_sys_read_x => f_sys_read_x k
  | F_sys_write_x => f_sys_write_x k
  | F_proc_startupdate => f_proc_startupdate k tk
  | F_sys_semop_x => f_sys_semop_x k
  | F_sys_open_x => f_sys_open_x k
  | F_sys_openat_x => f_sys_openat_x k
  | F_sys_creat_x => f_sys_creat_x k
  | F_sys_unlinkat_x => f_sys_unlinkat_x k
  | F_sys_linkat_x => f_sys_linkat_x k
  | F_sys_renameat_x => f_sys_renameat_x k
  | F_sys_renameat2_x => f_sys_renameat2_x k
  | F_sys_symlinkat_x => f_sys_symlinkat_x k
  | F_sys_mkdirat_x => f_sys_mkdirat_x k
  | F_sys_fchmodat_x => f_sys_fchmodat_x k
  | F_sys_chmod_x => f_sys_chmod_x k
  | F_sys_fchmod_x => f_sys_fchmod_x k
  | F_sys_mount_e => f_sys_mount_e k
  | F_sys_lseek_e => f_sys_lseek_e k
  | F_sys_llseek_e => f_sys_llseek_e k
  | F_sys_fcntl_e => f_sys_fcntl_e k
  | F_sys_flock_e => f_sys_flock_e k
  | F_sys_access_e => f_sys_access_e k
  | F_sys_pipe_x => f_sys_pipe_x k tk
  | F_sys_eventfd_e => f_sys_eventfd_e k
  | F_sys_futex_e => f_sys_futex_e k
  | F_sys_sendfile_e => f_sys_sendfile_e k
  | F_sys_sendfile_x => f_sys_sendfile_x k
  | F_sys_brk_munmap_mmap_x => f_sys_brk_munmap_mmap_x k tk
  | F_sys_mmap_e => f_sys_mmap_e k
  | F_sys_pagefault_e => f_sys_pagefault_e k tk
  | F_sys_getrlimit_setrlimit_e => f_sys_getrlimit_setrlimit_e k
  | F_sys_getrlimit_setrlrimit_x => f_sys_getrlimit_setrlrimit_x k
  | F_sys_prlimit_e => f_sys_prlimit_e k
  | F_sys_prlimit_x => f_sys_prlimit_x k
  | F_sys_quotactl_e => f_sys_quotactl_e k
  | F_sys_quotactl_x => f_sys_quotactl_x k tk
  | F_sched_switch_e => f_sched_switch_e k tk
  | F_sched_drop => f_sched_drop k tk
  | F_sys_procexit_e => f_sys_procexit_e k tk
  | F_sys_sysdigevent_e => f_sys_sysdigevent_e k
  | F_cpu_hotplug_e => f_cpu_hotplug_e k
  | F_sys_signaldeliver_e => f_sys_signaldeliver_e k
  | F_sys_setns_e => f_sys_setns_e k
  | F_sys_unshare_e => f_sys_unshare_e k
  | F_sys_getresuid_and_gid_x => f_sys_getresuid_and_gid_x k
  | F_sys_execve_e => f_sys_execve_e k tk
  | F_sys_bpf_x => f_sys_bpf_x k
  | F_sys_ptrace_e => f_sys_ptrace_e k
  | F_sys_ptrace_x => f_sys_ptrace_x k
  | F_sys_semget_e => f_sys_semget_e k
  | F_sys_semctl_e => f_sys_semctl_e k
  | F_sys_poll_e => f_sys_poll_e k
  | F_sys_poll_x => f_sys_poll_x k
  | F_sys_nanosleep_e => f_sys_nanosleep_e k
  | F_sys_ppoll_e => f_sys_ppoll_e k
  | F_tcp_rcv_established_e => f_tcp_rcv_established_e k tk
  | F_tcp_drop_e => f_tcp_drop_e k tk
  | F_tcp_retransmit_skb_e => f_tcp_retransmit_skb_e k tk
  | F_net_dev_start_xmit_e => f_net_dev_start_xmit_e k tk
  | F_sys_socket_bind_x => f_sys_socket_bind_x k
  | F_sys_connect_x => f_sys_connect_x k tk
  | F_sys_socketpair_x => f_sys_socketpair_x k tk
  | F_sys_setsockopt_x => f_sys_setsockopt_x k
  | F_sys_getsockopt_x => f_sys_getsockopt_x k
  | F_sys_accept4_e => f_sys_accept4_e k
  | F_sys_accept_x => f_sys_accept_x k tk
  | F_sys_send_e => f_sys_send_e k
  | F_sys_sendto_e => f_sys_sendto_e k tk
  | F_sys_send_x => f_sys_send_x k
  | F_sys_recv_x => f_sys_recv_x k
  | F_sys_recvfrom_x => f_sys_recvfrom_x k tk
  | F_sys_shutdown_e => f_sys_shutdown_e k
  | F_sys_readv_preadv_x => f_sys_readv_preadv_x k
  | F_sys_writev_e => f_sys_writev_e k
  | F_sys_writev_pwritev_x => f_sys_writev_pwritev_x k
  | F_sys_pwritev_e => f_sys_pwritev_e k
  | F_sys_sendmsg_e => f_sys_sendmsg_e k tk
  | F_sys_sendmsg_x => f_sys_sendmsg_x k
  | F_sys_sendmmsg_x => f_sys_sendmmsg_x k
  | F_sys_recvmsg_x => f_sys_recvmsg_x k tk
  | F_netif_receive_skb_e => f_netif_receive_skb_e
  | F_tcp_connect_x => f_tcp_connect_x
  | F_tcp_set_state_e => f_tcp_set_state_e
  | F_tcp_receive_reset_e => f_tcp_receive_reset_e
  | F_tcp_send_reset_e => f_tcp_send_reset_e
  | F_cpu_analysis_e => f_cpu_analysis_e
  | F_sys_epoll_wait_x => f_sys_epoll_wait_x
  | F_proc_startupdate_2 | F_proc_startupdate_3 | F_sys_recvmsg_x_2 | F_sys_pread64_e
  | F_sys_preadv64_e | F_sys_pwrite64_e | F_terminate_filler => fail PPM_FAILURE_BUG
  end.

(** The parameters a successful filler has recorded, where that is fixed by the
    event type. *)
Definition filler_params (id : ppm_filler_id) (t : Z) : option nat :=
  match id with
  | F_sys_autofill | F_sys_generic | F_sys_semop_x => None
  | F_sys_empty => Some 0%nat
  | F_sys_single | F_sys_single_x | F_sys_socket_x => Some 1%nat
  | F_sys_read_x | F_sys_write_x => Some 2%nat
  | F_proc_startupdate => Some (startupdate_params t)
  | F_sys_mount_e | F_sys_access_e | F_sys_getrlimit_setrlimit_e | F_sched_drop
  | F_sys_procexit_e | F_sys_unshare_e | F_sys_execve_e | F_sys_bpf_x
  | F_sys_nanosleep_e | F_tcp_drop_e | F_sys_accept4_e => Some 1%nat
  | F_sys_fcntl_e | F_sys_flock_e | F_sys_eventfd_e | F_sys_sendfile_x | F_sys_prlimit_e
  | F_sys_sysdigevent_e | F_cpu_hotplug_e | F_sys_setns_e | F_sys_ptrace_e
  | F_sys_poll_e | F_sys_poll_x | F_tcp_rcv_established_e | F_tcp_retransmit_skb_e
  | F_sys_socket_bind_x | F_sys_connect_x | F_sys_send_e | F_sys_send_x | F_sys_recv_x
  | F_sys_shutdown_e | F_sys_writev_e | F_sys_writev_pwritev_x | F_sys_sendmsg_x => Some 2%nat
  | F_sys_chmod_x | F_sys_fchmod_x | F_sys_lseek_e | F_sys_llseek_e | F_sys_futex_e
  | F_sys_pagefault_e | F_sys_getrlimit_setrlrimit_x | F_sys_signaldeliver_e
  | F_sys_ptrace_x | F_sys_semget_e | F_sys_ppoll_e | F_sys_sendto_e | F_sys_recvfrom_x
  | F_sys_readv_preadv_x | F_sys_pwritev_e | F_sys_sendmsg_e | F_sys_sendmmsg_x => Some 3%nat
  | F_sys_creat_x | F_sys_unlinkat_x | F_sys_symlinkat_x | F_sys_mkdirat_x
  | F_sys_fchmodat_x | F_sys_pipe_x | F_sys_sendfile_e | F_sys_brk_munmap_mmap_x
  | F_sys_quotactl_e | F_sys_getresuid_and_gid_x | F_sys_semctl_e | F_sys_recvmsg_x => Some 4%nat
  | F_sys_open_x | F_sys_renameat_x | F_sys_prlimit_x | F_net_dev_start_xmit_e
  | F_sys_socketpair_x | F_sys_accept_x => Some 5%nat
  | F_sys_openat_x | F_sys_linkat_x | F_sys_renameat2_x | F_sys_mmap_e
  | F_sched_switch_e | F_sys_setsockopt_x | F_sys_getsockopt_x => Some 6%nat
  | F_sys_quotactl_x => Some 14%nat
  | F_netif_receive_skb_e | F_tcp_connect_x | F_tcp_set_state_e | F_tcp_receive_reset_e
  | F_tcp_send_reset_e | F_cpu_analysis_e | F_sys_epoll_wait_x => Some 0%nat
  | F_proc_startupdate_2 | F_proc_startupdate_3 | F_sys_recvmsg_x_2 | F_sys_pread64_e
  | F_sys_preadv64_e | F_sys_pwrite64_e | F_terminate_filler => None
  end.

(** ** Failed parameters. *)

(** A parameter with no dynamic index that could not be written leaves the
    record as it was. *)
Lemma vtr_failed_filled k user `{!KernelOK k user} s ps val vl fu s1 r1 :
  filled s ps -> pi_type (event_param (event_type (args s)) (curarg (args s))) <> PT_DYN ->
  val_to_ring k s val vl fu 0 = (s1, r1) -> r1 <> PPM_SUCCESS -> filled s1 ps.
Proof.
  intros F Hdyn E Hr.
  pose proof (filled_room _ _ F) as Hroom. pose proof (filled_u32 _ _ F) as Hu.
  pose proof (filled_size _ _ F) as Hsize. pose proof (filled_nargs _ _ F) as Hna.
  pose proof (filled_offset _ _ F) as Hoff. pose proof (zsum_lens_nonneg ps) as Hz.
  unfold val_to_ring in E. assert (Hv : 0 <= u32 vl) by apply u32_range.
  set (v := u32 vl) in E, Hv. clearbody v.
  case_in E; [by simplify_eq|]. case_in E; [by simplify_eq|].
  assert (Halt : exists ty, param_alternative
      (event_param (event_type (args s)) (curarg (args s))) (u8 0) = Some (false, ty)).
  { unfold param_alternative. destruct (pi_type _); try done; eexists; reflexivity. }
  destruct Halt as [ty Halt]. rewrite Halt in E. cbn [andb] in E. cbv zeta in E.
  cbn [arg_data_offset arg_data_size set_cursor] in E.
  rewrite (if_ltb_min PPM_MAX_ARG_SIZE), Z.add_0_r, Z.sub_0_r, !u32_small in E by lia.
  set (m0 := mem_write (rmem s) (psize_addr (args s)) (le16 0)) in E.
  set (a1 := set_cursor (args s) _ _ _) in E. bool_to_prop.
  destruct (put_value _ _ _ _ _ _ _ _ _ _) as [rm' [len|e]] eqn:Eput; injection E as <- <-;
    [done|].
  assert (Hfr : forall x, x < buffer (args s) + arg_data_offset (args s) -> rm' x = m0 x).
  { apply (put_value_ok k user) in Eput as [[Hfr _]|(_ & -> & _)];
      [| |apply (filled_snaplen _ _ F)|unfold PPM_MAX_ARG_SIZE; lia|lia]; [|done].
    intros x Hx. apply Hfr. lia. }
  assert (Hkeep : forall x, buffer (args s) <= x < psize_addr (args s) \/
      psize_addr (args s) + 2 <= x < buffer (args s) + arg_data_offset (args s) ->
      rm' x = rmem s x).
  { intros x Hx. unfold psize_addr in *. rewrite Hfr by lia. unfold m0. rewrite mem_write_out; [done|].
    unfold le16, psize_addr. rewrite length_le_bytes. lia. }
  destruct F as [Fc Fn Fm Fo Fs Fr Fsn Fu Fl Fd].
  split; cbn [args rmem set_cursor a1 curarg nargs arg_data_offset arg_data_size buffer
    buffer_size consumer]; try done.
  - intros i p Hp. rewrite <- (Fl i p Hp). unfold ld16. f_equal. apply mem_read_ext.
    assert (i < length ps)%nat by (apply nth_error_Some; congruence).
    intros x Hx. apply Hkeep. unfold psize_addr. lia.
  - rewrite <- Fd at 2. apply mem_read_ext. intros x Hx. apply Hkeep. unfold psize_addr.
    rewrite <- length_concat_lens in Hoff. lia.
Qed.

(** ** Every entry of the table. *)

Lemma foldl_last_match {A} (t : Z) (l : list (Z * A)) : forall acc e,
  foldl (fun acc x => if fst x =? t then Some (snd x) else acc) acc l = Some e ->
  acc = Some e \/ In (t, e) l.
Proof.
  induction l as [|[u x] l IH]; intros acc e H; [by left|]. cbn [foldl fst snd] in H.
  apply IH in H as [H|H]; [|by right; right]. case_in H; [|by left].
  bool_to_prop. right. left. congruence.
Qed.

(** A fact checked on every initialiser of the table holds of every entry. *)
Lemma forall_entries (P : Z -> ppm_event_entry -> bool) :
  forallb (fun x => P (fst x) (snd x)) g_ppm_events_init = true ->
  forall t e, g_ppm_events t = Some e -> P t e = true.
Proof.
  intros H t e He. apply foldl_last_match in He as [He|He]; [done|].
  rewrite forallb_forall in H. exact (H (t, e) He).
Qed.

Definition in_event_table (t : Z) (e : ppm_event_entry) : bool :=
  (0 <=? t) && (t <? PPM_EVENT_MAX).

Lemma entries_in_range t e : g_ppm_events t = Some e -> 0 <= t < PPM_EVENT_MAX.
Proof.
  intros He. pose proof (forall_entries in_event_table ltac:(vm_compute; reflexivity) t e He) as H.
  unfold in_event_table in H. lia.
Qed.

(** [execve_e] serves one event, whose only parameter is a path. *)
Definition execve_e_path (t : Z) (e : ppm_event_entry) : bool :=
  match filler_id e with
  | F_sys_execve_e =>
      forallb (fun p => match pi_type p with PT_DYN => false | _ => true end)
        (ei_params (g_event_info t))
  | _ => true
  end.

Lemma execve_e_no_dyn t e i :
  g_ppm_events t = Some e -> filler_id e = F_sys_execve_e ->
  pi_type (event_param t i) <> PT_DYN.
Proof.
  intros He Hid.
  pose proof (forall_entries execve_e_path ltac:(vm_compute; reflexivity) t e He) as H.
  unfold execve_e_path in H. rewrite Hid, forallb_forall in H. unfold event_param.
  destruct (decide (Z.to_nat i < length (ei_params (g_event_info t)))%nat) as [Hi|Hi].
  - specialize (H _ (nth_In _ zero_param Hi)). by destruct (pi_type _).
  - rewrite nth_overflow by lia. discriminate.
Qed.

Lemma pushes_spec t n f : FillerPushes n f -> FillerSpec t (Some n) f.
Proof. intros H s ps s' r _ F E. exact (H s ps s' r F E). Qed.

Section contract.
Context (k : kenv) (user : mem) `{!KernelOK k user} (tk : task_env).
Context (Herr : lookup_err tk <> PPM_SUCCESS).

(** The two attempts of [f_sys_execve_e] at the file name. *)
Lemma f_sys_execve_e_spec t :
  (forall i, pi_type (event_param t i) <> PT_DYN) ->
  FillerSpec (Some t) (Some 1%nat) (f_sys_execve_e k tk).
Proof.
  intros Hdyn s ps s' r Ht F E. unfold f_sys_execve_e in E.
  destruct (val_to_ring k s _ 0 true 0) as [s1 r1] eqn:E1.
  destruct (vtr_step k user _ _ _ _ _ _ _ _ F E1) as (Hw & Hse & _ & Hs1).
  case_in E; bool_to_prop.
  - subst r1. assert (F1 : filled s1 ps).
    { eapply vtr_failed_filled; [exact _|exact F| |exact E1|done]. rewrite Ht. apply Hdyn. }
    destruct (push_spec k user (Some t) 0 (na_literal tk) 0 false 0 add_sentinel _
      s1 ps s' r (of_type_same _ _ _ Hse Ht) F1) as (Hw' & Hse' & Hr).
    + unfold push. destruct (val_to_ring k s1 _ 0 false 0). exact E.
    + split; [by eapply writes_within_trans|]. split; [by eapply same_event_trans|done].
  - apply (push_spec k user (Some t) 0 (sc_arg k 0) 0 true 0 add_sentinel _ s ps s' r Ht F).
    unfold push. rewrite E1. exact E.
Qed.

#[export] Instance f_sys_semop_x_spec t : FillerSpec t None (f_sys_semop_x k).
Proof.
  unfold f_sys_semop_x. cbv zeta. apply (pushv_spec_any k user), (pushu_spec_any k user).
  apply if_spec; [|exact _]. eapply spec_any. exact _.
Qed.

(** The automatic filler records what its table entry lists. *)
Lemma autofill_spec t e :
  g_ppm_events t = Some e -> filler_id e = F_sys_autofill ->
  FillerSpec (Some t) (Some (Z.to_nat (ei_nparams (g_event_info t)))) (f_sys_autofill k).
Proof.
  intros He Hid s ps s' r Ht F E.
  destruct (autofill_valid t e (entries_in_range t e He) He Hid) as (Hn & Hle & HF).
  unfold f_sys_autofill, with_state in E. simpl in Ht. rewrite Ht, He in E.
  pose proof (autofill_loop_pushes k user (paramtype e)
    (take (Z.to_nat (n_autofill_args e)) (autofill_args e)) (Forall_take _ _ _ HF) s ps s' r F E) as H.
  rewrite length_take_le in H by lia. by rewrite <- Hn.
Qed.

(** The two generic events: the syscall the event stands for, and on entry its
    native number. *)
Definition generic_params (t : Z) : nat := if t =? PPME_GENERIC_E then 2 else 1.

Lemma generic_spec t s ps s' r :
  of_type (Some t) s -> filled s ps -> f_sys_generic k s = (s', r) ->
  filler_post None s s' ps r /\
  (0 <= syscall_id (args s) < SYSCALL_TABLE_SIZE ->
   filler_post (Some (generic_params t)) s s' ps r).
Proof.
  intros Ht F E. split; [exact (f_sys_generic_ok k user s ps s' r F E)|]. intros Hid.
  unfold f_sys_generic, with_state in E. unfold SYSCALL_TABLE_ID0 in E.
  case_in E; [eapply fail_post; [|exact E]; done|]. case_in E; [|lia].
  assert (FillerSpec (Some t) (Some (generic_params t)) (push k
    (code_routing_table (args s) (syscall_id (args s) - 0)) 0 false 0
    (with_state (fun s1 => if event_type (args s1) =? PPME_GENERIC_E
       then push k (syscall_id (args s1)) 0 false 0 add_sentinel else add_sentinel)))) as Hs; cycle 1.
  { exact (Hs s ps s' r Ht F E). }
  unfold generic_params. destruct (t =? PPME_GENERIC_E) eqn:Et; apply (push_spec k user);
    apply with_state_spec; intros s1 Hs1; simpl in Hs1; rewrite Hs1, Et; exact _.
Qed.

(** Every callback, on the events of its entries. *)
Lemma kmod_fillers_spec t e :
  g_ppm_events t = Some e ->
  FillerSpec (Some t)
    (match filler_id e with
     | F_sys_autofill => Some (Z.to_nat (ei_nparams (g_event_info t)))
     | id => filler_params id t
     end) (kmod_fillers k tk (filler_id e)).
Proof.
  intros He. destruct (filler_id e) eqn:Hid; cbn [kmod_fillers filler_params];
    try exact (autofill_spec t e He Hid);
    try exact (f_sys_execve_e_spec t (fun i => execve_e_no_dyn t e i He Hid));
    try exact (ok_spec _ _ (f_sys_generic_ok k user));
    try exact (f_sys_semop_x_spec _); try exact (f_sys_socketpair_x_spec k user tk _ Herr);
    try exact (pushes_spec _ _ _ (f_sys_read_x_pushes k user));
    try exact (pushes_spec _ _ _ (f_sys_write_x_pushes k user)); exact _.
Qed.

(** The contract of the ring writer, for the whole table. *)
#[export] Instance kmod_fillers_ok : FillersOK (kmod_fillers k tk).
Proof.
  intros t e s ps s' r He Ht F E.
  exact (filler_post_any _ _ _ _ _ (kmod_fillers_spec t e He s ps s' r Ht F E)).
Qed.
End contract.

(** ** Recorded and declared parameters. *)

(** The fillers that only add the sentinel. *)
Definition stub (id : ppm_filler_id) : bool :=
  match id with
  | F_netif_receive_skb_e | F_tcp_connect_x | F_tcp_set_state_e | F_tcp_receive_reset_e
  | F_tcp_send_reset_e | F_cpu_analysis_e | F_sys_epoll_wait_x => true
  | _ => false
  end.

(** The entries whose filler records the declared parameters whenever it
    succeeds. *)
Definition entry_complete (t : Z) (e : ppm_event_entry) : bool :=
  let n := ei_nparams (g_event_info t) in
  match filler_id e with
  | F_sys_autofill => true
  | F_sys_semop_x => n =? 8
  | F_sys_generic => Z.of_nat (generic_params t) =? n
  | id => match filler_params id t with
          | Some m => if stub id then 0 <? n else Z.of_nat m =? n
          | None => false
          end
  end.

Lemma entries_complete t e : g_ppm_events t = Some e -> entry_complete t e = true.
Proof. apply forall_entries. vm_compute. reflexivity. Qed.

(** The case analysis shared by the theorems below. *)
Lemma entry_params t e :
  g_ppm_events t = Some e ->
  let n := ei_nparams (g_event_info t) in
  match filler_id e with
  | F_sys_autofill => True
  | F_sys_semop_x => n = 8
  | F_sys_generic => Z.of_nat (generic_params t) = n
  | id => exists m, filler_params id t = Some m /\
            if stub id then 0 < n else Z.of_nat m = n
  end.
Proof.
  intros He n. pose proof (entries_complete t e He) as H. unfold entry_complete in H. fold n in H.
  destruct (filler_id e); cbn [filler_params stub] in *;
    try done; try lia; eexists; (split; [reflexivity|]);
    by (apply Z.eqb_eq || apply Z.ltb_lt).
Qed.

(** A semaphore operation with operations to report. *)
Lemma semop_some k user `{!KernelOK k user} t :
  sc_arg k 2 <> 0 -> sc_arg k 1 <> 0 -> FillerSpec t (Some 8%nat) (f_sys_semop_x k).
Proof.
  intros H2 H1. unfold f_sys_semop_x. cbv zeta.
  apply Z.eqb_neq in H1, H2. rewrite H1, H2. cbn [negb andb]. exact _.
Qed.

(** ... and without. *)
Lemma semop_none k user `{!KernelOK k user} t :
  sc_arg k 2 = 0 \/ sc_arg k 1 = 0 -> FillerSpec t (Some 2%nat) (f_sys_semop_x k).
Proof.
  intros H. unfold f_sys_semop_x. cbv zeta.
  assert (negb (sc_arg k 2 =? 0) && negb (sc_arg k 1 =? 0) = false) as ->
    by (destruct H as [-> | ->]; [done|by rewrite andb_comm]). exact _.
Qed.

(** C5: whatever filler the table names for an event, a call that reports
    success on the event's empty argument record has recorded exactly as many
    parameters as the event table declares.  Excepted are the stubs, the generic
    event of a syscall number outside the routing table, and a [semop] without
    operations. *)
Theorem fillers_complete (k : kenv) (user : mem) (tk : task_env) (e : ppm_event_entry)
    (s s' : fstate) :
  KernelOK k user -> lookup_err tk <> PPM_SUCCESS ->
  g_ppm_events (event_type (args s)) = Some e -> filled s [] ->
  stub (filler_id e) = false ->
  (filler_id e = F_sys_generic -> 0 <= syscall_id (args s) < SYSCALL_TABLE_SIZE) ->
  (filler_id e = F_sys_semop_x -> sc_arg k 2 <> 0 /\ sc_arg k 1 <> 0) ->
  kmod_fillers k tk (filler_id e) s = (s', PPM_SUCCESS) ->
  exists ps, filled s' ps /\
    Z.of_nat (length ps) = ei_nparams (g_event_info (event_type (args s))).
Proof.
  intros HK Herr He F Hstub Hgen Hsem E. set (t := event_type (args s)) in *.
  assert (Hfin : forall n, Z.of_nat n = ei_nparams (g_event_info t) ->
    filler_post (Some n) s s' [] PPM_SUCCESS ->
    exists ps, filled s' ps /\ Z.of_nat (length ps) = ei_nparams (g_event_info t)).
  { intros n Hn (_ & _ & Hr). destruct (Hr eq_refl) as (qs & F' & Hq). exists qs.
    split; [exact F'|lia]. }
  pose proof (kmod_fillers_spec k user tk Herr t e He s [] s' _ eq_refl F E) as Hpost.
  pose proof (entry_params t e He) as Hn. pose proof (ei_nparams_range t). cbv zeta in Hn.
  destruct (filler_id e) eqn:Hid;
    try (destruct Hn as (m & Hm & Hn); rewrite Hstub in Hn; rewrite Hm in Hpost;
         exact (Hfin m Hn Hpost)).
  - refine (Hfin _ _ Hpost). lia.
  - destruct (generic_spec k user t s [] s' _ eq_refl F E) as [_ Hg].
    exact (Hfin _ Hn (Hg (Hgen eq_refl))).
  - destruct (Hsem eq_refl) as [H2 H1].
    refine (Hfin 8%nat _ (semop_some k user (Some t) H2 H1 s [] s' _ eq_refl F E)). lia.
Qed.

(** A task for the examples: pid 42, no memory map, no terminal, no cgroups. *)
Definition sample_task : task_env :=
  {| cur := mk_task 42 42 (Some 1) 0 0 0 131072 None;
     task_at := fun _ => mk_task 42 42 (Some 1) 0 0 0 131072 None;
     rlimit_nofile := 1024; cur_euid := 0; cur_egid := 0; cur_vtid := 42; cur_vpid := 42;
     in_child_pidns := false; cur_pgid := 42; cur_loginuid := 0; cur_tty := None; cgroups := [];
     fd_ino := fun _ => None; sk_backlog := fun _ => None; unix_sock := fun _ => None;
     lookup_err := -9; sampling_ratio := 1; fault_address := 0; fault_ip := 0;
     fault_error_code := 0; ev_sk := mk_inet_sock AF_INET 0 0 0 0 0; ev_skb := 0; ev_dev := 0;
     skb_head := 0; skb_mac_header := 0; skb_network_header := 0; empty_literal := 1;
     na_literal := 1 |}.

Lemma pair_with_snd {A B} (p : A * B) r : snd p = r -> p = (fst p, r).
Proof. destruct p. by intros <-. Qed.

Lemma sample_open_res :
  snd (f_sys_open_x sample_kenv (sample_state PPME_SYSCALL_OPEN_X 1000)) = PPM_SUCCESS.
Proof. vm_compute. reflexivity. Qed.

(** The exit event of an [open]: descriptor, path, flags, mode and device. *)
Lemma fillers_complete_witness :
  exists ps, filled (fst (f_sys_open_x sample_kenv (sample_state PPME_SYSCALL_OPEN_X 1000))) ps /\
    Z.of_nat (length ps) = 5.
Proof.
  refine (fillers_complete sample_kenv sample_user sample_task
    (mk_entry F_sys_open_x 0 APT_REG []) (sample_state PPME_SYSCALL_OPEN_X 1000)
    (fst (f_sys_open_x sample_kenv (sample_state PPME_SYSCALL_OPEN_X 1000)))
    sample_kenv_ok _ _ _ _ _ _ _).
  - discriminate.
  - vm_compute. reflexivity.
  - apply sample_filled; vm_compute; congruence.
  - reflexivity.
  - discriminate.
  - discriminate.
  - exact (pair_with_snd _ _ sample_open_res).
Defined.

(** The other side: a stub or a [semop] without operations never completes its
    record. *)
Lemma short_record (k : kenv) (user : mem) (tk : task_env) (e : ppm_event_entry)
    (s s' : fstate) (r : Z) :
  KernelOK k user -> g_ppm_events (event_type (args s)) = Some e -> filled s [] ->
  nargs (args s) = ei_nparams (g_event_info (event_type (args s))) ->
  stub (filler_id e) = true \/
  (filler_id e = F_sys_semop_x /\ (sc_arg k 2 = 0 \/ sc_arg k 1 = 0)) ->
  kmod_fillers k tk (filler_id e) s = (s', r) ->
  r = PPM_SUCCESS -> curarg (args s') < nargs (args s').
Proof.
  intros HK He F Hna Hshort E ->. set (t := event_type (args s)) in *.
  pose proof (entry_params t e He) as Hn. cbv zeta in Hn. rewrite <- Hna in Hn.
  destruct Hshort as [Hs|[Hid Hz]].
  - assert (s' = s) as ->.
    { destruct (filler_id e); try discriminate Hs; cbn [kmod_fillers] in E; injection E; done. }
    pose proof (filled_curarg _ _ F) as Hc. simpl in Hc.
    destruct (filler_id e); try discriminate Hs;
      destruct Hn as (m & _ & Hn); simpl in Hn; lia.
  - rewrite Hid in E, Hn.
    destruct (semop_none k user None Hz s [] s' _ I F E) as (_ & (_ & _ & Hn' & _) & Hr).
    destruct (Hr eq_refl) as (qs & F' & Hq). pose proof (filled_curarg _ _ F') as Hc.
    simpl in Hc. lia.
Qed.
