(* ===== verification/FillerStorage.v ===== *)
(** * The string page of the fillers

    A filler builds what does not fit a register in one page per CPU,
    [str_storage], and hands addresses in it to [val_to_ring].  [PageSafe st f]
    says that [f] writes to no other kernel memory; it is found by composing
    instances for the steps of a filler.  The exceptions, which the code lets
    through, are the subject of the last theorems. *)

From Stdlib Require Import Strings.Byte.
From Stdlib Require Import ZArith Lia List Bool.
From stdpp Require Import base tactics list numbers option.
From S2P Require Import Prelude Bytes EventDefs EventTable FillerTable ValToRing.
From S2P Require Import ValToRingSpec FlagDefs Flags Fillers FillerOps SyscallFillers.
From S2P Require Import SockFillers ProcFillers AllFillers.
Import ListNotations.
Local Open Scope Z_scope.

(** [m'] differs from [m] only in the page at [st]. *)
Definition page_only (st : Z) (m m' : mem) : Prop :=
  forall x, x < st \/ st + STR_STORAGE_SIZE <= x -> m' x = m x.

#[export] Instance page_only_preorder st : PreOrder (page_only st).
Proof.
  split; [intros m x _; reflexivity|]. intros m1 m2 m3 H1 H2 x Hx. by rewrite H2, H1.
Qed.

Class PageSafe (st : Z) (f : filler) : Prop :=
  page_safe s s' r : str_storage (args s) = st -> f s = (s', r) -> page_only st (kmem s) (kmem s').

Lemma page_write st m a bs :
  st <= a -> a + Z.of_nat (length bs) <= st + STR_STORAGE_SIZE -> page_only st m (mem_write m a bs).
Proof. intros H1 H2 x Hx. apply mem_write_out. lia. Qed.

Lemma page_copy k user `{!KernelOK k user} st m to from n m' nr :
  0 <= n -> st <= to -> to + n <= st + STR_STORAGE_SIZE ->
  ppm_copy_from_user k m to from n = (m', nr) -> page_only st m m'.
Proof.
  intros Hn H1 H2 E. destruct (ppm_copy_spec k user _ _ _ _ _ _ Hn E) as [Hout _].
  intros x Hx. apply Hout. lia.
Qed.

Lemma copy_notread k user `{!KernelOK k user} m to from n m' nr :
  0 <= n -> ppm_copy_from_user k m to from n = (m', nr) -> 0 <= nr <= n.
Proof.
  intros Hn E. unfold ppm_copy_from_user in E. case_in E; simplify_eq; [|lia].
  pose proof (copy_len (k := k) from n Hn). lia.
Qed.

(** A byte string that fits the page. *)
Class Fits (bs : list byte) : Prop := fits : Z.of_nat (length bs) <= STR_STORAGE_SIZE.

(** [val_to_ring] reads kernel memory and does not write it. *)
Lemma vtr_kmem k s val vl fu di s1 r1 :
  val_to_ring k s val vl fu di = (s1, r1) ->
  kmem s1 = kmem s /\ str_storage (args s1) = str_storage (args s).
Proof.
  intros E. unfold val_to_ring in E. cbv zeta in E. do 2 (case_in E; [by simplify_eq|]).
  destruct (param_alternative _ _) as [[dyn t]|]; [|by simplify_eq].
  destruct (dyn && _)%bool; [by simplify_eq|].
  destruct (put_value _ _ _ _ _ _ _ _ _ _) as [rm' [len|e]]; by simplify_eq.
Qed.

Section steps.
Context (k : kenv) (user : mem) `{!KernelOK k user} (st : Z).

(** A step that keeps the page's address and writes nothing else. *)
Lemma page_step next s s1 s' r :
  PageSafe st next -> str_storage (args s1) = st -> page_only st (kmem s) (kmem s1) ->
  next s1 = (s', r) -> page_only st (kmem s) (kmem s').
Proof. intros Hn Hs Hp E. etransitivity; [exact Hp|]. exact (Hn _ _ _ Hs E). Qed.

#[export] Instance push_page val vl fu di next :
  PageSafe st next -> PageSafe st (push k val vl fu di next).
Proof.
  intros Hn s s' r Hs E. unfold push in E. destruct (val_to_ring _ _ _ _ _ _) as [s1 r1] eqn:E1.
  apply vtr_kmem in E1 as [Hk Hst]. case_in E; [simplify_eq; by rewrite Hk|].
  rewrite <- Hk. eapply Hn; [|exact E]. by rewrite Hst.
Qed.
#[export] Instance pushv_page val next : PageSafe st next -> PageSafe st (pushv k val next).
Proof. apply push_page. Qed.
#[export] Instance pushu_page val next : PageSafe st next -> PageSafe st (pushu k val next).
Proof. apply push_page. Qed.

#[export] Instance assign_page f `{!KeepsArea f} next : PageSafe st next -> PageSafe st (assign f next).
Proof.
  intros Hn s s' r Hs E. destruct (keeps_area (args s)) as ((_ & _ & _ & _ & Hst) & _).
  apply (Hn (set_args s (f (args s))) s' r); [by rewrite <- Hs|exact E].
Qed.

Lemma store_page f next :
  (forall a m, str_storage a = st -> page_only st m (f a m)) ->
  PageSafe st next -> PageSafe st (store f next).
Proof.
  intros Hf Hn s s' r Hs E.
  apply (page_step next s (set_kmem s (f (args s) (kmem s))) s' r); [done|done|by apply Hf|exact E].
Qed.

#[export] Instance store_start_page bs next :
  Fits bs -> PageSafe st next ->
  PageSafe st (store (fun a m => mem_write m (str_storage a) bs) next).
Proof.
  intros Hb. apply store_page. intros a m ->. apply page_write; unfold Fits in Hb; lia.
Qed.

Lemma copy_in_page to from n ok err :
  0 <= n -> st <= to -> to + n <= st + STR_STORAGE_SIZE ->
  PageSafe st ok -> PageSafe st err -> PageSafe st (copy_in k to from n ok err).
Proof.
  intros Hn H1 H2 Ho He s s' r Hs E. unfold copy_in in E.
  destruct (ppm_copy_from_user _ _ _ _ _) as [m nr] eqn:Ec.
  apply (page_copy k user st) in Ec; [|done..].
  destruct (nr =? 0); [apply (page_step ok s (set_kmem s m) s' r)|
    apply (page_step err s (set_kmem s m) s' r)]; done.
Qed.

#[export] Instance with_state_page f :
  (forall s, str_storage (args s) = st -> PageSafe st (f s)) -> PageSafe st (with_state f).
Proof. intros Hn s s' r Hs E. exact (Hn s Hs s s' r Hs E). Qed.

#[export] Instance fail_page code : PageSafe st (fail code).
Proof. intros s s' r _ E. unfold fail in E. simplify_eq. reflexivity. Qed.
#[export] Instance add_sentinel_page : PageSafe st add_sentinel.
Proof. exact (fail_page PPM_SUCCESS). Qed.
#[export] Instance return_0_page : PageSafe st return_0.
Proof. exact (fail_page 0). Qed.

#[export] Instance if_page (b : bool) f g :
  PageSafe st f -> PageSafe st g -> PageSafe st (if b then f else g).
Proof. by destruct b. Qed.
#[export] Instance if_app_page (b : bool) (f g : filler -> filler) next :
  PageSafe st (f next) -> PageSafe st (g next) -> PageSafe st ((if b then f else g) next).
Proof. by destruct b. Qed.
#[export] Instance match_option_page {A} (o : option A) f g :
  (forall x, PageSafe st (f x)) -> PageSafe st g ->
  PageSafe st (match o with Some x => f x | None => g end).
Proof. by destruct o. Qed.
#[export] Instance match_pair_page {A B} (p : A * B) f :
  (forall x y, PageSafe st (f x y)) -> PageSafe st (let '(x, y) := p in f x y).
Proof. by destruct p. Qed.

#[export] Instance copy_or_fail_page from len next :
  (forall bs, PageSafe st (next bs)) -> PageSafe st (copy_or_fail k from len next).
Proof. intros H. unfold copy_or_fail. exact _. Qed.
#[export] Instance with_sock_arg_page i next :
  (forall v, PageSafe st (next v)) -> PageSafe st (with_sock_arg k i next).
Proof. intros H. unfold with_sock_arg. exact _. Qed.
#[export] Instance with_user_ptr_page v next :
  (forall p, PageSafe st (next p)) -> PageSafe st (with_user_ptr v next).
Proof. intros H. unfold with_user_ptr. exact _. Qed.
#[export] Instance push_unchecked_page val next :
  PageSafe st next -> PageSafe st (push_unchecked k val next).
Proof.
  intros Hn s s' r Hs E. unfold push_unchecked in E.
  destruct (val_to_ring _ _ _ _ _ _) as [s1 r1] eqn:E1. apply vtr_kmem in E1 as [Hk Hst].
  rewrite <- Hk. eapply Hn; [|exact E]. simpl. by rewrite Hst.
Qed.
End steps.

(** Unfold the filler of the goal and go through its steps. *)
Ltac page_steps :=
  intros; cbv zeta; try typeclasses eauto;
  match goal with |- PageSafe _ ?f => let rec hd t := match t with ?g _ => hd g | _ => t end in
    let h := hd f in unfold h end; cbv zeta; typeclasses eauto.

(** ** Addresses and tuples. *)

Lemma length_slice o n bs : (length (slice o n bs) <= n)%nat.
Proof. unfold slice. rewrite length_take. lia. Qed.

Lemma until_nul_length bs : (length (until_nul bs) <= length bs)%nat.
Proof. induction bs as [|b bs IH]; simpl; [lia|]. case_if; simpl; lia. Qed.

Lemma length_unix_name name : length (fst (unix_name name)) = UNIX_PATH_MAX.
Proof.
  unfold unix_name. cbn [fst]. rewrite length_app, length_replicate.
  pose proof (until_nul_length (take (UNIX_PATH_MAX - 1) name)) as H. rewrite length_take in H.
  unfold UNIX_PATH_MAX in *. lia.
Qed.

#[export] Instance fits_nil : Fits [].
Proof. done. Qed.
#[export] Instance fits_le n v : (n <= 8)%nat -> Fits (le_bytes n v).
Proof. intros H. unfold Fits, STR_STORAGE_SIZE. rewrite length_le_bytes. lia. Qed.

Ltac fits :=
  unfold Fits, STR_STORAGE_SIZE, tuple4, tuple6, sin_addr, sin6_addr, sin_port, le16, le64;
  rewrite ?length_app, ?length_le_bytes, ?length_unix_name; unfold UNIX_PATH_MAX;
  repeat match goal with |- context [length (slice ?o ?n ?bs)] =>
    pose proof (length_slice o n bs); generalize dependent (length (slice o n bs)); intros end;
  simpl; lia.

Lemma fits_fst (p : list byte * Z) : (let '(bs, _) := p in Fits bs) -> Fits (fst p).
Proof. by destruct p. Qed.

#[export] Instance pack_addr_fits addr ulen : Fits (fst (pack_addr addr ulen)).
Proof.
  unfold pack_addr. cbv zeta.
  destruct (_ =? AF_INET); [|destruct (_ =? AF_INET6); [|destruct (_ =? AF_UNIX); [|done]]];
    cbn [fst]; try fits.
  apply fits_fst. match goal with |- context [unix_name ?n] =>
    pose proof (length_unix_name n) as Hn; destruct (unix_name n) as [name len] end.
  cbn [fst] in Hn. unfold Fits. rewrite length_app, length_le_bytes, Hn. done.
Qed.

#[export] Instance fd_to_socktuple_fits k tk fd user inb : Fits (fst (fd_to_socktuple k tk fd user inb)).
Proof.
  unfold fd_to_socktuple. destruct (sockfd_lookup _ _) as [so|]; [|done].
  destruct (so_sk so); [|done]. cbn [negb]. cbv zeta.
  destruct (_ =? AF_INET); [|destruct (_ =? AF_INET6); [|destruct (_ =? AF_UNIX); [|done]]].
  - cbn [fst]. destruct user as [[addr ul]|]; destruct inb; try destruct (so_peer so); fits.
  - cbn [fst]. destruct user as [[addr ul]|]; destruct inb; fits.
  - destruct (default _ _) as [us speer]. apply fits_fst.
    match goal with |- context [unix_name ?n] =>
      pose proof (length_unix_name n) as Hn; destruct (unix_name n) as [name len] end.
    cbn [fst] in Hn. unfold Fits. rewrite !length_app, Hn, length_le_bytes.
    destruct inb; rewrite length_app; unfold le64; rewrite !length_le_bytes; done.
Qed.

#[export] Instance user_tuple_fits k tk fd ua ul inb : Fits (fst (user_tuple k tk fd ua ul inb)).
Proof. unfold user_tuple. repeat case_if; exact _ || done. Qed.

#[export] Instance fits_if (b : bool) (p q : list byte * Z) :
  Fits (fst p) -> Fits (fst q) -> Fits (fst (if b then p else q)).
Proof. by destruct b. Qed.
#[export] Instance fits_match {A} (o : option A) (p : A -> list byte * Z) (q : list byte * Z) :
  (forall x, Fits (fst (p x))) -> Fits (fst q) ->
  Fits (fst (match o with Some x => p x | None => q end)).
Proof. by destruct o. Qed.
#[export] Instance fits_pair bs (z : Z) : Fits bs -> Fits (fst (bs, z)).
Proof. done. Qed.

#[export] Instance push_packed_page k st p next :
  Fits (fst p) -> PageSafe st next -> PageSafe st (push_packed k p next).
Proof. intros Hf Hn. unfold push_packed. exact _. Qed.

#[export] Instance push_tuple4_page k st next : PageSafe st next -> PageSafe st (push_tuple4 k next).
Proof. page_steps. Qed.
#[export] Instance store_tuple4_page st f a b c d next :
  PageSafe st next -> PageSafe st (store_tuple4 f a b c d next).
Proof. intros H. unfold store_tuple4. apply store_start_page; [fits|exact H]. Qed.
#[export] Instance timespec_parse_page k user `{!KernelOK k user} st val next :
  PageSafe st next -> PageSafe st (timespec_parse k val next).
Proof.
  intros H. unfold timespec_parse. apply with_state_page. intros s ->. cbv zeta.
  apply if_page; apply (copy_in_page k user); unfold STR_STORAGE_SIZE; lia || exact _.
Qed.
#[export] Instance parse_sockopt_page k st l o v n next :
  PageSafe st next -> PageSafe st (parse_sockopt k l o v n next).
Proof. page_steps. Qed.
#[export] Instance push_data_page k st next : PageSafe st next -> PageSafe st (push_data k next).
Proof. page_steps. Qed.

(** ** Gathering an I/O vector. *)

(** The reference: the user buffers of [n] entries at [iov], one after the
    other. *)
Fixpoint gather (user : mem) (c : bool) (m : mem) (iov : Z) (n : nat) : list byte :=
  match n with
  | O => []
  | S n' => mem_read user (iov_base c m iov) (Z.to_nat (iov_len c m iov))
            ++ gather user c m (iov + iov_size c) n'
  end.

(** What a [read] of [limit] bytes, or a [write] of everything, leaves room for. *)
Definition gather_cap (is_write : bool) (limit targetbuflen : Z) : Z :=
  if is_write then targetbuflen - 1 else Z.min limit (targetbuflen - 1).

Lemma iov_len_range c m a : 0 <= iov_len c m a < 2 ^ 64.
Proof.
  unfold iov_len, ld32, ld64. destruct c;
    match goal with |- context [le_val (mem_read ?m ?x ?n)] =>
      pose proof (le_val_range (mem_read m x n)) as H; rewrite length_mem_read in H end;
    simpl Z.of_nat in H; lia.
Qed.

Lemma iov_size_pos c : 8 <= iov_size c <= 16.
Proof. destruct c; cbn; lia. Qed.

(** An entry is read from its own bytes. *)
Lemma iov_entry_ext c m m' a a' :
  (forall o, 0 <= o < iov_size c -> m' (a' + o) = m (a + o)) ->
  iov_len c m' a' = iov_len c m a /\ iov_base c m' a' = iov_base c m a.
Proof.
  intros H. unfold iov_len, iov_base, ld32, ld64, iov_size in *.
  assert (Hr : forall o n, 0 <= o -> o + Z.of_nat n <= (if c then 8 else 16) ->
    mem_read m' (a' + o) n = mem_read m (a + o) n).
  { intros o n Ho Hn. apply mem_read_shift. intros o' Ho'. rewrite <- !Z.add_assoc. apply H. lia. }
  pose proof (Hr 0) as H0. rewrite !Z.add_0_r in H0.
  destruct c; rewrite !Hr, !H0 by (simpl; lia); done.
Qed.

Lemma gather_ext user c m m' n : forall iov iov',
  (forall o, 0 <= o < Z.of_nat n * iov_size c -> m' (iov' + o) = m (iov + o)) ->
  gather user c m' iov' n = gather user c m iov n.
Proof.
  induction n as [|n IH]; intros iov iov' H; [done|]. cbn [gather]. pose proof (iov_size_pos c).
  destruct (iov_entry_ext c m m' iov iov') as [-> ->]; [intros o Ho; apply H; nia|].
  f_equal. apply IH. intros o Ho. rewrite <- !Z.add_assoc. apply H. nia.
Qed.

Lemma tocopy_bounds c w len limit b tbl :
  0 <= len -> 0 <= b < tbl -> tbl <= STR_STORAGE_SIZE -> (w = false -> b < limit < 2 ^ 32) ->
  tocopy_len c w len limit b tbl = Z.min len (gather_cap w limit tbl - b).
Proof.
  intros Hl Hb Ht Hlim. unfold tocopy_len, gather_cap, size_conv, STR_STORAGE_SIZE in *.
  destruct w.
  - destruct c; [rewrite u32_small|rewrite u64_small]; lia.
  - specialize (Hlim eq_refl). rewrite (u64_small (limit - b)) by lia.
    destruct c; [rewrite !u32_small|rewrite !u64_small]; lia.
Qed.

Lemma mem_read_prefix m a n k : (k <= n)%nat -> mem_read m a k = take k (mem_read m a n).
Proof.
  intros H. replace n with (k + (n - k))%nat by lia. rewrite mem_read_app.
  rewrite take_app_le by (rewrite length_mem_read; lia).
  by rewrite take_ge by (rewrite length_mem_read; lia).
Qed.

Section vectors.
Context (k : kenv) (user : mem) `{!KernelOK k user}.

Lemma tocopy_range c w len limit b tbl :
  0 <= len -> 0 <= b < tbl -> tbl <= STR_STORAGE_SIZE ->
  0 <= tocopy_len c w len limit b tbl <= tbl - b - 1.
Proof.
  intros Hl Hb Ht. unfold tocopy_len, size_conv, STR_STORAGE_SIZE in *.
  assert (Hc : (if c then u32 (tbl - b - 1) else u64 (tbl - b - 1)) = tbl - b - 1)
    by (destruct c; [apply u32_small|apply u64_small]; lia).
  rewrite Hc. pose proof (u32_range (u64 (limit - b))). pose proof (u64_range (u64 (limit - b))).
  destruct w, c; lia.
Qed.

(** The merge loop writes nothing but the free part of the target buffer. *)
Lemma merge_bufs_frame c w limit tb tbl n : forall iov b m m' res,
  0 <= b < tbl -> tbl <= STR_STORAGE_SIZE ->
  merge_bufs k c w limit tb tbl n iov b m = (m', res) ->
  forall x, x < tb + b \/ tb + tbl <= x -> m' x = m x.
Proof.
  induction n as [|n IH]; intros iov b m m' res Hb Htbl E; cbn [merge_bufs] in E; [by simplify_eq|].
  destruct (_ && _)%bool; [by simplify_eq|].
  pose proof (tocopy_range c w _ limit b tbl (proj1 (iov_len_range c m iov)) Hb Htbl) as Ht.
  set (t := tocopy_len _ _ _ _ _ _) in *. clearbody t.
  destruct (ppm_copy_from_user k m _ _ t) as [m1 nr] eqn:Ec.
  apply (ppm_copy_spec k user) in Ec as [Hout _]; [|lia]. unfold STR_STORAGE_SIZE in *.
  assert (Hm1 : forall x, x < tb + b \/ tb + tbl <= x -> m1 x = m x)
    by (intros x Hx; apply Hout; lia).
  case_in E; [by simplify_eq|]. case_in E; [by simplify_eq|].
  rewrite u64_small in E by lia.
  assert (Hb' : 0 <= b + t < tbl) by lia. pose proof (IH _ _ _ _ _ Hb' Htbl E) as Hrest.
  intros x Hx. rewrite Hrest by lia. apply Hm1, Hx.
Qed.

(** ... and collects the reference's bytes behind those already there, as many
    as there is room for. *)
Lemma merge_bufs_spec c w limit tb tbl n : forall iov b m m' b',
  0 <= b <= gather_cap w limit tbl -> 1 <= tbl <= STR_STORAGE_SIZE ->
  (w = false -> 0 < limit < 2 ^ 32) ->
  iov + Z.of_nat n * iov_size c <= tb ->
  merge_bufs k c w limit tb tbl n iov b m = (m', Some b') ->
  let data := gather user c m iov n in
  b' = Z.min (b + Z.of_nat (length data)) (gather_cap w limit tbl) /\
  mem_read m' (tb + b) (Z.to_nat (b' - b)) = take (Z.to_nat (b' - b)) data.
Proof.
  induction n as [|n IH]; intros iov b m m' b' Hb Htbl Hlim Hdis E.
  { cbn [merge_bufs] in E. simplify_eq. simpl. split; [lia|]. by rewrite Z.sub_diag. }
  cbn [merge_bufs] in E. pose proof (iov_size_pos c) as Hsz.
  pose proof (iov_len_range c m iov) as Hlen.
  destruct (negb w && (u64 limit <=? b)) eqn:Estop.
  { simplify_eq. rewrite Z.sub_diag. split; [|done].
    bool_to_prop. destruct w; [discriminate|]. specialize (Hlim eq_refl).
    rewrite u64_small in * by lia. unfold gather_cap in *. lia. }
  assert (Hblim : w = false -> b < limit < 2 ^ 32).
  { intros ->. specialize (Hlim eq_refl). cbn [negb andb] in Estop.
    rewrite u64_small in Estop by lia. lia. }
  assert (Hbt : 0 <= b < tbl) by (unfold gather_cap in Hb; destruct w; lia).
  rewrite (tocopy_bounds c w _ limit b tbl) in E; [|lia|done|lia|exact Hblim].
  set (len := iov_len c m iov) in *. set (cap := gather_cap w limit tbl) in *.
  assert (Hcap : cap <= tbl - 1) by (unfold cap, gather_cap; destruct w; lia).
  set (t := Z.min len (cap - b)) in *.
  destruct (ppm_copy_from_user k m _ _ t) as [m1 nr] eqn:Ec.
  pose proof (copy_notread k user m _ _ t m1 nr ltac:(lia) Ec) as Hnr.
  apply (ppm_copy_spec k user) in Ec as [Hout Hdata]; [|lia].
  unfold STR_STORAGE_SIZE in *. rewrite u32_small in E by lia.
  destruct (nr =? 0) eqn:Enr; cbn [negb] in E; [|discriminate].
  bool_to_prop. specialize (Hdata Enr). rewrite u64_small in E by lia.
  set (rest := gather user c m (iov + iov_size c) n).
  assert (Hhead : mem_read user (iov_base c m iov) (Z.to_nat t)
    = take (Z.to_nat t) (mem_read user (iov_base c m iov) (Z.to_nat len) ++ rest)).
  { rewrite take_app_le by (rewrite length_mem_read; lia). apply mem_read_prefix. lia. }
  cbn [gather]. fold len rest. cbv zeta. rewrite length_app, length_mem_read.
  destruct (t =? len) eqn:Etl; cbn [negb] in E; bool_to_prop; cycle 1.
  { simplify_eq. replace (b + t - b) with t by lia. split; [lia|]. by rewrite Hdata. }
  pose proof (merge_bufs_frame c w limit tb tbl n _ (b + t) _ _ _ ltac:(lia) (proj2 Htbl) E) as Hout2.
  apply IH in E as [Hb' Hrd]; [|lia|done|done|lia].
  rewrite (gather_ext user c m m1 n (iov + iov_size c)) in Hb', Hrd
    by (intros x Hx; apply Hout; nia).
  fold rest in Hb', Hrd. split; [lia|].
  replace (Z.to_nat (b' - b)) with (Z.to_nat t + Z.to_nat (b' - (b + t)))%nat by lia.
  rewrite mem_read_app. replace (tb + b + Z.of_nat (Z.to_nat t)) with (tb + (b + t)) by lia.
  rewrite Hrd. rewrite (mem_read_ext m' m1) by (intros x Hx; apply Hout2; lia).
  rewrite Hdata, Etl. replace (Z.to_nat len) with (length (mem_read user (iov_base c m iov)
    (Z.to_nat len))) at 2 by apply length_mem_read. by rewrite take_app_add.
Qed.

(** ** Fillers that gather. *)

#[export] Instance parse_bufs_page c iovsrc iovcnt limit flags st next :
  PageSafe st next -> PageSafe st (parse_bufs k c iovsrc iovcnt limit flags next).
Proof.
  intros Hn. unfold parse_bufs. cbv zeta. pose proof (iov_size_pos c) as Hsz.
  set (copylen := u64 (iovcnt * iov_size c)). assert (0 <= copylen) by apply u64_range.
  apply if_page; [exact _|].
  destruct (STR_STORAGE_SIZE <=? copylen) eqn:Ec; [exact _|]. bool_to_prop.
  apply with_state_page. intros s0 ->. unfold STR_STORAGE_SIZE in *.
  set (pb := if has_flag flags PRB_FLAG_PUSH_DATA then _ else next).
  assert (Hpb : PageSafe st pb).
  { apply if_page; [|exact Hn]. apply if_page; [|exact _]. apply (assign_page st); [exact _|].
    intros s s' r Hs E.
    destruct (merge_bufs _ _ _ _ _ _ _ _ _ _) as [m res] eqn:Em.
    assert (Hm : page_only st (kmem s) m).
    { rewrite u32_small in Em by lia. intros x Hx. unfold STR_STORAGE_SIZE in *.
      eapply merge_bufs_frame; [| |exact Em|]; unfold STR_STORAGE_SIZE; lia. }
    destruct res as [bs|]; [|by simplify_eq].
    eapply (page_step st _ s (set_kmem s m)); [|exact Hs|exact Hm|exact E]. exact _. }
  clearbody pb.
  apply (copy_in_page k user); unfold STR_STORAGE_SIZE; try lia; [|exact _].
  apply if_page; [|exact Hpb]. apply with_state_page. intros s _. exact _.
Qed.

#[export] Instance parse_user_bufs_page val iovcnt limit flags st next :
  PageSafe st next -> PageSafe st (parse_user_bufs k val iovcnt limit flags next).
Proof.
  intros Hn. unfold parse_user_bufs, parse_readv_writev_bufs, compat_parse_readv_writev_bufs.
  exact _.
Qed.

#[export] Instance with_msghdr_page val limit flags st next :
  (forall mh, PageSafe st (next mh)) -> PageSafe st (with_msghdr k val limit flags next).
Proof.
  intros Hn. unfold with_msghdr, parse_readv_writev_bufs, compat_parse_readv_writev_bufs.
  exact _.
Qed.
End vectors.

(** ** The descriptor lists of [poll]. *)

(** The reference: one record per descriptor, on exit only of those with a
    result. *)
Definition poll_record (m : mem) (a flags : Z) : list byte :=
  le64 (s32 (ld32 m a)) ++ le16 flags.

Fixpoint poll_records (enter_event : bool) (m : mem) (a : Z) (n : nat) : list (list byte) :=
  match n with
  | O => []
  | S n' =>
      let events := s16 (ld16 m (a + 4)) in
      let revents := s16 (ld16 m (a + 6)) in
      (if negb enter_event && (revents =? 0) then []
       else [poll_record m a (poll_events_to_scap (if enter_event then events else revents))])
      ++ poll_records enter_event m (a + 8) n'
  end.

Lemma poll_record_length e m a n :
  Z.of_nat (length (concat (poll_records e m a n))) = 10 * Z.of_nat (length (poll_records e m a n)).
Proof.
  revert a. induction n as [|n IH]; intros a; [done|]. cbn [poll_records].
  destruct (_ && _)%bool; [apply IH|]. cbn [app concat length]. rewrite length_app.
  unfold poll_record at 1. rewrite length_app. unfold le64, le16. rewrite !length_le_bytes.
  specialize (IH (a + 8)). lia.
Qed.

Lemma poll_records_count e m a n : (length (poll_records e m a n) <= n)%nat.
Proof.
  revert a. induction n as [|n IH]; intros a; [done|]. cbn [poll_records].
  specialize (IH (a + 8)). destruct (_ && _)%bool; cbn [app length]; lia.
Qed.

(** The records depend on the bytes of the array alone. *)
Lemma poll_records_ext e m m' n : forall a a',
  (forall o, 0 <= o < 8 * Z.of_nat n -> m' (a' + o) = m (a + o)) ->
  poll_records e m' a' n = poll_records e m a n.
Proof.
  induction n as [|n IH]; intros a a' H; [done|]. cbn [poll_records].
  assert (Hr : forall o w, 0 <= o -> o + Z.of_nat w <= 8 ->
    mem_read m' (a' + o) w = mem_read m (a + o) w).
  { intros o w Ho Hw. apply mem_read_shift. intros i Hi. rewrite <- !Z.add_assoc. apply H. lia. }
  unfold poll_record, ld16, ld32. pose proof (Hr 0 4%nat) as H0. rewrite !Z.add_0_r in H0.
  rewrite H0, !Hr by (simpl; lia). f_equal. apply IH. intros o Ho.
  rewrite <- !Z.add_assoc. apply H. lia.
Qed.

Lemma poll_loop_spec e fds tb nfds n : forall fuel j pos count m,
  nfds = j + Z.of_nat n -> (n < fuel)%nat -> 0 <= j -> nfds < 2 ^ 32 ->
  0 <= pos -> pos + 10 * Z.of_nat n < 2 ^ 32 -> fds + 8 * nfds <= tb ->
  let rs := poll_records e m (fds + 8 * j) n in
  let len := Z.of_nat (length rs) in
  exists m', poll_loop fuel e fds tb nfds j pos count m = (m', Some (pos + 10 * len, count + len)) /\
    (forall x, x < tb + pos \/ tb + pos + 10 * len <= x -> m' x = m x) /\
    mem_read m' (tb + pos) (length (concat rs)) = concat rs.
Proof.
  induction n as [|n IH]; intros fuel j pos count m Hn Hf Hj Hmax Hp Hpm Hdis rs len;
    (destruct fuel as [|fuel]; [lia|]); cbn [poll_loop].
  { assert (j <? nfds = false) as -> by lia. cbn [negb]. exists m. simpl in *.
    by rewrite !Z.add_0_r. }
  assert (j <? nfds = true) as -> by lia. cbn [negb]. rewrite (u32_small (j + 1)) by lia.
  unfold len, rs. cbn [poll_records].
  destruct (negb e && (s16 (ld16 m (fds + 8 * j + 6)) =? 0))%bool.
  { cbn [app]. replace (fds + 8 * j + 8) with (fds + 8 * (j + 1)) by lia. apply IH; lia. }
  set (flags := poll_events_to_scap _). set (rc := poll_record m (fds + 8 * j) flags).
  rewrite (u32_small (pos + 10)) by lia.
  set (m2 := mem_write (mem_write m _ _) _ _).
  assert (Hm2 : forall x, x < tb + pos \/ tb + pos + 10 <= x -> m2 x = m x).
  { intros x Hx. unfold m2, le64, le16. rewrite !mem_write_out; [done|..];
      rewrite ?length_le_bytes; simpl; lia. }
  assert (Hlen : length rc = 10%nat) by (unfold rc, poll_record, le64, le16;
    rewrite length_app, !length_le_bytes; done).
  assert (Hrc : mem_read m2 (tb + pos) 10 = rc).
  { change 10%nat with (8 + 2)%nat. rewrite mem_read_app. unfold rc, poll_record, m2. f_equal.
    - rewrite mem_read_write_out by (unfold le16; rewrite ?length_le_bytes; simpl; lia).
      apply mem_read_write_le. done.
    - by apply mem_read_write_le. }
  assert (Hrest : poll_records e m2 (fds + 8 * (j + 1)) n
                  = poll_records e m (fds + 8 * j + 8) n).
  { apply poll_records_ext. intros o Ho. rewrite Hm2 by lia. f_equal. lia. }
  destruct (IH fuel (j + 1) (pos + 10) (count + 1) m2) as (m' & El & Hout & Hrd); try lia.
  rewrite Hrest in El, Hout, Hrd. set (rest := poll_records e m (fds + 8 * j + 8) n) in *.
  exists m'. cbn [app length concat]. split; [rewrite El; do 3 f_equal; lia|]. split.
  - intros x Hx. rewrite Hout by lia. apply Hm2. lia.
  - rewrite length_app, Hlen, mem_read_app. f_equal.
    + rewrite <- Hrc. apply mem_read_ext. intros x Hx. apply Hout. simpl in Hx. lia.
    + replace (tb + pos + Z.of_nat 10) with (tb + (pos + 10)) by (simpl; lia). exact Hrd.
Qed.

Section poll.
Context (k : kenv) (user : mem) `{!KernelOK k user}.

(** The count of descriptors that passed the test, when the test did not wrap. *)
Lemma poll_nfds_small nfds :
  0 <= nfds < 2 ^ 59 -> u64 (8 * nfds + 2 + 10 * nfds) <= STR_STORAGE_SIZE ->
  nfds <= 227 /\ u64 (nfds * 8) = nfds * 8.
Proof.
  unfold STR_STORAGE_SIZE. intros H Hu. rewrite u64_small in Hu by lia.
  split; [lia|]. apply u64_small. lia.
Qed.

(** The array is copied and turned into the reference's records, and the rest of
    the filler is run on the outcome. *)
Lemma poll_parse_fds_step e next s s' r :
  0 <= sc_arg k 1 < 2 ^ 59 -> poll_parse_fds k e next s = (s', r) ->
  (s' = s /\ r = PPM_FAILURE_BUFFER_FULL) \/
  (r = PPM_FAILURE_INVALID_USER_MEMORY /\
   exists m, s' = set_kmem s m /\ page_only (str_storage (args s)) (kmem s) m) \/
  exists m targetbuf,
    let val := if compat (args s) then compat_ptr (sc_arg k 0) else sc_arg k 0 in
    let rs := poll_records e user val (Z.to_nat (sc_arg k 1)) in
    let data := le16 (Z.of_nat (length rs)) ++ concat rs in
    page_only (str_storage (args s)) (kmem s) m /\
    str_storage (args s) <= targetbuf /\
    mem_read m targetbuf (length data) = data /\ Z.of_nat (length data) <= STR_STORAGE_SIZE /\
    push k targetbuf (Z.of_nat (length data)) false 0 next (set_kmem s m) = (s', r).
Proof.
  intros Hr E. unfold poll_parse_fds in E. cbv zeta in E. set (nfds := sc_arg k 1) in *.
  case_in E; [unfold fail in E; simplify_eq; by left|]. bool_to_prop.
  destruct (poll_nfds_small nfds) as [Hn Hu]; [done|lia|]. right.
  unfold with_state, copy_in in E. rewrite Hu in E.
  set (val := if compat (args s) then _ else _) in E |- *. set (st := str_storage (args s)) in *.
  destruct (ppm_copy_from_user _ _ _ _ _) as [m1 nr] eqn:Ec.
  pose proof (page_copy k user st (kmem s) st val (nfds * 8) m1 nr) as Hpage.
  unfold STR_STORAGE_SIZE in *. specialize (Hpage ltac:(lia) ltac:(lia) ltac:(lia) Ec).
  apply (ppm_copy_spec k user) in Ec as [_ Hcopy]; [|lia].
  destruct (nr =? 0) eqn:Enr; cycle 1.
  { left. unfold fail in E. simplify_eq. split; [done|]. by exists m1. }
  right. bool_to_prop. specialize (Hcopy Enr). set (n := Z.to_nat nfds) in *.
  assert (Hrs : poll_records e m1 st n = poll_records e user val n).
  { apply poll_records_ext. intros o Ho.
    pose proof (mem_read_nth m1 st (Z.to_nat (nfds * 8)) (Z.to_nat o) ltac:(lia)) as H1.
    pose proof (mem_read_nth user val (Z.to_nat (nfds * 8)) (Z.to_nat o) ltac:(lia)) as H2.
    by rewrite Hcopy, H2, !Z2Nat.id in H1 by lia. }
  set (tb := st + nfds * 8 + 2) in *.
  destruct (poll_loop_spec e st tb nfds n poll_fuel 0 2 0 m1) as (m2 & El & Hout & Hrd);
    try (unfold tb, n, poll_fuel; lia).
  rewrite Z.mul_0_r, Z.add_0_r, Hrs in El, Hout, Hrd. cbn [kmem set_kmem] in E.
  rewrite El in E. rewrite Z.add_0_l in E.
  pose proof (poll_records_count e user val n) as Hcnt.
  pose proof (poll_record_length e user val n) as Hlen.
  set (rs := poll_records e user val n) in *. set (count := Z.of_nat (length rs)) in *.
  exists (mem_write m2 tb (le16 count)), tb. cbv zeta. fold rs count.
  assert (Hl16 : length (le16 count) = 2%nat) by apply length_le_bytes.
  assert (Hldata : Z.of_nat (length (le16 count ++ concat rs)) = 2 + 10 * count)
    by (rewrite length_app, Hl16; lia).
  split; [|split; [unfold tb; lia|split; [|split; [unfold tb, n in *; lia|]]]].
  - etransitivity; [exact Hpage|]. intros x Hx. unfold STR_STORAGE_SIZE in Hx.
    rewrite mem_write_out by (rewrite Hl16; unfold tb, n in *; lia).
    apply Hout. unfold tb, n in *. lia.
  - rewrite length_app, mem_read_app, Hl16. f_equal; [by apply mem_read_write_le|].
    rewrite mem_read_write_out by (rewrite Hl16; simpl; lia). exact Hrd.
  - rewrite Hldata. exact E.
Qed.

Lemma poll_parse_fds_page e st next :
  0 <= sc_arg k 1 < 2 ^ 59 -> PageSafe st next -> PageSafe st (poll_parse_fds k e next).
Proof.
  intros Hr Hn s s' r Hs E.
  destruct (poll_parse_fds_step e next s s' r Hr E) as [[-> _]|[(_ & m & -> & Hp)|H]];
    [reflexivity|by rewrite <- Hs|].
  destruct H as (m & tb & Hp & _ & _ & _ & Hpush).
  eapply (page_step st _ s (set_kmem s m)); [|exact Hs|by rewrite <- Hs|exact Hpush]. exact _.
Qed.
End poll.

(** ** The strings of a new process. *)

Section proc.
Context (k : kenv) (user : mem) `{!KernelOK k user} (tk : task_env).

(** The strings stay within what is available, and the loop ends. *)
Lemma accumulate_loop_spec c storage fuel : forall argv available len m m' r,
  0 <= available -> 0 <= len -> (Z.to_nat available < fuel)%nat ->
  accumulate_loop k fuel c argv storage available len m = (m', r) ->
  (forall x, x < storage + len \/ storage + len + available <= x -> m' x = m x) /\
  (0 <= r <= len + available \/ r = PPM_FAILURE_INVALID_USER_MEMORY \/
   r = PPM_FAILURE_BUFFER_FULL).
Proof.
  induction fuel as [|fuel IH]; intros argv available len m m' r Ha Hl Hf E; [lia|].
  cbn [accumulate_loop] in E. destruct (if c then _ else _) as [p|]; [|simplify_eq; auto].
  case_in E; [simplify_eq; split; [done|lia]|]. case_in E; [simplify_eq; auto|].
  destruct (ppm_strncpy_from_user _ _ _ _ _) as [m1 n] eqn:Es.
  apply (ppm_strncpy_from_user_spec k user) in Es as [Hout Hn]; [|done].
  case_in E; [simplify_eq; auto|]. case_in E; [simplify_eq; auto|]. bool_to_prop.
  apply IH in E as [Hout2 Hr]; [|lia..].
  split; [|lia]. intros x Hx. rewrite Hout2 by lia. apply Hout. lia.
Qed.

Lemma accumulate_spec c argv storage available m m' r :
  0 <= available -> accumulate k c argv storage available m = (m', r) ->
  (forall x, x < storage \/ storage + available <= x -> m' x = m x) /\
  (0 <= r <= available \/ r = PPM_FAILURE_INVALID_USER_MEMORY \/ r = PPM_FAILURE_BUFFER_FULL).
Proof.
  intros Ha E. unfold accumulate in E. destruct (_ =? 0); [simplify_eq; split; [done|lia]|].
  apply accumulate_loop_spec in E; [|lia..]. by rewrite Z.add_0_r, Z.add_0_l in E.
Qed.

(** What the builders of a string list promise. *)
Definition page_string (st : Z) (m : mem) (res : mem * Z) : Prop :=
  page_only st m (fst res) /\ 0 <= snd res <= STR_STORAGE_SIZE.

Lemma failed_strings_page c argv st available m :
  0 <= available <= STR_STORAGE_SIZE -> page_string st m (failed_strings k c argv st available m).
Proof.
  intros Ha. unfold failed_strings, compat_accumulate_argv_or_env, accumulate_argv_or_env.
  assert (H : forall c a m' r, accumulate k c a st available m = (m', r) ->
    page_string st m (m', if r <? 0 then 0 else r)).
  { intros c' a m' r E. apply accumulate_spec in E as [Hout Hr]; [|lia]. split; simpl.
    - intros x Hx. apply Hout. lia.
    - unfold PPM_FAILURE_INVALID_USER_MEMORY, PPM_FAILURE_BUFFER_FULL in Hr.
      destruct (r <? 0) eqn:?; lia. }
  destruct c; match goal with |- context [accumulate k ?c ?a st available m] =>
    destruct (accumulate k c a st available m) as [m1 len] eqn:E end; exact (H _ _ _ _ E).
Qed.

Lemma user_strings_page st start n m :
  - 2 ^ 63 <= n < 2 ^ 63 -> page_string st m (user_strings k st start n m).
Proof.
  intros Hn. unfold user_strings, PAGE_SIZE. destruct (n =? 0) eqn:E0; bool_to_prop.
  { split; [reflexivity|done]. }
  set (l := if 4096 <? u64 n then 4096 else n).
  assert (Hl : 1 <= l <= 4096).
  { unfold l. destruct (4096 <? u64 n) eqn:Eu; [lia|]. apply Z.ltb_ge in Eu.
    destruct (decide (0 <= n)); [rewrite u64_small in Eu by lia; lia|].
    unfold u64 in Eu. rewrite <- (Z_mod_plus_full n 1), Z.mod_small in Eu; lia. }
  destruct (ppm_copy_from_user _ _ _ _ _) as [m1 nr] eqn:Ec.
  apply (page_copy k user st) in Ec; [|unfold STR_STORAGE_SIZE; lia..].
  destruct (nr =? 0); cbn [negb]; (split; [|simpl; unfold STR_STORAGE_SIZE; lia]); [|done].
  etransitivity; [exact Ec|]. apply page_write; simpl; unfold STR_STORAGE_SIZE; lia.
Qed.

Lemma append_cgroup_page sub st available m :
  0 <= available <= STR_STORAGE_SIZE ->
  let buf := st + STR_STORAGE_SIZE - available in
  page_only st m (fst (append_cgroup sub buf available m)) /\
  (forall a, snd (append_cgroup sub buf available m) = Some a -> 0 <= a <= STR_STORAGE_SIZE).
Proof.
  intros Ha buf. unfold append_cgroup. destruct sub as [name [path|]]; [|split; [reflexivity|done]].
  cbv zeta. set (m1 := match path with Some _ => _ | None => m end).
  assert (H1 : page_only st m m1).
  { unfold m1. destruct path; [|reflexivity]. apply page_write; unfold buf; [lia|].
    rewrite length_take. lia. }
  clearbody m1. set (p := match path with Some _ => _ | None => NA end). clearbody p.
  destruct (available <? _) eqn:E; bool_to_prop; cbn [fst snd]; [done|].
  split; [|intros a [= <-]; lia]. etransitivity; [exact H1|].
  apply page_write; [unfold buf; lia|]. rewrite !length_app. unfold buf. simpl. lia.
Qed.

Lemma append_cgroups_page st subs : forall available m,
  0 <= available <= STR_STORAGE_SIZE -> page_string st m (append_cgroups subs st available m).
Proof.
  induction subs as [|sub subs IH]; intros available m Ha; cbn [append_cgroups].
  { split; [reflexivity|done]. }
  destruct (append_cgroup_page sub st available m Ha) as [Hp Hb].
  destruct (append_cgroup _ _ _ _) as [m1 [a|]]; cbn [fst snd] in *; [|by split].
  destruct (IH a m1 (Hb a eq_refl)) as [Hp' Hv]. split; [by etransitivity|done].
Qed.

Lemma store_with_page st f next :
  (forall a m, str_storage a = st -> page_string st m (f a m)) ->
  (forall v, 0 <= v <= STR_STORAGE_SIZE -> PageSafe st (next v)) ->
  PageSafe st (store_with f next).
Proof.
  intros Hf Hn s s' r Hs E. unfold store_with in E. destruct (Hf _ (kmem s) Hs) as [Hp Hv].
  destruct (f _ _) as [m v]. cbn [fst snd] in *.
  exact (page_step st (next v) s (set_kmem s m) s' r (Hn v Hv) Hs Hp E).
Qed.

#[export] Instance clear_storage_page st next : PageSafe st next -> PageSafe st (clear_storage next).
Proof. intros H. unfold clear_storage. apply store_start_page; done. Qed.

#[export] Instance store_if_page st (b : bool) bs next :
  Fits bs -> PageSafe st next ->
  PageSafe st (store (fun a m => if b then mem_write m (str_storage a) bs else m) next).
Proof.
  intros Hb. apply store_page. intros a m ->. destruct b; [|reflexivity].
  apply page_write; unfold Fits in Hb; lia.
Qed.

#[export] Instance fits_byte b : Fits [b].
Proof. done. Qed.
End proc.

Lemma s32_in_s64 v : - 2 ^ 63 <= s32 v < 2 ^ 63.
Proof. unfold s32. pose proof (Z.mod_pos_bound (v + 2 ^ 31) (2 ^ 32)). lia. Qed.
Lemma s64_in_s64 v : - 2 ^ 63 <= s64 v < 2 ^ 63.
Proof. unfold s64. pose proof (Z.mod_pos_bound (v + 2 ^ 63) (2 ^ 64)). lia. Qed.

Section fillers.
Context (k : kenv) (user : mem) `{!KernelOK k user} (tk : task_env) (st : Z).

#[export] Instance push_exe_args_page next :
  PageSafe st next -> PageSafe st (push_exe_args k tk next).
Proof.
  intros Hn. unfold push_exe_args. apply with_state_page. intros s _. cbv zeta.
  apply if_page; [exact _|]. set (rest := fun args_len : Z => store _ _).
  assert (Hrest : forall v, PageSafe st (rest v)) by (intros v; unfold rest; exact _).
  clearbody rest. apply if_page.
  - apply match_option_page; [|exact _]. intros mm. apply if_page; [exact _|].
    apply (store_with_page st); [|done]. intros a m ->.
    apply (user_strings_page k user), s32_in_s64.
  - apply clear_storage_page, store_with_page; [|done]. intros a m ->.
    apply (failed_strings_page k user). unfold STR_STORAGE_SIZE. lia.
Qed.

Lemma push_execve_params_page available next :
  0 <= available <= STR_STORAGE_SIZE -> PageSafe st next ->
  PageSafe st (push_execve_params k tk available next).
Proof.
  intros Ha Hn. unfold push_execve_params. apply store_with_page; [|intros v _; exact _].
  intros a m ->. destruct (0 <=? _); [|by apply (failed_strings_page k user)].
  destruct (task_mm _) as [mm|]; [apply (user_strings_page k user), s64_in_s64|].
  split; [reflexivity|done].
Qed.

#[export] Instance f_proc_startupdate_page : PageSafe st (f_proc_startupdate k tk).
Proof.
  unfold f_proc_startupdate. cbv zeta. apply pushv_page, push_exe_args_page.
  repeat apply pushv_page. apply clear_storage_page, store_with_page.
  - intros a m ->. apply append_cgroups_page. unfold STR_STORAGE_SIZE. lia.
  - intros v Hv. apply with_state_page. intros s _. apply push_page, with_state_page. intros s1 _.
    cbv zeta. apply if_page; [unfold push_clone_params; exact _|].
    apply if_page; [exact (push_execve_params_page _ _ Hv _)|exact _].
Qed.

#[export] Instance f_sys_send_e_common_page next :
  (forall fd, PageSafe st (next fd)) -> PageSafe st (f_sys_send_e_common k next).
Proof. page_steps. Qed.
#[export] Instance f_sys_recv_x_common_page next :
  PageSafe st next -> PageSafe st (f_sys_recv_x_common k next).
Proof. page_steps. Qed.
#[export] Instance parse_ptrace_addr_page req next :
  PageSafe st next -> PageSafe st (parse_ptrace_addr k req next).
Proof. page_steps. Qed.
#[export] Instance parse_ptrace_data_page req next :
  PageSafe st next -> PageSafe st (parse_ptrace_data k req next).
Proof. page_steps. Qed.
#[export] Instance semop_turn_page more ptr next :
  PageSafe st next -> PageSafe st (semop_turn k more ptr next).
Proof. page_steps. Qed.
#[export] Instance copy_when_page b len next :
  (forall bs, PageSafe st (next bs)) -> PageSafe st (copy_when k b len next).
Proof. page_steps. Qed.

(** The data of one message goes to the free part of the target buffer. *)
Lemma mmsg_data_frame slen tb tbl n : forall iov b m m' res,
  0 <= b < tbl -> tbl <= STR_STORAGE_SIZE ->
  mmsg_data k slen tb tbl n iov b m = (m', res) ->
  forall x, x < tb + b \/ tb + tbl <= x -> m' x = m x.
Proof.
  induction n as [|n IH]; intros iov b m m' res Hb Htbl E; cbn [mmsg_data] in E; [by simplify_eq|].
  case_in E; [by simplify_eq|].
  pose proof (iov_len_range false m iov) as Hl. pose proof (u64_range (slen - b)) as Hs.
  set (t := Z.min _ _) in *.
  assert (Ht : 0 <= t <= tbl - b - 1)
    by (unfold t, STR_STORAGE_SIZE in *; rewrite (u64_small (tbl - b - 1)) by lia; lia).
  clearbody t. destruct (ppm_copy_from_user k m _ _ t) as [m1 nr] eqn:Ec.
  apply (ppm_copy_spec k user) in Ec as [Hout _]; [|lia]. unfold STR_STORAGE_SIZE in *.
  assert (Hm1 : forall x, x < tb + b \/ tb + tbl <= x -> m1 x = m x)
    by (intros x Hx; apply Hout; lia).
  case_in E; [by simplify_eq|]. case_in E; [by simplify_eq|]. rewrite u64_small in E by lia.
  assert (Hb' : 0 <= b + t < tbl) by lia. pose proof (IH _ _ _ _ _ Hb' Htbl E) as Hrest.
  intros x Hx. rewrite Hrest by lia. apply Hm1, Hx.
Qed.

(** A call that sent at most one message. *)
Lemma mmsg_one_page slen mmsgs todo m m' res :
  (todo <= 1)%nat -> mmsg_loop k st slen mmsgs todo 0 st STR_STORAGE_SIZE 0 m = (m', res) ->
  page_only st m m'.
Proof.
  intros Hone E. destruct todo as [|todo]; [simpl in E; by simplify_eq|].
  assert (todo = 0%nat) as -> by lia. cbn [mmsg_loop] in E.
  destruct (copy_local _ _ _) as [mmh|]; [|by simplify_eq]. cbv zeta in E.
  case_in E; [by simplify_eq|]. set (copylen := u64 (field mmh 24 8 * 16)) in E.
  assert (Hc : exists q, copylen = 16 * q /\ 0 <= q).
  { exists (field mmh 24 8 mod 2 ^ 60). unfold copylen, u64.
    change (2 ^ 64) with (2 ^ 60 * 16). rewrite Z.mul_mod_distr_r by lia.
    pose proof (Z.mod_pos_bound (field mmh 24 8) (2 ^ 60)). lia. }
  destruct Hc as (q & Hq & Hq0). clearbody copylen. unfold STR_STORAGE_SIZE in *.
  case_in E; [by simplify_eq|]. bool_to_prop.
  destruct (ppm_copy_from_user _ _ _ _ _) as [m1 nr] eqn:Ec.
  apply (page_copy k user st) in Ec; [|unfold STR_STORAGE_SIZE; lia..].
  case_in E; [by simplify_eq|]. cbn [Z.eqb] in E. rewrite Z.add_0_r, u32_small in E by lia.
  set (m2 := mem_write m1 _ _) in E. assert (H2 : page_only st m1 m2)
    by (apply page_write; rewrite ?length_le_bytes; unfold STR_STORAGE_SIZE; simpl; lia).
  clearbody m2. destruct (mmsg_data _ _ _ _ _ _ _ _) as [m3 r3] eqn:Ed.
  assert (H3 : page_only st m2 m3).
  { intros x Hx. unfold STR_STORAGE_SIZE in *.
    eapply mmsg_data_frame; [| |exact Ed|]; unfold STR_STORAGE_SIZE; lia. }
  assert (m' = m3) as -> by (destruct r3; by simplify_eq).
  by rewrite Ec, H2.
Qed.

Lemma f_sys_sendmmsg_x_page : syscall_retval k <= 1 -> PageSafe st (f_sys_sendmmsg_x k).
Proof.
  intros Hr. unfold f_sys_sendmmsg_x. apply pushv_page. apply with_sock_arg_page; intros vlen.
  apply with_sock_arg_page; intros val. apply pushv_page. intros s s' r Hs E. cbv zeta in E.
  destruct (if compat (args s) then _ else _) as [m res] eqn:Em.
  assert (Hp : page_only st (kmem s) m).
  { rewrite Hs in Em. destruct (compat _); [by simplify_eq|].
    eapply mmsg_one_page; [|exact Em]. lia. }
  destruct res as [[tb bs]|code]; [|by simplify_eq].
  eapply (page_step st _ s (set_kmem s m)); [|exact Hs|exact Hp|exact E]. exact _.
Qed.

Instance f_sys_execve_e_page : PageSafe st (f_sys_execve_e k tk).
Proof.
  intros s s' r Hs E. unfold f_sys_execve_e in E.
  destruct (val_to_ring k s _ _ _ _) as [s1 r1] eqn:E1. apply vtr_kmem in E1 as [Hk1 _].
  destruct (if r1 =? _ then _ else _) as [s2 r2] eqn:E2.
  assert (Hk2 : kmem s2 = kmem s1).
  { destruct (r1 =? _); [by apply vtr_kmem in E2 as [Hk _]|by simplify_eq]. }
  assert (kmem s' = kmem s2) as -> by (unfold add_sentinel in E; destruct (negb _); by simplify_eq).
  rewrite Hk2, Hk1. reflexivity.
Qed.

Lemma autofill_loop_page pt l : PageSafe st (autofill_loop k pt l).
Proof. induction l as [|a l IH]; cbn [autofill_loop]; cbv zeta; exact _. Qed.
Instance f_sys_autofill_page : PageSafe st (f_sys_autofill k).
Proof.
  unfold f_sys_autofill. apply with_state_page. intros s _.
  destruct (g_ppm_events _); [apply autofill_loop_page|exact _].
Qed.

(** The fillers whose writes the code does not keep within the page. *)
Definition page_guard (id : ppm_filler_id) : Prop :=
  match id with
  | F_sys_poll_e | F_sys_poll_x | F_sys_ppoll_e => 0 <= sc_arg k 1 < 2 ^ 59
  | F_sys_sendmmsg_x => syscall_retval k <= 1
  | _ => True
  end.

Lemma kmod_fillers_page id : page_guard id -> PageSafe st (kmod_fillers k tk id).
Proof.
  intros Hg. destruct id; cbn [kmod_fillers page_guard] in *; try exact _;
    try (by apply f_sys_sendmmsg_x_page);
    try (match goal with |- PageSafe _ ?f => let rec hd t := match t with ?g _ => hd g | _ => t end
       in let h := hd f in unfold h end; cbv zeta;
       repeat (apply pushv_page || (apply (poll_parse_fds_page k user); [assumption|]));
       typeclasses eauto).
Qed.
End fillers.

(** C6: for every filler, every system call and every outcome of its copies from
    user memory, the kernel memory a call has changed lies in the CPU's string
    page.  For the poll family the descriptor count must be below [2^59], and
    [sendmmsg] must have sent at most one message: the code checks neither. *)
Theorem fillers_keep_to_page (k : kenv) (user : mem) (tk : task_env) (id : ppm_filler_id)
    (s s' : fstate) (r : Z) :
  KernelOK k user -> page_guard k id -> kmod_fillers k tk id s = (s', r) ->
  forall x, x < str_storage (args s) \/ str_storage (args s) + STR_STORAGE_SIZE <= x ->
    kmem s' x = kmem s x.
Proof. intros HK Hg E. exact (kmod_fillers_page k user tk _ id Hg s s' r eq_refl E). Qed.

Lemma fillers_keep_to_page_witness :
  let s := sample_state PPME_SYSCALL_POLL_E 1000 in
  kmem (fst (f_sys_poll_e sample_kenv s)) 70000 = kmem s 70000.
Proof.
  intros s.
  refine (fillers_keep_to_page sample_kenv sample_user sample_task F_sys_poll_e s _
    (snd (f_sys_poll_e sample_kenv s)) sample_kenv_ok _ _ 70000 _).
  - split; done.
  - apply surjective_pairing.
  - right. vm_compute. discriminate.
Defined.
