(* ===== verification/FillerFaults.v ===== *)
(** * Writes past the string page

    The two guards of the fillers that user space can defeat: the size test of
    [poll_parse_fds], whose arithmetic wraps, and the buffer of
    [f_sys_sendmmsg_x], which is not tested when a further message starts. *)

From Stdlib Require Import Strings.Byte.
From Stdlib Require Import ZArith Lia List Bool.
From stdpp Require Import base tactics list numbers option.
From S2P Require Import Prelude Bytes EventDefs EventTable FillerTable ValToRing.
From S2P Require Import ValToRingSpec FlagDefs Flags Fillers FillerOps SyscallFillers.
From S2P Require Import SockFillers ProcFillers AllFillers FillerStorage.
Import ListNotations.
Local Open Scope Z_scope.

(** A kernel whose user memory is [user], all of it readable, in a system call
    with the given arguments and result. *)
Definition kenv_of (user : mem) (sc : list Z) (ret : Z) : kenv :=
  {| access_ok := fun _ _ => true;
     copy_inatomic := fun a n => mem_read user a (Z.to_nat n);
     g_tracers_enabled := false; fd_rdev := fun _ => None; fd_sb_dev := fun _ => None;
     literal_addr := 1; sockfd_lookup := fun _ => None; uninit := []; syscall_args := sc;
     syscall_retval := ret; current_pid := 42; max_fds := 1024; fd_is_open := fun _ => true;
     stale_spid := 0; stale_fd := 0; stale_socketcall_args := [0; 0; 0; 0; 0; 0] |}.

#[export] Instance kenv_of_ok user sc ret : KernelOK (kenv_of user sc ret) user.
Proof. split; intros a n; simpl; rewrite length_mem_read; [lia|done]. Qed.

(** ** sendmmsg. *)

(** A [struct mmsghdr] with a vector of [n] entries at [iov]. *)
Definition mmsghdr_bytes (iov n len : Z) : list byte :=
  replicate 16 x00 ++ le64 iov ++ le64 n ++ replicate 24 x00 ++ le32 len ++ le32 0.

(** Two messages: the first with 255 entries of one byte, which leave 16 bytes
    of the page for data, the second with 60 bytes of its own. *)
Definition two_messages : mem :=
  mem_write (mem_write (mem_write (fun _ => x41)
    8192 (mmsghdr_bytes 16384 255 255 ++ mmsghdr_bytes 12288 1 60))
    12288 (le64 65536 ++ le64 60))
    16384 (concat (replicate 255 (le64 65536 ++ le64 1))).

Definition sendmmsg_kernel : kenv := kenv_of two_messages [3; 8192; 2; 0] 2.

(** A process that sends two messages makes the filler write past the string
    page: with a snaplen of 80 the size and the data of the second message, the
    sender's own bytes, are put behind the first message's without a test of the
    room that is left (the subtraction that bounds the copy wraps).  The last
    byte written is 63 bytes beyond the page. *)
Theorem sendmmsg_overruns_page :
  let s := sample_state PPME_SOCKET_SENDMMSG_X 1000 in
  let s' := fst (f_sys_sendmmsg_x sendmmsg_kernel s) in
  KernelOK sendmmsg_kernel two_messages /\ filled s [] /\ snaplen (consumer (args s)) = 80 /\
  mem_read (kmem s) (str_storage (args s) + STR_STORAGE_SIZE + 3) 60 = replicate 60 x00 /\
  mem_read (kmem s') (str_storage (args s) + STR_STORAGE_SIZE + 3) 60 = replicate 60 x41.
Proof.
  intros s s'. split; [exact _|]. split; [apply sample_filled; vm_compute; congruence|].
  split; [reflexivity|]. split; vm_compute; reflexivity.
Qed.

(** ** poll. *)

(** The loop counter is 32 bits wide: it never reaches a larger count. *)
Lemma poll_loop_runs e fds tb nfds fuel : forall j pos count m,
  0 <= j < 2 ^ 32 -> 2 ^ 32 <= nfds ->
  snd (poll_loop fuel e fds tb nfds j pos count m) = None.
Proof.
  induction fuel as [|fuel IH]; intros j pos count m Hj Hn; cbn [poll_loop]; [done|].
  assert (j <? nfds = true) as -> by lia. cbn [negb]. pose proof (u32_range (j + 1)).
  destruct (_ && _)%bool; apply IH; lia.
Qed.

(** The stale content of the string page. *)
Definition stale_page (s : fstate) : fstate := set_kmem s (fun _ => x01).

Definition poll_kernel : kenv := kenv_of (fun _ => x00) [4096; 2 ^ 63; 0] 0.

(** A [poll] whose 64 bit count register holds [2^63] (the kernel itself uses
    the low half, zero) passes the filler's size test, because the test's sum
    wraps to 2, and copies no bytes; the loop over the descriptors then never
    ends, for no number of turns, and it writes past the string page. *)
Theorem poll_count_wraps :
  let nfds := sc_arg poll_kernel 1 in
  let s := stale_page (sample_state PPME_SYSCALL_POLL_E 1000) in
  KernelOK poll_kernel (fun _ => x00) /\ filled s [] /\ u32 nfds = 0 /\
  u64 (8 * nfds + 2 + 10 * nfds) = 2 /\ u64 (nfds * 8) = 0 /\
  (forall fuel e fds targetbuf m, snd (poll_loop fuel e fds targetbuf nfds 0 2 0 m) = None) /\
  let s' := fst (f_sys_poll_e poll_kernel s) in
  let page_end := str_storage (args s) + STR_STORAGE_SIZE in
  mem_read (kmem s) page_end 8 = replicate 8 x01 /\
  mem_read (kmem s') page_end 8 <> replicate 8 x01.
Proof.
  intros nfds s. split; [exact _|].
  split. { apply (filled_same_area (sample_state PPME_SYSCALL_POLL_E 1000)); try reflexivity.
           - apply sample_filled; vm_compute; congruence.
           - repeat split. }
  do 3 (split; [vm_compute; reflexivity|]). split.
  { intros fuel e fds tb m. apply poll_loop_runs; [lia|]. vm_compute. discriminate. }
  intros s' page_end. split; [vm_compute; reflexivity|].
  intros H. vm_compute in H. discriminate H.
Qed.
