(* ===== verification/FillerData.v ===== *)
(** * What the gathering fillers record

    The content of the parameters that are built in the string page: the data of
    a [writev], against the concatenation of the caller's buffers, and the
    descriptor list of a [poll], against a record per descriptor. *)

From Stdlib Require Import Strings.Byte.
From Stdlib Require Import ZArith Lia List Bool.
From stdpp Require Import base tactics list numbers option.
From S2P Require Import Prelude Bytes EventDefs EventTable FillerTable ValToRing.
From S2P Require Import ValToRingSpec FlagDefs Flags Fillers FillerOps SyscallFillers.
From S2P Require Import SockFillers ProcFillers AllFillers FillerStorage FillerFaults.
Import ListNotations.
Local Open Scope Z_scope.

(** ** Successful steps. *)

(** [val_to_ring] moves the cursor and changes no other argument. *)
Lemma vtr_args k s val vl fu di s1 r1 :
  val_to_ring k s val vl fu di = (s1, r1) ->
  exists c o z, args s1 = set_cursor (args s) c o z.
Proof.
  intros E. unfold val_to_ring in E. cbv zeta in E.
  assert (Hid : exists c o z, args s = set_cursor (args s) c o z)
    by (exists (curarg (args s)), (arg_data_offset (args s)), (arg_data_size (args s)); by destruct (args s)).
  do 2 (case_in E; [by simplify_eq|]).
  destruct (param_alternative _ _) as [[dyn t]|]; [|by simplify_eq].
  destruct (dyn && _)%bool; [by simplify_eq|].
  destruct (put_value _ _ _ _ _ _ _ _ _ _) as [rm' [len|e]]; simplify_eq; eexists _, _, _; reflexivity.
Qed.

(** A successful filler got past each of its pushes, with the specified bytes. *)
Lemma push_success k user `{!KernelOK k user} val vl fu di next s ps s' :
  filled s ps -> push k val vl fu di next s = (s', PPM_SUCCESS) ->
  exists s1, filled s1 (ps ++ [val_encoding k user s val vl fu di]) /\ kmem s1 = kmem s /\
    (exists c o z, args s1 = set_cursor (args s) c o z) /\ next s1 = (s', PPM_SUCCESS).
Proof.
  intros F E. unfold push in E. destruct (val_to_ring _ _ _ _ _ _) as [s1 r1] eqn:E1.
  destruct (val_to_ring_ok k user _ _ _ _ _ _ _ _ F E1) as (_ & _ & Hk & Hr).
  case_in E; bool_to_prop; [congruence|]. subst r1.
  destruct Hr as [[_ F1]|[Hr|[Hr|[Hr _]]]]; [|discriminate Hr..].
  exists s1. split; [exact F1|]. split; [exact Hk|]. split; [by eapply vtr_args|exact E].
Qed.

(** The encoding of a number. *)
Lemma val_encoding_number k user s val w :
  pi_type (event_param (event_type (args s)) (curarg (args s))) = PT_ERRNO -> w = 8%nat ->
  val_encoding k user s val 0 false 0 = le_bytes w val.
Proof. intros Ht ->. unfold val_encoding, param_alternative. by rewrite Ht. Qed.

Lemma vtr_returns k user `{!KernelOK k user} s ps v vl fu di s1 r :
  filled s ps -> val_to_ring k s v vl fu di = (s1, r) -> r <> STILL_RUNNING.
Proof.
  intros F E. destruct (val_to_ring_ok k user _ _ _ _ _ _ _ _ F E) as (_ & _ & _ & H).
  intros ->. destruct H as [[H _]|[H|[H|[H _]]]]; discriminate H.
Qed.

Lemma filled_kmem s ps m : filled s ps -> filled (set_kmem s m) ps.
Proof. intros F. eapply filled_same_area; [exact F|..]; try done. Qed.

(** ** poll. *)

Lemma poll_x_returns k user `{!KernelOK k user} s s' r :
  filled s [] -> 0 <= sc_arg k 1 < 2 ^ 59 -> f_sys_poll_x k s = (s', r) -> r <> STILL_RUNNING.
Proof.
  intros F Hn E ->. unfold f_sys_poll_x, pushv, push in E.
  destruct (val_to_ring k s _ _ _ _) as [s1 r1] eqn:E1.
  case_in E; [simplify_eq; exact (vtr_returns k user _ _ _ _ _ _ _ _ F E1 eq_refl)|].
  destruct (vtr_step k user _ _ _ _ _ _ _ _ F E1) as (_ & _ & _ & Hs1). bool_to_prop.
  destruct Hs1 as [p F1]; [done|].
  destruct (poll_parse_fds_step k user false _ s1 s' _ ltac:(lia) E) as [[_ H]|[[H _]|H]];
    [discriminate H..|].
  destruct H as (m & tb & _ & _ & _ & _ & Hp). unfold push in Hp.
  destruct (val_to_ring k (set_kmem s1 m) _ _ _ _) as [s2 r2] eqn:E2.
  apply (vtr_returns k user _ _ _ _ _ _ _ _ (filled_kmem _ _ m F1)) in E2.
  case_in Hp; [by simplify_eq|]. unfold add_sentinel in Hp. by simplify_eq.
Qed.

(** The list a [poll] on the array of [s] is to record. *)
Definition poll_list (k : kenv) (user : mem) (s : fstate) : list byte :=
  let array := if compat (args s) then compat_ptr (sc_arg k 0) else sc_arg k 0 in
  let rs := poll_records false user array (Z.to_nat (sc_arg k 1)) in
  le16 (Z.of_nat (length rs)) ++ concat rs.

(** C8: the exit event of a [poll], when it is recorded, holds the result and
    the list of exactly those descriptors of the caller's array whose returned
    events are not empty, each with its number and its translated events, in
    order, behind their count; and the filler always returns.  The count must be
    below [2^59], so that the filler's size test does not wrap:
    [poll_count_wraps] shows what a larger one does. *)
Theorem poll_records_ready (k : kenv) (user : mem) (s s' : fstate) (r : Z) :
  KernelOK k user -> filled s [] -> event_type (args s) = PPME_SYSCALL_POLL_X ->
  0 <= sc_arg k 1 < 2 ^ 59 -> 0 < str_storage (args s) ->
  f_sys_poll_x k s = (s', r) ->
  r <> STILL_RUNNING /\
  (r = PPM_SUCCESS -> filled s' [le64 (syscall_retval k); poll_list k user s]).
Proof.
  intros HK F Ht Hn Hst E. split; [by eapply poll_x_returns|].
  intros ->. unfold poll_list. set (array := if compat (args s) then _ else _).
  set (rs := poll_records _ _ _ _). unfold f_sys_poll_x, pushv in E.
  apply (push_success k user _ _ _ _ _ _ [] _ F) in E as (s1 & F1 & Hk1 & (c & o & z & Ha) & E).
  pose proof (filled_curarg _ _ F) as Hc0. pose proof (filled_curarg _ _ F1) as Hc1.
  rewrite (val_encoding_number _ _ _ _ 8) in F1; [|by rewrite Ht, Hc0|done].
  destruct (poll_parse_fds_step k user false _ s1 s' _ ltac:(lia) E) as [[_ H]|[[H _]|H]];
    [discriminate H..|].
  destruct H as (m & tb & _ & Htb & Hrd & Hlen & Hp). rewrite Ha in Htb, Hrd, Hlen, Hp.
  cbn [compat set_cursor str_storage] in *. fold array in Hrd, Hlen, Hp. fold rs in Hrd, Hlen, Hp.
  set (data := le16 _ ++ concat rs) in *.
  apply (push_success k user _ _ _ _ _ _ _ _ (filled_kmem _ _ m F1)) in Hp
    as (s2 & F2 & _ & _ & E2).
  injection E2 as <-.
  replace (val_encoding _ _ _ _ _ _ _) with data in F2; [exact F2|].
  unfold val_encoding. cbn [args set_kmem]. rewrite Ha. cbn [event_type set_cursor curarg].
  rewrite Ha in Hc1. cbn [curarg set_cursor] in Hc1. rewrite Ht, Hc1. cbn [length app].
  change (param_alternative (event_param PPME_SYSCALL_POLL_X (Z.of_nat 1)) (u8 0))
    with (Some (false, PT_FDLIST)). cbn [param_encoding kmem set_kmem].
  assert (tb =? 0 = false) as -> by lia. unfold STR_STORAGE_SIZE in Hlen.
  rewrite u32_small, Nat2Z.id by lia. by rewrite Hrd.
Qed.

(** Two descriptors, the second of them readable. *)
Definition poll_array : mem :=
  mem_write mem_zero 4096 (le32 5 ++ le16 1 ++ le16 0 ++ le32 7 ++ le16 1 ++ le16 1).

Lemma sample_poll_res :
  snd (f_sys_poll_x (kenv_of poll_array [4096; 2; 0] 1) (sample_state PPME_SYSCALL_POLL_X 1000))
  = PPM_SUCCESS.
Proof. vm_compute. reflexivity. Qed.

Lemma poll_records_ready_witness :
  filled (fst (f_sys_poll_x (kenv_of poll_array [4096; 2; 0] 1)
                 (sample_state PPME_SYSCALL_POLL_X 1000)))
    [le64 1; le16 1 ++ le64 7 ++ le16 PPM_POLLIN].
Proof.
  refine (proj2 (poll_records_ready (kenv_of poll_array [4096; 2; 0] 1) poll_array
    (sample_state PPME_SYSCALL_POLL_X 1000) _ PPM_SUCCESS _ _ _ _ _ _) _).
  - apply sample_filled; vm_compute; congruence.
  - reflexivity.
  - by vm_compute.
  - reflexivity.
  - exact (pair_with_snd _ _ sample_poll_res).
  - reflexivity.
Defined.

(** ** writev. *)

(** A test of one flag in a constant combination. *)
Definition WRITE_DATA : Z := Z.lor PRB_FLAG_PUSH_DATA PRB_FLAG_IS_WRITE.

(** The bytes of the vector in the string page after the copy. *)
Lemma copied_array k user `{!KernelOK k user} c m to from n m' nr cnt :
  n = Z.of_nat cnt * iov_size c -> ppm_copy_from_user k m to from n = (m', nr) -> nr = 0 ->
  gather user c m' to cnt = gather user c user from cnt.
Proof.
  intros -> E Hz. pose proof (iov_size_pos c).
  apply (ppm_copy_spec k user) in E as [_ Hr]; [|nia]. specialize (Hr Hz).
  apply gather_ext. intros o Ho.
  pose proof (mem_read_nth m' to (Z.to_nat (Z.of_nat cnt * iov_size c)) (Z.to_nat o)
    ltac:(lia)) as H1.
  pose proof (mem_read_nth user from (Z.to_nat (Z.of_nat cnt * iov_size c)) (Z.to_nat o)
    ltac:(lia)) as H2.
  by rewrite Hr, H2, !Z2Nat.id in H1 by lia.
Qed.

Lemma parse_bufs_data k user `{!KernelOK k user} c iovsrc iovcnt limit next s ps s' :
  filled s ps -> 0 <= iovcnt -> 0 < str_storage (args s) ->
  parse_bufs k c iovsrc iovcnt limit WRITE_DATA next s = (s', PPM_SUCCESS) ->
  iovcnt * iov_size c < STR_STORAGE_SIZE /\ exists m,
  let data := gather user c user iovsrc (Z.to_nat iovcnt) in
  let bs := Z.min (Z.of_nat (length data)) (STR_STORAGE_SIZE - iovcnt * iov_size c - 1) in
  if (0 <? limit) && (0 <? iovcnt) then
    exists tb, 0 < tb /\ mem_read m tb (Z.to_nat bs) = take (Z.to_nat bs) data /\
      push k tb bs false 0 next
        (set_kmem (set_args s
           (set_enforce_snaplen (set_fd (args s) (s32 (sock_arg k (args s) 0))) true)) m)
      = (s', PPM_SUCCESS)
  else pushv k 0 next (set_kmem s m) = (s', PPM_SUCCESS).
Proof.
  intros F Hcnt Hst E. pose proof (iov_size_pos c) as Hsz.
  unfold parse_bufs in E. cbv zeta in E. unfold STR_STORAGE_SIZE in *.
  case_in E; [unfold fail in E; discriminate E|]. bool_to_prop.
  assert (iov_size c <= 16) by (by destruct c).
  rewrite (u64_small (iovcnt * _)) in E by nia.
  case_in E; [unfold fail in E; discriminate E|]. bool_to_prop. split; [lia|].
  unfold with_state, copy_in in E. destruct (ppm_copy_from_user _ _ _ _ _) as [m1 nr] eqn:Ec.
  case_in E; [|discriminate E]. bool_to_prop.
  apply (copied_array k user c _ _ _ _ _ _ (Z.to_nat iovcnt)) in Ec as Hg; [|nia|done].
  change (has_flag WRITE_DATA PRB_FLAG_PUSH_SIZE) with false in E.
  change (has_flag WRITE_DATA PRB_FLAG_PUSH_DATA) with true in E.
  change (has_flag WRITE_DATA PRB_FLAG_IS_WRITE) with true in E. cbn match in E.
  destruct ((0 <? limit) && (0 <? iovcnt))%bool eqn:Hg0; [|by exists m1].
  apply andb_true_iff in Hg0 as [Hl Hn]. bool_to_prop.
  rewrite u32_small in E by nia. unfold assign at 1 in E. cbn [kmem set_kmem set_args] in E.
  destruct (merge_bufs _ _ _ _ _ _ _ _ _ _) as [m [bs|]] eqn:Em; [|discriminate E].
  apply (merge_bufs_spec k user) in Em as [Hbs Hrd]; unfold gather_cap, STR_STORAGE_SIZE;
    [|nia|nia|done|nia].
  rewrite Hg in Hbs, Hrd. rewrite Z.sub_0_r, Z.add_0_r in Hrd. unfold gather_cap in Hbs.
  exists m. cbv zeta. exists (str_storage (args s) + iovcnt * iov_size c). split; [nia|].
  replace (Z.min _ (4096 - _ - 1)) with bs by lia. split; [exact Hrd|exact E].
Qed.

(** The data parameter of a write event. *)
Lemma bytebuf_encoding k user s val n :
  pi_type (event_param (event_type (args s)) (curarg (args s))) = PT_BYTEBUF ->
  enforce_snaplen (args s) = true -> 0 < val -> 0 <= n < 2 ^ 32 ->
  val_encoding k user s val n false 0
  = mem_read (kmem s) val
      (Z.to_nat (Z.min n (compute_snaplen k (args s) (kmem s) val n))).
Proof.
  intros Ht He Hv Hn. unfold val_encoding, param_alternative. rewrite Ht.
  cbn [param_encoding]. assert (val =? 0 = false) as -> by lia. unfold captured_len.
  by rewrite He, u32_small by lia.
Qed.

(** A gathered buffer as the next parameter. *)
Lemma push_gathered k user `{!KernelOK k user} s s' ps m tb f bs data :
  filled s ps -> pi_type (event_param (event_type (args s)) (curarg (args s))) = PT_BYTEBUF ->
  0 < tb -> 0 <= bs < 2 ^ 32 -> bs <= Z.of_nat (length data) ->
  mem_read m tb (Z.to_nat bs) = take (Z.to_nat bs) data ->
  push k tb bs false 0 add_sentinel
    (set_kmem (set_args s (set_enforce_snaplen (set_fd (args s) f) true)) m) = (s', PPM_SUCCESS) ->
  let bytes := take (Z.to_nat bs) data in
  let cut := compute_snaplen k (set_fd (args s) f) (mem_write mem_zero 0 bytes) 0 bs in
  filled s' (ps ++ [take (Z.to_nat cut) bytes]).
Proof.
  intros F Ht Htb Hbs Hle Hrd Hp bytes. set (s2 := set_kmem _ m) in Hp.
  assert (F2 : filled s2 ps) by (eapply filled_same_area; [exact F|..]; done).
  apply (push_success k user _ _ _ _ _ _ _ _ F2) in Hp as (s3 & F3 & _ & _ & E3).
  injection E3 as <-. rewrite bytebuf_encoding in F3; [|exact Ht|done|lia|lia].
  change (kmem s2) with m in F3. intros cut.
  assert (Hcut : compute_snaplen k (args s2) m tb bs = cut).
  { apply (compute_snaplen_ext k (set_fd (args s) f)). intros i Hi.
    apply (mem_read_pointwise _ _ _ _ bs); [done|]. rewrite Hrd. fold bytes.
    rewrite <- (mem_read_write_same mem_zero 0 bytes) at 1. f_equal.
    unfold bytes. rewrite length_take. lia. }
  rewrite Hcut, (mem_read_prefix m tb (Z.to_nat bs)), Hrd, take_take in F3 by lia.
  unfold bytes. rewrite take_take.
  replace (Z.to_nat cut `min` Z.to_nat bs)%nat
    with (Z.to_nat (Z.min bs cut) `min` Z.to_nat bs)%nat by lia. exact F3.
Qed.

(** A buffer parameter of which nothing is recorded. *)
Lemma push_no_buffer k user `{!KernelOK k user} s s' ps m :
  filled s ps -> pi_type (event_param (event_type (args s)) (curarg (args s))) = PT_BYTEBUF ->
  pushv k 0 add_sentinel (set_kmem s m) = (s', PPM_SUCCESS) -> filled s' (ps ++ [[]]).
Proof.
  intros F Ht Hp. set (s2 := set_kmem s m) in Hp.
  assert (F2 : filled s2 ps) by (eapply filled_same_area; [exact F|..]; done).
  apply (push_success k user _ _ _ _ _ _ _ _ F2) in Hp as (s3 & F3 & _ & _ & E3).
  injection E3 as <-. replace (val_encoding _ _ _ _ _ _ _) with ([] : list byte) in F3; [done|].
  unfold val_encoding, param_alternative. change (args s2) with (args s). by rewrite Ht.
Qed.

(** The data a [writev] on the vector of [s] is to record: the gathered bytes
    that fit the page, cut where [compute_snaplen], which may look at the
    addresses of the socket and at the data, says. *)
Definition writev_data (k : kenv) (user : mem) (s : fstate) : list byte :=
  let a := args s in
  let c := compat a in
  let array := if c then compat_ptr (sc_arg k 1) else sc_arg k 1 in
  let data := gather user c user array (Z.to_nat (sc_arg k 2)) in
  let room := STR_STORAGE_SIZE - sc_arg k 2 * iov_size c - 1 in
  let bs := Z.min (Z.of_nat (length data)) room in
  let bytes := take (Z.to_nat bs) data in
  let cut := compute_snaplen k (set_fd a (s32 (sock_arg k a 0))) (mem_write mem_zero 0 bytes) 0 bs in
  if 0 <? snaplen (consumer a) then take (Z.to_nat cut) bytes else [].

(** C7: the exit event of a [writev] or [pwritev], when it is recorded, holds
    the result and a prefix of the concatenation of the caller's buffers, cut at
    what the vector leaves of the string page and at the snaplen of the consumer,
    fixed or computed from the ports and the data, for native and for 32 bit
    callers. *)
Theorem writev_records_gathered (k : kenv) (user : mem) (s s' : fstate) :
  KernelOK k user -> filled s [] ->
  event_type (args s) = PPME_SYSCALL_WRITEV_X \/ event_type (args s) = PPME_SYSCALL_PWRITEV_X ->
  0 < str_storage (args s) -> 0 <= sc_arg k 2 ->
  f_sys_writev_pwritev_x k s = (s', PPM_SUCCESS) ->
  filled s' [le64 (syscall_retval k); writev_data k user s].
Proof.
  intros HK F Hty Hst Hcnt E. unfold writev_data. set (c := compat (args s)) in *.
  set (array := if c then _ else _). unfold f_sys_writev_pwritev_x, pushv in E.
  apply (push_success k user _ _ _ _ _ _ [] _ F) in E as (s1 & F1 & Hk1 & (cu & o & z & Ha) & E).
  pose proof (filled_curarg _ _ F) as Hc0. pose proof (filled_curarg _ _ F1) as Hc1.
  rewrite (val_encoding_number _ _ _ _ 8) in F1; [|by destruct Hty as [-> | ->]; rewrite Hc0|done].
  assert (E' : parse_bufs k c array (sc_arg k 2) (the_snaplen s1) WRITE_DATA add_sentinel s1
               = (s', PPM_SUCCESS)).
  { unfold parse_user_bufs, with_state in E. rewrite Ha in E. cbn [compat set_cursor] in E.
    unfold array. fold c in E |- *. destruct c; exact E. }
  clear E. assert (Hsn : the_snaplen s1 = snaplen (consumer (args s))).
  { unfold the_snaplen. by rewrite Ha. }
  apply (parse_bufs_data k user c _ _ _ _ _ _ _ F1) in E' as [Hsize [m Hp]];
    [|done|by rewrite Ha]. cbv zeta in Hp |- *. rewrite Hsn in Hp.
  set (data := gather _ _ _ _ _) in *. set (bs := Z.min _ _) in *.
  assert (Ht : pi_type (event_param (event_type (args s1)) (curarg (args s1))) = PT_BYTEBUF).
  { rewrite Hc1, Ha. cbn [event_type set_cursor]. by destruct Hty as [-> | ->]. }
  destruct ((0 <? snaplen _) && (0 <? sc_arg k 2))%bool eqn:Hg.
  - apply andb_true_iff in Hg as [-> Hn]. bool_to_prop. destruct Hp as (tb & Htb & Hrd & Hp).
    pose proof (iov_size_pos c) as Hsz. unfold STR_STORAGE_SIZE in *.
    apply (push_gathered k user s1 s' _ m tb _ bs data F1 Ht Htb) in Hp;
      [|unfold bs; nia|unfold bs; lia|exact Hrd]. rewrite Ha in Hp. exact Hp.
  - apply (push_no_buffer k user s1 s' _ m F1 Ht) in Hp.
    destruct (0 <? snaplen _); [|exact Hp]. cbn [andb] in Hg. bool_to_prop.
    unfold data. replace (Z.to_nat (sc_arg k 2)) with 0%nat by lia. cbn [gather].
    rewrite !take_nil. exact Hp.
Qed.

(** Two buffers of four and six bytes. *)
Definition writev_memory : mem :=
  mem_write (mem_write mem_zero 4096 (le64 8192 ++ le64 4 ++ le64 8204 ++ le64 6))
    8192 [x61; x62; x63; x64; x00; x00; x00; x00; x00; x00; x00; x00; x65; x66; x67; x68; x69; x6a].

Definition writev_kernel : kenv := kenv_of writev_memory [3; 4096; 2; 0] 10.

Lemma sample_writev_res :
  snd (f_sys_writev_pwritev_x writev_kernel (sample_state PPME_SYSCALL_WRITEV_X 1000))
  = PPM_SUCCESS.
Proof. vm_compute. reflexivity. Qed.

Lemma writev_records_gathered_witness :
  filled (fst (f_sys_writev_pwritev_x writev_kernel (sample_state PPME_SYSCALL_WRITEV_X 1000)))
    [le64 10; [x61; x62; x63; x64; x65; x66; x67; x68; x69; x6a]].
Proof.
  refine (writev_records_gathered writev_kernel writev_memory
    (sample_state PPME_SYSCALL_WRITEV_X 1000) _ (kenv_of_ok _ _ _) _ _ _ _ _).
  - apply sample_filled; vm_compute; congruence.
  - by left.
  - reflexivity.
  - by vm_compute.
  - exact (pair_with_snd _ _ sample_writev_res).
Defined.
