(* ===== verification/Ring.v ===== *)
(** * The ring writer: [driver/main.c]

    One per-CPU ring of one consumer: the event header, the free space
    computation, the filler call, the wrap-around copy and the publication of
    the new head ([record_event_consumer]), with the dropping mode that decides
    whether an event is recorded at all.

    [record_event_consumer] reads the consumer's tail once and publishes its own head once;
    the model keeps these moments apart ([ring_write] works on a snapshot of the
    tail, [ring_commit] publishes) so that a reader can move in between. *)

From Stdlib Require Import ZArith Lia List Bool.
From Stdlib Require Import Strings.Byte.
From stdpp Require Import base tactics list numbers option.
From S2P Require Import Prelude Bytes EventDefs EventTable FillerTable.
From S2P Require Import ValToRing ValToRingSpec Fillers.
Import ListNotations.
Local Open Scope Z_scope.

Definition RING_BUF_SIZE : Z := 8 * 1024 * 1024.
Definition PAGE_SIZE : Z := 4096.
(** The allocation of [init_ring_buffer]. *)
Definition ring_alloc : Z := RING_BUF_SIZE + 2 * PAGE_SIZE.
Definition sizeof_ppm_evt_hdr : Z := 26.
#[global] Arguments RING_BUF_SIZE : simpl never.
#[global] Arguments ring_alloc : simpl never.

(** [struct ppm_ring_buffer_info] *)
Record ppm_ring_buffer_info : Type := mk_info {
  head : Z;
  tail : Z;
  n_evts : Z;
  n_drops_buffer : Z;
  n_drops_pf : Z;
  n_preemptions : Z;
  n_context_switches : Z }.

(** [struct ppm_ring_buffer_context]; [kernel_mem] is the rest of kernel
    memory, where the string page is. *)
Record ppm_ring_buffer_context : Type := mk_ring {
  cpu_online : bool;
  open_ : bool;
  capture_enabled : bool;
  info : ppm_ring_buffer_info;
  ring_buffer : mem;
  last_print_time : Z;
  ring_nevents : Z;
  preempt_count : Z;
  ring_str_storage : Z;
  kernel_mem : mem }.

(** [struct ppm_consumer_t], less its rings. *)
Record ppm_consumer : Type := mk_consumer {
  cs_cfg : consumer_cfg;
  sampling_ratio : Z;
  sampling_interval : Z;
  is_dropping : Z;
  dropping_mode : Z;
  need_to_insert_drop_e : Z;
  need_to_insert_drop_x : Z }.

(** [struct siginfo]: the fields the driver reads. *)
Record siginfo : Type := mk_siginfo {
  si_code : Z;
  si_pid : Z;
  kill_pid : Z;
  sigchld_pid : Z;
  rt_pid : Z }.

(** The union of [struct event_data_t]. *)
Inductive event_info : Type :=
| syscall_data (regs : bool) (id : Z) (codes : Z -> Z)
| context_data (prev next : Z)
| signal_data (sig : Z) (si : option siginfo)
| other_data.

Record event_data_t : Type := mk_event_data {
  ed_category : Z;
  ed_socketcall_syscall : Z;
  ed_compat : bool;
  ed_info : event_info }.

(** [struct event_data_t event_data = {0}] *)
Definition zero_event_data : event_data_t := mk_event_data 0 0 false other_data.

(** ** Socketcall. *)

Definition nas_counts : list Z :=
  [0; 3; 3; 3; 2; 3; 3; 3; 4; 4; 4; 6; 6; 2; 5; 5; 3; 3; 4; 5; 4].

Definition nas (id : Z) : Z := nth (Z.to_nat id) nas_counts 0 * 8.
Definition compat_nas (id : Z) : Z := nth (Z.to_nat id) nas_counts 0 * 4.

Definition socketcall_event (id : Z) : Z :=
  nth (Z.to_nat id)
    [PPME_GENERIC_E; PPME_SOCKET_SOCKET_E; PPME_SOCKET_BIND_E; PPME_SOCKET_CONNECT_E;
     PPME_SOCKET_LISTEN_E; PPME_SOCKET_ACCEPT_5_E; PPME_SOCKET_GETSOCKNAME_E;
     PPME_SOCKET_GETPEERNAME_E; PPME_SOCKET_SOCKETPAIR_E; PPME_SOCKET_SEND_E;
     PPME_SOCKET_RECV_E; PPME_SOCKET_SENDTO_E; PPME_SOCKET_RECVFROM_E;
     PPME_SOCKET_SHUTDOWN_E; PPME_SOCKET_SETSOCKOPT_E; PPME_SOCKET_GETSOCKOPT_E;
     PPME_SOCKET_SENDMSG_E; PPME_SOCKET_RECVMSG_E; PPME_SOCKET_ACCEPT4_5_E;
     PPME_SOCKET_RECVMMSG_E; PPME_SOCKET_SENDMMSG_E] PPME_GENERIC_E.

(** The six words of an argument array in memory. *)
Definition array_words (m : mem) (width : nat) : list Z :=
  map (fun j => le_val (mem_read m (Z.of_nat (j * width)) width)) (seq 0 6).

Definition words_array (ws : list Z) : mem := mem_write mem_zero 0 (concat (map le64 ws)).

(** [parse_socketcall]: the event type and the argument array.  The native
    copy lands in the array itself, the compat one in a local array. *)
Definition parse_socketcall (k : kenv) (compat_ : bool) : Z * list Z :=
  let socketcall_id := s32 (sc_arg k 0) in
  let stale := stale_socketcall_args k in
  if (socketcall_id <? 1) || (20 <? socketcall_id) then (PPME_GENERIC_E, stale)
  else if compat_ then
    let '(m, notread) :=
      ppm_copy_from_user k (mem_write mem_zero 0 (uninit k)) 0 (compat_ptr (sc_arg k 1))
        (compat_nas socketcall_id) in
    if negb (notread =? 0) then (PPME_GENERIC_E, stale)
    else (socketcall_event socketcall_id, array_words m 4)
  else
    let '(m, notread) :=
      ppm_copy_from_user k (words_array stale) 0 (sc_arg k 1) (nas socketcall_id) in
    (if negb (notread =? 0) then PPME_GENERIC_E else socketcall_event socketcall_id,
     array_words m 8).

(** ** Recording one event. *)

Definition SIGHUP : Z := 1.
Definition SIGINT : Z := 2.
Definition SIGQUIT : Z := 3.
Definition SIGKILL : Z := 9.
Definition SIGTERM : Z := 15.
Definition SIGCHLD : Z := 17.
Definition SIGTSTP : Z := 20.
Definition SIGRTMIN : Z := 32.
Definition SIGRTMAX : Z := 64.

(** [args.spid] of a signal event. *)
Definition signal_spid (k : kenv) (sig : Z) (si : option siginfo) : Z :=
  match si with
  | None => 0
  | Some i =>
      if sig =? SIGKILL then kill_pid i
      else if (sig =? SIGTERM) || (sig =? SIGHUP) || (sig =? SIGINT) || (sig =? SIGTSTP)
           || (sig =? SIGQUIT)
      then if si_code i <=? 0 then si_pid i else stale_spid k
      else if sig =? SIGCHLD then sigchld_pid i
      else if (SIGRTMIN <=? sig) && (sig <=? SIGRTMAX) then rt_pid i
      else 0
  end.

(** Free space between the head and a snapshot of the tail, and the room up to
    the end of the allocation. *)
Definition freespace (head_ ttail : Z) : Z :=
  if head_ <? ttail then u32 (ttail - head_ - 1)
  else u32 (RING_BUF_SIZE + ttail - head_ - 1).

Definition usedspace (free : Z) : Z := u32 (RING_BUF_SIZE - free - 1).

Definition delta_from_end (head_ : Z) : Z := u32 (RING_BUF_SIZE + 2 * PAGE_SIZE - head_ - 1).

(** The event type after the socketcall patch, with the socketcall arguments. *)
Definition effective_event (k : kenv) (ed : event_data_t) (t : Z) : Z * (bool * list Z) :=
  match ed_info ed with
  | syscall_data true id _ =>
      if (ed_category ed =? PPMC_SYSCALL) && (id =? ed_socketcall_syscall ed) then
        let '(tet, ws) := parse_socketcall k (ed_compat ed) in
        ((if t =? PPME_GENERIC_E then tet else tet + 1), (true, ws))
      else (t, (false, stale_socketcall_args k))
  | _ => (t, (false, stale_socketcall_args k))
  end.

(** The argument record handed to the filler. *)
Definition filler_args (k : kenv) (c : consumer_cfg) (rb : ppm_ring_buffer_context)
    (ed : event_data_t) (t : Z) (sock : bool * list Z) (ttail : Z) : event_filler_arguments :=
  let h := head (info rb) in
  let nargs_ := ei_nparams (g_event_info t) in
  let off := nargs_ * 2 in
  let size := u32 (Z.min (freespace h ttail) (delta_from_end h) - sizeof_ppm_evt_hdr) in
  let syscall := ed_category ed =? PPMC_SYSCALL in
  {| consumer := c;
     buffer := h + sizeof_ppm_evt_hdr;
     buffer_size := size;
     syscall_id := match ed_info ed with
                   | syscall_data _ id _ => if syscall then u32 id else u32 (-1)
                   | _ => u32 (-1) end;
     nevents := ring_nevents rb;
     curarg := 0;
     nargs := nargs_;
     arg_data_offset := off;
     arg_data_size := u32 (size - off);
     event_type := t;
     str_storage := ring_str_storage rb;
     socketcall_args := snd sock;
     is_socketcall := fst sock;
     compat := if syscall then ed_compat ed else false;
     fd := stale_fd k;
     enforce_snaplen := false;
     signo := match ed_info ed with
              | signal_data sig _ => if ed_category ed =? PPMC_SIGNAL then sig else 0
              | _ => 0 end;
     spid := match ed_info ed with
             | signal_data sig si =>
                 if ed_category ed =? PPMC_SIGNAL then signal_spid k sig si else 0
             | _ => 0 end;
     dpid := current_pid k;
     sched_prev := match ed_info ed with
                   | context_data p _ => if ed_category ed =? PPMC_CONTEXT_SWITCH then p else 0
                   | _ => 0 end;
     sched_next := match ed_info ed with
                   | context_data _ n => if ed_category ed =? PPMC_CONTEXT_SWITCH then n else 0
                   | _ => 0 end;
     socketcall_syscall := ed_socketcall_syscall ed;
     code_routing_table := match ed_info ed with
                           | syscall_data _ _ codes => codes
                           | _ => fun _ => 0 end |}.

(** The header fields written before the filler runs; [len] comes after. *)
Definition write_header (m : mem) (h ns tid t nparams : Z) : mem :=
  mem_write
    (mem_write
       (mem_write (mem_write m h (le64 ns)) (h + 8) (le64 tid))
       (h + 20) (le16 t))
    (h + 22) (le32 nparams).

(** What the write phase decided. *)
Record outcome : Type := mk_outcome {
  oc_drop : bool;
  oc_next : Z;
  oc_cbres : Z;
  oc_used : Z }.

Definition set_mem (rb : ppm_ring_buffer_context) (m km : mem) : ppm_ring_buffer_context :=
  mk_ring (cpu_online rb) (open_ rb) (capture_enabled rb) (info rb) m (last_print_time rb)
    (ring_nevents rb) (preempt_count rb) (ring_str_storage rb) km.

Definition set_info (rb : ppm_ring_buffer_context) (i : ppm_ring_buffer_info) :
    ppm_ring_buffer_context :=
  mk_ring (cpu_online rb) (open_ rb) (capture_enabled rb) i (ring_buffer rb)
    (last_print_time rb) (ring_nevents rb) (preempt_count rb) (ring_str_storage rb)
    (kernel_mem rb).

Definition add_preempt (rb : ppm_ring_buffer_context) (d : Z) : ppm_ring_buffer_context :=
  mk_ring (cpu_online rb) (open_ rb) (capture_enabled rb) (info rb) (ring_buffer rb)
    (last_print_time rb) (ring_nevents rb) (s32 (preempt_count rb + d))
    (ring_str_storage rb) (kernel_mem rb).

(** The filler callbacks of [g_ppm_events]: [fillers] gives the function of
    each filler id. *)
Definition filler_callback (fillers : ppm_filler_id -> filler) (t : Z) : option filler :=
  match g_ppm_events t with
  | Some e => Some (fillers (filler_id e))
  | None => None
  end.

(** From the free space computation to the wrap-around copy. *)
Definition ring_write (k : kenv) (fillers : ppm_filler_id -> filler) (c : consumer_cfg)
    (rb : ppm_ring_buffer_context) (ttail : Z) (t ns : Z) (ed : event_data_t) :
    ppm_ring_buffer_context * outcome :=
  let h := head (info rb) in
  let free := freespace h ttail in
  let used := usedspace free in
  let '(t, sock) := effective_event k ed t in
  let nargs_ := ei_nparams (g_event_info t) in
  if free <? sizeof_ppm_evt_hdr + nargs_ * 2
  then (rb, mk_outcome true h PPM_SUCCESS used)
  else
    let m := write_header (ring_buffer rb) h ns (current_pid k) t nargs_ in
    let s := mk_fstate (filler_args k c rb ed t sock ttail) m (kernel_mem rb) in
    let '(s', cbres) :=
      match filler_callback fillers t with
      | Some f => f s
      | None => (s, PPM_SUCCESS)
      end in
    if (cbres =? PPM_SUCCESS) && (curarg (args s') =? nargs (args s')) then
      let event_size := sizeof_ppm_evt_hdr + arg_data_offset (args s') in
      let m1 := mem_write (rmem s') (h + 16) (le32 event_size) in
      let next := h + event_size in
      if RING_BUF_SIZE <=? next then
        let m2 := if RING_BUF_SIZE <? next
                  then mem_write m1 0
                         (mem_read m1 RING_BUF_SIZE (Z.to_nat (next - RING_BUF_SIZE)))
                  else m1 in
        (set_mem rb m2 (kmem s'), mk_outcome false (next - RING_BUF_SIZE) cbres used)
      else (set_mem rb m1 (kmem s'), mk_outcome false next cbres used)
    else (set_mem rb (rmem s') (kmem s'), mk_outcome true h cbres used).

(** Counter updates of [struct ppm_ring_buffer_info]. *)
Definition inc_evts (i : ppm_ring_buffer_info) : ppm_ring_buffer_info :=
  mk_info (head i) (tail i) (u64 (n_evts i + 1)) (n_drops_buffer i) (n_drops_pf i)
    (n_preemptions i) (n_context_switches i).
Definition inc_drops_buffer (i : ppm_ring_buffer_info) : ppm_ring_buffer_info :=
  mk_info (head i) (tail i) (n_evts i) (u64 (n_drops_buffer i + 1)) (n_drops_pf i)
    (n_preemptions i) (n_context_switches i).
Definition inc_drops_pf (i : ppm_ring_buffer_info) : ppm_ring_buffer_info :=
  mk_info (head i) (tail i) (n_evts i) (n_drops_buffer i) (u64 (n_drops_pf i + 1))
    (n_preemptions i) (n_context_switches i).
Definition inc_preemptions (i : ppm_ring_buffer_info) : ppm_ring_buffer_info :=
  mk_info (head i) (tail i) (n_evts i) (n_drops_buffer i) (n_drops_pf i)
    (u64 (n_preemptions i + 1)) (n_context_switches i).
Definition inc_context_switches (i : ppm_ring_buffer_info) : ppm_ring_buffer_info :=
  mk_info (head i) (tail i) (n_evts i) (n_drops_buffer i) (n_drops_pf i)
    (n_preemptions i) (u64 (n_context_switches i + 1)).
Definition set_head (i : ppm_ring_buffer_info) (h : Z) : ppm_ring_buffer_info :=
  mk_info h (tail i) (n_evts i) (n_drops_buffer i) (n_drops_pf i)
    (n_preemptions i) (n_context_switches i).
Definition set_tail (i : ppm_ring_buffer_info) (t : Z) : ppm_ring_buffer_info :=
  mk_info (head i) t (n_evts i) (n_drops_buffer i) (n_drops_pf i)
    (n_preemptions i) (n_context_switches i).

Definition set_nevents (rb : ppm_ring_buffer_context) (n : Z) : ppm_ring_buffer_context :=
  mk_ring (cpu_online rb) (open_ rb) (capture_enabled rb) (info rb) (ring_buffer rb)
    (last_print_time rb) n (preempt_count rb) (ring_str_storage rb) (kernel_mem rb).

Definition set_last_print (rb : ppm_ring_buffer_context) (t : Z) : ppm_ring_buffer_context :=
  mk_ring (cpu_online rb) (open_ rb) (capture_enabled rb) (info rb) (ring_buffer rb)
    t (ring_nevents rb) (preempt_count rb) (ring_str_storage rb) (kernel_mem rb).

(** From the publication of the head to the end. *)
Definition ring_commit (rb : ppm_ring_buffer_context) (oc : outcome) (ns drop_flags : Z) :
    ppm_ring_buffer_context * Z :=
  let '(rb1, res) :=
    if oc_drop oc then
      (if (oc_cbres oc =? PPM_SUCCESS) || (oc_cbres oc =? PPM_FAILURE_BUFFER_FULL)
       then set_info rb (inc_drops_buffer (info rb))
       else if oc_cbres oc =? PPM_FAILURE_INVALID_USER_MEMORY
       then set_info rb (inc_drops_pf (info rb))
       else rb, 0)
    else
      (set_nevents (set_info rb (set_head (info rb) (u32 (oc_next oc))))
         (u32 (ring_nevents rb + 1)), 1) in
  let rb2 :=
    if (1000000000 <? u64 (ns - (last_print_time rb1 + 1))) && negb (has_flag drop_flags UF_ATOMIC)
    then set_last_print rb1 ns else rb1 in
  (rb2, res).

(** The event and context switch counters. *)
Definition count_event (i : ppm_ring_buffer_info) (t : Z) (ed : event_data_t) :
    ppm_ring_buffer_info :=
  let i1 := inc_evts i in
  match ed_info ed with
  | context_data prev _ =>
      if (ed_category ed =? PPMC_CONTEXT_SWITCH) && negb (prev =? 0)
         && negb (t =? PPME_SYSDIGEVENT_E) && negb (t =? PPME_CPU_HOTPLUG_E)
      then inc_context_switches i1 else i1
  | _ => i1
  end.

(** [record_event_consumer] from [get_cpu] on, for the ring of this CPU. *)
Definition record_on_cpu (k : kenv) (fillers : ppm_filler_id -> filler) (c : consumer_cfg)
    (rb : ppm_ring_buffer_context) (t drop_flags ns : Z) (ed : event_data_t) :
    ppm_ring_buffer_context * Z :=
  if negb (capture_enabled rb) then (rb, 0)
  else
    let rb1 := add_preempt (set_info rb (count_event (info rb) t ed)) 1 in
    if negb (preempt_count rb1 =? 1) then
      let rb2 := if negb (t =? PPME_PAGE_FAULT_E)
                 then set_info rb1 (inc_preemptions (info rb1)) else rb1 in
      (add_preempt rb2 (-1), 0)
    else
      let '(rb2, oc) := ring_write k fillers c rb1 (tail (info rb1)) t ns ed in
      let '(rb3, res) := ring_commit rb2 oc ns drop_flags in
      (add_preempt rb3 (-1), res).

(** ** Dropping mode. *)

Definition F_DUPFD : Z := 0.
Definition F_DUPFD_CLOEXEC : Z := 1030.

Definition drop_nostate_event (k : kenv) (t : Z) : bool :=
  if (t =? PPME_SYSCALL_CLOSE_X) || (t =? PPME_SOCKET_BIND_X) then syscall_retval k <? 0
  else if t =? PPME_SYSCALL_CLOSE_E then
    let close_fd := s32 (sc_arg k 0) in
    (close_fd <? 0) || (max_fds k <=? close_fd) || negb (fd_is_open k close_fd)
  else if (t =? PPME_SYSCALL_FCNTL_E) || (t =? PPME_SYSCALL_FCNTL_X) then
    negb (sc_arg k 1 =? F_DUPFD) && negb (sc_arg k 1 =? F_DUPFD_CLOEXEC)
  else false.

Definition set_is_dropping (c : ppm_consumer) (v : Z) : ppm_consumer :=
  mk_consumer (cs_cfg c) (sampling_ratio c) (sampling_interval c) v (dropping_mode c)
    (need_to_insert_drop_e c) (need_to_insert_drop_x c).
Definition set_need_e (c : ppm_consumer) (v : Z) : ppm_consumer :=
  mk_consumer (cs_cfg c) (sampling_ratio c) (sampling_interval c) (is_dropping c)
    (dropping_mode c) v (need_to_insert_drop_x c).
Definition set_need_x (c : ppm_consumer) (v : Z) : ppm_consumer :=
  mk_consumer (cs_cfg c) (sampling_ratio c) (sampling_interval c) (is_dropping c)
    (dropping_mode c) (need_to_insert_drop_e c) v.

Section record.
Context (k : kenv) (fillers : ppm_filler_id -> filler) (events_mask : Z -> bool).

(** A consumer with its ring on this CPU. *)
Definition cpu_state : Type := ppm_consumer * ppm_ring_buffer_context.

(** [record_event_consumer] for the two drop events, which skip the dropping
    logic. *)
Definition record_drop_event (st : cpu_state) (t ns : Z) : cpu_state * Z :=
  let '(c, rb) := st in
  if negb (events_mask t) then (st, 0)
  else let '(rb', res) :=
         record_on_cpu k fillers (cs_cfg c) rb t UF_NEVER_DROP ns zero_event_data in
       ((c, rb'), res).

Definition record_drop_e (st : cpu_state) (ns : Z) : cpu_state :=
  let '((c, rb), res) := record_drop_event st PPME_DROP_E ns in
  (set_need_e c (if res =? 0 then 1 else 0), rb).

Definition record_drop_x (st : cpu_state) (ns : Z) : cpu_state :=
  let '((c, rb), res) := record_drop_event st PPME_DROP_X ns in
  (set_need_x c (if res =? 0 then 1 else 0), rb).

(** [drop_event] *)
Definition drop_event (st : cpu_state) (t drop_flags ns : Z) : cpu_state * bool :=
  let c := fst st in
  let mode := negb (dropping_mode c =? 0) in
  if mode && drop_nostate_event k t then (st, true)
  else if has_flag drop_flags UF_NEVER_DROP then (st, false)
  else if mode then
    if has_flag drop_flags UF_ALWAYS_DROP then (st, true)
    else if (sampling_interval c <? SECOND_IN_NS)
         && (sampling_interval c <=? ns mod SECOND_IN_NS)
    then
      if is_dropping c =? 0
      then (record_drop_e (set_is_dropping c 1, snd st) ns, true)
      else (st, true)
    else if is_dropping c =? 1
    then (record_drop_x (set_is_dropping c 0, snd st) ns, false)
    else (st, false)
  else (st, false).

Definition record_event_consumer (st : cpu_state) (t drop_flags ns : Z)
    (ed : event_data_t) : cpu_state * Z :=
  if negb (events_mask t) then (st, 0)
  else
    let '(st1, dropped) :=
      if negb (t =? PPME_DROP_E) && negb (t =? PPME_DROP_X) then
        let st0 :=
          if need_to_insert_drop_e (fst st) =? 1 then record_drop_e st ns
          else if need_to_insert_drop_x (fst st) =? 1 then record_drop_x st ns
          else st in
        drop_event st0 t drop_flags ns
      else (st, false) in
    if dropped then (st1, 0)
    else
      let '(c, rb) := st1 in
      let '(rb', res) := record_on_cpu k fillers (cs_cfg c) rb t drop_flags ns ed in
      ((c, rb'), res).
End record.
