(* ===== verification/RingSpec.v ===== *)
(** * The ring is a FIFO of event records

    The abstract view of a ring is the list of bytes not read yet, as the
    reader sees them through its double mapping.  A successful [ring_write]
    followed by [ring_commit] appends exactly one encoded event to it; anything
    else leaves it as it was; nothing is written outside the allocation. *)

From Stdlib Require Import ZArith Lia List Bool.
From Stdlib Require Import Strings.Byte.
From stdpp Require Import base tactics list numbers option.
From S2P Require Import Prelude Bytes EventDefs EventTable FillerTable.
From S2P Require Import ValToRing ValToRingSpec Fillers AllFillers Ring.
Import ListNotations.
Local Open Scope Z_scope.

(** ** Reading through the double mapping. *)

Definition rread (m : mem) (a : Z) (n : nat) : list byte :=
  map (fun i => m ((a + Z.of_nat i) mod RING_BUF_SIZE)) (seq 0 n).

(** Bytes between a tail and a head. *)
Definition ring_used (h t : Z) : Z := (h - t) mod RING_BUF_SIZE.

Definition unread (rb : ppm_ring_buffer_context) : list byte :=
  rread (ring_buffer rb) (tail (info rb)) (Z.to_nat (ring_used (head (info rb)) (tail (info rb)))).

Definition info_wf (i : ppm_ring_buffer_info) : Prop :=
  0 <= head i < RING_BUF_SIZE /\ 0 <= tail i < RING_BUF_SIZE.

(** The bytes of an event record. *)
Definition event_bytes (ns tid t : Z) (ps : list (list byte)) : list byte :=
  let n := Z.of_nat (length ps) in
  le64 ns ++ le64 tid ++ le32 (sizeof_ppm_evt_hdr + 2 * n + zsum (lens ps)) ++ le16 t
  ++ le32 n ++ concat (map (fun p => le16 (Z.of_nat (length p))) ps) ++ concat ps.

#[global] Arguments event_bytes : simpl never.

Lemma length_rread m a n : length (rread m a n) = n.
Proof. unfold rread. by rewrite length_map, length_seq. Qed.

Lemma rread_ext m1 m2 a n :
  (forall i, 0 <= i < Z.of_nat n ->
     m1 ((a + i) mod RING_BUF_SIZE) = m2 ((a + i) mod RING_BUF_SIZE)) ->
  rread m1 a n = rread m2 a n.
Proof.
  intros H. apply map_ext_in. intros i Hi. apply in_seq in Hi. apply H. lia.
Qed.

Lemma rread_app m a n k :
  rread m a (n + k) = rread m a n ++ rread m (a + Z.of_nat n) k.
Proof.
  unfold rread. rewrite seq_app, map_app. f_equal.
  replace (0 + n)%nat with (n + 0)%nat by lia. rewrite <- fmap_add_seq.
  change (Nat.add n <$> seq 0 k) with (map (Nat.add n) (seq 0 k)).
  rewrite map_map. apply map_ext. intros i. f_equal. f_equal. lia.
Qed.

Lemma rread_mod m a n : rread m (a mod RING_BUF_SIZE) n = rread m a n.
Proof.
  unfold rread. apply map_ext. intros i. f_equal. apply Zplus_mod_idemp_l.
Qed.

(** Reading a range that was laid out contiguously and then wrapped. *)
Lemma rread_mem_read m m' a n :
  (forall i, 0 <= i < Z.of_nat n -> m' ((a + i) mod RING_BUF_SIZE) = m (a + i)) ->
  rread m' a n = mem_read m a n.
Proof.
  revert a; induction n as [|n IH]; intros a H; [done|].
  change (S n) with (1 + n)%nat. rewrite rread_app. cbn [mem_read Nat.add].
  change (rread m' a 1) with [m' ((a + 0) mod RING_BUF_SIZE)]. cbn [app]. f_equal.
  - rewrite (H 0) by lia. f_equal. lia.
  - apply IH. intros i Hi. rewrite <- Z.add_assoc. apply H. lia.
Qed.

(** Cyclic arithmetic, by cases, in a form [lia] reads. *)
Lemma ring_used_cases h t :
  0 <= h < RING_BUF_SIZE -> 0 <= t < RING_BUF_SIZE ->
  ring_used h t = if t <=? h then h - t else RING_BUF_SIZE + h - t.
Proof.
  intros Hh Ht. unfold ring_used. case_if.
  - apply Z.mod_small. lia.
  - symmetry. apply (Z.mod_unique _ _ (-1)); lia.
Qed.

Lemma ring_mod_cases x :
  0 <= x < 2 * RING_BUF_SIZE ->
  x mod RING_BUF_SIZE = if x <? RING_BUF_SIZE then x else x - RING_BUF_SIZE.
Proof.
  intros Hx. case_if.
  - apply Z.mod_small. lia.
  - symmetry. apply (Z.mod_unique _ _ 1); lia.
Qed.

Lemma freespace_cases h t :
  0 <= h < RING_BUF_SIZE -> 0 <= t < RING_BUF_SIZE ->
  freespace h t = RING_BUF_SIZE - 1 - ring_used h t.
Proof.
  intros Hh Ht. rewrite ring_used_cases by done. unfold freespace, RING_BUF_SIZE in *.
  repeat case_if; bool_to_prop; rewrite u32_small; lia.
Qed.

Lemma delta_cases h :
  0 <= h < RING_BUF_SIZE -> delta_from_end h = ring_alloc - h - 1.
Proof.
  intros Hh. unfold delta_from_end, ring_alloc, RING_BUF_SIZE, PAGE_SIZE in *.
  rewrite u32_small; lia.
Qed.

(** ** The layout of a complete event in memory. *)

Lemma mem_read_le16 m a v : ld16 m a = v -> mem_read m a 2 = le16 v.
Proof.
  intros <-. unfold ld16, le16. change 2%nat with (length (mem_read m a 2)) at 2.
  by rewrite le_bytes_val.
Qed.

Lemma read_length_array m b (ps : list (list byte)) :
  (forall i p, nth_error ps i = Some p -> ld16 m (b + 2 * Z.of_nat i) = Z.of_nat (length p)) ->
  mem_read m b (2 * length ps) = concat (map (fun p => le16 (Z.of_nat (length p))) ps).
Proof.
  revert b; induction ps as [|p ps IH]; intros b H; [done|].
  replace (2 * length (p :: ps))%nat with (2 + 2 * length ps)%nat by (simpl; lia).
  rewrite mem_read_app. cbn [map concat]. f_equal.
  - apply mem_read_le16. rewrite <- (H 0%nat p) by done. f_equal. lia.
  - apply IH. intros i q Hq. rewrite <- (H (S i) q) by done. f_equal. lia.
Qed.

Lemma filled_layout s ps :
  filled s ps -> curarg (args s) = nargs (args s) ->
  mem_read (rmem s) (buffer (args s)) (2 * length ps + length (concat ps))
  = concat (map (fun p => le16 (Z.of_nat (length p))) ps) ++ concat ps.
Proof.
  intros F Hn. rewrite mem_read_app. f_equal.
  - apply read_length_array, (filled_lens _ _ F).
  - rewrite <- (filled_data _ _ F) at 2. f_equal.
    rewrite <- Hn, (filled_curarg _ _ F). lia.
Qed.

(** The header, once [len] is written. *)
Lemma header_layout m m' h ns tid t n len :
  (forall x, h <= x < h + 26 -> m' x = write_header m h ns tid t n x) ->
  mem_read (mem_write m' (h + 16) (le32 len)) h 26
  = le64 ns ++ le64 tid ++ le32 len ++ le16 t ++ le32 n.
Proof.
  intros H. transitivity (mem_read (mem_write (write_header m h ns tid t n) (h + 16) (le32 len)) h 26).
  { apply mem_read_ext. intros x Hx. unfold mem_write at 1 2. case_if; [done|]. apply H. lia. }
  unfold write_header, le64, le32, le16.
  change 26%nat with (8 + (8 + (4 + (2 + 4))))%nat. rewrite !mem_read_app.
  rewrite <- !Z.add_assoc. change (Z.of_nat 8 + (Z.of_nat 8 + (Z.of_nat 4 + Z.of_nat 2))) with 22.
  change (Z.of_nat 8 + (Z.of_nat 8 + Z.of_nat 4)) with 20.
  change (Z.of_nat 8 + Z.of_nat 8) with 16. change (Z.of_nat 8) with 8.
  f_equal; [|f_equal; [|f_equal; [|f_equal]]];
    repeat (rewrite mem_read_write_out by (rewrite length_le_bytes; lia));
    by apply mem_read_write_le.
Qed.

Lemma write_header_out m h ns tid t n x :
  x < h \/ h + 26 <= x -> write_header m h ns tid t n x = m x.
Proof.
  intros Hx. unfold write_header, le64, le32, le16.
  rewrite !mem_write_out; rewrite ?length_le_bytes; auto; lia.
Qed.

Lemma event_length ns tid t ps :
  Z.of_nat (length (event_bytes ns tid t ps))
  = sizeof_ppm_evt_hdr + 2 * Z.of_nat (length ps) + zsum (lens ps).
Proof.
  unfold event_bytes, le64, le32, le16. rewrite !length_Z_app, !length_le_bytes.
  rewrite (length_concat_lens ps).
  assert (Hl : Z.of_nat (length (concat (map (fun p : list byte => le_bytes 2 (Z.of_nat (length p))) ps)))
               = 2 * Z.of_nat (length ps)).
  { induction ps as [|p ps IH]; [done|]. cbn [map concat].
    rewrite length_Z_app, IH, length_le_bytes. simpl length. lia. }
  unfold sizeof_ppm_evt_hdr. lia.
Qed.

(** An event whose header and parameters are complete, as one range. *)
Lemma event_layout s ps m0 h ns tid t :
  filled s ps -> curarg (args s) = nargs (args s) -> buffer (args s) = h + 26 ->
  (forall x, h <= x < h + 26 -> rmem s x = write_header m0 h ns tid t (nargs (args s)) x) ->
  let ev := event_bytes ns tid t ps in
  mem_read (mem_write (rmem s) (h + 16) (le32 (sizeof_ppm_evt_hdr + arg_data_offset (args s))))
    h (length ev) = ev.
Proof.
  intros F Hc Hb Hh ev.
  pose proof (filled_curarg _ _ F) as Hca. pose proof (filled_offset _ _ F) as Ho.
  pose proof (event_length ns tid t ps) as Hl. fold ev in Hl.
  pose proof (length_concat_lens ps) as Hcl.
  replace (length ev) with (26 + (2 * length ps + length (concat ps)))%nat
    by (unfold sizeof_ppm_evt_hdr in *; lia).
  rewrite mem_read_app, (header_layout m0 _ h ns tid t (nargs (args s))) by done.
  rewrite mem_read_write_out by (unfold le32; rewrite length_le_bytes; lia).
  replace (h + Z.of_nat 26) with (buffer (args s)) by lia.
  rewrite filled_layout by done. unfold ev, event_bytes.
  rewrite <- Hc, Hca, Ho, <- Hc, Hca, Z.add_assoc, <- !app_assoc. done.
Qed.

(** ** The write phase. *)

(** Everything but the two memories is kept. *)
Definition same_ring (rb rb' : ppm_ring_buffer_context) : Prop :=
  rb' = set_mem rb (ring_buffer rb') (kernel_mem rb').

(** What a write phase that started at head [h] with tail snapshot [tt]
    guarantees. *)
Record write_ok (k : kenv) (h tt t ns : Z) (m m' : mem) (oc : outcome) : Prop := {
  wo_alloc : forall x, x < 0 \/ ring_alloc <= x -> m' x = m x;
  wo_unread : forall i, 0 <= i < ring_used h tt ->
    m' ((tt + i) mod RING_BUF_SIZE) = m ((tt + i) mod RING_BUF_SIZE);
  wo_event : oc_drop oc = false ->
    exists ps, let ev := event_bytes ns (current_pid k) t ps in
      Z.of_nat (length ps) = ei_nparams (g_event_info t) /\
      oc_next oc = (h + Z.of_nat (length ev)) mod RING_BUF_SIZE /\
      Z.of_nat (length ev) <= freespace h tt /\
      rread m' h (length ev) = ev }.

(** A cyclic byte that is in the range still unread. *)
Definition in_unread (h tt x : Z) : Prop :=
  0 <= x < RING_BUF_SIZE /\ (if tt <=? h then tt <= x < h else tt <= x \/ x < h).

Lemma unread_index h tt i :
  0 <= h < RING_BUF_SIZE -> 0 <= tt < RING_BUF_SIZE -> 0 <= i < ring_used h tt ->
  in_unread h tt ((tt + i) mod RING_BUF_SIZE).
Proof.
  intros Hh Ht Hi. rewrite ring_used_cases in Hi by done. unfold in_unread.
  rewrite ring_mod_cases by (destruct (tt <=? h) eqn:?; lia).
  destruct (tt <=? h) eqn:?; case_if; lia.
Qed.

(** The writable window: from the head to the reserved byte before the tail,
    or to the end of the allocation. *)
Definition window (h tt : Z) : Z := Z.min (freespace h tt) (delta_from_end h).

Lemma window_misses_unread h tt x :
  0 <= h < RING_BUF_SIZE -> 0 <= tt < RING_BUF_SIZE -> in_unread h tt x ->
  x < h \/ h + window h tt < x.
Proof.
  intros Hh Ht [Hx Hu]. unfold window. rewrite freespace_cases, ring_used_cases by done.
  destruct (tt <=? h) eqn:?; lia.
Qed.

Lemma window_in_alloc h tt x :
  0 <= h < RING_BUF_SIZE -> x < 0 \/ ring_alloc <= x -> x < h \/ h + window h tt < x.
Proof. intros Hh Hx. unfold window. rewrite delta_cases by done. lia. Qed.

Lemma window_large h tt :
  0 <= h < RING_BUF_SIZE -> 0 <= tt < RING_BUF_SIZE ->
  Z.min (freespace h tt) 8192 <= window h tt.
Proof.
  intros Hh Ht. unfold window. rewrite delta_cases by done.
  unfold ring_alloc, PAGE_SIZE. lia.
Qed.

(** Writes confined to the window, without the wrap-around copy. *)
Lemma window_write_ok k h tt t ns m m' oc :
  0 <= h < RING_BUF_SIZE -> 0 <= tt < RING_BUF_SIZE -> oc_drop oc = true ->
  (forall x, x < h \/ h + window h tt < x -> m' x = m x) ->
  write_ok k h tt t ns m m' oc.
Proof.
  intros Hh Ht Hd Hw. split; [| |congruence].
  - intros x Hx. apply Hw. by apply window_in_alloc.
  - intros i Hi. apply Hw. apply window_misses_unread; [done..|by apply unread_index].
Qed.

(** The wrap-around copy of the code: the bytes past the end of the ring are
    copied to its start. *)
Definition wrap (m : mem) (next : Z) : mem :=
  if RING_BUF_SIZE <=? next then
    if RING_BUF_SIZE <? next
    then mem_write m 0 (mem_read m RING_BUF_SIZE (Z.to_nat (next - RING_BUF_SIZE)))
    else m
  else m.

Lemma wrap_out m next x :
  x < 0 \/ next - RING_BUF_SIZE <= x -> wrap m next x = m x.
Proof.
  intros Hx. unfold wrap. repeat case_if; try done. apply mem_write_out.
  rewrite length_mem_read. lia.
Qed.

Lemma wrap_in m next x :
  0 <= x < next - RING_BUF_SIZE -> wrap m next x = m (RING_BUF_SIZE + x).
Proof.
  intros Hx. unfold wrap. case_if; [|lia]. case_if; [|lia].
  rewrite mem_write_in by (rewrite length_mem_read; lia).
  rewrite mem_read_nth by lia. f_equal. lia.
Qed.

Lemma wrapped_write_ok k h tt t ns m m1 ps next cb us :
  0 <= h < RING_BUF_SIZE -> 0 <= tt < RING_BUF_SIZE ->
  (forall x, x < h \/ h + window h tt < x -> m1 x = m x) ->
  let ev := event_bytes ns (current_pid k) t ps in
  Z.of_nat (length ps) = ei_nparams (g_event_info t) ->
  next = h + Z.of_nat (length ev) -> Z.of_nat (length ev) <= window h tt ->
  mem_read m1 h (length ev) = ev ->
  write_ok k h tt t ns m (wrap m1 next)
    (mk_outcome false (if RING_BUF_SIZE <=? next then next - RING_BUF_SIZE else next) cb us).
Proof.
  intros Hh Ht Hw ev Hn -> Hle Hrd.
  assert (Hfree : Z.of_nat (length ev) <= freespace h tt) by (unfold window in Hle; lia).
  pose proof (freespace_cases h tt Hh Ht) as Hf. rewrite ring_used_cases in Hf by done.
  split.
  - intros x Hx. rewrite wrap_out; [apply Hw; by apply window_in_alloc|].
    unfold ring_alloc, PAGE_SIZE in Hx. destruct (tt <=? h) eqn:?; lia.
  - intros i Hi. pose proof (unread_index h tt i Hh Ht Hi) as Hu.
    rewrite wrap_out; [apply Hw; by apply window_misses_unread|].
    destruct Hu as [Hx Hu]. destruct (tt <=? h) eqn:?; lia.
  - intros _. exists ps. fold ev. cbn [oc_next].
    split; [done|]. split; [|split; [done|]].
    + rewrite ring_mod_cases by (destruct (tt <=? h) eqn:?; lia). repeat case_if; lia.
    + etransitivity; [|exact Hrd]. apply rread_mem_read. intros i Hi.
      rewrite ring_mod_cases by (destruct (tt <=? h) eqn:?; lia). case_if.
      * apply wrap_out. destruct (tt <=? h) eqn:?; lia.
      * rewrite wrap_in by lia. f_equal. lia.
Qed.

Section writer.
Context (k : kenv).
Context (fillers : ppm_filler_id -> filler) `{Hfillers : !FillersOK fillers}.
Context (c : consumer_cfg) (Hsnap : 0 <= snaplen c).

Lemma filler_args_filled rb ed t sock tt m km :
  0 <= head (info rb) < RING_BUF_SIZE -> 0 <= tt < RING_BUF_SIZE ->
  sizeof_ppm_evt_hdr + ei_nparams (g_event_info t) * 2 <= freespace (head (info rb)) tt ->
  let a := filler_args k c rb ed t sock tt in
  filled (mk_fstate a m km) [] /\
  buffer_size a = window (head (info rb)) tt - sizeof_ppm_evt_hdr.
Proof.
  intros Hh Ht Hf a. set (h := head (info rb)) in *.
  pose proof (ei_nparams_range t) as Hn.
  pose proof (window_large h tt Hh Ht) as Hw.
  assert (Hwn : sizeof_ppm_evt_hdr + ei_nparams (g_event_info t) * 2 <= window h tt).
  { unfold window. rewrite delta_cases by done.
    unfold ring_alloc, PAGE_SIZE, sizeof_ppm_evt_hdr, PPM_MAX_EVENT_PARAMS in *. lia. }
  assert (Hwu : window h tt < 2 ^ 31).
  { unfold window. rewrite delta_cases by done.
    unfold ring_alloc, PAGE_SIZE, RING_BUF_SIZE. lia. }
  assert (Hsz : buffer_size a = window h tt - sizeof_ppm_evt_hdr).
  { change (buffer_size a) with (u32 (window h tt - sizeof_ppm_evt_hdr)).
    unfold sizeof_ppm_evt_hdr in *. rewrite u32_small; lia. }
  split; [|done].
  assert (Hds : arg_data_size a = buffer_size a - ei_nparams (g_event_info t) * 2).
  { change (arg_data_size a) with (u32 (buffer_size a - ei_nparams (g_event_info t) * 2)).
    rewrite Hsz. unfold sizeof_ppm_evt_hdr in *. rewrite u32_small; lia. }
  assert (Hna : nargs a = ei_nparams (g_event_info t)) by done.
  assert (Ho : arg_data_offset a = ei_nparams (g_event_info t) * 2) by done.
  assert (Hc : curarg a = 0) by done.
  split; cbn [args rmem lens map zsum foldr length concat mem_read];
    rewrite ?Hds, ?Hna, ?Ho, ?Hc, ?Hsz; unfold sizeof_ppm_evt_hdr in *; try done; try lia.
  intros [|i] p Hp; discriminate.
Qed.

(** The filler call, or its absence, on a fresh argument record. *)
Lemma callback_post t s s' r :
  event_type (args s) = t -> filled s [] ->
  match filler_callback fillers t with Some f => f s | None => (s, PPM_SUCCESS) end = (s', r) ->
  filler_post None s s' [] r.
Proof.
  intros Ht F H. destruct (filler_callback fillers t) as [f|] eqn:E.
  - unfold filler_callback in E. destruct (g_ppm_events t) eqn:He; simplify_eq.
    by eapply Hfillers.
  - simplify_eq. split; [done|]. split; [repeat split|]. intros _. exists [].
    by rewrite app_nil_r.
Qed.

(** What the memory holds once the filler returned. *)
Lemma after_filler rb ed t sock tt ns s' r :
  let h := head (info rb) in
  0 <= h < RING_BUF_SIZE -> 0 <= tt < RING_BUF_SIZE ->
  sizeof_ppm_evt_hdr + ei_nparams (g_event_info t) * 2 <= freespace h tt ->
  let nargs_ := ei_nparams (g_event_info t) in
  let m := write_header (ring_buffer rb) h ns (current_pid k) t nargs_ in
  let s := mk_fstate (filler_args k c rb ed t sock tt) m (kernel_mem rb) in
  match filler_callback fillers t with Some f => f s | None => (s, PPM_SUCCESS) end = (s', r) ->
  (forall x, x < h \/ h + window h tt < x -> rmem s' x = ring_buffer rb x) /\
  (forall x, h <= x < h + 26 -> rmem s' x = m x) /\
  buffer (args s') = h + 26 /\ nargs (args s') = nargs_ /\
  (r = PPM_SUCCESS -> exists ps, filled s' ps /\
     sizeof_ppm_evt_hdr + arg_data_offset (args s') <= window h tt).
Proof.
  intros h Hh Ht Hf nargs_ m s Hcb.
  destruct (filler_args_filled rb ed t sock tt m (kernel_mem rb) Hh Ht Hf) as [F Hbs].
  fold s in F. fold h in Hbs.
  destruct (callback_post t s s' r eq_refl F Hcb) as (Hw & (Hb & Hs & Hn & _) & Hr).
  assert (Hbuf : buffer (args s) = h + 26) by done.
  assert (Hsize : buffer_size (args s) = window h tt - 26) by exact Hbs.
  split; [|split; [|split; [|split]]].
  - intros x Hx. rewrite Hw by (rewrite Hbuf, Hsize; lia). cbn [rmem s].
    apply write_header_out.
    pose proof (ei_nparams_range t). pose proof (window_large h tt Hh Ht).
    unfold nargs_, sizeof_ppm_evt_hdr in *. lia.
  - intros x Hx. rewrite Hw by (rewrite Hbuf; lia). done.
  - by rewrite Hb.
  - by rewrite Hn.
  - intros H0. destruct (Hr H0) as (ps & F' & _). exists ps. split; [done|].
    pose proof (filled_size _ _ F'). pose proof (filled_room _ _ F').
    rewrite Hs, Hsize in *. unfold sizeof_ppm_evt_hdr. lia.
Qed.

Lemma ring_write_ok rb tt t ns ed rb' oc :
  0 <= head (info rb) < RING_BUF_SIZE -> 0 <= tt < RING_BUF_SIZE ->
  ring_write k fillers c rb tt t ns ed = (rb', oc) ->
  same_ring rb rb' /\
  write_ok k (head (info rb)) tt (fst (effective_event k ed t)) ns
    (ring_buffer rb) (ring_buffer rb') oc.
Proof.
  intros Hh Ht H. unfold ring_write in H.
  destruct (effective_event k ed t) as [t' sock] eqn:Et. cbn [fst].
  set (h := head (info rb)) in *.
  case_in H.
  { simplify_eq. split; [by destruct rb'|]. apply window_write_ok; auto. }
  set (s := mk_fstate _ _ _) in H.
  destruct (match filler_callback fillers t' with Some f => f s | None => (s, PPM_SUCCESS) end)
    as [s' cb] eqn:Ecb.
  apply after_filler in Ecb; [|done|done|fold h; lia].
  destruct Ecb as (Hout & Hhdr & Hb & Hn & Hr). fold h in Hout, Hhdr, Hb, Hr.
  case_in H; cycle 1.
  { simplify_eq. split; [done|]. apply window_write_ok; auto. }
  bool_to_prop. destruct (Hr ltac:(done)) as (ps & F & Hle).
  pose proof (event_layout s' ps (ring_buffer rb) h ns (current_pid k) t' F ltac:(done) Hb) as Hev.
  rewrite Hn in Hev. specialize (Hev Hhdr). cbv zeta in Hev.
  set (m1 := mem_write (rmem s') (h + 16) _) in *.
  set (esz := sizeof_ppm_evt_hdr + arg_data_offset (args s')) in *.
  assert (Hesz : esz = Z.of_nat (length (event_bytes ns (current_pid k) t' ps))).
  { rewrite event_length. unfold esz. rewrite (filled_offset _ _ F).
    pose proof (filled_curarg _ _ F). lia. }
  assert (Hw1 : forall x, x < h \/ h + window h tt < x -> m1 x = ring_buffer rb x).
  { intros x Hx. unfold m1. rewrite mem_write_out; [by apply Hout|].
    unfold le32. rewrite length_le_bytes. pose proof (zsum_lens_nonneg ps).
    rewrite event_length in Hesz. unfold sizeof_ppm_evt_hdr in Hesz. lia. }
  assert (Hm : (rb', oc) = (set_mem rb (wrap m1 (h + esz)) (kmem s'),
     mk_outcome false (if RING_BUF_SIZE <=? h + esz then h + esz - RING_BUF_SIZE
                       else h + esz) cb (usedspace (freespace h tt)))).
  { rewrite <- H. unfold wrap. destruct (RING_BUF_SIZE <=? h + esz); done. }
  apply pair_equal_spec in Hm as [-> ->]. split; [done|].
  apply (wrapped_write_ok _ _ _ _ _ _ m1 ps); auto; try lia.
  pose proof (filled_curarg _ _ F). lia.
Qed.
End writer.

(** ** Concrete rings, for the examples. *)

(** A ring whose head and tail are both [h], and a consumer in no special mode. *)
Definition sample_ring (h : Z) : ppm_ring_buffer_context :=
  mk_ring true true true (mk_info h h 0 0 0 0 0) mem_zero 0 0 0 65536 mem_zero.

Definition sample_consumer : ppm_consumer := mk_consumer sample_cfg 1 0 0 0 0 0.

Definition sample_fillers : ppm_filler_id -> filler := kmod_fillers sample_kenv sample_task.

#[export] Instance sample_fillers_ok : FillersOK sample_fillers.
Proof. by apply (kmod_fillers_ok sample_kenv sample_user sample_task). Qed.

Definition sample_syscall : event_data_t :=
  mk_event_data PPMC_SYSCALL (-1) false (syscall_data true 3 (fun _ => 0)).

(** ** Events that are never recorded. *)

(** The events whose record is left short. *)
Definition short_event (k : kenv) (e : ppm_event_entry) : Prop :=
  stub (filler_id e) = true \/
  (filler_id e = F_sys_semop_x /\ (sc_arg k 2 = 0 \/ sc_arg k 1 = 0)).

(** An event served by a stub filler, and a [semop] exit without operations
    (no count or no array, which the system call itself rejects), never reaches
    the ring whatever its state: the filler reports success with fewer parameters
    than declared, the write phase drops the record, and the drop is counted as
    one for lack of buffer space. *)
Theorem short_records_dropped (k : kenv) (user : mem) (tk : FillerOps.task_env) (c : consumer_cfg)
    (rb rb' : ppm_ring_buffer_context) (tt t ns drop_flags : Z) (ed : event_data_t) (oc : outcome)
    (e : ppm_event_entry) :
  KernelOK k user -> 0 <= snaplen c ->
  0 <= head (info rb) < RING_BUF_SIZE -> 0 <= tt < RING_BUF_SIZE ->
  g_ppm_events (fst (effective_event k ed t)) = Some e ->
  short_event k e ->
  ring_write k (kmod_fillers k tk) c rb tt t ns ed = (rb', oc) ->
  oc_drop oc = true /\ info rb' = info rb /\
  (oc_cbres oc = PPM_SUCCESS ->
   n_drops_buffer (info (fst (ring_commit rb' oc ns drop_flags)))
   = u64 (n_drops_buffer (info rb) + 1)).
Proof.
  intros HK Hsn Hh Ht He Hshort E. unfold ring_write in E.
  destruct (effective_event k ed t) as [t' sock]. cbn [fst] in He.
  assert (Hcount : forall m km o, oc_drop o = true -> oc_cbres o = PPM_SUCCESS ->
    n_drops_buffer (info (fst (ring_commit (set_mem rb m km) o ns drop_flags)))
    = u64 (n_drops_buffer (info rb) + 1)).
  { intros m km o Hd Hc. unfold ring_commit. rewrite Hd, Hc. cbn [Z.eqb orb].
    destruct (_ && _); reflexivity. }
  case_in E.
  { simplify_eq. split; [done|]. split; [done|]. intros Hc.
    match type of Hc with oc_cbres ?o = _ =>
      specialize (Hcount (ring_buffer rb') (kernel_mem rb') o eq_refl Hc) end. by destruct rb'. }
  destruct (filler_args_filled k c Hsn rb ed t' sock tt
    (write_header (ring_buffer rb) (head (info rb)) ns (current_pid k) t'
      (ei_nparams (g_event_info t'))) (kernel_mem rb) Hh Ht ltac:(lia)) as [F _].
  unfold filler_callback in E. rewrite He in E. cbv zeta in E.
  set (s := mk_fstate _ _ _) in E, F.
  destruct (kmod_fillers _ _ _ s) as [s' r] eqn:Ef.
  pose proof (short_record k user tk e s s' r HK He F eq_refl Hshort Ef) as Hlt.
  case_in E; cycle 1.
  { simplify_eq. split; [done|]. split; [done|]. intros Hc. by apply Hcount. }
  bool_to_prop. specialize (Hlt ltac:(done)). lia.
Qed.

Definition sample_semop : ppm_event_entry := mk_entry F_sys_semop_x 0 APT_REG [].

Lemma short_records_dropped_witness :
  let w := ring_write sample_kenv sample_fillers sample_cfg (sample_ring 0) 0
             PPME_SYSCALL_SEMOP_X 1000 sample_syscall in
  oc_drop (snd w) = true /\ info (fst w) = info (sample_ring 0) /\
  (oc_cbres (snd w) = PPM_SUCCESS ->
   n_drops_buffer (info (fst (ring_commit (fst w) (snd w) 1000 0))) = 1).
Proof.
  intros w.
  apply (short_records_dropped sample_kenv sample_user sample_task sample_cfg (sample_ring 0)
    (fst w) 0 PPME_SYSCALL_SEMOP_X 1000 0 sample_syscall (snd w) sample_semop).
  - exact sample_kenv_ok.
  - done.
  - done.
  - done.
  - vm_compute. reflexivity.
  - right. split; [reflexivity|]. left. reflexivity.
  - apply surjective_pairing.
Defined.
