(* ===== verification/Reader.v ===== *)
(** * The ring reader: [libscap/scap.c]

    The user-level side of the rings: how much there is to read, moving the
    tail, refilling the per-device read buffers and [scap_next_live], which
    picks among the devices the pending event with the lowest timestamp.  Where
    the code branches on [m_bpf] the model has a class of devices, [LiveDevice]:
    the rings of the kernel module are its instance here, the perf buffers of the
    eBPF driver the one of [PerfReader]. *)

From Stdlib Require Import ZArith Lia List Bool.
From Stdlib Require Import Strings.Byte.
From stdpp Require Import base tactics list numbers option.
From S2P Require Import Prelude Bytes EventDefs Ring RingSpec.
Import ListNotations.
Local Open Scope Z_scope.

Definition SCAP_SUCCESS : Z := 0.
Definition SCAP_FAILURE : Z := 1.
Definition SCAP_TIMEOUT : Z := -1.

Definition BUFFER_EMPTY_WAIT_TIME_US_START : Z := 500.
Definition BUFFER_EMPTY_WAIT_TIME_US_MAX : Z := 30 * 1000.
Definition BUFFER_EMPTY_THRESHOLD_B : Z := 20000.

(** [struct scap_device].  The device shares [m_bufinfo] and the ring memory
    with the driver; [m_sn_next_event] is an offset into the double mapping. *)
Record scap_device : Type := mk_device {
  m_bufinfo : ppm_ring_buffer_info;
  m_buffer : mem;
  m_lastreadsize : Z;
  m_sn_next_event : Z;
  m_sn_len : Z }.

(** [get_buf_pointers]: the number of bytes to read. *)
Definition get_buf_pointers (i : ppm_ring_buffer_info) : Z * Z * Z :=
  let phead := head i in
  let ptail := tail i in
  let read_size := if phead <? ptail then u32 (RING_BUF_SIZE - ptail + phead)
                   else u32 (phead - ptail) in
  (phead, ptail, read_size).

(** [scap_advance_tail] *)
Definition scap_advance_tail (d : scap_device) : scap_device :=
  let ttail := u32 (tail (m_bufinfo d) + m_lastreadsize d) in
  let t' := if ttail <? RING_BUF_SIZE then ttail else ttail - RING_BUF_SIZE in
  mk_device (set_tail (m_bufinfo d) t') (m_buffer d) 0 (m_sn_next_event d) (m_sn_len d).

(** [scap_readbuf], as [refill_read_buffers] calls it: the buffer and its
    length go to [m_sn_next_event] and [m_sn_len]. *)
Definition scap_readbuf (d : scap_device) : scap_device :=
  let '(_, ttail, read_size) := get_buf_pointers (m_bufinfo d) in
  mk_device (m_bufinfo d) (m_buffer d) (u32 read_size) ttail (u32 read_size).

Definition buf_size_used (d : scap_device) : Z := snd (get_buf_pointers (m_bufinfo d)).

(** The header fields of the event at an offset of the mapping. *)
Definition evt_ts (d : scap_device) (p : Z) : Z := le_val (rread (m_buffer d) p 8).
Definition evt_len (d : scap_device) (p : Z) : Z := le_val (rread (m_buffer d) (p + 16) 4).

(** Consume the event that was picked. *)
Definition consume_event (d : scap_device) (pe : Z) : scap_device :=
  mk_device (m_bufinfo d) (m_buffer d) (m_lastreadsize d)
    (m_sn_next_event d + evt_len d pe) (u32 (m_sn_len d - evt_len d pe)).

(** ** Devices. *)

(** What the loop needs of a device: [m_sn_len], [m_lastreadsize], the event at the
    cursor with its header fields and bytes, moving the tail, stepping over an event and
    refilling.  The last two have no result when the loop in them does not end. *)
Class LiveDevice (D : Type) : Type := {
  dv_len : D -> Z;
  dv_lastread : D -> Z;
  dv_event : D -> Z;
  dv_ts : D -> Z -> Z;
  dv_evt_len : D -> Z -> Z;
  dv_bytes : D -> Z -> nat -> list byte;
  dv_advance_tail : D -> D;
  dv_consume : D -> Z -> option D;
  dv_readbuf : D -> option D;
  dv_used : D -> Z }.

#[export] Instance module_device : LiveDevice scap_device := {
  dv_len := m_sn_len;
  dv_lastread := m_lastreadsize;
  dv_event := m_sn_next_event;
  dv_ts := evt_ts;
  dv_evt_len := evt_len;
  dv_bytes d pe n := rread (m_buffer d) pe n;
  dv_advance_tail := scap_advance_tail;
  dv_consume d pe := Some (consume_event d pe);
  dv_readbuf d := Some (scap_readbuf d);
  dv_used := buf_size_used }.

Record scap_live (D : Type) : Type := mk_live {
  m_devs : list D;
  m_buffer_empty_wait_time_us : Z }.
Arguments mk_live {D} _ _.
Arguments m_devs {D} _.
Arguments m_buffer_empty_wait_time_us {D} _.

Section live.
Context {D : Type} `{LiveDevice D}.

Definition are_buffers_empty (ds : list D) : bool :=
  forallb (fun d => negb (BUFFER_EMPTY_THRESHOLD_B <? dv_used d)) ds.

Definition scap_max_buf_used (h : scap_live D) : Z :=
  foldl (fun mx d => if mx <? dv_used d then dv_used d else mx) 0 (m_devs h).

(** [refill_read_buffers]; the sleep has no effect on the state. *)
Definition refill_read_buffers (h : scap_live D) : option (scap_live D * Z) :=
  let wait := m_buffer_empty_wait_time_us h in
  let wait' := if are_buffers_empty (m_devs h)
               then Z.min (wait * 2) BUFFER_EMPTY_WAIT_TIME_US_MAX
               else BUFFER_EMPTY_WAIT_TIME_US_START in
  ds ← mapM dv_readbuf (m_devs h);
  Some (mk_live ds wait', SCAP_TIMEOUT).

(** The candidate of the loop: [pcpuid], [pevent] and [max_ts]. *)
Record candidate : Type := mk_candidate {
  ca_cpu : Z;
  ca_event : Z;
  ca_ts : Z }.

Definition no_candidate : candidate := mk_candidate 65535 0 18446744073709551615.

(** The [for] loop; [None] is the return on buffer corruption. *)
Fixpoint scan_devs (j : Z) (ds : list D) (best : candidate) : list D * option candidate :=
  match ds with
  | [] => ([], Some best)
  | d :: ds' =>
      if dv_len d =? 0 then
        let d' := if 0 <? dv_lastread d then dv_advance_tail d else d in
        let '(r, b) := scan_devs (j + 1) ds' best in (d' :: r, b)
      else
        let pe := dv_event d in
        if dv_ts d pe <? ca_ts best then
          if dv_len d <? dv_evt_len d pe then (d :: ds', None)
          else let '(r, b) := scan_devs (j + 1) ds' (mk_candidate (u16 j) pe (dv_ts d pe)) in
               (d :: r, b)
        else let '(r, b) := scan_devs (j + 1) ds' best in (d :: r, b)
  end.

(** [scap_next_live]: the handle, the result and, on success, the device and
    the offset of the event. *)
Definition scap_next_live (h : scap_live D) : option (scap_live D * Z * option (Z * Z)) :=
  let '(ds, best) := scan_devs 0 (m_devs h) no_candidate in
  let wait := m_buffer_empty_wait_time_us h in
  match best with
  | None => Some (mk_live ds wait, SCAP_FAILURE, None)
  | Some b =>
      if negb (ca_cpu b =? 65535) then
        let i := Z.to_nat (ca_cpu b) in
        d ← ds !! i; d' ← dv_consume d (ca_event b);
        Some (mk_live (<[i := d']> ds) wait, SCAP_SUCCESS, Some (ca_cpu b, ca_event b))
      else
        '(h2, res) ← refill_read_buffers (mk_live ds wait);
        Some (h2, res, None)
  end.
End live.

(** [scap_next_udig]: the same loop and the same bookkeeping, on rings. *)
Definition scap_next_udig (h : scap_live scap_device) :
    option (scap_live scap_device * Z * option (Z * Z)) := scap_next_live h.

(** [scap_get_stats] *)
Record scap_stats : Type := mk_stats {
  st_n_evts : Z;
  st_n_drops : Z;
  st_n_drops_buffer : Z;
  st_n_drops_pf : Z;
  st_n_drops_bug : Z;
  st_n_preemptions : Z;
  st_n_suppressed : Z;
  st_n_tids_suppressed : Z }.

Definition add_dev_stats (s : scap_stats) (d : scap_device) : scap_stats :=
  let i := m_bufinfo d in
  mk_stats (u64 (st_n_evts s + n_evts i))
    (u64 (st_n_drops s + u64 (n_drops_buffer i + n_drops_pf i)))
    (u64 (st_n_drops_buffer s + n_drops_buffer i))
    (u64 (st_n_drops_pf s + n_drops_pf i))
    (st_n_drops_bug s)
    (u64 (st_n_preemptions s + n_preemptions i))
    (st_n_suppressed s) (st_n_tids_suppressed s).

Definition scap_get_stats (h : scap_live scap_device) (num_suppressed n_tids : Z) : scap_stats :=
  foldl add_dev_stats (mk_stats 0 0 0 0 0 0 num_suppressed n_tids) (m_devs h).
