(* ===== verification/RingSystem.v ===== *)
(** * Writer and reader on one ring, interleaved

    The driver and libscap share [head], [tail] and the ring memory without a
    lock.  [step] interleaves the moments at which each side touches them: the
    writer takes its snapshot of the tail, writes, and publishes the head; the
    reader takes a span of unread bytes, and later gives it back.  [got],
    [held] and [sent] are history variables: the bytes the reader is done with,
    the bytes it was handed and has not given back, and all published bytes. *)

From Stdlib Require Import ZArith Lia List Bool.
From Stdlib Require Import Strings.Byte.
From stdpp Require Import base tactics list numbers option relations.
From S2P Require Import Prelude Bytes EventDefs EventTable FillerTable.
From S2P Require Import ValToRing ValToRingSpec Fillers Ring RingSpec Reader.
Import ListNotations.
Local Open Scope Z_scope.

(** Events as the reader knows them. *)
Record event : Type := mk_evt {
  ev_ts : Z;
  ev_tid : Z;
  ev_type : Z;
  ev_params : list (list byte) }.

Definition bytes_of_event (e : event) : list byte :=
  event_bytes (ev_ts e) (ev_tid e) (ev_type e) (ev_params e).

Inductive phase : Type :=
| Idle
| Started (ttail : Z)
| Written (oc : outcome).

Record sys : Type := mk_sys {
  sy_ring : ppm_ring_buffer_context;
  sy_phase : phase;
  sy_last : Z;
  sy_sent : list byte;
  sy_held : list byte;
  sy_got : list byte }.

(** libscap's device on the shared ring. *)
Definition device_of (y : sys) : scap_device :=
  mk_device (info (sy_ring y)) (ring_buffer (sy_ring y)) (sy_last y) 0 0.

(** The bytes of the event a write phase completed. *)
Definition written_bytes (rb : ppm_ring_buffer_context) (oc : outcome) : list byte :=
  if oc_drop oc then []
  else rread (ring_buffer rb) (head (info rb))
         (Z.to_nat (ring_used (oc_next oc) (head (info rb)))).

Section interleaving.
Context (fillers : ppm_filler_id -> filler).

Inductive step : sys -> sys -> Prop :=
| st_begin rb l se he go :
    capture_enabled rb = true ->
    step (mk_sys rb Idle l se he go) (mk_sys rb (Started (tail (info rb))) l se he go)
| st_write rb tl0 l se he go k c t ns ed rb' oc :
    0 <= snaplen c -> FillersOK fillers ->
    ring_write k fillers c rb tl0 t ns ed = (rb', oc) ->
    step (mk_sys rb (Started tl0) l se he go) (mk_sys rb' (Written oc) l se he go)
| st_commit rb oc l se he go ns df rb' res :
    ring_commit rb oc ns df = (rb', res) ->
    step (mk_sys rb (Written oc) l se he go)
      (mk_sys rb' Idle l (se ++ written_bytes rb oc) he go)
| st_read y d :
    sy_last y = 0 -> scap_readbuf (device_of y) = d ->
    step y (mk_sys (sy_ring y) (sy_phase y) (m_lastreadsize d) (sy_sent y)
              (rread (m_buffer d) (m_sn_next_event d) (Z.to_nat (m_sn_len d))) (sy_got y))
| st_advance y d :
    scap_advance_tail (device_of y) = d ->
    step y (mk_sys (set_info (sy_ring y) (m_bufinfo d)) (sy_phase y) (m_lastreadsize d)
              (sy_sent y) [] (sy_got y ++ sy_held y)).

(** ** The invariant. *)

Definition phase_ok (rb : ppm_ring_buffer_context) (p : phase) : Prop :=
  let h := head (info rb) in
  let t := tail (info rb) in
  match p with
  | Idle => True
  | Started tl0 => 0 <= tl0 < RING_BUF_SIZE /\ ring_used h t <= ring_used h tl0
  | Written oc => oc_drop oc = false ->
      exists e, rread (ring_buffer rb) h (length (bytes_of_event e)) = bytes_of_event e /\
        oc_next oc = (h + Z.of_nat (length (bytes_of_event e))) mod RING_BUF_SIZE /\
        Z.of_nat (length (bytes_of_event e)) + ring_used h t < RING_BUF_SIZE
  end.

Record sys_ok (y : sys) : Prop := {
  so_info : info_wf (info (sy_ring y));
  so_phase : phase_ok (sy_ring y) (sy_phase y);
  so_last : 0 <= sy_last y
    <= ring_used (head (info (sy_ring y))) (tail (info (sy_ring y)));
  so_held : sy_held y = rread (ring_buffer (sy_ring y)) (tail (info (sy_ring y)))
                          (Z.to_nat (sy_last y));
  so_sent : sy_sent y = sy_got y ++ unread (sy_ring y);
  so_events : exists evs, sy_sent y = concat (map bytes_of_event evs) }.

Lemma ring_used_range h t : 0 <= ring_used h t < RING_BUF_SIZE.
Proof. apply Z.mod_pos_bound. unfold RING_BUF_SIZE. lia. Qed.

(** A byte that is unread now was unread at the snapshot. *)
Lemma unread_since_snapshot h t tl0 i :
  ring_used h t <= ring_used h tl0 -> 0 <= i < ring_used h t ->
  exists j, 0 <= j < ring_used h tl0 /\
    (t + i) mod RING_BUF_SIZE = (tl0 + j) mod RING_BUF_SIZE.
Proof.
  intros Hle Hi. exists (ring_used h tl0 - ring_used h t + i). split; [lia|].
  unfold ring_used.
  replace (tl0 + ((h - tl0) mod RING_BUF_SIZE - (h - t) mod RING_BUF_SIZE + i))
    with ((h - tl0) mod RING_BUF_SIZE + (tl0 - (h - t) mod RING_BUF_SIZE + i)) by lia.
  rewrite Zplus_mod_idemp_l.
  replace (h - tl0 + (tl0 - (h - t) mod RING_BUF_SIZE + i))
    with (h + i - (h - t) mod RING_BUF_SIZE) by lia.
  rewrite Zminus_mod_idemp_r. f_equal. lia.
Qed.

Lemma rread_since_snapshot m m' h t tl0 n :
  ring_used h t <= ring_used h tl0 -> Z.of_nat n <= ring_used h t ->
  (forall i, 0 <= i < ring_used h tl0 ->
     m' ((tl0 + i) mod RING_BUF_SIZE) = m ((tl0 + i) mod RING_BUF_SIZE)) ->
  rread m' t n = rread m t n.
Proof.
  intros Hle Hn H. apply rread_ext. intros i Hi.
  destruct (unread_since_snapshot h t tl0 i Hle ltac:(lia)) as (j & Hj & ->). by apply H.
Qed.

Lemma write_preserves rb tl0 l se he go k c t ns ed rb' oc :
  0 <= snaplen c -> FillersOK fillers ->
  ring_write k fillers c rb tl0 t ns ed = (rb', oc) ->
  sys_ok (mk_sys rb (Started tl0) l se he go) -> sys_ok (mk_sys rb' (Written oc) l se he go).
Proof.
  intros Hs HF H [Hi Hp Hl Hh Hse Hev]. cbn [sy_ring sy_phase sy_last sy_held sy_sent sy_got] in *.
  destruct Hi as [Hhd Htl]. destruct Hp as [Htt Hle].
  destruct (ring_write_ok k fillers c Hs rb tl0 t ns ed rb' oc Hhd Htt H) as [Hsame [_ Hun Hwe]].
  assert (Hinfo : info rb' = info rb) by (rewrite Hsame; done).
  assert (Hrr : forall n, Z.of_nat n <= ring_used (head (info rb)) (tail (info rb)) ->
    rread (ring_buffer rb') (tail (info rb)) n = rread (ring_buffer rb) (tail (info rb)) n)
    by (intros n Hn; by eapply rread_since_snapshot).
  split; cbn [sy_ring sy_phase sy_last sy_held sy_sent sy_got]; rewrite ?Hinfo; auto.
  - split; done.
  - intros Hd. destruct (Hwe Hd) as (ps & _ & Hnx & Hfree & Hrd).
    exists (mk_evt ns (current_pid k) (fst (effective_event k ed t)) ps).
    rewrite Hinfo. split; [done|]. split; [done|].
    rewrite freespace_cases in Hfree by done. unfold bytes_of_event.
    cbn [ev_ts ev_tid ev_type ev_params]. lia.
  - rewrite Hrr by lia. done.
  - rewrite Hse. unfold unread. rewrite Hinfo, Hrr; [done|].
    pose proof (ring_used_range (head (info rb)) (tail (info rb))). lia.
Qed.

Lemma commit_fields rb oc ns df rb' res :
  ring_commit rb oc ns df = (rb', res) ->
  ring_buffer rb' = ring_buffer rb /\ tail (info rb') = tail (info rb) /\
  head (info rb') = (if oc_drop oc then head (info rb) else u32 (oc_next oc)) /\
  res = (if oc_drop oc then 0 else 1).
Proof.
  unfold ring_commit. intros H. destruct (oc_drop oc); repeat case_in H; simplify_eq; done.
Qed.

Lemma ring_used_advance h t n :
  0 <= n -> ring_used h t + n < RING_BUF_SIZE ->
  ring_used ((h + n) mod RING_BUF_SIZE) t = ring_used h t + n.
Proof.
  intros Hn Hlt. pose proof (ring_used_range h t). unfold ring_used in *.
  rewrite Zminus_mod_idemp_l. replace (h + n - t) with (h - t + n) by lia.
  rewrite <- Zplus_mod_idemp_l. apply Z.mod_small. lia.
Qed.

Lemma ring_used_self h : ring_used h h = 0.
Proof. unfold ring_used. by rewrite Z.sub_diag. Qed.

Lemma ring_next_range x : 0 <= x mod RING_BUF_SIZE < RING_BUF_SIZE.
Proof. apply Z.mod_pos_bound. unfold RING_BUF_SIZE. lia. Qed.

(** Publishing the head appends the written event to the unread bytes. *)
Lemma unread_commit rb rb' e :
  let n := Z.of_nat (length (bytes_of_event e)) in
  ring_buffer rb' = ring_buffer rb -> tail (info rb') = tail (info rb) ->
  head (info rb') = (head (info rb) + n) mod RING_BUF_SIZE ->
  rread (ring_buffer rb) (head (info rb)) (length (bytes_of_event e)) = bytes_of_event e ->
  n + ring_used (head (info rb)) (tail (info rb)) < RING_BUF_SIZE ->
  unread rb' = unread rb ++ bytes_of_event e.
Proof.
  intros n Hm Ht Hh Hrd Hlt. unfold unread. rewrite Hm, Ht, Hh.
  pose proof (ring_used_range (head (info rb)) (tail (info rb))) as Hr.
  rewrite ring_used_advance by lia.
  replace (Z.to_nat (ring_used (head (info rb)) (tail (info rb)) + n))
    with (Z.to_nat (ring_used (head (info rb)) (tail (info rb))) + length (bytes_of_event e))%nat
    by lia.
  rewrite rread_app. f_equal. rewrite <- Hrd at 2. rewrite <- (rread_mod _ (head (info rb))).
  rewrite <- (rread_mod _ (_ + _)). f_equal. rewrite Z2Nat.id by lia.
  unfold ring_used. rewrite Zplus_mod_idemp_r. f_equal. lia.
Qed.

Lemma commit_preserves rb oc l se he go ns df rb' res :
  ring_commit rb oc ns df = (rb', res) ->
  sys_ok (mk_sys rb (Written oc) l se he go) ->
  sys_ok (mk_sys rb' Idle l (se ++ written_bytes rb oc) he go).
Proof.
  intros H [Hi Hp Hl Hh Hse Hev]. cbn [sy_ring sy_phase sy_last sy_held sy_sent sy_got] in *.
  apply commit_fields in H as (Hm & Ht & Hhd & _). unfold written_bytes.
  destruct (oc_drop oc) eqn:Ed.
  - rewrite app_nil_r.
    split; cbn [sy_ring sy_phase sy_last sy_held sy_sent sy_got]; rewrite ?Hm, ?Ht, ?Hhd; auto; try done.
    + destruct Hi. split; rewrite ?Ht, ?Hhd; done.
    + rewrite Hse. unfold unread. by rewrite Hm, Ht, Hhd.
  - destruct (Hp Ed) as (e & Hrd & Hnx & Hlt). destruct Hi as [Hi1 Hi2].
    pose proof (ring_next_range (head (info rb) + Z.of_nat (length (bytes_of_event e)))) as Hnr.
    rewrite u32_small in Hhd by (rewrite Hnx; unfold RING_BUF_SIZE in *; lia).
    assert (Hw : rread (ring_buffer rb) (head (info rb))
              (Z.to_nat (ring_used (oc_next oc) (head (info rb)))) = bytes_of_event e).
    { rewrite Hnx, ring_used_advance; rewrite ?ring_used_self; [by rewrite Z.add_0_l, Nat2Z.id|lia|].
      pose proof (ring_used_range (head (info rb)) (tail (info rb))). lia. }
    rewrite Hw. rewrite Hnx in Hhd.
    split; cbn [sy_ring sy_phase sy_last sy_held sy_sent sy_got]; rewrite ?Hm, ?Ht, ?Hhd; auto; try done.
    + split; rewrite ?Ht, ?Hhd; lia.
    + rewrite ring_used_advance by lia. lia.
    + rewrite (unread_commit rb rb' e) by done. by rewrite Hse, app_assoc.
    + destruct Hev as [evs ->]. exists (evs ++ [e]).
      rewrite map_app, concat_app. simpl. by rewrite app_nil_r.
Qed.

Lemma read_size_used i : info_wf i -> snd (get_buf_pointers i) = ring_used (head i) (tail i).
Proof.
  intros [Hh Ht]. rewrite ring_used_cases by done. simpl.
  unfold RING_BUF_SIZE in *. repeat case_if; rewrite u32_small; lia.
Qed.

Lemma read_preserves y :
  sy_last y = 0 -> sys_ok y ->
  let d := scap_readbuf (device_of y) in
  sys_ok (mk_sys (sy_ring y) (sy_phase y) (m_lastreadsize d) (sy_sent y)
            (rread (m_buffer d) (m_sn_next_event d) (Z.to_nat (m_sn_len d))) (sy_got y)).
Proof.
  intros H0 [Hi Hp Hl Hh Hse Hev] d.
  pose proof (read_size_used _ Hi) as Hsz.
  pose proof (ring_used_range (head (info (sy_ring y))) (tail (info (sy_ring y)))) as Hr.
  assert (Hd : m_lastreadsize d = ring_used (head (info (sy_ring y))) (tail (info (sy_ring y)))).
  { cbn in Hsz |- *. rewrite Hsz. apply u32_small. unfold RING_BUF_SIZE in *. lia. }
  split; cbn [sy_ring sy_phase sy_last sy_held sy_sent sy_got]; auto. rewrite Hd. lia.
Qed.

Lemma ring_used_tail h t n :
  0 <= n <= ring_used h t -> ring_used h ((t + n) mod RING_BUF_SIZE) = ring_used h t - n.
Proof.
  intros Hn. pose proof (ring_used_range h t). unfold ring_used in *.
  rewrite Zminus_mod_idemp_r. replace (h - (t + n)) with (h - t - n) by lia.
  rewrite <- Zminus_mod_idemp_l. apply Z.mod_small. lia.
Qed.

Lemma unread_split rb n :
  0 <= n <= ring_used (head (info rb)) (tail (info rb)) ->
  unread rb = rread (ring_buffer rb) (tail (info rb)) (Z.to_nat n)
    ++ rread (ring_buffer rb) ((tail (info rb) + n) mod RING_BUF_SIZE)
         (Z.to_nat (ring_used (head (info rb)) (tail (info rb)) - n)).
Proof.
  intros Hn. unfold unread.
  replace (Z.to_nat (ring_used (head (info rb)) (tail (info rb)))) with
    (Z.to_nat n + Z.to_nat (ring_used (head (info rb)) (tail (info rb)) - n))%nat by lia.
  rewrite rread_app, rread_mod, Z2Nat.id by lia. done.
Qed.

Lemma phase_tail rb p n :
  0 <= n <= ring_used (head (info rb)) (tail (info rb)) ->
  phase_ok rb p ->
  phase_ok (set_info rb (set_tail (info rb) ((tail (info rb) + n) mod RING_BUF_SIZE))) p.
Proof.
  intros Hn. destruct p as [|tl0|oc]; simpl; rewrite ?ring_used_tail by done; [done|lia|].
  intros H Hd. destruct (H Hd) as (e & H1 & H2 & H3). exists e. split; [done|]. split; [done|]. lia.
Qed.

Lemma advance_preserves y :
  sys_ok y ->
  let d := scap_advance_tail (device_of y) in
  sys_ok (mk_sys (set_info (sy_ring y) (m_bufinfo d)) (sy_phase y) (m_lastreadsize d)
            (sy_sent y) [] (sy_got y ++ sy_held y)).
Proof.
  intros [Hi Hp Hl Hh Hse Hev] d. set (rb := sy_ring y) in *.
  pose proof (ring_used_range (head (info rb)) (tail (info rb))) as Hr.
  assert (Hd : m_bufinfo d =
            set_tail (info rb) ((tail (info rb) + sy_last y) mod RING_BUF_SIZE)).
  { destruct Hi. unfold d, scap_advance_tail. cbn [m_bufinfo device_of m_lastreadsize].
    fold rb. f_equal. rewrite ring_mod_cases by lia.
    rewrite u32_small by (unfold RING_BUF_SIZE in *; lia). done. }
  rewrite Hd. split; cbn [sy_ring sy_phase sy_last sy_held sy_sent sy_got]; auto.
  - destruct Hi. split; [done|]. apply ring_next_range.
  - by apply phase_tail.
  - simpl. rewrite ring_used_tail by done. lia.
  - rewrite Hse, (unread_split rb (sy_last y)) by done. rewrite Hh, app_assoc. f_equal.
    unfold unread. simpl. by rewrite ring_used_tail by done.
Qed.

Lemma step_preserves y y' : step y y' -> sys_ok y -> sys_ok y'.
Proof.
  intros [] HI.
  - destruct HI as [Hi Hp Hl Hh Hse Hev]. split; auto. simpl in *. destruct Hi. split; [done|lia].
  - by eapply write_preserves.
  - by eapply commit_preserves.
  - subst. by apply read_preserves.
  - subst. by apply advance_preserves.
Qed.

Definition init_sys (rb : ppm_ring_buffer_context) : sys := mk_sys rb Idle 0 [] [] [].

Definition reachable (rb : ppm_ring_buffer_context) (y : sys) : Prop :=
  rtc step (init_sys rb) y.

Lemma init_ok rb :
  info_wf (info rb) -> head (info rb) = tail (info rb) -> sys_ok (init_sys rb).
Proof.
  intros Hi Heq. split; cbn [sy_ring sy_phase sy_last sy_held sy_sent sy_got init_sys]; auto.
  - done.
  - pose proof (ring_used_range (head (info rb)) (tail (info rb))). lia.
  - unfold unread, ring_used. rewrite Heq, Z.sub_diag. done.
  - by exists [].
Qed.

Lemma reachable_ok rb y :
  info_wf (info rb) -> head (info rb) = tail (info rb) -> reachable rb y -> sys_ok y.
Proof.
  intros Hi Heq Hr. pose proof (init_ok rb Hi Heq) as H0. unfold reachable in Hr.
  induction Hr as [|y1 y2 y3 Hs Hr IH]; [done|]. apply IH. by eapply step_preserves.
Qed.
End interleaving.

(** C1: on one ring, under every interleaving of the writer's and the reader's
    steps, starting empty: the published bytes are a sequence of whole event
    records; what the reader has finished with, followed by what is still in
    the ring, is exactly what was published, so the reader sees every published
    record once and in order; and the span the reader holds has not changed
    since it was handed out and is the next part of that sequence. *)
Theorem ring_interleaving_fifo (fillers : ppm_filler_id -> filler)
    (rb : ppm_ring_buffer_context) (y : sys) :
  info_wf (info rb) -> head (info rb) = tail (info rb) -> reachable fillers rb y ->
  (exists evs, sy_sent y = concat (map bytes_of_event evs)) /\
  sy_sent y = sy_got y ++ unread (sy_ring y) /\
  sy_held y = rread (ring_buffer (sy_ring y)) (tail (info (sy_ring y))) (Z.to_nat (sy_last y)) /\
  prefix (sy_got y ++ sy_held y) (sy_sent y).
Proof.
  intros Hi Heq Hr. destruct (reachable_ok fillers rb y Hi Heq Hr) as [Hw _ Hl Hh Hs He].
  split; [done|]. split; [done|]. split; [done|].
  rewrite Hs, (unread_split _ (sy_last y)), <- Hh by done. eexists. by rewrite <- app_assoc.
Qed.

(** One [close] event, written across the end of the ring, read and released. *)
Definition sample_run : sys :=
  let rb := sample_ring (RING_BUF_SIZE - 10) in
  let w := ring_write sample_kenv sample_fillers sample_cfg rb (tail (info rb))
             PPME_SYSCALL_CLOSE_E 1000 sample_syscall in
  let y1 := mk_sys (fst (ring_commit (fst w) (snd w) 1000 UF_USED)) Idle 0
              ([] ++ written_bytes (fst w) (snd w)) [] [] in
  let d := scap_readbuf (device_of y1) in
  let y2 := mk_sys (sy_ring y1) (sy_phase y1) (m_lastreadsize d) (sy_sent y1)
              (rread (m_buffer d) (m_sn_next_event d) (Z.to_nat (m_sn_len d))) (sy_got y1) in
  let d2 := scap_advance_tail (device_of y2) in
  mk_sys (set_info (sy_ring y2) (m_bufinfo d2)) (sy_phase y2) (m_lastreadsize d2)
    (sy_sent y2) [] (sy_got y2 ++ sy_held y2).

Lemma sample_run_reachable :
  reachable sample_fillers (sample_ring (RING_BUF_SIZE - 10)) sample_run.
Proof.
  unfold reachable, init_sys, sample_run. cbv zeta.
  eapply rtc_l; [by apply st_begin|].
  eapply rtc_l; [eapply (st_write _ _ _ _ _ _ _ sample_kenv sample_cfg PPME_SYSCALL_CLOSE_E
    1000 sample_syscall); [simpl; lia|exact sample_fillers_ok|apply surjective_pairing]|].
  eapply rtc_l; [eapply (st_commit _ _ _ _ _ _ _ 1000 UF_USED); apply surjective_pairing|].
  eapply rtc_l; [by apply st_read|].
  eapply rtc_l; [by apply st_advance|].
  apply rtc_refl.
Qed.

Lemma sample_run_got : length (sy_got sample_run) = 36%nat.
Proof. vm_compute. reflexivity. Qed.

Lemma ring_interleaving_fifo_witness :
  length (sy_got sample_run) = 36%nat /\
  prefix (sy_got sample_run ++ sy_held sample_run) (sy_sent sample_run).
Proof.
  split; [exact sample_run_got|].
  apply (ring_interleaving_fifo sample_fillers (sample_ring (RING_BUF_SIZE - 10)) sample_run).
  - split; simpl; unfold RING_BUF_SIZE; lia.
  - reflexivity.
  - exact sample_run_reachable.
Defined.
