(* ===== verification/RecordSpec.v ===== *)
(** * Recording an event appends it to the unread bytes

    The sequential behaviour of [record_event_consumer] and of the dropping
    mode around it, over the abstract ring of [RingSpec]. *)

From Stdlib Require Import ZArith Lia List Bool.
From Stdlib Require Import Strings.Byte.
From stdpp Require Import base tactics list numbers option.
From S2P Require Import Prelude Bytes EventDefs EventTable FillerTable.
From S2P Require Import ValToRing ValToRingSpec Fillers Ring RingSpec Reader RingSystem.
Import ListNotations.
Local Open Scope Z_scope.

(** The effect of recording on a ring: the tail does not move, no byte outside
    the allocation changes, and the unread bytes grow by whole events. *)
Record recorded (rb rb' : ppm_ring_buffer_context) (evs : list event) : Prop := {
  rec_wf : info_wf (info rb');
  rec_tail : tail (info rb') = tail (info rb);
  rec_alloc : forall x, x < 0 \/ ring_alloc <= x -> ring_buffer rb' x = ring_buffer rb x;
  rec_unread : unread rb' = unread rb ++ concat (map bytes_of_event evs) }.

Lemma recorded_nil rb rb' :
  info_wf (info rb') -> ring_buffer rb' = ring_buffer rb ->
  head (info rb') = head (info rb) -> tail (info rb') = tail (info rb) ->
  recorded rb rb' [].
Proof.
  intros Hw Hm Hh Ht. split; auto.
  - by rewrite Hm.
  - unfold unread. by rewrite Hm, Hh, Ht, app_nil_r.
Qed.

Lemma recorded_refl rb : info_wf (info rb) -> recorded rb rb [].
Proof. intros. by apply recorded_nil. Qed.

Lemma recorded_trans rb1 rb2 rb3 e1 e2 :
  recorded rb1 rb2 e1 -> recorded rb2 rb3 e2 -> recorded rb1 rb3 (e1 ++ e2).
Proof.
  intros [_ T1 A1 U1] [W T2 A2 U2]. split; auto.
  - by rewrite T2.
  - intros x Hx. by rewrite A2, A1.
  - by rewrite U2, U1, <- app_assoc, map_app, concat_app.
Qed.

(** Changing counters and flags only. *)
Lemma recorded_same_view rb1 rb2 rb1' rb2' evs :
  recorded rb1 rb2 evs ->
  ring_buffer rb1' = ring_buffer rb1 -> ring_buffer rb2' = ring_buffer rb2 ->
  head (info rb1') = head (info rb1) -> tail (info rb1') = tail (info rb1) ->
  head (info rb2') = head (info rb2) -> tail (info rb2') = tail (info rb2) ->
  recorded rb1' rb2' evs.
Proof.
  intros [[W1 W2] T A U] Hm1 Hm2 Hh1 Ht1 Hh2 Ht2. split.
  - split; rewrite ?Hh2, ?Ht2; done.
  - by rewrite Ht2, Ht1.
  - intros x Hx. rewrite Hm1, Hm2. by apply A.
  - unfold unread in *. by rewrite Hm1, Hm2, Hh1, Ht1, Hh2, Ht2.
Qed.

Section record_spec.
Context (k : kenv) (fillers : ppm_filler_id -> filler).
Context `{Hfillers : !FillersOK fillers}.

(** The event a call with these arguments records. *)
Definition records_event (t ns : Z) (ed : event_data_t) (e : event) : Prop :=
  ev_ts e = ns /\ ev_tid e = current_pid k /\ ev_type e = fst (effective_event k ed t) /\
  Z.of_nat (length (ev_params e)) = ei_nparams (g_event_info (ev_type e)).

Lemma write_commit_recorded c rb t df ns ed rb1 oc rb2 res :
  0 <= snaplen c -> info_wf (info rb) ->
  ring_write k fillers c rb (tail (info rb)) t ns ed = (rb1, oc) ->
  ring_commit rb1 oc ns df = (rb2, res) ->
  (res = 0 /\ recorded rb rb2 []) \/
  (res = 1 /\ exists e, records_event t ns ed e /\ recorded rb rb2 [e]).
Proof.
  intros Hs [Hh Ht] Hw Hc.
  destruct (ring_write_ok k fillers c Hs rb _ t ns ed rb1 oc Hh Ht Hw) as [Hsame [Ha Hu He]].
  assert (Hi : info rb1 = info rb) by (rewrite Hsame; done).
  assert (Hun : unread rb1 = unread rb).
  { unfold unread. rewrite Hi. apply rread_ext. intros i Hi'. apply Hu.
    pose proof (ring_used_range (head (info rb)) (tail (info rb))). lia. }
  destruct (commit_fields _ _ _ _ _ _ Hc) as (Hm2 & Ht2 & Hh2 & ->). rewrite Hi in *.
  destruct (oc_drop oc) eqn:Ed.
  - left. split; [done|]. split.
    + split; rewrite ?Hh2, ?Ht2; done.
    + done.
    + intros x Hx. rewrite Hm2. by apply Ha.
    + rewrite app_nil_r, <- Hun. unfold unread. by rewrite Hm2, Ht2, Hh2, Hi.
  - right. split; [done|]. destruct (He eq_refl) as (ps & Hps & Hnx & Hfree & Hrd).
    set (e := mk_evt ns (current_pid k) (fst (effective_event k ed t)) ps).
    change (event_bytes _ _ _ ps) with (bytes_of_event e) in *.
    exists e. split; [by repeat split|].
    rewrite freespace_cases in Hfree by done.
    pose proof (ring_next_range (head (info rb) + Z.of_nat (length (bytes_of_event e)))) as Hnr.
    rewrite u32_small in Hh2 by (rewrite Hnx; unfold RING_BUF_SIZE in *; lia).
    split.
    + split; rewrite ?Hh2, ?Ht2, ?Hnx; done.
    + done.
    + intros x Hx. rewrite Hm2. by apply Ha.
    + cbn [map concat]. rewrite app_nil_r, <- Hun. apply unread_commit; rewrite ?Hi; auto.
      * rewrite Hh2, Hnx. done.
      * lia.
Qed.

Lemma record_on_cpu_recorded c rb t df ns ed rb' res :
  0 <= snaplen c -> info_wf (info rb) ->
  record_on_cpu k fillers c rb t df ns ed = (rb', res) ->
  (res = 0 /\ recorded rb rb' []) \/
  (res = 1 /\ exists e, records_event t ns ed e /\ recorded rb rb' [e]).
Proof.
  intros Hs Hw H. unfold record_on_cpu in H.
  case_in H; [simplify_eq; left; split; [done|by apply recorded_refl]|].
  cbv zeta in H. set (i2 := count_event (info rb) t ed) in H.
  assert (Hi2 : head i2 = head (info rb) /\ tail i2 = tail (info rb))
    by (unfold i2, count_event; repeat case_if; done).
  destruct Hi2 as [Hih Hit]. clearbody i2. case_in H.
  { simplify_eq. left. split; [done|]. destruct Hw.
    apply recorded_nil; case_if; simpl; try done; split; simpl; rewrite ?Hih, ?Hit; done. }
  destruct (ring_write _ _ _ _ _ _ _ _) as [rb2 oc] eqn:E2.
  destruct (ring_commit _ _ _ _) as [rb3 r3] eqn:E3. simplify_eq.
  eapply write_commit_recorded in E3; [|done| |exact E2].
  - assert (Hv : forall evs, recorded (add_preempt (set_info rb i2) 1) rb3 evs ->
                             recorded rb (add_preempt rb3 (-1)) evs)
      by (intros evs Hr; eapply recorded_same_view; [exact Hr|done..]).
    destruct E3 as [[-> Hr]|(-> & e & He & Hr)]; [left|right]; eauto.
  - destruct Hw. split; simpl; rewrite ?Hih, ?Hit; done.
Qed.
End record_spec.

(** ** The consumer's dropping logic. *)

Definition is_marker (e : event) : Prop := ev_type e = PPME_DROP_E \/ ev_type e = PPME_DROP_X.

Section consumer_spec.
Context (k : kenv) (fillers : ppm_filler_id -> filler) (events_mask : Z -> bool).
Context `{Hfillers : !FillersOK fillers}.

Definition state_ok (st : cpu_state) : Prop :=
  0 <= snaplen (cs_cfg (fst st)) /\ info_wf (info (snd st)).

(** A step of the dropping logic: the settings stay, markers may be added. *)
Definition adds_markers (st st' : cpu_state) : Prop :=
  cs_cfg (fst st') = cs_cfg (fst st) /\
  exists evs, Forall is_marker evs /\ recorded (snd st) (snd st') evs.

Lemma adds_markers_refl st : state_ok st -> adds_markers st st.
Proof. intros [_ H]. split; [done|]. exists []. split; [constructor|by apply recorded_refl]. Qed.

Lemma adds_markers_ok st st' : state_ok st -> adds_markers st st' -> state_ok st'.
Proof.
  intros [Hs Hw] (Hc & evs & _ & Hr). split; [by rewrite Hc|]. apply (rec_wf _ _ _ Hr).
Qed.

Lemma adds_markers_trans st1 st2 st3 :
  adds_markers st1 st2 -> adds_markers st2 st3 -> adds_markers st1 st3.
Proof.
  intros (C1 & e1 & F1 & R1) (C2 & e2 & F2 & R2). split; [congruence|].
  exists (e1 ++ e2). split; [by apply Forall_app|by eapply recorded_trans].
Qed.

Lemma record_drop_event_adds st t ns st' res :
  state_ok st -> t = PPME_DROP_E \/ t = PPME_DROP_X ->
  record_drop_event k fillers events_mask st t ns = (st', res) -> adds_markers st st'.
Proof.
  intros [Hs Hw] Ht H. destruct st as [c rb]. simpl in H.
  case_in H; [simplify_eq; by apply adds_markers_refl|].
  destruct (record_on_cpu _ _ _ _ _ _ _ _) as [rb' r] eqn:E. simplify_eq.
  apply record_on_cpu_recorded in E; [|done..]. split; [done|].
  destruct E as [[_ Hr]|(_ & e & He & Hr)]; [exists []; auto|exists [e]].
  split; [|done]. constructor; [|constructor]. destruct He as (_ & _ & He & _).
  unfold is_marker. rewrite He. exact Ht.
Qed.

Lemma record_drop_e_adds st ns :
  state_ok st -> adds_markers st (record_drop_e k fillers events_mask st ns).
Proof.
  intros H. unfold record_drop_e.
  destruct (record_drop_event _ _ _ _ _ _) as [[c rb] res] eqn:E.
  eapply record_drop_event_adds in E; auto.
Qed.

Lemma record_drop_x_adds st ns :
  state_ok st -> adds_markers st (record_drop_x k fillers events_mask st ns).
Proof.
  intros H. unfold record_drop_x.
  destruct (record_drop_event _ _ _ _ _ _) as [[c rb] res] eqn:E.
  eapply record_drop_event_adds in E; auto.
Qed.

Lemma drop_event_adds st t df ns st' d :
  state_ok st -> drop_event k fillers events_mask st t df ns = (st', d) ->
  adds_markers st st'.
Proof.
  intros H E. unfold drop_event in E. cbv zeta in E.
  repeat (case_in E; [simplify_eq; try by apply adds_markers_refl|]);
    repeat case_in E; simplify_eq; try by apply adds_markers_refl.
  - by apply (record_drop_e_adds (set_is_dropping (fst st) 1, snd st)).
  - by apply (record_drop_x_adds (set_is_dropping (fst st) 0, snd st)).
Qed.
End consumer_spec.

(** C2: recording an event for a consumer moves no tail, writes no byte outside
    the ring's allocation and keeps the ring well formed; the bytes not read
    yet grow by whole event records: at most drop markers and, exactly when the
    function returns 1, one record of the requested event, with the time stamp,
    the thread and as many parameters as the event table declares. *)
Theorem record_event_consumer_appends (k : kenv) (fillers : ppm_filler_id -> filler)
    (events_mask : Z -> bool) (st st' : cpu_state) (t drop_flags ns : Z) (ed : event_data_t)
    (res : Z) :
  FillersOK fillers -> state_ok st ->
  record_event_consumer k fillers events_mask st t drop_flags ns ed = (st', res) ->
  exists markers evs, Forall is_marker markers /\
    recorded (snd st) (snd st') (markers ++ evs) /\
    ((res = 0 /\ evs = []) \/
     (res = 1 /\ exists e, evs = [e] /\ records_event k t ns ed e)).
Proof.
  intros HF Hst H. unfold record_event_consumer in H.
  case_in H.
  { simplify_eq. exists [], []. split; [constructor|]. split; [|by left].
    apply recorded_refl, Hst. }
  destruct (if negb (t =? PPME_DROP_E) && negb (t =? PPME_DROP_X) then _ else _)
    as [st1 d] eqn:Ed.
  assert (Hadd : adds_markers st st1).
  { case_in Ed; [|simplify_eq; by apply adds_markers_refl].
    set (st0 := if need_to_insert_drop_e (fst st) =? 1 then _ else _) in Ed.
    assert (H0 : adds_markers st st0).
    { unfold st0. repeat case_if; [by apply record_drop_e_adds|by apply record_drop_x_adds|].
      by apply adds_markers_refl. }
    eapply adds_markers_trans; [exact H0|]. eapply drop_event_adds; [exact _| |exact Ed].
    by eapply adds_markers_ok. }
  pose proof (adds_markers_ok _ _ Hst Hadd) as [Hs1 Hw1].
  destruct Hadd as (_ & markers & Hm & Hr). exists markers.
  case_in H; [simplify_eq; exists []; rewrite app_nil_r; auto|].
  destruct st1 as [c rb]. destruct (record_on_cpu _ _ _ _ _ _ _ _) as [rb' r] eqn:E. simplify_eq.
  apply record_on_cpu_recorded in E; [|done..].
  destruct E as [[-> Hr2]|(-> & e & He & Hr2)]; [exists []|exists [e]];
    (split; [done|]); (split; [by eapply recorded_trans|]); eauto.
Qed.

(** A [close] event recorded ten bytes before the end of the ring. *)
Definition sample_record : cpu_state * Z :=
  record_event_consumer sample_kenv sample_fillers (fun _ => true)
    (sample_consumer, sample_ring (RING_BUF_SIZE - 10)) PPME_SYSCALL_CLOSE_E UF_USED 1000
    sample_syscall.

Lemma sample_record_res : snd sample_record = 1.
Proof. vm_compute. reflexivity. Qed.

Lemma sample_record_length : length (unread (snd (fst sample_record))) = 36%nat.
Proof. vm_compute. reflexivity. Qed.

Lemma record_event_consumer_appends_witness :
  exists e, unread (snd (fst sample_record)) = bytes_of_event e /\
    ev_type e = PPME_SYSCALL_CLOSE_E /\ length (ev_params e) = 1%nat.
Proof.
  destruct (record_event_consumer_appends sample_kenv sample_fillers (fun _ => true)
    (sample_consumer, sample_ring (RING_BUF_SIZE - 10)) (fst sample_record)
    PPME_SYSCALL_CLOSE_E UF_USED 1000 sample_syscall 1 sample_fillers_ok)
    as (markers & evs & Hm & Hr & Hres).
  - split; [simpl; lia|]. split; simpl; unfold RING_BUF_SIZE; lia.
  - rewrite <- sample_record_res. unfold sample_record. apply surjective_pairing.
  - destruct Hres as [[H _]|(_ & e & -> & He)]; [discriminate H|].
    destruct markers as [|mk ms].
    + exists e. split.
      * rewrite (rec_unread _ _ _ Hr). simpl. by rewrite app_nil_r.
      * destruct He as (_ & _ & He & Hp). rewrite He in Hp |- *. split; [done|].
        apply Nat2Z.inj. rewrite Hp. reflexivity.
    + exfalso. pose proof (f_equal (@length _) (rec_unread _ _ _ Hr)) as Hl.
      rewrite length_app in Hl. cbn [app map concat] in Hl. rewrite length_app, map_app, concat_app, length_app in Hl.
      rewrite sample_record_length in Hl.
      pose proof (event_length (ev_ts mk) (ev_tid mk) (ev_type mk) (ev_params mk)) as H1.
      pose proof (event_length (ev_ts e) (ev_tid e) (ev_type e) (ev_params e)) as H2.
      pose proof (zsum_lens_nonneg (ev_params mk)). pose proof (zsum_lens_nonneg (ev_params e)).
      cbn [map concat] in Hl. rewrite length_app in Hl. unfold bytes_of_event in Hl.
      unfold sizeof_ppm_evt_hdr in *. lia.
Defined.

(** ** The dropping policy. *)

(** Inside the part of each second that is not sampled. *)
Definition in_drop_window (c : ppm_consumer) (ns : Z) : bool :=
  (sampling_interval c <? SECOND_IN_NS) && (sampling_interval c <=? ns mod SECOND_IN_NS).

Definition policy_drops (k : kenv) (c : ppm_consumer) (t drop_flags ns : Z) : bool :=
  let mode := negb (dropping_mode c =? 0) in
  (mode && drop_nostate_event k t)
  || (mode && negb (has_flag drop_flags UF_NEVER_DROP)
      && (has_flag drop_flags UF_ALWAYS_DROP || in_drop_window c ns)).

Lemma drop_markers_keep k fillers mask c rb ns :
  sampling_interval (fst (record_drop_e k fillers mask (c, rb) ns)) = sampling_interval c /\
  is_dropping (fst (record_drop_e k fillers mask (c, rb) ns)) = is_dropping c /\
  is_dropping (fst (record_drop_x k fillers mask (c, rb) ns)) = is_dropping c.
Proof.
  unfold record_drop_e, record_drop_x, record_drop_event.
  split; [|split]; repeat case_if; simpl in *; simplify_eq; try done;
    repeat match goal with H : (let '(_, _) := ?x in _) = _ |- _ => destruct x; simplify_eq end;
    done.
Qed.

(** The dropping decision is the documented policy: nothing is dropped
    outside dropping mode; in dropping mode a stateless close, bind or fcntl is
    dropped first, an event marked never-drop is otherwise kept, an event marked
    always-drop is dropped, and the rest is dropped exactly in the part of each
    second past the sampling interval; after a decision by sampling,
    [is_dropping] says which side of the interval the event was on. *)
Theorem drop_event_policy (k : kenv) (fillers : ppm_filler_id -> filler) (mask : Z -> bool)
    (st : cpu_state) (t drop_flags ns : Z) :
  let '(st', d) := drop_event k fillers mask st t drop_flags ns in
  d = policy_drops k (fst st) t drop_flags ns /\
  (dropping_mode (fst st) = 0 -> d = false /\ st' = st) /\
  (dropping_mode (fst st) <> 0 -> drop_nostate_event k t = false ->
   has_flag drop_flags UF_NEVER_DROP = false -> has_flag drop_flags UF_ALWAYS_DROP = false ->
   is_dropping (fst st) = 0 \/ is_dropping (fst st) = 1 ->
   is_dropping (fst st') = if in_drop_window (fst st) ns then 1 else 0).
Proof.
  destruct st as [c rb]. unfold drop_event, policy_drops, in_drop_window. cbn [fst snd].
  destruct (Z.eqb_spec (dropping_mode c) 0) as [->|Hm]; cbn [negb andb orb].
  { destruct (has_flag drop_flags UF_NEVER_DROP); repeat split; auto; congruence. }
  destruct (drop_nostate_event k t) eqn:En; [repeat split; auto; congruence|].
  destruct (has_flag drop_flags UF_NEVER_DROP) eqn:Ev; [repeat split; auto; congruence|].
  destruct (has_flag drop_flags UF_ALWAYS_DROP) eqn:Ea; [repeat split; auto; congruence|].
  cbn [negb orb]. destruct (_ && _) eqn:Ew.
  - destruct (Z.eqb_spec (is_dropping c) 0) as [Hd|Hd]; repeat split; auto; try congruence;
      cbn [fst]; intros.
    + by rewrite (proj1 (proj2 (drop_markers_keep k fillers mask (set_is_dropping c 1) rb ns))).
    + lia.
  - destruct (Z.eqb_spec (is_dropping c) 1) as [Hd|Hd]; repeat split; auto; try congruence;
      cbn [fst]; intros.
    + by rewrite (proj2 (proj2 (drop_markers_keep k fillers mask (set_is_dropping c 0) rb ns))).
    + lia.
Qed.

(** Sampling keeps the first half of each second. *)
Lemma drop_event_policy_witness :
  let c := mk_consumer sample_cfg 2 500000000 0 1 0 0 in
  let st' := fst (drop_event sample_kenv sample_fillers (fun _ => true) (c, sample_ring 0)
                    PPME_SYSCALL_OPEN_X UF_USED 1700000000) in
  is_dropping (fst st') = 1.
Proof.
  intros c.
  pose proof (drop_event_policy sample_kenv sample_fillers (fun _ => true) (c, sample_ring 0)
                PPME_SYSCALL_OPEN_X UF_USED 1700000000) as H.
  destruct (drop_event _ _ _ _ _ _ _) as [st' d]. cbn [fst] in *.
  destruct H as (_ & _ & H). rewrite H; try reflexivity; [discriminate|by left].
Defined.
