(* ===== verification/Consumers.v ===== *)
(** * Consumers, the device operations and CPU hotplug: [driver/main.c]

    A consumer is a thread that opened the per-CPU devices; the driver keeps
    the consumers on [g_consumer_list], each with a ring per possible CPU, and
    registers its tracepoint probes while there is one.  This file models the
    list with the memory behind it, [ppm_open], [ppm_release], [ppm_ioctl],
    [ppm_mmap] and the hotplug callback.

    A consumer is an address in [heap]; following a pointer to memory that was
    freed, or a null ring pointer, has no result: operations return an [option]
    and [None] is that undefined behaviour.  What the kernel decides (whether an
    allocation or a registration succeeds, which CPUs are online, the clock) is
    an argument.  The configuration is x86-64 with kernel 4.20 or later, where
    every [CAPTURE_*] feature is compiled in. *)

From Stdlib Require Import ZArith Lia List Bool.
From Stdlib Require Import Strings.Byte.
From stdpp Require Import base tactics list numbers option countable gmap.
From S2P Require Import Prelude Bytes EventDefs EventTable FillerTable.
From S2P Require Import ValToRing ValToRingSpec Fillers Ring.
Import ListNotations.
Local Open Scope Z_scope.

Definition EIO : Z := 5.
Definition EPERM : Z := 1.
Definition ENOMEM : Z := 12.
Definition EBUSY : Z := 16.
Definition ENODEV : Z := 19.
Definition EINVAL : Z := 22.
Definition ENOTTY : Z := 25.
Definition ENOSPC : Z := 28.

(** ** State. *)

(** The tracepoint probes and the kprobes of the driver. *)
Inductive probe : Set :=
| sys_exit | sys_enter | sched_process_exit | sched_switch | signal_deliver
| net_dev_xmit | page_fault_user | page_fault_kernel.

Inductive kprobe : Set :=
| kp_tcp_rcv_established | kp_tcp_retransmit_skb | kp_tcp_drop.

#[global] Instance probe_eq_dec : EqDecision probe.
Proof. solve_decision. Defined.
#[global] Instance kprobe_eq_dec : EqDecision kprobe.
Proof. solve_decision. Defined.

Definition probe_code (p : probe) : nat :=
  match p with
  | sys_exit => 0 | sys_enter => 1 | sched_process_exit => 2 | sched_switch => 3
  | signal_deliver => 4 | net_dev_xmit => 5 | page_fault_user => 6
  | page_fault_kernel => 7
  end.
Definition probe_decode (n : nat) : option probe :=
  [sys_exit; sys_enter; sched_process_exit; sched_switch; signal_deliver; net_dev_xmit;
   page_fault_user; page_fault_kernel] !! n.
#[global] Program Instance probe_countable : Countable probe :=
  inj_countable probe_code probe_decode _.
Next Obligation. intros []; reflexivity. Qed.

Definition kprobe_code (p : kprobe) : nat :=
  match p with
  | kp_tcp_rcv_established => 0 | kp_tcp_retransmit_skb => 1 | kp_tcp_drop => 2
  end.
Definition kprobe_decode (n : nat) : option kprobe :=
  [kp_tcp_rcv_established; kp_tcp_retransmit_skb; kp_tcp_drop] !! n.
#[global] Program Instance kprobe_countable : Countable kprobe :=
  inj_countable kprobe_code kprobe_decode _.
Next Obligation. intros []; reflexivity. Qed.

(** A per-CPU [struct ppm_ring_buffer_context]: its contents and which of its
    pointers are not null. *)
Record percpu_ring : Type := mk_percpu {
  ctx : ppm_ring_buffer_context;
  has_str_storage : bool;
  has_buffer : bool;
  has_info : bool }.

(** [struct ppm_consumer_t] *)
Record ppm_consumer_t : Type := mk_consumer_t {
  consumer_id : Z;
  ring_buffers : list percpu_ring;
  settings : ppm_consumer }.

(** The globals of the driver; [tracepoints] and [kprobes_on] are what the
    kernel has registered for it. *)
Record globals : Type := mk_globals {
  g_tracepoint_registered : bool;
  g_kprobe_registered : bool;
  g_fault_tracepoint_registered : bool;
  g_fault_tracepoint_disabled : bool;
  g_tracers : bool;
  g_simple_mode_enabled : bool;
  g_events_mask : Z -> bool;
  g_n_tracepoint_hit : list Z;
  tracepoints : gset probe;
  kprobes_on : gset kprobe }.

Record driver : Type := mk_driver {
  g_consumer_list : list Z;
  heap : gmap Z ppm_consumer_t;
  glob : globals }.

Definition set_glob (d : driver) (g : globals) : driver :=
  mk_driver (g_consumer_list d) (heap d) g.
Definition set_consumer (d : driver) (a : Z) (c : ppm_consumer_t) : driver :=
  mk_driver (g_consumer_list d) (<[a := c]> (heap d)) (glob d).

Definition set_registered (g : globals) (v : bool) : globals :=
  mk_globals v (g_kprobe_registered g) (g_fault_tracepoint_registered g)
    (g_fault_tracepoint_disabled g) (g_tracers g) (g_simple_mode_enabled g)
    (g_events_mask g) (g_n_tracepoint_hit g) (tracepoints g) (kprobes_on g).
Definition set_kprobes (g : globals) (v : bool) (ks : gset kprobe) : globals :=
  mk_globals (g_tracepoint_registered g) v (g_fault_tracepoint_registered g)
    (g_fault_tracepoint_disabled g) (g_tracers g) (g_simple_mode_enabled g)
    (g_events_mask g) (g_n_tracepoint_hit g) (tracepoints g) ks.
Definition set_fault_registered (g : globals) (v : bool) : globals :=
  mk_globals (g_tracepoint_registered g) (g_kprobe_registered g) v
    (g_fault_tracepoint_disabled g) (g_tracers g) (g_simple_mode_enabled g)
    (g_events_mask g) (g_n_tracepoint_hit g) (tracepoints g) (kprobes_on g).
Definition set_modes (g : globals) (tracers simple : bool) : globals :=
  mk_globals (g_tracepoint_registered g) (g_kprobe_registered g)
    (g_fault_tracepoint_registered g) (g_fault_tracepoint_disabled g) tracers simple
    (g_events_mask g) (g_n_tracepoint_hit g) (tracepoints g) (kprobes_on g).
Definition set_mask (g : globals) (m : Z -> bool) : globals :=
  mk_globals (g_tracepoint_registered g) (g_kprobe_registered g)
    (g_fault_tracepoint_registered g) (g_fault_tracepoint_disabled g) (g_tracers g)
    (g_simple_mode_enabled g) m (g_n_tracepoint_hit g) (tracepoints g) (kprobes_on g).
Definition set_hits (g : globals) (l : list Z) : globals :=
  mk_globals (g_tracepoint_registered g) (g_kprobe_registered g)
    (g_fault_tracepoint_registered g) (g_fault_tracepoint_disabled g) (g_tracers g)
    (g_simple_mode_enabled g) (g_events_mask g) l (tracepoints g) (kprobes_on g).
Definition set_tracepoints (g : globals) (ps : gset probe) : globals :=
  mk_globals (g_tracepoint_registered g) (g_kprobe_registered g)
    (g_fault_tracepoint_registered g) (g_fault_tracepoint_disabled g) (g_tracers g)
    (g_simple_mode_enabled g) (g_events_mask g) (g_n_tracepoint_hit g) ps (kprobes_on g).

(** [compat_register_trace]: [ret] is what the kernel answers. *)
Definition compat_register_trace (ret : probe -> Z) (p : probe) (g : globals) : globals * Z :=
  (if ret p =? 0 then set_tracepoints g ({[p]} ∪ tracepoints g) else g, ret p).

Definition compat_unregister_trace (p : probe) (g : globals) : globals :=
  set_tracepoints g (tracepoints g ∖ {[p]}).

(** ** Ring memory. *)

Definition zero_info : ppm_ring_buffer_info := mk_info 0 0 0 0 0 0 0.

Definition set_ctx (r : percpu_ring) (c : ppm_ring_buffer_context) : percpu_ring :=
  mk_percpu c (has_str_storage r) (has_buffer r) (has_info r).

Definition set_flags (r : percpu_ring) (online open capture : bool) : percpu_ring :=
  let c := ctx r in
  set_ctx r (mk_ring online open capture (info c) (ring_buffer c) (last_print_time c)
               (ring_nevents c) (preempt_count c) (ring_str_storage c) (kernel_mem c)).

(** [reset_ring_buffer], which writes through [ring->info]. *)
Definition reset_ring_buffer (now : Z) (r : percpu_ring) : option percpu_ring :=
  if negb (has_info r) then None
  else
    let c := ctx r in
    Some (set_ctx r (mk_ring (cpu_online c) false false zero_info (ring_buffer c) now 0
                       (preempt_count c) (ring_str_storage c) (kernel_mem c))).

Definition free_ring_buffer (r : percpu_ring) : percpu_ring := mk_percpu (ctx r) false false false.

(** What the allocator answers for one ring: the string page, the buffer and
    the info structure. *)
Record ring_alloc_env : Type := mk_ring_alloc {
  ra_str : option Z;
  ra_buffer : bool;
  ra_info : bool }.

Definition init_ring_buffer (now : Z) (e : ring_alloc_env) (r : percpu_ring) :
    option (percpu_ring * bool) :=
  match ra_str e with
  | None => Some (free_ring_buffer (mk_percpu (ctx r) false (has_buffer r) (has_info r)), false)
  | Some page =>
      let c := ctx r in
      let c1 := mk_ring (cpu_online c) (open_ c) (capture_enabled c) (info c) (ring_buffer c)
                  (last_print_time c) (ring_nevents c) (preempt_count c) page (kernel_mem c) in
      if negb (ra_buffer e)
      then Some (free_ring_buffer (mk_percpu c1 true false (has_info r)), false)
      else
        let c2 := mk_ring (cpu_online c) (open_ c) (capture_enabled c) (info c) mem_zero
                    (last_print_time c) (ring_nevents c) (preempt_count c) page
                    (kernel_mem c) in
        if negb (ra_info e)
        then Some (free_ring_buffer (mk_percpu c2 true true false), false)
        else
          r3 ← reset_ring_buffer now (mk_percpu c2 true true true);
          let c3 := ctx r3 in
          Some (set_ctx r3 (mk_ring (cpu_online c3) (open_ c3) (capture_enabled c3) (info c3)
                  (ring_buffer c3) (last_print_time c3) (ring_nevents c3) 0
                  (ring_str_storage c3) (kernel_mem c3)), true)
  end.

(** ** The consumer list. *)

Fixpoint find_consumer_in (h : gmap Z ppm_consumer_t) (cid : Z) (l : list Z) :
    option (option Z) :=
  match l with
  | [] => Some None
  | a :: l' =>
      c ← h !! a;
      if consumer_id c =? cid then Some (Some a) else find_consumer_in h cid l'
  end.

Definition ppm_find_consumer (d : driver) (cid : Z) : option (option Z) :=
  find_consumer_in (heap d) cid (g_consumer_list d).

Definition has_open_ring (c : ppm_consumer_t) : bool :=
  existsb (fun r => open_ (ctx r)) (ring_buffers c).

(** [check_remove_consumer]: freeing the rings and the consumer takes its
    address out of the heap; it leaves the list only on request. *)
Definition check_remove_consumer (d : driver) (a : Z) (remove_from_list : bool) :
    option driver :=
  c ← heap d !! a;
  if has_open_ring c then Some d
  else
    let l := if remove_from_list then base.filter (fun x => x <> a) (g_consumer_list d)
             else g_consumer_list d in
    Some (mk_driver l (delete a (heap d)) (glob d)).

(** ** [ppm_open] *)

(** What the kernel answers during an open: the calling thread, the minor
    number, the allocations, the CPUs that are online, the registrations and
    the clock.  [oe_stale] is the contents of the memory [vmalloc] returns. *)
Record open_env : Type := mk_open_env {
  oe_current : Z;
  oe_ring_no : nat;
  oe_vmalloc : option Z;
  oe_percpu : option (mem);
  oe_stale : ppm_consumer;
  oe_rings : nat -> ring_alloc_env;
  oe_online : list nat;
  oe_register : probe -> Z;
  oe_register_kprobe : kprobe -> Z;
  oe_now : Z }.

(** The rings after [alloc_percpu] and the first loop: zero, pointers null. *)
Definition null_ring (km : mem) : percpu_ring :=
  mk_percpu (mk_ring false false false zero_info mem_zero 0 0 0 0 km) false false false.

(** The loop over the online CPUs. *)
Fixpoint init_rings (e : open_env) (cpus : list nat) (rs : list percpu_ring) :
    option (list percpu_ring * bool) :=
  match cpus with
  | [] => Some (rs, true)
  | cpu :: cpus' =>
      r ← rs !! cpu;
      x ← init_ring_buffer (oe_now e) (oe_rings e cpu) r;
      let '(r', ok) := x in
      if negb ok then Some (<[cpu := r']> rs, false)
      else
        init_rings e cpus'
          (<[cpu := set_flags r' true (open_ (ctx r')) (capture_enabled (ctx r'))]> rs)
  end.

(** The branch of [ppm_open] for a thread that is not yet a consumer: the
    failure with its code, or the address of the new consumer. *)
Definition create_consumer (max_consumers : Z) (possible : nat) (e : open_env) (d : driver) :
    option (driver * (Z + Z)) :=
  if max_consumers <=? Z.of_nat (length (g_consumer_list d)) then Some (d, inl (- EBUSY))
  else
    match oe_vmalloc e, oe_percpu e with
    | Some a, Some km =>
        x ← init_rings e (oe_online e) (replicate possible (null_ring km));
        let (rs, ok) := (x : list percpu_ring * bool) in
        let d1 := set_consumer d a (mk_consumer_t (oe_current e) rs (oe_stale e)) in
        if ok then Some (mk_driver (a :: g_consumer_list d1) (heap d1) (glob d1), inr a)
        else d2 ← check_remove_consumer d1 a false; Some (d2, inl (- ENOMEM))
    | _, _ => Some (d, inl (- ENOMEM))
    end.

(** The settings [ppm_open] gives a consumer. *)
Definition open_settings : ppm_consumer :=
  mk_consumer (mk_cfg RW_SNAPLEN false 0 0 PPM_PORT_STATSD) 1 0 0 0 0 0.

Definition bitmap_fill : Z -> bool := fun _ => true.

(** The error labels of [ppm_open], each falling through to the next. *)
Definition err_sys_enter (g : globals) : globals := compat_unregister_trace sys_exit g.
Definition err_sched_procexit (g : globals) : globals :=
  err_sys_enter (compat_unregister_trace sys_enter g).
Definition err_sched_switch (g : globals) : globals :=
  err_sched_procexit (compat_unregister_trace sched_process_exit g).
Definition err_signal_deliver (g : globals) : globals :=
  err_sched_switch (compat_unregister_trace sched_switch g).
Definition err_net_dev_xmit (g : globals) : globals :=
  err_signal_deliver (compat_unregister_trace net_dev_xmit g).

(** The registration of the kprobes, whose failures are only logged. *)
Definition register_kprobe (ret : kprobe -> Z) (p : kprobe) (ks : gset kprobe) : gset kprobe :=
  if ret p =? 0 then {[p]} ∪ ks else ks.

Definition register_kprobes (ret : kprobe -> Z) (g : globals) : globals :=
  if g_kprobe_registered g then g
  else set_kprobes g true
         (register_kprobe ret kp_tcp_drop
            (register_kprobe ret kp_tcp_retransmit_skb
               (register_kprobe ret kp_tcp_rcv_established (kprobes_on g)))).

(** The block under [if (!g_tracepoint_registered)]. *)
Definition start_capture (e : open_env) (g : globals) : globals * Z :=
  let reg := compat_register_trace (oe_register e) in
  let '(g, ret) := reg sys_exit g in
  if negb (ret =? 0) then (g, ret) else
  let '(g, ret) := reg sys_enter g in
  if negb (ret =? 0) then (err_sys_enter g, ret) else
  let '(g, ret) := reg sched_process_exit g in
  if negb (ret =? 0) then (err_sched_procexit g, ret) else
  let '(g, ret) := reg sched_switch g in
  if negb (ret =? 0) then (err_sched_switch g, ret) else
  let '(g, ret) := reg signal_deliver g in
  if negb (ret =? 0) then (err_signal_deliver g, ret) else
  let g := register_kprobes (oe_register_kprobe e) g in
  let '(g, ret) := reg net_dev_xmit g in
  if negb (ret =? 0) then (err_net_dev_xmit g, ret) else
  (set_registered g true, 0).

(** From the check of the ring to the end: [in_list] is the local variable of
    that name. *)
Definition open_ring (e : open_env) (d : driver) (a : Z) (in_list : bool) :
    option (driver * Z) :=
  let n := oe_ring_no e in
  c ← heap d !! a;
  r ← ring_buffers c !! n;
  if negb (cpu_online (ctx r)) || negb (has_buffer r) then Some (d, - ENODEV)
  else if open_ (ctx r) then Some (d, - EBUSY)
  else
    r1 ← reset_ring_buffer (oe_now e) r;
    let r2 := set_flags r1 (cpu_online (ctx r1)) true (capture_enabled (ctx r1)) in
    let c2 := mk_consumer_t (consumer_id c) (<[n := r2]> (ring_buffers c)) open_settings in
    let d2 := set_glob (set_consumer d a c2) (set_mask (glob d) bitmap_fill) in
    if g_tracepoint_registered (glob d2) then Some (d2, 0)
    else
      let '(g, ret) := start_capture e (glob d2) in
      if ret =? 0 then Some (set_glob d2 g, 0)
      else
        let r3 := set_flags r2 (cpu_online (ctx r2)) false (capture_enabled (ctx r2)) in
        let c3 := mk_consumer_t (consumer_id c) (<[n := r3]> (ring_buffers c)) open_settings in
        d3 ← check_remove_consumer (set_consumer (set_glob d2 g) a c3) a in_list;
        Some (d3, ret).

Definition ppm_open (max_consumers : Z) (possible : nat) (e : open_env) (d : driver) :
    option (driver * Z) :=
  found ← ppm_find_consumer d (oe_current e);
  match found with
  | Some a => open_ring e d a false
  | None =>
      x ← create_consumer max_consumers possible e d;
      match x with
      | (d1, inl ret) => Some (d1, ret)
      | (d1, inr a) => open_ring e d1 a true
      end
  end.

(** ** [ppm_release] *)

(** An open file: [filp->private_data] and the minor number. *)
Definition filp : Type := Z * nat.

(** The block that stops the capture. *)
Definition stop_capture (g : globals) : globals :=
  let g := compat_unregister_trace signal_deliver
             (compat_unregister_trace sched_switch
                (compat_unregister_trace sched_process_exit
                   (compat_unregister_trace sys_enter
                      (compat_unregister_trace sys_exit g)))) in
  let g := if g_fault_tracepoint_registered g
           then set_fault_registered
                  (compat_unregister_trace page_fault_kernel
                     (compat_unregister_trace page_fault_user g)) false
           else g in
  let g := compat_unregister_trace net_dev_xmit g in
  let g := set_registered g false in
  let g := set_modes g (g_tracers g) false in
  set_hits g (map (fun _ => 0) (g_n_tracepoint_hit g)).

Definition ppm_release (f : filp) (d : driver) : option (driver * Z) :=
  let '(cid, n) := f in
  found ← ppm_find_consumer d cid;
  match found with
  | None => Some (d, - EBUSY)
  | Some a =>
      c ← heap d !! a;
      r ← ring_buffers c !! n;
      if negb (open_ (ctx r)) then Some (d, - EBUSY)
      else
        let r' := set_flags r (cpu_online (ctx r)) false false in
        let c' := mk_consumer_t (consumer_id c) (<[n := r']> (ring_buffers c)) (settings c) in
        d' ← check_remove_consumer (set_consumer d a c') a true;
        Some (if bool_decide (g_consumer_list d' = []) && g_tracepoint_registered (glob d')
              then set_glob d' (stop_capture (glob d')) else d', 0)
  end.

(** ** Recording for all consumers. *)

(** The context of an event: the CPU it happens on and what the driver sees
    of the kernel there. *)
Record event_env : Type := mk_event_env {
  ee_cpu : nat;
  ee_kenv : kenv;
  ee_now : Z }.

Definition kenv_tracers (k : kenv) (b : bool) : kenv :=
  mk_kenv (access_ok k) (copy_inatomic k) b (fd_rdev k) (fd_sb_dev k) (literal_addr k)
    (sockfd_lookup k) (uninit k) (syscall_args k) (syscall_retval k) (current_pid k)
    (max_fds k) (fd_is_open k) (stale_spid k) (stale_fd k) (stale_socketcall_args k).

(** [list_for_each_entry_rcu] with a body that updates the consumer. *)
Fixpoint for_each_consumer (body : ppm_consumer_t -> option ppm_consumer_t) (l : list Z)
    (h : gmap Z ppm_consumer_t) : option (gmap Z ppm_consumer_t) :=
  match l with
  | [] => Some h
  | a :: l' => c ← h !! a; c' ← body c; for_each_consumer body l' (<[a := c']> h)
  end.

Section recording.
Context (fillers : ppm_filler_id -> filler).

(** All the pointers of the ring are set. *)
Definition ring_ready (r : percpu_ring) : bool := has_str_storage r && has_buffer r && has_info r.

(** [record_event_consumer] on the ring of this CPU.  A ring with the capture
    enabled is written through its pointers; the model already stops there when
    one is null, whatever the event. *)
Definition record_for (ee : event_env) (g : globals) (c : ppm_consumer_t)
    (t drop_flags : Z) (ed : event_data_t) : option ppm_consumer_t :=
  r ← ring_buffers c !! ee_cpu ee;
  if capture_enabled (ctx r) && negb (ring_ready r)
  then None
  else
    let '((s', r'), _) :=
      record_event_consumer (kenv_tracers (ee_kenv ee) (g_tracers g)) fillers (g_events_mask g)
        (settings c, ctx r) t drop_flags (ee_now ee) ed in
    Some (mk_consumer_t (consumer_id c) (<[ee_cpu ee := set_ctx r r']> (ring_buffers c)) s').

Definition record_event_all_consumers (ee : event_env) (d : driver) (t drop_flags : Z)
    (ed : event_data_t) : option driver :=
  h ← for_each_consumer (fun c => record_for ee (glob d) c t drop_flags ed)
        (g_consumer_list d) (heap d);
  Some (mk_driver (g_consumer_list d) h (glob d)).

(** ** CPU hotplug. *)

Definition set_cpu_online (cpu : nat) (v : bool) (c : ppm_consumer_t) : option ppm_consumer_t :=
  r ← ring_buffers c !! cpu;
  Some (mk_consumer_t (consumer_id c)
          (<[cpu := set_flags r v (open_ (ctx r)) (capture_enabled (ctx r))]> (ring_buffers c))
          (settings c)).

(** [do_cpu_callback]; [stale] is what the local [event_data] holds in the
    fields that are not set. *)
Definition do_cpu_callback (ee : event_env) (stale : Z * bool) (cpu : nat) (sd_action : Z)
    (d : driver) : option driver :=
  if sd_action =? 0 then Some d
  else
    h ← for_each_consumer
          (fun c => if sd_action =? 1 then set_cpu_online cpu true c
                    else if sd_action =? 2 then set_cpu_online cpu false c else Some c)
          (g_consumer_list d) (heap d);
    record_event_all_consumers ee (mk_driver (g_consumer_list d) h (glob d))
      PPME_CPU_HOTPLUG_E UF_NEVER_DROP
      (mk_event_data PPMC_CONTEXT_SWITCH (fst stale) (snd stale)
         (context_data (Z.of_nat cpu) sd_action)).
End recording.

(** ** [ppm_ioctl] *)

(** [_IO('s', n)] *)
Definition PPM_IOCTL (n : Z) : Z := Z.lor (Z.shiftl 115 8) n.
Definition PPM_IOCTL_DISABLE_CAPTURE : Z := PPM_IOCTL 0.
Definition PPM_IOCTL_ENABLE_CAPTURE : Z := PPM_IOCTL 1.
Definition PPM_IOCTL_DISABLE_DROPPING_MODE : Z := PPM_IOCTL 2.
Definition PPM_IOCTL_ENABLE_DROPPING_MODE : Z := PPM_IOCTL 3.
Definition PPM_IOCTL_SET_SNAPLEN : Z := PPM_IOCTL 4.
Definition PPM_IOCTL_MASK_ZERO_EVENTS : Z := PPM_IOCTL 5.
Definition PPM_IOCTL_MASK_SET_EVENT : Z := PPM_IOCTL 6.
Definition PPM_IOCTL_MASK_UNSET_EVENT : Z := PPM_IOCTL 7.
Definition PPM_IOCTL_DISABLE_DYNAMIC_SNAPLEN : Z := PPM_IOCTL 8.
Definition PPM_IOCTL_ENABLE_DYNAMIC_SNAPLEN : Z := PPM_IOCTL 9.
Definition PPM_IOCTL_GET_VTID : Z := PPM_IOCTL 10.
Definition PPM_IOCTL_GET_VPID : Z := PPM_IOCTL 11.
Definition PPM_IOCTL_GET_CURRENT_TID : Z := PPM_IOCTL 12.
Definition PPM_IOCTL_GET_CURRENT_PID : Z := PPM_IOCTL 13.
Definition PPM_IOCTL_DISABLE_SIGNAL_DELIVER : Z := PPM_IOCTL 14.
Definition PPM_IOCTL_ENABLE_SIGNAL_DELIVER : Z := PPM_IOCTL 15.
Definition PPM_IOCTL_GET_PROCLIST : Z := PPM_IOCTL 16.
Definition PPM_IOCTL_SET_TRACERS_CAPTURE : Z := PPM_IOCTL 17.
Definition PPM_IOCTL_SET_SIMPLE_MODE : Z := PPM_IOCTL 18.
Definition PPM_IOCTL_ENABLE_PAGE_FAULTS : Z := PPM_IOCTL 19.
Definition PPM_IOCTL_GET_N_TRACEPOINT_HIT : Z := PPM_IOCTL 20.
Definition PPM_IOCTL_GET_PROBE_VERSION : Z := PPM_IOCTL 21.
Definition PPM_IOCTL_SET_FULLCAPTURE_PORT_RANGE : Z := PPM_IOCTL 22.
Definition PPM_IOCTL_SET_STATSD_PORT : Z := PPM_IOCTL 23.

Definition DEI_DISABLE_DROPPING : Z := 1.

(** [struct ppm_proc_info] *)
Record ppm_proc_info : Type := mk_proc_info { pi_pid : Z; pi_utime : Z; pi_stime : Z }.

Definition sizeof_ppm_proclist_info : Z := 16.
Definition sizeof_ppm_proc_info : Z := 24.

(** What the kernel answers during an ioctl.  [ie_proclist] is the
    [max_entries] that [copy_from_user] reads, when it succeeds; [ie_tasks] the
    threads in the order [for_each_process_thread] visits them; [ie_put] whether
    the n-th [put_user] succeeds; [ie_vids] the thread and process ids of an id
    in its own namespace. *)
Record ioctl_env : Type := mk_ioctl_env {
  ie_event : event_env;
  ie_arg : Z;
  ie_proclist : option Z;
  ie_vmalloc : bool;
  ie_copy_to_user : bool;
  ie_tasks : list ppm_proc_info;
  ie_put : nat -> bool;
  ie_vids : Z -> option (Z * Z);
  ie_tid : Z;
  ie_tgid : Z;
  ie_register : probe -> Z;
  ie_stale : Z * bool }.

(** What an ioctl copies to user memory. *)
Inductive ioctl_reply : Type :=
| no_reply
| proclist_reply (n_entries max_entries : Z) (entries : list ppm_proc_info)
| counters_reply (hits : list Z)
| version_reply.

(** The loop that fills [proclist_info->entries]: the array in the order of
    its indices and the number of threads seen. *)
Fixpoint fill_proclist (ts : list ppm_proc_info) (nentries max_entries : Z) :
    list ppm_proc_info * Z :=
  match ts with
  | [] => ([], nentries)
  | t :: ts' =>
      let '(es, n) := fill_proclist ts' (u64 (nentries + 1)) max_entries in
      ((if nentries <? max_entries then [t] else []) ++ es, n)
  end.

(** The allocation of [proclist_info], a 32 bit size. *)
Definition proclist_memsize (n : Z) : Z :=
  u32 (sizeof_ppm_proclist_info + sizeof_ppm_proc_info * n).

Definition ioctl_get_proclist (e : ioctl_env) : Z * ioctl_reply :=
  match ie_proclist e with
  | None => (- EINVAL, no_reply)
  | Some max_entries =>
      if (max_entries <? 0) || (1000000 <? max_entries) then (- EINVAL, no_reply)
      else if negb (ie_vmalloc e) then (- EINVAL, no_reply)
      else
        let '(es, nentries) := fill_proclist (ie_tasks e) 0 max_entries in
        if max_entries <=? nentries then
          if ie_copy_to_user e then (- ENOSPC, proclist_reply nentries max_entries [])
          else (- EINVAL, no_reply)
        else if ie_copy_to_user e then (0, proclist_reply nentries max_entries es)
        else (- EINVAL, no_reply)
  end.

(** The counters that reach the user before a [put_user] fails. *)
Fixpoint put_counters (put : nat -> bool) (cpu : nat) (hits : list Z) : list Z * bool :=
  match hits with
  | [] => ([], true)
  | h :: hits' =>
      if put cpu then let '(l, ok) := put_counters put (S cpu) hits' in (h :: l, ok)
      else ([], false)
  end.

Definition ioctl_get_n_tracepoint_hit (e : ioctl_env) (g : globals) : Z * ioctl_reply :=
  let '(l, ok) := put_counters (ie_put e) 0 (g_n_tracepoint_hit g) in
  ((if ok then 0 else - EINVAL), counters_reply l).

(** Settings of the consumer. *)
Definition set_dropping (s : ppm_consumer) (mode interval ratio : Z) : ppm_consumer :=
  mk_consumer (cs_cfg s) ratio interval (is_dropping s) mode (need_to_insert_drop_e s)
    (need_to_insert_drop_x s).
Definition set_cfg (s : ppm_consumer) (c : consumer_cfg) : ppm_consumer :=
  mk_consumer c (sampling_ratio s) (sampling_interval s) (is_dropping s) (dropping_mode s)
    (need_to_insert_drop_e s) (need_to_insert_drop_x s).

Definition valid_sampling_ratio (r : Z) : bool :=
  (r =? 1) || (r =? 2) || (r =? 4) || (r =? 8) || (r =? 16) || (r =? 32) || (r =? 64)
  || (r =? 128).

Definition ioctl_enable_dropping_mode (arg : Z) (s : ppm_consumer) : ppm_consumer * Z :=
  let s1 := set_dropping s 1 (sampling_interval s) (sampling_ratio s) in
  let ratio := u32 arg in
  if negb (valid_sampling_ratio ratio) then (s1, - EINVAL)
  else (set_dropping s1 1 (1000000000 / ratio) ratio, 0).

Definition ioctl_set_snaplen (arg : Z) (s : ppm_consumer) : ppm_consumer * Z :=
  let new_snaplen := u32 arg in
  let c := cs_cfg s in
  if RW_MAX_SNAPLEN <? new_snaplen then (s, - EINVAL)
  else (set_cfg s (mk_cfg new_snaplen (do_dynamic_snaplen c) (fullcapture_port_range_start c)
          (fullcapture_port_range_end c) (statsd_port c)), 0).

Definition ioctl_set_fullcapture_port_range (arg : Z) (s : ppm_consumer) : ppm_consumer * Z :=
  let r := u32 arg in
  let c := cs_cfg s in
  (set_cfg s (mk_cfg (snaplen c) (do_dynamic_snaplen c) (Z.land r 65535) (u16 (Z.shiftr r 16))
     (statsd_port c)), 0).

Definition ioctl_set_statsd_port (arg : Z) (s : ppm_consumer) : ppm_consumer * Z :=
  let c := cs_cfg s in
  (set_cfg s (mk_cfg (snaplen c) (do_dynamic_snaplen c) (fullcapture_port_range_start c)
     (fullcapture_port_range_end c) (u16 arg)), 0).

Definition ioctl_dynamic_snaplen (v : bool) (s : ppm_consumer) : ppm_consumer * Z :=
  let c := cs_cfg s in
  (set_cfg s (mk_cfg (snaplen c) v (fullcapture_port_range_start c)
     (fullcapture_port_range_end c) (statsd_port c)), 0).

(** The events mask, a bitmap. *)
Definition set_bit (t : Z) (m : Z -> bool) : Z -> bool := fun x => (x =? t) || m x.
Definition clear_bit (t : Z) (m : Z -> bool) : Z -> bool := fun x => negb (x =? t) && m x.
Definition bitmap_zero : Z -> bool := fun _ => false.

Definition modifies_state (t : Z) : bool := has_flag (ei_flags (g_event_info t)) EF_MODIFIES_STATE.

Definition ioctl_mask_zero_events : Z -> bool :=
  foldl (fun m j => if modifies_state j then set_bit j m else m)
    (set_bit PPME_DROP_X (set_bit PPME_DROP_E bitmap_zero)) (seqZ 0 PPM_EVENT_MAX).

Definition ioctl_mask_set_event (arg : Z) (g : globals) : globals * Z :=
  let t := u32 arg in
  if PPM_EVENT_MAX <=? t then (g, - EINVAL)
  else (set_mask g (set_bit t (g_events_mask g)), 0).

Definition ioctl_mask_unset_event (arg : Z) (g : globals) : globals * Z :=
  let t := u32 arg in
  if PPM_EVENT_MAX <=? t then (g, - EINVAL)
  else (if modifies_state t then g else set_mask g (clear_bit t (g_events_mask g)), 0).

Definition ioctl_enable_page_faults (e : ioctl_env) (g : globals) : globals * Z :=
  if g_fault_tracepoint_disabled g then (g, - EPERM)
  else if g_fault_tracepoint_registered g then (g, 0)
  else
    let '(g, ret) := compat_register_trace (ie_register e) page_fault_user g in
    if negb (ret =? 0) then (g, - EINVAL)
    else
      let '(g, ret) := compat_register_trace (ie_register e) page_fault_kernel g in
      if negb (ret =? 0) then (compat_unregister_trace page_fault_user g, - EINVAL)
      else (set_fault_registered g true, 0).

Definition ioctl_signal_deliver (e : ioctl_env) (on : bool) (g : globals) : globals :=
  if negb (g_tracepoint_registered g) then g
  else if on then fst (compat_register_trace (ie_register e) signal_deliver g)
  else compat_unregister_trace signal_deliver g.

(** The commands that change the settings of the consumer. *)
Definition ioctl_settings (cmd arg : Z) : option (ppm_consumer -> ppm_consumer * Z) :=
  if cmd =? PPM_IOCTL_ENABLE_DROPPING_MODE then Some (ioctl_enable_dropping_mode arg)
  else if cmd =? PPM_IOCTL_SET_SNAPLEN then Some (ioctl_set_snaplen arg)
  else if cmd =? PPM_IOCTL_SET_FULLCAPTURE_PORT_RANGE
  then Some (ioctl_set_fullcapture_port_range arg)
  else if cmd =? PPM_IOCTL_SET_STATSD_PORT then Some (ioctl_set_statsd_port arg)
  else if cmd =? PPM_IOCTL_DISABLE_DYNAMIC_SNAPLEN then Some (ioctl_dynamic_snaplen false)
  else if cmd =? PPM_IOCTL_ENABLE_DYNAMIC_SNAPLEN then Some (ioctl_dynamic_snaplen true)
  else None.

(** The commands that change globals, or nothing. *)
Definition ioctl_globals (cmd : Z) (e : ioctl_env) (g : globals) : globals * Z :=
  if cmd =? PPM_IOCTL_MASK_ZERO_EVENTS then (set_mask g ioctl_mask_zero_events, 0)
  else if cmd =? PPM_IOCTL_MASK_SET_EVENT then ioctl_mask_set_event (ie_arg e) g
  else if cmd =? PPM_IOCTL_MASK_UNSET_EVENT then ioctl_mask_unset_event (ie_arg e) g
  else if (cmd =? PPM_IOCTL_GET_VTID) || (cmd =? PPM_IOCTL_GET_VPID) then
    (g, match ie_vids e (s32 (ie_arg e)) with
        | None => - EINVAL
        | Some (vtid, vpid) => if cmd =? PPM_IOCTL_GET_VTID then vtid else vpid
        end)
  else if cmd =? PPM_IOCTL_GET_CURRENT_TID then (g, ie_tid e)
  else if cmd =? PPM_IOCTL_GET_CURRENT_PID then (g, ie_tgid e)
  else if cmd =? PPM_IOCTL_DISABLE_SIGNAL_DELIVER then (ioctl_signal_deliver e false g, 0)
  else if cmd =? PPM_IOCTL_ENABLE_SIGNAL_DELIVER then (ioctl_signal_deliver e true g, 0)
  else if cmd =? PPM_IOCTL_SET_TRACERS_CAPTURE
  then (set_modes g true (g_simple_mode_enabled g), 0)
  else if cmd =? PPM_IOCTL_SET_SIMPLE_MODE then (set_modes g (g_tracers g) true, 0)
  else if cmd =? PPM_IOCTL_ENABLE_PAGE_FAULTS then ioctl_enable_page_faults e g
  else (g, - ENOTTY).

(** [PPM_IOCTL_DISABLE_CAPTURE] and [PPM_IOCTL_ENABLE_CAPTURE] *)
Definition ioctl_capture (n : nat) (v : bool) (c : ppm_consumer_t) : option ppm_consumer_t :=
  r ← ring_buffers c !! n;
  Some (mk_consumer_t (consumer_id c)
          (<[n := set_flags r (cpu_online (ctx r)) (open_ (ctx r)) v]> (ring_buffers c))
          (settings c)).

Definition ioctl_disable_dropping_mode (fillers : ppm_filler_id -> filler) (e : ioctl_env)
    (g : globals) (c : ppm_consumer_t) : option ppm_consumer_t :=
  record_for fillers (ie_event e) g
    (mk_consumer_t (consumer_id c) (ring_buffers c)
       (set_dropping (settings c) 0 1000000000 1))
    PPME_SYSDIGEVENT_E UF_NEVER_DROP
    (mk_event_data PPMC_CONTEXT_SWITCH (fst (ie_stale e)) (snd (ie_stale e))
       (context_data DEI_DISABLE_DROPPING 0)).

Definition ppm_ioctl (fillers : ppm_filler_id -> filler) (f : filp) (cmd : Z) (e : ioctl_env)
    (d : driver) : option (driver * Z * ioctl_reply) :=
  let '(cid, n) := f in
  if cmd =? PPM_IOCTL_GET_PROCLIST then Some (d, fst (ioctl_get_proclist e), snd (ioctl_get_proclist e))
  else if cmd =? PPM_IOCTL_GET_N_TRACEPOINT_HIT then
    let '(ret, reply) := ioctl_get_n_tracepoint_hit e (glob d) in Some (d, ret, reply)
  else if cmd =? PPM_IOCTL_GET_PROBE_VERSION then
    Some (if ie_copy_to_user e then (d, 0, version_reply) else (d, - EINVAL, no_reply))
  else
    found ← ppm_find_consumer d cid;
    match found with
    | None => Some (d, - EBUSY, no_reply)
    | Some a =>
        c ← heap d !! a;
        if (cmd =? PPM_IOCTL_DISABLE_CAPTURE) || (cmd =? PPM_IOCTL_ENABLE_CAPTURE) then
          c' ← ioctl_capture n (cmd =? PPM_IOCTL_ENABLE_CAPTURE) c;
          Some (set_consumer d a c', 0, no_reply)
        else if cmd =? PPM_IOCTL_DISABLE_DROPPING_MODE then
          c' ← ioctl_disable_dropping_mode fillers e (glob d) c;
          Some (set_consumer d a c', 0, no_reply)
        else
          match ioctl_settings cmd (ie_arg e) with
          | Some act =>
              let '(s, ret) := act (settings c) in
              Some (set_consumer d a (mk_consumer_t (consumer_id c) (ring_buffers c) s),
                    ret, no_reply)
          | None =>
              let '(g, ret) := ioctl_globals cmd e (glob d) in
              Some (set_glob d g, ret, no_reply)
          end
    end.

(** ** [ppm_mmap] *)

Definition VM_WRITE : Z := 2.

(** [struct vm_area_struct]: the fields that are read. *)
Record vm_area : Type := mk_vma { vm_start : Z; vm_end : Z; vm_pgoff : Z; vm_flags : Z }.

(** What a user page shows: the info structure, or an offset of the buffer. *)
Inductive mapped : Type := map_info | map_buffer (off : Z).

(** The answers of [remap_pfn_range] by user address. *)
Fixpoint map_pages (fuel : nat) (remap : Z -> Z) (useraddr off mlength : Z) :
    list (Z * mapped) * Z * Z :=
  match fuel with
  | O => ([], useraddr, 0)
  | S fuel' =>
      if 0 <? mlength then
        let ret := remap useraddr in
        if ret <? 0 then ([], useraddr, ret)
        else
          let '(l, u, r) :=
            map_pages fuel' remap (useraddr + PAGE_SIZE) (off + PAGE_SIZE) (mlength - PAGE_SIZE) in
          ((useraddr, map_buffer off) :: l, u, r)
      else ([], useraddr, 0)
  end.

(** [ppm_mmap]: the pages it maps and the result.  The checks of the ring
    size compare constants. *)
Definition ppm_mmap (remap : Z -> Z) (f : filp) (v : vm_area) (d : driver) :
    option (list (Z * mapped) * Z) :=
  let '(cid, n) := f in
  found ← ppm_find_consumer d cid;
  match found with
  | None => Some ([], - EIO)
  | Some a =>
      if vm_pgoff v =? 0 then
        let length := vm_end v - vm_start v in
        if RING_BUF_SIZE <? 2 * PAGE_SIZE then Some ([], - EIO)
        else if negb (RING_BUF_SIZE / PAGE_SIZE * PAGE_SIZE =? RING_BUF_SIZE)
        then Some ([], - EIO)
        else
          c ← heap d !! a;
          r ← ring_buffers c !! n;
          if length <=? PAGE_SIZE then
            if negb (has_info r) then None
            else
              let ret := remap (vm_start v) in
              if ret <? 0 then Some ([], ret) else Some ([(vm_start v, map_info)], 0)
          else if length =? RING_BUF_SIZE * 2 then
            if negb (has_buffer r) then None
            else if negb (Z.land (vm_flags v) VM_WRITE =? 0) then Some ([], - EIO)
            else
              let fuel := Z.to_nat (RING_BUF_SIZE / PAGE_SIZE + 1) in
              let '(l1, u1, ret) := map_pages fuel remap (vm_start v) 0 (length / 2) in
              if ret <? 0 then Some (l1, ret)
              else
                let '(l2, _, ret) := map_pages fuel remap u1 0 (length / 2) in
                Some (l1 ++ l2, if ret <? 0 then ret else 0)
          else Some ([], - EIO)
      else Some ([], - EIO)
  end.

(** ** Facts about single operations. *)

Lemma fold_set_bits l : forall m t,
  foldl (fun m j => if modifies_state j then set_bit j m else m) m l t =
  m t || existsb (fun j => (t =? j) && modifies_state j) l.
Proof.
  induction l as [|j l IH]; intros m t; simpl; [by rewrite orb_false_r|].
  rewrite IH. destruct (modifies_state j); unfold set_bit; [|by rewrite andb_false_r].
  rewrite andb_true_r. by destruct (t =? j), (m t).
Qed.

Lemma mask_zero_spec t :
  0 <= t < PPM_EVENT_MAX ->
  ioctl_mask_zero_events t = (t =? PPME_DROP_E) || (t =? PPME_DROP_X) || modifies_state t.
Proof.
  intros Ht. unfold ioctl_mask_zero_events. rewrite fold_set_bits.
  assert (existsb (fun j => (t =? j) && modifies_state j) (seqZ 0 PPM_EVENT_MAX)
          = modifies_state t) as ->.
  { apply eq_true_iff_eq. rewrite existsb_exists. split.
    - intros (j & _ & H). bool_to_prop. by subst.
    - intros H. exists t. rewrite H, Z.eqb_refl. split; [|done].
      apply list_elem_of_In, elem_of_seqZ. lia. }
  unfold set_bit, bitmap_zero. rewrite orb_false_r.
  by destruct (t =? PPME_DROP_E), (t =? PPME_DROP_X).
Qed.

(** The events mask.  [PPM_IOCTL_MASK_ZERO_EVENTS] leaves exactly the two
    drop events and the events that modify state; [PPM_IOCTL_MASK_UNSET_EVENT]
    turns off the event it names and no other, and never one that modifies
    state; it does turn off the drop events, which a comment of the code says
    must stay on. *)
Theorem events_mask_policy (g : globals) (arg t : Z) :
  0 <= arg < PPM_EVENT_MAX -> 0 <= t < PPM_EVENT_MAX ->
  ioctl_mask_zero_events t = (t =? PPME_DROP_E) || (t =? PPME_DROP_X) || modifies_state t /\
  g_events_mask (fst (ioctl_mask_unset_event arg g)) t =
    g_events_mask g t && (negb (t =? arg) || modifies_state t) /\
  g_events_mask (fst (ioctl_mask_unset_event PPME_DROP_E g)) PPME_DROP_E = false.
Proof.
  intros Ha Ht. split; [by apply mask_zero_spec|].
  assert (PPM_EVENT_MAX < 2 ^ 32) by (by vm_compute).
  split; unfold ioctl_mask_unset_event; cbv zeta.
  - rewrite u32_small by lia. rewrite (proj2 (Z.leb_gt _ _)) by lia. cbn [fst].
    destruct (modifies_state arg) eqn:E; simpl; unfold clear_bit;
      (destruct (t =? arg) eqn:Et; bool_to_prop; subst; simpl;
       rewrite ?E, ?andb_true_r, ?andb_false_r; done).
  - replace (PPM_EVENT_MAX <=? u32 PPME_DROP_E) with false by (by vm_compute).
    replace (modifies_state (u32 PPME_DROP_E)) with false by (by vm_compute).
    cbn [fst]. unfold clear_bit. simpl. done.
Qed.

Definition sample_globals : globals :=
  mk_globals true false false false false false bitmap_fill [0] ∅ ∅.

Lemma events_mask_policy_witness :
  g_events_mask (fst (ioctl_mask_unset_event PPME_SYSCALL_READ_E sample_globals))
    PPME_SYSCALL_READ_E = false.
Proof.
  refine (eq_trans (proj1 (proj2 (events_mask_policy sample_globals PPME_SYSCALL_READ_E
    PPME_SYSCALL_READ_E _ _))) _); [split; by vm_compute..|by vm_compute].
Defined.

(** An open whose last registration, the net_dev_xmit probe, fails does not
    unregister the signal_deliver probe (the error path unregisters the
    net_dev_xmit probe instead); and if the kernel refuses to register a
    registered probe again, every later open fails too. *)
Theorem failed_xmit_probe_leaks (e : open_env) (g : globals) :
  (forall p, p <> net_dev_xmit -> oe_register e p = 0) -> oe_register e net_dev_xmit <> 0 ->
  let '(g', ret) := start_capture e g in
  ret <> 0 /\ signal_deliver ∈ tracepoints g' /\
  g_tracepoint_registered g' = g_tracepoint_registered g /\
  forall e', (forall p, p ∈ tracepoints g' -> oe_register e' p <> 0) ->
    snd (start_capture e' g') <> 0 /\
    signal_deliver ∈ tracepoints (fst (start_capture e' g')).
Proof.
  intros Hok Hx. unfold start_capture at 1. unfold compat_register_trace at 1 2 3 4 5 6.
  rewrite !Hok by done. cbn [Z.eqb negb]. apply Z.eqb_neq in Hx as Hx'. rewrite Hx'.
  cbn [negb]. set (g' := err_net_dev_xmit _). cbv beta.
  assert (Hsd : signal_deliver ∈ tracepoints g').
  { unfold g', register_kprobes. simpl. destruct (g_kprobe_registered g); set_solver. }
  split; [done|]. split; [done|].
  split; [unfold g', register_kprobes; simpl; by destruct (g_kprobe_registered g)|].
  clearbody g'. intros e' Hrefuse. specialize (Hrefuse _ Hsd). apply Z.eqb_neq in Hrefuse as Hr.
  unfold start_capture, compat_register_trace. rewrite Hr. cbn [negb].
  destruct (oe_register e' sys_exit =? 0) eqn:E1; cbn [negb fst snd];
    [|bool_to_prop; split; [done|exact Hsd]].
  destruct (oe_register e' sys_enter =? 0) eqn:E2; cbn [negb fst snd];
    [|bool_to_prop; split; [done|set_solver]].
  destruct (oe_register e' sched_process_exit =? 0) eqn:E3; cbn [negb fst snd];
    [|bool_to_prop; split; [done|set_solver]].
  destruct (oe_register e' sched_switch =? 0) eqn:E4; cbn [negb fst snd];
    bool_to_prop; (split; [done|set_solver]).
Qed.

Definition sample_xmit_fails : open_env :=
  mk_open_env 7 0 (Some 100) (Some mem_zero) open_settings
    (fun _ => mk_ring_alloc (Some 4096) true true) [0%nat]
    (fun p => if decide (p = net_dev_xmit) then -12 else 0) (fun _ => 0) 5.

Lemma failed_xmit_probe_leaks_witness :
  exists g' ret, start_capture sample_xmit_fails (set_registered sample_globals false) = (g', ret) /\
    ret <> 0 /\ signal_deliver ∈ tracepoints g' /\ g_tracepoint_registered g' = false.
Proof.
  pose proof (failed_xmit_probe_leaks sample_xmit_fails (set_registered sample_globals false)) as H.
  destruct (start_capture _ _) as [g' ret]. exists g', ret. split; [reflexivity|].
  destruct H as (H1 & H2 & H3 & _); [|discriminate|by split].
  intros p Hp. simpl. by rewrite decide_False.
Defined.

(** An invalid sampling ratio is refused with EINVAL, but dropping mode is
    on from then on; on a consumer as [ppm_open] leaves it, whose sampling
    interval is 0, every event that may be dropped is then dropped. *)
Theorem rejected_ratio_drops_all (arg : Z) (k : kenv) (fillers : ppm_filler_id -> filler)
    (events_mask : Z -> bool) (rb : ppm_ring_buffer_context) (t drop_flags ns : Z) :
  valid_sampling_ratio (u32 arg) = false ->
  snd (ioctl_enable_dropping_mode arg open_settings) = - EINVAL /\
  dropping_mode (fst (ioctl_enable_dropping_mode arg open_settings)) = 1 /\
  (has_flag drop_flags UF_NEVER_DROP = false ->
   snd (drop_event k fillers events_mask
          (fst (ioctl_enable_dropping_mode arg open_settings), rb) t drop_flags ns) = true).
Proof.
  intros Hv. unfold ioctl_enable_dropping_mode. rewrite Hv. simpl. split; [done|].
  split; [done|]. intros Hn. unfold drop_event. simpl. case_if; [done|]. rewrite Hn.
  case_if; [done|].
  assert (0 <=? ns mod SECOND_IN_NS = true) as ->; [|done].
  apply Z.leb_le, Z.mod_pos_bound. by vm_compute.
Qed.

Lemma rejected_ratio_drops_all_witness :
  snd (ioctl_enable_dropping_mode 3 open_settings) = - EINVAL /\
  dropping_mode (fst (ioctl_enable_dropping_mode 3 open_settings)) = 1.
Proof.
  assert (H : valid_sampling_ratio (u32 3) = false) by (vm_compute; reflexivity).
  split.
  - exact (proj1 (rejected_ratio_drops_all 3 sample_kenv (fun _ s => (s, 0)) bitmap_fill
      (ctx (null_ring mem_zero)) 0 0 0 H)).
  - exact (proj1 (proj2 (rejected_ratio_drops_all 3 sample_kenv (fun _ s => (s, 0)) bitmap_fill
      (ctx (null_ring mem_zero)) 0 0 0 H))).
Defined.

(** ** The process list. *)

Lemma fill_proclist_spec ts : forall n max,
  0 <= n -> n + Z.of_nat (length ts) < 2 ^ 64 ->
  fill_proclist ts n max = (take (Z.to_nat (max - n)) ts, n + Z.of_nat (length ts)).
Proof.
  induction ts as [|t ts IH]; intros n max Hn Hl; simpl in *.
  { by rewrite take_nil, Z.add_0_r. }
  rewrite u64_small by lia. rewrite IH by lia. f_equal; [|lia]. case_if; bool_to_prop.
  - replace (Z.to_nat (max - n)) with (S (Z.to_nat (max - (n + 1)))) by lia. done.
  - replace (Z.to_nat (max - n)) with 0%nat by lia.
    by replace (Z.to_nat (max - (n + 1))) with 0%nat by lia.
Qed.

(** The process list ioctl never writes an entry past the memory it
    allocated, whose 32 bit size does not wrap; it answers 0 exactly when there
    are fewer threads than the caller has room for, and then returns all of
    them; with less room it answers ENOSPC with the number of threads and no
    entry. *)
Theorem proclist_complete (e : ioctl_env) (max_entries : Z) :
  ie_proclist e = Some max_entries -> 0 <= max_entries <= 1000000 ->
  ie_vmalloc e = true -> ie_copy_to_user e = true ->
  Z.of_nat (length (ie_tasks e)) < 2 ^ 64 ->
  let n := Z.of_nat (length (ie_tasks e)) in
  sizeof_ppm_proclist_info + sizeof_ppm_proc_info *
    Z.of_nat (length (fst (fill_proclist (ie_tasks e) 0 max_entries)))
    <= proclist_memsize max_entries /\
  ioctl_get_proclist e =
    if n <? max_entries then (0, proclist_reply n max_entries (ie_tasks e))
    else (- ENOSPC, proclist_reply n max_entries []).
Proof.
  intros Hp Hm Hv Hc Hl n. unfold ioctl_get_proclist. rewrite Hp, Hv, Hc.
  rewrite (proj2 (Z.ltb_ge max_entries 0)) by lia.
  rewrite (proj2 (Z.ltb_ge 1000000 max_entries)) by lia. cbn [orb negb].
  rewrite fill_proclist_spec by lia. cbn [fst]. rewrite Z.add_0_l, Z.sub_0_r. fold n. split.
  - unfold proclist_memsize, sizeof_ppm_proclist_info, sizeof_ppm_proc_info.
    rewrite length_take, u32_small by lia. lia.
  - destruct (Z.leb_spec max_entries n).
    + by rewrite (proj2 (Z.ltb_ge _ _)).
    + rewrite (proj2 (Z.ltb_lt _ _)) by done. by rewrite take_ge by lia.
Qed.

Definition sample_ioctl (max_entries : Z) : ioctl_env :=
  mk_ioctl_env (mk_event_env 0 sample_kenv 5) 0 (Some max_entries) true true
    [mk_proc_info 1 10 20; mk_proc_info 2 30 40] (fun _ => true) (fun _ => None) 1 1
    (fun _ => 0) (0, false).

Lemma proclist_complete_witness :
  ioctl_get_proclist (sample_ioctl 3) =
    (0, proclist_reply 2 3 [mk_proc_info 1 10 20; mk_proc_info 2 30 40]) /\
  ioctl_get_proclist (sample_ioctl 2) = (- ENOSPC, proclist_reply 2 2 []).
Proof.
  split.
  - refine (eq_trans (proj2 (proclist_complete (sample_ioctl 3) 3 _ _ _ _ _)) _);
      simpl; try reflexivity; lia.
  - refine (eq_trans (proj2 (proclist_complete (sample_ioctl 2) 2 _ _ _ _ _)) _);
      simpl; try reflexivity; lia.
Defined.

(** ** The double mapping. *)

(** The pages one pass maps. *)
Definition pages (useraddr off : Z) (n : nat) : list (Z * mapped) :=
  map (fun i => (useraddr + Z.of_nat i * PAGE_SIZE, map_buffer (off + Z.of_nat i * PAGE_SIZE)))
    (seq 0 n).

Lemma pages_S u off n :
  pages u off (S n) = (u, map_buffer off) :: pages (u + PAGE_SIZE) (off + PAGE_SIZE) n.
Proof.
  unfold pages. simpl. f_equal; [by rewrite !Z.add_0_r|].
  rewrite <- seq_shift, map_map. apply map_ext. intros i. f_equal; [lia|]. f_equal. lia.
Qed.

Lemma map_pages_all remap n : forall fuel u off,
  (forall x, 0 <= remap x) -> (n < fuel)%nat ->
  map_pages fuel remap u off (Z.of_nat n * PAGE_SIZE)
  = (pages u off n, u + Z.of_nat n * PAGE_SIZE, 0).
Proof.
  induction n as [|n IH]; intros [|fuel] u off Hr Hf; try lia; cbn [map_pages].
  { unfold pages. simpl. by rewrite Z.add_0_r. }
  rewrite (proj2 (Z.ltb_lt 0 (Z.of_nat (S n) * PAGE_SIZE))) by (unfold PAGE_SIZE; lia).
  rewrite (proj2 (Z.ltb_ge (remap u) 0)) by apply Hr.
  replace (Z.of_nat (S n) * PAGE_SIZE - PAGE_SIZE) with (Z.of_nat n * PAGE_SIZE) by lia.
  rewrite IH by (auto; lia). rewrite pages_S. f_equal. f_equal. lia.
Qed.

(** Number of pages of the ring. *)
Definition ring_pages : nat := Z.to_nat (RING_BUF_SIZE / PAGE_SIZE).

#[global] Arguments ring_pages : simpl never.

Lemma ring_pages_fuel : (ring_pages < Z.to_nat (RING_BUF_SIZE / PAGE_SIZE + 1))%nat.
Proof. unfold ring_pages. apply Z2Nat.inj_lt; [by vm_compute..|lia]. Qed.

Lemma ring_pages_size : Z.of_nat ring_pages * PAGE_SIZE = RING_BUF_SIZE.
Proof. by vm_compute. Qed.

Lemma map_ring_pages remap u :
  (forall x, 0 <= remap x) ->
  map_pages (Z.to_nat (RING_BUF_SIZE / PAGE_SIZE + 1)) remap u 0 RING_BUF_SIZE
  = (pages u 0 ring_pages, u + RING_BUF_SIZE, 0).
Proof.
  intros Hr. pose proof (map_pages_all remap ring_pages _ u 0 Hr ring_pages_fuel) as H.
  by rewrite ring_pages_size in H.
Qed.

Lemma page_in_pages u off n i :
  0 <= i < Z.of_nat n ->
  (u + i * PAGE_SIZE, map_buffer (off + i * PAGE_SIZE)) ∈ pages u off n.
Proof.
  intros Hi. apply list_elem_of_In, in_map_iff. exists (Z.to_nat i).
  rewrite Z2Nat.id by lia. split; [done|]. apply in_seq. lia.
Qed.

(** Mapping twice the ring size read-only gives the reader the ring twice
    in a row: the page of user offset [x] is the page of the ring at [x] modulo
    the ring size.  A writable mapping of the buffer is refused. *)
Theorem mmap_double_mapping (remap : Z -> Z) (f : filp) (v : vm_area) (d : driver) (a : Z)
    (c : ppm_consumer_t) (r : percpu_ring) :
  ppm_find_consumer d f.1 = Some (Some a) -> heap d !! a = Some c ->
  ring_buffers c !! f.2 = Some r -> has_buffer r = true ->
  vm_pgoff v = 0 -> vm_end v - vm_start v = RING_BUF_SIZE * 2 -> (forall x, 0 <= remap x) ->
  if Z.land (vm_flags v) VM_WRITE =? 0 then
    exists l, ppm_mmap remap f v d = Some (l, 0) /\ length l = (2 * ring_pages)%nat /\
      forall x, 0 <= x < 2 * RING_BUF_SIZE ->
        (vm_start v + x / PAGE_SIZE * PAGE_SIZE,
         map_buffer ((x mod RING_BUF_SIZE) / PAGE_SIZE * PAGE_SIZE)) ∈ l
  else ppm_mmap remap f v d = Some ([], - EIO).
Proof.
  destruct f as [cid n]. cbn [fst snd]. intros Hf Ha Hr Hb Ho Hl Hm. unfold ppm_mmap.
  rewrite Hf. cbn [mbind option_bind]. rewrite Ho, Hl. cbn [Z.eqb].
  replace (RING_BUF_SIZE <? 2 * PAGE_SIZE) with false by (by vm_compute).
  replace (RING_BUF_SIZE / PAGE_SIZE * PAGE_SIZE =? RING_BUF_SIZE) with true by (by vm_compute).
  cbn [negb]. rewrite Ha. cbn [mbind option_bind]. rewrite Hr. cbn [mbind option_bind].
  replace (RING_BUF_SIZE * 2 <=? PAGE_SIZE) with false by (by vm_compute).
  rewrite Z.eqb_refl, Hb. cbn [negb].
  destruct (Z.land (vm_flags v) VM_WRITE =? 0); cbn [negb]; [|done].
  rewrite Z.div_mul by lia. rewrite !map_ring_pages by done. cbn [Z.ltb Z.compare].
  eexists. split; [reflexivity|]. split; [unfold pages; rewrite length_app, !length_map, !length_seq; lia|].
  intros x Hx. apply elem_of_app. pose proof ring_pages_size as Hs.
  assert (HP : 0 < PAGE_SIZE) by (by vm_compute).
  destruct (Z.lt_ge_cases x RING_BUF_SIZE) as [H|H].
  - left. rewrite Z.mod_small by lia.
    apply (page_in_pages (vm_start v) 0 ring_pages (x / PAGE_SIZE)).
    split; [apply Z.div_pos; lia|]. apply Z.div_lt_upper_bound; lia.
  - right. replace (x mod RING_BUF_SIZE) with (x - RING_BUF_SIZE)
      by (apply (Z.mod_unique x RING_BUF_SIZE 1); lia).
    rewrite <- Hs at 2.
    replace (x / PAGE_SIZE) with (Z.of_nat ring_pages + (x - RING_BUF_SIZE) / PAGE_SIZE)
      by (rewrite <- Hs; replace (x - Z.of_nat ring_pages * PAGE_SIZE)
            with (x + - Z.of_nat ring_pages * PAGE_SIZE) by lia; rewrite Z.div_add by lia; lia).
    rewrite Z.mul_add_distr_r, Z.add_assoc, Hs.
    apply (page_in_pages (vm_start v + RING_BUF_SIZE) 0 ring_pages
      ((x - RING_BUF_SIZE) / PAGE_SIZE)).
    split; [apply Z.div_pos; lia|]. apply Z.div_lt_upper_bound; lia.
Qed.

Definition sample_ring_slot : percpu_ring := mk_percpu (ctx (null_ring mem_zero)) true true true.
Definition sample_driver : driver :=
  mk_driver [100] {[ 100 := mk_consumer_t 7 [sample_ring_slot] open_settings ]} sample_globals.
Definition sample_vma (flags : Z) : vm_area := mk_vma 65536 (65536 + RING_BUF_SIZE * 2) 0 flags.

Lemma mmap_double_mapping_witness :
  (exists l, ppm_mmap (fun _ => 0) (7, 0%nat) (sample_vma 1) sample_driver = Some (l, 0) /\
     (65536 + RING_BUF_SIZE, map_buffer 0) ∈ l) /\
  ppm_mmap (fun _ => 0) (7, 0%nat) (sample_vma 2) sample_driver = Some ([], - EIO).
Proof.
  assert (Hn : forall x : Z, 0 <= (fun _ : Z => 0) x) by (intros; lia).
  split.
  - pose proof (mmap_double_mapping (fun _ => 0) (7, 0%nat) (sample_vma 1) sample_driver 100
      (mk_consumer_t 7 [sample_ring_slot] open_settings) sample_ring_slot
      eq_refl eq_refl eq_refl eq_refl eq_refl eq_refl Hn) as H.
    destruct H as (l & Hl & _ & Hx). exists l. split; [exact Hl|].
    exact (Hx RING_BUF_SIZE ltac:(unfold RING_BUF_SIZE; lia)).
  - exact (mmap_double_mapping (fun _ => 0) (7, 0%nat) (sample_vma 2) sample_driver 100
      (mk_consumer_t 7 [sample_ring_slot] open_settings) sample_ring_slot
      eq_refl eq_refl eq_refl eq_refl eq_refl eq_refl Hn).
Defined.
