(* ===== verification/ConsumersSpec.v ===== *)
(** * The consumer list is memory safe

    The driver as the kernel drives it: opens, releases and ioctls of open
    files, CPU hotplug and events, in any order ([op], [exec]).  The invariant
    [Inv] ties the consumer list, the memory behind it, the open files, the
    registered probes and the events mask together; it holds in every reachable
    state, where no operation follows a dangling or null pointer. *)

From Stdlib Require Import ZArith Lia List Bool.
From Stdlib Require Import Strings.Byte.
From stdpp Require Import base tactics list numbers option gmap sets fin_sets.
From S2P Require Import Prelude Bytes EventDefs EventTable FillerTable.
From S2P Require Import ValToRing ValToRingSpec Fillers Ring RingSpec Consumers.
Import ListNotations.
Local Open Scope Z_scope.

(** ** Well-formed rings and consumers. *)

(** A ring with a buffer has all its memory, an open ring has a buffer, and
    only an open ring captures. *)
Record ring_wf (r : percpu_ring) : Prop := {
  rw_ready : has_buffer r = true -> ring_ready r = true;
  rw_open : open_ (ctx r) = true -> has_buffer r = true;
  rw_capture : capture_enabled (ctx r) = true -> open_ (ctx r) = true }.

(** The settings an open or an accepted ioctl leaves. *)
Definition settings_ok (s : ppm_consumer) : Prop :=
  0 <= snaplen (cs_cfg s) <= RW_MAX_SNAPLEN /\
  valid_sampling_ratio (sampling_ratio s) = true /\
  (sampling_interval s = 0 \/ sampling_interval s = 1000000000 / sampling_ratio s).

Record consumer_wf (possible : nat) (c : ppm_consumer_t) : Prop := {
  cw_length : length (ring_buffers c) = possible;
  cw_rings : Forall ring_wf (ring_buffers c);
  cw_settings : has_open_ring c = true -> settings_ok (settings c) }.

(** ** What recording leaves alone. *)

Definition ring_frame (rb rb' : ppm_ring_buffer_context) : Prop :=
  cpu_online rb' = cpu_online rb /\ open_ rb' = open_ rb /\
  capture_enabled rb' = capture_enabled rb.

Definition settings_frame (s s' : ppm_consumer) : Prop :=
  cs_cfg s' = cs_cfg s /\ sampling_ratio s' = sampling_ratio s /\
  sampling_interval s' = sampling_interval s /\ dropping_mode s' = dropping_mode s.

Definition cpu_frame (st st' : cpu_state) : Prop :=
  settings_frame (fst st) (fst st') /\ ring_frame (snd st) (snd st').

#[global] Instance cpu_frame_refl : Reflexive cpu_frame.
Proof. repeat split. Qed.
#[global] Instance cpu_frame_trans : Transitive cpu_frame.
Proof.
  intros [s1 r1] [s2 r2] [s3 r3] [(?&?&?&?) (?&?&?)] [(?&?&?&?) (?&?&?)].
  unfold cpu_frame, settings_frame, ring_frame in *. simpl in *.
  repeat split; congruence.
Qed.

Section frames.
Context (k : kenv) (fillers : ppm_filler_id -> filler) (mask : Z -> bool).

Lemma ring_write_frame c rb ttail t ns ed rb' oc :
  ring_write k fillers c rb ttail t ns ed = (rb', oc) -> ring_frame rb rb'.
Proof.
  unfold ring_write. destruct (effective_event k ed t) as [t' sock]. cbv zeta.
  intros H. case_in H; [by simplify_eq|].
  destruct (match filler_callback fillers t' with Some f => _ | None => _ end) as [s' cb].
  repeat case_in H; simplify_eq; repeat split.
Qed.

Lemma ring_commit_frame rb oc ns df rb' res :
  ring_commit rb oc ns df = (rb', res) -> ring_frame rb rb'.
Proof.
  unfold ring_commit. intros H.
  repeat case_in H; simplify_eq; repeat split.
Qed.

Lemma record_on_cpu_frame c rb t df ns ed rb' res :
  record_on_cpu k fillers c rb t df ns ed = (rb', res) -> ring_frame rb rb'.
Proof.
  unfold record_on_cpu. intros H. case_in H; [by simplify_eq|]. cbv zeta in H.
  case_in H; [repeat case_in H; simplify_eq; repeat split|].
  destruct (ring_write _ _ _ _ _ _ _ _) as [rb2 oc] eqn:E2.
  destruct (ring_commit _ _ _ _) as [rb3 r3] eqn:E3. simplify_eq.
  apply ring_write_frame in E2. apply ring_commit_frame in E3.
  destruct E2 as (?&?&?), E3 as (?&?&?). unfold ring_frame. simpl in *.
  repeat split; congruence.
Qed.

Lemma record_drop_event_frame st t ns st' res :
  record_drop_event k fillers mask st t ns = (st', res) -> cpu_frame st st'.
Proof.
  unfold record_drop_event. destruct st as [c rb]. intros H. case_in H; [by simplify_eq|].
  destruct (record_on_cpu _ _ _ _ _ _ _ _) as [rb' r] eqn:E. simplify_eq.
  apply record_on_cpu_frame in E. split; [by repeat split|exact E].
Qed.

Lemma record_drop_e_frame st ns : cpu_frame st (record_drop_e k fillers mask st ns).
Proof.
  unfold record_drop_e.
  destruct (record_drop_event _ _ _ _ _ _) as [[c rb] r] eqn:E.
  apply record_drop_event_frame in E. destruct E as [(?&?&?&?) ?]. split; [by repeat split|done].
Qed.

Lemma record_drop_x_frame st ns : cpu_frame st (record_drop_x k fillers mask st ns).
Proof.
  unfold record_drop_x.
  destruct (record_drop_event _ _ _ _ _ _) as [[c rb] r] eqn:E.
  apply record_drop_event_frame in E. destruct E as [(?&?&?&?) ?]. split; [by repeat split|done].
Qed.

Lemma drop_event_frame st t df ns st' b :
  drop_event k fillers mask st t df ns = (st', b) -> cpu_frame st st'.
Proof.
  unfold drop_event. destruct st as [c rb]. intros H.
  repeat case_in H; simplify_eq; try reflexivity.
  - pose proof (record_drop_e_frame (set_is_dropping c 1, rb) ns) as [(?&?&?&?) ?].
    split; [by repeat split|done].
  - pose proof (record_drop_x_frame (set_is_dropping c 0, rb) ns) as [(?&?&?&?) ?].
    split; [by repeat split|done].
Qed.

Lemma record_event_consumer_frame st t df ns ed st' res :
  record_event_consumer k fillers mask st t df ns ed = (st', res) -> cpu_frame st st'.
Proof.
  unfold record_event_consumer. intros H. case_in H; [by simplify_eq|].
  destruct (if _ && _ then _ else _) as [[c1 rb1] dropped] eqn:E.
  assert (F : cpu_frame st (c1, rb1)).
  { case_in E; [|by simplify_eq]. cbv zeta in E. apply drop_event_frame in E.
    etrans; [|exact E]. case_if; [apply record_drop_e_frame|].
    case_if; [apply record_drop_x_frame|reflexivity]. }
  case_in H; [by simplify_eq|].
  destruct (record_on_cpu _ _ _ _ _ _ _ _) as [rb' r] eqn:E2. simplify_eq.
  apply record_on_cpu_frame in E2. etrans; [exact F|]. split; [by repeat split|exact E2].
Qed.
End frames.

(** ** Consumers. *)

Definition ring_open (c : ppm_consumer_t) (n : nat) : bool :=
  match ring_buffers c !! n with Some r => open_ (ctx r) | None => false end.

Lemma has_open_ring_spec c : has_open_ring c = true <-> exists n, ring_open c n = true.
Proof.
  unfold has_open_ring, ring_open. rewrite existsb_exists. split.
  - intros (r & Hin & Ho). apply list_elem_of_In, list_elem_of_lookup in Hin as [n Hn].
    exists n. by rewrite Hn.
  - intros [n Hn]. destruct (ring_buffers c !! n) as [r|] eqn:E; [|done].
    exists r. split; [|done]. apply list_elem_of_In. by eapply list_elem_of_lookup_2.
Qed.

(** The same consumer with the same open rings. *)
Definition same_opens (c c' : ppm_consumer_t) : Prop :=
  consumer_id c' = consumer_id c /\ forall n, ring_open c' n = ring_open c n.

Lemma same_opens_has_open c c' : same_opens c c' -> has_open_ring c' = has_open_ring c.
Proof.
  intros [_ Ho]. apply eq_true_iff_eq. rewrite !has_open_ring_spec. by setoid_rewrite Ho.
Qed.

(** Replacing one ring. *)
Definition with_ring (c : ppm_consumer_t) (n : nat) (r : percpu_ring) (s : ppm_consumer) :
    ppm_consumer_t := mk_consumer_t (consumer_id c) (<[n := r]> (ring_buffers c)) s.

Lemma ring_open_with_ring c n r s i :
  (n < length (ring_buffers c))%nat ->
  ring_open (with_ring c n r s) i = if decide (i = n) then open_ (ctx r) else ring_open c i.
Proof.
  intros Hn. unfold ring_open, with_ring. simpl. destruct (decide (i = n)) as [->|].
  - by rewrite list_lookup_insert_eq.
  - by rewrite list_lookup_insert_ne.
Qed.

Lemma with_ring_wf possible c n r s :
  consumer_wf possible c -> ring_wf r ->
  (has_open_ring (with_ring c n r s) = true -> settings_ok s) ->
  consumer_wf possible (with_ring c n r s).
Proof.
  intros [Hl Hr Hs] Hw Hso. split; simpl.
  - by rewrite length_insert.
  - by apply Forall_insert.
  - done.
Qed.

Lemma with_ring_same possible c n r r' s :
  consumer_wf possible c -> ring_buffers c !! n = Some r -> ring_wf r' ->
  open_ (ctx r') = open_ (ctx r) ->
  (has_open_ring c = true -> settings_ok s) ->
  consumer_wf possible (with_ring c n r' s) /\ same_opens c (with_ring c n r' s).
Proof.
  intros Hc Hn Hr' Ho Hs.
  assert (S : same_opens c (with_ring c n r' s)).
  { split; [done|]. intros i. rewrite ring_open_with_ring by (by eapply lookup_lt_Some).
    destruct (decide (i = n)) as [->|]; [|done]. unfold ring_open. by rewrite Hn. }
  split; [|done]. apply with_ring_wf; [done..|]. by rewrite (same_opens_has_open _ _ S).
Qed.

Lemma consumer_ring possible c n :
  consumer_wf possible c -> (n < possible)%nat ->
  exists r, ring_buffers c !! n = Some r /\ ring_wf r.
Proof.
  intros [Hl Hr _] Hn. destruct (lookup_lt_is_Some_2 (ring_buffers c) n) as [r E]; [lia|].
  exists r. split; [done|]. by eapply Forall_lookup_1.
Qed.

Lemma settings_frame_ok s s' : settings_frame s s' -> settings_ok s -> settings_ok s'.
Proof. intros (Hc & Hr & Hi & _). unfold settings_ok. by rewrite Hc, Hr, Hi. Qed.

Lemma record_for_wf fillers possible ee g c t df ed :
  consumer_wf possible c -> (ee_cpu ee < possible)%nat ->
  exists c', record_for fillers ee g c t df ed = Some c' /\
    consumer_wf possible c' /\ same_opens c c'.
Proof.
  intros Hc Hcpu. destruct (consumer_ring _ _ _ Hc Hcpu) as (r & Hn & Hr).
  unfold record_for. rewrite Hn. cbn [mbind option_bind].
  assert (capture_enabled (ctx r) && negb (ring_ready r) = false) as ->.
  { destruct (capture_enabled (ctx r)) eqn:E; [|done].
    rewrite (rw_ready r) by (auto using rw_open, rw_capture). done. }
  destruct (record_event_consumer _ _ _ _ _ _ _ _) as [[s' rb'] res] eqn:E.
  apply record_event_consumer_frame in E as [Hs (_ & Ho & Hcap)]. simpl in *.
  eexists. split; [reflexivity|]. eapply with_ring_same; eauto.
  - destruct Hr as [A B C]. split; simpl; [done|by rewrite Ho|by rewrite Ho, Hcap].
  - intros H. eapply settings_frame_ok; [done|]. by apply (cw_settings possible).
Qed.

(** ** The list, the memory and the open files. *)

(** The list holds exactly the allocated consumers, once each; consumers have
    distinct threads; and the open files are the open rings. *)
Record heap_inv (possible : nat) (l : list Z) (h : gmap Z ppm_consumer_t)
    (fs : list filp) : Prop := {
  hi_nodup : NoDup l;
  hi_dom : forall a, a ∈ l <-> is_Some (h !! a);
  hi_ids : forall a b ca cb, h !! a = Some ca -> h !! b = Some cb ->
    consumer_id ca = consumer_id cb -> a = b;
  hi_wf : forall a c, h !! a = Some c -> consumer_wf possible c;
  hi_fnodup : NoDup fs;
  hi_files : forall f, f ∈ fs <->
    exists a c, h !! a = Some c /\ consumer_id c = f.1 /\ ring_open c f.2 = true }.

Section heap.
Context (possible : nat).

Lemma find_consumer_total h cid l :
  (forall a, a ∈ l -> is_Some (h !! a)) ->
  exists o, find_consumer_in h cid l = Some o /\
    match o with
    | Some a => a ∈ l /\ exists c, h !! a = Some c /\ consumer_id c = cid
    | None => forall a c, a ∈ l -> h !! a = Some c -> consumer_id c <> cid
    end.
Proof.
  induction l as [|a l IH]; intros Hl; simpl.
  { exists None. split; [done|]. intros a c Ha. by apply elem_of_nil in Ha. }
  destruct (Hl a (list_elem_of_here _ _)) as [c Hc]. rewrite Hc. simpl.
  case_if; bool_to_prop.
  - exists (Some a). split; [done|]. split; [apply list_elem_of_here|eauto].
  - destruct IH as (o & Ho & Hs); [intros; apply Hl; by apply list_elem_of_further|].
    exists o. split; [done|]. destruct o as [b|].
    + destruct Hs as [Hb Hs]. split; [by apply list_elem_of_further|done].
    + intros b cb Hb Hcb. apply elem_of_cons in Hb as [->|Hb]; [congruence|eauto].
Qed.

Lemma heap_find l h fs g cid :
  heap_inv possible l h fs ->
  exists o, ppm_find_consumer (mk_driver l h g) cid = Some o /\
    match o with
    | Some a => exists c, h !! a = Some c /\ consumer_id c = cid
    | None => forall a c, h !! a = Some c -> consumer_id c <> cid
    end.
Proof.
  intros I. destruct (find_consumer_total h cid l) as (o & Ho & Hs).
  { intros a. apply (hi_dom _ _ _ _ I). }
  exists o. split; [done|]. destruct o; [by destruct Hs|].
  intros a c Hc. eapply Hs; [|done]. apply (hi_dom _ _ _ _ I). eauto.
Qed.

Lemma heap_update l h fs fs' a c c' :
  heap_inv possible l h fs -> h !! a = Some c ->
  consumer_id c' = consumer_id c -> consumer_wf possible c' -> NoDup fs' ->
  (forall n, (consumer_id c, n) ∈ fs' <-> ring_open c' n = true) ->
  (forall f, f.1 <> consumer_id c -> f ∈ fs' <-> f ∈ fs) ->
  heap_inv possible l (<[a := c']> h) fs'.
Proof.
  intros [I1 I2 I3 I4 I5 I6] Ha Hid Hw Hnd Hmine Hothers. split; auto.
  - intros b. rewrite I2, lookup_insert_is_Some'. split; [by auto|intros [<-|]; eauto].
  - intros b1 b2 c1 c2. rewrite !lookup_insert_Some.
    intros [[<- <-]|[? ?]] [[<- <-]|[? ?]] He; auto.
    + by eapply I3; eauto; congruence.
    + by eapply I3; eauto; congruence.
    + by eapply I3.
  - intros b cb. rewrite lookup_insert_Some. intros [[<- <-]|[? ?]]; eauto.
  - intros [cid n]. destruct (decide (cid = consumer_id c)) as [->|Hne].
    + rewrite Hmine. simpl. split.
      * intros Ho. exists a, c'. by rewrite lookup_insert_eq.
      * intros (b & cb & Hb & He & Ho). rewrite lookup_insert_Some in Hb.
        destruct Hb as [[_ ->]|[Hab Hb]]; [done|]. by destruct Hab; eapply I3; eauto.
    + rewrite Hothers, I6 by done. simpl. split.
      * intros (b & cb & Hb & He & Ho). exists b, cb. split; [|done].
        rewrite lookup_insert_ne; [done|congruence].
      * intros (b & cb & Hb & He & Ho). rewrite lookup_insert_Some in Hb.
        destruct Hb as [[_ ->]|[Hab Hb]]; [congruence|eauto].
Qed.

Lemma heap_update_same l h fs a c c' :
  heap_inv possible l h fs -> h !! a = Some c ->
  consumer_wf possible c' -> same_opens c c' ->
  heap_inv possible l (<[a := c']> h) fs.
Proof.
  intros I Ha Hw [Hid Ho]. apply (heap_update l h fs fs a c c'); eauto using hi_fnodup.
  intros n. rewrite (hi_files _ _ _ _ I), Ho. simpl. split.
  - intros (b & cb & Hb & He & Hob). assert (b = a) as -> by (by eapply (hi_ids _ _ _ _ I)).
    by simplify_eq.
  - intros Hn. by exists a, c.
Qed.

Lemma heap_insert l h fs a c :
  heap_inv possible l h fs -> h !! a = None ->
  (forall b cb, h !! b = Some cb -> consumer_id cb <> consumer_id c) ->
  consumer_wf possible c -> has_open_ring c = false ->
  heap_inv possible (a :: l) (<[a := c]> h) fs.
Proof.
  intros [I1 I2 I3 I4 I5 I6] Ha Hfresh Hw Hno. split; auto.
  - constructor; [|done]. rewrite I2, Ha. by intros [? ?].
  - intros b. rewrite elem_of_cons, I2, lookup_insert_is_Some'. naive_solver.
  - intros b1 b2 c1 c2. rewrite !lookup_insert_Some.
    intros [[<- <-]|[? ?]] [[<- <-]|[? ?]] He; eauto; exfalso; eapply Hfresh; eauto.
  - intros b cb. rewrite lookup_insert_Some. intros [[<- <-]|[? ?]]; eauto.
  - intros f. rewrite I6. split.
    + intros (b & cb & Hb & He & Ho). exists b, cb. rewrite lookup_insert_ne; [done|congruence].
    + intros (b & cb & Hb & He & Ho). rewrite lookup_insert_Some in Hb.
      destruct Hb as [[_ ->]|[Hab Hb]]; [|eauto].
      assert (has_open_ring cb = true) by (apply has_open_ring_spec; eauto). congruence.
Qed.

Lemma heap_remove l h fs a c :
  heap_inv possible l h fs -> h !! a = Some c -> has_open_ring c = false ->
  heap_inv possible (base.filter (fun x => x <> a) l) (delete a h) fs.
Proof.
  intros [I1 I2 I3 I4 I5 I6] Ha Hno. split; auto.
  - by apply NoDup_filter.
  - intros b. rewrite list_elem_of_filter, I2, lookup_delete_is_Some. naive_solver.
  - intros b1 b2 c1 c2. rewrite !lookup_delete_Some. naive_solver.
  - intros b cb. rewrite lookup_delete_Some. naive_solver.
  - intros f. rewrite I6. split.
    + intros (b & cb & Hb & He & Ho). exists b, cb. split; [|done].
      apply lookup_delete_Some. split; [|done]. intros ->. assert (c = cb) as -> by congruence.
      assert (has_open_ring cb = true) by (apply has_open_ring_spec; eauto). congruence.
    + intros (b & cb & Hb & He & Ho). apply lookup_delete_Some in Hb as [_ Hb]. eauto.
Qed.
End heap.

(** ** The probes. *)

(** The probes that stay on for the whole capture. *)
Definition base_probes : gset probe :=
  {[ sys_exit; sys_enter; sched_process_exit; sched_switch; net_dev_xmit ]}.
Definition fault_probes : gset probe := {[ page_fault_user; page_fault_kernel ]}.

(** What the flags say of the registered tracepoints. *)
Record probes_inv (g : globals) : Prop := {
  pi_on : g_tracepoint_registered g = true -> base_probes ⊆ tracepoints g;
  pi_off : g_tracepoint_registered g = false ->
    tracepoints g = ∅ /\ g_fault_tracepoint_registered g = false;
  pi_fault : g_fault_tracepoint_registered g = true -> fault_probes ⊆ tracepoints g;
  pi_nofault : g_fault_tracepoint_registered g = false -> fault_probes ## tracepoints g }.

Lemma start_capture_failed e g g' ret :
  start_capture e g = (g', ret) -> ret <> 0 ->
  oe_register e net_dev_xmit = 0 -> tracepoints g = ∅ ->
  tracepoints g' = ∅ /\ g_tracepoint_registered g' = g_tracepoint_registered g /\
  g_fault_tracepoint_registered g' = g_fault_tracepoint_registered g /\
  g_events_mask g' = g_events_mask g.
Proof.
  unfold start_capture, compat_register_trace. intros H Hr Hn Ht. rewrite Hn in H.
  repeat (case_in H; [|try (simpl in H; simplify_eq; simpl; rewrite ?Ht; done)]);
    simpl in H; simplify_eq; simpl; rewrite ?Ht; auto.
Qed.

Lemma start_capture_started e g g' :
  start_capture e g = (g', 0) ->
  g_tracepoint_registered g' = true /\
  tracepoints g' = base_probes ∪ {[signal_deliver]} ∪ tracepoints g /\
  g_fault_tracepoint_registered g' = g_fault_tracepoint_registered g /\
  g_events_mask g' = g_events_mask g.
Proof.
  unfold start_capture, compat_register_trace, register_kprobes. intros H.
  repeat case_in H; simplify_eq; bool_to_prop; simplify_eq; try lia;
    repeat split; simpl; unfold base_probes; set_solver.
Qed.

Lemma start_capture_succeeds e g :
  (forall p, oe_register e p = 0) -> exists g', start_capture e g = (g', 0).
Proof.
  intros H. unfold start_capture, compat_register_trace. rewrite !H. simpl. eauto.
Qed.

Lemma start_capture_inv e g g' ret :
  probes_inv g -> g_tracepoint_registered g = false ->
  oe_register e net_dev_xmit = 0 -> start_capture e g = (g', ret) ->
  probes_inv g' /\ g_events_mask g' = g_events_mask g /\
  (g_tracepoint_registered g' = true <-> ret = 0).
Proof.
  intros I Hoff Hn H. destruct (pi_off g I Hoff) as [Ht Hf].
  destruct (decide (ret = 0)) as [->|Hr].
  - apply start_capture_started in H as (Hon & Ht' & Hf' & Hm). rewrite Ht in Ht'.
    split; [|by rewrite Hon]. split; rewrite ?Hon, ?Hf', ?Hf, ?Ht'; try done;
      unfold base_probes, fault_probes; set_solver.
  - apply start_capture_failed in H as (Ht' & Hon & Hf' & Hm); [|done..].
    split; [|by rewrite Hon, Hoff]. split; rewrite ?Hon, ?Hf', ?Hf, ?Ht', ?Hoff; done.
Qed.

Lemma stop_capture_inv g :
  probes_inv g ->
  probes_inv (stop_capture g) /\ g_tracepoint_registered (stop_capture g) = false /\
  g_events_mask (stop_capture g) = g_events_mask g.
Proof.
  intros [Hon Hoff Hf Hnf].
  assert (Ht : tracepoints (stop_capture g) = ∅).
  { apply set_eq. intros p. unfold stop_capture. simpl.
    destruct (g_fault_tracepoint_registered g) eqn:E; simpl; rewrite E || idtac; simpl.
    - destruct p; set_solver.
    - specialize (Hnf eq_refl). unfold fault_probes in Hnf. destruct p; set_solver. }
  assert (Hs : g_fault_tracepoint_registered (stop_capture g) = false).
  { unfold stop_capture. simpl. by destruct (g_fault_tracepoint_registered g) eqn:E. }
  split; [|by unfold stop_capture; simpl; destruct (g_fault_tracepoint_registered g)].
  split; rewrite ?Ht, ?Hs; try done; set_solver.
Qed.

(** ** Creating a consumer. *)

Definition closed_ring (r : percpu_ring) : Prop := ring_wf r /\ open_ (ctx r) = false.

Lemma closed_ring_capture r : closed_ring r -> capture_enabled (ctx r) = false.
Proof.
  intros [Hw Ho]. destruct (capture_enabled (ctx r)) eqn:E; [|done].
  rewrite (rw_capture r Hw E) in Ho. done.
Qed.

Lemma init_ring_buffer_closed now e r :
  closed_ring r ->
  exists r' ok, init_ring_buffer now e r = Some (r', ok) /\ closed_ring r'.
Proof.
  intros Hr. pose proof (closed_ring_capture r Hr) as Hc. destruct Hr as [Hw Ho].
  unfold init_ring_buffer. destruct (ra_str e); [|by eexists _, _; repeat split; simpl; congruence].
  destruct (ra_buffer e); simpl; [|by eexists _, _; repeat split; simpl; congruence].
  destruct (ra_info e); simpl; by eexists _, _; repeat split; simpl; congruence.
Qed.

Lemma init_rings_closed e cpus : forall rs,
  Forall closed_ring rs -> Forall (fun i => i < length rs)%nat cpus ->
  exists rs' ok, init_rings e cpus rs = Some (rs', ok) /\
    Forall closed_ring rs' /\ length rs' = length rs.
Proof.
  induction cpus as [|i cpus IH]; intros rs Hrs Hc; simpl; [by eexists _, _|].
  apply Forall_cons_1 in Hc as [Hi Hc].
  destruct (lookup_lt_is_Some_2 rs i Hi) as [r Hr]. rewrite Hr. simpl.
  destruct (init_ring_buffer_closed (oe_now e) (oe_rings e i) r) as (r' & ok & -> & Hr').
  { by eapply Forall_lookup_1. }
  simpl. destruct ok; simpl.
  - destruct (IH (<[i := set_flags r' true (open_ (ctx r')) (capture_enabled (ctx r'))]> rs))
      as (rs' & ok & -> & Hcl & Hl).
    + apply Forall_insert; [done|]. destruct Hr' as [[A B C] Ho]. by repeat split.
    + by rewrite length_insert.
    + rewrite length_insert in Hl. by eexists _, _.
  - eexists _, _. split; [done|]. rewrite length_insert. split; [|done].
    by apply Forall_insert.
Qed.

Lemma closed_consumer_wf possible c :
  Forall closed_ring (ring_buffers c) -> length (ring_buffers c) = possible ->
  consumer_wf possible c /\ has_open_ring c = false.
Proof.
  intros Hr Hl.
  assert (Hno : has_open_ring c = false).
  { apply not_true_is_false. rewrite has_open_ring_spec. intros [n Hn].
    unfold ring_open in Hn. destruct (ring_buffers c !! n) as [r|] eqn:E; [|done].
    apply (Forall_lookup_1 _ _ _ _ Hr) in E as [_ Ho]. congruence. }
  split; [|done]. split; [done| |congruence].
  eapply Forall_impl; [exact Hr|]. by intros r [].
Qed.

(** What the kernel guarantees of an open: the minor number and the online
    CPUs are possible CPUs, and [vmalloc] returns memory that is not in use. *)
Record open_ok (possible : nat) (e : open_env) (d : driver) : Prop := {
  oo_ring : (oe_ring_no e < possible)%nat;
  oo_online : Forall (fun i => i < possible)%nat (oe_online e);
  oo_fresh : forall a, oe_vmalloc e = Some a -> heap d !! a = None }.

Lemma create_consumer_ok max possible e d fs :
  heap_inv possible (g_consumer_list d) (heap d) fs -> open_ok possible e d ->
  (forall a c, heap d !! a = Some c -> consumer_id c <> oe_current e) ->
  exists d' r, create_consumer max possible e d = Some (d', r) /\ glob d' = glob d /\
    match r with
    | inl ret => d' = d /\ ret <> 0
    | inr a => g_consumer_list d' = a :: g_consumer_list d /\
        Z.of_nat (length (g_consumer_list d)) < max /\
        exists c, heap d' = <[a := c]> (heap d) /\ heap d !! a = None /\
          consumer_id c = oe_current e /\ has_open_ring c = false /\
          heap_inv possible (g_consumer_list d') (heap d') fs
    end.
Proof.
  intros I [_ Hon Hfr] Hnew. unfold create_consumer.
  case_if; [by eexists _, _|]. bool_to_prop.
  destruct (oe_vmalloc e) as [a|]; [|by eexists _, _].
  destruct (oe_percpu e) as [km|]; [|by eexists _, _].
  specialize (Hfr a eq_refl).
  destruct (init_rings_closed e (oe_online e) (replicate possible (null_ring km)))
    as (rs & ok & Hrs & Hcl & Hl).
  { apply Forall_replicate. by repeat split. }
  { by rewrite length_replicate. }
  rewrite length_replicate in Hl. rewrite Hrs. simpl.
  set (c := mk_consumer_t (oe_current e) rs (oe_stale e)).
  destruct (closed_consumer_wf possible c) as [Hw Hno]; [done..|].
  destruct ok.
  - eexists _, _. split; [done|]. simpl. split; [done|]. split; [done|]. split; [lia|].
    exists c. split_and!; auto. by apply heap_insert.
  - unfold check_remove_consumer. simpl. rewrite lookup_insert_eq. simpl. rewrite Hno.
    eexists _, _. split; [done|]. simpl. split; [done|]. split; [|done].
    rewrite delete_insert_id by done. by destruct d.
Qed.
