(* ===== verification/DriverSystem.v ===== *)
(** * The driver under every sequence of operations

    The kernel calls the driver for opens, for releases and ioctls of files
    that are open, for CPU hotplug and for events, in any order.  [exec] is one
    such call on the driver and the table of open files, [reachable] what a
    sequence of them leads to.  The theorems state that the driver never follows
    a dangling or null pointer in a reachable state, what its list, its files,
    its probes and its mask have to do with each other there, and two ways in
    which a failed open breaks this. *)

From Stdlib Require Import ZArith Lia List Bool.
From Stdlib Require Import Strings.Byte.
From stdpp Require Import base tactics list numbers option gmap sets fin_sets.
From S2P Require Import Prelude Bytes EventDefs EventTable FillerTable.
From S2P Require Import ValToRing ValToRingSpec Fillers Ring RingSpec Consumers.
From S2P Require Import ConsumersSpec.
Import ListNotations.
Local Open Scope Z_scope.

(** The invariant of the driver with the open files [fs]. *)
Record driver_inv (max : Z) (possible : nat) (d : driver) (fs : list filp) : Prop := {
  di_heap : heap_inv possible (g_consumer_list d) (heap d) fs;
  di_max : Z.of_nat (length (g_consumer_list d)) <= max;
  di_probes : probes_inv (glob d);
  di_files : fs <> [] -> g_tracepoint_registered (glob d) = true;
  di_list : g_tracepoint_registered (glob d) = true -> g_consumer_list d <> [];
  di_mask : fs <> [] ->
    forall t, 0 <= t < PPM_EVENT_MAX -> modifies_state t = true ->
      g_events_mask (glob d) t = true }.

(** When a registration may fail: not the last one, and not when the thread
    is already a consumer without an open ring (see [failed_open_dangles] and
    [failed_xmit_probe_leaks]). *)
Definition registers_ok (e : open_env) (d : driver) : Prop :=
  oe_register e net_dev_xmit = 0 /\
  ((forall p, oe_register e p = 0) \/
   forall a c, heap d !! a = Some c -> consumer_id c = oe_current e -> has_open_ring c = true).

Section driver.
Context (fillers : ppm_filler_id -> filler) (max_consumers : Z) (possible : nat).

(** Replacing one consumer, its open rings unchanged. *)
Lemma inv_update_same d fs a c c' :
  driver_inv max_consumers possible d fs -> heap d !! a = Some c ->
  consumer_wf possible c' -> same_opens c c' ->
  driver_inv max_consumers possible (set_consumer d a c') fs.
Proof.
  intros [I1 I2 I3 I4 I5 I6] Ha Hw Hs. split; simpl; auto.
  by eapply heap_update_same.
Qed.

Lemma reset_ready now r :
  ring_wf r -> has_buffer r = true ->
  exists r1, reset_ring_buffer now r = Some r1 /\
    cpu_online (ctx r1) = cpu_online (ctx r) /\ capture_enabled (ctx r1) = false /\
    forall on op, ring_wf (set_flags r1 on op false).
Proof.
  intros Hw Hb. pose proof (rw_ready r Hw Hb) as Hr. unfold ring_ready in Hr.
  unfold reset_ring_buffer. destruct (has_info r) eqn:Ei; [|by rewrite andb_false_r in Hr].
  simpl. eexists. split; [done|]. split; [done|]. split; [done|].
  intros on op. split; simpl; try done. unfold ring_ready. simpl. by rewrite Ei.
Qed.

(** No file of a consumer is open while nothing is registered. *)
Lemma unregistered_no_open d fs a c :
  driver_inv max_consumers possible d fs -> heap d !! a = Some c ->
  g_tracepoint_registered (glob d) = false -> fs = [] /\ has_open_ring c = false.
Proof.
  intros I Ha Hoff.
  assert (Hfs : fs = []).
  { destruct fs as [|f fs]; [done|]. rewrite (di_files _ _ _ _ I) in Hoff; done. }
  split; [done|]. apply not_true_is_false. rewrite has_open_ring_spec. intros [n Hn].
  assert (H : (consumer_id c, n) ∈ fs) by (apply (hi_files _ _ _ _ (di_heap _ _ _ _ I)); eauto).
  rewrite Hfs in H. by apply elem_of_nil in H.
Qed.

Lemma open_settings_ok : settings_ok open_settings.
Proof. split; [by vm_compute|]. split; [reflexivity|by left]. Qed.

(** Opening a ring that is not open. *)
Lemma inv_open d fs a c n r2 g :
  driver_inv max_consumers possible d fs -> heap d !! a = Some c ->
  (n < possible)%nat -> ring_open c n = false -> ring_wf r2 -> open_ (ctx r2) = true ->
  probes_inv g -> g_tracepoint_registered g = true -> (forall t, g_events_mask g t = true) ->
  driver_inv max_consumers possible
    (set_glob (set_consumer d a (with_ring c n r2 open_settings)) g)
    ((consumer_id c, n) :: fs).
Proof.
  intros [I1 I2 I3 I4 I5 I6] Ha Hn Ho Hw Ho2 Hg Hreg Hm.
  pose proof (hi_wf _ _ _ _ I1 a c Ha) as Hc.
  assert (Hlen : (n < length (ring_buffers c))%nat) by (by rewrite (cw_length possible)).
  assert (Hnew : (consumer_id c, n) ∉ fs).
  { rewrite (hi_files _ _ _ _ I1). simpl. intros (b & cb & Hb & He & Hob).
    assert (b = a) as -> by (by eapply (hi_ids _ _ _ _ I1)). simplify_eq. congruence. }
  split; simpl; auto.
  - eapply heap_update; [done|done|done| | | |].
    + apply with_ring_wf; [done..|]. intros _. apply open_settings_ok.
    + constructor; [done|apply (hi_fnodup _ _ _ _ I1)].
    + intros i. rewrite ring_open_with_ring by done. rewrite elem_of_cons.
      rewrite (hi_files _ _ _ _ I1). simpl. destruct (decide (i = n)) as [->|Hi]; [naive_solver|].
      split.
      * intros [?|(b & cb & Hb & He & Hob)]; [congruence|].
        assert (b = a) as -> by (by eapply (hi_ids _ _ _ _ I1)). by simplify_eq.
      * intros Hi'. right. eauto.
    + intros f Hf. rewrite elem_of_cons. split; [intros [->|]; done|by right].
  - intros _ Hl. assert (a ∈ g_consumer_list d) as Hin
      by (apply (hi_dom _ _ _ _ I1); eauto). rewrite Hl in Hin. by apply elem_of_nil in Hin.
Qed.

(** A registration failed: the ring is closed again and the consumer, which
    has no other open ring, leaves the list and the memory. *)
Lemma inv_open_failed d fs a c n r r3 g :
  driver_inv max_consumers possible d fs -> heap d !! a = Some c ->
  ring_buffers c !! n = Some r -> ring_wf r3 -> open_ (ctx r3) = false ->
  open_ (ctx r) = false -> g_tracepoint_registered (glob d) = false ->
  probes_inv g -> g_tracepoint_registered g = false ->
  exists d', check_remove_consumer
      (set_consumer (set_glob d g) a (with_ring c n r3 open_settings)) a true = Some d' /\
    driver_inv max_consumers possible d' fs.
Proof.
  intros I Ha Hn Hw Ho3 Ho Hoff Hg Hgoff.
  destruct (unregistered_no_open d fs a c I Ha Hoff) as [-> Hno].
  pose proof (hi_wf _ _ _ _ (di_heap _ _ _ _ I) a c Ha) as Hc.
  destruct (with_ring_same possible c n r r3 open_settings) as [Hw' Hs];
    [done|done|done|congruence|intros; apply open_settings_ok|].
  pose proof (heap_update_same _ _ _ _ _ _ _ (di_heap _ _ _ _ I) Ha Hw' Hs) as I'.
  unfold check_remove_consumer. simpl. rewrite lookup_insert_eq. simpl.
  rewrite (same_opens_has_open _ _ Hs), Hno. eexists. split; [done|].
  split; simpl; try done.
  - eapply heap_remove; [exact I'|by rewrite lookup_insert_eq|].
    by rewrite (same_opens_has_open _ _ Hs).
  - etrans; [|apply (di_max _ _ _ _ I)]. apply Nat2Z.inj_le, length_filter.
  - rewrite Hgoff. done.
Qed.

Lemma open_ring_inv e d fs a c in_list :
  driver_inv max_consumers possible d fs -> heap d !! a = Some c ->
  consumer_id c = oe_current e -> (oe_ring_no e < possible)%nat ->
  oe_register e net_dev_xmit = 0 ->
  (forall p, oe_register e p = 0) \/ in_list = true \/ has_open_ring c = true ->
  exists d' ret, open_ring e d a in_list = Some (d', ret) /\
    driver_inv max_consumers possible d'
      (if ret =? 0 then (oe_current e, oe_ring_no e) :: fs else fs).
Proof.
  intros I Ha Hid Hn Hx Hreg. pose proof (hi_wf _ _ _ _ (di_heap _ _ _ _ I) a c Ha) as Hc.
  destruct (consumer_ring _ _ _ Hc Hn) as (r & Hr & Hw).
  unfold open_ring. rewrite Ha. cbn [mbind option_bind]. rewrite Hr. cbn [mbind option_bind].
  destruct (cpu_online (ctx r)) eqn:Eon; [|by eexists _, _]. cbn [negb orb].
  destruct (has_buffer r) eqn:Eb; [|by eexists _, _]. cbn [negb].
  destruct (open_ (ctx r)) eqn:Eo; [by eexists _, _|].
  destruct (reset_ready (oe_now e) r Hw Eb) as (r1 & -> & Eon1 & Ecap & Hwf).
  cbn [mbind option_bind]. rewrite Ecap. rewrite <- Hid.
  assert (Hro : ring_open c (oe_ring_no e) = false) by (unfold ring_open; by rewrite Hr).
  set (r2 := set_flags r1 _ true false). cbv zeta. cbn [glob set_glob].
  change (mk_consumer_t (consumer_id c) (<[oe_ring_no e := r2]> (ring_buffers c)) open_settings)
    with (with_ring c (oe_ring_no e) r2 open_settings).
  assert (Hm : probes_inv (set_mask (glob d) bitmap_fill))
    by (destruct (di_probes _ _ _ _ I) as [A B C D]; split; [exact A|exact B|exact C|exact D]).
  destruct (g_tracepoint_registered (set_mask (glob d) bitmap_fill)) eqn:Ereg.
  { eexists _, _. split; [done|]. cbn [Z.eqb]. apply inv_open; try done; apply Hwf. }
  destruct (start_capture e _) as [g ret] eqn:Est.
  destruct (start_capture_inv e _ _ _ Hm Ereg Hx Est) as (Hg & Hgm & Hgr).
  destruct (ret =? 0) eqn:Eret; bool_to_prop.
  { eexists _, _. split; [done|]. cbn [Z.eqb].
    apply (inv_open d fs a c (oe_ring_no e) r2 g); try done;
      [apply Hwf|apply Hgr; lia|intros t; by rewrite Hgm]. }
  destruct (unregistered_no_open d fs a c I Ha Ereg) as [Hfs Hno].
  destruct Hreg as [Hall|[->|Hop]]; [|clear Hno|congruence].
  { destruct (start_capture_succeeds e (set_mask (glob d) bitmap_fill) Hall); congruence. }
  destruct (inv_open_failed d fs a c (oe_ring_no e) r
    (set_flags r2 (cpu_online (ctx r2)) false (capture_enabled (ctx r2))) g)
    as (d' & Hd & Hi); try done; [apply Hwf|apply not_true_is_false; intros ?%Hgr; lia|].
  unfold check_remove_consumer, set_consumer, set_glob in Hd |- *. cbn in Hd |- *.
  rewrite !lookup_insert_eq in Hd |- *. rewrite insert_insert_eq. unfold with_ring in Hd.
  cbn in Hd |- *. rewrite Hd. cbn. eexists _, _. split; [done|].
  case_if; [by bool_to_prop|done].
Qed.

Lemma driver_find d fs cid :
  driver_inv max_consumers possible d fs ->
  exists o, ppm_find_consumer d cid = Some o /\
    match o with
    | Some a => exists c, heap d !! a = Some c /\ consumer_id c = cid
    | None => forall a c, heap d !! a = Some c -> consumer_id c <> cid
    end.
Proof.
  intros I. destruct d as [l h g]. exact (heap_find _ _ _ _ g cid (di_heap _ _ _ _ I)).
Qed.

(** The consumer and the ring of an open file. *)
Lemma driver_find_open d fs f :
  driver_inv max_consumers possible d fs -> f ∈ fs ->
  exists a c r, ppm_find_consumer d f.1 = Some (Some a) /\ heap d !! a = Some c /\
    consumer_id c = f.1 /\ ring_buffers c !! f.2 = Some r /\ open_ (ctx r) = true.
Proof.
  intros I Hf. destruct (driver_find d fs f.1 I) as (o & Ho & Hs).
  pose proof (proj1 (hi_files _ _ _ _ (di_heap _ _ _ _ I) f) Hf) as (a' & c' & Ha' & Hid & Hop).
  destruct o as [a|]; [|by destruct (Hs _ _ Ha')]. destruct Hs as (c & Ha & Hc).
  assert (a' = a) as -> by (eapply (hi_ids _ _ _ _ (di_heap _ _ _ _ I)); eauto; congruence).
  assert (c' = c) as -> by congruence. unfold ring_open in Hop.
  destruct (ring_buffers c !! f.2) as [r|] eqn:E; [|done]. eauto 10.
Qed.

Lemma ppm_open_inv e d fs :
  driver_inv max_consumers possible d fs -> open_ok possible e d -> registers_ok e d ->
  exists d' ret, ppm_open max_consumers possible e d = Some (d', ret) /\
    driver_inv max_consumers possible d'
      (if ret =? 0 then (oe_current e, oe_ring_no e) :: fs else fs).
Proof.
  intros I He [Hx Hr]. unfold ppm_open.
  destruct (driver_find d fs (oe_current e) I) as (o & -> & Ho). cbn [mbind option_bind].
  destruct o as [a|].
  - destruct Ho as (c & Ha & Hid).
    eapply open_ring_inv; [done..|apply He|done|]. destruct Hr; [by left|right; right; eauto].
  - destruct (create_consumer_ok max_consumers possible e d fs (di_heap _ _ _ _ I) He Ho)
      as (d1 & r & -> & Hg & Hd1). cbn [mbind option_bind]. destruct r as [ret|a].
    + destruct Hd1 as [-> Hret]. eexists _, _. split; [done|].
      destruct (ret =? 0) eqn:E; bool_to_prop; [by destruct Hret|done].
    + destruct Hd1 as (Hl & Hm & c & Hh & Hfr & Hid & Hno & Hi).
      eapply open_ring_inv; [|by rewrite Hh, lookup_insert_eq|done|apply He|done|by auto].
      destruct I as [I1 I2 I3 I4 I5 I6].
      split; rewrite ?Hg, ?Hl; auto; [by rewrite <- Hl|simpl; lia].
Qed.

(** Closing a ring on its consumer. *)
Lemma heap_close d fs a c n r :
  heap_inv possible (g_consumer_list d) (heap d) fs -> heap d !! a = Some c ->
  ring_buffers c !! n = Some r -> open_ (ctx r) = true ->
  heap_inv possible (g_consumer_list d)
    (<[a := with_ring c n (set_flags r (cpu_online (ctx r)) false false) (settings c)]> (heap d))
    (base.filter (fun x => x <> (consumer_id c, n)) fs).
Proof.
  intros I Ha Hn Ho. pose proof (hi_wf _ _ _ _ I a c Ha) as Hc.
  set (r' := set_flags r _ false false).
  assert (Hlen : (n < length (ring_buffers c))%nat) by (by eapply lookup_lt_Some).
  assert (Hrw : ring_wf r').
  { destruct (Forall_lookup_1 _ _ _ _ (cw_rings _ _ Hc) Hn) as [A B C].
    split; [exact A|done|done]. }
  eapply heap_update; [done|done|done| | | |].
  - apply with_ring_wf; [done..|]. intros _. apply (cw_settings possible c Hc).
    apply has_open_ring_spec. exists n. unfold ring_open. by rewrite Hn.
  - apply NoDup_filter, (hi_fnodup _ _ _ _ I).
  - intros i. rewrite list_elem_of_filter, ring_open_with_ring by done.
    destruct (decide (i = n)) as [->|Hi]; [naive_solver|].
    rewrite (hi_files _ _ _ _ I). simpl. split.
    + intros [_ (b & cb & Hb & He & Hob)].
      assert (b = a) as -> by (by eapply (hi_ids _ _ _ _ I)). by simplify_eq.
    + intros Hi'. split; [congruence|eauto].
  - intros g Hg. rewrite list_elem_of_filter. split; [by intros []|].
    intros Hg'. split; [|done]. intros ->. by destruct Hg.
Qed.

Lemma heap_empty_no_files h fs : heap_inv possible [] h fs -> fs = [].
Proof.
  intros I. destruct fs as [|f fs]; [done|].
  destruct (proj1 (hi_files _ _ _ _ I f) (list_elem_of_here _ _)) as (a & c & Ha & _).
  assert (a ∈ []) as H by (apply (hi_dom _ _ _ _ I); eauto). by apply elem_of_nil in H.
Qed.

(** The end of a release: the capture stops with the last consumer. *)
Lemma inv_after_close d fs l h :
  driver_inv max_consumers possible d fs -> fs <> [] ->
  forall fs', heap_inv possible l h fs' ->
  Z.of_nat (length l) <= max_consumers -> 
  let d' := mk_driver l h (glob d) in
  driver_inv max_consumers possible
    (if bool_decide (g_consumer_list d' = []) && g_tracepoint_registered (glob d')
     then set_glob d' (stop_capture (glob d')) else d') fs'.
Proof.
  intros I Hfs fs' I' Hl d'. pose proof (di_files _ _ _ _ I Hfs) as Hreg.
  subst d'. cbn [g_consumer_list glob]. rewrite Hreg, andb_true_r.
  case_bool_decide as E.
  - subst l. apply heap_empty_no_files in I' as Hn. subst fs'.
    destruct (stop_capture_inv (glob d) (di_probes _ _ _ _ I)) as (Hp & Hoff & Hm).
    by split.
  - split; simpl; auto; [apply (di_probes _ _ _ _ I)|].
    intros _. apply (di_mask _ _ _ _ I Hfs).
Qed.

Lemma ppm_release_inv d fs f :
  driver_inv max_consumers possible d fs -> f ∈ fs ->
  exists d', ppm_release f d = Some (d', 0) /\
    driver_inv max_consumers possible d' (base.filter (fun x => x <> f) fs).
Proof.
  intros I Hf. destruct f as [cid n]. unfold ppm_release.
  assert (Hfs : fs <> []) by (intros ->; by apply elem_of_nil in Hf).
  destruct (driver_find_open d fs _ I Hf) as (a & c & r & Hfind & Ha & Hid & Hn & Ho).
  simpl in Hfind, Hid, Hn. subst cid. rewrite Hfind. cbn [mbind option_bind]. rewrite Ha. cbn [mbind option_bind].
  rewrite Hn. cbn [mbind option_bind]. rewrite Ho. cbn [negb].
  pose proof (heap_close d fs a c n r (di_heap _ _ _ _ I) Ha Hn Ho) as Hh.
  unfold with_ring in Hh. cbv zeta. set (c' := mk_consumer_t _ _ _) in *.
  unfold check_remove_consumer. cbn [heap set_consumer]. rewrite lookup_insert_eq.
  cbn [mbind option_bind]. destruct (has_open_ring c') eqn:Eopen; cbn [mbind option_bind];
    eexists; (split; [reflexivity|]).
  - apply (inv_after_close d fs _ _ I Hfs); [done|apply (di_max _ _ _ _ I)].
  - apply (inv_after_close d fs _ _ I Hfs).
    + eapply heap_remove; [exact Hh|by rewrite lookup_insert_eq|done].
    + etrans; [|apply (di_max _ _ _ _ I)]. apply Nat2Z.inj_le, length_filter.
Qed.

(** ** Events and hotplug. *)

Lemma for_each_inv body l : forall d fs,
  driver_inv max_consumers possible d fs ->
  (forall a, a ∈ l -> is_Some (heap d !! a)) ->
  (forall c, consumer_wf possible c ->
     exists c', body c = Some c' /\ consumer_wf possible c' /\ same_opens c c') ->
  exists h, for_each_consumer body l (heap d) = Some h /\
    driver_inv max_consumers possible (mk_driver (g_consumer_list d) h (glob d)) fs.
Proof.
  induction l as [|a l IH]; intros d fs I Hl Hb; simpl; [exists (heap d); by destruct d|].
  destruct (Hl a (list_elem_of_here _ _)) as [c Hc]. rewrite Hc. cbn [mbind option_bind].
  destruct (Hb c (hi_wf _ _ _ _ (di_heap _ _ _ _ I) _ _ Hc)) as (c' & -> & Hw & Hs).
  cbn [mbind option_bind].
  destruct (IH (set_consumer d a c') fs) as (h & Hh & Hi); eauto using inv_update_same.
  intros b Hin. simpl. rewrite lookup_insert_is_Some'.
  right. apply Hl. by apply list_elem_of_further.
Qed.

Lemma record_all_inv ee d fs t df ed :
  driver_inv max_consumers possible d fs -> (ee_cpu ee < possible)%nat ->
  exists d', record_event_all_consumers fillers ee d t df ed = Some d' /\
    driver_inv max_consumers possible d' fs.
Proof.
  intros I Hc. unfold record_event_all_consumers.
  destruct (for_each_inv (fun c => record_for fillers ee (glob d) c t df ed)
    (g_consumer_list d) d fs I) as (h & -> & Hi).
  - intros a. apply (hi_dom _ _ _ _ (di_heap _ _ _ _ I)).
  - intros c Hw. by apply record_for_wf.
  - cbn [mbind option_bind]. by eexists.
Qed.

Lemma set_cpu_online_wf cpu v c :
  (cpu < possible)%nat -> consumer_wf possible c ->
  exists c', set_cpu_online cpu v c = Some c' /\ consumer_wf possible c' /\ same_opens c c'.
Proof.
  intros Hc Hw. destruct (consumer_ring _ _ _ Hw Hc) as (r & Hr & Hrw).
  unfold set_cpu_online. rewrite Hr. cbn [mbind option_bind]. eexists. split; [done|].
  eapply with_ring_same; eauto using cw_settings.
  destruct Hrw as [A B C]. split; [exact A|exact B|exact C].
Qed.

Lemma do_cpu_callback_inv ee stale cpu action d fs :
  driver_inv max_consumers possible d fs -> (ee_cpu ee < possible)%nat ->
  (cpu < possible)%nat ->
  exists d', do_cpu_callback fillers ee stale cpu action d = Some d' /\
    driver_inv max_consumers possible d' fs.
Proof.
  intros I He Hc. unfold do_cpu_callback. case_if; [by eexists|].
  destruct (for_each_inv (fun c => if action =? 1 then set_cpu_online cpu true c
      else if action =? 2 then set_cpu_online cpu false c else Some c)
    (g_consumer_list d) d fs I) as (h & -> & Hi).
  - intros a. apply (hi_dom _ _ _ _ (di_heap _ _ _ _ I)).
  - intros c Hw. repeat case_if; auto using set_cpu_online_wf.
    exists c. split; [done|]. by repeat split; try apply Hw.
  - cbn [mbind option_bind]. by apply record_all_inv.
Qed.

(** ** Ioctls. *)

Lemma with_settings_wf c s :
  consumer_wf possible c -> settings_ok s ->
  consumer_wf possible (mk_consumer_t (consumer_id c) (ring_buffers c) s) /\
  same_opens c (mk_consumer_t (consumer_id c) (ring_buffers c) s).
Proof. intros [A B C] Hs. by split; [split|]. Qed.

Lemma enable_dropping_ok arg s :
  settings_ok s -> settings_ok (fst (ioctl_enable_dropping_mode arg s)).
Proof.
  intros (A & B & C). unfold ioctl_enable_dropping_mode. cbv zeta.
  case_if; [by split|]. bool_to_prop. split; [done|]. split; [done|by right].
Qed.

Lemma ioctl_settings_ok cmd arg act s :
  ioctl_settings cmd arg = Some act -> settings_ok s -> settings_ok (fst (act s)).
Proof.
  unfold ioctl_settings. intros H Hs. repeat case_in H; simplify_eq;
    try (by apply enable_dropping_ok); destruct Hs as (A & B & C); try (by split).
  unfold ioctl_set_snaplen. cbv zeta. case_if; [by split|]. bool_to_prop.
  pose proof (u32_range arg). split; [simpl; lia|by split].
Qed.

(** What an ioctl on the globals keeps. *)
Record globals_kept (g g' : globals) : Prop := {
  gk_probes : probes_inv g';
  gk_registered : g_tracepoint_registered g' = g_tracepoint_registered g;
  gk_mask : forall t, 0 <= t < PPM_EVENT_MAX -> modifies_state t = true ->
    g_events_mask g t = true -> g_events_mask g' t = true }.

Lemma mask_kept g m :
  probes_inv g ->
  (forall t, 0 <= t < PPM_EVENT_MAX -> modifies_state t = true ->
     g_events_mask g t = true -> m t = true) ->
  globals_kept g (set_mask g m).
Proof. intros [A B C D] H. by split. Qed.

(** Probes outside the base and fault probes come and go. *)
Lemma toggle_kept g T :
  probes_inv g -> g_tracepoint_registered g = true ->
  (forall p, p ∈ base_probes \/ p ∈ fault_probes -> p ∈ T <-> p ∈ tracepoints g) ->
  globals_kept g (set_tracepoints g T).
Proof.
  intros [A B C D] Hreg H. split; [|done|done].
  split; simpl; [|congruence| |]; intros Hf p Hp; [| |intros Hp'].
  - apply H; [by left|]. by apply A.
  - apply H; [by right|]. by apply C.
  - apply (D Hf p Hp). apply H; [by right|done].
Qed.

(** The fault probes come together, with their flag. *)
Lemma fault_kept g :
  probes_inv g -> g_tracepoint_registered g = true ->
  globals_kept g (set_fault_registered (set_tracepoints g (fault_probes ∪ tracepoints g)) true).
Proof.
  intros [A B C D] Hreg. split; [|done|done]. split; simpl; [|congruence| |done].
  - intros _. etrans; [by apply A|]. apply union_subseteq_r.
  - intros _. apply union_subseteq_l.
Qed.

Lemma enable_page_faults_kept e g g' ret :
  probes_inv g -> g_tracepoint_registered g = true ->
  ioctl_enable_page_faults e g = (g', ret) -> globals_kept g g'.
Proof.
  intros Hp Hreg. unfold ioctl_enable_page_faults, compat_register_trace.
  destruct (g_fault_tracepoint_disabled g); [by intros [= <- <-]|].
  destruct (g_fault_tracepoint_registered g) eqn:Ef; [by intros [= <- <-]|].
  destruct (ie_register e page_fault_user =? 0); cbn [negb]; [|by intros [= <- <-]].
  destruct (ie_register e page_fault_kernel =? 0); cbn [negb]; intros [= <- <-].
  - pose proof (fault_kept g Hp Hreg) as K. unfold fault_probes in K.
    by rewrite (comm_L (∪) {[page_fault_user]}), <- (assoc_L (∪)) in K.
  - apply (toggle_kept g (({[page_fault_user]} ∪ tracepoints g) ∖ {[page_fault_user]}));
      [done..|]. intros p _.
    pose proof (pi_nofault g Hp Ef page_fault_user) as Hn.
    assert (page_fault_user ∈ fault_probes) as Hin by (by vm_compute).
    specialize (Hn Hin). set_solver.
Qed.

Lemma signal_deliver_kept e on g :
  probes_inv g -> globals_kept g (ioctl_signal_deliver e on g).
Proof.
  intros Hp. unfold ioctl_signal_deliver, compat_register_trace.
  destruct (g_tracepoint_registered g) eqn:Er; cbn [negb]; [|by split].
  assert (Hsd : forall p, p ∈ base_probes \/ p ∈ fault_probes -> p <> signal_deliver).
  { intros p [H|H] ->; revert H; by vm_compute. }
  destruct on; [destruct (ie_register e signal_deliver =? 0)|]; cbn [fst]; [|by split|];
    (apply toggle_kept; [done..|]; intros p Hpr%Hsd).
  - rewrite elem_of_union, elem_of_singleton. naive_solver.
  - rewrite elem_of_difference, elem_of_singleton. naive_solver.
Qed.

Lemma ioctl_globals_kept cmd e g g' ret :
  probes_inv g -> g_tracepoint_registered g = true ->
  ioctl_globals cmd e g = (g', ret) -> globals_kept g g'.
Proof.
  intros Hp Hreg. unfold ioctl_globals. intros H.
  assert (Hid : globals_kept g g) by (by split).
  case_in H; [simplify_eq; apply mask_kept; [done|]; intros t Ht Hm _;
              by rewrite mask_zero_spec, Hm, orb_true_r|].
  case_in H.
  { unfold ioctl_mask_set_event in H. case_in H; simplify_eq; [done|].
    apply mask_kept; [done|]. intros t _ _ Hm. unfold set_bit. by rewrite Hm, orb_true_r. }
  case_in H.
  { unfold ioctl_mask_unset_event in H. case_in H; simplify_eq; [done|]. case_if; [done|].
    apply mask_kept; [done|]. intros t _ Hs Hm. unfold clear_bit. rewrite Hm, andb_true_r.
    apply negb_true_iff, Z.eqb_neq. intros ->. congruence. }
  do 3 (case_in H; [by simplify_eq|]).
  case_in H; [simplify_eq; by apply signal_deliver_kept|].
  case_in H; [simplify_eq; by apply signal_deliver_kept|].
  do 2 (case_in H; [simplify_eq; destruct Hp as [A B C D]; by split|]).
  case_in H; [by eapply enable_page_faults_kept|by simplify_eq].
Qed.

Lemma ioctl_consumer_inv d fs a c c' (ret : Z) (reply : ioctl_reply) :
  driver_inv max_consumers possible d fs -> heap d !! a = Some c ->
  consumer_wf possible c' /\ same_opens c c' ->
  exists d' ret' reply', Some (set_consumer d a c', ret, reply) = Some (d', ret', reply') /\
    driver_inv max_consumers possible d' fs.
Proof.
  intros I Ha [Hw Hs]. eexists _, _, _. split; [reflexivity|]. by eapply inv_update_same.
Qed.

Lemma ppm_ioctl_inv d fs f cmd e :
  driver_inv max_consumers possible d fs -> f ∈ fs -> (ee_cpu (ie_event e) < possible)%nat ->
  exists d' ret reply, ppm_ioctl fillers f cmd e d = Some (d', ret, reply) /\
    driver_inv max_consumers possible d' fs.
Proof.
  intros I Hf Hcpu. destruct f as [cid n]. unfold ppm_ioctl.
  case_if; [by eexists _, _, _|]. case_if; [case_match; by eexists _, _, _|].
  case_if; [case_if; by eexists _, _, _|].
  destruct (driver_find_open d fs _ I Hf) as (a & c & r & Hfind & Ha & Hid & Hn & Ho).
  simpl in Hfind, Hid, Hn. subst cid. rewrite Hfind. cbn [mbind option_bind]. rewrite Ha. cbn [mbind option_bind].
  pose proof (hi_wf _ _ _ _ (di_heap _ _ _ _ I) a c Ha) as Hc.
  assert (Hopen : has_open_ring c = true)
    by (apply has_open_ring_spec; exists n; unfold ring_open; by rewrite Hn).
  pose proof (cw_settings _ _ Hc Hopen) as Hset.
  case_if.
  { unfold ioctl_capture. rewrite Hn. cbn [mbind option_bind].
    eapply ioctl_consumer_inv; [done..|]. eapply with_ring_same; eauto.
    destruct (Forall_lookup_1 _ _ _ _ (cw_rings _ _ Hc) Hn) as [A B C].
    split; [exact A|exact B|done]. }
  case_if.
  { destruct (with_settings_wf c (set_dropping (settings c) 0 1000000000 1) Hc) as [Hw Hs].
    { destruct Hset as (A & _ & _). split; [done|]. split; [done|by right]. }
    unfold ioctl_disable_dropping_mode.
    match goal with |- context [record_for fillers ?ee ?g ?c1 ?t ?df ?ed] =>
      destruct (record_for_wf fillers possible ee g c1 t df ed Hw Hcpu)
        as (c' & -> & Hw' & [Hs1 Hs2]) end.
    cbn [mbind option_bind]. eapply ioctl_consumer_inv; [done..|]. split; [done|].
    split; [by rewrite Hs1|]. intros i. by rewrite Hs2. }
  destruct (ioctl_settings cmd (ie_arg e)) as [act|] eqn:Eact.
  { pose proof (ioctl_settings_ok _ _ _ (settings c) Eact Hset) as Hs.
    destruct (act (settings c)) as [s ret]. eapply ioctl_consumer_inv; [done..|].
    by apply with_settings_wf. }
  destruct (ioctl_globals cmd e (glob d)) as [g ret] eqn:Eg.
  assert (Hfs : fs <> []) by (intros ->; by apply elem_of_nil in Hf).
  apply ioctl_globals_kept in Eg as [K1 K2 K3];
    [|apply (di_probes _ _ _ _ I)|by apply (di_files _ _ _ _ I)].
  eexists _, _, _. split; [done|]. destruct I as [I1 I2 I3 I4 I5 I6].
  split; simpl; rewrite ?K2; auto.
Qed.
End driver.

(** ** The system: the driver with the table of open files. *)

Record sys : Type := mk_sys { drv : driver; files : list filp }.

Inductive op : Type :=
| Open (e : open_env)
| Release (f : filp)
| Ioctl (f : filp) (cmd : Z) (e : ioctl_env)
| Hotplug (ee : event_env) (stale : Z * bool) (cpu : nat) (action : Z)
| Event (ee : event_env) (t drop_flags : Z) (ed : event_data_t).

(** The driver before the first open; whether the page fault tracepoints
    exist is found out when it is loaded. *)
Definition init_driver (possible : nat) (fault_disabled : bool) : driver :=
  mk_driver [] ∅
    (mk_globals false false false fault_disabled false false bitmap_zero
       (repeat 0 possible) ∅ ∅).

Section system.
Context (fillers : ppm_filler_id -> filler) (max_consumers : Z) (possible : nat).

(** One call.  A successful open adds a file, a release ends one whatever
    the driver answers. *)
Definition exec (o : op) (s : sys) : option sys :=
  match o with
  | Open e =>
      x ← ppm_open max_consumers possible e (drv s);
      Some (mk_sys (fst x) (if snd x =? 0 then (oe_current e, oe_ring_no e) :: files s
                            else files s))
  | Release f =>
      x ← ppm_release f (drv s);
      Some (mk_sys (fst x) (base.filter (fun y => y <> f) (files s)))
  | Ioctl f cmd e =>
      x ← ppm_ioctl fillers f cmd e (drv s);
      Some (mk_sys (fst (fst x)) (files s))
  | Hotplug ee stale cpu action =>
      d ← do_cpu_callback fillers ee stale cpu action (drv s);
      Some (mk_sys d (files s))
  | Event ee t df ed =>
      d ← record_event_all_consumers fillers ee (drv s) t df ed;
      Some (mk_sys d (files s))
  end.

(** What the kernel may do. *)
Definition legal (s : sys) (o : op) : Prop :=
  match o with
  | Open e => open_ok possible e (drv s) /\ registers_ok e (drv s)
  | Release f => f ∈ files s
  | Ioctl f _ e => f ∈ files s /\ (ee_cpu (ie_event e) < possible)%nat
  | Hotplug ee _ cpu _ => (ee_cpu ee < possible)%nat /\ (cpu < possible)%nat
  | Event ee _ _ _ => (ee_cpu ee < possible)%nat
  end.

Inductive reachable : sys -> Prop :=
| reach_init disabled : reachable (mk_sys (init_driver possible disabled) [])
| reach_step s o s' : reachable s -> legal s o -> exec o s = Some s' -> reachable s'.

Lemma init_inv disabled :
  0 <= max_consumers -> driver_inv max_consumers possible (init_driver possible disabled) [].
Proof.
  intros Hm. split; simpl; try done.
  - split; try done.
    + constructor.
    + intros a. rewrite lookup_empty. split; [intros H; by apply elem_of_nil in H|by intros []].
    + constructor.
    + intros f. split; [intros H; by apply elem_of_nil in H|]. by intros (a & c & H & _).
Qed.

Lemma exec_inv s o :
  driver_inv max_consumers possible (drv s) (files s) -> legal s o ->
  exists s', exec o s = Some s' /\ driver_inv max_consumers possible (drv s') (files s').
Proof.
  intros I. destruct o as [e|f|f cmd e|ee stale cpu action|ee t df ed]; simpl.
  - intros [Ho Hr]. destruct (ppm_open_inv _ _ e _ _ I Ho Hr) as (d' & ret & -> & Hi).
    cbn [mbind option_bind fst snd]. by eexists.
  - intros Hf. destruct (ppm_release_inv _ _ _ _ f I Hf) as (d' & -> & Hi).
    cbn [mbind option_bind fst snd]. by eexists.
  - intros [Hf Hc].
    destruct (ppm_ioctl_inv fillers _ _ _ _ f cmd e I Hf Hc) as (d' & ret & reply & -> & Hi).
    cbn [mbind option_bind fst snd]. by eexists.
  - intros [He Hc].
    destruct (do_cpu_callback_inv fillers _ _ ee stale cpu action _ _ I He Hc) as (d' & -> & Hi).
    cbn [mbind option_bind]. by eexists.
  - intros He. destruct (record_all_inv fillers _ _ ee _ _ t df ed I He) as (d' & -> & Hi).
    cbn [mbind option_bind]. by eexists.
Qed.

Lemma reachable_inv s :
  0 <= max_consumers -> reachable s -> driver_inv max_consumers possible (drv s) (files s).
Proof.
  intros Hm Hr. induction Hr as [disabled|s o s' _ IH Hl He]; [by apply init_inv|].
  destruct (exec_inv s o IH Hl) as (s2 & He2 & Hi). congruence.
Qed.
End system.

(** Sample: two possible CPUs of which the second is offline. *)
Definition sample_alloc : ring_alloc_env := mk_ring_alloc (Some 4096) true true.
Definition sample_open (thread : Z) (ring_no : nat) (ret : probe -> Z) (addr : Z) : open_env :=
  mk_open_env thread ring_no (Some addr) (Some mem_zero) sample_consumer
    (fun _ => sample_alloc) [0%nat] ret (fun _ => 0) 5.

(** C4: in every state that opens, releases and ioctls of open files, hotplug
    and events can lead to, the invariant holds: the consumer list holds exactly
    the allocated consumers, the open files are exactly the open rings, every
    open ring has its memory, the probes are registered while a file is open,
    and the state-modifying events stay in the mask.  In such a state no
    operation follows a dangling or null pointer: each has a result.  The
    registrations of an open succeed, or at least that of [net_dev_xmit] when the
    thread has no consumer without an open ring ([registers_ok]); what a failure
    leads to otherwise is in [failed_open_dangles] and [failed_xmit_probe_leaks]. *)
Theorem driver_safety (fillers : ppm_filler_id -> filler) (max_consumers : Z)
    (possible : nat) (s : sys) :
  0 <= max_consumers -> reachable fillers max_consumers possible s ->
  driver_inv max_consumers possible (drv s) (files s) /\
  forall o, legal possible s o -> is_Some (exec fillers max_consumers possible o s).
Proof.
  intros Hm Hr. pose proof (reachable_inv _ _ _ _ Hm Hr) as I. split; [done|].
  intros o Hl. destruct (exec_inv fillers _ _ s o I Hl) as (s' & -> & _). by eexists.
Qed.

Lemma sample_open_legal thread addr :
  legal 2 (mk_sys (init_driver 2 false) []) (Open (sample_open thread 0 (fun _ => 0) addr)).
Proof.
  split.
  - split; simpl; [lia|by repeat constructor|done].
  - split; [done|by left].
Qed.

(** The first thread opens the device of the first CPU. *)
Definition sample_opened : sys :=
  default (mk_sys (init_driver 2 false) [])
    (exec sample_fillers 5 2 (Open (sample_open 7 0 (fun _ => 0) 100))
       (mk_sys (init_driver 2 false) [])).

Lemma sample_opened_reachable : reachable sample_fillers 5 2 sample_opened.
Proof.
  eapply reach_step; [apply (reach_init _ _ _ false)|apply (sample_open_legal 7 100)|].
  unfold sample_opened.
  destruct (exec_inv sample_fillers 5 2 (mk_sys (init_driver 2 false) []) _ (init_inv 5 2 false ltac:(lia))
    (sample_open_legal 7 100)) as (s & -> & _). done.
Qed.

Lemma driver_safety_witness :
  files sample_opened = [(7, 0%nat)] /\
  driver_inv 5 2 (drv sample_opened) (files sample_opened).
Proof.
  split; [vm_compute; reflexivity|].
  exact (proj1 (driver_safety sample_fillers 5 2 sample_opened ltac:(lia)
                  sample_opened_reachable)).
Defined.

(** ** The last close. *)

(** A release touches one consumer, which stays only if it has an open ring. *)
Lemma ppm_release_shape max possible d fs f :
  driver_inv max possible d fs -> f ∈ fs ->
  exists a c d', ppm_release f d = Some (d', 0) /\ heap d !! a = Some c /\
    consumer_id c = f.1 /\
    (forall b, b <> a -> heap d' !! b = heap d !! b) /\
    (forall c', heap d' !! a = Some c' -> consumer_id c' = f.1 /\ has_open_ring c' = true).
Proof.
  intros I Hf. destruct (driver_find_open _ _ d fs f I Hf)
    as (a & c & r & Hfind & Ha & Hid & Hn & Ho).
  destruct f as [cid n]. simpl in *. exists a, c. unfold ppm_release.
  rewrite Hfind. cbn [mbind option_bind]. rewrite Ha. cbn [mbind option_bind].
  rewrite Hn. cbn [mbind option_bind]. rewrite Ho. cbn [negb]. cbv zeta.
  set (c' := mk_consumer_t _ _ _). unfold check_remove_consumer. cbn [heap set_consumer].
  rewrite lookup_insert_eq. cbn [mbind option_bind].
  assert (Hif : forall (b : bool) d1 g1, heap (if b then set_glob d1 g1 else d1) = heap d1)
    by (by intros []).
  destruct (has_open_ring c') eqn:Eo; cbn [mbind option_bind]; eexists;
    (split; [reflexivity|]); rewrite Hif; cbn [heap set_consumer]; (split; [done|]); (split; [done|]).
  - split; [intros b Hb; by rewrite lookup_insert_ne|].
    intros c2. rewrite lookup_insert_eq. intros [= <-]. by rewrite Eo.
  - split; [intros b Hb; by rewrite lookup_delete_ne, lookup_insert_ne|].
    intros c2. by rewrite lookup_delete_eq.
Qed.

(** C31: closing the last open file, when no consumer without an open ring is
    left over, frees every consumer, empties the list and unregisters every
    tracepoint. *)
Theorem last_close_stops_capture (fillers : ppm_filler_id -> filler) (max_consumers : Z)
    (possible : nat) (s : sys) (f : filp) :
  0 <= max_consumers -> reachable fillers max_consumers possible s -> files s = [f] ->
  (forall a c, heap (drv s) !! a = Some c -> has_open_ring c = true) ->
  exists s', exec fillers max_consumers possible (Release f) s = Some s' /\
    files s' = [] /\ g_consumer_list (drv s') = [] /\ heap (drv s') = ∅ /\
    g_tracepoint_registered (glob (drv s')) = false /\ tracepoints (glob (drv s')) = ∅.
Proof.
  intros Hm Hr Hf Hopen. pose proof (reachable_inv _ _ _ _ Hm Hr) as I. rewrite Hf in I.
  destruct (ppm_release_shape _ _ _ _ f I (list_elem_of_here _ _))
    as (a & c & d' & Hrel & Ha & Hid & Hother & Hmine).
  destruct (ppm_release_inv _ _ _ _ f I (list_elem_of_here _ _)) as (d2 & Hrel2 & I').
  assert (d2 = d') as -> by congruence.
  assert (base.filter (fun x => x <> f) [f] = []) as Hnil.
  { rewrite filter_cons_False by (intros H; by apply H). done. }
  rewrite Hnil in I'.
  assert (Hh : heap d' = ∅).
  { apply map_eq. intros b. rewrite lookup_empty.
    destruct (heap d' !! b) as [cb|] eqn:Eb; [exfalso|done].
    assert (has_open_ring cb = true) as Hob.
    { destruct (decide (b = a)) as [->|Hne]; [by apply Hmine|].
      rewrite Hother in Eb by done. eauto. }
    apply has_open_ring_spec in Hob as [n Hn].
    assert ((consumer_id cb, n) ∈ []) as Hin
      by (apply (hi_files _ _ _ _ (di_heap _ _ _ _ I')); eauto).
    by apply elem_of_nil in Hin. }
  assert (Hl : g_consumer_list d' = []).
  { destruct (g_consumer_list d') as [|b l] eqn:E; [done|].
    assert (b ∈ g_consumer_list d') as Hin by (rewrite E; apply list_elem_of_here).
    apply (hi_dom _ _ _ _ (di_heap _ _ _ _ I')) in Hin. rewrite Hh in Hin. by destruct Hin. }
  assert (Hreg : g_tracepoint_registered (glob d') = false).
  { apply not_true_is_false. intros H. by apply (di_list _ _ _ _ I' H). }
  exists (mk_sys d' []). simpl. rewrite Hrel, Hf. cbn [mbind option_bind fst].
  rewrite Hnil. repeat split; try done. by apply (pi_off _ (di_probes _ _ _ _ I')).
Qed.

Lemma sample_opened_open_rings :
  forallb (fun p : Z * ppm_consumer_t => has_open_ring p.2)
    (map_to_list (heap (drv sample_opened))) = true.
Proof. vm_compute. reflexivity. Qed.

Lemma last_close_stops_capture_witness :
  exists s', exec sample_fillers 5 2 (Release (7, 0%nat)) sample_opened = Some s' /\
    files s' = [] /\ g_consumer_list (drv s') = [] /\ heap (drv s') = ∅ /\
    g_tracepoint_registered (glob (drv s')) = false /\ tracepoints (glob (drv s')) = ∅.
Proof.
  apply (last_close_stops_capture sample_fillers 5 2 sample_opened (7, 0%nat));
    [lia|apply sample_opened_reachable|vm_compute; reflexivity|].
  intros a c Ha. pose proof sample_opened_open_rings as H. rewrite forallb_forall in H.
  apply (H (a, c)). by apply list_elem_of_In, elem_of_map_to_list.
Defined.

(** ** Failed opens. *)

Lemma for_each_dangling body a l : forall h,
  a ∈ l -> h !! a = None -> for_each_consumer body l h = None.
Proof.
  induction l as [|b l IH]; intros h Hin Ha; simpl; [by apply elem_of_nil in Hin|].
  destruct (decide (a = b)) as [->|Hne]; [by rewrite Ha|].
  apply elem_of_cons in Hin as [?|Hin]; [done|].
  destruct (h !! b) as [c|]; [|done]. cbn [mbind option_bind].
  destruct (body c) as [c'|]; [|done]. cbn [mbind option_bind].
  apply IH; [done|]. by rewrite lookup_insert_ne.
Qed.

(** The failing open itself: the consumer is freed, the list is unchanged. *)
Lemma failed_open_frees max possible d fs e a c r :
  driver_inv max possible d fs -> heap d !! a = Some c ->
  consumer_id c = oe_current e -> has_open_ring c = false ->
  ring_buffers c !! oe_ring_no e = Some r -> cpu_online (ctx r) = true ->
  has_buffer r = true -> g_tracepoint_registered (glob d) = false ->
  (oe_register e sys_exit =? 0) = false ->
  exists d', ppm_open max possible e d = Some (d', oe_register e sys_exit) /\
    g_consumer_list d' = g_consumer_list d /\ heap d' !! a = None.
Proof.
  intros I Ha Hid Hno Hn Hon Hb Hoff Hreg.
  pose proof (hi_wf _ _ _ _ (di_heap _ _ _ _ I) a c Ha) as Hc.
  pose proof (Forall_lookup_1 _ _ _ _ (cw_rings _ _ Hc) Hn) as Hw.
  assert (Hop : open_ (ctx r) = false).
  { apply not_true_is_false. intros Ho.
    assert (has_open_ring c = true); [|congruence].
    apply has_open_ring_spec. exists (oe_ring_no e). unfold ring_open. by rewrite Hn. }
  destruct (driver_find _ _ _ _ (oe_current e) I) as ([b|] & Hfind & Hs);
    [|by destruct (Hs _ _ Ha)].
  destruct Hs as (cb & Hb' & Hidb).
  assert (b = a) as -> by (eapply (hi_ids _ _ _ _ (di_heap _ _ _ _ I)); eauto; congruence).
  destruct (reset_ready (oe_now e) r Hw Hb) as (r1 & Hr1 & _ & Hcap1 & Hwf).
  unfold ppm_open. rewrite Hfind. cbn [mbind option_bind]. unfold open_ring.
  rewrite Ha. cbn [mbind option_bind]. rewrite Hn. cbn [mbind option_bind].
  rewrite Hon, Hb, Hop. cbn [negb orb]. rewrite Hr1. cbn [mbind option_bind].
  cbn [glob set_glob]. cbn [g_tracepoint_registered set_mask]. rewrite Hoff.
  unfold start_capture, compat_register_trace. rewrite Hreg. cbn [negb]. rewrite Hreg.
  unfold check_remove_consumer. cbn [heap set_consumer set_glob].
  rewrite lookup_insert_eq. cbn [mbind option_bind].
  match goal with |- context [has_open_ring (mk_consumer_t ?i (<[?n := ?r3]> ?rs) ?st)] =>
    destruct (with_ring_same possible c n r r3 st) as [_ Hs];
      [done|done|rewrite Hcap1; apply Hwf|done|congruence|] end.
  unfold with_ring in Hs. rewrite (same_opens_has_open _ _ Hs), Hno. cbn [mbind option_bind].
  eexists. split; [done|]. cbn [g_consumer_list heap]. by rewrite lookup_delete_eq.
Qed.

(** A thread that is already a consumer but has no open ring, opening a
    usable ring while the first registration fails, leaves a dangling pointer:
    its consumer is freed but stays on the list (the code passes [in_list],
    which is false for a consumer that was found), so that every later event
    follows freed memory. *)
Theorem failed_open_dangles (fillers : ppm_filler_id -> filler) (max_consumers : Z)
    (possible : nat) (s : sys) (e : open_env) (a : Z) (c : ppm_consumer_t) (r : percpu_ring) :
  0 <= max_consumers -> reachable fillers max_consumers possible s ->
  heap (drv s) !! a = Some c -> consumer_id c = oe_current e -> has_open_ring c = false ->
  ring_buffers c !! oe_ring_no e = Some r -> cpu_online (ctx r) = true ->
  has_buffer r = true -> g_tracepoint_registered (glob (drv s)) = false ->
  oe_register e sys_exit <> 0 ->
  exists s', exec fillers max_consumers possible (Open e) s = Some s' /\
    a ∈ g_consumer_list (drv s') /\ heap (drv s') !! a = None /\
    forall ee t drop_flags ed,
      exec fillers max_consumers possible (Event ee t drop_flags ed) s' = None.
Proof.
  intros Hm Hreach Ha Hid Hno Hn Hon Hb Hoff Hreg. apply Z.eqb_neq in Hreg.
  pose proof (reachable_inv _ _ _ _ Hm Hreach) as I.
  destruct (failed_open_frees _ _ _ _ e a c r I) as (d' & Hopen & Hl & Hh); [done..|].
  exists (mk_sys d' (files s)). simpl. rewrite Hopen. cbn [mbind option_bind fst snd].
  rewrite Hreg. split; [done|].
  assert (Hin : a ∈ g_consumer_list d')
    by (rewrite Hl; apply (hi_dom _ _ _ _ (di_heap _ _ _ _ I)); eauto).
  repeat split; try done. intros ee t df ed. unfold record_event_all_consumers.
  by rewrite (for_each_dangling _ a).
Qed.

(** Thread 7 opens the device of the offline CPU: it becomes a consumer, but
    no file is open. *)
Definition sample_zombie : sys :=
  default (mk_sys (init_driver 2 false) [])
    (exec sample_fillers 5 2 (Open (sample_open 7 1 (fun _ => 0) 100))
       (mk_sys (init_driver 2 false) [])).
Definition sample_zombie_consumer : ppm_consumer_t :=
  default (mk_consumer_t 0 [] sample_consumer) (heap (drv sample_zombie) !! 100).
Definition sample_zombie_ring : percpu_ring :=
  default (null_ring mem_zero) (ring_buffers sample_zombie_consumer !! 0%nat).

Lemma sample_zombie_reachable : reachable sample_fillers 5 2 sample_zombie.
Proof.
  assert (H : legal 2 (mk_sys (init_driver 2 false) []) (Open (sample_open 7 1 (fun _ => 0) 100))).
  { split; [|by split; [|left]]. split; simpl; [lia|by repeat constructor|done]. }
  eapply reach_step; [apply (reach_init _ _ _ false)|exact H|]. unfold sample_zombie.
  destruct (exec_inv sample_fillers 5 2 (mk_sys (init_driver 2 false) []) _
    (init_inv 5 2 false ltac:(lia)) H) as (s & -> & _). done.
Qed.

Lemma failed_open_dangles_witness :
  files sample_zombie = [] /\
  exists s', exec sample_fillers 5 2 (Open (sample_open 7 0 (fun _ => -12) 200)) sample_zombie
             = Some s' /\
    100 ∈ g_consumer_list (drv s') /\ heap (drv s') !! 100 = None /\
    forall ee t drop_flags ed,
      exec sample_fillers 5 2 (Event ee t drop_flags ed) s' = None.
Proof.
  split; [vm_compute; reflexivity|].
  apply (failed_open_dangles sample_fillers 5 2 sample_zombie
    (sample_open 7 0 (fun _ => -12) 200) 100 sample_zombie_consumer sample_zombie_ring);
    [lia|apply sample_zombie_reachable|..|done]; vm_compute; reflexivity.
Defined.

(** ** Consumers without a file. *)

(** Every allocation for a ring succeeds. *)
Definition alloc_succeeds (e : ring_alloc_env) : Prop :=
  is_Some (ra_str e) /\ ra_buffer e = true /\ ra_info e = true.

Lemma init_rings_all e cpus : forall rs,
  (forall i, alloc_succeeds (oe_rings e i)) ->
  Forall (fun i => i < length rs)%nat cpus ->
  exists rs', init_rings e cpus rs = Some (rs', true) /\
    forall n, n ∉ cpus -> rs' !! n = rs !! n.
Proof.
  induction cpus as [|i cpus IH]; intros rs Ha Hc; simpl; [by eexists|].
  apply Forall_cons_1 in Hc as [Hi Hc].
  destruct (lookup_lt_is_Some_2 rs i Hi) as [r Hr]. rewrite Hr. cbn [mbind option_bind].
  unfold init_ring_buffer. destruct (Ha i) as ([page ->] & -> & ->). simpl.
  edestruct IH as (rs' & -> & Hrest); [done|by rewrite length_insert|].
  eexists. split; [done|]. intros n Hn. apply not_elem_of_cons in Hn as [Hne Hn].
  rewrite Hrest by done. by rewrite list_lookup_insert_ne.
Qed.

(** Opening the device of a CPU that is offline answers ENODEV but leaves
    a new consumer on the list, without a file whose release would remove it;
    once [max_consumers] such consumers exist, every open by another thread is
    refused although nothing is open. *)
Theorem offline_open_leaks_consumer (fillers : ppm_filler_id -> filler) (max_consumers : Z)
    (possible : nat) (s : sys) (e : open_env) (a : Z) (km : mem) :
  0 <= max_consumers -> reachable fillers max_consumers possible s ->
  open_ok possible e (drv s) ->
  (forall b c, heap (drv s) !! b = Some c -> consumer_id c <> oe_current e) ->
  Z.of_nat (length (g_consumer_list (drv s))) < max_consumers ->
  oe_vmalloc e = Some a -> oe_percpu e = Some km ->
  (forall i, alloc_succeeds (oe_rings e i)) -> oe_ring_no e ∉ oe_online e ->
  exists s', exec fillers max_consumers possible (Open e) s = Some s' /\
    files s' = files s /\ g_consumer_list (drv s') = a :: g_consumer_list (drv s) /\
    forall e', max_consumers <= Z.of_nat (length (g_consumer_list (drv s'))) ->
      ppm_find_consumer (drv s') (oe_current e') = Some None ->
      ppm_open max_consumers possible e' (drv s') = Some (drv s', - EBUSY).
Proof.
  intros Hm Hr [Hring Honl Hfr] Hnew Hlen Hv Hp Hall Hoff.
  pose proof (reachable_inv _ _ _ _ Hm Hr) as I.
  destruct (driver_find _ _ _ _ (oe_current e) I) as ([b|] & Hfind & Hs).
  { destruct Hs as (c & Hc & Hid). by destruct (Hnew b c Hc). }
  destruct (init_rings_all e (oe_online e) (replicate possible (null_ring km)) Hall)
    as (rs & Hrs & Hrest); [by rewrite length_replicate|].
  specialize (Hrest _ Hoff). rewrite lookup_replicate_2 in Hrest by done.
  set (c := mk_consumer_t (oe_current e) rs (oe_stale e)).
  set (d' := mk_driver (a :: g_consumer_list (drv s)) (<[a := c]> (heap (drv s)))
               (glob (drv s))).
  assert (Hopen : ppm_open max_consumers possible e (drv s) = Some (d', - ENODEV)).
  { unfold ppm_open. rewrite Hfind. cbn [mbind option_bind]. unfold create_consumer.
    assert (max_consumers <=? Z.of_nat (length (g_consumer_list (drv s))) = false) as ->
      by lia.
    rewrite Hv, Hp, Hrs. cbn [mbind option_bind]. unfold open_ring. simpl.
    rewrite lookup_insert_eq. simpl. rewrite Hrest. done. }
  exists (mk_sys d' (files s)). simpl. rewrite Hopen. cbn [mbind option_bind fst snd].
  repeat split; try done. intros e' Hfull Hf. unfold ppm_open. rewrite Hf.
  cbn [mbind option_bind]. unfold create_consumer.
  rewrite (proj2 (Z.leb_le _ _)) by exact Hfull. done.
Qed.

Lemma offline_open_leaks_consumer_witness :
  exists s', exec sample_fillers 1 2 (Open (sample_open 7 1 (fun _ => 0) 100))
               (mk_sys (init_driver 2 false) []) = Some s' /\
    files s' = [] /\ g_consumer_list (drv s') = [100] /\
    forall e', 1 <= Z.of_nat (length (g_consumer_list (drv s'))) ->
      ppm_find_consumer (drv s') (oe_current e') = Some None ->
      ppm_open 1 2 e' (drv s') = Some (drv s', - EBUSY).
Proof.
  apply (offline_open_leaks_consumer sample_fillers 1 2 (mk_sys (init_driver 2 false) [])
    (sample_open 7 1 (fun _ => 0) 100) 100 mem_zero); try done; try (simpl; lia).
  - apply reach_init.
  - split; simpl; [lia|by repeat constructor|done].
  - simpl. rewrite list_elem_of_singleton. done.
Defined.
