(* ===== verification/Probes.v ===== *)
(** * The probes: [driver/main.c]

    The functions the kernel calls on a tracepoint or kprobe hit.  Each decides
    whether there is an event, of which type and with which drop flags, and hands
    it to all consumers.  The numbers of the syscalls come from the kernel
    headers and are arguments, as in [SyscallTable]; so are the kernel's answers
    about the current task and the packet memory. *)

From Stdlib Require Import ZArith Lia List Bool.
From Stdlib Require Import Strings.Byte Strings.String.
From stdpp Require Import base tactics list numbers option gmap.
From S2P Require Import Prelude Bytes EventDefs EventTable FillerTable SyscallTable.
From S2P Require Import ValToRing ValToRingSpec Fillers Ring Consumers.
Import ListNotations.
Local Open Scope Z_scope.


(** [g_n_tracepoint_hit_inc] *)
Definition g_n_tracepoint_hit_inc (cpu : nat) (d : driver) : driver :=
  set_glob d (set_hits (glob d) (alter (fun h => s64 (h + 1)) cpu (g_n_tracepoint_hit (glob d)))).

(** ** Syscalls. *)

(** What the two syscall probes choose by the kind of the task. *)
Record syscall_route : Type := mk_route {
  rt_table : Z -> syscall_evt_pair;
  rt_codes : Z -> Z;
  rt_socketcall : Z;
  rt_compat : bool }.

Section syscalls.
(** The numbers of [asm/unistd.h] and of the ia32 headers. *)
Context (nr nr32 : string -> option Z).

Definition native_route : syscall_route :=
  mk_route (table_entry nr SYSCALL_TABLE_ID0 g_syscall_table_rows)
    (code_entry nr SYSCALL_TABLE_ID0 g_syscall_code_routing_table_rows)
    (default (-1) (nr "socketcall"%string)) false.

Definition ia32_route : syscall_route :=
  mk_route (table_entry nr32 SYSCALL_TABLE_ID0 g_syscall_ia32_table_rows)
    (code_entry nr32 SYSCALL_TABLE_ID0 g_syscall_ia32_code_routing_table_rows)
    (default (-1) (nr32 "socketcall"%string)) true.

Definition enter_route (in_ia32_syscall : bool) : syscall_route :=
  if in_ia32_syscall then ia32_route else native_route.

Definition exit_route (in_ia32_syscall : bool) (id : Z) : syscall_route :=
  if in_ia32_syscall && negb (id =? default (-1) (nr "execve"%string))
  then ia32_route else native_route.

(** What the body of a syscall probe records: the event type and the drop
    flags, or nothing.  [pick] is the enter or exit type of a pair, [generic] and
    [epoll_wait] the event types named in the code. *)
Definition probe_decision (rt : syscall_route) (simple : bool)
    (pick : syscall_evt_pair -> Z) (generic epoll_wait : Z) (id : Z) : option (Z * Z) :=
  let table_index := id - SYSCALL_TABLE_ID0 in
  if (0 <=? table_index) && (table_index <? SYSCALL_TABLE_SIZE) then
    let entry := rt_table rt table_index in
    if simple && negb (has_flag (sp_flags entry) UF_SIMPLEDRIVER_KEEP) then None
    else
      let '(used, drop_flags, type) :=
        if id =? rt_socketcall rt then (true, UF_NEVER_DROP, generic)
        else (has_flag (sp_flags entry) UF_USED, sp_flags entry, pick entry) in
      if type =? epoll_wait then None
      else if used then Some (type, drop_flags)
      else Some (generic, UF_ALWAYS_DROP)
  else None.

Definition enter_decision (in_ia32 simple : bool) (id : Z) : option (Z * Z) :=
  probe_decision (enter_route in_ia32) simple enter_event_type PPME_GENERIC_E
    PPME_SYSCALL_EPOLLWAIT_E id.

Definition exit_decision (in_ia32 simple : bool) (id : Z) : option (Z * Z) :=
  probe_decision (exit_route in_ia32 id) simple exit_event_type PPME_GENERIC_X
    PPME_SYSCALL_EPOLLWAIT_X id.

Definition syscall_event_data (rt : syscall_route) (id : Z) : event_data_t :=
  mk_event_data PPMC_SYSCALL (rt_socketcall rt) (rt_compat rt)
    (syscall_data true id (rt_codes rt)).

Context (fillers : ppm_filler_id -> filler).

(** [syscall_enter_probe] and [syscall_exit_probe], where [id] is what
    [syscall_get_nr] returns. *)
Definition syscall_enter_probe (ee : event_env) (in_ia32 : bool) (id : Z) (d : driver) :
    option driver :=
  let d := g_n_tracepoint_hit_inc (ee_cpu ee) d in
  match enter_decision in_ia32 (g_simple_mode_enabled (glob d)) id with
  | None => Some d
  | Some (type, drop_flags) =>
      record_event_all_consumers fillers ee d type drop_flags
        (syscall_event_data (enter_route in_ia32) id)
  end.

Definition syscall_exit_probe (ee : event_env) (in_ia32 : bool) (id : Z) (d : driver) :
    option driver :=
  let d := g_n_tracepoint_hit_inc (ee_cpu ee) d in
  match exit_decision in_ia32 (g_simple_mode_enabled (glob d)) id with
  | None => Some d
  | Some (type, drop_flags) =>
      record_event_all_consumers fillers ee d type drop_flags
        (syscall_event_data (exit_route in_ia32 id) id)
  end.
End syscalls.

(** ** Scheduling, signals and page faults.

    [stale] is what the local [event_data] of a probe holds in the fields that
    only syscalls set. *)
Section probes.
Context (fillers : ppm_filler_id -> filler) (stale : Z * bool).

Definition probe_data (category : Z) (i : event_info) : event_data_t :=
  mk_event_data category (fst stale) (snd stale) i.

Definition syscall_procexit_probe (ee : event_env) (kthread : bool) (p : Z) (d : driver) :
    option driver :=
  let d := g_n_tracepoint_hit_inc (ee_cpu ee) d in
  if kthread then Some d
  else record_event_all_consumers fillers ee d PPME_PROCEXIT_1_E UF_NEVER_DROP
         (probe_data PPMC_CONTEXT_SWITCH (context_data p p)).

Definition sched_switch_probe (ee : event_env) (prev next : Z) (d : driver) : option driver :=
  record_event_all_consumers fillers ee (g_n_tracepoint_hit_inc (ee_cpu ee) d)
    PPME_SCHEDSWITCH_6_E (Z.lor UF_USED UF_ATOMIC)
    (probe_data PPMC_CONTEXT_SWITCH (context_data prev next)).

(** [SEND_SIG_NOINFO] and [SEND_SIG_PRIV]; [SEND_SIG_FORCED] is the third of
    them in the kernels that have it. *)
Definition SEND_SIG_NOINFO : Z := 0.
Definition SEND_SIG_PRIV : Z := 1.

Definition siginfo_not_a_pointer (send_sig_forced : option Z) (info : Z) : bool :=
  match send_sig_forced with
  | Some forced => (info =? SEND_SIG_NOINFO) || (info =? SEND_SIG_PRIV) || negb (forced =? 0)
  | None => (info =? SEND_SIG_NOINFO) || (info =? SEND_SIG_PRIV)
  end.

(** The event data of a signal; [deref] is what the pointer points to. *)
Definition signal_event_data (send_sig_forced : option Z) (sig info : Z)
    (deref : Z -> siginfo) : event_data_t :=
  probe_data PPMC_SIGNAL
    (signal_data sig (if siginfo_not_a_pointer send_sig_forced info then None
                      else Some (deref info))).

Definition signal_deliver_probe (ee : event_env) (send_sig_forced : option Z) (sig info : Z)
    (deref : Z -> siginfo) (d : driver) : option driver :=
  record_event_all_consumers fillers ee (g_n_tracepoint_hit_inc (ee_cpu ee) d)
    PPME_SIGNALDELIVER_E (Z.lor UF_USED UF_ALWAYS_DROP)
    (signal_event_data send_sig_forced sig info deref).

Definition page_fault_probe (ee : event_env) (d : driver) : option driver :=
  record_event_all_consumers fillers ee (g_n_tracepoint_hit_inc (ee_cpu ee) d)
    PPME_PAGE_FAULT_E UF_ALWAYS_DROP (probe_data PPMC_PAGE_FAULT other_data).

(** ** TCP kprobes: [sport] and [dport] in host order. *)

Definition ssh_or_unbound (sport dport : Z) : bool :=
  (sport =? 22) || (dport =? 22) || (sport =? 0) || (dport =? 0).

Definition handler_pre_tcp_drop (ee : event_env) (sport dport : Z) (d : driver) :
    option driver :=
  if ssh_or_unbound sport dport then Some d
  else record_event_all_consumers fillers ee d PPME_TCP_DROP_E (Z.lor UF_USED UF_NEVER_DROP)
         (probe_data PPMC_TCP_DROP other_data).

Definition handler_pre_tcp_rcv_established (ee : event_env) (sport dport : Z) (d : driver) :
    option driver :=
  if ssh_or_unbound sport dport then Some d
  else record_event_all_consumers fillers ee d PPME_TCP_RCV_ESTABLISHED_E
         (Z.lor UF_USED UF_NEVER_DROP) (probe_data PPMC_TCP_RCV_ESTABLISHED other_data).

Definition handler_pre_tcp_retransmit_skb (ee : event_env) (sport dport : Z) (d : driver) :
    option driver :=
  if (sport =? 0) || (dport =? 0) then Some d
  else record_event_all_consumers fillers ee d PPME_TCP_RETRANCESMIT_SKB_E
         (Z.lor UF_USED UF_NEVER_DROP) (probe_data PPMC_TCP_RETRANSMIT_SKB other_data).

(** ** Transmitted packets. *)

(** [struct sk_buff]: the fields that are read. *)
Record sk_buff : Type := mk_skb {
  skb_data : Z;
  skb_head : Z;
  skb_len : Z;
  skb_network_header : Z }.

Definition IPPROTO_IPIP : Z := 4.
Definition IPPROTO_TCP : Z := 6.
Definition IPPROTO_UDP : Z := 17.
Definition VXLAN_HLEN : Z := 16.
Definition sizeof_iphdr : Z := 20.
Definition sizeof_ethhdr : Z := 14.

(** A network order 16 bit field. *)
Definition be16 (m : mem) (a : Z) : Z := Z_of_byte (m a) * 256 + Z_of_byte (m (a + 1)).

(** The loop that compares the device name with [setting_name]: does it
    return? *)
Fixpoint name_matches (fuel : nat) (dev_name setting_name : list byte) : bool :=
  match fuel with
  | O => false
  | S fuel' =>
      match setting_name with
      | [] => false
      | s :: setting_name' =>
          if negb (Byte.eqb (hd x00 dev_name) s) then false
          else if Byte.eqb s x00 then true
          else name_matches fuel' (tl dev_name) setting_name'
      end
  end.

Definition lo_name : list byte := [x6c; x6f; x00].

(** [check_skb] with [setting_name] "lo". *)
Definition check_skb (m : mem) (skb : sk_buff) (dev_name : list byte) : Z :=
  if name_matches 16 dev_name lo_name then -1
  else if skb_head skb =? 0 then -1
  else
    let data_end := u64 (u32 (skb_len skb) + skb_data skb) in
    let iph := u64 (skb_head skb + u16 (skb_network_header skb)) in
    if data_end <? u64 (iph + 1) then -1
    else
      let ipp := Z_of_byte (m (iph + 9)) in
      if ipp =? IPPROTO_TCP then
        let tcph := u64 (iph + sizeof_iphdr) in
        if data_end <? u64 (tcph + 1) then -1 else 0
      else if ipp =? IPPROTO_IPIP then
        let iph2 := u64 (iph + sizeof_iphdr) in
        if data_end <? u64 (iph2 + 1) then -1
        else
          let tcph := u64 (iph2 + sizeof_iphdr) in
          if data_end <? u64 (tcph + 1) then -1 else 0
      else if ipp =? IPPROTO_UDP then
        let udph := u64 (iph + sizeof_iphdr) in
        if data_end <? u64 (udph + 1) then -1
        else
          let vxlan_port := be16 m (udph + 2) in
          if (vxlan_port =? 4789) || (vxlan_port =? 8472) then
            let eth2 := u64 (udph + VXLAN_HLEN) in
            if data_end <? u64 (eth2 + sizeof_ethhdr) then 0
            else if negb (be16 m (eth2 + 12) =? 2048) then -1
            else
              let iph2 := u64 (eth2 + sizeof_ethhdr) in
              if data_end <? u64 (iph2 + 1) then -1
              else
                let tcph := u64 (iph2 + sizeof_iphdr) in
                if data_end <? u64 (tcph + 1) then -1 else 0
          else -1
      else -1.

Definition net_dev_xmit_probe (ee : event_env) (m : mem) (skb : sk_buff)
    (dev_name : list byte) (d : driver) : option driver :=
  let d := g_n_tracepoint_hit_inc (ee_cpu ee) d in
  if check_skb m skb dev_name =? 0
  then record_event_all_consumers fillers ee d PPME_NET_DEV_XMIT_E
         (Z.lor UF_USED UF_NEVER_DROP) (probe_data PPMC_SKB_CAPTURE other_data)
  else Some d.
End probes.

(** ** Facts about the probes. *)

(** The two probes on one route. *)
Lemma route_pairs rt simple id :
  rt_table rt (id - SYSCALL_TABLE_ID0) = mk_pair UF_NONE 0 0 \/
  pair_routes (rt_table rt (id - SYSCALL_TABLE_ID0)) ->
  probe_decision rt simple exit_event_type PPME_GENERIC_X PPME_SYSCALL_EPOLLWAIT_X id =
  option_map (fun '(t, fl) => (t + 1, fl))
    (probe_decision rt simple enter_event_type PPME_GENERIC_E PPME_SYSCALL_EPOLLWAIT_E id).
Proof.
  unfold probe_decision. intros H. case_if; [|done].
  set (entry := rt_table rt (id - SYSCALL_TABLE_ID0)) in *. clearbody entry.
  case_if; [done|]. destruct (id =? rt_socketcall rt); [done|].
  destruct H as [->|(_ & He & _ & Hu & _)]; [done|]. rewrite Hu, He.
  replace (enter_event_type entry + 1 =? PPME_SYSCALL_EPOLLWAIT_X)
    with (enter_event_type entry =? PPME_SYSCALL_EPOLLWAIT_E);
    [by case_if|unfold PPME_SYSCALL_EPOLLWAIT_E, PPME_SYSCALL_EPOLLWAIT_X].
  destruct (Z.eqb_spec (enter_event_type entry) 78); symmetry; lia.
Qed.

Lemma decision_has_filler rt simple id t fl :
  rt_table rt (id - SYSCALL_TABLE_ID0) = mk_pair UF_NONE 0 0 \/
  pair_routes (rt_table rt (id - SYSCALL_TABLE_ID0)) ->
  probe_decision rt simple enter_event_type PPME_GENERIC_E PPME_SYSCALL_EPOLLWAIT_E id
    = Some (t, fl) ->
  is_Some (g_ppm_events t) /\ is_Some (g_ppm_events (t + 1)).
Proof.
  unfold probe_decision. intros H Hd. case_in Hd; [|done].
  set (entry := rt_table rt (id - SYSCALL_TABLE_ID0)) in *. clearbody entry.
  assert (Hg : is_Some (g_ppm_events PPME_GENERIC_E) /\ is_Some (g_ppm_events (PPME_GENERIC_E + 1)))
    by (split; eexists; vm_compute; reflexivity).
  case_in Hd; [done|]. destruct (id =? rt_socketcall rt); [simpl in Hd; by simplify_eq|].
  destruct H as [->|(_ & He & _ & Hu & _ & H1 & H2)]; [simpl in Hd; by simplify_eq|].
  rewrite Hu in Hd. case_in Hd; [done|]. simplify_eq. by rewrite <- He.
Qed.

(** C32: the enter and exit probes agree: for every syscall number and every
    numbering of the target, either neither records anything, or they record
    consecutive event types, both with a filler, under the same drop flags.  The
    exception is the one the exit probe makes for execve in a 32 bit task. *)
Theorem syscall_probes_agree (nr nr32 : string -> option Z) (in_ia32 simple : bool) (id : Z) :
  is_Some (nr32 "socketcall"%string) ->
  in_ia32 = false \/ id <> default (-1) (nr "execve"%string) ->
  exit_decision nr nr32 in_ia32 simple id =
    option_map (fun '(t, fl) => (t + 1, fl)) (enter_decision nr nr32 in_ia32 simple id) /\
  forall t fl, enter_decision nr nr32 in_ia32 simple id = Some (t, fl) ->
    is_Some (g_ppm_events t) /\ is_Some (g_ppm_events (t + 1)).
Proof.
  intros Hs Hx.
  assert (Hr : exit_route nr nr32 in_ia32 id = enter_route nr nr32 in_ia32).
  { unfold exit_route, enter_route. destruct in_ia32; [|done].
    destruct Hx as [?|Hx%Z.eqb_neq]; [done|]. by rewrite Hx. }
  assert (Hent : rt_table (enter_route nr nr32 in_ia32) (id - SYSCALL_TABLE_ID0)
                   = mk_pair UF_NONE 0 0 \/
                 pair_routes (rt_table (enter_route nr nr32 in_ia32) (id - SYSCALL_TABLE_ID0))).
  { destruct in_ia32; [by apply ia32_entry_routes|apply native_entry_routes]. }
  unfold exit_decision, enter_decision. rewrite Hr. split; [by apply route_pairs|].
  intros t fl. by apply decision_has_filler.
Qed.

Definition sample_nr (s : string) : option Z :=
  if String.eqb s "read" then Some 0 else if String.eqb s "execve" then Some 59 else None.

Lemma syscall_probes_agree_witness :
  enter_decision sample_nr demo_nr false false 0 = Some (PPME_SYSCALL_READ_E, UF_USED) /\
  exit_decision sample_nr demo_nr false false 0 = Some (PPME_SYSCALL_READ_X, UF_USED).
Proof.
  assert (H : enter_decision sample_nr demo_nr false false 0 = Some (PPME_SYSCALL_READ_E, UF_USED))
    by (vm_compute; reflexivity).
  split; [exact H|].
  refine (eq_trans (proj1 (syscall_probes_agree sample_nr demo_nr false false 0 _ _)) _);
    [by eexists|by left|]. rewrite H. reflexivity.
Defined.

(** In the kernels that define [SEND_SIG_FORCED], a non-null constant,
    [siginfo_not_a_pointer] is true of every pointer (the comparison with [info]
    is missing), so the sender of a signal is always recorded as 0. *)
Theorem signal_sender_lost (stale : Z * bool) (forced sig info : Z) (deref : Z -> siginfo)
    (k : kenv) :
  forced <> 0 ->
  ed_info (signal_event_data stale (Some forced) sig info deref) = signal_data sig None /\
  signal_spid k sig None = 0.
Proof.
  intros Hf%Z.eqb_neq. split; [|done].
  unfold signal_event_data, siginfo_not_a_pointer. rewrite Hf. by rewrite orb_true_r.
Qed.

Lemma signal_sender_lost_witness :
  ed_info (signal_event_data (0, false) (Some 2) SIGTERM 4096 (fun _ => mk_siginfo 0 77 77 77 77))
  = signal_data SIGTERM None.
Proof.
  exact (proj1 (signal_sender_lost (0, false) 2 SIGTERM 4096
    (fun _ => mk_siginfo 0 77 77 77 77) sample_kenv ltac:(lia))).
Defined.

(** A packet of one IP header and [extra] bytes at address 4096. *)
Definition sample_skb (extra : Z) : sk_buff := mk_skb 4096 4096 (sizeof_iphdr + extra) 0.
Definition sample_packet (proto : byte) (port : list byte) : mem :=
  mem_write (mem_write mem_zero (4096 + 9) [proto]) (4096 + sizeof_iphdr + 2) port.
Definition eth0_name : list byte := [x65; x74; x68; x30].

(** The bounds checks of [check_skb] add one to an integer where one to a
    pointer is meant, so they ask for one byte of a header, not for the header:
    a packet that ends after the first byte of its TCP header is accepted, and
    so is a packet that ends after the first byte of its UDP header if the bytes
    behind its end happen to hold the VXLAN port. *)
Theorem check_skb_accepts_truncated :
  check_skb (sample_packet x06 []) (sample_skb 1) eth0_name = 0 /\
  check_skb (sample_packet x11 [x12; xb5]) (sample_skb 1) eth0_name = 0 /\
  check_skb (sample_packet x11 [x00; x35]) (sample_skb 1) eth0_name = -1.
Proof. repeat split; vm_compute; reflexivity. Qed.
