(* ===== verification/ReaderSpec.v ===== *)
(** * libscap returns the events of all devices merged by time

    [pending d evs] says that the bytes device [d] still has to hand out are
    the records of the events [evs]; [Hands] is what a device must do with them, and the
    rings of the kernel module do it.  [scap_next_live] then is one step of a
    merge: it removes the event with the lowest time stamp, the lowest device
    on ties, and times out exactly when nothing is pending. *)

From Stdlib Require Import ZArith Lia List Bool Sorting.Sorted Sorting.Permutation.
From Stdlib Require Import Strings.Byte.
From stdpp Require Import base tactics list numbers option.
From S2P Require Import Prelude Bytes EventDefs EventTable.
From S2P Require Import ValToRing ValToRingSpec Fillers Ring RingSpec Reader RingSystem.
Import ListNotations.
Local Open Scope Z_scope.

(** A record that fits its header fields, with a time stamp before the
    sentinel of the loop. *)
Definition event_wf (e : event) : Prop :=
  0 <= ev_ts e < 18446744073709551615 /\
  Z.of_nat (length (bytes_of_event e)) < 4294967296.

Record pending (d : scap_device) (evs : list event) : Prop := {
  pend_bytes : rread (m_buffer d) (m_sn_next_event d) (Z.to_nat (m_sn_len d))
               = concat (map bytes_of_event evs);
  pend_len : 0 <= m_sn_len d < 4294967296;
  pend_wf : Forall event_wf evs }.

(** ** Reading the header of the next record. *)

Lemma rread_prefix m a n k l r :
  rread m a n = l ++ r -> (k <= length l)%nat -> rread m a k = take k l.
Proof.
  intros H Hk. assert (Hn : n = (k + (n - k))%nat).
  { apply (f_equal length) in H. rewrite length_rread, length_app in H. lia. }
  rewrite Hn, rread_app in H. apply (f_equal (take k)) in H.
  rewrite take_app_length' in H by (by rewrite length_rread).
  rewrite take_app_le in H by done. done.
Qed.

Lemma rread_sub m a n k j l :
  rread m a n = l -> (k + j <= n)%nat ->
  rread m (a + Z.of_nat k) j = take j (drop k l).
Proof.
  intros H Hn. replace n with (k + (j + (n - k - j)))%nat in H by lia.
  rewrite !rread_app in H. subst l. rewrite drop_app_length' by (by rewrite length_rread).
  by rewrite take_app_length' by (by rewrite length_rread).
Qed.

Lemma event_bytes_length_pos e : 26 <= Z.of_nat (length (bytes_of_event e)).
Proof.
  unfold bytes_of_event. rewrite event_length. pose proof (zsum_lens_nonneg (ev_params e)).
  unfold sizeof_ppm_evt_hdr. lia.
Qed.

Section head_event.
Context (d : scap_device) (e : event) (es : list event) (P : pending d (e :: es)).

Lemma pending_head_bytes :
  rread (m_buffer d) (m_sn_next_event d) (length (bytes_of_event e)) = bytes_of_event e.
Proof using P.
  rewrite (rread_prefix _ _ _ _ _ _ (pend_bytes _ _ P)) by done. by rewrite take_ge.
Qed.

Lemma pending_len_split :
  m_sn_len d = Z.of_nat (length (bytes_of_event e)) + Z.of_nat (length (concat (map bytes_of_event es))).
Proof using P.
  pose proof (f_equal length (pend_bytes _ _ P)) as H. rewrite length_rread in H.
  cbn [map concat] in H. rewrite length_app in H. pose proof (pend_len _ _ P). lia.
Qed.

Lemma evt_ts_head : evt_ts d (m_sn_next_event d) = ev_ts e.
Proof using P.
  pose proof (pend_wf _ _ P) as Hw. apply Forall_cons_1 in Hw as [[Hts _] _].
  unfold evt_ts. pose proof (event_bytes_length_pos e).
  rewrite (rread_prefix _ _ _ 8 (bytes_of_event e) [] ltac:(rewrite app_nil_r; apply pending_head_bytes))
    by lia.
  change (take 8 (bytes_of_event e)) with (le64 (ev_ts e)).
  rewrite le_val_le64. apply u64_small. lia.
Qed.

Lemma evt_len_head :
  evt_len d (m_sn_next_event d) = Z.of_nat (length (bytes_of_event e)).
Proof using P.
  pose proof (pend_wf _ _ P) as Hw. apply Forall_cons_1 in Hw as [[_ Hlen] _].
  unfold evt_len. pose proof (event_bytes_length_pos e).
  change 16 with (Z.of_nat 16).
  rewrite (rread_sub _ _ _ 16 4 _ pending_head_bytes) by lia.
  change (take 4 (drop 16 (bytes_of_event e))) with
    (le32 (sizeof_ppm_evt_hdr + 2 * Z.of_nat (length (ev_params e)) + zsum (lens (ev_params e)))).
  rewrite <- (event_length (ev_ts e) (ev_tid e) (ev_type e) (ev_params e)).
  rewrite le_val_le32. apply u32_small. fold (bytes_of_event e). lia.
Qed.

Lemma consume_pending : pending (consume_event d (m_sn_next_event d)) es.
Proof using P.
  pose proof pending_len_split as Hs. pose proof (pend_len _ _ P) as Hl.
  pose proof (pend_wf _ _ P) as Hw. apply Forall_cons_1 in Hw as [_ Hw].
  unfold consume_event. rewrite evt_len_head. split; cbn [m_buffer m_sn_next_event m_sn_len]; auto.
  - rewrite u32_small by lia.
    pose proof (pend_bytes _ _ P) as Hb.
    replace (Z.to_nat (m_sn_len d)) with
      (length (bytes_of_event e) + Z.to_nat (m_sn_len d - Z.of_nat (length (bytes_of_event e))))%nat
      in Hb by lia.
    rewrite rread_app in Hb. cbn [map concat] in Hb.
    apply app_inj_1 in Hb as [_ Hb]; [done|apply length_rread].
  - rewrite u32_small; lia.
Qed.
End head_event.

Lemma pending_nil d : pending d [] -> m_sn_len d = 0.
Proof.
  intros P. pose proof (f_equal length (pend_bytes _ _ P)) as H. rewrite length_rread in H.
  simpl in H. pose proof (pend_len _ _ P). lia.
Qed.

Lemma pending_advance d : pending d [] -> pending (scap_advance_tail d) [].
Proof. intros [H1 H2 H3]. by split. Qed.

(** ** Devices that hand out events. *)

(** What the loop relies on of a device of which [evs] are pending. *)
Class Hands (D : Type) `{LiveDevice D} (waits : D -> list event -> Prop) : Prop := {
  hands_wf d evs : waits d evs -> Forall event_wf evs;
  hands_nil d : waits d [] ->
    dv_len d = 0 /\ waits (dv_advance_tail d) [] /\ is_Some (dv_readbuf d);
  hands_cons d e es : waits d (e :: es) ->
    dv_len d <> 0 /\ dv_ts d (dv_event d) = ev_ts e /\
    dv_evt_len d (dv_event d) = Z.of_nat (length (bytes_of_event e)) /\
    dv_evt_len d (dv_event d) <= dv_len d /\
    dv_bytes d (dv_event d) (length (bytes_of_event e)) = bytes_of_event e /\
    exists d', dv_consume d (dv_event d) = Some d' /\ waits d' es }.

#[export] Instance module_hands : Hands scap_device pending.
Proof.
  split; cbn [dv_len dv_ts dv_event dv_evt_len dv_bytes dv_consume dv_advance_tail dv_readbuf module_device].
  - intros d evs P. apply P.
  - intros d P. split; [by apply pending_nil|]. split; [by apply pending_advance|by eexists].
  - intros d e es P. pose proof (pending_len_split d e es P) as Hl.
    pose proof (event_bytes_length_pos e) as He. rewrite (evt_len_head d e es P).
    split; [lia|]. split; [by apply (evt_ts_head d e es)|]. split; [done|]. split; [lia|].
    split; [by apply (pending_head_bytes d e es)|]. eexists. split; [done|]. by apply (consume_pending d e es).
Qed.

(** ** The loop. *)

Definition earliest_at (pss : list (list event)) (j : nat) (e : event) : Prop :=
  (exists es, pss !! j = Some (e :: es)) /\
  forall i e' es', pss !! i = Some (e' :: es') ->
    ev_ts e <= ev_ts e' /\ ((i < j)%nat -> ev_ts e < ev_ts e').

Section merge.
Context {D : Type} `{LD : LiveDevice D} (waits : D -> list event -> Prop) `{HD : !Hands D waits}.

(** What the loop returns for the devices from index [j] on, started with
    candidate [best]. *)
Definition scan_result (j : Z) (ds : list D) (pss : list (list event))
    (best b : candidate) : Prop :=
  (b = best /\ forall i e es, pss !! i = Some (e :: es) -> ca_ts best <= ev_ts e) \/
  (exists i d e es, ds !! i = Some d /\ pss !! i = Some (e :: es) /\
     b = mk_candidate (j + Z.of_nat i) (dv_event d) (ev_ts e) /\
     earliest_at pss i e /\ ev_ts e < ca_ts best).

Lemma scan_result_skip j d ds ps pss best b :
  (forall e es, ps = e :: es -> ca_ts best <= ev_ts e) ->
  scan_result (j + 1) ds pss best b -> scan_result j (d :: ds) (ps :: pss) best b.
Proof.
  intros Hps [[-> H]|(i & d' & e & es & Hd & Hp & -> & [_ He] & Hlt)].
  - left. split; [done|]. intros [|i] e es Hi; simpl in Hi; [simplify_eq; by eapply Hps|by eapply H].
  - right. exists (S i), d', e, es. repeat split; auto.
    + f_equal; lia.
    + by exists es.
    + destruct i0 as [|i0]; simpl in *; [simplify_eq; specialize (Hps _ _ eq_refl); lia|].
      by apply (He i0 e' es').
    + intros Hij. destruct i0 as [|i0]; simpl in *; [simplify_eq; specialize (Hps _ _ eq_refl); lia|].
      apply (He i0 e' es'); [done|lia].
Qed.

Lemma scan_result_take j d ds e es pss best b :
  ev_ts e < ca_ts best ->
  scan_result (j + 1) ds pss (mk_candidate j (dv_event d) (ev_ts e)) b ->
  scan_result j (d :: ds) ((e :: es) :: pss) best b.
Proof.
  intros Hlt [[-> H]|(i & d' & e1 & es1 & Hd & Hp & -> & [_ He] & Hlt1)]; right; simpl in *.
  - exists 0%nat, d, e, es. repeat split; auto; simpl.
    + f_equal. lia.
    + by exists es.
    + destruct i as [|i]; simpl in *; [simplify_eq; lia|by eapply H].
    + intros; lia.
  - exists (S i), d', e1, es1. repeat split; auto; simpl; [f_equal; lia|by exists es1| | |lia].
    + destruct i0 as [|i0]; simpl in *; [simplify_eq; lia|by apply (He i0 e' es')].
    + intros Hij. destruct i0 as [|i0]; simpl in *; [simplify_eq; lia|].
      apply (He i0 e' es'); [done|lia].
Qed.

Lemma scan_devs_ok ds pss :
  Forall2 waits ds pss -> forall j best, 0 <= j -> j + Z.of_nat (length ds) < 65536 ->
  exists ds' b, scan_devs j ds best = (ds', Some b) /\ Forall2 waits ds' pss /\
    (forall i d, ds !! i = Some d -> dv_len d <> 0 -> ds' !! i = Some d) /\
    scan_result j ds pss best b.
Proof using HD.
  induction 1 as [|d ps ds pss Hp Hps IH]; intros j best Hj Hlen; simpl length in Hlen.
  { exists [], best. split; [done|]. split; [constructor|]. split; [done|].
    left. split; [done|]. intros i e es Hi. by rewrite lookup_nil in Hi. }
  cbn [scan_devs]. destruct ps as [|e es].
  - destruct (hands_nil d Hp) as (H0 & Ha & _). rewrite H0, Z.eqb_refl.
    destruct (IH (j + 1) best ltac:(lia) ltac:(lia)) as (ds' & b & -> & HF & Hk & Hr).
    eexists _, b. split; [reflexivity|]. split; [|split].
    + constructor; [|done]. by case_if.
    + intros [|i] d0 Hi Hne; simpl in *; [by simplify_eq|by apply Hk].
    + by apply scan_result_skip.
  - destruct (hands_cons d e es Hp) as (Hl & Hts & _ & Hle & _).
    rewrite (proj2 (Z.eqb_neq _ _) Hl), Hts, (proj2 (Z.ltb_ge _ _) Hle), (u16_small j) by lia.
    destruct (ev_ts e <? ca_ts best) eqn:Elt; bool_to_prop;
      [destruct (IH (j + 1) (mk_candidate j (dv_event d) (ev_ts e)) ltac:(lia) ltac:(lia))
         as (ds' & b & -> & HF & Hk & Hr)
      |destruct (IH (j + 1) best ltac:(lia) ltac:(lia)) as (ds' & b & -> & HF & Hk & Hr)];
      (eexists _, b; split; [reflexivity|]; split; [by constructor|]; split;
       [intros [|i] d0 Hi Hne; simpl in *; [done|by apply Hk]|]).
    + by apply scan_result_take.
    + apply scan_result_skip; [|done]. intros e0 es0 Heq. simplify_eq. lia.
Qed.

(** ** [scap_next_live] *)

(** The outcome of one call, by what was pending. *)
Definition next_result (h h' : scap_live D) (r : Z) (out : option (Z * Z))
    (pss : list (list event)) : Prop :=
  (r = SCAP_TIMEOUT /\ out = None /\ Forall (fun ps => ps = []) pss) \/
  (exists j d e es, r = SCAP_SUCCESS /\ m_devs h !! j = Some d /\
     out = Some (Z.of_nat j, dv_event d) /\
     dv_bytes d (dv_event d) (length (bytes_of_event e)) = bytes_of_event e /\
     pss !! j = Some (e :: es) /\ earliest_at pss j e /\
     Forall2 waits (m_devs h') (<[j := es]> pss)).

Lemma no_pending_all_nil pss :
  (forall i e es, pss !! i = Some (e :: es) -> ca_ts no_candidate <= ev_ts e) ->
  forall ds, Forall2 waits ds pss -> Forall (fun ps => ps = []) pss.
Proof using HD.
  intros H ds HF. apply Forall_lookup. intros i [|e es] Hi; [done|]. exfalso.
  specialize (H i e es Hi).
  destruct (Forall2_lookup_r _ _ _ _ _ HF Hi) as (d & _ & P).
  pose proof (hands_wf _ _ P) as Hw. apply Forall_cons_1 in Hw as [[Hts _] _].
  simpl in H. lia.
Qed.

(** Empty devices can be refilled. *)
Lemma refill_defined (ds : list D) wait (pss : list (list event)) :
  Forall2 waits ds pss -> Forall (fun ps => ps = []) pss ->
  exists h, refill_read_buffers (mk_live ds wait) = Some (h, SCAP_TIMEOUT).
Proof using HD.
  intros HF Hn. unfold refill_read_buffers. cbn [m_devs m_buffer_empty_wait_time_us].
  assert (Hm : is_Some (mapM dv_readbuf ds)).
  { apply mapM_is_Some. revert Hn. induction HF as [|d ps ds pss Hd _ IH]; intros Hn; [constructor|].
    apply Forall_cons_1 in Hn as [-> Hn]. constructor; [|by apply IH]. by apply (hands_nil d). }
  destruct Hm as [ds' ->]. by eexists.
Qed.

Lemma scap_next_live_ok h pss :
  Forall2 waits (m_devs h) pss -> Z.of_nat (length (m_devs h)) < 65535 ->
  exists h' r out, scap_next_live h = Some (h', r, out) /\ next_result h h' r out pss.
Proof using HD.
  intros HF Hlen. unfold scap_next_live.
  destruct (scan_devs_ok _ _ HF 0 no_candidate ltac:(lia) ltac:(lia))
    as (ds' & b & -> & HF' & Hk & Hr).
  destruct Hr as [[-> Hn]|(i & d & e & es & Hd & Hp & -> & He & Hlt)].
  - pose proof (no_pending_all_nil pss Hn _ HF) as Hnil.
    destruct (refill_defined ds' (m_buffer_empty_wait_time_us h) pss HF' Hnil) as [h2 Eh].
    cbn [ca_cpu no_candidate Z.eqb Pos.eqb negb]. rewrite Eh. cbn. eexists _, _, _. split; [done|].
    left. done.
  - cbn [ca_cpu ca_event].
    assert (Hi : (i < length (m_devs h))%nat) by (apply lookup_lt_is_Some; eauto).
    replace (0 + Z.of_nat i =? 65535) with false by lia. cbn [negb].
    rewrite Z.add_0_l, Nat2Z.id.
    pose proof (Forall2_lookup_lr _ _ _ _ _ _ HF Hd Hp) as P.
    destruct (hands_cons d e es P) as (Hne & _ & _ & _ & Hb & d' & Ec & Pc).
    rewrite (Hk i d Hd Hne). cbn [mbind option_bind]. rewrite Ec. cbn [mbind option_bind].
    eexists _, _, _. split; [done|]. right. exists i, d, e, es. do 6 (split; [done|]).
    cbn [m_devs]. by apply Forall2_insert.
Qed.

(** With every device's pending bytes a sequence of event records, a call of
    [scap_next_live] returns and never reports buffer corruption; it times out exactly
    when nothing is pending, and otherwise returns, from the lowest-numbered device
    that has it, the pending event with the lowest time stamp, and removes
    exactly that event from that device. *)
Theorem scap_next_live_earliest (h : scap_live D) (pss : list (list event)) :
  Forall2 waits (m_devs h) pss -> Z.of_nat (length (m_devs h)) < 65535 ->
  exists h' r out, scap_next_live h = Some (h', r, out) /\ next_result h h' r out pss.
Proof using HD. apply scap_next_live_ok. Qed.

(** ** Draining the devices is a merge. *)

(** [n] successful calls in a row, with the records they return. *)
Fixpoint drain (n : nat) (h : scap_live D) : option (list (list byte)) :=
  match n with
  | O => Some []
  | S n' =>
      match scap_next_live h with
      | Some (h', r, Some (cpu, pe)) =>
          match m_devs h !! Z.to_nat cpu with
          | Some d =>
              match drain n' h' with
              | Some l => Some (dv_bytes d pe (Z.to_nat (dv_evt_len d pe)) :: l)
              | None => None
              end
          | None => None
          end
      | _ => None
      end
  end.

Definition ts_le (e1 e2 : event) : Prop := ev_ts e1 <= ev_ts e2.

(** Every device hands out its own events in time order. *)
Definition devices_sorted (pss : list (list event)) : Prop := Forall (StronglySorted ts_le) pss.

Lemma remove_head_perm (pss : list (list event)) j e es :
  pss !! j = Some (e :: es) -> Permutation (concat pss) (e :: concat (<[j := es]> pss)).
Proof.
  revert j; induction pss as [|ps pss IH]; intros j H; [by rewrite lookup_nil in H|].
  destruct j as [|j]; simpl in *; [by simplify_eq|].
  rewrite (IH j H). by rewrite Permutation_middle.
Qed.

Lemma earliest_of_all (pss : list (list event)) j e :
  devices_sorted pss -> earliest_at pss j e -> Forall (ts_le e) (concat pss).
Proof.
  intros Hs [_ He]. apply Forall_concat. apply Forall_lookup. intros i ps Hi.
  pose proof (Forall_lookup_1 _ _ _ _ Hs Hi) as Hsi. destruct ps as [|e' es']; [constructor|].
  apply StronglySorted_inv in Hsi as [_ Hall]. destruct (He _ _ _ Hi) as [Hle _].
  constructor; [done|]. eapply Forall_impl; [|exact Hall]. unfold ts_le. intros; lia.
Qed.

Lemma insert_tail_sorted (pss : list (list event)) j e es :
  devices_sorted pss -> pss !! j = Some (e :: es) -> devices_sorted (<[j := es]> pss).
Proof.
  intros Hs Hj. apply Forall_insert; [done|].
  pose proof (Forall_lookup_1 _ _ _ _ Hs Hj) as H.
  apply StronglySorted_inv in H as [H _]. done.
Qed.

Lemma drain_ok n : forall h pss,
  Forall2 waits (m_devs h) pss -> Z.of_nat (length (m_devs h)) < 65535 ->
  devices_sorted pss -> length (concat pss) = n ->
  exists evs, drain n h = Some (map bytes_of_event evs) /\
    Permutation evs (concat pss) /\ StronglySorted ts_le evs.
Proof using HD.
  induction n as [|n IH]; intros h pss HF Hlen Hs Hn.
  { exists []. apply nil_length_inv in Hn. rewrite Hn. repeat split; constructor. }
  cbn [drain]. destruct (scap_next_live_ok h pss HF Hlen) as (h' & r & out & -> & Hres).
  destruct Hres as [(_ & _ & Hnil)|(j & d & e & es & _ & Hd & -> & Hb & Hp & He & HF')].
  { exfalso. assert (Hc : concat pss = []) by (by apply concat_nil_Forall).
    by rewrite Hc in Hn. }
  pose proof (Forall2_lookup_lr _ _ _ _ _ _ HF Hd Hp) as P.
  destruct (hands_cons d e es P) as (_ & _ & Hel & _).
  rewrite Nat2Z.id, Hd, Hel, Nat2Z.id, Hb.
  pose proof (remove_head_perm pss j e es Hp) as Hperm.
  destruct (IH h' (<[j := es]> pss)) as (evs & -> & Hpe & Hso); [done| | | |].
  - rewrite (Forall2_length HF'), length_insert, <- (Forall2_length HF). done.
  - by eapply insert_tail_sorted.
  - apply Permutation_length in Hperm. simpl in Hperm. lia.
  - exists (e :: evs). split; [done|]. split; [by rewrite Hperm, Hpe|].
    constructor; [done|]. rewrite Hpe.
    pose proof (earliest_of_all pss j e Hs He) as Hall. rewrite Hperm in Hall.
    by apply Forall_cons_1 in Hall as [_ Hall].
Qed.
End merge.

(** C21: when every device's pending events are in time order, and there are fewer than
    65535 devices, as many calls of [scap_next_live] as there are pending events all return and succeed, and return the
    records of exactly the pending events, in time order over all devices; for the rings
    of the kernel module and for any device that hands out events as they do. *)
Theorem drain_merges {D : Type} `{LD : LiveDevice D} (waits : D -> list event -> Prop)
    `{!Hands D waits} (h : scap_live D) (pss : list (list event)) :
  Forall2 waits (m_devs h) pss -> Z.of_nat (length (m_devs h)) < 65535 ->
  devices_sorted pss ->
  exists evs, drain (length (concat pss)) h = Some (map bytes_of_event evs) /\
    Permutation evs (concat pss) /\ StronglySorted ts_le evs.
Proof. intros. by eapply drain_ok. Qed.

(** ** The reader stays inside the unread part of the ring. *)

Record dev_ok (d : scap_device) : Prop := {
  do_info : info_wf (m_bufinfo d);
  do_last : 0 <= m_sn_len d <= m_lastreadsize d;
  do_used : m_lastreadsize d <= ring_used (head (m_bufinfo d)) (tail (m_bufinfo d));
  do_next : m_sn_len d <> 0 ->
    m_sn_next_event d = tail (m_bufinfo d) + (m_lastreadsize d - m_sn_len d) }.

Lemma advance_dev_ok d : dev_ok d -> m_sn_len d = 0 -> dev_ok (scap_advance_tail d).
Proof.
  intros [[Hh Ht] Hl Hu Hn] H0.
  pose proof (ring_used_range (head (m_bufinfo d)) (tail (m_bufinfo d))) as Hr.
  assert (Htl : tail (m_bufinfo (scap_advance_tail d))
                = (tail (m_bufinfo d) + m_lastreadsize d) mod RING_BUF_SIZE).
  { cbn. rewrite ring_mod_cases by lia. rewrite u32_small; [done|]. unfold RING_BUF_SIZE in *. lia. }
  split.
  - split; [done|]. rewrite Htl. apply ring_next_range.
  - simpl. lia.
  - cbn [m_lastreadsize scap_advance_tail].
    pose proof (ring_used_range (head (m_bufinfo (scap_advance_tail d)))
                  (tail (m_bufinfo (scap_advance_tail d)))). lia.
  - simpl. congruence.
Qed.

Lemma readbuf_dev_ok d : dev_ok d -> dev_ok (scap_readbuf d).
Proof.
  intros [Hi Hl Hu Hn]. pose proof (read_size_used _ Hi) as Hs.
  pose proof (ring_used_range (head (m_bufinfo d)) (tail (m_bufinfo d))) as Hr.
  assert (Hsz : u32 (snd (get_buf_pointers (m_bufinfo d)))
                = ring_used (head (m_bufinfo d)) (tail (m_bufinfo d)))
    by (rewrite Hs; apply u32_small; unfold RING_BUF_SIZE in *; lia).
  cbn in Hsz. split; cbn; rewrite ?Hsz; auto with lia.
Qed.

Lemma consume_dev_ok d :
  dev_ok d -> m_sn_len d <> 0 -> evt_len d (m_sn_next_event d) <= m_sn_len d ->
  dev_ok (consume_event d (m_sn_next_event d)).
Proof.
  intros [Hi Hl Hu Hn] H0 He. specialize (Hn H0).
  pose proof (le_val_range (rread (m_buffer d) (m_sn_next_event d + 16) 4)) as Hr.
  fold (evt_len d (m_sn_next_event d)) in Hr.
  pose proof (ring_used_range (head (m_bufinfo d)) (tail (m_bufinfo d))) as Hur.
  assert (Hs : u32 (m_sn_len d - evt_len d (m_sn_next_event d))
               = m_sn_len d - evt_len d (m_sn_next_event d))
    by (apply u32_small; unfold RING_BUF_SIZE in *; lia).
  split; cbn [m_bufinfo m_lastreadsize m_sn_len m_sn_next_event consume_event];
    rewrite ?Hs; auto; lia.
Qed.

Lemma mapM_Some_total {A B} (f : A -> B) l : mapM (fun x => Some (f x)) l = Some (map f l).
Proof. apply mapM_Some_2. induction l; by constructor. Qed.

(** The loop keeps the devices in order and its candidate within its device. *)
Definition candidate_ok (j : Z) (ds' : list scap_device) (best b : candidate) : Prop :=
  b = best \/ exists i d, ds' !! i = Some d /\ ca_cpu b = u16 (j + Z.of_nat i) /\
    ca_event b = m_sn_next_event d /\ m_sn_len d <> 0 /\
    evt_len d (m_sn_next_event d) <= m_sn_len d.

Lemma candidate_ok_cons j d' r best b :
  candidate_ok (j + 1) r best b -> candidate_ok j (d' :: r) best b.
Proof.
  intros [->|(i & d & Hd & Hc & H)]; [by left|right]. exists (S i), d.
  split; [done|]. split; [|done]. rewrite Hc. f_equal. lia.
Qed.

Lemma candidate_ok_pick j d r best b :
  m_sn_len d <> 0 -> evt_len d (m_sn_next_event d) <= m_sn_len d ->
  candidate_ok (j + 1) r (mk_candidate (u16 j) (m_sn_next_event d) (evt_ts d (m_sn_next_event d))) b ->
  candidate_ok j (d :: r) best b.
Proof.
  intros Hne Hle [->|(i & d0 & Hd & Hc & H)]; right.
  - exists 0%nat, d. simpl. rewrite Z.add_0_r. auto.
  - exists (S i), d0. split; [done|]. split; [|done]. rewrite Hc. f_equal. lia.
Qed.

Lemma scan_devs_dev_ok ds : forall j best ds' b,
  Forall dev_ok ds -> scan_devs j ds best = (ds', b) ->
  Forall dev_ok ds' /\ length ds' = length ds /\
  match b with Some b => candidate_ok j ds' best b | None => True end.
Proof.
  induction ds as [|d ds IH]; intros j best ds' b HF H;
    cbn [scan_devs dv_len dv_lastread dv_event dv_ts dv_evt_len dv_advance_tail module_device] in H.
  { simplify_eq. repeat split; [constructor|by left]. }
  apply Forall_cons_1 in HF as [Hd HF].
  destruct (m_sn_len d =? 0) eqn:E0; bool_to_prop.
  - destruct (scan_devs (j + 1) ds best) as [r b0] eqn:Er. simplify_eq.
    destruct (IH _ _ _ _ HF Er) as (HF' & Hlen & Hc). split; [|split].
    + constructor; [|done]. case_if; [by apply advance_dev_ok|done].
    + simpl. lia.
    + destruct b; [|done]. by apply candidate_ok_cons.
  - case_in H; [case_in H|]; bool_to_prop.
    + simplify_eq. by repeat split; constructor.
    + destruct (scan_devs (j + 1) ds _) as [r b0] eqn:Er. simplify_eq.
      destruct (IH _ _ _ _ HF Er) as (HF' & Hlen & Hc).
      split; [by constructor|]. split; [simpl; lia|].
      destruct b; [|done]. by apply candidate_ok_pick.
    + destruct (scan_devs (j + 1) ds best) as [r b0] eqn:Er. simplify_eq.
      destruct (IH _ _ _ _ HF Er) as (HF' & Hlen & Hc).
      split; [by constructor|]. split; [simpl; lia|].
      destruct b; [|done]. by apply candidate_ok_cons.
Qed.

(** C30: whatever the ring memory holds, a call of [scap_next_live] returns and keeps every
    device's read cursor inside the span between its tail and the published
    head that the last refill handed out: the tail only moves over bytes that
    were handed out, and an event is only returned when its length fits in what
    is left of the span. *)
Theorem scap_next_live_in_span (h : scap_live scap_device) :
  Forall dev_ok (m_devs h) -> Z.of_nat (length (m_devs h)) < 65535 ->
  exists h' r out, scap_next_live h = Some (h', r, out) /\
    Forall dev_ok (m_devs h') /\ length (m_devs h') = length (m_devs h).
Proof.
  intros HF Hlen. unfold scap_next_live.
  destruct (scan_devs 0 (m_devs h) no_candidate) as [ds b] eqn:E.
  destruct (scan_devs_dev_ok _ _ _ _ _ HF E) as (HF' & Hl & Hc).
  destruct b as [b|]; [|eexists _, _, _; split; [done|]; auto]. case_if; bool_to_prop; cycle 1.
  { unfold refill_read_buffers. cbn [m_devs dv_readbuf module_device].
    rewrite (mapM_Some_total scap_readbuf). cbn. eexists _, _, _. split; [done|]. cbn [m_devs].
    split; [|by rewrite length_map].
    apply Forall_fmap. eapply Forall_impl; [|exact HF']. apply readbuf_dev_ok. }
  destruct Hc as [->|(i & d & Hd & Hcpu & Hev & Hne & Hle)]; [done|].
  assert (Hi : (i < length ds)%nat) by (apply lookup_lt_is_Some; eauto).
  rewrite Hcpu, u16_small, Z.add_0_l, Nat2Z.id, Hev by lia. rewrite Hd.
  cbn [mbind option_bind dv_consume module_device]. eexists _, _, _. split; [done|].
  cbn [m_devs]. split; [|by rewrite length_insert].
  apply Forall_insert; [done|]. apply consume_dev_ok; auto. by eapply Forall_lookup_1.
Qed.

(** ** Two devices with three pending [close] events. *)

Definition sample_event (ts : Z) : event := mk_evt ts 7 PPME_SYSCALL_CLOSE_E [le64 3].

Definition sample_device (evs : list event) : scap_device :=
  let bs := concat (map bytes_of_event evs) in
  let n := Z.of_nat (length bs) in
  mk_device (mk_info n 0 0 0 0 0 0) (mem_write mem_zero 0 bs) n 0 n.

Definition sample_pending : list (list event) :=
  [[sample_event 20; sample_event 30]; [sample_event 10]].

Definition sample_live : scap_live scap_device := mk_live (map sample_device sample_pending) 500.

Lemma sample_live_pending : Forall2 pending (m_devs sample_live) sample_pending.
Proof.
  repeat constructor; try (vm_compute; congruence); vm_compute; reflexivity.
Qed.

Lemma sample_pending_sorted : devices_sorted sample_pending.
Proof. repeat constructor; vm_compute; congruence. Qed.

Lemma sample_live_dev_ok : Forall dev_ok (m_devs sample_live).
Proof. repeat constructor; try (vm_compute; congruence); vm_compute; reflexivity. Qed.

Lemma scap_next_live_earliest_witness :
  exists h' r out, scap_next_live sample_live = Some (h', r, out) /\
    next_result pending sample_live h' r out sample_pending.
Proof.
  apply (scap_next_live_earliest pending sample_live).
  - exact sample_live_pending.
  - vm_compute. reflexivity.
Defined.

Lemma drain_merges_witness :
  exists evs, drain 3 sample_live = Some (map bytes_of_event evs) /\
    Permutation evs (concat sample_pending) /\ StronglySorted ts_le evs.
Proof.
  apply (drain_merges pending sample_live sample_pending).
  - exact sample_live_pending.
  - vm_compute. reflexivity.
  - exact sample_pending_sorted.
Defined.

Lemma scap_next_live_in_span_witness :
  exists h' r out, scap_next_live sample_live = Some (h', r, out) /\ Forall dev_ok (m_devs h').
Proof.
  destruct (scap_next_live_in_span sample_live) as (h' & r & out & H1 & H2 & _).
  - exact sample_live_dev_ok.
  - vm_compute. reflexivity.
  - exists h', r, out. split; [exact H1|exact H2].
Defined.
