(* ===== verification/PerfReader.v ===== *)
(** * Reading the perf buffers of the eBPF driver: [libscap/scap_bpf.h]

    The kernel puts the frames of the probe in a perf buffer per CPU, as records of type
    sample, and notes of lost samples between them.  libscap reads the buffer through a
    double mapping ([perf_event_mmap]), so that a record that wraps is contiguous.
    [perf_device] is the instance of [LiveDevice] with which [scap_next_live] runs when
    the handle is one of the eBPF driver. *)

From Stdlib Require Import ZArith Lia List Bool.
From Stdlib Require Import Strings.Byte.
From stdpp Require Import base tactics list numbers option.
From S2P Require Import Prelude Bytes EventDefs Ring RingSpec Reader.
Import ListNotations.
Local Open Scope Z_scope.

Definition PERF_RECORD_LOST : Z := 2.
Definition PERF_RECORD_SAMPLE : Z := 9.
(** The offset of [data] in [struct perf_event_sample]. *)
Definition PERF_SAMPLE_DATA : Z := 12.

(** [struct perf_event_mmap_page] *)
Record perf_event_mmap_page : Type := mk_page {
  data_head : Z;
  data_tail : Z;
  data_size : Z }.

(** The device of the eBPF driver; [pd_next] is the offset of [m_sn_next_event] from the
    start of the data. *)
Record perf_device : Type := mk_pdev {
  pd_page : perf_event_mmap_page;
  pd_data : mem;
  pd_lastreadsize : Z;
  pd_next : Z;
  pd_len : Z;
  m_evt_lost : Z }.

(** [n] bytes at an offset of the double mapping. *)
Definition dread (size : Z) (m : mem) (a : Z) (n : nat) : list byte :=
  map (fun i => m ((a + Z.of_nat i) mod size)) (seq 0 n).

Definition pd_read (d : perf_device) (a : Z) (n : nat) : list byte :=
  dread (data_size (pd_page d)) (pd_data d) a n.

(** [struct perf_event_header] and [struct perf_lost_sample] *)
Definition pe_type (d : perf_device) (p : Z) : Z := le_val (pd_read d p 4).
Definition pe_size (d : perf_device) (p : Z) : Z := le_val (pd_read d (p + 6) 2).
Definition pe_lost (d : perf_device) (p : Z) : Z := le_val (pd_read d (p + 16) 8).

Definition set_cursor (d : perf_device) (next len : Z) : perf_device :=
  mk_pdev (pd_page d) (pd_data d) (pd_lastreadsize d) next len (m_evt_lost d).
Definition add_lost (d : perf_device) (n : Z) : perf_device :=
  mk_pdev (pd_page d) (pd_data d) (pd_lastreadsize d) (pd_next d) (pd_len d) (u64 (m_evt_lost d + n)).

(** [scap_bpf_evt_from_perf_sample] *)
Definition scap_bpf_evt_from_perf_sample (p : Z) : Z := p + PERF_SAMPLE_DATA.

(** [scap_bpf_get_buf_pointers]: the number of bytes to read. *)
Definition scap_bpf_get_buf_pointers (h : perf_event_mmap_page) : Z * Z * Z :=
  let begin := data_tail h mod data_size h in
  let end_ := data_head h mod data_size h in
  (data_head h, data_tail h,
   if end_ <? begin then u64 (data_size h - begin + end_) else end_ - begin).

(** The end of the record at [begin]. *)
Definition perf_next (size begin esize : Z) : Z :=
  if size <? begin + esize then begin + esize - size
  else if begin + esize =? size then 0
  else begin + esize.

(** [scap_bpf_advance_to_evt], with [turns] turns of its loop; when no sample is left the
    cursor keeps its place. *)
Fixpoint scap_bpf_advance_to_evt (turns : nat) (d : perf_device) (skip_current : bool)
    (begin len : Z) : option perf_device :=
  match turns with
  | O => None
  | S turns' =>
      if len =? 0 then Some (set_cursor d (pd_next d) 0)
      else
        let esize := pe_size d begin in
        let step d skip :=
          scap_bpf_advance_to_evt turns' d skip (perf_next (data_size (pd_page d)) begin esize)
            (u32 (len - esize)) in
        if pe_type d begin =? PERF_RECORD_SAMPLE then
          if skip_current then step d false else Some (set_cursor d begin len)
        else if pe_type d begin =? PERF_RECORD_LOST then step (add_lost d (pe_lost d begin)) skip_current
        else step d skip_current
  end.

(** Each record takes at least one byte. *)
Definition advance_turns (len : Z) : nat := S (Z.to_nat len).

(** [scap_bpf_advance_tail] *)
Definition scap_bpf_advance_tail (d : perf_device) : perf_device :=
  let h := pd_page d in
  mk_pdev (mk_page (data_head h) (u64 (data_tail h + pd_lastreadsize d)) (data_size h)) (pd_data d) 0
    (pd_next d) (pd_len d) (m_evt_lost d).

(** [scap_bpf_readbuf] *)
Definition scap_bpf_readbuf (d : perf_device) : option perf_device :=
  let '(_, tail, read_size) := scap_bpf_get_buf_pointers (pd_page d) in
  let d := mk_pdev (pd_page d) (pd_data d) (u32 read_size) (pd_next d) (pd_len d) (m_evt_lost d) in
  let len := u32 read_size in
  scap_bpf_advance_to_evt (advance_turns len) d false (tail mod data_size (pd_page d)) len.

#[export] Instance perf_live_device : LiveDevice perf_device := {
  dv_len := pd_len;
  dv_lastread := pd_lastreadsize;
  dv_event d := scap_bpf_evt_from_perf_sample (pd_next d);
  dv_ts d pe := le_val (pd_read d pe 8);
  dv_evt_len d pe := le_val (pd_read d (pe + 16) 4);
  dv_bytes d pe n := pd_read d pe n;
  dv_advance_tail := scap_bpf_advance_tail;
  dv_consume d pe := scap_bpf_advance_to_evt (advance_turns (pd_len d)) d true (pd_next d) (pd_len d);
  dv_readbuf := scap_bpf_readbuf;
  dv_used d := snd (scap_bpf_get_buf_pointers (pd_page d)) }.
