(* ===== verification/PerfReaderSpec.v ===== *)
(** * libscap reads the perf buffers in order

    [perf_span] says that the unread bytes of a perf buffer are records: those the reader
    passed, those it still has to hand out, and those that came since it looked.  A perf
    buffer then hands out its events as a ring of the kernel module does ([Hands]), and
    under any interleaving of the kernel and the reader the events come out once and in
    order, with the lost ones counted. *)

From Stdlib Require Import ZArith Lia List Bool.
From Stdlib Require Import Strings.Byte.
From stdpp Require Import base tactics list numbers option relations.
From S2P Require Import Prelude Bytes EventDefs ValToRing ValToRingSpec Ring RingSpec RingSystem.
From S2P Require Import Reader ReaderSpec PerfReader.
Import ListNotations.
Local Open Scope Z_scope.

(** ** The records of the kernel. *)

(** A sample has a frame of the probe, padded by the kernel to a multiple of eight
    bytes; a note has the number of samples lost since the last record. *)
Inductive perf_record : Type :=
| PSample (e : event) (pad : list byte)
| PLost (id lost : Z).

Definition rec_data (r : perf_record) : list byte :=
  match r with
  | PSample e pad => let data := bytes_of_event e ++ pad in le32 (Z.of_nat (length data)) ++ data
  | PLost id lost => le64 id ++ le64 lost
  end.
Definition rec_type (r : perf_record) : Z :=
  match r with PSample _ _ => PERF_RECORD_SAMPLE | PLost _ _ => PERF_RECORD_LOST end.
Definition rec_size (r : perf_record) : Z := 8 + Z.of_nat (length (rec_data r)).
Definition rec_bytes (r : perf_record) : list byte :=
  le32 (rec_type r) ++ le16 0 ++ le16 (rec_size r) ++ rec_data r.

Definition rec_event (r : perf_record) : list event :=
  match r with PSample e _ => [e] | PLost _ _ => [] end.
Definition rec_lost (r : perf_record) : Z := match r with PSample _ _ => 0 | PLost _ n => n end.
Definition rec_events (rs : list perf_record) : list event := flat_map rec_event rs.
Definition total_lost (rs : list perf_record) : Z := zsum (map rec_lost rs).
Definition recs_bytes (rs : list perf_record) : list byte := flat_map rec_bytes rs.

(** A record fits its header and its fields. *)
Definition rec_wf (r : perf_record) : Prop :=
  rec_size r < 65536 /\
  match r with
  | PSample e _ => event_wf e
  | PLost _ n => 0 <= n < 18446744073709551616
  end.

(** ** The double mapping. *)

Section dread.
Context (size : Z) (m : mem).

Lemma length_dread a n : length (dread size m a n) = n.
Proof. unfold dread. by rewrite length_map, length_seq. Qed.

Lemma dread_app a n k : dread size m a (n + k) = dread size m a n ++ dread size m (a + Z.of_nat n) k.
Proof.
  unfold dread. rewrite seq_app, map_app. f_equal.
  replace (0 + n)%nat with (n + 0)%nat by lia. rewrite <- fmap_add_seq.
  change (Nat.add n <$> seq 0 k) with (map (Nat.add n) (seq 0 k)).
  rewrite map_map. apply map_ext. intros i. f_equal. f_equal. lia.
Qed.

Lemma dread_mod a n : dread size m (a mod size) n = dread size m a n.
Proof. unfold dread. apply map_ext. intros i. f_equal. apply Zplus_mod_idemp_l. Qed.

(** Part of what was read. *)
Lemma dread_sub a n k j l :
  dread size m a n = l -> (k + j <= n)%nat -> dread size m (a + Z.of_nat k) j = take j (drop k l).
Proof.
  intros H Hn. replace n with (k + (j + (n - k - j)))%nat in H by lia.
  rewrite !dread_app in H. subst l. rewrite drop_app_length' by (by rewrite length_dread).
  by rewrite take_app_length' by (by rewrite length_dread).
Qed.

Lemma dread_split a l r :
  dread size m a (length (l ++ r)) = l ++ r ->
  dread size m a (length l) = l /\ dread size m (a + Z.of_nat (length l)) (length r) = r.
Proof.
  rewrite length_app, dread_app. intros H. apply app_inj_1 in H; [done|]. apply length_dread.
Qed.
End dread.

Lemma perf_next_mod size begin esize :
  0 <= begin < size -> 0 <= esize <= size -> perf_next size begin esize = (begin + esize) mod size.
Proof.
  intros Hb He. unfold perf_next.
  destruct (Z.ltb_spec size (begin + esize)).
  - rewrite <- (Z_mod_plus_full (begin + esize) (-1) size), Z.mod_small; lia.
  - destruct (Z.eqb_spec (begin + esize) size) as [->|]; [by rewrite Z_mod_same_full|].
    rewrite Z.mod_small; lia.
Qed.

(** ** One record. *)

Lemma length_rec_bytes r : Z.of_nat (length (rec_bytes r)) = rec_size r.
Proof. unfold rec_bytes, rec_size. rewrite !length_app. unfold le32, le16. rewrite !length_le_bytes. lia. Qed.

Lemma rec_size_range r : 12 <= rec_size r.
Proof.
  unfold rec_size, rec_data. destruct r; rewrite length_app; unfold le32, le64; rewrite length_le_bytes; [lia|].
  rewrite length_le_bytes. lia.
Qed.

Section one_record.
Context (d : perf_device) (p : Z) (r : perf_record).
Context (Hr : pd_read d p (length (rec_bytes r)) = rec_bytes r) (Hw : rec_wf r).

Lemma pe_type_rec : pe_type d p = rec_type r.
Proof using Hr Hw.
  pose proof (length_rec_bytes r). pose proof (rec_size_range r). unfold pe_type.
  rewrite <- (Z.add_0_r p). change 0 with (Z.of_nat 0).
  unfold pd_read in *. rewrite (dread_sub _ _ _ _ 0 4 _ Hr) by lia.
  change (take 4 (drop 0 (rec_bytes r))) with (le32 (rec_type r)).
  rewrite le_val_le32. by destruct r.
Qed.

Lemma pe_size_rec : pe_size d p = rec_size r.
Proof using Hr Hw.
  pose proof (length_rec_bytes r). pose proof (rec_size_range r). unfold pe_size.
  change 6 with (Z.of_nat 6). unfold pd_read in *. rewrite (dread_sub _ _ _ _ 6 2 _ Hr) by lia.
  change (take 2 (drop 6 (rec_bytes r))) with (le16 (rec_size r)).
  rewrite le_val_le16. apply u16_small. destruct Hw. lia.
Qed.
End one_record.

Lemma pe_lost_rec d p id n :
  pd_read d p (length (rec_bytes (PLost id n))) = rec_bytes (PLost id n) ->
  0 <= n < 18446744073709551616 -> pe_lost d p = n.
Proof.
  intros Hr Hn. unfold pe_lost, pd_read in *. change 16 with (Z.of_nat 16).
  rewrite (dread_sub _ _ _ _ 16 8 _ Hr) by (change (length (rec_bytes (PLost id n))) with 24%nat; lia).
  change (take 8 (drop 16 (rec_bytes (PLost id n)))) with (le64 n).
  rewrite le_val_le64. by apply u64_small.
Qed.

(** The event of a sample: its time stamp, its length and its bytes. *)
Section sample.
Context (d : perf_device) (p : Z) (e : event) (pad : list byte).
Context (Hr : pd_read d p (length (rec_bytes (PSample e pad))) = rec_bytes (PSample e pad)).
Context (Hw : event_wf e).

Lemma sample_bytes :
  pd_read d (scap_bpf_evt_from_perf_sample p) (length (bytes_of_event e)) = bytes_of_event e.
Proof using Hr.
  unfold scap_bpf_evt_from_perf_sample, PERF_SAMPLE_DATA. change 12 with (Z.of_nat 12).
  unfold pd_read in *. rewrite (dread_sub _ _ _ _ 12 (length (bytes_of_event e)) _ Hr).
  - change (drop 12 (rec_bytes (PSample e pad))) with (bytes_of_event e ++ pad). by apply take_app_length.
  - change (rec_bytes (PSample e pad)) with (take 12 (rec_bytes (PSample e pad)) ++ bytes_of_event e ++ pad).
    rewrite !length_app. change (length (take 12 (rec_bytes (PSample e pad)))) with 12%nat. lia.
Qed.

Lemma sample_fields :
  let pe := scap_bpf_evt_from_perf_sample p in
  le_val (pd_read d pe 8) = ev_ts e /\
  le_val (pd_read d (pe + 16) 4) = Z.of_nat (length (bytes_of_event e)).
Proof using Hr Hw.
  intros pe. pose proof sample_bytes as Hb. fold pe in Hb. destruct Hw as [Hts Hlen].
  pose proof (event_bytes_length_pos e). unfold pd_read in *. split.
  - rewrite <- (Z.add_0_r pe). change 0 with (Z.of_nat 0). rewrite (dread_sub _ _ _ _ 0 8 _ Hb) by lia.
    change (take 8 (drop 0 (bytes_of_event e))) with (le64 (ev_ts e)).
    rewrite le_val_le64. apply u64_small. lia.
  - change 16 with (Z.of_nat 16). rewrite (dread_sub _ _ _ _ 16 4 _ Hb) by lia.
    change (take 4 (drop 16 (bytes_of_event e))) with
      (le32 (sizeof_ppm_evt_hdr + 2 * Z.of_nat (length (ev_params e)) + zsum (lens (ev_params e)))).
    rewrite <- (event_length (ev_ts e) (ev_tid e) (ev_type e) (ev_params e)).
    rewrite le_val_le32. apply u32_small. fold (bytes_of_event e). lia.
Qed.
End sample.

(** ** The loop over the records. *)

(** Records from an offset on. *)
Definition recs_at (d : perf_device) (a : Z) (rs : list perf_record) : Prop :=
  pd_read d a (length (recs_bytes rs)) = recs_bytes rs /\ Forall rec_wf rs.

Definition recs_len (rs : list perf_record) : Z := Z.of_nat (length (recs_bytes rs)).

Lemma recs_len_cons r rs : recs_len (r :: rs) = rec_size r + recs_len rs.
Proof. unfold recs_len, recs_bytes. cbn [flat_map]. rewrite length_app, <- length_rec_bytes. lia. Qed.

Lemma recs_len_app rs rs' : recs_len (rs ++ rs') = recs_len rs + recs_len rs'.
Proof. unfold recs_len, recs_bytes. rewrite flat_map_app, length_app. lia. Qed.

Lemma recs_len_count rs : Z.of_nat (length rs) <= recs_len rs.
Proof.
  induction rs as [|r rs IH]; [done|]. rewrite recs_len_cons. pose proof (rec_size_range r). cbn [length]. lia.
Qed.

Lemma recs_at_cons d a r rs :
  recs_at d a (r :: rs) ->
  pd_read d a (length (rec_bytes r)) = rec_bytes r /\ rec_wf r /\ recs_at d (a + rec_size r) rs.
Proof.
  intros [Hb Hw]. apply Forall_cons_1 in Hw as [Hw Hws]. unfold pd_read in *. cbn [recs_bytes flat_map] in Hb.
  apply dread_split in Hb as [H1 H2]. rewrite length_rec_bytes in H2. split; [done|]. split; [done|]. by split.
Qed.

Lemma recs_at_mod d a rs :
  recs_at d (a mod data_size (pd_page d)) rs <-> recs_at d a rs.
Proof. unfold recs_at, pd_read. by rewrite dread_mod. Qed.

Lemma recs_at_app d a rs rs' :
  recs_at d a (rs ++ rs') <-> recs_at d a rs /\ recs_at d (a + recs_len rs) rs'.
Proof.
  unfold recs_at, recs_len, pd_read, recs_bytes. rewrite flat_map_app, Forall_app. split.
  - intros [H [H1 H2]]. apply dread_split in H as [? ?]. done.
  - intros [[H1 ?] [H2 ?]]. rewrite length_app, dread_app, H1, H2. done.
Qed.

(** The records the loop stops at begin with a sample. *)
Definition at_sample (rs : list perf_record) : Prop :=
  match rs with [] | PSample _ _ :: _ => True | _ => False end.

Definition skip_sample (skip : bool) (evs : list event) : list event := if skip then tl evs else evs.

(** What changes in a device is its cursor and the count of lost events. *)
Record moved (d d' : perf_device) : Prop := {
  mv_page : pd_page d' = pd_page d;
  mv_data : pd_data d' = pd_data d;
  mv_last : pd_lastreadsize d' = pd_lastreadsize d }.

Lemma recs_at_moved d d' a rs : moved d d' -> recs_at d a rs <-> recs_at d' a rs.
Proof. intros [H1 H2 _]. unfold recs_at, pd_read. by rewrite H1, H2. Qed.

Lemma advance_to_evt_ok turns : forall d skip begin rs,
  let size := data_size (pd_page d) in
  0 <= begin < size -> recs_len rs <= size -> size < 4294967296 ->
  recs_at d begin rs -> (length rs < turns)%nat ->
  exists d' dn rs', scap_bpf_advance_to_evt turns d skip begin (recs_len rs) = Some d' /\
    rs = dn ++ rs' /\ at_sample rs' /\ rec_events rs' = skip_sample skip (rec_events rs) /\
    moved d d' /\ pd_len d' = recs_len rs' /\
    (rs' <> [] -> pd_next d' = (begin + recs_len dn) mod size) /\
    u64 (m_evt_lost d') = u64 (m_evt_lost d + total_lost dn).
Proof.
  induction turns as [|turns IH]; intros d skip begin rs size Hb Hlen Hsz Hat Ht; [lia|].
  cbn [scap_bpf_advance_to_evt]. destruct rs as [|r rs].
  { rewrite Z.eqb_refl. eexists _, [], []. split; [done|]. repeat split_and; try done; [by destruct skip|].
    cbn. by rewrite Z.add_0_r. }
  apply recs_at_cons in Hat as (Hr & Hw & Hat). rewrite recs_len_cons in *.
  pose proof (rec_size_range r) as Hs. pose proof (recs_len_count rs) as Hc. cbn [length] in Ht.
  rewrite (proj2 (Z.eqb_neq _ 0)) by lia.
  rewrite (pe_type_rec d begin r Hr Hw), (pe_size_rec d begin r Hr Hw).
  replace (u32 (rec_size r + recs_len rs - rec_size r)) with (recs_len rs)
    by (rewrite u32_small; lia).
  fold size. rewrite perf_next_mod by lia.
  assert (Hgo : forall d0 skip0, moved d d0 -> exists d' dn rs',
    scap_bpf_advance_to_evt turns d0 skip0 ((begin + rec_size r) mod size) (recs_len rs) = Some d' /\
    rs = dn ++ rs' /\ at_sample rs' /\ rec_events rs' = skip_sample skip0 (rec_events rs) /\
    moved d d' /\ pd_len d' = recs_len rs' /\
    (rs' <> [] -> pd_next d' = (begin + recs_len (r :: dn)) mod size) /\
    u64 (m_evt_lost d') = u64 (m_evt_lost d0 + total_lost dn)).
  { intros d0 skip0 Hm. pose proof (mv_page _ _ Hm) as Hp.
    destruct (IH d0 skip0 ((begin + rec_size r) mod size) rs) as (d' & dn & rs' & E & Hrs & Hh & He & Hm' & Hl & Hn & Hlo);
      rewrite ?Hp; fold size; try lia.
    - apply Z.mod_pos_bound. lia.
    - apply (recs_at_moved d d0); [done|]. by apply recs_at_mod.
    - exists d', dn, rs'. repeat split_and; try done.
      + destruct Hm, Hm'. split; congruence.
      + intros Hne. rewrite (Hn Hne), Hp. fold size.
        rewrite Zplus_mod_idemp_l, recs_len_cons. f_equal. lia. }
  destruct r as [e pad|id n]; cbn [rec_type].
  - change (PERF_RECORD_SAMPLE =? PERF_RECORD_SAMPLE) with true. cbv iota. destruct skip.
    + destruct (Hgo d false ltac:(by split)) as (d' & dn & rs' & E & Hrs & Hh & He & Hm & Hl & Hn & Hlo).
      exists d', (PSample e pad :: dn), rs'. repeat split_and; try done. by rewrite Hrs.
    + eexists _, [], (PSample e pad :: rs). split; [done|]. repeat split_and; try done.
      * by rewrite recs_len_cons.
      * intros _. cbn. rewrite Z.add_0_r, Z.mod_small by lia. done.
      * cbn. by rewrite Z.add_0_r.
  - change (PERF_RECORD_LOST =? PERF_RECORD_SAMPLE) with false.
    change (PERF_RECORD_LOST =? PERF_RECORD_LOST) with true. cbv iota. destruct Hw as [_ Hn].
    rewrite (pe_lost_rec d begin id n Hr Hn).
    destruct (Hgo (add_lost d n) skip ltac:(by split)) as (d' & dn & rs' & E & Hrs & Hh & He & Hm & Hl & Hnx & Hlo).
    exists d', (PLost id n :: dn), rs'. repeat split_and; try done.
    + change (pd_page (add_lost d n)) with (pd_page d). fold size. by rewrite perf_next_mod by lia.
    + by rewrite Hrs.
    + rewrite Hlo. cbn [add_lost m_evt_lost]. unfold u64, total_lost. rewrite Zplus_mod_idemp_l.
      f_equal. cbn [map rec_lost]. change (zsum (n :: ?l)) with (n + zsum l). lia.
Qed.

(** ** The unread part of a perf buffer. *)

(** The records passed, those to hand out, and those behind them. *)
Record perf_span (d : perf_device) (dn rs later : list perf_record) : Prop := {
  ps_size : 0 < data_size (pd_page d) < 4294967296;
  ps_tail : 0 <= data_tail (pd_page d);
  ps_head : data_head (pd_page d) < 18446744073709551616;
  ps_recs : recs_at d (data_tail (pd_page d)) (dn ++ rs ++ later);
  ps_used : data_head (pd_page d) - data_tail (pd_page d) = recs_len (dn ++ rs ++ later);
  ps_room : recs_len (dn ++ rs ++ later) < data_size (pd_page d);
  ps_last : pd_lastreadsize d = recs_len (dn ++ rs);
  ps_len : pd_len d = recs_len rs;
  ps_next : rs <> [] -> pd_next d = (data_tail (pd_page d) + recs_len dn) mod data_size (pd_page d) }.

Definition perf_waits (d : perf_device) (evs : list event) : Prop :=
  exists dn rs later, perf_span d dn rs later /\ at_sample rs /\ rec_events rs = evs.

Lemma recs_len_nonneg rs : 0 <= recs_len rs.
Proof. unfold recs_len. lia. Qed.

Lemma perf_read_size d dn rs later :
  perf_span d dn rs later ->
  snd (scap_bpf_get_buf_pointers (pd_page d)) = recs_len (dn ++ rs ++ later).
Proof.
  intros [Hs Ht Hh _ Hu Hr _ _ _]. unfold scap_bpf_get_buf_pointers. cbn [snd].
  set (size := data_size (pd_page d)) in *. set (n := recs_len (dn ++ rs ++ later)) in *.
  pose proof (recs_len_nonneg (dn ++ rs ++ later)) as Hn. fold n in Hn.
  replace (data_head (pd_page d)) with (data_tail (pd_page d) + n) by lia.
  set (t := data_tail (pd_page d)) in *.
  pose proof (Z.mod_pos_bound t size ltac:(lia)) as Hb.
  assert (Hmod : (t + n) mod size = if t mod size + n <? size then t mod size + n else t mod size + n - size).
  { rewrite <- Zplus_mod_idemp_l. destruct (Z.ltb_spec (t mod size + n) size).
    - apply Z.mod_small. lia.
    - rewrite <- (Z_mod_plus_full (t mod size + n) (-1) size), Z.mod_small; lia. }
  rewrite Hmod. destruct (Z.ltb_spec (t mod size + n) size).
  - rewrite (proj2 (Z.ltb_ge _ _)) by lia. lia.
  - rewrite (proj2 (Z.ltb_lt _ _)) by lia. rewrite u64_small; lia.
Qed.

(** Reading the buffer hands out everything in it. *)
Lemma readbuf_span d dn rs later :
  perf_span d dn rs later ->
  exists d' dn' rs', scap_bpf_readbuf d = Some d' /\ dn ++ rs ++ later = dn' ++ rs' /\
    perf_span d' dn' rs' [] /\ at_sample rs' /\ rec_events rs' = rec_events (dn ++ rs ++ later) /\
    u64 (m_evt_lost d') = u64 (m_evt_lost d + total_lost dn').
Proof.
  intros P. pose proof (perf_read_size _ _ _ _ P) as Hsz.
  destruct P as [Hs Ht Hh Hat Hu Hr Hla Hl Hn]. unfold scap_bpf_readbuf.
  destruct (scap_bpf_get_buf_pointers (pd_page d)) as [[h t] n] eqn:Eb. cbn [snd] in Hsz. subst n.
  injection Eb as _ <- _. pose proof (recs_len_nonneg (dn ++ rs ++ later)) as H0.
  rewrite !u32_small by lia. set (all := dn ++ rs ++ later) in *.
  set (d0 := mk_pdev (pd_page d) (pd_data d) (recs_len all) (pd_next d) (pd_len d) (m_evt_lost d)).
  pose proof (recs_len_count all) as Hc.
  destruct (advance_to_evt_ok (advance_turns (recs_len all)) d0 false
    (data_tail (pd_page d) mod data_size (pd_page d)) all) as (d' & dn' & rs' & E & Hrs & Hh' & He & Hm & Hl' & Hn' & Hlo).
  - apply Z.mod_pos_bound. cbn. lia.
  - cbn. lia.
  - cbn. lia.
  - apply (recs_at_mod d0). exact Hat.
  - unfold advance_turns. lia.
  - exists d', dn', rs'. destruct Hm as [M1 M2 M3]. cbn [d0 pd_page pd_data pd_lastreadsize] in *.
    repeat split_and; try done.
    split; rewrite ?M1, ?app_nil_r, <- ?Hrs; try done.
    + unfold recs_at, pd_read. rewrite M1, M2. exact Hat.
    + intros Hne. rewrite (Hn' Hne). by rewrite Zplus_mod_idemp_l.
Qed.

(** Stepping over a sample passes the notes behind it too. *)
Lemma consume_span d dn e pad rs later :
  perf_span d dn (PSample e pad :: rs) later ->
  exists d' p rs', dv_consume d (dv_event d) = Some d' /\ PSample e pad :: rs = p ++ rs' /\
    perf_span d' (dn ++ p) rs' later /\ at_sample rs' /\ rec_events rs' = rec_events rs /\
    u64 (m_evt_lost d') = u64 (m_evt_lost d + total_lost p).
Proof.
  intros [Hs Ht Hh Hat Hu Hr Hla Hl Hn]. specialize (Hn ltac:(done)).
  cbn [dv_consume perf_live_device]. rewrite Hl. set (rs0 := PSample e pad :: rs) in *.
  pose proof (recs_len_nonneg dn). pose proof (recs_len_nonneg later). pose proof (recs_len_count rs0).
  pose proof Hr as Hr'. rewrite !recs_len_app in Hr'.
  pose proof Hat as Hat'. apply recs_at_app in Hat' as [_ Hat']. apply recs_at_app in Hat' as [Hat' _].
  destruct (advance_to_evt_ok (advance_turns (recs_len rs0)) d true (pd_next d) rs0)
    as (d' & p & rs' & E & Hrs & Hh' & He & Hm & Hl' & Hn' & Hlo).
  - rewrite Hn. apply Z.mod_pos_bound. lia.
  - lia.
  - lia.
  - rewrite Hn. by apply recs_at_mod.
  - unfold advance_turns. lia.
  - exists d', p, rs'. destruct Hm as [M1 M2 M3]. repeat split_and; try done.
    assert (Hall : (dn ++ p) ++ rs' ++ later = dn ++ rs0 ++ later) by (rewrite Hrs, <- !app_assoc; done).
    split; rewrite ?M1, ?Hall; try done.
    + unfold recs_at, pd_read. rewrite M1, M2. exact Hat.
    + by rewrite M3, Hla, Hrs, <- app_assoc.
    + intros Hne. rewrite (Hn' Hne), Hn, Zplus_mod_idemp_l, recs_len_app. f_equal. lia.
Qed.

Lemma advance_span d dn later :
  perf_span d dn [] later -> perf_span (scap_bpf_advance_tail d) [] [] later.
Proof.
  intros [Hs Ht Hh Hat Hu Hr Hla Hl Hn]. rewrite app_nil_r in Hla. cbn [app] in *.
  rewrite recs_len_app in Hu, Hr. pose proof (recs_len_nonneg dn). pose proof (recs_len_nonneg later).
  apply recs_at_app in Hat as [_ Hat].
  assert (Hu64 : u64 (data_tail (pd_page d) + recs_len dn) = data_tail (pd_page d) + recs_len dn)
    by (apply u64_small; lia).
  split; cbn [scap_bpf_advance_tail pd_page data_size data_tail data_head pd_lastreadsize pd_len app];
    rewrite ?Hla, ?Hu64; try done; try lia.
Qed.

(** Nothing to hand out: no records are left. *)
Lemma at_sample_nil rs : at_sample rs -> rec_events rs = [] -> rs = [].
Proof. destruct rs as [|[e pad|id n] rs]; done. Qed.

Lemma at_sample_cons rs e es :
  at_sample rs -> rec_events rs = e :: es -> exists pad rs', rs = PSample e pad :: rs' /\ rec_events rs' = es.
Proof. destruct rs as [|[e' pad|id n] rs]; [done| |done]. cbn. intros _ E. simplify_eq. eauto. Qed.

Lemma rec_events_wf rs : Forall rec_wf rs -> Forall event_wf (rec_events rs).
Proof.
  induction 1 as [|r rs [_ Hr] _ IH]; [constructor|]. destruct r; [by constructor|done].
Qed.

(** The perf buffers hand out their events. *)
#[export] Instance perf_hands : Hands perf_device perf_waits.
Proof.
  split.
  - intros d evs (dn & rs & later & P & _ & <-). apply rec_events_wf.
    destruct (ps_recs _ _ _ _ P) as [_ Hw]. rewrite !Forall_app in Hw. tauto.
  - intros d (dn & rs & later & P & Hat & He). apply at_sample_nil in He as ->; [|done].
    split; [exact (ps_len _ _ _ _ P)|]. split.
    + exists [], [], later. split; [by eapply advance_span|done].
    + destruct (readbuf_span _ _ _ _ P) as (d' & dn' & rs' & E & _). by exists d'.
  - intros d e es (dn & rs & later & P & Hat & He).
    apply at_sample_cons in He as (pad & rs' & -> & He); [|done].
    destruct P as [Hs Ht Hh Hrec Hu Hr Hla Hl Hn] eqn:EP. clear EP. specialize (Hn ltac:(done)).
    pose proof Hrec as Hrec'. apply recs_at_app in Hrec' as [_ Hrec'].
    apply recs_at_app in Hrec' as [Hrec' _]. apply recs_at_mod in Hrec'. rewrite <- Hn in Hrec'.
    apply recs_at_cons in Hrec' as (Hb & [Hsz Hw] & _).
    destruct (sample_fields d (pd_next d) e pad Hb Hw) as [Hts Hel].
    pose proof (sample_bytes d (pd_next d) e pad Hb) as Hby.
    cbn [dv_len dv_ts dv_event dv_evt_len dv_bytes perf_live_device]. rewrite Hl, recs_len_cons.
    pose proof (recs_len_nonneg rs'). pose proof (rec_size_range (PSample e pad)).
    split; [lia|]. split; [done|]. split; [done|].
    assert (Hlen : Z.of_nat (length (bytes_of_event e)) <= rec_size (PSample e pad)).
    { unfold rec_size, rec_data. rewrite !length_app. lia. }
    split; [rewrite Hel; lia|]. split; [done|].
    destruct (consume_span d dn e pad rs' later) as (d' & p & rs'' & E & Hrs & P' & Hat' & He' & _).
    { by split. }
    exists d'. split; [exact E|]. exists (dn ++ p), rs'', later. split; [done|]. split; [done|].
    by rewrite He'.
Qed.

(** ** The kernel and the reader together. *)

(** The kernel adds a record when there is room for it, behind what is unread, and then
    moves the head. *)
Record kernel_wrote (d d' : perf_device) (r : perf_record) : Prop := {
  kw_room : data_head (pd_page d) - data_tail (pd_page d) + rec_size r < data_size (pd_page d);
  kw_head : data_head (pd_page d) + rec_size r < 18446744073709551616;
  kw_page : pd_page d' = mk_page (data_head (pd_page d) + rec_size r) (data_tail (pd_page d))
                           (data_size (pd_page d));
  kw_old : let n := Z.to_nat (data_head (pd_page d) - data_tail (pd_page d)) in
    pd_read d' (data_tail (pd_page d)) n = pd_read d (data_tail (pd_page d)) n;
  kw_new : pd_read d' (data_head (pd_page d)) (length (rec_bytes r)) = rec_bytes r;
  kw_cursor : pd_lastreadsize d' = pd_lastreadsize d /\ pd_next d' = pd_next d /\
    pd_len d' = pd_len d /\ m_evt_lost d' = m_evt_lost d }.

(** The buffer, all records the kernel wrote, and the records of events the reader
    returned. *)
Record perf_sys : Type := mk_psys {
  py_dev : perf_device;
  py_written : list perf_record;
  py_read : list (list byte) }.

(** What libscap does to a device, as [scap_next_live] orders it. *)
Inductive reader_step : perf_sys -> perf_sys -> Prop :=
| reader_refill d w l d' :
    pd_len d = 0 -> pd_lastreadsize d = 0 -> scap_bpf_readbuf d = Some d' ->
    reader_step (mk_psys d w l) (mk_psys d' w l)
| reader_event d w l d' :
    pd_len d <> 0 -> dv_consume d (dv_event d) = Some d' ->
    reader_step (mk_psys d w l)
      (mk_psys d' w (l ++ [dv_bytes d (dv_event d) (Z.to_nat (dv_evt_len d (dv_event d)))]))
| reader_release d w l :
    pd_len d = 0 -> 0 < pd_lastreadsize d ->
    reader_step (mk_psys d w l) (mk_psys (scap_bpf_advance_tail d) w l).

Inductive perf_sys_step : perf_sys -> perf_sys -> Prop :=
| perf_kernel d w l d' r :
    rec_wf r -> kernel_wrote d d' r -> perf_sys_step (mk_psys d w l) (mk_psys d' (w ++ [r]) l)
| perf_reader y y' : reader_step y y' -> perf_sys_step y y'.

Inductive perf_run : perf_sys -> perf_sys -> Prop :=
| perf_run_start y : perf_run y y
| perf_run_step y y1 y2 : perf_run y y1 -> perf_sys_step y1 y2 -> perf_run y y2.

(** What was passed and what waits in the buffer. *)
Record perf_inv (y : perf_sys) (gone dn rs later : list perf_record) : Prop := {
  pi_span : perf_span (py_dev y) dn rs later;
  pi_at : at_sample rs;
  pi_written : py_written y = gone ++ dn ++ rs ++ later;
  pi_read : py_read y = map bytes_of_event (rec_events (gone ++ dn));
  pi_lost : u64 (m_evt_lost (py_dev y)) = u64 (total_lost (gone ++ dn)) }.

Lemma rec_events_app rs rs' : rec_events (rs ++ rs') = rec_events rs ++ rec_events rs'.
Proof. apply flat_map_app. Qed.

Lemma total_lost_app rs rs' : total_lost (rs ++ rs') = total_lost rs + total_lost rs'.
Proof. unfold total_lost. by rewrite map_app, zsum_app. Qed.

Lemma u64_add_l a b c : u64 a = u64 b -> u64 (a + c) = u64 (b + c).
Proof. intros H. unfold u64 in *. by rewrite <- Zplus_mod_idemp_l, H, Zplus_mod_idemp_l. Qed.

Lemma kernel_span d d' r dn rs later :
  perf_span d dn rs later -> rec_wf r -> kernel_wrote d d' r -> perf_span d' dn rs (later ++ [r]).
Proof.
  intros [Hs Ht Hh [Hb Hwf] Hu Hr Hla Hl Hn] Hw [K1 K2 K3 K4 K5 (K6 & K7 & K8 & K9)].
  assert (Hall : dn ++ rs ++ later ++ [r] = (dn ++ rs ++ later) ++ [r]) by (rewrite <- !app_assoc; done).
  assert (Hone : recs_len [r] = rec_size r) by (rewrite recs_len_cons; change (recs_len []) with 0; lia).
  assert (Hat : recs_at d' (data_tail (pd_page d)) ((dn ++ rs ++ later) ++ [r])).
  { apply recs_at_app. split.
    - split; [|done]. cbv zeta in K4. rewrite Hu in K4. unfold recs_len in K4. rewrite Nat2Z.id in K4.
      by rewrite K4.
    - unfold recs_at. cbn [recs_bytes flat_map]. rewrite app_nil_r, <- Hu.
      replace (data_tail (pd_page d) + (data_head (pd_page d) - data_tail (pd_page d)))
        with (data_head (pd_page d)) by lia.
      split; [exact K5|]. apply List.Forall_cons; [exact Hw|apply List.Forall_nil]. }
  split; rewrite ?K3, ?Hall, ?K6, ?K7, ?K8; cbn [data_size data_tail data_head]; try done;
    rewrite (recs_len_app _ [r]), Hone; lia.
Qed.

(** The steps the records of the buffer still have before them. *)
Definition pending (dn rs later : list perf_record) : nat :=
  length dn + 2 * length rs + 3 * length later.

Lemma reader_step_inv y y' gone dn rs later :
  perf_inv y gone dn rs later -> reader_step y y' ->
  exists gone' dn' rs' later', perf_inv y' gone' dn' rs' later' /\
    (dn ++ rs ++ later <> [] -> (pending dn' rs' later' < pending dn rs later)%nat).
Proof.
  intros [P Ha Hw Hr Hlo] Hs. destruct Hs as [d w l d' Hl0 Hla0 E|d w l d' Hl0 E|d w l Hl0 Hla0];
    cbn [py_dev py_written py_read] in *.
  - destruct (readbuf_span _ _ _ _ P) as (d1 & dn' & rs' & E' & Hrs & P' & Ha' & He & Hlost).
    rewrite E in E'. injection E' as <-.
    assert (Hnil : dn = [] /\ rs = []).
    { pose proof (ps_last _ _ _ _ P) as H1. rewrite Hla0 in H1. pose proof (recs_len_count (dn ++ rs)).
      destruct dn, rs; cbn [app length] in *; try lia; done. }
    destruct Hnil as [-> ->]. cbn [app] in *. rewrite app_nil_r in *.
    exists gone, dn', rs', []. split.
    2: { destruct later; [done|]. apply (f_equal length) in Hrs. rewrite length_app in Hrs.
         unfold pending. cbn [length] in *. lia. }
    rewrite Hrs, rec_events_app in He. assert (Hdn : rec_events dn' = []).
    { apply nil_length_inv. apply (f_equal length) in He. rewrite !length_app in He. lia. }
    split; cbn [py_dev py_written py_read]; try done.
    + by rewrite Hw, Hrs, app_nil_r.
    + by rewrite rec_events_app, Hdn, app_nil_r.
    + rewrite total_lost_app, Hlost. by apply u64_add_l.
  - pose proof (ps_len _ _ _ _ P) as Hlen.
    destruct rs as [|[e pad|id n] rs]; [by rewrite Hlen in Hl0| |done].
    destruct (hands_cons (waits := perf_waits) d e (rec_events rs)) as (_ & _ & Hel & _ & Hby & _).
    { by exists dn, (PSample e pad :: rs), later. }
    destruct (consume_span _ _ _ _ _ _ P) as (d1 & p & rs' & E' & Hrs & P' & Ha' & He & Hlost).
    rewrite E in E'. injection E' as <-.
    exists gone, (dn ++ p), rs', later. assert (Hp : rec_events p = [e]).
    { pose proof (f_equal rec_events Hrs) as H1. rewrite rec_events_app, He in H1.
      change (rec_events (PSample e pad :: rs)) with ([e] ++ rec_events rs) in H1.
      by apply app_inv_tail in H1. }
    split.
    2: { intros _. destruct p; [done|]. apply (f_equal length) in Hrs. rewrite length_app in Hrs.
         unfold pending. rewrite length_app. cbn [length] in *. lia. }
    split; cbn [py_dev py_written py_read]; try done.
    + rewrite Hw. f_equal. rewrite <- app_assoc. f_equal. rewrite Hrs. by rewrite <- app_assoc.
    + rewrite Hel, Nat2Z.id, Hby, Hr, app_assoc, (rec_events_app (gone ++ dn)), Hp, map_app. done.
    + rewrite app_assoc, total_lost_app, Hlost. by apply u64_add_l.
  - pose proof (ps_len _ _ _ _ P) as Hlen. rewrite Hl0 in Hlen. pose proof (recs_len_count rs).
    destruct rs; [|cbn [length] in *; lia].
    exists (gone ++ dn), [], [], later. cbn [app] in *.
    split.
    2: { intros _. pose proof (ps_last _ _ _ _ P) as H1. rewrite app_nil_r in H1.
         destruct dn; [change (recs_len []) with 0 in H1; lia|]. unfold pending. cbn [length]. lia. }
    split; cbn [py_dev py_written py_read app]; rewrite ?app_nil_r; try done.
    + by eapply advance_span.
    + by rewrite Hw, app_assoc.
Qed.

Lemma perf_run_inv y0 y :
  perf_inv y0 [] [] [] [] -> perf_run y0 y -> exists gone dn rs later, perf_inv y gone dn rs later.
Proof.
  intros H0 Hrun. induction Hrun as [y|y y1 y2 _ IH Hs]; [eauto|].
  destruct (IH H0) as (gone & dn & rs & later & I). destruct Hs as [d w l d' r Hw Hk|yk yk' Hs].
  - destruct I as [P Ha Hwr Hr Hlo]. cbn [py_dev py_written py_read] in *.
    exists gone, dn, rs, (later ++ [r]). split; cbn [py_dev py_written py_read]; try done.
    + by eapply kernel_span.
    + by rewrite Hwr, <- !app_assoc.
    + destruct (kw_cursor _ _ _ Hk) as (_ & _ & _ & ->). done.
  - destruct (reader_step_inv _ _ _ _ _ _ I Hs) as (g' & dn' & rs' & l' & I' & _). eauto.
Qed.

(** The reader is never stuck while there are records in the buffer. *)
Lemma reader_progress y gone dn rs later :
  perf_inv y gone dn rs later -> dn ++ rs ++ later <> [] -> exists y', reader_step y y'.
Proof.
  intros [P Ha _ _ _] Hne. destruct y as [d w l]. cbn [py_dev] in P.
  pose proof (ps_len _ _ _ _ P) as Hlen. pose proof (ps_last _ _ _ _ P) as Hlast.
  destruct rs as [|[e pad|id n] rs]; [| |done].
  - pose proof (recs_len_nonneg dn). destruct (Z.eqb_spec (pd_lastreadsize d) 0) as [H0|H0].
    + destruct (readbuf_span _ _ _ _ P) as (d' & _ & _ & E & _). eexists. by eapply reader_refill.
    + eexists. apply reader_release; [done|]. rewrite app_nil_r in Hlast. lia.
  - destruct (consume_span _ _ _ _ _ _ P) as (d' & _ & _ & E & _). eexists. eapply reader_event; [|exact E].
    rewrite Hlen, recs_len_cons. pose proof (rec_size_range (PSample e pad)). pose proof (recs_len_nonneg rs). lia.
Qed.

(** An empty buffer. *)
Definition empty_perf (size : Z) (m : mem) : perf_sys :=
  mk_psys (mk_pdev (mk_page 0 0 size) m 0 0 0 0) [] [].

Lemma empty_perf_inv size m : 0 < size < 4294967296 -> perf_inv (empty_perf size m) [] [] [] [].
Proof.
  intros Hs. split; try done. split; cbn [empty_perf py_dev pd_page data_size data_tail data_head app];
    try done; change (recs_len []) with 0; lia.
Qed.

(** Runs of the reader alone. *)
Definition reader_run : perf_sys -> perf_sys -> Prop := rtc reader_step.

Lemma reader_written y y' : reader_step y y' -> py_written y' = py_written y.
Proof. by destruct 1. Qed.

Lemma reader_drains y gone dn rs later :
  perf_inv y gone dn rs later ->
  exists y', reader_run y y' /\ perf_inv y' (py_written y) [] [] [] /\ py_written y' = py_written y.
Proof.
  remember (pending dn rs later) as n eqn:En. revert y gone dn rs later En.
  induction n as [n IH] using lt_wf_ind. intros y gone dn rs later En I.
  destruct (decide (dn ++ rs ++ later = [])) as [E|Hne].
  - apply app_eq_nil in E as [-> E]. apply app_eq_nil in E as [-> ->].
    exists y. split; [apply rtc_refl|]. pose proof (pi_written _ _ _ _ _ I) as Hw.
    rewrite app_nil_r in Hw. cbn [app] in Hw. by rewrite Hw.
  - destruct (reader_progress _ _ _ _ _ I Hne) as [y1 Hs].
    destruct (reader_step_inv _ _ _ _ _ _ I Hs) as (g' & dn' & rs' & l' & I' & Hlt).
    destruct (IH (pending dn' rs' l')) with y1 g' dn' rs' l' as (y' & Hrun & I1 & Hw1);
      [subst n; by apply Hlt|done|done|].
    rewrite (reader_written _ _ Hs) in *. exists y'. split; [by eapply rtc_l|done].
Qed.

(** C18: the perf buffer of a CPU is a FIFO of events under every interleaving of the
    kernel that writes records and of libscap that refills, returns events and releases
    what it has returned: the events returned so far are, byte for byte and in order,
    the events of a prefix of the records written, and [m_evt_lost] is the number of lost
    events noted in that prefix; from every such point libscap, left alone, comes in
    finitely many steps to where it has returned the events of all records written,
    counted all that were lost and released the whole buffer. *)
Theorem perf_interleaving_fifo (size : Z) (m : mem) (y : perf_sys) :
  0 < size < 4294967296 -> perf_run (empty_perf size m) y ->
  (exists passed waiting, py_written y = passed ++ waiting /\
     py_read y = map bytes_of_event (rec_events passed) /\
     u64 (m_evt_lost (py_dev y)) = u64 (total_lost passed)) /\
  exists y', reader_run y y' /\
    py_read y' = map bytes_of_event (rec_events (py_written y)) /\
    u64 (m_evt_lost (py_dev y')) = u64 (total_lost (py_written y)) /\
    data_tail (pd_page (py_dev y')) = data_head (pd_page (py_dev y')).
Proof.
  intros Hs Hrun. destruct (perf_run_inv _ _ (empty_perf_inv size m Hs) Hrun) as (gone & dn & rs & later & I).
  split.
  - exists (gone ++ dn), (rs ++ later). split; [rewrite <- app_assoc; apply (pi_written _ _ _ _ _ I)|].
    split; [apply (pi_read _ _ _ _ _ I)|apply (pi_lost _ _ _ _ _ I)].
  - destruct (reader_drains _ _ _ _ _ I) as (y' & Hr & I' & _). exists y'. split; [done|].
    pose proof (pi_read _ _ _ _ _ I') as H1. pose proof (pi_lost _ _ _ _ _ I') as H2.
    pose proof (ps_used _ _ _ _ (pi_span _ _ _ _ _ I')) as H3. change (recs_len ([] ++ [] ++ [])) with 0 in H3.
    rewrite app_nil_r in H1, H2. split; [done|]. split; [done|]. lia.
Qed.

(** A buffer of 128 bytes into which the kernel writes an event and a note of lost
    ones. *)
Definition sample_rec : perf_record := PSample (mk_evt 7 1 2 [[x01; x02]]) [x00; x00; x00; x00].
Definition sample_note : perf_record := PLost 0 3.
Definition sample_perf_mem : mem :=
  fun a => nth (Z.to_nat a) (rec_bytes sample_rec ++ rec_bytes sample_note) x00.
Definition sample_perf_dev (head : Z) : perf_device :=
  mk_pdev (mk_page head 0 128) sample_perf_mem 0 0 0 0.
Definition sample_perf_sys : perf_sys :=
  mk_psys (sample_perf_dev (recs_len [sample_rec; sample_note])) [sample_rec; sample_note] [].

Lemma sample_perf_run : perf_run (empty_perf 128 (fun _ => x00)) sample_perf_sys.
Proof.
  eapply perf_run_step; [eapply perf_run_step; [apply perf_run_start|]|].
  - eapply (perf_kernel _ [] [] (sample_perf_dev (rec_size sample_rec)) sample_rec); split; vm_compute; repeat split; congruence.
  - apply (perf_kernel _ [sample_rec] [] (sample_perf_dev (recs_len [sample_rec; sample_note])) sample_note);
      split; vm_compute; repeat split; congruence.
Qed.

Lemma perf_interleaving_fifo_witness :
  exists y', reader_run sample_perf_sys y' /\
    py_read y' = [bytes_of_event (mk_evt 7 1 2 [[x01; x02]])] /\ u64 (m_evt_lost (py_dev y')) = 3.
Proof.
  destruct (perf_interleaving_fifo 128 (fun _ => x00) sample_perf_sys ltac:(lia) sample_perf_run)
    as [_ (y' & H1 & H2 & H3 & _)].
  exists y'. split; [exact H1|]. split; [exact H2|exact H3].
Defined.
