(* ===== verification/Suppress.v ===== *)
(** * Event suppression and thread id maps: [libscap/scap_procs.c], [scap.c]

    The set of thread ids whose events are not returned, kept up to date from
    the process-creating events in the stream, the list of suppressed command
    names it is fed from, and the maps between thread ids and the ids a
    thread has in its namespace. *)

From Stdlib Require Import ZArith Lia List Bool.
From Stdlib Require Import Strings.Byte.
From stdpp Require Import base tactics list numbers option gmap.
From S2P Require Import Prelude Bytes EventDefs ValToRingSpec Ring RingSpec Reader.
From S2P Require Import RingSystem.
Import ListNotations.
Local Open Scope Z_scope.

Definition SCAP_MAX_SUPPRESSED_COMMS : Z := 32.

(** The fields of [scap_t] these functions use.  A command name is the list of
    its bytes, without the terminator. *)
Record suppress_state : Type := mk_suppress {
  m_suppressed_comms : list (list byte);
  m_suppressed_tids : gset Z;
  m_num_suppressed_evts : Z;
  m_evtcnt : Z }.

Definition set_tids (h : suppress_state) (ts : gset Z) : suppress_state :=
  mk_suppress (m_suppressed_comms h) ts (m_num_suppressed_evts h) (m_evtcnt h).

#[export] Instance byte_eq_dec : EqDecision byte.
Proof. intros x y. exact (Byte.byte_eq_dec x y). Defined.

Definition bytes_eqb (a b : list byte) : bool := bool_decide (a = b).

(** ** The list of command names. *)

Definition scap_suppress_events_comm (h : suppress_state) (comm : list byte) :
    suppress_state * Z :=
  if existsb (bytes_eqb comm) (m_suppressed_comms h) then (h, SCAP_SUCCESS)
  else if SCAP_MAX_SUPPRESSED_COMMS <=? Z.of_nat (length (m_suppressed_comms h))
  then (h, SCAP_FAILURE)
  else (mk_suppress (m_suppressed_comms h ++ [comm]) (m_suppressed_tids h)
          (m_num_suppressed_evts h) (m_evtcnt h), SCAP_SUCCESS).

(** [copy_comms] on the array of the open arguments: it stops at a null
    pointer or after [SCAP_MAX_SUPPRESSED_COMMS] entries. *)
Fixpoint copy_comms_loop (n : nat) (h : suppress_state) (cs : list (option (list byte))) :
    suppress_state * Z :=
  match n, cs with
  | S n', Some comm :: cs' =>
      let '(h', res) := scap_suppress_events_comm h comm in
      if negb (res =? SCAP_SUCCESS) then (h', res) else copy_comms_loop n' h' cs'
  | _, _ => (h, SCAP_SUCCESS)
  end.

Definition copy_comms (h : suppress_state) (cs : list (option (list byte))) :
    suppress_state * Z :=
  copy_comms_loop (Z.to_nat SCAP_MAX_SUPPRESSED_COMMS) h cs.

Definition scap_check_suppressed_tid (h : suppress_state) (tid : Z) : bool :=
  bool_decide (tid ∈ m_suppressed_tids h).

(** ** The set of threads. *)

(** [scap_update_suppressed]; [matches] tells whether the C string [comm]
    compares equal to an entry of the list.  Allocation does not fail. *)
Definition scap_update_suppressed (h : suppress_state) (matches : list byte -> bool)
    (tid ptid : Z) : suppress_state * bool * Z :=
  let suppressed :=
    if bool_decide (ptid ∈ m_suppressed_tids h) then true
    else existsb matches (m_suppressed_comms h) in
  let known := bool_decide (tid ∈ m_suppressed_tids h) in
  if suppressed && negb known then
    (set_tids h ({[tid]} ∪ m_suppressed_tids h), true, SCAP_SUCCESS)
  else if negb suppressed && known then
    (set_tids h (m_suppressed_tids h ∖ {[tid]}), false, SCAP_SUCCESS)
  else (h, suppressed, SCAP_SUCCESS).

(** [strcmp(s, (char * )a) == 0] for a string [s] of non-null bytes. *)
Fixpoint strcmp_eq (m : mem) (a : Z) (s : list byte) : bool :=
  match s with
  | [] => Z_of_byte (m a) =? 0
  | c :: s' => (Z_of_byte (m a) =? Z_of_byte c) && strcmp_eq m (a + 1) s'
  end.

(** The header fields of the event at address [p]. *)
Definition pe_tid (m : mem) (p : Z) : Z := ld64 m (p + 8).
Definition pe_type (m : mem) (p : Z) : Z := ld16 m (p + 20).
Definition pe_nparams (m : mem) (p : Z) : Z := ld32 m (p + 22).

(** The address of parameter [j]. *)
Fixpoint walk_params (m : mem) (lens_ : Z) (j : nat) (valptr : Z) : Z :=
  match j with
  | O => valptr
  | S j' => walk_params m (lens_ + 2) j' (valptr + ld16 m lens_)
  end.

(** Where the loop over the first 13 parameters ends. *)
Definition comm_ptr (m : mem) (p : Z) : Z :=
  let lens_ := p + sizeof_ppm_evt_hdr in
  walk_params m lens_ 13 (lens_ + pe_nparams m p * 2).

(** [scap_check_suppressed] *)
Definition scap_check_suppressed (h : suppress_state) (m : mem) (p : Z) :
    suppress_state * bool * Z :=
  let t := pe_type m p in
  let tid := pe_tid m p in
  if (t =? PPME_SYSCALL_CLONE_20_X) || (t =? PPME_SYSCALL_FORK_20_X)
     || (t =? PPME_SYSCALL_VFORK_20_X) || (t =? PPME_SYSCALL_EXECVE_19_X) then
    if pe_nparams m p <? 14 then (h, false, SCAP_FAILURE)
    else scap_update_suppressed h (strcmp_eq m (comm_ptr m p)) tid 0
  else
    let known := bool_decide (tid ∈ m_suppressed_tids h) in
    if t =? PPME_PROCEXIT_1_E then
      (if known then set_tids h (m_suppressed_tids h ∖ {[tid]}) else h, known, SCAP_SUCCESS)
    else (h, known, SCAP_SUCCESS).

(** The part of [scap_next] after an event was obtained. *)
Definition scap_next_filter (h : suppress_state) (m : mem) (p : Z) : suppress_state * Z :=
  let '(h1, suppressed, res) := scap_check_suppressed h m p in
  if negb (res =? SCAP_SUCCESS) then (h1, res)
  else if suppressed then
    (mk_suppress (m_suppressed_comms h1) (m_suppressed_tids h1)
       (u64 (m_num_suppressed_evts h1 + 1)) (m_evtcnt h1), SCAP_TIMEOUT)
  else
    (mk_suppress (m_suppressed_comms h1) (m_suppressed_tids h1)
       (m_num_suppressed_evts h1) (u64 (m_evtcnt h1 + 1)), res).

(** ** Thread id maps. *)

Record vtid_maps : Type := mk_vtid {
  m_pid_vtid_info : gmap Z Z;
  m_tid_vtid_info : gmap Z Z }.

Definition pid_vtid_key (pid vtid : Z) : Z :=
  Z.lor (u64 (Z.shiftl pid 32)) (Z.land vtid 4294967295).

Definition get_tid_vtid_map (h : vtid_maps) (tid : Z) : Z :=
  default 0 (m_tid_vtid_info h !! tid).

Definition put_tid_vtid_map (h : vtid_maps) (tid vtid : Z) : vtid_maps :=
  mk_vtid (m_pid_vtid_info h) (<[tid := vtid]> (m_tid_vtid_info h)).

Definition delete_tid_vtid_map (h : vtid_maps) (tid : Z) : vtid_maps :=
  mk_vtid (m_pid_vtid_info h) (delete tid (m_tid_vtid_info h)).

Definition get_pid_vtid_map (h : vtid_maps) (pid vtid : Z) : Z :=
  default 0 (m_pid_vtid_info h !! pid_vtid_key pid vtid).

Definition put_pid_vtid_map (h : vtid_maps) (pid tid vtid : Z) : vtid_maps :=
  put_tid_vtid_map
    (mk_vtid (<[pid_vtid_key pid vtid := tid]> (m_pid_vtid_info h)) (m_tid_vtid_info h))
    tid vtid.

Definition delete_pid_vtid_map (h : vtid_maps) (pid tid : Z) : vtid_maps :=
  let vtid := get_tid_vtid_map h tid in
  if vtid =? 0 then h
  else delete_tid_vtid_map
         (mk_vtid (delete (pid_vtid_key pid vtid) (m_pid_vtid_info h)) (m_tid_vtid_info h)) tid.

(** ** Properties. *)

Lemma update_suppressed_ok h f tid ptid h' b r :
  scap_update_suppressed h f tid ptid = (h', b, r) ->
  r = SCAP_SUCCESS /\ m_suppressed_comms h' = m_suppressed_comms h /\
  b = bool_decide (ptid ∈ m_suppressed_tids h) || existsb f (m_suppressed_comms h) /\
  m_suppressed_tids h' ≡ (if b then {[tid]} ∪ m_suppressed_tids h
                          else m_suppressed_tids h ∖ {[tid]}).
Proof.
  unfold scap_update_suppressed. intros H.
  set (sup := if bool_decide (ptid ∈ m_suppressed_tids h) then true
              else existsb f (m_suppressed_comms h)) in H.
  assert (Hs : sup = bool_decide (ptid ∈ m_suppressed_tids h) || existsb f (m_suppressed_comms h))
    by (unfold sup; case_if; done).
  rewrite <- Hs. clearbody sup. clear Hs.
  destruct sup, (bool_decide_reflect (tid ∈ m_suppressed_tids h)); simpl in H; simplify_eq;
    repeat split; try done; simpl; set_solver.
Qed.

(** [scap_update_suppressed] answers whether the parent is suppressed or the
    command name is listed, and afterwards the thread is in the set of
    suppressed threads exactly when the answer is yes; no other thread's
    membership and no command name changes. *)
Theorem update_suppressed_exact (h h' : suppress_state) (matches : list byte -> bool)
    (tid ptid : Z) (b : bool) (r : Z) :
  scap_update_suppressed h matches tid ptid = (h', b, r) ->
  r = SCAP_SUCCESS /\ m_suppressed_comms h' = m_suppressed_comms h /\
  b = scap_check_suppressed_tid h ptid || existsb matches (m_suppressed_comms h) /\
  scap_check_suppressed_tid h' tid = b /\
  (forall x, x <> tid -> scap_check_suppressed_tid h' x = scap_check_suppressed_tid h x).
Proof.
  intros H. destruct (update_suppressed_ok _ _ _ _ _ _ _ H) as (-> & -> & Hb & Ht).
  unfold scap_check_suppressed_tid. do 3 (split; [done|]). clear Hb H.
  split; [|intros x Hx; apply bool_decide_ext]; destruct b;
    rewrite ?bool_decide_eq_true, ?bool_decide_eq_false; set_solver.
Qed.

Definition sh_name : list byte := [x73; x68].

Definition sample_suppress : suppress_state := mk_suppress [sh_name] {[100]} 0 0.

Lemma update_suppressed_exact_witness :
  scap_check_suppressed_tid
    (fst (fst (scap_update_suppressed sample_suppress (bytes_eqb sh_name) 200 1))) 200 = true.
Proof.
  pose proof (update_suppressed_exact sample_suppress
    (fst (fst (scap_update_suppressed sample_suppress (bytes_eqb sh_name) 200 1)))
    (bytes_eqb sh_name) 200 1 true SCAP_SUCCESS) as H.
  apply H. vm_compute. reflexivity.
Defined.

(** ** Finding a parameter of a record. *)

Lemma mem_read_app_inv m a (l r : list byte) :
  mem_read m a (length (l ++ r)) = l ++ r ->
  mem_read m a (length l) = l /\ mem_read m (a + Z.of_nat (length l)) (length r) = r.
Proof.
  rewrite length_app, mem_read_app. intros H.
  apply app_inj_1 in H; [done|]. apply length_mem_read.
Qed.

Lemma walk_params_ok m ps : forall a v j q,
  mem_read m a (length (concat (map (fun p => le16 (Z.of_nat (length p))) ps)))
    = concat (map (fun p => le16 (Z.of_nat (length p))) ps) ->
  mem_read m v (length (concat ps)) = concat ps ->
  Forall (fun p : list byte => Z.of_nat (length p) < 65536) ps ->
  nth_error ps j = Some q ->
  mem_read m (walk_params m a j v) (length q) = q.
Proof.
  induction ps as [|p ps IH]; intros a v j q Ha Hv HF Hj; [by destruct j|].
  cbn [map concat] in Ha, Hv.
  apply mem_read_app_inv in Ha as [Ha1 Ha2]. apply mem_read_app_inv in Hv as [Hv1 Hv2].
  apply Forall_cons_1 in HF as [Hp HF].
  destruct j as [|j]; simpl in Hj |- *; [by simplify_eq|].
  unfold le16 in Ha2. rewrite length_le_bytes in Ha2.
  assert (Hl : ld16 m a = Z.of_nat (length p)).
  { unfold ld16. change 2%nat with (length (le16 (Z.of_nat (length p)))).
    rewrite Ha1, le_val_le16. apply u16_small. lia. }
  rewrite Hl. by apply IH.
Qed.

(** The record of an event, in memory. *)
Definition record_at (m : mem) (p : Z) (e : event) : Prop :=
  mem_read m p (length (bytes_of_event e)) = bytes_of_event e.

Definition event_fits (e : event) : Prop :=
  0 <= ev_tid e < 18446744073709551616 /\ 0 <= ev_type e < 65536 /\
  Z.of_nat (length (ev_params e)) < 65536 /\
  Forall (fun p : list byte => Z.of_nat (length p) < 65536) (ev_params e).

Lemma record_length_pos e : (26 <= length (bytes_of_event e))%nat.
Proof.
  pose proof (event_length (ev_ts e) (ev_tid e) (ev_type e) (ev_params e)) as H.
  pose proof (zsum_lens_nonneg (ev_params e)). unfold sizeof_ppm_evt_hdr in H.
  unfold bytes_of_event. lia.
Qed.

Section in_record.
Context (m : mem) (p : Z) (e : event) (Hrec : record_at m p e) (Hfit : event_fits e).

Lemma record_tid : pe_tid m p = ev_tid e.
Proof using Hrec Hfit.
  destruct Hfit as (Ht & _). unfold pe_tid, ld64. change 8 with (Z.of_nat 8).
  pose proof (record_length_pos e).
  rewrite (mem_read_sub _ _ _ 8 8 _ Hrec) by lia.
  change (take 8 (drop 8 (bytes_of_event e))) with (le64 (ev_tid e)).
  rewrite le_val_le64. by apply u64_small.
Qed.

Lemma record_type : pe_type m p = ev_type e.
Proof using Hrec Hfit.
  destruct Hfit as (_ & Ht & _). unfold pe_type, ld16. change 20 with (Z.of_nat 20).
  pose proof (record_length_pos e).
  rewrite (mem_read_sub _ _ _ 20 2 _ Hrec) by lia.
  change (take 2 (drop 20 (bytes_of_event e))) with (le16 (ev_type e)).
  rewrite le_val_le16. by apply u16_small.
Qed.

Lemma record_nparams : pe_nparams m p = Z.of_nat (length (ev_params e)).
Proof using Hrec Hfit.
  destruct Hfit as (_ & _ & Hn & _). unfold pe_nparams, ld32. change 22 with (Z.of_nat 22).
  pose proof (record_length_pos e).
  rewrite (mem_read_sub _ _ _ 22 4 _ Hrec) by lia.
  change (take 4 (drop 22 (bytes_of_event e))) with (le32 (Z.of_nat (length (ev_params e)))).
  rewrite le_val_le32. apply u32_small. lia.
Qed.

Lemma record_param j q :
  nth_error (ev_params e) j = Some q ->
  mem_read m (walk_params m (p + sizeof_ppm_evt_hdr) j
                (p + sizeof_ppm_evt_hdr + pe_nparams m p * 2)) (length q) = q.
Proof using Hrec Hfit.
  intros Hj. destruct Hfit as (_ & _ & _ & HF).
  pose proof Hrec as H. unfold record_at, bytes_of_event, event_bytes in H.
  rewrite !app_assoc in H. rewrite <- app_assoc in H.
  apply mem_read_app_inv in H as [_ H]. apply mem_read_app_inv in H as [H1 H2].
  unfold le64, le32, le16 in H1, H2. rewrite !length_app, !length_le_bytes in H1, H2.
  assert (Hl : length (concat (map (fun q : list byte => le_bytes 2 (Z.of_nat (length q))) (ev_params e)))
               = (2 * length (ev_params e))%nat).
  { generalize (ev_params e). intros l. induction l as [|x l IH]; [done|]. cbn [map concat].
    rewrite length_app, IH, length_le_bytes. simpl. lia. }
  apply (walk_params_ok _ (ev_params e)); [exact H1| |done|done].
  rewrite Hl in H2. rewrite record_nparams. rewrite <- H2 at 2. f_equal.
  unfold sizeof_ppm_evt_hdr. lia.
Qed.

Lemma record_comm q :
  nth_error (ev_params e) 13 = Some q -> mem_read m (comm_ptr m p) (length q) = q.
Proof using Hrec Hfit.
  intros Hj. unfold comm_ptr. cbv zeta. exact (record_param 13 q Hj).
Qed.
End in_record.

(** Comparing a record's parameter with a name. *)
Lemma strcmp_eq_ok m a (q s : list byte) :
  mem_read m a (length (q ++ [x00])) = q ++ [x00] ->
  Forall (fun b => b <> x00) q -> Forall (fun b => b <> x00) s ->
  strcmp_eq m a s = bytes_eqb s q.
Proof.
  assert (Hz : forall b, b <> x00 -> Z_of_byte b <> 0).
  { intros b Hb Hz. apply Hb. by apply byte_zero. }
  revert a q; induction s as [|c s IH]; intros a q Hr Hq Hs; unfold bytes_eqb in *;
    destruct q as [|b q]; pose proof (f_equal (List.hd x00) Hr) as Hm; pose proof (f_equal (@List.tl byte) Hr) as Hr';
    simpl in Hm, Hr' |- *; rewrite Hm.
  - done.
  - apply Forall_cons_1 in Hq as [Hb _]. rewrite ?bool_decide_false by done.
    apply Z.eqb_neq. by apply Hz.
  - apply Forall_cons_1 in Hs as [Hc _]. rewrite ?bool_decide_false by done.
    replace (Z_of_byte x00 =? Z_of_byte c) with false; [done|].
    symmetry. apply Z.eqb_neq. intros Heq. by apply (Hz c Hc).
  - apply Forall_cons_1 in Hq as [_ Hq], Hs as [_ Hs].
    rewrite (IH (a + 1) q Hr' Hq Hs). destruct (Z.eqb_spec (Z_of_byte b) (Z_of_byte c)) as [Heq|Hne].
    + assert (b = c) as -> by (rewrite <- (byte_of_Z_of_byte b), Heq; apply byte_of_Z_of_byte).
      simpl. apply bool_decide_ext. naive_solver.
    + symmetry. apply bool_decide_false. intros Heq. apply Hne. congruence.
Qed.

(** The events that create a thread or rename it. *)
Definition is_proc_event (t : Z) : bool :=
  (t =? PPME_SYSCALL_CLONE_20_X) || (t =? PPME_SYSCALL_FORK_20_X)
  || (t =? PPME_SYSCALL_VFORK_20_X) || (t =? PPME_SYSCALL_EXECVE_19_X).

(** No command name of the list holds a null byte. *)
Definition comms_ok (h : suppress_state) : Prop :=
  Forall (Forall (fun b => b <> x00)) (m_suppressed_comms h).

(** The decision for an event, in terms of the decoded event. *)
Definition suppress_decision (h : suppress_state) (e : event) (comm : list byte) : bool :=
  if is_proc_event (ev_type e)
  then scap_check_suppressed_tid h 0 || existsb (bytes_eqb comm) (m_suppressed_comms h)
  else scap_check_suppressed_tid h (ev_tid e).

Lemma existsb_strcmp m a comm cs :
  mem_read m a (length (comm ++ [x00])) = comm ++ [x00] ->
  Forall (fun b => b <> x00) comm -> Forall (Forall (fun b => b <> x00)) cs ->
  existsb (strcmp_eq m a) cs = existsb (bytes_eqb comm) cs.
Proof.
  intros Hr Hc. induction 1 as [|c cs Hcs _ IH]; [done|]. simpl. rewrite IH. f_equal.
  rewrite (strcmp_eq_ok m a comm c) by done. apply bool_decide_ext. naive_solver.
Qed.

(** On the record of a decoded event, [scap_check_suppressed] decides a process-creating
    event by its command name, parameter 14 of the record, and any other event by
    membership of its thread; it then keeps the thread in the set exactly when the event
    is suppressed, except that an exiting thread always leaves the set; other threads are
    unaffected. *)
Lemma check_suppressed_code (h h' : suppress_state) (m : mem) (p : Z) (e : event)
    (comm : list byte) (b : bool) (r : Z) :
  record_at m p e -> event_fits e -> comms_ok h -> Forall (fun b => b <> x00) comm ->
  (is_proc_event (ev_type e) = true -> nth_error (ev_params e) 13 = Some (comm ++ [x00])) ->
  scap_check_suppressed h m p = (h', b, r) ->
  r = SCAP_SUCCESS /\ b = suppress_decision h e comm /\
  scap_check_suppressed_tid h' (ev_tid e) = b && negb (ev_type e =? PPME_PROCEXIT_1_E) /\
  (forall x, x <> ev_tid e -> scap_check_suppressed_tid h' x = scap_check_suppressed_tid h x).
Proof.
  intros Hrec Hfit Hco Hcomm Hp H. unfold scap_check_suppressed in H. cbv zeta in H.
  rewrite (record_type m p e Hrec Hfit), (record_tid m p e Hrec Hfit) in H.
  fold (is_proc_event (ev_type e)) in H. unfold suppress_decision.
  destruct (is_proc_event (ev_type e)) eqn:Et.
  - specialize (Hp eq_refl).
    assert (Hn : (13 < length (ev_params e))%nat) by (apply nth_error_Some; congruence).
    case_in H; [rewrite (record_nparams m p e Hrec Hfit) in *; lia|].
    pose proof (record_comm m p e Hrec Hfit _ Hp) as Hq.
    set (cp := comm_ptr m p) in *. clearbody cp.
    assert (Hx : (ev_type e =? PPME_PROCEXIT_1_E) = false).
    { destruct (Z.eqb_spec (ev_type e) PPME_PROCEXIT_1_E) as [Hx|]; [|done].
      rewrite Hx in Et. vm_compute in Et. discriminate. }
    destruct (update_suppressed_ok _ _ _ _ _ _ _ H) as (-> & _ & Hb & Hts).
    rewrite (existsb_strcmp _ _ comm) in Hb by done. rewrite Hx, andb_true_r.
    split; [done|]. split; [exact Hb|]. clear Hb. unfold scap_check_suppressed_tid.
    split; [|intros x Hxt; apply bool_decide_ext]; destruct b;
      rewrite ?bool_decide_eq_true, ?bool_decide_eq_false; set_solver.
  - unfold scap_check_suppressed_tid in *.
    destruct (ev_type e =? PPME_PROCEXIT_1_E); simplify_eq; rewrite ?andb_true_r, ?andb_false_r;
      (split; [done|]); (split; [done|]); [|done].
    destruct (bool_decide_reflect (ev_tid e ∈ m_suppressed_tids h));
      (split; [apply bool_decide_eq_false; set_solver|]);
      intros x Hxt; apply bool_decide_ext; set_solver.
Qed.

(** What [scap.h] documents: a process is suppressed when its name is listed when it is
    created or executes a program, and so are its children, whatever they execute later.
    Any other event is suppressed when its thread is. *)
Definition documented_decision (h : suppress_state) (e : event) (comm : list byte) (ptid : Z) : bool :=
  if is_proc_event (ev_type e)
  then existsb (bytes_eqb comm) (m_suppressed_comms h)
       || scap_check_suppressed_tid h ptid || scap_check_suppressed_tid h (ev_tid e)
  else scap_check_suppressed_tid h (ev_tid e).

(** A process that is suppressed for its parent or its past only, not for its name. *)
Definition inherits_only (h : suppress_state) (e : event) (comm : list byte) (ptid : Z) : bool :=
  is_proc_event (ev_type e) && negb (existsb (bytes_eqb comm) (m_suppressed_comms h))
  && (scap_check_suppressed_tid h ptid || scap_check_suppressed_tid h (ev_tid e)).

(** C33: on the record of an event, [scap_check_suppressed] decides as [scap.h] documents,
    except for a process that is suppressed for its parent or its past only: a
    process-creating event with a listed name is suppressed, one with another name is not,
    and any other event is suppressed when its thread is.  Afterwards the thread is in the
    set exactly when the event is suppressed, an exiting thread has left it, and other
    threads are as before.  (Thread 0, which the code passes for the parent, is not in the
    set.)  The exception is a defect of the code: [child_of_suppressed_parent_escapes]. *)
Theorem check_suppressed_decides (h h' : suppress_state) (m : mem) (p : Z) (e : event)
    (comm : list byte) (ptid : Z) (b : bool) (r : Z) :
  record_at m p e -> event_fits e -> comms_ok h -> Forall (fun b => b <> x00) comm ->
  (is_proc_event (ev_type e) = true ->
   nth_error (ev_params e) 5 = Some (le64 ptid) /\ nth_error (ev_params e) 13 = Some (comm ++ [x00])) ->
  scap_check_suppressed_tid h 0 = false -> inherits_only h e comm ptid = false ->
  scap_check_suppressed h m p = (h', b, r) ->
  r = SCAP_SUCCESS /\ b = documented_decision h e comm ptid /\
  scap_check_suppressed_tid h' (ev_tid e) = b && negb (ev_type e =? PPME_PROCEXIT_1_E) /\
  (forall x, x <> ev_tid e -> scap_check_suppressed_tid h' x = scap_check_suppressed_tid h x).
Proof.
  intros Hrec Hfit Hco Hcomm Hp H0 Hin H.
  destruct (check_suppressed_code h h' m p e comm b r Hrec Hfit Hco Hcomm (fun x => proj2 (Hp x)) H)
    as (Hr & Hb & Ht & Ho).
  split; [done|]. split; [|done]. rewrite Hb. unfold suppress_decision, documented_decision.
  unfold inherits_only in Hin. destruct (is_proc_event _); [|done]. rewrite H0.
  destruct (existsb _ _); [done|]. cbn in Hin |- *. by rewrite Hin.
Qed.


(** A clone record of thread 200, child of thread 100, with command [sh] or
    another name of two letters. *)
Definition sample_clone (comm : list byte) : event :=
  mk_evt 5 200 PPME_SYSCALL_CLONE_20_X
    ([le64 0; []; []; le64 200; le64 200; le64 100] ++ repeat [] 7 ++ [comm ++ [x00]]).

Definition clone_mem (comm : list byte) : mem :=
  mem_write mem_zero 0 (bytes_of_event (sample_clone comm)).

Lemma clone_record comm : record_at (clone_mem comm) 0 (sample_clone comm).
Proof.
  unfold record_at, clone_mem. apply mem_read_write_same.
Qed.

Lemma clone_fits : event_fits (sample_clone sh_name).
Proof. repeat split; try (vm_compute; congruence). repeat constructor. Qed.

Lemma check_suppressed_decides_witness :
  scap_check_suppressed_tid
    (fst (fst (scap_check_suppressed sample_suppress (clone_mem sh_name) 0))) 200 = true.
Proof.
  destruct (check_suppressed_decides sample_suppress
    (fst (fst (scap_check_suppressed sample_suppress (clone_mem sh_name) 0)))
    (clone_mem sh_name) 0 (sample_clone sh_name) sh_name 100 true SCAP_SUCCESS)
    as (_ & _ & H & _).
  - apply clone_record.
  - apply clone_fits.
  - repeat constructor; discriminate.
  - repeat constructor; discriminate.
  - split; vm_compute; reflexivity.
  - vm_compute. reflexivity.
  - vm_compute. reflexivity.
  - vm_compute. reflexivity.
  - exact H.
Defined.

(** The thread of a clone record whose parent is suppressed is not
    suppressed, although the parent's id is in the record: the check passes 0
    for the parent. *)
Theorem child_of_suppressed_parent_escapes :
  scap_check_suppressed_tid sample_suppress 100 = true /\
  mem_read (clone_mem [x6c; x73])
    (walk_params (clone_mem [x6c; x73]) 26 5 (26 + 14 * 2)) 8 = le64 100 /\
  snd (fst (scap_check_suppressed sample_suppress (clone_mem [x6c; x73]) 0)) = false /\
  snd (fst (scap_update_suppressed sample_suppress (fun _ => false) 200 100)) = true.
Proof. vm_compute. repeat split; reflexivity. Qed.

(** ** The name list and the counters. *)

Definition comms_wf (h : suppress_state) : Prop :=
  NoDup (m_suppressed_comms h) /\
  Z.of_nat (length (m_suppressed_comms h)) <= SCAP_MAX_SUPPRESSED_COMMS.

Lemma existsb_eqb_elem x (l : list (list byte)) :
  existsb (bytes_eqb x) l = true <-> x ∈ l.
Proof.
  rewrite existsb_exists. unfold bytes_eqb. setoid_rewrite bool_decide_eq_true.
  split.
  - intros (y & Hy & ->). by apply list_elem_of_In.
  - intros H. exists x. split; [by apply list_elem_of_In|done].
Qed.

Lemma suppress_comm_ok h comm h' r :
  comms_wf h -> scap_suppress_events_comm h comm = (h', r) ->
  comms_wf h' /\ m_suppressed_tids h' = m_suppressed_tids h /\
  (r = SCAP_SUCCESS /\ (forall c, c ∈ m_suppressed_comms h' <-> c = comm \/ c ∈ m_suppressed_comms h)
   \/ r = SCAP_FAILURE /\ h' = h /\ comm ∉ m_suppressed_comms h /\
      Z.of_nat (length (m_suppressed_comms h)) = SCAP_MAX_SUPPRESSED_COMMS).
Proof.
  intros [Hnd Hlen] H. unfold scap_suppress_events_comm in H.
  destruct (existsb _ _) eqn:E.
  - apply existsb_eqb_elem in E. simplify_eq. split; [done|]. split; [done|]. left. naive_solver.
  - assert (Hn : comm ∉ m_suppressed_comms h)
      by (rewrite <- existsb_eqb_elem, E; done).
    case_in H; simplify_eq.
    + split; [done|]. split; [done|]. right. repeat split; auto. lia.
    + split; [split|]; simpl.
      * apply NoDup_app. split; [done|]. split; [|apply NoDup_singleton]. set_solver.
      * rewrite length_app. simpl. lia.
      * split; [done|]. left. split; [done|]. intros c. set_solver.
Qed.

(** The names of the open arguments: those before the first null pointer. *)
Fixpoint names_before_null (n : nat) (cs : list (option (list byte))) : list (list byte) :=
  match n, cs with
  | S n', Some c :: cs' => c :: names_before_null n' cs'
  | _, _ => []
  end.

Lemma copy_comms_loop_ok n : forall h cs h' r,
  comms_wf h ->
  Z.of_nat (length (m_suppressed_comms h)) + Z.of_nat n <= SCAP_MAX_SUPPRESSED_COMMS ->
  copy_comms_loop n h cs = (h', r) ->
  r = SCAP_SUCCESS /\ comms_wf h' /\ m_suppressed_tids h' = m_suppressed_tids h /\
  forall c, c ∈ m_suppressed_comms h' <->
            c ∈ names_before_null n cs \/ c ∈ m_suppressed_comms h.
Proof.
  induction n as [|n IH]; intros h cs h' r Hwf Hlen H; simpl in H.
  { simplify_eq. repeat split; try apply Hwf; simpl; set_solver. }
  destruct cs as [|[c|] cs]; simpl in H |- *;
    [simplify_eq; repeat split; try apply Hwf; set_solver| |
     simplify_eq; repeat split; try apply Hwf; set_solver].
  destruct (scap_suppress_events_comm h c) as [h1 r1] eqn:E1.
  assert (Hl1 : Z.of_nat (length (m_suppressed_comms h1))
                <= Z.of_nat (length (m_suppressed_comms h)) + 1).
  { unfold scap_suppress_events_comm in E1. repeat case_in E1; simplify_eq; simpl;
      rewrite ?length_app; simpl; lia. }
  destruct (suppress_comm_ok h c h1 r1 Hwf E1) as (Hwf1 & Ht1 & [[-> Hc1]|(_ & _ & _ & Hfull)]);
    [|lia].
  simpl in H. destruct (IH h1 cs h' r Hwf1 ltac:(lia) H) as (-> & Hwf' & Ht' & Hc').
  split; [done|]. split; [done|]. split; [congruence|]. intros x. rewrite Hc', Hc1. set_solver.
Qed.

(** Copying the command names of the open arguments into a fresh handle
    always succeeds, keeps the list free of duplicates and within its bound, and
    lists exactly the names before the first null pointer. *)
Theorem copy_comms_exact (h h' : suppress_state) (cs : list (option (list byte))) (r : Z) :
  m_suppressed_comms h = [] -> copy_comms h cs = (h', r) ->
  r = SCAP_SUCCESS /\ comms_wf h' /\ m_suppressed_tids h' = m_suppressed_tids h /\
  forall c, c ∈ m_suppressed_comms h' <->
            c ∈ names_before_null (Z.to_nat SCAP_MAX_SUPPRESSED_COMMS) cs.
Proof.
  intros H0 H. apply copy_comms_loop_ok in H; rewrite ?H0 in *.
  - destruct H as (? & ? & ? & Hc). do 3 (split; [done|]). intros c. rewrite Hc. set_solver.
  - split; rewrite ?H0; [constructor|]. vm_compute. discriminate.
  - vm_compute. discriminate.
Qed.

Lemma copy_comms_exact_witness :
  let cs := [Some sh_name; Some [x6c; x73]; Some sh_name; None; Some [x61]] in
  [x6c; x73] ∈ m_suppressed_comms (fst (copy_comms (mk_suppress [] ∅ 0 0) cs)).
Proof.
  intros cs.
  destruct (copy_comms_exact (mk_suppress [] ∅ 0 0)
    (fst (copy_comms (mk_suppress [] ∅ 0 0) cs)) cs SCAP_SUCCESS) as (_ & _ & _ & H).
  - reflexivity.
  - vm_compute. reflexivity.
  - apply H. cbn. set_solver.
Defined.

(** ** The thread id maps. *)

Lemma pid_vtid_key_eq pid vtid :
  0 <= pid < 4294967296 -> 0 <= vtid < 4294967296 ->
  pid_vtid_key pid vtid = pid * 4294967296 + vtid.
Proof.
  intros Hp Hv. unfold pid_vtid_key.
  change 4294967295 with (Z.ones 32). rewrite Z.land_ones, Z.shiftl_mul_pow2 by lia.
  change (2 ^ 32) with 4294967296. rewrite (Z.mod_small vtid) by lia.
  rewrite u64_small by lia.
  assert (Hland : Z.land (pid * 4294967296) vtid = 0).
  { apply Z.bits_inj'. intros n Hn. rewrite Z.land_spec, Z.bits_0.
    change 4294967296 with (2 ^ 32). destruct (decide (n < 32)).
    - by rewrite Z.mul_pow2_bits_low by lia.
    - rewrite (Z.bits_above_log2 vtid); [apply andb_false_r|lia|].
      destruct (decide (vtid = 0)) as [->|]; [simpl; lia|].
      apply Z.log2_lt_pow2; [lia|]. apply Z.lt_le_trans with (2 ^ 32); [lia|].
      apply Z.pow_le_mono_r; lia. }
  pose proof (Z.add_lor_land (pid * 4294967296) vtid). lia.
Qed.

Lemma pid_vtid_key_inj p1 v1 p2 v2 :
  0 <= p1 < 4294967296 -> 0 <= v1 < 4294967296 ->
  0 <= p2 < 4294967296 -> 0 <= v2 < 4294967296 ->
  pid_vtid_key p1 v1 = pid_vtid_key p2 v2 -> p1 = p2 /\ v1 = v2.
Proof. intros. rewrite !pid_vtid_key_eq in * by done. lia. Qed.

(** For process and namespace ids of 32 bits, a stored association is found
    in both directions and no other one changes; deleting it by process and
    thread removes both directions, again without touching any other pair. *)
Theorem vtid_maps_put_delete (h : vtid_maps) (pid tid vtid : Z) :
  0 <= pid < 4294967296 -> 0 < vtid < 4294967296 ->
  let h1 := put_pid_vtid_map h pid tid vtid in
  let h2 := delete_pid_vtid_map h1 pid tid in
  get_pid_vtid_map h1 pid vtid = tid /\ get_tid_vtid_map h1 tid = vtid /\
  get_pid_vtid_map h2 pid vtid = 0 /\ get_tid_vtid_map h2 tid = 0 /\
  (forall p v, 0 <= p < 4294967296 -> 0 <= v < 4294967296 -> (p, v) <> (pid, vtid) ->
     get_pid_vtid_map h1 p v = get_pid_vtid_map h p v /\
     get_pid_vtid_map h2 p v = get_pid_vtid_map h p v) /\
  (forall t, t <> tid -> get_tid_vtid_map h1 t = get_tid_vtid_map h t /\
     get_tid_vtid_map h2 t = get_tid_vtid_map h t).
Proof.
  intros Hp Hv h1 h2.
  assert (Hg : get_tid_vtid_map h1 tid = vtid)
    by (unfold get_tid_vtid_map, h1; simpl; by rewrite lookup_insert_eq).
  assert (H2 : h2 = delete_tid_vtid_map (mk_vtid (delete (pid_vtid_key pid vtid)
                 (m_pid_vtid_info h1)) (m_tid_vtid_info h1)) tid).
  { unfold h2, delete_pid_vtid_map. cbv zeta. rewrite Hg. case_if; [lia|done]. }
  rewrite H2. clear H2. unfold get_pid_vtid_map, get_tid_vtid_map, h1. simpl.
  rewrite !lookup_insert_eq, !lookup_delete_eq. do 4 (split; [done|]). split.
  - intros p v Hp' Hv' Hne.
    assert (Hk : pid_vtid_key pid vtid <> pid_vtid_key p v).
    { intros Heq. apply pid_vtid_key_inj in Heq as [-> ->]; [done|lia..]. }
    by rewrite lookup_delete_ne, lookup_insert_ne by done.
  - intros t Ht. by rewrite lookup_delete_ne, lookup_insert_ne by done.
Qed.

Lemma vtid_maps_put_delete_witness :
  let h1 := put_pid_vtid_map (mk_vtid ∅ ∅) 10 1234 7 in
  get_pid_vtid_map h1 10 7 = 1234 /\ get_tid_vtid_map h1 1234 = 7.
Proof.
  destruct (vtid_maps_put_delete (mk_vtid ∅ ∅) 10 1234 7) as (H1 & H2 & _); [lia|lia|].
  split; [exact H1|exact H2].
Defined.
