(* ===== verification/SaveFile.v ===== *)
(** * Capture files, blocks and events: [libscap/scap_savefile.c]

    A capture file is a sequence of blocks written through zlib or into a
    memory buffer.  [GzWriter] and [GzReader] state what the code relies on of
    zlib; [Dumper] is what the block writers rely on of a dumper, proved for
    both kinds.  This file holds the byte level writer, the event block writer
    [scap_dump] and the event reader [scap_next_offline] with its conversion of
    old event blocks. *)

From Stdlib Require Import ZArith Lia List Bool.
From Stdlib Require Import Strings.Byte.
From stdpp Require Import base tactics list numbers option.
From S2P Require Import Prelude Bytes EventDefs EventTable.
From S2P Require Import ValToRingSpec Ring RingSpec Reader RingSystem Suppress.
Import ListNotations.
Local Open Scope Z_scope.

(** ** Block types and limits. *)

Definition EV_BLOCK_TYPE : Z := 516.          (* 0x204 *)
Definition EV_BLOCK_TYPE_INT : Z := 2148576205. (* 0x8010ABCD *)
Definition EV_BLOCK_TYPE_V2 : Z := 534.       (* 0x216 *)
Definition EVF_BLOCK_TYPE : Z := 520.         (* 0x208 *)
Definition EVF_BLOCK_TYPE_V2 : Z := 535.      (* 0x217 *)
Definition FILE_READ_BUF_SIZE : Z := 65536.
Definition sizeof_block_header : Z := 8.
Definition SCAP_EOF : Z := 6.
Definition SCAP_UNEXPECTED_BLOCK : Z := 7.

(** ** zlib. *)

(** A file open for writing: [gzwrite] returns the number of bytes written, all
    of them or an error; [gz_written] is the uncompressed content so far. *)
Class GzWriter (F : Type) : Type := {
  gzwrite : F -> list byte -> F * Z;
  gz_written : F -> list byte;
  gzwrite_all f bs f' : gzwrite f bs = (f', Z.of_nat (length bs)) ->
    gz_written f' = gz_written f ++ bs }.

(** A file open for reading: [gzread] returns fewer bytes than asked only at the
    end of the uncompressed content.  A length that does not fit an [int] is
    refused: nothing is read and the result is -1, here no bytes; the callers
    compare the result with the length they asked for. *)
Class GzReader (R : Type) : Type := {
  gzread : R -> Z -> R * list byte;
  gzerror : R -> Z;
  gz_rest : R -> list byte;
  gzread_take f n f' bs : 0 <= n < 2147483648 -> gzread f n = (f', bs) ->
    bs = take (Z.to_nat n) (gz_rest f) /\ gz_rest f' = drop (Z.to_nat n) (gz_rest f);
  gzread_refused f n f' bs : 2147483648 <= n -> gzread f n = (f', bs) ->
    bs = [] /\ gz_rest f' = gz_rest f }.

(** Files that are byte lists; writing and reading never fail. *)
#[export] Instance list_writer : GzWriter (list byte).
Proof.
  refine {| gzwrite := fun f bs => (f ++ bs, Z.of_nat (length bs)); gz_written := fun f => f |}.
  intros f bs f' H. by simplify_eq.
Defined.

Definition list_read (f : list byte) (n : Z) : list byte * list byte :=
  if 2147483648 <=? n then (f, [])
  else if Z.of_nat (length f) <=? n then ([], f)
  else (drop (Z.to_nat n) f, take (Z.to_nat n) f).

#[export] Instance list_reader : GzReader (list byte).
Proof.
  refine {| gzread := list_read; gzerror := fun _ => 0; gz_rest := fun f => f |};
    unfold list_read; intros f n f' bs Hn H.
  - replace (2147483648 <=? n) with false in H by lia. case_in H; bool_to_prop; simplify_eq.
    + by rewrite take_ge, drop_ge by lia.
    + done.
  - replace (2147483648 <=? n) with true in H by lia. by simplify_eq.
Defined.

(** What was read and what is left make up what was there. *)
Lemma gzread_split {R} `{GzReader R} (f f' : R) n bs :
  0 <= n -> gzread f n = (f', bs) ->
  gz_rest f = bs ++ gz_rest f' /\ Z.of_nat (length bs) <= n.
Proof.
  intros Hn Hg. destruct (decide (n < 2147483648)).
  - apply gzread_take in Hg as [-> ->]; [|lia]. rewrite length_take. split; [|lia].
    symmetry. apply take_drop.
  - apply gzread_refused in Hg as [-> ->]; [|lia]. simpl. split; [done|lia].
Qed.

(** ** Dumpers. *)

Section dumper.
Context {F : Type} `{GzWriter F}.

(** [struct scap_dumper]: a file, or a memory area from [base] with the
    current position and its end. *)
Inductive scap_dumper_t : Type :=
| DT_FILE (f : F)
| DT_MEM (m : mem) (base m_targetbufcurpos m_targetbufend : Z).

Definition scap_dump_write (d : scap_dumper_t) (buf : list byte) : scap_dumper_t * Z :=
  let len := Z.of_nat (length buf) in
  match d with
  | DT_FILE f => let '(f', n) := gzwrite f buf in (DT_FILE f', n)
  | DT_MEM m base cur end_ =>
      if cur + len <? end_ then (DT_MEM (mem_write m cur buf) base (cur + len) end_, len)
      else (d, -1)
  end.

Fixpoint scap_dump_writev (d : scap_dumper_t) (iov : list (list byte)) (totlen : Z) :
    scap_dumper_t * Z :=
  match iov with
  | [] => (d, totlen)
  | v :: iov' =>
      let '(d', n) := scap_dump_write d v in
      if n <? 0 then (d', -1) else scap_dump_writev d' iov' (totlen + Z.of_nat (length v))
  end.

(** What was written so far. *)
Definition dumped (d : scap_dumper_t) : list byte :=
  match d with
  | DT_FILE f => gz_written f
  | DT_MEM m base cur _ => mem_read m base (Z.to_nat (cur - base))
  end.

Definition dumper_wf (d : scap_dumper_t) : Prop :=
  match d with DT_FILE _ => True | DT_MEM _ base cur _ => base <= cur end.

(** [if(scap_dump_write(d, buf, len) != len) return SCAP_FAILURE;] *)
Definition emit (buf : list byte) (next : scap_dumper_t -> scap_dumper_t * Z)
    (d : scap_dumper_t) : scap_dumper_t * Z :=
  let '(d', n) := scap_dump_write d buf in
  if n =? Z.of_nat (length buf) then next d' else (d', SCAP_FAILURE).

Definition emit_done (d : scap_dumper_t) : scap_dumper_t * Z := (d, SCAP_SUCCESS).

(** A writer that, when it succeeds, appended exactly [bs]. *)
Class Appends (bs : list byte) (w : scap_dumper_t -> scap_dumper_t * Z) : Prop :=
  appends d d' : dumper_wf d -> w d = (d', SCAP_SUCCESS) ->
    dumper_wf d' /\ dumped d' = dumped d ++ bs.

Lemma scap_dump_write_appends d buf d' :
  dumper_wf d -> scap_dump_write d buf = (d', Z.of_nat (length buf)) ->
  dumper_wf d' /\ dumped d' = dumped d ++ buf.
Proof.
  intros Hwf Hw. destruct d as [f|m base cur end_]; simpl in *.
  - destruct (gzwrite f buf) as [f' n] eqn:E. simplify_eq. split; [done|].
    by apply gzwrite_all.
  - case_in Hw; simplify_eq; [|lia]. simpl. split; [lia|].
    replace (Z.to_nat (cur + Z.of_nat (length buf) - base))
      with (Z.to_nat (cur - base) + length buf)%nat by lia.
    rewrite mem_read_app. f_equal.
    + apply mem_read_write_out. lia.
    + replace (base + Z.of_nat (Z.to_nat (cur - base))) with cur by lia.
      apply mem_read_write_same.
Qed.

#[export] Instance emit_appends buf bs next :
  Appends bs next -> Appends (buf ++ bs) (emit buf next).
Proof.
  intros Hn d d' Hwf Hw. unfold emit in Hw.
  destruct (scap_dump_write d buf) as [d1 n] eqn:E. case_in Hw; [|by simplify_eq].
  bool_to_prop. subst n. destruct (scap_dump_write_appends _ _ _ Hwf E) as [Hwf1 Hd1].
  destruct (Hn _ _ Hwf1 Hw) as [Hwf' Hd']. split; [done|]. by rewrite Hd', Hd1, app_assoc.
Qed.

#[export] Instance emit_done_appends : Appends [] emit_done.
Proof. intros d d' Hwf Hw. unfold emit_done in Hw. simplify_eq. by rewrite app_nil_r. Qed.
End dumper.

Arguments scap_dumper_t : clear implicits.

(** [scap_normalize_block_len] *)
Definition scap_normalize_block_len (blocklen : Z) : Z :=
  u32 (Z.shiftl (Z.shiftr (u32 (blocklen + 3)) 2) 2).

(** The bytes of [scap_write_padding]. *)
Definition padding (blocklen : Z) : list byte :=
  le_bytes (Z.to_nat (u32 (scap_normalize_block_len blocklen - blocklen))) 0.

Definition block_header (ty total : Z) : list byte := le32 ty ++ le32 total.

Lemma normalize_spec n :
  0 <= n < 4294967290 ->
  n <= scap_normalize_block_len n < n + 4 /\ scap_normalize_block_len n mod 4 = 0 /\
  scap_normalize_block_len n = (n + 3) / 4 * 4.
Proof.
  intros Hn. unfold scap_normalize_block_len.
  rewrite (u32_small (n + 3)) by lia.
  rewrite Z.shiftl_mul_pow2, Z.shiftr_div_pow2 by lia. change (2 ^ 2) with 4.
  pose proof (Z.div_mod (n + 3) 4 ltac:(lia)). pose proof (Z.mod_pos_bound (n + 3) 4 ltac:(lia)).
  rewrite u32_small by lia. split; [lia|]. split; [|lia]. apply Z.mod_mul. lia.
Qed.

Lemma normalize_shift n k :
  0 <= n -> 0 <= k -> n + 4 * k < 4294967290 ->
  scap_normalize_block_len (n + 4 * k) = scap_normalize_block_len n + 4 * k.
Proof.
  intros Hn Hk Hlt. destruct (normalize_spec n) as (_ & _ & ->); [lia|].
  destruct (normalize_spec (n + 4 * k)) as (_ & _ & ->); [lia|].
  replace (n + 4 * k + 3) with (n + 3 + k * 4) by lia. rewrite Z.div_add by lia. lia.
Qed.

(** ** Writing an event. *)

Section writers.
Context {F : Type} `{GzWriter F}.

(** [scap_number_of_bytes_to_write] *)
Definition scap_number_of_bytes_to_write (m : mem) (e : Z) : Z :=
  s32 (scap_normalize_block_len (u32 (sizeof_block_header + 2 + ld32 m (e + 16) + 4))).

(** [scap_dump]: the event at address [e] of [m]. *)
Definition scap_dump (d : scap_dumper_t F) (m : mem) (e cpuid flags : Z) :
    scap_dumper_t F * Z :=
  let len := ld32 m (e + 16) in
  let data := mem_read m e (Z.to_nat len) in
  if flags =? 0 then
    let total := scap_normalize_block_len (u32 (sizeof_block_header + 2 + len + 4)) in
    emit (block_header EV_BLOCK_TYPE_V2 total)
      (emit (le16 cpuid)
        (emit data
          (emit (padding (u32 (2 + len))) (emit (le32 total) emit_done)))) d
  else
    let total := scap_normalize_block_len (u32 (sizeof_block_header + 2 + 4 + len + 4)) in
    emit (block_header EVF_BLOCK_TYPE_V2 total)
      (emit (le16 cpuid)
        (emit (le32 flags)
          (emit data
            (emit (padding (u32 (2 + len))) (emit (le32 total) emit_done))))) d.
End writers.

(** ** Reading an event. *)

Definition is_event_block (t : Z) : bool :=
  (t =? EV_BLOCK_TYPE) || (t =? EV_BLOCK_TYPE_V2) || (t =? EV_BLOCK_TYPE_INT)
  || (t =? EVF_BLOCK_TYPE) || (t =? EVF_BLOCK_TYPE_V2).

Definition is_v2_block (t : Z) : bool := (t =? EV_BLOCK_TYPE_V2) || (t =? EVF_BLOCK_TYPE_V2).

Definition has_flags_block (t : Z) : bool := (t =? EVF_BLOCK_TYPE) || (t =? EVF_BLOCK_TYPE_V2).

(** The sum of the first [n] lengths at [lens_]. *)
Fixpoint lens_sum (m : mem) (lens_ : Z) (n : nat) : Z :=
  match n with O => 0 | S n' => ld16 m lens_ + lens_sum m (lens_ + 2) n' end.

(** The search for the number of parameters of an old event, from [n] down. *)
Fixpoint find_nparams (m : mem) (lens_ end_ : Z) (n : nat) : option Z :=
  let smaller := match n with O => None | S n' => find_nparams m lens_ end_ n' end in
  if end_ <? lens_ + Z.of_nat n * 2 then smaller
  else
    let valptr := lens_ + Z.of_nat n * 2 + lens_sum m lens_ n in
    if valptr <? end_ then None
    else if valptr =? end_ then Some (Z.of_nat n)
    else smaller.

(** [Undefined] stands for the behaviour of a call whose arguments are out of
    range, here a [memmove] past the buffer. *)
Inductive conv_result : Type :=
| Converted (m : mem)
| ConvFailure
| Undefined.

(** The conversion of an old event, at offset [pe] of the buffer. *)
Definition convert_v1 (m : mem) (pe readlen : Z) : conv_result :=
  if FILE_READ_BUF_SIZE <? readlen + 4 then ConvFailure
  else
    let movelen := u64 (readlen - pe - (sizeof_ppm_evt_hdr - 4)) in
    if FILE_READ_BUF_SIZE - (pe + sizeof_ppm_evt_hdr) <? movelen then Undefined
    else
      let m1 := mem_write m (pe + sizeof_ppm_evt_hdr)
                  (mem_read m (pe + sizeof_ppm_evt_hdr - 4) (Z.to_nat movelen)) in
      let len := u32 (ld32 m1 (pe + 16) + 4) in
      let t := ld16 m1 (pe + 20) in
      let len := if (t =? PPME_NOTIFICATION_E) || (t =? PPME_INFRASTRUCTURE_EVENT_E)
                 then u32 (len - 3) else len in
      let m2 := mem_write m1 (pe + 16) (le32 len) in
      match find_nparams m2 (pe + sizeof_ppm_evt_hdr) (pe + len)
              (Z.to_nat (ei_nparams (g_event_info t))) with
      | None => ConvFailure
      | Some n => Converted (mem_write m2 (pe + 22) (le32 n))
      end.

(** What [scap_next_offline] returns: an event at an offset of the buffer, with
    the CPU and the dump flags, a result code, or undefined behaviour. *)
Inductive offline_result : Type :=
| OffEvent (pe cpuid flags : Z)
| OffCode (code : Z)
| OffUndefined.

Section readers.
Context {R : Type} `{GzReader R}.

(** One turn of the loop; [None] is the [continue] on an unknown event. *)
Definition read_event_block (f : R) (buf : mem) : R * mem * option offline_result :=
  let '(f1, bh) := gzread f 8 in
  if negb (Z.of_nat (length bh) =? sizeof_block_header) then
    (f1, buf, Some (OffCode (if negb (gzerror f1 =? 0) then SCAP_FAILURE
                             else if Z.of_nat (length bh) =? 0 then SCAP_EOF
                             else SCAP_FAILURE)))
  else
    let ty := le_val (take 4 bh) in
    let total := le_val (drop 4 bh) in
    if negb (is_event_block ty) then (f1, buf, Some (OffCode SCAP_UNEXPECTED_BLOCK))
    else
      let hdr_len := if is_v2_block ty then sizeof_ppm_evt_hdr else sizeof_ppm_evt_hdr - 4 in
      if total <? sizeof_block_header + hdr_len + 4 then (f1, buf, Some (OffCode SCAP_FAILURE))
      else
        let readlen := total - sizeof_block_header in
        if FILE_READ_BUF_SIZE <? readlen then (f1, buf, Some (OffCode SCAP_FAILURE))
        else
          let '(f2, data) := gzread f1 readlen in
          let buf1 := mem_write buf 0 data in
          if negb (Z.of_nat (length data) =? readlen) then
            (f2, buf1, Some (OffCode SCAP_FAILURE))
          else
            let cpuid := ld16 buf1 0 in
            let flags := if has_flags_block ty then ld32 buf1 2 else 0 in
            let pe := if has_flags_block ty then 6 else 2 in
            if PPM_EVENT_MAX <=? ld16 buf1 (pe + 20) then (f2, buf1, None)
            else if is_v2_block ty then (f2, buf1, Some (OffEvent pe cpuid flags))
            else match convert_v1 buf1 pe readlen with
                 | Converted m => (f2, m, Some (OffEvent pe cpuid flags))
                 | ConvFailure => (f2, buf1, Some (OffCode SCAP_FAILURE))
                 | Undefined => (f2, buf1, Some OffUndefined)
                 end.

Fixpoint offline_loop (fuel : nat) (f : R) (buf : mem) : R * mem * option offline_result :=
  match fuel with
  | O => (f, buf, None)
  | S fuel' =>
      match read_event_block f buf with
      | (f', buf', None) => offline_loop fuel' f' buf'
      | r => r
      end
  end.

(** [scap_next_offline]; every turn consumes at least a block header, so a
    turn per remaining byte and one more are enough. *)
Definition scap_next_offline (f : R) (buf : mem) : R * mem * option offline_result :=
  offline_loop (S (length (gz_rest f))) f buf.
End readers.

(** Every turn of the reader that goes on has consumed input. *)
Lemma read_event_block_consumes {R} `{GzReader R} (f f' : R) buf buf' :
  read_event_block f buf = (f', buf', None) ->
  (length (gz_rest f') < length (gz_rest f))%nat.
Proof.
  unfold read_event_block. destruct (gzread f 8) as [f1 bh] eqn:E1. intros Hr.
  apply gzread_split in E1 as [-> _]; [|lia].
  case_in Hr; [simplify_eq|]. bool_to_prop. unfold sizeof_block_header in *.
  case_in Hr; [by simplify_eq|]. cbv zeta in Hr.
  match type of Hr with context [?t <? ?a] => destruct (t <? a) eqn:El end; [by simplify_eq|].
  match type of Hr with context [?t <? ?a] => destruct (t <? a) end; [by simplify_eq|].
  destruct (gzread f1 _) as [f2 dt] eqn:E2.
  apply gzread_split in E2 as [-> _];
    [|bool_to_prop; unfold sizeof_ppm_evt_hdr in *; case_in El; lia].
  repeat (case_in Hr; try by simplify_eq). simplify_eq. rewrite !length_app. lia.
Qed.
