(* ===== verification/SaveFileSpec.v ===== *)
(** * Event blocks: what is written is what is read

    The block format as a function of the event, the round trip through
    [scap_dump] and [scap_next_offline], termination of the reader, the
    conversion of old blocks, and the block lengths for which that conversion
    is undefined. *)

From Stdlib Require Import ZArith Lia List Bool.
From Stdlib Require Import Strings.Byte.
From stdpp Require Import base tactics list numbers option.
From S2P Require Import Prelude Bytes EventDefs EventTable.
From S2P Require Import ValToRingSpec Ring RingSpec Reader RingSystem Suppress SaveFile.
Import ListNotations.
Local Open Scope Z_scope.

(** ** The block of an event. *)

Definition flag_bytes (flags : Z) : list byte := if flags =? 0 then [] else le32 flags.

Definition event_block_type (flags : Z) : Z :=
  if flags =? 0 then EV_BLOCK_TYPE_V2 else EVF_BLOCK_TYPE_V2.

(** The block without its header. *)
Definition event_block_body (total cpuid flags : Z) (data : list byte) : list byte :=
  le16 cpuid ++ flag_bytes flags ++ data ++ padding (2 + Z.of_nat (length data)) ++ le32 total.

Definition event_block_total (flags : Z) (data : list byte) : Z :=
  scap_normalize_block_len
    (sizeof_block_header + 2 + Z.of_nat (length (flag_bytes flags)) + Z.of_nat (length data) + 4).

Definition event_block (cpuid flags : Z) (data : list byte) : list byte :=
  let total := event_block_total flags data in
  block_header (event_block_type flags) total ++ event_block_body total cpuid flags data.

(** An event record in memory, small enough for the reader's buffer. *)
Definition dumpable (m : mem) (e : Z) (data : list byte) : Prop :=
  mem_read m e (length data) = data /\ ld32 m (e + 16) = Z.of_nat (length data) /\
  26 <= Z.of_nat (length data) <= 65500.

Lemma length_flag_bytes flags :
  Z.of_nat (length (flag_bytes flags)) = if flags =? 0 then 0 else 4.
Proof. unfold flag_bytes. case_if; [done|]. unfold le32. by rewrite length_le_bytes. Qed.

Lemma scap_dump_appends {F} `{GzWriter F} (d d' : scap_dumper_t F) m e cpuid flags data :
  dumper_wf d -> dumpable m e data ->
  scap_dump d m e cpuid flags = (d', SCAP_SUCCESS) ->
  dumper_wf d' /\ dumped d' = dumped d ++ event_block cpuid flags data.
Proof.
  intros Hwf (Hrd & Hlen & Hb) Hd. unfold scap_dump in Hd. cbv zeta in Hd.
  rewrite Hlen, Nat2Z.id, Hrd in Hd.
  unfold event_block, event_block_total, event_block_type, event_block_body.
  rewrite length_flag_bytes. unfold flag_bytes, sizeof_block_header in *.
  destruct (flags =? 0).
  - rewrite !(u32_small (_ + _)) in Hd by lia.
    replace (8 + 2 + 0 + Z.of_nat (length data) + 4) with (8 + 2 + Z.of_nat (length data) + 4) by lia.
    apply appends in Hd; [|done]. rewrite app_nil_r in Hd. exact Hd.
  - rewrite !(u32_small (_ + _)) in Hd by lia. apply appends in Hd; [|done].
    rewrite app_nil_r in Hd. exact Hd.
Qed.

Lemma length_padding n :
  0 <= n < 100000 -> Z.of_nat (length (padding n)) = scap_normalize_block_len n - n.
Proof.
  intros Hn. unfold padding. rewrite length_le_bytes.
  destruct (normalize_spec n) as (Hr & _); [lia|]. rewrite u32_small, Z2Nat.id by lia. done.
Qed.

(** The announced length is the length of the block. *)
Lemma event_block_length cpuid flags data :
  Z.of_nat (length data) <= 65500 ->
  Z.of_nat (length (event_block_body (event_block_total flags data) cpuid flags data))
    = event_block_total flags data - sizeof_block_header /\
  Z.of_nat (length data) + 14 <= event_block_total flags data
    <= Z.of_nat (length data) + 14 + 7.
Proof.
  intros Hd. unfold event_block_body, event_block_total, le16, le32.
  rewrite !length_Z_app, !length_le_bytes, length_padding by lia.
  pose proof (normalize_spec (2 + Z.of_nat (length data)) ltac:(lia)) as (Hn & _).
  rewrite length_flag_bytes. unfold sizeof_block_header. destruct (flags =? 0).
  - replace (8 + 2 + 0 + Z.of_nat (length data) + 4) with (2 + Z.of_nat (length data) + 4 * 3) by lia.
    rewrite normalize_shift by lia. lia.
  - replace (8 + 2 + 4 + Z.of_nat (length data) + 4) with (2 + Z.of_nat (length data) + 4 * 4) by lia.
    rewrite normalize_shift by lia. lia.
Qed.

(** ** Reading the block back. *)

Section read_back.
Context {R : Type} `{GzReader R}.

Lemma gzread_app (f : R) (l r : list byte) f' bs :
  gz_rest f = l ++ r -> gzread f (Z.of_nat (length l)) = (f', bs) ->
  Z.of_nat (length l) < 2147483648 -> bs = l /\ gz_rest f' = r.
Proof.
  intros Hf Hg Hl. apply gzread_take in Hg as [-> ->]; [|lia]. rewrite Hf, Nat2Z.id.
  by rewrite take_app_length, drop_app_length.
Qed.

(** The buffer after the body of a block was read into it. *)
Definition body_buf (buf : mem) (body : list byte) : mem := mem_write buf 0 body.

Lemma body_sub buf body k j :
  (k + j <= length body)%nat ->
  mem_read (body_buf buf body) (Z.of_nat k) j = take j (drop k body).
Proof.
  intros Hk. rewrite <- (Z.add_0_l (Z.of_nat k)).
  rewrite (mem_read_sub _ 0 (length body) k j body); [done| |done]. apply mem_read_write_same.
Qed.

Context (cpuid flags : Z) (Hcpu : 0 <= cpuid < 65536) (Hfl : 0 <= flags < 4294967296).
Context (data : list byte) (Hdata : 26 <= Z.of_nat (length data) <= 65500).

Let total := event_block_total flags data.
Let body := event_block_body total cpuid flags data.
Let pe : Z := if flags =? 0 then 2 else 6.

Lemma body_cpuid buf : ld16 (body_buf buf body) 0 = cpuid.
Proof using Hcpu Hdata.
  unfold ld16. change 0 with (Z.of_nat 0). rewrite body_sub.
  - change (take 2 (drop 0 body)) with (le16 cpuid). rewrite le_val_le16. by apply u16_small.
  - unfold body, event_block_body. rewrite !length_app. unfold le16. rewrite length_le_bytes. lia.
Qed.

Lemma body_flags buf : flags <> 0 -> ld32 (body_buf buf body) 2 = flags.
Proof using Hfl Hdata.
  intros Hne. unfold ld32. change 2 with (Z.of_nat 2). unfold body, event_block_body, flag_bytes.
  replace (flags =? 0) with false by lia.
  rewrite body_sub by (rewrite !length_app; unfold le16, le32; rewrite !length_le_bytes; lia).
  change (drop 2 (le16 cpuid ++ ?x)) with x.
  change (take 4 (le32 flags ++ _)) with (le32 flags). rewrite le_val_le32. by apply u32_small.
Qed.

Lemma body_data buf : mem_read (body_buf buf body) pe (length data) = data.
Proof using Hdata.
  unfold body, event_block_body. set (k := (2 + length (flag_bytes flags))%nat).
  replace pe with (Z.of_nat k)
    by (unfold k, pe; pose proof (length_flag_bytes flags); destruct (flags =? 0); lia).
  rewrite body_sub.
  - rewrite app_assoc. rewrite drop_app_length'.
    + by rewrite take_app_length.
    + unfold k. rewrite length_app. unfold le16. by rewrite length_le_bytes.
  - unfold k. rewrite !length_app. unfold le16. rewrite length_le_bytes. lia.
Qed.

Lemma body_type buf t :
  take 2 (drop 20 data) = le16 t -> 0 <= t < 65536 ->
  ld16 (body_buf buf body) (pe + 20) = t.
Proof using Hdata.
  intros Ht Hr. unfold ld16. change 20 with (Z.of_nat 20).
  rewrite (mem_read_sub _ pe (length data) 20 2 data (body_data buf)) by lia.
  rewrite Ht, le_val_le16. by apply u16_small.
Qed.
End read_back.

Lemma block_header_parts ty total :
  0 <= ty < 4294967296 -> 0 <= total < 4294967296 ->
  length (block_header ty total) = 8%nat /\
  le_val (take 4 (block_header ty total)) = ty /\ le_val (drop 4 (block_header ty total)) = total.
Proof.
  intros Ht Hl. unfold block_header.
  change (take 4 (le32 ty ++ le32 total)) with (le32 ty).
  change (drop 4 (le32 ty ++ le32 total)) with (le32 total).
  rewrite !le_val_le32, !u32_small by done. done.
Qed.

Lemma event_block_type_facts flags :
  0 <= event_block_type flags < 4294967296 /\
  is_event_block (event_block_type flags) = true /\
  is_v2_block (event_block_type flags) = true /\
  has_flags_block (event_block_type flags) = negb (flags =? 0).
Proof. unfold event_block_type. destruct (flags =? 0); vm_compute; repeat split; congruence. Qed.

(** Reading a block of the current format. *)
Lemma read_event_block_ok {R} `{GzReader R} (f : R) buf rest cpuid flags data t :
  0 <= cpuid < 65536 -> 0 <= flags < 4294967296 ->
  26 <= Z.of_nat (length data) <= 65500 ->
  take 2 (drop 20 data) = le16 t -> 0 <= t < 65536 ->
  gz_rest f = event_block cpuid flags data ++ rest ->
  exists f' buf',
    read_event_block f buf =
      (f', buf', if PPM_EVENT_MAX <=? t then None
                 else Some (OffEvent (if flags =? 0 then 2 else 6) cpuid flags)) /\
    gz_rest f' = rest /\
    mem_read buf' (if flags =? 0 then 2 else 6) (length data) = data.
Proof.
  intros Hcpu Hfl Hdata Ht Htr Hf.
  destruct (event_block_type_facts flags) as (Htyr & Hev & Hv2 & Hhf).
  destruct (event_block_length cpuid flags data) as [Hbl Htot]; [lia|].
  unfold event_block in Hf. set (total := event_block_total flags data) in *.
  set (body := event_block_body total cpuid flags data) in *.
  destruct (block_header_parts (event_block_type flags) total Htyr) as (Hhl & Hty & Hto); [lia|].
  rewrite <- app_assoc in Hf. unfold read_event_block.
  destruct (gzread f 8) as [f1 bh] eqn:E1.
  change 8 with (Z.of_nat 8) in E1. rewrite <- Hhl in E1.
  destruct (gzread_app _ _ _ _ _ Hf E1) as [-> Hf1]; [rewrite Hhl; lia|].
  rewrite Hhl, Hty, Hto, Hev, Hv2, Hhf. cbn [negb].
  replace (Z.of_nat 8 =? sizeof_block_header) with true by done. cbn [negb].
  replace (total <? sizeof_block_header + sizeof_ppm_evt_hdr + 4) with false
    by (unfold sizeof_block_header, sizeof_ppm_evt_hdr; lia).
  replace (FILE_READ_BUF_SIZE <? total - sizeof_block_header) with false
    by (unfold sizeof_block_header, FILE_READ_BUF_SIZE; lia).
  destruct (gzread f1 (total - sizeof_block_header)) as [f2 dt] eqn:E2.
  rewrite <- Hbl in E2.
  destruct (gzread_app _ _ _ _ _ Hf1 E2) as [-> Hf2]; [unfold sizeof_block_header, FILE_READ_BUF_SIZE in *; lia|].
  rewrite Hbl, Z.eqb_refl. cbn [negb]. fold (body_buf buf body).
  assert (Hpe : (if negb (flags =? 0) then 6 else 2) = (if flags =? 0 then 2 else 6))
    by (destruct (flags =? 0); done).
  assert (Hbt : ld16 (body_buf buf body) ((if flags =? 0 then 2 else 6) + 20) = t)
    by (by apply body_type).
  assert (Hbc : ld16 (body_buf buf body) 0 = cpuid) by (by apply body_cpuid).
  cbv zeta. rewrite Hpe, Hbt, Hbc.
  assert (Hfv : (if negb (flags =? 0) then ld32 (body_buf buf body) 2 else 0) = flags).
  { destruct (Z.eqb_spec flags 0) as [->|Hne]; [done|]. by apply body_flags. }
  rewrite Hfv. exists f2, (body_buf buf body).
  split; [by destruct (PPM_EVENT_MAX <=? t)|]. split; [done|]. by apply body_data.
Qed.

Lemma offline_step {R} `{GzReader R} (f f' : R) buf buf' r :
  read_event_block f buf = (f', buf', Some r) -> scap_next_offline f buf = (f', buf', Some r).
Proof. intros E. unfold scap_next_offline. cbn [offline_loop]. by rewrite E. Qed.

(** C26: an event record of at most 65500 bytes that [scap_dump] wrote, for any
    CPU and dump flags, is what [scap_next_offline] returns when it reads the
    file from that point: the same bytes, CPU and flags, with the file
    positioned at the next block. *)
Theorem dump_read_roundtrip {F R : Type} `{GzWriter F} `{GzReader R}
    (d d' : scap_dumper_t F) (m buf : mem) (e cpuid flags : Z) (data rest : list byte) (f : R)
    (t : Z) :
  0 <= cpuid < 65536 -> 0 <= flags < 4294967296 -> dumpable m e data ->
  take 2 (drop 20 data) = le16 t -> 0 <= t < PPM_EVENT_MAX ->
  dumper_wf d -> scap_dump d m e cpuid flags = (d', SCAP_SUCCESS) ->
  dumped d ++ gz_rest f = dumped d' ++ rest ->
  exists f' buf' pe, scap_next_offline f buf = (f', buf', Some (OffEvent pe cpuid flags)) /\
    gz_rest f' = rest /\ mem_read buf' pe (length data) = data.
Proof.
  intros Hcpu Hfl Hdu Ht Htr Hwf Hd Hrest.
  destruct (scap_dump_appends d d' m e cpuid flags data Hwf Hdu Hd) as [_ Happ].
  rewrite Happ, <- app_assoc in Hrest. apply app_inv_head in Hrest.
  destruct Hdu as (_ & _ & Hlen).
  destruct (read_event_block_ok f buf rest cpuid flags data t) as (f' & buf' & Hr & Hf' & Hb);
    [done|done|done|done|unfold PPM_EVENT_MAX in *; lia|done|].
  replace (PPM_EVENT_MAX <=? t) with false in Hr by lia.
  exists f', buf', (if flags =? 0 then 2 else 6). split; [by apply offline_step|done].
Qed.

(** A [close] record in memory. *)
Definition sample_record_bytes : list byte :=
  bytes_of_event (mk_evt 5 42 PPME_SYSCALL_CLOSE_E [le64 3]).

Definition sample_record_mem : mem := mem_write mem_zero 0 sample_record_bytes.

Lemma sample_dumpable : dumpable sample_record_mem 0 sample_record_bytes.
Proof.
  split; [apply mem_read_write_same|]. split; [vm_compute; reflexivity|].
  vm_compute. split; congruence.
Qed.

Lemma dump_read_roundtrip_witness :
  exists f' buf' pe,
    scap_next_offline (event_block 3 1 sample_record_bytes ++ [x01]) mem_zero
      = (f', buf', Some (OffEvent pe 3 1)) /\
    gz_rest f' = [x01] /\ mem_read buf' pe (length sample_record_bytes) = sample_record_bytes.
Proof.
  apply (dump_read_roundtrip (DT_FILE (@nil byte))
    (DT_FILE (event_block 3 1 sample_record_bytes)) sample_record_mem mem_zero 0 3 1
    sample_record_bytes [x01] (event_block 3 1 sample_record_bytes ++ [x01])
    PPME_SYSCALL_CLOSE_E).
  - lia.
  - lia.
  - exact sample_dumpable.
  - vm_compute. reflexivity.
  - vm_compute. split; congruence.
  - exact I.
  - vm_compute. reflexivity.
  - reflexivity.
Defined.

(** ** Old event blocks. *)

(** The part of a record after the header. *)
Definition record_tail (e : event) : list byte :=
  concat (map (fun p => le16 (Z.of_nat (length p))) (ev_params e)) ++ concat (ev_params e).

(** The record in the old format: no parameter count, and a length without it. *)
Definition v1_bytes (e : event) : list byte :=
  le64 (ev_ts e) ++ le64 (ev_tid e)
  ++ le32 (Z.of_nat (length (bytes_of_event e)) - 4) ++ le16 (ev_type e) ++ record_tail e.

Lemma bytes_of_event_tail e :
  bytes_of_event e = le64 (ev_ts e) ++ le64 (ev_tid e)
    ++ le32 (Z.of_nat (length (bytes_of_event e))) ++ le16 (ev_type e)
    ++ le32 (Z.of_nat (length (ev_params e))) ++ record_tail e.
Proof.
  unfold bytes_of_event at 2. rewrite event_length. reflexivity.
Qed.

Lemma length_record_tail e :
  Z.of_nat (length (record_tail e)) = Z.of_nat (length (bytes_of_event e)) - 26.
Proof.
  pose proof (f_equal length (bytes_of_event_tail e)) as Hl.
  unfold le64, le32, le16 in Hl. rewrite !length_app, !length_le_bytes in Hl. lia.
Qed.

Lemma length_v1_bytes e :
  Z.of_nat (length (v1_bytes e)) = Z.of_nat (length (bytes_of_event e)) - 4.
Proof.
  unfold v1_bytes, le64, le32, le16. rewrite !length_Z_app, !length_le_bytes, length_record_tail. lia.
Qed.

Lemma lens_sum_ok m ps : forall a,
  mem_read m a (length (concat (map (fun p => le16 (Z.of_nat (length p))) ps)))
    = concat (map (fun p => le16 (Z.of_nat (length p))) ps) ->
  Forall (fun p : list byte => Z.of_nat (length p) < 65536) ps ->
  lens_sum m a (length ps) = zsum (lens ps).
Proof.
  induction ps as [|p ps IH]; intros a Ha HF; [done|].
  cbn [map concat] in Ha. apply mem_read_app_inv in Ha as [Ha1 Ha2].
  apply Forall_cons_1 in HF as [Hp HF].
  assert (Hl : ld16 m a = Z.of_nat (length p)).
  { unfold ld16. change 2%nat with (length (le16 (Z.of_nat (length p)))).
    rewrite Ha1, le_val_le16. apply u16_small. lia. }
  unfold le16 in Ha2. rewrite length_le_bytes in Ha2. change (Z.of_nat 2) with 2 in Ha2.
  cbn [length lens_sum]. rewrite Hl, (IH _ Ha2 HF). reflexivity.
Qed.

(** When the table's parameter count fits the lengths exactly, it is chosen. *)
Lemma find_nparams_exact m a end_ n :
  end_ = a + Z.of_nat n * 2 + lens_sum m a n -> 0 <= lens_sum m a n ->
  find_nparams m a end_ n = Some (Z.of_nat n).
Proof.
  intros -> Hn. destruct n; cbn [find_nparams];
    rewrite !(proj2 (Z.ltb_ge _ _)) by lia; by rewrite Z.eqb_refl.
Qed.

Section v1.
Context (m : mem) (pe readlen : Z) (e : event).
Context (Hpe : 0 <= pe) (Hfit : event_fits e).
Context (Hrd : mem_read m pe (length (v1_bytes e)) = v1_bytes e).
Context (Hread : pe + Z.of_nat (length (v1_bytes e)) <= readlen) (Hbuf : readlen + 4 <= FILE_READ_BUF_SIZE).
Context (Hty : ev_type e <> PPME_NOTIFICATION_E) (Hty' : ev_type e <> PPME_INFRASTRUCTURE_EVENT_E).
Context (Hnp : Z.of_nat (length (ev_params e)) = ei_nparams (g_event_info (ev_type e))).

Let movelen := readlen - pe - 22.
Let m1 := mem_write m (pe + 26) (mem_read m (pe + 22) (Z.to_nat movelen)).
Let total := Z.of_nat (length (bytes_of_event e)).
Let m2 := mem_write m1 (pe + 16) (le32 total).
Let m3 := mem_write m2 (pe + 22) (le32 (Z.of_nat (length (ev_params e)))).

Lemma v1_len : 26 <= total /\ Z.of_nat (length (v1_bytes e)) = total - 4 /\
  Z.of_nat (length (record_tail e)) = total - 26 /\ 0 <= movelen.
Proof using Hread.
  pose proof (record_length_pos e). pose proof (length_v1_bytes e).
  pose proof (length_record_tail e). unfold total, movelen. lia.
Qed.

Lemma v1_head :
  mem_read m pe 16 = le64 (ev_ts e) ++ le64 (ev_tid e) /\
  ld32 m (pe + 16) = total - 4 /\ mem_read m (pe + 20) 2 = le16 (ev_type e) /\
  mem_read m (pe + 22) (length (record_tail e)) = record_tail e.
Proof using Hrd Hread Hbuf Hpe.
  destruct v1_len as (H1 & H2 & H3 & H4).
  pose proof Hrd as H. unfold v1_bytes in H.
  rewrite app_assoc in H. apply mem_read_app_inv in H as [Ha H].
  apply mem_read_app_inv in H as [Hb H]. apply mem_read_app_inv in H as [Hc Hd].
  unfold le64, le32, le16 in *. rewrite ?length_app, ?length_le_bytes in *.
  rewrite <- ?Z.add_assoc in *. split; [done|]. split; [|by split].
  unfold ld32. change (pe + 16) with (pe + Z.of_nat (8 + 8)). rewrite Hb.
  rewrite le_val_bytes_small; [done|]. change (256 ^ Z.of_nat 4) with 4294967296.
  unfold total, FILE_READ_BUF_SIZE in *. lia.
Qed.

Lemma v1_tail_moved : mem_read m1 (pe + 26) (length (record_tail e)) = record_tail e.
Proof using Hrd Hread Hbuf Hpe.
  destruct v1_len as (H1 & H2 & H3 & H4). destruct v1_head as (_ & _ & _ & Ht).
  assert (Hl : length (mem_read m (pe + 22) (Z.to_nat movelen)) = Z.to_nat movelen)
    by apply length_mem_read.
  pose proof (mem_read_write_same m (pe + 26) (mem_read m (pe + 22) (Z.to_nat movelen))) as Hw.
  rewrite Hl in Hw. unfold m1.
  pose proof (mem_read_sub _ _ _ 0 (length (record_tail e)) _ Hw) as Hs.
  cbn [Z.of_nat] in Hs. rewrite Z.add_0_r in Hs. rewrite Hs by (unfold movelen; lia).
  rewrite drop_0. rewrite <- Ht at 2.
  replace (Z.to_nat movelen) with (length (record_tail e) + (Z.to_nat movelen - length (record_tail e)))%nat
    by (unfold movelen; lia).
  rewrite mem_read_app, take_app_length'; [done|by rewrite length_mem_read].
Qed.

Lemma v1_result : mem_read m3 pe (length (bytes_of_event e)) = bytes_of_event e.
Proof using Hrd Hread Hbuf Hpe.
  destruct v1_len as (H1 & H2 & H3 & H4). destruct v1_head as (Ha & _ & Hc & _).
  rewrite (bytes_of_event_tail e) at 2. fold total.
  replace (length (bytes_of_event e)) with (16 + (4 + (2 + (4 + length (record_tail e)))))%nat
    by (unfold total in *; lia).
  rewrite !mem_read_app, <- !Z.add_assoc.
  change (Z.of_nat 16 + (Z.of_nat 4 + (Z.of_nat 2 + Z.of_nat 4))) with 26.
  change (Z.of_nat 16 + (Z.of_nat 4 + Z.of_nat 2)) with 22.
  change (Z.of_nat 16 + Z.of_nat 4) with 20. change (Z.of_nat 16) with 16.
  rewrite (app_assoc (le64 _)). unfold m3, m2, m1, le32, le16 in *.
  f_equal; [|f_equal; [|f_equal; [|f_equal]]].
  - by rewrite !mem_read_write_out by (rewrite ?length_le_bytes, ?length_mem_read; lia).
  - rewrite mem_read_write_out by (rewrite length_le_bytes; lia). by apply mem_read_write_le.
  - by rewrite !mem_read_write_out by (rewrite ?length_le_bytes, ?length_mem_read; lia).
  - by apply mem_read_write_le.
  - rewrite !mem_read_write_out by (rewrite ?length_le_bytes; lia). exact v1_tail_moved.
Qed.
End v1.

Lemma convert_v1_ok m pe readlen e :
  0 <= pe -> event_fits e ->
  mem_read m pe (length (v1_bytes e)) = v1_bytes e ->
  pe + Z.of_nat (length (v1_bytes e)) <= readlen -> readlen + 4 <= FILE_READ_BUF_SIZE ->
  ev_type e <> PPME_NOTIFICATION_E -> ev_type e <> PPME_INFRASTRUCTURE_EVENT_E ->
  Z.of_nat (length (ev_params e)) = ei_nparams (g_event_info (ev_type e)) ->
  exists m', convert_v1 m pe readlen = Converted m' /\
    mem_read m' pe (length (bytes_of_event e)) = bytes_of_event e.
Proof.
  intros Hpe Hfit Hrd Hread Hbuf Hty Hty' Hnp.
  destruct (v1_len pe readlen e Hread) as (H1 & H2 & H3 & H4).
  destruct (v1_head m pe readlen e Hpe Hrd Hread Hbuf) as (_ & Hlen & Ht & _).
  eexists. split; [|exact (v1_result m pe readlen e Hpe Hrd Hread Hbuf)].
  unfold convert_v1, sizeof_ppm_evt_hdr.
  replace (FILE_READ_BUF_SIZE <? readlen + 4) with false by lia.
  replace (u64 (readlen - pe - (26 - 4))) with (readlen - pe - 22)
    by (rewrite u64_small; unfold FILE_READ_BUF_SIZE in *; lia).
  replace (FILE_READ_BUF_SIZE - (pe + 26) <? readlen - pe - 22) with false by lia.
  replace (pe + 26 - 4) with (pe + 22) by lia.
  set (m1 := mem_write m (pe + 26) (mem_read m (pe + 22) (Z.to_nat (readlen - pe - 22)))).
  assert (Hl1 : ld32 m1 (pe + 16) = Z.of_nat (length (bytes_of_event e)) - 4)
    by (rewrite <- Hlen; unfold ld32, m1; by rewrite mem_read_write_out by lia).
  assert (Ht1 : ld16 m1 (pe + 20) = ev_type e).
  { unfold ld16, m1. rewrite mem_read_write_out by lia. rewrite Ht, le_val_le16.
    apply u16_small. apply Hfit. }
  cbv zeta. rewrite Hl1, Ht1.
  replace (u32 (Z.of_nat (length (bytes_of_event e)) - 4 + 4))
    with (Z.of_nat (length (bytes_of_event e)))
    by (rewrite u32_small; unfold FILE_READ_BUF_SIZE in *; lia).
  replace ((ev_type e =? PPME_NOTIFICATION_E) || (ev_type e =? PPME_INFRASTRUCTURE_EVENT_E))
    with false by lia.
  set (m2 := mem_write m1 (pe + 16) (le32 (Z.of_nat (length (bytes_of_event e))))).
  assert (Htl : mem_read m2 (pe + 26) (length (record_tail e)) = record_tail e).
  { unfold m2. rewrite mem_read_write_out by (unfold le32; rewrite length_le_bytes; lia).
    by apply v1_tail_moved. }
  unfold record_tail in Htl. apply mem_read_app_inv in Htl as [Htl _].
  pose proof (lens_sum_ok m2 (ev_params e) (pe + 26) Htl (proj2 (proj2 (proj2 Hfit)))) as Hls.
  replace (Z.to_nat (ei_nparams (g_event_info (ev_type e)))) with (length (ev_params e)) by lia.
  pose proof (event_length (ev_ts e) (ev_tid e) (ev_type e) (ev_params e)) as Hel.
  fold (bytes_of_event e) in Hel. unfold sizeof_ppm_evt_hdr in Hel.
  pose proof (zsum_lens_nonneg (ev_params e)) as Hz.
  rewrite find_nparams_exact by (rewrite Hls; lia). reflexivity.
Qed.

(** A block of the old format, with some bytes (padding and trailer) after the
    record. *)
Definition v1_block (cpuid : Z) (e : event) (more : list byte) : list byte :=
  let body := le16 cpuid ++ v1_bytes e ++ more in
  block_header EV_BLOCK_TYPE (sizeof_block_header + Z.of_nat (length body)) ++ body.

(** An event of an old capture file, recorded without a parameter count, is
    returned as the current record of the same event: with the count of the
    event table, and the length that includes it. *)
Theorem v1_event_converted {R : Type} `{GzReader R} (f : R) (buf : mem) (cpuid : Z) (e : event)
    (more rest : list byte) :
  0 <= cpuid < 65536 -> event_fits e -> 0 <= ev_type e < PPM_EVENT_MAX ->
  ev_type e <> PPME_NOTIFICATION_E -> ev_type e <> PPME_INFRASTRUCTURE_EVENT_E ->
  Z.of_nat (length (ev_params e)) = ei_nparams (g_event_info (ev_type e)) ->
  (4 <= length more)%nat ->
  2 + Z.of_nat (length (v1_bytes e)) + Z.of_nat (length more) + 4 <= FILE_READ_BUF_SIZE ->
  gz_rest f = v1_block cpuid e more ++ rest ->
  exists f' buf', scap_next_offline f buf = (f', buf', Some (OffEvent 2 cpuid 0)) /\
    gz_rest f' = rest /\ mem_read buf' 2 (length (bytes_of_event e)) = bytes_of_event e.
Proof.
  intros Hcpu Hfit Htr Hty Hty' Hnp Hmore Hlen Hf.
  pose proof (length_v1_bytes e) as Hv1. pose proof (record_length_pos e) as Hpos.
  unfold v1_block in Hf. set (body := le16 cpuid ++ v1_bytes e ++ more) in *.
  assert (Hbl : Z.of_nat (length body) = 2 + Z.of_nat (length (v1_bytes e)) + Z.of_nat (length more))
    by (unfold body, le16; rewrite !length_Z_app, length_le_bytes; lia).
  destruct (block_header_parts EV_BLOCK_TYPE (sizeof_block_header + Z.of_nat (length body)))
    as (Hhl & Hbt & Hto); [vm_compute; split; congruence|
      unfold sizeof_block_header, FILE_READ_BUF_SIZE in *; lia|].
  rewrite <- app_assoc in Hf.
  assert (Hdata : mem_read (body_buf buf body) 2 (length (v1_bytes e)) = v1_bytes e).
  { change 2 with (Z.of_nat 2). rewrite body_sub by lia.
    change (drop 2 body) with (v1_bytes e ++ more). by rewrite take_app_length. }
  assert (Hc : ld16 (body_buf buf body) 0 = cpuid).
  { unfold ld16. change 0 with (Z.of_nat 0). rewrite body_sub by lia.
    change (take 2 (drop 0 body)) with (le16 cpuid). rewrite le_val_le16. by apply u16_small. }
  assert (Ht : ld16 (body_buf buf body) (2 + 20) = ev_type e).
  { unfold ld16. change 20 with (Z.of_nat 20).
    rewrite (mem_read_sub _ 2 _ 20 2 _ Hdata) by lia.
    change (take 2 (drop 20 (v1_bytes e))) with (le16 (ev_type e)).
    rewrite le_val_le16. apply u16_small. apply Hfit. }
  destruct (convert_v1_ok (body_buf buf body) 2 (Z.of_nat (length body)) e) as (m' & Hconv & Hm');
    [lia|done|done|lia|lia|done|done|done|].
  destruct (gzread f 8) as [f1 bh] eqn:E1. change 8 with (Z.of_nat 8) in E1. rewrite <- Hhl in E1.
  destruct (gzread_app _ _ _ _ _ Hf E1) as [-> Hf1]; [rewrite Hhl; lia|]. rewrite Hhl in E1.
  change (Z.of_nat 8) with 8 in E1.
  destruct (gzread f1 (Z.of_nat (length body))) as [f2 dt] eqn:E2.
  destruct (gzread_app _ _ _ _ _ Hf1 E2) as [-> Hf2]; [unfold sizeof_block_header, FILE_READ_BUF_SIZE in *; lia|].
  exists f2, m'. split; [|done]. apply offline_step. unfold read_event_block.
  rewrite E1, Hhl, Hbt, Hto. unfold sizeof_block_header, sizeof_ppm_evt_hdr in *.
  change (negb (Z.of_nat 8 =? 8)) with false.
  change (is_event_block EV_BLOCK_TYPE) with true. change (is_v2_block EV_BLOCK_TYPE) with false.
  change (has_flags_block EV_BLOCK_TYPE) with false. cbv iota. cbn [negb]. cbv iota.
  replace (8 + Z.of_nat (length body) <? 8 + (26 - 4) + 4) with false by lia.
  replace (8 + Z.of_nat (length body) - 8) with (Z.of_nat (length body)) by lia.
  replace (FILE_READ_BUF_SIZE <? Z.of_nat (length body)) with false by lia.
  rewrite E2, Z.eqb_refl. fold (body_buf buf body). cbn [negb]. cbv iota zeta.
  rewrite Hc, Ht, Hconv. by replace (PPM_EVENT_MAX <=? ev_type e) with false by lia.
Qed.

Lemma v1_event_converted_witness :
  exists f' buf',
    scap_next_offline (v1_block 1 (mk_evt 5 42 PPME_SYSCALL_CLOSE_E [le64 3]) [x00; x00; x00; x00])
      mem_zero = (f', buf', Some (OffEvent 2 1 0)) /\
    gz_rest f' = [] /\ mem_read buf' 2 (length sample_record_bytes) = sample_record_bytes.
Proof.
  apply (v1_event_converted _ mem_zero 1 (mk_evt 5 42 PPME_SYSCALL_CLOSE_E [le64 3])
           [x00; x00; x00; x00] []).
  - lia.
  - repeat split; try (vm_compute; congruence). repeat constructor.
  - vm_compute. split; congruence.
  - discriminate.
  - discriminate.
  - vm_compute. reflexivity.
  - simpl. lia.
  - vm_compute. congruence.
  - rewrite app_nil_r. reflexivity.
Defined.

(** ** The block length check and the old format with flags. *)

Definition short_evf_block : list byte := block_header EVF_BLOCK_TYPE 34 ++ repeat x00 26.

(** The block headers whose conversion stays inside the buffer. *)
Definition header_converts_inside (bh : list byte) : Prop :=
  le_val (take 4 bh) <> EVF_BLOCK_TYPE \/ 36 <= le_val (drop 4 bh).

(** A block of the old format with dump flags that announces 34 bytes
    passes the length check, yet the length of the [memmove] that makes room for
    the parameter count is negative, that is 2^64 - 2 as a [size_t]: the
    behaviour is undefined for a 34 byte file. *)
Theorem evf_v1_short_block_undefined :
  snd (scap_next_offline short_evf_block mem_zero) = Some OffUndefined /\
  u64 (26 - 6 - (sizeof_ppm_evt_hdr - 4)) = 18446744073709551614.
Proof. vm_compute. split; reflexivity. Qed.

(** That is the only way: a block that is not of the old format with flags,
    or that announces at least 36 bytes, is never converted with a [memmove] out
    of the buffer. *)
Theorem offline_defined {R : Type} `{GzReader R} (f f' : R) (buf buf' : mem) (bh : list byte)
    (f1 : R) :
  gzread f 8 = (f1, bh) ->
  header_converts_inside bh ->
  read_event_block f buf <> (f', buf', Some OffUndefined).
Proof.
  intros E1 Hok Hr. unfold header_converts_inside in Hok. unfold read_event_block in Hr. rewrite E1 in Hr.
  set (ty := le_val (take 4 bh)) in *. set (total := le_val (drop 4 bh)) in *.
  case_in Hr; [simplify_eq; repeat case_in H0; done|]. cbv zeta in Hr.
  case_in Hr; [simplify_eq|]. case_in Hr; [simplify_eq|]. case_in Hr; [simplify_eq|].
  destruct (gzread f1 _) as [f2 dt]. case_in Hr; [simplify_eq|]. case_in Hr; [simplify_eq|].
  destruct (is_v2_block ty) eqn:Ev2; [simplify_eq|].
  unfold sizeof_block_header, sizeof_ppm_evt_hdr, FILE_READ_BUF_SIZE in *. bool_to_prop.
  assert (Hpe : (if has_flags_block ty then 6 else 2) = 2 \/
                ((if has_flags_block ty then 6 else 2) = 6 /\ 36 <= total)).
  { unfold has_flags_block. unfold is_v2_block in Ev2. bool_to_prop.
    destruct (Z.eqb_spec ty EVF_BLOCK_TYPE), (Z.eqb_spec ty EVF_BLOCK_TYPE_V2); simpl; lia. }
  unfold convert_v1, sizeof_ppm_evt_hdr, FILE_READ_BUF_SIZE in Hr.
  set (pe := if has_flags_block ty then 6 else 2) in *. clearbody pe.
  destruct (65536 <? total - 8 + 4) eqn:Eb; [simplify_eq|]. bool_to_prop.
  rewrite u64_small in Hr by lia.
  replace (65536 - (pe + 26) <? total - 8 - pe - (26 - 4)) with false in Hr by lia.
  cbv zeta in Hr. destruct (find_nparams _ _ _ _); simplify_eq.
Qed.

Lemma offline_defined_witness :
  read_event_block (event_block 3 1 sample_record_bytes) mem_zero
  <> ([], mem_zero, Some OffUndefined).
Proof.
  apply (offline_defined (event_block 3 1 sample_record_bytes) [] mem_zero mem_zero
           (take 8 (event_block 3 1 sample_record_bytes))
           (drop 8 (event_block 3 1 sample_record_bytes))).
  - reflexivity.
  - left. vm_compute. discriminate.
Defined.

(** The blocks of unknown event types that are skipped on the way to an event. *)
Inductive skips {R : Type} `{GzReader R} : R -> mem -> R -> mem -> Prop :=
| skips_none f buf : skips f buf f buf
| skips_block f buf f1 buf1 f2 buf2 :
    read_event_block f buf = (f1, buf1, None) -> skips f1 buf1 f2 buf2 -> skips f buf f2 buf2.

Lemma offline_loop_defined {R : Type} `{GzReader R} fuel : forall (f : R) (buf : mem),
  (length (gz_rest f) < fuel)%nat ->
  (forall f0 buf0, skips f buf f0 buf0 -> header_converts_inside (snd (gzread f0 8))) ->
  exists f' buf' r, offline_loop fuel f buf = (f', buf', Some r) /\ r <> OffUndefined.
Proof.
  induction fuel as [|fuel IH]; intros f buf Hl Hs; [lia|]. cbn [offline_loop].
  destruct (read_event_block f buf) as [[f1 buf1] [r|]] eqn:E.
  - exists f1, buf1, r. split; [done|]. intros ->. revert E.
    eapply offline_defined; [apply surjective_pairing|]. apply (Hs f buf). constructor.
  - pose proof E as El. apply read_event_block_consumes in El. apply IH; [lia|].
    intros f0 buf0 H0. apply (Hs f0 buf0). by econstructor.
Qed.

(** C35: reading the next event of a capture file terminates.  Whatever the file holds, as
    long as no block the reader gets to is an event of the old format with dump flags that
    announces less than 36 bytes, [scap_next_offline] returns an event, the end of the
    file, an unexpected block or a failure; it does not loop, and what it does is defined.
    On such a short block the code has undefined behaviour
    ([evf_v1_short_block_undefined]). *)
Theorem scap_next_offline_terminates {R : Type} `{GzReader R} (f : R) (buf : mem) :
  (forall f0 buf0, skips f buf f0 buf0 -> header_converts_inside (snd (gzread f0 8))) ->
  exists f' buf' r, scap_next_offline f buf = (f', buf', Some r) /\
    ((exists pe cpuid flags, r = OffEvent pe cpuid flags) \/ exists code, r = OffCode code).
Proof.
  intros Hs. destruct (offline_loop_defined (S (length (gz_rest f))) f buf) as (f' & buf' & r & E & Hr);
    [lia|done|]. exists f', buf', r. split; [done|]. destruct r as [pe cpuid flags|code|]; naive_solver.
Qed.

(** A file whose first block is of no known type. *)
Definition strange_file : list byte := le32 7 ++ le32 12 ++ le32 0.

Lemma scap_next_offline_terminates_witness :
  exists f' buf' r, scap_next_offline strange_file mem_zero = (f', buf', Some r) /\
    ((exists pe cpuid flags, r = OffEvent pe cpuid flags) \/ exists code, r = OffCode code).
Proof.
  apply (scap_next_offline_terminates strange_file mem_zero).
  assert (E : exists f1 r, read_event_block strange_file mem_zero = (f1, mem_zero, Some r))
    by (eexists; eexists; reflexivity).
  destruct E as (f1 & r & E). intros f0 buf0 H0. inversion H0; subst.
  - left. vm_compute. discriminate.
  - congruence.
Defined.
