(* ===== verification/BlockIO.v ===== *)
(** * Capture files: what the metadata blocks share

    The lists of processes, users, interfaces and descriptors are blocks with the
    same frame: a header, entries that carry their length, padding to four bytes
    and a trailer.  This file holds that frame: positions and seeking
    ([GzSeeker]), chains of writes, the reader of one entry as a monad that
    counts bytes ([gzM], the [readsize = gzread(...); CHECK_READ_SIZE;
    subreadsize += readsize] of the code), the loop over the entries of a block
    with the padding read ([read_block]), and its theorems: the padding never
    overruns its buffer, the loop ends, and encoded entries are read back.

    A failed reader leaves the handle to be closed by its caller, so what it
    had added to the tables by then is not kept. *)

From Stdlib Require Import ZArith Lia List Bool.
From Stdlib Require Import Strings.Byte.
From stdpp Require Import base tactics list numbers option.
From S2P Require Import Prelude Bytes EventDefs.
From S2P Require Import Reader Suppress SaveFile SaveFileSpec.
Import ListNotations.
Local Open Scope Z_scope.

Declare Scope gz_scope.
Delimit Scope gz_scope with gz.

(** ** Values of the C types. *)

Definition is_u8 (v : Z) : Prop := 0 <= v < 256.
Definition is_u16 (v : Z) : Prop := 0 <= v < 65536.
Definition is_u32 (v : Z) : Prop := 0 <= v < 4294967296.
Definition is_u64 (v : Z) : Prop := 0 <= v < 18446744073709551616.
Definition is_s32 (v : Z) : Prop := - 2147483648 <= v < 2147483648.
Definition is_s64 (v : Z) : Prop := - 9223372036854775808 <= v < 9223372036854775808.

Lemma le_val_u8 v : is_u8 v -> le_val (le_bytes 1 v) = v.
Proof. intros. rewrite le_val_bytes. apply Z.mod_small. simpl. unfold is_u8 in *. lia. Qed.
Lemma le_val_u16 v : is_u16 v -> le_val (le16 v) = v.
Proof. intros. rewrite le_val_le16. by apply u16_small. Qed.
Lemma le_val_u32 v : is_u32 v -> le_val (le32 v) = v.
Proof. intros. rewrite le_val_le32. by apply u32_small. Qed.
Lemma le_val_u64 v : is_u64 v -> le_val (le64 v) = v.
Proof. intros. rewrite le_val_le64. by apply u64_small. Qed.

Lemma s64_u64 v : is_s64 v -> s64 (u64 v) = v.
Proof.
  unfold is_s64. intros Hv. unfold s64, u64. rewrite Z.add_mod_idemp_l by lia.
  rewrite Z.mod_small by lia. lia.
Qed.

Lemma s32_range v : is_s32 (s32 v).
Proof. unfold is_s32, s32. pose proof (Z.mod_pos_bound (v + 2 ^ 31) (2 ^ 32)). lia. Qed.

Lemma s32_u32 v : is_s32 v -> s32 (u32 v) = v.
Proof.
  unfold is_s32. intros Hv. unfold s32, u32. rewrite Z.add_mod_idemp_l by lia.
  rewrite Z.mod_small by lia. lia.
Qed.

(** The C string in an array that holds [bs] and a terminator after them. *)
Fixpoint c_string (bs : list byte) : list byte :=
  match bs with
  | [] => []
  | b :: bs' => if Byte.eqb b x00 then [] else b :: c_string bs'
  end.

Lemma c_string_id bs : x00 ∉ bs -> c_string bs = bs.
Proof.
  induction bs as [|b bs IH]; [done|]. intros Hn. apply not_elem_of_cons in Hn as [Hb Hn].
  simpl. destruct (Byte.eqb b x00) eqn:E; [|by rewrite IH].
  apply Byte.byte_dec_bl in E. congruence.
Qed.

(** ** Positions. *)

(** The states of one file open for reading: its uncompressed content and a
    position.  What the readers rely on of [gzseek] from the current position: a
    result other than -1 is the new position, forward or back, possibly behind
    the end. *)
Class GzSeeker (R : Type) `{GzReader R} : Type := {
  gz_content : list byte;
  gz_pos : R -> Z;
  gzseek : R -> Z -> R * Z;
  gz_rest_pos f : 0 <= gz_pos f /\ gz_rest f = drop (Z.to_nat (gz_pos f)) gz_content;
  gzread_pos f n f' bs : gzread f n = (f', bs) -> gz_pos f' = gz_pos f + Z.of_nat (length bs);
  gzseek_pos f n f' pos : gzseek f n = (f', pos) -> pos <> -1 ->
    pos = gz_pos f + n /\ gz_pos f' = pos }.

Arguments gz_content R {_ _}.

(** A file that is a byte list, with a position in it. *)
Record gz_file (content : list byte) : Type := mk_gz { gzf_pos : N }.
Arguments mk_gz {content}.
Arguments gzf_pos {content}.

Definition gz_open (content : list byte) : gz_file content := mk_gz 0.

Section byte_file.
Context {content : list byte}.
Implicit Types f : gz_file content.

Definition gzf_rest f : list byte :=
  if (N.of_nat (length content) <=? gzf_pos f)%N then [] else drop (N.to_nat (gzf_pos f)) content.

Definition gzf_read f (n : Z) : gz_file content * list byte :=
  let bs := snd (list_read (gzf_rest f) n) in
  (mk_gz (gzf_pos f + N.of_nat (length bs)), bs).

Definition gzf_seek f (n : Z) : gz_file content * Z :=
  let p := Z.of_N (gzf_pos f) + n in
  if p <? 0 then (f, -1) else (mk_gz (Z.to_N p), p).

Lemma gzf_rest_drop f : gzf_rest f = drop (N.to_nat (gzf_pos f)) content.
Proof.
  unfold gzf_rest. case_if; [|done]. apply N.leb_le in Heqb. rewrite drop_ge; [done|lia].
Qed.

Lemma gzf_read_rest f n f' bs :
  gzf_read f n = (f', bs) -> list_read (gzf_rest f) n = (gzf_rest f', bs).
Proof.
  intros E. unfold gzf_read in E. destruct (list_read (gzf_rest f) n) as [r b] eqn:El.
  simplify_eq/=. f_equal. rewrite gzf_rest_drop. simpl. rewrite N2Nat.inj_add, Nat2N.id.
  rewrite <- drop_drop, <- gzf_rest_drop. revert El. unfold list_read.
  repeat case_if; intros El; simplify_eq.
  - done.
  - by rewrite drop_ge.
  - by rewrite length_take, Nat.min_l by (bool_to_prop; lia).
Qed.
End byte_file.

#[export] Instance gz_file_reader content : GzReader (gz_file content).
Proof.
  refine {| gzread := gzf_read; gzerror := fun _ => 0; gz_rest := gzf_rest |};
    intros f n f' bs Hn E; apply gzf_read_rest in E.
  - exact (gzread_take (R := list byte) _ _ _ _ Hn E).
  - exact (gzread_refused (R := list byte) _ _ _ _ Hn E).
Defined.

#[export] Instance gz_file_seeker content : GzSeeker (gz_file content).
Proof.
  refine {| gz_content := content; gz_pos := fun f => Z.of_N (gzf_pos f); gzseek := gzf_seek |}.
  - intros f. split; [lia|]. simpl. rewrite gzf_rest_drop. do 2 f_equal. lia.
  - intros f n f' bs E. simpl in E. unfold gzf_read in E. simplify_eq/=. lia.
  - intros f n f' pos E Hp. unfold gzf_seek in E. case_in E; bool_to_prop; simplify_eq/=.
    split; [done|lia].
Defined.

Section seeking.
Context {R : Type} `{GzSeeker R}.

Lemma gzseek_drop (f : R) n f' pos :
  0 <= n -> gzseek f n = (f', pos) -> pos <> -1 ->
  gz_rest f' = drop (Z.to_nat n) (gz_rest f).
Proof.
  intros Hn Hs Hp. destruct (gz_rest_pos f) as [H1 ->], (gz_rest_pos f') as [H2 ->].
  apply gzseek_pos in Hs as (-> & ->); [|done]. rewrite drop_drop. f_equal. lia.
Qed.

(** [gzseek] reports no error for a position that exists. *)
Definition no_seek_errors : Prop :=
  forall (f : R) n, 0 <= gz_pos f + n -> snd (gzseek f n) = gz_pos f + n.

(** ** Reading the fields of an entry. *)

(** A reader takes the file and the bytes counted so far, and fails or gives a
    value with the new count. *)
Definition gzM (A : Type) : Type := R -> Z -> R * option (A * Z).

Definition gz_ret {A} (a : A) : gzM A := fun f c => (f, Some (a, c)).
Definition gz_fail {A} : gzM A := fun f _ => (f, None).
Definition gz_bind {A B} (m : gzM A) (k : A -> gzM B) : gzM B := fun f c =>
  match m f c with
  | (f1, Some (a, c1)) => k a f1 c1
  | (f1, None) => (f1, None)
  end.

(** [readsize = gzread(f, buf, n); CHECK_READ_SIZE(readsize, n);
    subreadsize += readsize;] *)
Definition gz_bytes (n : Z) : gzM (list byte) := fun f c =>
  let '(f', bs) := gzread f n in
  if Z.of_nat (length bs) =? n then (f', Some (bs, c + n)) else (f', None).

Definition gz_le (n : Z) : gzM Z := gz_bind (gz_bytes n) (fun bs => gz_ret (le_val bs)).

(** A string behind its 16 bit length, which must pass [fits]. *)
Definition gz_str (fits : Z -> bool) : gzM (list byte) :=
  gz_bind (gz_le 2) (fun stlen => if fits stlen then gz_bytes stlen else gz_fail).

(** The bytes of an entry this version of the library does not know: skipped by
    the length of the entry, which old blocks do not have. *)
Definition gz_skip_rest (sub_len : Z) : gzM unit := fun f c =>
  if negb (sub_len =? 0) && negb (c =? sub_len) then
    if sub_len <? c then (f, None)
    else
      let '(f', pos) := gzseek f (sub_len - c) in
      if s32 pos =? -1 then (f', None) else (f', Some (tt, sub_len))
  else (f, Some (tt, c)).

(** [m] started at count [c] reads [bs] and gives [a]. *)
Definition parses {A} (c : Z) (bs : list byte) (a : A) (m : gzM A) : Prop :=
  forall f rest, gz_rest f = bs ++ rest ->
  exists f', m f c = (f', Some (a, c + Z.of_nat (length bs))) /\ gz_rest f' = rest.

Lemma parses_ret {A} c (a : A) : parses c [] a (gz_ret a).
Proof. intros f rest Hr. exists f. unfold gz_ret. simpl. by rewrite Z.add_0_r. Qed.

Lemma parses_bind {A B} c bs1 bs2 a b (m : gzM A) (k : A -> gzM B) :
  parses c bs1 a m -> parses (c + Z.of_nat (length bs1)) bs2 b (k a) ->
  parses c (bs1 ++ bs2) b (gz_bind m k).
Proof.
  intros H1 H2 f rest Hr. rewrite <- app_assoc in Hr. unfold gz_bind.
  destruct (H1 f _ Hr) as (f1 & -> & Hr1). destruct (H2 f1 _ Hr1) as (f2 & -> & Hr2).
  exists f2. rewrite length_app. split; [do 3 f_equal; lia|done].
Qed.

(** The last step of a sequence. *)
Lemma parses_bind_ret {A B} c bs a b (m : gzM A) (k : A -> gzM B) :
  parses c bs a m -> parses (c + Z.of_nat (length bs)) [] b (k a) ->
  parses c bs b (gz_bind m k).
Proof.
  intros H1 H2. pose proof (parses_bind c bs [] a b m k H1 H2) as Hp.
  by rewrite app_nil_r in Hp.
Qed.

Lemma parses_bytes c bs n :
  Z.of_nat (length bs) = n -> n < 2147483648 -> parses c bs bs (gz_bytes n).
Proof.
  intros <- Hn f rest Hr. unfold gz_bytes. destruct (gzread f _) as [f' b] eqn:E.
  destruct (gzread_app f bs rest f' b Hr E Hn) as [-> Hr'].
  rewrite Z.eqb_refl. by exists f'.
Qed.

Lemma parses_le c k v v' :
  le_val (le_bytes k v) = v' -> Z.of_nat k < 2147483648 ->
  parses c (le_bytes k v) v' (gz_le (Z.of_nat k)).
Proof.
  intros <- Hk. unfold gz_le. eapply parses_bind_ret; [|apply parses_ret].
  apply parses_bytes; [by rewrite length_le_bytes|done].
Qed.

Lemma parses_le1 c v : is_u8 v -> parses c (le_bytes 1 v) v (gz_le 1).
Proof. intros Hv. apply (parses_le c 1); [by apply le_val_u8|lia]. Qed.
Lemma parses_le2 c v : is_u16 v -> parses c (le16 v) v (gz_le 2).
Proof. intros Hv. apply (parses_le c 2); [by apply le_val_u16|lia]. Qed.
Lemma parses_le4 c v : is_u32 v -> parses c (le32 v) v (gz_le 4).
Proof. intros Hv. apply (parses_le c 4); [by apply le_val_u32|lia]. Qed.
Lemma parses_le8 c v : is_u64 v -> parses c (le64 v) v (gz_le 8).
Proof. intros Hv. apply (parses_le c 8); [by apply le_val_u64|lia]. Qed.

(** A string with its length before it. *)
Definition str_bytes (s : list byte) : list byte := le16 (Z.of_nat (length s)) ++ s.

Lemma length_str_bytes s : Z.of_nat (length (str_bytes s)) = 2 + Z.of_nat (length s).
Proof. unfold str_bytes, le16. rewrite length_app, length_le_bytes. lia. Qed.

Lemma parses_str c fits s :
  Z.of_nat (length s) < 65536 -> fits (Z.of_nat (length s)) = true ->
  parses c (str_bytes s) s (gz_str fits).
Proof.
  intros Hl Hf. unfold gz_str, str_bytes. eapply parses_bind.
  - apply parses_le2. unfold is_u16. lia.
  - cbv beta. rewrite Hf. apply parses_bytes; [done|lia].
Qed.

Lemma parses_skip_done c sub_len : sub_len = 0 \/ sub_len = c -> parses c [] tt (gz_skip_rest sub_len).
Proof.
  intros Hs f rest Hr. exists f. unfold gz_skip_rest. simpl. rewrite Z.add_0_r.
  replace (negb (sub_len =? 0) && negb (c =? sub_len)) with false; [done|].
  destruct Hs as [->| ->]; [done|]. by rewrite Z.eqb_refl, andb_false_r.
Qed.

(** Every success of [m] counts, and takes from the file, at least [k] bytes. *)
Class Counts {A} (k : Z) (m : gzM A) : Prop :=
  counts f c f' a c' : m f c = (f', Some (a, c')) ->
    c + k <= c' /\ Z.of_nat (length (gz_rest f')) + k <= Z.of_nat (length (gz_rest f)).

Lemma counts_weaken {A} k k' (m : gzM A) : Counts k' m -> k <= k' -> Counts k m.
Proof. intros Hm Hk f c f' a c' E. apply Hm in E. lia. Qed.

#[export] Instance counts_ret {A} (a : A) : Counts 0 (gz_ret a).
Proof. intros f c f' b c' E. unfold gz_ret in E. simplify_eq. lia. Qed.

#[export] Instance counts_fail {A} : Counts (A := A) 0 gz_fail.
Proof. intros f c f' b c' E. done. Qed.

#[export] Instance counts_bind {A B} k1 k2 (m : gzM A) (g : A -> gzM B) :
  Counts k1 m -> (forall a, Counts k2 (g a)) -> Counts (k1 + k2) (gz_bind m g).
Proof.
  intros H1 H2 f c f' b c' E. unfold gz_bind in E.
  destruct (m f c) as [f1 [[a c1]|]] eqn:Em; [|done].
  apply H1 in Em. apply H2 in E. lia.
Qed.

#[export] Instance counts_if {A} k1 k2 (b : bool) (m1 m2 : gzM A) :
  Counts k1 m1 -> Counts k2 m2 -> Counts (Z.min k1 k2) (if b then m1 else m2).
Proof.
  intros H1 H2 f c f' a c' E. destruct b; [apply H1 in E|apply H2 in E]; lia.
Qed.

Lemma counts_bytes_n n : 0 <= n -> Counts n (gz_bytes n).
Proof.
  intros Hn f c f' bs c' E. unfold gz_bytes in E. destruct (gzread f n) as [f1 b] eqn:Eg.
  case_in E; simplify_eq. bool_to_prop. apply gzread_split in Eg as [-> _]; [|done].
  rewrite length_app. lia.
Qed.

#[export] Instance counts_bytes_pos p : Counts (Zpos p) (gz_bytes (Zpos p)).
Proof. apply counts_bytes_n. lia. Qed.

#[export] Instance counts_le p : Counts (Zpos p) (gz_le (Zpos p)).
Proof. unfold gz_le. rewrite <- (Z.add_0_r (Zpos p)) at 1. apply _. Qed.

#[export] Instance counts_str fits : Counts 2 (gz_str fits).
Proof.
  intros f c f' s c' E. unfold gz_str, gz_bind at 1 in E.
  destruct (gz_le 2 f c) as [f1 [[n c1]|]] eqn:El; [|done].
  assert (Hn : 0 <= n).
  { unfold gz_le, gz_bind in El. destruct (gz_bytes 2 f c) as [g [[bs ?]|]]; [|done].
    unfold gz_ret in El. simplify_eq. apply le_val_range. }
  apply counts in El. case_in E; [|done]. apply (counts_bytes_n n Hn) in E. lia.
Qed.

#[export] Instance counts_skip sub_len : Counts 0 (gz_skip_rest sub_len).
Proof.
  intros f c f' [] c' E. unfold gz_skip_rest in E. case_in E; [|simplify_eq; lia].
  case_in E; [done|]. destruct (gzseek _ _) as [f1 pos] eqn:Es. case_in E; [done|].
  simplify_eq. bool_to_prop. apply gzseek_drop in Es; [|lia|by intros ->].
  rewrite Es, length_drop. lia.
Qed.

(** ** The loop over the entries of a block. *)

(** [EntriesUndefined]: the difference of two [int32_t] in the condition of the
    loop does not fit an [int32_t]. *)
Inductive entries (A : Type) : Type :=
| EntriesRead (l : list A)
| EntriesFailed
| EntriesUndefined.

Definition entries_cons {A} (a : A) (r : entries A) : entries A :=
  match r with EntriesRead _ l => EntriesRead A (a :: l) | _ => r end.

(** [while(((int32_t)block_length - (int32_t)totreadsize) >= 4)] with [entry] as
    its body; every entry takes bytes from the file, so as many turns as there
    are bytes and one more are enough. *)
Fixpoint read_entries {A} (fuel : nat) (entry : gzM A) (block_length tot : Z) (f : R) :
    R * Z * entries A :=
  match fuel with
  | O => (f, tot, EntriesFailed A)
  | S fuel' =>
      let left := s32 block_length - s32 tot in
      if negb (left =? s32 left) then (f, tot, EntriesUndefined A)
      else if 4 <=? left then
        match entry f 0 with
        | (f1, None) => (f1, tot, EntriesFailed A)
        | (f1, Some (a, n)) =>
            let '(f2, tot', r) := read_entries fuel' entry block_length (tot + n) f1 in
            (f2, tot', entries_cons a r)
        end
      else (f, tot, EntriesRead A [])
  end.

(** [BlockOverflow]: a write past the end of a buffer, here more than the four
    bytes of [padding]; [BlockUndefined]: other undefined behaviour. *)
Inductive block_result (A : Type) : Type :=
| BlockRead (a : A)
| BlockFailure
| BlockOverflow
| BlockUndefined.

(** The loop, from [tot] bytes on, and the read of the padding behind it. *)
Definition read_block {A} (entry : gzM A) (block_length tot : Z) (f : R) :
    R * block_result (list A) :=
  match read_entries (S (length (gz_rest f))) entry block_length tot f with
  | (f1, _, EntriesFailed _) => (f1, BlockFailure _)
  | (f1, _, EntriesUndefined _) => (f1, BlockUndefined _)
  | (f1, tot', EntriesRead _ l) =>
      if block_length <? tot' then (f1, BlockFailure _)
      else
        let padding_len := block_length - tot' in
        let '(f2, pb) := gzread f1 padding_len in
        if 4 <? Z.of_nat (length pb) then (f2, BlockOverflow _)
        else if Z.of_nat (length pb) =? padding_len then (f2, BlockRead _ l)
        else (f2, BlockFailure _)
  end.
End seeking.

Arguments gzM R A : clear implicits.
Arguments EntriesRead {A} l.
Arguments EntriesFailed {A}.
Arguments EntriesUndefined {A}.
Arguments BlockRead {A} a.
Arguments BlockFailure {A}.
Arguments BlockOverflow {A}.
Arguments BlockUndefined {A}.

Notation "x <-- m ;; k" := (gz_bind m (fun x => k))
  (at level 100, m at next level, right associativity) : gz_scope.

(** ** The loop ends, and the padding stays in its buffer. *)

Section block_bounds.
Context {R : Type} `{GzSeeker R} {A : Type} (entry : gzM R A) (k : Z).
Context (Hk : 1 <= k) (Hentry : Counts k entry).

Lemma read_entries_fuel fuel : forall fuel' (f : R) bl tot,
  (length (gz_rest f) < fuel)%nat -> (fuel <= fuel')%nat ->
  read_entries fuel' entry bl tot f = read_entries fuel entry bl tot f.
Proof using Hk Hentry.
  induction fuel as [|fuel IH]; intros [|fuel'] f bl tot Hl Hf; try lia.
  cbn [read_entries]. cbv zeta. case_if; [done|]. case_if; [|done].
  destruct (entry f 0) as [f1 [[a n]|]] eqn:E; [|done].
  apply Hentry in E. rewrite (IH fuel' f1) by lia. done.
Qed.

(** When the loop ends, fewer than four bytes of the block are left, in the
    32 bit arithmetic of its condition. *)
Lemma read_entries_exit fuel : forall (f : R) bl tot f' tot' l,
  0 <= tot -> read_entries fuel entry bl tot f = (f', tot', EntriesRead l) ->
  tot <= tot' /\ - 2147483648 <= s32 bl - s32 tot' < 4.
Proof using Hk Hentry.
  induction fuel as [|fuel IH]; intros f bl tot f' tot' l Ht E; cbn [read_entries] in E; [done|].
  cbv zeta in E. case_in E; [done|]. bool_to_prop.
  case_in E; bool_to_prop; [|simplify_eq; pose proof (s32_range (s32 bl - s32 tot')); unfold is_s32 in *; lia].
  destruct (entry f 0) as [f1 [[a n]|]] eqn:Ee; [|done]. apply Hentry in Ee.
  destruct (read_entries fuel entry bl (tot + n) f1) as [[f2 tot2] [l'| |]] eqn:El; simplify_eq/=.
  apply IH in El; lia.
Qed.

Lemma s32_case v :
  0 <= v < 4294967296 ->
  (v < 2147483648 /\ s32 v = v) \/ (2147483648 <= v /\ s32 v = v - 4294967296).
Proof.
  intros Hv. destruct (decide (v < 2147483648)) as [Hs|Hs].
  - left. split; [done|]. apply s32_small. lia.
  - right. split; [lia|]. unfold s32.
    replace (v + 2 ^ 31) with (v - 2147483648 + 1 * 2 ^ 32) by lia.
    rewrite Z.mod_add, Z.mod_small by lia. lia.
Qed.

(** The read of the padding stays inside its four bytes, whatever length the
    block announces. *)
Lemma read_block_padding bl tot (f : R) :
  0 <= bl < 4294967296 -> 0 <= tot -> snd (read_block entry bl tot f) <> BlockOverflow.
Proof using Hk Hentry.
  intros Hbl Ht. unfold read_block.
  destruct (read_entries _ _ _ _ _) as [[f1 tot'] [l| |]] eqn:E; [|done|done].
  apply read_entries_exit in E as [Hge Hex]; [|done]. case_if; [done|]. bool_to_prop.
  destruct (gzread f1 (bl - tot')) as [f2 pb] eqn:Eg.
  assert (Hp : Z.of_nat (length pb) <= 4).
  { destruct (decide (bl - tot' < 4)); [apply gzread_split in Eg as [_ ?]; lia|].
    apply gzread_refused in Eg as [-> _]; [simpl; lia|].
    destruct (s32_case bl Hbl) as [[? E1]|[? E1]],
      (s32_case tot' ltac:(lia)) as [[? E2]|[? E2]]; rewrite E1, E2 in Hex; lia. }
  rewrite (proj2 (Z.ltb_ge _ _)) by lia. by case_if.
Qed.

Lemma read_entries_rest fuel : forall (f : R) bl tot f' tot' l,
  read_entries fuel entry bl tot f = (f', tot', EntriesRead l) ->
  (length (gz_rest f') <= length (gz_rest f))%nat.
Proof using Hk Hentry.
  induction fuel as [|fuel IH]; intros f bl tot f' tot' l E; cbn [read_entries] in E; [done|].
  cbv zeta in E. case_in E; [done|]. case_in E; [|by simplify_eq].
  destruct (entry f 0) as [f1 [[a n]|]] eqn:Ee; [|done]. apply Hentry in Ee.
  destruct (read_entries fuel entry bl (tot + n) f1) as [[f2 tot2] [l'| |]] eqn:El; simplify_eq/=.
  apply IH in El. lia.
Qed.

(** A block that is read is behind the file position. *)
Lemma read_block_rest bl tot (f f' : R) l :
  read_block entry bl tot f = (f', BlockRead l) ->
  (length (gz_rest f') <= length (gz_rest f))%nat.
Proof using Hk Hentry.
  unfold read_block. intros E.
  destruct (read_entries _ _ _ _ _) as [[f1 tot'] [l'| |]] eqn:Er; [|done|done].
  apply read_entries_rest in Er. case_in E; [done|]. bool_to_prop.
  destruct (gzread f1 _) as [f2 pb] eqn:Eg. apply gzread_split in Eg as [Hs _]; [|lia].
  rewrite Hs, length_app in Er. repeat case_in E; simplify_eq. lia.
Qed.
End block_bounds.

(** ** Encoded entries are read back. *)

Section block_read_back.
Context {R : Type} `{GzSeeker R} {A B : Type} (entry : gzM R A).
Context (enc : B -> list byte) (stored : B -> A).

Definition entry_ok (b : B) : Prop :=
  parses 0 (enc b) (stored b) entry /\ (4 <= length (enc b))%nat.

Lemma read_entries_ok l : forall fuel (f : R) tot bl rest,
  Forall entry_ok l -> gz_rest f = concat (map enc l) ++ rest ->
  0 <= tot -> tot + Z.of_nat (length (concat (map enc l))) <= bl ->
  bl < tot + Z.of_nat (length (concat (map enc l))) + 4 -> bl < 2147483648 ->
  (length l < fuel)%nat ->
  exists f', read_entries fuel entry bl tot f
    = (f', tot + Z.of_nat (length (concat (map enc l))), EntriesRead (map stored l)) /\
    gz_rest f' = rest.
Proof.
  induction l as [|b l IH]; intros [|fuel] f tot bl rest Hok Hr Ht Hle Hlt Hbl Hf;
    simpl in Hf; try lia; cbn [read_entries map concat] in *; cbv zeta.
  - simpl in Hle, Hlt. rewrite (s32_small bl), (s32_small tot) by lia.
    rewrite s32_small, Z.eqb_refl by lia. rewrite (proj2 (Z.leb_gt _ _)) by lia.
    exists f. by rewrite Z.add_0_r.
  - apply Forall_cons_1 in Hok as [[Hb Hlen] Hok]. rewrite length_app, Nat2Z.inj_add in *.
    rewrite (s32_small bl), (s32_small tot) by lia.
    rewrite s32_small, Z.eqb_refl by lia. rewrite (proj2 (Z.leb_le _ _)) by lia. cbn [negb].
    rewrite <- app_assoc in Hr. destruct (Hb f _ Hr) as (f1 & -> & Hr1).
    destruct (IH fuel f1 (tot + (0 + Z.of_nat (length (enc b)))) bl rest)
      as (f2 & -> & Hr2); auto; try lia.
    exists f2. cbn [entries_cons]. split; [do 2 f_equal; lia|done].
Qed.

Lemma length_concat_ge l : Forall entry_ok l -> (length l <= length (concat (map enc l)))%nat.
Proof.
  induction 1 as [|b l [_ Hb] _ IH]; [done|]. cbn [map concat]. rewrite length_app. simpl. lia.
Qed.

(** A whole body: the entries of [l] behind [tot] bytes, and the padding. *)
Lemma read_block_ok l (f : R) tot bl pad rest :
  Forall entry_ok l -> gz_rest f = concat (map enc l) ++ pad ++ rest ->
  0 <= tot -> bl = tot + Z.of_nat (length (concat (map enc l))) + Z.of_nat (length pad) ->
  (length pad < 4)%nat -> bl < 2147483648 ->
  exists f', read_block entry bl tot f = (f', BlockRead (map stored l)) /\ gz_rest f' = rest.
Proof.
  intros Hok Hr Ht Hbl Hpad Hlt. unfold read_block.
  destruct (read_entries_ok l (S (length (gz_rest f))) f tot bl (pad ++ rest))
    as (f1 & -> & Hr1); auto; try lia.
  { pose proof (length_concat_ge l Hok). rewrite Hr, length_app. lia. }
  rewrite (proj2 (Z.ltb_ge _ _)) by lia.
  replace (bl - (tot + _)) with (Z.of_nat (length pad)) by lia.
  destruct (gzread f1 _) as [f2 pb] eqn:E.
  destruct (gzread_app f1 pad rest f2 pb Hr1 E ltac:(lia)) as [-> Hr2].
  rewrite (proj2 (Z.ltb_ge _ _)) by lia. rewrite Z.eqb_refl. by exists f2.
Qed.
End block_read_back.

(** ** Writing a block. *)

Section written.
Context {F : Type} `{GzWriter F}.

(** [if(write != n || write != n || ...) return SCAP_FAILURE;] *)
Fixpoint emits (bufs : list (list byte)) (next : scap_dumper_t F -> scap_dumper_t F * Z) :
    scap_dumper_t F -> scap_dumper_t F * Z :=
  match bufs with
  | [] => next
  | b :: bufs' => emit b (emits bufs' next)
  end.

(** [gzwrite] never reports an error. *)
Definition no_write_errors : Prop :=
  forall (f : F) bs, snd (gzwrite f bs) = Z.of_nat (length bs).

Definition writes (bs : list byte) (w : scap_dumper_t F -> scap_dumper_t F * Z) : Prop :=
  forall f, exists f', w (DT_FILE f) = (DT_FILE f', SCAP_SUCCESS) /\
    gz_written f' = gz_written f ++ bs.

Hypothesis Hok : no_write_errors.

Lemma file_write (f : F) buf :
  exists f', scap_dump_write (DT_FILE f) buf = (DT_FILE f', Z.of_nat (length buf)) /\
    gz_written f' = gz_written f ++ buf.
Proof.
  simpl. pose proof (Hok f buf) as Hn. destruct (gzwrite f buf) as [f' n] eqn:E.
  simpl in Hn. subst n. exists f'. split; [done|]. by apply gzwrite_all.
Qed.

Lemma emit_writes buf bs next : writes bs next -> writes (buf ++ bs) (emit buf next).
Proof.
  intros Hn f. unfold emit. destruct (file_write f buf) as (f1 & -> & H1).
  rewrite Z.eqb_refl. destruct (Hn f1) as (f2 & -> & H2). exists f2. split; [done|].
  by rewrite H2, H1, app_assoc.
Qed.

Lemma emit_done_writes : writes [] emit_done.
Proof. intros f. exists f. by rewrite app_nil_r. Qed.

Lemma emit_last_writes buf next : writes [] next -> writes buf (emit buf next).
Proof. intros Hn. pose proof (emit_writes buf [] next Hn) as Hw. by rewrite app_nil_r in Hw. Qed.

Lemma emits_writes bufs bs next : writes bs next -> writes (concat bufs ++ bs) (emits bufs next).
Proof.
  intros Hn. induction bufs as [|b bufs IH]; [done|]. cbn [concat emits].
  rewrite <- app_assoc. by apply emit_writes.
Qed.

Lemma emits_done_writes bufs : writes (concat bufs) (emits bufs emit_done).
Proof.
  pose proof (emits_writes bufs [] emit_done emit_done_writes) as Hw.
  by rewrite app_nil_r in Hw.
Qed.

(** One writer after the other. *)
Definition dump_then (w1 w2 : scap_dumper_t F -> scap_dumper_t F * Z)
    (d : scap_dumper_t F) : scap_dumper_t F * Z :=
  let '(d', res) := w1 d in if res =? SCAP_SUCCESS then w2 d' else (d', SCAP_FAILURE).

Lemma dump_then_writes bs1 bs2 w1 w2 :
  writes bs1 w1 -> writes bs2 w2 -> writes (bs1 ++ bs2) (dump_then w1 w2).
Proof.
  intros H1 H2 f. unfold dump_then. destruct (H1 f) as (f1 & -> & E1).
  rewrite Z.eqb_refl. destruct (H2 f1) as (f2 & -> & E2). exists f2. split; [done|].
  by rewrite E2, E1, app_assoc.
Qed.
End written.

(** The total length a block writer announces for a body of [totlen] bytes. *)
Definition block_total (totlen : Z) : Z :=
  scap_normalize_block_len (u32 (sizeof_block_header + totlen + 4)).

Definition block_bytes (ty totlen : Z) (body : list byte) : list byte :=
  block_header ty (block_total totlen) ++ body ++ padding totlen ++ le32 (block_total totlen).

Lemma block_total_length n :
  0 <= n < 2147483600 ->
  block_total n - 12 = scap_normalize_block_len n /\
  n <= scap_normalize_block_len n < n + 4 /\
  Z.of_nat (length (padding n)) = scap_normalize_block_len n - n.
Proof.
  intros Hn. pose proof (normalize_spec n ltac:(lia)) as (Hs & _).
  unfold block_total, sizeof_block_header. rewrite u32_small by lia.
  replace (8 + n + 4) with (n + 4 * 3) by lia.
  rewrite normalize_shift by lia. split; [lia|]. split; [done|].
  unfold padding. rewrite length_le_bytes, u32_small, Z2Nat.id by lia. done.
Qed.

(** ** Optional fields. *)

Definition bytes_if (b : bool) (bs : list byte) : list byte := if b then bs else [].

Lemma length_bytes_if b bs :
  Z.of_nat (length (bytes_if b bs)) = if b then Z.of_nat (length bs) else 0.
Proof. by destruct b. Qed.

Lemma parses_if {R} `{GzSeeker R} {A} c (b : bool) bs (a d : A) (m : gzM R A) :
  parses c bs a m -> parses c (bytes_if b bs) (if b then a else d) (if b then m else gz_ret d).
Proof. intros Hm. destruct b; [done|apply parses_ret]. Qed.

Lemma gz_file_seeks content : no_seek_errors (R := gz_file content).
Proof.
  intros [p] n Hn. simpl in *. unfold gzf_seek. simpl.
  rewrite (proj2 (Z.ltb_ge _ _)) by lia. done.
Qed.
