(* ===== verification/FdList.v ===== *)
(** * Capture files, descriptor lists: [libscap/scap_fds.c], [libscap/scap_savefile.c]

    A capture file holds a block per process with its open descriptors.  This
    file models the entry writer [scap_fd_write_to_disk] with the length it
    announces ([scap_fd_info_len]), the entry reader [scap_fd_read_from_disk],
    and the block writer and reader [scap_write_proc_fds] and
    [scap_read_fdlist]; the theorems are the two round trips.

    A [char] array that holds a name is the list of its bytes before the
    terminator. *)

From Stdlib Require Import ZArith Lia List Bool.
From Stdlib Require Import Strings.Byte.
From stdpp Require Import base tactics list numbers option.
From S2P Require Import Prelude Bytes EventDefs.
From S2P Require Import Reader Suppress SaveFile SaveFileSpec BlockIO.
Import ListNotations.
Local Open Scope Z_scope.

Definition FDL_BLOCK_TYPE : Z := 515.      (* 0x203 *)
Definition FDL_BLOCK_TYPE_V2 : Z := 536.   (* 0x218 *)
Definition SCAP_MAX_PATH_SIZE : Z := 1024.

(** ** Descriptors. *)

(** The types whose [info] is a name. *)
Inductive named_type : Set :=
| SCAP_FD_FILE | SCAP_FD_DIRECTORY | SCAP_FD_FIFO | SCAP_FD_EVENT | SCAP_FD_UNSUPPORTED
| SCAP_FD_SIGNALFD | SCAP_FD_EVENTPOLL | SCAP_FD_INOTIFY | SCAP_FD_TIMERFD | SCAP_FD_NETLINK.

#[global] Instance named_type_eq_dec : EqDecision named_type.
Proof. solve_decision. Defined.

(** [type] and [info] of [struct scap_fdinfo]: the member of the union is the
    one the type selects.  IPv6 addresses are their 16 bytes. *)
Inductive fd_info : Type :=
| SCAP_FD_UNINITIALIZED
| SCAP_FD_UNKNOWN
| SCAP_FD_IPV4_SOCK (sip dip sport dport l4proto : Z)
| SCAP_FD_IPV6_SOCK (sip dip : list byte) (sport dport l4proto : Z)
| SCAP_FD_IPV4_SERVSOCK (ip port l4proto : Z)
| SCAP_FD_IPV6_SERVSOCK (ip : list byte) (port l4proto : Z)
| SCAP_FD_UNIX_SOCK (source destination : Z) (fname : list byte)
| SCAP_FD_FILE_V2 (open_flags : Z) (fname : list byte) (mount_id dev : Z)
| SCAP_FD_NAMED (t : named_type) (fname : list byte).

Record scap_fdinfo : Type := mk_fdinfo { fd_num : Z; fd_ino : Z; fd_inf : fd_info }.

Definition named_code (t : named_type) : Z :=
  match t with
  | SCAP_FD_FILE => 1 | SCAP_FD_DIRECTORY => 2 | SCAP_FD_FIFO => 7 | SCAP_FD_EVENT => 9
  | SCAP_FD_UNSUPPORTED => 10 | SCAP_FD_SIGNALFD => 11 | SCAP_FD_EVENTPOLL => 12
  | SCAP_FD_INOTIFY => 13 | SCAP_FD_TIMERFD => 14 | SCAP_FD_NETLINK => 15
  end.

(** [scap_fd_type] *)
Definition scap_fd_type (i : fd_info) : Z :=
  match i with
  | SCAP_FD_UNINITIALIZED => -1
  | SCAP_FD_UNKNOWN => 0
  | SCAP_FD_IPV4_SOCK _ _ _ _ _ => 3
  | SCAP_FD_IPV6_SOCK _ _ _ _ _ => 4
  | SCAP_FD_IPV4_SERVSOCK _ _ _ => 5
  | SCAP_FD_IPV6_SERVSOCK _ _ _ => 6
  | SCAP_FD_UNIX_SOCK _ _ _ => 8
  | SCAP_FD_FILE_V2 _ _ _ _ => 16
  | SCAP_FD_NAMED t _ => named_code t
  end.

Definition named_of_code (c : Z) : option named_type :=
  List.find (fun t => named_code t =? c)
    [SCAP_FD_FILE; SCAP_FD_DIRECTORY; SCAP_FD_FIFO; SCAP_FD_EVENT; SCAP_FD_UNSUPPORTED;
     SCAP_FD_SIGNALFD; SCAP_FD_EVENTPOLL; SCAP_FD_INOTIFY; SCAP_FD_TIMERFD; SCAP_FD_NETLINK].

(** [strnlen(fname, SCAP_MAX_PATH_SIZE)] *)
Definition fname_len (fname : list byte) : Z := Z.min (Z.of_nat (length fname)) SCAP_MAX_PATH_SIZE.

(** [scap_fd_info_len] *)
Definition scap_fd_info_len (fdi : scap_fdinfo) : Z :=
  let res := 4 + 8 + 1 + 8 in
  u32 (match fd_inf fdi with
       | SCAP_FD_IPV4_SOCK _ _ _ _ _ => res + (4 + 4 + 2 + 2 + 1)
       | SCAP_FD_IPV4_SERVSOCK _ _ _ => res + (4 + 2 + 1)
       | SCAP_FD_IPV6_SOCK _ _ _ _ _ => res + (4 * 4 + 4 * 4 + 2 + 2 + 1)
       | SCAP_FD_IPV6_SERVSOCK _ _ _ => res + (4 * 4 + 2 + 1)
       | SCAP_FD_UNIX_SOCK _ _ fname => res + (8 + 8 + fname_len fname + 2)
       | SCAP_FD_FILE_V2 _ fname _ _ => res + (4 + fname_len fname + 2 + 4)
       | SCAP_FD_NAMED _ fname => res + (fname_len fname + 2)
       | SCAP_FD_UNINITIALIZED | SCAP_FD_UNKNOWN => res
       end).

(** ** Writing. *)

Section writers.
Context {F : Type} `{GzWriter F}.

(** A name with its length before it; nothing follows an empty name. *)
Definition emit_name (fname : list byte) (next : scap_dumper_t F -> scap_dumper_t F * Z) :
    scap_dumper_t F -> scap_dumper_t F * Z :=
  let stlen := u16 (fname_len fname) in
  emit (le16 stlen)
    (if 0 <? stlen then emit (take (Z.to_nat stlen) fname) next else next).

(** [if(write != n || write != n || ...) { log }]: a failed write ends the
    chain, but not the function. *)
Fixpoint emit_unchecked (bufs : list (list byte)) (d : scap_dumper_t F) : scap_dumper_t F :=
  match bufs with
  | [] => d
  | b :: bufs' =>
      let '(d', n) := scap_dump_write d b in
      if n =? Z.of_nat (length b) then emit_unchecked bufs' d' else d'
  end.

(** [scap_fd_write_to_disk] *)
Definition scap_fd_write_to_disk (fdi : scap_fdinfo) (len : Z) :
    scap_dumper_t F -> scap_dumper_t F * Z :=
  emit (le32 len) (emit (le64 (fd_num fdi)) (emit (le64 (fd_ino fdi))
    (emit (le_bytes 1 (scap_fd_type (fd_inf fdi)))
      (match fd_inf fdi with
       | SCAP_FD_IPV4_SOCK sip dip sport dport l4 =>
           emit (le32 sip) (emit (le32 dip) (emit (le16 sport) (emit (le16 dport)
             (emit (le_bytes 1 l4) emit_done))))
       | SCAP_FD_IPV4_SERVSOCK ip port l4 =>
           emit (le32 ip) (emit (le16 port) (emit (le_bytes 1 l4) emit_done))
       | SCAP_FD_IPV6_SOCK sip dip sport dport l4 => fun d =>
           (emit_unchecked [sip; dip; le16 sport; le16 dport; le_bytes 1 l4] d, SCAP_SUCCESS)
       | SCAP_FD_IPV6_SERVSOCK ip port l4 => fun d =>
           (emit_unchecked [ip; le16 port; le_bytes 1 l4] d, SCAP_SUCCESS)
       | SCAP_FD_UNIX_SOCK source destination fname =>
           emit (le64 source) (emit (le64 destination) (emit_name fname emit_done))
       | SCAP_FD_FILE_V2 open_flags fname _ dev =>
           emit (le32 open_flags) (emit_name fname (emit (le32 dev) emit_done))
       | SCAP_FD_NAMED _ fname => emit_name fname emit_done
       | SCAP_FD_UNKNOWN => emit_done
       | SCAP_FD_UNINITIALIZED => fun d => (d, SCAP_FAILURE)
       end)))).

(** [struct scap_threadinfo]: the fields the descriptor lists use, the
    descriptors in the order of the hash table. *)
Record fd_owner : Type := mk_owner {
  fo_tid : Z;
  fo_filtered_out : bool;
  fo_fdlist : list scap_fdinfo }.

(** The descriptors that are written. *)
Definition fd_known (fdi : scap_fdinfo) : bool :=
  match fd_inf fdi with SCAP_FD_UNINITIALIZED | SCAP_FD_UNKNOWN => false | _ => true end.

(** The first pass over the table. *)
Definition fds_totlen (fds : list scap_fdinfo) : Z :=
  foldl (fun acc fdi => if fd_known fdi then u32 (acc + scap_fd_info_len fdi) else acc) 8 fds.

(** The second pass. *)
Fixpoint write_fds (fds : list scap_fdinfo) (d : scap_dumper_t F) : scap_dumper_t F * Z :=
  match fds with
  | [] => (d, SCAP_SUCCESS)
  | fdi :: fds' =>
      if fd_known fdi then
        let '(d', res) := scap_fd_write_to_disk fdi (scap_fd_info_len fdi) d in
        if res =? SCAP_SUCCESS then write_fds fds' d' else (d', SCAP_FAILURE)
      else write_fds fds' d
  end.

(** [scap_write_proc_fds] *)
Definition scap_write_proc_fds (t : fd_owner) (d : scap_dumper_t F) : scap_dumper_t F * Z :=
  let totlen := fds_totlen (fo_fdlist t) in
  let total := scap_normalize_block_len (u32 (sizeof_block_header + totlen + 4)) in
  emit (block_header FDL_BLOCK_TYPE_V2 total)
    (emit (le64 (fo_tid t))
      (fun d =>
        let '(d', res) := write_fds (fo_fdlist t) d in
        if res =? SCAP_SUCCESS
        then emit (padding totlen) (emit (le32 total) emit_done) d'
        else (d', SCAP_FAILURE))) d.

(** [scap_write_fdlist] *)
Fixpoint scap_write_fdlist (ts : list fd_owner) (d : scap_dumper_t F) : scap_dumper_t F * Z :=
  match ts with
  | [] => (d, SCAP_SUCCESS)
  | t :: ts' =>
      if fo_filtered_out t then scap_write_fdlist ts' d
      else
        let '(d', res) := scap_write_proc_fds t d in
        if res =? SCAP_SUCCESS then scap_write_fdlist ts' d' else (d', res)
  end.
End writers.

(** ** Reading. *)

(** The bytes of [bs] at [off]. *)
Definition sub_bytes (bs : list byte) (off n : nat) : list byte := take n (drop off bs).
Definition field (bs : list byte) (off n : nat) : Z := le_val (sub_bytes bs off n).

Section readers.
Context {R : Type} `{GzSeeker R}.

(** [gzread(...) != n || gzread(...) != n || ...]: the bytes read, up to the
    first short read, and whether there was none. *)
Fixpoint gz_chain (sizes : list nat) (f : R) : R * list byte * bool :=
  match sizes with
  | [] => (f, [], true)
  | n :: sizes' =>
      let '(f1, bs) := gzread f (Z.of_nat n) in
      if Nat.eqb (length bs) n then
        let '(f2, r, ok) := gz_chain sizes' f1 in (f2, bs ++ r, ok)
      else (f1, bs, false)
  end.

(** [scap_fd_read_fname_from_disk]: the count of bytes is updated even when it
    fails. *)
Definition scap_fd_read_fname_from_disk (nbytes : Z) (f : R) : R * Z * option (list byte) :=
  let '(f1, lb) := gzread f 2 in
  if negb (Nat.eqb (length lb) 2) then (f1, nbytes, None)
  else
    let stlen := le_val lb in
    if SCAP_MAX_PATH_SIZE <=? stlen then (f1, nbytes, None)
    else
      let '(f2, bs) := gzread f1 stlen in
      if negb (Z.of_nat (length bs) =? stlen) then (f2, nbytes + 2, None)
      else (f2, nbytes + 2 + stlen, Some (c_string bs)).

(** The properties before the switch; in the old blocks there is no length. *)
Definition read_fd_props (block_type : Z) (f : R) : R * Z * option (Z * Z * Z * Z) :=
  let '(f1, lb, ok1) :=
    if block_type =? FDL_BLOCK_TYPE_V2 then gz_chain [4%nat] f else (f, le32 0, true) in
  let n1 := if block_type =? FDL_BLOCK_TYPE_V2 then 4 else 0 in
  if negb ok1 then (f1, 0, None)
  else
    let '(f2, bs, ok2) := gz_chain [8; 8; 1]%nat f1 in
    if negb ok2 then (f2, n1, None)
    else (f2, n1 + 17, Some (le_val lb, s64 (field bs 0 8), field bs 8 8, field bs 16 1)).

(** [stale] is what the caller's [scap_fdinfo] holds where it is not written:
    the 37 bytes of the IPv6 members, [mount_id] and [dev]. *)
Record stale_fdinfo : Type := mk_stale { st_ipv6 : list byte; st_mount_id : Z; st_dev : Z }.

(** [bs] over the first bytes of [old]. *)
Definition overlay (bs old : list byte) : list byte := bs ++ drop (length bs) old.

(** The switch: the file, the count of bytes and the info, if it was read. *)
Definition read_fd_info (stale : stale_fdinfo) (sub_len type nbytes : Z) (f : R) :
    R * Z * option fd_info :=
  if type =? 3 then
    let '(f1, bs, ok) := gz_chain [4; 4; 2; 2; 1]%nat f in
    if ok then (f1, nbytes + 13,
      Some (SCAP_FD_IPV4_SOCK (field bs 0 4) (field bs 4 4) (field bs 8 2) (field bs 10 2)
              (field bs 12 1)))
    else (f1, nbytes, None)
  else if type =? 5 then
    let '(f1, bs, ok) := gz_chain [4; 2; 1]%nat f in
    if ok then (f1, nbytes + 7,
      Some (SCAP_FD_IPV4_SERVSOCK (field bs 0 4) (field bs 4 2) (field bs 6 1)))
    else (f1, nbytes, None)
  else if type =? 4 then
    let '(f1, bs, _) := gz_chain [16; 16; 2; 2; 1]%nat f in
    let bs := overlay bs (st_ipv6 stale) in
    (f1, nbytes + 37,
     Some (SCAP_FD_IPV6_SOCK (sub_bytes bs 0 16) (sub_bytes bs 16 16) (field bs 32 2)
             (field bs 34 2) (field bs 36 1)))
  else if type =? 6 then
    let '(f1, bs, _) := gz_chain [16; 2; 1]%nat f in
    let bs := overlay bs (st_ipv6 stale) in
    (f1, nbytes + 19,
     Some (SCAP_FD_IPV6_SERVSOCK (sub_bytes bs 0 16) (field bs 16 2) (field bs 18 1)))
  else if type =? 8 then
    let '(f1, bs, ok) := gz_chain [8; 8]%nat f in
    if negb ok then (f1, nbytes, None)
    else
      let '(f2, n, name) := scap_fd_read_fname_from_disk (nbytes + 16) f1 in
      (f2, n, option_map (SCAP_FD_UNIX_SOCK (field bs 0 8) (field bs 8 8)) name)
  else if type =? 16 then
    let '(f1, bs, ok) := gz_chain [4%nat] f in
    if negb ok then (f1, nbytes, None)
    else
      let '(f2, n, name) := scap_fd_read_fname_from_disk (nbytes + 4) f1 in
      let mk := fun dev fname => SCAP_FD_FILE_V2 (le_val bs) fname (st_mount_id stale) dev in
      if (sub_len =? 0) || (sub_len <? n + 4) then (f2, n, option_map (mk (st_dev stale)) name)
      else
        let '(f3, db, ok3) := gz_chain [4%nat] f2 in
        if ok3 then (f3, n + 4, option_map (mk (le_val db)) name) else (f3, n, None)
  else if type =? 0 then (f, nbytes, Some SCAP_FD_UNKNOWN)
  else
    match named_of_code type with
    | Some t =>
        let '(f1, n, name) := scap_fd_read_fname_from_disk nbytes f in
        (f1, n, option_map (SCAP_FD_NAMED t) name)
    | None => (f, nbytes, None)
    end.

(** [scap_fd_read_from_disk]: the entry and the number of bytes read.  When
    the switch fails for another reason than a name, the function returns at
    once; the file is not used after a failure. *)
Definition scap_fd_read_from_disk (stale : stale_fdinfo) (block_type : Z) (f : R) :
    R * option (scap_fdinfo * Z) :=
  match read_fd_props block_type f with
  | (f1, _, None) => (f1, None)
  | (f1, n1, Some (sub_len, fd, ino, type)) =>
      match read_fd_info stale sub_len type n1 f1 with
      | (f2, _, None) => (f2, None)
      | (f2, n2, Some i) =>
          if negb (sub_len =? 0) && negb (n2 =? sub_len) then
            if sub_len <? n2 then (f2, None)
            else
              let '(f3, pos) := gzseek f2 (sub_len - n2) in
              if s32 pos =? -1 then (f3, None) else (f3, Some (mk_fdinfo fd ino i, sub_len))
          else (f2, Some (mk_fdinfo fd ino i, n2))
      end
  end.

(** The body of the loop of [scap_read_fdlist]. *)
Definition fd_entry (stale : stale_fdinfo) (block_type : Z) : gzM R scap_fdinfo := fun f c =>
  match scap_fd_read_from_disk stale block_type f with
  | (f1, Some (fdi, n)) => (f1, Some (fdi, c + n))
  | (f1, None) => (f1, None)
  end.

(** [scap_read_fdlist], with [known] telling whether the thread is in the
    process table, or true when a callback takes the entries; the result is the
    thread and its descriptors, which the caller adds to its list. *)
Definition scap_read_fdlist (known : Z -> bool) (stale : stale_fdinfo)
    (block_length block_type : Z) (f : R) : R * block_result (Z * list scap_fdinfo) :=
  let '(f1, tb) := gzread f 8 in
  if negb (Nat.eqb (length tb) 8) then (f1, BlockFailure)
  else
    let tid := le_val tb in
    if negb (known tid) then (f1, BlockFailure)
    else
      match read_block (fd_entry stale block_type) block_length 8 f1 with
      | (f2, BlockRead fds) => (f2, BlockRead (tid, fds))
      | (f2, BlockFailure) => (f2, BlockFailure)
      | (f2, BlockOverflow) => (f2, BlockOverflow)
      | (f2, BlockUndefined) => (f2, BlockUndefined)
      end.
End readers.

(** ** The encoding of an entry. *)

Definition name_bytes (fname : list byte) : list byte :=
  le16 (Z.of_nat (length fname)) ++ fname.

Definition info_bytes (i : fd_info) : list byte :=
  match i with
  | SCAP_FD_UNINITIALIZED | SCAP_FD_UNKNOWN => []
  | SCAP_FD_IPV4_SOCK sip dip sport dport l4 =>
      le32 sip ++ le32 dip ++ le16 sport ++ le16 dport ++ le_bytes 1 l4
  | SCAP_FD_IPV6_SOCK sip dip sport dport l4 =>
      sip ++ dip ++ le16 sport ++ le16 dport ++ le_bytes 1 l4
  | SCAP_FD_IPV4_SERVSOCK ip port l4 => le32 ip ++ le16 port ++ le_bytes 1 l4
  | SCAP_FD_IPV6_SERVSOCK ip port l4 => ip ++ le16 port ++ le_bytes 1 l4
  | SCAP_FD_UNIX_SOCK source destination fname =>
      le64 source ++ le64 destination ++ name_bytes fname
  | SCAP_FD_FILE_V2 open_flags fname _ dev => le32 open_flags ++ name_bytes fname ++ le32 dev
  | SCAP_FD_NAMED _ fname => name_bytes fname
  end.

Definition fd_bytes (fdi : scap_fdinfo) : list byte :=
  le32 (scap_fd_info_len fdi) ++ le64 (fd_num fdi) ++ le64 (fd_ino fdi)
  ++ le_bytes 1 (scap_fd_type (fd_inf fdi)) ++ info_bytes (fd_inf fdi).

(** Names with their terminator inside the array. *)
Definition name_ok (fname : list byte) : Prop :=
  (x00 ∉ fname) /\ Z.of_nat (length fname) < SCAP_MAX_PATH_SIZE.

Definition info_ok (i : fd_info) : Prop :=
  match i with
  | SCAP_FD_UNINITIALIZED | SCAP_FD_UNKNOWN => True
  | SCAP_FD_IPV4_SOCK sip dip sport dport l4 =>
      is_u32 sip /\ is_u32 dip /\ is_u16 sport /\ is_u16 dport /\ is_u8 l4
  | SCAP_FD_IPV6_SOCK sip dip sport dport l4 =>
      length sip = 16%nat /\ length dip = 16%nat /\ is_u16 sport /\ is_u16 dport /\ is_u8 l4
  | SCAP_FD_IPV4_SERVSOCK ip port l4 => is_u32 ip /\ is_u16 port /\ is_u8 l4
  | SCAP_FD_IPV6_SERVSOCK ip port l4 => length ip = 16%nat /\ is_u16 port /\ is_u8 l4
  | SCAP_FD_UNIX_SOCK source destination fname =>
      is_u64 source /\ is_u64 destination /\ name_ok fname
  | SCAP_FD_FILE_V2 open_flags fname _ dev => is_u32 open_flags /\ name_ok fname /\ is_u32 dev
  | SCAP_FD_NAMED _ fname => name_ok fname
  end.

Definition fd_ok (fdi : scap_fdinfo) : Prop :=
  - 9223372036854775808 <= fd_num fdi < 9223372036854775808 /\ is_u64 (fd_ino fdi) /\
  info_ok (fd_inf fdi).

(** What a reader gets back: [mount_id] is not stored. *)
Definition info_stored (stale : stale_fdinfo) (i : fd_info) : fd_info :=
  match i with
  | SCAP_FD_FILE_V2 open_flags fname _ dev =>
      SCAP_FD_FILE_V2 open_flags fname (st_mount_id stale) dev
  | _ => i
  end.

Definition fd_stored (stale : stale_fdinfo) (fdi : scap_fdinfo) : scap_fdinfo :=
  mk_fdinfo (fd_num fdi) (fd_ino fdi) (info_stored stale (fd_inf fdi)).

Lemma fname_len_ok fname : name_ok fname -> fname_len fname = Z.of_nat (length fname).
Proof. intros [_ Hl]. unfold fname_len. lia. Qed.

Lemma length_name_bytes fname : length (name_bytes fname) = (2 + length fname)%nat.
Proof. unfold name_bytes, le16. by rewrite length_app, length_le_bytes. Qed.

(** The announced length is the length written. *)
Lemma length_fd_bytes fdi :
  fd_ok fdi -> Z.of_nat (length (fd_bytes fdi)) = scap_fd_info_len fdi.
Proof.
  intros (_ & _ & Hi). unfold fd_bytes, scap_fd_info_len, le16, le32, le64.
  rewrite !length_app, !length_le_bytes.
  destruct (fd_inf fdi) as [| |? ? ? ? ?|? ? ? ? ?|? ? ?|? ? ?|? ? fname|? fname ? ?|? fname];
    simpl in Hi; cbn [info_bytes]; unfold le16, le32, le64;
    rewrite ?length_app, ?length_name_bytes, ?length_le_bytes;
    try (destruct Hi as (? & ? & Hi)); try (destruct Hi as (? & Hi));
    rewrite ?fname_len_ok by (unfold name_ok in *; tauto);
    unfold name_ok, SCAP_MAX_PATH_SIZE in *; rewrite u32_small; simpl; lia.
Qed.

(** ** Writing succeeds with the encoding. *)

Section written.
Context {F : Type} `{GzWriter F}.

Hypothesis Hok : no_write_errors (F := F).

Lemma emit_name_writes fname bs next :
  name_ok fname -> writes bs next -> writes (name_bytes fname ++ bs) (emit_name fname next).
Proof.
  intros Hn Hw. unfold emit_name, name_bytes. rewrite fname_len_ok by done.
  destruct Hn as [_ Hl]. unfold SCAP_MAX_PATH_SIZE in Hl. rewrite u16_small by lia.
  rewrite <- app_assoc. apply emit_writes; [done|].
  destruct (Z.ltb_spec 0 (Z.of_nat (length fname))).
  - rewrite Nat2Z.id, firstn_all. by apply emit_writes.
  - destruct fname; [done|]. simpl in *. lia.
Qed.

Lemma emit_name_last fname : name_ok fname -> writes (name_bytes fname) (emit_name fname emit_done).
Proof.
  intros Hn. pose proof (emit_name_writes fname [] emit_done Hn emit_done_writes) as Hw.
  by rewrite app_nil_r in Hw.
Qed.

Lemma emit_unchecked_writes bufs : forall f,
  exists f', emit_unchecked bufs (DT_FILE f) = DT_FILE f' /\
    gz_written f' = gz_written f ++ concat bufs.
Proof.
  induction bufs as [|b bufs IH]; intros f; cbn [emit_unchecked concat].
  { exists f. by rewrite app_nil_r. }
  destruct (file_write Hok f b) as (f1 & -> & H1). rewrite Z.eqb_refl.
  destruct (IH f1) as (f2 & -> & H2). exists f2. split; [done|].
  by rewrite H2, H1, app_assoc.
Qed.

Lemma unchecked_writes bufs :
  writes (concat bufs) (fun d => (emit_unchecked bufs d, SCAP_SUCCESS)).
Proof. intros f. destruct (emit_unchecked_writes bufs f) as (f' & -> & Hw). by exists f'. Qed.

Lemma fd_write_writes fdi :
  fd_ok fdi -> fd_inf fdi <> SCAP_FD_UNINITIALIZED ->
  writes (fd_bytes fdi) (scap_fd_write_to_disk fdi (scap_fd_info_len fdi)).
Proof.
  intros (_ & _ & Hi) Hu. unfold scap_fd_write_to_disk, fd_bytes.
  do 4 (apply emit_writes; [done|]).
  destruct (fd_inf fdi) as [| |? ? ? ? ?|sip dip sport dport l4|? ? ?|ip port l4|? ? fname
    |? fname ? ?|? fname]; simpl in Hi; cbn [info_bytes]; [done|apply emit_done_writes|..].
  - do 4 (apply emit_writes; [done|]). apply emit_last_writes; [done|apply emit_done_writes].
  - pose proof (unchecked_writes [sip; dip; le16 sport; le16 dport; le_bytes 1 l4]) as Hw.
    cbn [concat] in Hw. by rewrite app_nil_r in Hw.
  - do 2 (apply emit_writes; [done|]). apply emit_last_writes; [done|apply emit_done_writes].
  - pose proof (unchecked_writes [ip; le16 port; le_bytes 1 l4]) as Hw.
    cbn [concat] in Hw. by rewrite app_nil_r in Hw.
  - do 2 (apply emit_writes; [done|]). apply emit_name_last. tauto.
  - apply emit_writes; [done|]. apply emit_name_writes; [tauto|].
    apply emit_last_writes; [done|apply emit_done_writes].
  - by apply emit_name_last.
Qed.
End written.

(** ** Reading gives the entry back. *)

Section read_back.
Context {R : Type} `{GzSeeker R}.

(** The chains of an entry are short. *)
Ltac chain_len :=
  cbn [concat]; unfold le16, le32, le64; rewrite ?length_app, ?length_le_bytes; simpl; lia.

Lemma gz_chain_ok bss : forall (f : R) rest,
  Z.of_nat (length (concat bss)) < 2147483648 -> gz_rest f = concat bss ++ rest ->
  exists f', gz_chain (map length bss) f = (f', concat bss, true) /\ gz_rest f' = rest.
Proof.
  induction bss as [|b bss IH]; intros f rest Hl Hr; cbn [map gz_chain concat] in *.
  { by exists f. }
  destruct (gzread f (Z.of_nat (length b))) as [f1 bs] eqn:E. rewrite length_app in Hl.
  rewrite <- app_assoc in Hr. destruct (gzread_app f b _ f1 bs Hr E) as [-> H1]; [lia|].
  rewrite Nat.eqb_refl. destruct (IH f1 rest ltac:(lia) H1) as (f2 & -> & H2). by exists f2.
Qed.

Lemma read_fname_ok (f : R) fname rest n :
  name_ok fname -> gz_rest f = name_bytes fname ++ rest ->
  exists f', scap_fd_read_fname_from_disk n f
             = (f', n + 2 + Z.of_nat (length fname), Some fname) /\ gz_rest f' = rest.
Proof.
  intros [Hz Hl] Hr. unfold scap_fd_read_fname_from_disk, name_bytes in *.
  unfold SCAP_MAX_PATH_SIZE in *. rewrite <- app_assoc in Hr.
  destruct (gzread f 2) as [f1 lb] eqn:E1.
  destruct (gzread_app f (le16 (Z.of_nat (length fname))) _ f1 lb Hr E1) as [-> H1]; [done|].
  rewrite (length_le_bytes 2). cbn [Nat.eqb negb]. rewrite le_val_le16, u16_small by lia.
  rewrite (proj2 (Z.leb_gt 1024 _)) by lia.
  destruct (gzread f1 (Z.of_nat (length fname))) as [f2 bs] eqn:E2.
  destruct (gzread_app f1 fname _ f2 bs H1 E2) as [-> H2]; [lia|].
  rewrite Z.eqb_refl. cbn [negb]. rewrite c_string_id by done. by exists f2.
Qed.

Lemma sub_bytes_here (a b : list byte) n : length a = n -> sub_bytes (a ++ b) 0 n = a.
Proof. intros <-. unfold sub_bytes. by rewrite drop_0, take_app_length. Qed.

Lemma sub_bytes_skip (a b : list byte) k j n :
  length a = k -> sub_bytes (a ++ b) (k + j) n = sub_bytes b j n.
Proof.
  intros <-. unfold sub_bytes. rewrite drop_app_ge by lia. do 2 f_equal. lia.
Qed.

(** The two fields behind the addresses of the IPv6 members. *)
Lemma tail_fields sport dport l4 old :
  is_u16 sport -> is_u16 dport -> is_u8 l4 ->
  let bs := (le16 sport ++ le16 dport ++ le_bytes 1 l4) ++ old in
  field bs 0 2 = sport /\ field bs 2 2 = dport /\ field bs 4 1 = l4.
Proof.
  intros Hs Hd Hl bs. split_and!.
  - change (field bs 0 2) with (le_val (le16 sport)). rewrite le_val_le16. by apply u16_small.
  - change (field bs 2 2) with (le_val (le16 dport)). rewrite le_val_le16. by apply u16_small.
  - change (field bs 4 1) with (le_val (le_bytes 1 l4)). by apply le_val_u8.
Qed.

Lemma named_of_code_code t : named_of_code (named_code t) = Some t.
Proof. by destruct t. Qed.

Lemma read_ipv4 (f : R) stale n sub_len rest sip dip sport dport l4 :
  info_ok (SCAP_FD_IPV4_SOCK sip dip sport dport l4) ->
  gz_rest f = info_bytes (SCAP_FD_IPV4_SOCK sip dip sport dport l4) ++ rest ->
  exists f', read_fd_info stale sub_len 3 n f
    = (f', n + 13, Some (SCAP_FD_IPV4_SOCK sip dip sport dport l4)) /\ gz_rest f' = rest.
Proof.
  intros (H1 & H2 & H3 & H4 & H5) Hr. unfold read_fd_info. cbn [Z.eqb Pos.eqb].
  destruct (gz_chain_ok [le32 sip; le32 dip; le16 sport; le16 dport; le_bytes 1 l4] f rest)
    as (f' & Hc & Hr'); [chain_len|cbn [concat]; by rewrite app_nil_r|].
  exists f'. split; [|done]. change (gz_chain [4; 4; 2; 2; 1]%nat f)
    with (gz_chain (map length [le32 sip; le32 dip; le16 sport; le16 dport; le_bytes 1 l4]) f).
  rewrite Hc. set (bs := concat _).
  change (field bs 0 4) with (le_val (le32 sip)). change (field bs 4 4) with (le_val (le32 dip)).
  change (field bs 8 2) with (le_val (le16 sport)).
  change (field bs 10 2) with (le_val (le16 dport)).
  change (field bs 12 1) with (le_val (le_bytes 1 l4)).
  rewrite !le_val_le32, !le_val_le16, le_val_u8 by done.
  by rewrite !u32_small, !u16_small by done.
Qed.

Lemma read_ipv4_server (f : R) stale n sub_len rest ip port l4 :
  info_ok (SCAP_FD_IPV4_SERVSOCK ip port l4) ->
  gz_rest f = info_bytes (SCAP_FD_IPV4_SERVSOCK ip port l4) ++ rest ->
  exists f', read_fd_info stale sub_len 5 n f
    = (f', n + 7, Some (SCAP_FD_IPV4_SERVSOCK ip port l4)) /\ gz_rest f' = rest.
Proof.
  intros (H1 & H2 & H3) Hr. unfold read_fd_info. cbn [Z.eqb Pos.eqb].
  destruct (gz_chain_ok [le32 ip; le16 port; le_bytes 1 l4] f rest)
    as (f' & Hc & Hr'); [chain_len|cbn [concat]; by rewrite app_nil_r|].
  exists f'. split; [|done]. change (gz_chain [4; 2; 1]%nat f)
    with (gz_chain (map length [le32 ip; le16 port; le_bytes 1 l4]) f).
  rewrite Hc. set (bs := concat _).
  change (field bs 0 4) with (le_val (le32 ip)). change (field bs 4 2) with (le_val (le16 port)).
  change (field bs 6 1) with (le_val (le_bytes 1 l4)).
  rewrite le_val_le32, le_val_le16, le_val_u8 by done.
  by rewrite u32_small, u16_small by done.
Qed.

Lemma read_ipv6 (f : R) stale n sub_len rest sip dip sport dport l4 :
  info_ok (SCAP_FD_IPV6_SOCK sip dip sport dport l4) ->
  gz_rest f = info_bytes (SCAP_FD_IPV6_SOCK sip dip sport dport l4) ++ rest ->
  exists f', read_fd_info stale sub_len 4 n f
    = (f', n + 37, Some (SCAP_FD_IPV6_SOCK sip dip sport dport l4)) /\ gz_rest f' = rest.
Proof.
  intros (H1 & H2 & H3 & H4 & H5) Hr. unfold read_fd_info. cbn [Z.eqb Pos.eqb].
  destruct (gz_chain_ok [sip; dip; le16 sport; le16 dport; le_bytes 1 l4] f rest)
    as (f' & Hc & Hr'); [chain_len|cbn [concat]; by rewrite app_nil_r|].
  exists f'. split; [|done]. cbn [map concat] in Hc. rewrite H1, H2 in Hc.
  change (gz_chain [16%nat; 16%nat; length (le16 sport); length (le16 dport);
                     length (le_bytes 1 l4)] f)
    with (gz_chain [16; 16; 2; 2; 1]%nat f) in Hc. rewrite Hc, app_nil_r.
  unfold overlay. rewrite <- app_assoc. rewrite sub_bytes_here by done.
  unfold field. rewrite (sub_bytes_skip sip _ 16 0), (sub_bytes_skip sip _ 16 16),
    (sub_bytes_skip sip _ 16 18), (sub_bytes_skip sip _ 16 20) by done.
  rewrite <- app_assoc. rewrite sub_bytes_here by done.
  rewrite (sub_bytes_skip dip _ 16 0), (sub_bytes_skip dip _ 16 2),
    (sub_bytes_skip dip _ 16 4) by done.
  destruct (tail_fields sport dport l4 (drop (length (sip ++ dip ++ le16 sport ++ le16 dport
    ++ le_bytes 1 l4)) (st_ipv6 stale)) H3 H4 H5) as (E1 & E2 & E3).
  unfold field in E1, E2, E3. by rewrite E1, E2, E3.
Qed.

Lemma read_ipv6_server (f : R) stale n sub_len rest ip port l4 :
  info_ok (SCAP_FD_IPV6_SERVSOCK ip port l4) ->
  gz_rest f = info_bytes (SCAP_FD_IPV6_SERVSOCK ip port l4) ++ rest ->
  exists f', read_fd_info stale sub_len 6 n f
    = (f', n + 19, Some (SCAP_FD_IPV6_SERVSOCK ip port l4)) /\ gz_rest f' = rest.
Proof.
  intros (H1 & H2 & H3) Hr. unfold read_fd_info. cbn [Z.eqb Pos.eqb].
  destruct (gz_chain_ok [ip; le16 port; le_bytes 1 l4] f rest)
    as (f' & Hc & Hr'); [chain_len|cbn [concat]; by rewrite app_nil_r|].
  exists f'. split; [|done]. cbn [map concat] in Hc. rewrite H1 in Hc.
  change (gz_chain [16%nat; length (le16 port); length (le_bytes 1 l4)] f)
    with (gz_chain [16; 2; 1]%nat f) in Hc. rewrite Hc, app_nil_r.
  unfold overlay. rewrite <- app_assoc. rewrite sub_bytes_here by done.
  unfold field. rewrite (sub_bytes_skip ip _ 16 0), (sub_bytes_skip ip _ 16 2) by done.
  set (old := drop _ _). rewrite <- app_assoc.
  change (sub_bytes (le16 port ++ le_bytes 1 l4 ++ old) 0 2) with (le16 port).
  change (sub_bytes (le16 port ++ le_bytes 1 l4 ++ old) 2 1) with (le_bytes 1 l4).
  by rewrite le_val_le16, u16_small, le_val_u8 by done.
Qed.

Lemma gz_chain_one (f : R) b rest :
  Z.of_nat (length b) < 2147483648 -> gz_rest f = b ++ rest ->
  exists f', gz_chain [length b] f = (f', b, true) /\ gz_rest f' = rest.
Proof.
  intros Hl Hr. destruct (gz_chain_ok [b] f rest) as (f' & Hc & Hr');
    [cbn [concat]; by rewrite app_nil_r|cbn [concat]; by rewrite app_nil_r|].
  cbn [map concat] in Hc. rewrite app_nil_r in Hc. eauto.
Qed.

Lemma read_unix (f : R) stale n sub_len rest source destination fname :
  info_ok (SCAP_FD_UNIX_SOCK source destination fname) ->
  gz_rest f = info_bytes (SCAP_FD_UNIX_SOCK source destination fname) ++ rest ->
  exists f', read_fd_info stale sub_len 8 n f
    = (f', n + 16 + 2 + Z.of_nat (length fname),
       Some (SCAP_FD_UNIX_SOCK source destination fname)) /\ gz_rest f' = rest.
Proof.
  intros (H1 & H2 & H3) Hr. unfold read_fd_info. cbn [Z.eqb Pos.eqb].
  destruct (gz_chain_ok [le64 source; le64 destination] f (name_bytes fname ++ rest))
    as (f1 & Hc & Hr1); [chain_len|..].
  { cbn [concat info_bytes] in *. rewrite Hr, app_nil_r, <- !app_assoc. done. }
  change (gz_chain [8; 8]%nat f)
    with (gz_chain (map length [le64 source; le64 destination]) f).
  rewrite Hc. cbn [negb]. set (bs := concat _).
  destruct (read_fname_ok f1 fname rest (n + 16) H3 Hr1) as (f2 & -> & Hr2).
  exists f2. split; [|done]. cbn [option_map].
  change (field bs 0 8) with (le_val (le64 source)).
  change (field bs 8 8) with (le_val (le64 destination)).
  by rewrite !le_val_le64, !u64_small by done.
Qed.

Lemma read_file_v2 (f : R) stale n sub_len rest open_flags fname mount_id dev :
  info_ok (SCAP_FD_FILE_V2 open_flags fname mount_id dev) ->
  gz_rest f = info_bytes (SCAP_FD_FILE_V2 open_flags fname mount_id dev) ++ rest ->
  0 <= n -> n + 4 + 2 + Z.of_nat (length fname) + 4 <= sub_len ->
  exists f', read_fd_info stale sub_len 16 n f
    = (f', n + 4 + 2 + Z.of_nat (length fname) + 4,
       Some (SCAP_FD_FILE_V2 open_flags fname (st_mount_id stale) dev)) /\ gz_rest f' = rest.
Proof.
  intros (H1 & H2 & H3) Hr Hn Hs. unfold read_fd_info. cbn [Z.eqb Pos.eqb].
  cbn [info_bytes] in Hr. rewrite <- !app_assoc in Hr.
  destruct (gz_chain_one f (le32 open_flags) _ eq_refl Hr) as (f1 & Hc & Hr1).
  change (gz_chain [4%nat] f) with (gz_chain [length (le32 open_flags)] f).
  rewrite Hc. cbn [negb].
  destruct (read_fname_ok f1 fname _ (n + 4) H2 Hr1) as (f2 & -> & Hr2).
  rewrite (proj2 (Z.eqb_neq sub_len 0)) by lia.
  rewrite (proj2 (Z.ltb_ge sub_len _)) by lia. cbn [orb].
  destruct (gz_chain_one f2 (le32 dev) _ eq_refl Hr2) as (f3 & Hc3 & Hr3).
  change (gz_chain [4%nat] f2) with (gz_chain [length (le32 dev)] f2).
  rewrite Hc3. exists f3. split; [|done]. cbn [option_map].
  by rewrite !le_val_le32, !u32_small by done.
Qed.

Lemma read_named (f : R) stale n sub_len rest t fname :
  name_ok fname -> gz_rest f = name_bytes fname ++ rest ->
  exists f', read_fd_info stale sub_len (named_code t) n f
    = (f', n + 2 + Z.of_nat (length fname), Some (SCAP_FD_NAMED t fname)) /\ gz_rest f' = rest.
Proof.
  intros Hn Hr. destruct (read_fname_ok f fname rest n Hn Hr) as (f' & Hf & Hr').
  exists f'. split; [|done]. unfold read_fd_info. rewrite named_of_code_code, Hf.
  by destruct t.
Qed.

Lemma read_fd_info_ok (f : R) stale i n sub_len rest :
  info_ok i -> i <> SCAP_FD_UNINITIALIZED -> gz_rest f = info_bytes i ++ rest ->
  0 <= n -> sub_len = n + Z.of_nat (length (info_bytes i)) ->
  exists f', read_fd_info stale sub_len (scap_fd_type i) n f
    = (f', sub_len, Some (info_stored stale i)) /\ gz_rest f' = rest.
Proof.
  intros Hi Hu Hr Hn ->.
  destruct i as [| |sip dip sport dport l4|sip dip sport dport l4|ip port l4|ip port l4
    |source destination fname|open_flags fname mount_id dev|t fname]; [done|..];
    cbn [scap_fd_type info_stored].
  - exists f. split; [|done]. simpl. by rewrite Z.add_0_r.
  - apply read_ipv4 with (stale := stale) (n := n) (sub_len := n + 13) in Hr; [|done].
    exact Hr.
  - destruct Hi as (L1 & L2 & Hi). cbn [info_bytes]. rewrite !length_app, L1, L2.
    apply read_ipv6; [by split|done].
  - apply read_ipv4_server with (stale := stale) (n := n) (sub_len := n + 7) in Hr; [|done].
    exact Hr.
  - destruct Hi as (L1 & Hi). cbn [info_bytes]. rewrite !length_app, L1.
    apply read_ipv6_server; [by split|done].
  - replace (n + Z.of_nat (length (info_bytes (SCAP_FD_UNIX_SOCK source destination fname))))
      with (n + 16 + 2 + Z.of_nat (length fname)); [by apply read_unix|].
    cbn [info_bytes]. rewrite !length_app, length_name_bytes. simpl. lia.
  - replace (n + Z.of_nat (length (info_bytes (SCAP_FD_FILE_V2 open_flags fname mount_id dev))))
      with (n + 4 + 2 + Z.of_nat (length fname) + 4);
      [eapply read_file_v2; [exact Hi|exact Hr|done|lia]|].
    cbn [info_bytes]. rewrite !length_app, length_name_bytes. simpl. lia.
  - replace (n + Z.of_nat (length (info_bytes (SCAP_FD_NAMED t fname))))
      with (n + 2 + Z.of_nat (length fname)); [by apply read_named|].
    cbn [info_bytes]. rewrite length_name_bytes. lia.
Qed.

Lemma scap_fd_type_range i : i <> SCAP_FD_UNINITIALIZED -> is_u8 (scap_fd_type i).
Proof. intros Hu. unfold is_u8. destruct i as [| | | | | | | |t ?]; simpl; try lia; [done|]. destruct t; simpl; lia. Qed.

Lemma read_fd_props_ok (f : R) fdi rest :
  fd_ok fdi -> fd_inf fdi <> SCAP_FD_UNINITIALIZED -> gz_rest f = fd_bytes fdi ++ rest ->
  exists f', read_fd_props FDL_BLOCK_TYPE_V2 f
    = (f', 21, Some (scap_fd_info_len fdi, fd_num fdi, fd_ino fdi, scap_fd_type (fd_inf fdi))) /\
    gz_rest f' = info_bytes (fd_inf fdi) ++ rest.
Proof.
  intros (Hn & Hi & _) Hu Hr. unfold read_fd_props. rewrite Z.eqb_refl.
  unfold fd_bytes in Hr. rewrite <- !app_assoc in Hr.
  destruct (gz_chain_one f (le32 (scap_fd_info_len fdi)) _ eq_refl Hr) as (f1 & Hc1 & Hr1).
  change (gz_chain [4%nat] f) with (gz_chain [length (le32 (scap_fd_info_len fdi))] f).
  rewrite Hc1. cbn [negb].
  destruct (gz_chain_ok [le64 (fd_num fdi); le64 (fd_ino fdi);
    le_bytes 1 (scap_fd_type (fd_inf fdi))] f1 (info_bytes (fd_inf fdi) ++ rest))
    as (f2 & Hc2 & Hr2); [chain_len|..].
  { cbn [concat]. rewrite Hr1, app_nil_r, <- !app_assoc. done. }
  change (gz_chain [8; 8; 1]%nat f1) with (gz_chain (map length [le64 (fd_num fdi);
    le64 (fd_ino fdi); le_bytes 1 (scap_fd_type (fd_inf fdi))]) f1).
  rewrite Hc2. cbn [negb]. exists f2. split; [|done]. set (bs := concat _).
  change (field bs 0 8) with (le_val (le64 (fd_num fdi))).
  change (field bs 8 8) with (le_val (le64 (fd_ino fdi))).
  change (field bs 16 1) with (le_val (le_bytes 1 (scap_fd_type (fd_inf fdi)))).
  rewrite !le_val_le64, le_val_le32, s64_u64, (u64_small (fd_ino fdi)) by done.
  rewrite le_val_u8 by (by apply scap_fd_type_range).
  assert (u32 (scap_fd_info_len fdi) = scap_fd_info_len fdi) as ->; [|done].
  apply u32_small. unfold scap_fd_info_len. apply u32_range.
Qed.

(** The entry reader undoes the encoding. *)
Lemma read_fd_ok (f : R) stale fdi rest :
  fd_ok fdi -> fd_inf fdi <> SCAP_FD_UNINITIALIZED -> gz_rest f = fd_bytes fdi ++ rest ->
  exists f', scap_fd_read_from_disk stale FDL_BLOCK_TYPE_V2 f
    = (f', Some (fd_stored stale fdi, scap_fd_info_len fdi)) /\ gz_rest f' = rest.
Proof.
  intros Hok Hu Hr. unfold scap_fd_read_from_disk.
  destruct (read_fd_props_ok f fdi rest Hok Hu Hr) as (f1 & -> & Hr1).
  assert (Hlen : scap_fd_info_len fdi = 21 + Z.of_nat (length (info_bytes (fd_inf fdi)))).
  { rewrite <- length_fd_bytes by done. unfold fd_bytes. rewrite !length_app. simpl. lia. }
  destruct (read_fd_info_ok f1 stale (fd_inf fdi) 21 (scap_fd_info_len fdi) rest)
    as (f2 & -> & Hr2); [apply Hok|done|done|lia|done|].
  rewrite Z.eqb_refl, andb_false_r. by exists f2.
Qed.
End read_back.

(** ** The block of a process. *)

Definition known_fds (fds : list scap_fdinfo) : list scap_fdinfo := List.filter fd_known fds.
Definition fds_bytes (fds : list scap_fdinfo) : list byte := concat (map fd_bytes (known_fds fds)).

Lemma fd_known_initialized fdi : fd_known fdi = true -> fd_inf fdi <> SCAP_FD_UNINITIALIZED.
Proof. unfold fd_known. intros Hk Hu. by rewrite Hu in Hk. Qed.

Lemma length_fds_bytes fds :
  Forall fd_ok fds ->
  Z.of_nat (length (fds_bytes fds)) =
  foldr (fun fdi acc => (if fd_known fdi then scap_fd_info_len fdi else 0) + acc) 0 fds.
Proof.
  unfold fds_bytes, known_fds. induction 1 as [|fdi fds Hok _ IH]; [done|].
  cbn [List.filter foldr]. destruct (fd_known fdi); [|lia]. cbn [map concat].
  by rewrite length_app, Nat2Z.inj_add, IH, length_fd_bytes.
Qed.

Lemma fds_totlen_ok fds :
  Forall fd_ok fds -> Z.of_nat (length (fds_bytes fds)) < 2147483648 ->
  fds_totlen fds = 8 + Z.of_nat (length (fds_bytes fds)).
Proof.
  intros Hok Hlt. rewrite length_fds_bytes in * by done. unfold fds_totlen.
  assert (G : forall acc, 0 <= acc -> acc + foldr (fun fdi acc =>
      (if fd_known fdi then scap_fd_info_len fdi else 0) + acc) 0 fds < 4294967296 ->
    foldl (fun acc fdi => if fd_known fdi then u32 (acc + scap_fd_info_len fdi) else acc) acc fds
    = acc + foldr (fun fdi acc =>
        (if fd_known fdi then scap_fd_info_len fdi else 0) + acc) 0 fds).
  { clear Hlt. induction Hok as [|fdi fds Hfd Hfds IH]; intros acc Ha Hlt; simpl in *; [lia|].
    pose proof (length_fds_bytes fds Hfds) as Hpos.
    pose proof (length_fd_bytes fdi Hfd) as Hp2.
    destruct (fd_known fdi); [|rewrite IH by lia; lia].
    rewrite u32_small by lia. rewrite IH by lia. lia. }
  apply G; lia.
Qed.

Lemma write_fds_writes {F} `{GzWriter F} fds :
  no_write_errors (F := F) -> Forall fd_ok fds -> writes (F := F) (fds_bytes fds) (write_fds fds).
Proof.
  intros Hw. unfold fds_bytes, known_fds. induction 1 as [|fdi fds Hok _ IH].
  { intros f. exists f. by rewrite app_nil_r. }
  intros f. cbn [write_fds List.filter]. destruct (fd_known fdi) eqn:Ek; [|apply IH].
  destruct (fd_write_writes Hw fdi Hok (fd_known_initialized _ Ek) f) as (f1 & -> & H1).
  rewrite Z.eqb_refl. destruct (IH f1) as (f2 & -> & H2). exists f2. split; [done|].
  cbn [map concat]. by rewrite H2, H1, app_assoc.
Qed.

Lemma known_fds_ok fds :
  Forall fd_ok fds ->
  Forall fd_ok (known_fds fds) /\ Forall (fun x => fd_known x = true) (known_fds fds).
Proof.
  unfold known_fds. induction 1 as [|fdi fds Hok _ [IH1 IH2]]; [done|]. simpl.
  destruct (fd_known fdi) eqn:E; [|done]. by split; constructor.
Qed.

(** The body of the block of [t], without the padding, and its length. *)
Definition fdl_body (t : fd_owner) : list byte :=
  le64 (fo_tid t) ++ fds_bytes (fo_fdlist t).

Definition fdl_bytes (t : fd_owner) : list byte :=
  block_bytes FDL_BLOCK_TYPE_V2 (fds_totlen (fo_fdlist t)) (fdl_body t).

Lemma proc_fds_writes {F} `{GzWriter F} t :
  no_write_errors (F := F) -> Forall fd_ok (fo_fdlist t) ->
  writes (F := F) (fdl_bytes t) (scap_write_proc_fds t).
Proof.
  intros Hw Hok. unfold scap_write_proc_fds, fdl_bytes, block_bytes, fdl_body.
  apply emit_writes; [done|]. rewrite <- !app_assoc. apply emit_writes; [done|]. intros f.
  destruct (write_fds_writes _ Hw Hok f) as (f1 & -> & H1). rewrite Z.eqb_refl.
  destruct (emit_writes Hw (padding (fds_totlen (fo_fdlist t)))
    (le32 (block_total (fds_totlen (fo_fdlist t)))) _
    (emit_last_writes Hw _ _ emit_done_writes) f1) as (f2 & Hf2 & H2).
  exists f2. split; [exact Hf2|]. by rewrite H2, H1, <- !app_assoc.
Qed.

Lemma fdl_totlen t :
  Forall fd_ok (fo_fdlist t) -> Z.of_nat (length (fds_bytes (fo_fdlist t))) < 2147483500 ->
  fds_totlen (fo_fdlist t) = Z.of_nat (length (fdl_body t)).
Proof.
  intros Hok Hlt. rewrite fds_totlen_ok by (done || lia).
  unfold fdl_body. rewrite length_app. unfold le64. rewrite length_le_bytes. lia.
Qed.

(** Every descriptor of the block is an entry the loop reads back. *)
Lemma fd_entries_ok {R} `{GzSeeker R} stale fds :
  Forall fd_ok fds ->
  Forall (entry_ok (R := R) (fd_entry stale FDL_BLOCK_TYPE_V2) fd_bytes (fd_stored stale))
    (known_fds fds).
Proof.
  intros Hok. destruct (known_fds_ok _ Hok) as [Hk1 Hk2].
  eapply Forall_impl; [|exact (Forall_and Hk1 Hk2)].
  intros fdi [Hfd Hk]. split.
  - intros f rest Hr. unfold fd_entry.
    destruct (read_fd_ok f stale fdi rest Hfd (fd_known_initialized _ Hk) Hr) as (f' & -> & Hr').
    exists f'. by rewrite length_fd_bytes.
  - unfold fd_bytes. rewrite !length_app. simpl. lia.
Qed.

Lemma read_fdlist_ok {R} `{GzSeeker R} (t : fd_owner) stale (known : Z -> bool) :
  Forall fd_ok (fo_fdlist t) -> is_u64 (fo_tid t) -> known (fo_tid t) = true ->
  Z.of_nat (length (fds_bytes (fo_fdlist t))) < 2147483500 ->
  forall (r : R) rest, let n := fds_totlen (fo_fdlist t) in
  gz_rest r = fdl_body t ++ padding n ++ rest ->
  exists r', scap_read_fdlist known stale (block_total n - 12) FDL_BLOCK_TYPE_V2 r
      = (r', BlockRead (fo_tid t, map (fd_stored stale) (known_fds (fo_fdlist t)))) /\
    gz_rest r' = rest.
Proof.
  intros Hok Htid Hknown Hlt r rest n Hr.
  assert (Hn : n = 8 + Z.of_nat (length (fds_bytes (fo_fdlist t))))
    by (apply fds_totlen_ok; [done|lia]).
  destruct (block_total_length n ltac:(lia)) as (-> & Hnorm & Hpad).
  unfold fdl_body in Hr. rewrite <- !app_assoc in Hr.
  unfold scap_read_fdlist. destruct (gzread r 8) as [r1 tb] eqn:E1.
  destruct (gzread_app r (le64 (fo_tid t)) _ r1 tb Hr E1) as [-> Hr1]; [done|].
  rewrite (length_le_bytes 8). cbn [Nat.eqb negb]. rewrite le_val_u64, Hknown by done.
  cbn [negb].
  destruct (read_block_ok (fd_entry stale FDL_BLOCK_TYPE_V2) fd_bytes (fd_stored stale)
    (known_fds (fo_fdlist t)) r1 8 (scap_normalize_block_len n) (padding n) rest)
    as (r2 & -> & Hr2); auto using fd_entries_ok; try lia.
  - unfold fds_bytes in Hn. lia.
  - by exists r2.
Qed.

(** C29: the descriptors of a process survive a capture file.  Without write
    errors [scap_write_proc_fds] writes one block, and reading its body with
    [scap_read_fdlist] gives back the thread and every descriptor with a known
    type, in order, each field as it was except the mount id, which is not
    stored; the file is then positioned behind the body. *)
Theorem fdlist_roundtrip {F R : Type} `{GzWriter F} `{GzSeeker R} (t : fd_owner)
    (stale : stale_fdinfo) (known : Z -> bool) (f : F) :
  no_write_errors (F := F) -> Forall fd_ok (fo_fdlist t) -> is_u64 (fo_tid t) ->
  Z.of_nat (length (fds_bytes (fo_fdlist t))) < 2147483500 -> known (fo_tid t) = true ->
  let n := fds_totlen (fo_fdlist t) in
  exists f', scap_write_proc_fds t (DT_FILE f) = (DT_FILE f', SCAP_SUCCESS) /\
    gz_written f' = gz_written f ++ block_header FDL_BLOCK_TYPE_V2 (block_total n)
                    ++ fdl_body t ++ padding n ++ le32 (block_total n) /\
    forall (r : R) rest, gz_rest r = fdl_body t ++ padding n ++ rest ->
      exists r', scap_read_fdlist known stale (block_total n - 12) FDL_BLOCK_TYPE_V2 r
          = (r', BlockRead (fo_tid t, map (fd_stored stale) (known_fds (fo_fdlist t)))) /\
        gz_rest r' = rest.
Proof.
  intros Hw Hok Htid Hlt Hknown n.
  destruct (proc_fds_writes t Hw Hok f) as (f' & Hf' & Hw'). exists f'. split; [done|].
  split; [done|]. intros r rest Hr. by apply read_fdlist_ok.
Qed.

(** A process with a socket, a file and a descriptor of unknown type. *)
Definition sample_owner : fd_owner :=
  mk_owner 4321 false
    [mk_fdinfo 3 77 (SCAP_FD_IPV4_SOCK 16777343 33554559 8080 40000 1);
     mk_fdinfo 4 0 SCAP_FD_UNKNOWN;
     mk_fdinfo 5 78 (SCAP_FD_FILE_V2 1 [x2f; x74; x6d; x70] 9 2049)].
Definition sample_stale : stale_fdinfo := mk_stale [] 0 0.

Definition sample_fdl_file : list byte :=
  fdl_body sample_owner ++ padding (fds_totlen (fo_fdlist sample_owner)).

Lemma fdlist_roundtrip_witness :
  exists r', scap_read_fdlist (fun _ => true) sample_stale
      (block_total (fds_totlen (fo_fdlist sample_owner)) - 12) FDL_BLOCK_TYPE_V2
      (gz_open sample_fdl_file) =
    (r', BlockRead (4321, [mk_fdinfo 3 77 (SCAP_FD_IPV4_SOCK 16777343 33554559 8080 40000 1);
      mk_fdinfo 5 78 (SCAP_FD_FILE_V2 1 [x2f; x74; x6d; x70] 0 2049)])) /\ gz_rest r' = [].
Proof.
  destruct (fdlist_roundtrip (F := list byte) (R := gz_file sample_fdl_file) sample_owner sample_stale
    (fun _ => true) []) as (f' & _ & _ & H).
  - intros f bs. reflexivity.
  - repeat constructor; simpl; unfold is_u64, is_u32, is_u16, is_u8, SCAP_MAX_PATH_SIZE;
      simpl; try lia. rewrite !not_elem_of_cons. repeat split; try done. apply not_elem_of_nil.
  - unfold is_u64. simpl. lia.
  - vm_compute. reflexivity.
  - reflexivity.
  - apply (H (gz_open sample_fdl_file) []).
    vm_compute. reflexivity.
Defined.

(** ** Bounds of the reader. *)

Section bounds.
Context {R : Type} `{GzSeeker R}.

Lemma read_fname_count (f : R) n f' n' o :
  scap_fd_read_fname_from_disk n f = (f', n', o) -> n <= n'.
Proof.
  unfold scap_fd_read_fname_from_disk. destruct (gzread f 2) as [f1 lb].
  intros E. case_in E; [simplify_eq; lia|]. case_in E; [simplify_eq; lia|].
  pose proof (le_val_range lb).
  destruct (gzread f1 _) as [f2 bs]. case_in E; simplify_eq; lia.
Qed.

Lemma read_fd_info_count (f : R) stale sub_len type n f' n' o :
  read_fd_info stale sub_len type n f = (f', n', o) -> n <= n'.
Proof.
  unfold read_fd_info. intros E.
  repeat match type of E with
  | context [gz_chain ?l ?g] => destruct (gz_chain l g) as [[? ?] ?]
  | context [scap_fd_read_fname_from_disk ?m ?g] =>
      destruct (scap_fd_read_fname_from_disk m g) as [[? ?] ?] eqn:?
  | context [if ?b then _ else _] => destruct b
  | context [match named_of_code ?c with _ => _ end] => destruct (named_of_code c)
  end; simplify_eq;
  repeat match goal with
  | Hf : scap_fd_read_fname_from_disk _ _ = _ |- _ => apply read_fname_count in Hf
  end; lia.
Qed.

(** Every entry counts for at least its properties. *)
Lemma read_fd_count (f : R) stale ty f' fdi n :
  scap_fd_read_from_disk stale ty f = (f', Some (fdi, n)) -> 17 <= n.
Proof.
  unfold scap_fd_read_from_disk. intros E.
  destruct (read_fd_props ty f) as [[f1 n1] [[[[sub_len fd] ino] type]|]] eqn:Ep; [|done].
  assert (17 <= n1).
  { unfold read_fd_props in Ep. destruct (if ty =? FDL_BLOCK_TYPE_V2 then _ else _)
      as [[? ?] ?]. case_in Ep; [done|]. destruct (gz_chain _ _) as [[? ?] ?].
    case_in Ep; [done|]. simplify_eq. case_if; lia. }
  destruct (read_fd_info _ _ _ _ _) as [[f2 n2] [i|]] eqn:Ei; [|done].
  apply read_fd_info_count in Ei. case_in E.
  - case_in E; [done|]. destruct (gzseek _ _) as [f3 pos]. case_in E; [done|].
    simplify_eq. bool_to_prop. lia.
  - simplify_eq. lia.
Qed.

(** Every entry consumes input. *)
Lemma gz_chain_rest sizes : forall (f f' : R) bs ok,
  gz_chain sizes f = (f', bs, ok) ->
  (length (gz_rest f') <= length (gz_rest f))%nat /\
  (ok = true -> length (gz_rest f') + sum_list sizes <= length (gz_rest f))%nat.
Proof.
  induction sizes as [|n sizes IH]; intros f f' bs ok E; cbn [gz_chain sum_list] in *.
  { simplify_eq. lia. }
  destruct (gzread f (Z.of_nat n)) as [f1 b] eqn:E1.
  apply gzread_split in E1 as [-> _]; [|lia]. rewrite length_app.
  destruct (Nat.eqb (length b) n) eqn:El.
  - destruct (gz_chain sizes f1) as [[f2 r] ok2] eqn:E2. simplify_eq.
    apply IH in E2 as [I1 I2]. apply Nat.eqb_eq in El.
    split; [lia|]. intros Hok. specialize (I2 Hok). simpl. lia.
  - simplify_eq. split; [lia|done].
Qed.

Lemma gz_chain_pos sizes : forall (f f' : R) bs ok,
  gz_chain sizes f = (f', bs, ok) -> gz_pos f' = gz_pos f + Z.of_nat (length bs).
Proof.
  induction sizes as [|n sizes IH]; intros f f' bs ok E; cbn [gz_chain] in E.
  { simplify_eq. simpl. lia. }
  destruct (gzread f (Z.of_nat n)) as [f1 b] eqn:E1. apply gzread_pos in E1.
  case_in E; [|by simplify_eq].
  destruct (gz_chain sizes f1) as [[f2 r] ok2] eqn:E2. simplify_eq. apply IH in E2.
  rewrite length_app. lia.
Qed.

Lemma read_fname_rest (f : R) n f' n' o :
  scap_fd_read_fname_from_disk n f = (f', n', o) ->
  (length (gz_rest f') <= length (gz_rest f))%nat.
Proof.
  unfold scap_fd_read_fname_from_disk. destruct (gzread f 2) as [f1 lb] eqn:E1.
  apply gzread_split in E1 as [-> _]; [|lia]. intros E. rewrite length_app.
  do 2 (case_in E; [simplify_eq; lia|]).
  destruct (gzread f1 _) as [f2 bs] eqn:E2.
  apply gzread_split in E2 as [-> _]; [|apply le_val_range]. rewrite length_app.
  case_in E; simplify_eq; lia.
Qed.

Lemma read_fd_info_rest (f : R) stale sub_len type n f' n' o :
  read_fd_info stale sub_len type n f = (f', n', o) ->
  (length (gz_rest f') <= length (gz_rest f))%nat.
Proof.
  unfold read_fd_info. intros E.
  repeat match type of E with
  | context [gz_chain ?l ?g] => destruct (gz_chain l g) as [[? ?] ?] eqn:?
  | context [scap_fd_read_fname_from_disk ?m ?g] =>
      destruct (scap_fd_read_fname_from_disk m g) as [[? ?] ?] eqn:?
  | context [if ?b then _ else _] => destruct b
  | context [match named_of_code ?c with _ => _ end] => destruct (named_of_code c)
  end; simplify_eq;
  repeat match goal with
  | Hf : scap_fd_read_fname_from_disk _ _ = _ |- _ => apply read_fname_rest in Hf
  | Hf : gz_chain _ _ = _ |- _ => apply gz_chain_rest in Hf as [? _]
  end; lia.
Qed.

Lemma read_fd_consumes (f : R) stale ty f' x :
  scap_fd_read_from_disk stale ty f = (f', Some x) ->
  (length (gz_rest f') < length (gz_rest f))%nat.
Proof.
  unfold scap_fd_read_from_disk. intros E.
  destruct (read_fd_props ty f) as [[f1 n1] [[[[sub_len fd] ino] type]|]] eqn:Ep; [|done].
  assert (length (gz_rest f1) < length (gz_rest f))%nat.
  { unfold read_fd_props in Ep. destruct (if ty =? FDL_BLOCK_TYPE_V2 then _ else _)
      as [[g ?] ?] eqn:Eg. case_in Ep; [done|].
    destruct (gz_chain [8; 8; 1]%nat g) as [[? ?] ok] eqn:Ec. case_in Ep; [done|].
    simplify_eq. destruct ok; [|done]. apply gz_chain_rest in Ec as [_ Ec]. specialize (Ec eq_refl).
    simpl in Ec. case_in Eg; [apply gz_chain_rest in Eg as [Eg _]|simplify_eq]; lia. }
  destruct (read_fd_info _ _ _ _ _) as [[f2 n2] [i|]] eqn:Ei; [|done].
  apply read_fd_info_rest in Ei. case_in E.
  - case_in E; [done|]. destruct (gzseek _ _) as [f3 pos] eqn:Es. case_in E; [done|].
    simplify_eq. bool_to_prop.
    apply gzseek_drop in Es; [|lia|by intros ->]. rewrite Es, length_drop. lia.
  - simplify_eq. lia.
Qed.

#[export] Instance counts_fd_entry stale ty : Counts 1 (fd_entry (R := R) stale ty).
Proof.
  intros f c f' fdi c' E. unfold fd_entry in E.
  destruct (scap_fd_read_from_disk stale ty f) as [f1 [[x n]|]] eqn:Er; simplify_eq.
  pose proof (read_fd_count _ _ _ _ _ _ Er). apply read_fd_consumes in Er. lia.
Qed.

(** Whatever length a descriptor block announces and whatever it holds,
    reading its padding stays inside its four byte buffer: the loop leaves fewer
    than four bytes, or, where the announced length is negative as the [int32_t]
    the loop condition makes of it, so many that [gzread] refuses the length. *)
Theorem fdlist_padding_in_buffer (known : Z -> bool) (stale : stale_fdinfo)
    (block_length ty : Z) (f : R) :
  is_u32 block_length -> snd (scap_read_fdlist known stale block_length ty f) <> BlockOverflow.
Proof.
  intros Hbl. unfold scap_read_fdlist. destruct (gzread f 8) as [f1 tb].
  case_if; [done|]. case_if; [done|].
  pose proof (read_block_padding (fd_entry stale ty) 1 ltac:(lia) _ block_length 8 f1 Hbl
    ltac:(lia)) as Hp.
  by destruct (read_block _ _ _ _) as [f2 []].
Qed.
End bounds.

Lemma fdlist_padding_in_buffer_witness :
  snd (scap_read_fdlist (fun _ => true) sample_stale 2147483700 FDL_BLOCK_TYPE_V2
         (gz_open (repeat x41 16))) <> BlockOverflow.
Proof. apply fdlist_padding_in_buffer. unfold is_u32. lia. Defined.

(** ** Write errors of IPv6 entries. *)

(** A file on a device with room for [n] bytes. *)
Record small_file (n : nat) : Type := mk_small { sm_bytes : list byte }.
Arguments mk_small {n}.
Arguments sm_bytes {n}.

#[export] Instance small_writer n : GzWriter (small_file n).
Proof.
  refine {| gzwrite := fun f bs =>
              if Nat.leb (length (sm_bytes f) + length bs) n
              then (mk_small (sm_bytes f ++ bs), Z.of_nat (length bs)) else (f, 0);
            gz_written := sm_bytes |}.
  intros f bs f' Hw. destruct (Nat.leb _ _); simplify_eq; [done|].
  destruct bs; [by rewrite app_nil_r|done].
Defined.

(** A write error in the addresses of an IPv6 descriptor is logged but not
    returned: on a device that is full after the properties the entry is cut
    short and the writer still reports success, where the IPv4 entry reports the
    failure. *)
Theorem ipv6_write_error_ignored (sip dip : list byte) (sport dport l4 : Z) :
  length sip = 16%nat ->
  let v6 := mk_fdinfo 3 77 (SCAP_FD_IPV6_SOCK sip dip sport dport l4) in
  let v4 := mk_fdinfo 3 77 (SCAP_FD_IPV4_SOCK 1 2 sport dport l4) in
  let disk := DT_FILE (mk_small [] : small_file 21) in
  snd (scap_fd_write_to_disk v6 (scap_fd_info_len v6) disk) = SCAP_SUCCESS /\
  length (dumped (fst (scap_fd_write_to_disk v6 (scap_fd_info_len v6) disk))) = 21%nat /\
  snd (scap_fd_write_to_disk v4 (scap_fd_info_len v4) disk) = SCAP_FAILURE.
Proof.
  intros Hs v6 v4 disk. destruct sip as [|b sip]; [done|]. split_and!; reflexivity.
Qed.

Lemma ipv6_write_error_ignored_witness :
  snd (scap_fd_write_to_disk
         (mk_fdinfo 3 77 (SCAP_FD_IPV6_SOCK (repeat x01 16) (repeat x02 16) 80 443 1)) 58
         (DT_FILE (mk_small [] : small_file 21))) = SCAP_SUCCESS.
Proof.
  exact (proj1 (ipv6_write_error_ignored (repeat x01 16) (repeat x02 16) 80 443 1 eq_refl)).
Defined.
