(* ===== verification/ProcList.v ===== *)
(** * Capture files, process lists: [libscap/scap_savefile.c]

    The block that holds the process table: the writer [scap_write_proclist]
    with the functions it is made of, and the reader [scap_read_proclist], which
    accepts nine versions of the block.  The theorems are the round trip, the
    defaults an old block leads to, and the bound of the padding. *)

From Stdlib Require Import ZArith Lia List Bool.
From Stdlib Require Import Strings.Byte.
From stdpp Require Import base tactics list numbers option.
From S2P Require Import Prelude Bytes EventDefs.
From S2P Require Import Reader Suppress SaveFile SaveFileSpec BlockIO FdList.
Import ListNotations.
Local Open Scope Z_scope.
Local Open Scope gz_scope.

Definition PL_BLOCK_TYPE_V1 : Z := 514.            (* 0x202 *)
Definition PL_BLOCK_TYPE_V1_INT : Z := 2147527629. (* 0x8000ABCD *)
Definition PL_BLOCK_TYPE_V2 : Z := 519.            (* 0x207 *)
Definition PL_BLOCK_TYPE_V2_INT : Z := 2148772813. (* 0x8013ABCD *)
Definition PL_BLOCK_TYPE_V3 : Z := 521.            (* 0x209 *)
Definition PL_BLOCK_TYPE_V3_INT : Z := 2148838349. (* 0x8014ABCD *)
Definition PL_BLOCK_TYPE_V4 : Z := 528.            (* 0x210 *)
Definition PL_BLOCK_TYPE_V5 : Z := 529.
Definition PL_BLOCK_TYPE_V6 : Z := 530.
Definition PL_BLOCK_TYPE_V7 : Z := 531.
Definition PL_BLOCK_TYPE_V8 : Z := 532.
Definition PL_BLOCK_TYPE_V9 : Z := 533.            (* 0x215 *)

Definition SCAP_MAX_ARGS_SIZE : Z := 4096.
Definition SCAP_MAX_ENV_SIZE : Z := 4096.
Definition SCAP_MAX_CGROUPS_SIZE : Z := 4096.

(** [struct scap_threadinfo]: a name is the bytes before its terminator; the
    arguments, the environment and the cgroups, which hold several strings, are
    the bytes their length field covers. *)
Record scap_threadinfo : Type := mk_tinfo {
  ti_tid : Z; ti_pid : Z; ti_ptid : Z; ti_sid : Z; ti_vpgid : Z;
  ti_comm : list byte; ti_exe : list byte; ti_exepath : list byte;
  ti_args : list byte; ti_env : list byte; ti_cwd : list byte;
  ti_fdlimit : Z; ti_flags : Z; ti_uid : Z; ti_gid : Z;
  ti_vmsize_kb : Z; ti_vmrss_kb : Z; ti_vmswap_kb : Z; ti_pfmajor : Z; ti_pfminor : Z;
  ti_vtid : Z; ti_vpid : Z; ti_cgroups : list byte; ti_root : list byte;
  ti_filtered_out : bool; ti_fdlist : list scap_fdinfo;
  ti_clone_ts : Z; ti_tty : Z; ti_loginuid : Z }.

(** ** Writing. *)

(** [iov_size] *)
Definition iov_size (iov : list (list byte)) : Z :=
  foldl (fun len v => u16 (len + Z.of_nat (length v))) 0 iov.

Section writers.
Context {F : Type} `{GzWriter F}.

Local Notation writer := (scap_dumper_t F -> scap_dumper_t F * Z).

(** A name and its length, two writes. *)
Definition name_bufs (s : list byte) : list (list byte) :=
  let len := u16 (fname_len s) in [le16 len; take (Z.to_nat len) s].

(** [if(scap_dump_writev(d, iov, cnt) != len) return SCAP_FAILURE;], the
    length before it. *)
Definition emit_iov (iov : list (list byte)) (next : writer) : writer :=
  emit (le16 (iov_size iov)) (fun d =>
    let '(d', n) := scap_dump_writev d iov 0 in
    if n =? iov_size iov then next d' else (d', SCAP_FAILURE)).

(** [scap_write_proclist_header] *)
Definition scap_write_proclist_header (totlen : Z) : writer :=
  emit (block_header PL_BLOCK_TYPE_V9 (block_total totlen)) emit_done.

(** [scap_write_proclist_trailer] *)
Definition scap_write_proclist_trailer (totlen : Z) : writer :=
  emit (padding totlen) (emit (le32 (block_total totlen)) emit_done).

(** [scap_write_proclist_entry_bufs] *)
Definition scap_write_proclist_entry_bufs (tinfo : scap_threadinfo) (len : Z)
    (comm exe exepath : list byte) (args envs : list (list byte)) (cwd : list byte)
    (cgroups : list (list byte)) (root : list byte) : writer :=
  emits ([le32 len; le64 (ti_tid tinfo); le64 (ti_pid tinfo); le64 (ti_ptid tinfo);
          le64 (ti_sid tinfo); le64 (ti_vpgid tinfo)]
         ++ name_bufs comm ++ name_bufs exe ++ name_bufs exepath)
    (emit_iov args
      (emits (name_bufs cwd
              ++ [le64 (ti_fdlimit tinfo); le32 (ti_flags tinfo); le32 (ti_uid tinfo);
                  le32 (ti_gid tinfo); le32 (ti_vmsize_kb tinfo); le32 (ti_vmrss_kb tinfo);
                  le32 (ti_vmswap_kb tinfo); le64 (ti_pfmajor tinfo); le64 (ti_pfminor tinfo)])
        (emit_iov envs
          (emits [le64 (ti_vtid tinfo); le64 (ti_vpid tinfo)]
            (emit_iov cgroups
              (emits (name_bufs root ++ [le32 (ti_loginuid tinfo)]) emit_done)))))).

(** [scap_write_proclist_entry] *)
Definition scap_write_proclist_entry (tinfo : scap_threadinfo) (len : Z) : writer :=
  scap_write_proclist_entry_bufs tinfo len (ti_comm tinfo) (ti_exe tinfo) (ti_exepath tinfo)
    [ti_args tinfo] [ti_env tinfo] (ti_cwd tinfo) [ti_cgroups tinfo] (ti_root tinfo).

(** The length of an entry, of the first pass. *)
Definition proc_len (t : scap_threadinfo) : Z :=
  u32 (4 + 8 + 8 + 8 + 8 + 8 + (2 + fname_len (ti_comm t)) + (2 + fname_len (ti_exe t))
       + (2 + fname_len (ti_exepath t)) + (2 + Z.of_nat (length (ti_args t)))
       + (2 + fname_len (ti_cwd t)) + 8 + 4 + 4 + 4 + 4 + 4 + 4 + 8 + 8
       + (2 + Z.of_nat (length (ti_env t))) + 8 + 8 + (2 + Z.of_nat (length (ti_cgroups t)))
       + (2 + fname_len (ti_root t)) + 4).

(** The first pass over the table. *)
Definition procs_totlen (ts : list scap_threadinfo) : Z :=
  foldl (fun acc t => if ti_filtered_out t then acc else u32 (acc + proc_len t)) 0 ts.

(** The second pass. *)
Fixpoint write_procs (ts : list scap_threadinfo) (d : scap_dumper_t F) : scap_dumper_t F * Z :=
  match ts with
  | [] => (d, SCAP_SUCCESS)
  | t :: ts' =>
      if ti_filtered_out t then write_procs ts' d
      else
        let '(d', res) := scap_write_proclist_entry t (proc_len t) d in
        if res =? SCAP_SUCCESS then write_procs ts' d' else (d', SCAP_FAILURE)
  end.

(** [scap_write_proclist], of the process table in the order of its hash table. *)
Definition scap_write_proclist (m_proclist : list scap_threadinfo) : writer :=
  let totlen := procs_totlen m_proclist in
  dump_then (scap_write_proclist_header totlen)
    (dump_then (write_procs m_proclist) (scap_write_proclist_trailer totlen)).
End writers.

(** ** Reading. *)

(** The version of a block, by which the switches of the reader select. *)
Definition pl_version (block_type : Z) : option Z :=
  option_map snd (List.find (fun p => fst p =? block_type)
    [(PL_BLOCK_TYPE_V1, 1); (PL_BLOCK_TYPE_V1_INT, 1); (PL_BLOCK_TYPE_V2, 2);
     (PL_BLOCK_TYPE_V2_INT, 2); (PL_BLOCK_TYPE_V3, 3); (PL_BLOCK_TYPE_V3_INT, 3);
     (PL_BLOCK_TYPE_V4, 4); (PL_BLOCK_TYPE_V5, 5); (PL_BLOCK_TYPE_V6, 6);
     (PL_BLOCK_TYPE_V7, 7); (PL_BLOCK_TYPE_V8, 8); (PL_BLOCK_TYPE_V9, 9)]).

Section readers.
Context {R : Type} `{GzSeeker R}.

Definition path_fits (stlen : Z) : bool := negb (SCAP_MAX_PATH_SIZE <? stlen).
Definition args_fits (stlen : Z) : bool := negb (SCAP_MAX_ARGS_SIZE <? stlen).
Definition env_fits (stlen : Z) : bool := negb (SCAP_MAX_ENV_SIZE <? stlen).
Definition cgroups_fit (stlen : Z) : bool := negb (SCAP_MAX_CGROUPS_SIZE <? stlen).

(** A name, terminated behind its bytes. *)
Definition gz_name (fits : Z -> bool) : gzM R (list byte) :=
  bs <-- gz_str fits ;; gz_ret (c_string bs).

Definition gz_s64 : gzM R Z := v <-- gz_le 8 ;; gz_ret (s64 v).

(** The login uid, when the entry is long enough to have it. *)
Definition gz_loginuid (sub_len : Z) : gzM R Z := fun f c =>
  (if negb (sub_len =? 0) && (c + 4 <=? sub_len)
   then (v <-- gz_le 4 ;; gz_ret (s32 v)) else gz_ret (-1)) f c.

(** The body of the loop of [scap_read_proclist]. *)
Definition proc_entry_v (v : Z) : gzM R scap_threadinfo :=
  sub_len <-- (if v =? 9 then gz_le 4 else gz_ret 0) ;;
  tid <-- gz_le 8 ;;
  pid <-- gz_le 8 ;;
  ptid <-- gz_le 8 ;;
  sid <-- (if 6 <=? v then gz_le 8 else gz_ret (u64 (-1))) ;;
  vpgid <-- (if 8 <=? v then gz_le 8 else gz_ret (u64 (-1))) ;;
  comm <-- gz_name path_fits ;;
  exe <-- gz_name path_fits ;;
  exepath <-- (if 7 <=? v then gz_name path_fits else gz_ret []) ;;
  args <-- gz_str args_fits ;;
  cwd <-- gz_name path_fits ;;
  fdlimit <-- gz_s64 ;;
  flags <-- gz_le 4 ;;
  uid <-- gz_le 4 ;;
  gid <-- gz_le 4 ;;
  vmsize_kb <-- (if 2 <=? v then gz_le 4 else gz_ret 0) ;;
  vmrss_kb <-- (if 2 <=? v then gz_le 4 else gz_ret 0) ;;
  vmswap_kb <-- (if 2 <=? v then gz_le 4 else gz_ret 0) ;;
  pfmajor <-- (if 2 <=? v then gz_le 8 else gz_ret 0) ;;
  pfminor <-- (if 2 <=? v then gz_le 8 else gz_ret 0) ;;
  env <-- (if 3 <=? v then gz_str env_fits else gz_ret []) ;;
  vtid <-- (if 4 <=? v then gz_s64 else gz_ret (-1)) ;;
  vpid <-- (if 4 <=? v then gz_s64 else gz_ret (-1)) ;;
  cgroups <-- (if 4 <=? v then gz_str cgroups_fit else gz_ret []) ;;
  root <-- (if 5 <=? v then gz_name path_fits else gz_ret []) ;;
  loginuid <-- gz_loginuid sub_len ;;
  _ <-- gz_skip_rest sub_len ;;
  gz_ret (mk_tinfo tid pid ptid sid vpgid comm exe exepath args env cwd fdlimit flags uid gid
            vmsize_kb vmrss_kb vmswap_kb pfmajor pfminor vtid vpid cgroups root false [] 0 0
            loginuid).

Definition proc_entry (block_type : Z) : gzM R scap_threadinfo :=
  match pl_version block_type with Some v => proc_entry_v v | None => gz_fail end.

(** [scap_read_proclist]: the threads, which the caller adds to the table or
    hands to the callback. *)
Definition scap_read_proclist (block_length block_type : Z) (f : R) :
    R * block_result (list scap_threadinfo) :=
  read_block (proc_entry block_type) block_length 0 f.

#[export] Instance counts_name fits : Counts 2 (gz_name fits).
Proof. unfold gz_name. rewrite <- (Z.add_0_r 2). apply _. Qed.

#[export] Instance counts_s64 : Counts 8 gz_s64.
Proof. unfold gz_s64. rewrite <- (Z.add_0_r 8). apply _. Qed.

#[export] Instance counts_loginuid sub_len : Counts 0 (gz_loginuid sub_len).
Proof.
  intros f c f' v c' E. unfold gz_loginuid in E. case_in E.
  - apply (counts_bind 4 0) in E; [lia|..]; apply _.
  - apply counts_ret in E. lia.
Qed.

(** Every entry takes bytes from the file. *)
#[export] Instance counts_proc_entry_v v : Counts 1 (proc_entry_v v).
Proof. unfold proc_entry_v. eapply counts_weaken; [apply _|]. simpl. lia. Qed.

#[export] Instance counts_proc_entry ty : Counts 1 (proc_entry ty).
Proof. unfold proc_entry. destruct (pl_version ty); [apply _|]. by intros f c f' t c' E. Qed.
End readers.

(** ** The encoding of an entry. *)

(** The fields behind the length, in version [v]; in version 9 the login uid is
    there or, in early files, not. *)
Definition proc_fields (v : Z) (lu : bool) (t : scap_threadinfo) : list byte :=
  le64 (ti_tid t) ++ le64 (ti_pid t) ++ le64 (ti_ptid t)
  ++ bytes_if (6 <=? v) (le64 (ti_sid t)) ++ bytes_if (8 <=? v) (le64 (ti_vpgid t))
  ++ str_bytes (ti_comm t) ++ str_bytes (ti_exe t) ++ bytes_if (7 <=? v) (str_bytes (ti_exepath t))
  ++ str_bytes (ti_args t) ++ str_bytes (ti_cwd t)
  ++ le64 (ti_fdlimit t) ++ le32 (ti_flags t) ++ le32 (ti_uid t) ++ le32 (ti_gid t)
  ++ bytes_if (2 <=? v) (le32 (ti_vmsize_kb t)) ++ bytes_if (2 <=? v) (le32 (ti_vmrss_kb t))
  ++ bytes_if (2 <=? v) (le32 (ti_vmswap_kb t)) ++ bytes_if (2 <=? v) (le64 (ti_pfmajor t))
  ++ bytes_if (2 <=? v) (le64 (ti_pfminor t)) ++ bytes_if (3 <=? v) (str_bytes (ti_env t))
  ++ bytes_if (4 <=? v) (le64 (ti_vtid t)) ++ bytes_if (4 <=? v) (le64 (ti_vpid t))
  ++ bytes_if (4 <=? v) (str_bytes (ti_cgroups t)) ++ bytes_if (5 <=? v) (str_bytes (ti_root t))
  ++ bytes_if ((v =? 9) && lu) (le32 (ti_loginuid t)).

Definition proc_bytes (v : Z) (lu : bool) (t : scap_threadinfo) : list byte :=
  bytes_if (v =? 9) (le32 (4 + Z.of_nat (length (proc_fields v lu t)))) ++ proc_fields v lu t.

(** What a reader makes of it: a field the version does not have gets its
    default; descriptors come in their own blocks. *)
Definition proc_stored (v : Z) (lu : bool) (t : scap_threadinfo) : scap_threadinfo :=
  mk_tinfo (ti_tid t) (ti_pid t) (ti_ptid t)
    (if 6 <=? v then ti_sid t else u64 (-1)) (if 8 <=? v then ti_vpgid t else u64 (-1))
    (ti_comm t) (ti_exe t) (if 7 <=? v then ti_exepath t else [])
    (ti_args t) (if 3 <=? v then ti_env t else []) (ti_cwd t) (ti_fdlimit t) (ti_flags t)
    (ti_uid t) (ti_gid t) (if 2 <=? v then ti_vmsize_kb t else 0)
    (if 2 <=? v then ti_vmrss_kb t else 0) (if 2 <=? v then ti_vmswap_kb t else 0)
    (if 2 <=? v then ti_pfmajor t else 0) (if 2 <=? v then ti_pfminor t else 0)
    (if 4 <=? v then ti_vtid t else -1) (if 4 <=? v then ti_vpid t else -1)
    (if 4 <=? v then ti_cgroups t else []) (if 5 <=? v then ti_root t else [])
    false [] 0 0 (if (v =? 9) && lu then ti_loginuid t else -1).

(** Values of the C types and names inside their arrays. *)
Definition path_ok (s : list byte) : Prop :=
  (x00 ∉ s) /\ Z.of_nat (length s) <= SCAP_MAX_PATH_SIZE.

Definition proc_ok (t : scap_threadinfo) : Prop :=
  (is_u64 (ti_tid t) /\ is_u64 (ti_pid t) /\ is_u64 (ti_ptid t) /\ is_u64 (ti_sid t) /\
   is_u64 (ti_vpgid t)) /\
  (path_ok (ti_comm t) /\ path_ok (ti_exe t) /\ path_ok (ti_exepath t) /\ path_ok (ti_cwd t) /\
   path_ok (ti_root t)) /\
  (Z.of_nat (length (ti_args t)) <= SCAP_MAX_ARGS_SIZE /\
   Z.of_nat (length (ti_env t)) <= SCAP_MAX_ENV_SIZE /\
   Z.of_nat (length (ti_cgroups t)) <= SCAP_MAX_CGROUPS_SIZE) /\
  (is_u32 (ti_flags t) /\ is_u32 (ti_uid t) /\ is_u32 (ti_gid t) /\ is_u32 (ti_vmsize_kb t) /\
   is_u32 (ti_vmrss_kb t) /\ is_u32 (ti_vmswap_kb t)) /\
  (is_u64 (ti_pfmajor t) /\ is_u64 (ti_pfminor t)) /\
  (is_s64 (ti_fdlimit t) /\ is_s64 (ti_vtid t) /\ is_s64 (ti_vpid t) /\ is_s32 (ti_loginuid t)).

Section read_back.
Context {R : Type} `{GzSeeker R}.

Lemma parses_name c s : path_ok s -> parses (R := R) c (str_bytes s) s (gz_name path_fits).
Proof.
  unfold path_ok, SCAP_MAX_PATH_SIZE. intros [Hz Hl]. unfold gz_name. eapply parses_bind_ret.
  - apply parses_str; [lia|]. unfold path_fits, SCAP_MAX_PATH_SIZE. lia.
  - rewrite c_string_id by done. apply parses_ret.
Qed.

Lemma parses_s64 c v : is_s64 v -> parses (R := R) c (le64 v) v gz_s64.
Proof.
  intros Hv. unfold gz_s64. eapply parses_bind_ret.
  - apply (parses_le c 8); [apply le_val_le64|lia].
  - rewrite s64_u64 by done. apply parses_ret.
Qed.

(** The login uid is read when its four bytes are what is left of the entry. *)
Lemma parses_loginuid c (b : bool) sub_len v :
  is_s32 v -> 0 < c -> sub_len = (if b then c + 4 else sub_len) ->
  (b = false -> sub_len = 0 \/ sub_len = c) ->
  parses (R := R) c (bytes_if b (le32 v)) (if b then v else -1) (gz_loginuid sub_len).
Proof.
  intros Hv Hc Hb Hn f rest Hr. unfold gz_loginuid. destruct b.
  - replace (negb (sub_len =? 0) && (c + 4 <=? sub_len)) with true by lia.
    revert f rest Hr. change (parses c (le32 v) v (v <-- gz_le 4 ;; gz_ret (s32 v))).
    eapply parses_bind_ret; [apply (parses_le c 4); [apply le_val_le32|lia]|].
    rewrite s32_u32 by done. apply parses_ret.
  - replace (negb (sub_len =? 0) && (c + 4 <=? sub_len)) with false
      by (destruct (Hn eq_refl); lia).
    revert f rest Hr. apply parses_ret.
Qed.

Ltac parse_field :=
  first [ apply parses_le4 | apply parses_le8 | apply parses_s64 | apply parses_name
        | apply parses_str ]; try done; auto;
  unfold path_fits, args_fits, env_fits, cgroups_fit, SCAP_MAX_PATH_SIZE, SCAP_MAX_ARGS_SIZE,
    SCAP_MAX_ENV_SIZE, SCAP_MAX_CGROUPS_SIZE in *; lia.

Lemma parses_proc_entry v lu t :
  1 <= v -> proc_ok t -> Z.of_nat (length (proc_fields v lu t)) < 4294967200 ->
  parses (R := R) 0 (proc_bytes v lu t) (proc_stored v lu t) (proc_entry_v v).
Proof.
  intros Hv ((?&?&?&?&?) & (?&?&?&?&?) & (?&?&?) & (?&?&?&?&?&?) & (?&?) & (?&?&?&?)) Hlen.
  unfold proc_entry_v, proc_bytes.
  eapply (parses_bind _ _ _ (if v =? 9 then 4 + Z.of_nat (length (proc_fields v lu t)) else 0));
    [apply parses_if, parses_le4; unfold is_u32; lia|].
  remember (Z.of_nat (length (proc_fields v lu t))) as n eqn:Hn.
  unfold proc_fields in Hn |- *. rewrite !length_app in Hn.
  assert (Hs : Z.of_nat (length (bytes_if (v =? 9) (le32 (4 + n)))) = if v =? 9 then 4 else 0)
    by (by destruct (v =? 9)).
  assert (Hl : Z.of_nat (length (bytes_if ((v =? 9) && lu) (le32 (ti_loginuid t))))
               = if (v =? 9) && lu then 4 else 0) by (by destruct ((v =? 9) && lu)).
  assert (Ht : length (le64 (ti_tid t)) = 8%nat) by done.
  repeat (eapply parses_bind; [first [apply parses_if; parse_field | parse_field]|]).
  eapply parses_bind_ret; [apply parses_loginuid; [done|..]|].
  - lia.
  - destruct (v =? 9), lu; simpl in *; lia.
  - destruct (v =? 9), lu; simpl in *; lia.
  - eapply parses_bind_ret; [apply parses_skip_done|apply parses_ret].
    destruct (v =? 9), lu; simpl in *; lia.
Qed.
End read_back.

(** ** Writing gives the encoding. *)

Definition kept_procs (ts : list scap_threadinfo) : list scap_threadinfo :=
  List.filter (fun t => negb (ti_filtered_out t)) ts.

Definition procs_bytes (ts : list scap_threadinfo) : list byte :=
  concat (map (proc_bytes 9 true) (kept_procs ts)).

Lemma path_len s : path_ok s -> fname_len s = Z.of_nat (length s).
Proof. intros [_ Hl]. unfold fname_len. lia. Qed.

Lemma name_bufs_bytes s : path_ok s -> concat (name_bufs s) = str_bytes s.
Proof.
  intros Hs. unfold name_bufs, str_bytes. rewrite path_len by done.
  destruct Hs as [_ Hl]. unfold SCAP_MAX_PATH_SIZE in Hl. rewrite u16_small by lia.
  cbn [concat]. by rewrite Nat2Z.id, firstn_all, app_nil_r.
Qed.

Lemma length_proc_fields t :
  Z.of_nat (length (proc_fields 9 true t)) =
  124 + Z.of_nat (length (ti_comm t)) + Z.of_nat (length (ti_exe t))
  + Z.of_nat (length (ti_exepath t)) + Z.of_nat (length (ti_args t)) + Z.of_nat (length (ti_cwd t))
  + Z.of_nat (length (ti_env t)) + Z.of_nat (length (ti_cgroups t))
  + Z.of_nat (length (ti_root t)).
Proof.
  unfold proc_fields, bytes_if. cbn [Z.leb Z.compare Pos.compare Pos.compare_cont Z.eqb Pos.eqb andb].
  unfold le64, le32. rewrite !length_Z_app, !length_str_bytes, !length_le_bytes. lia.
Qed.

(** The announced length is the length written. *)
Lemma length_proc_bytes t :
  proc_ok t ->
  proc_len t = 4 + Z.of_nat (length (proc_fields 9 true t)) /\
  Z.of_nat (length (proc_bytes 9 true t)) = proc_len t /\ 128 <= proc_len t < 20000.
Proof.
  intros (_ & (Hc & He & Hx & Hw & Hr) & (Ha & Hn & Hg) & _).
  assert (Hp : proc_len t = 4 + Z.of_nat (length (proc_fields 9 true t))).
  { unfold proc_len. rewrite !path_len by done. rewrite length_proc_fields.
    unfold path_ok, SCAP_MAX_PATH_SIZE, SCAP_MAX_ARGS_SIZE, SCAP_MAX_ENV_SIZE,
      SCAP_MAX_CGROUPS_SIZE in *. rewrite u32_small; lia. }
  split; [done|]. split.
  - unfold proc_bytes, bytes_if, le32. cbn [Z.eqb Pos.eqb].
    rewrite length_Z_app, length_le_bytes. lia.
  - rewrite Hp, length_proc_fields. unfold path_ok, SCAP_MAX_PATH_SIZE, SCAP_MAX_ARGS_SIZE,
      SCAP_MAX_ENV_SIZE, SCAP_MAX_CGROUPS_SIZE in *. lia.
Qed.

Section written.
Context {F : Type} `{GzWriter F} (Hok : no_write_errors (F := F)).

Lemma emit_iov_writes s bs next :
  Z.of_nat (length s) < 65536 -> writes (F := F) bs next ->
  writes (str_bytes s ++ bs) (emit_iov [s] next).
Proof using Hok.
  intros Hl Hn. unfold emit_iov, str_bytes. rewrite <- app_assoc.
  assert (Hi : iov_size [s] = Z.of_nat (length s)).
  { unfold iov_size. cbn [foldl]. rewrite Z.add_0_l. apply u16_small. lia. }
  rewrite Hi. apply emit_writes; [done|]. intros f. cbn [scap_dump_writev].
  destruct (file_write Hok f s) as (f1 & -> & H1).
  rewrite (proj2 (Z.ltb_ge _ _)), Z.add_0_l, Z.eqb_refl by lia.
  destruct (Hn f1) as (f2 & -> & H2). exists f2. split; [done|]. by rewrite H2, H1, app_assoc.
Qed.

Lemma proc_entry_writes t :
  proc_ok t -> writes (F := F) (proc_bytes 9 true t) (scap_write_proclist_entry t (proc_len t)).
Proof using Hok.
  intros Ht. pose proof (length_proc_bytes t Ht) as (Hlen & _ & _).
  destruct Ht as (_ & (Hc & He & Hx & Hw & Hr) & (Ha & Hn & Hg) & _).
  unfold scap_write_proclist_entry, scap_write_proclist_entry_bufs, proc_bytes.
  rewrite <- Hlen. unfold proc_fields, bytes_if. cbn [Z.leb Z.compare Pos.compare Pos.compare_cont Z.eqb Pos.eqb andb].
  unfold SCAP_MAX_ARGS_SIZE, SCAP_MAX_ENV_SIZE, SCAP_MAX_CGROUPS_SIZE in *.
  rewrite <- (name_bufs_bytes (ti_comm t)), <- (name_bufs_bytes (ti_exe t)),
    <- (name_bufs_bytes (ti_exepath t)), <- (name_bufs_bytes (ti_cwd t)),
    <- (name_bufs_bytes (ti_root t)) by done.
  cbn [emits app name_bufs concat]. rewrite !app_nil_r, <- !app_assoc.
  do 12 (apply emit_writes; [done|]). apply emit_iov_writes; [lia|].
  do 11 (apply emit_writes; [done|]). apply emit_iov_writes; [lia|].
  do 2 (apply emit_writes; [done|]). apply emit_iov_writes; [lia|].
  do 2 (apply emit_writes; [done|]). apply emit_last_writes; [done|apply emit_done_writes].
Qed.

Lemma write_procs_writes ts :
  Forall proc_ok ts -> writes (F := F) (procs_bytes ts) (write_procs ts).
Proof using Hok.
  unfold procs_bytes, kept_procs. induction 1 as [|t ts Ht _ IH]; [apply emit_done_writes|].
  intros f. cbn [write_procs List.filter]. destruct (ti_filtered_out t); [apply IH|].
  cbn [negb map concat]. destruct (proc_entry_writes t Ht f) as (f1 & -> & H1).
  rewrite Z.eqb_refl. destruct (IH f1) as (f2 & -> & H2). exists f2. split; [done|].
  by rewrite H2, H1, app_assoc.
Qed.
End written.

Lemma kept_procs_ok ts : Forall proc_ok ts -> Forall proc_ok (kept_procs ts).
Proof.
  unfold kept_procs. induction 1 as [|t ts Ht _ IH]; [done|]. simpl. case_if; [by constructor|done].
Qed.

Lemma procs_totlen_ok ts :
  Forall proc_ok ts -> Z.of_nat (length (procs_bytes ts)) < 4294967296 ->
  procs_totlen ts = Z.of_nat (length (procs_bytes ts)).
Proof.
  intros Hok. unfold procs_totlen.
  assert (G : forall acc, 0 <= acc -> acc + Z.of_nat (length (procs_bytes ts)) < 4294967296 ->
    foldl (fun acc t => if ti_filtered_out t then acc else u32 (acc + proc_len t)) acc ts
    = acc + Z.of_nat (length (procs_bytes ts))); [|intros Hl; rewrite G; lia].
  unfold procs_bytes, kept_procs. induction Hok as [|t ts Ht _ IH]; intros acc Ha Hlt.
  { simpl. lia. }
  cbn [foldl List.filter] in *. destruct (ti_filtered_out t); [by apply IH|].
  cbn [negb map concat] in *. rewrite length_app, Nat2Z.inj_add in *.
  pose proof (length_proc_bytes t Ht) as (_ & Hb & _).
  rewrite u32_small, IH by lia. lia.
Qed.

Definition proclist_bytes (ts : list scap_threadinfo) : list byte :=
  block_bytes PL_BLOCK_TYPE_V9 (procs_totlen ts) (procs_bytes ts).

Lemma proclist_writes {F} `{GzWriter F} ts :
  no_write_errors (F := F) -> Forall proc_ok ts ->
  writes (F := F) (proclist_bytes ts) (scap_write_proclist ts).
Proof.
  intros Hw Hok. unfold scap_write_proclist, proclist_bytes, block_bytes.
  apply dump_then_writes.
  - apply emit_last_writes; [done|apply emit_done_writes].
  - apply dump_then_writes; [by apply write_procs_writes|].
    apply emit_writes; [done|]. apply emit_last_writes; [done|apply emit_done_writes].
Qed.

(** ** The block is read back. *)

Lemma pl_version_range ty v : pl_version ty = Some v -> 1 <= v <= 9.
Proof.
  unfold pl_version. intros E. destruct (List.find _ _) as [[t' v']|] eqn:Ef; [|done].
  cbn [option_map snd] in E. injection E as <-.
  apply List.find_some in Ef as [Hin _]. simpl in Hin.
  repeat (destruct Hin as [[= _ <-]|Hin]; [lia|]). done.
Qed.

Lemma length_proc_fields_le v lu t :
  (8 <= length (proc_fields v lu t) <= length (proc_fields 9 true t))%nat.
Proof.
  split; [unfold proc_fields; rewrite length_app; simpl; lia|].
  assert (Hb : forall b bs, (length (bytes_if b bs) <= length (bytes_if true bs))%nat)
    by (intros [] bs; simpl; lia).
  unfold proc_fields. rewrite !length_app.
  repeat (apply Nat.add_le_mono; [first [apply Hb|done]|]). apply Hb.
Qed.

Lemma proc_entries_ok {R} `{GzSeeker R} ty v lu ts :
  pl_version ty = Some v -> Forall proc_ok ts ->
  Forall (entry_ok (R := R) (proc_entry ty) (proc_bytes v lu) (proc_stored v lu)) ts.
Proof.
  intros Hv Hok. pose proof (pl_version_range _ _ Hv). eapply Forall_impl; [|exact Hok].
  intros t Ht. pose proof (length_proc_fields_le v lu t). split.
  - unfold proc_entry. rewrite Hv. apply parses_proc_entry; [lia|done|].
    pose proof (length_proc_bytes t Ht). lia.
  - unfold proc_bytes. rewrite length_app. lia.
Qed.

(** C28: every version of the process list is understood.  A block of one of the
    twelve process list types, with its entries in the format of its version
    and at most three bytes of padding, is read as those threads in order; each
    field the version has is read back as it was, and each field it does not have
    gets the default: no session, process group, executable path, memory and
    fault counters, environment, namespace ids, cgroups, root or login uid. *)
Theorem proclist_versions_read {R : Type} `{GzSeeker R} (ty v : Z) (lu : bool)
    (ts : list scap_threadinfo) (pad rest : list byte) (f : R) :
  pl_version ty = Some v -> Forall proc_ok ts -> (length pad < 4)%nat ->
  let body := concat (map (proc_bytes v lu) ts) in
  Z.of_nat (length body) < 2147483600 -> gz_rest f = body ++ pad ++ rest ->
  exists f', scap_read_proclist (Z.of_nat (length body) + Z.of_nat (length pad)) ty f
    = (f', BlockRead (map (proc_stored v lu) ts)) /\ gz_rest f' = rest.
Proof.
  intros Hv Hok Hpad body Hlen Hr. apply (read_block_ok _ (proc_bytes v lu) _ _ _ _ _ pad);
    auto using proc_entries_ok; fold body; lia.
Qed.

(** Two threads: one with everything, one that is not to be saved. *)
Definition sample_tinfo (tid : Z) (filtered : bool) : scap_threadinfo :=
  mk_tinfo tid tid 1 1 1 [x73; x68] [x2d; x73; x68] [x2f; x73; x68] [x2d; x63; x00; x78; x00]
    [x41; x3d; x31; x00] [x2f] 1024 1 1000 1000 8 4 0 2 7 tid tid [x61; x3d; x2f; x00] [x2f]
    filtered [] 5 0 1000.

Lemma sample_tinfo_ok tid b : 0 <= tid < 32768 -> proc_ok (sample_tinfo tid b).
Proof.
  intros Ht. unfold proc_ok, path_ok, is_u64, is_u32, is_s64, is_s32; simpl.
  rewrite !not_elem_of_cons. unfold SCAP_MAX_PATH_SIZE, SCAP_MAX_ARGS_SIZE, SCAP_MAX_ENV_SIZE,
    SCAP_MAX_CGROUPS_SIZE. repeat split; try done; try lia; apply not_elem_of_nil.
Qed.

Lemma proclist_versions_read_witness :
  exists f', scap_read_proclist
      (Z.of_nat (length (concat (map (proc_bytes 4 false) [sample_tinfo 7 false]))) + 1)
      PL_BLOCK_TYPE_V4 (gz_open (proc_bytes 4 false (sample_tinfo 7 false) ++ [x00; x01]))
    = (f', BlockRead [proc_stored 4 false (sample_tinfo 7 false)]) /\ gz_rest f' = [x01].
Proof.
  apply (proclist_versions_read PL_BLOCK_TYPE_V4 4 false [sample_tinfo 7 false] [x00] [x01]
    (gz_open (proc_bytes 4 false (sample_tinfo 7 false) ++ [x00; x01]))).
  - reflexivity.
  - repeat constructor; try apply sample_tinfo_ok; lia.
  - simpl. lia.
  - vm_compute. reflexivity.
  - vm_compute. reflexivity.
Defined.

(** What the read of [scap_write_proclist]'s block gives. *)
Lemma read_proclist_ok {R} `{GzSeeker R} (ts : list scap_threadinfo) (f : R) rest :
  Forall proc_ok ts -> Z.of_nat (length (procs_bytes ts)) < 2147483500 ->
  let n := procs_totlen ts in
  gz_rest f = procs_bytes ts ++ padding n ++ rest ->
  exists f', scap_read_proclist (block_total n - 12) PL_BLOCK_TYPE_V9 f
    = (f', BlockRead (map (proc_stored 9 true) (kept_procs ts))) /\ gz_rest f' = rest.
Proof.
  intros Hok Hlen n Hr. assert (Hn : n = Z.of_nat (length (procs_bytes ts)))
    by (apply procs_totlen_ok; [done|lia]).
  destruct (block_total_length n ltac:(lia)) as (-> & Hnorm & Hpad).
  eapply (read_block_ok _ (proc_bytes 9 true)); [|exact Hr|..]; unfold procs_bytes in *; try lia.
  apply proc_entries_ok; [done|by apply kept_procs_ok].
Qed.

(** The process table survives a capture file.  Without write errors
    [scap_write_proclist] writes one block whose body [scap_read_proclist] reads
    as the threads that are not filtered out, in order, every field as it was
    but the descriptors, which have their own blocks, the clone time and the
    terminal, which are not stored. *)
Theorem proclist_roundtrip {F R : Type} `{GzWriter F} `{GzSeeker R} (ts : list scap_threadinfo)
    (f : F) :
  no_write_errors (F := F) -> Forall proc_ok ts ->
  Z.of_nat (length (procs_bytes ts)) < 2147483500 ->
  let n := procs_totlen ts in
  exists f', scap_write_proclist ts (DT_FILE f) = (DT_FILE f', SCAP_SUCCESS) /\
    gz_written f' = gz_written f ++ block_header PL_BLOCK_TYPE_V9 (block_total n)
                    ++ procs_bytes ts ++ padding n ++ le32 (block_total n) /\
    forall (r : R) rest, gz_rest r = procs_bytes ts ++ padding n ++ rest ->
      exists r', scap_read_proclist (block_total n - 12) PL_BLOCK_TYPE_V9 r
          = (r', BlockRead (map (proc_stored 9 true) (kept_procs ts))) /\ gz_rest r' = rest.
Proof.
  intros Hw Hok Hlen n. destruct (proclist_writes ts Hw Hok f) as (f' & Hf' & Hw').
  exists f'. split; [done|]. split; [done|]. intros r rest Hr. by apply read_proclist_ok.
Qed.

Definition sample_pl_file : list byte :=
  procs_bytes [sample_tinfo 7 false; sample_tinfo 8 true]
  ++ padding (procs_totlen [sample_tinfo 7 false; sample_tinfo 8 true]).

Lemma proclist_roundtrip_witness :
  exists r', scap_read_proclist
      (block_total (procs_totlen [sample_tinfo 7 false; sample_tinfo 8 true]) - 12)
      PL_BLOCK_TYPE_V9
      (gz_open sample_pl_file)
    = (r', BlockRead [proc_stored 9 true (sample_tinfo 7 false)]) /\ gz_rest r' = [].
Proof.
  destruct (proclist_roundtrip (F := list byte) (R := gz_file sample_pl_file)
    [sample_tinfo 7 false; sample_tinfo 8 true] []) as (f' & _ & _ & H).
  - intros f bs. reflexivity.
  - repeat constructor; try apply sample_tinfo_ok; lia.
  - vm_compute. reflexivity.
  - apply (H (gz_open sample_pl_file) []).
    vm_compute. reflexivity.
Defined.

(** The padding of a process list stays inside its buffer. *)
Lemma proclist_padding_in_buffer {R} `{GzSeeker R} bl ty (f : R) :
  is_u32 bl -> snd (scap_read_proclist bl ty f) <> BlockOverflow.
Proof. intros Hbl. by apply (read_block_padding _ 1 ltac:(lia) _). Qed.
