(* ===== verification/UserList.v ===== *)
(** * Capture files, user lists: [libscap/scap_savefile.c]

    The block that holds the users and groups of the machine: the writer
    [scap_write_userlist] and the reader [scap_read_userlist].  The theorems are
    the round trip, where it holds, and the list that the writer accepts and the
    reader does not. *)

From Stdlib Require Import ZArith Lia List Bool.
From Stdlib Require Import Strings.Byte.
From stdpp Require Import base tactics list numbers option.
From S2P Require Import Prelude Bytes EventDefs.
From S2P Require Import Reader Suppress SaveFile SaveFileSpec BlockIO FdList.
Import ListNotations.
Local Open Scope Z_scope.
Local Open Scope gz_scope.

Definition UL_BLOCK_TYPE : Z := 518.             (* 0x206 *)
Definition UL_BLOCK_TYPE_INT : Z := 2148707277.  (* 0x8012ABCD *)
Definition UL_BLOCK_TYPE_V2 : Z := 544.          (* 0x220 *)
Definition MAX_CREDENTIALS_STR_LEN : Z := 256.
Definition USERBLOCK_TYPE_USER : Z := 0.
Definition USERBLOCK_TYPE_GROUP : Z := 1.

Record scap_userinfo : Type := mk_user {
  us_uid : Z; us_gid : Z; us_name : list byte; us_homedir : list byte; us_shell : list byte }.

Record scap_groupinfo : Type := mk_group { gr_gid : Z; gr_name : list byte }.

(** [struct scap_userlist]: the counts are the lengths of the lists. *)
Record scap_userlist : Type := mk_userlist {
  ul_users : list scap_userinfo; ul_groups : list scap_groupinfo }.

(** ** Writing. *)

(** [strnlen(name, MAX_CREDENTIALS_STR_LEN)] *)
Definition cred_len (s : list byte) : Z :=
  u16 (Z.min (Z.of_nat (length s)) MAX_CREDENTIALS_STR_LEN).

Definition user_len (u : scap_userinfo) : Z :=
  4 + 1 + 4 + 4 + 2 + cred_len (us_name u) + 2 + u16 (fname_len (us_homedir u))
  + 2 + u16 (fname_len (us_shell u)).

Definition group_len (g : scap_groupinfo) : Z := 4 + 1 + 4 + 2 + cred_len (gr_name g).

(** The pass that computes the lengths. *)
Definition userlist_totlen (l : scap_userlist) : Z :=
  foldl (fun acc g => u32 (acc + group_len g))
    (foldl (fun acc u => u32 (acc + user_len u)) 0 (ul_users l)) (ul_groups l).

Section writers.
Context {F : Type} `{GzWriter F}.

Local Notation writer := (scap_dumper_t F -> scap_dumper_t F * Z).

(** The first [len] bytes of a string, behind their length. *)
Definition cut_bufs (len : Z) (s : list byte) : list (list byte) :=
  [le16 len; take (Z.to_nat len) s].

Definition user_bufs (u : scap_userinfo) : list (list byte) :=
  [le32 (user_len u); le_bytes 1 USERBLOCK_TYPE_USER; le32 (us_uid u); le32 (us_gid u)]
  ++ cut_bufs (cred_len (us_name u)) (us_name u)
  ++ cut_bufs (u16 (fname_len (us_homedir u))) (us_homedir u)
  ++ cut_bufs (u16 (fname_len (us_shell u))) (us_shell u).

Definition group_bufs (g : scap_groupinfo) : list (list byte) :=
  [le32 (group_len g); le_bytes 1 USERBLOCK_TYPE_GROUP; le32 (gr_gid g)]
  ++ cut_bufs (cred_len (gr_name g)) (gr_name g).

(** [scap_write_userlist]; without a list the write fails. *)
Definition scap_write_userlist (m_userlist : option scap_userlist) : writer :=
  match m_userlist with
  | None => fun d => (d, SCAP_FAILURE)
  | Some l =>
      let totlen := userlist_totlen l in
      emit (block_header UL_BLOCK_TYPE_V2 (block_total totlen))
        (emits (concat (map user_bufs (ul_users l)) ++ concat (map group_bufs (ul_groups l)))
          (emit (padding totlen) (emit (le32 (block_total totlen)) emit_done)))
  end.
End writers.

(** ** Reading. *)

(** An entry of the block. *)
Definition ul_entry : Type := scap_userinfo + scap_groupinfo.
Definition ul_user (e : ul_entry) : option scap_userinfo :=
  match e with inl u => Some u | inr _ => None end.
Definition ul_group (e : ul_entry) : option scap_groupinfo :=
  match e with inl _ => None | inr g => Some g end.

Section readers.
Context {R : Type} `{GzSeeker R}.

Definition cred_fits (stlen : Z) : bool := negb (MAX_CREDENTIALS_STR_LEN <=? stlen).

(** A string, terminated behind its bytes. *)
Definition gz_cred : gzM R (list byte) := bs <-- gz_str cred_fits ;; gz_ret (c_string bs).

(** The body of the loop of [scap_read_userlist]: a user or a group. *)
Definition user_entry (block_type : Z) : gzM R ul_entry :=
  sub_len <-- (if block_type =? UL_BLOCK_TYPE_V2 then gz_le 4 else gz_ret 0) ;;
  type <-- gz_le 1 ;;
  e <-- (if type =? USERBLOCK_TYPE_USER then
           uid <-- gz_le 4 ;;
           gid <-- gz_le 4 ;;
           name <-- gz_cred ;;
           homedir <-- gz_cred ;;
           shell <-- gz_cred ;;
           gz_ret (inl (mk_user uid gid name homedir shell))
         else
           gid <-- gz_le 4 ;;
           name <-- gz_cred ;;
           gz_ret (inr (mk_group gid name))) ;;
  _ <-- gz_skip_rest sub_len ;;
  gz_ret e.

(** Users and groups go to the ends of their arrays. *)
Definition userlist_of (l : list ul_entry) : scap_userlist :=
  mk_userlist (omap ul_user l) (omap ul_group l).

(** [scap_read_userlist]: the list that replaces the one of the handle. *)
Definition scap_read_userlist (block_length block_type : Z) (f : R) :
    R * block_result scap_userlist :=
  match read_block (user_entry block_type) block_length 0 f with
  | (f', BlockRead l) => (f', BlockRead (userlist_of l))
  | (f', BlockFailure) => (f', BlockFailure)
  | (f', BlockOverflow) => (f', BlockOverflow)
  | (f', BlockUndefined) => (f', BlockUndefined)
  end.

#[export] Instance counts_cred : Counts 2 gz_cred.
Proof. unfold gz_cred. rewrite <- (Z.add_0_r 2). apply _. Qed.

#[export] Instance counts_user_entry ty : Counts 1 (user_entry ty).
Proof. unfold user_entry. eapply counts_weaken; [apply _|]. simpl. lia. Qed.
End readers.

(** ** The encoding of an entry. *)

Definition cred_ok (s : list byte) : Prop :=
  (x00 ∉ s) /\ Z.of_nat (length s) < MAX_CREDENTIALS_STR_LEN.

(** A user that can be read back: the strings are shorter than the reader's
    limit, which for the home directory and the shell is less than their arrays
    hold. *)
Definition user_ok (u : scap_userinfo) : Prop :=
  is_u32 (us_uid u) /\ is_u32 (us_gid u) /\
  cred_ok (us_name u) /\ cred_ok (us_homedir u) /\ cred_ok (us_shell u).

Definition group_ok (g : scap_groupinfo) : Prop := is_u32 (gr_gid g) /\ cred_ok (gr_name g).

Definition ul_entry_ok (e : ul_entry) : Prop :=
  match e with inl u => user_ok u | inr g => group_ok g end.

Definition ul_fields (e : ul_entry) : list byte :=
  match e with
  | inl u => le_bytes 1 USERBLOCK_TYPE_USER ++ le32 (us_uid u) ++ le32 (us_gid u)
             ++ str_bytes (us_name u) ++ str_bytes (us_homedir u) ++ str_bytes (us_shell u)
  | inr g => le_bytes 1 USERBLOCK_TYPE_GROUP ++ le32 (gr_gid g) ++ str_bytes (gr_name g)
  end.

(** With the length in the current block type, without it in the old ones. *)
Definition ul_bytes (v2 : bool) (e : ul_entry) : list byte :=
  bytes_if v2 (le32 (4 + Z.of_nat (length (ul_fields e)))) ++ ul_fields e.

Definition ul_entries (l : scap_userlist) : list ul_entry :=
  map inl (ul_users l) ++ map inr (ul_groups l).

Lemma userlist_of_entries l : userlist_of (ul_entries l) = l.
Proof.
  destruct l as [us gs]. unfold userlist_of, ul_entries. rewrite !omap_app. cbn [ul_users ul_groups].
  assert (Hu : forall us, omap ul_user (map inl us) = us /\ omap ul_group (map inl us) = [])
    by (induction us0 as [|u us0 [IH1 IH2]]; [done|]; split; [exact (f_equal (cons u) IH1)|exact IH2]).
  assert (Hg : forall gs, omap ul_user (map inr gs) = [] /\ omap ul_group (map inr gs) = gs)
    by (induction gs0 as [|g gs0 [IH1 IH2]]; [done|]; split; [exact IH1|exact (f_equal (cons g) IH2)]).
  destruct (Hu us) as [-> ->], (Hg gs) as [-> ->]. by rewrite app_nil_r.
Qed.

Section read_back.
Context {R : Type} `{GzSeeker R}.

Lemma parses_cred c s : cred_ok s -> parses (R := R) c (str_bytes s) s gz_cred.
Proof.
  unfold cred_ok, MAX_CREDENTIALS_STR_LEN. intros [Hz Hl]. unfold gz_cred. eapply parses_bind_ret.
  - apply parses_str; [lia|]. unfold cred_fits, MAX_CREDENTIALS_STR_LEN. lia.
  - rewrite c_string_id by done. apply parses_ret.
Qed.

Lemma length_ul_fields e : ul_entry_ok e -> (5 <= length (ul_fields e) < 800)%nat.
Proof.
  unfold ul_entry_ok, user_ok, group_ok, cred_ok, MAX_CREDENTIALS_STR_LEN.
  destruct e as [u|g]; intros Hok; unfold ul_fields, str_bytes; rewrite !length_app; simpl; lia.
Qed.

Lemma parses_user_entry ty e :
  ul_entry_ok e ->
  parses (R := R) 0 (ul_bytes (ty =? UL_BLOCK_TYPE_V2) e) e (user_entry ty).
Proof.
  intros He. pose proof (length_ul_fields e He) as Hl. unfold user_entry, ul_bytes.
  set (v2 := ty =? UL_BLOCK_TYPE_V2). remember (Z.of_nat (length (ul_fields e))) as n eqn:Hn.
  eapply (parses_bind _ _ _ (if v2 then 4 + n else 0));
    [apply parses_if, parses_le4; unfold is_u32; lia|].
  assert (Hs : Z.of_nat (length (bytes_if v2 (le32 (4 + n)))) = if v2 then 4 else 0)
    by (by destruct v2).
  destruct e as [[uid gid name homedir shell]|[gid name]]; cbn in He; unfold ul_fields in *;
    cbn [us_uid us_gid us_name us_homedir us_shell gr_gid gr_name] in *.
  - destruct He as (H1 & H2 & H3 & H4 & H5). rewrite !length_app in Hn.
    eapply parses_bind; [by apply parses_le1|]. eapply parses_bind_ret.
    + repeat (eapply parses_bind; [first [by apply parses_le4|by apply parses_cred]|]).
      eapply parses_bind_ret; [by apply parses_cred|apply parses_ret].
    + eapply parses_bind_ret; [apply parses_skip_done|apply parses_ret].
      rewrite !length_app. destruct v2; simpl in *; lia.
  - destruct He as (H1 & H2). rewrite !length_app in Hn.
    eapply parses_bind; [by apply parses_le1|]. eapply parses_bind_ret.
    + eapply parses_bind; [by apply parses_le4|].
      eapply parses_bind_ret; [by apply parses_cred|apply parses_ret].
    + eapply parses_bind_ret; [apply parses_skip_done|apply parses_ret].
      rewrite !length_app. destruct v2; simpl in *; lia.
Qed.

Lemma ul_entries_ok ty es :
  Forall ul_entry_ok es ->
  Forall (entry_ok (R := R) (user_entry ty) (ul_bytes (ty =? UL_BLOCK_TYPE_V2)) id) es.
Proof.
  intros Hok. eapply Forall_impl; [|exact Hok]. intros e He. split.
  - by apply parses_user_entry.
  - pose proof (length_ul_fields e He). unfold ul_bytes. rewrite length_app. lia.
Qed.
End read_back.

(** ** Writing gives the encoding. *)

(** What fits the arrays: names of 256 bytes, paths of 1024, with terminator. *)
Definition user_storable (u : scap_userinfo) : Prop :=
  is_u32 (us_uid u) /\ is_u32 (us_gid u) /\ cred_ok (us_name u) /\
  name_ok (us_homedir u) /\ name_ok (us_shell u).

Definition ul_storable (e : ul_entry) : Prop :=
  match e with inl u => user_storable u | inr g => group_ok g end.

Definition entry_bufs (e : ul_entry) : list (list byte) :=
  match e with inl u => user_bufs u | inr g => group_bufs g end.
Definition entry_len (e : ul_entry) : Z :=
  match e with inl u => user_len u | inr g => group_len g end.

Lemma cred_len_ok s : cred_ok s -> cred_len s = Z.of_nat (length s).
Proof.
  unfold cred_ok, cred_len, MAX_CREDENTIALS_STR_LEN. intros [_ Hl].
  rewrite Z.min_l by lia. apply u16_small. lia.
Qed.

Lemma path_len_ok s : name_ok s -> u16 (fname_len s) = Z.of_nat (length s).
Proof.
  intros Hs. rewrite fname_len_ok by done. apply u16_small.
  destruct Hs as [_ Hl]. unfold SCAP_MAX_PATH_SIZE in Hl. lia.
Qed.

Lemma cut_bufs_bytes len s : len = Z.of_nat (length s) -> concat (cut_bufs len s) = str_bytes s.
Proof.
  intros ->. unfold cut_bufs, str_bytes. cbn [concat]. by rewrite Nat2Z.id, firstn_all, app_nil_r.
Qed.

Lemma entry_bytes e :
  ul_storable e ->
  entry_len e = 4 + Z.of_nat (length (ul_fields e)) /\ concat (entry_bufs e) = ul_bytes true e /\
  11 <= entry_len e < 3000.
Proof.
  unfold ul_storable, user_storable, group_ok. intros Hok.
  assert (Hlen : entry_len e = 4 + Z.of_nat (length (ul_fields e))).
  { destruct e as [u|g]; unfold entry_len, user_len, group_len, ul_fields, le32.
    - destruct Hok as (_ & _ & Hn & Hh & Hs). rewrite cred_len_ok, !path_len_ok by done.
      rewrite !length_Z_app, !length_str_bytes, !length_le_bytes. lia.
    - destruct Hok as (_ & Hn). rewrite cred_len_ok by done.
      rewrite !length_Z_app, length_str_bytes, !length_le_bytes. lia. }
  split; [done|]. split.
  - unfold ul_bytes, bytes_if. rewrite <- Hlen.
    destruct e as [u|g]; unfold entry_bufs, user_bufs, group_bufs, ul_fields, entry_len.
    + destruct Hok as (_ & _ & Hn & Hh & Hs).
      rewrite <- (cut_bufs_bytes (cred_len (us_name u)) (us_name u)) by (by apply cred_len_ok).
      rewrite <- (cut_bufs_bytes (u16 (fname_len (us_homedir u))) (us_homedir u))
        by (by apply path_len_ok).
      rewrite <- (cut_bufs_bytes (u16 (fname_len (us_shell u))) (us_shell u))
        by (by apply path_len_ok).
      unfold cut_bufs. cbn [concat app]. by rewrite !app_nil_r, <- !app_assoc.
    + destruct Hok as (_ & Hn).
      rewrite <- (cut_bufs_bytes (cred_len (gr_name g)) (gr_name g)) by (by apply cred_len_ok).
      unfold cut_bufs. cbn [concat app]. by rewrite !app_nil_r, <- ?app_assoc.
  - rewrite Hlen. destruct e as [u|g]; unfold ul_fields, le32;
      rewrite !length_Z_app, !length_str_bytes, !length_le_bytes;
      unfold cred_ok, name_ok, MAX_CREDENTIALS_STR_LEN, SCAP_MAX_PATH_SIZE in *; lia.
Qed.

Lemma length_ul_bytes e :
  Z.of_nat (length (ul_bytes true e)) = 4 + Z.of_nat (length (ul_fields e)).
Proof. unfold ul_bytes, bytes_if, le32. by rewrite length_Z_app, length_le_bytes. Qed.

Definition userlist_body (l : scap_userlist) : list byte :=
  concat (map (ul_bytes true) (ul_entries l)).

Lemma concat_entry_bufs l :
  Forall ul_storable (ul_entries l) ->
  concat (concat (map user_bufs (ul_users l)) ++ concat (map group_bufs (ul_groups l)))
  = userlist_body l.
Proof.
  intros Hok. unfold userlist_body.
  assert (E : concat (map user_bufs (ul_users l)) ++ concat (map group_bufs (ul_groups l))
    = concat (map entry_bufs (ul_entries l)))
    by (unfold ul_entries; by rewrite map_app, concat_app, !map_map).
  rewrite E. clear E. revert Hok. generalize (ul_entries l).
  induction 1 as [|e es He _ IH]; [done|]. cbn [map concat].
  rewrite concat_app, IH. destruct (entry_bytes e He) as (_ & -> & _). done.
Qed.

Lemma length_userlist_body l :
  Forall ul_storable (ul_entries l) -> Z.of_nat (length (userlist_body l)) < 4294967296 ->
  userlist_totlen l = Z.of_nat (length (userlist_body l)).
Proof.
  intros Hok. unfold userlist_totlen, userlist_body.
  assert (E : forall acc, foldl (fun acc g => u32 (acc + group_len g))
      (foldl (fun acc u => u32 (acc + user_len u)) acc (ul_users l)) (ul_groups l)
    = foldl (fun acc e => u32 (acc + entry_len e)) acc (ul_entries l)).
  { intros acc. unfold ul_entries. rewrite foldl_app, !foldl_fmap. done. }
  rewrite E.
  assert (G : forall acc, 0 <= acc ->
    acc + Z.of_nat (length (concat (map (ul_bytes true) (ul_entries l)))) < 4294967296 ->
    foldl (fun acc e => u32 (acc + entry_len e)) acc (ul_entries l)
    = acc + Z.of_nat (length (concat (map (ul_bytes true) (ul_entries l)))));
    [|intros Hl; rewrite G; lia].
  clear E. revert Hok. generalize (ul_entries l).
  induction 1 as [|e es He _ IH]; intros acc Ha Hlt; [simpl; lia|].
  cbn [foldl map concat] in *. rewrite length_app, Nat2Z.inj_add in *.
  destruct (entry_bytes e He) as (Hl & _ & Hr).
  pose proof (length_ul_bytes e).
  rewrite u32_small, IH by lia. lia.
Qed.

Definition userlist_bytes (l : scap_userlist) : list byte :=
  block_bytes UL_BLOCK_TYPE_V2 (userlist_totlen l) (userlist_body l).

Lemma userlist_writes {F} `{GzWriter F} l :
  no_write_errors (F := F) -> Forall ul_storable (ul_entries l) ->
  writes (F := F) (userlist_bytes l) (scap_write_userlist (Some l)).
Proof.
  intros Hw Hok. unfold scap_write_userlist, userlist_bytes, block_bytes.
  apply emit_writes; [done|]. rewrite <- concat_entry_bufs by done.
  apply emits_writes; [done|]. apply emit_writes; [done|].
  apply emit_last_writes; [done|apply emit_done_writes].
Qed.

Definition userlist_ok (l : scap_userlist) : Prop :=
  Forall user_ok (ul_users l) /\ Forall group_ok (ul_groups l).

Lemma userlist_ok_entries l : userlist_ok l -> Forall ul_entry_ok (ul_entries l).
Proof. intros [Hu Hg]. unfold ul_entries. apply Forall_app. split; by apply Forall_map. Qed.

Lemma ul_entry_ok_storable e : ul_entry_ok e -> ul_storable e.
Proof.
  destruct e as [u|g]; [|done]. simpl. unfold user_ok, user_storable, cred_ok, name_ok,
    MAX_CREDENTIALS_STR_LEN, SCAP_MAX_PATH_SIZE.
  intros (? & ? & (? & ?) & (? & ?) & (? & ?)). split_and!; done || lia.
Qed.

Lemma read_userlist_ok {R} `{GzSeeker R} l (f : R) rest :
  userlist_ok l -> Z.of_nat (length (userlist_body l)) < 2147483500 ->
  let n := userlist_totlen l in
  gz_rest f = userlist_body l ++ padding n ++ rest ->
  exists f', scap_read_userlist (block_total n - 12) UL_BLOCK_TYPE_V2 f = (f', BlockRead l) /\
    gz_rest f' = rest.
Proof.
  intros Hok Hlen n Hr. apply userlist_ok_entries in Hok.
  assert (Hn : n = Z.of_nat (length (userlist_body l))).
  { apply length_userlist_body; [|lia]. eapply Forall_impl; [apply ul_entry_ok_storable|done]. }
  destruct (block_total_length n ltac:(lia)) as (-> & Hnorm & Hpad).
  unfold scap_read_userlist, userlist_body in *.
  destruct (read_block_ok (user_entry UL_BLOCK_TYPE_V2) (ul_bytes true) id (ul_entries l) f 0
    (scap_normalize_block_len n) (padding n) rest) as (f' & -> & Hf'); try done; try lia.
  - apply (ul_entries_ok UL_BLOCK_TYPE_V2 _ Hok).
  - exists f'. by rewrite map_id, userlist_of_entries.
Qed.

(** The users and groups survive a capture file as long as every string is
    shorter than 256 bytes: without write errors [scap_write_userlist] writes one
    block, and [scap_read_userlist] reads its body as the same lists. *)
Theorem userlist_roundtrip {F R : Type} `{GzWriter F} `{GzSeeker R} (l : scap_userlist) (f : F) :
  no_write_errors (F := F) -> userlist_ok l ->
  Z.of_nat (length (userlist_body l)) < 2147483500 ->
  let n := userlist_totlen l in
  exists f', scap_write_userlist (Some l) (DT_FILE f) = (DT_FILE f', SCAP_SUCCESS) /\
    gz_written f' = gz_written f ++ block_header UL_BLOCK_TYPE_V2 (block_total n)
                    ++ userlist_body l ++ padding n ++ le32 (block_total n) /\
    forall (r : R) rest, gz_rest r = userlist_body l ++ padding n ++ rest ->
      exists r', scap_read_userlist (block_total n - 12) UL_BLOCK_TYPE_V2 r = (r', BlockRead l) /\
        gz_rest r' = rest.
Proof.
  intros Hw Hok Hlen n. destruct (userlist_writes l Hw) with (f := f) as (f' & Hf' & Hw').
  { eapply Forall_impl; [apply ul_entry_ok_storable|by apply userlist_ok_entries]. }
  exists f'. split; [done|]. split; [done|]. intros r rest Hr. by apply read_userlist_ok.
Qed.

Definition sample_userlist : scap_userlist :=
  mk_userlist [mk_user 0 0 [x72; x6f; x6f; x74] [x2f] [x2f; x73; x68]] [mk_group 0 [x77]].

Lemma sample_userlist_ok : userlist_ok sample_userlist.
Proof.
  unfold userlist_ok, sample_userlist; simpl. rewrite !Forall_singleton.
  unfold user_ok, group_ok, cred_ok, is_u32, MAX_CREDENTIALS_STR_LEN; simpl.
  rewrite !not_elem_of_cons. repeat split; try done; try lia; apply not_elem_of_nil.
Qed.

Definition sample_ul_file : list byte :=
  userlist_body sample_userlist ++ padding (userlist_totlen sample_userlist).

Lemma userlist_roundtrip_witness :
  exists r', scap_read_userlist (block_total (userlist_totlen sample_userlist) - 12)
      UL_BLOCK_TYPE_V2
      (gz_open sample_ul_file)
    = (r', BlockRead sample_userlist) /\ gz_rest r' = [].
Proof.
  destruct (userlist_roundtrip (F := list byte) (R := gz_file sample_ul_file) sample_userlist [])
    as (f' & _ & _ & H).
  - intros f bs. reflexivity.
  - apply sample_userlist_ok.
  - vm_compute. reflexivity.
  - apply (H (gz_open sample_ul_file) []).
    vm_compute. reflexivity.
Defined.

Lemma userlist_padding_in_buffer {R} `{GzSeeker R} bl ty (f : R) :
  is_u32 bl -> snd (scap_read_userlist bl ty f) <> BlockOverflow.
Proof.
  intros Hbl. unfold scap_read_userlist.
  pose proof (read_block_padding (user_entry ty) 1 ltac:(lia) _ bl 0 f Hbl ltac:(lia)) as Hp.
  by destruct (read_block _ _ _ _) as [f2 []].
Qed.

(** ** The reader's limit. *)

Section limit.
Context {R : Type} `{GzSeeker R}.

(** A string of 256 bytes or more, whatever follows. *)
Lemma cred_refused c s (f : R) rest :
  256 <= Z.of_nat (length s) < 65536 -> gz_rest f = str_bytes s ++ rest ->
  exists f', gz_cred f c = (f', None).
Proof.
  intros Hl Hr. unfold gz_cred, gz_str, gz_bind at 1 2. unfold str_bytes in Hr.
  rewrite <- app_assoc in Hr.
  destruct (parses_le2 c (Z.of_nat (length s)) ltac:(unfold is_u16; lia) f _ Hr)
    as (f1 & -> & _). unfold cred_fits, MAX_CREDENTIALS_STR_LEN.
  replace (256 <=? Z.of_nat (length s)) with true by lia. simpl. by exists f1.
Qed.

Lemma bind_fails {A B} c bs a (m : gzM R A) (k : A -> gzM R B) (f : R) rest :
  parses c bs a m -> gz_rest f = bs ++ rest ->
  (forall f1, gz_rest f1 = rest -> exists f2, k a f1 (c + Z.of_nat (length bs)) = (f2, None)) ->
  exists f2, gz_bind m k f c = (f2, None).
Proof.
  intros Hm Hr Hk. unfold gz_bind. destruct (Hm f rest Hr) as (f1 & -> & Hr1). by apply Hk.
Qed.

Lemma bind_fails_first {A B} c (m : gzM R A) (k : A -> gzM R B) (f : R) :
  (exists f1, m f c = (f1, None)) -> exists f2, gz_bind m k f c = (f2, None).
Proof. intros [f1 E]. exists f1. unfold gz_bind. by rewrite E. Qed.
End limit.

(** The writer accepts home directories of up to 1023 bytes, the size of
    their array, but the reader refuses a block with one of 256 bytes or more: a
    machine with such a user gets a capture file that cannot be opened. *)
Theorem long_homedir_unreadable {F R : Type} `{GzWriter F} `{GzSeeker R} (u : scap_userinfo)
    (us : list scap_userinfo) (gs : list scap_groupinfo) (f : F) :
  let l := mk_userlist (u :: us) gs in
  no_write_errors (F := F) -> Forall ul_storable (ul_entries l) ->
  256 <= Z.of_nat (length (us_homedir u)) ->
  Z.of_nat (length (userlist_body l)) < 2147483500 ->
  let n := userlist_totlen l in
  exists f', scap_write_userlist (Some l) (DT_FILE f) = (DT_FILE f', SCAP_SUCCESS) /\
    forall (r : R) rest, gz_rest r = userlist_body l ++ padding n ++ rest ->
      snd (scap_read_userlist (block_total n - 12) UL_BLOCK_TYPE_V2 r) = BlockFailure.
Proof.
  intros l Hw Hok Hlong Hlen n. destruct (userlist_writes l Hw Hok f) as (f' & Hf' & _).
  exists f'. split; [done|]. intros r rest Hr.
  assert (Hn : n = Z.of_nat (length (userlist_body l)))
    by (apply length_userlist_body; [done|lia]).
  destruct (block_total_length n ltac:(lia)) as (-> & Hnorm & _).
  pose proof (Forall_inv Hok) as Hu. destruct (entry_bytes _ Hu) as (Hel & _ & Her).
  destruct Hu as (Hu1 & Hu2 & Hu3 & [_ Hu4] & _). unfold SCAP_MAX_PATH_SIZE in Hu4.
  assert (Hbody : exists tl, userlist_body l = ul_bytes true (inl u) ++ tl)
    by (eexists; reflexivity).
  destruct Hbody as [tl Htl]. rewrite Htl in Hr, Hn, Hlen. rewrite length_app in Hn, Hlen.
  pose proof (length_ul_bytes (inl u)).
  unfold scap_read_userlist, read_block. cbn [read_entries]. cbv zeta.
  rewrite (s32_small (scap_normalize_block_len n)), (s32_small 0) by lia.
  rewrite s32_small, Z.eqb_refl by lia. rewrite (proj2 (Z.leb_le 4 _)) by lia. cbn [negb].
  assert (He : exists f2, user_entry UL_BLOCK_TYPE_V2 r 0 = (f2, None)).
  { unfold user_entry. rewrite Z.eqb_refl. assert (Hb : is_u32 (4 + Z.of_nat (length (ul_fields (inl u))))) by (unfold is_u32; lia).
    unfold ul_bytes, bytes_if, ul_fields in Hr, Hb. rewrite <- !app_assoc in Hr.
    eapply bind_fails; [apply parses_le4; exact Hb|exact Hr|].
    intros f1 Hf1. eapply bind_fails; [by apply parses_le1|exact Hf1|].
    intros f2 Hf2. rewrite Z.eqb_refl.
    apply bind_fails_first. eapply bind_fails; [exact (parses_le4 _ _ Hu1)|exact Hf2|].
    intros g2 Hg2. eapply bind_fails; [exact (parses_le4 _ _ Hu2)|exact Hg2|].
    intros g3 Hg3. eapply bind_fails; [exact (parses_cred _ _ Hu3)|exact Hg3|].
    intros g4 Hg4. apply bind_fails_first. eapply cred_refused; [|exact Hg4]. lia. }
  by destruct He as [f2 ->].
Qed.

Definition long_user : scap_userinfo := mk_user 1 1 [x61] (repeat x62 256) [x63].
Definition long_ul_file : list byte :=
  userlist_body (mk_userlist [long_user] [])
  ++ padding (userlist_totlen (mk_userlist [long_user] [])).

Lemma long_homedir_unreadable_witness :
  snd (scap_read_userlist (block_total (userlist_totlen (mk_userlist [long_user] [])) - 12)
         UL_BLOCK_TYPE_V2 (gz_open long_ul_file)) = BlockFailure.
Proof.
  destruct (long_homedir_unreadable (F := list byte) (R := gz_file long_ul_file)
    long_user [] [] []) as (f' & _ & H).
  - intros f bs. reflexivity.
  - constructor; [|constructor]. unfold ul_storable, user_storable, cred_ok, name_ok, is_u32,
      long_user; cbn [us_uid us_gid us_name us_homedir us_shell].
    unfold MAX_CREDENTIALS_STR_LEN, SCAP_MAX_PATH_SIZE. rewrite repeat_length.
    repeat split; simpl length; try lia; try (by apply not_elem_of_cons; split;
      [|apply not_elem_of_nil]). intros Hin. apply list_elem_of_In, repeat_spec in Hin. done.
  - vm_compute. discriminate.
  - vm_compute. reflexivity.
  - apply (H _ []). vm_compute. reflexivity.
Defined.
