(* ===== verification/IfList.v ===== *)
(** * Capture files, interface lists: [libscap/scap_savefile.c]

    The block that holds the network interfaces: the writer [scap_write_iflist]
    and the reader [scap_read_iflist], which brings the block to memory and
    parses it twice, once to count the entries and once to copy them.  The
    theorems are the round trip, and where the two passes go wrong on a block
    that is not one the writer makes. *)

From Stdlib Require Import ZArith Lia List Bool.
From Stdlib Require Import Strings.Byte.
From stdpp Require Import relations base tactics list numbers option.
From S2P Require Import Prelude Bytes EventDefs.
From S2P Require Import Reader Suppress SaveFile SaveFileSpec BlockIO FdList.
Import ListNotations.
Local Open Scope Z_scope.

Definition IL_BLOCK_TYPE : Z := 517.             (* 0x205 *)
Definition IL_BLOCK_TYPE_INT : Z := 2148641741.  (* 0x8011ABCD *)
Definition IL_BLOCK_TYPE_V2 : Z := 537.          (* 0x219 *)
Definition SCAP_II_IPV4 : Z := 1.
Definition SCAP_II_IPV6 : Z := 2.
Definition SCAP_II_IPV4_NOLINKSPEED : Z := 3.
Definition SCAP_II_IPV6_NOLINKSPEED : Z := 4.

(** The sizes of the entries without the array of the name. *)
Definition ipv4_size : Z := 24.
Definition ipv6_size : Z := 60.
Definition ipv4_nolinkspeed_size : Z := 16.
Definition ipv6_nolinkspeed_size : Z := 52.

(** [ifname] is the bytes of the array that [ifnamelen] covers. *)
Record scap_ifinfo_ipv4 : Type := mk_if4 {
  if4_type : Z; if4_addr : Z; if4_netmask : Z; if4_bcast : Z; if4_linkspeed : Z;
  if4_ifname : list byte }.

(** Addresses are their 16 bytes. *)
Record scap_ifinfo_ipv6 : Type := mk_if6 {
  if6_type : Z; if6_addr : list byte; if6_netmask : list byte; if6_bcast : list byte;
  if6_linkspeed : Z; if6_ifname : list byte }.

(** [struct scap_addrlist]: the counts are the lengths of the arrays. *)
Record scap_addrlist : Type := mk_addrlist {
  al_totlen : Z; al_v4list : list scap_ifinfo_ipv4; al_v6list : list scap_ifinfo_ipv6 }.

(** ** Writing. *)

Definition if4_entrylen (e : scap_ifinfo_ipv4) : Z := u32 (ipv4_size + Z.of_nat (length (if4_ifname e))).
Definition if6_entrylen (e : scap_ifinfo_ipv6) : Z := u32 (ipv6_size + Z.of_nat (length (if6_ifname e))).

Definition if4_bufs (e : scap_ifinfo_ipv4) : list (list byte) :=
  [le32 (if4_entrylen e); le16 (if4_type e); le16 (Z.of_nat (length (if4_ifname e)));
   le32 (if4_addr e); le32 (if4_netmask e); le32 (if4_bcast e); le64 (if4_linkspeed e);
   if4_ifname e].

Definition if6_bufs (e : scap_ifinfo_ipv6) : list (list byte) :=
  [le32 (if6_entrylen e); le16 (if6_type e); le16 (Z.of_nat (length (if6_ifname e)));
   if6_addr e; if6_netmask e; if6_bcast e; le64 (if6_linkspeed e); if6_ifname e].

(** The bytes the two loops count. *)
Definition iflist_totlen (l : scap_addrlist) : Z :=
  foldl (fun acc e => u32 (acc + (4 + if6_entrylen e)))
    (foldl (fun acc e => u32 (acc + (4 + if4_entrylen e))) 0 (al_v4list l)) (al_v6list l).

(** The total length the header announces, from the length the list was made
    with. *)
Definition iflist_total (l : scap_addrlist) : Z :=
  scap_normalize_block_len
    (u32 (sizeof_block_header
          + (Z.of_nat (length (al_v4list l)) + Z.of_nat (length (al_v6list l))) * 4
          + al_totlen l + 4)).

(** [scap_write_iflist]; without a list the write fails. *)
Definition scap_write_iflist {F} `{GzWriter F} (m_addrlist : option scap_addrlist) :
    scap_dumper_t F -> scap_dumper_t F * Z :=
  match m_addrlist with
  | None => fun d => (d, SCAP_FAILURE)
  | Some l =>
      emit (block_header IL_BLOCK_TYPE_V2 (iflist_total l))
        (emits (concat (map if4_bufs (al_v4list l)) ++ concat (map if6_bufs (al_v6list l)))
          (emit (padding (iflist_totlen l)) (emit (le32 (iflist_total l)) emit_done)))
  end.

(** ** Reading. *)

(** [pif] is the list of the bytes from the pointer to the end of the buffer; a
    load past the end has no value. *)
Definition peek (pif : list byte) (off n : nat) : option Z :=
  if Nat.leb (off + n) (length pif) then Some (field pif off n) else None.

Definition peek_bytes (pif : list byte) (off n : nat) : option (list byte) :=
  if Nat.leb (off + n) (length pif) then Some (sub_bytes pif off n) else None.

(** [pif += n;] *)
Definition advance (pif : list byte) (n : Z) : list byte :=
  if Z.of_nat (length pif) <=? n then [] else drop (Z.to_nat n) pif.

Definition is_v4_type (t : Z) : bool := (t =? SCAP_II_IPV4) || (t =? SCAP_II_IPV4_NOLINKSPEED).
Definition is_v6_type (t : Z) : bool := (t =? SCAP_II_IPV6) || (t =? SCAP_II_IPV6_NOLINKSPEED).

(** The size of an entry with a name of [ifnamlen] bytes, by its type. *)
Definition if_size (iftype ifnamlen : Z) : option Z :=
  if iftype =? SCAP_II_IPV4 then Some (ipv4_size + ifnamlen)
  else if iftype =? SCAP_II_IPV6 then Some (ipv6_size + ifnamlen)
  else if iftype =? SCAP_II_IPV4_NOLINKSPEED then Some (ipv4_nolinkspeed_size + ifnamlen)
  else if iftype =? SCAP_II_IPV6_NOLINKSPEED then Some (ipv6_nolinkspeed_size + ifnamlen)
  else None.

(** [toread = (int32_t)block_length - (int32_t)totreadsize;], an [uint32_t];
    [None] when the difference does not fit an [int32_t]. *)
Definition if_toread (block_length tot : Z) : option Z :=
  let d := s32 block_length - s32 tot in if d =? s32 d then Some (u32 d) else None.

(** The size and the type of an entry in the first pass. *)
Definition count_head (v2 : bool) (pif : list byte) : block_result (Z * Z) :=
  if v2 then
    match peek pif 0 4, peek pif 4 2, peek pif 6 2 with
    | Some e, Some iftype, Some _ => BlockRead (u32 (e + 4), iftype)
    | _, _, _ => BlockUndefined
    end
  else
    match peek pif 0 2, peek pif 2 2 with
    | Some iftype, Some ifnamlen =>
        match if_size iftype ifnamlen with
        | Some s => BlockRead (u32 s, iftype)
        | None => BlockFailure
        end
    | _, _ => BlockUndefined
    end.

(** A turn of the first pass, from the bytes read so far, the pointer and the
    two counts. *)
Definition count_step (v2 : bool) (block_length : Z) (st : Z * list byte * Z * Z) :
    (Z * list byte * Z * Z) + block_result (Z * Z) :=
  let '(tot, pif, ifcnt4, ifcnt6) := st in
  match if_toread block_length tot with
  | None => inr BlockUndefined
  | Some toread =>
      if toread <? 4 then inr (BlockRead (ifcnt4, ifcnt6))
      else
        match count_head v2 pif with
        | BlockRead (entrysize, iftype) =>
            if toread <? entrysize then inr BlockFailure
            else if is_v4_type iftype then
              inl (tot + entrysize, advance pif entrysize, ifcnt4 + 1, ifcnt6)
            else if is_v6_type iftype then
              inl (tot + entrysize, advance pif entrysize, ifcnt4, ifcnt6 + 1)
            else inr BlockFailure
        | BlockFailure => inr BlockFailure
        | BlockOverflow => inr BlockOverflow
        | BlockUndefined => inr BlockUndefined
        end
  end.

(** The first pass; it may not end, see [parse_iflist_ends_or_hangs]. *)
Definition if_count (fuel : nat) (v2 : bool) (block_length tot : Z) (pif : list byte)
    (ifcnt4 ifcnt6 : Z) : option (block_result (Z * Z)) :=
  run (count_step v2 block_length) fuel (tot, pif, ifcnt4, ifcnt6).

(** The copies of one entry; the name is as long as [ifnamlen] says. *)
Definition copy_if4 (pif : list byte) (ifnamlen : Z) : option scap_ifinfo_ipv4 :=
  match peek_bytes pif 0 24, peek_bytes pif 24 (Z.to_nat ifnamlen) with
  | Some p, Some name =>
      Some (mk_if4 (field p 0 2) (field p 4 4) (field p 8 4) (field p 12 4) (field p 16 8) name)
  | _, _ => None
  end.

Definition copy_if4_nolinkspeed (pif : list byte) (ifnamlen : Z) : option scap_ifinfo_ipv4 :=
  match peek_bytes pif 0 16, peek_bytes pif 16 (Z.to_nat ifnamlen) with
  | Some p, Some name =>
      Some (mk_if4 (field p 0 2) (field p 4 4) (field p 8 4) (field p 12 4) 0 name)
  | _, _ => None
  end.

Definition copy_if6 (pif : list byte) (ifnamlen : Z) : option scap_ifinfo_ipv6 :=
  match peek_bytes pif 0 60, peek_bytes pif 60 (Z.to_nat ifnamlen) with
  | Some p, Some name =>
      Some (mk_if6 (field p 0 2) (sub_bytes p 4 16) (sub_bytes p 20 16) (sub_bytes p 36 16)
              (field p 52 8) name)
  | _, _ => None
  end.

Definition copy_if6_nolinkspeed (pif : list byte) (ifnamlen : Z) : option scap_ifinfo_ipv6 :=
  match peek_bytes pif 0 52, peek_bytes pif 52 (Z.to_nat ifnamlen) with
  | Some p, Some name =>
      Some (mk_if6 (field p 0 2) (sub_bytes p 4 16) (sub_bytes p 20 16) (sub_bytes p 36 16) 0 name)
  | _, _ => None
  end.

(** The type and the name length at [pif], in the second pass; [v2] blocks have
    the length of the entry before them. *)
Definition fill_head (v2 : bool) (pif : list byte) : option (Z * list byte * Z * Z) :=
  match (if v2 then peek pif 0 4 else Some 0) with
  | None => None
  | Some entrysize =>
      let pif' := if v2 then advance pif 4 else pif in
      match peek pif' 0 2, peek pif' 2 2 with
      | Some iftype, Some ifnamlen => Some (entrysize, pif', iftype, ifnamlen)
      | _, _ => None
      end
  end.

(** [x] goes to the next place of an array of [cap] places, of which [l] are
    taken. *)
Definition place {A} (cap : Z) (l : list A) (x : option A) : block_result (list A) :=
  match x with
  | None => BlockUndefined
  | Some a => if cap <=? Z.of_nat (length l) then BlockOverflow else BlockRead (l ++ [a])
  end.

(** Copy the entry at [pif] to its array. *)
Definition fill_entry (cap4 cap6 iftype ifnamlen : Z) (pif : list byte)
    (v4 : list scap_ifinfo_ipv4) (v6 : list scap_ifinfo_ipv6) :
    block_result (list scap_ifinfo_ipv4 * list scap_ifinfo_ipv6) :=
  let in4 r := match r with
    | BlockRead l => BlockRead (l, v6) | BlockFailure => BlockFailure
    | BlockOverflow => BlockOverflow | BlockUndefined => BlockUndefined end in
  let in6 r := match r with
    | BlockRead l => BlockRead (v4, l) | BlockFailure => BlockFailure
    | BlockOverflow => BlockOverflow | BlockUndefined => BlockUndefined end in
  if iftype =? SCAP_II_IPV4 then in4 (place cap4 v4 (copy_if4 pif ifnamlen))
  else if iftype =? SCAP_II_IPV4_NOLINKSPEED then
    in4 (place cap4 v4 (copy_if4_nolinkspeed pif ifnamlen))
  else if iftype =? SCAP_II_IPV6 then in6 (place cap6 v6 (copy_if6 pif ifnamlen))
  else in6 (place cap6 v6 (copy_if6_nolinkspeed pif ifnamlen)).

(** A turn of the second pass; the arrays have [cap4] and [cap6] places. *)
Definition fill_step (v2 : bool) (block_length cap4 cap6 : Z)
    (st : Z * list byte * list scap_ifinfo_ipv4 * list scap_ifinfo_ipv6) :
    (Z * list byte * list scap_ifinfo_ipv4 * list scap_ifinfo_ipv6)
    + block_result (list scap_ifinfo_ipv4 * list scap_ifinfo_ipv6) :=
  let '(tot, pif, v4, v6) := st in
  match if_toread block_length tot with
  | None => inr BlockUndefined
  | Some toread =>
      if toread <? 4 then inr (BlockRead (v4, v6))
      else
        match fill_head v2 pif with
        | None => inr BlockUndefined
        | Some (entrysize, pif', iftype, ifnamlen) =>
            if SCAP_MAX_PATH_SIZE <=? ifnamlen then inr BlockFailure
            else
              match if_size iftype ifnamlen with
              | None => inr BlockFailure
              | Some ifsize =>
                  if toread <? ifsize then inr BlockFailure
                  else
                    match fill_entry cap4 cap6 iftype ifnamlen pif' v4 v6 with
                    | BlockRead (v4', v6') =>
                        let entrysize := if entrysize =? 0 then ifsize else entrysize in
                        inl (tot + (if v2 then 4 else 0) + entrysize, advance pif' entrysize,
                             v4', v6')
                    | BlockFailure => inr BlockFailure
                    | BlockOverflow => inr BlockOverflow
                    | BlockUndefined => inr BlockUndefined
                    end
              end
        end
  end.

Definition if_fill (fuel : nat) (v2 : bool) (block_length tot : Z) (pif : list byte)
    (cap4 cap6 : Z) (v4 : list scap_ifinfo_ipv4) (v6 : list scap_ifinfo_ipv6) :
    option (block_result (list scap_ifinfo_ipv4 * list scap_ifinfo_ipv6)) :=
  run (fill_step v2 block_length cap4 cap6) fuel (tot, pif, v4, v6).

(** Both passes over the block in memory. *)
Definition parse_iflist (fuel : nat) (block_length block_type : Z) (readbuf : list byte) :
    option (block_result scap_addrlist) :=
  let v2 := block_type =? IL_BLOCK_TYPE_V2 in
  match if_count fuel v2 block_length 0 readbuf 0 0 with
  | None => None
  | Some (BlockRead (ifcnt4, ifcnt6)) =>
      let totlen := u32 (block_length - (ifcnt4 + ifcnt6) * 4) in
      match if_fill fuel v2 block_length 0 readbuf ifcnt4 ifcnt6 [] [] with
      | None => None
      | Some (BlockRead (v4, v6)) => Some (BlockRead (mk_addrlist totlen v4 v6))
      | Some BlockFailure => Some BlockFailure
      | Some BlockOverflow => Some BlockOverflow
      | Some BlockUndefined => Some BlockUndefined
      end
  | Some BlockFailure => Some BlockFailure
  | Some BlockOverflow => Some BlockOverflow
  | Some BlockUndefined => Some BlockUndefined
  end.

(** [scap_read_iflist]: the list that replaces the one of the handle. *)
Definition scap_read_iflist {R} `{GzReader R} (block_length block_type : Z) (f : R) :
    R * option (block_result scap_addrlist) :=
  let '(f', readbuf) := gzread f block_length in
  if negb (Z.of_nat (length readbuf) =? block_length) then (f', Some BlockFailure)
  else (f', parse_iflist (S (length readbuf)) block_length block_type readbuf).

(** ** The encoding of an entry. *)

Definition if_entry : Type := scap_ifinfo_ipv4 + scap_ifinfo_ipv6.

(** An entry as the library makes it: the current types, and a name with its
    terminator inside the array. *)
Definition if_ok (e : if_entry) : Prop :=
  match e with
  | inl e => if4_type e = SCAP_II_IPV4 /\ is_u32 (if4_addr e) /\ is_u32 (if4_netmask e) /\
      is_u32 (if4_bcast e) /\ is_u64 (if4_linkspeed e) /\
      Z.of_nat (length (if4_ifname e)) < SCAP_MAX_PATH_SIZE
  | inr e => if6_type e = SCAP_II_IPV6 /\ length (if6_addr e) = 16%nat /\
      length (if6_netmask e) = 16%nat /\ length (if6_bcast e) = 16%nat /\
      is_u64 (if6_linkspeed e) /\ Z.of_nat (length (if6_ifname e)) < SCAP_MAX_PATH_SIZE
  end.

Definition if_namelen (e : if_entry) : Z :=
  match e with inl e => Z.of_nat (length (if4_ifname e)) | inr e => Z.of_nat (length (if6_ifname e)) end.

Definition if_kind (e : if_entry) : Z := match e with inl _ => SCAP_II_IPV4 | inr _ => SCAP_II_IPV6 end.

(** The fields behind the type and the name length. *)
Definition if_fields (e : if_entry) : list byte :=
  match e with
  | inl e => le32 (if4_addr e) ++ le32 (if4_netmask e) ++ le32 (if4_bcast e)
             ++ le64 (if4_linkspeed e) ++ if4_ifname e
  | inr e => if6_addr e ++ if6_netmask e ++ if6_bcast e ++ le64 (if6_linkspeed e) ++ if6_ifname e
  end.

Definition if_len (e : if_entry) : Z :=
  match e with inl _ => ipv4_size + if_namelen e | inr _ => ipv6_size + if_namelen e end.

(** The entry, behind its length in the current blocks. *)
Definition if_tail (e : if_entry) : list byte :=
  le16 (if_kind e) ++ le16 (if_namelen e) ++ if_fields e.
Definition if_bytes (v2 : bool) (e : if_entry) : list byte :=
  bytes_if v2 (le32 (if_len e)) ++ if_tail e.

Definition if_entries (l : scap_addrlist) : list if_entry :=
  map inl (al_v4list l) ++ map inr (al_v6list l).

Definition iflist_body (l : scap_addrlist) : list byte := concat (map (if_bytes true) (if_entries l)).

Definition if_bufs (e : if_entry) : list (list byte) :=
  match e with inl e => if4_bufs e | inr e => if6_bufs e end.

Lemma if_namelen_range e : if_ok e -> 0 <= if_namelen e < 1024.
Proof.
  unfold if_ok, if_namelen, SCAP_MAX_PATH_SIZE. destruct e; intros (? & ? & ? & ? & ? & ?); lia.
Qed.

Lemma length_if_tail e : if_ok e -> Z.of_nat (length (if_tail e)) = if_len e.
Proof.
  unfold if_ok, if_tail, if_fields, if_len, if_namelen, ipv4_size, ipv6_size, le16, le32, le64.
  destruct e as [e|e]; intros (? & ? & ? & ? & ? & ?);
    rewrite !length_Z_app, !length_le_bytes; lia.
Qed.

Lemma length_if_bytes v2 e :
  if_ok e -> Z.of_nat (length (if_bytes v2 e)) = (if v2 then 4 else 0) + if_len e.
Proof.
  intros Hok. unfold if_bytes. rewrite length_Z_app, length_bytes_if, length_if_tail by done.
  by destruct v2.
Qed.

Lemma if_len_range e : if_ok e -> 24 <= if_len e < 2000.
Proof.
  intros Hok. apply if_namelen_range in Hok. unfold if_len, ipv4_size, ipv6_size. destruct e; lia.
Qed.

Lemma if_bufs_bytes e : if_ok e -> concat (if_bufs e) = if_bytes true e.
Proof.
  intros Hok. pose proof (if_len_range e Hok). unfold if_bytes, if_tail.
  destruct e as [e|e]; simpl in Hok; unfold if_bufs, if4_bufs, if6_bufs, if_fields;
    cbn [concat]; rewrite app_nil_r.
  - assert (if4_entrylen e = if_len (inl e)) as -> by (apply u32_small; simpl in *; lia).
    destruct Hok as (-> & _). done.
  - assert (if6_entrylen e = if_len (inr e)) as -> by (apply u32_small; simpl in *; lia).
    destruct Hok as (-> & _). done.
Qed.

(** ** The two passes over encoded entries. *)

Lemma advance_app (a b : list byte) n : n = Z.of_nat (length a) -> advance (a ++ b) n = b.
Proof.
  intros ->. unfold advance. case_if; bool_to_prop.
  - rewrite length_app in *. destruct b; [done|]. simpl in *. lia.
  - by rewrite Nat2Z.id, drop_app_length.
Qed.

Lemma if_toread_ok bl tot : 0 <= tot <= bl -> bl < 2147483648 -> if_toread bl tot = Some (bl - tot).
Proof.
  intros Ht Hb. unfold if_toread. rewrite (s32_small bl), (s32_small tot) by lia.
  rewrite s32_small, Z.eqb_refl, u32_small by lia. done.
Qed.

Lemma peek_here (a b : list byte) n v :
  length a = n -> le_val a = v -> peek (a ++ b) 0 n = Some v.
Proof.
  intros <- <-. unfold peek, field. rewrite length_app.
  rewrite (proj2 (Nat.leb_le _ _)) by lia. unfold sub_bytes. by rewrite drop_0, take_app_length.
Qed.

Lemma peek_skip (a b : list byte) k j n : length a = k -> peek (a ++ b) (k + j) n = peek b j n.
Proof.
  intros <-. unfold peek, field. rewrite length_app, sub_bytes_skip by done.
  destruct (Nat.leb_spec (j + n) (length b)).
  - by rewrite (proj2 (Nat.leb_le _ _)) by lia.
  - by rewrite (proj2 (Nat.leb_gt _ _)) by lia.
Qed.

Lemma peek_tail e rest :
  if_ok e -> peek (if_tail e ++ rest) 0 2 = Some (if_kind e) /\
             peek (if_tail e ++ rest) 2 2 = Some (if_namelen e).
Proof.
  intros Hok. pose proof (if_namelen_range e Hok). unfold if_tail. rewrite <- !app_assoc. split.
  - apply peek_here; [done|]. rewrite le_val_u16; [done|]. destruct e; unfold is_u16, if_kind, SCAP_II_IPV4, SCAP_II_IPV6; lia.
  - rewrite (peek_skip _ _ 2 0) by done.
    apply peek_here; [done|]. rewrite le_val_u16; [done|]. unfold is_u16; lia.
Qed.

Lemma if_size_ok e : if_size (if_kind e) (if_namelen e) = Some (if_len e).
Proof. by destruct e. Qed.

Lemma count_head_ok v2 e rest :
  if_ok e ->
  count_head v2 (if_bytes v2 e ++ rest) = BlockRead ((if v2 then 4 else 0) + if_len e, if_kind e).
Proof.
  intros Hok. pose proof (if_len_range e Hok). unfold count_head, if_bytes. rewrite <- app_assoc.
  destruct v2; cbn [bytes_if app];
    [|destruct (peek_tail e rest Hok) as [-> ->]; by rewrite if_size_ok, u32_small by lia].
  rewrite (peek_here _ _ 4 (if_len e)) by (done || by rewrite le_val_u32 by (unfold is_u32; lia)).
  rewrite (peek_skip (le32 (if_len e)) _ 4 0), (peek_skip (le32 (if_len e)) _ 4 2) by done.
  destruct (peek_tail e rest Hok) as [-> ->]. rewrite u32_small by lia. do 2 f_equal. lia.
Qed.

Definition count4 (es : list if_entry) : Z :=
  Z.of_nat (length (List.filter (fun e => match e with inl _ => true | inr _ => false end) es)).
Definition count6 (es : list if_entry) : Z :=
  Z.of_nat (length (List.filter (fun e => match e with inl _ => false | inr _ => true end) es)).

Lemma if_count_ok v2 es : forall fuel bl tot pad c4 c6,
  Forall if_ok es -> (length pad < 4)%nat -> 0 <= tot ->
  bl = tot + Z.of_nat (length (concat (map (if_bytes v2) es))) + Z.of_nat (length pad) ->
  bl < 2147483648 -> (length es < fuel)%nat ->
  if_count fuel v2 bl tot (concat (map (if_bytes v2) es) ++ pad) c4 c6
  = Some (BlockRead (c4 + count4 es, c6 + count6 es)).
Proof.
  induction es as [|e es IH]; intros [|fuel] bl tot pad c4 c6 Hok Hpad Ht Hbl Hlt Hf; simpl in Hf;
    try lia; unfold if_count in *; cbn [run count_step map concat] in *;
    rewrite if_toread_ok by lia.
  - simpl in Hbl. replace (bl - tot <? 4) with true by lia. unfold count4, count6. simpl.
    by rewrite !Z.add_0_r.
  - apply Forall_cons_1 in Hok as [He Hok]. pose proof (length_if_bytes v2 e He) as Hl.
    assert (0 <= (if v2 then 4 else 0) <= 4) by (destruct v2; lia).
    pose proof (if_len_range e He). rewrite length_app in Hbl.
    replace (bl - tot <? 4) with false by lia. rewrite <- app_assoc, count_head_ok by done.
    replace (bl - tot <? (if v2 then 4 else 0) + if_len e) with false by lia. cbv zeta.
    rewrite advance_app by done. unfold count4, count6. destruct e as [e|e]; cbn [if_kind List.filter].
    + change (is_v4_type SCAP_II_IPV4) with true. cbv iota. rewrite (IH fuel bl); auto; try lia.
      unfold count4, count6. simpl length. do 2 f_equal. f_equal; lia.
    + change (is_v4_type SCAP_II_IPV6) with false. change (is_v6_type SCAP_II_IPV6) with true.
      cbv iota. rewrite (IH fuel bl); auto; try lia.
      unfold count4, count6. simpl length. do 2 f_equal. f_equal; lia.
Qed.

Lemma peek_bytes_here (a b : list byte) n : length a = n -> peek_bytes (a ++ b) 0 n = Some a.
Proof.
  intros <-. unfold peek_bytes. rewrite length_app, (proj2 (Nat.leb_le _ _)) by lia.
  by rewrite sub_bytes_here.
Qed.

Lemma peek_bytes_skip (a b : list byte) k n :
  length a = k -> peek_bytes (a ++ b) k n = peek_bytes b 0 n.
Proof.
  intros Hk. unfold peek_bytes. rewrite length_app. rewrite <- (Nat.add_0_r k) at 2.
  rewrite sub_bytes_skip by done. destruct (Nat.leb_spec (0 + n) (length b)).
  - by rewrite (proj2 (Nat.leb_le _ _)) by lia.
  - by rewrite (proj2 (Nat.leb_gt _ _)) by lia.
Qed.

Lemma copy_if4_ok e rest :
  if_ok (inl e) -> copy_if4 (if_tail (inl e) ++ rest) (if_namelen (inl e)) = Some e.
Proof.
  intros (Ht & Ha & Hn & Hb & Hs & Hl). unfold SCAP_MAX_PATH_SIZE in Hl.
  unfold copy_if4, if_tail, if_fields, if_namelen, if_kind.
  set (p := le16 SCAP_II_IPV4 ++ le16 (Z.of_nat (length (if4_ifname e))) ++ le32 (if4_addr e)
            ++ le32 (if4_netmask e) ++ le32 (if4_bcast e) ++ le64 (if4_linkspeed e)).
  replace ((le16 SCAP_II_IPV4 ++ _ ++ _) ++ rest) with (p ++ if4_ifname e ++ rest)
    by (unfold p; by rewrite <- !app_assoc).
  rewrite peek_bytes_here by done. rewrite (peek_bytes_skip p _ 24) by done.
  rewrite Nat2Z.id, peek_bytes_here by done. f_equal.
  change (field p 0 2) with (le_val (le16 SCAP_II_IPV4)).
  change (field p 4 4) with (le_val (le32 (if4_addr e))).
  change (field p 8 4) with (le_val (le32 (if4_netmask e))).
  change (field p 12 4) with (le_val (le32 (if4_bcast e))).
  change (field p 16 8) with (le_val (le64 (if4_linkspeed e))).
  rewrite !le_val_u32, le_val_u64 by done. rewrite le_val_u16, <- Ht by (unfold is_u16, SCAP_II_IPV4, SCAP_II_IPV6; lia).
  by destruct e.
Qed.

Lemma copy_if6_ok e rest :
  if_ok (inr e) -> copy_if6 (if_tail (inr e) ++ rest) (if_namelen (inr e)) = Some e.
Proof.
  intros (Ht & Ha & Hn & Hb & Hs & Hl). unfold SCAP_MAX_PATH_SIZE in Hl.
  unfold copy_if6, if_tail, if_fields, if_namelen, if_kind.
  set (p := le16 SCAP_II_IPV6 ++ le16 (Z.of_nat (length (if6_ifname e))) ++ if6_addr e
            ++ if6_netmask e ++ if6_bcast e ++ le64 (if6_linkspeed e)).
  assert (Hp : length p = 60%nat) by (unfold p; rewrite !length_app, Ha, Hn, Hb; done).
  replace ((le16 SCAP_II_IPV6 ++ _ ++ _) ++ rest) with (p ++ if6_ifname e ++ rest)
    by (unfold p; by rewrite <- !app_assoc).
  rewrite peek_bytes_here by done. rewrite (peek_bytes_skip p _ 60) by done.
  rewrite Nat2Z.id, peek_bytes_here by done. f_equal.
  change (field p 0 2) with (le_val (le16 SCAP_II_IPV6)).
  rewrite le_val_u16, <- Ht by (unfold is_u16, SCAP_II_IPV4, SCAP_II_IPV6; lia).
  change (sub_bytes p 4 16) with (sub_bytes (if6_addr e ++ if6_netmask e ++ if6_bcast e
    ++ le64 (if6_linkspeed e)) 0 16).
  change (sub_bytes p 20 16) with (sub_bytes (if6_addr e ++ if6_netmask e ++ if6_bcast e
    ++ le64 (if6_linkspeed e)) (16 + 0) 16).
  change (sub_bytes p 36 16) with (sub_bytes (if6_addr e ++ if6_netmask e ++ if6_bcast e
    ++ le64 (if6_linkspeed e)) (16 + 16) 16).
  change (field p 52 8) with (le_val (sub_bytes (if6_addr e ++ if6_netmask e ++ if6_bcast e
    ++ le64 (if6_linkspeed e)) (16 + 32) 8)).
  rewrite sub_bytes_here, !(sub_bytes_skip (if6_addr e)) by done.
  rewrite sub_bytes_here, (sub_bytes_skip (if6_netmask e) _ 16 0),
    (sub_bytes_skip (if6_netmask e) _ 16 16), sub_bytes_here by done.
  rewrite (sub_bytes_skip (if6_bcast e) _ 16 0) by done.
  change (sub_bytes (le64 (if6_linkspeed e)) 0 8) with (le64 (if6_linkspeed e)).
  rewrite le_val_u64 by done. by destruct e.
Qed.

Definition entries4 (es : list if_entry) : list scap_ifinfo_ipv4 :=
  omap (fun e => match e with inl e => Some e | inr _ => None end) es.
Definition entries6 (es : list if_entry) : list scap_ifinfo_ipv6 :=
  omap (fun e => match e with inl _ => None | inr e => Some e end) es.

Lemma fill_head_ok v2 e rest :
  if_ok e ->
  fill_head v2 (if_bytes v2 e ++ rest)
  = Some (if v2 then if_len e else 0, if_tail e ++ rest, if_kind e, if_namelen e).
Proof.
  intros Hok. pose proof (if_len_range e Hok). unfold fill_head, if_bytes. rewrite <- app_assoc.
  destruct v2; cbn [bytes_if app]; [|by destruct (peek_tail e rest Hok) as [-> ->]].
  rewrite (peek_here _ _ 4 (if_len e)) by (done || by rewrite le_val_u32 by (unfold is_u32; lia)).
  rewrite advance_app by done. by destruct (peek_tail e rest Hok) as [-> ->].
Qed.

Lemma if_fill_ok v2 es : forall fuel bl tot pad cap4 cap6 v4 v6,
  Forall if_ok es -> (length pad < 4)%nat -> 0 <= tot ->
  bl = tot + Z.of_nat (length (concat (map (if_bytes v2) es))) + Z.of_nat (length pad) ->
  bl < 2147483648 -> (length es < fuel)%nat ->
  Z.of_nat (length v4) + count4 es <= cap4 -> Z.of_nat (length v6) + count6 es <= cap6 ->
  if_fill fuel v2 bl tot (concat (map (if_bytes v2) es) ++ pad) cap4 cap6 v4 v6
  = Some (BlockRead (v4 ++ entries4 es, v6 ++ entries6 es)).
Proof.
  induction es as [|e es IH]; intros [|fuel] bl tot pad cap4 cap6 v4 v6 Hok Hpad Ht Hbl Hlt Hf H4 H6;
    simpl in Hf; try lia; unfold if_fill in *; cbn [run fill_step map concat] in *;
    rewrite if_toread_ok by lia.
  - simpl in Hbl. replace (bl - tot <? 4) with true by lia. simpl. by rewrite !app_nil_r.
  - apply Forall_cons_1 in Hok as [He Hok]. pose proof (length_if_bytes v2 e He) as Hl.
    assert (0 <= (if v2 then 4 else 0) <= 4) by (destruct v2; lia).
    pose proof (if_len_range e He). rewrite length_app in Hbl.
    replace (bl - tot <? 4) with false by lia. rewrite <- app_assoc, fill_head_ok by done.
    pose proof (if_namelen_range e He). unfold SCAP_MAX_PATH_SIZE.
    replace (1024 <=? if_namelen e) with false by lia. rewrite if_size_ok.
    replace (bl - tot <? if_len e) with false by lia.
    unfold count4, count6 in H4, H6. unfold fill_entry.
    destruct e as [e|e]; cbn [if_kind List.filter length] in *.
    + change (SCAP_II_IPV4 =? SCAP_II_IPV4) with true. cbv iota zeta.
      rewrite copy_if4_ok by done. unfold place.
      rewrite (proj2 (Z.leb_gt cap4 _)) by lia.
      replace (if (if v2 then if_len (inl e) else 0) =? 0 then if_len (inl e)
               else if v2 then if_len (inl e) else 0) with (if_len (inl e))
        by (destruct v2; [|done]; by rewrite (proj2 (Z.eqb_neq (if_len (inl e)) 0)) by lia).
      rewrite advance_app by (by rewrite length_if_tail).
      rewrite (IH fuel bl); auto; try lia.
      * unfold entries4 at 2. cbn [omap list_omap]. by rewrite <- app_assoc.
      * unfold count4. rewrite length_app. simpl. lia.
    + change (SCAP_II_IPV6 =? SCAP_II_IPV4) with false.
      change (SCAP_II_IPV6 =? SCAP_II_IPV4_NOLINKSPEED) with false.
      change (SCAP_II_IPV6 =? SCAP_II_IPV6) with true. cbv iota zeta.
      rewrite copy_if6_ok by done. unfold place.
      rewrite (proj2 (Z.leb_gt cap6 _)) by lia.
      replace (if (if v2 then if_len (inr e) else 0) =? 0 then if_len (inr e)
               else if v2 then if_len (inr e) else 0) with (if_len (inr e))
        by (destruct v2; [|done]; by rewrite (proj2 (Z.eqb_neq (if_len (inr e)) 0)) by lia).
      rewrite advance_app by (by rewrite length_if_tail).
      rewrite (IH fuel bl); auto; try lia.
      * unfold entries6 at 2. cbn [omap list_omap]. by rewrite <- app_assoc.
      * unfold count6. rewrite length_app. simpl. lia.
Qed.

Lemma entries_of l :
  entries4 (if_entries l) = al_v4list l /\ entries6 (if_entries l) = al_v6list l /\
  count4 (if_entries l) = Z.of_nat (length (al_v4list l)) /\
  count6 (if_entries l) = Z.of_nat (length (al_v6list l)).
Proof.
  destruct l as [t v4 v6]. unfold if_entries. cbn [al_v4list al_v6list].
  assert (H4 : forall es, entries4 (map inl v4 ++ es) = v4 ++ entries4 es /\
    entries6 (map inl v4 ++ es) = entries6 es /\
    count4 (map inl v4 ++ es) = Z.of_nat (length v4) + count4 es /\
    count6 (map inl v4 ++ es) = count6 es).
  { intros es. induction v4 as [|e v4 (I1 & I2 & I3 & I4)]; [done|].
    unfold count4, count6 in *. cbn [map app List.filter length] in *.
    split; [exact (f_equal (cons e) I1)|]. split; [exact I2|]. lia. }
  assert (H6 : entries4 (map inr v6) = [] /\ entries6 (map inr v6) = v6 /\
    count4 (map inr v6) = 0 /\ count6 (map inr v6) = Z.of_nat (length v6)).
  { clear H4. induction v6 as [|e v6 (I1 & I2 & I3 & I4)]; [done|].
    unfold count4, count6 in *. cbn [map app List.filter length] in *.
    split; [exact I1|]. split; [exact (f_equal (cons e) I2)|]. lia. }
  destruct (H4 (map inr v6)) as (-> & -> & -> & ->), H6 as (-> & -> & -> & ->).
  rewrite app_nil_r. split_and!; lia || done.
Qed.

Definition iflist_ok (l : scap_addrlist) : Prop := Forall if_ok (if_entries l).

Lemma if_entries_length v2 es :
  Forall if_ok es -> (length es <= length (concat (map (if_bytes v2) es)))%nat.
Proof.
  induction 1 as [|e es He _ IH]; [done|]. cbn [map concat]. rewrite length_app.
  pose proof (length_if_bytes v2 e He). pose proof (if_len_range e He).
  simpl. destruct v2; lia.
Qed.

(** The passes over a whole body with its padding, in either format. *)
Lemma parse_iflist_ok ty l pad :
  iflist_ok l -> (length pad < 4)%nat ->
  let body := concat (map (if_bytes (ty =? IL_BLOCK_TYPE_V2)) (if_entries l)) in
  let bl := Z.of_nat (length body) + Z.of_nat (length pad) in
  bl < 2147483648 ->
  parse_iflist (S (length (body ++ pad))) bl ty (body ++ pad)
  = Some (BlockRead (mk_addrlist
      (u32 (bl - Z.of_nat (length (if_entries l)) * 4)) (al_v4list l) (al_v6list l))).
Proof.
  intros Hok Hpad body bl Hbl. unfold parse_iflist. unfold bl, body in *.
  pose proof (if_entries_length (ty =? IL_BLOCK_TYPE_V2) _ Hok) as Hel.
  destruct (entries_of l) as (E4 & E6 & C4 & C6).
  rewrite if_count_ok; auto; try lia; [|rewrite length_app; lia].
  rewrite if_fill_ok; auto; try (simpl; lia); [|rewrite length_app; lia].
  rewrite E4, E6, C4, C6, !app_nil_l, !Z.add_0_l. do 3 f_equal. f_equal. f_equal.
  unfold if_entries. rewrite length_app, !length_map. lia.
Qed.

(** ** Writing gives the encoding. *)

Lemma iflist_bufs_bytes l :
  iflist_ok l ->
  concat (concat (map if4_bufs (al_v4list l)) ++ concat (map if6_bufs (al_v6list l)))
  = iflist_body l.
Proof.
  unfold iflist_ok, iflist_body. intros Hok.
  assert (E : concat (map if4_bufs (al_v4list l)) ++ concat (map if6_bufs (al_v6list l))
    = concat (map if_bufs (if_entries l)))
    by (unfold if_entries; by rewrite map_app, concat_app, !map_map).
  rewrite E. clear E. revert Hok. generalize (if_entries l).
  induction 1 as [|e es He _ IH]; [done|]. cbn [map concat].
  by rewrite concat_app, IH, if_bufs_bytes.
Qed.

Lemma iflist_totlen_ok l :
  iflist_ok l -> Z.of_nat (length (iflist_body l)) < 4294967296 ->
  iflist_totlen l = Z.of_nat (length (iflist_body l)).
Proof.
  unfold iflist_ok, iflist_totlen, iflist_body. intros Hok.
  assert (E : forall acc, Forall if_ok (if_entries l) ->
    foldl (fun acc e => u32 (acc + (4 + if6_entrylen e)))
      (foldl (fun acc e => u32 (acc + (4 + if4_entrylen e))) acc (al_v4list l)) (al_v6list l)
    = foldl (fun acc e => u32 (acc + (4 + u32 (if_len e)))) acc (if_entries l)).
  { intros acc _. unfold if_entries. rewrite foldl_app, !foldl_fmap. done. }
  rewrite E by done. clear E.
  assert (G : forall acc, 0 <= acc ->
    acc + Z.of_nat (length (concat (map (if_bytes true) (if_entries l)))) < 4294967296 ->
    foldl (fun acc e => u32 (acc + (4 + u32 (if_len e)))) acc (if_entries l)
    = acc + Z.of_nat (length (concat (map (if_bytes true) (if_entries l)))));
    [|intros Hl; rewrite G; lia].
  revert Hok. generalize (if_entries l).
  induction 1 as [|e es He _ IH]; intros acc Ha Hlt; [simpl; lia|].
  cbn [foldl map concat] in *. rewrite length_app, Nat2Z.inj_add, length_if_bytes in * by done.
  pose proof (if_len_range e He). rewrite (u32_small (if_len e)) by lia.
  rewrite u32_small, IH by lia. lia.
Qed.

(** The length the list was made with agrees with its entries, up to the padding
    of the block it was read from. *)
Definition iflist_len_ok (l : scap_addrlist) : Prop :=
  Z.of_nat (length (iflist_body l))
  <= Z.of_nat (length (if_entries l)) * 4 + al_totlen l
  <= scap_normalize_block_len (Z.of_nat (length (iflist_body l))).

Lemma normalize_between n m :
  0 <= n < 2147483600 -> n <= m <= scap_normalize_block_len n ->
  scap_normalize_block_len m = scap_normalize_block_len n.
Proof.
  intros Hn Hm. destruct (normalize_spec n) as (H1 & H2 & ->); [lia|].
  rewrite (proj2 (proj2 (normalize_spec n ltac:(lia)))) in H1, Hm.
  destruct (normalize_spec m) as (_ & _ & ->); [lia|]. f_equal.
  symmetry. apply Z.div_unique with (r := m + 3 - 4 * ((n + 3) / 4)); [|lia].
  left. pose proof (Z.div_mod (n + 3) 4 ltac:(lia)). pose proof (Z.mod_pos_bound (n + 3) 4). lia.
Qed.

Lemma iflist_total_ok l :
  iflist_ok l -> iflist_len_ok l -> Z.of_nat (length (iflist_body l)) < 2147483500 ->
  iflist_total l = block_total (iflist_totlen l).
Proof.
  intros Hok Hlen Hlt. pose proof (iflist_totlen_ok l Hok ltac:(lia)) as Ht.
  set (n := Z.of_nat (length (iflist_body l))) in *. unfold iflist_total, block_total.
  pose proof (normalize_spec n ltac:(lia)) as (Hn & _).
  assert (Hc : Z.of_nat (length (al_v4list l)) + Z.of_nat (length (al_v6list l))
               = Z.of_nat (length (if_entries l)))
    by (unfold if_entries; rewrite length_app, !length_map; lia).
  unfold iflist_len_ok in Hlen. fold n in Hlen. rewrite Hc, Ht. unfold sizeof_block_header.
  set (m := Z.of_nat (length (if_entries l)) * 4 + al_totlen l) in *.
  replace (8 + Z.of_nat (length (if_entries l)) * 4 + al_totlen l + 4) with (m + 4 * 3) by lia.
  replace (8 + n + 4) with (n + 4 * 3) by lia. rewrite !u32_small by lia.
  rewrite !normalize_shift by lia. by rewrite (normalize_between n m) by lia.
Qed.

Definition iflist_bytes (l : scap_addrlist) : list byte :=
  block_bytes IL_BLOCK_TYPE_V2 (iflist_totlen l) (iflist_body l).

Lemma iflist_writes {F} `{GzWriter F} l :
  no_write_errors (F := F) -> iflist_ok l -> iflist_len_ok l ->
  Z.of_nat (length (iflist_body l)) < 2147483500 ->
  writes (F := F) (iflist_bytes l) (scap_write_iflist (Some l)).
Proof.
  intros Hw Hok Hlen Hlt. unfold scap_write_iflist, iflist_bytes, block_bytes.
  rewrite iflist_total_ok by done. apply emit_writes; [done|].
  rewrite <- iflist_bufs_bytes by done. apply emits_writes; [done|]. apply emit_writes; [done|].
  apply emit_last_writes; [done|apply emit_done_writes].
Qed.

(** The list as it is read back: its length counts the padding. *)
Definition iflist_stored (l : scap_addrlist) : scap_addrlist :=
  mk_addrlist (scap_normalize_block_len (Z.of_nat (length (iflist_body l)))
               - Z.of_nat (length (if_entries l)) * 4) (al_v4list l) (al_v6list l).

Lemma read_iflist_ok {R} `{GzReader R} l (f : R) rest :
  iflist_ok l -> Z.of_nat (length (iflist_body l)) < 2147483500 ->
  let n := iflist_totlen l in
  gz_rest f = iflist_body l ++ padding n ++ rest ->
  exists f', scap_read_iflist (block_total n - 12) IL_BLOCK_TYPE_V2 f
    = (f', Some (BlockRead (iflist_stored l))) /\ gz_rest f' = rest.
Proof.
  intros Hok Hlen n Hr. assert (Hn : n = Z.of_nat (length (iflist_body l)))
    by (apply iflist_totlen_ok; [done|lia]).
  destruct (block_total_length n ltac:(lia)) as (-> & Hnorm & Hpad).
  unfold scap_read_iflist. rewrite app_assoc in Hr.
  assert (Hbl : scap_normalize_block_len n = Z.of_nat (length (iflist_body l ++ padding n)))
    by (rewrite length_app; lia).
  destruct (gzread f (scap_normalize_block_len n)) as [f1 buf] eqn:E. rewrite Hbl in E |- *.
  destruct (gzread_app f _ _ f1 buf Hr E) as [-> Hr1]; [lia|]. rewrite Z.eqb_refl. cbn [negb].
  exists f1. split; [|done]. do 2 f_equal.
  pose proof (parse_iflist_ok IL_BLOCK_TYPE_V2 l (padding n) Hok ltac:(lia)) as Hp.
  cbv zeta in Hp. rewrite Z.eqb_refl in Hp. fold (iflist_body l) in Hp.
  replace (Z.of_nat (length (iflist_body l ++ padding n)))
    with (Z.of_nat (length (iflist_body l)) + Z.of_nat (length (padding n)))
    by (rewrite length_app; lia).
  rewrite Hp by lia. unfold iflist_stored. do 3 f_equal.
  pose proof (if_entries_length true _ Hok) as Hel. fold (iflist_body l) in Hel.
  assert (Z.of_nat (length (if_entries l)) * 4 <= Z.of_nat (length (iflist_body l))).
  { clear -Hok. unfold iflist_body. induction Hok as [|e es He _ IH]; [done|].
    cbn [map concat]. rewrite length_app. pose proof (length_if_bytes true e He).
    pose proof (if_len_range e He). simpl length. lia. }
  rewrite u32_small by lia. rewrite <- Hn. lia.
Qed.

(** The interfaces survive a capture file.  Without write errors
    [scap_write_iflist] writes one block for a list whose length agrees with its
    entries, and [scap_read_iflist] reads its body as the same interfaces, in
    order; the length of the list read counts the padding, and agrees with its
    entries again. *)
Theorem iflist_roundtrip {F R : Type} `{GzWriter F} `{GzReader R} (l : scap_addrlist) (f : F) :
  no_write_errors (F := F) -> iflist_ok l -> iflist_len_ok l ->
  Z.of_nat (length (iflist_body l)) < 2147483500 ->
  let n := iflist_totlen l in
  iflist_len_ok (iflist_stored l) /\
  exists f', scap_write_iflist (Some l) (DT_FILE f) = (DT_FILE f', SCAP_SUCCESS) /\
    gz_written f' = gz_written f ++ block_header IL_BLOCK_TYPE_V2 (block_total n)
                    ++ iflist_body l ++ padding n ++ le32 (block_total n) /\
    forall (r : R) rest, gz_rest r = iflist_body l ++ padding n ++ rest ->
      exists r', scap_read_iflist (block_total n - 12) IL_BLOCK_TYPE_V2 r
          = (r', Some (BlockRead (iflist_stored l))) /\ gz_rest r' = rest.
Proof.
  intros Hw Hok Hlen Hlt n. split.
  - unfold iflist_len_ok, iflist_stored, iflist_body, if_entries in *.
    cbn [al_totlen al_v4list al_v6list].
    pose proof (normalize_spec _ (conj (Nat2Z.is_nonneg _) (Z.lt_trans _ _ 4294967290 Hlt eq_refl)))
      as (Hn & _). lia.
  - destruct (iflist_writes l Hw Hok Hlen Hlt f) as (f' & Hf' & Hw'). exists f'.
    split; [done|]. split; [done|]. intros r rest Hr. by apply read_iflist_ok.
Qed.

Definition sample_iflist : scap_addrlist :=
  mk_addrlist 89 [mk_if4 1 16777343 255 0 1000 [x6c; x6f]]
    [mk_if6 2 (repeat x01 16) (repeat x02 16) (repeat x03 16) 0 [x65; x74; x68]].

Lemma sample_iflist_ok :
  iflist_ok sample_iflist /\ iflist_len_ok sample_iflist /\
  Z.of_nat (length (iflist_body sample_iflist)) < 2147483500.
Proof.
  split; [|vm_compute; split; [split; congruence|congruence]].
  repeat constructor; simpl; unfold is_u32, is_u64; simpl; lia.
Qed.

Lemma iflist_roundtrip_witness :
  exists r', scap_read_iflist (block_total (iflist_totlen sample_iflist) - 12) IL_BLOCK_TYPE_V2
      (iflist_body sample_iflist ++ padding (iflist_totlen sample_iflist))
    = (r', Some (BlockRead (iflist_stored sample_iflist))) /\ gz_rest r' = [].
Proof.
  destruct sample_iflist_ok as (Hok & Hlen & Hlt).
  destruct (iflist_roundtrip (F := list byte) (R := list byte) sample_iflist [])
    as (_ & f' & _ & _ & H).
  - intros f bs. reflexivity.
  - exact Hok.
  - exact Hlen.
  - exact Hlt.
  - apply (H (iflist_body sample_iflist ++ padding (iflist_totlen sample_iflist)) []).
    vm_compute. reflexivity.
Defined.

(** ** Where the passes go wrong. *)

Lemma length_advance pif n :
  0 < n -> (0 < length pif)%nat -> (length (advance pif n) < length pif)%nat.
Proof.
  intros Hn Hl. unfold advance. case_if; [simpl; lia|]. bool_to_prop. rewrite length_drop. lia.
Qed.

Lemma peek_length pif off n v : peek pif off n = Some v -> (off + n <= length pif)%nat.
Proof. unfold peek. case_if; [|done]. intros _. by apply Nat.leb_le. Qed.

Lemma peek_nonneg pif off n v : peek pif off n = Some v -> 0 <= v.
Proof. unfold peek. case_if; [|done]. intros [= <-]. apply le_val_range. Qed.

Lemma length_advance_le pif n : (length (advance pif n) <= length pif)%nat.
Proof. unfold advance. case_if; [simpl; lia|]. rewrite length_drop. lia. Qed.


(** Every turn of the second pass moves the pointer. *)
Lemma fill_step_shrinks v2 bl cap4 cap6 tot pif v4 v6 st' :
  fill_step v2 bl cap4 cap6 (tot, pif, v4, v6) = inl st' ->
  (length (snd (fst (fst st'))) < length pif)%nat.
Proof.
  unfold fill_step. intros E. destruct (if_toread bl tot) as [tr|]; [|done].
  destruct (tr <? 4); [done|].
  destruct (fill_head v2 pif) as [[[[es pif'] ty] nl]|] eqn:Eh; [|done].
  destruct (SCAP_MAX_PATH_SIZE <=? nl); [done|].
  destruct (if_size ty nl) as [sz|] eqn:Es; [|done]. destruct (tr <? sz); [done|].
  destruct (fill_entry _ _ _ _ _ _ _) as [[v4' v6']| | |]; simplify_eq. cbn [fst snd].
  assert (Hp : (4 <= length pif')%nat /\ (length pif' <= length pif)%nat /\ 0 <= es /\ 0 <= nl).
  { unfold fill_head in Eh. destruct (if v2 then peek pif 0 4 else Some 0) as [e|] eqn:Ep; [|done].
    destruct (peek _ 0 2) as [t|] eqn:E1; [|done]. destruct (peek _ 2 2) as [n|] eqn:E2; [|done].
    simplify_eq. pose proof (peek_length _ _ _ _ E2). split; [lia|].
    split; [destruct v2; [apply length_advance_le|lia]|].
    split; [|by eapply peek_nonneg]. destruct v2; [by eapply peek_nonneg|simplify_eq; lia]. }
  apply Nat.lt_le_trans with (length pif'); [|lia]. apply length_advance; [|lia].
  unfold if_size, ipv4_size, ipv6_size, ipv4_nolinkspeed_size, ipv6_nolinkspeed_size in Es.
  destruct (Z.eqb_spec es 0); [|lia]. repeat case_in Es; simplify_eq; lia.
Qed.

Lemma peek_range pif off n v : peek pif off n = Some v -> 0 <= v < 256 ^ Z.of_nat n.
Proof.
  intros E. pose proof (peek_length _ _ _ _ E) as Hl. unfold peek in E. case_in E; simplify_eq.
  pose proof (le_val_range (sub_bytes pif off n)) as Hr. unfold sub_bytes in Hr.
  rewrite length_take, length_drop, Nat.min_l in Hr by lia. exact Hr.
Qed.

Lemma advance_suffix pif n : advance pif n `suffix_of` pif.
Proof. unfold advance. case_if; [apply suffix_nil|apply suffix_drop]. Qed.

(** A state of the first pass that comes back to itself: an entry of the current
    format whose length wraps to zero. *)
Definition count_stuck (v2 : bool) (bl : Z) (st : Z * list byte * Z * Z) : Prop :=
  let '(tot, pif, _, _) := st in
  exists toread iftype, if_toread bl tot = Some toread /\ 4 <= toread /\
    count_head v2 pif = BlockRead (0, iftype) /\ (is_v4_type iftype || is_v6_type iftype = true).

Lemma advance_0 pif : (0 < length pif)%nat -> advance pif 0 = pif.
Proof. intros Hl. unfold advance. rewrite (proj2 (Z.leb_gt _ _)) by lia. done. Qed.

Lemma count_head_length v2 pif es ty :
  count_head v2 pif = BlockRead (es, ty) -> (4 <= length pif)%nat /\ 0 <= es.
Proof.
  unfold count_head. intros E. destruct v2.
  - destruct (peek pif 0 4) eqn:E0; [|done]. apply peek_length in E0.
    repeat case_in E; simplify_eq. split; [lia|apply u32_range].
  - destruct (peek pif 0 2); [|done]. destruct (peek pif 2 2) eqn:E0; [|done].
    apply peek_length in E0. repeat case_in E; simplify_eq. split; [lia|apply u32_range].
Qed.

Lemma count_stuck_step v2 bl st :
  count_stuck v2 bl st -> exists st', count_step v2 bl st = inl st' /\ count_stuck v2 bl st'.
Proof.
  destruct st as [[[tot pif] c4] c6]. intros (tr & ty & Et & Htr & Eh & Hty). unfold count_step.
  rewrite Et, Eh. rewrite !(proj2 (Z.ltb_ge tr _)) by lia.
  pose proof (count_head_length _ _ _ _ Eh) as Hl. rewrite Z.add_0_r, advance_0 by lia.
  assert (Hst : forall c4 c6, count_stuck v2 bl (tot, pif, c4, c6))
    by (intros; exists tr, ty; by rewrite Et, Eh).
  destruct (is_v4_type ty); [by eauto|]. simpl in Hty. rewrite Hty. by eauto.
Qed.

(** Every other turn of the first pass moves the pointer. *)
Lemma count_step_shrinks v2 bl st st' :
  count_step v2 bl st = inl st' ->
  (length (snd (fst (fst st'))) < length (snd (fst (fst st))))%nat \/ count_stuck v2 bl st.
Proof.
  destruct st as [[[tot pif] c4] c6]. unfold count_step. intros E.
  destruct (if_toread bl tot) as [tr|] eqn:Et; [|done]. destruct (tr <? 4) eqn:E4; [done|].
  destruct (count_head v2 pif) as [[es ty]| | |] eqn:Eh; [|done|done|done].
  destruct (tr <? es); [done|]. pose proof (count_head_length _ _ _ _ Eh) as Hl.
  assert (Hty : is_v4_type ty || is_v6_type ty = true /\
                snd (fst (fst st')) = advance pif es)
    by (destruct (is_v4_type ty); [by simplify_eq|]; destruct (is_v6_type ty); by simplify_eq).
  destruct Hty as [Hty ->]. destruct (Z.eq_dec es 0) as [->|Hes].
  - right. exists tr, ty. bool_to_prop. by rewrite Et, Eh.
  - left. cbn [fst snd]. apply length_advance; lia.
Qed.

(** Such an entry is one whose length field is 2^32 - 4, in the part of the block
    that is left. *)
Lemma count_stuck_entry v2 bl tot pif c4 c6 :
  count_stuck v2 bl (tot, pif, c4, c6) -> v2 = true /\ peek pif 0 4 = Some 4294967292.
Proof.
  intros (tr & ty & _ & _ & E & _). revert E. unfold count_head. destruct v2.
  - destruct (peek pif 0 4) as [e|] eqn:E0; [|done]. intros E.
    assert (He : 0 <= e < 256 ^ Z.of_nat 4)
      by exact (peek_range _ _ _ _ E0).
    change (256 ^ Z.of_nat 4) with 4294967296 in He.
    repeat case_in E; simplify_eq. split; [done|]. f_equal. unfold u32 in E.
    apply Z.mod_divide in E as [k Hk]; [|done]. lia.
  - destruct (peek pif 0 2) as [t|]; [|done]. destruct (peek pif 2 2) as [nl|] eqn:E0; [|done].
    intros E.
    assert (He : 0 <= nl < 256 ^ Z.of_nat 2)
      by exact (peek_range _ _ _ _ E0).
    change (256 ^ Z.of_nat 2) with 65536 in He. unfold if_size in E. unfold ipv4_size, ipv6_size,
      ipv4_nolinkspeed_size, ipv6_nolinkspeed_size in E.
    repeat case_in E; simplify_eq;
      match goal with E : u32 _ = 0 |- _ => rewrite u32_small in E by lia; lia end.
Qed.

Lemma count_steps_suffix v2 bl st st' :
  rtc (fun x y => count_step v2 bl x = inl y) st st' ->
  snd (fst (fst st')) `suffix_of` snd (fst (fst st)).
Proof.
  induction 1 as [|st st' st'' E _ IH]; [done|]. transitivity (snd (fst (fst st'))); [done|].
  destruct st as [[[tot pif] c4] c6]. unfold count_step in E.
  repeat case_in E; simplify_eq; apply advance_suffix.
Qed.

(** Parsing an interface list ends with a result within as many turns as the
    block has bytes, and one.  The only blocks for which it does not end are
    those of the current format that have, in front of an entry, the length
    2^32 - 4: its size wraps to zero in 32 bits, so the counting pass stays
    there for ever. *)
Theorem parse_iflist_ends_or_hangs (bl ty : Z) (readbuf : list byte) :
  (exists r, forall fuel, (length readbuf < fuel)%nat -> parse_iflist fuel bl ty readbuf = Some r) \/
  (ty = IL_BLOCK_TYPE_V2 /\
   (exists pif, pif `suffix_of` readbuf /\ peek pif 0 4 = Some 4294967292) /\
   forall fuel, parse_iflist fuel bl ty readbuf = None).
Proof.
  unfold parse_iflist, if_count, if_fill. set (v2 := ty =? IL_BLOCK_TYPE_V2).
  destruct (run_reaches_stuck (count_step v2 bl) (fun st => length (snd (fst (fst st))))
    (count_stuck v2 bl) (count_stuck_step v2 bl) (count_step_shrinks v2 bl)
    (S (length readbuf)) (0, readbuf, 0, 0)) as [[rc Hc]|([[[tot pif] c4] c6] & Hr & Hst & Hn)].
  - cbn [fst snd]. lia.
  - left. assert (Hc' : forall fuel, (length readbuf < fuel)%nat ->
      run (count_step v2 bl) fuel (0, readbuf, 0, 0) = Some rc)
      by (intros; eapply run_mono; [done|lia]).
    destruct rc as [[c4 c6]| | |];
      [|eexists; intros fuel Hf; rewrite (Hc' fuel Hf); reflexivity..].
    destruct (run_ends (fill_step v2 bl c4 c6) (fun st => length (snd (fst (fst st))))
      (S (length readbuf)) (0, readbuf, [], [])) as [rf Hr].
    + intros [[[tot pif] v4] v6] st'. apply fill_step_shrinks.
    + cbn [fst snd]. lia.
    + destruct rf as [[v4 v6]| | |]; eexists; intros fuel Hf;
        rewrite (Hc' fuel Hf), (run_mono _ _ fuel _ _ Hr) by lia; reflexivity.
  - right. apply count_steps_suffix in Hr. apply count_stuck_entry in Hst as [Hv Hp].
    split_and!; [by apply Z.eqb_eq|by exists pif|]. intros fuel. by rewrite Hn.
Qed.

(** It does not end for a block of the current format whose first entry
    announces 2^32 - 4 bytes: the size of the entry with its length wraps to
    zero in 32 bits, and the counting loop of [scap_read_iflist] stays at that
    entry for ever. *)
Theorem iflist_zero_entry_hangs {R : Type} `{GzReader R} (iftype namelen : Z)
    (more rest : list byte) (f : R) :
  1 <= iftype <= 4 -> is_u16 namelen ->
  let body := le32 4294967292 ++ le16 iftype ++ le16 namelen ++ more in
  Z.of_nat (length body) < 2147483648 -> gz_rest f = body ++ rest ->
  snd (scap_read_iflist (Z.of_nat (length body)) IL_BLOCK_TYPE_V2 f) = None /\
  forall fuel, parse_iflist fuel (Z.of_nat (length body)) IL_BLOCK_TYPE_V2 body = None.
Proof.
  intros Hty Hn body Hlen Hr.
  assert (Hb : 8 <= Z.of_nat (length body)) by (unfold body; rewrite !length_app; simpl; lia).
  assert (Hstuck : count_stuck true (Z.of_nat (length body)) (0, body, 0, 0)).
  { exists (Z.of_nat (length body)), iftype. rewrite if_toread_ok, Z.sub_0_r by lia.
    split; [done|]. split; [lia|].
    split; [|unfold is_v4_type, is_v6_type, SCAP_II_IPV4, SCAP_II_IPV6, SCAP_II_IPV4_NOLINKSPEED,
      SCAP_II_IPV6_NOLINKSPEED; lia].
    unfold count_head, body. rewrite (peek_here (le32 4294967292) _ 4 4294967292) by done.
    rewrite (peek_skip (le32 4294967292) _ 4 0), (peek_skip (le32 4294967292) _ 4 2) by done.
    rewrite (peek_here (le16 iftype) _ 2 iftype)
      by (done || apply le_val_u16; unfold is_u16; lia).
    rewrite (peek_skip (le16 iftype) _ 2 0) by done.
    by rewrite (peek_here (le16 namelen) _ 2 namelen) by (done || by apply le_val_u16). }
  assert (Hall : forall fuel, parse_iflist fuel (Z.of_nat (length body)) IL_BLOCK_TYPE_V2 body = None).
  { intros fuel. unfold parse_iflist, if_count. rewrite Z.eqb_refl.
    by rewrite (stuck_runs _ _ (count_stuck_step _ _)). }
  split; [|done]. unfold scap_read_iflist.
  destruct (gzread f (Z.of_nat (length body))) as [f1 buf] eqn:E.
  destruct (gzread_app f body rest f1 buf Hr E Hlen) as [-> _]. by rewrite Z.eqb_refl, Hall.
Qed.

Lemma iflist_zero_entry_hangs_witness :
  snd (scap_read_iflist 8 IL_BLOCK_TYPE_V2 (le32 4294967292 ++ le16 1 ++ le16 0)) = None /\
  forall fuel, parse_iflist fuel 8 IL_BLOCK_TYPE_V2 (le32 4294967292 ++ le16 1 ++ le16 0) = None.
Proof.
  apply (iflist_zero_entry_hangs 1 0 [] [] (le32 4294967292 ++ le16 1 ++ le16 0)).
  - lia.
  - unfold is_u16. lia.
  - vm_compute. reflexivity.
  - reflexivity.
Defined.

(** A block whose first length is 0: the first pass steps over it by its length,
    the second by the size of the entry. *)
Definition crafted_iflist : list byte :=
  le32 0 ++ le16 2 ++ le16 0                             (* read as IPv6, or as a length 2 *)
  ++ le16 1 ++ le32 106 ++ le16 2 ++ repeat x00 48        (* a second, a third entry *)
  ++ le32 24 ++ le16 1 ++ le16 0 ++ repeat x41 20         (* IPv4 *)
  ++ le32 24 ++ le16 1 ++ le16 0 ++ repeat x41 20.        (* IPv4 *)

(** The two passes can disagree, since only the second takes an entry of
    length zero for one without a length.  In this block of 120 bytes the first
    pass counts one IPv4 interface and the second copies two: the second copy
    is written past the end of the array that was allocated for one. *)
Theorem iflist_second_pass_overflows :
  length crafted_iflist = 120%nat /\
  if_count 121 true 120 0 crafted_iflist 0 0 = Some (BlockRead (1, 2)) /\
  snd (scap_read_iflist 120 IL_BLOCK_TYPE_V2 crafted_iflist) = Some BlockOverflow.
Proof. vm_compute. split_and!; reflexivity. Qed.

(** ** Saving an old list again. *)

Definition old_body (l : scap_addrlist) : list byte := concat (map (if_bytes false) (if_entries l)).

Lemma length_old_body l :
  iflist_ok l ->
  Z.of_nat (length (iflist_body l))
  = Z.of_nat (length (old_body l)) + 4 * Z.of_nat (length (if_entries l)) /\
  4 * Z.of_nat (length (if_entries l)) <= Z.of_nat (length (old_body l)).
Proof.
  unfold iflist_ok, iflist_body, old_body. generalize (if_entries l).
  induction 1 as [|e es He _ IH]; [done|]. cbn [map concat]. rewrite !length_app.
  pose proof (length_if_bytes true e He). pose proof (length_if_bytes false e He).
  pose proof (if_len_range e He). simpl length. lia.
Qed.

(** A list read from a block of the old format, whose entries have no
    length, is given a total length that is four bytes per interface too small,
    because [scap_read_iflist] subtracts the lengths of the entries from either
    format.  When the capture is saved again [scap_write_iflist] announces a
    block that is shorter, by those bytes, than what it writes. *)
Theorem old_iflist_resaved_short (l : scap_addrlist) :
  iflist_ok l -> Z.of_nat (length (iflist_body l)) < 2147483500 ->
  let n := Z.of_nat (length (old_body l)) in
  exists l', parse_iflist (S (length (old_body l ++ padding n))) (scap_normalize_block_len n)
      IL_BLOCK_TYPE (old_body l ++ padding n) = Some (BlockRead l') /\
    al_v4list l' = al_v4list l /\ al_v6list l' = al_v6list l /\
    Z.of_nat (length (block_header IL_BLOCK_TYPE_V2 (iflist_total l') ++ iflist_body l'
                      ++ padding (iflist_totlen l') ++ le32 (iflist_total l')))
    = iflist_total l' + 4 * Z.of_nat (length (if_entries l)).
Proof.
  intros Hok Hlt n. destruct (length_old_body l Hok) as [Hlen Hcnt].
  destruct (block_total_length n ltac:(lia)) as (_ & Hnorm & Hpad).
  pose proof (normalize_spec n ltac:(lia)) as (_ & Hmod & _).
  pose proof (parse_iflist_ok IL_BLOCK_TYPE l (padding n) Hok ltac:(lia)) as Hp.
  change (IL_BLOCK_TYPE =? IL_BLOCK_TYPE_V2) with false in Hp. cbv zeta in Hp.
  fold (old_body l) in Hp. fold n in Hp.
  replace (n + Z.of_nat (length (padding n))) with (scap_normalize_block_len n) in Hp by lia.
  eexists. split; [apply Hp; lia|]. split; [done|]. split; [done|].
  set (m := scap_normalize_block_len n) in *. set (c := Z.of_nat (length (if_entries l))) in *.
  rewrite u32_small by lia. set (l' := mk_addrlist _ _ _).
  assert (Hb : iflist_body l' = iflist_body l) by done.
  assert (Ht : iflist_totlen l' = n + 4 * c) by (rewrite iflist_totlen_ok; rewrite ?Hb; [lia|done|lia]).
  assert (Htot : iflist_total l' = m + 12).
  { unfold iflist_total, l'. cbn [al_v4list al_v6list al_totlen].
    assert (Z.of_nat (length (al_v4list l)) + Z.of_nat (length (al_v6list l)) = c) as ->
      by (unfold c, if_entries; rewrite length_app, !length_map; lia).
    unfold sizeof_block_header. rewrite u32_small by lia.
    replace (8 + c * 4 + (m - c * 4) + 4) with (m + 4 * 3) by lia.
    rewrite normalize_shift by lia. unfold m at 1. rewrite (normalize_between n) by lia. lia. }
  rewrite Hb, Ht. rewrite !length_Z_app, Hlen. fold n c.
  assert (Hpl : Z.of_nat (length (padding (n + 4 * c))) = m - n).
  { pose proof (block_total_length (n + 4 * c) ltac:(lia)) as (_ & _ & ->).
    rewrite normalize_shift by lia. unfold m. lia. }
  rewrite Hpl, Htot. unfold block_header, le32. rewrite length_app, !length_le_bytes. lia.
Qed.

Lemma old_iflist_resaved_short_witness :
  exists l', parse_iflist (S (length (old_body sample_iflist
        ++ padding (Z.of_nat (length (old_body sample_iflist))))))
      (scap_normalize_block_len (Z.of_nat (length (old_body sample_iflist)))) IL_BLOCK_TYPE
      (old_body sample_iflist ++ padding (Z.of_nat (length (old_body sample_iflist))))
    = Some (BlockRead l') /\
    Z.of_nat (length (block_header IL_BLOCK_TYPE_V2 (iflist_total l') ++ iflist_body l'
                      ++ padding (iflist_totlen l') ++ le32 (iflist_total l')))
    = iflist_total l' + 8.
Proof.
  destruct sample_iflist_ok as (Hok & _ & Hlt).
  destruct (old_iflist_resaved_short sample_iflist Hok Hlt) as (l' & Hp & _ & _ & Hl).
  exists l'. split; [exact Hp|exact Hl].
Defined.
