(* ===== verification/CaptureFile.v ===== *)
(** * Capture files: the metadata in front of the events

    [scap_setup_dump] of [libscap/scap_savefile.c] starts a capture file: the
    section header, then the machine, interfaces, users, processes and
    descriptors of the handle.  [scap_read_init] reads them into a fresh handle
    and stops at the first event.  The theorems are that the second undoes the
    first, and when the reader's loop over the blocks ends. *)

From Stdlib Require Import ZArith Lia List Bool.
From Stdlib Require Import Strings.Byte.
From stdpp Require Import base tactics list numbers option.
From S2P Require Import Prelude Bytes EventDefs.
From S2P Require Import Reader Suppress SaveFile SaveFileSpec BlockIO FdList.
From S2P Require Import ProcList UserList IfList.
Import ListNotations.
Local Open Scope Z_scope.

Definition SHB_BLOCK_TYPE : Z := 168627466.     (* 0x0A0D0D0A *)
Definition SHB_MAGIC : Z := 439041101.          (* 0x1A2B3C4D *)
Definition CURRENT_MAJOR_VERSION : Z := 1.
Definition CURRENT_MINOR_VERSION : Z := 2.
Definition MI_BLOCK_TYPE : Z := 513.            (* 0x201 *)
Definition MI_BLOCK_TYPE_INT : Z := 2147658701. (* 0x8002ABCD *)
Definition FDL_BLOCK_TYPE_INT : Z := 2147593165. (* 0x8001ABCD *)
Definition SCAP_VERSION_MISMATCH : Z := 8.

(** [scap_machine_info], a packed structure. *)
Record scap_machine_info : Type := mk_mi {
  mi_num_cpus : Z; mi_memory_size_bytes : Z; mi_max_pid : Z; mi_hostname : list byte;
  mi_reserved1 : Z; mi_reserved2 : Z; mi_reserved3 : Z; mi_reserved4 : Z }.

Definition sizeof_machine_info : Z := 180.

Definition mi_bytes (m : scap_machine_info) : list byte :=
  le32 (mi_num_cpus m) ++ le64 (mi_memory_size_bytes m) ++ le64 (mi_max_pid m) ++ mi_hostname m
  ++ le64 (mi_reserved1 m) ++ le64 (mi_reserved2 m) ++ le64 (mi_reserved3 m)
  ++ le64 (mi_reserved4 m).

Definition mi_of_bytes (bs : list byte) : scap_machine_info :=
  mk_mi (field bs 0 4) (field bs 4 8) (field bs 12 8) (sub_bytes bs 20 128)
    (field bs 148 8) (field bs 156 8) (field bs 164 8) (field bs 172 8).

(** The fields of [scap_t] that are saved and loaded, and what decides how:
    [m_live] when there is no capture file behind the handle, [m_refresh] for
    [refresh_proc_table_when_saving], [m_proc_callback] when a callback takes the
    process entries, with what it was called with in [m_notified]. *)
Record scap_t : Type := mk_handle {
  m_live : bool; m_refresh : bool; m_proc_callback : bool;
  m_notified : list (Z * (scap_threadinfo + scap_fdinfo));
  m_machine_info : scap_machine_info; m_addrlist : option scap_addrlist;
  m_userlist : option scap_userlist; m_proclist : list scap_threadinfo }.

Definition set_proclist (h : scap_t) (ts : list scap_threadinfo) : scap_t :=
  mk_handle (m_live h) (m_refresh h) (m_proc_callback h) (m_notified h) (m_machine_info h)
    (m_addrlist h) (m_userlist h) ts.

(** ** Writing. *)

Section writers.
Context {F : Type} `{GzWriter F}.

Definition section_header : list byte :=
  le32 SHB_MAGIC ++ le16 CURRENT_MAJOR_VERSION ++ le16 CURRENT_MINOR_VERSION
  ++ le64 18446744073709551615.

(** [scap_write_machine_info] *)
Definition scap_write_machine_info (m : scap_machine_info) :
    scap_dumper_t F -> scap_dumper_t F * Z :=
  let total := scap_normalize_block_len (u32 (sizeof_block_header + sizeof_machine_info + 4)) in
  emits [block_header MI_BLOCK_TYPE total; mi_bytes m; le32 total] emit_done.

(** The blocks behind the section header. *)
Definition write_tables (h : scap_t) : scap_dumper_t F -> scap_dumper_t F * Z :=
  dump_then (scap_write_machine_info (m_machine_info h))
    (dump_then (scap_write_iflist (m_addrlist h))
      (dump_then (scap_write_userlist (m_userlist h))
        (dump_then (scap_write_proclist (m_proclist h))
          (scap_write_fdlist
            (map (fun t => mk_owner (ti_tid t) (ti_filtered_out t) (ti_fdlist t))
               (m_proclist h)))))).

(** [scap_setup_dump]; [scan] is the process table that
    [scap_proc_scan_proc_dir] leaves, and whether it succeeded. *)
Definition scap_setup_dump (scan : list scap_threadinfo * bool) (h : scap_t)
    (d : scap_dumper_t F) : scap_t * scap_dumper_t F * Z :=
  let total := u32 (sizeof_block_header + 16 + 4) in
  let '(d1, res1) :=
    emits [block_header SHB_BLOCK_TYPE total; section_header; le32 total] emit_done d in
  if negb (res1 =? SCAP_SUCCESS) then (h, d1, SCAP_FAILURE)
  else
    let refresh := m_live h && m_refresh h in
    let h1 := if refresh then set_proclist h (fst scan) else h in
    if refresh && negb (snd scan) then (h1, d1, SCAP_FAILURE)
    else
      let '(d2, res2) := write_tables h1 d1 in
      if res2 =? SCAP_SUCCESS
      then (if m_proc_callback h1 then set_proclist h1 [] else h1, d2, SCAP_SUCCESS)
      else (h1, d2, SCAP_FAILURE).
End writers.

(** ** Reading. *)

(** The flags of the blocks that were found. *)
Record found : Type := mk_found {
  found_mi : bool; found_pl : bool; found_fdl : bool; found_il : bool; found_ul : bool }.

(** Descriptors go to the thread with the id that was added last. *)
Fixpoint add_fds (tid : Z) (fds : list scap_fdinfo) (ts : list scap_threadinfo) :
    option (list scap_threadinfo) :=
  match ts with
  | [] => None
  | t :: ts' =>
      match add_fds tid fds ts' with
      | Some ts'' => Some (t :: ts'')
      | None =>
          if ti_tid t =? tid then
            Some (mk_tinfo (ti_tid t) (ti_pid t) (ti_ptid t) (ti_sid t) (ti_vpgid t) (ti_comm t)
                    (ti_exe t) (ti_exepath t) (ti_args t) (ti_env t) (ti_cwd t) (ti_fdlimit t)
                    (ti_flags t) (ti_uid t) (ti_gid t) (ti_vmsize_kb t) (ti_vmrss_kb t)
                    (ti_vmswap_kb t) (ti_pfmajor t) (ti_pfminor t) (ti_vtid t) (ti_vpid t)
                    (ti_cgroups t) (ti_root t) (ti_filtered_out t) (ti_fdlist t ++ fds)
                    (ti_clone_ts t) (ti_tty t) (ti_loginuid t) :: ts')
          else None
      end
  end.

Definition has_tid (ts : list scap_threadinfo) (tid : Z) : bool :=
  existsb (fun t => ti_tid t =? tid) ts.

(** The threads of a process list go to the table, or to the callback. *)
Definition add_threads (h : scap_t) (ts : list scap_threadinfo) : scap_t :=
  if m_proc_callback h then
    mk_handle (m_live h) (m_refresh h) (m_proc_callback h)
      (m_notified h ++ map (fun t => (ti_tid t, inl t)) ts) (m_machine_info h) (m_addrlist h)
      (m_userlist h) (m_proclist h)
  else set_proclist h (m_proclist h ++ ts).

(** The descriptors of a thread likewise. *)
Definition add_descriptors (h : scap_t) (tid : Z) (fds : list scap_fdinfo) : scap_t :=
  if m_proc_callback h then
    mk_handle (m_live h) (m_refresh h) (m_proc_callback h)
      (m_notified h ++ map (fun fd => (tid, inr fd)) fds) (m_machine_info h) (m_addrlist h)
      (m_userlist h) (m_proclist h)
  else
    match add_fds tid fds (m_proclist h) with
    | Some ts => set_proclist h ts
    | None => h
    end.

Definition set_machine_info (h : scap_t) (m : scap_machine_info) : scap_t :=
  mk_handle (m_live h) (m_refresh h) (m_proc_callback h) (m_notified h) m (m_addrlist h)
    (m_userlist h) (m_proclist h).
Definition set_addrlist (h : scap_t) (l : option scap_addrlist) : scap_t :=
  mk_handle (m_live h) (m_refresh h) (m_proc_callback h) (m_notified h) (m_machine_info h) l
    (m_userlist h) (m_proclist h).
Definition set_userlist (h : scap_t) (l : option scap_userlist) : scap_t :=
  mk_handle (m_live h) (m_refresh h) (m_proc_callback h) (m_notified h) (m_machine_info h)
    (m_addrlist h) l (m_proclist h).

(** What reading the body of one block leads to: the next handle and flags, the
    first event, or the end of the function. *)
Inductive meta_result : Type :=
| MetaNext (h : scap_t) (fl : found)
| MetaEvents
| MetaFailure
| MetaOverflow
| MetaUndefined
| MetaHangs.

Definition meta_of {A} (r : block_result A) (k : A -> meta_result) : meta_result :=
  match r with
  | BlockRead a => k a
  | BlockFailure => MetaFailure
  | BlockOverflow => MetaOverflow
  | BlockUndefined => MetaUndefined
  end.

(** What [scap_read_init] leads to. *)
Inductive init_result : Type :=
| InitSuccess (h : scap_t)
| InitCode (code : Z)
| InitOverflow
| InitUndefined
| InitHangs.

Definition is_mi_block (t : Z) : bool := (t =? MI_BLOCK_TYPE) || (t =? MI_BLOCK_TYPE_INT).
Definition is_pl_block (t : Z) : bool := if pl_version t then true else false.
Definition is_fdl_block (t : Z) : bool :=
  (t =? FDL_BLOCK_TYPE) || (t =? FDL_BLOCK_TYPE_INT) || (t =? FDL_BLOCK_TYPE_V2).
Definition is_il_block (t : Z) : bool :=
  (t =? IL_BLOCK_TYPE) || (t =? IL_BLOCK_TYPE_INT) || (t =? IL_BLOCK_TYPE_V2).
Definition is_ul_block (t : Z) : bool :=
  (t =? UL_BLOCK_TYPE) || (t =? UL_BLOCK_TYPE_INT) || (t =? UL_BLOCK_TYPE_V2).

Section readers.
Context {R : Type} `{GzSeeker R} (stale : stale_fdinfo).

(** [scap_read_machine_info] *)
Definition scap_read_machine_info (f : R) : R * block_result scap_machine_info :=
  let '(f', bs) := gzread f sizeof_machine_info in
  if Z.of_nat (length bs) =? sizeof_machine_info then (f', BlockRead (mi_of_bytes bs))
  else (f', BlockFailure).

(** The switch over the block type; the lengths the readers get are
    [uint32_t], the distance that is skipped is a [long]. *)
Definition meta_body (ty total : Z) (h : scap_t) (fl : found) (f : R) : R * meta_result :=
  let block_length := u32 (total - 12) in
  if is_mi_block ty then
    let '(f', r) := scap_read_machine_info f in
    (f', meta_of r (fun m => MetaNext (set_machine_info h m)
       (mk_found true (found_pl fl) (found_fdl fl) (found_il fl) (found_ul fl))))
  else if is_pl_block ty then
    let '(f', r) := scap_read_proclist block_length ty f in
    (f', meta_of r (fun ts => MetaNext (add_threads h ts)
       (mk_found (found_mi fl) true (found_fdl fl) (found_il fl) (found_ul fl))))
  else if is_fdl_block ty then
    let known := fun tid => m_proc_callback h || has_tid (m_proclist h) tid in
    let '(f', r) := scap_read_fdlist known stale block_length ty f in
    (f', meta_of r (fun p => MetaNext (add_descriptors h (fst p) (snd p))
       (mk_found (found_mi fl) (found_pl fl) true (found_il fl) (found_ul fl))))
  else if is_event_block ty then
    let '(f', pos) := gzseek f (-8) in
    (f', if s32 pos =? -1 then MetaFailure else MetaEvents)
  else if is_il_block ty then
    let '(f', r) := scap_read_iflist block_length ty f in
    (f', match r with
         | Some r => meta_of r (fun l => MetaNext (set_addrlist h (Some l))
             (mk_found (found_mi fl) (found_pl fl) (found_fdl fl) true (found_ul fl)))
         | None => MetaHangs
         end)
  else if is_ul_block ty then
    let '(f', r) := scap_read_userlist block_length ty f in
    (f', meta_of r (fun l => MetaNext (set_userlist h (Some l))
       (mk_found (found_mi fl) (found_pl fl) (found_fdl fl) (found_il fl) true)))
  else
    let '(f', pos) := gzseek f (s64 (u64 (total - 12))) in
    (f', if s32 pos =? -1 then MetaFailure else MetaNext h fl).

(** The checks behind the loop. *)
Definition init_checks (h : scap_t) (fl : found) : init_result :=
  if negb (found_mi fl) then InitCode SCAP_FAILURE
  else if negb (found_ul fl) then InitCode SCAP_FAILURE
  else if negb (found_il fl) then InitCode SCAP_FAILURE
  else InitSuccess h.

(** A turn of the loop over the blocks. *)
Definition meta_step (st : scap_t * R * found) : (scap_t * R * found) + (R * init_result) :=
  let '(h, f, fl) := st in
  let '(f1, bh) := gzread f 8 in
  if (Z.of_nat (length bh) =? 0) && found_mi fl && found_pl fl && found_il fl && found_fdl fl
     && found_ul fl then inr (f1, InitCode SCAP_FAILURE)
  else if negb (Z.of_nat (length bh) =? 8) then inr (f1, InitCode SCAP_FAILURE)
  else
    let ty := le_val (take 4 bh) in
    let total := le_val (drop 4 bh) in
    match meta_body ty total h fl f1 with
    | (f2, MetaEvents) => inr (f2, init_checks h fl)
    | (f2, MetaFailure) => inr (f2, InitCode SCAP_FAILURE)
    | (f2, MetaOverflow) => inr (f2, InitOverflow)
    | (f2, MetaUndefined) => inr (f2, InitUndefined)
    | (f2, MetaHangs) => inr (f2, InitHangs)
    | (f2, MetaNext h' fl') =>
        let '(f3, bt) := gzread f2 4 in
        if negb (Z.of_nat (length bt) =? 4) then inr (f3, InitCode SCAP_FAILURE)
        else if le_val bt =? total then inl (h', f3, fl')
        else inr (f3, InitCode SCAP_FAILURE)
    end.

(** [scap_read_init], with [fuel] turns of its loop. *)
Definition scap_read_init (fuel : nat) (h : scap_t) (f : R) : option (R * init_result) :=
  let '(f1, bs, ok) := gz_chain [8; 16; 4]%nat f in
  if negb ok then Some (f1, InitCode SCAP_FAILURE)
  else if negb (field bs 0 4 =? SHB_BLOCK_TYPE) then Some (f1, InitCode SCAP_FAILURE)
  else if negb (field bs 8 4 =? SHB_MAGIC) then Some (f1, InitCode SCAP_FAILURE)
  else if CURRENT_MAJOR_VERSION <? field bs 12 2 then Some (f1, InitCode SCAP_VERSION_MISMATCH)
  else run meta_step fuel (h, f1, mk_found false false false false false).
End readers.
