(* ===== verification/CaptureFileSpec.v ===== *)
(** * Capture files: the metadata is read back, and when reading it ends

    The bytes of the metadata of a handle, the round trip through
    [scap_setup_dump] and [scap_read_init], and the termination of the reader's
    loop over the blocks. *)

From Stdlib Require Import ZArith Lia List Bool.
From Stdlib Require Import Strings.Byte.
From stdpp Require Import relations base tactics list numbers option.
From S2P Require Import Prelude Bytes EventDefs.
From S2P Require Import Reader Suppress SaveFile SaveFileSpec BlockIO FdList.
From S2P Require Import ProcList UserList IfList CaptureFile.
Import ListNotations.
Local Open Scope Z_scope.

(** ** The bytes of the metadata. *)

Definition mi_ok (m : scap_machine_info) : Prop :=
  is_u32 (mi_num_cpus m) /\ is_u64 (mi_memory_size_bytes m) /\ is_u64 (mi_max_pid m) /\
  length (mi_hostname m) = 128%nat /\ is_u64 (mi_reserved1 m) /\ is_u64 (mi_reserved2 m) /\
  is_u64 (mi_reserved3 m) /\ is_u64 (mi_reserved4 m).

Definition mi_block (m : scap_machine_info) : list byte :=
  block_header MI_BLOCK_TYPE 192 ++ mi_bytes m ++ le32 192.

Definition owner_of (t : scap_threadinfo) : fd_owner :=
  mk_owner (ti_tid t) (ti_filtered_out t) (ti_fdlist t).

Definition fdlists_bytes (ts : list scap_threadinfo) : list byte :=
  concat (map (fun t => fdl_bytes (owner_of t)) (kept_procs ts)).

(** A thread whose fields and descriptors can be stored. *)
Definition thread_ok (t : scap_threadinfo) : Prop :=
  proc_ok t /\ Forall fd_ok (ti_fdlist t) /\
  Z.of_nat (length (fds_bytes (ti_fdlist t))) < 2147483500.

(** A handle whose tables can be stored, with [l] and [u] its interfaces and
    users. *)
Definition handle_ok (h : scap_t) (l : scap_addrlist) (u : scap_userlist) : Prop :=
  mi_ok (m_machine_info h) /\
  (m_addrlist h = Some l /\ iflist_ok l /\ iflist_len_ok l /\
   Z.of_nat (length (iflist_body l)) < 2147483500) /\
  (m_userlist h = Some u /\ userlist_ok u /\ Z.of_nat (length (userlist_body u)) < 2147483500) /\
  (Forall thread_ok (m_proclist h) /\
   Z.of_nat (length (procs_bytes (m_proclist h))) < 2147483500).

Definition tables_bytes (m : scap_machine_info) (l : scap_addrlist) (u : scap_userlist)
    (ts : list scap_threadinfo) : list byte :=
  mi_block m ++ iflist_bytes l ++ userlist_bytes u ++ proclist_bytes ts ++ fdlists_bytes ts.

Definition shb_block : list byte :=
  block_header SHB_BLOCK_TYPE 28 ++ section_header ++ le32 28.

Section written.
Context {F : Type} `{GzWriter F} (Hw : no_write_errors (F := F)).

Lemma fdlist_writes ts :
  Forall thread_ok ts ->
  writes (F := F) (fdlists_bytes ts) (scap_write_fdlist (map owner_of ts)).
Proof using Hw.
  unfold fdlists_bytes, kept_procs. induction 1 as [|t ts Ht _ IH]; [apply emit_done_writes|].
  cbn [map scap_write_fdlist List.filter]. 
  change (fo_filtered_out (owner_of t)) with (ti_filtered_out t).
  destruct (ti_filtered_out t) eqn:Ef; [exact IH|]. cbn [negb map concat]. intros f.
  destruct Ht as (_ & Hfd & _).
  destruct (proc_fds_writes (owner_of t) Hw Hfd f) as (f1 & E1 & H1).
  rewrite E1, Z.eqb_refl.
  destruct (IH f1) as (f2 & -> & H2). exists f2. split; [done|]. by rewrite H2, H1, app_assoc.
Qed.

Lemma tables_write h l u :
  handle_ok h l u ->
  writes (F := F) (tables_bytes (m_machine_info h) l u (m_proclist h)) (write_tables h).
Proof using Hw.
  intros (_ & (El & Hl1 & Hl2 & Hl3) & (Eu & Hu & Hu') & (Ht & _)).
  unfold write_tables, tables_bytes. rewrite El, Eu.
  apply dump_then_writes.
  { unfold scap_write_machine_info. change (scap_normalize_block_len _) with 192.
    pose proof (emits_done_writes Hw [block_header MI_BLOCK_TYPE 192;
      mi_bytes (m_machine_info h); le32 192]) as He.
    cbn [concat] in He. by rewrite app_nil_r in He. }
  apply dump_then_writes; [by apply iflist_writes|].
  apply dump_then_writes.
  { apply userlist_writes; [done|].
    eapply Forall_impl; [apply ul_entry_ok_storable|by apply userlist_ok_entries]. }
  apply dump_then_writes; [|by apply fdlist_writes].
  apply proclist_writes; [done|]. eapply Forall_impl; [|exact Ht]. by intros t [? _].
Qed.
End written.

(** ** Reading it back. *)

Lemma mi_of_bytes_ok m : mi_ok m -> mi_of_bytes (mi_bytes m) = m.
Proof.
  intros (H1 & H2 & H3 & Hh & H4 & H5 & H6 & H7). unfold mi_of_bytes.
  set (tl := le64 (mi_reserved1 m) ++ le64 (mi_reserved2 m) ++ le64 (mi_reserved3 m)
             ++ le64 (mi_reserved4 m)).
  set (bs := mi_bytes m).
  change (field bs 0 4) with (le_val (le32 (mi_num_cpus m))).
  change (field bs 4 8) with (le_val (le64 (mi_memory_size_bytes m))).
  change (field bs 12 8) with (le_val (le64 (mi_max_pid m))).
  change (sub_bytes bs 20 128) with (sub_bytes (mi_hostname m ++ tl) 0 128).
  change (field bs 148 8) with (le_val (sub_bytes (mi_hostname m ++ tl) (128 + 0) 8)).
  change (field bs 156 8) with (le_val (sub_bytes (mi_hostname m ++ tl) (128 + 8) 8)).
  change (field bs 164 8) with (le_val (sub_bytes (mi_hostname m ++ tl) (128 + 16) 8)).
  change (field bs 172 8) with (le_val (sub_bytes (mi_hostname m ++ tl) (128 + 24) 8)).
  rewrite sub_bytes_here, !sub_bytes_skip by done.
  change (sub_bytes tl 0 8) with (le64 (mi_reserved1 m)).
  change (sub_bytes tl 8 8) with (le64 (mi_reserved2 m)).
  change (sub_bytes tl 16 8) with (le64 (mi_reserved3 m)).
  change (sub_bytes tl 24 8) with (le64 (mi_reserved4 m)).
  rewrite le_val_u32, !le_val_u64 by done. by destruct m.
Qed.

(** What the reader makes of a thread: its stored fields, and the descriptors
    with a known type. *)
Definition set_fdlist (t : scap_threadinfo) (fds : list scap_fdinfo) : scap_threadinfo :=
  mk_tinfo (ti_tid t) (ti_pid t) (ti_ptid t) (ti_sid t) (ti_vpgid t) (ti_comm t) (ti_exe t)
    (ti_exepath t) (ti_args t) (ti_env t) (ti_cwd t) (ti_fdlimit t) (ti_flags t) (ti_uid t)
    (ti_gid t) (ti_vmsize_kb t) (ti_vmrss_kb t) (ti_vmswap_kb t) (ti_pfmajor t) (ti_pfminor t)
    (ti_vtid t) (ti_vpid t) (ti_cgroups t) (ti_root t) (ti_filtered_out t) fds (ti_clone_ts t)
    (ti_tty t) (ti_loginuid t).

Definition thread_stored (stale : stale_fdinfo) (t : scap_threadinfo) : scap_threadinfo :=
  set_fdlist (proc_stored 9 true t) (map (fd_stored stale) (known_fds (ti_fdlist t))).

Section steps.
Context {R : Type} `{GzSeeker R} (stale : stale_fdinfo).

(** The frame of a block: header and trailer around a body that is read. *)
Lemma meta_step_next h fl (f : R) ty total body rest h' fl' :
  is_u32 ty -> is_u32 total ->
  gz_rest f = block_header ty total ++ body ++ le32 total ++ rest ->
  (forall f1, gz_rest f1 = body ++ le32 total ++ rest ->
    exists f2, meta_body stale ty total h fl f1 = (f2, MetaNext h' fl') /\
      gz_rest f2 = le32 total ++ rest) ->
  exists f', meta_step stale (h, f, fl) = inl (h', f', fl') /\ gz_rest f' = rest.
Proof.
  intros Hty Htot Hr Hbody. destruct (block_header_parts ty total Hty Htot) as (Hl & E1 & E2).
  unfold meta_step. destruct (gzread f 8) as [f1 bh] eqn:Eg.
  change 8 with (Z.of_nat 8) in Eg. rewrite <- Hl in Eg.
  destruct (gzread_app f _ _ f1 bh Hr Eg) as [-> Hr1]; [rewrite Hl; lia|].
  rewrite Hl, E1, E2. change (Z.of_nat 8 =? 0) with false. change (Z.of_nat 8 =? 8) with true.
  cbn [andb negb].
  destruct (Hbody f1 Hr1) as (f2 & -> & Hr2).
  destruct (gzread f2 4) as [f3 bt] eqn:Et.
  destruct (gzread_app f2 (le32 total) rest f3 bt Hr2 Et) as [-> Hr3]; [done|].
  change (Z.of_nat (length (le32 total)) =? 4) with true. cbn [negb].
  rewrite le_val_u32, Z.eqb_refl by done. by exists f3.
Qed.

Lemma block_total_range n : is_u32 (block_total n).
Proof. apply u32_range. Qed.

(** The length a reader gets of a block that a writer made. *)
Lemma body_length n : 0 <= n < 2147483600 -> u32 (block_total n - 12) = block_total n - 12.
Proof.
  intros Hn. pose proof (block_total_length n Hn) as (E & Hs & _). apply u32_small. lia.
Qed.

Lemma mi_step h fl (f : R) m rest :
  mi_ok m -> gz_rest f = mi_block m ++ rest ->
  exists f', meta_step stale (h, f, fl)
    = inl (set_machine_info h m, f',
           mk_found true (found_pl fl) (found_fdl fl) (found_il fl) (found_ul fl)) /\
    gz_rest f' = rest.
Proof.
  intros Hm Hr. unfold mi_block in Hr. rewrite <- !app_assoc in Hr.
  eapply meta_step_next; [| |exact Hr|]; [unfold is_u32, MI_BLOCK_TYPE; lia|unfold is_u32; lia|].
  intros f1 Hr1. unfold meta_body. change (is_mi_block MI_BLOCK_TYPE) with true. cbv iota.
  unfold scap_read_machine_info. destruct (gzread f1 sizeof_machine_info) as [f2 bs] eqn:E.
  assert (Hl : Z.of_nat (length (mi_bytes m)) = sizeof_machine_info).
  { unfold mi_bytes, le32, le64. destruct Hm as (_ & _ & _ & Hh & _).
    rewrite !length_app, !length_le_bytes, Hh. done. }
  rewrite <- Hl in E. destruct (gzread_app f1 _ _ f2 bs Hr1 E) as [-> Hr2].
  { rewrite Hl. unfold sizeof_machine_info. lia. }
  rewrite Hl, Z.eqb_refl. exists f2. cbn [meta_of]. by rewrite mi_of_bytes_ok.
Qed.

Lemma il_step h fl (f : R) l rest :
  iflist_ok l -> Z.of_nat (length (iflist_body l)) < 2147483500 ->
  gz_rest f = iflist_bytes l ++ rest ->
  exists f', meta_step stale (h, f, fl)
    = inl (set_addrlist h (Some (iflist_stored l)), f',
           mk_found (found_mi fl) (found_pl fl) (found_fdl fl) true (found_ul fl)) /\
    gz_rest f' = rest.
Proof.
  intros Hok Hlt Hr. unfold iflist_bytes, block_bytes in Hr. rewrite <- !app_assoc in Hr.
  rewrite (app_assoc (iflist_body l)) in Hr.
  eapply meta_step_next; [| |exact Hr|];
    [unfold is_u32, IL_BLOCK_TYPE_V2; lia|apply block_total_range|].
  intros f1 Hr1. unfold meta_body. cbv zeta.
  change (is_mi_block IL_BLOCK_TYPE_V2) with false. change (is_pl_block IL_BLOCK_TYPE_V2) with false.
  change (is_fdl_block IL_BLOCK_TYPE_V2) with false.
  change (is_event_block IL_BLOCK_TYPE_V2) with false.
  change (is_il_block IL_BLOCK_TYPE_V2) with true. cbv iota.
  rewrite body_length by (rewrite iflist_totlen_ok; [lia|done|lia]).
  rewrite <- app_assoc in Hr1.
  destruct (read_iflist_ok l f1 _ Hok Hlt Hr1) as (f2 & -> & Hr2). by exists f2.
Qed.

Lemma ul_step h fl (f : R) u rest :
  userlist_ok u -> Z.of_nat (length (userlist_body u)) < 2147483500 ->
  gz_rest f = userlist_bytes u ++ rest ->
  exists f', meta_step stale (h, f, fl)
    = inl (set_userlist h (Some u), f',
           mk_found (found_mi fl) (found_pl fl) (found_fdl fl) (found_il fl) true) /\
    gz_rest f' = rest.
Proof.
  intros Hok Hlt Hr. unfold userlist_bytes, block_bytes in Hr. rewrite <- !app_assoc in Hr.
  rewrite (app_assoc (userlist_body u)) in Hr.
  eapply meta_step_next; [| |exact Hr|];
    [unfold is_u32, UL_BLOCK_TYPE_V2; lia|apply block_total_range|].
  intros f1 Hr1. unfold meta_body. cbv zeta.
  change (is_mi_block UL_BLOCK_TYPE_V2) with false. change (is_pl_block UL_BLOCK_TYPE_V2) with false.
  change (is_fdl_block UL_BLOCK_TYPE_V2) with false.
  change (is_event_block UL_BLOCK_TYPE_V2) with false.
  change (is_il_block UL_BLOCK_TYPE_V2) with false.
  change (is_ul_block UL_BLOCK_TYPE_V2) with true. cbv iota.
  rewrite body_length.
  2:{ rewrite length_userlist_body; [lia| |lia].
      eapply Forall_impl; [apply ul_entry_ok_storable|by apply userlist_ok_entries]. }
  rewrite <- app_assoc in Hr1.
  destruct (read_userlist_ok u f1 _ Hok Hlt Hr1) as (f2 & -> & Hr2). by exists f2.
Qed.

Lemma pl_step h fl (f : R) ts rest :
  Forall proc_ok ts -> Z.of_nat (length (procs_bytes ts)) < 2147483500 ->
  gz_rest f = proclist_bytes ts ++ rest ->
  exists f', meta_step stale (h, f, fl)
    = inl (add_threads h (map (proc_stored 9 true) (kept_procs ts)), f',
           mk_found (found_mi fl) true (found_fdl fl) (found_il fl) (found_ul fl)) /\
    gz_rest f' = rest.
Proof.
  intros Hok Hlt Hr. unfold proclist_bytes, block_bytes in Hr. rewrite <- !app_assoc in Hr.
  rewrite (app_assoc (procs_bytes ts)) in Hr.
  eapply meta_step_next; [| |exact Hr|];
    [unfold is_u32, PL_BLOCK_TYPE_V9; lia|apply block_total_range|].
  intros f1 Hr1. unfold meta_body. cbv zeta.
  change (is_mi_block PL_BLOCK_TYPE_V9) with false. change (is_pl_block PL_BLOCK_TYPE_V9) with true.
  cbv iota. rewrite body_length by (rewrite procs_totlen_ok; [lia|done|lia]).
  rewrite <- app_assoc in Hr1.
  destruct (read_proclist_ok ts f1 _ Hok Hlt Hr1) as (f2 & -> & Hr2). by exists f2.
Qed.

Lemma fdl_step h fl (f : R) t rest :
  thread_ok t -> m_proc_callback h || has_tid (m_proclist h) (ti_tid t) = true ->
  gz_rest f = fdl_bytes (owner_of t) ++ rest ->
  exists f', meta_step stale (h, f, fl)
    = inl (add_descriptors h (ti_tid t) (map (fd_stored stale) (known_fds (ti_fdlist t))), f',
           mk_found (found_mi fl) (found_pl fl) true (found_il fl) (found_ul fl)) /\
    gz_rest f' = rest.
Proof.
  intros ([(Htid & _) _] & Hfd & Hlt) Hk Hr. unfold fdl_bytes, block_bytes in Hr.
  rewrite <- !app_assoc in Hr. rewrite (app_assoc (fdl_body (owner_of t))) in Hr.
  eapply meta_step_next; [| |exact Hr|];
    [unfold is_u32, FDL_BLOCK_TYPE_V2; lia|apply block_total_range|].
  intros f1 Hr1. unfold meta_body. cbv zeta.
  change (is_mi_block FDL_BLOCK_TYPE_V2) with false.
  change (is_pl_block FDL_BLOCK_TYPE_V2) with false.
  change (is_fdl_block FDL_BLOCK_TYPE_V2) with true. cbv iota.
  rewrite body_length.
  2:{ rewrite fdl_totlen by done. unfold fdl_body, le64. rewrite length_app, length_le_bytes.
      simpl. lia. }
  rewrite <- app_assoc in Hr1.
  destruct (read_fdlist_ok (owner_of t) stale
    (fun tid => m_proc_callback h || has_tid (m_proclist h) tid) Hfd Htid Hk Hlt f1 _ Hr1)
    as (f2 & -> & Hr2). by exists f2.
Qed.
End steps.

(** The descriptors of one thread among others with other ids. *)
Lemma add_fds_at tid fds a t b :
  ti_tid t = tid -> ~ In tid (map ti_tid b) ->
  add_fds tid fds (a ++ t :: b) = Some (a ++ set_fdlist t (ti_fdlist t ++ fds) :: b).
Proof.
  intros Ht Hb.
  assert (Hnone : forall b, ~ In tid (map ti_tid b) -> add_fds tid fds b = None).
  { induction b0 as [|x b0 IH]; intros Hn; [done|]. cbn [add_fds map] in *.
    rewrite IH by (intros ?; apply Hn; by right).
    destruct (Z.eqb_spec (ti_tid x) tid); [|done]. exfalso. apply Hn. by left. }
  induction a as [|x a IH]; cbn [app add_fds].
  - rewrite Hnone by done. by destruct (Z.eqb_spec (ti_tid t) tid).
  - by rewrite IH.
Qed.

Lemma has_tid_at a t b : has_tid (a ++ t :: b) (ti_tid t) = true.
Proof.
  unfold has_tid. rewrite existsb_app. cbn [existsb]. by rewrite Z.eqb_refl, orb_true_r.
Qed.

(** The flags the checks behind the loop look at. *)
Definition found_required (fl : found) : Prop :=
  found_mi fl = true /\ found_il fl = true /\ found_ul fl = true.

Section runs.
Context {R : Type} `{GzSeeker R} (stale : stale_fdinfo).

Lemma run_inl n h f fl (st : scap_t * R * found) :
  meta_step stale (h, f, fl) = inl st ->
  run (meta_step stale) (S n) (h, f, fl) = run (meta_step stale) n st.
Proof. intros E. cbn [run]. by rewrite E. Qed.

(** The descriptor blocks of [todo], whose threads are in the table behind
    [a]. *)
Lemma fdl_runs todo : forall a h fl (f : R) rest,
  m_proc_callback h = false -> m_proclist h = a ++ map (proc_stored 9 true) todo ->
  Forall thread_ok todo -> NoDup (map ti_tid todo) -> found_required fl ->
  gz_rest f = concat (map (fun t => fdl_bytes (owner_of t)) todo) ++ rest ->
  exists f' fl', found_required fl' /\ gz_rest f' = rest /\ forall fuel,
    run (meta_step stale) (length todo + fuel) (h, f, fl)
    = run (meta_step stale) fuel (set_proclist h (a ++ map (thread_stored stale) todo), f', fl').
Proof.
  induction todo as [|t todo IH]; intros a h fl f rest Hc Hp Hok Hnd Hfl Hr.
  { exists f, fl. split; [done|]. split; [done|]. intros fuel. simpl in *. rewrite <- Hp.
    by destruct h. }
  cbn [map concat] in *. rewrite <- app_assoc in Hr.
  apply Forall_cons_1 in Hok as [Ht Hok]. inversion_clear Hnd as [|? ? Hni Hnd'].
  assert (Hk : m_proc_callback h || has_tid (m_proclist h) (ti_tid t) = true)
    by (rewrite Hp, Hc; apply (has_tid_at a (proc_stored 9 true t))).
  destruct (fdl_step stale h fl f t _ Ht Hk Hr) as (f1 & E1 & Hr1).
  set (h1 := add_descriptors h (ti_tid t) (map (fd_stored stale) (known_fds (ti_fdlist t)))) in *.
  assert (Hh1 : h1 = set_proclist h
    ((a ++ [thread_stored stale t]) ++ map (proc_stored 9 true) todo)).
  { unfold h1, add_descriptors. rewrite Hc, Hp, add_fds_at, <- app_assoc; [done|done|].
    rewrite map_map. simpl. intros Hin. apply Hni. by apply list_elem_of_In. }
  destruct (IH (a ++ [thread_stored stale t]) h1
    (mk_found (found_mi fl) (found_pl fl) true (found_il fl) (found_ul fl)) f1 rest)
    as (f2 & fl2 & Hfl2 & Hr2 & Hrun); rewrite ?Hh1; try done.
  exists f2, fl2. split; [done|]. split; [done|]. intros fuel.
  change (length (t :: todo) + fuel)%nat with (S (length todo + fuel)).
  rewrite (run_inl _ _ _ _ _ E1), Hrun, Hh1.
  replace (a ++ thread_stored stale t :: map (thread_stored stale) todo)
    with ((a ++ [thread_stored stale t]) ++ map (thread_stored stale) todo)
    by (by rewrite <- app_assoc). done.
Qed.

(** Bytes that start with the header of an event block. *)
Definition starts_event (bs : list byte) : Prop :=
  exists ty total more, is_u32 ty /\ is_u32 total /\ is_event_block ty = true /\
    bs = block_header ty total ++ more.

(** At the first event the loop ends, with the file back in front of it. *)
Lemma events_step h fl (f : R) events :
  no_seek_errors (R := R) -> Z.of_nat (length (gz_content R)) < 2147483648 ->
  found_required fl -> starts_event events -> gz_rest f = events ->
  exists f', meta_step stale (h, f, fl) = inr (f', InitSuccess h) /\ gz_rest f' = events.
Proof.
  intros Hs Hlen (Hmi & Hil & Hul) (ty & total & more & Hty & Htot & Hev & ->) Hr.
  destruct (block_header_parts ty total Hty Htot) as (Hl & E1 & E2).
  destruct (gz_rest_pos f) as [Hp Hrp].
  assert (Hpl : gz_pos f < 2147483648).
  { rewrite Hr in Hrp. apply (f_equal length) in Hrp. rewrite length_app, Hl, length_drop in Hrp.
    lia. }
  unfold meta_step. destruct (gzread f 8) as [f1 bh] eqn:Eg.
  pose proof (gzread_pos _ _ _ _ Eg) as Hp1.
  change 8 with (Z.of_nat 8) in Eg. rewrite <- Hl in Eg.
  destruct (gzread_app f _ _ f1 bh Hr Eg) as [-> Hr1]; [rewrite Hl; lia|].
  rewrite Hl in *. rewrite E1, E2. change (Z.of_nat 8 =? 0) with false.
  change (Z.of_nat 8 =? 8) with true. cbn [andb negb].
  destruct (gzseek f1 (-8)) as [f2 pos] eqn:Es.
  assert (Hpos : pos = gz_pos f)
    by (pose proof (Hs f1 (-8) ltac:(lia)) as Hn; rewrite Es in Hn; simpl in Hn; lia).
  assert (Hbody : meta_body stale ty total h fl f1 = (f2, MetaEvents)).
  { unfold meta_body. cbv zeta. rewrite Es, Hev.
    replace (s32 pos =? -1) with false by (rewrite s32_small by lia; lia).
    unfold is_event_block in Hev. repeat (apply orb_true_iff in Hev as [Hev|Hev]);
      apply Z.eqb_eq in Hev as ->; done. }
  rewrite Hbody. unfold init_checks. rewrite Hmi, Hul, Hil. exists f2. split; [done|].
  destruct (gz_rest_pos f2) as [_ ->]. apply gzseek_pos in Es as [_ ->]; [|lia].
  by rewrite Hpos, <- Hrp.
Qed.
End runs.

(** ** The whole file. *)

(** The handle whose tables are written: in live mode the process table may be
    refreshed first. *)
Definition saved_handle (scan : list scap_threadinfo * bool) (h : scap_t) : scap_t :=
  if m_live h && m_refresh h then set_proclist h (fst scan) else h.

Definition metadata_bytes (h : scap_t) (l : scap_addrlist) (u : scap_userlist) : list byte :=
  shb_block ++ tables_bytes (m_machine_info h) l u (m_proclist h).

Lemma setup_dump_writes {F} `{GzWriter F} scan h l u (f : F) :
  no_write_errors (F := F) -> handle_ok (saved_handle scan h) l u ->
  (m_live h && m_refresh h = true -> snd scan = true) ->
  exists h' f', scap_setup_dump scan h (DT_FILE f) = (h', DT_FILE f', SCAP_SUCCESS) /\
    gz_written f' = gz_written f ++ metadata_bytes (saved_handle scan h) l u.
Proof.
  intros Hw Hok Hscan. unfold scap_setup_dump.
  change (u32 (sizeof_block_header + 16 + 4)) with 28.
  destruct (emits_done_writes Hw [block_header SHB_BLOCK_TYPE 28; section_header; le32 28] f)
    as (f1 & -> & H1). rewrite Z.eqb_refl. cbn [negb]. cbv zeta. fold (saved_handle scan h).
  replace (m_live h && m_refresh h && negb (snd scan)) with false
    by (destruct (m_live h && m_refresh h); [by rewrite Hscan|done]).
  destruct (tables_write Hw _ l u Hok f1) as (f2 & -> & H2). rewrite Z.eqb_refl.
  eexists _, f2. split; [reflexivity|]. rewrite H2, H1. unfold metadata_bytes, shb_block.
  cbn [concat]. by rewrite app_nil_r, <- !app_assoc.
Qed.

Lemma shb_fields : let bs := shb_block in
  field bs 0 4 = SHB_BLOCK_TYPE /\ field bs 8 4 = SHB_MAGIC /\ field bs 12 2 = CURRENT_MAJOR_VERSION.
Proof. vm_compute. split_and!; reflexivity. Qed.

Lemma length_fdlists ts : (length (kept_procs ts) <= length (fdlists_bytes ts))%nat.
Proof.
  unfold fdlists_bytes. induction (kept_procs ts) as [|t l IH]; [done|]. cbn [map concat].
  rewrite length_app. unfold fdl_bytes at 1. unfold block_bytes, block_header, le32.
  rewrite !length_app, !length_le_bytes. cbn [length]. lia.
Qed.

(** The handle that is loaded into [h0] from what was saved of [h]. *)
Definition loaded_handle (stale : stale_fdinfo) (h h0 : scap_t) (l : scap_addrlist)
    (u : scap_userlist) : scap_t :=
  mk_handle (m_live h0) (m_refresh h0) (m_proc_callback h0) (m_notified h0) (m_machine_info h)
    (Some (iflist_stored l)) (Some u)
    (m_proclist h0 ++ map (thread_stored stale) (kept_procs (m_proclist h))).

Section loading.
Context {R : Type} `{GzSeeker R} (stale : stale_fdinfo) (h h0 : scap_t).
Context (l : scap_addrlist) (u : scap_userlist) (Hok : handle_ok h l u).
Context (Hnd : NoDup (map ti_tid (kept_procs (m_proclist h)))) (Hc : m_proc_callback h0 = false).

Lemma kept_threads_ok : Forall proc_ok (m_proclist h) /\ Forall thread_ok (kept_procs (m_proclist h)).
Proof using Hok.
  destruct Hok as (_ & _ & _ & (Ht & _)). split.
  - eapply Forall_impl; [|exact Ht]. by intros t [? _].
  - unfold kept_procs. apply List.Forall_forall. intros t Hin.
    apply List.filter_In in Hin as [Hin _]. by eapply List.Forall_forall.
Qed.

(** The four blocks in front of the descriptors. *)
Lemma tables_runs (r : R) rest :
  gz_rest r = mi_block (m_machine_info h) ++ iflist_bytes l ++ userlist_bytes u
              ++ proclist_bytes (m_proclist h) ++ rest ->
  exists r' h4, gz_rest r' = rest /\
    h4 = set_userlist (set_addrlist (set_machine_info h0 (m_machine_info h))
           (Some (iflist_stored l))) (Some u) /\
    forall fuel, run (meta_step stale) (4 + fuel) (h0, r, mk_found false false false false false)
      = run (meta_step stale) fuel
          (add_threads h4 (map (proc_stored 9 true) (kept_procs (m_proclist h))), r',
           mk_found true true false true true).
Proof using Hok.
  intros Hr1. destruct kept_threads_ok as [Hpok _].
  destruct Hok as (Hmi & (_ & Hl1 & _ & Hl3) & (_ & Hu & Hu') & (_ & Ht')).
  destruct (mi_step stale h0 (mk_found false false false false false) r _ _ Hmi Hr1)
    as (r2 & E2 & Hr2).
  destruct (il_step stale (set_machine_info h0 (m_machine_info h))
    (mk_found true false false false false) r2 _ _ Hl1 Hl3 Hr2) as (r3 & E3 & Hr3).
  destruct (ul_step stale (set_addrlist (set_machine_info h0 (m_machine_info h))
    (Some (iflist_stored l))) (mk_found true false false true false) r3 _ _ Hu Hu' Hr3)
    as (r4 & E4 & Hr4).
  destruct (pl_step stale (set_userlist (set_addrlist (set_machine_info h0 (m_machine_info h))
    (Some (iflist_stored l))) (Some u)) (mk_found true false false true true) r4 _ _ Hpok Ht' Hr4)
    as (r5 & E5 & Hr5).
  eexists r5, _. split; [done|]. split; [reflexivity|]. intros fuel.
  change (4 + fuel)%nat with (S (S (S (S fuel)))).
  rewrite (run_inl _ _ _ _ _ _ E2), (run_inl _ _ _ _ _ _ E3), (run_inl _ _ _ _ _ _ E4).
  by rewrite (run_inl _ _ _ _ _ _ E5).
Qed.

(** All the blocks. *)
Lemma metadata_runs (r : R) rest :
  m_proclist h0 = [] ->
  gz_rest r = tables_bytes (m_machine_info h) l u (m_proclist h) ++ rest ->
  exists r' fl, gz_rest r' = rest /\ found_required fl /\
    forall fuel, run (meta_step stale) (4 + (length (kept_procs (m_proclist h)) + fuel))
        (h0, r, mk_found false false false false false)
      = run (meta_step stale) fuel (loaded_handle stale h h0 l u, r', fl).
Proof using Hok Hnd Hc.
  intros Hp Hr. unfold tables_bytes in Hr. rewrite <- !app_assoc in Hr.
  destruct (tables_runs r _ Hr) as (r5 & h4 & Hr5 & Eh4 & Hrun).
  destruct kept_threads_ok as [_ Htk].
  assert (Hh5 : add_threads h4 (map (proc_stored 9 true) (kept_procs (m_proclist h)))
    = set_proclist h4 ([] ++ map (proc_stored 9 true) (kept_procs (m_proclist h)))).
  { unfold add_threads. rewrite Eh4. cbn [m_proc_callback set_userlist set_addrlist set_machine_info].
    rewrite Hc. cbn [m_proclist set_userlist set_addrlist set_machine_info]. by rewrite Hp. }
  rewrite Hh5 in Hrun.
  destruct (fdl_runs stale (kept_procs (m_proclist h)) [] (set_proclist h4
    ([] ++ map (proc_stored 9 true) (kept_procs (m_proclist h))))
    (mk_found true true false true true) r5 rest) as (r6 & fl6 & Hfl6 & Hr6 & Hrun2); try done.
  { by rewrite Eh4. }
  exists r6, fl6. split; [done|]. split; [done|]. intros fuel. rewrite Hrun, Hrun2.
  unfold loaded_handle. rewrite Eh4, Hp. done.
Qed.

Lemma read_init_ok (r : R) events :
  no_seek_errors (R := R) -> Z.of_nat (length (gz_content R)) < 2147483648 ->
  m_proclist h0 = [] -> starts_event events -> gz_rest r = metadata_bytes h l u ++ events ->
  exists r', scap_read_init stale (S (length (gz_content R))) h0 r
      = Some (r', InitSuccess (loaded_handle stale h h0 l u)) /\ gz_rest r' = events.
Proof using Hok Hnd Hc.
  intros Hs Hlen Hp Hev Hr.
  assert (Hfuel : exists n, S (length (gz_content R)) =
    (4 + (length (kept_procs (m_proclist h)) + S n))%nat).
  { destruct (gz_rest_pos r) as [_ Hrp]. rewrite Hr in Hrp. apply (f_equal length) in Hrp.
    rewrite length_drop in Hrp. unfold metadata_bytes, tables_bytes, shb_block in Hrp.
    rewrite !length_app in Hrp. pose proof (length_fdlists (m_proclist h)).
    change (length (le32 28)) with 4%nat in Hrp. change (length section_header) with 16%nat in Hrp.
    exists (length (gz_content R) - length (kept_procs (m_proclist h)) - 4)%nat. lia. }
  destruct Hfuel as [n ->]. unfold scap_read_init, metadata_bytes in *. rewrite <- !app_assoc in Hr.
  destruct (gz_chain_ok [block_header SHB_BLOCK_TYPE 28; section_header; le32 28] r
    (tables_bytes (m_machine_info h) l u (m_proclist h) ++ events))
    as (r1 & Hch & Hr1); [done|cbn [concat]; rewrite Hr; unfold shb_block; by rewrite <- !app_assoc|].
  change (gz_chain [8; 16; 4]%nat r) with (gz_chain
    (map length [block_header SHB_BLOCK_TYPE 28; section_header; le32 28]) r).
  rewrite Hch. cbn [negb]. change (concat _) with shb_block.
  destruct shb_fields as (-> & -> & ->). rewrite !Z.eqb_refl, Z.ltb_irrefl. cbn [negb].
  destruct (metadata_runs r1 events Hp Hr1) as (r6 & fl6 & Hr6 & Hfl6 & ->).
  destruct (events_step stale (loaded_handle stale h h0 l u) fl6 r6 events Hs Hlen Hfl6 Hev Hr6)
    as (r7 & E7 & Hr7). cbn [run]. rewrite E7. by exists r7.
Qed.
End loading.


(** A handle with an interface, a user, a group and two threads, one of them
    with descriptors. *)
Definition sample_mi : scap_machine_info := mk_mi 4 8589934592 32768 (repeat x68 128) 0 0 0 0.
Definition sample_handle : scap_t :=
  mk_handle false true false [] sample_mi (Some sample_iflist) (Some sample_userlist)
    [set_fdlist (sample_tinfo 7 false) (fo_fdlist sample_owner); sample_tinfo 8 true].
Definition fresh_handle : scap_t :=
  mk_handle false true false [] (mk_mi 0 0 0 (repeat x00 128) 0 0 0 0) None None [].
Definition sample_file : list byte :=
  metadata_bytes sample_handle sample_iflist sample_userlist
  ++ event_block 0 0 sample_record_bytes.

Lemma sample_handle_ok : handle_ok sample_handle sample_iflist sample_userlist.
Proof.
  destruct sample_iflist_ok as (Hi1 & Hi2 & Hi3). unfold handle_ok.
  split; [unfold mi_ok, is_u32, is_u64; simpl; lia|]. split; [done|].
  split; [split; [done|]; split; [apply sample_userlist_ok|vm_compute; reflexivity]|].
  split; [|vm_compute; reflexivity].
  repeat constructor; try (apply sample_tinfo_ok; lia); simpl;
    unfold is_u64, is_u32, is_u16, is_u8, SCAP_MAX_PATH_SIZE; simpl; try lia.
  rewrite !not_elem_of_cons. repeat split; try done. apply not_elem_of_nil.
Qed.


(** ** When the loop over the blocks ends. *)

(** The types the switch has no case for. *)
Definition unknown_block (t : Z) : bool :=
  negb (is_mi_block t || is_pl_block t || is_fdl_block t || is_event_block t || is_il_block t
        || is_ul_block t).

Section termination.
Context {R : Type} `{GzSeeker R} (stale : stale_fdinfo).
Context (Hs : no_seek_errors (R := R)) (Hlen : Z.of_nat (length (gz_content R)) < 2147483648).

(** A block of an unknown type and length zero, behind four zero bytes. *)
Definition meta_stuck (st : scap_t * R * found) : Prop :=
  let '(_, f, _) := st in
  exists ty more, is_u32 ty /\ unknown_block ty = true /\ 4 <= gz_pos f /\
    gz_rest f = block_header ty 0 ++ more /\
    take 4 (drop (Z.to_nat (gz_pos f - 4)) (gz_content R)) = le32 0.

Lemma meta_body_unknown ty total h fl (f : R) :
  unknown_block ty = true ->
  meta_body stale ty total h fl f =
    let '(f', pos) := gzseek f (s64 (u64 (total - 12))) in
    (f', if s32 pos =? -1 then MetaFailure else MetaNext h fl).
Proof.
  unfold unknown_block, meta_body. intros Hu.
  destruct (is_mi_block ty), (is_pl_block ty), (is_fdl_block ty), (is_event_block ty),
    (is_il_block ty), (is_ul_block ty); done.
Qed.

Lemma skip_distance total :
  is_u32 total -> s64 (u64 (total - 12)) = total - 12.
Proof. intros Ht. apply s64_u64. unfold is_u32, is_s64 in *. lia. Qed.

Lemma meta_stuck_step st :
  meta_stuck st -> exists st', meta_step stale st = inl st' /\ meta_stuck st'.
Proof using Hs Hlen.
  destruct st as [[h f] fl]. intros (ty & more & Hty & Hu & Hp & Hr & Hz).
  destruct (block_header_parts ty 0 Hty ltac:(lia)) as (Hl & E1 & E2).
  destruct (gz_rest_pos f) as [_ Hrp].
  assert (Hpl : gz_pos f < 2147483648).
  { rewrite Hr in Hrp. apply (f_equal length) in Hrp. rewrite length_app, Hl, length_drop in Hrp.
    lia. }
  unfold meta_step. destruct (gzread f 8) as [f1 bh] eqn:Eg.
  pose proof (gzread_pos _ _ _ _ Eg) as Hp1.
  change 8 with (Z.of_nat 8) in Eg. rewrite <- Hl in Eg.
  destruct (gzread_app f _ _ f1 bh Hr Eg) as [-> Hr1]; [rewrite Hl; lia|].
  rewrite Hl in *. rewrite E1, E2. change (Z.of_nat 8 =? 0) with false.
  change (Z.of_nat 8 =? 8) with true. cbn [andb negb].
  rewrite meta_body_unknown by done. change (s64 (u64 (0 - 12))) with (0 - 12).
  destruct (gzseek f1 (0 - 12)) as [f2 pos] eqn:Es.
  assert (Hpos : pos = gz_pos f - 4)
    by (pose proof (Hs f1 (0 - 12) ltac:(lia)) as Hn; rewrite Es in Hn; simpl in Hn; lia).
  replace (s32 pos =? -1) with false by (rewrite s32_small by lia; lia).
  apply gzseek_pos in Es as [_ Hp2]; [|lia].
  destruct (gz_rest_pos f2) as [_ Hr2]. rewrite Hp2, Hpos in Hr2.
  destruct (gzread f2 4) as [f3 bt] eqn:Et. pose proof (gzread_pos _ _ _ _ Et) as Hp3.
  apply gzread_take in Et as [Hbt _]; [|lia]. rewrite Hr2 in Hbt.
  change (Z.to_nat 4) with 4%nat in Hbt. rewrite Hz in Hbt. subst bt.
  change (negb (Z.of_nat (length (le32 0)) =? 4)) with false.
  change (le_val (le32 0) =? 0) with true. cbv iota. eexists. split; [reflexivity|].
  assert (Hp4 : gz_pos f3 = gz_pos f) by (change (Z.of_nat (length (le32 0))) with 4 in Hp3; lia).
  exists ty, more. rewrite Hp4. do 3 (split; [done|]). split; [|done].
  destruct (gz_rest_pos f3) as [_ ->]. by rewrite Hp4, <- Hrp.
Qed.

(** Reading the body of a block of a known type does not move back. *)
Lemma meta_body_rest ty total h fl (f : R) f' h' fl' :
  unknown_block ty = false -> is_u32 total ->
  meta_body stale ty total h fl f = (f', MetaNext h' fl') ->
  (length (gz_rest f') <= length (gz_rest f))%nat.
Proof.
  intros Hu Ht. unfold meta_body. cbv zeta. intros E.
  destruct (is_mi_block ty) eqn:E1.
  { unfold scap_read_machine_info in E. destruct (gzread f _) as [f1 bs] eqn:Eg.
    apply gzread_split in Eg as [-> _]; [|unfold sizeof_machine_info; lia]. rewrite length_app.
    case_in E; simplify_eq/=; lia. }
  destruct (is_pl_block ty) eqn:E2.
  { destruct (scap_read_proclist _ ty f) as [f1 [ts| | |]] eqn:Ep; simplify_eq/=.
    by apply (read_block_rest _ 1 ltac:(lia) _) in Ep. }
  destruct (is_fdl_block ty) eqn:E3.
  { destruct (scap_read_fdlist _ _ _ ty f) as [f1 [p| | |]] eqn:Ep; simplify_eq/=.
    unfold scap_read_fdlist in Ep. destruct (gzread f 8) as [f2 tb] eqn:Eg.
    apply gzread_split in Eg as [-> _]; [|lia]. rewrite length_app. case_in Ep; [done|].
    case_in Ep; [done|]. destruct (read_block _ _ _ _) as [f3 [fds| | |]] eqn:Eb; simplify_eq.
    apply (read_block_rest _ 1 ltac:(lia) _) in Eb. lia. }
  destruct (is_event_block ty) eqn:E4; [destruct (gzseek f _) as [? ?]; case_in E; simplify_eq|].
  destruct (is_il_block ty) eqn:E5.
  { unfold scap_read_iflist in E. destruct (gzread f _) as [f1 bs] eqn:Eg.
    apply gzread_split in Eg as [-> _]; [|apply u32_range]. rewrite length_app.
    case_in E; simplify_eq/=; lia. }
  destruct (is_ul_block ty) eqn:E6.
  { destruct (scap_read_userlist _ ty f) as [f1 [ul| | |]] eqn:Ep; simplify_eq/=.
    unfold scap_read_userlist in Ep.
    destruct (read_block _ _ _ _) as [f3 [es| | |]] eqn:Eb; simplify_eq.
    by apply (read_block_rest _ 1 ltac:(lia) _) in Eb. }
  unfold unknown_block in Hu. rewrite E1, E2, E3, E4, E5, E6 in Hu. done.
Qed.

Lemma header_of_bytes bh :
  length bh = 8%nat ->
  let ty := le_val (take 4 bh) in let total := le_val (drop 4 bh) in
  is_u32 ty /\ is_u32 total /\ bh = block_header ty total.
Proof.
  intros Hl ty total. pose proof (le_val_range (take 4 bh)) as H1.
  pose proof (le_val_range (drop 4 bh)) as H2. pose proof (le_bytes_val (take 4 bh)) as E1.
  pose proof (le_bytes_val (drop 4 bh)) as E2.
  rewrite length_take, Hl in H1, E1. rewrite length_drop, Hl in H2, E2.
  split; [exact H1|]. split; [exact H2|]. unfold block_header, le32, ty, total.
  change (8 `min` 4)%nat with 4%nat in E1. change (4 `min` 8)%nat with 4%nat in E1.
  change (8 - 4)%nat with 4%nat in E2. by rewrite E1, E2, take_drop.
Qed.

(** A skipped block, if the word in front of the new position is its length, is
    left behind, or it is one the loop is stuck at. *)
Lemma skip_shrinks h fl (f f1 f2 f3 : R) ty total bt pos :
  is_u32 ty -> is_u32 total -> unknown_block ty = true ->
  gz_rest f = block_header ty total ++ gz_rest f1 -> gz_pos f1 = gz_pos f + 8 ->
  gzseek f1 (total - 12) = (f2, pos) -> s32 pos <> -1 -> gzread f2 4 = (f3, bt) ->
  Z.of_nat (length bt) = 4 -> le_val bt = total ->
  (length (gz_rest f3) < length (gz_rest f))%nat \/ meta_stuck (h, f, fl).
Proof.
  intros Hty Htot Hu Hr Hp1 Es Hpos Et Hbl Hbt. pose proof (gzread_pos _ _ _ _ Et) as Hp3.
  assert (Hne : pos <> -1) by (by intros ->). apply gzseek_pos in Es as [-> Hp2]; [|done].
  apply gzread_split in Et as [Hr2 _]; [|lia].
  destruct (gz_rest_pos f) as [Hp Ef], (gz_rest_pos f2) as [Hq Ef2], (gz_rest_pos f3) as [_ Ef3].
  assert (Hl2 : (length (gz_rest f2) = length bt + length (gz_rest f3))%nat)
    by (by rewrite Hr2, length_app).
  rewrite Ef2, Ef3, !length_drop in Hl2. unfold is_u32 in Htot.
  destruct (Z.eq_dec total 0) as [E0|Hn0]; [right|left].
  - exists ty, (gz_rest f1). rewrite E0 in Hr. do 2 (split; [done|]). split; [lia|]. split; [done|].
    rewrite Ef2, Hp2, E0 in Hr2. replace (gz_pos f1 + (0 - 12)) with (gz_pos f - 4) in Hr2 by lia.
    rewrite Hr2. replace 4%nat with (length bt) by lia. rewrite take_app_length.
    pose proof (le_bytes_val bt) as Hb. rewrite Hbt, E0 in Hb.
    replace (length bt) with 4%nat in Hb by lia. done.
  - rewrite Ef3, Ef, !length_drop. apply (f_equal length) in Hr.
    rewrite Ef, length_drop, length_app in Hr. change (length (block_header ty total)) with 8%nat in Hr.
    lia.
Qed.

(** Every turn that goes on has moved forward, unless it is stuck. *)
Lemma meta_step_shrinks st st' :
  meta_step stale st = inl st' ->
  (length (gz_rest (snd (fst st'))) < length (gz_rest (snd (fst st))))%nat \/ meta_stuck st.
Proof.
  destruct st as [[h f] fl]. unfold meta_step. intros E.
  destruct (gzread f 8) as [f1 bh] eqn:Eg. pose proof (gzread_pos _ _ _ _ Eg) as Hp1.
  apply gzread_split in Eg as [Hr _]; [|lia].
  destruct (_ && found_ul fl); [done|]. destruct (Z.of_nat (length bh) =? 8) eqn:E8; [|done].
  cbn [negb] in E. bool_to_prop.
  destruct (header_of_bytes bh ltac:(lia)) as (Hty & Htot & Hbh).
  set (ty := le_val (take 4 bh)) in *. set (total := le_val (drop 4 bh)) in *.
  destruct (meta_body stale ty total h fl f1) as [f2 [h' fl'| | | | |]] eqn:Eb; try done.
  destruct (gzread f2 4) as [f3 bt] eqn:Et.
  destruct (Z.of_nat (length bt) =? 4) eqn:E4; [|done]. cbn [negb] in E.
  destruct (le_val bt =? total) eqn:Ev; [|done]. injection E as <-. cbn [fst snd]. bool_to_prop.
  destruct (unknown_block ty) eqn:Eu.
  - rewrite meta_body_unknown, skip_distance in Eb by done.
    destruct (gzseek f1 (total - 12)) as [f4 pos] eqn:Es.
    destruct (s32 pos =? -1) eqn:Ep; [done|]. bool_to_prop.
    injection Eb as <- <- <-. eapply (skip_shrinks h fl f f1 f4 f3 ty total bt pos);
      try done; [by rewrite <- Hbh|lia].
  - apply meta_body_rest in Eb; [|done|done]. apply gzread_split in Et as [Hr2 _]; [|lia].
    left. rewrite Hr, length_app. rewrite Hr2, length_app in Eb. lia.
Qed.
(** An interface list of the current format that has, in front of an entry, the length
    2^32 - 4; the first pass over it does not end. *)
Definition zero_entry_next (st : scap_t * R * found) : Prop :=
  let '(_, f, _) := st in
  exists total readbuf more pif,
    gz_rest f = block_header IL_BLOCK_TYPE_V2 total ++ readbuf ++ more /\
    Z.of_nat (length readbuf) = u32 (total - 12) /\
    pif `suffix_of` readbuf /\ peek pif 0 4 = Some 4294967292.

Lemma meta_body_hangs ty total h fl (f f2 : R) :
  meta_body stale ty total h fl f = (f2, MetaHangs) ->
  ty = IL_BLOCK_TYPE_V2 /\
  exists readbuf pif, gz_rest f = readbuf ++ gz_rest f2 /\ Z.of_nat (length readbuf) = u32 (total - 12) /\
    pif `suffix_of` readbuf /\ peek pif 0 4 = Some 4294967292.
Proof.
  assert (Hno : forall {A} (r : block_result A) k, meta_of r k = MetaHangs -> exists a, k a = MetaHangs)
    by (intros A [a| | |] k E; try done; by exists a).
  unfold meta_body. intros E. do 3 (case_in E; [destruct (_ : R * block_result _) as [f3 r];
    injection E as _ E; by apply Hno in E as [? E]|]).
  case_in E; [destruct (gzseek _ _) as [f3 pos]; injection E as _ E; by case_in E|].
  case_in E.
  - unfold scap_read_iflist in E. destruct (gzread f (u32 (total - 12))) as [f3 rb] eqn:Eg.
    pose proof (u32_range (total - 12)) as Hur. apply gzread_split in Eg as [Hr _]; [|lia].
    destruct (_ =? _) eqn:El; cbn [negb] in E; [|done]. bool_to_prop.
    destruct (parse_iflist_ends_or_hangs (u32 (total - 12)) ty rb) as [[r Hres]|(Hty & (pif & H1 & H2) & _)].
    + rewrite (Hres _ (Nat.lt_succ_diag_r _)) in E. injection E as _ E. by apply Hno in E as [? E].
    + assert (f2 = f3) as -> by (destruct (parse_iflist _ _ _ _); by simplify_eq). split; [done|]. by exists rb, pif.
  - case_in E; [destruct (scap_read_userlist _ _ _) as [f3 r]; injection E as _ E; by apply Hno in E as [? E]|].
    destruct (gzseek _ _) as [f3 pos]. injection E as _ E. by case_in E.
Qed.

Lemma meta_step_hangs st f' : meta_step stale st = inr (f', InitHangs) -> zero_entry_next st.
Proof.
  destruct st as [[h f] fl]. unfold meta_step. intros E.
  destruct (gzread f 8) as [f1 bh] eqn:Eg. apply gzread_split in Eg as [Hr _]; [|lia].
  destruct (_ && found_ul fl); [done|]. destruct (Z.of_nat (length bh) =? 8) eqn:E8; [|done].
  cbn [negb] in E. bool_to_prop. destruct (header_of_bytes bh ltac:(lia)) as (_ & _ & Hbh).
  set (ty := le_val (take 4 bh)) in *. set (total := le_val (drop 4 bh)) in *.
  destruct (meta_body stale ty total h fl f1) as [f2 [h' fl'| | | | |]] eqn:Eb; try done.
  - destruct (gzread f2 4) as [f3 bt]. by repeat case_in E.
  - unfold init_checks in E. by repeat case_in E.
  - apply meta_body_hangs in Eb as (Hty & rb & pif & H1 & H2 & H3 & H4). rewrite Hty in *.
    exists total, rb, (gz_rest f2), pif. split; [|done]. by rewrite Hr, H1, Hbh.
Qed.

(** The blocks the loop gets to, from the handle and the file [scap_read_init] is given. *)
Definition gets_to (h : scap_t) (r : R) (st : scap_t * R * found) : Prop :=
  exists f1 bs, gz_chain [8; 16; 4]%nat r = (f1, bs, true) /\
    rtc (fun x y => meta_step stale x = inl y) (h, f1, mk_found false false false false false) st.
End termination.

(** C36: opening a capture file, of less than 2^31 bytes and without errors of seeking,
    comes to one of four ends.  It returns a handle or a failure code, within as many turns
    of the loop of [scap_read_init] as the file has bytes.  Or it gets to a block of an
    unknown type and length zero behind four zero bytes, and then stays there for ever.  Or
    it gets to an interface list with an entry of length 2^32 - 4, in the first pass over
    which it stays for ever.  Or it gets to a block whose reader leaves its buffer or uses
    memory it has not set.  Each of these states is one the loop reaches. *)
Theorem read_init_ends_or_hangs {R : Type} `{GzSeeker R} (stale : stale_fdinfo) (h : scap_t) (r : R) :
  no_seek_errors (R := R) -> Z.of_nat (length (gz_content R)) < 2147483648 ->
  let ends f' res := forall fuel, (length (gz_content R) < fuel)%nat ->
                       scap_read_init stale fuel h r = Some (f', res) in
  (exists f' h', ends f' (InitSuccess h')) \/
  (exists f' code, ends f' (InitCode code)) \/
  (exists st, gets_to stale h r st /\ meta_stuck (R := R) st /\
     forall fuel, scap_read_init stale fuel h r = None) \/
  (exists st f', gets_to stale h r st /\ zero_entry_next (R := R) st /\ ends f' InitHangs) \/
  (exists st f' res, gets_to stale h r st /\ meta_step stale st = inr (f', res) /\
     (res = InitOverflow \/ res = InitUndefined) /\ ends f' res).
Proof.
  intros Hs Hlen ends. unfold ends, scap_read_init. clear ends.
  destruct (gz_chain [8; 16; 4]%nat r) as [[f1 bs] ok] eqn:Ec. unfold gets_to. rewrite Ec.
  do 4 (case_if; [right; left; do 2 eexists; intros; reflexivity|]).
  assert (ok = true) as -> by (by destruct ok).
  set (st := (h, f1, _)).
  destruct (run_reaches_stuck (meta_step stale) (fun st => length (gz_rest (snd (fst st))))
    meta_stuck (meta_stuck_step stale Hs Hlen) (meta_step_shrinks stale)
    (S (length (gz_content R))) st) as [[[f' res] Hres]|(st' & Hr & Hst & Hn)].
  - cbn [st fst snd]. destruct (gz_rest_pos f1) as [_ ->]. rewrite length_drop. lia.
  - assert (Hends : forall fuel, (length (gz_content R) < fuel)%nat ->
      run (meta_step stale) fuel st = Some (f', res))
      by (intros fuel Hf; eapply run_mono; [done|lia]).
    destruct (run_last _ _ _ _ Hres) as (st' & Hr & Hl).
    destruct res as [h'|code| | |]; [left; eauto|right; left; eauto|..]; do 3 right.
    + right. exists st', f', InitOverflow. eauto 10.
    + right. exists st', f', InitUndefined. eauto 10.
    + left. exists st', f'. split; [eauto|]. split; [by eapply meta_step_hangs|done].
  - right. right. left. exists st'. eauto 10.
Qed.

Lemma read_init_ends_or_hangs_witness :
  exists f' h', forall fuel, (length (gz_content (gz_file sample_file)) < fuel)%nat ->
    scap_read_init sample_stale fuel fresh_handle (gz_open sample_file) = Some (f', InitSuccess h').
Proof.
  assert (Hlen : Z.of_nat (length (gz_content (gz_file sample_file))) < 2147483648)
    by (vm_compute; reflexivity).
  assert (Hok : match scap_read_init sample_stale (S (length (gz_content (gz_file sample_file)))) fresh_handle
    (gz_open sample_file) with Some (_, InitSuccess _) => true | _ => false end = true)
    by (vm_compute; reflexivity).
  pose proof (read_init_ends_or_hangs (R := gz_file sample_file) sample_stale fresh_handle
    (gz_open sample_file) (gz_file_seeks sample_file) Hlen) as Hw.
  destruct Hw as [Hw|[(f' & c & Hw)|[(st & _ & _ & Hw)|[(st & f' & _ & _ & Hw)|(st & f' & x & _ & _ & Hx & Hw)]]]];
    [exact Hw|..]; rewrite Hw in Hok by apply Nat.lt_succ_diag_r; try discriminate Hok.
  destruct Hx as [Hx|Hx]; rewrite Hx in Hok; discriminate Hok.
Defined.

(** A section header whose trailer is zero, and an empty block of type [ty]. *)
Definition looping_file (ty : Z) : list byte :=
  block_header SHB_BLOCK_TYPE 28 ++ section_header ++ le32 0 ++ block_header ty 0.

(** A file of 36 bytes keeps [scap_read_init] busy for ever.  The trailer of
    the section header is read but not checked, so it can be zero; an unknown
    block of length zero behind it is skipped by minus twelve bytes, the trailer
    that is then read is that of the section header, which agrees, and the loop is
    back in front of the same block. *)
Theorem looping_file_hangs (stale : stale_fdinfo) (h : scap_t) (ty : Z) :
  is_u32 ty -> unknown_block ty = true ->
  length (looping_file ty) = 36%nat /\
  forall fuel, scap_read_init stale fuel h (gz_open (looping_file ty)) = None.
Proof.
  intros Hty Hu. split; [done|]. intros fuel. unfold scap_read_init.
  destruct (gz_chain_ok (R := gz_file (looping_file ty))
    [block_header SHB_BLOCK_TYPE 28; section_header; le32 0] (gz_open (looping_file ty))
    (block_header ty 0)) as (f1 & Hch & Hr1); [done|done|].
  change (gz_chain [8; 16; 4]%nat (gz_open (looping_file ty))) with (gz_chain
    (map length [block_header SHB_BLOCK_TYPE 28; section_header; le32 0])
    (gz_open (looping_file ty))).
  pose proof (gz_chain_pos _ _ _ _ _ Hch) as Hp. rewrite Hch. cbn [negb].
  set (bs := concat _).
  change (field bs 0 4) with SHB_BLOCK_TYPE. change (field bs 8 4) with SHB_MAGIC.
  change (field bs 12 2) with CURRENT_MAJOR_VERSION.
  rewrite !Z.eqb_refl, Z.ltb_irrefl. cbn [negb].
  assert (Hlen : Z.of_nat (length (gz_content (gz_file (looping_file ty)))) < 2147483648)
    by (vm_compute; reflexivity).
  apply (stuck_runs _ _ (meta_stuck_step stale (gz_file_seeks (looping_file ty)) Hlen)).
  exists ty, []. rewrite app_nil_r, Hp. do 2 (split; [done|]). split; [vm_compute; discriminate|].
  split; [done|reflexivity].
Qed.

Lemma looping_file_hangs_witness :
  length (looping_file 0) = 36%nat /\
  forall fuel, scap_read_init sample_stale fuel fresh_handle (gz_open (looping_file 0)) = None.
Proof.
  apply (looping_file_hangs sample_stale fresh_handle 0).
  - unfold is_u32. lia.
  - reflexivity.
Defined.
