(* ===== verification/Text.v ===== *)
(** * Character strings of libsinsp

    Strings are lists of bytes, a C string without its terminator.  This file has
    what the parsers share: character classes, search, splitting at a character
    and the decidability instances that make byte strings keys of maps. *)

From Stdlib Require Import ZArith Lia List Bool String.
From Stdlib Require Import Strings.Byte.
From stdpp Require Import base tactics list numbers option countable.
From S2P Require Import Prelude.
Import ListNotations.
Local Open Scope nat_scope.

#[global] Instance text_byte_eq_dec : EqDecision byte.
Proof. intros x y. exact (Byte.byte_eq_dec x y). Defined.

#[global] Instance text_byte_countable : Countable byte :=
  inj_countable Byte.to_N Byte.of_N Byte.of_to_N.

(** A literal. *)
Definition str (s : string) : list byte := list_byte_of_string s.

Definition byte_eqb (x y : byte) : bool := Byte.eqb x y.

Lemma byte_eqb_eq x y : byte_eqb x y = true <-> x = y.
Proof. split; [apply Byte.byte_dec_bl|apply Byte.byte_dec_lb]. Qed.

Lemma byte_eqb_refl x : byte_eqb x x = true.
Proof. by apply byte_eqb_eq. Qed.

Lemma byte_eqb_neq x y : byte_eqb x y = false <-> x <> y.
Proof. rewrite <- byte_eqb_eq. by destruct (byte_eqb x y). Qed.

(** [memchr]: the offset of the first [c]. *)
Fixpoint memchr (c : byte) (s : list byte) : option nat :=
  match s with
  | [] => None
  | x :: s' => if byte_eqb x c then Some O else option_map S (memchr c s')
  end.

Lemma memchr_spec c s :
  match memchr c s with
  | Some n => s = take n s ++ c :: drop (S n) s /\ c ∉ take n s
  | None => c ∉ s
  end.
Proof.
  induction s as [|x s IH]; simpl; [apply not_elem_of_nil|].
  destruct (byte_eqb x c) eqn:E.
  - apply byte_eqb_eq in E as ->. simpl. split; [done|apply not_elem_of_nil].
  - apply byte_eqb_neq in E. destruct (memchr c s) as [n|]; simpl.
    + destruct IH as [Hs Hn]. split; [by f_equal|]. by apply not_elem_of_cons.
    + by apply not_elem_of_cons.
Qed.

Lemma memchr_lt c s n : memchr c s = Some n -> n < length s.
Proof.
  revert n. induction s as [|x s IH]; intros n; simpl; [done|]. case_if; [intros; simplify_eq; lia|].
  destruct (memchr c s) as [m|]; simpl; [|done]. intros. simplify_eq. specialize (IH m eq_refl). lia.
Qed.

(** The pieces between the separators, empty ones included. *)
Fixpoint split_on (c : byte) (s : list byte) : list (list byte) :=
  match s with
  | [] => [[]]
  | x :: s' =>
      match split_on c s' with
      | [] => []
      | w :: ws => if byte_eqb x c then [] :: w :: ws else (x :: w) :: ws
      end
  end.

Lemma split_on_cons c s : exists w ws, split_on c s = w :: ws.
Proof.
  induction s as [|x s (w & ws & IH)]; simpl; [by eauto|]. rewrite IH. case_if; by eauto.
Qed.

Lemma split_on_app c w s :
  c ∉ w -> split_on c (w ++ c :: s) = w :: split_on c s.
Proof.
  induction w as [|x w IH]; intros Hw; simpl.
  - destruct (split_on_cons c s) as (v & vs & ->). by rewrite byte_eqb_refl.
  - apply not_elem_of_cons in Hw as [Hx Hw]. rewrite IH by done.
    by rewrite (proj2 (byte_eqb_neq x c)).
Qed.

Lemma split_on_single c w : c ∉ w -> split_on c w = [w].
Proof.
  induction w as [|x w IH]; intros Hw; simpl; [done|].
  apply not_elem_of_cons in Hw as [Hx Hw]. rewrite IH by done.
  by rewrite (proj2 (byte_eqb_neq x c)).
Qed.

Definition nonempty (s : list byte) : bool := match s with [] => false | _ => true end.

(** The non-empty pieces. *)
Definition words_on (c : byte) (s : list byte) : list (list byte) :=
  List.filter nonempty (split_on c s).
