(* ===== verification/PathSearch.v ===== *)
(** * Prefix search of paths: [libsinsp/prefix_search.h], [prefix_search.cpp]

    The [pmatch] operator of a filter tests a path against a set of paths, each of
    which may be a prefix.  [path_prefix_map] keeps the set as a tree, one level
    for each component, and drops what a shorter path of the set makes
    redundant. *)

From Stdlib Require Import ZArith Lia List Bool String.
From Stdlib Require Import Strings.Byte.
From stdpp Require Import base tactics list numbers option countable gmap.
From S2P Require Import Prelude Text.
Import ListNotations.
Local Open Scope nat_scope.

Definition slash : byte := "/"%byte.

(** ** [split_path] *)

(** The loop, on the bytes from [pos] on. *)
Fixpoint split_loop (fuel : nat) (s : list byte) : list (list byte) :=
  match fuel with
  | O => []
  | S fuel' =>
      match s with
      | [] => []
      | _ =>
          match memchr slash s with
          | Some n =>
              (if Nat.ltb 0 n then [take n s] else []) ++ split_loop fuel' (drop (S n) s)
          | None => [s]
          end
      end
  end.

Definition split_path (path : list byte) : list (list byte) :=
  split_loop (S (length path)) path.

Lemma split_loop_words fuel : forall s, length s < fuel -> split_loop fuel s = words_on slash s.
Proof.
  unfold words_on. induction fuel as [|fuel IH]; intros s Hs; [lia|]. cbn [split_loop].
  destruct s as [|x s]; [done|]. set (l := x :: s) in *.
  pose proof (memchr_spec slash l) as Hm. destruct (memchr slash l) as [n|] eqn:E.
  - destruct Hm as [Hl Hn]. apply memchr_lt in E.
    rewrite IH by (rewrite length_drop; lia). rewrite Hl at 3. rewrite split_on_app by done.
    cbn [List.filter]. destruct n as [|n]; [done|]. by destruct l.
  - rewrite split_on_single by done. done.
Qed.

(** [split_path] cuts a path into its non-empty components. *)
Lemma split_path_words s : split_path s = words_on slash s.
Proof. apply split_loop_words. lia. Qed.

(** ** The tree *)

Section path_prefix_map.
Context {V : Type}.

(** An entry of [m_dirs] has a subtree, or the value of a path that ends there. *)
Inductive path_prefix_map : Type :=
| PPM (m_dirs : gmap (list byte) (option path_prefix_map * option V)).

Definition m_dirs (t : path_prefix_map) := match t with PPM d => d end.

Definition ppm_empty : path_prefix_map := PPM ∅.

(** [add_search_path_components], at the component [c] with [cs] behind it. *)
Fixpoint add_components (cs : list (list byte)) (c : list byte) (v : V) (t : path_prefix_map) :
    path_prefix_map :=
  match m_dirs t !! c with
  | None =>
      PPM (<[c := match cs with
                  | [] => (None, Some v)
                  | c' :: cs' => (Some (add_components cs' c' v ppm_empty), None)
                  end]> (m_dirs t))
  | Some (subtree, val) =>
      match cs with
      | [] => PPM (<[c := (None, Some v)]> (delete c (m_dirs t)))
      | c' :: cs' =>
          match subtree with
          | None => t
          | Some s => PPM (<[c := (Some (add_components cs' c' v s), val)]> (m_dirs t))
          end
      end
  end.

(** [match_components]; [None] is the null pointer. *)
Fixpoint match_components (cs : list (list byte)) (c : list byte) (t : path_prefix_map) :
    option V :=
  match m_dirs t !! c with
  | None => None
  | Some (subtree, val) =>
      match cs with
      | [] => match subtree with None => val | Some _ => None end
      | c' :: cs' =>
          match subtree with None => val | Some s => match_components cs' c' s end
      end
  end.

(** The dummy component in front of every path. *)
Definition root : list byte := str "root".

Definition add_search_path (path : list byte) (v : V) (t : path_prefix_map) : path_prefix_map :=
  add_components (split_path path) root v t.

Definition ppm_match (path : list byte) (t : path_prefix_map) : option V :=
  match_components (split_path path) root t.

(** The entry that decides a match, with the number of components it takes. *)
Fixpoint hit (cs : list (list byte)) (c : list byte) (t : path_prefix_map) :
    option (nat * option V) :=
  match m_dirs t !! c with
  | None => None
  | Some (None, val) => Some (1, val)
  | Some (Some s, _) =>
      match cs with
      | [] => None
      | c' :: cs' => option_map (fun p => (S (fst p), snd p)) (hit cs' c' s)
      end
  end.

Lemma match_hit cs : forall c t, match_components cs c t = hit cs c t ≫= snd.
Proof.
  induction cs as [|c' cs IH]; intros c t; simpl; destruct (m_dirs t !! c) as [[[s|] v]|];
    try done. rewrite IH. by destruct (hit cs c' s) as [[]|].
Qed.

(** What an added path changes: the paths it is a prefix of are decided by it,
    unless a shorter path decides them already. *)
Definition better (n : nat) (v : V) (old : option (nat * option V)) : option (nat * option V) :=
  match old with
  | Some (d, w) => if Nat.ltb d n then Some (d, w) else Some (n, Some v)
  | None => Some (n, Some v)
  end.

Lemma hit_empty cs c : hit cs c ppm_empty = None.
Proof. destruct cs; done. Qed.

(** [hit] only looks at the entry of its first component. *)
Definition hit_at (cs : list (list byte)) (e : option (option path_prefix_map * option V)) :
    option (nat * option V) :=
  match e with
  | None => None
  | Some (None, val) => Some (1, val)
  | Some (Some s, _) =>
      match cs with
      | [] => None
      | c' :: cs' => option_map (fun p => (S (fst p), snd p)) (hit cs' c' s)
      end
  end.

Lemma hit_unfold cs c t : hit cs c t = hit_at cs (m_dirs t !! c).
Proof. destruct cs; reflexivity. Qed.

Lemma dirs_add_ne ps p v t c : c <> p -> m_dirs (add_components ps p v t) !! c = m_dirs t !! c.
Proof.
  intros Hc. destruct ps; simpl; destruct (m_dirs t !! p) as [[[s|] w]|]; simpl;
    rewrite ?lookup_insert_ne, ?lookup_delete_ne by done; done.
Qed.

Lemma better_step n v o :
  better (S n) v (option_map (fun p => (S (fst p), snd p)) o) =
    option_map (fun p => (S (fst p), snd p)) (better n v o).
Proof. destruct o as [[d w]|]; [|done]. simpl. change (Nat.ltb (S d) (S n)) with (Nat.ltb d n). by case_if. Qed.

Lemma hit_add ps : forall p v t cs c,
  hit cs c (add_components ps p v t) =
    if decide (p :: ps `prefix_of` c :: cs) then better (S (length ps)) v (hit cs c t)
    else hit cs c t.
Proof.
  induction ps as [|p' ps IH]; intros p v t cs c;
    (destruct (decide (c = p)) as [->|Hc];
     [|rewrite !hit_unfold, dirs_add_ne by done; rewrite decide_False; [done|];
       intros Hp; by apply prefix_cons_inv_1 in Hp]).
  - rewrite decide_True by apply prefix_cons, prefix_nil.
    rewrite !hit_unfold. simpl add_components.
    destruct (m_dirs t !! p) as [[[s|] w]|]; simpl; rewrite lookup_insert_eq; simpl; [|done|done].
    destruct cs as [|c' cs]; [done|]. by destruct (hit cs c' s) as [[]|].
  - rewrite !hit_unfold. simpl add_components.
    assert (Hsub : forall s, hit_at cs (Some (Some (add_components ps p' v s), @None V)) =
      if decide (p :: p' :: ps `prefix_of` p :: cs)
      then better (S (S (length ps))) v (hit_at cs (Some (Some s, @None V)))
      else hit_at cs (Some (Some s, @None V))).
    { intros s. destruct cs as [|c' cs]; simpl.
      - rewrite decide_False; [done|]. intros Hp. apply prefix_cons_inv_2 in Hp. by apply prefix_nil_inv in Hp.
      - rewrite IH. destruct (decide (p' :: ps `prefix_of` c' :: cs)) as [Hp|Hp].
        + rewrite decide_True by (by apply prefix_cons). symmetry. apply better_step.
        + rewrite decide_False; [done|]. intros Hq. apply Hp. by apply prefix_cons_inv_2 in Hq. }
    destruct (m_dirs t !! p) as [[[s|] w]|] eqn:E; simpl m_dirs.
    + rewrite lookup_insert_eq. exact (Hsub s).
    + rewrite E. by case_if.
    + rewrite lookup_insert_eq, Hsub. destruct cs as [|c' cs]; simpl; [done|].
      by rewrite hit_empty.
Qed.

(** ** The set of paths *)

(** What the search promises of the paths that were added, in order: the
    shortest of those that are a prefix decides, and of equal ones the last. *)
Definition step_best (q : list (list byte)) (best : option (nat * option V))
    (a : list byte * V) : option (nat * option V) :=
  let cs := root :: words_on slash (fst a) in
  if decide (cs `prefix_of` root :: q) then better (length cs) (snd a) best else best.

Definition add_all (l : list (list byte * V)) (t : path_prefix_map) : path_prefix_map :=
  foldl (fun t a => add_search_path (fst a) (snd a) t) t l.

Definition best_prefix (l : list (list byte * V)) (q : list (list byte)) : option (nat * option V) :=
  foldl (step_best q) None l.

Lemma hit_add_all l : forall t q,
  hit q root (add_all l t) = foldl (step_best q) (hit q root t) l.
Proof.
  induction l as [|a l IH]; intros t q; simpl; [done|]. rewrite IH. f_equal.
  unfold add_search_path, step_best. rewrite split_path_words. apply hit_add.
Qed.

(** The components of a path are a prefix of [q]. *)
Definition leads (q : list (list byte)) (a : list byte * V) : Prop :=
  words_on slash (fst a) `prefix_of` q.

(** [a] is the path that decides [q] among [l]. *)
Definition decides (q : list (list byte)) (l : list (list byte * V)) (a : list byte * V) : Prop :=
  exists l1 l2, l = l1 ++ a :: l2 /\ leads q a /\
    (forall b, b ∈ l1 -> leads q b ->
       length (words_on slash (fst a)) <= length (words_on slash (fst b))) /\
    (forall b, b ∈ l2 -> leads q b ->
       length (words_on slash (fst a)) < length (words_on slash (fst b))).

Lemma decides_last q l a :
  leads q a ->
  (forall b, b ∈ l -> leads q b ->
     length (words_on slash (fst a)) <= length (words_on slash (fst b))) ->
  decides q (l ++ [a]) a.
Proof.
  intros Ha Hl. exists l, []. split_and!; [done|done|done|]. intros b Hb. by apply elem_of_nil in Hb.
Qed.

Lemma best_prefix_spec q l :
  match best_prefix l q with
  | Some (d, w) =>
      exists a, decides q l a /\ w = Some (snd a) /\ d = S (length (words_on slash (fst a)))
  | None => forall b, b ∈ l -> ~ leads q b
  end.
Proof.
  induction l as [|a l IH] using rev_ind; [intros b Hb; by apply elem_of_nil in Hb|].
  unfold best_prefix in *. rewrite foldl_snoc. set (best := foldl _ _ _) in *. unfold step_best.
  assert (Hp : root :: words_on slash (fst a) `prefix_of` root :: q <-> leads q a)
    by (split; [apply prefix_cons_inv_2|apply prefix_cons]).
  destruct (decide _) as [Ha|Ha]; rewrite Hp in Ha.
  - destruct best as [[d w]|]; simpl.
    + destruct IH as (b & Hb & -> & ->). destruct (Nat.ltb _ _) eqn:El.
      * exists b. split; [|done]. destruct Hb as (l1 & l2 & -> & Hb & H1 & H2).
        exists l1, (l2 ++ [a]). split_and!; [by rewrite <- app_assoc|done|done|].
        intros c [Hc|Hc%list_elem_of_singleton]%elem_of_app Hc'; [by apply H2|]. subst.
        apply Nat.ltb_lt in El. simpl in El. lia.
      * exists a. split; [|done]. apply decides_last; [done|]. intros c Hc Hc'.
        apply Nat.ltb_ge in El. simpl in El. destruct Hb as (l1 & l2 & -> & _ & H1 & H2).
        apply elem_of_app in Hc as [Hc|[->|Hc]%elem_of_cons]; [|lia|].
        -- specialize (H1 c Hc Hc'). lia.
        -- specialize (H2 c Hc Hc'). lia.
    + exists a. split; [|done]. apply decides_last; [done|]. intros c Hc Hc'. by destruct (IH c Hc).
  - destruct best as [[d w]|].
    + destruct IH as (b & (l1 & l2 & -> & Hb & H1 & H2) & -> & ->). exists b. split; [|done].
      exists l1, (l2 ++ [a]). split_and!; [by rewrite <- app_assoc|done|done|].
      intros c [Hc|Hc%list_elem_of_singleton]%elem_of_app Hc'; [by apply H2|]. by subst.
    + intros b [Hb|Hb%list_elem_of_singleton]%elem_of_app; [by apply IH|]. by subst.
Qed.

Lemma ppm_match_best l path :
  ppm_match path (add_all l ppm_empty) = best_prefix l (words_on slash path) ≫= snd.
Proof. unfold ppm_match. by rewrite match_hit, split_path_words, hit_add_all, hit_empty. Qed.

(** Whether there is a match. *)
Lemma ppm_match_some l path :
  is_Some (ppm_match path (add_all l ppm_empty)) <-> exists a, a ∈ l /\ leads (words_on slash path) a.
Proof.
  rewrite ppm_match_best. pose proof (best_prefix_spec (words_on slash path) l) as Hb.
  destruct (best_prefix _ _) as [[d w]|]; simpl.
  - destruct Hb as (a & (l1 & l2 & -> & Ha & _) & -> & _). split; [|by eauto].
    intros _. exists a. split; [|done]. apply elem_of_app. right. left.
  - split; [by intros [? ?]|]. intros (a & Ha & Hl). by destruct (Hb a Ha).
Qed.

(** C24: the prefix search.  After any sequence of additions a path matches exactly
    when the components of some added path are a prefix of its own, and the value
    that is found is that of the shortest such path, of the last one added if
    there are several: neither the subtrees that are dropped nor the paths that
    are not stored change an answer. *)
Theorem path_match_spec (l : list (list byte * V)) (path : list byte) :
  match ppm_match path (add_all l ppm_empty) with
  | Some v => exists a, decides (words_on slash path) l a /\ snd a = v
  | None => forall a, a ∈ l -> ~ words_on slash (fst a) `prefix_of` words_on slash path
  end.
Proof.
  rewrite ppm_match_best. pose proof (best_prefix_spec (words_on slash path) l) as Hb.
  destruct (best_prefix _ _) as [[d w]|]; simpl; [|done].
  destruct Hb as (a & Ha & -> & _). by exists a.
Qed.
End path_prefix_map.

Arguments path_prefix_map : clear implicits.

(** The examples of [prefix_search.h]. *)
Definition doc_paths : path_prefix_map bool :=
  add_all (map (fun p => (str p, true)) ["/var/run"; "/etc"; "/lib"; "/usr/lib"]%string) ppm_empty.

Example doc_examples :
  map (fun p => ppm_match (str p) doc_paths)
    ["/var/run/docker"; "/boot"; "/var/lib/messages"; "/var"]%string = [Some true; None; None; None].
Proof. vm_compute. reflexivity. Qed.
