(* ===== verification/Paths.v ===== *)
(** * Joining paths: [concatenate_paths] of [libsinsp/utils.cpp]

    The names of files in events are relative to the directory of the process;
    libsinsp joins the two and removes [.], [..] and repeated separators while
    copying.  The bytes written so far are kept in reverse, so that the head of
    the list is [tc[-1]] and its length is [tc - targetbase]. *)

From Stdlib Require Import ZArith Lia List Bool String.
From Stdlib Require Import Strings.Byte.
From stdpp Require Import base tactics list numbers option.
From S2P Require Import Prelude Bytes Text.
Import ListNotations.
Local Open Scope Z_scope.

Local Notation last_of := list.last.

Definition dot : byte := "."%byte.
Definition fslash : byte := "/"%byte.
Definition backslash : byte := "092"%byte.

(** [g_invalidchar]: not printable ASCII. *)
Definition invalidchar (c : byte) : bool :=
  let v := Z.of_N (Byte.to_N c) in (v <? 32) || (126 <? v).

(** What a copy leads to: the string in the target, a write past its end, or a
    read in front of it. *)
Inductive path_result : Type :=
| PathDone (s : list byte)
| PathOverrun
| PathUnderrun.

(** The loop of [rewind_to_parent_path]; it looks at [tc[-1]] before it compares
    [tc] with the base. *)
Fixpoint rewind_loop (tc : list byte) : option (list byte) :=
  match tc with
  | [] => None
  | c :: tc' => if byte_eqb c fslash then Some tc else rewind_loop tc'
  end.

(** [rewind_to_parent_path], [None] for a read in front of the target. *)
Definition rewind_to_parent_path (tc : list byte) : option (list byte) :=
  match tc with
  | [] | [_] => Some tc
  | _ :: tc' => rewind_loop tc'
  end.

Section copy.
Context (targetlen : Z) (separator : byte).

(** The end of the loop: the terminator, and the separator in front of it. *)
Definition finish (tc : list byte) : path_result :=
  if targetlen <=? Z.of_nat (length tc) then PathOverrun
  else
    match tc with
    | c :: ((_ :: _) as tc') => PathDone (rev (if byte_eqb c separator then tc' else tc))
    | _ => PathDone (rev tc)
    end.

(** [*tc = c; tc++;] *)
Definition put (c : byte) (tc : list byte) (next : list byte -> path_result) : path_result :=
  if targetlen <=? Z.of_nat (length tc) then PathOverrun else next (c :: tc).

Definition rewind (tc : list byte) (next : list byte -> path_result) : path_result :=
  match rewind_to_parent_path tc with Some tc' => next tc' | None => PathUnderrun end.

(** [copy_and_sanitize_path] *)
Fixpoint copy_and_sanitize_path (pc tc : list byte) : path_result :=
  match pc with
  | [] => finish tc
  | c :: pc1 =>
      if invalidchar c then put dot tc (copy_and_sanitize_path pc1)
      else if byte_eqb c dot then
        match pc1 with
        | [] => copy_and_sanitize_path pc1 tc
        | d :: pc2 =>
            if byte_eqb d dot then
              match pc2 with
              | [] => rewind tc (copy_and_sanitize_path pc2)
              | e :: pc3 =>
                  if byte_eqb e separator then rewind tc (copy_and_sanitize_path pc3)
                  else put dot tc (fun tc' => put dot tc' (copy_and_sanitize_path pc2))
              end
            else if byte_eqb d separator then copy_and_sanitize_path pc2 tc
            else put c tc (copy_and_sanitize_path pc1)
        end
      else if byte_eqb c separator then
        match tc with
        | l :: _ => if byte_eqb l separator then copy_and_sanitize_path pc1 tc
                    else put c tc (copy_and_sanitize_path pc1)
        | [] => put c tc (copy_and_sanitize_path pc1)
        end
      else put c tc (copy_and_sanitize_path pc1)
  end.
End copy.

(** [concatenate_paths]; the result is [false] for an absolute [path2]. *)
Definition concatenate_paths (targetlen : Z) (path1 path2 : list byte) (windows_paths : bool) :
    path_result * bool :=
  let len1 := Z.of_nat (length path1) in
  let len2 := Z.of_nat (length path2) in
  if targetlen <? u32 (len1 + len2 + 1) then
    (if targetlen <? 15 then PathOverrun else PathDone (str "/PATH_TOO_LONG"), false)
  else if windows_paths then
    if match path2 with
       | [] => false
       | c :: rest => negb (byte_eqb c backslash) && negb (byte_eqb (List.hd x00 rest) ":"%byte)
       end
    then (copy_and_sanitize_path targetlen backslash path2 (rev path1), true)
    else (copy_and_sanitize_path targetlen backslash path2 [], false)
  else
    if match path2 with [] => false | c :: _ => negb (byte_eqb c fslash) end
    then (copy_and_sanitize_path targetlen fslash path2 (rev path1), true)
    else (copy_and_sanitize_path targetlen fslash path2 [], false).

(** ** What a joined path is *)

(** A directory is the list of its components; [render_dir] is the string libsinsp
    keeps for the directory of a process, which ends in a separator. *)
Definition render_dir (cs : list (list byte)) : list byte :=
  fslash :: concat (map (fun w => w ++ [fslash]) cs).

(** The name of a file, without it. *)
Definition render_path (cs : list (list byte)) : list byte :=
  match cs with [] => [fslash] | _ => concat (map (cons fslash) cs) end.

(** A component of a path moves in the tree as it does for the system. *)
Definition walk (cs : list (list byte)) (w : list byte) : list (list byte) :=
  if decide (w = []) then cs
  else if decide (w = [dot]) then cs
  else if decide (w = [dot; dot]) then removelast cs
  else cs ++ [w].

(** A name: printable, and its last character is not a dot. *)
Definition plain (w : list byte) : Prop :=
  w <> [] /\ fslash ∉ w /\ Forall (fun c => invalidchar c = false) w /\ last_of w <> Some dot.

Definition component_ok (w : list byte) : Prop :=
  w = [] \/ w = [dot] \/ w = [dot; dot] \/ plain w.

Fixpoint join (ws : list (list byte)) : list byte :=
  match ws with
  | [] => []
  | [w] => w
  | w :: ws' => w ++ fslash :: join ws'
  end.

Lemma join_cons w ws : ws <> [] -> join (w :: ws) = w ++ fslash :: join ws.
Proof. by destruct ws. Qed.

Lemma join_split s : join (split_on fslash s) = s.
Proof.
  induction s as [|x s IH]; simpl; [done|].
  destruct (split_on_cons fslash s) as (w & ws & E). rewrite E in *.
  destruct (byte_eqb x fslash) eqn:Ex.
  - apply byte_eqb_eq in Ex as ->. rewrite <- IH. done.
  - destruct ws; simpl in *; by rewrite <- IH.
Qed.

Lemma render_dir_snoc cs w : render_dir (cs ++ [w]) = render_dir cs ++ w ++ [fslash].
Proof. unfold render_dir. rewrite map_app, concat_app. simpl. by rewrite app_nil_r. Qed.

Lemma render_path_snoc cs w : render_path (cs ++ [w]) = render_dir cs ++ w.
Proof.
  assert (Hc : forall cs, fslash :: concat (map (fun w => w ++ [fslash]) cs) =
    concat (map (cons fslash) cs) ++ [fslash]).
  { clear. induction cs as [|c cs IH]; simpl; [done|]. rewrite <- (app_assoc c).
    simpl. rewrite <- app_assoc. f_equal. f_equal. apply IH. }
  unfold render_path, render_dir. rewrite Hc.
  destruct (cs ++ [w]) eqn:E; [by destruct cs|]. rewrite <- E, map_app, concat_app. simpl.
  rewrite app_nil_r, <- app_assoc. done.
Qed.

Lemma rev_render_dir cs : exists tc, rev (render_dir cs) = fslash :: tc.
Proof.
  destruct cs as [|w cs _] using rev_ind; [by exists []|].
  rewrite render_dir_snoc, app_assoc, rev_app_distr. by eexists.
Qed.

(** ** Copying one component *)

Section steps.
Context (targetlen : Z).

Local Notation copy := (copy_and_sanitize_path targetlen fslash).

Lemma put_room c tc next :
  Z.of_nat (length tc) < targetlen -> put targetlen c tc next = next (c :: tc).
Proof. intros H. unfold put. by rewrite (proj2 (Z.leb_gt _ _)). Qed.

Lemma copy_plain n : forall w rest tc,
  (length w <= n)%nat -> fslash ∉ w -> Forall (fun c => invalidchar c = false) w ->
  last_of w <> Some dot -> Z.of_nat (length tc + length w) <= targetlen ->
  copy (w ++ rest) tc = copy rest (rev w ++ tc).
Proof.
  induction n as [|n IH]; intros w rest tc Hn Hs Hp Hl Hr.
  { destruct w; [done|simpl in Hn; lia]. }
  destruct w as [|c w]; [done|]. simpl in Hn, Hr. rewrite <- app_comm_cons. cbn [rev].
  apply not_elem_of_cons in Hs as [Hc Hs]. apply Forall_cons_1 in Hp as [Hpc Hp].
  assert (Hstep : last_of w <> Some dot -> put targetlen c tc (copy (w ++ rest)) =
    copy rest ((rev w ++ [c]) ++ tc)).
  { intros Hl'. rewrite put_room by lia. rewrite IH by (try done; simpl; lia).
    by rewrite <- app_assoc. }
  cbn [copy_and_sanitize_path]. rewrite Hpc.
  destruct (byte_eqb c dot) eqn:Ed.
  - apply byte_eqb_eq in Ed as ->. destruct w as [|d w]; [done|]. rewrite <- app_comm_cons.
    apply not_elem_of_cons in Hs as [Hd Hs]. rewrite last_cons_cons in Hl.
    destruct (byte_eqb d dot) eqn:Ed.
    + apply byte_eqb_eq in Ed as ->. destruct w as [|e w]; [done|]. rewrite <- app_comm_cons.
      assert (He : byte_eqb e fslash = false) by (apply byte_eqb_neq; by apply not_elem_of_cons in Hs as [? _]).
      rewrite He, !put_room by (simpl in *; lia). rewrite app_comm_cons.
      apply Forall_cons_1 in Hp as [_ Hp].
      rewrite (IH (e :: w)) by (try done; simpl in *; lia).
      cbn [rev]. by rewrite <- !app_assoc.
    + rewrite (proj2 (byte_eqb_neq d fslash)) by done. apply Hstep. done.
  - rewrite (proj2 (byte_eqb_neq c fslash)) by done. apply Hstep.
    destruct w; [done|]. by rewrite last_cons_cons in Hl.
Qed.

Lemma copy_separator rest cs :
  copy (fslash :: rest) (rev (render_dir cs)) = copy rest (rev (render_dir cs)).
Proof. destruct (rev_render_dir cs) as [tc ->]. reflexivity. Qed.

Lemma rewind_loop_app w tc : fslash ∉ w -> rewind_loop (w ++ fslash :: tc) = Some (fslash :: tc).
Proof.
  induction w as [|c w IH]; intros Hw; [done|]. apply not_elem_of_cons in Hw as [Hc Hw]. simpl.
  rewrite (proj2 (byte_eqb_neq c fslash)) by done. by apply IH.
Qed.

Lemma rewind_parent cs :
  Forall (fun w => fslash ∉ w) cs ->
  rewind_to_parent_path (rev (render_dir cs)) = Some (rev (render_dir (removelast cs))).
Proof.
  destruct cs as [|w cs _] using rev_ind; [done|]. intros [_ Hw]%Forall_app.
  apply Forall_cons_1 in Hw as [Hw _]. rewrite removelast_last, render_dir_snoc, app_assoc.
  rewrite rev_app_distr. cbn [rev app]. rewrite rev_app_distr.
  destruct (rev_render_dir cs) as [tc Htc]. rewrite Htc.
  unfold rewind_to_parent_path. destruct (rev w ++ fslash :: tc) eqn:E; [by destruct (rev w)|].
  rewrite <- E. apply rewind_loop_app. by rewrite list_elem_of_In, <- in_rev, <- list_elem_of_In.
Qed.
End steps.

(** ** Joining *)

Section joining.
Context (targetlen : Z).

Local Notation copy := (copy_and_sanitize_path targetlen fslash).

Lemma walk_plain cs w : plain w -> walk cs w = cs ++ [w].
Proof.
  intros (Hn & _ & _ & Hl). unfold walk. rewrite !decide_False; [done|..]; intros ->; done.
Qed.

Lemma walk_slashes cs w :
  component_ok w -> Forall (fun w => fslash ∉ w) cs -> Forall (fun w => fslash ∉ w) (walk cs w).
Proof.
  intros Hw Hcs. unfold walk. repeat case_decide; try done.
  - destruct cs as [|v cs _] using rev_ind; [done|]. rewrite removelast_last.
    by apply Forall_app in Hcs as [? _].
  - apply Forall_app. split; [done|]. apply Forall_singleton.
    destruct Hw as [?|[?|[?|(_ & ? & _)]]]; done.
Qed.

Lemma plain_last w : plain w -> exists l r, rev w = l :: r /\ byte_eqb l fslash = false.
Proof.
  intros (Hn & Hs & _). destruct (rev w) as [|l r] eqn:E.
  - apply (f_equal (@length byte)) in E. rewrite length_rev in E. by destruct w.
  - exists l, r. split; [done|]. apply byte_eqb_neq. intros ->. apply Hs.
    rewrite list_elem_of_In, in_rev, E. by left.
Qed.

(** A component and the separator behind it. *)
Lemma copy_component cs w rest :
  component_ok w -> Forall (fun w => fslash ∉ w) cs ->
  Z.of_nat (length (render_dir cs) + length w) < targetlen ->
  copy (w ++ fslash :: rest) (rev (render_dir cs)) = copy rest (rev (render_dir (walk cs w))).
Proof.
  intros [->|[->|[->|Hw]]] Hcs Hr.
  - apply copy_separator.
  - reflexivity.
  - cbn [app]. cbn [copy_and_sanitize_path]. unfold rewind. by rewrite rewind_parent.
  - rewrite walk_plain by done. destruct (plain_last w Hw) as (l & r & Hlr & Hlf).
    destruct Hw as (_ & Hs & Hp & Hl).
    rewrite (copy_plain targetlen (length w)) by (try done; rewrite ?length_rev; lia).
    rewrite render_dir_snoc, app_assoc, rev_app_distr. cbn [rev app].
    rewrite rev_app_distr. cbn [copy_and_sanitize_path].
    change (invalidchar fslash) with false. change (byte_eqb fslash dot) with false.
    rewrite byte_eqb_refl, Hlr. cbn [app]. rewrite Hlf.
    apply put_room. rewrite app_comm_cons, <- Hlr, length_app, !length_rev. lia.
Qed.

Lemma finish_dir cs :
  Z.of_nat (length (render_dir cs)) < targetlen ->
  finish targetlen fslash (rev (render_dir cs)) = PathDone (render_path cs).
Proof.
  intros Hr. unfold finish. rewrite length_rev, (proj2 (Z.leb_gt _ _)) by done.
  destruct cs as [|w cs _] using rev_ind; [done|].
  rewrite render_path_snoc, render_dir_snoc, app_assoc, rev_app_distr. cbn [rev app].
  destruct (rev (render_dir cs ++ w)) as [|x r] eqn:E.
  - apply (f_equal length) in E. rewrite length_rev, length_app in E. simpl in E. lia.
  - by rewrite byte_eqb_refl, <- E, rev_involutive.
Qed.

Lemma length_walk cs w :
  (length (render_dir (walk cs w)) <= length (render_dir cs) + length w + 1)%nat.
Proof.
  unfold walk. repeat case_decide; try lia.
  - destruct cs as [|v cs _] using rev_ind; [simpl; lia|].
    rewrite removelast_last, render_dir_snoc, !length_app. lia.
  - rewrite render_dir_snoc, !length_app. simpl. lia.
Qed.

(** The last component. *)
Lemma copy_last cs w :
  component_ok w -> Forall (fun w => fslash ∉ w) cs ->
  Z.of_nat (length (render_dir cs) + length w) < targetlen ->
  copy w (rev (render_dir cs)) = PathDone (render_path (walk cs w)).
Proof.
  intros [->|[->|[->|Hw]]] Hcs Hr.
  - apply (finish_dir cs). lia.
  - apply (finish_dir cs). lia.
  - cbn [copy_and_sanitize_path]. unfold rewind. rewrite rewind_parent by done.
    apply (finish_dir (removelast cs)). pose proof (length_walk cs [dot; dot]) as Hl.
    change (walk cs [dot; dot]) with (removelast cs) in Hl.
    destruct cs as [|v cs _] using rev_ind; [simpl in *; lia|].
    rewrite removelast_last. rewrite render_dir_snoc, !length_app in Hr. lia.
  - rewrite walk_plain by done. destruct (plain_last w Hw) as (l & r & Hlr & Hlf).
    destruct Hw as (_ & Hs & Hp & Hl).
    rewrite <- (app_nil_r w), (copy_plain targetlen (length w))
      by (try done; rewrite ?length_rev; lia).
    cbn [copy_and_sanitize_path]. unfold finish.
    rewrite length_app, !length_rev, (proj2 (Z.leb_gt _ _)) by lia.
    rewrite app_nil_r, render_path_snoc, <- (rev_involutive (render_dir cs ++ w)).
    destruct (rev_render_dir cs) as [tc Htc]. rewrite Hlr, Htc. cbn [app].
    destruct (r ++ fslash :: tc) eqn:E; [by destruct r|]. by rewrite Hlf, rev_app_distr, Hlr, Htc, <- E.
Qed.

(** The whole path, as the list of its components. *)
Lemma copy_join ws : forall cs,
  ws <> [] -> Forall component_ok ws -> Forall (fun w => fslash ∉ w) cs ->
  Z.of_nat (length (render_dir cs) + length (join ws)) < targetlen ->
  copy (join ws) (rev (render_dir cs)) = PathDone (render_path (foldl walk cs ws)).
Proof.
  induction ws as [|w ws IH]; intros cs Hne Hok Hcs Hr; [done|].
  apply Forall_cons_1 in Hok as [Hw Hok]. destruct ws as [|v ws]; [by apply copy_last|].
  rewrite join_cons in * by done. rewrite length_app in Hr. cbn [length] in Hr.
  pose proof (length_walk cs w). rewrite copy_component by (done || lia). cbn [foldl].
  apply IH; [done|done|by apply walk_slashes|lia].
Qed.
End joining.

(** The directory that a path starts from. *)
Definition start_dir (cwd : list (list byte)) (path : list byte) : list (list byte) :=
  match path with c :: _ => if byte_eqb c fslash then [] else cwd | [] => [] end.

Definition is_relative (path : list byte) : bool :=
  match path with c :: _ => negb (byte_eqb c fslash) | [] => false end.

(** C25: joining the directory of a process with the path of a system call gives the
    file the system call names: the components of the path are walked one after
    the other, from the root for an absolute path, [.] and empty ones staying and
    [..] going up and stopping at the root, and the result is the name of the
    place that is reached.  This holds for paths of printable components none of
    which, other than [.] and [..], ends in a dot, when the target has room. *)
Theorem concatenate_paths_walks (targetlen : Z) (cwd : list (list byte)) (path : list byte) :
  Forall (fun w => fslash ∉ w) cwd -> Forall component_ok (split_on fslash path) ->
  path <> [] -> Z.of_nat (length (render_dir cwd) + length path) < targetlen < 4294967296 ->
  concatenate_paths targetlen (render_dir cwd) path false =
    (PathDone (render_path (foldl walk (start_dir cwd path) (split_on fslash path))),
     is_relative path).
Proof.
  intros Hcwd Hok Hne Hr. unfold concatenate_paths.
  rewrite u32_small, (proj2 (Z.ltb_ge _ _)) by lia.
  destruct path as [|c path]; [done|]. unfold start_dir, is_relative.
  destruct (split_on_cons fslash path) as (w & ws & E).
  destruct (byte_eqb c fslash) eqn:Ec; cbn [negb]; f_equal.
  - apply byte_eqb_eq in Ec as ->. cbn [copy_and_sanitize_path].
    change (invalidchar fslash) with false. change (byte_eqb fslash dot) with false.
    rewrite byte_eqb_refl, put_room by (simpl in *; lia). cbn [split_on] in *. rewrite E in *.
    rewrite byte_eqb_refl in *. apply Forall_cons_1 in Hok as [_ Hok]. cbn [foldl].
    change (walk [] []) with (@nil (list byte)). rewrite <- (join_split path) at 1. rewrite E.
    apply (copy_join targetlen (w :: ws) []); [done|done|done|].
    rewrite <- E, join_split. simpl in *. lia.
  - rewrite <- (join_split (c :: path)) at 1. apply copy_join; [|done|done|].
    + cbn [split_on]. rewrite E. by case_if.
    + rewrite join_split. lia.
Qed.

(** The conditions, decided. *)
Definition no_slashb (w : list byte) : bool := forallb (fun c => negb (byte_eqb c fslash)) w.

Definition componentb (w : list byte) : bool :=
  bool_decide (w = []) || bool_decide (w = [dot]) || bool_decide (w = [dot; dot])
  || (forallb (fun c => negb (invalidchar c)) w && no_slashb w
      && negb (bool_decide (w = [])) && bool_decide (last_of w <> Some dot)).

Lemma no_slashb_ok w : no_slashb w = true -> fslash ∉ w.
Proof.
  unfold no_slashb. rewrite forallb_forall. intros Hw Hin. apply list_elem_of_In in Hin.
  by apply Hw in Hin.
Qed.

Lemma componentb_ok w : componentb w = true -> component_ok w.
Proof.
  unfold componentb, component_ok. rewrite !orb_true_iff, !bool_decide_eq_true.
  intros [[[?|?]|?]|H]; [tauto..|]. do 3 right. rewrite !andb_true_iff in H.
  destruct H as [[[Hp Hs] Hn] Hl]. rewrite forallb_forall in Hp. split_and!.
  - intros ->. done.
  - by apply no_slashb_ok.
  - apply Forall_forall. intros c Hc. apply Hp in Hc. by apply negb_true_iff.
  - by apply bool_decide_eq_true in Hl.
Qed.

Lemma Forall_componentb ws : forallb componentb ws = true -> Forall component_ok ws.
Proof.
  rewrite forallb_forall. intros H. apply Forall_forall. intros w Hw.
  by apply componentb_ok, H.
Qed.

Lemma concatenate_paths_walks_witness :
  concatenate_paths 1024 (render_dir [str "usr"; str "lib"]) (str "../.local//a..b/./c/") false =
    (PathDone (str "/usr/.local/a..b/c"), true).
Proof.
  rewrite (concatenate_paths_walks 1024 [str "usr"; str "lib"] (str "../.local//a..b/./c/")).
  - vm_compute. reflexivity.
  - repeat constructor; by apply no_slashb_ok.
  - by apply Forall_componentb.
  - done.
  - vm_compute. done.
Defined.

(** ** The target *)

(** The target starts with a separator. *)
Definition anchored (tc : list byte) : Prop := exists t, tc = t ++ [fslash].

Lemma rewind_anchored tc :
  anchored tc -> exists tc', rewind_to_parent_path tc = Some tc' /\ anchored tc' /\
    (length tc' <= length tc)%nat.
Proof.
  assert (Hloop : forall tc, anchored tc -> exists tc', rewind_loop tc = Some tc' /\ anchored tc' /\
    (length tc' <= length tc)%nat).
  { clear. intros tc [t ->]. induction t as [|c t IH]; simpl.
    - exists [fslash]. split_and!; [done|by exists []|done].
    - case_if; [exists (c :: t ++ [fslash]); split_and!; [done|by exists (c :: t)|done]|].
      destruct IH as (tc' & E & Ha & Hl). exists tc'. split_and!; [done|done|simpl in *; lia]. }
  intros [t ->]. destruct t as [|c t]; [exists [fslash]; split_and!; [done|by exists []|done]|].
  destruct (Hloop (t ++ [fslash])) as (tc' & E & Ha & Hl); [by exists t|].
  exists tc'. split_and!; [|done|simpl; lia]. cbn [app rewind_to_parent_path].
  destruct (t ++ [fslash]) eqn:Et; [by destruct t|done].
Qed.

Lemma anchored_cons c tc : anchored tc -> anchored (c :: tc).
Proof. intros [t ->]. by exists (c :: t). Qed.

Lemma finish_fits targetlen sep tc :
  Z.of_nat (length tc) < targetlen ->
  exists s, finish targetlen sep tc = PathDone s /\ Z.of_nat (length s) < targetlen.
Proof.
  intros H. unfold finish. rewrite (proj2 (Z.leb_gt _ _)) by done.
  destruct tc as [|c [|d tc]]; [by eexists..|]. eexists. split; [done|]. rewrite length_rev.
  case_if; simpl in *; lia.
Qed.

Lemma copy_fits targetlen n : forall pc tc,
  (length pc <= n)%nat -> anchored tc -> Z.of_nat (length tc + length pc) < targetlen ->
  exists s, copy_and_sanitize_path targetlen fslash pc tc = PathDone s /\
    Z.of_nat (length s) < targetlen.
Proof.
  induction n as [|n IH]; intros pc tc Hn Ha Hr.
  { destruct pc; [|simpl in Hn; lia]. apply finish_fits. simpl in Hr. lia. }
  assert (Hput : forall c pc' tc, (length pc' <= n)%nat -> anchored tc ->
    Z.of_nat (length tc + S (length pc')) < targetlen ->
    exists s, put targetlen c tc (copy_and_sanitize_path targetlen fslash pc') = PathDone s /\
      Z.of_nat (length s) < targetlen).
  { intros. rewrite put_room by lia. apply IH; [done|by apply anchored_cons|simpl; lia]. }
  assert (Hrew : forall pc', (length pc' < length pc)%nat ->
    exists s, rewind tc (copy_and_sanitize_path targetlen fslash pc') = PathDone s /\
      Z.of_nat (length s) < targetlen).
  { intros pc' Hl. unfold rewind. destruct (rewind_anchored tc Ha) as (tc' & -> & Ha' & Hl').
    apply IH; [lia|done|lia]. }
  destruct pc as [|c pc]; [apply finish_fits; simpl in Hr; lia|]. simpl in Hn, Hr.
  cbn [copy_and_sanitize_path].
  destruct (invalidchar c); [apply Hput; [lia|done|lia]|].
  destruct (byte_eqb c dot); [|destruct (byte_eqb c fslash)].
  - destruct pc as [|d pc]; [apply IH; simpl in *; (lia || done)|].
    destruct (byte_eqb d dot); [destruct pc as [|e pc]|].
    + apply Hrew. simpl. lia.
    + case_if; [apply Hrew; simpl; lia|]. rewrite put_room by lia.
      apply Hput; [simpl in *; lia|by apply anchored_cons|simpl in *; lia].
    + case_if; [apply IH; simpl in *; (lia || done)|]. apply Hput; [simpl in *; lia|done|simpl in *; lia].
  - destruct tc as [|l tc]; [by destruct Ha as [[] ?]|].
    case_if; [apply IH; simpl in *; (lia || done)|]. apply Hput; [lia|done|simpl in *; lia].
  - apply Hput; [lia|done|lia].
Qed.

(** A result for which nothing was written past the end of the target. *)
Definition in_target (targetlen : Z) (r : path_result) : Prop :=
  match r with
  | PathDone s => Z.of_nat (length s) < targetlen
  | PathOverrun => False
  | PathUnderrun => True
  end.

Lemma rewind_shorter tc tc' :
  rewind_to_parent_path tc = Some tc' -> (length tc' <= length tc)%nat.
Proof.
  assert (Hl : forall l, rewind_loop l = Some tc' -> (length tc' <= length l)%nat).
  { induction l as [|c l IH]; [done|]. cbn [rewind_loop]. case_if; [by intros [= <-]|].
    intros E. apply IH in E. cbn. lia. }
  destruct tc as [|c [|d tc]]; cbn [rewind_to_parent_path]; [by intros [= <-]..|].
  intros E. apply Hl in E. cbn in *. lia.
Qed.

Lemma copy_in_target targetlen sep n : forall pc tc,
  (length pc <= n)%nat -> Z.of_nat (length tc + length pc) < targetlen ->
  in_target targetlen (copy_and_sanitize_path targetlen sep pc tc).
Proof.
  assert (Hfin : forall tc, Z.of_nat (length tc) < targetlen -> in_target targetlen (finish targetlen sep tc)).
  { intros tc Ht. destruct (finish_fits targetlen sep tc Ht) as (s & -> & Hs). done. }
  induction n as [|n IH]; intros pc tc Hn Hr.
  { destruct pc; [|simpl in Hn; lia]. apply Hfin. simpl in Hr. lia. }
  assert (Hput : forall c pc' tc, (length pc' <= n)%nat ->
    Z.of_nat (length tc + S (length pc')) < targetlen ->
    in_target targetlen (put targetlen c tc (copy_and_sanitize_path targetlen sep pc'))).
  { intros. rewrite put_room by lia. apply IH; [done|simpl; lia]. }
  assert (Hrew : forall pc', (length pc' < length pc)%nat ->
    in_target targetlen (rewind tc (copy_and_sanitize_path targetlen sep pc'))).
  { intros pc' Hl. unfold rewind. destruct (rewind_to_parent_path tc) as [tc'|] eqn:E; [|done].
    apply rewind_shorter in E. apply IH; lia. }
  destruct pc as [|c pc]; [apply Hfin; simpl in Hr; lia|]. simpl in Hn, Hr.
  cbn [copy_and_sanitize_path].
  destruct (invalidchar c); [apply Hput; lia|].
  destruct (byte_eqb c dot); [|destruct (byte_eqb c sep)].
  - destruct pc as [|d pc]; [apply IH; simpl in *; lia|].
    destruct (byte_eqb d dot); [destruct pc as [|e pc]|].
    + apply Hrew. simpl. lia.
    + case_if; [apply Hrew; simpl; lia|]. rewrite put_room by lia. apply Hput; simpl in *; lia.
    + case_if; [apply IH; simpl in *; lia|]. apply Hput; simpl in *; lia.
  - destruct tc as [|l tc]; [apply Hput; simpl in *; lia|].
    case_if; [apply IH; simpl in *; lia|]. apply Hput; simpl in *; lia.
  - apply Hput; lia.
Qed.



(** A directory name that ends in a dot is lost: its dot and the separator are
    taken for the component [.], wherever they are, and the name is run together
    with the next one, so that a file in the directory [w.] is reported as
    [wv]. *)
Theorem trailing_dot_joins (targetlen : Z) (cwd : list (list byte)) (w v : list byte) :
  Forall (fun w => fslash ∉ w) cwd -> plain w -> plain v ->
  Z.of_nat (length (render_dir cwd) + length w + length v) + 2 < targetlen < 4294967296 ->
  concatenate_paths targetlen (render_dir cwd) (w ++ str "./" ++ v) false =
    (PathDone (render_path (cwd ++ [w ++ v])), true).
Proof.
  intros Hcwd Hw Hv Hr. unfold concatenate_paths. set (path := w ++ str "./" ++ v).
  assert (Hlen : length path = (length w + 2 + length v)%nat)
    by (unfold path; rewrite !length_app; simpl; lia).
  rewrite u32_small, (proj2 (Z.ltb_ge _ _)) by (simpl in *; lia).
  assert (Hrel : match path with [] => false | c :: _ => negb (byte_eqb c fslash) end = true).
  { unfold path. destruct Hw as (Hn & Hs & _). destruct w as [|c w]; [done|]. cbn [app].
    apply negb_true_iff, byte_eqb_neq. by apply not_elem_of_cons in Hs as [? _]. }
  rewrite Hrel. f_equal. unfold path.
  destruct (plain_last w Hw) as (l & r & Hlr & Hlf).
  assert (Hwv : plain (w ++ v)).
  { destruct Hw as (Hwn & Hws & Hwp & _), Hv as (Hvn & Hvs & Hvp & Hvl). split_and!.
    - by destruct w.
    - rewrite elem_of_app. tauto.
    - by apply Forall_app.
    - rewrite last_app. by destruct (last_of v) eqn:E; [|apply last_None in E]. }
  rewrite <- walk_plain, <- (copy_last targetlen) by (done || rewrite ?length_app; lia || by do 3 right).
  destruct Hw as (_ & Hs & Hp & Hl).
  rewrite !(copy_plain targetlen (length w) w) by (try done; rewrite ?length_rev; lia).
  change (str "./" ++ v) with (dot :: fslash :: v). cbn [copy_and_sanitize_path].
  reflexivity.
Qed.

Lemma trailing_dot_joins_witness :
  concatenate_paths 1024 (str "/tmp/") (str "logs./app") false = (PathDone (str "/tmp/logsapp"), true).
Proof.
  apply (trailing_dot_joins 1024 [str "tmp"] (str "logs") (str "app")); try done.
  - repeat constructor; by apply no_slashb_ok.
  - destruct (componentb_ok (str "logs")) as [?|[?|[?|?]]]; done.
  - destruct (componentb_ok (str "app")) as [?|[?|[?|?]]]; done.
Defined.

(** A path relative to an unknown directory makes [rewind_to_parent_path] read the
    byte in front of the target: it looks for a separator before it compares the
    position with the start.  [parse_dirfd] passes [<UNKNOWN>]. *)
Theorem unknown_dir_underruns (targetlen : Z) (dir path : list byte) :
  fslash ∉ dir -> (2 <= length dir)%nat ->
  Z.of_nat (length dir + length path) + 4 <= targetlen < 4294967296 ->
  concatenate_paths targetlen dir (str "../" ++ path) false = (PathUnderrun, true).
Proof.
  intros Hs Hl Hr. unfold concatenate_paths.
  rewrite u32_small, (proj2 (Z.ltb_ge _ _)) by (rewrite length_app; simpl in *; lia).
  change (str "../" ++ path) with (dot :: dot :: fslash :: path). cbn [copy_and_sanitize_path].
  change (byte_eqb dot fslash) with false. cbn [negb]. f_equal.
  change (invalidchar dot) with false. rewrite !byte_eqb_refl. unfold rewind.
  assert (Hn : forall tc, fslash ∉ tc -> rewind_loop tc = None).
  { clear. induction tc as [|c tc IH]; intros H; [done|]. apply not_elem_of_cons in H as [Hc H].
    simpl. rewrite (proj2 (byte_eqb_neq c fslash)) by done. by apply IH. }
  assert (Hs' : fslash ∉ rev dir) by (by rewrite list_elem_of_In, <- in_rev, <- list_elem_of_In).
  assert (Hl' : (2 <= length (rev dir))%nat) by (by rewrite length_rev).
  destruct (rev dir) as [|c [|d tc]]; [simpl in Hl'; lia..|].
  apply not_elem_of_cons in Hs' as [_ Hs']. unfold rewind_to_parent_path. by rewrite Hn.
Qed.
