(* ===== verification/Filter.v ===== *)
(** * Filter expressions: [libsinsp/gen_filter.cpp], [gen_filter.h]

    A compiled filter is a tree: an expression holds checks, each with the boolean
    operator that joins it to those in front of it.  [compare] evaluates the tree
    on an event, and remembers in the event the id of the last check that
    matched. *)

From Stdlib Require Import ZArith Lia List Bool.
From stdpp Require Import base tactics list numbers option.
From S2P Require Import Prelude.
Import ListNotations.
Local Open Scope Z_scope.

(** [enum cmpop] *)
Inductive cmpop : Set :=
| CO_NONE | CO_EQ | CO_NE | CO_LT | CO_LE | CO_GT | CO_GE | CO_CONTAINS | CO_IN | CO_EXISTS
| CO_ICONTAINS | CO_STARTSWITH | CO_GLOB | CO_PMATCH | CO_ENDSWITH | CO_INTERSECTS.

#[global] Instance cmpop_eq_dec : EqDecision cmpop.
Proof. solve_decision. Defined.

(** [enum boolop], whose values are combined by bits. *)
Definition BO_NONE : Z := 0.
Definition BO_NOT : Z := 1.
Definition BO_OR : Z := 2.
Definition BO_AND : Z := 4.
Definition BO_ORNOT : Z := 3.
Definition BO_ANDNOT : Z := 5.

Section filter.
(** A check on a field of the event; the classes of [filterchecks.cpp] are its
    instances. *)
Context {check : Type}.

(** [gen_event_filter_check] and [gen_event_filter_expression], each with its
    operator and its id. *)
Inductive node : Type :=
| Leaf (m_boolop m_check_id : Z) (c : check)
| Expr (m_boolop m_check_id : Z) (m_checks : list node).

Definition m_boolop (n : node) : Z := match n with Leaf op _ _ => op | Expr op _ _ => op end.
Definition get_check_id (n : node) : Z := match n with Leaf _ id _ => id | Expr _ id _ => id end.

Section compare.
(** What the check of a leaf answers for the event; [None] for an exception. *)
Context (test : check -> option bool).

(** [gen_event::set_check_id] *)
Definition set_check_id (id cur : Z) : Z := if id =? 0 then cur else id.

(** [res = chk->compare(evt); if(res) evt->set_check_id(chk->get_check_id());],
    the result negated for [neg]; [noted] but for a negated first check. *)
Definition noting (neg noted : bool) (id : Z) (r : option (bool * Z)) : option (bool * Z) :=
  match r with
  | None => None
  | Some (b, cur) =>
      let res := if neg then negb b else b in
      Some (res, if res && noted then set_check_id id cur else cur)
  end.

(** The turns of the loop from the second check on; a check that does not join
    with 'and' or 'or' is not looked at. *)
Definition compare_rest (compare : node -> Z -> option (bool * Z)) :=
  fix loop (l : list node) (r : option (bool * Z)) : option (bool * Z) :=
    match l, r with
    | [], _ => r
    | _, None => None
    | chk :: l', Some (res, cur) =>
        let op := m_boolop chk in
        if op =? BO_OR then
          if res then r else loop l' (noting false true (get_check_id chk) (compare chk cur))
        else if op =? BO_AND then
          if negb res then r else loop l' (noting false true (get_check_id chk) (compare chk cur))
        else if op =? BO_ORNOT then
          if res then r else loop l' (noting true true (get_check_id chk) (compare chk cur))
        else if op =? BO_ANDNOT then
          if negb res then r else loop l' (noting true true (get_check_id chk) (compare chk cur))
        else loop l' r
    end.

(** The first turn. *)
Definition compare_first (compare : node -> Z -> option (bool * Z)) (chk : node) (cur : Z) :
    option (bool * Z) :=
  if m_boolop chk =? BO_NONE then noting false true (get_check_id chk) (compare chk cur)
  else if m_boolop chk =? BO_NOT then noting true false (get_check_id chk) (compare chk cur)
  else Some (true, cur).

(** [gen_event_filter_expression::compare], with the id of the event. *)
Fixpoint compare (n : node) (cur : Z) : option (bool * Z) :=
  match n with
  | Leaf _ _ c => match test c with Some b => Some (b, cur) | None => None end
  | Expr _ _ [] => Some (true, cur)
  | Expr _ _ (chk :: rest) => compare_rest compare rest (compare_first compare chk cur)
  end.
End compare.

(** [get_expr_boolop]; -1 for an expression that mixes 'and' and 'or'. *)
Definition get_expr_boolop (n : node) : Z :=
  match n with
  | Leaf op _ _ => op
  | Expr op _ m_checks =>
      match m_checks with
      | [] | [_] => op
      | _ :: c1 :: rest =>
          let b0 := Z.land (m_boolop c1) (Z.lnot 1) in
          if forallb (fun c => Z.land (m_boolop c) (Z.lnot 1) =? b0) rest then b0 else -1
      end
  end.

(** ** What an expression means *)

(** The operator of a check, but for the negation in its lowest bit. *)
Definition joins (op : Z) (n : node) : Prop := m_boolop n = op \/ m_boolop n = Z.lor op BO_NOT.

Definition negated (n : node) : bool := Z.testbit (m_boolop n) 0.

(** Expressions as the compiler builds them for a filter that mixes nothing: the
    first check may be negated, the others are joined by one operator. *)
Inductive well_formed : node -> Prop :=
| wf_leaf op id c : well_formed (Leaf op id c)
| wf_expr op id chk rest conj :
    joins BO_NONE chk -> Forall (joins (if conj : bool then BO_AND else BO_OR)) rest ->
    well_formed chk -> Forall well_formed rest -> well_formed (Expr op id (chk :: rest)).

(** The meaning of an expression, all its checks looked at. *)
Fixpoint holds (test : check -> bool) (n : node) : bool :=
  match n with
  | Leaf _ _ c => test c
  | Expr _ _ [] => true
  | Expr _ _ (chk :: rest) =>
      let signed c := xorb (negated c) (holds test c) in
      if existsb (fun c => Z.testbit (m_boolop c) 1) rest
      then signed chk || existsb signed rest
      else signed chk && forallb signed rest
  end.

Section node_ind.
Context (P : node -> Prop).
Hypothesis HL : forall op id c, P (Leaf op id c).
Hypothesis HE : forall op id l, Forall P l -> P (Expr op id l).

Fixpoint node_ind' (n : node) : P n :=
  match n with
  | Leaf op id c => HL op id c
  | Expr op id l =>
      HE op id l ((fix go (l : list node) : Forall P l :=
        match l with [] => Forall_nil_2 P | x :: l' => Forall_cons_2 P x l' (node_ind' x) (go l') end) l)
  end.
End node_ind.

(** The checks of an expression. *)
Fixpoint leaves (n : node) : list check :=
  match n with Leaf _ _ c => [c] | Expr _ _ l => concat (map leaves l) end.

(** Without exceptions the answer does not depend on the id in the event. *)
Lemma compare_total test n :
  exists b, forall cur, exists cur', compare (fun c => Some (test c)) n cur = Some (b, cur').
Proof.
  induction n as [op id c|op id l IH] using node_ind'; [by exists (test c); intros cur; exists cur|].
  destruct l as [|chk rest]; [by exists true; intros cur; exists cur|]. cbn [compare].
  apply Forall_cons_1 in IH as [[b Hb] IH].
  assert (Hf : exists b', forall cur, exists cur',
    compare_first (compare (fun c => Some (test c))) chk cur = Some (b', cur')).
  { unfold compare_first. destruct (_ =? _); [|destruct (_ =? _); [|by exists true; eauto]];
      [exists b|exists (negb b)]; intros cur; destruct (Hb cur) as [cur' ->]; by eexists. }
  clear b Hb. destruct Hf as [b Hf].
  assert (Hr : exists b', forall cur, exists cur',
    compare_rest (compare (fun c => Some (test c))) rest (Some (b, cur)) = Some (b', cur')).
  { clear Hf. revert b. induction IH as [|x rest [bx Hx] _ IHr]; intros b; [by exists b; eauto|].
    assert (Hn : forall neg, exists b', forall cur, exists cur', compare_rest (compare (fun c => Some (test c)))
      rest (noting neg true (get_check_id x) (compare (fun c => Some (test c)) x cur)) = Some (b', cur')).
    { intros neg. destruct (IHr (if neg then negb bx else bx)) as [b' Hb']. exists b'.
      intros cur. destruct (Hx cur) as [cur' ->]. cbn [noting]. apply Hb'. }
    cbn [compare_rest].
    repeat match goal with |- context [?a =? ?c] => destruct (a =? c) end;
      destruct b; cbn [negb]; try (by eexists; eauto); eauto. }
  destruct Hr as [b' Hr]. exists b'. intros cur. destruct (Hf cur) as [cur' ->]. apply Hr.
Qed.

Section meaning.
Context (test : check -> option bool) (test' : check -> bool).
Hypothesis agree : forall c b, test c = Some b -> test' c = b.

(** [r] is the value [b], or an exception from one of the checks [l]. *)
Definition answers (l : list check) (b : bool) (r : option (bool * Z)) : Prop :=
  match r with Some (b', _) => b' = b | None => exists c, c ∈ l /\ test c = None end.

Lemma answers_noting neg noted id l b r :
  answers l b r -> answers l (xorb neg b) (noting neg noted id r).
Proof. destruct r as [[b' cur]|]; [|done]. intros <-. by destruct neg, b'. Qed.

Lemma answers_weaken l l' b r : l ⊆ l' -> answers l b r -> answers l' b r.
Proof. destruct r as [[b' cur]|]; [done|]. intros Hl (c & Hc & E). exists c. split; [by apply Hl|done]. Qed.

Definition signed (n : node) : bool := xorb (negated n) (holds test' n).

Lemma rest_and rest : forall L res cur,
  Forall (joins BO_AND) rest ->
  Forall (fun c => forall cur, answers L (holds test' c) (compare test c cur)) rest ->
  answers L (res && forallb signed rest) (compare_rest (compare test) rest (Some (res, cur))).
Proof.
  induction rest as [|c rest IH]; intros L res cur Hj Hc; [by destruct res|].
  apply Forall_cons_1 in Hj as [Hj Hjs]. apply Forall_cons_1 in Hc as [Hc Hcs].
  destruct res; [|by destruct Hj as [Hj|Hj]; cbn; rewrite Hj].
  assert (Hs : answers L (signed c) (noting (negated c) true (get_check_id c) (compare test c cur)))
    by (apply answers_noting, Hc).
  assert (E : compare_rest (compare test) (c :: rest) (Some (true, cur)) =
    compare_rest (compare test) rest (noting (negated c) true (get_check_id c) (compare test c cur)))
    by (unfold negated; destruct Hj as [Hj|Hj]; cbn; by rewrite Hj).
  rewrite E. cbn [forallb]. destruct (noting _ _ _ _) as [[b cur']|]; [|by destruct rest].
  cbn in Hs. subst b. rewrite andb_true_l. by apply IH.
Qed.

Lemma rest_or rest : forall L res cur,
  Forall (joins BO_OR) rest ->
  Forall (fun c => forall cur, answers L (holds test' c) (compare test c cur)) rest ->
  answers L (res || existsb signed rest) (compare_rest (compare test) rest (Some (res, cur))).
Proof.
  induction rest as [|c rest IH]; intros L res cur Hj Hc; [by destruct res|].
  apply Forall_cons_1 in Hj as [Hj Hjs]. apply Forall_cons_1 in Hc as [Hc Hcs].
  destruct res; [by destruct Hj as [Hj|Hj]; cbn; rewrite Hj|].
  assert (Hs : answers L (signed c) (noting (negated c) true (get_check_id c) (compare test c cur)))
    by (apply answers_noting, Hc).
  assert (E : compare_rest (compare test) (c :: rest) (Some (false, cur)) =
    compare_rest (compare test) rest (noting (negated c) true (get_check_id c) (compare test c cur)))
    by (unfold negated; destruct Hj as [Hj|Hj]; cbn; by rewrite Hj).
  rewrite E. cbn [existsb]. destruct (noting _ _ _ _) as [[b cur']|]; [|by destruct rest].
  cbn in Hs. subst b. rewrite orb_false_l. by apply IH.
Qed.

Lemma first_answers L chk cur :
  joins BO_NONE chk -> answers L (holds test' chk) (compare test chk cur) ->
  answers L (signed chk) (compare_first (compare test) chk cur).
Proof.
  intros Hj Ha. unfold compare_first, signed, negated.
  destruct Hj as [Hj|Hj]; rewrite Hj;
    [exact (answers_noting false true _ _ _ _ Ha)|exact (answers_noting true false _ _ _ _ Ha)].
Qed.

Lemma holds_conj op id chk rest :
  Forall (joins BO_AND) rest -> holds test' (Expr op id (chk :: rest)) = signed chk && forallb signed rest.
Proof.
  intros Hj. cbn [holds]. replace (existsb _ rest) with false; [done|].
  induction Hj as [|c rest Hj _ IH]; [done|]. cbn [existsb]. rewrite <- IH.
  by destruct Hj as [-> | ->].
Qed.

Lemma holds_disj op id chk rest :
  Forall (joins BO_OR) rest -> holds test' (Expr op id (chk :: rest)) = signed chk || existsb signed rest.
Proof.
  intros Hj. cbn [holds]. destruct Hj as [|c rest Hj _]; [cbn; by rewrite andb_true_r, orb_false_r|].
  cbn [existsb]. replace (Z.testbit (m_boolop c) 1) with true; [done|]. by destruct Hj as [-> | ->].
Qed.

Lemma compare_answers n : well_formed n -> forall cur, answers (leaves n) (holds test' n) (compare test n cur).
Proof.
  induction n as [op id c|op id l IH] using node_ind'; intros Hwf cur.
  - cbn. destruct (test c) as [b|] eqn:E; [by rewrite (agree _ _ E)|]. exists c. split; [left|done].
  - inversion Hwf as [|? ? chk rest conj Hj Hjs Hw Hws]; subst. apply Forall_cons_1 in IH as [IHc IHs].
    set (L := leaves (Expr op id (chk :: rest))).
    assert (Hsub : forall c, c ∈ chk :: rest -> leaves c ⊆ L).
    { intros c Hc x Hx. unfold L. cbn [leaves]. apply list_elem_of_In, in_concat.
      exists (leaves c). split; [apply in_map|]; by apply list_elem_of_In. }
    assert (Hf : answers L (signed chk) (compare_first (compare test) chk cur)).
    { apply first_answers; [done|]. eapply answers_weaken; [apply Hsub; left|by apply IHc]. }
    assert (Hr : Forall (fun c => forall cur, answers L (holds test' c) (compare test c cur)) rest).
    { apply Forall_forall. intros c Hc cur'. rewrite Forall_forall in IHs, Hws.
      eapply answers_weaken; [apply Hsub; right; by apply list_elem_of_In|by apply IHs, Hws]. }
    cbn [compare]. destruct (compare_first _ _ _) as [[b cur']|]; [|by destruct rest].
    cbn in Hf. subst b. destruct conj.
    + rewrite holds_conj by done. by apply rest_and.
    + rewrite holds_disj by done. by apply rest_or.
Qed.
End meaning.
End filter.
Arguments node : clear implicits.
