(* ===== verification/FilterCompiler.v ===== *)
(** * The filter compiler: [sinsp_filter_compiler] of [libsinsp/filter.cpp]

    The compiler scans the text of a filter with a position that moves back and
    forth, and builds the tree of [Filter] with a pointer to the expression that
    is open.  Exceptions and undefined behaviour are outcomes. *)

From Stdlib Require Import ZArith Lia List Bool String.
From Stdlib Require Import Strings.Byte.
From stdpp Require Import base tactics list numbers option.
From S2P Require Import Prelude Bytes Text Filter.
From S2P Require Import BlockIO.
Import ListNotations.
Local Open Scope Z_scope.

(** What a step of the compiler leads to. *)
Inductive outcome (A : Type) : Type :=
| Done (a : A)
| Throws
| Undefined.
Arguments Done {A} a.
Arguments Throws {A}.
Arguments Undefined {A}.

(** The checks of [filterchecks.cpp] as far as the compiler uses them: the field a
    name stands for, whether parsing its name succeeds and whether it can be tested
    on the thread table, whether its type is [PT_CHARBUF], and which values it
    accepts; what is refused is refused with an exception. *)
Class field_table : Type := {
  field : Type;
  new_filter_check : list byte -> option field;
  parse_field_name : field -> list byte -> bool;
  works_on_thread_table : field -> bool;
  is_charbuf : field -> bool;
  accepts : field -> cmpop -> list byte -> bool }.

(** A check: the field, the operator, the values. *)
Record check `{field_table} : Type := mk_check {
  chk_field : field; chk_cmpop : cmpop; chk_values : list (list byte) }.

Inductive state : Set := ST_EXPRESSION_DONE | ST_NEED_EXPRESSION.

Definition isblank (c : byte) : bool :=
  byte_eqb c " "%byte || byte_eqb c x09 || byte_eqb c x0a || byte_eqb c x0d.

Definition is_bracket (c : byte) : bool := byte_eqb c "("%byte || byte_eqb c ")"%byte.

Definition is_special_char (c : byte) : bool :=
  is_bracket c || byte_eqb c "!"%byte || byte_eqb c "="%byte || byte_eqb c "<"%byte
  || byte_eqb c ">"%byte.

Definition is_quote (c : byte) : bool := byte_eqb c x22 || byte_eqb c "'"%byte.

Definition in_range (lo hi c : byte) : bool :=
  (Byte.to_N lo <=? Byte.to_N c)%N && (Byte.to_N c <=? Byte.to_N hi)%N.

(** The value of a hexadecimal digit. *)
Definition hex_digit (c : byte) : option Z :=
  let v := Z.of_N (Byte.to_N c) in
  if in_range "0" "9" c then Some (v - 48)
  else if in_range "a" "f" c then Some (v - 97 + 10)
  else if in_range "A" "F" c then Some (v - 65 + 10)
  else None.

Definition backslash : byte := "092"%byte.

(** ** The text of an operand *)

(** [escape_state], with the digits read so far. *)
Inductive escape : Type :=
| PES_NORMAL
| PES_SLASH
| PES_NUMBER (nums : option Z).

(** How the loop of [next_operand] ends: at the end of a word, before that
    character; at the end of the filter; at a wrong escape sequence. *)
Inductive scan : Type :=
| ScanWord (n : Z) (c : byte) (res : list byte)
| ScanEnd (n : Z) (res : list byte)
| ScanError.

Definition end_of_word (first inlist quoted : bool) (esc : escape) (c : byte) : bool :=
  if first then isblank c || is_special_char c
  else (negb quoted && (isblank c || is_bracket c || (inlist && byte_eqb c ","%byte)))
       || (quoted && (match esc with PES_SLASH => false | _ => true end) && is_quote c).

(** The loop over the characters [l], [n] after its start, with the bytes [res] of
    the operand. *)
Fixpoint scan_word (first inlist quoted : bool) (esc : escape) (res l : list byte) (n : Z) : scan :=
  match l with
  | [] => ScanEnd n res
  | c :: l' =>
      if end_of_word first inlist quoted esc c then
        match esc with PES_NORMAL => ScanWord n c res | _ => ScanError end
      else
        match esc with
        | PES_NORMAL =>
            if byte_eqb c backslash && negb first
            then scan_word first inlist quoted PES_SLASH res l' (n + 1)
            else scan_word first inlist quoted PES_NORMAL (res ++ [c]) l' (n + 1)
        | PES_SLASH =>
            if byte_eqb c backslash || byte_eqb c x22
            then scan_word first inlist quoted PES_NORMAL (res ++ [c]) l' (n + 1)
            else if byte_eqb c "x"%byte
            then scan_word first inlist quoted (PES_NUMBER None) res l' (n + 1)
            else scan_word first inlist quoted PES_NORMAL (res ++ [backslash; c]) l' (n + 1)
        | PES_NUMBER nums =>
            match hex_digit c, nums with
            | None, _ => ScanError
            | Some d, None => scan_word first inlist quoted (PES_NUMBER (Some d)) res l' (n + 1)
            | Some d, Some d0 =>
                scan_word first inlist quoted PES_NORMAL (res ++ [byte_of_Z (d0 * 16 + d)])
                  l' (n + 1)
            end
        end
  end.

(** The operators, in the order in which [next_comparison_operator] tries them. *)
Definition operators : list (string * cmpop) :=
  [("=", CO_EQ); ("!=", CO_NE); ("<=", CO_LE); ("<", CO_LT); (">=", CO_GE); (">", CO_GT);
   ("contains", CO_CONTAINS); ("icontains", CO_ICONTAINS); ("startswith", CO_STARTSWITH);
   ("endswith", CO_ENDSWITH); ("glob", CO_GLOB); ("in", CO_IN); ("intersects", CO_INTERSECTS);
   ("pmatch", CO_PMATCH); ("exists", CO_EXISTS)]%string.

(** The blanks at the start of a text. *)
Fixpoint blanks (l : list byte) : Z :=
  match l with [] => 0 | c :: l' => if isblank c then 1 + blanks l' else 0 end.

Section compiler.
Context `{Hft : field_table} (m_ttable_only : bool) (m_fltstr : list byte).

(** An open expression: its operator and the checks it has. *)
Definition frame : Type := Z * list (node check).

(** [m_filter] is the chain of the open expressions, the innermost first; it is
    empty when [m_curexpr] is null. *)
Record cstate : Type := mk_cstate {
  m_scanpos : Z; m_state : state; m_last_boolop : Z; m_nest_level : Z; m_filter : list frame }.

Definition m_scansize : Z := Z.of_nat (length m_fltstr).

Definition set_pos (p : Z) (st : cstate) : cstate :=
  mk_cstate p (m_state st) (m_last_boolop st) (m_nest_level st) (m_filter st).
Definition set_state (s : state) (st : cstate) : cstate :=
  mk_cstate (m_scanpos st) s (m_last_boolop st) (m_nest_level st) (m_filter st).
Definition set_boolop (op : Z) (st : cstate) : cstate :=
  mk_cstate (m_scanpos st) (m_state st) op (m_nest_level st) (m_filter st).
Definition set_nest (n : Z) (st : cstate) : cstate :=
  mk_cstate (m_scanpos st) (m_state st) (m_last_boolop st) n (m_filter st).
Definition set_filter (f : list frame) (st : cstate) : cstate :=
  mk_cstate (m_scanpos st) (m_state st) (m_last_boolop st) (m_nest_level st) f.

(** A computation of the compiler. *)
Definition M (A : Type) : Type := cstate -> outcome (A * cstate).
Definition ret {A} (a : A) : M A := fun st => Done (a, st).
Definition throw {A} : M A := fun _ => Throws.
Definition undef {A} : M A := fun _ => Undefined.
Definition bind {A B} (m : M A) (k : A -> M B) : M B := fun st =>
  match m st with Done (a, st') => k a st' | Throws => Throws | Undefined => Undefined end.
Definition modify (f : cstate -> cstate) : M unit := fun st => Done (tt, f st).
Definition get : M cstate := fun st => Done (st, st).

Local Notation "'let!' x := m 'in' k" := (bind m (fun x => k))
  (at level 200, x pattern, m at level 100, k at level 200).
Local Notation "m ;;; k" := (bind m (fun _ => k)) (at level 199, right associativity).

(** The characters from a position on. *)
Definition from (p : Z) : list byte := drop (Z.to_nat p) m_fltstr.

(** [m_fltstr[m_scanpos]]: the terminator at the end, undefined behind it. *)
Definition cur_char : M byte := fun st =>
  let p := m_scanpos st in
  if (p <? 0) || (m_scansize <? p) then Undefined
  else Done (List.hd x00 (from p), st).

Definition move (n : Z) : M unit := modify (fun st => set_pos (m_scanpos st + n) st).

(** [next]: the next character that is not blank, 0 at the end. *)
Definition next : M byte := fun st =>
  let p := m_scanpos st + 1 + blanks (from (m_scanpos st + 1)) in
  Done (List.hd x00 (from p), set_pos p st).

Definition skip_spaces : M unit :=
  let! c := cur_char in if isblank c then next ;;; ret tt else ret tt.

(** Without quotes, a blank ends an operand. *)
Definition starts_quoted (l : list byte) : bool :=
  match l with c :: _ => is_quote c | [] => false end.

(** [next_operand] from its first character on; the result is without its
    terminator. *)
Definition take_operand (first inlist : bool) : M (list byte) := fun st =>
  let quoted := starts_quoted (from (m_scanpos st)) in
  let start := m_scanpos st + (if quoted then 1 else 0) in
  match scan_word first inlist quoted PES_NORMAL [] (from start) 0 with
  | ScanError => Throws
  | ScanEnd n res => if quoted then Throws else Done (res, set_pos (start + n) st)
  | ScanWord n c res =>
      let back := if is_bracket c || (inlist && byte_eqb c ","%byte) then 1 else 0 in
      Done (res, set_pos (start + n - back) st)
  end.

(** [next_operand] *)
Definition next_operand (first inlist : bool) : M (list byte) :=
  skip_spaces ;;; take_operand first inlist.

(** [compare_no_consume] *)
Definition compare_no_consume (s : list byte) : M bool := fun st =>
  Done (bool_decide (take (length s) (from (m_scanpos st)) = s), st).

Fixpoint first_operator (ops : list (string * cmpop)) : M cmpop :=
  match ops with
  | [] => throw
  | (s, op) :: ops' =>
      let! b := compare_no_consume (str s) in
      if b then move (Z.of_nat (length (str s))) ;;; ret op else first_operator ops'
  end.

(** [next_comparison_operator] *)
Definition next_comparison_operator : M cmpop := skip_spaces ;;; first_operator operators.

(** [gen_event_filter::add_check] *)
Definition add_check (n : node check) : M unit := fun st =>
  match m_filter st with
  | [] => Undefined
  | (op, checks) :: fs => Done (tt, set_filter ((op, checks ++ [n]) :: fs) st)
  end.

(** [gen_event_filter::push_expression]; the new expression is added to its parent
    when it is popped. *)
Definition push_expression (op : Z) : M unit := fun st =>
  match m_filter st with
  | [] => Undefined
  | fs => Done (tt, set_filter ((op, []) :: fs) st)
  end.

(** [gen_event_filter::pop_expression] *)
Definition pop_expression : M unit := fun st =>
  match m_filter st with
  | [] => Undefined
  | (op, checks) :: fs =>
      let n := Expr op 0 checks in
      if get_expr_boolop n =? -1 then Throws
      else
        match fs with
        | [] => Done (tt, set_filter [] st)
        | (op', checks') :: fs' => Done (tt, set_filter ((op', checks' ++ [n]) :: fs') st)
        end
  end.

(** The values of a list, one for each turn, until its bracket; [use] is what is
    done with a value, given whether it is the first. *)
Fixpoint value_list (fuel : nat) (use : bool -> list byte -> M unit) (first : bool) :
    M (list (list byte)) :=
  match fuel with
  | O => throw
  | S fuel' =>
      let! v := next_operand false true in
      use first v ;;;
      next ;;;
      let! c := cur_char in
      if byte_eqb c ")"%byte then ret [v]
      else if byte_eqb c ","%byte then
        move 1 ;;; let! vs := value_list fuel' use false in ret (v :: vs)
      else throw
  end.

(** One turn for every character is enough. *)
Definition list_fuel : nat := S (length m_fltstr).

(** [add_filter_value] *)
Definition add_filter_value (f : field) (co : cmpop) (v : list byte) : M unit :=
  if accepts f co v then ret tt else throw.

(** The fields that are accepted for the thread table in any case. *)
Definition time_fields : list (list byte) :=
  map str ["evt.rawtime"; "evt.rawtime.s"; "evt.rawtime.ns"; "evt.time"; "evt.time.s";
           "evt.datetime"; "evt.reltime"]%string.

(** The list behind [in], [intersects] and [pmatch]. *)
Definition parse_list (f : field) (co : cmpop) (op : Z) : M unit :=
  skip_spaces ;;;
  let! c := cur_char in
  if negb (byte_eqb c "("%byte) then throw
  else
    move 1 ;;;
    if is_charbuf f then
      let! vs := value_list list_fuel (fun _ v => add_filter_value f co v) true in
      add_check (Leaf op 0 (mk_check _ f co vs))
    else if bool_decide (co = CO_PMATCH) then throw
    else
      push_expression op ;;;
      modify (fun st => set_nest (m_nest_level st + 1) (set_boolop BO_NONE st)) ;;;
      value_list list_fuel (fun first v =>
        add_filter_value f CO_EQ v ;;;
        add_check (Leaf (if first then BO_NONE else BO_OR) 0 (mk_check _ f CO_EQ [v]))) true ;;;
      pop_expression ;;;
      modify (fun st => set_nest (m_nest_level st - 1) st).

(** The operator and the values of a check on the field [f]. *)
Definition parse_comparison (f : field) (name : list byte) (op : Z) : M unit :=
  let! co := next_comparison_operator in
  if negb (parse_field_name f name) then throw
  else if bool_decide (co ∈ [CO_IN; CO_INTERSECTS; CO_PMATCH]) then parse_list f co op
  else if bool_decide (co = CO_EXISTS) then
    move (-1) ;;; add_check (Leaf op 0 (mk_check _ f co []))
  else
    let! v := next_operand false false in
    add_filter_value f co v ;;; add_check (Leaf op 0 (mk_check _ f co [v])).

(** [parse_check] *)
Definition parse_check : M unit :=
  let! operand1 := next_operand true false in
  let name := c_string operand1 in
  let! st := get in
  match new_filter_check name with
  | None => throw
  | Some f =>
      if m_ttable_only && negb (works_on_thread_table f) && negb (bool_decide (name ∈ time_fields))
      then throw
      else parse_comparison f name (m_last_boolop st)
  end.

(** [next() == c] *)
Definition next_is (c : byte) : M bool := let! x := next in ret (byte_eqb x c).

(** A check, at the character that was read. *)
Definition check_here : M unit := parse_check ;;; modify (set_state ST_EXPRESSION_DONE).

Definition need_expression (st : cstate) : bool :=
  match m_state st with ST_NEED_EXPRESSION => true | ST_EXPRESSION_DONE => false end.

(** [next() == 'n' && next() == 'd'], and an exception if not. *)
Fixpoint letters (l : list byte) : M unit :=
  match l with
  | [] => ret tt
  | c :: l' => let! b := next_is c in if b then letters l' else throw
  end.

(** 'and' or 'or', by the letters behind the first, or a check that starts like
    them. *)
Definition joiner (rest : string) (op : Z) : M unit :=
  let! st := get in
  if negb (m_scanpos st =? 0) && negb (need_expression st) then
    letters (str rest) ;;; modify (fun st => set_state ST_NEED_EXPRESSION (set_boolop op st))
  else check_here.

(** The end of the filter; the result is its tree. *)
Definition finish : M (node check) := fun st =>
  if negb (m_nest_level st =? 0) then Throws
  else if need_expression st then Throws
  else
    match m_filter st with
    | [(op, checks)] =>
        let n := Expr op 0 checks in
        if get_expr_boolop n =? -1 then Throws else Done (n, st)
    | _ => Undefined
    end.

(** A turn of the loop of [compile_] that does not end it, at the character [a]. *)
Definition compile_char (a : byte) : M unit :=
  if byte_eqb a "("%byte then
    let! st := get in
    if negb (need_expression st) then throw
    else
      push_expression (m_last_boolop st) ;;;
      modify (fun st => set_nest (m_nest_level st + 1) (set_boolop BO_NONE st))
  else if byte_eqb a ")"%byte then
    pop_expression ;;; modify (fun st => set_nest (m_nest_level st - 1) st)
  else if byte_eqb a "o"%byte then joiner "r" BO_OR
  else if byte_eqb a "a"%byte then joiner "nd" BO_AND
  else if byte_eqb a "n"%byte then
    letters (str "ot") ;;;
    modify (fun st => set_state ST_NEED_EXPRESSION
      (set_boolop (Z.lor (m_last_boolop st) BO_NOT) st))
  else
    let! st := get in
    if need_expression st then check_here else throw.

Definition compile_step (st : cstate) : cstate + outcome (node check) :=
  match next st with
  | Done (a, st1) =>
      if byte_eqb a x00 then
        inr (match finish st1 with
             | Done (n, _) => Done n | Throws => Throws | Undefined => Undefined end)
      else
        match compile_char a st1 with
        | Done (_, st2) => inl st2
        | Throws => inr Throws
        | Undefined => inr Undefined
        end
  | Throws => inr Throws
  | Undefined => inr Undefined
  end.

(** The operator of the outermost expression is not initialised; [init_boolop] is
    what it happens to be. *)
Definition initial (init_boolop : Z) : cstate :=
  mk_cstate (-1) ST_NEED_EXPRESSION BO_NONE 0 [(init_boolop, [])].

(** [compile]; [None] when the turns do not suffice. *)
Definition compile (fuel : nat) (init_boolop : Z) : option (outcome (node check)) :=
  run compile_step fuel (initial init_boolop).
End compiler.
