(* ===== verification/FilterSpec.v ===== *)
(** * The filter compiler: termination, and what an accepted filter means

    The compiler ends on every text.  A filter printed from an abstract filter
    compiles to a tree that means the same, for all values, nesting and
    negations. *)

From Stdlib Require Import ZArith Lia List Bool String.
From Stdlib Require Import Strings.Byte.
From stdpp Require Import relations base tactics list numbers option.
From S2P Require Import Prelude Bytes Text Filter.
From S2P Require Import BlockIO FilterCompiler.
Import ListNotations.
Local Open Scope Z_scope.

Section termination.
Context `{Hft : field_table} (ttable : bool) (s : list byte).

Local Notation M := FilterCompiler.M.

(** [m] moves the position forward by at least [k]. *)
Class Moves {A} (k : Z) (m : M A) : Prop :=
  moves : forall st a st', m st = Done (a, st') -> m_scanpos st + k <= m_scanpos st'.

Lemma moves_weaken {A} k k' (m : M A) : Moves k' m -> k <= k' -> Moves k m.
Proof. intros Hm Hk st a st' E. apply Hm in E. lia. Qed.

#[export] Instance moves_ret {A} (a : A) : Moves 0 (ret a).
Proof. intros st b st' E. unfold ret in E. simplify_eq. lia. Qed.
#[export] Instance moves_get : Moves 0 get.
Proof. intros st b st' E. unfold get in E. simplify_eq. lia. Qed.
Lemma moves_throw {A} k : Moves k (@throw _ A).
Proof. done. Qed.

#[export] Instance moves_bind {A B} k1 k2 (m : M A) (g : A -> M B) :
  Moves k1 m -> (forall a, Moves k2 (g a)) -> Moves (k1 + k2) (bind m g).
Proof.
  intros Hm Hg st b st' E. unfold bind in E. destruct (m st) as [[a st1]| |] eqn:Em; [|done|done].
  apply Hm in Em. apply (Hg a) in E. lia.
Qed.

#[export] Instance moves_if {A} k (b : bool) (m1 m2 : M A) :
  Moves k m1 -> Moves k m2 -> Moves k (if b then m1 else m2).
Proof. by destruct b. Qed.

Lemma blanks_nonneg l : 0 <= blanks l.
Proof. induction l as [|c l IH]; simpl; [lia|]. case_if; lia. Qed.

#[export] Instance moves_move n : Moves n (move n).
Proof. intros st b st' E. unfold move, modify in E. simplify_eq. simpl. lia. Qed.
#[export] Instance moves_next : Moves 1 (next s).
Proof.
  intros st b st' E. unfold next in E. simplify_eq. simpl.
  pose proof (blanks_nonneg (from s (m_scanpos st + 1))). lia.
Qed.
#[export] Instance moves_cur_char : Moves 0 (cur_char s).
Proof. intros st b st' E. unfold cur_char in E. case_in E; simplify_eq. lia. Qed.
#[export] Instance moves_skip_spaces : Moves 0 (skip_spaces s).
Proof.
  unfold skip_spaces. eapply (moves_bind 0 0); [apply _|]. intros c.
  destruct (isblank c); [|apply _]. eapply moves_weaken; [apply (moves_bind 1 0); apply _|lia].
Qed.

Lemma scan_word_range first inl q esc l : forall res n,
  match scan_word first inl q esc res l n with
  | ScanWord m _ _ | ScanEnd m _ => n <= m
  | ScanError => True
  end.
Proof.
  revert esc. induction l as [|c l IH]; intros esc res n; cbn [scan_word]; [lia|].
  destruct (end_of_word _ _ _ _ _); [destruct esc; try done; lia|].
  assert (Hn : forall esc res, match scan_word first inl q esc res l (n + 1) with
    | ScanWord m _ _ | ScanEnd m _ => n <= m | ScanError => True end).
  { intros esc' res'. specialize (IH esc' res' (n + 1)). destruct (scan_word _ _ _ _ _ _ _); [lia|lia|done]. }
  destruct esc as [| |nums].
  - destruct (_ && _); apply Hn.
  - destruct (_ || _); [apply Hn|]. destruct (byte_eqb c _); apply Hn.
  - destruct (hex_digit c) as [d|]; [|done]. destruct nums; apply Hn.
Qed.

(** An operand may give back the bracket or comma that ended it. *)
#[export] Instance moves_take_operand first inl : Moves (-1) (take_operand s first inl).
Proof.
  intros st v st' E. unfold take_operand in E. set (q := starts_quoted _) in E.
  pose proof (scan_word_range first inl q PES_NORMAL (from s (m_scanpos st + (if q then 1 else 0))) [] 0).
  destruct (scan_word _ _ _ _ _ _ _) as [n c res|n res|]; [| |done].
  - simplify_eq. simpl. destruct q, (is_bracket c || _); lia.
  - destruct q; simplify_eq. simpl. lia.
Qed.

#[export] Instance moves_next_operand first inl : Moves (-1) (next_operand s first inl).
Proof. apply (moves_bind 0 (-1)); apply _. Qed.

(** It does not go back when it starts at a character that is no bracket. *)
Lemma first_operand_forward st v st' c l :
  from s (m_scanpos st) = c :: l -> isblank c = false -> is_bracket c = false ->
  0 <= m_scanpos st -> next_operand s true false st = Done (v, st') ->
  m_scanpos st <= m_scanpos st'.
Proof.
  intros Hf Hb Hk Hp E. unfold next_operand, skip_spaces, bind, cur_char in E.
  destruct (_ || _); [done|]. rewrite Hf in E. cbn [List.hd] in E. rewrite Hb in E. cbn in E.
  unfold take_operand in E. rewrite Hf in E.
  set (q := starts_quoted _) in E.
  pose proof (scan_word_range true false q PES_NORMAL (from s (m_scanpos st + (if q then 1 else 0))) [] 0) as Hr.
  destruct (scan_word _ _ _ _ _ _ _) as [n d res|n res|] eqn:Es; [| |done].
  - simplify_eq. simpl. destruct q eqn:Hq; [destruct (is_bracket d || _); lia|].
    destruct (Z.eq_dec n 0) as [->|]; [|destruct (is_bracket d || _); lia].
    rewrite Z.add_0_r, Hf in Es. cbn [scan_word] in Es.
    assert (d = c) as ->; [|rewrite Hk; simpl; lia].
    destruct (end_of_word _ _ _ _ _); [by simplify_eq|]. cbn in Es. exfalso.
    pose proof (scan_word_range true false false PES_NORMAL l ([] ++ [c]) (0 + 1)) as Hr'.
    rewrite andb_false_r in Es. cbn [app] in Hr'. rewrite Es in Hr'. lia.
  - destruct q; simplify_eq. simpl. lia.
Qed.

#[export] Instance moves_first_operator ops :
  Forall (fun p => str (fst p) <> []) ops -> Moves 1 (first_operator s ops).
Proof.
  induction 1 as [|[t op] ops Ht _ IH]; [done|]. cbn [first_operator].
  eapply moves_weaken; [apply (moves_bind 0 1); [|intros b; apply moves_if; [|done]]|lia].
  - intros st b st' E. unfold compare_no_consume in E. simplify_eq. lia.
  - eapply moves_weaken; [apply (moves_bind (Z.of_nat (length (str t))) 0); apply _|]. simpl in Ht.
    destruct (str t); [done|simpl; lia].
Qed.

#[export] Instance moves_operator : Moves 1 (next_comparison_operator s).
Proof.
  apply (moves_bind 0 1); [apply _|]. intros _. apply moves_first_operator.
  repeat constructor; discriminate.
Qed.

(** A change of the filter does not move. *)
Lemma moves_still {A} (m : M A) :
  (forall st a st', m st = Done (a, st') -> m_scanpos st' = m_scanpos st) -> Moves 0 m.
Proof. intros H st a st' E. apply H in E. lia. Qed.

#[export] Instance moves_add_check n : Moves 0 (add_check n).
Proof. apply moves_still. intros st a st' E. unfold add_check in E. repeat case_in E; by simplify_eq. Qed.
#[export] Instance moves_push op : Moves 0 (push_expression op).
Proof. apply moves_still. intros st a st' E. unfold push_expression in E. repeat case_in E; by simplify_eq. Qed.
#[export] Instance moves_pop : Moves 0 pop_expression.
Proof. apply moves_still. intros st a st' E. unfold pop_expression in E. repeat case_in E; by simplify_eq. Qed.
#[export] Instance moves_add_filter_value f co v : Moves 0 (add_filter_value f co v).
Proof. unfold add_filter_value. apply moves_if; [apply _|apply moves_throw]. Qed.

Lemma moves_modify (g : cstate -> cstate) :
  (forall st, m_scanpos (g st) = m_scanpos st) -> Moves 0 (modify g).
Proof. intros H. apply moves_still. intros st a st' E. unfold modify in E. by simplify_eq. Qed.

#[export] Instance moves_value_list fuel use first :
  (forall b v, Moves 0 (use b v)) -> Moves 0 (value_list s fuel use first).
Proof.
  intros Hu. revert first. induction fuel as [|fuel IH]; intros first; [done|]. cbn [value_list].
  eapply moves_weaken; [apply (moves_bind (-1) 1); [apply _|]; intros v;
    apply (moves_bind 0 1); [apply _|]; intros _; apply (moves_bind 1 0); [apply _|];
    intros _; apply (moves_bind 0 0); [apply _|]; intros c|lia].
  apply moves_if; [apply _|]. apply moves_if; [|apply moves_throw].
  eapply moves_weaken; [apply (moves_bind 1 0); [apply _|]; intros _;
    apply (moves_bind 0 0); [apply IH|]; intros vs; apply _|lia].
Qed.

Lemma moves_parse_list f co op : Moves 0 (parse_list s f co op).
Proof.
  unfold parse_list. apply (moves_bind 0 0); [apply _|]. intros _.
  apply (moves_bind 0 0); [apply _|]. intros c. apply moves_if; [apply moves_throw|].
  eapply moves_weaken; [apply (moves_bind 1 0); [apply _|]; intros _|lia].
  apply moves_if; [|apply moves_if; [apply moves_throw|]].
  - apply (moves_bind 0 0); apply _.
  - apply (moves_bind 0 0); [apply _|]. intros _.
    apply (moves_bind 0 0); [by apply moves_modify|]. intros _.
    apply (moves_bind 0 0); [apply moves_value_list; intros b v; apply (moves_bind 0 0); apply _|].
    intros _. apply (moves_bind 0 0); [apply _|]. intros _. by apply moves_modify.
Qed.

#[export] Instance moves_parse_comparison f name op : Moves 0 (parse_comparison s f name op).
Proof.
  eapply moves_weaken; [apply (moves_bind 1 (-1)); [apply _|]; intros co|lia].
  apply moves_if; [apply moves_throw|]. apply moves_if.
  { eapply moves_weaken; [apply moves_parse_list|lia]. }
  apply moves_if; [apply (moves_bind (-1) 0); apply _|].
  apply (moves_bind (-1) 0); [apply _|]. intros v. apply (moves_bind 0 0); apply _.
Qed.

#[export] Instance moves_letters l : Moves 0 (letters s l).
Proof.
  induction l as [|c l IH]; [apply _|]. cbn [letters].
  eapply moves_weaken; [apply (moves_bind 1 0); [apply (moves_bind 1 0); apply _|]|lia].
  intros b. apply moves_if; [done|apply moves_throw].
Qed.

(** The position is at a character that starts a check. *)
Definition at_check (st : cstate) : Prop :=
  0 <= m_scanpos st /\ exists c l, from s (m_scanpos st) = c :: l /\ isblank c = false /\
    is_bracket c = false.

Lemma parse_check_forward st u st' :
  at_check st -> parse_check ttable s st = Done (u, st') -> m_scanpos st <= m_scanpos st'.
Proof.
  intros (Hp & c & l & Hf & Hb & Hk) E. unfold parse_check, bind at 1 in E.
  destruct (next_operand s true false st) as [[v st1]| |] eqn:Eo; [|done|done].
  apply (first_operand_forward _ _ _ c l) in Eo; [|done..]. unfold bind, get in E.
  destruct (new_filter_check (c_string v)) as [f|]; [|done]. destruct (_ && _); [done|].
  apply (moves_parse_comparison f) in E. lia.
Qed.

Lemma check_here_forward st u st' :
  at_check st -> check_here ttable s st = Done (u, st') -> m_scanpos st <= m_scanpos st'.
Proof.
  intros Hc E. unfold check_here, bind in E.
  destruct (parse_check ttable s st) as [[v st1]| |] eqn:Ec; [|done|done].
  apply parse_check_forward in Ec; [|done]. unfold modify in E. by simplify_eq.
Qed.

Lemma joiner_forward rest op st u st' :
  at_check st -> joiner ttable s rest op st = Done (u, st') -> m_scanpos st <= m_scanpos st'.
Proof.
  intros Hc E. unfold joiner, bind at 1, get in E. destruct (_ && _); [|by eapply check_here_forward].
  eapply (moves_bind 0 0) in E; [lia|apply _|]. intros _. by apply moves_modify.
Qed.

Lemma compile_char_forward a st u st' :
  0 <= m_scanpos st -> (exists l, from s (m_scanpos st) = a :: l) -> isblank a = false ->
  compile_char ttable s a st = Done (u, st') -> m_scanpos st <= m_scanpos st'.
Proof.
  intros Hp [l Hf] Hb E. unfold compile_char in E.
  assert (Hm : forall g : cstate -> cstate, (forall st, m_scanpos (g st) = m_scanpos st) ->
    Moves 0 (modify g)) by (intros; by apply moves_modify).
  destruct (byte_eqb a "("%byte) eqn:Eo.
  { unfold bind at 1, get in E. destruct (negb _); [done|].
    eapply (moves_bind 0 0) in E; [lia|apply _|]. intros _. by apply Hm. }
  destruct (byte_eqb a ")"%byte) eqn:Ec.
  { eapply (moves_bind 0 0) in E; [lia|apply _|]. intros _. by apply Hm. }
  assert (Hc : at_check st).
  { split; [done|]. exists a, l. split_and!; [done|done|]. unfold is_bracket. by rewrite Eo, Ec. }
  destruct (byte_eqb a "o"%byte); [by apply (joiner_forward _ _ _ _ _ Hc E)|].
  destruct (byte_eqb a "a"%byte); [by apply (joiner_forward _ _ _ _ _ Hc E)|].
  destruct (byte_eqb a "n"%byte).
  { eapply (moves_bind 0 0) in E; [lia|apply _|]. intros _. by apply Hm. }
  unfold bind, get in E. destruct (need_expression st); [by apply (check_here_forward _ _ _ Hc E)|done].
Qed.

Lemma from_add p n : 0 <= p -> 0 <= n -> from s (p + n) = drop (Z.to_nat n) (from s p).
Proof. intros. unfold from. rewrite drop_drop. f_equal. lia. Qed.

Lemma blanks_next l : isblank (List.hd x00 (drop (Z.to_nat (blanks l)) l)) = false.
Proof.
  induction l as [|c l IH]; [done|]. cbn [blanks]. destruct (isblank c) eqn:E; [|done].
  pose proof (blanks_nonneg l). rewrite Z2Nat.inj_add, Nat.add_comm, Nat.add_1_r by lia. exact IH.
Qed.

Lemma from_size p c l : 0 <= p -> from s p = c :: l -> p < m_scansize s.
Proof.
  intros Hp E. apply (f_equal length) in E. unfold from in E. rewrite length_drop in E. simpl in E.
  unfold m_scansize. lia.
Qed.

(** What [next] finds. *)
Lemma next_spec st a st1 :
  -1 <= m_scanpos st -> next s st = Done (a, st1) ->
  m_scanpos st < m_scanpos st1 /\ isblank a = false /\ (a = x00 \/ exists l, from s (m_scanpos st1) = a :: l).
Proof.
  intros Hp E. unfold next in E. simplify_eq. cbn [m_scanpos set_pos].
  pose proof (blanks_nonneg (from s (m_scanpos st + 1))).
  rewrite (from_add (m_scanpos st + 1)) by lia. split_and!; [lia|apply blanks_next|].
  destruct (drop _ _) as [|c l]; [by left|right; by exists l].
Qed.

Lemma compile_step_forward st st' :
  -1 <= m_scanpos st -> compile_step ttable s st = inl st' ->
  -1 <= m_scanpos st' /\
  (Z.to_nat (m_scansize s - m_scanpos st') < Z.to_nat (m_scansize s - m_scanpos st))%nat.
Proof.
  intros Hp E. unfold compile_step in E. destruct (next s st) as [[a st1]| |] eqn:En; [|done|done].
  apply next_spec in En as (Hlt & Hb & Ha); [|done].
  destruct (byte_eqb a x00) eqn:E0; [done|]. apply byte_eqb_neq in E0.
  destruct Ha as [?|[l Hl]]; [done|]. assert (m_scanpos st1 < m_scansize s) by (eapply from_size; [|exact Hl]; lia).
  destruct (compile_char _ _ _ _) as [[u st2]| |] eqn:Ec; [|done|done]. simplify_eq.
  apply compile_char_forward in Ec; [lia|lia|by exists l|done].
Qed.

Lemma bind_ext {A B} (m : M A) (k k' : A -> M B) st :
  (forall a st', m st = Done (a, st') -> k a st' = k' a st') -> bind m k st = bind m k' st.
Proof. intros Hk. unfold bind. destruct (m st) as [[a st']| |]; [by apply Hk|done|done]. Qed.

(** The turns given to the list of an [in] are enough: more of them do not change
    what it leads to. *)
Lemma value_list_fuel use fuel :
  (forall b v, Moves 0 (use b v)) -> forall fuel' first st,
  (Z.to_nat (m_scansize s - m_scanpos st) < fuel)%nat -> (fuel <= fuel')%nat ->
  value_list s fuel use first st = value_list s fuel' use first st.
Proof.
  intros Hu. induction fuel as [|fuel IH]; intros [|fuel'] first st Hf Hle; [lia..|].
  cbn [value_list]. apply bind_ext. intros v st1 E1. apply moves_next_operand in E1.
  apply bind_ext. intros u st2 E2. apply Hu in E2.
  apply bind_ext. intros c st3 E3. apply moves_next in E3.
  apply bind_ext. intros d st4 E4. unfold cur_char in E4.
  destruct (_ || _) eqn:Er; simplify_eq. bool_to_prop. destruct (byte_eqb _ ")"%byte); [done|].
  destruct (byte_eqb _ ","%byte) eqn:Ec; [|done]. unfold bind, move, modify.
  rewrite (IH fuel'); [done| |lia]. cbn [m_scanpos set_pos].
  destruct (from s (m_scanpos st4)) as [|x l] eqn:El; [done|].
  apply from_size in El; lia.
Qed.

Lemma compile_ends (init_boolop : Z) :
  exists r, forall fuel, (S (length s) < fuel)%nat -> compile ttable s fuel init_boolop = Some r.
Proof.
  unfold compile.
  destruct (run_ends_inv (compile_step ttable s) (fun st => -1 <= m_scanpos st)
    (fun st => Z.to_nat (m_scansize s - m_scanpos st)) (S (S (length s))) (initial init_boolop))
    as [r Hr].
  - intros st st' Hi E. by apply compile_step_forward.
  - simpl. lia.
  - simpl. unfold m_scansize. lia.
  - exists r. intros fuel Hf. eapply run_mono; [done|lia].
Qed.

(** What a run of enough turns leads to. *)
Lemma compile_reached init_boolop st r :
  rtc (fun x y => compile_step ttable s x = inl y) (initial init_boolop) st ->
  compile_step ttable s st = inr r ->
  forall fuel, (S (length s) < fuel)%nat -> compile ttable s fuel init_boolop = Some r.
Proof.
  intros Hst Hr fuel Hf. destruct (run_steps _ _ _ _ Hst Hr) as [n Hn].
  destruct (compile_ends init_boolop) as [r' Hr']. rewrite (Hr' fuel Hf). f_equal.
  exact (run_det _ _ _ _ _ _ (Hr' fuel Hf) Hn).
Qed.

(** C37: compiling a filter ends, with a tree or an error, for every text and every
    table of fields, within two turns more than the text has characters; the turns
    that the list of an 'in' is given are enough as well, since more of them do not
    change what it leads to. *)
Theorem filter_compile_terminates (init_boolop : Z) :
  (exists r, forall fuel, (S (length s) < fuel)%nat ->
     compile ttable s fuel init_boolop = Some r) /\
  forall use : bool -> list byte -> M unit, (forall b v, Moves 0 (use b v)) ->
  forall fuel first st, -1 < m_scanpos st -> (list_fuel s <= fuel)%nat ->
    value_list s fuel use first st = value_list s (list_fuel s) use first st.
Proof.
  split; [apply compile_ends|]. intros use Hu fuel first st Hp Hf. symmetry.
  apply value_list_fuel; [done| |done]. unfold list_fuel, m_scansize. lia.
Qed.
End termination.

(** ** Accepted filters do not mix operators *)

Section uniform.
Context `{Hft : field_table} (ttable : bool) (s : list byte).

Local Notation M := FilterCompiler.M.

(** An operator of [enum boolop]. *)
Definition op_ok (op : Z) : Prop := 0 <= op <= 5.

(** The checks of every expression are joined by one operator, negated or not. *)
Inductive uniform : node check -> Prop :=
| uniform_leaf op id c : op_ok op -> uniform (Leaf op id c)
| uniform_expr op id l :
    op_ok op -> get_expr_boolop (Expr op id l) <> -1 -> Forall uniform l -> uniform (Expr op id l).

Fixpoint frames_ok (fs : list frame) : Prop :=
  match fs with
  | [] => True
  | (op, cs) :: fs' => Forall uniform cs /\ (fs' <> [] -> op_ok op) /\ frames_ok fs'
  end.

Definition tree_ok (st : cstate) : Prop := op_ok (m_last_boolop st) /\ frames_ok (m_filter st).

Class Keeps {A} (m : M A) : Prop :=
  keeps : forall st a st', tree_ok st -> m st = Done (a, st') -> tree_ok st'.

#[export] Instance keeps_bind {A B} (m : M A) (g : A -> M B) :
  Keeps m -> (forall a, Keeps (g a)) -> Keeps (bind m g).
Proof.
  intros Hm Hg st b st' Hi E. unfold bind in E. destruct (m st) as [[a st1]| |] eqn:Em; [|done|done].
  by apply (Hg a st1 b st'); [apply (Hm st a)|].
Qed.

#[export] Instance keeps_if {A} (b : bool) (m1 m2 : M A) :
  Keeps m1 -> Keeps m2 -> Keeps (if b then m1 else m2).
Proof. by destruct b. Qed.

(** The scanner leaves the tree alone. *)
Lemma keeps_same {A} (m : M A) :
  (forall st a st', m st = Done (a, st') ->
     m_last_boolop st' = m_last_boolop st /\ m_filter st' = m_filter st) -> Keeps m.
Proof. intros H st a st' Hi E. apply H in E as [E1 E2]. unfold tree_ok. by rewrite E1, E2. Qed.

#[export] Instance keeps_ret {A} (a : A) : Keeps (ret a).
Proof. apply keeps_same. intros st b st' E. unfold ret in E. by simplify_eq. Qed.
#[export] Instance keeps_throw {A} : Keeps (@throw _ A).
Proof. done. Qed.
#[export] Instance keeps_get : Keeps get.
Proof. apply keeps_same. intros st b st' E. unfold get in E. by simplify_eq. Qed.
#[export] Instance keeps_move n : Keeps (move n).
Proof. apply keeps_same. intros st b st' E. unfold move, modify in E. by simplify_eq. Qed.
#[export] Instance keeps_next : Keeps (next s).
Proof. apply keeps_same. intros st b st' E. unfold next in E. by simplify_eq. Qed.
#[export] Instance keeps_cur_char : Keeps (cur_char s).
Proof. apply keeps_same. intros st b st' E. unfold cur_char in E. case_in E; by simplify_eq. Qed.
#[export] Instance keeps_skip_spaces : Keeps (skip_spaces s).
Proof. unfold skip_spaces. apply _. Qed.
#[export] Instance keeps_take_operand first inl : Keeps (take_operand s first inl).
Proof.
  apply keeps_same. intros st b st' E. unfold take_operand in E. set (q := starts_quoted _) in E.
  destruct (scan_word _ _ _ _ _ _ _); [|destruct q|]; by simplify_eq.
Qed.
#[export] Instance keeps_next_operand first inl : Keeps (next_operand s first inl).
Proof. unfold next_operand. apply _. Qed.
#[export] Instance keeps_first_operator ops : Keeps (first_operator s ops).
Proof.
  induction ops as [|[t op] ops IH]; [done|]. cbn [first_operator]. apply keeps_bind; [|apply _].
  apply keeps_same. intros st b st' E. unfold compare_no_consume in E. by simplify_eq.
Qed.
#[export] Instance keeps_operator : Keeps (next_comparison_operator s).
Proof. unfold next_comparison_operator. apply _. Qed.
#[export] Instance keeps_add_filter_value f co v : Keeps (add_filter_value f co v).
Proof. unfold add_filter_value. apply _. Qed.

Lemma keeps_modify (g : cstate -> cstate) :
  (forall st, op_ok (m_last_boolop st) -> op_ok (m_last_boolop (g st))) ->
  (forall st, m_filter (g st) = m_filter st) -> Keeps (modify g).
Proof.
  intros Hb Hg st a st' [Hop Hf] E. unfold modify in E. simplify_eq. split; [by apply Hb|by rewrite Hg].
Qed.

Lemma keeps_add_check n : uniform n -> Keeps (add_check n).
Proof.
  intros Hn st a st' [Hop Hf] E. unfold add_check in E.
  destruct (m_filter st) as [|[op cs] fs] eqn:Ef; [done|]. simplify_eq. split; [done|].
  destruct Hf as (Hcs & Hr & Hfs). cbn. split_and!; [|done|done]. apply Forall_app_2; auto.
Qed.

Lemma keeps_push op : op_ok op -> Keeps (push_expression op).
Proof.
  intros Ho st a st' [Hop Hf] E. unfold push_expression in E.
  destruct (m_filter st) as [|fr fs] eqn:Ef; [done|]. simplify_eq. split; [done|].
  cbn [m_filter set_filter frames_ok]. split_and!; [constructor|done|done].
Qed.

#[export] Instance keeps_pop : Keeps pop_expression.
Proof.
  intros st a st' [Hop Hf] E. unfold pop_expression in E.
  destruct (m_filter st) as [|[op cs] fs] eqn:Ef; [done|].
  destruct (get_expr_boolop (Expr op 0 cs) =? -1) eqn:Eb; [done|]. apply Z.eqb_neq in Eb.
  destruct Hf as (Hcs & Hr & Hfs). destruct fs as [|[op' cs'] fs]; simplify_eq; [done|].
  split; [done|]. destruct Hfs as (Hcs' & Hr' & Hfs). cbn. split_and!; [|done|done].
  apply Forall_app_2; [done|]. constructor; [|done]. constructor; auto.
Qed.

#[export] Instance keeps_value_list fuel use :
  (forall b v, Keeps (use b v)) -> forall first, Keeps (value_list s fuel use first).
Proof. intros Hu. induction fuel as [|fuel IH]; intros first; [done|]. cbn [value_list]. apply _. Qed.

Lemma keeps_parse_list f co op : op_ok op -> Keeps (parse_list s f co op).
Proof.
  intros Hop. unfold parse_list. apply keeps_bind; [apply _|]. intros _.
  apply keeps_bind; [apply _|]. intros c. apply keeps_if; [apply _|].
  apply keeps_bind; [apply _|]. intros _. apply keeps_if; [|apply keeps_if; [apply _|]].
  - apply keeps_bind; [apply _|]. intros vs. apply keeps_add_check. by constructor.
  - apply keeps_bind; [by apply keeps_push|]. intros _.
    apply keeps_bind; [by apply keeps_modify|]. intros _. apply keeps_bind.
    + apply keeps_value_list. intros b v. apply keeps_bind; [apply _|]. intros _.
      apply keeps_add_check. constructor. by destruct b.
    + intros _. apply keeps_bind; [apply _|]. intros _. by apply keeps_modify.
Qed.

Lemma keeps_parse_comparison f name op : op_ok op -> Keeps (parse_comparison s f name op).
Proof.
  intros Hop. assert (Hl : forall co vs, Keeps (add_check (Leaf op 0 (mk_check _ f co vs))))
    by (intros; apply keeps_add_check; by constructor).
  unfold parse_comparison. apply keeps_bind; [apply _|]. intros co.
  apply keeps_if; [apply _|]. apply keeps_if; [by apply keeps_parse_list|].
  apply keeps_if; apply keeps_bind; [apply _|auto|apply _|]. intros v. apply keeps_bind; [apply _|auto].
Qed.

(** A computation that goes on with a part of its state. *)
Lemma keeps_get_bind {A} (g : cstate -> M A) :
  (forall st, op_ok (m_last_boolop st) -> Keeps (g st)) -> Keeps (bind get g).
Proof. intros Hg st a st' Hi E. unfold bind, get in E. by apply (Hg st (proj1 Hi) st a). Qed.

#[export] Instance keeps_parse_check : Keeps (parse_check ttable s).
Proof.
  unfold parse_check. apply keeps_bind; [apply _|]. intros v. apply keeps_get_bind. intros st Hop.
  destruct (new_filter_check _) as [f|]; [|apply _]. apply keeps_if; [apply _|].
  by apply keeps_parse_comparison.
Qed.

#[export] Instance keeps_check_here : Keeps (check_here ttable s).
Proof. unfold check_here. apply keeps_bind; [apply _|]. intros _. by apply keeps_modify. Qed.

#[export] Instance keeps_letters l : Keeps (letters s l).
Proof. induction l as [|c l IH]; [apply _|]. cbn [letters next_is]. unfold next_is. apply _. Qed.

Lemma keeps_joiner rest op : op_ok op -> Keeps (joiner ttable s rest op).
Proof.
  intros Hop. unfold joiner. apply keeps_bind; [apply _|]. intros st. apply keeps_if; [|apply _].
  apply keeps_bind; [apply _|]. intros _. by apply keeps_modify.
Qed.

Lemma op_ok_not op : op_ok op -> op_ok (Z.lor op BO_NOT).
Proof.
  intros [H0 H5]. assert (H : op = 0 \/ op = 1 \/ op = 2 \/ op = 3 \/ op = 4 \/ op = 5) by lia.
  unfold op_ok. destruct H as [-> |[-> |[-> |[-> |[-> | ->]]]]]; done.
Qed.

#[export] Instance keeps_compile_char a : Keeps (compile_char ttable s a).
Proof.
  unfold compile_char. apply keeps_if; [apply keeps_get_bind; intros st Hop; apply keeps_if; [apply _|];
    apply keeps_bind; [by apply keeps_push|]; intros _; by apply keeps_modify|].
  apply keeps_if; [apply keeps_bind; [apply _|]; intros _; by apply keeps_modify|].
  apply keeps_if; [by apply keeps_joiner|]. apply keeps_if; [by apply keeps_joiner|].
  apply keeps_if; [|apply _]. apply keeps_bind; [apply _|]. intros _.
  apply keeps_modify; [|done]. intros st Hop. by apply op_ok_not.
Qed.

Lemma compile_step_keeps st st' : tree_ok st -> compile_step ttable s st = inl st' -> tree_ok st'.
Proof.
  intros Hi E. unfold compile_step in E. destruct (next s st) as [[a st1]| |] eqn:En; [|done|done].
  destruct (byte_eqb a x00); [done|].
  destruct (compile_char ttable s a st1) as [[u st2]| |] eqn:Ec; [|done|done]. simplify_eq.
  eapply keeps_compile_char; [|exact Ec]. by eapply keeps_next.
Qed.

(** Whatever the text, in the tree of a filter that compiles no expression, at
    any depth, mixes 'and' with 'or': of the checks from the second on all are joined
    by one operator; and every operator is one of [enum boolop]. *)
Theorem compiled_filters_uniform fuel init_boolop :
  match compile ttable s fuel init_boolop with
  | Some (Done (Expr op id l)) =>
      get_expr_boolop (Expr op id l) <> -1 /\ Forall uniform l
  | Some (Done (Leaf _ _ _)) => False
  | _ => True
  end.
Proof.
  unfold compile. destruct (run _ fuel _) as [r|] eqn:E; [|done].
  apply (run_inv _ tree_ok) in E as (st & Hi & Es);
    [|by apply compile_step_keeps|cbn; repeat split; by try constructor].
  unfold compile_step in Es. destruct (next s st) as [[a st1]| |] eqn:En; [|by simplify_eq..].
  destruct (byte_eqb a x00);
    [|destruct (compile_char ttable s a st1) as [[]| |]; by simplify_eq].
  apply (keeps_next st a st1 Hi) in En as [_ Hf]. unfold finish in Es.
  destruct (negb _); [by simplify_eq|]. destruct (need_expression _); [by simplify_eq|].
  destruct (m_filter st1) as [|[op cs] [|fr fs]]; [by simplify_eq| |by simplify_eq].
  destruct (_ =? -1) eqn:Eb; simplify_eq; [done|]. apply Z.eqb_neq in Eb. by destruct Hf.
Qed.
End uniform.
