(* ===== verification/FilterPrint.v ===== *)
(** * Writing filters: every abstract filter has a text that compiles to its meaning

    An abstract filter is a check or a group of filters, each possibly negated and
    joined by one operator.  [print_filter] writes it in the language of
    [sinsp_filter_compiler]; the compiler of [FilterCompiler] reads it back. *)

From Stdlib Require Import ZArith Lia List Bool String.
From Stdlib Require Import Strings.Byte.
From stdpp Require Import relations base tactics list numbers option.
From S2P Require Import Prelude Bytes Text Filter.
From S2P Require Import BlockIO FilterCompiler FilterSpec.
Import ListNotations.
Local Open Scope Z_scope.

(** ** Values *)

Definition literal (c : byte) : bool := negb (is_quote c || byte_eqb c backslash).

Definition escape_char (c : byte) : list byte :=
  if literal c then [c]
  else if byte_eqb c x22 then str "\x22"
  else if byte_eqb c "'"%byte then str "\x27"
  else str "\x5c".

(** A value in quotes; the quotes and the backslash in it are written by their
    codes. *)
Definition quote (v : list byte) : list byte := x22 :: concat (map escape_char v) ++ [x22].

Lemma scan_quoted inl v : forall res rest n,
  scan_word false inl true PES_NORMAL res (concat (map escape_char v) ++ x22 :: rest) n =
    ScanWord (n + Z.of_nat (length (concat (map escape_char v)))) x22 (res ++ v).
Proof.
  induction v as [|c v IH]; intros res rest n; cbn [map concat].
  - cbn. by rewrite Z.add_0_r, app_nil_r.
  - rewrite <- app_assoc, length_app, Nat2Z.inj_add, Z.add_assoc.
    change (c :: v) with ([c] ++ v). rewrite (app_assoc res), <- (IH _ rest). unfold escape_char.
    destruct (literal c) eqn:El; unfold literal in El.
    + apply negb_true_iff, orb_false_iff in El as [Eq Eb]. cbn [app scan_word].
      unfold end_of_word. cbn. by rewrite Eq, Eb.
    + assert (Hc : c = x22 \/ c = "'"%byte \/ c = backslash).
      { apply negb_false_iff, orb_true_iff in El as [El|El]; [|by right; right; apply byte_eqb_eq].
        unfold is_quote in El. apply orb_true_iff in El as [El|El]; apply byte_eqb_eq in El; auto. }
      destruct Hc as [-> | [-> | ->]]; cbn -[Z.add Z.of_nat]; f_equal; lia.
Qed.

Section print.
Context `{Hft : field_table} (ttable : bool).

(** ** Abstract filters *)

(** A check: a comparison with one value, of existence, or with a list of values,
    [in] or [pmatch]. *)
Inductive fcheck : Type :=
| CValue (name : list byte) (f : field) (co : cmpop) (v : list byte)
| CExists (name : list byte) (f : field)
| CList (name : list byte) (f : field) (pmatch : bool) (v : list byte) (vs : list (list byte)).

(** A filter; the flag of a member says that it is negated, [cj] that the members
    are joined by 'and'. *)
Inductive filter : Type :=
| FCheck (c : fcheck)
| FGroup (cj : bool) (first : bool * filter) (rest : list (bool * filter)).

Definition op_name (co : cmpop) : string :=
  match co with
  | CO_EQ => "=" | CO_NE => "!=" | CO_LE => "<=" | CO_LT => "<" | CO_GE => ">=" | CO_GT => ">"
  | CO_CONTAINS => "contains" | CO_ICONTAINS => "icontains" | CO_STARTSWITH => "startswith"
  | CO_ENDSWITH => "endswith" | CO_GLOB => "glob" | CO_IN => "in" | CO_INTERSECTS => "intersects"
  | CO_PMATCH => "pmatch" | CO_EXISTS => "exists" | CO_NONE => ""
  end%string.

(** The operators that take one value. *)
Definition value_op (co : cmpop) : bool :=
  match co with
  | CO_NONE | CO_IN | CO_INTERSECTS | CO_PMATCH | CO_EXISTS => false
  | _ => true
  end.

Fixpoint print_values (v : list byte) (vs : list (list byte)) : list byte :=
  match vs with [] => quote v | w :: ws => quote v ++ ","%byte :: print_values w ws end.

Definition list_op (pmatch : bool) : cmpop := if pmatch then CO_PMATCH else CO_IN.

Definition print_check (c : fcheck) : list byte :=
  match c with
  | CValue name _ co v => name ++ " "%byte :: str (op_name co) ++ " "%byte :: quote v
  | CExists name _ => name ++ " "%byte :: str "exists"
  | CList name _ pm v vs =>
      name ++ " "%byte :: str (op_name (list_op pm)) ++ " "%byte :: "("%byte :: print_values v vs
      ++ [")"%byte]
  end.

Fixpoint print (e : filter) : list byte :=
  match e with
  | FCheck c => print_check c
  | FGroup cj first rest =>
      let signed (x : bool * filter) := (if fst x then str "not " else []) ++ print (snd x) in
      "("%byte :: signed first
      ++ concat (map (fun x => str (if cj : bool then " and " else " or ") ++ signed x) rest)
      ++ [")"%byte]
  end.

Definition print_signed (x : bool * filter) : list byte :=
  (if fst x then str "not " else []) ++ print (snd x).

Definition print_rest (cj : bool) (rest : list (bool * filter)) : list byte :=
  concat (map (fun x => str (if cj : bool then " and " else " or ") ++ print_signed x) rest).

(** The text of a whole filter, which needs no brackets. *)
Definition print_filter (cj : bool) (first : bool * filter) (rest : list (bool * filter)) :
    list byte :=
  print_signed first ++ print_rest cj rest.

(** What the compiler asks of a field name: it is known, and the scanner takes it
    for one; a name cannot start with the [n] of 'not'. *)
Definition name_ok (name : list byte) (f : field) : Prop :=
  new_filter_check name = Some f /\ parse_field_name f name = true /\
  (ttable = true -> works_on_thread_table f = true \/ name ∈ time_fields) /\
  Forall (fun c => isblank c = false /\ is_special_char c = false /\ c <> x00) name /\
  match name with c :: _ => c <> "n"%byte /\ is_quote c = false | [] => False end.

Definition check_ok (c : fcheck) : Prop :=
  match c with
  | CValue name f co v => name_ok name f /\ value_op co = true /\ accepts f co v = true
  | CExists name f => name_ok name f
  | CList name f pm v vs =>
      name_ok name f /\ (pm = true -> is_charbuf f = true) /\
      Forall (fun v => accepts f (if is_charbuf f then list_op pm else CO_EQ) v = true) (v :: vs)
  end.

Inductive filter_ok : filter -> Prop :=
| ok_check c : check_ok c -> filter_ok (FCheck c)
| ok_group cj first rest :
    filter_ok (snd first) -> Forall (fun x => filter_ok (snd x)) rest ->
    filter_ok (FGroup cj first rest).

(** ** The tree of a filter *)

Definition sign (op : Z) (neg : bool) : Z := if neg then Z.lor op BO_NOT else op.
Definition join_op (cj : bool) : Z := if cj then BO_AND else BO_OR.

Definition check_node (op : Z) (c : fcheck) : node check :=
  match c with
  | CValue _ f co v => Leaf op 0 (mk_check _ f co [v])
  | CExists _ f => Leaf op 0 (mk_check _ f CO_EXISTS [])
  | CList _ f pm v vs =>
      if is_charbuf f then Leaf op 0 (mk_check _ f (list_op pm) (v :: vs))
      else Expr op 0 (Leaf BO_NONE 0 (mk_check _ f CO_EQ [v])
                      :: map (fun v => Leaf BO_OR 0 (mk_check _ f CO_EQ [v])) vs)
  end.

Fixpoint node_of (op : Z) (e : filter) : node check :=
  match e with
  | FCheck c => check_node op c
  | FGroup cj first rest =>
      Expr op 0 (node_of (sign BO_NONE (fst first)) (snd first)
                 :: map (fun x => node_of (sign (join_op cj) (fst x)) (snd x)) rest)
  end.

(** ** What a filter means *)

(** A list of values that the check does not take at once holds for one of them. *)
Definition denote_check (test : check -> bool) (c : fcheck) : bool :=
  match c with
  | CValue _ f co v => test (mk_check _ f co [v])
  | CExists _ f => test (mk_check _ f CO_EXISTS [])
  | CList _ f pm v vs =>
      if is_charbuf f then test (mk_check _ f (list_op pm) (v :: vs))
      else existsb (fun v => test (mk_check _ f CO_EQ [v])) (v :: vs)
  end.

Fixpoint denote (test : check -> bool) (e : filter) : bool :=
  match e with
  | FCheck c => denote_check test c
  | FGroup cj first rest =>
      let signed (x : bool * filter) := xorb (fst x) (denote test (snd x)) in
      if cj : bool then signed first && forallb signed rest
      else signed first || existsb signed rest
  end.

Section filter_ind.
Context (P : filter -> Prop).
Hypothesis HC : forall c, P (FCheck c).
Hypothesis HG : forall cj first rest,
  P (snd first) -> Forall (fun x => P (snd x)) rest -> P (FGroup cj first rest).

Fixpoint filter_ind' (e : filter) : P e :=
  match e with
  | FCheck c => HC c
  | FGroup cj first rest =>
      HG cj first rest (filter_ind' (snd first))
        ((fix go (l : list (bool * filter)) : Forall (fun x => P (snd x)) l :=
           match l with
           | [] => Forall_nil_2 _
           | x :: l' => Forall_cons_2 _ x l' (filter_ind' (snd x)) (go l')
           end) rest)
  end.
End filter_ind.

Lemma node_of_op op e : m_boolop (node_of op e) = op.
Proof. destruct e as [[]|]; cbn; try done. by destruct (is_charbuf _). Qed.

Lemma joins_sign op neg e : joins op (node_of (sign op neg) e).
Proof. unfold joins, sign. rewrite node_of_op. destruct neg; auto. Qed.

Lemma joins_members cj rest :
  Forall (joins (join_op cj)) (map (fun x => node_of (sign (join_op cj) (fst x)) (snd x)) rest).
Proof. apply Forall_forall. intros n Hn. apply in_map_iff in Hn as (x & <- & _). apply joins_sign. Qed.

Lemma node_of_wf e : forall op, well_formed (node_of op e).
Proof.
  induction e as [c|cj first rest IHf IHr] using filter_ind'; intros op; cbn [node_of].
  - destruct c; cbn; try constructor. destruct (is_charbuf f); [constructor|].
    apply (wf_expr _ _ _ _ false); [by left| |constructor|];
      apply Forall_forall; intros n Hn; apply in_map_iff in Hn as (w & <- & _);
      [by left|constructor].
  - apply (wf_expr _ _ _ _ cj); [apply joins_sign|exact (joins_members cj rest)|done|].
    apply Forall_forall. intros n Hn. apply in_map_iff in Hn as (x & <- & Hx).
    rewrite Forall_forall in IHr. by apply IHr.
Qed.

Lemma negated_sign cj neg e :
  negated (node_of (sign BO_NONE neg) e) = neg /\ negated (node_of (sign (join_op cj) neg) e) = neg.
Proof. unfold negated. rewrite !node_of_op. by destruct cj, neg. Qed.

Lemma existsb_map {A B} (g : A -> B) h l : existsb h (map g l) = existsb (fun x => h (g x)) l.
Proof. induction l as [|x l IH]; simpl; [done|by rewrite IH]. Qed.
Lemma forallb_map {A B} (g : A -> B) h l : forallb h (map g l) = forallb (fun x => h (g x)) l.
Proof. induction l as [|x l IH]; simpl; [done|by rewrite IH]. Qed.
Lemma existsb_ext_in {A} (g h : A -> bool) l : Forall (fun x => g x = h x) l -> existsb g l = existsb h l.
Proof. induction 1 as [|x l Hx _ IH]; simpl; [done|by rewrite Hx, IH]. Qed.
Lemma forallb_ext_in {A} (g h : A -> bool) l : Forall (fun x => g x = h x) l -> forallb g l = forallb h l.
Proof. induction 1 as [|x l Hx _ IH]; simpl; [done|by rewrite Hx, IH]. Qed.

(** The tree of a filter means what the filter means. *)
Lemma node_of_holds test e : forall op, holds test (node_of op e) = denote test e.
Proof.
  induction e as [c|cj first rest IHf IHr] using filter_ind'; intros op; cbn [node_of].
  - destruct c as [| |name f pm v vs]; try done. cbn [check_node denote denote_check].
    destruct (is_charbuf f); [done|]. rewrite holds_disj.
    + cbn. by rewrite existsb_map.
    + apply Forall_forall. intros n Hn. apply in_map_iff in Hn as (w & <- & _). by left.
  - assert (Hrest : Forall (fun x => signed test (node_of (sign (join_op cj) (fst x)) (snd x)) =
      xorb (fst x) (denote test (snd x))) rest).
    { eapply Forall_impl; [|exact IHr]. intros x Hx. cbn beta in Hx. unfold signed.
      by rewrite (proj2 (negated_sign cj _ _)), Hx. }
    cbn [denote]. pose proof (joins_members cj rest) as Hj. destruct cj.
    + rewrite holds_conj by done. unfold signed at 1. rewrite (proj1 (negated_sign true _ _)), IHf.
      by rewrite forallb_map, (forallb_ext_in _ _ _ Hrest).
    + rewrite holds_disj by done. unfold signed at 1. rewrite (proj1 (negated_sign true _ _)), IHf.
      by rewrite existsb_map, (existsb_ext_in _ _ _ Hrest).
Qed.
End print.

(** ** Reading it back *)

Section read.
Context `{Hft : field_table} (ttable : bool) (s : list byte).

Local Notation from := (from s).

Lemma from_app p x l : 0 <= p -> from p = x ++ l -> from (p + Z.of_nat (length x)) = l.
Proof.
  intros Hp E. rewrite from_add, E, Nat2Z.id by lia. by rewrite drop_app_length.
Qed.

Lemma from_cons p c l : 0 <= p -> from p = c :: l -> from (p + 1) = l.
Proof. intros Hp E. by apply (from_app p [c] l). Qed.

Lemma cur_char_at p c l t b n fs :
  0 <= p -> from p = c :: l -> cur_char s (mk_cstate p t b n fs) = Done (c, mk_cstate p t b n fs).
Proof.
  intros Hp E. pose proof (from_size s p c l Hp E). unfold cur_char. cbn [m_scanpos].
  rewrite (proj2 (Z.ltb_ge p 0)), (proj2 (Z.ltb_ge (m_scansize s) p)) by lia. by rewrite E.
Qed.

Lemma blanks_app bs c l :
  Forall (fun c => isblank c = true) bs -> isblank c = false ->
  blanks (bs ++ c :: l) = Z.of_nat (length bs).
Proof.
  intros Hb Hc. induction Hb as [|x bs Hx _ IH]; simpl; [by rewrite Hc|]. rewrite Hx, IH. lia.
Qed.

Lemma next_at p bs c l t b n fs :
  -1 <= p -> from (p + 1) = bs ++ c :: l -> Forall (fun c => isblank c = true) bs ->
  isblank c = false ->
  next s (mk_cstate p t b n fs) = Done (c, mk_cstate (p + 1 + Z.of_nat (length bs)) t b n fs).
Proof.
  intros Hp E Hb Hc. unfold next. cbn [m_scanpos]. rewrite E, blanks_app by done.
  rewrite (from_app (p + 1) bs (c :: l)) by (done || lia). done.
Qed.

Lemma next_char p c l t b n fs :
  -1 <= p -> from (p + 1) = c :: l -> isblank c = false ->
  next s (mk_cstate p t b n fs) = Done (c, mk_cstate (p + 1) t b n fs).
Proof.
  intros Hp E Hc. rewrite (next_at p [] c l) by done. simpl. by rewrite Z.add_0_r.
Qed.

Lemma skip_spaces_none p c l t b n fs :
  0 <= p -> from p = c :: l -> isblank c = false ->
  skip_spaces s (mk_cstate p t b n fs) = Done (tt, mk_cstate p t b n fs).
Proof.
  intros Hp E Hc. unfold skip_spaces, bind. rewrite (cur_char_at p c l) by done. by rewrite Hc.
Qed.

Lemma skip_spaces_one p c l t b n fs :
  0 <= p -> from p = " "%byte :: c :: l -> isblank c = false ->
  skip_spaces s (mk_cstate p t b n fs) = Done (tt, mk_cstate (p + 1) t b n fs).
Proof.
  intros Hp E Hc. unfold skip_spaces, bind. rewrite (cur_char_at p " "%byte (c :: l)) by done.
  change (isblank " "%byte) with true. cbv beta iota.
  rewrite (next_char p c l); [done|lia|by apply from_cons with (c := " "%byte)|done].
Qed.

Lemma scan_name name : forall res l n,
  Forall (fun c => isblank c = false /\ is_special_char c = false /\ c <> x00) name ->
  scan_word true false false PES_NORMAL res (name ++ " "%byte :: l) n =
    ScanWord (n + Z.of_nat (length name)) " "%byte (res ++ name).
Proof.
  induction name as [|c name IH]; intros res l n Hn.
  - cbn. by rewrite Z.add_0_r, app_nil_r.
  - apply Forall_cons_1 in Hn as [(Hb & Hs & _) Hn]. cbn [app scan_word]. unfold end_of_word.
    rewrite Hb, Hs, andb_false_r. cbn [orb]. rewrite IH by done.
    rewrite <- app_assoc. f_equal. simpl length. lia.
Qed.

Lemma operand1_read p name f l t b n fs :
  0 <= p -> name_ok ttable name f -> from p = name ++ " "%byte :: l ->
  next_operand s true false (mk_cstate p t b n fs) =
    Done (name, mk_cstate (p + Z.of_nat (length name)) t b n fs).
Proof.
  intros Hp (_ & _ & _ & Hc & Hh) E. destruct name as [|c name]; [done|]. destruct Hh as [_ Hq].
  unfold next_operand, bind. rewrite (skip_spaces_none p c (name ++ " "%byte :: l));
    [|done|done|by apply Forall_cons_1 in Hc as [[? _] _]].
  unfold take_operand. cbn [m_scanpos]. rewrite E. unfold starts_quoted. cbn [app]. rewrite Hq.
  rewrite Z.add_0_r, E, scan_name by done. cbn. by rewrite Z.sub_0_r.
Qed.

Lemma c_string_name name f : name_ok ttable name f -> c_string name = name.
Proof.
  intros (_ & _ & _ & Hc & _). apply c_string_id. intros Hin.
  rewrite Forall_forall in Hc. apply list_elem_of_In, Hc in Hin. tauto.
Qed.

(** The operator behind a name. *)
Lemma first_operator_skip p x co ops t b n fs :
  take (length (str x)) (from p) <> str x ->
  first_operator s ((x, co) :: ops) (mk_cstate p t b n fs) =
    first_operator s ops (mk_cstate p t b n fs).
Proof.
  intros H. cbn [first_operator]. unfold bind, compare_no_consume. cbn [m_scanpos].
  by rewrite bool_decide_false.
Qed.

Lemma first_operator_hit p x co ops t b n fs l :
  from p = str x ++ l ->
  first_operator s ((x, co) :: ops) (mk_cstate p t b n fs) =
    Done (co, mk_cstate (p + Z.of_nat (length (str x))) t b n fs).
Proof.
  intros E. cbn [first_operator]. unfold bind, compare_no_consume. cbn [m_scanpos].
  rewrite E, take_app_length, bool_decide_true by done. done.
Qed.

Lemma operator_read p co l t b n fs :
  0 <= p -> co <> CO_NONE -> co <> CO_INTERSECTS ->
  (co = CO_EXISTS \/ exists l', l = " "%byte :: l') ->
  from p = " "%byte :: str (op_name co) ++ l ->
  next_comparison_operator s (mk_cstate p t b n fs) =
    Done (co, mk_cstate (p + 1 + Z.of_nat (length (str (op_name co)))) t b n fs).
Proof.
  intros Hp Hn Hi Hl E. unfold next_comparison_operator, bind.
  assert (Hop : exists c l', str (op_name co) = c :: l' /\ isblank c = false)
    by (destruct co; try done; by do 2 eexists).
  destruct Hop as (c & l0 & Hop & Hc).
  rewrite (skip_spaces_one p c (l0 ++ l)) by (try done; by rewrite E, Hop).
  apply from_cons in E; [|done]. unfold operators.
  destruct co; try done;
    (destruct Hl as [?|[l' ->]]; [done|] || clear Hl);
    repeat (rewrite first_operator_skip by (rewrite E; discriminate));
    apply (first_operator_hit _ _ _ _ _ _ _ _ _ E).
Qed.

(** A value in quotes. *)
Lemma length_quote v : Z.of_nat (length (quote v)) = Z.of_nat (length (concat (map escape_char v))) + 2.
Proof. unfold quote. simpl length. rewrite length_app. simpl. lia. Qed.

Lemma take_value p inl v l t b n fs :
  0 <= p -> from p = quote v ++ l ->
  take_operand s false inl (mk_cstate p t b n fs) =
    Done (v, mk_cstate (p + Z.of_nat (length (quote v)) - 1) t b n fs).
Proof.
  intros Hp E. unfold take_operand. cbn [m_scanpos].
  assert (Eq : from p = x22 :: concat (map escape_char v) ++ x22 :: l)
    by (rewrite E; unfold quote; simpl; by rewrite <- app_assoc).
  rewrite Eq. cbn [starts_quoted]. change (is_quote x22) with true. cbv iota.
  rewrite (from_cons p _ _ Hp Eq), scan_quoted. cbn [app].
  assert (Hk : is_bracket x22 || inl && byte_eqb x22 ","%byte = false) by (by destruct inl).
  rewrite Hk, length_quote. do 2 f_equal. unfold set_pos. cbn. f_equal. lia.
Qed.

Lemma value_read p inl v l t b n fs :
  0 <= p -> from p = quote v ++ l ->
  next_operand s false inl (mk_cstate p t b n fs) =
    Done (v, mk_cstate (p + Z.of_nat (length (quote v)) - 1) t b n fs).
Proof.
  intros Hp E. unfold next_operand, bind. unfold quote in E at 1. cbn [app] in E.
  rewrite (skip_spaces_none p _ _ _ _ _ _ Hp E) by done. by apply take_value with (l := l).
Qed.

Lemma value_read_blank p v l t b n fs :
  0 <= p -> from p = " "%byte :: quote v ++ l ->
  next_operand s false false (mk_cstate p t b n fs) =
    Done (v, mk_cstate (p + Z.of_nat (length (quote v))) t b n fs).
Proof.
  intros Hp E. unfold next_operand, bind.
  rewrite (skip_spaces_one p x22 (concat (map escape_char v) ++ [x22] ++ l));
    [|done|by rewrite E; unfold quote; simpl; rewrite <- app_assoc|done].
  rewrite (take_value (p + 1) false v l) by (lia || by apply from_cons in E).
  do 3 f_equal. lia.
Qed.

(** The list of an [in]; a value adds the checks [adds] to the open expression. *)
Lemma value_list_read use adds (Q : list byte -> Prop) :
  (forall first v p t b n op cs fs, Q v ->
     use first v (mk_cstate p t b n ((op, cs) :: fs)) =
       Done (tt, mk_cstate p t b n ((op, cs ++ adds first v) :: fs))) ->
  forall vs v fuel (first : bool) p t b n op cs fs l,
  (length vs < fuel)%nat -> Forall Q (v :: vs) -> 0 <= p ->
  from p = print_values v vs ++ ")"%byte :: l ->
  exists p', value_list s fuel use first (mk_cstate p t b n ((op, cs) :: fs)) =
    Done (v :: vs, mk_cstate p' t b n
      ((op, cs ++ adds first v ++ concat (map (adds false) vs)) :: fs)) /\
    0 <= p' /\ from (p' + 1) = l.
Proof.
  intros Hu vs. induction vs as [|w vs IH]; intros v fuel first p t b n op cs fs l Hf HQ Hp E;
    (destruct fuel as [|fuel]; [simpl in Hf; lia|]); apply Forall_cons_1 in HQ as [Hv HQ];
    cbn [value_list print_values] in *; unfold bind.
  - rewrite (value_read p true v (")"%byte :: l)) by done. cbv beta iota. rewrite Hu by done.
    pose proof (from_app p (quote v) _ Hp E) as E1. pose proof (length_quote v).
    set (q := p + Z.of_nat (length (quote v)) - 1) in *.
    replace (p + Z.of_nat (length (quote v))) with (q + 1) in E1 by lia.
    rewrite (next_char q ")"%byte l) by (done || lia).
    rewrite (cur_char_at (q + 1) ")"%byte l) by (done || lia). cbn.
    exists (q + 1). rewrite app_nil_r. split_and!; [done|lia|]. by apply from_cons in E1; [|lia].
  - rewrite <- app_assoc in E. cbn [app] in E.
    rewrite (value_read p true v _ _ _ _ _ Hp E). cbv beta iota. rewrite Hu by done.
    pose proof (from_app p (quote v) _ Hp E) as E1. pose proof (length_quote v).
    set (q := p + Z.of_nat (length (quote v)) - 1) in *.
    replace (p + Z.of_nat (length (quote v))) with (q + 1) in E1 by lia.
    rewrite (next_char q _ _ _ _ _ _ ltac:(lia) E1) by done.
    rewrite (cur_char_at (q + 1) _ _ _ _ _ _ ltac:(lia) E1).
    apply from_cons in E1; [|lia]. cbn [byte_eqb]. change (byte_eqb "," ")") with false.
    change (byte_eqb "," ",") with true. cbv beta iota. unfold move, modify, set_pos. cbn [m_scanpos m_state m_last_boolop m_nest_level m_filter].
    destruct (IH w fuel false (q + 1 + 1) t b n op (cs ++ adds first v) fs l) as (p' & Ev & Hp' & El);
      [simpl in Hf; lia|done|lia|done|].
    exists p'. rewrite Ev. cbn [map concat]. rewrite <- app_assoc. done.
Qed.

Lemma length_print_values vs : forall v, (length vs < length (print_values v vs))%nat.
Proof.
  induction vs as [|w vs IH]; intros v; cbn [print_values]; [simpl; lia|].
  rewrite length_app. specialize (IH w). simpl. lia.
Qed.

Lemma from_length p x l : from p = x ++ l -> (length x <= length s)%nat.
Proof.
  intros E. apply (f_equal length) in E. unfold FilterCompiler.from in E.
  rewrite length_drop, length_app in E. lia.
Qed.

Lemma not_mixed op k (x : node check) rest :
  op <> -1 -> k <> -1 -> Forall (fun c => Z.land (m_boolop c) (Z.lnot 1) = k) rest ->
  (get_expr_boolop (Expr op 0 (x :: rest)) =? -1) = false.
Proof.
  intros Hop Hk Hr. apply Z.eqb_neq. cbn [get_expr_boolop]. destruct rest as [|c rest]; [done|].
  apply Forall_cons_1 in Hr as [Hc Hr]. rewrite Hc. replace (forallb _ rest) with true; [done|].
  symmetry. apply forallb_forall. rewrite Forall_forall in Hr. intros y Hy.
  apply Z.eqb_eq. by apply Hr.
Qed.

Lemma list_read p f pm v vs l t b n op op' cs fs :
  0 <= p -> 0 <= op -> (pm = true -> is_charbuf f = true) ->
  Forall (fun v => accepts f (if is_charbuf f then list_op pm else CO_EQ) v = true) (v :: vs) ->
  from p = " "%byte :: "("%byte :: print_values v vs ++ ")"%byte :: l ->
  exists p' b', parse_list s f (list_op pm) op (mk_cstate p t b n ((op', cs) :: fs)) =
    Done (tt, mk_cstate p' t b' n
      ((op', cs ++ [check_node op (CList [] f pm v vs)]) :: fs)) /\
    0 <= p' /\ from (p' + 1) = l /\ (b' = b \/ b' = BO_NONE).
Proof.
  intros Hp Hop Hpm Ha E. unfold parse_list, bind.
  rewrite (skip_spaces_one p _ _ _ _ _ _ Hp E) by done. apply from_cons in E; [|done].
  rewrite (cur_char_at (p + 1) _ _ _ _ _ _ ltac:(lia) E). change (byte_eqb "(" "(") with true.
  cbn [negb]. unfold move, modify, set_pos. cbn [m_scanpos m_state m_last_boolop m_nest_level m_filter].
  apply from_cons in E; [|lia].
  assert (Hfuel : (length vs < list_fuel s)%nat).
  { pose proof (from_length _ _ _ E). pose proof (length_print_values vs v). unfold list_fuel. lia. }
  unfold check_node. destruct (is_charbuf f) eqn:Ec.
  - destruct (value_list_read (fun _ v => add_filter_value f (list_op pm) v) (fun _ _ => [])
      (fun v => accepts f (list_op pm) v = true)) with (vs := vs) (v := v) (fuel := list_fuel s)
      (first := true) (p := p + 1 + 1) (t := t) (b := b) (n := n) (op := op') (cs := cs) (fs := fs)
      (l := l) as (p' & Ev & Hp' & El); [|done|done|lia|done|].
    { intros first w q t0 b0 n0 op0 cs0 fs0 Hw. unfold add_filter_value. by rewrite Hw, app_nil_r. }
    rewrite Ev. exists p', b. split_and!; [|done|done|by auto]. unfold add_check, set_filter. cbn.
    replace (concat (map (fun _ : list byte => []) vs)) with (@nil (node check));
      [by rewrite app_nil_r|]. clear. by induction vs.
  - rewrite bool_decide_false by (destruct pm; [by specialize (Hpm eq_refl)|done]).
    unfold push_expression, set_filter, set_nest, set_boolop.
    cbv beta iota. cbn [m_scanpos m_state m_last_boolop m_nest_level m_filter].
    set (add := fun (first : bool) v => [Leaf (if first then BO_NONE else BO_OR) 0 (mk_check _ f CO_EQ [v])]).
    destruct (value_list_read (fun first v => bind (add_filter_value f CO_EQ v) (fun _ =>
        add_check (Leaf (if first : bool then BO_NONE else BO_OR) 0 (mk_check _ f CO_EQ [v])))) add
      (fun v => accepts f CO_EQ v = true)) with (vs := vs) (v := v) (fuel := list_fuel s)
      (first := true) (p := p + 1 + 1) (t := t) (b := BO_NONE) (n := n + 1) (op := op)
      (cs := @nil (node check)) (fs := (op', cs) :: fs) (l := l) as (p' & Ev & Hp' & El); [|done|done|lia|done|].
    { intros first w q t0 b0 n0 op0 cs0 fs0 Hw. unfold add_filter_value, bind. by rewrite Hw. }
    setoid_rewrite Ev. exists p', BO_NONE. split_and!; [|done|done|by auto].
    unfold pop_expression, set_filter. cbn [m_scanpos m_state m_last_boolop m_nest_level m_filter app].
    assert (Hmap : concat (map (add false) vs) =
      map (fun v => Leaf BO_OR 0 (mk_check _ f CO_EQ [v])) vs) by (clear; induction vs; simpl; congruence).
    rewrite Hmap. unfold add at 1 2. cbn [app]. rewrite (not_mixed op BO_OR); [|lia|done|].
    + do 3 f_equal. cbn. lia.
    + apply Forall_forall. intros x Hx. apply in_map_iff in Hx as (w & <- & _). done.
Qed.

(** A name is read and looked up. *)
Lemma check_start p name f rest t b n fs :
  0 <= p -> name_ok ttable name f -> from p = name ++ " "%byte :: rest ->
  parse_check ttable s (mk_cstate p t b n fs) =
    parse_comparison s f name b (mk_cstate (p + Z.of_nat (length name)) t b n fs).
Proof.
  intros Hp Hname E. unfold parse_check, bind at 1. rewrite (operand1_read p name f rest) by done.
  rewrite (c_string_name name f) by done. unfold bind, get.
  pose proof Hname as (Hnew & _ & Htt & _). rewrite Hnew. cbn [m_last_boolop].
  replace (_ && _) with false; [done|]. symmetry. destruct ttable; [|done].
  destruct (Htt eq_refl) as [-> |Hin]; [done|]. by rewrite (bool_decide_true _ Hin), andb_false_r.
Qed.

(** A check. *)
Lemma check_read p c l t b n op cs fs :
  0 <= p -> 0 <= b -> check_ok ttable c -> from p = print_check c ++ l ->
  exists p' b', parse_check ttable s (mk_cstate p t b n ((op, cs) :: fs)) =
    Done (tt, mk_cstate p' t b' n ((op, cs ++ [check_node b c]) :: fs)) /\
    0 <= p' /\ from (p' + 1) = l /\ (b' = b \/ b' = BO_NONE).
Proof.
  intros Hp Hb Hok E.
  assert (Hn : exists name f rest, name_ok ttable name f /\
    print_check c ++ l = name ++ " "%byte :: rest /\
    forall q, 0 <= q -> from q = " "%byte :: rest ->
      exists p' b', parse_comparison s f name b (mk_cstate q t b n ((op, cs) :: fs)) =
        Done (tt, mk_cstate p' t b' n ((op, cs ++ [check_node b c]) :: fs)) /\
        0 <= p' /\ from (p' + 1) = l /\ (b' = b \/ b' = BO_NONE)).
  2: { destruct Hn as (name & f & rest & Hname & Hpr & Hcmp). rewrite Hpr in E.
       rewrite (check_start p name f rest) by done.
       apply Hcmp; [lia|]. by apply from_app. }
  clear E p Hp. destruct c as [name f co v|name f|name f pm v vs]; cbn [print_check check_ok] in *.
  - destruct Hok as (Hname & Hv & Ha). exists name, f, (str (op_name co) ++ " "%byte :: quote v ++ l).
    split; [done|]. split; [by rewrite <- !app_assoc; cbn [app]; rewrite <- app_assoc|].
    intros q Hq E. unfold parse_comparison, bind.
    rewrite (operator_read q co (" "%byte :: quote v ++ l)); [|done|by destruct co|by destruct co|right; by eexists|done].
    destruct Hname as (_ & -> & _). cbn [negb].
    assert (Hco : co ∉ [CO_IN; CO_INTERSECTS; CO_PMATCH] /\ co <> CO_EXISTS).
    { destruct co; try done; (split; [|done]); by apply (bool_decide_unpack _). }
    rewrite !bool_decide_false by tauto.
    apply from_cons in E; [|done]. apply (from_app (q + 1)) in E; [|lia].
    set (r := q + 1 + _) in *. assert (Hr : 0 <= r) by (unfold r; lia). clearbody r.
    rewrite (value_read_blank r v l) by done. unfold add_filter_value. rewrite Ha.
    eexists (r + _), _. split; [reflexivity|]. split; [lia|].
    apply from_cons in E; [|done]. apply (from_app (r + 1)) in E; [|lia].
    split; [|by left]. rewrite <- E. f_equal. lia.
  - exists name, f, (str "exists" ++ l). split; [done|]. split; [by rewrite <- app_assoc|].
    intros q Hq E. unfold parse_comparison, bind.
    rewrite (operator_read q CO_EXISTS l) by (done || by left).
    destruct Hok as (_ & -> & _). cbn [negb].
    rewrite bool_decide_false by (by apply (bool_decide_unpack _)).
    rewrite bool_decide_true by done. do 2 eexists. split; [reflexivity|]. split; [simpl; lia|].
    apply from_cons in E; [|done]. apply (from_app (q + 1)) in E; [|lia].
    split; [|by left]. rewrite <- E. f_equal. simpl. lia.
  - destruct Hok as (Hname & Hpm & Ha).
    exists name, f, (str (op_name (list_op pm)) ++ " "%byte :: "("%byte :: print_values v vs ++ ")"%byte :: l).
    split; [done|]. split; [rewrite <- app_assoc; cbn [app]; do 2 f_equal; rewrite <- app_assoc; cbn [app];
      do 3 f_equal; by rewrite <- app_assoc|].
    intros q Hq E. unfold parse_comparison, bind.
    rewrite (operator_read q (list_op pm) (" "%byte :: "("%byte :: print_values v vs ++ ")"%byte :: l));
      [|done|by destruct pm|by destruct pm|right; by eexists|done].
    destruct Hname as (_ & -> & _). cbn [negb].
    rewrite bool_decide_true by (destruct pm; by apply (bool_decide_unpack _)).
    apply from_cons in E; [|done]. apply (from_app (q + 1)) in E; [|lia].
    apply (list_read _ f pm v vs l); [lia|done|done|done|done].
Qed.

(** ** The loop of [compile_] *)

Definition steps (st st' : cstate) : Prop :=
  rtc (fun x y => compile_step ttable s x = inl y) st st'.

Lemma steps_trans a b c : steps a b -> steps b c -> steps a c.
Proof. unfold steps. intros. by etransitivity. Qed.

Lemma step_at p bs a l t b n fs u st' :
  -1 <= p -> from (p + 1) = bs ++ a :: l -> Forall (fun c => isblank c = true) bs ->
  isblank a = false -> a <> x00 ->
  compile_char ttable s a (mk_cstate (p + 1 + Z.of_nat (length bs)) t b n fs) = Done (u, st') ->
  steps (mk_cstate p t b n fs) st'.
Proof.
  intros Hp E Hb Ha H0 Hc. apply rtc_once. unfold compile_step.
  rewrite (next_at p bs a l) by done. by rewrite (proj2 (byte_eqb_neq a x00) H0), Hc.
Qed.

Lemma letters_read w : forall p l t b n fs,
  -1 <= p -> Forall (fun c => isblank c = false) w -> from (p + 1) = w ++ l ->
  letters s w (mk_cstate p t b n fs) = Done (tt, mk_cstate (p + Z.of_nat (length w)) t b n fs).
Proof.
  induction w as [|c w IH]; intros p l t b n fs Hp Hw E; cbn [letters].
  - simpl. by rewrite Z.add_0_r.
  - apply Forall_cons_1 in Hw as [Hc Hw]. unfold bind, next_is, bind.
    rewrite (next_char p c (w ++ l)) by done. unfold ret. rewrite byte_eqb_refl.
    rewrite (IH (p + 1) l) by (lia || done || by apply from_cons in E; [|lia]).
    do 3 f_equal. simpl length. lia.
Qed.

Lemma check_char c :
  byte_eqb c "("%byte = false -> byte_eqb c ")"%byte = false -> c <> "n"%byte ->
  forall p b n fs, compile_char ttable s c (mk_cstate p ST_NEED_EXPRESSION b n fs) =
    check_here ttable s (mk_cstate p ST_NEED_EXPRESSION b n fs).
Proof.
  intros Ho Hc Hn p b n fs. unfold compile_char. rewrite Ho, Hc.
  rewrite (proj2 (byte_eqb_neq c "n"%byte) Hn).
  destruct (byte_eqb c "o"%byte); [|destruct (byte_eqb c "a"%byte)];
    unfold joiner, bind, get; cbn; rewrite ?andb_false_r; done.
Qed.

(** The checks of a filter are read in place. *)
Definition reads_back (e : filter) : Prop := forall bs p b n op cs fs l,
  filter_ok ttable e -> -1 <= p -> 0 <= b -> Forall (fun c => isblank c = true) bs ->
  from (p + 1) = bs ++ print e ++ l ->
  exists p' b', steps (mk_cstate p ST_NEED_EXPRESSION b n ((op, cs) :: fs))
    (mk_cstate p' ST_EXPRESSION_DONE b' n ((op, cs ++ [node_of b e]) :: fs)) /\
    0 <= p' /\ from (p' + 1) = l.

Lemma print_check_head c l : check_ok ttable c -> exists x r, print_check c ++ l = x :: r /\
  isblank x = false /\ x <> x00 /\ byte_eqb x "("%byte = false /\ byte_eqb x ")"%byte = false /\
  x <> "n"%byte.
Proof.
  intros Hok.
  assert (Hn : exists name f r, name_ok ttable name f /\ print_check c ++ l = name ++ r).
  { destruct c as [name f co v|name f|name f pm v vs]; cbn [print_check]; exists name, f;
      eexists; (split; [try apply Hok|by rewrite <- app_assoc]). }
  destruct Hn as (name & f & r & (_ & _ & _ & Hc & Hh) & E). destruct name as [|x name]; [done|].
  apply Forall_cons_1 in Hc as [(Hb & Hs & H0) _]. exists x, (name ++ r). rewrite E.
  unfold is_special_char, is_bracket in Hs. rewrite !orb_false_iff in Hs. tauto.
Qed.

Lemma reads_check_op bs p b n op cs fs l c :
  check_ok ttable c -> -1 <= p -> 0 <= b -> Forall (fun c => isblank c = true) bs ->
  from (p + 1) = bs ++ print_check c ++ l ->
  exists p' b', steps (mk_cstate p ST_NEED_EXPRESSION b n ((op, cs) :: fs))
    (mk_cstate p' ST_EXPRESSION_DONE b' n ((op, cs ++ [check_node b c]) :: fs)) /\
    0 <= p' /\ from (p' + 1) = l /\ (b' = b \/ b' = BO_NONE).
Proof.
  intros Hc Hp Hb0 Hb E.
  destruct (print_check_head c l Hc) as (x & r & Ex & Hx & Hx0 & Ho & Hcl & Hxn).
  pose proof E as E'. rewrite Ex in E'. set (q := p + 1 + Z.of_nat (length bs)).
  apply (from_app (p + 1)) in E; [|lia].
  destruct (check_read q c l ST_NEED_EXPRESSION b n op cs fs) as (p' & b' & Er & Hp' & El & Hb');
    [unfold q; lia|done|done|done|].
  exists p', b'. split; [|done]. eapply (step_at p bs x r); try done.
  fold q. rewrite check_char by done. unfold check_here, bind. by rewrite Er.
Qed.

Lemma reads_check c : reads_back (FCheck c).
Proof.
  intros bs p b n op cs fs l Hok Hp Hb0 Hb E. inversion Hok as [? Hc|]; subst. cbn [print] in E.
  destruct (reads_check_op bs p b n op cs fs l c) as (p' & b' & Hst & Hp' & El & _); [done..|].
  by exists p', b'.
Qed.

(** A 'not' is read at once, whatever is before it. *)
Lemma reads_not bs p t b n fs l :
  -1 <= p -> Forall (fun c => isblank c = true) bs -> from (p + 1) = bs ++ str "not " ++ l ->
  exists q, steps (mk_cstate p t b n fs)
    (mk_cstate q ST_NEED_EXPRESSION (Z.lor b BO_NOT) n fs) /\ 0 <= q /\ from (q + 1) = " "%byte :: l.
Proof.
  intros Hp Hb E. set (q := p + 1 + Z.of_nat (length bs)).
  assert (Eq : from q = str "not" ++ " "%byte :: l).
  { apply (from_app (p + 1)) in E; [|lia]. exact E. }
  assert (Hq : 0 <= q) by (unfold q; lia).
  exists (q + 2). split_and!; [|lia|].
  - eapply (step_at p bs "n"%byte (str "ot" ++ " "%byte :: l)); [done|exact E|done|done|done|].
    fold q. unfold compile_char. change (byte_eqb "n" "(") with false.
    change (byte_eqb "n" ")") with false. change (byte_eqb "n" "o") with false.
    change (byte_eqb "n" "a") with false. change (byte_eqb "n" "n") with true. cbv beta iota.
    unfold bind. rewrite (letters_read (str "ot") q (" "%byte :: l));
      [|lia|by repeat constructor|by apply from_cons with (c := "n"%byte)].
    reflexivity.
  - rewrite <- Z.add_assoc. change (2 + 1) with (Z.of_nat (length (str "not"))).
    by apply (from_app q) in Eq.
Qed.

(** A member of a group, after the operator [b] that joins it. *)
Lemma reads_signed x bs p b n op cs fs l :
  reads_back (snd x) -> filter_ok ttable (snd x) -> -1 <= p -> 0 <= b ->
  Forall (fun c => isblank c = true) bs -> from (p + 1) = bs ++ print_signed x ++ l ->
  exists p' b', steps (mk_cstate p ST_NEED_EXPRESSION b n ((op, cs) :: fs))
    (mk_cstate p' ST_EXPRESSION_DONE b' n ((op, cs ++ [node_of (sign b (fst x)) (snd x)]) :: fs)) /\
    0 <= p' /\ from (p' + 1) = l.
Proof.
  destruct x as [[] e]; cbn [fst snd sign]; intros Hr Hok Hp Hb0 Hb E; unfold print_signed in E;
    cbn [fst snd app] in E.
  2: { by apply (Hr bs). }
  destruct (reads_not bs p ST_NEED_EXPRESSION b n ((op, cs) :: fs) (print e ++ l)) as (q & Hq & Hq0 & Eq);
    [done|done|exact E|].
  destruct (Hr [" "%byte] q (Z.lor b BO_NOT) n op cs fs l) as (p' & b' & Hst & Hp' & El);
    [done|lia|apply Z.lor_nonneg; done|by repeat constructor|exact Eq|].
  exists p', b'. split; [|done]. by eapply steps_trans.
Qed.

(** The operator between two members. *)
Lemma reads_joiner cj p b n fs l :
  0 <= p -> from (p + 1) = str (if cj : bool then " and " else " or ") ++ l ->
  exists q, steps (mk_cstate p ST_EXPRESSION_DONE b n fs)
    (mk_cstate q ST_NEED_EXPRESSION (join_op cj) n fs) /\ 0 <= q /\ from (q + 1) = " "%byte :: l.
Proof.
  intros Hp E.
  assert (Hc : forall a w, str (if cj then " and " else " or ") = " "%byte :: a :: w ++ [" "%byte] ->
    isblank a = false -> a <> x00 -> Forall (fun c => isblank c = false) w ->
    compile_char ttable s a = joiner ttable s (if cj then "nd" else "r") (join_op cj) ->
    w = str (if cj then "nd" else "r") ->
    exists q, steps (mk_cstate p ST_EXPRESSION_DONE b n fs)
      (mk_cstate q ST_NEED_EXPRESSION (join_op cj) n fs) /\ 0 <= q /\ from (q + 1) = " "%byte :: l).
  2: { destruct cj; [apply (Hc "a"%byte (str "nd"))|apply (Hc "o"%byte (str "r"))];
         try done; by repeat constructor. }
  intros a w Es Ha Ha0 Hw Hj Ew. rewrite Es in E. cbn [app] in E. rewrite <- app_assoc in E.
  exists (p + 2 + Z.of_nat (length w)). split_and!; [|lia|].
  - eapply (step_at p [" "%byte] a (w ++ " "%byte :: l)); [lia|exact E|by repeat constructor|done|done|].
    rewrite Hj. change (p + 1 + Z.of_nat (length [" "%byte])) with (p + 1 + 1).
    unfold joiner, bind at 1, get. cbn [m_scanpos need_expression m_state].
    rewrite (proj2 (Z.eqb_neq (p + 1 + 1) 0)) by lia. cbn [negb andb]. unfold bind. rewrite <- Ew.
    rewrite (letters_read w (p + 1 + 1) (" "%byte :: l)); [|lia|done|].
    + unfold modify, set_state, set_boolop. cbn. do 3 f_equal. lia.
    + apply from_cons in E; [|lia]. by apply from_cons in E; [|lia].
  - apply from_cons in E; [|lia]. apply from_cons in E; [|lia].
    apply (from_app (p + 1 + 1 + 1)) in E; [|lia]. etransitivity; [|exact E]. f_equal. lia.
Qed.

Lemma reads_rest cj rest :
  Forall (fun x => reads_back (snd x)) rest -> Forall (fun x => filter_ok ttable (snd x)) rest ->
  forall p b n op cs fs l, 0 <= p -> from (p + 1) = print_rest cj rest ++ l ->
  exists p' b', steps (mk_cstate p ST_EXPRESSION_DONE b n ((op, cs) :: fs))
    (mk_cstate p' ST_EXPRESSION_DONE b' n
      ((op, cs ++ map (fun x => node_of (sign (join_op cj) (fst x)) (snd x)) rest) :: fs)) /\
    0 <= p' /\ from (p' + 1) = l.
Proof.
  intros Hr Hok. induction rest as [|x rest IH]; intros p b n op cs fs l Hp E.
  - exists p, b. cbn [map]. rewrite app_nil_r. split_and!; [apply rtc_refl|done|done].
  - apply Forall_cons_1 in Hr as [Hx Hr]. apply Forall_cons_1 in Hok as [Hxok Hok].
    unfold print_rest in E. cbn [map concat] in E. rewrite <- !app_assoc in E.
    destruct (reads_joiner cj p b n ((op, cs) :: fs) _ Hp E) as (q & Hq & Hq0 & Eq).
    destruct (reads_signed x [" "%byte] q (join_op cj) n op cs fs (print_rest cj rest ++ l))
      as (p1 & b1 & H1 & Hp1 & E1);
      [done|done|lia|by destruct cj|by repeat constructor|exact Eq|].
    destruct (IH Hr Hok p1 b1 n op (cs ++ [node_of (sign (join_op cj) (fst x)) (snd x)]) fs l Hp1 E1) as (p' & b' & H2 & Hp' & El).
    exists p', b'. split; [|done]. eapply steps_trans; [exact Hq|]. eapply steps_trans; [exact H1|].
    rewrite <- app_assoc in H2. exact H2.
Qed.

Lemma group_not_mixed op cj first rest :
  op <> -1 ->
  (get_expr_boolop (Expr op 0 (node_of (sign BO_NONE (fst first)) (snd first)
     :: map (fun x => node_of (sign (join_op cj) (fst x)) (snd x)) rest)) =? -1) = false.
Proof.
  intros Hop. apply (not_mixed op (join_op cj)); [done|by destruct cj|].
  apply Forall_forall. intros x Hx. apply in_map_iff in Hx as ([neg e] & <- & _). cbn [fst snd].
  rewrite node_of_op. by destruct cj, neg.
Qed.

Lemma reads_group cj first rest :
  reads_back (snd first) -> Forall (fun x => reads_back (snd x)) rest ->
  reads_back (FGroup cj first rest).
Proof.
  intros Hf Hr bs p b n op cs fs l Hok Hp Hb0 Hb E. inversion Hok as [|? ? ? Hfok Hrok]; subst.
  assert (Ep : from (p + 1) = bs ++ "("%byte :: print_signed first ++ print_rest cj rest ++ ")"%byte :: l).
  { rewrite E. cbn [print app]. unfold print_signed, print_rest.
    by repeat (rewrite <- !app_assoc || cbn [app]). }
  clear E. set (q := p + 1 + Z.of_nat (length bs)). assert (Hq : 0 <= q) by (unfold q; lia).
  assert (Eq : from q = "("%byte :: print_signed first ++ print_rest cj rest ++ ")"%byte :: l)
    by (unfold q; apply (from_app (p + 1)); [lia|done]).
  apply from_cons in Eq; [|done].
  destruct (reads_signed first [] q BO_NONE (n + 1) b [] ((op, cs) :: fs)
    (print_rest cj rest ++ ")"%byte :: l)) as (p1 & b1 & H1 & Hp1 & E1); [done|done|lia|done|done|done|].
  destruct (reads_rest cj rest Hr Hrok p1 b1 (n + 1) b [node_of (sign BO_NONE (fst first)) (snd first)] ((op, cs) :: fs) (")"%byte :: l) Hp1 E1)
    as (p2 & b2 & H2 & Hp2 & E2).
  exists (p2 + 1), b2. split_and!; [|lia|by apply from_cons in E2; [|lia]].
  eapply steps_trans.
  { eapply (step_at p bs "("%byte); [done|exact Ep|done|done|done|]. fold q. unfold compile_char.
    change (byte_eqb "(" "(") with true. cbv iota. unfold bind, get. cbn. reflexivity. }
  eapply steps_trans; [exact H1|]. eapply steps_trans; [exact H2|].
  eapply (step_at p2 [] ")"%byte l); [lia|exact E2|done|done|done|]. unfold compile_char.
  change (byte_eqb ")" "(") with false. change (byte_eqb ")" ")") with true. cbv iota.
  unfold bind, pop_expression. cbn [m_filter app].
  rewrite (group_not_mixed b cj first rest) by lia.
  unfold modify, set_nest, set_filter. cbn. do 3 f_equal; lia.
Qed.

Lemma reads_all e : reads_back e.
Proof. induction e using filter_ind'; [apply reads_check|by apply reads_group]. Qed.

(** The end of the text. *)
Lemma end_step p b op cs :
  0 <= p -> from (p + 1) = [] -> (get_expr_boolop (Expr op 0 cs) =? -1) = false ->
  compile_step ttable s (mk_cstate p ST_EXPRESSION_DONE b 0 [(op, cs)]) = inr (Done (Expr op 0 cs)).
Proof.
  intros Hp E Hop. unfold compile_step, next. cbn [m_scanpos]. rewrite E. cbn [blanks].
  rewrite Z.add_0_r, E. cbn [List.hd]. change (byte_eqb x00 x00) with true. cbv iota.
  unfold finish, set_pos. cbn [m_nest_level m_filter m_state need_expression negb Z.eqb].
  by rewrite Hop.
Qed.

(** A whole filter at the start of the text. *)
Lemma print_filter_steps op cj first rest l :
  Forall (fun x => filter_ok ttable (snd x)) (first :: rest) -> s = print_filter cj first rest ++ l ->
  exists p b, steps (initial op) (mk_cstate p ST_EXPRESSION_DONE b 0
    [(op, node_of (sign BO_NONE (fst first)) (snd first)
          :: map (fun x => node_of (sign (join_op cj) (fst x)) (snd x)) rest)]) /\
    0 <= p /\ from (p + 1) = l.
Proof.
  intros Hok Es. apply Forall_cons_1 in Hok as [Hf Hr]. unfold print_filter in Es.
  rewrite <- app_assoc in Es.
  destruct (reads_signed first [] (-1) BO_NONE 0 op [] [] (print_rest cj rest ++ l))
    as (p1 & b1 & H1 & Hp1 & E1); [apply reads_all|done|lia|done|done|exact Es|].
  destruct (reads_rest cj rest) with (p := p1) (b := b1) (n := 0) (op := op)
    (cs := [node_of (sign BO_NONE (fst first)) (snd first)]) (fs := @nil (frame (Hft := Hft))) (l := l)
    as (p & b & H2 & Hp & E2); [apply Forall_forall; intros; apply reads_all|done|done|done|].
  exists p, b. split; [|done]. eapply steps_trans; [exact H1|exact H2].
Qed.
End read.

Lemma print_filter_compiles `{Hft : field_table} ttable op cj first rest :
  op <> -1 -> Forall (fun x => filter_ok ttable (snd x)) (first :: rest) ->
  let s := print_filter cj first rest in
  forall fuel, (S (length s) < fuel)%nat ->
  compile ttable s fuel op = Some (Done (node_of op (FGroup cj first rest))).
Proof.
  intros Hop Hok s. destruct (print_filter_steps ttable s op cj first rest [] Hok (eq_sym (app_nil_r s)))
    as (p & b & Hst & Hp & E).
  eapply (compile_reached ttable s op); [exact Hst|].
  apply end_step; [done|done|by apply group_not_mixed].
Qed.

(** C22: every filter made of comparisons, 'exists', 'in' and 'pmatch' checks,
    negations, 'and' and 'or' and brackets of any depth, with any bytes in the
    values, has a text that the compiler accepts; evaluating the tree it builds
    gives, on every event, what the filter means: all or one of the members of a
    group, the negated ones inverted. *)
Theorem filter_print_compiles `{Hft : field_table} ttable op cj first rest :
  op <> -1 -> Forall (fun x => filter_ok ttable (snd x)) (first :: rest) ->
  exists n,
    (forall fuel, (S (length (print_filter cj first rest)) < fuel)%nat ->
       compile ttable (print_filter cj first rest) fuel op = Some (Done n)) /\
    forall (test : check -> bool) cur, exists cur',
      compare (fun c => Some (test c)) n cur = Some (denote test (FGroup cj first rest), cur').
Proof.
  intros Hop Hok. exists (node_of op (FGroup cj first rest)).
  split; [by apply print_filter_compiles|]. intros test cur.
  pose proof (compare_answers (fun c => Some (test c)) test ltac:(congruence) _
    (node_of_wf (FGroup cj first rest) op) cur) as Ha. rewrite node_of_holds in Ha.
  destruct (compare _ _ _) as [[b cur']|]; [|by destruct Ha as (c & _ & ?)].
  cbn in Ha. subst b. by exists cur'.
Qed.

(** Every name is a field, one that starts with [p] of a string type. *)
#[local] Instance sample_fields : field_table := {|
  field := list byte; new_filter_check n := Some n; parse_field_name _ _ := true;
  works_on_thread_table _ := true;
  is_charbuf n := match n with c :: _ => byte_eqb c "p"%byte | [] => false end;
  accepts _ _ _ := true |}.

Definition sample_first : bool * filter :=
  (false, FCheck (CList (str "proc.name") (str "proc.name" : field) false (str "a b") [str "c\d"])).

Definition sample_rest : list (bool * filter) :=
  [(true, FGroup false
     (false, FCheck (CValue (str "fd.num") (str "fd.num" : field) CO_GE (str "3")))
     [(true, FCheck (CList (str "evt.res") (str "evt.res" : field) false (str "0") [str "1"]));
      (true, FCheck (CExists (str "user") (str "user" : field)))])].

Lemma filter_print_compiles_witness : exists n,
  compile true (print_filter true sample_first sample_rest) 200 0 = Some (Done n) /\
  exists cur', compare (fun c => Some (bool_decide (chk_cmpop c <> CO_GE))) n 0 = Some (true, cur').
Proof.
  destruct (filter_print_compiles true 0 true sample_first sample_rest) as (n & Hn & Hc); [done| |].
  - repeat (apply Forall_cons_2 || apply Forall_nil_2); repeat constructor; simpl; try done;
      try discriminate; auto.
  - exists n. split; [apply Hn; vm_compute; lia|].
    exact (Hc (fun c => bool_decide (chk_cmpop c <> CO_GE)) 0).
Defined.
