(* ===== verification/FilterErrors.v ===== *)
(** * Texts the filter compiler does not treat as it means to

    What the compiler of [FilterCompiler] does with brackets and lists that are not
    closed or closed twice, with empty brackets, with a 'not' that follows a check,
    and with [intersects]. *)

From Stdlib Require Import ZArith Lia List Bool String.
From Stdlib Require Import Strings.Byte.
From stdpp Require Import relations base tactics list numbers option.
From S2P Require Import Prelude Bytes Text Filter.
From S2P Require Import BlockIO FilterCompiler FilterSpec FilterPrint.
Import ListNotations.
Local Open Scope Z_scope.

Section errors.
Context `{Hft : field_table} (ttable : bool).

(** ** Brackets *)

(** A filter, and a bracket that closes nothing: the outermost expression is left,
    and the next expression or check is added to none. *)
Lemma stray_bracket_undefined op cj first rest l :
  op <> -1 -> Forall (fun x => filter_ok ttable (snd x)) (first :: rest) ->
  let s := print_filter cj first rest ++ str ") and (" ++ l in
  forall fuel, (S (length s) < fuel)%nat -> compile ttable s fuel op = Some Undefined.
Proof.
  intros Hop Hok s. destruct (print_filter_steps ttable s op cj first rest (str ") and (" ++ l) Hok eq_refl)
    as (p & b & Hst & Hp & E).
  assert (E1 : from s (p + 1 + 1) = str " and " ++ "("%byte :: l) by (apply from_cons in E; [done|lia]).
  destruct (reads_joiner ttable s true (p + 1) b (-1) [] _ ltac:(lia) E1) as (q & Hq & Hq0 & Eq).
  eapply (compile_reached ttable s op (mk_cstate q ST_NEED_EXPRESSION BO_AND (-1) [])).
  - eapply steps_trans; [exact Hst|]. eapply steps_trans; [|exact Hq].
    eapply (step_at ttable s p [] ")"%byte); [lia|exact E|done|done|done|].
    unfold compile_char. change (byte_eqb ")" "(") with false. change (byte_eqb ")" ")") with true.
    cbv iota. unfold bind, pop_expression. cbn [m_filter].
    rewrite (group_not_mixed op cj first rest) by done.
    unfold modify, set_nest, set_filter. cbn. by rewrite Z.add_0_r.
  - unfold compile_step. rewrite (next_at s q [" "%byte] "("%byte l) by (done || lia || by repeat constructor).
    done.
Qed.

(** ** Checks that are not looked at *)

(** A check that joins with neither 'and' nor 'or' does not count. *)
Lemma compare_ignores test op id x y cur :
  m_boolop y = BO_NONE \/ m_boolop y = BO_NOT ->
  @compare check test (Expr op id [x; y]) cur = compare_first (compare test) x cur.
Proof.
  intros Hy. cbn [compare]. destruct (compare_first _ _ _) as [[b cur']|]; [|done].
  cbn [compare_rest]. by destruct Hy as [-> | ->].
Qed.

(** Brackets around nothing, and a filter behind them: the filter does not count. *)
Lemma empty_group_matches op x :
  op <> -1 -> filter_ok ttable (snd x) ->
  let s := str "() " ++ print_signed x in
  exists n, (forall fuel, (S (length s) < fuel)%nat -> compile ttable s fuel op = Some (Done n)) /\
    forall test cur, exists cur', compare test n cur = Some (true, cur').
Proof.
  intros Hop Hok s. assert (E : from s (-1 + 1) = "("%byte :: ")"%byte :: " "%byte :: print_signed x) by done.
  assert (E0 : from s (0 + 1) = ")"%byte :: " "%byte :: print_signed x) by done.
  assert (E1 : from s (1 + 1) = [" "%byte] ++ print_signed x ++ []) by (rewrite app_nil_r; done).
  set (empty := Expr BO_NONE 0 [] : node check).
  destruct (reads_signed ttable s x [" "%byte] 1 BO_NONE 0 op [empty] [] []) as (p & b & Hst & Hp & El);
    [apply reads_all|done|lia|done|by repeat constructor|exact E1|].
  exists (Expr op 0 [empty; node_of (sign BO_NONE (fst x)) (snd x)]). split.
  - eapply (compile_reached ttable s op); [|apply end_step; [exact Hp|exact El|]].
    + eapply steps_trans; [|eapply steps_trans; [|exact Hst]].
      * eapply (step_at ttable s (-1) [] "("%byte); [lia|exact E|done|done|done|reflexivity].
      * eapply (step_at ttable s 0 [] ")"%byte); [lia|exact E0|done|done|done|reflexivity].
    + cbn. rewrite node_of_op. by destruct x as [[] ?].
  - intros test cur. rewrite compare_ignores by (rewrite node_of_op; destruct x as [[] ?]; auto).
    cbn. by eexists.
Qed.

(** A check and a 'not' without an operator before it: what is negated does not
    count. *)
Lemma bare_not_ignored op neg c e :
  op <> -1 -> check_ok ttable c -> filter_ok ttable e ->
  let s := print_signed (neg, FCheck c) ++ str " not " ++ print e in
  exists n, (forall fuel, (S (length s) < fuel)%nat -> compile ttable s fuel op = Some (Done n)) /\
    forall (test : check -> bool) cur, exists cur',
      compare (fun c => Some (test c)) n cur = Some (xorb neg (denote_check test c), cur').
Proof.
  intros Hop Hc He s. set (x := node_of (sign BO_NONE neg) (FCheck c)).
  assert (H1 : exists p b, steps ttable s (initial op) (mk_cstate p ST_EXPRESSION_DONE b 0 [(op, [x])]) /\
    0 <= p /\ from s (p + 1) = str " not " ++ print e /\ (b = BO_NONE \/ b = BO_NOT)).
  { destruct neg.
    - destruct (reads_not ttable s [] (-1) ST_NEED_EXPRESSION BO_NONE 0 [(op, [])]
        (print_check c ++ str " not " ++ print e)) as (q & Hq & Hq0 & Eq); [lia|done| |].
      { unfold s, print_signed. cbn [fst snd print]. by rewrite <- app_assoc. }
      destruct (reads_check_op ttable s [" "%byte] q BO_NOT 0 op [] [] (str " not " ++ print e) c)
        as (p & b & Hst & Hp & El & Hb); [done|lia|done|by repeat constructor|exact Eq|].
      exists p, b. split; [by eapply steps_trans|]. split_and!; [done|done|tauto].
    - destruct (reads_check_op ttable s [] (-1) BO_NONE 0 op [] [] (str " not " ++ print e) c)
        as (p & b & Hst & Hp & El & Hb); [done|lia|done|done|done|].
      exists p, b. split_and!; [done|done|done|tauto]. }
  destruct H1 as (p & b & Hst & Hp & El & Hb).
  destruct (reads_not ttable s [" "%byte] p ST_EXPRESSION_DONE b 0 [(op, [x])] (print e))
    as (q & Hq & Hq0 & Eq); [lia|by repeat constructor|exact El|].
  replace (Z.lor b BO_NOT) with BO_NOT in Hq by (by destruct Hb as [-> | ->]).
  destruct (reads_all ttable s e [" "%byte] q BO_NOT 0 op [x] [] []) as (r & b' & Hr & Hr0 & Er);
    [done|lia|done|by repeat constructor|by rewrite app_nil_r|].
  exists (Expr op 0 [x; node_of BO_NOT e]). split.
  - eapply (compile_reached ttable s op); [|apply end_step; [exact Hr0|exact Er|]].
    + eapply steps_trans; [exact Hst|]. eapply steps_trans; [exact Hq|exact Hr].
    + cbn. by rewrite node_of_op.
  - intros test cur. rewrite compare_ignores by (rewrite node_of_op; auto).
    pose proof (first_answers (fun c => Some (test c)) test (leaves x) x cur (joins_sign BO_NONE neg _)
      (compare_answers (fun c => Some (test c)) test ltac:(congruence) x (node_of_wf _ _) cur)) as Ha.
    destruct (compare_first _ _ _) as [[b0 cur']|]; [|by destruct Ha as (? & _ & ?)].
    change (b0 = signed test x) in Ha. subst b0. exists cur'. unfold signed, x. rewrite node_of_holds.
    by rewrite (proj1 (negated_sign true _ _)).
Qed.

(** ** Lists *)

(** The first check of a text, from the field name on. *)
Lemma first_check_step s op name f rest :
  name_ok ttable name f -> s = name ++ " "%byte :: rest ->
  compile_step ttable s (initial op) =
    match bind (parse_comparison s f name BO_NONE) (fun _ => modify (set_state ST_EXPRESSION_DONE))
            (mk_cstate (Z.of_nat (length name)) ST_NEED_EXPRESSION BO_NONE 0 [(op, [])]) with
    | Done (_, st) => inl st | Throws => inr Throws | Undefined => inr Undefined
    end.
Proof.
  intros Hn Es. pose proof Hn as (_ & _ & _ & Hc & Hh). destruct name as [|c name]; [done|].
  apply Forall_cons_1 in Hc as [(Hb & Hs & H0) _]. unfold compile_step, initial.
  rewrite (next_char s (-1) c (name ++ " "%byte :: rest)) by done.
  rewrite (proj2 (byte_eqb_neq c x00) H0). unfold is_special_char, is_bracket in Hs.
  rewrite !orb_false_iff in Hs. rewrite check_char by tauto. unfold check_here, bind.
  rewrite (check_start ttable s _ (c :: name) f rest); [|lia|done|exact Es]. cbn [Z.add].
  by destruct (parse_comparison _ _ _ _ _) as [[]| |].
Qed.

(** Characters that do not end a value of a list. *)
Definition plain (c : byte) : bool :=
  negb (isblank c || is_bracket c || byte_eqb c ","%byte || is_quote c || byte_eqb c backslash).

Lemma scan_plain v : forall res n, Forall (fun c => plain c = true) v ->
  scan_word false true false PES_NORMAL res v n = ScanEnd (n + Z.of_nat (length v)) (res ++ v).
Proof.
  induction v as [|c v IH]; intros res n Hv; cbn [scan_word].
  - by rewrite Z.add_0_r, app_nil_r.
  - apply Forall_cons_1 in Hv as [Hc Hv]. unfold plain in Hc. apply negb_true_iff in Hc.
    rewrite !orb_false_iff in Hc. destruct Hc as ((((Hb & Hk) & Hm) & _) & Hs). unfold end_of_word.
    rewrite Hb, Hk, Hm, Hs. cbn [negb orb andb]. rewrite IH, <- app_assoc by done. f_equal.
    simpl length. lia.
Qed.

Lemma starts_plain v : Forall (fun c => plain c = true) v ->
  isblank (List.hd x00 v) = false /\ starts_quoted v = false.
Proof.
  destruct v as [|c v]; [done|]. intros Hv. apply Forall_cons_1 in Hv as [Hc _].
  unfold plain in Hc. apply negb_true_iff in Hc. rewrite !orb_false_iff in Hc. cbn. tauto.
Qed.

(** The text ends inside the list: the character behind the terminator is read. *)
Lemma unclosed_list s use fuel p v t b n fs st :
  0 <= p <= m_scansize s -> from s p = v -> Forall (fun c => plain c = true) v ->
  (forall q, use true v (mk_cstate q t b n fs) = Done (tt, st q)) ->
  (forall q, m_scanpos (st q) = q) ->
  value_list s (S fuel) use true (mk_cstate p t b n fs) = Undefined.
Proof.
  intros Hp E Hv Hu Hst. destruct (starts_plain v Hv) as [Hb Hq].
  assert (Hlen : p + Z.of_nat (length v) = m_scansize s).
  { rewrite <- E. unfold from. rewrite length_drop. unfold m_scansize in *. lia. }
  cbn [value_list]. unfold bind, next_operand, bind, skip_spaces, bind, cur_char at 1.
  cbn [m_scanpos]. rewrite (proj2 (Z.ltb_ge p 0)), (proj2 (Z.ltb_ge (m_scansize s) p)) by lia.
  cbn [orb]. rewrite E, Hb. unfold ret, take_operand. cbn [m_scanpos]. rewrite E, Hq, Z.add_0_r, E.
  rewrite scan_plain by done. cbn [app]. rewrite Z.add_0_l. unfold set_pos.
  cbn [m_state m_last_boolop m_nest_level m_filter]. rewrite Hu. unfold next. cbn [m_scanpos].
  rewrite Hst, Hlen. unfold cur_char. cbn [m_scanpos set_pos].
  pose proof (blanks_nonneg (from s (m_scansize s + 1))).
  rewrite (proj2 (Z.ltb_lt (m_scansize s) _)), orb_true_r by lia. done.
Qed.

Lemma unclosed_list_undefined op name f v :
  name_ok ttable name f -> Forall (fun c => plain c = true) v ->
  accepts f (if is_charbuf f then CO_IN else CO_EQ) v = true ->
  let s := name ++ str " in (" ++ v in
  forall fuel, (S (length s) < fuel)%nat -> compile ttable s fuel op = Some Undefined.
Proof.
  intros Hn Hv Ha s. apply (compile_reached ttable s op (initial op)); [apply rtc_refl|].
  rewrite (first_check_step s op name f (str "in (" ++ v) Hn eq_refl). unfold bind at 1.
  unfold parse_comparison, bind at 1. pose proof Hn as (_ & Hpf & _).
  assert (E : from s (Z.of_nat (length name)) = " "%byte :: str "in" ++ " "%byte :: "("%byte :: v).
  { unfold from. rewrite Nat2Z.id. apply (drop_app_length name). }
  rewrite (operator_read s _ CO_IN (" "%byte :: "("%byte :: v)) by (lia || done || (right; by eexists)).
  rewrite Hpf. cbn [negb]. rewrite bool_decide_true by (by apply (bool_decide_unpack _)).
  apply from_cons in E; [|lia]. apply (from_app s _ (str "in")) in E; [|lia].
  set (p := _ + 1 + _) in *. assert (Hp : 0 <= p) by (unfold p; lia). clearbody p.
  unfold parse_list, bind at 1. rewrite (skip_spaces_one s p "("%byte v) by done.
  apply from_cons in E; [|done]. unfold bind at 1. rewrite (cur_char_at s (p + 1) "("%byte v) by (done || lia).
  change (byte_eqb "(" "(") with true. cbn [negb]. unfold bind at 1, move, modify, set_pos.
  cbn [m_scanpos m_state m_last_boolop m_nest_level m_filter].
  pose proof (from_size s (p + 1) _ _ ltac:(lia) E). apply from_cons in E; [|lia].
  destruct (is_charbuf f); unfold list_fuel.
  - unfold bind at 1. erewrite unclosed_list; [done|lia|exact E|done| |].
    + intros q. unfold add_filter_value. rewrite Ha. reflexivity.
    + done.
  - rewrite bool_decide_false by done. unfold bind at 1, push_expression. cbn [m_filter].
    unfold bind at 1, set_filter. cbv beta iota. cbn [m_scanpos m_state m_last_boolop m_nest_level].
    unfold set_nest, set_boolop. cbn [m_scanpos m_state m_last_boolop m_nest_level m_filter].
    unfold bind at 1. erewrite unclosed_list; [done|lia|exact E|done| |].
    + intros q. unfold bind, add_filter_value. rewrite Ha. reflexivity.
    + done.
Qed.

Lemma operator_not_intersects s st :
  match next_comparison_operator s st with Done (co, _) => co <> CO_INTERSECTS | _ => True end.
Proof.
  unfold next_comparison_operator, bind. destruct (skip_spaces s st) as [[u st1]| |]; [|done|done].
  unfold operators. cbn [first_operator]. unfold bind, compare_no_consume, move, modify, ret.
  set (t := from s (m_scanpos st1)).
  assert (Hin : take (length (str "intersects")) t = str "intersects" ->
    take (length (str "in")) t = str "in").
  { intros E. change (length (str "in")) with (Nat.min 2 (length (str "intersects"))).
    by rewrite <- take_take, E. }
  repeat case_bool_decide; try done. tauto.
Qed.

(** 'intersects' is taken for 'in', and the list is then missed. *)
Lemma intersects_throws op name f l :
  name_ok ttable name f ->
  let s := name ++ str " intersects" ++ l in
  forall fuel, (S (length s) < fuel)%nat -> compile ttable s fuel op = Some Throws.
Proof.
  intros Hn s. apply (compile_reached ttable s op (initial op)); [apply rtc_refl|].
  rewrite (first_check_step s op name f (str "intersects" ++ l) Hn eq_refl). unfold bind at 1.
  unfold parse_comparison, bind at 1. pose proof Hn as (_ & Hpf & _).
  assert (E : from s (Z.of_nat (length name)) = " "%byte :: "i"%byte :: "n"%byte :: str "tersects" ++ l).
  { unfold from. rewrite Nat2Z.id. apply (drop_app_length name). }
  unfold next_comparison_operator, bind at 1. rewrite (skip_spaces_one s _ "i"%byte ("n"%byte :: str "tersects" ++ l)) by (done || lia).
  apply from_cons in E; [|lia]. unfold operators.
  repeat (rewrite first_operator_skip by (rewrite E; discriminate)).
  rewrite (first_operator_hit s _ "in" CO_IN _ _ _ _ _ (str "tersects" ++ l)) by exact E.
  rewrite Hpf. cbn [negb]. rewrite bool_decide_true by (by apply (bool_decide_unpack _)).
  apply (from_app s _ (str "in")) in E; [|lia]. unfold parse_list, bind at 1.
  rewrite (skip_spaces_none s _ "t"%byte (str "ersects" ++ l)) by (done || lia).
  unfold bind at 1. by rewrite (cur_char_at s _ "t"%byte (str "ersects" ++ l)) by (done || lia).
Qed.

(** C39: two shapes of unbalanced text are not refused.  On a filter that is followed by
    [") and ("], whatever comes then, the compiler goes on through a null pointer; on the
    name of a field, [" in ("] and an unquoted value that ends the text, it reads behind
    the end of the text. *)
Theorem unbalanced_filters_undefined op cj first rest l name f v :
  op <> -1 -> Forall (fun x => filter_ok ttable (snd x)) (first :: rest) ->
  name_ok ttable name f -> Forall (fun c => plain c = true) v ->
  accepts f (if is_charbuf f then CO_IN else CO_EQ) v = true ->
  forall s, s = print_filter cj first rest ++ str ") and (" ++ l \/ s = name ++ str " in (" ++ v ->
  forall fuel, (S (length s) < fuel)%nat -> compile ttable s fuel op = Some Undefined.
Proof.
  intros Hop Hok Hn Hv Ha s [-> | ->]; [by apply stray_bracket_undefined|].
  by apply unclosed_list_undefined with (f := f).
Qed.

(** The compiler accepts a filter behind empty brackets, and a 'not' that no
    operator joins to the check in front of it, but what follows is never looked at:
    the first matches every event, the second the events of its first check. *)
Theorem unjoined_checks_ignored op neg c e :
  op <> -1 -> check_ok ttable c -> filter_ok ttable e ->
  (exists n, (forall fuel, (S (length (str "() " ++ print e)) < fuel)%nat ->
      compile ttable (str "() " ++ print e) fuel op = Some (Done n)) /\
    forall test cur, exists cur', compare test n cur = Some (true, cur')) /\
  let s := print_signed (neg, FCheck c) ++ str " not " ++ print e in
  exists n, (forall fuel, (S (length s) < fuel)%nat -> compile ttable s fuel op = Some (Done n)) /\
    forall (test : check -> bool) cur, exists cur',
      compare (fun c => Some (test c)) n cur = Some (xorb neg (denote_check test c), cur').
Proof.
  intros Hop Hc He. split; [by apply (empty_group_matches op (false, e))|by apply bare_not_ignored].
Qed.

(** No filter that compares with 'intersects' compiles: the operator is taken for
    'in', and the rest of the word for a missing bracket; no text leads to the
    operator at all. *)
Theorem intersects_refused op name f l s st :
  name_ok ttable name f ->
  (forall fuel, (S (length (name ++ str " intersects" ++ l)) < fuel)%nat ->
     compile ttable (name ++ str " intersects" ++ l) fuel op = Some Throws) /\
  match next_comparison_operator s st with Done (co, _) => co <> CO_INTERSECTS | _ => True end.
Proof.
  intros Hn. split; [by apply intersects_throws with (f := f)|]. apply operator_not_intersects.
Qed.
End errors.

#[local] Existing Instance sample_fields.

Definition sample_field : @field sample_fields := str "user".

Lemma unbalanced_filters_undefined_witness :
  compile true (str "user exists) and (") 50 0 = Some Undefined /\
  compile true (str "user in (a") 50 0 = Some Undefined.
Proof.
  assert (Hn : @name_ok sample_fields true (str "user") sample_field)
    by (repeat constructor; simpl; try done; auto).
  split;
    (apply (unbalanced_filters_undefined (Hft := sample_fields) true 0 true
       (false, FCheck (CExists (str "user") sample_field)) [] [] (str "user")
       sample_field (str "a"));
     [done|apply Forall_cons_2; [exact (ok_check true (CExists (str "user") sample_field) Hn)|apply Forall_nil_2]|done|by repeat constructor|done|
      first [left; reflexivity|right; reflexivity]|vm_compute; lia]).
Defined.

Lemma unjoined_checks_ignored_witness :
  exists n, compile true (str "() user exists") 50 0 = Some (Done n) /\
    forall test : check -> option bool, exists cur', compare test n 0 = Some (true, cur').
Proof.
  assert (Hc : @check_ok sample_fields true (CExists (str "user") sample_field))
    by (repeat constructor; simpl; try done; auto).
  destruct (unjoined_checks_ignored (Hft := sample_fields) true 0 false
    (CExists (str "user") sample_field) (FCheck (CExists (str "user") sample_field)))
    as [(n & Hn & Ht) _]; [done|done|by constructor|].
  exists n. split; [apply Hn; vm_compute; lia|]. intros test. apply Ht.
Defined.

Lemma intersects_refused_witness :
  compile true (str "user intersects (a)") 50 0 = Some Throws.
Proof.
  apply (intersects_refused (Hft := sample_fields) true 0 (str "user") sample_field
    (str " (a)") [] (initial 0)); [|vm_compute; lia].
  repeat constructor; simpl; try done; auto.
Defined.
