(* ===== verification/RuleSets.v ===== *)
(** * Rule sets: [sinsp_evttype_filter] of [libsinsp/filter.cpp], [filter.h]

    Filters are added under a name with the event types, system calls and tags they
    are about, and enabled in numbered sets by a pattern on the names or by tags.
    Each set keeps, for every event type and system call, the list of the filters to
    run.  The abstract specification keeps the set of the enabled rules; running an
    event asks whether one of them applies to it and matches. *)

From Stdlib Require Import ZArith Lia List Bool.
From Stdlib Require Import Strings.Byte.
From stdpp Require Import base tactics list numbers option countable gmap sets.
From S2P Require Import Prelude Text EventDefs Filter FilterCompiler.
Import ListNotations.
Local Open Scope Z_scope.

(** The order of [std::string]. *)
Fixpoint bytes_ltb (a b : list byte) : bool :=
  match a, b with
  | _, [] => false
  | [], _ :: _ => true
  | x :: a', y :: b' =>
      (Byte.to_N x <? Byte.to_N y)%N || (byte_eqb x y && bytes_ltb a' b')
  end.

Section rulesets.
(** The checks of the filters. *)
Context {C : Type}.

(** A pointer to a [filter_wrapper] is the number of the wrapper. *)
Record filter_wrapper : Type := mk_wrap {
  w_filter : node C; w_evttypes : list bool; w_syscalls : list bool }.

(** [m_filter_by_evttype] or [m_filter_by_syscall]; no entry for a null pointer. *)
Definition filter_lists : Type := gmap Z (list nat).

Record ruleset_filters : Type := mk_ruleset {
  m_filter_by_evttype : filter_lists; m_filter_by_syscall : filter_lists }.

Record evttype_filter : Type := mk_filters {
  m_wrappers : list filter_wrapper;
  m_rulesets : list ruleset_filters;
  m_filter_by_tag : gmap (list byte) (list nat);
  m_filters : list (list byte * nat) }.

Definition no_filters : evttype_filter := mk_filters [] [] ∅ [].
Definition empty_ruleset : ruleset_filters := mk_ruleset ∅ ∅.

(** ** A rule set *)

Definition push_back (t : filter_lists) (k : Z) (w : nat) : filter_lists :=
  <[k := default [] (t !! k) ++ [w]]> t.

(** All the entries of the list that are [w] go; an empty list is deleted. *)
Definition erase (t : filter_lists) (k : Z) (w : nat) : filter_lists :=
  match t !! k with
  | None => t
  | Some l =>
      match List.filter (fun x => negb (Nat.eqb x w)) l with
      | [] => delete k t
      | l' => <[k := l']> t
      end
  end.

(** The loop over the keys up to [n] that the wrapper is about. *)
Definition for_keys (about : list bool) (n : Z) (f : filter_lists -> Z -> filter_lists)
    (t : filter_lists) : filter_lists :=
  fold_left (fun t k => if nth (Z.to_nat k) about false then f t k else t) (seqZ 0 n) t.

(** [ruleset_filters::add_filter] *)
Definition add_filter (w : nat) (wrap : filter_wrapper) (rs : ruleset_filters) : ruleset_filters :=
  mk_ruleset
    (for_keys (w_evttypes wrap) PPM_EVENT_MAX (fun t k => push_back t k w) (m_filter_by_evttype rs))
    (for_keys (w_syscalls wrap) PPM_SC_MAX (fun t k => push_back t k w) (m_filter_by_syscall rs)).

(** [ruleset_filters::remove_filter] *)
Definition remove_filter (w : nat) (wrap : filter_wrapper) (rs : ruleset_filters) : ruleset_filters :=
  mk_ruleset
    (for_keys (w_evttypes wrap) PPM_EVENT_MAX (fun t k => erase t k w) (m_filter_by_evttype rs))
    (for_keys (w_syscalls wrap) PPM_SC_MAX (fun t k => erase t k w) (m_filter_by_syscall rs)).

(** [run] of the filters of a list on an event, on which the checks answer [test];
    with the id that a matching check leaves in the event. *)
Fixpoint run_filters (wraps : list filter_wrapper) (test : C -> option bool) (l : list nat)
    (cur : Z) : outcome (bool * Z) :=
  match l with
  | [] => Done (false, cur)
  | w :: l' =>
      match wraps !! w with
      | None => Undefined
      | Some wrap =>
          match compare test (w_filter wrap) cur with
          | None => Throws
          | Some (true, cur') => Done (true, cur')
          | Some (false, cur') => run_filters wraps test l' cur'
          end
      end
  end.

(** An event: its type, and for a generic event the system call of its first
    parameter. *)
Record event : Type := mk_event { e_type : Z; e_syscall : Z }.

Definition is_generic (e : event) : bool := (e_type e =? PPME_GENERIC_E) || (e_type e =? PPME_GENERIC_X).

(** [ruleset_filters::run]; an index behind the array is undefined. *)
Definition ruleset_run (wraps : list filter_wrapper) (rs : ruleset_filters) (e : event)
    (test : C -> option bool) (cur : Z) : outcome (bool * Z) :=
  let lookup (t : filter_lists) k n : outcome (option (list nat)) :=
    if (0 <=? k) && (k <? n) then Done (t !! k) else Undefined in
  match (if is_generic e then lookup (m_filter_by_syscall rs) (e_syscall e) PPM_SC_MAX
         else lookup (m_filter_by_evttype rs) (e_type e) PPM_EVENT_MAX) with
  | Done None => Done (false, cur)
  | Done (Some l) => run_filters wraps test l cur
  | Throws => Throws
  | Undefined => Undefined
  end.

(** [evttypes_for_ruleset], [syscalls_for_ruleset] *)
Definition keys_of (t : filter_lists) (n : Z) : list bool :=
  map (fun k => match t !! k with Some _ => true | None => false end) (seqZ 0 n) ++ [false].

(** ** The filters *)

(** [assign(n, def)], and [true] at the given indices; [None] for an index behind
    the vector. *)
Fixpoint set_indices (l : list Z) (v : list bool) : option (list bool) :=
  match l with
  | [] => Some v
  | k :: l' =>
      if (0 <=? k) && (k <? Z.of_nat (length v)) then set_indices l' (<[Z.to_nat k := true]> v) else None
  end.

Definition about (def : bool) (n : Z) (l : list Z) : option (list bool) :=
  set_indices l (replicate (Z.to_nat (n + 1)) def).

(** [std::map::insert]: nothing changes when the key is there. *)
Fixpoint map_insert (n : list byte) (w : nat) (l : list (list byte * nat)) : list (list byte * nat) :=
  match l with
  | [] => [(n, w)]
  | (n', w') :: l' =>
      if bool_decide (n = n') then l
      else if bytes_ltb n n' then (n, w) :: l else (n', w') :: map_insert n w l'
  end.

(** A rule as it is added. *)
Record rule : Type := mk_rule {
  rl_name : list byte; rl_evttypes : list Z; rl_syscalls : list Z; rl_tags : list (list byte);
  rl_filter : node C }.

Definition for_all_types (r : rule) : bool :=
  match rl_evttypes r, rl_syscalls r with [], [] => true | _, _ => false end.

(** [sinsp_evttype_filter::add] *)
Definition add (r : rule) (st : evttype_filter) : outcome evttype_filter :=
  let w := length (m_wrappers st) in
  match about (for_all_types r) PPM_EVENT_MAX (rl_evttypes r),
        about (for_all_types r) PPM_SC_MAX (rl_syscalls r) with
  | Some evttypes, Some syscalls =>
      Done (mk_filters (m_wrappers st ++ [mk_wrap (rl_filter r) evttypes syscalls]) (m_rulesets st)
        (fold_left (fun t tag => <[tag := default [] (t !! tag) ++ [w]]> t) (rl_tags r)
           (m_filter_by_tag st))
        (map_insert (rl_name r) w (m_filters st)))
  | _, _ => Undefined
  end.

(** New rule sets up to [ruleset]. *)
Definition grow (ruleset : nat) (l : list ruleset_filters) : list ruleset_filters :=
  l ++ replicate (S ruleset - length l) empty_ruleset.

(** The body of the loops of [enable] and [enable_tags]. *)
Definition set_enabled (enabled : bool) (ruleset : nat) (st : evttype_filter) (w : nat) : evttype_filter :=
  match m_wrappers st !! w, m_rulesets st !! ruleset with
  | Some wrap, Some rs =>
      mk_filters (m_wrappers st)
        (<[ruleset := (if enabled then add_filter else remove_filter) w wrap rs]> (m_rulesets st))
        (m_filter_by_tag st) (m_filters st)
  | _, _ => st
  end.

Definition grown (ruleset : nat) (st : evttype_filter) : evttype_filter :=
  mk_filters (m_wrappers st) (grow ruleset (m_rulesets st)) (m_filter_by_tag st) (m_filters st).

(** [std::regex] of a pattern, which names match it; [None] for a pattern that is
    refused. *)
Context (regex : list byte -> option (list byte -> bool)).

(** [sinsp_evttype_filter::enable] *)
Definition enable (pattern : list byte) (enabled : bool) (ruleset : nat) (st : evttype_filter) :
    outcome evttype_filter :=
  match regex pattern with
  | None => Throws
  | Some matches =>
      Done (fold_left (fun st x => if matches (fst x) then set_enabled enabled ruleset st (snd x) else st)
              (m_filters st) (grown ruleset st))
  end.

(** [sinsp_evttype_filter::enable_tags]; a tag that is looked up gets an empty
    list, which is as none. *)
Definition enable_tags (tags : list (list byte)) (enabled : bool) (ruleset : nat)
    (st : evttype_filter) : outcome evttype_filter :=
  Done (fold_left (fun st tag =>
          fold_left (set_enabled enabled ruleset) (default [] (m_filter_by_tag st !! tag)) st)
        tags (grown ruleset st)).

(** [sinsp_evttype_filter::run] *)
Definition filters_run (st : evttype_filter) (e : event) (ruleset : nat) (test : C -> option bool)
    (cur : Z) : outcome (bool * Z) :=
  match m_rulesets st !! ruleset with
  | None => Done (false, cur)
  | Some rs => ruleset_run (m_wrappers st) rs e test cur
  end.

(** [sinsp_evttype_filter::evttypes_for_ruleset] and [syscalls_for_ruleset]; the
    vector of the sets is not bounds checked. *)
Definition evttypes_for_ruleset (st : evttype_filter) (ruleset : nat) : outcome (list bool) :=
  match m_rulesets st !! ruleset with
  | Some rs => Done (keys_of (m_filter_by_evttype rs) PPM_EVENT_MAX)
  | None => Undefined
  end.
Definition syscalls_for_ruleset (st : evttype_filter) (ruleset : nat) : outcome (list bool) :=
  match m_rulesets st !! ruleset with
  | Some rs => Done (keys_of (m_filter_by_syscall rs) PPM_SC_MAX)
  | None => Undefined
  end.

(** The calls of a client, which goes on when one throws. *)
Inductive call : Type :=
| Add (r : rule)
| Enable (pattern : list byte) (enabled : bool) (ruleset : nat)
| EnableTags (tags : list (list byte)) (enabled : bool) (ruleset : nat).

Definition do_call (c : call) (st : evttype_filter) : outcome evttype_filter :=
  match c with
  | Add r => add r st
  | Enable p b k => enable p b k st
  | EnableTags ts b k => enable_tags ts b k st
  end.

Fixpoint do_calls (cs : list call) (st : evttype_filter) : outcome evttype_filter :=
  match cs with
  | [] => Done st
  | c :: cs' =>
      match do_call c st with
      | Done st' => do_calls cs' st'
      | Throws => do_calls cs' st
      | Undefined => Undefined
      end
  end.
End rulesets.
Arguments filter_wrapper : clear implicits.
Arguments evttype_filter : clear implicits.
Arguments rule : clear implicits.
Arguments call : clear implicits.
