(* ===== verification/RuleSetsSpec.v ===== *)
(** * Rule sets refine sets of enabled rules

    The specification of [RuleSets] keeps the rules in the order in which they were
    added and, for each rule set, the set of the enabled ones.  The lists by event
    type and by system call are an index of it: running an event against them finds
    whether an enabled rule that applies to the event matches. *)

From Stdlib Require Import ZArith Lia List Bool Sorted.
From Stdlib Require Import Strings.Byte.
From stdpp Require Import base tactics list numbers option countable gmap sets.
From S2P Require Import Prelude Text EventDefs Filter FilterCompiler RuleSets.
Import ListNotations.
Local Open Scope Z_scope.

Section spec.
Context {C : Type} (regex : list byte -> option (list byte -> bool)).

(** ** The specification *)

Record spec : Type := mk_spec { sp_rules : list (rule C); sp_enabled : nat -> gset nat }.

Definition spec_init : spec := mk_spec [] (fun _ => ∅).

(** A name stands for the first rule that was added with it. *)
Definition first_named (rules : list (rule C)) (i : nat) (r : rule C) : bool :=
  forallb (fun r' => negb (bool_decide (rl_name r' = rl_name r))) (take i rules).

(** The rules that [p] selects. *)
Definition selected (rules : list (rule C)) (p : nat -> rule C -> bool) : gset nat :=
  list_to_set (List.filter (fun i => match rules !! i with Some r => p i r | None => false end)
                 (seq 0 (length rules))).

Definition spec_set (k : nat) (enabled : bool) (sel : gset nat) (sp : spec) : spec :=
  mk_spec (sp_rules sp) (fun k' =>
    if decide (k' = k) then if enabled then sp_enabled sp k ∪ sel else sp_enabled sp k ∖ sel
    else sp_enabled sp k').

Definition spec_call (c : call C) (sp : spec) : spec :=
  match c with
  | Add r => mk_spec (sp_rules sp ++ [r]) (sp_enabled sp)
  | Enable p b k =>
      match regex p with
      | None => sp
      | Some matches =>
          spec_set k b (selected (sp_rules sp) (fun i r =>
            matches (rl_name r) && first_named (sp_rules sp) i r)) sp
      end
  | EnableTags ts b k =>
      spec_set k b (selected (sp_rules sp) (fun _ r =>
        existsb (fun t => bool_decide (t ∈ rl_tags r)) ts)) sp
  end.

Definition spec_calls (cs : list (call C)) : spec := fold_left (fun sp c => spec_call c sp) cs spec_init.

(** A rule is about an event type or a system call, or about all of them. *)
Definition about_type (r : rule C) (t : Z) : bool := for_all_types r || bool_decide (t ∈ rl_evttypes r).
Definition about_syscall (r : rule C) (id : Z) : bool := for_all_types r || bool_decide (id ∈ rl_syscalls r).

Definition applies (r : rule C) (e : event) : bool :=
  if is_generic e then about_syscall r (e_syscall e) else about_type r (e_type e).

Definition matches (test : C -> bool) (n : node C) : bool :=
  match compare (fun c => Some (test c)) n 0 with Some (b, _) => b | None => false end.

(** An enabled rule applies to the event and matches. *)
Definition spec_run (sp : spec) (e : event) (k : nat) (test : C -> bool) : Prop :=
  exists i r, i ∈ sp_enabled sp k /\ sp_rules sp !! i = Some r /\ applies r e = true /\
    matches test (rl_filter r) = true.

Lemma elem_of_selected rules p i :
  i ∈ selected rules p <-> exists r, rules !! i = Some r /\ p i r = true.
Proof.
  unfold selected. rewrite elem_of_list_to_set, list_elem_of_In, filter_In, in_seq. split.
  - intros [_ Hp]. destruct (rules !! i) as [r|]; [by exists r|done].
  - intros (r & Hr & Hp). rewrite Hr. split; [|done]. apply lookup_lt_Some in Hr. lia.
Qed.

(** ** The index by keys *)

(** The list of a key after one that works on this key alone. *)
Lemma for_keys_lookup about n f g t k :
  (forall t k, f t k !! k = g (t !! k)) -> (forall t k k', k <> k' -> f t k !! k' = t !! k') ->
  0 <= k < n ->
  for_keys about n f t !! k = if nth (Z.to_nat k) about false then g (t !! k) else t !! k.
Proof.
  intros Hf Hf' Hk. unfold for_keys. assert (Hin : k ∈ seqZ 0 n) by (apply elem_of_seqZ; lia).
  pose proof (NoDup_seqZ 0 n) as Hnd. revert t Hin. induction Hnd as [|x ks Hx Hnd IH]; intros t Hin.
  { by apply not_elem_of_nil in Hin. }
  cbn [fold_left]. destruct (Z.eq_dec x k) as [-> |Hne].
  - assert (Hrest : forall ks t, k ∉ ks -> fold_left (fun t k => if nth (Z.to_nat k) about false
      then f t k else t) ks t !! k = t !! k).
    { clear -Hf'. intros ks. induction ks as [|y ks IH]; intros t Hn; [done|]. cbn [fold_left].
      apply not_elem_of_cons in Hn as [Hy Hn]. rewrite IH by done.
      destruct (nth _ _ _); [by rewrite Hf'|done]. }
    rewrite Hrest by done. destruct (nth _ _ _); [apply Hf|done].
  - apply list_elem_of_In in Hin as [?|Hin]; [done|]. rewrite IH by (by apply list_elem_of_In).
    destruct (nth (Z.to_nat x) _ _); [by rewrite Hf'|done].
Qed.

Lemma push_back_lookup t k w : push_back t k w !! k = Some (default [] (t !! k) ++ [w]).
Proof. apply lookup_insert_eq. Qed.
Lemma push_back_other t k k' w : k <> k' -> push_back t k w !! k' = t !! k'.
Proof. intros. by apply lookup_insert_ne. Qed.

Definition erased (w : nat) (o : option (list nat)) : option (list nat) :=
  match o with
  | None => None
  | Some l => match List.filter (fun x => negb (Nat.eqb x w)) l with [] => None | l' => Some l' end
  end.

Lemma erase_lookup t k w : erase t k w !! k = erased w (t !! k).
Proof.
  unfold erase, erased. destruct (t !! k) as [l|] eqn:E; [|done].
  destruct (List.filter _ l); [apply lookup_delete_eq|apply lookup_insert_eq].
Qed.
Lemma erase_other t k k' w : k <> k' -> erase t k w !! k' = t !! k'.
Proof.
  intros Hk. unfold erase. destruct (t !! k) as [l|]; [|done].
  destruct (List.filter _ l); [by apply lookup_delete_ne|by apply lookup_insert_ne].
Qed.

(** The lists of the keys below [n] hold the rules of [E] that are about the key. *)
Definition indexes (t : filter_lists) (n : Z) (E : gset nat) (P : nat -> Z -> bool) : Prop :=
  forall k, 0 <= k < n ->
    (forall i, i ∈ default [] (t !! k) <-> i ∈ E /\ P i k = true) /\ t !! k <> Some [].

Lemma indexes_empty n P : indexes ∅ n ∅ P.
Proof.
  intros k Hk. rewrite (lookup_empty (M := gmap Z) k : (∅ : filter_lists) !! k = None).
  split; [|done]. intros i. cbn [from_option].
  split; [intros Hin; by apply not_elem_of_nil in Hin|set_solver].
Qed.

Lemma indexes_add t n E P about w :
  indexes t n E P -> (forall k, 0 <= k < n -> nth (Z.to_nat k) about false = P w k) ->
  indexes (for_keys about n (fun t k => push_back t k w) t) n (E ∪ {[w]}) P.
Proof.
  intros Ht Ha k Hk. destruct (Ht k Hk) as [Hi Hn].
  rewrite (for_keys_lookup _ _ _ (fun o => Some (default [] o ++ [w])));
    [|intros; apply push_back_lookup|intros; by apply push_back_other|done].
  rewrite (Ha k Hk). destruct (P w k) eqn:Ep.
  - split; [|by destruct (default [] _)]. intros i. cbn [from_option]. unfold id at 1.
    rewrite elem_of_app, list_elem_of_singleton, Hi, elem_of_union, elem_of_singleton.
    split; [intros [[? ?]| ->]; auto|intros [[?| ->] ?]; auto].
  - split; [|done]. intros i. rewrite Hi, elem_of_union, elem_of_singleton.
    split; [intros [? ?]; auto|intros [[?| ->] ?]; [auto|congruence]].
Qed.

Lemma indexes_remove t n E P about w :
  indexes t n E P -> (forall k, 0 <= k < n -> nth (Z.to_nat k) about false = P w k) ->
  indexes (for_keys about n (fun t k => erase t k w) t) n (E ∖ {[w]}) P.
Proof.
  intros Ht Ha k Hk. destruct (Ht k Hk) as [Hi Hn].
  rewrite (for_keys_lookup _ _ _ (erased w));
    [|intros; apply erase_lookup|intros; by apply erase_other|done].
  rewrite (Ha k Hk).
  assert (He : forall i, i ∈ default [] (erased w (t !! k)) <-> i ∈ default [] (t !! k) /\ i <> w).
  { intros i. unfold erased. destruct (t !! k) as [l|]; cbn [from_option]; [unfold id at 2|set_solver].
    transitivity (i ∈ List.filter (fun x => negb (Nat.eqb x w)) l).
    - by destruct (List.filter _ l).
    - rewrite !list_elem_of_In, filter_In, negb_true_iff, Nat.eqb_neq. done. }
  destruct (P w k) eqn:Ep.
  - split.
    + intros i. rewrite He, Hi, elem_of_difference, elem_of_singleton. tauto.
    + unfold erased. destruct (t !! k) as [l|]; [|done]. by destruct (List.filter _ l).
  - split; [|done]. intros i. rewrite Hi, elem_of_difference, elem_of_singleton.
    split; [intros [? ?]; split; [split; [done|congruence]|done]|tauto].
Qed.

(** ** The rules by name *)

Lemma bytes_ltb_irrefl a : bytes_ltb a a = false.
Proof.
  induction a as [|x a IH]; [done|]. cbn. rewrite IH, andb_false_r, orb_false_r. by apply N.ltb_ge.
Qed.

Lemma bytes_ltb_trans a : forall b c, bytes_ltb a b = true -> bytes_ltb b c = true -> bytes_ltb a c = true.
Proof.
  induction a as [|x a IH]; intros [|y b] [|z c]; try done. cbn [bytes_ltb].
  rewrite !orb_true_iff, !andb_true_iff, !N.ltb_lt, !byte_eqb_eq.
  intros [H1|[-> H1]] [H2|[<- H2]]; eauto using N.lt_trans.
Qed.

Lemma bytes_ltb_total a : forall b, a <> b -> bytes_ltb a b = false -> bytes_ltb b a = true.
Proof.
  induction a as [|x a IH]; intros [|y b] Hne; try done. cbn [bytes_ltb].
  rewrite orb_false_iff, orb_true_iff, N.ltb_ge, N.ltb_lt. intros [Hle He].
  destruct (byte_eqb x y) eqn:Exy.
  - apply byte_eqb_eq in Exy as ->. right. rewrite byte_eqb_refl. cbn. apply IH; [congruence|done].
  - left. apply byte_eqb_neq in Exy. apply N.le_neq. split; [done|]. intros Heq. apply Exy.
    assert (Hz : Byte.of_N (Byte.to_N x) = Byte.of_N (Byte.to_N y)) by congruence.
    rewrite !Byte.of_to_N in Hz. congruence.
Qed.

Definition by_name (x y : list byte * nat) : Prop := bytes_ltb (fst x) (fst y) = true.

Lemma map_insert_elem n w l n' i :
  StronglySorted by_name l ->
  (n', i) ∈ map_insert n w l <->
    (n', i) ∈ l \/ (n' = n /\ i = w /\ forall j, (n, j) ∉ l).
Proof.
  induction 1 as [|[m v] l Hs IH Hf]; cbn [map_insert].
  - rewrite list_elem_of_singleton. split; [intros [= -> ->]|intros [H|(-> & -> & _)]; [|done]].
    + right. split_and!; [done|done|]. intros j. apply not_elem_of_nil.
    + by apply not_elem_of_nil in H.
  - destruct (bool_decide_reflect (n = m)) as [->|Hne].
    { split; [by left|]. intros [?|(_ & _ & Hj)]; [done|]. destruct (Hj v). left. }
    destruct (bytes_ltb n m) eqn:Elt.
    + rewrite (elem_of_cons ((m, v) :: l)). split.
      * intros [[= -> ->]|H]; [|by left]. right. split_and!; [done|done|]. intros j Hj.
        apply elem_of_cons in Hj as [[= -> _]|Hj]; [done|].
        rewrite Forall_forall in Hf. apply Hf in Hj. unfold by_name in Hj. cbn in Hj.
        pose proof (bytes_ltb_trans _ _ _ Elt Hj) as H. by rewrite bytes_ltb_irrefl in H.
      * intros [H|(-> & -> & _)]; [by right|by left].
    + rewrite !elem_of_cons, IH. split.
      * intros [H|[H|(-> & -> & Hj)]]; [tauto|tauto|]. right. split_and!; [done|done|].
        intros j Hin. apply elem_of_cons in Hin as [[= -> _]|Hin]; [done|by apply (Hj j)].
      * intros [[H|H]|(-> & -> & Hj)]; [tauto|tauto|]. right. right. split_and!; [done|done|].
        intros j Hin. apply (Hj j). by apply elem_of_cons; right.
Qed.

Lemma map_insert_sorted n w l : StronglySorted by_name l -> StronglySorted by_name (map_insert n w l).
Proof.
  induction 1 as [|[m v] l Hs IH Hf]; cbn [map_insert]; [repeat constructor|].
  destruct (bool_decide_reflect (n = m)) as [->|Hne]; [by constructor|].
  destruct (bytes_ltb n m) eqn:Elt.
  - constructor; [by constructor|]. constructor; [done|]. eapply Forall_impl; [exact Hf|].
    intros x Hx. unfold by_name in *. cbn in *. by eapply bytes_ltb_trans.
  - constructor; [done|].
    apply Forall_forall. intros [n' i] Hin. apply map_insert_elem in Hin; [|done].
    destruct Hin as [Hin|(-> & -> & _)].
    + rewrite Forall_forall in Hf. by apply Hf.
    + unfold by_name. cbn. by apply bytes_ltb_total.
Qed.

(** ** The vectors of a rule *)

Lemma set_indices_nth l : forall v v', set_indices l v = Some v' ->
  forall k, 0 <= k < Z.of_nat (length v) ->
  nth (Z.to_nat k) v' false = nth (Z.to_nat k) v false || bool_decide (k ∈ l).
Proof.
  induction l as [|x l IH]; intros v v' E k Hk; cbn [set_indices] in E.
  - simplify_eq. rewrite bool_decide_false by apply not_elem_of_nil. by rewrite orb_false_r.
  - destruct (_ && _) eqn:Ex; [|done]. bool_to_prop.
    rewrite (IH _ _ E) by (rewrite length_insert; lia).
    assert (Hn : nth (Z.to_nat k) (<[Z.to_nat x:=true]> v) false =
      (nth (Z.to_nat k) v false || bool_decide (k = x))).
    { rewrite !nth_lookup. destruct (decide (k = x)) as [->|Hne].
      - rewrite list_lookup_insert_eq by lia. rewrite bool_decide_true by done. by rewrite orb_true_r.
      - rewrite list_lookup_insert_ne by lia. rewrite bool_decide_false by done. by rewrite orb_false_r. }
    rewrite Hn, <- orb_assoc. f_equal.
    destruct (decide (k = x)) as [->|Hne].
    + by rewrite (bool_decide_true (x = x)), (bool_decide_true (x ∈ x :: l)) by (done || left).
    + rewrite (bool_decide_false (k = x)) by done. cbn [orb]. apply bool_decide_ext.
      rewrite elem_of_cons. tauto.
Qed.

Lemma about_nth def n l v : about def n l = Some v -> forall k, 0 <= k < n ->
  nth (Z.to_nat k) v false = def || bool_decide (k ∈ l).
Proof.
  intros E k Hk. unfold about in E. rewrite (set_indices_nth _ _ _ E k) by (rewrite length_replicate; lia).
  f_equal. rewrite nth_lookup, lookup_replicate_2 by lia. done.
Qed.

(** ** The refinement *)

(** Specifications that enable the same rules. *)
#[global] Instance spec_equiv : Equiv spec := fun a b =>
  sp_rules a = sp_rules b /\ forall k, sp_enabled a k = sp_enabled b k.

#[global] Instance spec_equiv_equivalence : Equivalence spec_equiv.
Proof.
  split.
  - by intros a.
  - intros a b [H1 H2]. split; [done|]. intros k. by rewrite H2.
  - intros a b c [H1 H2] [H3 H4]. split; [congruence|]. intros k. by rewrite H2.
Qed.

Definition rule_about (about : rule C -> Z -> bool) (rules : list (rule C)) (i : nat) (k : Z) : bool :=
  match rules !! i with Some r => about r k | None => false end.

Definition wrap_ok (w : filter_wrapper C) (r : rule C) : Prop :=
  w_filter w = rl_filter r /\
  (forall t, 0 <= t < PPM_EVENT_MAX -> nth (Z.to_nat t) (w_evttypes w) false = about_type r t) /\
  (forall t, 0 <= t < PPM_SC_MAX -> nth (Z.to_nat t) (w_syscalls w) false = about_syscall r t).

Definition ruleset_ok (rules : list (rule C)) (E : gset nat) (rs : ruleset_filters) : Prop :=
  indexes (m_filter_by_evttype rs) PPM_EVENT_MAX E (rule_about about_type rules) /\
  indexes (m_filter_by_syscall rs) PPM_SC_MAX E (rule_about about_syscall rules).

Record refines (st : evttype_filter C) (sp : spec) : Prop := mk_refines {
  rf_wraps : Forall2 wrap_ok (m_wrappers st) (sp_rules sp);
  rf_sorted : StronglySorted by_name (m_filters st);
  rf_names : forall n i, (n, i) ∈ m_filters st <->
    exists r, sp_rules sp !! i = Some r /\ rl_name r = n /\ first_named (sp_rules sp) i r = true;
  rf_tags : forall t i, i ∈ default [] (m_filter_by_tag st !! t) <->
    exists r, sp_rules sp !! i = Some r /\ t ∈ rl_tags r;
  rf_sets : forall k, match m_rulesets st !! k with
    | Some rs => ruleset_ok (sp_rules sp) (sp_enabled sp k) rs
    | None => sp_enabled sp k = ∅
    end;
  rf_enabled : forall k i, i ∈ sp_enabled sp k -> is_Some (sp_rules sp !! i) }.

#[global] Instance refines_proper : Proper (eq ==> (≡) ==> iff) refines.
Proof.
  assert (H : forall st a b, a ≡ b -> refines st a -> refines st b).
  { intros st a b [Hr Hk] [H1 H2 H3 H4 H5 H6].
    split; rewrite <- ?Hr; try done; intros k; rewrite <- Hk; [apply H5|apply H6]. }
  intros st _ <- a b Hab. split; [by apply H|]. by apply H, (symmetry Hab).
Qed.

Lemma refines_init : refines no_filters spec_init.
Proof.
  split; cbn; [constructor|constructor| | |done|intros; set_solver].
  - intros n i. split; [intros Hin; by apply not_elem_of_nil in Hin|by intros (r & ? & _)].
  - intros t i. rewrite lookup_empty. cbn.
    split; [intros Hin; by apply not_elem_of_nil in Hin|by intros (r & ? & _)].
Qed.

Lemma spec_set_set k b A B sp :
  spec_set k b B (spec_set k b A sp) ≡ spec_set k b (A ∪ B) sp.
Proof.
  split; [done|]. intros k'. cbn. destruct (decide (k' = k)); [|done].
  destruct (decide (k = k)); [|done]. destruct b; set_solver.
Qed.

Lemma spec_set_none k b sp : spec_set k b ∅ sp ≡ sp.
Proof.
  split; [done|]. intros k'. cbn. destruct (decide (k' = k)) as [->|]; [|done]. destruct b; set_solver.
Qed.

Lemma grown_refines k st sp : refines st sp ->
  refines (grown k st) sp /\ (k < length (m_rulesets (grown k st)))%nat.
Proof.
  intros [H1 H2 H3 H4 H5 H6]. split.
  - split; try done. intros k'. cbn [m_rulesets grown]. unfold grow. specialize (H5 k').
    destruct (decide (k' < length (m_rulesets st))%nat) as [Hlt|Hge].
    + by rewrite lookup_app_l.
    + rewrite lookup_app_r by lia. rewrite (lookup_ge_None_2 (m_rulesets st)) in H5 by lia.
      destruct (replicate _ _ !! _) as [rs|] eqn:E; [|done].
      apply lookup_replicate in E as [-> _]. rewrite H5.
      split; apply indexes_empty.
  - cbn. unfold grow. rewrite length_app, length_replicate. lia.
Qed.

Lemma set_enabled_refines b k i st sp :
  refines st sp -> (k < length (m_rulesets st))%nat -> is_Some (sp_rules sp !! i) ->
  refines (set_enabled b k st i) (spec_set k b {[i]} sp).
Proof.
  intros [H1 H2 H3 H4 H5 H6] Hk [r Hr]. unfold set_enabled.
  destruct (Forall2_lookup_r _ _ _ _ _ H1 Hr) as (w & Hw & Hf & Ht & Hs). rewrite Hw.
  destruct (lookup_lt_is_Some_2 _ _ Hk) as [rs Hrs]. rewrite Hrs.
  split; try done; cbn [m_rulesets spec_set sp_enabled sp_rules].
  - intros k'. destruct (decide (k' = k)) as [->|Hne].
    + rewrite list_lookup_insert_eq by done. specialize (H5 k). rewrite Hrs in H5.
      destruct H5 as [He Hy].
      assert (Ha : forall t, 0 <= t < PPM_EVENT_MAX ->
        nth (Z.to_nat t) (w_evttypes w) false = rule_about about_type (sp_rules sp) i t)
        by (intros; unfold rule_about; rewrite Hr; auto).
      assert (Hb : forall t, 0 <= t < PPM_SC_MAX ->
        nth (Z.to_nat t) (w_syscalls w) false = rule_about about_syscall (sp_rules sp) i t)
        by (intros; unfold rule_about; rewrite Hr; auto).
      destruct b; split; cbn; auto using indexes_add, indexes_remove.
    + rewrite list_lookup_insert_ne by done. apply H5.
  - intros k' j. destruct (decide (k' = k)) as [->|]; [|apply H6].
    destruct b; [rewrite elem_of_union, elem_of_singleton; intros [?| ->]; [by eapply H6|by exists r]|].
    rewrite elem_of_difference. intros [? _]. by eapply H6.
Qed.

(** What the loops of the two operations leave alone. *)
Definition same_rules (st st' : evttype_filter C) : Prop :=
  m_filter_by_tag st' = m_filter_by_tag st /\ m_filters st' = m_filters st /\
  length (m_rulesets st') = length (m_rulesets st).

Lemma set_enabled_same b k i st : same_rules st (set_enabled b k st i).
Proof.
  unfold set_enabled, same_rules. destruct (_ !! i); [|done]. destruct (_ !! k); [|done].
  cbn. by rewrite length_insert.
Qed.

Lemma set_all_refines b k l : forall st sp,
  refines st sp -> (k < length (m_rulesets st))%nat ->
  Forall (fun i => is_Some (sp_rules sp !! i)) l ->
  refines (fold_left (set_enabled b k) l st) (spec_set k b (list_to_set l) sp) /\
  same_rules st (fold_left (set_enabled b k) l st).
Proof.
  induction l as [|i l IH]; intros st sp Hr Hk Hl; cbn [fold_left list_to_set].
  - split; [by rewrite spec_set_none|done].
  - apply Forall_cons_1 in Hl as [Hi Hl].
    pose proof (set_enabled_same b k i st) as (S1 & S2 & S3).
    destruct (IH _ _ (set_enabled_refines b k i st sp Hr Hk Hi)) as [Hr' (T1 & T2 & T3)];
      [by rewrite S3|done|].
    split; [by rewrite spec_set_set in Hr'|]. split_and!; congruence.
Qed.

Lemma fold_left_filter {A B} (p : A -> bool) (g : A -> nat) (f : B -> nat -> B) l : forall b,
  fold_left (fun b x => if p x then f b (g x) else b) l b = fold_left f (map g (List.filter p l)) b.
Proof.
  induction l as [|x l IH]; intros b; [done|]. cbn [fold_left List.filter].
  destruct (p x); cbn [map fold_left]; apply IH.
Qed.

Lemma enable_refines p b k st sp : refines st sp ->
  match enable regex p b k st with
  | Done st' => refines st' (spec_call (Enable p b k) sp)
  | Throws => refines st (spec_call (Enable p b k) sp)
  | Undefined => False
  end.
Proof.
  intros Hr. unfold enable. cbn [spec_call]. destruct (regex p) as [m|]; [|done].
  rewrite (fold_left_filter (fun x => m (fst x)) snd).
  destruct (grown_refines k st sp Hr) as [Hg Hk].
  set (l := map snd (List.filter (fun x => m (fst x)) (m_filters st))).
  assert (Hl : forall i, i ∈ l <-> exists r, sp_rules sp !! i = Some r /\
    m (rl_name r) && first_named (sp_rules sp) i r = true).
  { intros i. unfold l. rewrite list_elem_of_In, in_map_iff. split.
    - intros ([n j] & <- & Hin). apply filter_In in Hin as [Hin Hm]. apply list_elem_of_In in Hin.
      apply (rf_names _ _ Hr) in Hin as (r & Hi & <- & Hf). exists r. cbn [fst snd] in *. by rewrite Hm, Hf.
    - intros (r & Hi & Hb). apply andb_true_iff in Hb as [Hm Hf]. exists (rl_name r, i).
      split; [done|]. apply filter_In. split; [|done]. apply list_elem_of_In, (rf_names _ _ Hr). eauto. }
  destruct (set_all_refines b k l _ _ Hg Hk) as [H _].
  { apply Forall_forall. intros i Hi. apply Hl in Hi as (r & ? & _). by exists r. }
  replace (selected _ _) with (list_to_set l : gset nat); [done|]. apply set_eq. intros i.
  by rewrite elem_of_list_to_set, elem_of_selected, Hl.
Qed.

Lemma enable_tags_refines ts b k st sp : refines st sp ->
  match enable_tags ts b k st with
  | Done st' => refines st' (spec_call (EnableTags ts b k) sp)
  | _ => False
  end.
Proof.
  intros Hr. unfold enable_tags. cbn [spec_call].
  destruct (grown_refines k st sp Hr) as [Hg Hk]. revert Hg Hk. generalize (grown k st). clear st Hr.
  assert (Hall : forall ts st sp, refines st sp -> (k < length (m_rulesets st))%nat ->
    refines (fold_left (fun st tag => fold_left (set_enabled b k)
      (default [] (m_filter_by_tag st !! tag)) st) ts st)
    (spec_set k b (selected (sp_rules sp) (fun _ r => existsb (fun t => bool_decide (t ∈ rl_tags r)) ts)) sp)).
  { clear ts sp. intros ts. induction ts as [|t ts IH]; intros st sp Hr Hk; cbn [fold_left].
    - replace (selected _ _) with (∅ : gset nat); [by rewrite spec_set_none|].
      apply set_eq. intros i. rewrite elem_of_selected. split; [set_solver|by intros (r & _ & ?)].
    - set (l := default [] (m_filter_by_tag st !! t)).
      assert (Hl : forall i, i ∈ l <-> exists r, sp_rules sp !! i = Some r /\ t ∈ rl_tags r)
        by (intros i; apply (rf_tags _ _ Hr)).
      destruct (set_all_refines b k l st sp Hr Hk) as [Hr' (_ & _ & Hlen)].
      { apply Forall_forall. intros i Hi. apply Hl in Hi as (r & ? & _). by exists r. }
      pose proof (IH _ _ Hr' ltac:(by rewrite Hlen)) as H. rewrite spec_set_set in H.
      cbn [spec_set sp_rules] in H.
      replace (selected (sp_rules sp) _) with (list_to_set l ∪ selected (sp_rules sp)
        (fun _ r => existsb (fun t => bool_decide (t ∈ rl_tags r)) ts)); [done|].
      apply set_eq. intros i. rewrite elem_of_union, elem_of_list_to_set, !elem_of_selected, Hl.
      cbn [existsb]. setoid_rewrite orb_true_iff. setoid_rewrite bool_decide_eq_true. naive_solver. }
  intros st Hg Hk. by apply Hall.
Qed.

Lemma first_named_app rules r i r' :
  (i < length rules)%nat -> first_named (rules ++ [r']) i r = first_named rules i r.
Proof. intros Hi. unfold first_named. by rewrite take_app_le by lia. Qed.

Lemma first_named_last rules r :
  first_named rules (length rules) r = true <-> forall j r', rules !! j = Some r' -> rl_name r' <> rl_name r.
Proof.
  unfold first_named. rewrite firstn_all, forallb_forall. split.
  - intros H j r' Hj. specialize (H r' (proj1 (list_elem_of_In _ _) (list_elem_of_lookup_2 _ _ _ Hj))).
    apply negb_true_iff, bool_decide_eq_false in H. done.
  - intros H r' Hr. apply list_elem_of_In, list_elem_of_lookup in Hr as [j Hj].
    apply negb_true_iff, bool_decide_eq_false. by apply (H j).
Qed.

(** The first rule of a name is there. *)
Lemma first_named_exists rules n j r :
  rules !! j = Some r -> rl_name r = n ->
  exists i r', rules !! i = Some r' /\ rl_name r' = n /\ first_named rules i r' = true.
Proof.
  revert r. induction j as [j IH] using lt_wf_ind. intros r Hj Hn.
  destruct (first_named rules j r) eqn:Ef; [by exists j, r|].
  unfold first_named in Ef. apply not_true_iff_false in Ef. rewrite forallb_forall in Ef.
  destruct (decide (Exists (fun r' => rl_name r' = n) (take j rules))) as [Hex|Hno].
  - apply Exists_exists in Hex as (r' & Hin & Hr'). apply list_elem_of_lookup in Hin as [m Hm].
    apply lookup_take_Some in Hm as [Hm Hlt]. by apply (IH m Hlt r').
  - destruct Ef. intros x Hx. apply negb_true_iff, bool_decide_eq_false. intros Hxn. apply Hno.
    apply Exists_exists. exists x. split; [by apply list_elem_of_In|congruence].
Qed.

Lemma tags_fold tags w : forall (m : gmap (list byte) (list nat)) t i,
  i ∈ default [] (fold_left (fun t tag => <[tag := default [] (t !! tag) ++ [w]]> t) tags m !! t) <->
    i ∈ default [] (m !! t) \/ (i = w /\ t ∈ tags).
Proof.
  induction tags as [|x tags IH]; intros m t i; cbn [fold_left].
  - split; [by left|]. intros [?|[_ H]]; [done|]. by apply not_elem_of_nil in H.
  - rewrite IH, elem_of_cons. destruct (decide (x = t)) as [->|Hne].
    + rewrite lookup_insert_eq. cbn [from_option]. unfold id at 1.
      rewrite elem_of_app, list_elem_of_singleton. tauto.
    + rewrite lookup_insert_ne by done. naive_solver.
Qed.

Lemma indexes_ext t n E P P' :
  (forall i k, i ∈ E -> P i k = P' i k) -> indexes t n E P -> indexes t n E P'.
Proof.
  intros HP H k Hk. destruct (H k Hk) as [Hi Hn]. split; [|done]. intros i. rewrite Hi.
  split; intros [Hin ?]; (split; [done|]); [rewrite <- HP|rewrite HP]; done.
Qed.

Lemma lookup_app_one {A} (l : list A) x i y :
  (l ++ [x]) !! i = Some y <-> l !! i = Some y \/ (i = length l /\ y = x).
Proof.
  rewrite lookup_app_Some. split.
  - intros [?|[Hle H]]; [by left|right]. apply list_lookup_singleton_Some in H as [H ->].
    split; [lia|done].
  - intros [?|[-> ->]]; [by left|right]. split; [lia|]. by rewrite Nat.sub_diag.
Qed.

Lemma add_refines r st sp : refines st sp ->
  match add r st with
  | Done st' => refines st' (spec_call (Add r) sp)
  | Throws => False
  | Undefined => True
  end.
Proof.
  intros [H1 H2 H3 H4 H5 H6]. unfold add.
  destruct (about _ _ (rl_evttypes r)) as [ev|] eqn:Ee; [|done].
  destruct (about _ _ (rl_syscalls r)) as [sc|] eqn:Es; [|done].
  pose proof (Forall2_length _ _ _ H1) as Hlen. cbn [spec_call].
  assert (Hab : forall about k i, i ∈ sp_enabled sp k -> forall t,
    rule_about about (sp_rules sp) i t = rule_about about (sp_rules sp ++ [r]) i t).
  { intros about k i Hi t. destruct (H6 k i Hi) as [x Hx]. unfold rule_about.
    by rewrite Hx, (lookup_app_l_Some _ _ _ _ Hx). }
  split; cbn [m_wrappers m_rulesets m_filter_by_tag m_filters sp_rules sp_enabled].
  - apply Forall2_app; [done|]. constructor; [|done]. split_and!; [done| |]; cbn; intros t Ht;
      [apply (about_nth _ _ _ _ Ee t Ht)|apply (about_nth _ _ _ _ Es t Ht)].
  - by apply map_insert_sorted.
  - intros n i. rewrite map_insert_elem, H3 by done. setoid_rewrite lookup_app_one. rewrite Hlen. split.
    + intros [(x & Hx & Hn & Hf)|(-> & -> & Hno)].
      * exists x. split; [by left|]. split; [done|]. rewrite first_named_app; [done|].
        by apply lookup_lt_Some in Hx.
      * exists r. split; [by right|]. split; [done|]. unfold first_named.
        rewrite take_app_le, <- (firstn_all (sp_rules sp)) by lia. rewrite firstn_all.
        apply first_named_last. intros j x Hx Heq.
        destruct (first_named_exists _ _ _ _ Hx Heq) as (i & x' & Hi & Hn & Hf).
        apply (Hno i). apply H3. by exists x'.
    + intros (x & [Hx|[-> ->]] & Hn & Hf).
      * left. exists x. rewrite first_named_app in Hf by (by apply lookup_lt_Some in Hx). done.
      * right. split_and!; [done|done|]. intros j Hj. apply H3 in Hj as (x & Hx & Hxn & _).
        unfold first_named in Hf. rewrite take_app_le in Hf by lia.
        apply (proj1 (first_named_last (sp_rules sp) r) Hf j x Hx). congruence.
  - intros t i. rewrite tags_fold, H4. setoid_rewrite lookup_app_one. rewrite Hlen. split.
    + intros [(x & Hx & Ht)|[-> Ht]]; [exists x; auto|exists r; auto].
    + intros (x & [Hx|[-> ->]] & Ht); [left; by exists x|by right].
  - intros k. specialize (H5 k). destruct (m_rulesets st !! k) as [rs|]; [|done].
    destruct H5 as [He Hs]. split; (eapply indexes_ext; [|eassumption]); intros i t Hi; by apply (Hab _ k).
  - intros k i Hi. destruct (H6 k i Hi) as [x Hx]. exists x. apply lookup_app_one. by left.
Qed.

Lemma call_refines c st sp : refines st sp ->
  match do_call regex c st with
  | Done st' => refines st' (spec_call c sp)
  | Throws => refines st (spec_call c sp)
  | Undefined => True
  end.
Proof.
  intros Hr. destruct c as [r|p b k|ts b k].
  - pose proof (add_refines r st sp Hr). cbn [do_call]. by destruct (add r st).
  - pose proof (enable_refines p b k st sp Hr). cbn [do_call]. by destruct (enable _ _ _ _ _).
  - pose proof (enable_tags_refines ts b k st sp Hr). cbn [do_call]. by destruct (enable_tags _ _ _ _).
Qed.

Lemma calls_refine cs : forall st sp st', refines st sp -> do_calls regex cs st = Done st' ->
  refines st' (fold_left (fun sp c => spec_call c sp) cs sp).
Proof.
  induction cs as [|c cs IH]; intros st sp st' Hr E; cbn [do_calls fold_left] in *; [by simplify_eq|].
  pose proof (call_refines c st sp Hr) as Hc.
  destruct (do_call regex c st) as [st1| |]; [by apply (IH st1)|by apply (IH st)|done].
Qed.

(** ** Running an event *)

Lemma matches_compare test n cur :
  exists cur', compare (fun c => Some (test c)) n cur = Some (matches test n, cur').
Proof.
  destruct (compare_total test n) as [b Hb]. unfold matches. destruct (Hb 0) as [c0 ->]. apply Hb.
Qed.

Lemma run_filters_spec wraps rules test l :
  Forall2 wrap_ok wraps rules -> Forall (fun i => is_Some (rules !! i)) l -> forall cur,
  exists b cur', run_filters wraps (fun c => Some (test c)) l cur = Done (b, cur') /\
    (b = true <-> exists i r, i ∈ l /\ rules !! i = Some r /\ matches test (rl_filter r) = true).
Proof.
  intros Hw Hl. induction Hl as [|i l [r Hr] _ IH]; intros cur; cbn [run_filters].
  - exists false, cur. split; [done|]. split; [done|].
    intros (i & r & Hin & _). by apply not_elem_of_nil in Hin.
  - destruct (Forall2_lookup_r _ _ _ _ _ Hw Hr) as (w & -> & Hf & _). rewrite Hf.
    destruct (matches_compare test (rl_filter r) cur) as [cur' ->].
    destruct (matches test (rl_filter r)) eqn:Em.
    + exists true, cur'. split; [done|]. split; [|done]. intros _. exists i, r. split; [left|done].
    + destruct (IH cur') as (b & cur2 & E & Hb). exists b, cur2. split; [done|]. rewrite Hb.
      split; intros (j & r' & Hj & Hr' & Hm); exists j, r'; (split; [|done]).
      * by right.
      * apply elem_of_cons in Hj as [->|Hj]; [congruence|done].
Qed.

(** The list of a key, or none. *)
Lemma run_key wraps sp t n about k E (e : event) test cur :
  Forall2 wrap_ok wraps (sp_rules sp) -> (forall i, i ∈ E -> is_Some (sp_rules sp !! i)) ->
  indexes t n E (rule_about about (sp_rules sp)) -> 0 <= k < n ->
  exists b cur', match t !! k with
      | None => Done (false, cur) | Some l => run_filters wraps (fun c => Some (test c)) l cur
      end = Done (b, cur') /\
    (b = true <-> exists i r, i ∈ E /\ sp_rules sp !! i = Some r /\ about r k = true /\
       matches test (rl_filter r) = true).
Proof.
  intros Hw He Ht Hk. destruct (Ht k Hk) as [Hi _].
  assert (Hin : forall i r, sp_rules sp !! i = Some r ->
    i ∈ default [] (t !! k) <-> i ∈ E /\ about r k = true).
  { intros i r Hr. rewrite Hi. unfold rule_about. by rewrite Hr. }
  destruct (t !! k) as [l|]; cbn [from_option] in Hi, Hin.
  - unfold id in Hi, Hin.
    destruct (run_filters_spec wraps (sp_rules sp) test l Hw) with (cur := cur) as (b & cur' & E1 & Hb).
    { apply Forall_forall. intros i Hl. apply He, (proj1 (proj1 (Hi i) Hl)). }
    exists b, cur'. split; [done|]. rewrite Hb.
    split; intros (i & r & H); exists i, r; destruct H as (Hl & H); repeat (destruct H as [? H]);
      split_and?; try done; try (by apply (Hin i r)); try (by apply (Hin i r) in Hl as []).
  - exists false, cur. split; [done|]. split; [done|]. intros (i & r & HE & Hr & Ha & _).
    assert (Hn : i ∈ @nil nat) by (by apply (Hin i r)). by apply not_elem_of_nil in Hn.
Qed.

Definition event_ok (e : event) : Prop :=
  0 <= e_type e < PPM_EVENT_MAX /\ (is_generic e = true -> 0 <= e_syscall e < PPM_SC_MAX).

Lemma run_refines st sp e k test cur : refines st sp -> event_ok e ->
  exists b cur', filters_run st e k (fun c => Some (test c)) cur = Done (b, cur') /\
    (b = true <-> spec_run sp e k test).
Proof.
  intros Hr [Ht Hg]. unfold filters_run. pose proof (rf_sets _ _ Hr k) as Hk.
  destruct (m_rulesets st !! k) as [rs|].
  - destruct Hk as [Hev Hsc]. unfold ruleset_run, spec_run, applies.
    destruct (is_generic e).
    + specialize (Hg eq_refl). rewrite (proj2 (Z.leb_le 0 _)), (proj2 (Z.ltb_lt _ PPM_SC_MAX)) by lia.
      exact (run_key _ sp _ _ _ _ _ e test cur (rf_wraps _ _ Hr) (rf_enabled _ _ Hr k) Hsc Hg).
    + rewrite (proj2 (Z.leb_le 0 _)), (proj2 (Z.ltb_lt _ PPM_EVENT_MAX)) by lia.
      exact (run_key _ sp _ _ _ _ _ e test cur (rf_wraps _ _ Hr) (rf_enabled _ _ Hr k) Hev Ht).
  - exists false, cur. split; [done|]. split; [done|]. intros (i & r & Hi & _). rewrite Hk in Hi.
    by apply not_elem_of_empty in Hi.
Qed.

(** The keys that are reported. *)
Lemma keys_of_spec rules t n about E k :
  (forall i, i ∈ E -> is_Some (rules !! i)) -> indexes t n E (rule_about about rules) -> 0 <= k < n ->
  keys_of t n !! Z.to_nat k = Some true <-> exists i r, i ∈ E /\ rules !! i = Some r /\ about r k = true.
Proof.
  intros He Ht Hk. destruct (Ht k Hk) as [Hi Hn]. unfold keys_of.
  assert (Hs : seqZ 0 n !! Z.to_nat k = Some k) by (apply lookup_seqZ; lia).
  rewrite (lookup_app_l_Some _ _ _ (match t !! k with Some _ => true | None => false end));
    [|by rewrite (list_lookup_fmap (B := bool)), Hs].
  transitivity (exists i, i ∈ default [] (t !! k)).
  - destruct (t !! k) as [[|i l]|]; [done| |].
    + split; [|done]. intros _. exists i. left.
    + split; [done|]. intros [i H]. by apply not_elem_of_nil in H.
  - setoid_rewrite Hi. unfold rule_about. split.
    + intros (i & HE & Ha). destruct (He i HE) as [r Hr]. rewrite Hr in Ha. by exists i, r.
    + intros (i & r & HE & Hr & Ha). exists i. by rewrite Hr.
Qed.

(** C23: after any sequence of additions and of rules being enabled and disabled by
    name pattern and by tag, an event runs to a match exactly when a rule that is
    enabled in the set applies to the event's type, or to its system call if it is a
    generic event, and its filter matches; and the event types and system calls
    reported for a set are exactly those of its enabled rules. *)
Theorem rulesets_refine cs st :
  do_calls regex cs no_filters = Done st ->
  (forall e k test cur, event_ok e -> exists b cur',
     filters_run st e k (fun c => Some (test c)) cur = Done (b, cur') /\
     (b = true <-> spec_run (spec_calls cs) e k test)) /\
  (forall k, (k < length (m_rulesets st))%nat -> exists ev sc,
     evttypes_for_ruleset st k = Done ev /\ syscalls_for_ruleset st k = Done sc /\
     (forall t, 0 <= t < PPM_EVENT_MAX -> ev !! Z.to_nat t = Some true <->
        exists i r, i ∈ sp_enabled (spec_calls cs) k /\ sp_rules (spec_calls cs) !! i = Some r /\
          about_type r t = true) /\
     forall t, 0 <= t < PPM_SC_MAX -> sc !! Z.to_nat t = Some true <->
        exists i r, i ∈ sp_enabled (spec_calls cs) k /\ sp_rules (spec_calls cs) !! i = Some r /\
          about_syscall r t = true).
Proof.
  intros E. pose proof (calls_refine cs _ _ _ refines_init E) as Hr. fold (spec_calls cs) in Hr.
  split; [intros; by apply run_refines|]. intros k Hk.
  destruct (lookup_lt_is_Some_2 _ _ Hk) as [rs Hrs]. pose proof (rf_sets _ _ Hr k) as Hs.
  unfold evttypes_for_ruleset, syscalls_for_ruleset. rewrite Hrs in Hs |- *. destruct Hs as [He Hy].
  do 2 eexists. split_and!; [done|done| |]; intros t Ht;
    eapply keys_of_spec; try eassumption; apply (rf_enabled _ _ Hr).
Qed.

(** A rule that is added under a name that is taken is not reached by any pattern. *)
Lemma taken_name_never_enabled sp r0 r j p b k :
  sp_rules sp !! j = Some r0 -> rl_name r0 = rl_name r ->
  (forall k, length (sp_rules sp) ∉ sp_enabled sp k) ->
  length (sp_rules sp) ∉ sp_enabled (spec_call (Enable p b k) (spec_call (Add r) sp)) k.
Proof.
  intros Hj Hn Hno Hin. cbn [spec_call] in Hin. destruct (regex p) as [m|]; [|by apply (Hno k)].
  cbn [spec_set sp_enabled sp_rules] in Hin. rewrite decide_True in Hin by done.
  assert (Hs : length (sp_rules sp) ∈ selected (sp_rules sp ++ [r]) (fun i r' =>
    m (rl_name r') && first_named (sp_rules sp ++ [r]) i r')).
  { destruct b; [|exfalso; apply elem_of_difference in Hin as [H _]; by apply (Hno k)].
    apply elem_of_union in Hin as [H|H]; [exfalso; by apply (Hno k)|done]. }
  apply elem_of_selected in Hs as (x & Hx & Hp). apply lookup_app_one in Hx as [Hx|[_ ->]].
  { apply lookup_lt_Some in Hx. lia. }
  apply andb_true_iff in Hp as [_ Hf]. unfold first_named in Hf. rewrite take_app_le in Hf by lia.
  exact (proj1 (first_named_last _ _) Hf j r0 Hj Hn).
Qed.

(** The types of a set that no call has reached are read behind the vector, while
    running an event in it finds no match. *)
Lemma unused_ruleset_query st e k (test : C -> option bool) cur :
  (length (m_rulesets st) <= k)%nat ->
  evttypes_for_ruleset st k = Undefined /\ filters_run st e k test cur = Done (false, cur).
Proof.
  intros Hk. unfold evttypes_for_ruleset, filters_run. by rewrite (lookup_ge_None_2 _ _ Hk).
Qed.
End spec.

(** A filter of one check, on opens and on a system call, enabled and then disabled
    by its tag. *)
Definition sample_rule : rule bool :=
  mk_rule [x61] [PPME_SYSCALL_OPEN_X] [5] [[x62]] (Expr 0 0 [Leaf BO_NONE 7 true]).

Lemma rulesets_refine_witness :
  exists st, do_calls (fun p => Some (fun n => bool_decide (n = p)))
    [Add sample_rule; Enable [x61] true 1; Enable [x61] true 0; EnableTags [[x62]] false 0] no_filters
    = Done st /\
  filters_run st (mk_event PPME_SYSCALL_OPEN_X 0) 1 Some 0 = Done (true, 7) /\
  forall cur, exists b cur', filters_run st (mk_event PPME_GENERIC_E 5) 0 (fun c => Some c) cur = Done (b, cur').
Proof.
  eexists. split; [reflexivity|]. split; [by vm_compute|]. intros cur.
  destruct (rulesets_refine (fun p => Some (fun n => bool_decide (n = p)))
    [Add sample_rule; Enable [x61] true 1; Enable [x61] true 0; EnableTags [[x62]] false 0] _ eq_refl)
    as [Hrun _].
  destruct (Hrun (mk_event PPME_GENERIC_E 5) 0%nat (fun c => c) cur) as (b & cur' & H & _);
    [by vm_compute|].
  by exists b, cur'.
Defined.
