(* ===== verification/Interfaces.v ===== *)
(** * Addresses and interfaces: [libsinsp/ifinfo.cpp], [tuples.cpp], and the networks
      of [value_parser.cpp] and [filter.cpp]

    Addresses are kept in network byte order, as the integer that a little-endian
    machine reads.  The interfaces of the machine tell which addresses are local,
    and which address an unbound socket has. *)

From Stdlib Require Import ZArith Lia List Bool.
From Stdlib Require Import Strings.Byte.
From stdpp Require Import base tactics list numbers option.
From S2P Require Import Prelude Bytes BlockIO.
Import ListNotations.
Local Open Scope Z_scope.

(** ** Byte order *)

(** [htonl] and [ntohl] *)
Definition htonl (v : Z) : Z := le_val (rev (le32 v)).

(** ** IPv4 interfaces *)

Record ipv4_ifinfo : Type := mk_if4 {
  m_addr : Z; m_netmask : Z; m_bcast : Z; m_name : list byte }.

Definition INADDR_LOOPBACK : Z := 0x7f000001.

(** The address of the first interface that has the property. *)
Definition first_addr {I A} (addr : I -> A) (p : I -> bool) (l : list I) : option A :=
  option_map addr (find p l).

Definition or_else {A} (o : option A) (d : A) : A := match o with Some a => a | None => d end.

Definition same_subnet (i : ipv4_ifinfo) (a : Z) : bool :=
  Z.land (m_addr i) (m_netmask i) =? Z.land a (m_netmask i).

(** [infer_ipv4_address]: the address itself if it is one of an interface, else one in
    its network, else the first that is not the loopback. *)
Definition infer_ipv4_address (ifs : list ipv4_ifinfo) (destination : Z) : Z :=
  or_else (first_addr m_addr (fun i => m_addr i =? destination) ifs)
   (or_else (first_addr m_addr (fun i => same_subnet i destination) ifs)
     (or_else (first_addr m_addr (fun i => negb (m_addr i =? htonl INADDR_LOOPBACK)) ifs) 0)).

(** The comparison with the private internets. *)
Definition is_private (addr : Z) : bool :=
  let a := htonl addr in
  (Z.land a 0xff000000 =? 0x0a000000) || (Z.land a 0xffff0000 =? 0xc0a80000)
  || (Z.land a 0xff3f0000 =? 0xac100000).

Definition is_ipv4addr_in_subnet (ifs : list ipv4_ifinfo) (addr : Z) : bool :=
  is_private addr || existsb (fun i => same_subnet i addr) ifs.

(** The container of a thread as the manager knows it, and the addresses of all
    containers. *)
Record containers : Type := mk_containers {
  get_container : list byte -> option Z; container_ips : list Z }.

Definition is_ipv4addr_in_local_machine (ifs : list ipv4_ifinfo) (cs : containers)
    (container_id : list byte) (addr : Z) : bool :=
  (match container_id with
   | [] => false
   | _ =>
       match get_container cs container_id with
       | None => false
       | Some ip =>
           if negb (ip =? 0) then addr =? htonl ip
           else existsb (fun ip => htonl ip =? addr) (container_ips cs)
       end
   end)
  || existsb (fun i => m_addr i =? addr) ifs.

(** ** IPv6 *)

Record ipv6addr : Type := mk_addr6 { b0 : Z; b1 : Z; b2 : Z; b3 : Z }.

Definition empty_address : ipv6addr := mk_addr6 0 0 0 0.

Definition addr6_eqb (x y : ipv6addr) : bool :=
  (b0 x =? b0 y) && (b1 x =? b1 y) && (b2 x =? b2 y) && (b3 x =? b3 y).

(** [operator<] *)
Definition addr6_ltb (x y : ipv6addr) : bool :=
  if b0 x <? b0 y then true else if b0 y <? b0 x then false
  else if b1 x <? b1 y then true else if b1 y <? b1 x then false
  else if b2 x <? b2 y then true else if b2 y <? b2 x then false
  else if b3 x <? b3 y then true else if b3 y <? b3 x then false
  else false.

Definition in_subnet (x other : ipv6addr) : bool := (b0 x =? b0 other) && (b1 x =? b1 other).

Record ipv6_ifinfo : Type := mk_if6 { m_net : ipv6addr; m_name6 : list byte }.

Definition m_ipv6_loopback_addr : ipv6addr := mk_addr6 0 0 0 (htonl 1).

Definition infer_ipv6_address (ifs : list ipv6_ifinfo) (destination : ipv6addr) : ipv6addr :=
  or_else (first_addr m_net (fun i => addr6_eqb destination (m_net i)) ifs)
   (or_else (first_addr m_net (fun i => in_subnet (m_net i) destination) ifs)
     (or_else (first_addr m_net (fun i => negb (addr6_eqb (m_net i) m_ipv6_loopback_addr)) ifs)
        empty_address)).

Definition is_ipv6addr_in_local_machine (ifs : list ipv6_ifinfo) (container_id : list byte)
    (addr : ipv6addr) : bool :=
  match container_id with [] => existsb (fun i => in_subnet addr (m_net i)) ifs | _ => false end.

(** ** The interfaces of the machine *)

Record interfaces : Type := mk_interfaces {
  m_ipv4_interfaces : list ipv4_ifinfo; m_ipv6_interfaces : list ipv6_ifinfo }.

(** [import_interfaces], with the lists that the capture has; [None] for none. *)
Definition import_interfaces (l : option (list ipv4_ifinfo * list ipv6_ifinfo)) (n : interfaces) :
    interfaces :=
  match l with None => n | Some (l4, l6) => mk_interfaces ([] ++ l4) ([] ++ l6) end.

Definition import_ipv4_interface (i : ipv4_ifinfo) (n : interfaces) : interfaces :=
  mk_interfaces (m_ipv4_interfaces n ++ [i]) (m_ipv6_interfaces n).
Definition import_ipv6_interface (i : ipv6_ifinfo) (n : interfaces) : interfaces :=
  mk_interfaces (m_ipv4_interfaces n) (m_ipv6_interfaces n ++ [i]).

(** ** Sockets *)

(** [ipv4tuple] and [ipv6tuple] *)
Record tuple (A : Type) : Type := mk_tuple {
  m_sip : A; m_dip : A; m_sport : Z; m_dport : Z; m_l4proto : Z }.
Arguments mk_tuple {A}.
Arguments m_sip {A}.
Arguments m_dip {A}.
Arguments m_sport {A}.
Arguments m_dport {A}.
Arguments m_l4proto {A}.

(** A descriptor, by its type. *)
Inductive fdinfo : Type :=
| IPv4Sock (t : tuple Z)
| IPv6Sock (t : tuple ipv6addr)
| OtherFd (m_type : Z).

(** One branch of [update_fd]. *)
Definition update_tuple {A} (eqb : A -> A -> bool) (zero : A) (infer : A -> A) (t : tuple A) : tuple A :=
  if negb (eqb zero (m_sip t)) && negb (eqb zero (m_dip t)) then t
  else if eqb zero (m_sip t) then
    let newaddr := infer (m_dip t) in
    if eqb newaddr (m_dip t) && (m_sport t =? m_dport t) then t
    else mk_tuple newaddr (m_dip t) (m_sport t) (m_dport t) (m_l4proto t)
  else
    let newaddr := infer (m_sip t) in
    if eqb newaddr (m_sip t) && (m_sport t =? m_dport t) then t
    else mk_tuple (m_sip t) newaddr (m_sport t) (m_dport t) (m_l4proto t).

(** [update_fd] *)
Definition update_fd (n : interfaces) (fd : fdinfo) : fdinfo :=
  match fd with
  | IPv4Sock t => IPv4Sock (update_tuple Z.eqb 0 (infer_ipv4_address (m_ipv4_interfaces n)) t)
  | IPv6Sock t =>
      IPv6Sock (update_tuple addr6_eqb empty_address (infer_ipv6_address (m_ipv6_interfaces n)) t)
  | OtherFd m_type => OtherFd m_type
  end.

(** ** Networks of a filter *)

Record ipv4net : Type := mk_net { m_ip : Z; net_mask : Z }.

(** The mask of a prefix length, in host byte order: the loop of
    [string_to_rawval]. *)
Fixpoint cidr_mask (cidrlen : nat) : Z :=
  match cidrlen with O => 0 | S j => Z.lor (cidr_mask j) (u32 (Z.shiftl 1 (31 - Z.of_nat j))) end.

(** The network of [ip/mask]; the number of the mask is an 8 bit one, [None] for an
    exception. *)
Definition parse_net (ip mask : Z) : option ipv4net :=
  let cidrlen := u8 mask in
  if 32 <? cidrlen then None else Some (mk_net ip (htonl (cidr_mask (Z.to_nat cidrlen)))).

(** [flt_compare_ipv4net], for [=] *)
Definition in_net (a : Z) (n : ipv4net) : bool :=
  Z.land a (net_mask n) =? Z.land (m_ip n) (net_mask n).

(** ** Bits of a byte order *)

Lemma testbit_cons b x i : 0 <= b < 256 -> 0 <= i ->
  Z.testbit (b + 256 * x) i = if i <? 8 then Z.testbit b i else Z.testbit x (i - 8).
Proof.
  intros Hb Hi. destruct (Z.ltb_spec i 8) as [Hlt|Hge].
  - rewrite <- (Z.mod_pow2_bits_low (b + 256 * x) 8) by lia. change (2 ^ 8) with 256.
    rewrite Z.mul_comm, Z.mod_add, Z.mod_small by lia. done.
  - replace i with (i - 8 + 8) at 1 by lia. rewrite <- Z.div_pow2_bits by lia. change (2 ^ 8) with 256.
    rewrite Z.mul_comm, Z.div_add, Z.div_small by lia. done.
Qed.

Lemma testbit_le_val bs : forall i, 0 <= i ->
  Z.testbit (le_val bs) i = Z.testbit (Z_of_byte (nth (Z.to_nat (i / 8)) bs x00)) (i mod 8).
Proof.
  induction bs as [|b bs IH]; intros i Hi; cbn [le_val].
  - destruct (Z.to_nat _); cbn [nth]; change (Z_of_byte x00) with 0; by rewrite !Z.bits_0.
  - pose proof (Z_of_byte_range b). rewrite testbit_cons by lia.
    destruct (Z.ltb_spec i 8) as [Hlt|Hge].
    + rewrite Z.div_small, Z.mod_small by lia. done.
    + rewrite IH by lia. replace (i / 8) with ((i - 8) / 8 + 1)
        by (rewrite <- Z.div_add by lia; f_equal; lia).
      replace (i mod 8) with ((i - 8) mod 8)
        by (replace i with (i - 8 + 1 * 8) at 2 by lia; by rewrite Z.mod_add by lia).
      rewrite Z2Nat.inj_add, Nat.add_comm by (try apply Z.div_pos; lia). done.
Qed.

Lemma testbit_byte_of v k j : 0 <= j < 8 -> 0 <= k ->
  Z.testbit (Z_of_byte (byte_of_Z (v / 2 ^ k))) j = Z.testbit v (k + j).
Proof.
  intros Hj Hk. rewrite Z_of_byte_of_Z. change 256 with (2 ^ 8). rewrite Z.mod_pow2_bits_low by lia.
  rewrite Z.div_pow2_bits by lia. f_equal. lia.
Qed.

(** The bit of a byte at the other end. *)
Definition swap_bit (i : Z) : Z := 8 * (3 - i / 8) + i mod 8.

Lemma testbit_htonl v i : 0 <= i < 32 -> Z.testbit (htonl v) i = Z.testbit v (swap_bit i).
Proof.
  intros Hi. unfold htonl, le32. rewrite testbit_le_val by lia. cbn [le_bytes rev app].
  pose proof (Z.mod_pos_bound i 8 ltac:(lia)) as Hm. unfold swap_bit.
  assert (Hq : i / 8 = 0 \/ i / 8 = 1 \/ i / 8 = 2 \/ i / 8 = 3).
  { pose proof (Z.div_pos i 8). pose proof (Z.div_lt_upper_bound i 8 4). lia. }
  rewrite !Z.div_div by lia.
  pose proof (testbit_byte_of v 0 (i mod 8)) as H0. rewrite Z.div_1_r in H0.
  destruct Hq as [-> |[-> |[-> | ->]]];
    [change (Z.to_nat 0) with 0%nat|change (Z.to_nat 1) with 1%nat|change (Z.to_nat 2) with 2%nat|
     change (Z.to_nat 3) with 3%nat]; cbn [nth];
    [rewrite (testbit_byte_of v 24)|rewrite (testbit_byte_of v 16)|rewrite (testbit_byte_of v 8)|
     rewrite H0]; try lia; f_equal; lia.
Qed.

Lemma htonl_range v : 0 <= htonl v < 2 ^ 32.
Proof. unfold htonl. pose proof (le_val_range (rev (le32 v))) as H. exact H. Qed.

Lemma bits_above v i : 0 <= v < 2 ^ 32 -> 32 <= i -> Z.testbit v i = false.
Proof.
  intros Hv Hi. rewrite <- (Z.mod_small v (2 ^ 32)) by done. apply Z.mod_pow2_bits_high. lia.
Qed.

Lemma swap_bit_range i : 0 <= i < 32 -> 0 <= swap_bit i < 32 /\ swap_bit (swap_bit i) = i.
Proof.
  intros Hi. unfold swap_bit. pose proof (Z.div_mod i 8 ltac:(lia)) as Hd.
  pose proof (Z.mod_pos_bound i 8 ltac:(lia)).
  set (q := i / 8) in *. set (r := i mod 8) in *.
  assert (Hq : (8 * (3 - q) + r) / 8 = 3 - q) by (symmetry; apply (Z.div_unique _ 8 _ r); lia).
  assert (Hr : (8 * (3 - q) + r) mod 8 = r) by (symmetry; apply (Z.mod_unique _ 8 (3 - q)); lia).
  rewrite Hq, Hr. lia.
Qed.

(** Two 32 bit integers with the same bits. *)
Lemma u32_bits x y : 0 <= x < 2 ^ 32 -> 0 <= y < 2 ^ 32 ->
  (forall i, 0 <= i < 32 -> Z.testbit x i = Z.testbit y i) -> x = y.
Proof.
  intros Hx Hy H. apply Z.bits_inj'. intros i Hi. destruct (Z.lt_ge_cases i 32); [by apply H|].
  by rewrite !bits_above.
Qed.

Lemma htonl_involutive v : 0 <= v < 2 ^ 32 -> htonl (htonl v) = v.
Proof.
  intros Hv. apply u32_bits; [apply htonl_range|done|]. intros i Hi.
  destruct (swap_bit_range i Hi) as [Hs Hss]. by rewrite !testbit_htonl, Hss.
Qed.

Lemma land_range a b : 0 <= a < 2 ^ 32 -> 0 <= b -> 0 <= Z.land a b < 2 ^ 32.
Proof.
  intros Ha Hb. split; [apply Z.land_nonneg; lia|]. apply Z.log2_lt_cancel.
  destruct (Z.eq_dec a 0) as [->|]; [by rewrite Z.land_0_l|].
  eapply Z.le_lt_trans; [apply Z.log2_land; lia|].
  change (Z.log2 (2 ^ 32)) with 32. pose proof (Z.log2_lt_pow2 a 32). lia.
Qed.

Lemma htonl_land a b : 0 <= a < 2 ^ 32 -> 0 <= b < 2 ^ 32 ->
  htonl (Z.land a b) = Z.land (htonl a) (htonl b).
Proof.
  intros Ha Hb. pose proof (htonl_range a). pose proof (htonl_range b).
  apply u32_bits; [apply htonl_range|apply land_range; lia|]. intros i Hi.
  by rewrite Z.land_spec, !testbit_htonl, Z.land_spec.
Qed.

Lemma htonl_inj a b : 0 <= a < 2 ^ 32 -> 0 <= b < 2 ^ 32 -> htonl a = htonl b -> a = b.
Proof. intros Ha Hb E. rewrite <- (htonl_involutive a), <- (htonl_involutive b), E; done. Qed.

(** ** Private internets *)

Lemma land_high a m k : 0 <= k -> Z.land a (m * 2 ^ k) = Z.land (a / 2 ^ k) m * 2 ^ k.
Proof.
  intros Hk. rewrite <- !Z.shiftl_mul_pow2, <- Z.shiftr_div_pow2 by done. apply Z.bits_inj'.
  intros i Hi. rewrite Z.land_spec, !Z.shiftl_spec by done. rewrite Z.land_spec.
  destruct (Z.lt_ge_cases i k).
  - rewrite !(Z.testbit_neg_r _ (i - k)) by lia. by rewrite !andb_false_r.
  - rewrite Z.shiftr_spec by lia. do 2 f_equal. lia.
Qed.

(** The first two bytes of an address that the comparison accepts. *)
Definition accepted16 (q : Z) : bool :=
  (q / 256 =? 10) || (q =? 0xc0a8) || existsb (Z.eqb q) [0xac10; 0xac50; 0xac90; 0xacd0].

Lemma accepted16_spec q : 0 <= q < 65536 ->
  (Z.land q 0xff00 =? 0x0a00) || (Z.land q 0xffff =? 0xc0a8) || (Z.land q 0xff3f =? 0xac10) = accepted16 q.
Proof.
  intros Hq. set (ok q := Bool.eqb ((Z.land q 0xff00 =? 0x0a00) ||
    (Z.land q 0xffff =? 0xc0a8) || (Z.land q 0xff3f =? 0xac10)) (accepted16 q)).
  assert (H : forallb (fun h => forallb (fun l => ok (256 * h + l)) (seqZ 0 256)) (seqZ 0 256) = true)
    by (by vm_compute).
  rewrite forallb_forall in H. specialize (H (q / 256)). rewrite forallb_forall in H.
  specialize (H ltac:(apply list_elem_of_In, elem_of_seqZ; split; [apply Z.div_pos; lia|
    apply Z.div_lt_upper_bound; lia]) (q mod 256)).
  rewrite <- Z.div_mod in H by lia. apply eqb_prop, H, list_elem_of_In, elem_of_seqZ.
  pose proof (Z.mod_pos_bound q 256). lia.
Qed.

Lemma is_private_spec a : 0 <= a < 2 ^ 32 -> is_private (htonl a) = accepted16 (a / 2 ^ 16).
Proof.
  intros Ha. unfold is_private. rewrite htonl_involutive by done.
  assert (Hq : 0 <= a / 2 ^ 16 < 65536)
    by (split; [apply Z.div_pos; lia|apply Z.div_lt_upper_bound; lia]).
  rewrite <- accepted16_spec by done.
  change 0xff000000 with (0xff00 * 2 ^ 16). change 0xffff0000 with (0xffff * 2 ^ 16).
  change 0xff3f0000 with (0xff3f * 2 ^ 16). rewrite !land_high by lia.
  change 0x0a000000 with (0x0a00 * 2 ^ 16). change 0xc0a80000 with (0xc0a8 * 2 ^ 16).
  change 0xac100000 with (0xac10 * 2 ^ 16).
  assert (Hm : forall x y, (x * 2 ^ 16 =? y * 2 ^ 16) = (x =? y)).
  { intros x y. destruct (Z.eqb_spec x y) as [->|]; [apply Z.eqb_refl|]. apply Z.eqb_neq. lia. }
  by rewrite !Hm.
Qed.

(** Without interfaces, the addresses taken to be in a local network are 10.0.0.0/8,
    192.168.0.0/16 and, for the documented 172.16.0.0/12, the four networks 172.16.0.0/16,
    172.80.0.0/16, 172.144.0.0/16 and 172.208.0.0/16: fifteen sixteenths of the private
    network are left out and three public networks are let in. *)
Theorem private_internets_wrong a :
  0 <= a < 2 ^ 32 ->
  is_ipv4addr_in_subnet [] (htonl a) =
    (a / 2 ^ 24 =? 10) || (a / 2 ^ 16 =? 192 * 256 + 168)
    || existsb (Z.eqb (a / 2 ^ 16)) [172 * 256 + 16; 172 * 256 + 80; 172 * 256 + 144; 172 * 256 + 208].
Proof.
  intros Ha. unfold is_ipv4addr_in_subnet. cbn [existsb]. rewrite orb_false_r, is_private_spec by done.
  unfold accepted16. by rewrite Z.div_div by lia.
Qed.

(** 172.17.0.1, the gateway of a container network, and the public 172.80.0.1. *)
Lemma private_internets_wrong_witness :
  is_ipv4addr_in_subnet [] (htonl 0xac110001) = false /\
  is_ipv4addr_in_subnet [] (htonl 0xac500001) = true.
Proof.
  split; (etransitivity; [apply private_internets_wrong; by vm_compute|by vm_compute]).
Defined.

(** ** Networks of a filter *)

Lemma cidr_mask_spec c : (c <= 32)%nat ->
  0 <= cidr_mask c < 2 ^ 32 /\
  forall i, 0 <= i -> Z.testbit (cidr_mask c) i = (32 - Z.of_nat c <=? i) && (i <? 32).
Proof.
  induction c as [|j IH]; intros Hc; cbn [cidr_mask].
  - split; [lia|]. intros i Hi. rewrite Z.bits_0. symmetry. apply andb_false_iff.
    rewrite Z.leb_gt, Z.ltb_ge. lia.
  - destruct IH as [Hr Hb]; [lia|].
    rewrite u32_small by (rewrite Z.shiftl_1_l; split; [lia|]; apply (Z.pow_lt_mono_r 2 _ 32); lia).
    assert (Hbits : forall i, 0 <= i -> Z.testbit (Z.lor (cidr_mask j) (Z.shiftl 1 (31 - Z.of_nat j))) i =
      (32 - Z.of_nat (S j) <=? i) && (i <? 32)).
    { intros i Hi. rewrite Z.lor_spec, Hb, Z.shiftl_1_l, Z.pow2_bits_eqb by lia.
      destruct (Z.eqb_spec (31 - Z.of_nat j) i), (Z.leb_spec (32 - Z.of_nat j) i),
        (Z.leb_spec (32 - Z.of_nat (S j)) i), (Z.ltb_spec i 32); cbn; try done; lia. }
    split; [|done]. split; [apply Z.lor_nonneg; split; [lia|rewrite Z.shiftl_1_l; lia]|].
    destruct (Z.lt_ge_cases (Z.lor (cidr_mask j) (Z.shiftl 1 (31 - Z.of_nat j))) (2 ^ 32)) as [|Hge]; [done|].
    exfalso. set (x := Z.lor _ _) in *. assert (Hl : 32 <= Z.log2 x) by (apply Z.log2_le_pow2; lia).
    pose proof (Hbits (Z.log2 x) ltac:(lia)) as H. rewrite Z.bit_log2 in H by lia.
    symmetry in H. apply andb_true_iff in H as [_ H]. apply Z.ltb_lt in H. lia.
Qed.

Lemma land_mask x c : (c <= 32)%nat -> 0 <= x < 2 ^ 32 ->
  Z.land x (cidr_mask c) = x / 2 ^ (32 - Z.of_nat c) * 2 ^ (32 - Z.of_nat c).
Proof.
  intros Hc Hx. rewrite <- Z.shiftr_div_pow2, <- Z.shiftl_mul_pow2 by lia. apply Z.bits_inj'.
  intros i Hi. destruct (cidr_mask_spec c Hc) as [_ Hm]. rewrite Z.land_spec, Hm, Z.shiftl_spec by done.
  destruct (Z.leb_spec (32 - Z.of_nat c) i) as [Hle|Hgt].
  - rewrite Z.shiftr_spec by lia. replace (i - _ + _) with i by lia.
    destruct (Z.ltb_spec i 32); [by rewrite andb_true_r|]. by rewrite bits_above.
  - rewrite (Z.testbit_neg_r _ (i - _)) by lia. by rewrite andb_false_r.
Qed.

(** An address matches the network of a filter, [ip/len], exactly when the first
    [len] bits of the two are the same; but the length is cut to 8 bits before it is
    checked, so that a length of 256 stands for 0 and matches every address. *)
Theorem net_matches_prefix ip a len :
  0 <= ip < 2 ^ 32 -> 0 <= a < 2 ^ 32 -> 0 <= len ->
  parse_net (htonl ip) len =
    (if 32 <? len mod 256 then None else Some (mk_net (htonl ip) (htonl (cidr_mask (Z.to_nat (len mod 256)))))) /\
  forall n, parse_net (htonl ip) len = Some n ->
  in_net (htonl a) n =
    (a / 2 ^ (32 - len mod 256) =? ip / 2 ^ (32 - len mod 256)).
Proof.
  intros Hip Ha Hlen. split; [done|]. intros n E. unfold parse_net, u8 in E.
  change (2 ^ 8) with 256 in E. pose proof (Z.mod_pos_bound len 256 ltac:(lia)).
  destruct (Z.ltb_spec 32 (len mod 256)) as [|Hle]; [done|]. simplify_eq.
  set (c := Z.to_nat (len mod 256)). assert (Hc : (c <= 32)%nat) by lia.
  replace (len mod 256) with (Z.of_nat c) by lia. unfold in_net. cbn [net_mask m_ip].
  destruct (cidr_mask_spec c Hc) as [Hm _]. rewrite <- !htonl_land by done.
  destruct (Z.eqb_spec (a / 2 ^ (32 - Z.of_nat c)) (ip / 2 ^ (32 - Z.of_nat c))) as [E|E].
  - apply Z.eqb_eq. f_equal. by rewrite !land_mask, E.
  - apply Z.eqb_neq. intros H'. apply htonl_inj in H'; [|by apply land_range; lia..].
    rewrite !land_mask in H' by done. apply E, (Z.mul_reg_r _ _ (2 ^ (32 - Z.of_nat c))); [lia|done].
Qed.

Lemma net_matches_prefix_witness :
  in_net (htonl 0x0a010203) (mk_net (htonl 0x0a01ffff) (htonl (cidr_mask 16))) = true /\
  in_net (htonl 0x08080808) (mk_net (htonl 0x0a010203) 0) = true.
Proof.
  split.
  - etransitivity; [eapply (net_matches_prefix 0x0a01ffff 0x0a010203 16); [by vm_compute..|reflexivity]|].
    by vm_compute.
  - etransitivity; [eapply (net_matches_prefix 0x0a010203 0x08080808 256); [by vm_compute..|reflexivity]|].
    by vm_compute.
Defined.

(** ** Sockets *)

Lemma addr6_eqb_eq x y : addr6_eqb x y = true <-> x = y.
Proof.
  destruct x, y. unfold addr6_eqb. cbn. rewrite !andb_true_iff, !Z.eqb_eq. split.
  - by intros [[[-> ->] ->] ->].
  - by intros [= -> -> -> ->].
Qed.

Lemma first_addr_in {I A} (addr : I -> A) p l a : first_addr addr p l = Some a -> a ∈ map addr l.
Proof.
  unfold first_addr. destruct (find p l) as [i|] eqn:E; [|done]. intros [= <-].
  apply list_elem_of_In, in_map. by apply find_some in E as [? _].
Qed.

(** The address is one of an interface, or none. *)
Lemma or_else_local {A} (o1 o2 o3 : option A) d (l : list A) :
  (forall a, o1 = Some a -> a ∈ l) -> (forall a, o2 = Some a -> a ∈ l) ->
  (forall a, o3 = Some a -> a ∈ l) ->
  or_else o1 (or_else o2 (or_else o3 d)) ∈ l \/ or_else o1 (or_else o2 (or_else o3 d)) = d.
Proof. destruct o1, o2, o3; cbn; auto. Qed.

Section update.
Context {A : Type} (eqb : A -> A -> bool) (zero : A) (infer : A -> A) (local : list A).
Hypothesis eqb_eq : forall x y, eqb x y = true <-> x = y.
Hypothesis infer_local : forall a, infer a ∈ local \/ infer a = zero.

Lemma eqb_spec' x y : reflect (x = y) (eqb x y).
Proof using eqb_eq. apply iff_reflect. by rewrite eqb_eq. Qed.

(** What an update does to a tuple. *)
Definition fills (t t' : tuple A) : Prop :=
  (m_sport t', m_dport t', m_l4proto t') = (m_sport t, m_dport t, m_l4proto t) /\
  (m_sip t' = m_sip t \/ (m_sip t = zero /\ m_sip t' ∈ local)) /\
  (m_dip t' = m_dip t \/ (m_dip t = zero /\ m_dip t' ∈ local)).

Lemma update_tuple_fills t : fills t (update_tuple eqb zero infer t).
Proof using eqb_eq infer_local.
  unfold update_tuple, fills. destruct (eqb_spec' zero (m_sip t)) as [Hs|Hs]; cbn [negb andb].
  - destruct (_ && _); cbn; [by auto|]. split_and!; [done| |by left].
    rewrite <- Hs. destruct (infer_local (m_dip t)); auto.
  - destruct (eqb_spec' zero (m_dip t)) as [Hd|Hd]; cbn [negb]; [|by auto].
    destruct (_ && _); cbn; [by auto|]. split_and!; [done|by left|].
    rewrite <- Hd. destruct (infer_local (m_sip t)); auto.
Qed.

Lemma update_tuple_idem t : m_sip t <> zero \/ m_dip t <> zero ->
  update_tuple eqb zero infer (update_tuple eqb zero infer t) = update_tuple eqb zero infer t.
Proof using eqb_eq.
  intros Hne. unfold update_tuple at 2 3.
  destruct (eqb zero (m_sip t)) eqn:Es, (eqb zero (m_dip t)) eqn:Ed; cbn [negb andb].
  - apply eqb_eq in Es, Ed. destruct Hne; congruence.
  - destruct (eqb (infer (m_dip t)) (m_dip t) && (m_sport t =? m_dport t)) eqn:Ei.
    + unfold update_tuple. by rewrite Es, Ed, Ei.
    + unfold update_tuple. cbn. rewrite Ed. cbn [negb]. rewrite andb_true_r.
      destruct (eqb zero (infer (m_dip t))); cbn [negb]; [|done]. by rewrite Ei.
  - destruct (eqb (infer (m_sip t)) (m_sip t) && (m_sport t =? m_dport t)) eqn:Ei.
    + unfold update_tuple. by rewrite Es, Ed, Ei.
    + unfold update_tuple. cbn. rewrite Es. cbn [negb andb].
      destruct (eqb zero (infer (m_sip t))); cbn [negb]; [|done]. by rewrite Ei.
  - unfold update_tuple. by rewrite Es, Ed.
Qed.
End update.

(** Updating a socket keeps its type, its ports and protocol and every address it
    has; an unknown address stays unknown or becomes one of an interface of its family;
    and a second update changes nothing, unless both addresses were unknown. *)
Theorem update_fd_fills_unknown n fd :
  match fd, update_fd n fd with
  | IPv4Sock t, IPv4Sock t' => fills 0 (map m_addr (m_ipv4_interfaces n)) t t'
  | IPv6Sock t, IPv6Sock t' => fills empty_address (map m_net (m_ipv6_interfaces n)) t t'
  | OtherFd ty, OtherFd ty' => ty = ty'
  | _, _ => False
  end /\
  (match fd with
   | IPv4Sock t => m_sip t <> 0 \/ m_dip t <> 0
   | IPv6Sock t => m_sip t <> empty_address \/ m_dip t <> empty_address
   | OtherFd _ => True
   end -> update_fd n (update_fd n fd) = update_fd n fd).
Proof.
  destruct fd as [t|t|ty]; cbn [update_fd]; [| |done]; split.
  - apply (update_tuple_fills _ _ _ _ Z.eqb_eq). intros a. unfold infer_ipv4_address.
    apply or_else_local; intros b Hb; by apply first_addr_in in Hb.
  - intros Hne. f_equal. by apply (update_tuple_idem _ _ _ Z.eqb_eq).
  - apply (update_tuple_fills _ _ _ _ addr6_eqb_eq). intros a. unfold infer_ipv6_address.
    apply or_else_local; intros b Hb; by apply first_addr_in in Hb.
  - intros Hne. f_equal. by apply (update_tuple_idem _ _ _ addr6_eqb_eq).
Qed.

(** A socket of which nothing is known looks connected to itself after the second
    update. *)
Lemma unknown_socket_self_connected :
  let n := mk_interfaces [mk_if4 (htonl 0x0a000001) (htonl 0xff000000) 0 []] [] in
  update_fd n (update_fd n (IPv4Sock (mk_tuple 0 0 53 40000 17))) =
    IPv4Sock (mk_tuple (htonl 0x0a000001) (htonl 0x0a000001) 53 40000 17).
Proof. by vm_compute. Qed.
