(* ===== verification/FilterCheck.v ===== *)
(** * Comparing a field with values: [sinsp_filter_check] of [libsinsp/filter.cpp],
      [value_parser.cpp] and [sinsp_numparser] of [utils.cpp]

    The values of a check are parsed into storages of 256 bytes when the filter is
    compiled; the bytes extracted from an event are compared with them as the type
    of the field says. *)

From Stdlib Require Import ZArith Lia List Bool String.
From Stdlib Require Import Strings.Byte Floats.SpecFloat.
From stdpp Require Import base tactics list numbers option sets.
From S2P Require Import Prelude Bytes BlockIO Text EventDefs Filter FilterCompiler PathSearch Interfaces.
Import ListNotations.
Local Open Scope Z_scope.

Definition obind {A B} (m : outcome A) (k : A -> outcome B) : outcome B :=
  match m with Done a => k a | Throws => Throws | Undefined => Undefined end.

Local Notation "'do!' x := m 'in' k" := (obind m (fun x => k))
  (at level 200, x pattern, m at level 100, k at level 200).

(** ** Numbers *)

Definition s8 (v : Z) : Z := (v + 2 ^ 7) mod 2 ^ 8 - 2 ^ 7.
Definition s16 (v : Z) : Z := (v + 2 ^ 15) mod 2 ^ 16 - 2 ^ 15.

(** An integer of [n] bytes at the start of an operand. *)
Definition rd (n : nat) (bs : list byte) : outcome Z :=
  if (length bs <? n)%nat then Undefined else Done (le_val (take n bs)).

(** [flt_compare_uint64], [flt_compare_int64]: the same comparisons on the integers
    of either sign. *)
Definition flt_compare_int (op : cmpop) (a b : Z) : outcome bool :=
  match op with
  | CO_EQ => Done (a =? b)
  | CO_NE => Done (negb (a =? b))
  | CO_LT => Done (a <? b)
  | CO_LE => Done (a <=? b)
  | CO_GT => Done (b <? a)
  | CO_GE => Done (b <=? a)
  | _ => Throws
  end.

Definition flt_compare_uint64 (op : cmpop) (a b : Z) : outcome bool := flt_compare_int op a b.
Definition flt_compare_int64 (op : cmpop) (a b : Z) : outcome bool := flt_compare_int op a b.

(** The double that 64 bits stand for. *)
Definition double_of_bits (v : Z) : spec_float :=
  let sign := Z.testbit v 63 in
  let e := Z.land (Z.shiftr v 52) 2047 in
  let m := Z.land v (2 ^ 52 - 1) in
  if e =? 2047 then if m =? 0 then S754_infinity sign else S754_nan
  else
    match (if e =? 0 then m else m + 2 ^ 52) with
    | Zpos p => S754_finite sign p (Z.max e 1 - 1075)
    | _ => S754_zero sign
    end.

Definition flt_compare_double (op : cmpop) (a b : spec_float) : outcome bool :=
  match op with
  | CO_EQ => Done (SFeqb a b)
  | CO_NE => Done (negb (SFeqb a b))
  | CO_LT => Done (SFltb a b)
  | CO_LE => Done (SFleb a b)
  | CO_GT => Done (SFltb b a)
  | CO_GE => Done (SFleb b a)
  | _ => Throws
  end.

(** ** Strings and buffers *)

(** A C string in memory; reading behind the memory is undefined. *)
Definition cstr (bs : list byte) : outcome (list byte) :=
  if bool_decide (x00 ∈ bs) then Done (c_string bs) else Undefined.

(** The order of [strcmp]. *)
Fixpoint strcmp (a b : list byte) : comparison :=
  match a, b with
  | [], [] => Eq
  | [], _ :: _ => Lt
  | _ :: _, [] => Gt
  | x :: a', y :: b' =>
      match (Byte.to_N x ?= Byte.to_N y)%N with Eq => strcmp a' b' | c => c end
  end.

Fixpoint starts_with (pre s : list byte) : bool :=
  match pre, s with
  | [], _ => true
  | x :: pre', y :: s' => byte_eqb x y && starts_with pre' s'
  | _ :: _, [] => false
  end.

(** [strstr], [memmem]: whether the needle is found. *)
Fixpoint contains (needle s : list byte) : bool :=
  starts_with needle s || match s with [] => false | _ :: s' => contains needle s' end.

Definition tolower (c : byte) : byte :=
  if in_range "A" "Z" c then byte_of_Z (Z_of_byte c + 32) else c.

(** [sinsp_utils::endswith] *)
Definition ends_with (s ending : list byte) : bool :=
  (length ending <=? length s)%nat && bool_decide (drop (length s - length ending) s = ending).

(** [memcmp(a, b, n) == 0]; undefined when the memory ends first. *)
Definition memcmp_eq (a b : list byte) (n : nat) : outcome bool :=
  if (length a <? n)%nat || (length b <? n)%nat then Undefined
  else Done (bool_decide (take n a = take n b)).

(** Code that is not in the repository: the system's number, address and service
    parsers' tables and [fnmatch]. *)
Class libc : Type := {
  fnmatch : list byte -> list byte -> bool;
  inet_pton4 : list byte -> option (list byte);
  inet_pton6 : list byte -> option (list byte);
  getservbyname : list byte -> option Z }.

(** What [inet_pton] writes: 4 bytes for an IPv4 address, 16 for an IPv6 one. *)
Definition libc_ok (l : libc) : Prop :=
  (forall s a, inet_pton4 s = Some a -> length a = 4%nat) /\
  (forall s a, inet_pton6 s = Some a -> length a = 16%nat).

Section check.
Context `{Hlc : libc}.

Definition flt_compare_string (op : cmpop) (operand1 operand2 : list byte) : outcome bool :=
  do! a := cstr operand1 in
  do! b := cstr operand2 in
  match op with
  | CO_EQ => Done (match strcmp a b with Eq => true | _ => false end)
  | CO_NE => Done (match strcmp a b with Eq => false | _ => true end)
  | CO_CONTAINS => Done (contains b a)
  | CO_ICONTAINS => Done (contains (map tolower b) (map tolower a))
  | CO_STARTSWITH => Done (starts_with b a)
  | CO_ENDSWITH => Done (ends_with a b)
  | CO_GLOB => Done (fnmatch b a)
  | CO_LT => Done (match strcmp a b with Lt => true | _ => false end)
  | CO_LE => Done (match strcmp a b with Gt => false | _ => true end)
  | CO_GT => Done (match strcmp a b with Gt => true | _ => false end)
  | CO_GE => Done (match strcmp a b with Lt => false | _ => true end)
  | _ => Throws
  end.

Definition flt_compare_buffer (op : cmpop) (operand1 operand2 : list byte) (op1_len op2_len : Z) :
    outcome bool :=
  let n1 := Z.to_nat op1_len in
  let n2 := Z.to_nat op2_len in
  match op with
  | CO_EQ => if op1_len =? op2_len then memcmp_eq operand1 operand2 n1 else Done false
  | CO_NE =>
      if negb (op1_len =? op2_len) then Done true
      else do! b := memcmp_eq operand1 operand2 n1 in Done (negb b)
  | CO_CONTAINS =>
      if (length operand1 <? n1)%nat || (length operand2 <? n2)%nat then Undefined
      else Done (contains (take n2 operand2) (take n1 operand1))
  | CO_STARTSWITH => memcmp_eq operand1 operand2 n2
  | CO_ENDSWITH =>
      if op2_len <=? op1_len then memcmp_eq operand2 (drop (n1 - n2) operand1) n2 else Done false
  | _ => Throws
  end.

(** ** Addresses *)

Definition flt_compare_ipv4net (op : cmpop) (operand1 : Z) (operand2 : ipv4net) : outcome bool :=
  match op with
  | CO_EQ | CO_IN => Done (in_net operand1 operand2)
  | CO_NE => Done (negb (in_net operand1 operand2))
  | _ => Throws
  end.

Definition rd_addr6 (bs : list byte) : outcome ipv6addr :=
  if (length bs <? 16)%nat then Undefined
  else Done (mk_addr6 (le_val (take 4 bs)) (le_val (take 4 (drop 4 bs)))
               (le_val (take 4 (drop 8 bs))) (le_val (take 4 (drop 12 bs)))).

Definition rd_net (bs : list byte) : outcome ipv4net :=
  do! ip := rd 4 bs in do! mask := rd 4 (drop 4 bs) in Done (mk_net ip mask).

Definition flt_compare_ipv6addr (op : cmpop) (a b : ipv6addr) : outcome bool :=
  match op with
  | CO_EQ | CO_IN => Done (addr6_eqb a b)
  | CO_NE => Done (negb (addr6_eqb a b))
  | _ => Throws
  end.

Definition flt_compare_ipv6net (op : cmpop) (a b : ipv6addr) : outcome bool :=
  match op with
  | CO_EQ | CO_IN => Done (in_subnet a b)
  | CO_NE => Done (negb (in_subnet a b))
  | _ => Throws
  end.

(** ** [flt_compare] *)

(** The integer types: their size and sign. *)
Definition int_type (type : ppm_param_type) : option (nat * bool) :=
  match type with
  | PT_INT8 => Some (1%nat, true)
  | PT_INT16 => Some (2%nat, true)
  | PT_INT32 => Some (4%nat, true)
  | PT_INT64 | PT_FD | PT_PID | PT_ERRNO => Some (8%nat, true)
  | PT_FLAGS8 | PT_UINT8 | PT_SIGTYPE => Some (1%nat, false)
  | PT_FLAGS16 | PT_UINT16 | PT_PORT | PT_SYSCALLID => Some (2%nat, false)
  | PT_UINT32 | PT_FLAGS32 | PT_MODE | PT_BOOL | PT_IPV4ADDR => Some (4%nat, false)
  | PT_UINT64 | PT_RELTIME | PT_ABSTIME => Some (8%nat, false)
  | _ => None
  end.

Definition to_signed (n : nat) (v : Z) : Z :=
  match n with 1%nat => s8 v | 2%nat => s16 v | 4%nat => s32 v | _ => s64 v end.

Definition compare_ints (op : cmpop) (n : nat) (signed : bool) (operand1 operand2 : list byte) :
    outcome bool :=
  do! a := rd n operand1 in
  do! b := rd n operand2 in
  if signed then flt_compare_int64 op (to_signed n a) (to_signed n b) else flt_compare_uint64 op a b.

Definition compare_v4net (op : cmpop) (operand1 operand2 : list byte) : outcome bool :=
  do! a := rd 4 operand1 in do! n := rd_net operand2 in flt_compare_ipv4net op a n.
Definition compare_v6 (f : cmpop -> ipv6addr -> ipv6addr -> outcome bool) (op : cmpop)
    (operand1 operand2 : list byte) : outcome bool :=
  do! a := rd_addr6 operand1 in do! b := rd_addr6 operand2 in f op a b.

(** The function [flt_compare]. *)
Definition flt_compare (op : cmpop) (type : ppm_param_type) (operand1 operand2 : list byte)
    (op1_len op2_len : Z) : outcome bool :=
  if bool_decide (op = CO_EXISTS) then Done true
  else
    match int_type type with
    | Some (n, signed) => compare_ints op n signed operand1 operand2
    | None =>
        match type with
        | PT_IPV4NET => compare_v4net op operand1 operand2
        | PT_IPV6ADDR => compare_v6 flt_compare_ipv6addr op operand1 operand2
        | PT_IPV6NET => compare_v6 flt_compare_ipv6net op operand1 operand2
        | PT_IPADDR =>
            if op1_len =? 4 then compare_ints op 4 false operand1 operand2
            else if op1_len =? 16 then compare_v6 flt_compare_ipv6addr op operand1 operand2
            else Throws
        | PT_IPNET =>
            if op1_len =? 4 then compare_v4net op operand1 operand2
            else if op1_len =? 16 then compare_v6 flt_compare_ipv6net op operand1 operand2
            else Throws
        | PT_CHARBUF => flt_compare_string op operand1 operand2
        | PT_BYTEBUF => flt_compare_buffer op operand1 operand2 op1_len op2_len
        | PT_DOUBLE =>
            do! a := rd 8 operand1 in
            do! b := rd 8 operand2 in
            flt_compare_double op (double_of_bits a) (double_of_bits b)
        | _ => Done false
        end
    end.

(** ** Parsing a value *)

(** [sscanf] with [%u%c] or the like on a whole text: blanks, a sign, digits and
    nothing else; a number that the type cannot hold is undefined. *)
Definition is_digit (c : byte) : bool := in_range "0" "9" c.

Fixpoint digits_val (l : list byte) (acc : Z) : Z :=
  match l with [] => acc | c :: l' => digits_val l' (acc * 10 + (Z_of_byte c - 48)) end.

Fixpoint skip_space (l : list byte) : list byte :=
  match l with
  | c :: l' => if byte_eqb c " "%byte || in_range x09 x0d c then skip_space l' else l
  | [] => []
  end.

Definition number (l : list byte) : option Z :=
  match l with [] => None | _ => if forallb is_digit l then Some (digits_val l 0) else None end.

Definition scan_number (lo hi : Z) (s : list byte) : outcome Z :=
  let signed l :=
    match l with
    | c :: l' => if byte_eqb c "-"%byte then option_map Z.opp (number l')
                 else if byte_eqb c "+"%byte then number l' else number l
    | [] => None
    end in
  match signed (skip_space s) with
  | None => Throws
  | Some v => if (lo <=? v) && (v <=? hi) then Done v else Undefined
  end.

Definition scan_u32 : list byte -> outcome Z := scan_number 0 (2 ^ 32 - 1).
Definition scan_s32 : list byte -> outcome Z := scan_number (- 2 ^ 31) (2 ^ 31 - 1).
Definition scan_u64 : list byte -> outcome Z := scan_number 0 (2 ^ 64 - 1).
Definition scan_s64 : list byte -> outcome Z := scan_number (- 2 ^ 63) (2 ^ 63 - 1).

(** [sinsp_numparser::parse..], which cut what was read to the size of the type. *)
Definition parse_int (type : ppm_param_type) (s : list byte) : option (outcome (list byte)) :=
  match type with
  | PT_INT8 => Some (do! v := scan_s32 s in Done (le_bytes 1 v))
  | PT_INT16 => Some (do! v := scan_s32 s in Done (le16 v))
  | PT_INT32 => Some (do! v := scan_s32 s in Done (le32 v))
  | PT_INT64 | PT_FD | PT_ERRNO => Some (do! v := scan_s64 s in Done (le64 v))
  | PT_L4PROTO | PT_FLAGS8 | PT_UINT8 => Some (do! v := scan_u32 s in Done (le_bytes 1 v))
  | PT_FLAGS16 | PT_UINT16 => Some (do! v := scan_u32 s in Done (le16 v))
  | PT_FLAGS32 | PT_UINT32 | PT_MODE => Some (do! v := scan_u32 s in Done (le32 v))
  | PT_UINT64 | PT_RELTIME | PT_ABSTIME => Some (do! v := scan_u64 s in Done (le64 v))
  | _ => None
  end.

(** A port: a number, cut to 16 bits, or the name of a service. *)
Definition parse_port (s : list byte) : outcome (list byte) :=
  match s with
  | [] => Done (le16 0)
  | _ =>
      if forallb is_digit s then
        if digits_val s 0 <=? 2 ^ 31 - 1 then Done (le16 (digits_val s 0)) else Throws
      else match getservbyname s with Some p => Done (le16 p) | None => Throws end
  end.

(** What [getline] reads of a text. *)
Definition first_line (s : list byte) : list byte :=
  match memchr x0a s with Some n => take n s | None => s end.

(** [ip/mask] *)
Definition parse_ipv4net (s : list byte) : outcome (list byte) :=
  match memchr "/"%byte s with
  | None => Throws
  | Some n =>
      match inet_pton4 (take n s) with
      | None => Throws
      | Some ip =>
          do! mask := scan_u32 (first_line (drop (S n) s)) in
          match parse_net (le_val ip) mask with
          | None => Throws
          | Some net => Done (le32 (m_ip net) ++ le32 (net_mask net))
          end
      end
  end.

Definition of_option {A} (o : option A) : outcome A := match o with Some a => Done a | None => Throws end.

(** [string_to_rawval] on the bytes [v], which a terminator follows: the bytes written
    to the storage that the caller counts. *)
Definition string_to_rawval (v : list byte) (max_len : Z) (type : ppm_param_type) : outcome (list byte) :=
  let s := c_string v in
  let has_dot := match memchr "."%byte v with Some _ => true | None => false end in
  match parse_int type s with
  | Some r => r
  | None =>
      match type with
      | PT_PORT => parse_port s
      | PT_CHARBUF | PT_SOCKADDR | PT_SOCKFAMILY =>
          if max_len <=? Z.of_nat (length s) then Throws else Done s
      | PT_BOOL =>
          if bool_decide (s = str "true") then Done (le32 1)
          else if bool_decide (s = str "false") then Done (le32 0) else Throws
      | PT_IPADDR => if has_dot then of_option (inet_pton4 s) else of_option (inet_pton6 s)
      | PT_IPV4ADDR => of_option (inet_pton4 s)
      | PT_IPV6ADDR | PT_IPV6NET => of_option (inet_pton6 s)
      | PT_IPNET => if has_dot then parse_ipv4net s else of_option (inet_pton6 s)
      | PT_IPV4NET => parse_ipv4net s
      | _ => Throws
      end
  end.

(** ** The check *)

(** The storages, the values as the set has them, the bounds of their sizes, the paths
    of a [pmatch], and the size of the last byte buffer. *)
Record filter_check : Type := mk_fcheck {
  fc_type : ppm_param_type; fc_cmpop : cmpop;
  m_val_storages : list (list byte); m_val_storages_members : list (list byte);
  m_val_storages_min_size : Z; m_val_storages_max_size : Z;
  m_val_storages_paths : path_prefix_map bool; m_val_storage_len : Z }.

Definition blank_storage : list byte := replicate 256 x00.

(** [sinsp_filter_check::sinsp_filter_check] *)
Definition new_check (type : ppm_param_type) (op : cmpop) : filter_check :=
  mk_fcheck type op [blank_storage] [] (2 ^ 32 - 1) 0 ppm_empty 0.

(** Bytes written at the start of a storage. *)
Definition overwrite (bs storage : list byte) : list byte := bs ++ drop (length bs) storage.

(** [parse_filter_value] on the [len] bytes of [v], which a terminator follows: what is
    written, the size that counts, and the new [m_val_storage_len]. *)
Definition parse_filter_value (c : filter_check) (v : list byte) :
    outcome (list byte * Z * Z) :=
  match fc_type c with
  | PT_BYTEBUF =>
      if 256 <=? Z.of_nat (length v) then Throws
      else Done (v, Z.of_nat (length v), Z.of_nat (length v))
  | type =>
      do! r := string_to_rawval v 256 type in
      let written := match type with PT_CHARBUF | PT_SOCKADDR | PT_SOCKFAMILY => r ++ [x00] | _ => r end in
      Done (written, Z.of_nat (length r), m_val_storage_len c)
  end.

(** [add_filter_value] for the value number [i]. *)
Definition add_value (v : list byte) (i : nat) (c : filter_check) : outcome filter_check :=
  let storages :=
    if (length (m_val_storages c) <=? i)%nat then m_val_storages c ++ [blank_storage]
    else m_val_storages c in
  do! (written, parsed_len, storage_len) := parse_filter_value c v in
  match storages !! i with
  | None => Undefined
  | Some old =>
      let storage := overwrite written old in
      let item := take (Z.to_nat parsed_len) storage in
      Done (mk_fcheck (fc_type c) (fc_cmpop c) (<[i := storage]> storages)
        (m_val_storages_members c ++ [item])
        (Z.min parsed_len (m_val_storages_min_size c)) (Z.max parsed_len (m_val_storages_max_size c))
        (if bool_decide (fc_cmpop c = CO_PMATCH)
         then add_search_path item true (m_val_storages_paths c) else m_val_storages_paths c)
        storage_len)
  end.

(** The values of a check, in the order in which the compiler adds them. *)
Fixpoint add_values (vs : list (list byte)) (i : nat) (c : filter_check) : outcome filter_check :=
  match vs with [] => Done c | v :: vs' => do! c' := add_value v i c in add_values vs' (S i) c' end.

(** The loop over the values, for the types that are no sets. *)
Fixpoint any_equal (type : ppm_param_type) (operand1 : list byte) (op1_len : Z)
    (storages : list (list byte)) : outcome bool :=
  match storages with
  | [] => Done false
  | s :: storages' =>
      do! b := flt_compare CO_EQ type operand1 s op1_len 256 in
      if b then Done true else any_equal type operand1 op1_len storages'
  end.

Definition no_set (type : ppm_param_type) : bool :=
  match type with
  | PT_IPV4NET | PT_IPV6NET | PT_IPNET | PT_SOCKADDR | PT_SOCKTUPLE | PT_FDLIST | PT_FSPATH
  | PT_SIGSET | PT_FSRELPATH => true
  | _ => false
  end.

(** [sinsp_filter_check::flt_compare] *)
Definition check_flt_compare (c : filter_check) (operand1 : list byte) (op1_len op2_len : Z) :
    outcome bool :=
  let op := fc_cmpop c in
  if bool_decide (op ∈ [CO_IN; CO_PMATCH; CO_INTERSECTS]) then
    if no_set (fc_type c) then any_equal (fc_type c) operand1 op1_len (m_val_storages c)
    else
      do! len := if bool_decide (fc_type c = PT_CHARBUF) && (op1_len =? 0)
                 then do! s := cstr operand1 in Done (Z.of_nat (length s)) else Done op1_len in
      if (length operand1 <? Z.to_nat len)%nat then Undefined
      else
        let item := take (Z.to_nat len) operand1 in
        if bool_decide (op = CO_PMATCH)
        then Done (match ppm_match item (m_val_storages_paths c) with Some _ => true | None => false end)
        else Done ((m_val_storages_min_size c <=? len) && (len <=? m_val_storages_max_size c)
                   && bool_decide (item ∈ m_val_storages_members c))
  else
    match m_val_storages c with
    | s :: _ => flt_compare op (fc_type c) operand1 s op1_len op2_len
    | [] => Undefined
    end.

(** [compare], on the bytes extracted from an event and their length, if there are
    any. *)
Definition check_compare (c : filter_check) (extracted : option (list byte * Z)) : outcome bool :=
  match extracted with
  | None => Done false
  | Some (bs, len) => check_flt_compare c bs len (m_val_storage_len c)
  end.

(** [extract_cached]: the entry has the number of the last event and what was
    extracted from it; the length is given by the caller, who has set it to 0. *)
Definition extract_cached (cache : option (Z * option (list byte))) (evtnum : Z)
    (extracted : option (list byte * Z)) (len : Z) :
    option (list byte) * Z * option (Z * option (list byte)) :=
  let fresh := match extracted with Some (bs, n) => (Some bs, n) | None => (None, len) end in
  match cache with
  | Some (num, res) =>
      if evtnum =? num then (res, len, cache)
      else (fst fresh, snd fresh, Some (evtnum, fst fresh))
  | None => (fst fresh, snd fresh, None)
  end.
End check.

(** ** Checks over sets of values *)

Section sets.
Context `{Hlc : libc}.

Lemma bind_Done {A B} (m : outcome A) (k : A -> outcome B) b :
  obind m k = Done b <-> exists a, m = Done a /\ k a = Done b.
Proof. destruct m; cbn; naive_solver. Qed.

Lemma c_string_no_nul v : x00 ∉ c_string v.
Proof.
  induction v as [|b v IH]; cbn; [apply not_elem_of_nil|]. destruct (Byte.eqb b x00) eqn:E;
    [apply not_elem_of_nil|]. apply not_elem_of_cons. split; [|done]. intros <-. done.
Qed.

Lemma c_string_app v l : x00 ∉ v -> c_string (v ++ x00 :: l) = v.
Proof.
  induction v as [|b v IH]; intros Hv; [done|]. apply not_elem_of_cons in Hv as [Hb Hv]. cbn.
  change Byte.eqb with byte_eqb. rewrite (proj2 (byte_eqb_neq b x00)) by congruence. by rewrite IH.
Qed.

Lemma cstr_app v l : x00 ∉ v -> cstr (v ++ x00 :: l) = Done v.
Proof.
  intros Hv. unfold cstr. rewrite bool_decide_true, c_string_app by (done || set_solver). done.
Qed.

Lemma strcmp_eq a : forall b, strcmp a b = Eq <-> a = b.
Proof.
  induction a as [|x a IH]; intros [|y b]; cbn; try done.
  destruct (N.compare_spec (Byte.to_N x) (Byte.to_N y)) as [E|E|E].
  - assert (x = y) as -> by (assert (H : Byte.of_N (Byte.to_N x) = Byte.of_N (Byte.to_N y)) by congruence;
      rewrite !Byte.of_to_N in H; congruence).
    rewrite IH. split; congruence.
  - split; [done|]. intros [= -> ->]. lia.
  - split; [done|]. intros [= -> ->]. lia.
Qed.

(** A string value, stored. *)
Definition value_ok (v : list byte) : Prop := Z.of_nat (length (c_string v)) < 256.

Lemma parse_charbuf c v : fc_type c = PT_CHARBUF -> value_ok v ->
  parse_filter_value c v = Done (c_string v ++ [x00], Z.of_nat (length (c_string v)), m_val_storage_len c).
Proof.
  intros Ht Hv. unfold parse_filter_value, value_ok in *. rewrite Ht. cbn [obind string_to_rawval].
  unfold string_to_rawval. cbn [parse_int]. by rewrite (proj2 (Z.leb_gt 256 _) Hv).
Qed.

(** What the values of a string check leave. *)
Lemma add_value_charbuf v i c :
  fc_type c = PT_CHARBUF -> value_ok v -> (i <= length (m_val_storages c))%nat ->
  exists c', add_value v i c = Done c' /\ fc_type c' = PT_CHARBUF /\ fc_cmpop c' = fc_cmpop c /\
    (S i <= length (m_val_storages c'))%nat /\
    m_val_storages_members c' = m_val_storages_members c ++ [c_string v] /\
    m_val_storages_min_size c' = Z.min (Z.of_nat (length (c_string v))) (m_val_storages_min_size c) /\
    m_val_storages_max_size c' = Z.max (Z.of_nat (length (c_string v))) (m_val_storages_max_size c) /\
    m_val_storages_paths c' = (if bool_decide (fc_cmpop c = CO_PMATCH)
      then add_search_path (c_string v) true (m_val_storages_paths c) else m_val_storages_paths c) /\
    exists l, m_val_storages c' !! i = Some (c_string v ++ x00 :: l).
Proof.
  intros Ht Hv Hi. unfold add_value. rewrite parse_charbuf by done. cbn [obind].
  set (st := if (_ <=? i)%nat then _ else _).
  assert (Hst : (i < length st)%nat).
  { unfold st. destruct (Nat.leb_spec (length (m_val_storages c)) i); [|lia].
    rewrite length_app. cbn. lia. }
  destruct (lookup_lt_is_Some_2 _ _ Hst) as [old Hold]. rewrite Hold.
  assert (Hw : forall old, overwrite (c_string v ++ [x00]) old =
    c_string v ++ x00 :: drop (length (c_string v ++ [x00])) old)
    by (intros; unfold overwrite; by rewrite <- app_assoc).
  assert (Hitem : take (Z.to_nat (Z.of_nat (length (c_string v)))) (overwrite (c_string v ++ [x00]) old) =
    c_string v) by (rewrite Nat2Z.id, Hw; apply take_app_length).
  rewrite Hitem. eexists. split; [reflexivity|]. cbn [fc_type fc_cmpop m_val_storages m_val_storages_members
    m_val_storages_min_size m_val_storages_max_size m_val_storages_paths].
  split_and!; try done; [rewrite length_insert; lia|].
  rewrite list_lookup_insert_eq by done. rewrite Hw. by eexists.
Qed.

Lemma add_values_charbuf vs : forall i c,
  fc_type c = PT_CHARBUF -> Forall value_ok vs -> (i <= length (m_val_storages c))%nat ->
  exists c', add_values vs i c = Done c' /\ fc_type c' = PT_CHARBUF /\ fc_cmpop c' = fc_cmpop c /\
    m_val_storages_members c' = m_val_storages_members c ++ map c_string vs /\
    (forall v, v ∈ vs -> m_val_storages_min_size c' <= Z.of_nat (length (c_string v)) <= m_val_storages_max_size c') /\
    m_val_storages_min_size c' <= m_val_storages_min_size c /\
    m_val_storages_max_size c <= m_val_storages_max_size c' /\
    m_val_storages_paths c' = (if bool_decide (fc_cmpop c = CO_PMATCH)
      then add_all (map (fun v => (c_string v, true)) vs) (m_val_storages_paths c)
      else m_val_storages_paths c).
Proof.
  induction vs as [|v vs IH]; intros i c Ht Hv Hi; cbn [add_values].
  - exists c. rewrite app_nil_r. split_and!; try done.
    + intros v Hin. by apply not_elem_of_nil in Hin.
    + by destruct (bool_decide _).
  - apply Forall_cons_1 in Hv as [Hv Hvs].
    destruct (add_value_charbuf v i c Ht Hv Hi) as (c1 & -> & Ht1 & Ho1 & Hi1 & Hm1 & Hmin & Hmax & Hp1 & _).
    destruct (IH (S i) c1 Ht1 Hvs Hi1) as (c2 & E2 & Ht2 & Ho2 & Hm2 & Hb2 & Hmin2 & Hmax2 & Hp2).
    exists c2. cbn [obind]. split_and!; [done|done|congruence| | |lia|lia|].
    + rewrite Hm2, Hm1, <- app_assoc. done.
    + intros w Hw. apply elem_of_cons in Hw as [->|Hw]; [lia|by apply Hb2].
    + rewrite Hp2, Hp1, Ho1. cbn [map]. unfold add_all. by destruct (bool_decide _).
Qed.

(** The check of a field of strings with these values. *)
Definition string_check (op : cmpop) (vs : list (list byte)) : outcome filter_check :=
  add_values vs 0 (new_check PT_CHARBUF op).

(** An extracted string: the bytes, a terminator and what is behind it, with its length
    or without. *)
Definition extracts (s : list byte) (e : list byte * Z) : Prop :=
  x00 ∉ s /\ (exists l, fst e = s ++ x00 :: l) /\ (snd e = 0 \/ snd e = Z.of_nat (length s)).

Lemma extracted_len s e op :
  extracts s e -> fc_type op = PT_CHARBUF ->
  (do! len := if bool_decide (fc_type op = PT_CHARBUF) && (snd e =? 0)
              then do! s := cstr (fst e) in Done (Z.of_nat (length s)) else Done (snd e) in Done len)
  = Done (Z.of_nat (length s)).
Proof.
  intros (Hn & [l Hl] & Hlen) Ht. rewrite Ht, bool_decide_true, Hl, cstr_app by done. cbn [andb obind].
  destruct Hlen as [-> | ->]; [done|]. by destruct (_ =? 0).
Qed.

Lemma string_set_compare c s e :
  fc_type c = PT_CHARBUF -> extracts s e -> fc_cmpop c ∈ [CO_IN; CO_PMATCH; CO_INTERSECTS] ->
  check_compare c (Some e) =
    Done (if bool_decide (fc_cmpop c = CO_PMATCH)
          then match ppm_match s (m_val_storages_paths c) with Some _ => true | None => false end
          else (m_val_storages_min_size c <=? Z.of_nat (length s))
               && (Z.of_nat (length s) <=? m_val_storages_max_size c)
               && bool_decide (s ∈ m_val_storages_members c)).
Proof.
  intros Ht He Hop. pose proof (extracted_len s e c He Ht) as Hlen. destruct e as [bs n]. cbn [fst snd] in *.
  destruct He as (Hn & [l Hl] & _). cbn [fst] in Hl. unfold check_compare, check_flt_compare.
  rewrite (bool_decide_true _ Hop). rewrite Ht in Hlen |- *. cbn [no_set].
  apply bind_Done in Hlen as (n' & -> & [= ->]). cbn [obind].
  rewrite Nat2Z.id, Hl, take_app_length.
  rewrite (proj2 (Nat.ltb_ge _ _)) by (rewrite length_app; lia).
  by destruct (bool_decide (fc_cmpop c = CO_PMATCH)).
Qed.

Lemma string_eq_compare v s e :
  value_ok v -> extracts s e ->
  (do! c := string_check CO_EQ [v] in check_compare c (Some e)) = Done (bool_decide (s = c_string v)).
Proof.
  intros Hv (Hn & [l Hl] & _). unfold string_check. cbn [add_values].
  destruct (add_value_charbuf v 0 (new_check PT_CHARBUF CO_EQ) eq_refl Hv) as (c & -> & Ht & Ho & _ & _ & _ & _ & _ & k & Hk);
    [cbn; lia|].
  cbn [obind]. destruct e as [bs n]. cbn [fst] in Hl. unfold check_compare, check_flt_compare. rewrite Ho.
  cbn [fc_cmpop new_check]. rewrite bool_decide_false by (by apply (bool_decide_unpack _)).
  destruct (m_val_storages c) as [|st sts]; [done|]. cbn in Hk. simplify_eq. unfold flt_compare. rewrite Ht.
  cbn [int_type]. rewrite bool_decide_false by done. unfold flt_compare_string.
  rewrite !cstr_app by (done || apply c_string_no_nul). cbn [obind]. f_equal.
  pose proof (strcmp_eq s (c_string v)) as Hc. destruct (strcmp s (c_string v)).
  - rewrite bool_decide_true; [done|]. by apply Hc.
  - rewrite bool_decide_false; [done|]. intros E. by apply Hc in E.
  - rewrite bool_decide_false; [done|]. intros E. by apply Hc in E.
Qed.

(** 'in' as a set, and '=' for each of the values. *)
Lemma string_in_any vs s e :
  Forall value_ok vs -> extracts s e ->
  exists b, (do! c := string_check CO_IN vs in check_compare c (Some e)) = Done b /\
    (b = true <-> exists v, v ∈ vs /\
       (do! c := string_check CO_EQ [v] in check_compare c (Some e)) = Done true).
Proof.
  intros Hv He.
  assert (Hvo : forall v, v ∈ vs -> value_ok v)
    by (intros v Hin; by apply (proj1 (List.Forall_forall _ _) Hv), list_elem_of_In).
  destruct (add_values_charbuf vs 0 (new_check PT_CHARBUF CO_IN) eq_refl Hv) as
    (c & Ec & Ht & Ho & Hm & Hb & _); [cbn; lia|].
  unfold string_check at 1. rewrite Ec. cbn [obind].
  rewrite (string_set_compare c s e) by (done || rewrite Ho; by apply (bool_decide_unpack _)).
  rewrite Ho. cbn [fc_cmpop new_check]. rewrite (bool_decide_false (CO_IN = CO_PMATCH)) by done.
  eexists. split; [done|]. rewrite Hm. cbn [m_val_storages_members new_check app].
  rewrite !andb_true_iff, !Z.leb_le, bool_decide_eq_true. split.
  - intros [_ Hs]. apply list_elem_of_In, in_map_iff in Hs as (v & <- & Hin). exists v.
    apply list_elem_of_In in Hin. rewrite (string_eq_compare v (c_string v)) by auto.
    by rewrite bool_decide_true.
  - intros (v & Hin & E). rewrite (string_eq_compare v s) in E by auto.
    injection E as E. apply bool_decide_eq_true in E as ->. split; [by apply Hb|].
    apply list_elem_of_In, in_map. by apply list_elem_of_In.
Qed.

(** 'pmatch' as a tree, and the components of each of the values. *)
Lemma string_pmatch_any vs s e :
  Forall value_ok vs -> extracts s e ->
  exists b, (do! c := string_check CO_PMATCH vs in check_compare c (Some e)) = Done b /\
    (b = true <-> exists v, v ∈ vs /\ words_on slash (c_string v) `prefix_of` words_on slash s).
Proof.
  intros Hv He.
  destruct (add_values_charbuf vs 0 (new_check PT_CHARBUF CO_PMATCH) eq_refl Hv) as
    (c & Ec & Ht & Ho & _ & _ & _ & _ & Hp); [cbn; lia|].
  unfold string_check. rewrite Ec. cbn [obind].
  rewrite (string_set_compare c s e) by (done || rewrite Ho; by apply (bool_decide_unpack _)).
  rewrite Ho, Hp. cbn [fc_cmpop new_check m_val_storages_paths].
  rewrite (bool_decide_true (CO_PMATCH = CO_PMATCH)) by done. eexists. split; [done|].
  transitivity (is_Some (ppm_match s (add_all (map (fun v => (c_string v, true)) vs) ppm_empty))).
  { destruct (ppm_match _ _); split; by eauto. }
  rewrite ppm_match_some. split.
  - intros (a & Ha & Hl). apply list_elem_of_In, in_map_iff in Ha as (v & <- & Hin).
    exists v. split; [by apply list_elem_of_In|done].
  - intros (v & Hin & Hl). exists (c_string v, true). split; [|done].
    apply list_elem_of_In, in_map_iff. exists v. split; [done|by apply list_elem_of_In].
Qed.

(** Checks of a string against several values.  'in', answered by the bounds of the
    sizes and one lookup in a set, holds exactly when '=' holds for one of the values;
    'pmatch', answered by the tree of paths, exactly when the components of one of the
    values are a prefix of those of the string. *)
Theorem string_sets_spec vs s e :
  Forall value_ok vs -> extracts s e ->
  (exists b, (do! c := string_check CO_IN vs in check_compare c (Some e)) = Done b /\
     (b = true <-> exists v, v ∈ vs /\
        (do! c := string_check CO_EQ [v] in check_compare c (Some e)) = Done true)) /\
  (exists b, (do! c := string_check CO_PMATCH vs in check_compare c (Some e)) = Done b /\
     (b = true <-> exists v, v ∈ vs /\ words_on slash (c_string v) `prefix_of` words_on slash s)).
Proof. intros Hv He. split; [by apply (string_in_any vs s e)|by apply (string_pmatch_any vs s e)]. Qed.
End sets.

(** A C library without services and address texts. *)
#[local] Instance no_libc : libc := {|
  fnmatch _ _ := false; inet_pton4 _ := None; inet_pton6 _ := None; getservbyname _ := None |}.

Lemma string_sets_spec_witness :
  exists b, (do! c := @string_check no_libc CO_IN [str "bash"; str "sh"] in
             check_compare c (Some (str "sh" ++ [x00; x41], 0))) = Done b /\ b = true.
Proof.
  destruct (@string_sets_spec no_libc [str "bash"; str "sh"] (str "sh") (str "sh" ++ [x00; x41], 0))
    as [(b & E & Hb) _].
  - repeat constructor; by vm_compute.
  - split_and!; [by apply (bool_decide_unpack _)|by exists [x41]|by left].
  - exists b. split; [done|]. apply Hb. exists (str "sh"). split; [right; left|by vm_compute].
Defined.

(** ** Checks of numbers and addresses *)

Section numbers.
Context `{Hlc : libc}.

(** A check of one value. *)
Definition one_check (op : cmpop) (type : ppm_param_type) (v : list byte) (e : list byte * Z) : outcome bool :=
  do! c := add_values [v] 0 (new_check type op) in check_compare c (Some e).

(** An operator of two operands. *)
Definition binary_op (op : cmpop) : bool :=
  match op with CO_NONE | CO_IN | CO_INTERSECTS | CO_PMATCH | CO_EXISTS => false | _ => true end.

(** What is written to the storage is what is compared with. *)
Lemma one_check_compare op type v e r :
  binary_op op = true -> type <> PT_CHARBUF -> type <> PT_SOCKADDR -> type <> PT_SOCKFAMILY ->
  type <> PT_BYTEBUF -> string_to_rawval v 256 type = Done r ->
  one_check op type v e = flt_compare op type (fst e) (overwrite r blank_storage) (snd e) 0.
Proof.
  intros Hop H1 H2 H3 H4 Er. unfold one_check. cbn [add_values]. unfold add_value.
  cbn [m_val_storages new_check length Nat.leb].
  assert (Ep : parse_filter_value (new_check type op) v = Done (r, Z.of_nat (length r), 0)).
  { unfold parse_filter_value. cbn [fc_type new_check m_val_storage_len].
    destruct type; try done; by rewrite Er. }
  rewrite Ep. cbn [obind lookup list_lookup insert list_insert]. destruct e as [bs n].
  unfold check_compare, check_flt_compare. cbn [fc_cmpop fc_type m_val_storages m_val_storage_len new_check].
  rewrite bool_decide_false by (destruct op; try done; by apply (bool_decide_unpack _)). done.
Qed.

(** Digits. *)
Definition decimal (d : list byte) : Prop := d <> [] /\ forallb is_digit d = true.

Lemma in_range_digit c : is_digit c = true -> (48 <= Byte.to_N c <= 57)%N.
Proof. unfold is_digit, in_range. rewrite andb_true_iff, !N.leb_le. done. Qed.

Lemma decimal_c_string d : forallb is_digit d = true -> c_string d = d.
Proof.
  intros Hd. apply c_string_id. intros Hin. rewrite forallb_forall in Hd.
  apply list_elem_of_In, Hd in Hin. done.
Qed.

Lemma digits_val_nonneg d : forall acc, forallb is_digit d = true -> 0 <= acc -> 0 <= digits_val d acc.
Proof.
  induction d as [|c d IH]; intros acc Hd Ha; [done|]. cbn in Hd. apply andb_true_iff in Hd as [Hc Hd].
  cbn [digits_val]. apply IH; [done|]. apply in_range_digit in Hc. unfold Z_of_byte. lia.
Qed.

Lemma scan_decimal d hi : decimal d -> digits_val d 0 <= hi -> scan_number 0 hi d = Done (digits_val d 0).
Proof.
  intros [Hne Hd] Hhi. unfold scan_number.
  pose proof (digits_val_nonneg d 0 Hd ltac:(lia)). destruct d as [|c d]; [done|].
  assert (Hc : is_digit c = true) by (by cbn in Hd; apply andb_true_iff in Hd as [? _]).
  apply in_range_digit in Hc.
  assert (Hx : forall b, (Byte.to_N b < 48)%N -> byte_eqb c b = false).
  { intros b Hb. apply byte_eqb_neq. intros ->. lia. }
  assert (Hs : skip_space (c :: d) = c :: d).
  { cbn [skip_space]. rewrite Hx by done. unfold in_range.
    rewrite (proj2 (N.leb_gt (Byte.to_N c) (Byte.to_N x0d))) by (change (Byte.to_N x0d) with 13%N; lia).
    by rewrite andb_false_r. }
  rewrite Hs, !Hx by done. unfold number. rewrite Hd.
  by rewrite (proj2 (Z.leb_le 0 _)), (proj2 (Z.leb_le _ hi)) by lia.
Qed.

(** The unsigned types, their size, and the largest number that is read for them. *)
Definition unsigned_type (type : ppm_param_type) : option (nat * Z) :=
  match type with
  | PT_FLAGS8 | PT_UINT8 => Some (1%nat, 2 ^ 32 - 1)
  | PT_FLAGS16 | PT_UINT16 => Some (2%nat, 2 ^ 32 - 1)
  | PT_PORT => Some (2%nat, 2 ^ 31 - 1)
  | PT_UINT32 | PT_FLAGS32 | PT_MODE => Some (4%nat, 2 ^ 32 - 1)
  | PT_UINT64 | PT_RELTIME | PT_ABSTIME => Some (8%nat, 2 ^ 64 - 1)
  | _ => None
  end.

Lemma rawval_decimal type n hi d :
  unsigned_type type = Some (n, hi) -> decimal d -> digits_val d 0 <= hi ->
  string_to_rawval d 256 type = Done (le_bytes n (digits_val d 0)).
Proof.
  intros Ht Hd Hhi. pose proof Hd as [Hne Hdig]. unfold string_to_rawval.
  rewrite (decimal_c_string d Hdig).
  destruct type; try done; cbn in Ht; simplify_eq; cbn [parse_int];
    try (unfold scan_u32, scan_u64; by rewrite scan_decimal).
  unfold parse_port. destruct d; [done|]. rewrite Hdig. by rewrite (proj2 (Z.leb_le _ _) Hhi).
Qed.

(** A number in a filter is compared as it is only when the type of the field can
    hold it: the digits are read as a wider number, which is cut to the 1, 2, 4 or 8
    bytes of the type and then compared; it is never refused. *)
Theorem number_values_wrap op type n hi d x :
  binary_op op = true -> unsigned_type type = Some (n, hi) -> decimal d -> digits_val d 0 <= hi ->
  0 <= x < 256 ^ Z.of_nat n ->
  one_check op type d (le_bytes n x, Z.of_nat n) =
    flt_compare_int op x (digits_val d 0 mod 256 ^ Z.of_nat n).
Proof.
  intros Hop Ht Hd Hhi Hx.
  rewrite (one_check_compare op type d _ (le_bytes n (digits_val d 0)));
    [|done|by destruct type..|by apply rawval_decimal with (hi := hi)].
  unfold flt_compare. rewrite bool_decide_false by (by destruct op).
  assert (Hi : int_type type = Some (n, false)) by (destruct type; try done; cbn in *; congruence).
  rewrite Hi. unfold compare_ints, rd, overwrite. cbn [fst].
  rewrite length_app, !length_le_bytes, Nat.ltb_irrefl.
  rewrite (proj2 (Nat.ltb_ge _ _)) by lia. cbn [obind].
  rewrite take_ge by (by rewrite length_le_bytes).
  rewrite take_app_le, take_ge by (by rewrite length_le_bytes). unfold flt_compare_uint64.
  by rewrite !le_val_bytes, (Z.mod_small x) by done.
Qed.

(** An IPv4 address is compared with an IPv6 address in a filter by its first four
    bytes, so that the unspecified address 0.0.0.0 equals the loopback address ::1. *)
Theorem address_families_mixed v r a :
  libc_ok Hlc -> memchr "."%byte v = None -> inet_pton6 (c_string v) = Some r -> length a = 4%nat ->
  one_check CO_EQ PT_IPADDR v (a, 4) = Done (bool_decide (a = take 4 r)).
Proof.
  intros [_ Hok] Hdot Hr Ha. pose proof (Hok _ _ Hr) as Hlen.
  rewrite (one_check_compare CO_EQ PT_IPADDR v _ r); [|done..|].
  2: { unfold string_to_rawval. cbn [parse_int]. by rewrite Hdot, Hr. }
  unfold flt_compare. rewrite bool_decide_false by done. cbn [int_type fst snd Z.eqb].
  change (4 =? 4) with true. unfold compare_ints, rd, overwrite. rewrite Ha, length_app, Hlen.
  cbn [Nat.ltb Nat.leb Nat.add obind flt_compare_uint64]. unfold flt_compare_uint64. cbn [flt_compare_int].
  rewrite take_ge by lia. rewrite take_app_le by lia. f_equal.
  destruct (Z.eqb_spec (le_val a) (le_val (take 4 r))) as [E|E].
  - rewrite bool_decide_true; [done|]. rewrite <- (le_bytes_val a), <- (le_bytes_val (take 4 r)), E.
    by rewrite Ha, length_take_le by lia.
  - rewrite bool_decide_false; [done|]. congruence.
Qed.

(** A byte buffer shorter than the value of a 'startswith' is read behind its end. *)
Lemma short_buffer_overread op1 op2 n1 n2 :
  (length op1 < Z.to_nat n2)%nat -> flt_compare_buffer CO_STARTSWITH op1 op2 n1 n2 = Undefined.
Proof. intros H. cbn. unfold memcmp_eq. by rewrite (proj2 (Nat.ltb_lt _ _) H). Qed.

(** A value that comes from the cache comes without its length. *)
Lemma cached_extract_loses_length num bs n :
  let '(r1, len1, cache1) := extract_cached (Some (num - 1, None)) num (Some (bs, n)) 0 in
  let '(r2, len2, _) := extract_cached cache1 num (Some (bs, n)) 0 in
  r1 = Some bs /\ len1 = n /\ r2 = Some bs /\ len2 = 0.
Proof.
  cbn. rewrite (proj2 (Z.eqb_neq num (num - 1))) by lia. cbn. by rewrite Z.eqb_refl.
Qed.
End numbers.

(** The port 65616 is the port 80. *)
Lemma number_values_wrap_witness :
  one_check CO_EQ PT_PORT (str "65616") (le_bytes 2 80, 2) = Done true.
Proof.
  etransitivity; [apply (number_values_wrap CO_EQ PT_PORT 2 (2 ^ 31 - 1) (str "65616") 80);
    try done; by vm_compute|by vm_compute].
Defined.

(** A C library that knows the loopback address. *)
Definition loopback_libc : libc := {|
  fnmatch _ _ := false; inet_pton4 _ := None;
  inet_pton6 s := if bool_decide (s = str "::1") then Some (replicate 15 x00 ++ [x01]) else None;
  getservbyname _ := None |}.

Lemma address_families_mixed_witness :
  @one_check loopback_libc CO_EQ PT_IPADDR (str "::1") (replicate 4 x00, 4) = Done true.
Proof.
  etransitivity; [apply (@address_families_mixed loopback_libc (str "::1") (replicate 15 x00 ++ [x01]));
    [|reflexivity|reflexivity|reflexivity]|by vm_compute].
  split; [done|]. intros s a. cbn. destruct (bool_decide _); [|done]. by intros [= <-].
Defined.
