(* ===== verification/FilterEngine.v ===== *)
(** * Filters on events, from the text to the answer

    The compiler of [FilterCompiler] with the checks of [FilterCheck]: a table of
    fields with their types is what the compiler asks for, and the values extracted
    from an event are what the tree is evaluated on. *)

From Stdlib Require Import ZArith Lia List Bool String.
From Stdlib Require Import Strings.Byte.
From stdpp Require Import base tactics list numbers option.
From S2P Require Import Prelude Bytes BlockIO Text EventDefs Filter FilterCompiler FilterSpec.
From S2P Require Import FilterPrint Interfaces FilterCheck.
Import ListNotations.
Local Open Scope Z_scope.

Section engine.
Context `{Hlc : libc}.

(** The type of a field, by its name. *)
Context (types : list byte -> option ppm_param_type).

(** A field is its name and its type. *)
#[export] Instance typed_fields : field_table := {|
  field := list byte * ppm_param_type;
  new_filter_check n := option_map (pair n) (types n);
  parse_field_name _ _ := true;
  works_on_thread_table _ := true;
  is_charbuf f := bool_decide (snd f = PT_CHARBUF);
  accepts f co v := match add_value v 0 (new_check (snd f) co) with Done _ => true | _ => false end |}.

(** The answer of a check on an event, of which [extract] gives the value of a field;
    [None] for an exception or undefined behaviour. *)
Definition eval_check (extract : list byte -> option (list byte * Z)) (c : check) : option bool :=
  match obind (add_values (chk_values c) 0 (new_check (snd (chk_field c)) (chk_cmpop c)))
          (fun fc => check_compare fc (extract (fst (chk_field c)))) with
  | Done b => Some b
  | _ => None
  end.

(** The text [name in ("v", ...)]. *)
Definition in_text (name v : list byte) (vs : list (list byte)) (type : ppm_param_type) : list byte :=
  print_check (CList name ((name, type) : field) false v vs).

Definition eq_check (name v : list byte) (type : ppm_param_type) : check :=
  mk_check _ ((name, type) : field) CO_EQ [v].

Lemma accepts_charbuf name op v :
  accepts ((name, PT_CHARBUF) : field) op v = true -> value_ok v.
Proof.
  unfold accepts. cbn. unfold add_value, value_ok. cbn.
  unfold parse_filter_value. cbn. unfold string_to_rawval. cbn.
  destruct (Z.leb_spec 256 (Z.of_nat (length (c_string v)))); cbn; [done|lia].
Qed.

(** From the text to the answer.  A filter [name in ("v1", ..., "vn")] compiles for
    a field of any type and for any bytes in the values, and evaluating what it compiles
    to on an event, with one set for a string field and with one check for each value
    otherwise, gives that one of the comparisons [name = "vi"] holds. *)
Theorem in_list_is_any_equal name type v vs extract op cur :
  types name = Some type -> op <> -1 ->
  Forall (fun c => isblank c = false /\ is_special_char c = false /\ c <> x00) name ->
  match name with c :: _ => c <> "n"%byte /\ is_quote c = false | [] => False end ->
  Forall (fun v => accepts ((name, type) : field)
    (if bool_decide (type = PT_CHARBUF) then CO_IN else CO_EQ) v = true) (v :: vs) ->
  (if bool_decide (type = PT_CHARBUF) then exists s e, extract name = Some e /\ extracts s e
   else forall w, w ∈ v :: vs -> eval_check extract (eq_check name w type) <> None) ->
  exists n b cur',
    (forall fuel, (S (length (in_text name v vs type)) < fuel)%nat ->
       compile false (in_text name v vs type) fuel op = Some (Done n)) /\
    compare (eval_check extract) n cur = Some (b, cur') /\
    (b = true <-> exists w, w ∈ v :: vs /\ eval_check extract (eq_check name w type) = Some true).
Proof.
  intros Ht Hop Hname Hhead Hacc Hex. set (f := ((name, type) : @field typed_fields)).
  set (first := (false, FCheck (CList name f false v vs)) : bool * filter).
  assert (Hok : Forall (fun x => filter_ok false (snd x)) [first]).
  { constructor; [|done]. constructor. cbn. split_and!; [|done|done].
    split_and!; try done. cbn. by rewrite Ht. }
  pose proof (print_filter_compiles false op true first [] Hop Hok) as Hc.
  assert (Htext : print_filter true first [] = in_text name v vs type)
    by (unfold print_filter, print_signed, print_rest; cbn; by rewrite app_nil_r).
  rewrite Htext in Hc. set (n := node_of op (FGroup true first [])) in *.
  set (test' c := match eval_check extract c with Some b => b | None => false end).
  pose proof (compare_answers (eval_check extract) test'
    ltac:(intros c b E; unfold test'; by rewrite E) n (node_of_wf _ op) cur) as Ha.
  unfold n in Ha. rewrite node_of_holds in Ha. fold n in Ha.
  cbn [denote first fst snd forallb] in Ha. rewrite xorb_false_l, andb_true_r in Ha.
  cbn [denote_check] in Ha. change (is_charbuf f) with (bool_decide (type = PT_CHARBUF)) in Ha.
  exists n. destruct (bool_decide_reflect (type = PT_CHARBUF)) as [->|Hne].
  - destruct Hex as (s & e & He & Hes).
    destruct (string_in_any (v :: vs) s e) as (b & Eb & Hb); [|done|].
    { eapply Forall_impl; [|exact Hacc]. intros w Hw. by apply accepts_charbuf in Hw. }
    assert (Ev : eval_check extract (mk_check _ f CO_IN (v :: vs)) = Some b).
    { unfold eval_check. cbn [chk_values chk_field chk_cmpop f fst snd]. rewrite He.
      unfold string_check in Eb. by rewrite Eb. }
    assert (Heq : forall w, eval_check extract (eq_check name w PT_CHARBUF) = Some true <->
      obind (string_check CO_EQ [w]) (fun c => check_compare c (Some e)) = Done true).
    { intros w. unfold eval_check, eq_check, string_check. cbn [chk_values chk_field chk_cmpop fst snd].
      rewrite He. generalize (obind (add_values [w] 0 (new_check PT_CHARBUF CO_EQ))
        (fun fc => check_compare fc (Some e))). clear. intros [[]| |]; naive_solver. }
    destruct (compare _ n cur) as [[b' cur']|] eqn:Ec.
    + exists b', cur'. split_and!; [done|done|]. cbn in Ha. subst b'. unfold test', list_op. rewrite Ev, Hb.
      split; intros (w & Hw & E); exists w; (split; [done|]); by apply Heq.
    + exfalso. destruct Ha as (c & Hin & E). cbn in Hin.
      change (is_charbuf f) with true in Hin. cbn in Hin.
      apply list_elem_of_singleton in Hin as ->. by rewrite Ev in E.
  - assert (Hlv : forall c, c ∈ leaves n -> exists w, w ∈ v :: vs /\ c = eq_check name w type).
    { intros c Hin. unfold n in Hin. cbn in Hin.
      change (is_charbuf f) with (bool_decide (type = PT_CHARBUF)) in Hin.
      rewrite bool_decide_false in Hin by done. cbn in Hin. rewrite app_nil_r in Hin.
      apply elem_of_cons in Hin as [->|Hin]; [exists v; split; [left|done]|].
      rewrite map_map in Hin. apply list_elem_of_In, in_concat in Hin as (l & Hl & Hin).
      apply in_map_iff in Hl as (w & <- & Hw). cbn in Hin. destruct Hin as [<-|[]].
      exists w. split; [right; by apply list_elem_of_In|done]. }
    destruct (compare _ n cur) as [[b' cur']|] eqn:Ec.
    + exists b', cur'. split_and!; [done|done|]. cbn [answers] in Ha. subst b'.
      rewrite existsb_exists. unfold test'. split.
      * intros (w & Hw & E). exists w. split; [by apply list_elem_of_In|].
        change (mk_check _ f CO_EQ [w]) with (eq_check name w type) in E.
        by destruct (eval_check extract _) as [[]|].
      * intros (w & Hw & E). exists w. split; [by apply list_elem_of_In|].
        change (mk_check _ f CO_EQ [w]) with (eq_check name w type). by rewrite E.
    + exfalso. destruct Ha as (c & Hin & E). destruct (Hlv c Hin) as (w & Hw & ->). by apply (Hex w Hw).
Qed.
End engine.

(** Two fields. *)
Definition sample_types (n : list byte) : option ppm_param_type :=
  if bool_decide (n = str "proc.name") then Some PT_CHARBUF
  else if bool_decide (n = str "fd.port") then Some PT_PORT else None.

Definition sample_event (n : list byte) : option (list byte * Z) :=
  if bool_decide (n = str "proc.name") then Some (str "sh" ++ [x00], 2)
  else if bool_decide (n = str "fd.port") then Some (le16 443, 2) else None.

#[local] Instance sample_libc : libc := {|
  fnmatch _ _ := false; inet_pton4 _ := None; inet_pton6 _ := None; getservbyname _ := None |}.

Lemma in_list_is_any_equal_witness :
  exists n b cur', compile (Hft := typed_fields sample_types) false
      (in_text sample_types (str "fd.port") (str "80") [str "443"] PT_PORT) 50 0 = Some (Done n) /\
    compare (eval_check sample_types sample_event) n 0 = Some (b, cur') /\ b = true.
Proof.
  destruct (in_list_is_any_equal sample_types (str "fd.port") PT_PORT (str "80") [str "443"] sample_event 0 0)
    as (n & b & cur' & Hn & Hc & Hb); try done.
  - repeat (apply Forall_cons_2; [by repeat split|]). apply Forall_nil_2.
  - repeat (apply Forall_cons_2; [by vm_compute|]). apply Forall_nil_2.
  - cbn. intros w Hw. apply elem_of_cons in Hw as [->|Hw]; [by vm_compute|].
    apply list_elem_of_singleton in Hw as ->. by vm_compute.
  - exists n, b, cur'. split_and!; [apply Hn; vm_compute; lia|done|]. apply Hb.
    exists (str "443"). split; [right; left|by vm_compute].
Defined.

(** A text with both fields, run on the event. *)
Definition run_text (s : string) : option (option bool) :=
  match compile (Hft := typed_fields sample_types) false (str s) 200 0 with
  | Some (Done n) => Some (option_map fst (compare (eval_check sample_types sample_event) n 0))
  | _ => None
  end.

Example engine_runs :
  map run_text ["proc.name in (bash, sh) and not fd.port in (80, 8080)"; "proc.name = bash or fd.port < 400";
    "fd.port contains 4"; "user.name = root"]%string =
    [Some (Some true); Some (Some false); Some None; None].
Proof. by vm_compute. Qed.
