(* ===== verification/BpfRing.v ===== *)
(** * Writing an event from eBPF: [driver/bpf/filler_helpers.h], [ring_helpers.h]

    The eBPF probe builds an event in a scratch area of the CPU and hands the
    finished frame to a perf buffer.  This file has the data of [types.h], what the
    probe observes of the kernel, the snaplen heuristics, [__bpf_val_to_ring] and the
    header, length and output steps around it.  The configuration is that of a
    little-endian kernel with raw tracepoints (Linux 4.17 and later), which permits
    reads of zero bytes. *)

From Stdlib Require Import ZArith Lia List Bool.
From Stdlib Require Import Strings.Byte.
From Stdlib Require Strings.String.
From stdpp Require Import base tactics list numbers option.
From S2P Require Import Prelude Bytes EventDefs EventTable ValToRing Ring.
Import ListNotations.
Local Open Scope Z_scope.

(** ** Constants. *)

Definition PPM_SKIP_EVENT : Z := (-4).
Definition EFAULT : Z := 14.
Definition EINVAL : Z := 22.
Definition ENOENT : Z := 2.
Definition EOPNOTSUPP : Z := 95.

Definition sizeof_perf_event_sample : Z := 12.
Definition PERF_EVENT_MAX_SIZE : Z := 65535 - sizeof_perf_event_sample.
Definition SCRATCH_SIZE : Z := Z.shiftl 1 18.
Definition SCRATCH_SIZE_MAX : Z := SCRATCH_SIZE - 1.
Definition SCRATCH_SIZE_HALF : Z := Z.shiftr SCRATCH_SIZE_MAX 1.

(** ** The records of [types.h]. *)

Record sysdig_bpf_settings : Type := mk_settings {
  st_boot_time : Z;
  st_socket_file_ops : Z;
  st_snaplen : Z;
  st_sampling_ratio : Z;
  st_capture_enabled : bool;
  st_do_dynamic_snaplen : bool;
  st_page_faults : bool;
  st_dropping_mode : bool;
  st_is_dropping : bool;
  st_tracers_enabled : bool;
  st_fullcapture_port_range_start : Z;
  st_fullcapture_port_range_end : Z;
  st_statsd_port : Z;
  st_switch_agg_num : Z;
  st_events_mask : Z -> bool }.

Record tail_context : Type := mk_tail {
  tc_evt_type : Z;
  tc_ts : Z;
  tc_curarg : Z;
  tc_curoff : Z;
  tc_len : Z;
  tc_prev_res : Z }.

(** [struct filler_data], less its pointers to maps that never change: the tail
    context and the hotplug field of the CPU's state, its two scratch areas, and the two
    scalar fields. *)
Record filler_data : Type := mk_data {
  tail_ctx : tail_context;
  buf : mem;
  tmp_scratch : mem;
  curarg_already_on_frame : bool;
  data_fd : Z;
  hotplug_cpu : Z }.

Definition evt (d : filler_data) : ppm_event_info := g_event_info (tc_evt_type (tail_ctx d)).

Definition with_tail (d : filler_data) (t : tail_context) : filler_data :=
  mk_data t (buf d) (tmp_scratch d) (curarg_already_on_frame d) (data_fd d) (hotplug_cpu d).
Definition with_buf (d : filler_data) (m : mem) : filler_data :=
  mk_data (tail_ctx d) m (tmp_scratch d) (curarg_already_on_frame d) (data_fd d) (hotplug_cpu d).
Definition with_tmp (d : filler_data) (m : mem) : filler_data :=
  mk_data (tail_ctx d) (buf d) m (curarg_already_on_frame d) (data_fd d) (hotplug_cpu d).
Definition with_on_frame (d : filler_data) (b : bool) : filler_data :=
  mk_data (tail_ctx d) (buf d) (tmp_scratch d) b (data_fd d) (hotplug_cpu d).
Definition with_hotplug (d : filler_data) (h : Z) : filler_data :=
  mk_data (tail_ctx d) (buf d) (tmp_scratch d) (curarg_already_on_frame d) (data_fd d) h.
Definition with_fd (d : filler_data) (f : Z) : filler_data :=
  mk_data (tail_ctx d) (buf d) (tmp_scratch d) (curarg_already_on_frame d) f (hotplug_cpu d).

(** [curoff += n; len += n] *)
Definition advance_tail (t : tail_context) (n : Z) : tail_context :=
  mk_tail (tc_evt_type t) (tc_ts t) (tc_curarg t) (u64 (tc_curoff t + n)) (u64 (tc_len t + n))
    (tc_prev_res t).
Definition next_arg (t : tail_context) : tail_context :=
  mk_tail (tc_evt_type t) (tc_ts t) (u64 (tc_curarg t + 1)) (tc_curoff t) (tc_len t)
    (tc_prev_res t).

(** ** What the probe observes of the kernel.

    [_READ] of a field gives its value, or zero when the memory cannot be read; a
    null pointer on the way is [None].  [probe_read p n] and [probe_read_str p n] are
    the bytes the helper leaves in its destination and its result. *)
Record bpf_sock : Type := mk_bsock {
  sk_addr : Z;
  sk_family : Z;
  inet_sport : Z;
  inet_dport : Z;
  inet_saddr : Z;
  inet_rcv_saddr : Z;
  inet_daddr : Z;
  sk_v6_daddr : list byte;
  sk_v6_rcv_saddr : list byte;
  np_saddr : list byte;
  unix_peer : Z;
  unix_addr : option (Z * list byte);
  unix_peer_addr : option (Z * list byte) }.

Record bpf_inode : Type := mk_inode {
  i_rdev : Z;
  i_ino : Z;
  i_sb_dev : option Z }.

Record bpf_file : Type := mk_file {
  f_op : Z;
  f_inode : option bpf_inode;
  f_socket : option (option bpf_sock) }.

Record bpf_env : Type := mk_benv {
  probe_read : Z -> Z -> list byte * Z;
  probe_read_str : Z -> Z -> list byte * Z;
  files_max_fds : option Z;
  fdtable : Z -> option bpf_file;
  fdt_open_fds : option (Z -> bool);
  sc_args : list Z;
  sc_retval : Z;
  pid_tgid : Z;
  ktime_get_ns : Z;
  perf_event_output : list byte -> Z }.

(** What the code relies on of the helpers: they write no further than they were
    asked, a successful read gives the bytes of the address space [as_], and a string
    read gives the string cut to the size with its terminator or fails with
    [-EFAULT]. *)
Class BpfOK (e : bpf_env) (as_ : mem) : Prop := {
  pr_len a n : 0 <= n -> Z.of_nat (length (fst (probe_read e a n))) <= n;
  pr_ok a n : 0 <= n -> snd (probe_read e a n) = 0 ->
    fst (probe_read e a n) = mem_read as_ a (Z.to_nat n);
  prs_len a n : 0 < n -> Z.of_nat (length (fst (probe_read_str e a n))) <= n;
  prs_res a n : 0 < n -> snd (probe_read_str e a n) = - EFAULT \/
    exists cs, fst (probe_read_str e a n) = cs ++ [x00] /\
      snd (probe_read_str e a n) = Z.of_nat (length (cs ++ [x00])) /\
      Forall (fun b => Z_of_byte b <> 0) cs /\
      cs = mem_read as_ a (length cs) /\
      (Z.of_nat (length cs) = n - 1 \/ Z_of_byte (as_ (a + Z.of_nat (length cs))) = 0) }.

(** ** Syscall arguments, files and sockets. *)

(** [bpf_syscall_get_argument]: the registers hold six arguments. *)
Definition bpf_syscall_get_argument (e : bpf_env) (idx : nat) : Z :=
  if (idx <=? 5)%nat then nth idx (sc_args e) 0 else 0.

(** [bpf_fget] tests the upper bound only. *)
Definition bpf_fget (e : bpf_env) (f : Z) : option bpf_file :=
  match files_max_fds e with
  | None => None
  | Some max_fds => if max_fds <=? f then None else fdtable e f
  end.

Definition bpf_sockfd_lookup (e : bpf_env) (st : sysdig_bpf_settings) (f : Z) :
    option (option bpf_sock) :=
  if st_socket_file_ops st =? 0 then None
  else match bpf_fget e f with
  | None => None
  | Some file => if negb (f_op file =? st_socket_file_ops st) then None else f_socket file
  end.

Definition bpf_encode_dev (dev : Z) : Z :=
  let major := Z.shiftr dev 20 in
  let minor := Z.land dev (Z.shiftl 1 20 - 1) in
  u32 (Z.lor (Z.lor (Z.land minor 255) (Z.shiftl major 8))
         (Z.shiftl (minor - Z.land minor 255) 12)).

Definition bpf_get_fd_dev_ino (e : bpf_env) (f : Z) : option (Z * Z) :=
  match bpf_fget e f with
  | None => None
  | Some file =>
      match f_inode file with
      | None => None
      | Some ino =>
          match i_sb_dev ino with
          | None => None
          | Some kdev => Some (bpf_encode_dev kdev, i_ino ino)
          end
      end
  end.

Definition bpf_ipv6_addr_any (a : list byte) : bool :=
  Z.lor (le_val (take 8 a)) (le_val (take 8 (drop 8 a))) =? 0.

(** [bpf_getsockname]: the address fields it stores in the memory [m] at [at_], or
    [None] for [false].  The length of a UNIX address is capped at the size of the
    destination. *)
Definition bpf_getsockname (sock : option bpf_sock) (m : mem) (at_ : Z)
    (peer : bool) : option mem :=
  match sock with
  | None => None
  | Some sk =>
      if sk_family sk =? AF_INET then
        let m := mem_write m at_ (le16 AF_INET) in
        if peer then
          Some (mem_write (mem_write m (at_ + 2) (le16 (inet_dport sk)))
                  (at_ + 4) (le32 (inet_daddr sk)))
        else
          let addr := if inet_rcv_saddr sk =? 0 then inet_saddr sk else inet_rcv_saddr sk in
          Some (mem_write (mem_write m (at_ + 2) (le16 (inet_sport sk))) (at_ + 4) (le32 addr))
      else if sk_family sk =? AF_INET6 then
        let m := mem_write m at_ (le16 AF_INET6) in
        if peer then
          Some (mem_write (mem_write m (at_ + 2) (le16 (inet_dport sk)))
                  (at_ + 8) (take 16 (sk_v6_daddr sk)))
        else
          let addr := if bpf_ipv6_addr_any (sk_v6_rcv_saddr sk) then np_saddr sk
                      else sk_v6_rcv_saddr sk in
          Some (mem_write (mem_write m (at_ + 8) (take 16 addr))
                  (at_ + 2) (le16 (inet_sport sk)))
      else if sk_family sk =? AF_UNIX then
        match (if peer then unix_peer_addr sk else unix_addr sk) with
        | None => Some (mem_write (mem_write m at_ (le16 AF_UNIX)) (at_ + 2) [x00])
        | Some (len, name) =>
            let len := if sizeof_sockaddr_storage <? len then sizeof_sockaddr_storage else len in
            Some (mem_write m at_ (take (Z.to_nat len) name))
        end
      else None
  end.

(** [bpf_addr_to_kernel]: the memory and the result. *)
Definition bpf_addr_to_kernel (e : bpf_env) (m : mem) (kaddr uaddr ulen : Z) : mem * Z :=
  let len := s32 ulen in
  if (len <? 0) || (sizeof_sockaddr_storage <? len) then (m, - EINVAL)
  else if len =? 0 then (m, 0)
  else
    let '(bs, r) := probe_read e uaddr (Z.land len 255) in
    let m := mem_write m kaddr bs in
    if negb (r =? 0) then (m, - EFAULT) else (m, 0).

(** ** [bpf_compute_snaplen]. *)

(** [get_buf(x)]: the byte at [curoff + x] of the frame, masked. *)
Definition frame_at (d : filler_data) (x : Z) : Z :=
  Z.land (u64 (tc_curoff (tail_ctx d) + x)) SCRATCH_SIZE_HALF.
Definition get_buf (d : filler_data) (x : Z) : Z := Z_of_byte (buf d (frame_at d x)).
Definition get_buf32 (d : filler_data) (x : Z) : Z := ld32 (buf d) (frame_at d x).

(** The chain of tests on the two ports and on the first bytes of the data. *)
Definition bpf_snaplen_heuristics (st : sysdig_bpf_settings) (d : filler_data)
    (lookahead_size sport dport : Z) : Z :=
  let res := st_snaplen st in
  let b := get_buf d in
  let opcode := s32 (get_buf32 d 12) in
  let word := get_buf32 d 0 in
  let min_port := st_fullcapture_port_range_start st in
  let max_port := st_fullcapture_port_range_end st in
  if (0 <? max_port) &&
     (in_port_range sport min_port max_port || in_port_range dport min_port max_port)
  then RW_MAX_FULLCAPTURE_PORT_SNAPLEN
  else if (sport =? PPM_PORT_MYSQL) || (dport =? PPM_PORT_MYSQL) then
    if 5 <=? lookahead_size then
      if (b 0 =? 3) || (b 1 =? 3) || (b 2 =? 3) || (b 3 =? 3) || (b 4 =? 3) then 2000
      else if (b 2 =? 0) && (b 3 =? 0) then 2000 else res
    else res
  else if (sport =? PPM_PORT_POSTGRES) || (dport =? PPM_PORT_POSTGRES) then
    if 2 <=? lookahead_size then
      if ((b 0 =? 81) && (b 1 =? 0)) || ((b 0 =? 80) && (b 1 =? 0))
         || ((b 4 =? 0) && (b 5 =? 3) && (b 6 =? 0)) || ((b 0 =? 69) && (b 1 =? 0))
      then 2000 else res
    else res
  else if ((4 <=? lookahead_size) && (b 1 =? 0) && (b 2 =? 0) && (b 2 =? 0))
       || ((16 <=? lookahead_size)
           && ((opcode =? 1) || (opcode =? 2001) || (opcode =? 2002) || (opcode =? 2003)
               || (opcode =? 2004) || (opcode =? 2005) || (opcode =? 2006)
               || (opcode =? 2007)))
  then 2000
  else if dport =? st_statsd_port st then 2000
  else if 5 <=? lookahead_size then
    if (word =? 0x20544547) || (word =? 0x54534F50) || (word =? 0x20545550)
       || (word =? 0x454C4544) || (word =? 0x43415254) || (word =? 0x4E4E4F43)
       || (word =? 0x4954504F) || ((word =? 0x50545448) && (b 4 =? 47))
    then 2000 else res
  else res.

(** The peer address of the heuristics, stored after the local one; [false] when the
    function returns the default. *)
Definition bpf_snaplen_peer (e : bpf_env) (d : filler_data) (sock : option bpf_sock)
    (tmp : mem) : mem * bool :=
  let peer_address := sizeof_sockaddr_storage in
  let named := match bpf_getsockname sock tmp peer_address true with
               | None => (tmp, false)
               | Some m => (m, true)
               end in
  let copied uaddr ulen :=
    let '(m, r) := bpf_addr_to_kernel e tmp peer_address uaddr ulen in (m, r =? 0) in
  if tc_evt_type (tail_ctx d) =? PPME_SOCKET_SENDTO_X then
    let usrsockaddr := bpf_syscall_get_argument e 4 in
    if usrsockaddr =? 0 then named
    else
      let addrlen := s32 (bpf_syscall_get_argument e 5) in
      if negb (addrlen =? 0) then copied usrsockaddr addrlen else named
  else if tc_evt_type (tail_ctx d) =? PPME_SOCKET_SENDMSG_X then
    let '(mh, r) := probe_read e (bpf_syscall_get_argument e 1) 56 in
    let '(usrsockaddr, addrlen) :=
      if negb (r =? 0) then (0, 0)
      else (le_val (take 8 mh), s32 (le_val (take 4 (drop 8 mh)))) in
    if negb (usrsockaddr =? 0) && negb (addrlen =? 0) then copied usrsockaddr addrlen
    else named
  else named.

(** [bpf_compute_snaplen]; the two addresses are left in the temporary area. *)
Definition bpf_compute_snaplen (e : bpf_env) (st : sysdig_bpf_settings) (d : filler_data)
    (lookahead_size : Z) : filler_data * Z :=
  let res := st_snaplen st in
  let traced :=
    if st_tracers_enabled st && (tc_evt_type (tail_ctx d) =? PPME_SYSCALL_WRITE_X) then
      match bpf_fget e (data_fd d) with
      | None => Some res
      | Some fil =>
          match f_inode fil with
          | None => Some res
          | Some ino => if i_rdev ino =? PPM_NULL_RDEV then Some RW_SNAPLEN_EVENT else None
          end
      end
    else None in
  match traced with
  | Some r => (d, r)
  | None =>
      if negb (st_do_dynamic_snaplen st) then (d, res)
      else if data_fd d =? -1 then (d, res)
      else match bpf_sockfd_lookup e st (data_fd d) with
      | None => (d, res)
      | Some sock =>
          match bpf_getsockname sock (tmp_scratch d) 0 false with
          | None => (d, res)
          | Some tmp =>
              let '(tmp, named) := bpf_snaplen_peer e d sock tmp in
              let d := with_tmp d tmp in
              if negb named then (d, res)
              else match sock with
              | None => (d, res)
              | Some sk =>
                  let port at_ := Z_of_byte (tmp (at_ + 2)) * 256 + Z_of_byte (tmp (at_ + 3)) in
                  let '(sport, dport) :=
                    if (sk_family sk =? AF_INET) || (sk_family sk =? AF_INET6)
                    then (port 0, port sizeof_sockaddr_storage) else (0, 0) in
                  (d, bpf_snaplen_heuristics st d lookahead_size sport dport)
              end
          end
      end
  end.

(** ** [__bpf_val_to_ring]. *)

(** [*((uN * )&data->buf[curoff & SCRATCH_SIZE_HALF]) = val] and the helper reads into
    that place. *)
Definition put_at_curoff (d : filler_data) (bs : list byte) : filler_data :=
  with_buf d (mem_write (buf d) (Z.land (tc_curoff (tail_ctx d)) SCRATCH_SIZE_HALF) bs).

Definition curoff_full (d : filler_data) : bool := SCRATCH_SIZE_HALF <? tc_curoff (tail_ctx d).

(** A read of [n] bytes, with the bound test in front of it: an error or the new
    state. *)
Definition read_at_curoff (e : bpf_env) (d : filler_data) (val n : Z) :
    filler_data * put_result :=
  if curoff_full d then (d, PutErr PPM_FAILURE_BUFFER_FULL)
  else
    let '(bs, r) := probe_read e val (Z.land n SCRATCH_SIZE_HALF) in
    (put_at_curoff d bs,
     if negb (r =? 0) then PutErr PPM_FAILURE_INVALID_USER_MEMORY else Put n).

(** [PT_CHARBUF], [PT_FSPATH] and [PT_FSRELPATH] *)
Definition bpf_put_string (e : bpf_env) (d : filler_data) (val val_len : Z) :
    filler_data * put_result :=
  if negb (curarg_already_on_frame d) then
    if curoff_full d then (d, PutErr PPM_FAILURE_BUFFER_FULL)
    else
      let '(bs, r) := probe_read_str e val PPM_MAX_ARG_SIZE in
      (put_at_curoff d bs,
       if r =? - EFAULT then PutErr PPM_FAILURE_INVALID_USER_MEMORY else Put (u32 r))
  else (d, Put (u32 val_len)).

(** The first part of [PT_BYTEBUF], when the snaplen is enforced: the lookahead bytes
    are read and the length is cut. *)
Definition bpf_enforce_snaplen (e : bpf_env) (st : sysdig_bpf_settings) (d : filler_data)
    (val len : Z) : filler_data * put_result :=
  let look := if len <? DPI_LOOKAHEAD_SIZE then len else DPI_LOOKAHEAD_SIZE in
  let '(d, r) := if curarg_already_on_frame d then (d, Put look)
                 else read_at_curoff e d val (u16 look) in
  match r with
  | PutErr c => (d, PutErr c)
  | Put _ =>
      let '(d, sl) := bpf_compute_snaplen e st d look in
      (d, Put (if sl <? len then sl else len))
  end.

(** [PT_BYTEBUF] *)
Definition bpf_put_bytebuf (e : bpf_env) (st : sysdig_bpf_settings) (d : filler_data)
    (val val_len : Z) (enforce_snaplen : bool) : filler_data * put_result :=
  if val_len =? 0 then (d, Put 0)
  else
    let '(d, r) := if enforce_snaplen then bpf_enforce_snaplen e st d val (u32 val_len)
                   else (d, Put (u32 val_len)) in
    match r with
    | PutErr c => (d, PutErr c)
    | Put len =>
        let len := if PPM_MAX_ARG_SIZE <? len then PPM_MAX_ARG_SIZE else len in
        if curarg_already_on_frame d then (d, Put len)
        else
          let '(d, r) := read_at_curoff e d val (u16 len) in
          match r with
          | PutErr c => (d, PutErr c)
          | Put _ => (d, Put len)
          end
    end.

(** The [switch] on the parameter type. *)
Definition bpf_put_value (e : bpf_env) (st : sysdig_bpf_settings) (d : filler_data)
    (t : ppm_param_type) (val val_len : Z) (enforce_snaplen : bool) :
    filler_data * put_result :=
  match t with
  | PT_CHARBUF | PT_FSPATH | PT_FSRELPATH => bpf_put_string e d val val_len
  | PT_BYTEBUF => bpf_put_bytebuf e st d val val_len enforce_snaplen
  | PT_SOCKADDR | PT_SOCKTUPLE | PT_FDLIST =>
      if negb (curarg_already_on_frame d) then (d, PutErr PPM_FAILURE_BUG)
      else (d, Put (u32 val_len))
  | _ =>
      match scalar_width t with
      | Some w =>
          if curoff_full d then (d, PutErr PPM_FAILURE_BUFFER_FULL)
          else (put_at_curoff d (le_bytes w val), Put (Z.of_nat w))
      | None => (d, PutErr PPM_FAILURE_BUG)
      end
  end.

(** [fixup_evt_arg_len] *)
Definition fixup_evt_arg_len (m : mem) (argnum arglen : Z) : mem :=
  if PPM_MAX_EVENT_PARAMS <? u32 argnum then m
  else mem_write m (sizeof_ppm_evt_hdr + 2 * Z.land (u32 argnum) (PPM_MAX_EVENT_PARAMS - 1))
         (le16 arglen).

(** The end of the function: the length slot and the cursors. *)
Definition bpf_commit_arg (d : filler_data) (len_dyn len : Z) : filler_data :=
  mk_data (next_arg (advance_tail (tail_ctx d) len))
    (fixup_evt_arg_len (buf d) (tc_curarg (tail_ctx d)) (u32 (len_dyn + len)))
    (tmp_scratch d) false (data_fd d) (hotplug_cpu d).

Definition dyn_none : Z := 255.

(** [__bpf_val_to_ring] *)
Definition __bpf_val_to_ring (e : bpf_env) (st : sysdig_bpf_settings) (d : filler_data)
    (val val_len : Z) (t : ppm_param_type) (dyn_idx : Z) (enforce_snaplen : bool) :
    filler_data * Z :=
  let dyn_idx := u8 dyn_idx in
  if curoff_full d then (d, PPM_FAILURE_BUFFER_FULL)
  else
    let '(d, len_dyn) :=
      if negb (dyn_idx =? dyn_none) then
        let d := put_at_curoff d (le_bytes 1 dyn_idx) in
        (with_tail d (advance_tail (tail_ctx d) 1), 1)
      else (d, 0) in
    let '(d, r) := bpf_put_value e st d t val val_len enforce_snaplen in
    match r with
    | PutErr c => (d, c)
    | Put len =>
        if PPM_MAX_ARG_SIZE <? u32 (len_dyn + len) then (d, PPM_FAILURE_BUFFER_FULL)
        else (bpf_commit_arg d len_dyn len, PPM_SUCCESS)
    end.

(** [param_info->type] of the current parameter: the slots of the row after its
    parameters are zero. *)
Definition bpf_param_type (d : filler_data) : ppm_param_type :=
  pi_type (event_param (tc_evt_type (tail_ctx d))
             (Z.land (tc_curarg (tail_ctx d)) (PPM_MAX_EVENT_PARAMS - 1))).

Definition bpf_val_to_ring_len (e : bpf_env) (st : sysdig_bpf_settings) (d : filler_data)
    (val val_len : Z) : filler_data * Z :=
  if PPM_MAX_EVENT_PARAMS <=? tc_curarg (tail_ctx d) then (d, PPM_FAILURE_BUG)
  else __bpf_val_to_ring e st d val val_len (bpf_param_type d) dyn_none false.

Definition bpf_val_to_ring (e : bpf_env) (st : sysdig_bpf_settings) (d : filler_data)
    (val : Z) : filler_data * Z :=
  if PPM_MAX_EVENT_PARAMS <=? tc_curarg (tail_ctx d) then (d, PPM_FAILURE_BUG)
  else __bpf_val_to_ring e st d val 0 (bpf_param_type d) dyn_none false.

Definition bpf_val_to_ring_dyn (e : bpf_env) (st : sysdig_bpf_settings) (d : filler_data)
    (val : Z) (t : ppm_param_type) (dyn_idx : Z) : filler_data * Z :=
  __bpf_val_to_ring e st d val 0 t dyn_idx false.

Definition bpf_val_to_ring_type (e : bpf_env) (st : sysdig_bpf_settings) (d : filler_data)
    (val : Z) (t : ppm_param_type) : filler_data * Z :=
  __bpf_val_to_ring e st d val 0 t dyn_none false.

(** ** The frame. *)

(** [write_evt_hdr]; the length field is written when the frame is pushed. *)
Definition write_evt_hdr (e : bpf_env) (d : filler_data) : filler_data :=
  let t := tail_ctx d in
  let off := sizeof_ppm_evt_hdr + 2 * ei_nparams (evt d) in
  mk_data (mk_tail (tc_evt_type t) (tc_ts t) (tc_curarg t) off off (tc_prev_res t))
    (write_header (buf d) 0 (tc_ts t) (Z.land (pid_tgid e) 0xffffffff) (tc_evt_type t)
       (ei_nparams (evt d)))
    (tmp_scratch d) (curarg_already_on_frame d) (data_fd d) (hotplug_cpu d).

Definition fixup_evt_len (m : mem) (len : Z) : mem := mem_write m 16 (le32 len).

(** What became of a frame that was complete: handed to the perf buffer, refused
    because the CPU has no open channel, or refused otherwise. *)
Inductive pushed : Type :=
| Pushed (frame : list byte)
| NoChannel
| NotPushed.

(** [push_evt_frame]; for [NoChannel] the caller schedules a hotplug event. *)
Definition push_evt_frame (e : bpf_env) (d : filler_data) : filler_data * pushed * Z :=
  let t := tail_ctx d in
  if negb (tc_curarg t =? ei_nparams (evt d)) then (d, NotPushed, PPM_FAILURE_BUG)
  else if PERF_EVENT_MAX_SIZE <? tc_len t then (d, NotPushed, PPM_FAILURE_BUFFER_FULL)
  else
    let d := with_buf d (fixup_evt_len (buf d) (tc_len t)) in
    let frame := mem_read (buf d) 0 (Z.to_nat (Z.land (tc_len t) SCRATCH_SIZE_MAX)) in
    let res := perf_event_output e frame in
    if (res =? - ENOENT) || (res =? - EOPNOTSUPP) then (d, NoChannel, PPM_SUCCESS)
    else if negb (res =? 0) then (d, NotPushed, PPM_FAILURE_BUG)
    else (d, Pushed frame, PPM_SUCCESS).
