(* ===== verification/BpfRingSpec.v ===== *)
(** * The frames of the eBPF probe

    [__bpf_val_to_ring] stays inside the scratch area whatever it is given; a
    successful call appends one encoded parameter to the frame; a pushed frame is the
    record the kernel module writes for the same parameters.  The frame is viewed as
    the arguments record of the module ([frame_view]), so the layout lemmas of
    [ValToRingSpec] and [RingSpec] apply to both drivers. *)

From Stdlib Require Import Strings.String.
From Stdlib Require Import Strings.Byte.
From Stdlib Require Import ZArith Lia List Bool.
From stdpp Require Import base tactics list numbers option.
From S2P Require Import Prelude Bytes EventDefs EventTable ValToRing ValToRingSpec.
From S2P Require Import Ring RingSpec BpfRing.
Import ListNotations.
Local Open Scope Z_scope.

(** ** Offsets. *)

Lemma land_half x : Z.land x SCRATCH_SIZE_HALF = x mod 131072.
Proof. change SCRATCH_SIZE_HALF with (Z.ones 17). by rewrite Z.land_ones by lia. Qed.

Lemma land_max x : Z.land x SCRATCH_SIZE_MAX = x mod 262144.
Proof. change SCRATCH_SIZE_MAX with (Z.ones 18). by rewrite Z.land_ones by lia. Qed.

Lemma land_slot x : Z.land x (PPM_MAX_EVENT_PARAMS - 1) = x mod 32.
Proof. change (PPM_MAX_EVENT_PARAMS - 1) with (Z.ones 5). by rewrite Z.land_ones by lia. Qed.

Lemma scratch_half : SCRATCH_SIZE_HALF = 131071.
Proof. reflexivity. Qed.

Lemma scratch_size : SCRATCH_SIZE = 262144.
Proof. reflexivity. Qed.

(** ** Every write lands in the scratch areas. *)

(** [inside n m m']: the memories agree outside the first [n] bytes. *)
Definition inside (n : Z) (m m' : mem) : Prop := forall x, x < 0 \/ n <= x -> m' x = m x.

#[export] Instance inside_preorder n : PreOrder (inside n).
Proof.
  split; [by intros m x Hx|]. intros m1 m2 m3 H1 H2 x Hx. by rewrite H2, H1.
Qed.

Lemma inside_write n m a bs :
  0 <= a -> a + Z.of_nat (length bs) <= n -> inside n m (mem_write m a bs).
Proof. intros Ha Hn x Hx. apply mem_write_out. lia. Qed.

(** What a step of the writer may touch: both areas, nothing else of the CPU. *)
Record scratch_safe (d d' : filler_data) : Prop := {
  ss_buf : inside SCRATCH_SIZE (buf d) (buf d');
  ss_tmp : inside (2 * sizeof_sockaddr_storage) (tmp_scratch d) (tmp_scratch d') }.

#[export] Instance scratch_safe_preorder : PreOrder scratch_safe.
Proof.
  split; [by intros d; split|].
  intros d1 d2 d3 [B1 T1] [B2 T2]. split; by etrans.
Qed.

Lemma put_at_curoff_safe d bs :
  Z.of_nat (length bs) <= PPM_MAX_ARG_SIZE -> scratch_safe d (put_at_curoff d bs).
Proof.
  intros Hl. split; simpl; [|done]. rewrite land_half.
  pose proof (Z.mod_pos_bound (tc_curoff (tail_ctx d)) 131072 ltac:(lia)).
  unfold PPM_MAX_ARG_SIZE in Hl. apply inside_write; rewrite ?scratch_size; lia.
Qed.

Lemma fixup_evt_arg_len_safe m n l : inside SCRATCH_SIZE m (fixup_evt_arg_len m n l).
Proof.
  unfold fixup_evt_arg_len. case_if; [done|]. rewrite land_slot.
  pose proof (Z.mod_pos_bound (u32 n) 32 ltac:(lia)).
  unfold sizeof_ppm_evt_hdr, le16. apply inside_write; rewrite ?length_le_bytes, ?scratch_size; lia.
Qed.

Ltac name_safe :=
  repeat first
    [ done
    | etrans; [|apply inside_write; unfold le16, le32, sizeof_sockaddr_storage in *;
                rewrite ?length_le_bytes, ?length_take; simpl length; lia] ].

Lemma bpf_getsockname_safe sock m at_ peer m' :
  0 <= at_ <= sizeof_sockaddr_storage -> bpf_getsockname sock m at_ peer = Some m' ->
  inside (2 * sizeof_sockaddr_storage) m m'.
Proof.
  intros Ha H. destruct sock as [sk|]; simpl in H; [|done].
  case_in H; [destruct peer; simplify_eq; name_safe|].
  case_in H; [destruct peer; simplify_eq; name_safe|].
  case_in H; [|done].
  destruct (if peer then _ else _) as [[len name]|]; simplify_eq; [|name_safe].
  apply inside_write; [lia|]. rewrite length_take. case_if; unfold sizeof_sockaddr_storage in *; lia.
Qed.

Section writer.
Context (e : bpf_env) (as_ : mem) (st : sysdig_bpf_settings).
Context `{He : !BpfOK e as_}.
Context (Hsnap : 0 <= st_snaplen st).

Lemma bpf_addr_to_kernel_safe m uaddr ulen m' r :
  bpf_addr_to_kernel e m sizeof_sockaddr_storage uaddr ulen = (m', r) ->
  inside (2 * sizeof_sockaddr_storage) m m'.
Proof.
  intros H. unfold bpf_addr_to_kernel in H. cbv zeta in H.
  case_in H; [by simplify_eq|]. case_in H; [by simplify_eq|]. bool_to_prop.
  destruct (probe_read _ _ _) as [bs r0] eqn:E.
  assert (Hl : Z.of_nat (length bs) <= sizeof_sockaddr_storage).
  { assert (Hm : Z.land (s32 ulen) 255 = s32 ulen mod 256)
      by (change 255 with (Z.ones 8); by rewrite Z.land_ones by lia).
    pose proof (pr_len uaddr (Z.land (s32 ulen) 255)) as Hp.
    rewrite E, Hm in Hp. simpl in Hp. unfold sizeof_sockaddr_storage in *.
    rewrite Z.mod_small in Hp by lia. lia. }
  assert (inside (2 * sizeof_sockaddr_storage) m (mem_write m sizeof_sockaddr_storage bs))
    by (apply inside_write; unfold sizeof_sockaddr_storage in *; lia).
  case_in H; by simplify_eq.
Qed.

Lemma bpf_snaplen_peer_safe d sock tmp tmp' b :
  bpf_snaplen_peer e d sock tmp = (tmp', b) -> inside (2 * sizeof_sockaddr_storage) tmp tmp'.
Proof.
  intros H. unfold bpf_snaplen_peer in H. cbv zeta in H.
  assert (Hn : forall r, match bpf_getsockname sock tmp sizeof_sockaddr_storage true with
               | None => (tmp, false) | Some m => (m, true) end = r ->
               inside (2 * sizeof_sockaddr_storage) tmp (fst r)).
  { clear H. intros r <-. destruct (bpf_getsockname _ _ _ _) eqn:E; cbn [fst]; [|done].
    eapply bpf_getsockname_safe; [|exact E]. unfold sizeof_sockaddr_storage; lia. }
  assert (Hc : forall u l r, (let '(m, r) := bpf_addr_to_kernel e tmp sizeof_sockaddr_storage u l in
                 (m, r =? 0)) = r -> inside (2 * sizeof_sockaddr_storage) tmp (fst r)).
  { clear H. intros u l r <-. destruct (bpf_addr_to_kernel _ _ _ _ _) eqn:E; cbn [fst].
    eapply bpf_addr_to_kernel_safe. exact E. }
  destruct (probe_read e _ _) as [mh r0] in H.
  destruct (if negb (r0 =? 0) then (0, 0) else _) as [ua al] in H.
  repeat match type of H with (if ?b then _ else _) = _ => destruct b end;
    first [by apply Hn in H|by apply Hc in H].
Qed.

(** The snaplen computation leaves the frame and the cursors alone. *)
Lemma bpf_compute_snaplen_tmp d look d' r :
  bpf_compute_snaplen e st d look = (d', r) ->
  exists tmp, d' = with_tmp d tmp /\ inside (2 * sizeof_sockaddr_storage) (tmp_scratch d) tmp.
Proof.
  intros H. unfold bpf_compute_snaplen in H. cbv zeta in H.
  assert (Hd : d = with_tmp d (tmp_scratch d)) by by destruct d.
  assert (Hsame : exists tmp, d = with_tmp d tmp /\
            inside (2 * sizeof_sockaddr_storage) (tmp_scratch d) tmp)
    by (exists (tmp_scratch d); done).
  destruct (if st_tracers_enabled st && _ then _ else _); [by simplify_eq|].
  case_in H; [by simplify_eq|]. case_in H; [by simplify_eq|].
  destruct (bpf_sockfd_lookup _ _ _) as [sock|]; [|by simplify_eq].
  destruct (bpf_getsockname sock _ _ _) as [tmp|] eqn:En; [|by simplify_eq].
  destruct (bpf_snaplen_peer _ _ _ _) as [tmp' b] eqn:Ep.
  apply bpf_getsockname_safe in En; [|unfold sizeof_sockaddr_storage; lia].
  apply bpf_snaplen_peer_safe in Ep.
  exists tmp'. split; [|by etrans].
  case_in H; [by simplify_eq|]. destruct sock; [|by simplify_eq].
  destruct (if (_ || _)%bool then _ else _) in H. by simplify_eq.
Qed.

Lemma read_at_curoff_safe d val n d' r :
  0 <= n <= PPM_MAX_ARG_SIZE -> read_at_curoff e d val n = (d', r) -> scratch_safe d d'.
Proof.
  intros Hn H. unfold read_at_curoff in H. case_in H; [by simplify_eq|].
  destruct (probe_read _ _ _) as [bs r0] eqn:E. simplify_eq.
  apply put_at_curoff_safe. rewrite land_half in E.
  pose proof (pr_len val (n mod 131072)) as Hp. rewrite E in Hp. simpl in Hp.
  unfold PPM_MAX_ARG_SIZE in *. rewrite Z.mod_small in Hp by lia. lia.
Qed.

Lemma bpf_compute_snaplen_nonneg d look : 0 <= snd (bpf_compute_snaplen e st d look).
Proof.
  assert (Hh : forall d sp dp, 0 <= bpf_snaplen_heuristics st d look sp dp).
  { intros d' sp dp. unfold bpf_snaplen_heuristics, RW_MAX_FULLCAPTURE_PORT_SNAPLEN.
    repeat (match goal with |- context [if ?b then _ else _] => destruct b end; try lia). }
  destruct (bpf_compute_snaplen e st d look) as [d' r] eqn:H. cbn [snd].
  unfold bpf_compute_snaplen in H. cbv zeta in H.
  destruct (if st_tracers_enabled st && _ then _ else _) as [v|] eqn:Et.
  { simplify_eq. unfold RW_SNAPLEN_EVENT in Et. repeat case_in Et; simplify_eq; lia. }
  case_in H; [by simplify_eq|]. case_in H; [by simplify_eq|].
  destruct (bpf_sockfd_lookup _ _ _) as [sock|]; [|by simplify_eq].
  destruct (bpf_getsockname sock _ _ _) as [tmp|]; [|by simplify_eq].
  destruct (bpf_snaplen_peer _ _ _ _) as [tmp' b].
  case_in H; [by simplify_eq|]. destruct sock; [|by simplify_eq].
  destruct (if (_ || _)%bool then _ else _) in H. simplify_eq. apply Hh.
Qed.

Lemma bpf_enforce_snaplen_safe d val len d' r :
  bpf_enforce_snaplen e st d val len = (d', r) -> 0 <= len ->
  scratch_safe d d' /\ forall n, r = Put n -> 0 <= n <= len.
Proof.
  intros H Hl. unfold bpf_enforce_snaplen in H. cbv zeta in H.
  set (look := if len <? DPI_LOOKAHEAD_SIZE then len else DPI_LOOKAHEAD_SIZE) in H.
  assert (0 <= look <= 16)
    by (unfold look, DPI_LOOKAHEAD_SIZE; case_if; bool_to_prop; lia). clearbody look.
  destruct (if curarg_already_on_frame d then _ else _) as [d1 r1] eqn:E1.
  assert (Hs : scratch_safe d d1).
  { case_in E1; [by simplify_eq|]. apply read_at_curoff_safe in E1; [done|].
    rewrite u16_small by lia. unfold PPM_MAX_ARG_SIZE. lia. }
  destruct r1; [|by simplify_eq].
  pose proof (bpf_compute_snaplen_nonneg d1 look) as Hn.
  destruct (bpf_compute_snaplen _ _ _ _) as [d2 sl] eqn:E2. simplify_eq. simpl in Hn.
  split.
  - apply bpf_compute_snaplen_tmp in E2 as (tmp & -> & Ht). etrans; [exact Hs|]. by split.
  - intros n ?. simplify_eq. case_if; bool_to_prop; lia.
Qed.

Lemma bpf_put_value_safe d t val vl en d' r :
  bpf_put_value e st d t val vl en = (d', r) -> scratch_safe d d'.
Proof.
  assert (Hstr : bpf_put_string e d val vl = (d', r) -> scratch_safe d d').
  { intros H. unfold bpf_put_string in H. case_in H; [|by simplify_eq].
    case_in H; [by simplify_eq|].
    destruct (probe_read_str _ _ _) as [bs r0] eqn:E. simplify_eq.
    apply put_at_curoff_safe. pose proof (prs_len val PPM_MAX_ARG_SIZE) as Hp.
    rewrite E in Hp. apply Hp. by unfold PPM_MAX_ARG_SIZE. }
  assert (Hbuf : bpf_put_bytebuf e st d val vl en = (d', r) -> scratch_safe d d').
  { intros H. unfold bpf_put_bytebuf in H. case_in H; [by simplify_eq|].
    destruct (if en then _ else _) as [d1 r1] eqn:E1.
    assert (Hs : scratch_safe d d1 /\ forall n, r1 = Put n -> 0 <= n).
    { pose proof (u32_range vl). destruct en; [|simplify_eq; split; [done|]; intros; simplify_eq; lia].
      apply bpf_enforce_snaplen_safe in E1 as [Hs Hb]; [|lia].
      split; [done|]. intros n Hn. apply Hb in Hn. lia. }
    destruct Hs as [Hs Hn], r1 as [len|c]; [|by simplify_eq]. case_in H; [by simplify_eq|].
    specialize (Hn _ eq_refl). destruct (read_at_curoff _ _ _ _) as [d2 r2] eqn:E2.
    apply read_at_curoff_safe in E2.
    - destruct r2; simplify_eq; by etrans.
    - unfold PPM_MAX_ARG_SIZE. case_if; bool_to_prop; rewrite u16_small; lia. }
  intros H. destruct t; cbn [bpf_put_value scalar_width] in H; auto;
    try (case_in H; simplify_eq; first [done | by apply put_at_curoff_safe]);
    by simplify_eq.
Qed.

(** ** What a parameter is encoded as. *)

(** How many bytes of a buffer are captured: the snaplen is computed with the looked
    at bytes on the frame. *)
Definition bpf_captured_len (d : filler_data) (val val_len : Z) (enforce : bool) : Z :=
  let len := u32 val_len in
  let look := Z.min len DPI_LOOKAHEAD_SIZE in
  let d := if curarg_already_on_frame d then d
           else put_at_curoff d (mem_read as_ val (Z.to_nat look)) in
  Z.min (if enforce then Z.min len (snd (bpf_compute_snaplen e st d look)) else len)
    PPM_MAX_ARG_SIZE.

(** The bytes of the value: of the address space, or those already on the frame. *)
Definition bpf_value (d : filler_data) (t : ppm_param_type) (val val_len : Z)
    (enforce : bool) : list byte :=
  let on_frame n := mem_read (buf d) (tc_curoff (tail_ctx d)) (Z.to_nat n) in
  match t with
  | PT_CHARBUF | PT_FSPATH | PT_FSRELPATH =>
      if curarg_already_on_frame d then on_frame (u32 val_len)
      else cut_string PPM_MAX_ARG_SIZE (cstr as_ val (Z.to_nat PPM_MAX_ARG_SIZE))
  | PT_BYTEBUF =>
      if val_len =? 0 then []
      else
        let n := bpf_captured_len d val val_len enforce in
        if curarg_already_on_frame d then on_frame n else mem_read as_ val (Z.to_nat n)
  | PT_SOCKADDR | PT_SOCKTUPLE | PT_FDLIST => on_frame (u32 val_len)
  | _ => match scalar_width t with Some w => le_bytes w val | None => [] end
  end.

(** The state after the index byte of a dynamic parameter. *)
Definition after_dyn (d : filler_data) (dyn_idx : Z) : filler_data :=
  if u8 dyn_idx =? dyn_none then d
  else with_tail (put_at_curoff d (le_bytes 1 (u8 dyn_idx))) (advance_tail (tail_ctx d) 1).

Definition bpf_param (d : filler_data) (t : ppm_param_type) (val val_len dyn_idx : Z)
    (enforce : bool) : list byte :=
  (if u8 dyn_idx =? dyn_none then [] else le_bytes 1 (u8 dyn_idx))
  ++ bpf_value (after_dyn d dyn_idx) t val val_len enforce.

(** ** The steps of the switch. *)

(** A value put on the frame: [n] bytes at the cursor, nothing before it. *)
Record value_put (d d' : filler_data) (v : list byte) (n : Z) : Prop := {
  vp_tail : tail_ctx d' = tail_ctx d;
  vp_frame : curarg_already_on_frame d' = curarg_already_on_frame d;
  vp_before : forall x, x < tc_curoff (tail_ctx d) -> buf d' x = buf d x;
  vp_len : Z.of_nat (length v) = n;
  vp_read : mem_read (buf d') (tc_curoff (tail_ctx d)) (length v) = v }.

Lemma put_value_put d bs :
  0 <= tc_curoff (tail_ctx d) -> curoff_full d = false ->
  value_put d (put_at_curoff d bs) bs (Z.of_nat (length bs)).
Proof.
  intros H0 Hf. unfold curoff_full in Hf. bool_to_prop. rewrite scratch_half in Hf.
  split; try done; simpl; rewrite land_half, Z.mod_small by lia.
  - intros x Hx. apply mem_write_out. lia.
  - apply mem_read_write_same.
Qed.

Lemma on_frame_put d n :
  0 <= n -> value_put d d (mem_read (buf d) (tc_curoff (tail_ctx d)) (Z.to_nat n)) n.
Proof.
  intros Hn. split; try done; rewrite ?length_mem_read; [lia|done].
Qed.

Lemma value_put_tmp d d' tmp v n : value_put d d' v n -> value_put d (with_tmp d' tmp) v n.
Proof. intros [? ? ? ? ?]. by split. Qed.

(** A second value written over the first. *)
Lemma value_put_again d d1 d2 v1 n1 v2 n2 :
  value_put d d1 v1 n1 -> value_put d1 d2 v2 n2 -> value_put d d2 v2 n2.
Proof.
  intros [T1 F1 B1 L1 R1] [T2 F2 B2 L2 R2]. rewrite T1 in *.
  split; [congruence|congruence| |done|done].
  intros x Hx. rewrite B2 by done. auto.
Qed.

Lemma read_at_curoff_put d val n d' m :
  0 <= tc_curoff (tail_ctx d) -> 0 <= n <= SCRATCH_SIZE_HALF ->
  read_at_curoff e d val n = (d', Put m) ->
  m = n /\ d' = put_at_curoff d (mem_read as_ val (Z.to_nat n)) /\
  value_put d d' (mem_read as_ val (Z.to_nat n)) n.
Proof.
  intros H0 Hn H. unfold read_at_curoff in H. case_in H; [done|].
  rewrite land_half, Z.mod_small in H by (rewrite scratch_half in Hn; lia).
  destruct (probe_read _ _ _) as [bs r0] eqn:E. case_in H; [done|]. bool_to_prop. simplify_eq.
  pose proof (pr_ok val m ltac:(lia)) as Hp. rewrite E in Hp. specialize (Hp eq_refl).
  cbn [fst] in Hp. subst bs. repeat split_and; try done.
  pose proof (put_value_put d (mem_read as_ val (Z.to_nat m)) H0 ltac:(done)) as Hv.
  rewrite length_mem_read in Hv. by rewrite Z2Nat.id in Hv by lia.
Qed.

(** A string the helper returned is the C string of the address space, cut. *)
Lemma cstr_prefix m a cs : forall b,
  Forall (fun x => Z_of_byte x <> 0) cs -> cs = mem_read m a (length cs) ->
  (length cs <= b)%nat ->
  take (length cs) (cstr m a b) = cs /\
  ((length cs < b)%nat -> Z_of_byte (m (a + Z.of_nat (length cs))) = 0 -> cstr m a b = cs).
Proof.
  revert a; induction cs as [|c cs IH]; intros a b Hnz Hm Hb; simpl in *.
  - split; [done|]. intros Hlt Hz. rewrite Z.add_0_r in Hz.
    destruct b; [lia|]. simpl. by rewrite Hz.
  - inversion Hnz as [|? ? Hc Hcs]; subst. injection Hm as Hma Hmr.
    destruct b; [lia|]. simpl. rewrite <- Hma. rewrite (proj2 (Z.eqb_neq _ _)) by done.
    destruct (IH (a + 1) b Hcs Hmr ltac:(lia)) as [H1 H2]. split.
    + simpl. by rewrite H1.
    + intros Hlt Hz. f_equal. apply H2; [lia|]. rewrite <- Hz. f_equal. f_equal. lia.
Qed.

Lemma probe_read_str_cut val n bs r :
  0 < n -> probe_read_str e val n = (bs, r) -> r <> - EFAULT ->
  bs = cut_string n (cstr as_ val (Z.to_nat n)) /\ r = Z.of_nat (length bs) /\ r <= n.
Proof.
  intros Hn E Hr. pose proof (prs_len val n Hn) as Hl. pose proof (prs_res val n Hn) as Hp.
  rewrite E in Hl, Hp. cbn [fst snd] in *.
  destruct Hp as [?|(cs & -> & -> & Hnz & Hm & Hend)]; [done|].
  rewrite length_app in Hl. cbn [length] in Hl.
  destruct (cstr_prefix as_ val cs (Z.to_nat n) Hnz Hm ltac:(lia)) as [H1 H2].
  split; [|split; [done|rewrite length_app; cbn [length]; lia]].
  unfold cut_string. rewrite (proj2 (Z.leb_gt _ _)) by lia. f_equal.
  destruct Hend as [Hend|Hz].
  - by replace (Z.to_nat (n - 1)) with (length cs) by lia.
  - rewrite H2 by (done || lia). rewrite firstn_all2 by lia. done.
Qed.

Lemma bpf_put_string_put d val vl d' n :
  0 <= tc_curoff (tail_ctx d) ->
  bpf_put_string e d val vl = (d', Put n) ->
  value_put d d' (bpf_value d PT_CHARBUF val vl false) n.
Proof.
  intros H0 H. unfold bpf_put_string in H. unfold bpf_value.
  destruct (curarg_already_on_frame d); cbn [negb] in H.
  { simplify_eq. apply on_frame_put. pose proof (u32_range vl). lia. }
  case_in H; [done|]. destruct (probe_read_str _ _ _) as [bs r] eqn:E.
  case_in H; [done|]. simplify_eq. bool_to_prop.
  apply probe_read_str_cut in E as (Hb & Hr & Hle); [|by unfold PPM_MAX_ARG_SIZE|done].
  rewrite <- Hb. subst r. unfold PPM_MAX_ARG_SIZE in Hle. rewrite u32_small by lia.
  by apply put_value_put.
Qed.

Lemma u16_arg n : 0 <= n <= PPM_MAX_ARG_SIZE -> u16 n = n.
Proof. unfold PPM_MAX_ARG_SIZE. intros. apply u16_small. lia. Qed.

Lemma bpf_enforce_snaplen_put d val len d' n :
  0 <= tc_curoff (tail_ctx d) -> 0 <= len ->
  bpf_enforce_snaplen e st d val len = (d', Put n) ->
  let look := Z.min len DPI_LOOKAHEAD_SIZE in
  let d1 := if curarg_already_on_frame d then d
            else put_at_curoff d (mem_read as_ val (Z.to_nat look)) in
  n = Z.min len (snd (bpf_compute_snaplen e st d1 look)) /\
  (exists tmp, d' = with_tmp d1 tmp) /\
  if curarg_already_on_frame d then True
  else value_put d d' (mem_read as_ val (Z.to_nat look)) look.
Proof.
  intros H0 Hl H look d1. unfold bpf_enforce_snaplen in H. cbv zeta in H.
  rewrite if_ltb_min, (Z.min_comm DPI_LOOKAHEAD_SIZE) in H. fold look in H.
  assert (0 <= look <= 16) by (unfold look, DPI_LOOKAHEAD_SIZE; lia). clearbody look.
  destruct (curarg_already_on_frame d) eqn:Ef; unfold d1; cbv zeta.
  - destruct (bpf_compute_snaplen _ _ _ _) as [d2 sl] eqn:E2. rewrite if_ltb_min in H.
    simplify_eq. apply bpf_compute_snaplen_tmp in E2 as (tmp & -> & _). repeat split; eauto.
  - rewrite u16_small in H by lia.
    destruct (read_at_curoff _ _ _ _) as [d2 [m|c]] eqn:E1; [|done].
    apply read_at_curoff_put in E1 as (-> & -> & Hv); [|lia|rewrite scratch_half; lia].
    destruct (bpf_compute_snaplen _ _ _ _) as [d3 sl] eqn:E2. rewrite if_ltb_min in H.
    simplify_eq. apply bpf_compute_snaplen_tmp in E2 as (tmp & -> & _).
    repeat split_and; eauto. by apply value_put_tmp.
Qed.

Lemma bpf_put_bytebuf_put d val vl en d' n :
  0 <= tc_curoff (tail_ctx d) ->
  bpf_put_bytebuf e st d val vl en = (d', Put n) ->
  value_put d d' (bpf_value d PT_BYTEBUF val vl en) n.
Proof.
  intros H0 H. unfold bpf_put_bytebuf in H. unfold bpf_value.
  destruct (vl =? 0). { simplify_eq. by split. }
  pose proof (u32_range vl) as Hu.
  destruct (if en then _ else _) as [d1 [len|c]] eqn:E1; [|done].
  rewrite if_ltb_min in H. set (n' := Z.min len PPM_MAX_ARG_SIZE) in H.
  assert (Hcap : n' = bpf_captured_len d val vl en /\ 0 <= n' /\
    (exists tmp, d1 = with_tmp (if curarg_already_on_frame d then d else d1) tmp) /\
    if curarg_already_on_frame d then True else exists v m, value_put d d1 v m).
  { unfold bpf_captured_len. cbv zeta. destruct en.
    - pose proof E1 as E1'. apply bpf_enforce_snaplen_safe in E1' as [_ Hb]; [|lia].
      specialize (Hb _ eq_refl). apply bpf_enforce_snaplen_put in E1 as (Hlen & [tmp Htmp] & Hv);
        [|lia..].
      split; [unfold n'; rewrite Hlen; done|]. split; [unfold n', PPM_MAX_ARG_SIZE; lia|].
      destruct (curarg_already_on_frame d) eqn:Ef; [by eauto|].
      split; [|eauto]. exists (tmp_scratch d1). by destruct d1.
    - simplify_eq. split; [done|]. split; [unfold n', PPM_MAX_ARG_SIZE; lia|]. split.
      + exists (tmp_scratch d1). destruct (curarg_already_on_frame d1), d1; done.
      + destruct (curarg_already_on_frame d1); [done|]. exists [], 0. by split. }
  destruct Hcap as (<- & Hn0 & [tmp Htmp] & Hv).
  assert (Hf : curarg_already_on_frame d1 = curarg_already_on_frame d).
  { destruct (curarg_already_on_frame d) eqn:Ef; [by rewrite Htmp|].
    destruct Hv as (v & m & Hv). by rewrite (vp_frame _ _ _ _ Hv). }
  rewrite Hf in H. destruct (curarg_already_on_frame d) eqn:Ef.
  - injection H as <- <-. rewrite Htmp. apply value_put_tmp, on_frame_put. done.
  - destruct Hv as (v & m & Hv). rewrite u16_arg in H by (unfold n'; lia).
    destruct (read_at_curoff _ _ _ _) as [d2 [k|c]] eqn:E2; [|done]. injection H as <- <-.
    apply read_at_curoff_put in E2 as (_ & _ & Hv2).
    + by eapply value_put_again.
    + by rewrite (vp_tail _ _ _ _ Hv).
    + rewrite scratch_half. unfold n', PPM_MAX_ARG_SIZE in *. lia.
Qed.

Lemma bpf_put_value_put d t val vl en d' n :
  0 <= tc_curoff (tail_ctx d) ->
  bpf_put_value e st d t val vl en = (d', Put n) ->
  value_put d d' (bpf_value d t val vl en) n.
Proof.
  intros H0 H.
  assert (Hs : forall w, (if curoff_full d then (d, PutErr PPM_FAILURE_BUFFER_FULL)
             else (put_at_curoff d (le_bytes w val), Put (Z.of_nat w))) = (d', Put n) ->
             value_put d d' (le_bytes w val) n).
  { intros w Hw. case_in Hw; [done|]. simplify_eq. rewrite <- (length_le_bytes w val) at 3.
    by apply put_value_put. }
  assert (Hb : (if negb (curarg_already_on_frame d) then (d, PutErr PPM_FAILURE_BUG)
             else (d, Put (u32 vl))) = (d', Put n) ->
             value_put d d' (mem_read (buf d) (tc_curoff (tail_ctx d)) (Z.to_nat (u32 vl))) n).
  { intros Hw. case_in Hw; [done|]. simplify_eq. apply on_frame_put.
    pose proof (u32_range vl). lia. }
  destruct t; cbn [bpf_put_value scalar_width] in H; try done;
    first [by apply Hs in H | by apply Hb in H | by apply bpf_put_string_put in H
          | by apply bpf_put_bytebuf_put in H].
Qed.

Lemma after_dyn_safe d dyn : scratch_safe d (after_dyn d dyn).
Proof.
  unfold after_dyn. case_if; [done|].
  assert (Hs : scratch_safe d (put_at_curoff d (le_bytes 1 (u8 dyn))))
    by (apply put_at_curoff_safe; by rewrite length_le_bytes).
  destruct Hs. by split.
Qed.

Lemma val_to_ring_unfold d val vl t dyn en :
  __bpf_val_to_ring e st d val vl t dyn en =
  if curoff_full d then (d, PPM_FAILURE_BUFFER_FULL)
  else
    let len_dyn := if u8 dyn =? dyn_none then 0 else 1 in
    let '(d, r) := bpf_put_value e st (after_dyn d dyn) t val vl en in
    match r with
    | PutErr c => (d, c)
    | Put len =>
        if PPM_MAX_ARG_SIZE <? u32 (len_dyn + len) then (d, PPM_FAILURE_BUFFER_FULL)
        else (bpf_commit_arg d len_dyn len, PPM_SUCCESS)
    end.
Proof.
  unfold __bpf_val_to_ring, after_dyn. cbv zeta.
  case_if; [done|]. by destruct (u8 dyn =? dyn_none).
Qed.

Lemma val_to_ring_safe d val vl t dyn en d' r :
  __bpf_val_to_ring e st d val vl t dyn en = (d', r) -> scratch_safe d d'.
Proof.
  rewrite val_to_ring_unfold. cbv zeta. case_if; [by intros; simplify_eq|].
  destruct (bpf_put_value _ _ _ _ _ _ _) as [d1 r1] eqn:E. intros H.
  apply bpf_put_value_safe in E. pose proof (after_dyn_safe d dyn) as Hd.
  assert (Hs : scratch_safe d d1) by by etrans.
  destruct r1; [|by simplify_eq]. case_in H; simplify_eq; [done|].
  destruct Hs as [Hb Ht]. split; simpl; [|done].
  etrans; [exact Hb|]. apply fixup_evt_arg_len_safe.
Qed.

(** The switch and the whole call keep the event's type and time. *)
Lemma bpf_put_value_tail d t val vl en d' r :
  bpf_put_value e st d t val vl en = (d', r) -> tail_ctx d' = tail_ctx d.
Proof.
  assert (Hr : forall d1 v n d2 r2, read_at_curoff e d1 v n = (d2, r2) -> tail_ctx d2 = tail_ctx d1).
  { intros d1 v n d2 r2 H. unfold read_at_curoff in H. case_in H; [by simplify_eq|].
    destruct (probe_read _ _ _). by simplify_eq. }
  assert (Hs : bpf_put_string e d val vl = (d', r) -> tail_ctx d' = tail_ctx d).
  { unfold bpf_put_string. intros H. case_in H; [|by simplify_eq]. case_in H; [by simplify_eq|].
    destruct (probe_read_str _ _ _). by simplify_eq. }
  assert (Hb : bpf_put_bytebuf e st d val vl en = (d', r) -> tail_ctx d' = tail_ctx d).
  { unfold bpf_put_bytebuf. intros H. case_in H; [by simplify_eq|].
    destruct (if en then _ else _) as [d1 r1] eqn:E1.
    assert (H1 : tail_ctx d1 = tail_ctx d).
    { destruct en; [|by simplify_eq]. unfold bpf_enforce_snaplen in E1. cbv zeta in E1.
      destruct (if curarg_already_on_frame d then _ else _) as [d2 r2] eqn:E2.
      assert (H2 : tail_ctx d2 = tail_ctx d) by (case_in E2; [by simplify_eq|by eapply Hr]).
      destruct r2; [|by simplify_eq].
      destruct (bpf_compute_snaplen _ _ _ _) as [d3 sl] eqn:E3. simplify_eq.
      by apply bpf_compute_snaplen_tmp in E3 as (tmp & -> & _). }
    destruct r1; [|by simplify_eq]. case_in H; [by simplify_eq|].
    destruct (read_at_curoff _ _ _ _) as [d2 r2] eqn:E2. apply Hr in E2.
    destruct r2; simplify_eq; congruence. }
  intros H. destruct t; cbn [bpf_put_value scalar_width] in H; auto;
    try (case_in H; by simplify_eq); by simplify_eq.
Qed.

Lemma val_to_ring_tail d val vl t dyn en d' r :
  __bpf_val_to_ring e st d val vl t dyn en = (d', r) ->
  tc_ts (tail_ctx d') = tc_ts (tail_ctx d) /\
  tc_evt_type (tail_ctx d') = tc_evt_type (tail_ctx d).
Proof.
  rewrite val_to_ring_unfold. cbv zeta. case_if; [by intros; simplify_eq|].
  destruct (bpf_put_value _ _ _ _ _ _ _) as [d1 r1] eqn:E. apply bpf_put_value_tail in E. intros H.
  assert (Hd : tc_ts (tail_ctx d1) = tc_ts (tail_ctx d) /\
               tc_evt_type (tail_ctx d1) = tc_evt_type (tail_ctx d))
    by (rewrite E; unfold after_dyn; case_if; done).
  destruct r1; [|by simplify_eq]. case_in H; by simplify_eq.
Qed.

(** What the type switch can refuse. *)
Definition needs_frame (t : ppm_param_type) : bool :=
  match t with PT_SOCKADDR | PT_SOCKTUPLE | PT_FDLIST => true | _ => false end.

Lemma bpf_put_value_err d t val vl en d' c :
  bpf_put_value e st d t val vl en = (d', PutErr c) ->
  c = PPM_FAILURE_BUFFER_FULL \/ c = PPM_FAILURE_INVALID_USER_MEMORY \/
  (c = PPM_FAILURE_BUG /\
   (encodable t = false \/ (needs_frame t = true /\ curarg_already_on_frame d = false))).
Proof.
  assert (Hr : forall d1 v n d2, read_at_curoff e d1 v n = (d2, PutErr c) ->
            c = PPM_FAILURE_BUFFER_FULL \/ c = PPM_FAILURE_INVALID_USER_MEMORY).
  { intros d1 v n d2 H. unfold read_at_curoff in H. case_in H; [simplify_eq; auto|].
    destruct (probe_read _ _ _). case_in H; simplify_eq; auto. }
  assert (Hs : bpf_put_string e d val vl = (d', PutErr c) ->
            c = PPM_FAILURE_BUFFER_FULL \/ c = PPM_FAILURE_INVALID_USER_MEMORY).
  { unfold bpf_put_string. intros H. case_in H; [|done]. case_in H; [simplify_eq; auto|].
    destruct (probe_read_str _ _ _). case_in H; simplify_eq; auto. }
  assert (Hb : bpf_put_bytebuf e st d val vl en = (d', PutErr c) ->
            c = PPM_FAILURE_BUFFER_FULL \/ c = PPM_FAILURE_INVALID_USER_MEMORY).
  { unfold bpf_put_bytebuf. intros H. case_in H; [done|].
    destruct (if en then _ else _) as [d1 [len|c1]] eqn:E1.
    - case_in H; [done|]. destruct (read_at_curoff _ _ _ _) as [d2 [k|c2]] eqn:E2; [done|].
      simplify_eq. eauto.
    - simplify_eq. destruct en; [|done]. unfold bpf_enforce_snaplen in E1. cbv zeta in E1.
      destruct (curarg_already_on_frame d).
      + by destruct (bpf_compute_snaplen _ _ _ _).
      + destruct (read_at_curoff _ _ _ _) as [d2 [k|c2]] eqn:E2.
        * by destruct (bpf_compute_snaplen _ _ _ _).
        * simplify_eq. eauto. }
  intros H. destruct t; cbn [bpf_put_value scalar_width] in H;
    try (apply Hs in H; tauto); try (apply Hb in H; tauto);
    try (case_in H; simplify_eq; bool_to_prop; auto 6); simplify_eq; auto 6.
Qed.

(** ** The frame as the module's arguments record. *)

Definition frame_room : Z := 2 ^ 30.

Definition frame_view (d : filler_data) : fstate :=
  let t := tail_ctx d in
  let off := tc_curoff t - sizeof_ppm_evt_hdr in
  mk_fstate
    (mk_args (mk_cfg 0 false 0 0 0) sizeof_ppm_evt_hdr frame_room 0 0 (tc_curarg t)
       (ei_nparams (evt d)) off (frame_room - off) (tc_evt_type t) 0 [] false false 0 false
       0 0 0 0 0 0 (fun _ => 0))
    (buf d) mem_zero.

(** A frame under construction: header, and the parameters written so far. *)
Record framed (tid : Z) (d : filler_data) (ps : list (list byte)) : Prop := {
  fr_filled : filled (frame_view d) ps;
  fr_len : tc_len (tail_ctx d) = tc_curoff (tail_ctx d);
  fr_room : tc_curoff (tail_ctx d) <= SCRATCH_SIZE_HALF + PPM_MAX_ARG_SIZE;
  fr_header : exists m0, forall x, 0 <= x < sizeof_ppm_evt_hdr ->
    buf d x = write_header m0 0 (tc_ts (tail_ctx d)) tid (tc_evt_type (tail_ctx d))
                (ei_nparams (evt d)) x }.

Lemma framed_offset tid d ps :
  framed tid d ps ->
  tc_curoff (tail_ctx d) = sizeof_ppm_evt_hdr + 2 * ei_nparams (evt d) + zsum (lens ps).
Proof. intros [F _ _ _]. pose proof (filled_offset _ _ F) as H. simpl in H. lia. Qed.

Lemma framed_bounds tid d ps :
  framed tid d ps -> 0 <= ei_nparams (evt d) <= PPM_MAX_EVENT_PARAMS /\
  sizeof_ppm_evt_hdr + 2 * ei_nparams (evt d) <= tc_curoff (tail_ctx d).
Proof.
  intros F. pose proof (framed_offset _ _ _ F). pose proof (zsum_lens_nonneg ps).
  pose proof (ei_nparams_range (tc_evt_type (tail_ctx d))). unfold evt in *. lia.
Qed.

(** Appending [p] to a frame. *)
Lemma framed_commit tid d ps d1 p dyn v n :
  framed tid d ps -> tc_curarg (tail_ctx d) < ei_nparams (evt d) ->
  tc_curoff (tail_ctx d) <= SCRATCH_SIZE_HALF ->
  p = dyn ++ v -> Z.of_nat (length v) = n -> Z.of_nat (length p) <= PPM_MAX_ARG_SIZE ->
  tail_ctx d1 = (if Z.of_nat (length dyn) =? 0 then tail_ctx d
                 else advance_tail (tail_ctx d) (Z.of_nat (length dyn))) ->
  (forall x, x < tc_curoff (tail_ctx d) -> buf d1 x = buf d x) ->
  mem_read (buf d1) (tc_curoff (tail_ctx d)) (length p) = p ->
  framed tid (bpf_commit_arg d1 (Z.of_nat (length dyn)) n) (ps ++ [p]).
Proof.
  intros F Hlt Hfull Hp Hv Hmax Ht Hbefore Hread.
  pose proof (framed_bounds _ _ _ F) as [Hn Hoff].
  pose proof (framed_offset _ _ _ F) as Ho.
  destruct F as [F Hl Hr [m0 Hh]].
  pose proof (filled_curarg _ _ F) as Hca. simpl in Hca.
  unfold PPM_MAX_ARG_SIZE, PPM_MAX_EVENT_PARAMS, sizeof_ppm_evt_hdr in *.
  rewrite scratch_half in *.
  assert (Hlp : Z.of_nat (length p) = Z.of_nat (length dyn) + n)
    by (subst p; rewrite length_app; lia).
  set (d' := bpf_commit_arg d1 _ n).
  assert (Htail : tail_ctx d' = mk_tail (tc_evt_type (tail_ctx d)) (tc_ts (tail_ctx d))
    (tc_curarg (tail_ctx d) + 1) (tc_curoff (tail_ctx d) + Z.of_nat (length p))
    (tc_len (tail_ctx d) + Z.of_nat (length p)) (tc_prev_res (tail_ctx d))).
  { unfold d', bpf_commit_arg, next_arg, advance_tail. cbn [tail_ctx]. rewrite Ht.
    case_if; bool_to_prop; cbn [advance_tail tc_evt_type tc_ts tc_curarg tc_curoff tc_len tc_prev_res];
      rewrite ?(u64_small (tc_curoff _ + _)) by lia; rewrite ?(u64_small (tc_len _ + _)) by lia;
      rewrite !u64_small by lia; f_equal; lia. }
  assert (Hbuf : buf d' = mem_write (buf d1) (26 + 2 * tc_curarg (tail_ctx d)) (le16 (Z.of_nat (length p)))).
  { unfold d', bpf_commit_arg, fixup_evt_arg_len. cbn [buf].
    replace (tc_curarg (tail_ctx d1)) with (tc_curarg (tail_ctx d))
      by (rewrite Ht; case_if; done).
    rewrite (u32_small (tc_curarg _)) by lia. rewrite land_slot, Z.mod_small by lia.
    rewrite (proj2 (Z.ltb_ge _ _)) by (unfold PPM_MAX_EVENT_PARAMS; lia).
    rewrite u32_small by lia. by rewrite Hlp. }
  assert (Hevt : evt d' = evt d) by (unfold evt; by rewrite Htail).
  assert (Hview : frame_view d' =
    let a := args (frame_view d) in
    mk_fstate (set_cursor a (curarg a + 1) (arg_data_offset a + Z.of_nat (length p))
                 (arg_data_size a - Z.of_nat (length p))) (buf d') mem_zero).
  { unfold frame_view. rewrite Hevt, Htail. cbn. unfold set_cursor. cbn. f_equal. f_equal; lia. }
  split.
  - rewrite Hview. apply filled_push; unfold psize_addr; rewrite ?Hbuf;
      cbn [frame_view args buffer arg_data_offset arg_data_size curarg nargs rmem];
      unfold frame_room, sizeof_ppm_evt_hdr; try done; try lia.
    + intros x Hx Hx2. unfold le16. rewrite mem_write_out by (rewrite length_le_bytes; lia).
      apply Hbefore. lia.
    + replace (26 + tc_curarg (tail_ctx d) * 2) with (26 + 2 * tc_curarg (tail_ctx d)) by lia.
      rewrite ld16_write_same, u16_small; lia.
    + replace (26 + (tc_curoff (tail_ctx d) - 26)) with (tc_curoff (tail_ctx d)) by lia.
      unfold le16. rewrite mem_read_write_out by (rewrite length_le_bytes; lia). done.
  - rewrite Htail. cbn. lia.
  - rewrite Htail. cbn. unfold PPM_MAX_ARG_SIZE. rewrite scratch_half. lia.
  - exists m0. rewrite Hevt, Htail. cbn [tc_ts tc_evt_type]. intros x Hx. rewrite Hbuf.
    unfold le16, sizeof_ppm_evt_hdr in *.
    rewrite mem_write_out by (rewrite length_le_bytes; lia).
    rewrite Hbefore by lia. by apply Hh.
Qed.

Lemma after_dyn_before d dyn :
  0 <= tc_curoff (tail_ctx d) <= SCRATCH_SIZE_HALF ->
  let db := if u8 dyn =? dyn_none then [] else le_bytes 1 (u8 dyn) in
  let d1 := after_dyn d dyn in
  (forall x, x < tc_curoff (tail_ctx d) -> buf d1 x = buf d x) /\
  mem_read (buf d1) (tc_curoff (tail_ctx d)) (length db) = db /\
  tc_curoff (tail_ctx d1) = tc_curoff (tail_ctx d) + Z.of_nat (length db) /\
  curarg_already_on_frame d1 = curarg_already_on_frame d /\
  tail_ctx d1 = (if Z.of_nat (length db) =? 0 then tail_ctx d
                 else advance_tail (tail_ctx d) (Z.of_nat (length db))).
Proof.
  intros H0 db d1. unfold d1, db, after_dyn. rewrite scratch_half in H0.
  destruct (u8 dyn =? dyn_none); cbn [length].
  { repeat split_and; try done. lia. }
  destruct (put_value_put d (le_bytes 1 (u8 dyn))) as [_ _ Hb _ Hr]; [lia| |].
  { unfold curoff_full. rewrite scratch_half. zsolve. }
  repeat split_and; try done.
  cbn [with_tail tail_ctx advance_tail tc_curoff le_bytes length]. apply u64_small. lia.
Qed.

Lemma bpf_put_value_len d t val vl en d' n bound :
  2 ^ 32 - 1 <= bound -> (curarg_already_on_frame d = true -> u32 vl < bound) ->
  bpf_put_value e st d t val vl en = (d', Put n) -> 0 <= n < bound.
Proof.
  intros Hbo Hvl H. change (2 ^ 32 - 1) with 4294967295 in *. pose proof (u32_range vl) as Hu.
  assert (Hs : bpf_put_string e d val vl = (d', Put n) -> 0 <= n < bound).
  { unfold bpf_put_string. destruct (curarg_already_on_frame d); cbn [negb]; intros Hp.
    - simplify_eq. specialize (Hvl eq_refl). lia.
    - case_in Hp; [done|]. destruct (probe_read_str _ _ _) as [bs r] eqn:E.
      case_in Hp; [done|]. simplify_eq. bool_to_prop.
      apply probe_read_str_cut in E as (_ & -> & Hle); [|by unfold PPM_MAX_ARG_SIZE|done].
      unfold PPM_MAX_ARG_SIZE in Hle. rewrite u32_small; lia. }
  assert (Hb : bpf_put_bytebuf e st d val vl en = (d', Put n) -> 0 <= n < bound).
  { unfold bpf_put_bytebuf. intros Hp. case_in Hp; [simplify_eq; lia|].
    destruct (if en then _ else _) as [d1 [len|c]] eqn:E1; [|done].
    assert (0 <= len).
    { destruct en; [|by simplify_eq; lia]. apply bpf_enforce_snaplen_safe in E1 as [_ Hn]; [|lia].
      specialize (Hn _ eq_refl). lia. }
    rewrite if_ltb_min in Hp. case_in Hp; [simplify_eq; unfold PPM_MAX_ARG_SIZE; lia|].
    destruct (read_at_curoff _ _ _ _) as [d2 [k|c2]]; [|done].
    simplify_eq; unfold PPM_MAX_ARG_SIZE; lia. }
  destruct t; cbn [bpf_put_value scalar_width] in H; auto; try done;
    try (case_in H; [done|]; simplify_eq; lia).
  all: destruct (curarg_already_on_frame d); cbn [negb] in H; [|done]; simplify_eq; specialize (Hvl eq_refl);
    lia.
Qed.

(** A call on a frame: what it did, by its result. *)
Lemma val_to_ring_framed tid d ps val vl t dyn en d' r :
  framed tid d ps -> tc_curarg (tail_ctx d) < ei_nparams (evt d) ->
  (curarg_already_on_frame d = true -> u8 dyn = dyn_none) ->
  __bpf_val_to_ring e st d val vl t dyn en = (d', r) ->
  (r = PPM_SUCCESS /\ framed tid d' (ps ++ [bpf_param d t val vl dyn en])
     /\ curarg_already_on_frame d' = false) \/
  r = PPM_FAILURE_BUFFER_FULL \/ r = PPM_FAILURE_INVALID_USER_MEMORY \/
  (r = PPM_FAILURE_BUG /\
   (encodable t = false \/ (needs_frame t = true /\ curarg_already_on_frame d = false))).
Proof.
  intros F Hlt Hvl. rewrite val_to_ring_unfold. cbv zeta.
  destruct (curoff_full d) eqn:Hfull; [intros; simplify_eq; auto|].
  unfold curoff_full in Hfull. bool_to_prop.
  pose proof (framed_bounds _ _ _ F) as [Hn Hoff]. unfold sizeof_ppm_evt_hdr in Hoff.
  destruct (after_dyn_before d dyn ltac:(lia)) as (Hbef & Hrd & Hco & Hfr & Ht).
  set (db := if u8 dyn =? dyn_none then [] else le_bytes 1 (u8 dyn)) in *.
  replace (if u8 dyn =? dyn_none then 0 else 1) with (Z.of_nat (length db))
    by (unfold db; destruct (u8 dyn =? dyn_none); done).
  destruct (bpf_put_value _ _ _ _ _ _ _) as [d1 [len|c]] eqn:E; intros H.
  2: { simplify_eq. apply bpf_put_value_err in E. rewrite Hfr in E. tauto. }
  assert (Hlen : 0 <= len /\ Z.of_nat (length db) + len < 2 ^ 32).
  { change (2 ^ 32) with 4294967296.
    assert (Hdb : Z.of_nat (length db) <= 1) by (unfold db; destruct (u8 dyn =? dyn_none); cbn; lia).
    destruct (curarg_already_on_frame d) eqn:Eon.
    - assert (Hd0 : length db = 0%nat) by (unfold db; by rewrite Hvl).
      eapply (bpf_put_value_len _ _ _ _ _ _ _ 4294967296) in E; [lia|done|].
      intros _. apply u32_range.
    - eapply (bpf_put_value_len _ _ _ _ _ _ _ 4294967295) in E; [lia|done|].
      rewrite Hfr. by intros ?. }
  change (2 ^ 32) with 4294967296 in Hlen.
  apply bpf_put_value_put in E; [|lia].
  destruct (PPM_MAX_ARG_SIZE <? _) eqn:Hm; [simplify_eq; auto|]. injection H as <- <-.
  bool_to_prop. left. split; [done|]. split; [|done].
  destruct E as [Et Ef Eb El Er]. fold db in Hco.
  assert (Hdb : Z.of_nat (length db) <= 1)
    by (unfold db; destruct (u8 dyn =? dyn_none); cbn; lia).
  eapply framed_commit; [exact F|done|lia|reflexivity|exact El| |by rewrite Et| |].
  - unfold bpf_param. fold db. rewrite length_app, Nat2Z.inj_add, El.
    rewrite u32_small in Hm by lia. lia.
  - intros x Hx. rewrite Eb by lia. auto.
  - unfold bpf_param. fold db. rewrite length_app, mem_read_app. f_equal.
    + rewrite <- Hrd at 2. apply mem_read_ext. intros x Hx. apply Eb. lia.
    + by rewrite <- Hco.
Qed.
End writer.

(** ** The header and the finished frame. *)

Definition event_tid (e : bpf_env) : Z := Z.land (pid_tgid e) 0xffffffff.

Lemma write_evt_hdr_framed e d :
  tc_curarg (tail_ctx d) = 0 -> framed (event_tid e) (write_evt_hdr e d) [].
Proof.
  intros Hc. pose proof (ei_nparams_range (tc_evt_type (tail_ctx d))) as Hn.
  unfold PPM_MAX_EVENT_PARAMS, PPM_MAX_ARG_SIZE in *.
  assert (Hevt : ei_nparams (evt (write_evt_hdr e d)) = ei_nparams (g_event_info (tc_evt_type (tail_ctx d))))
    by done.
  split; [|done| |].
  - split; cbn [frame_view args curarg nargs arg_data_offset arg_data_size buffer_size consumer snaplen
                buffer rmem]; rewrite ?Hevt;
      cbn [write_evt_hdr tail_ctx tc_curarg tc_curoff]; unfold evt, frame_room, sizeof_ppm_evt_hdr;
      rewrite ?Hc; change (zsum (lens [])) with 0; change PPM_MAX_EVENT_PARAMS with 32;
      change (2 ^ 30) with 1073741824; change (2 ^ 31) with 2147483648; cbn [length]; try lia; try done.
    intros i q Hq. by destruct i.
  - cbn [write_evt_hdr tail_ctx tc_curoff]. unfold evt, sizeof_ppm_evt_hdr, PPM_MAX_ARG_SIZE.
    rewrite scratch_half. lia.
  - exists (buf d). done.
Qed.

Lemma push_evt_frame_bytes e tid d ps d' f r :
  framed tid d ps -> push_evt_frame e d = (d', Pushed f, r) ->
  f = event_bytes (tc_ts (tail_ctx d)) tid (tc_evt_type (tail_ctx d)) ps /\
  Z.of_nat (length f) <= PERF_EVENT_MAX_SIZE /\ r = PPM_SUCCESS /\ perf_event_output e f = 0.
Proof.
  intros F H. unfold push_evt_frame in H. cbv zeta in H.
  case_in H; [done|]. case_in H; [done|]. bool_to_prop.
  pose proof (framed_offset _ _ _ F) as Ho.
  destruct F as [F Hl Hr [m0 Hh]].
  pose proof (filled_curarg _ _ F) as Hca. simpl in Hca.
  pose proof (zsum_lens_nonneg ps) as Hz.
  set (ev := event_bytes (tc_ts (tail_ctx d)) tid (tc_evt_type (tail_ctx d)) ps).
  assert (Hlen : tc_len (tail_ctx d) = Z.of_nat (length ev))
    by (unfold ev; rewrite event_length; lia).
  assert (Hev : mem_read (buf (with_buf d (fixup_evt_len (buf d) (tc_len (tail_ctx d))))) 0
            (Z.to_nat (Z.land (tc_len (tail_ctx d)) SCRATCH_SIZE_MAX)) = ev).
  { change PERF_EVENT_MAX_SIZE with 65523 in *.
    rewrite land_max, Z.mod_small by lia. rewrite Hlen at 2. rewrite Nat2Z.id.
    cbn [with_buf buf]. unfold fixup_evt_len.
    pose proof (event_layout (frame_view d) ps m0 0 (tc_ts (tail_ctx d)) tid
                  (tc_evt_type (tail_ctx d)) F) as Hlay.
    cbn [frame_view args curarg nargs buffer rmem arg_data_offset] in Hlay.
    replace (sizeof_ppm_evt_hdr + (tc_curoff (tail_ctx d) - sizeof_ppm_evt_hdr))
      with (tc_len (tail_ctx d)) in Hlay by lia.
    apply Hlay; [lia|done|]. intros x Hx. apply Hh. unfold sizeof_ppm_evt_hdr. lia. }
  rewrite Hev in H. case_in H; [done|]. case_in H; [done|]. simplify_eq. bool_to_prop.
  repeat split_and; try done. lia.
Qed.

(** ** Events made of plain parameters. *)

(** A call a filler makes for a parameter that is not on the frame yet and is not cut
    by the snaplen. *)
Record plain_call : Type := mk_call {
  pc_type : ppm_param_type;
  pc_val : Z;
  pc_len : Z;
  pc_dyn : Z }.

Fixpoint put_calls (e : bpf_env) (st : sysdig_bpf_settings) (cs : list plain_call)
    (d : filler_data) : filler_data * Z :=
  match cs with
  | [] => (d, PPM_SUCCESS)
  | c :: cs =>
      let '(d, r) := __bpf_val_to_ring e st d (pc_val c) (pc_len c) (pc_type c) (pc_dyn c) false in
      if r =? PPM_SUCCESS then put_calls e st cs d else (d, r)
  end.

(** The bytes of a plain parameter, which do not depend on the frame. *)
Definition plain_value (as_ : mem) (c : plain_call) : list byte :=
  match pc_type c with
  | PT_CHARBUF | PT_FSPATH | PT_FSRELPATH =>
      cut_string PPM_MAX_ARG_SIZE (cstr as_ (pc_val c) (Z.to_nat PPM_MAX_ARG_SIZE))
  | PT_BYTEBUF => mem_read as_ (pc_val c) (Z.to_nat (Z.min (u32 (pc_len c)) PPM_MAX_ARG_SIZE))
  | t => match scalar_width t with Some w => le_bytes w (pc_val c) | None => [] end
  end.

Definition plain_param (as_ : mem) (c : plain_call) : list byte :=
  (if u8 (pc_dyn c) =? dyn_none then [] else le_bytes 1 (u8 (pc_dyn c))) ++ plain_value as_ c.

Section plain.
Context (e : bpf_env) (as_ : mem) (st : sysdig_bpf_settings).
Context `{He : !BpfOK e as_}.
Context (Hsnap : 0 <= st_snaplen st).

Lemma plain_param_eq d c :
  curarg_already_on_frame d = false -> needs_frame (pc_type c) = false ->
  bpf_param e as_ st d (pc_type c) (pc_val c) (pc_len c) (pc_dyn c) false = plain_param as_ c.
Proof.
  intros Hf Ht. unfold bpf_param, plain_param. f_equal.
  assert (Hf' : curarg_already_on_frame (after_dyn d (pc_dyn c)) = false)
    by (unfold after_dyn; case_if; done).
  unfold bpf_value, plain_value. rewrite Hf'.
  destruct (pc_type c); try done.
  unfold bpf_captured_len. case_if; [|done]. bool_to_prop. rewrite Heqb. done.
Qed.

Lemma put_calls_framed tid cs : forall d ps d' r,
  framed tid d ps -> curarg_already_on_frame d = false ->
  Forall (fun c => needs_frame (pc_type c) = false) cs ->
  tc_curarg (tail_ctx d) + Z.of_nat (length cs) <= ei_nparams (evt d) ->
  put_calls e st cs d = (d', r) -> r = PPM_SUCCESS ->
  framed tid d' (ps ++ map (plain_param as_) cs) /\
  tc_ts (tail_ctx d') = tc_ts (tail_ctx d) /\ tc_evt_type (tail_ctx d') = tc_evt_type (tail_ctx d).
Proof.
  induction cs as [|c cs IH]; intros d ps d' r F Hf Hcs Hn H Hr; cbn [put_calls map] in *.
  { simplify_eq. by rewrite app_nil_r. }
  inversion Hcs as [|? ? Hc Hcs']; subst.
  destruct (__bpf_val_to_ring _ _ _ _ _ _ _ _) as [d1 r1] eqn:E.
  case_in H; [|simplify_eq; done]. bool_to_prop. subst r1.
  pose proof (val_to_ring_tail e as_ st _ _ _ _ _ _ _ _ E) as (Hts & Hty).
  cbn [length] in Hn.
  apply (val_to_ring_framed e as_ st Hsnap tid d ps) in E; [|done|lia|congruence].
  destruct E as [(_ & F1 & Hf1)|[?|[?|[? _]]]]; try done.
  rewrite plain_param_eq in F1 by done.
  destruct (IH d1 _ d' PPM_SUCCESS F1 Hf1 Hcs') as (F2 & Hts2 & Hty2); [|done|done|].
  { pose proof (filled_curarg _ _ (fr_filled _ _ _ F1)) as H1.
    pose proof (filled_curarg _ _ (fr_filled _ _ _ F)) as H0.
    simpl in H0, H1. rewrite length_app in H1. cbn [length] in H1.
    unfold evt in *. rewrite Hty. lia. }
  rewrite <- app_assoc in F2. split; [done|]. split; congruence.
Qed.
End plain.

(** ** A probe over a readable memory. *)

(** Every address can be read but zero, where the string helper fails. *)
Definition mem_benv (as_ : mem) (sargs : list Z) (ret pid : Z) : bpf_env :=
  mk_benv (fun a n => (mem_read as_ a (Z.to_nat n), 0))
    (fun a n => if a =? 0 then ([], - EFAULT)
                else let s := cut_string n (cstr as_ a (Z.to_nat n)) in (s, Z.of_nat (length s)))
    None (fun _ => None) None sargs ret pid 5000 (fun _ => 0).

Lemma cstr_nonzero m a b : Forall (fun x => Z_of_byte x <> 0) (cstr m a b).
Proof.
  revert a; induction b as [|b IH]; intros a; simpl; [done|].
  case_if; [done|]. bool_to_prop. by constructor.
Qed.

Lemma cstr_terminated m a b :
  (length (cstr m a b) < b)%nat -> Z_of_byte (m (a + Z.of_nat (length (cstr m a b)))) = 0.
Proof.
  revert a; induction b as [|b IH]; intros a; simpl; [lia|].
  case_if; bool_to_prop; cbn [length].
  - intros _. by rewrite Z.add_0_r.
  - intros Hl. rewrite <- (IH (a + 1)) by lia. f_equal. f_equal. lia.
Qed.

(** A string of a memory, as the helper returns it. *)
Lemma cut_string_cstr m a n :
  0 < n -> exists cs, cut_string n (cstr m a (Z.to_nat n)) = cs ++ [x00] /\
    Forall (fun b => Z_of_byte b <> 0) cs /\ cs = mem_read m a (length cs) /\
    (Z.of_nat (length cs) = n - 1 \/ Z_of_byte (m (a + Z.of_nat (length cs))) = 0).
Proof.
  intros Hn. unfold cut_string. rewrite (proj2 (Z.leb_gt _ _)) by lia.
  set (cs := cstr m a (Z.to_nat n)).
  exists (take (Z.to_nat (n - 1)) cs). split; [done|].
  split; [apply Forall_take, cstr_nonzero|]. split.
  - rewrite length_take, (mem_read_cstr m a (Z.to_nat n)) by (fold cs; lia). fold cs.
    destruct (decide (Z.to_nat (n - 1) <= length cs)%nat).
    + f_equal. lia.
    + rewrite !firstn_all2 by lia. done.
  - destruct (decide (Z.to_nat (n - 1) <= length cs)%nat) as [Hle|Hgt].
    + left. rewrite length_take. lia.
    + right. rewrite firstn_all2 by lia. apply cstr_terminated. fold cs. lia.
Qed.

Lemma length_cut_string n cs : 0 < n -> Z.of_nat (length (cut_string n cs)) <= n.
Proof.
  intros Hn. unfold cut_string. rewrite (proj2 (Z.leb_gt _ _)) by lia.
  rewrite length_app, length_take. cbn [length]. lia.
Qed.

#[export] Instance mem_benv_ok as_ sargs ret pid : BpfOK (mem_benv as_ sargs ret pid) as_.
Proof.
  split; cbn [mem_benv probe_read probe_read_str fst snd].
  - intros. rewrite length_mem_read. lia.
  - done.
  - intros a n Hn. case_if; cbn [fst]; [simpl; lia|]. by apply length_cut_string.
  - intros a n Hn. destruct (a =? 0); [by left|right]. cbn [fst snd].
    destruct (cut_string_cstr as_ a n Hn) as (cs & -> & H). eauto.
Qed.

(** ** What the frames are. *)

(** C17: [__bpf_val_to_ring] writes only inside the two scratch areas of the CPU, for
    every value, length, type and index and for every offset the event has reached:
    the mask and the size limit keep a read of up to [PPM_MAX_ARG_SIZE] bytes inside
    the 256 KiB frame area, and the addresses of the snaplen computation inside the
    two [sockaddr_storage] at the start of the temporary one. *)
Theorem bpf_writes_in_scratch (e : bpf_env) (as_ : mem) (st : sysdig_bpf_settings)
    (d d' : filler_data) (val val_len dyn_idx r : Z) (t : ppm_param_type) (enforce : bool) :
  BpfOK e as_ -> 0 <= st_snaplen st ->
  __bpf_val_to_ring e st d val val_len t dyn_idx enforce = (d', r) ->
  (forall x, x < 0 \/ SCRATCH_SIZE <= x -> buf d' x = buf d x) /\
  (forall x, x < 0 \/ 256 <= x -> tmp_scratch d' x = tmp_scratch d x).
Proof. intros He Hs H. by destruct (val_to_ring_safe e as_ st Hs _ _ _ _ _ _ _ _ H). Qed.

Definition sample_settings : sysdig_bpf_settings :=
  mk_settings 1000 7 80 1 true true false false false false 0 0 8125 16 (fun _ => true).

(** An event of type [t], its header not yet written. *)
Definition sample_data (t : Z) : filler_data :=
  mk_data (mk_tail t 12345 0 0 0 0) mem_zero mem_zero false (-1) 0.

Definition sample_benv : bpf_env := mem_benv sample_user [4096; 493] 0 ((77 * 2 ^ 32) + 99).

Lemma bpf_writes_in_scratch_witness :
  let d := with_tail (sample_data PPME_SYSCALL_MKDIR_2_X) (mk_tail 0 0 5 131071 131071 0) in
  buf (fst (__bpf_val_to_ring sample_benv sample_settings d 4096 0 PT_FSPATH dyn_none false))
    262144 = x00.
Proof.
  intros d.
  destruct (__bpf_val_to_ring sample_benv sample_settings d 4096 0 PT_FSPATH dyn_none false)
    as [d' r] eqn:E.
  destruct (bpf_writes_in_scratch sample_benv sample_user sample_settings d d' 4096 0 dyn_none r
              PT_FSPATH false _ ltac:(simpl; lia) E) as [H _].
  cbn [fst]. rewrite H; [reflexivity|]. right. vm_compute. discriminate.
Defined.

(** The calls for which both drivers record the same bytes. *)
Definition same_encoding (c : plain_call) : bool :=
  match pc_type c with
  | PT_CHARBUF | PT_FSPATH | PT_FSRELPATH | PT_BYTEBUF =>
      negb (pc_val c =? 0) && (u8 (pc_dyn c) =? dyn_none)
  | PT_SOCKADDR | PT_SOCKTUPLE | PT_FDLIST => false
  | t => encodable t
  end.

Lemma plain_value_module k as_ a km c :
  same_encoding c = true -> enforce_snaplen a = false ->
  plain_value as_ c
  = param_encoding k as_ a km (pc_type c) PPM_MAX_ARG_SIZE (pc_val c) (u32 (pc_len c)) true.
Proof.
  intros Hc Ha. unfold same_encoding, plain_value, param_encoding in *.
  destruct (pc_type c); try done; bool_to_prop;
    rewrite (proj2 (Z.eqb_neq _ _)) by done; try done.
  f_equal. f_equal. unfold captured_len. rewrite Ha.
  unfold DPI_LOOKAHEAD_SIZE, PPM_MAX_ARG_SIZE. case_if; bool_to_prop; lia.
Qed.

Lemma same_encoding_plain c : same_encoding c = true -> needs_frame (pc_type c) = false.
Proof. unfold same_encoding. by destruct (pc_type c). Qed.

(** The frame the eBPF probe hands to user space for an event is, byte for byte,
    the record the kernel module writes: header, array of lengths, and the encodings
    of [val_to_ring] (strings and buffers read from user memory, and scalars), for any
    list of parameters as long as the event's; and it fits in a perf sample. *)
Theorem bpf_frame_is_module_record (e : bpf_env) (as_ : mem) (st : sysdig_bpf_settings)
    (d d1 d2 : filler_data) (cs : list plain_call) (f : list byte) (r : Z)
    (k : kenv) (a : event_filler_arguments) (km : mem) :
  BpfOK e as_ -> 0 <= st_snaplen st ->
  tc_curarg (tail_ctx d) = 0 -> curarg_already_on_frame d = false ->
  Forall (fun c => same_encoding c = true) cs -> Z.of_nat (length cs) = ei_nparams (evt d) ->
  enforce_snaplen a = false ->
  put_calls e st cs (write_evt_hdr e d) = (d1, PPM_SUCCESS) ->
  push_evt_frame e d1 = (d2, Pushed f, r) ->
  Z.of_nat (length f) <= PERF_EVENT_MAX_SIZE /\
  f = event_bytes (tc_ts (tail_ctx d)) (Z.land (pid_tgid e) 0xffffffff) (tc_evt_type (tail_ctx d))
        (map (fun c =>
           (if u8 (pc_dyn c) =? dyn_none then [] else le_bytes 1 (u8 (pc_dyn c)))
           ++ param_encoding k as_ a km (pc_type c) PPM_MAX_ARG_SIZE (pc_val c)
                (u32 (pc_len c)) true) cs).
Proof.
  intros He Hs Hc Hf Hcs Hn Ha Hput Hpush.
  pose proof (write_evt_hdr_framed e d Hc) as F0.
  destruct (put_calls_framed e as_ st Hs _ cs _ [] d1 PPM_SUCCESS F0) as (F & Hts & Hty); try done.
  - eapply List.Forall_impl; [|exact Hcs]. intros; by apply same_encoding_plain.
  - cbn [write_evt_hdr tail_ctx tc_curarg]. rewrite Hc. unfold evt in *.
    cbn [write_evt_hdr tail_ctx tc_evt_type]. lia.
  - destruct (push_evt_frame_bytes e _ _ _ _ _ _ F Hpush) as (-> & Hl & _ & _).
    split; [done|]. rewrite Hts, Hty. cbn [write_evt_hdr tail_ctx tc_ts tc_evt_type app].
    unfold event_tid. f_equal. apply map_ext_in. intros c Hin. unfold plain_param. f_equal.
    apply plain_value_module; [|done]. revert c Hin. by apply List.Forall_forall.
Qed.

(** mkdir(/etc/hosts) returning -17 *)
Definition sample_calls : list plain_call :=
  [mk_call PT_ERRNO (-17) 0 dyn_none; mk_call PT_FSPATH 4096 0 dyn_none].

Definition sample_frame : filler_data * pushed * Z :=
  push_evt_frame sample_benv
    (fst (put_calls sample_benv sample_settings sample_calls
            (write_evt_hdr sample_benv (sample_data PPME_SYSCALL_MKDIR_2_X)))).

Lemma sample_put : snd (put_calls sample_benv sample_settings sample_calls
    (write_evt_hdr sample_benv (sample_data PPME_SYSCALL_MKDIR_2_X))) = PPM_SUCCESS.
Proof. vm_compute. reflexivity. Qed.

Lemma sample_pushed : match snd (fst sample_frame) with Pushed f => length f | _ => 0%nat end = 49%nat.
Proof. vm_compute. reflexivity. Qed.

Lemma bpf_frame_is_module_record_witness :
  exists f, snd (fst sample_frame) = Pushed f /\
    f = event_bytes 12345 99 PPME_SYSCALL_MKDIR_2_X
          [le_bytes 8 (-17); cut_string PPM_MAX_ARG_SIZE (cstr sample_user 4096 65000)].
Proof.
  destruct (put_calls sample_benv sample_settings sample_calls
              (write_evt_hdr sample_benv (sample_data PPME_SYSCALL_MKDIR_2_X))) as [d1 r1] eqn:E1.
  pose proof sample_put as Hr. rewrite E1 in Hr. cbn [snd] in Hr. subst r1.
  pose proof sample_pushed as Hp. unfold sample_frame in *. rewrite E1 in *. cbn [fst] in *.
  destruct (push_evt_frame sample_benv d1) as [[d2 p] r] eqn:E2. cbn [fst snd] in *.
  destruct p as [f| |]; [|done..]. exists f. split; [reflexivity|].
  destruct (bpf_frame_is_module_record sample_benv sample_user sample_settings
              (sample_data PPME_SYSCALL_MKDIR_2_X) d1 d2 sample_calls f r sample_kenv
              (args (sample_state PPME_SYSCALL_MKDIR_2_X 1000)) mem_zero
              _ ltac:(simpl; lia) ltac:(reflexivity) ltac:(reflexivity)
              ltac:(repeat constructor) ltac:(reflexivity) ltac:(reflexivity) E1 E2) as [_ ->].
  reflexivity.
Defined.

(** A null string pointer is recorded differently by the two drivers: the module
    writes the seven bytes of "(NULL)" and the event goes on, the eBPF probe reads
    through the pointer, gets a fault and gives the event up. *)
Theorem null_strings_lost (e : bpf_env) (st : sysdig_bpf_settings) (d : filler_data)
    (t : ppm_param_type) (val_len : Z) (k : kenv) (rm km : mem) (at_ : Z) (fromuser : bool) :
  t = PT_CHARBUF \/ t = PT_FSPATH \/ t = PT_FSRELPATH ->
  curoff_full d = false -> curarg_already_on_frame d = false ->
  snd (probe_read_str e 0 PPM_MAX_ARG_SIZE) = - EFAULT ->
  snd (__bpf_val_to_ring e st d 0 val_len t dyn_none false) = PPM_FAILURE_INVALID_USER_MEMORY /\
  let '(m, r) := put_string k rm km at_ PPM_MAX_ARG_SIZE 0 fromuser in
  r = Put 7 /\ mem_read m at_ 7 = bytes_of_string "(NULL)"%string ++ [x00].
Proof.
  intros Ht Hfull Hf Hp. split.
  - assert (Hs : bpf_put_string e d 0 val_len
               = (put_at_curoff d (fst (probe_read_str e 0 PPM_MAX_ARG_SIZE)),
                  PutErr PPM_FAILURE_INVALID_USER_MEMORY)).
    { unfold bpf_put_string. rewrite Hf, Hfull. cbn [negb].
      destruct (probe_read_str _ _ _) as [bs r]. cbn [fst snd] in *. subst r. done. }
    unfold __bpf_val_to_ring. cbv zeta. rewrite Hfull.
    destruct Ht as [->|[->| ->]]; cbn [bpf_put_value]; change (u8 dyn_none =? dyn_none) with true;
      cbn [negb]; rewrite Hs; done.
  - unfold put_string. cbn [Z.eqb negb]. unfold strlcpy.
    change (cstr_len null_literal 0 (Z.to_nat PPM_MAX_ARG_SIZE)) with 6.
    change (PPM_MAX_ARG_SIZE =? 0) with false. cbv iota. change (PPM_MAX_ARG_SIZE <=? 6) with false.
    cbv iota. split; [done|].
    change (mem_read null_literal 0 (Z.to_nat 6) ++ [x00])
      with (bytes_of_string "(NULL)"%string ++ [x00]).
    exact (mem_read_write_same rm at_ (bytes_of_string "(NULL)"%string ++ [x00])).
Qed.

Lemma null_strings_lost_witness :
  snd (__bpf_val_to_ring sample_benv sample_settings (sample_data PPME_SYSCALL_MKDIR_2_X) 0 0
         PT_FSPATH dyn_none false) = PPM_FAILURE_INVALID_USER_MEMORY.
Proof.
  apply (null_strings_lost sample_benv sample_settings (sample_data PPME_SYSCALL_MKDIR_2_X)
           PT_FSPATH 0 sample_kenv mem_zero mem_zero 0 true); auto.
Defined.

(** ** The two snaplen heuristics. *)

(** The settings of a consumer of the module, as the probe has them. *)
Definition same_snaplen_settings (st : sysdig_bpf_settings) (c : consumer_cfg) : Prop :=
  snaplen c = st_snaplen st /\
  fullcapture_port_range_start c = st_fullcapture_port_range_start st /\
  fullcapture_port_range_end c = st_fullcapture_port_range_end st /\
  statsd_port c = st_statsd_port st.

Lemma frame_at_low d x :
  0 <= tc_curoff (tail_ctx d) + x <= SCRATCH_SIZE_HALF ->
  frame_at d x = tc_curoff (tail_ctx d) + x.
Proof.
  rewrite scratch_half. intros H. unfold frame_at.
  rewrite u64_small, land_half, Z.mod_small by lia. done.
Qed.

Lemma get_buf32_at d x :
  0 <= tc_curoff (tail_ctx d) + x <= SCRATCH_SIZE_HALF ->
  get_buf32 d x = ld32 (buf d) (tc_curoff (tail_ctx d) + x).
Proof. intros H. unfold get_buf32. by rewrite frame_at_low. Qed.

(** With a snaplen of at most 2000 the two drivers choose the same snaplen from
    the same ports and bytes, except in three places where the eBPF code tests
    something else: the PostgreSQL start-up message is looked for in bytes that were
    not read (fewer than seven looked at), the MongoDB port is not tested, and two zero
    bytes after the first match on any port. *)
Theorem snaplen_drivers_agree (st : sysdig_bpf_settings) (c : consumer_cfg) (d : filler_data)
    (m : mem) (at_ look sport dport : Z) :
  same_snaplen_settings st c -> st_snaplen st <= 2000 ->
  0 <= tc_curoff (tail_ctx d) <= SCRATCH_SIZE_HALF - 16 ->
  (forall i, 0 <= i < 16 -> m (at_ + i) = buf d (tc_curoff (tail_ctx d) + i)) ->
  (sport <> PPM_PORT_POSTGRES /\ dport <> PPM_PORT_POSTGRES \/ 7 <= look \/ look < 2) ->
  sport <> PPM_PORT_MONGODB -> dport <> PPM_PORT_MONGODB ->
  (4 <= look -> ~ (get_buf d 1 = 0 /\ get_buf d 2 = 0)) ->
  bpf_snaplen_heuristics st d look sport dport = snaplen_heuristics c m at_ look sport dport.
Proof.
  intros (Hs & Hr1 & Hr2 & Hsd) H2000 Hoff Hm Hpg Hmg1 Hmg2 Hzero.
  assert (Hb : forall i, 0 <= i < 16 -> get_buf d i = Z_of_byte (m (at_ + i))).
  { intros i Hi. unfold get_buf. rewrite frame_at_low by lia. by rewrite Hm. }
  assert (Hw : forall i, 0 <= i <= 12 -> get_buf32 d i = ld32 m (at_ + i)).
  { intros i Hi. rewrite get_buf32_at by lia. unfold ld32. f_equal. apply mem_read_shift.
    intros j Hj. rewrite <- !Z.add_assoc. symmetry. apply Hm. lia. }
  unfold bpf_snaplen_heuristics, snaplen_heuristics. cbv zeta.
  rewrite Hs, Hr1, Hr2, Hsd, !Hw by lia. rewrite Z.add_0_r.
  rewrite (Hb 1), (Hb 2) in * by lia.
  rewrite (Hb 0), (Hb 3), (Hb 4), (Hb 5), (Hb 6) by lia. rewrite Z.add_0_r in *.
  rewrite (proj2 (Z.ltb_ge 2000 (st_snaplen st))) by lia.
  rewrite (proj2 (Z.eqb_neq sport PPM_PORT_MONGODB)), (proj2 (Z.eqb_neq dport PPM_PORT_MONGODB)) by done.
  cbn [orb].
  set (b1 := Z_of_byte (m (at_ + 1))) in *. set (b2 := Z_of_byte (m (at_ + 2))) in *.
  replace ((4 <=? look) && (b1 =? 0) && (b2 =? 0) && (b2 =? 0)) with false.
  2: { symmetry. apply not_true_iff_false. intros H. bool_to_prop. tauto. }
  cbn [orb].
  change (http_intval "GET "%string) with 0x20544547. change (http_intval "POST"%string) with 0x54534F50.
  change (http_intval "PUT "%string) with 0x20545550. change (http_intval "DELE"%string) with 0x454C4544.
  change (http_intval "TRAC"%string) with 0x43415254. change (http_intval "CONN"%string) with 0x4E4E4F43.
  change (http_intval "OPTI"%string) with 0x4954504F. change (http_intval "HTTP"%string) with 0x50545448.
  match goal with |- (if ?b then _ else _) = _ => destruct b end; [done|].
  match goal with |- (if ?b then _ else _) = _ => destruct b end; [done|].
  destruct ((sport =? PPM_PORT_POSTGRES) || (dport =? PPM_PORT_POSTGRES)) eqn:Epg.
  - apply orb_true_iff in Epg. rewrite !Z.eqb_eq in Epg.
    destruct Hpg as [[? ?]|[Hl|Hl]]; [tauto| |].
    + rewrite (proj2 (Z.leb_le 2 look)), (proj2 (Z.leb_le 7 look)) by lia. cbn [andb].
      repeat match goal with |- context [?x =? ?y] => destruct (x =? y) end; done.
    + rewrite (proj2 (Z.leb_gt 2 look)), (proj2 (Z.leb_gt 7 look)) by lia. done.
  - match goal with |- (if ?b then _ else _) = _ => destruct b end; [done|].
    destruct (dport =? st_statsd_port st); [done|].
    by destruct (5 <=? look).
Qed.

Definition sample_cfg_of (st : sysdig_bpf_settings) : consumer_cfg :=
  mk_cfg (st_snaplen st) true (st_fullcapture_port_range_start st)
    (st_fullcapture_port_range_end st) (st_statsd_port st).

(** A frame that holds the start of a request at its cursor. *)
Definition http_data : filler_data :=
  mk_data (mk_tail PPME_SOCKET_SENDTO_X 0 1 100 100 0)
    (mem_write mem_zero 100 (bytes_of_string "POST /api HTTP/1"%string)) mem_zero false 3 0.

Lemma snaplen_drivers_agree_witness :
  snaplen_heuristics (sample_cfg_of sample_settings) (buf http_data) 100 16 40000 80 = 2000.
Proof.
  rewrite <- (snaplen_drivers_agree sample_settings (sample_cfg_of sample_settings) http_data
             (buf http_data) 100 16 40000 80).
  - reflexivity.
  - repeat split.
  - vm_compute. discriminate.
  - vm_compute. split; discriminate.
  - reflexivity.
  - right; left. lia.
  - discriminate.
  - discriminate.
  - intros _ [H _]. vm_compute in H. discriminate.
Defined.

(** The eBPF heuristics can shorten what the user asked for: data sent to the
    statsd port is captured up to 2000 bytes whatever the configured snaplen is, where
    the module captures the larger of the two. *)
Theorem bpf_snaplen_capped (st : sysdig_bpf_settings) (c : consumer_cfg) (d : filler_data)
    (m : mem) (at_ look sport dport : Z) :
  same_snaplen_settings st c -> st_fullcapture_port_range_end st = 0 ->
  dport = st_statsd_port st ->
  sport <> PPM_PORT_MYSQL -> dport <> PPM_PORT_MYSQL ->
  sport <> PPM_PORT_POSTGRES -> dport <> PPM_PORT_POSTGRES ->
  bpf_snaplen_heuristics st d look sport dport = 2000 /\
  snaplen_heuristics c m at_ look sport dport = Z.max (st_snaplen st) 2000.
Proof.
  intros (Hs & Hr1 & Hr2 & Hsd) Hrange Hd H1 H2 H3 H4.
  unfold bpf_snaplen_heuristics, snaplen_heuristics. cbv zeta.
  rewrite Hs, Hr1, Hr2, Hsd, Hrange. change (0 <? 0) with false. cbn [andb].
  rewrite !(proj2 (Z.eqb_neq _ PPM_PORT_MYSQL)), !(proj2 (Z.eqb_neq _ PPM_PORT_POSTGRES)) by done.
  cbn [orb]. rewrite <- Hd, Z.eqb_refl.
  split.
  - by match goal with |- (if ?b then _ else _) = _ => destruct b end.
  - replace (if 2000 <? st_snaplen st then st_snaplen st else 2000) with (Z.max (st_snaplen st) 2000)
      by (case_if; bool_to_prop; lia).
    by match goal with |- (if ?b then _ else _) = _ => destruct b end.
Qed.

(** Settings with a snaplen of 4096. *)
Definition long_settings : sysdig_bpf_settings :=
  mk_settings 1000 7 4096 1 true true false false false false 0 0 8125 16 (fun _ => true).

Lemma bpf_snaplen_capped_witness :
  bpf_snaplen_heuristics long_settings http_data 16 40000 8125 = 2000 /\
  snaplen_heuristics (sample_cfg_of long_settings) (buf http_data) 100 16 40000 8125 = 4096.
Proof.
  destruct (bpf_snaplen_capped long_settings (sample_cfg_of long_settings) http_data
              (buf http_data) 100 16 40000 8125) as [H1 H2];
    [repeat split|reflexivity|reflexivity|discriminate..|].
  split; [exact H1|exact H2].
Defined.
