(* ===== verification/BpfProbe.v ===== *)
(** * Running a filler in the eBPF probe: [plumbing_helpers.h], [fillers.h], [probe.c]

    A probe takes the state of its CPU, decides whether the event is dropped, and tail
    calls the filler of the event; the filler's program writes the header, the
    parameters and pushes the frame, and tail calls the terminating program, which
    counts the result and releases the state.  The probes on kernel functions run the
    filler inline instead ([prepare_filler] and the [KP_FILLER] macro). *)

From Stdlib Require Import ZArith Lia List Bool.
From Stdlib Require Import Strings.Byte.
From stdpp Require Import base tactics list numbers option.
From S2P Require Import Prelude Bytes EventDefs EventTable FillerTable.
From S2P Require Import ValToRing ValToRingSpec Ring RingSpec RecordSpec BpfRing BpfRingSpec.
Import ListNotations.
Local Open Scope Z_scope.

(** ** The state of the probe. *)

(** [struct sysdig_bpf_per_cpu_state] with the two scratch areas of the CPU. *)
Record bpf_cpu : Type := mk_bcpu {
  bc_tail : tail_context;
  bc_n_evts : Z;
  bc_n_drops_buffer : Z;
  bc_n_drops_pf : Z;
  bc_n_drops_bug : Z;
  bc_hotplug : Z;
  bc_in_use : bool;
  bc_frame : mem;
  bc_tmp : mem }.

(** The settings are shared by the CPUs; [bs_out] are the frames in the perf buffers,
    with their CPU, oldest first. *)
Record bpf_sys : Type := mk_bsys {
  bs_settings : sysdig_bpf_settings;
  bs_cpus : Z -> bpf_cpu;
  bs_out : list (Z * list byte) }.

Definition upd {A} (f : Z -> A) (i : Z) (v : A) : Z -> A := fun j => if j =? i then v else f j.

Definition set_cpu (s : bpf_sys) (cpu : Z) (c : bpf_cpu) : bpf_sys :=
  mk_bsys (bs_settings s) (upd (bs_cpus s) cpu c) (bs_out s).
Definition set_settings (s : bpf_sys) (st : sysdig_bpf_settings) : bpf_sys :=
  mk_bsys st (bs_cpus s) (bs_out s).
Definition add_out (s : bpf_sys) (cpu : Z) (f : list byte) : bpf_sys :=
  mk_bsys (bs_settings s) (bs_cpus s) (bs_out s ++ [(cpu, f)]).

Definition set_in_use (c : bpf_cpu) (b : bool) : bpf_cpu :=
  mk_bcpu (bc_tail c) (bc_n_evts c) (bc_n_drops_buffer c) (bc_n_drops_pf c) (bc_n_drops_bug c)
    (bc_hotplug c) b (bc_frame c) (bc_tmp c).
Definition set_tail (c : bpf_cpu) (t : tail_context) : bpf_cpu :=
  mk_bcpu t (bc_n_evts c) (bc_n_drops_buffer c) (bc_n_drops_pf c) (bc_n_drops_bug c)
    (bc_hotplug c) (bc_in_use c) (bc_frame c) (bc_tmp c).
Definition set_counters (c : bpf_cpu) (n b p g : Z) : bpf_cpu :=
  mk_bcpu (bc_tail c) n b p g (bc_hotplug c) (bc_in_use c) (bc_frame c) (bc_tmp c).
Definition set_hotplug (c : bpf_cpu) (h : Z) : bpf_cpu :=
  mk_bcpu (bc_tail c) (bc_n_evts c) (bc_n_drops_buffer c) (bc_n_drops_pf c) (bc_n_drops_bug c)
    h (bc_in_use c) (bc_frame c) (bc_tmp c).
Definition st_set_dropping (st : sysdig_bpf_settings) (b : bool) : sysdig_bpf_settings :=
  mk_settings (st_boot_time st) (st_socket_file_ops st) (st_snaplen st) (st_sampling_ratio st)
    (st_capture_enabled st) (st_do_dynamic_snaplen st) (st_page_faults st) (st_dropping_mode st)
    b (st_tracers_enabled st) (st_fullcapture_port_range_start st)
    (st_fullcapture_port_range_end st) (st_statsd_port st) (st_switch_agg_num st)
    (st_events_mask st).

(** [acquire_local_state]; [release_local_state] is [set_in_use c false], which leaves
    a state that is not in use alone. *)
Definition acquire_local_state (c : bpf_cpu) : option bpf_cpu :=
  if bc_in_use c then None else Some (set_in_use c true).
Definition release_local_state (c : bpf_cpu) : bpf_cpu := set_in_use c false.

(** ** [drop_event]. *)

(** The tests of events that carry no state; [close] finds the files of the task. *)
Definition bpf_nostate_event (e : bpf_env) (evt_type : Z) : bool :=
  if (evt_type =? PPME_SYSCALL_CLOSE_X) || (evt_type =? PPME_SOCKET_BIND_X)
  then sc_retval e <? 0
  else if evt_type =? PPME_SYSCALL_CLOSE_E then
    let close_fd := s32 (bpf_syscall_get_argument e 0) in
    if close_fd <? 0 then true
    else match files_max_fds e with
    | None => false
    | Some max_fds =>
        if max_fds <=? close_fd then true
        else match fdt_open_fds e with
        | None => false
        | Some open_fds => negb (open_fds close_fd)
        end
    end
  else if (evt_type =? PPME_SYSCALL_FCNTL_E) || (evt_type =? PPME_SYSCALL_FCNTL_X) then
    negb (bpf_syscall_get_argument e 1 =? F_DUPFD)
    && negb (bpf_syscall_get_argument e 1 =? F_DUPFD_CLOEXEC)
  else false.

Definition set_evt_type (t : tail_context) (ty : Z) : tail_context :=
  mk_tail ty (tc_ts t) (tc_curarg t) (tc_curoff t) (tc_len t) (tc_prev_res t).

(** The settings and the tail context afterwards, and the decision. *)
Definition bpf_drop_event (e : bpf_env) (st : sysdig_bpf_settings) (t : tail_context)
    (evt_type drop_flags : Z) : sysdig_bpf_settings * tail_context * bool :=
  if negb (st_dropping_mode st) then (st, t, false)
  else if bpf_nostate_event e evt_type then (st, t, true)
  else if has_flag drop_flags UF_NEVER_DROP then (st, t, false)
  else if has_flag drop_flags UF_ALWAYS_DROP then (st, t, true)
  else if 1000000000 / st_sampling_ratio st <=? tc_ts t mod 1000000000 then
    if negb (st_is_dropping st)
    then (st_set_dropping st true, set_evt_type t PPME_DROP_E, false)
    else (st, t, true)
  else if st_is_dropping st
  then (st_set_dropping st false, set_evt_type t PPME_DROP_X, false)
  else (st, t, false).

(** ** The filler programs. *)

(** What a filler does next: return, or tail call the program that continues it. *)
Inductive fill_res : Type :=
| FillDone (res : Z)
| FillTail (id : ppm_filler_id).

(** A filler works on the shared settings, one field of which a filler sets, and on
    its data. *)
Definition bstate : Type := sysdig_bpf_settings * filler_data.
Definition bpf_filler : Type := bpf_env -> bstate -> bstate * fill_res.

(** [init_filler_data]: the maps are indexed by the event type of the tail context. *)
Definition init_filler_data (c : bpf_cpu) : filler_data * Z :=
  (mk_data (bc_tail c) (bc_frame c) (bc_tmp c) false (-1) (bc_hotplug c),
   if (0 <=? tc_evt_type (bc_tail c)) && (tc_evt_type (bc_tail c) <? PPM_EVENT_MAX)
   then PPM_SUCCESS else PPM_FAILURE_BUG).

(** A kernel lets a program chain this many tail calls. *)
Definition MAX_TAIL_CALL_CNT : nat := 33.

Section probe.
(** The program array: which fillers, and whether the terminating one, are loaded. *)
Context (tail_map : ppm_filler_id -> option bpf_filler) (terminate_loaded : bool).
Context (e : bpf_env).

Definition start_frame (d : filler_data) : filler_data :=
  if tc_len (tail_ctx d) =? 0 then write_evt_hdr e d else d.

(** The body of the [FILLER] macro: [calls] tail calls are left.  A filler whose tail
    call fails returns an error. *)
Fixpoint run_filler (calls : nat) (st : sysdig_bpf_settings) (f : bpf_filler)
    (d : filler_data) : bstate * pushed * Z * nat :=
  let '((st, d), r) := f e (st, start_frame d) in
  match r with
  | FillDone res =>
      if res =? PPM_SUCCESS
      then let '(d, p, res) := push_evt_frame e d in ((st, d), p, res, calls)
      else ((st, d), NotPushed, res, calls)
  | FillTail id =>
      match calls, tail_map id with
      | S calls', Some g => run_filler calls' st g (with_fd (with_on_frame d false) (-1))
      | _, _ => ((st, d), NotPushed, PPM_FAILURE_BUG, calls)
      end
  end.

(** [terminate_filler]: a counter per failure, and the release. *)
Definition terminate_filler (c : bpf_cpu) : bpf_cpu :=
  let r := tc_prev_res (bc_tail c) in
  let n := bc_n_evts c in
  let b := bc_n_drops_buffer c in
  let p := bc_n_drops_pf c in
  let g := bc_n_drops_bug c in
  release_local_state
    (if r =? PPM_FAILURE_BUFFER_FULL then set_counters c n (u64 (b + 1)) p g
     else if r =? PPM_FAILURE_INVALID_USER_MEMORY then set_counters c n b (u64 (p + 1)) g
     else if r =? PPM_FAILURE_BUG then set_counters c n b p (u64 (g + 1))
     else c).

(** The state of the CPU and the perf buffer after a filler: the tail context with the
    result, the areas, and the hotplug event scheduled on CPU 0 when the CPU has no
    channel. *)
Definition after_filler (s : bpf_sys) (cpu : Z) (d : filler_data) (p : pushed) (res : Z) :
    bpf_sys :=
  let c := bs_cpus s cpu in
  let t := tail_ctx d in
  let s := set_cpu s cpu
    (mk_bcpu (mk_tail (tc_evt_type t) (tc_ts t) (tc_curarg t) (tc_curoff t) (tc_len t) res)
       (bc_n_evts c) (bc_n_drops_buffer c) (bc_n_drops_pf c) (bc_n_drops_bug c)
       (hotplug_cpu d) (bc_in_use c) (buf d) (tmp_scratch d)) in
  match p with
  | Pushed f => add_out s cpu f
  | NoChannel => set_cpu s 0 (set_hotplug (bs_cpus s 0) cpu)
  | NotPushed => s
  end.

(** The program of a filler, from the tail call that started it. *)
Definition filler_program (calls : nat) (f : bpf_filler) (cpu : Z) (s : bpf_sys) : bpf_sys :=
  let '(d, r) := init_filler_data (bs_cpus s cpu) in
  let '((st, d), p, res, calls) :=
    if r =? PPM_SUCCESS then run_filler calls (bs_settings s) f d
    else ((bs_settings s, d), NotPushed, r, calls) in
  let s := after_filler (set_settings s st) cpu d p res in
  match calls with
  | S _ => if terminate_loaded then set_cpu s cpu (terminate_filler (bs_cpus s cpu)) else s
  | O => s
  end.

(** [KP_FILLER]: the same inline, with no tail call. *)
Definition kp_filler (f : filler_data -> filler_data * Z) (cpu : Z) (s : bpf_sys) : bpf_sys :=
  let '(d, r) := init_filler_data (bs_cpus s cpu) in
  let '(d, p, res) :=
    if r =? PPM_SUCCESS then
      let '(d, res) := f (start_frame d) in
      if res =? PPM_SUCCESS then push_evt_frame e d else (d, NotPushed, res)
    else (d, NotPushed, r) in
  let s := after_filler s cpu d p res in
  set_cpu s cpu (terminate_filler (bs_cpus s cpu)).

(** ** [prepare_filler] and [call_filler]. *)

(** The entry of an event type; the rows the table does not initialise are zero, and
    [sys_autofill] is the first filler. *)
Definition event_filler (evt_type : Z) : option ppm_filler_id :=
  if (0 <=? evt_type) && (evt_type <? PPM_EVENT_MAX)
  then Some (match g_ppm_events evt_type with Some en => filler_id en | None => F_sys_autofill end)
  else None.

Definition reset_tail_ctx (evt_type ts : Z) : tail_context := mk_tail evt_type ts 0 0 0 0.

(** [prepare_filler]: the state, and the filler of the event the tail context now
    has, or [None] for [false]. *)
Definition prepare_filler (cpu evt_type drop_flags : Z) (s : bpf_sys) :
    bpf_sys * option ppm_filler_id :=
  let st := bs_settings s in
  if (evt_type <? PPM_EVENT_MAX) && negb (st_events_mask st evt_type) then (s, None)
  else match acquire_local_state (bs_cpus s cpu) with
  | None => (s, None)
  | Some c =>
      let hot := (cpu =? 0) && negb (bc_hotplug c =? 0) in
      let evt_type := if hot then PPME_CPU_HOTPLUG_E else evt_type in
      let drop_flags := if hot then UF_NEVER_DROP else drop_flags in
      let ts := u64 (st_boot_time st + ktime_get_ns e) in
      let '(st, t, drop) := bpf_drop_event e st (reset_tail_ctx evt_type ts) evt_type drop_flags in
      let s := set_settings s st in
      let c := set_tail c t in
      if drop then (set_cpu s cpu (release_local_state c), None)
      else
        let c := set_counters c (u64 (bc_n_evts c + 1)) (bc_n_drops_buffer c) (bc_n_drops_pf c)
                   (bc_n_drops_bug c) in
        match event_filler (tc_evt_type t) with
        | None => (set_cpu s cpu (release_local_state c), None)
        | Some id => (set_cpu s cpu c, Some id)
        end
  end.

(** [call_filler]: the same, followed by the tail call. *)
Definition call_filler (cpu evt_type drop_flags : Z) (s : bpf_sys) : bpf_sys :=
  let '(s, r) := prepare_filler cpu evt_type drop_flags s in
  match r with
  | None => s
  | Some id =>
      match tail_map id with
      | Some f => filler_program (pred MAX_TAIL_CALL_CNT) f cpu s
      | None => set_cpu s cpu (release_local_state (bs_cpus s cpu))
      end
  end.
End probe.
