(* ===== verification/BpfFillers.v ===== *)
(** * Fillers of [driver/bpf/fillers.h]

    One definition per [FILLER] whose parameters are values, strings and buffers
    handed to [bpf_val_to_ring], in the code's order, and the table of those programs.
    [KERNEL_5_6] selects the [struct timespec] of [fillers.h]: since Linux 5.6 the
    file declares its own. *)

From Stdlib Require Import ZArith Lia List Bool.
From Stdlib Require Import Strings.Byte.
From stdpp Require Import base tactics list numbers option.
From S2P Require Import Prelude Bytes EventDefs EventTable FillerTable ValToRing.
From S2P Require Import ValToRingSpec FlagDefs Flags Fillers FillerOps SyscallFillers.
From S2P Require Import Ring BpfRing BpfProbe.
Import ListNotations.
Local Open Scope Z_scope.

(** ** Steps. *)

Definition bcont : Type := bstate -> bstate * fill_res.

(** [return PPM_SUCCESS] and [return res]. *)
Definition bdone : bcont := fun s => (s, FillDone PPM_SUCCESS).
Definition bfail (res : Z) : bcont := fun s => (s, FillDone res).

(** A call that appends a parameter, followed by
    [if (res != PPM_SUCCESS) return res;]. *)
Definition bstep (f : sysdig_bpf_settings -> filler_data -> filler_data * Z) (next : bcont) : bcont :=
  fun '(st, d) =>
    let '(d, r) := f st d in
    if r =? PPM_SUCCESS then next (st, d) else ((st, d), FillDone r).

Definition put (e : bpf_env) (val : Z) : bcont -> bcont :=
  bstep (fun st d => bpf_val_to_ring e st d val).
Definition put_type (e : bpf_env) (val : Z) (t : ppm_param_type) : bcont -> bcont :=
  bstep (fun st d => bpf_val_to_ring_type e st d val t).
Definition put_dyn (e : bpf_env) (val : Z) (t : ppm_param_type) (idx : Z) : bcont -> bcont :=
  bstep (fun st d => bpf_val_to_ring_dyn e st d val t idx).

(** The data of a read or write, cut by the snaplen of the descriptor. *)
Definition put_data (e : bpf_env) (fd val len : Z) : bcont -> bcont :=
  bstep (fun st d => __bpf_val_to_ring e st (with_fd d fd) val len PT_BYTEBUF dyn_none true).

(** A call whose result is overwritten by the next one. *)
Definition put_unchecked (e : bpf_env) (val : Z) (next : bcont) : bcont :=
  fun '(st, d) => next (st, fst (bpf_val_to_ring e st d val)).

Definition with_data (f : filler_data -> bcont) : bcont := fun s => f (snd s) s.

(** [bpf_probe_read] into a local variable, whose failure aborts the filler, and
    [_READ] through a user pointer, which gives zero instead. *)
Definition bread (e : bpf_env) (from n : Z) (next : list byte -> bcont) : bcont :=
  let '(bs, r) := probe_read e from n in
  if r =? 0 then next bs else bfail PPM_FAILURE_INVALID_USER_MEMORY.
Definition READ (e : bpf_env) (from n : Z) : Z := le_val (fst (probe_read e from n)).

(** The device of a descriptor that was returned, and the inode of one. *)
Definition bpf_fd_dev (e : bpf_env) (retval : Z) : Z :=
  if retval <? 0 then 0
  else match bpf_get_fd_dev_ino e (s32 retval) with Some (dev, _) => dev | None => 0 end.
Definition bpf_fd_ino (e : bpf_env) (fd : Z) : Z :=
  match bpf_get_fd_dev_ino e fd with Some (_, ino) => ino | None => 0 end.

Section fillers.
Context (KERNEL_5_6 : bool).
(** The task, the syscall number and its portable code, the tracepoint's signal. *)
Context (tk : task_env) (sc_nr : Z) (syscall_code_routing_table : Z -> option Z).
Context (ev_sig ev_info : Z) (send_sig_forced : option Z).
Context (e : bpf_env).

Let retval : Z := sc_retval e.
Let arg (i : nat) : Z := bpf_syscall_get_argument e i.

(** ** Automatic and single-parameter fillers. *)

Definition bpf_sys_empty : bcont := bdone.
Definition bpf_sys_single : bcont := put e (arg 0) bdone.
Definition bpf_sys_single_x : bcont := put e retval bdone.

(** The loop of [sys_autofill]; an entry without arguments returns an uninitialised
    value, [stale]. *)
Fixpoint bpf_autofill_loop (l : list ppm_autofill_arg) (n : nat) (next : bcont) : bcont :=
  match n, l with
  | S n', a :: l' =>
      put e (if 0 <=? af_id a then arg (Z.to_nat (af_id a))
             else if af_id a =? AF_ID_RETVAL then retval else default_val a)
        (bpf_autofill_loop l' n' next)
  | _, _ => next
  end.

Definition bpf_sys_autofill (stale : Z) : bcont := with_data (fun d =>
  match g_ppm_events (tc_evt_type (tail_ctx d)) with
  | Some en =>
      if n_autofill_args en =? 0 then bfail stale
      else bpf_autofill_loop (autofill_args en)
             (Z.to_nat (Z.min (n_autofill_args en) PPM_MAX_AUTOFILL_ARGS)) bdone
  | None => bfail stale
  end).

Definition bpf_sys_generic : bcont :=
  match syscall_code_routing_table (s32 sc_nr) with
  | None => bfail PPM_FAILURE_BUG
  | Some sysdig_id =>
      put e sysdig_id $ with_data (fun d =>
        if tc_evt_type (tail_ctx d) =? PPME_GENERIC_E then put e (s32 sc_nr) bdone else bdone)
  end.

(** ** Files. *)

Definition bpf_sys_open_x : bcont :=
  put e retval $ put e (arg 0) $ put e (u32 (open_flags_to_scap (arg 1))) $
  put e (u32 (open_modes_to_scap (arg 1) (u32 (arg 2)))) $ put e (bpf_fd_dev e retval) bdone.

Definition bpf_sys_openat_x : bcont :=
  put e retval $ put e (dirfd_to_scap (arg 0)) $ put e (arg 1) $
  put e (open_flags_to_scap (arg 2)) $ put e (open_modes_to_scap (arg 2) (arg 3)) $
  put e (bpf_fd_dev e retval) bdone.

Definition bpf_sys_creat_x : bcont :=
  put e retval $ put e (arg 0) $ put e (open_modes_to_scap O_CREAT (arg 1)) $
  put e (bpf_fd_dev e retval) bdone.

Definition bpf_sys_read_x : bcont :=
  put e retval $
  (if retval <? 0 then put_data e (s32 (arg 0)) 0 0 else put_data e (s32 (arg 0)) (arg 1) retval)
  bdone.

Definition bpf_sys_write_x : bcont :=
  put e retval $ put_data e (s32 (arg 0)) (arg 1) (arg 2) bdone.

Definition bpf_sys_unlinkat_x : bcont :=
  put e retval $ put e (dirfd_to_scap (arg 0)) $ put e (arg 1) $
  put e (unlinkat_flags_to_scap (arg 2)) bdone.

Definition bpf_sys_mkdirat_x : bcont :=
  put e retval $ put e (dirfd_to_scap (arg 0)) $ put e (arg 1) $ put e (arg 2) bdone.

Definition bpf_sys_linkat_x : bcont :=
  put e retval $ put e (dirfd_to_scap (arg 0)) $ put e (arg 1) $
  put e (dirfd_to_scap (arg 2)) $ put e (arg 3) $ put e (linkat_flags_to_scap (arg 4)) bdone.

Definition bpf_sys_renameat_x : bcont :=
  put e retval $ put e (dirfd_to_scap (arg 0)) $ put e (arg 1) $
  put e (dirfd_to_scap (arg 2)) $ put e (arg 3) bdone.

Definition bpf_sys_renameat2_x : bcont :=
  put e retval $ put e (dirfd_to_scap (arg 0)) $ put e (arg 1) $
  put e (dirfd_to_scap (arg 2)) $ put_unchecked e (arg 3) $ put e (arg 4) bdone.

Definition bpf_sys_symlinkat_x : bcont :=
  put_type e retval PT_ERRNO $ put_type e (arg 0) PT_CHARBUF $
  put_type e (dirfd_to_scap (arg 1)) PT_FD $ put_type e (arg 2) PT_CHARBUF bdone.

Definition bpf_sys_fchmodat_x : bcont :=
  put e retval $ put e (dirfd_to_scap (arg 0)) $ put e (arg 1) $
  put e (u32 (chmod_mode_to_scap (u32 (arg 2)))) bdone.

Definition bpf_sys_chmod_x : bcont := put e retval $ put e (arg 0) $ put e (arg 1) bdone.
Definition bpf_sys_fchmod_x : bcont := put e retval $ put e (arg 0) $ put e (arg 1) bdone.

Definition bpf_sys_mount_e : bcont :=
  let val := arg 3 in
  put e (if Z.land val PPM_MS_MGC_MSK =? PPM_MS_MGC_VAL then Z.land val 65535 else val) bdone.

Definition bpf_sys_lseek_e : bcont :=
  put e (arg 0) $ put e (arg 1) $ put e (lseek_whence_to_scap (arg 2)) bdone.

Definition bpf_sys_llseek_e : bcont :=
  put e (arg 0) $ put e (u64 (Z.shiftl (arg 1) 32 + arg 2)) $
  put e (lseek_whence_to_scap (arg 4)) bdone.

Definition bpf_sys_fcntl_e : bcont :=
  put_type e (arg 0) PT_FD $ put_type e (fcntl_cmd_to_scap (arg 1)) PT_FLAGS8 bdone.

Definition bpf_sys_flock_e : bcont :=
  put e (arg 0) $ put e (u32 (flock_flags_to_scap (arg 1))) bdone.

Definition bpf_sys_access_e : bcont := put e (access_flags_to_scap (arg 1)) bdone.

Definition bpf_sys_pipe_x : bcont :=
  put e retval $ bread e (arg 0) 8 (fun fds =>
    put e (sfield fds 0 4) $ put e (sfield fds 4 4) $ put e (bpf_fd_ino e (sfield fds 0 4)) bdone).

Definition bpf_sys_eventfd_e : bcont := put e (arg 0) $ put e 0 bdone.

Definition bpf_sys_sendfile_e : bcont :=
  put e (arg 0) $ put e (arg 1) $ put e (READ e (arg 2) 8) $ put e (arg 3) bdone.

Definition bpf_sys_sendfile_x : bcont := put e retval $ put e (READ e (arg 2) 8) bdone.

(** ** Time, memory, limits. *)

(** [timespec_parse]: the declared structure has two 32 bit fields, the kernel's two of
    64 bits. *)
Definition bpf_timespec_parse (val : Z) (next : bcont) : bcont :=
  if KERNEL_5_6 then
    bread e val 8 (fun ts =>
      put_type e (u64 (sfield ts 0 4 * 1000000000 + sfield ts 4 4)) PT_RELTIME next)
  else
    bread e val 16 (fun ts =>
      put_type e (u64 (sfield ts 0 8 * 1000000000 + sfield ts 8 8)) PT_RELTIME next).

Definition bpf_sys_nanosleep_e : bcont := bpf_timespec_parse (arg 0) bdone.

Definition bpf_sys_futex_e : bcont :=
  put e (arg 0) $ put e (futex_op_to_scap (arg 1)) $ put e (arg 2) bdone.

Definition bpf_sys_brk_munmap_mmap_x : bcont :=
  let mm := task_mm (cur tk) in
  put_type e retval PT_UINT64 $ put_type e (mm_size total_vm mm) PT_UINT32 $
  put_type e (mm_size rss mm) PT_UINT32 $ put_type e (mm_size swap mm) PT_UINT32 bdone.

Definition bpf_sys_mmap_e : bcont :=
  put e (arg 0) $ put e (arg 1) $ put e (prot_flags_to_scap (arg 2)) $
  put e (mmap_flags_to_scap (arg 3)) $ put e (arg 4) $ put e (arg 5) bdone.

Definition bpf_sys_pagefault_e : bcont :=
  put e (fault_address tk) $ put e (fault_ip tk) $
  put e (pf_flags_to_scap (fault_error_code tk)) bdone.

Definition bpf_sys_getrlimit_setrlimit_e : bcont :=
  put_type e (rlimit_resource_to_scap (arg 0)) PT_FLAGS8 bdone.

Definition bpf_sys_getrlimit_setrlrimit_x : bcont :=
  put e retval $ with_data (fun d =>
    if (0 <=? retval) || (tc_evt_type (tail_ctx d) =? PPME_SYSCALL_SETRLIMIT_X) then
      bread e (arg 1) 16 (fun rl => put e (field rl 0 8) $ put e (field rl 8 8) bdone)
    else put e (-1) $ put e (-1) bdone).

Definition bpf_sys_prlimit_e : bcont :=
  put e (arg 0) $ put e (u8 (rlimit_resource_to_scap (arg 1))) bdone.

(** The pair of a [struct rlimit], or two [-1] when it cannot be read. *)
Definition bpf_rlimit_pair (from : Z) : Z * Z :=
  let '(rl, r) := probe_read e from 16 in
  if r =? 0 then (field rl 0 8, field rl 8 8) else (-1, -1).

Definition bpf_sys_prlimit_x : bcont :=
  put_type e retval PT_ERRNO $
  let new := if 0 <=? retval then bpf_rlimit_pair (arg 2) else (-1, -1) in
  let old := bpf_rlimit_pair (arg 3) in
  put_type e (fst new) PT_INT64 $ put_type e (snd new) PT_INT64 $
  put_type e (fst old) PT_INT64 $ put_type e (snd old) PT_INT64 bdone.

(** ** Sockets and processes. *)

Definition bpf_sys_accept4_e : bcont := put e 0 bdone.

Definition bpf_sys_shutdown_e : bcont :=
  put e (arg 0) $ put e (u32 (shutdown_how_to_scap (arg 1))) bdone.

Definition set_socket_file_ops (st : sysdig_bpf_settings) (f_op : Z) : sysdig_bpf_settings :=
  mk_settings (st_boot_time st) f_op (st_snaplen st) (st_sampling_ratio st)
    (st_capture_enabled st) (st_do_dynamic_snaplen st) (st_page_faults st) (st_dropping_mode st)
    (st_is_dropping st) (st_tracers_enabled st) (st_fullcapture_port_range_start st)
    (st_fullcapture_port_range_end st) (st_statsd_port st) (st_switch_agg_num st)
    (st_events_mask st).

(** The first socket tells the probe how to recognise one. *)
Definition bpf_sys_socket_x : bcont :=
  put e retval $ (fun '(st, d) =>
    bdone (if (0 <? retval) && (st_socket_file_ops st =? 0) then
             match bpf_fget e (s32 retval) with
             | Some file => set_socket_file_ops st (f_op file)
             | None => st
             end
           else st, d)).

Definition bpf_sys_setns_e : bcont := put e (arg 0) $ put e (u32 (clone_flags_to_scap (arg 1))) bdone.
Definition bpf_sys_unshare_e : bcont := put e (u32 (clone_flags_to_scap (arg 0))) bdone.

Definition bpf_sys_getresuid_and_gid_x : bcont :=
  put e retval $ put e (READ e (arg 0) 4) $ put e (READ e (arg 1) 4) $ put e (READ e (arg 2) 4) bdone.

Definition bpf_sys_procexit_e : bcont := put e (task_exit_code (cur tk)) bdone.

(** [next] is the address of the task switched to. *)
Definition bpf_sched_switch_e (next : Z) : bcont :=
  let mm := task_mm (cur tk) in
  put_type e (task_pid (task_at tk next)) PT_PID $ put_type e (task_maj_flt (cur tk)) PT_UINT64 $
  put_type e (task_min_flt (cur tk)) PT_UINT64 $ put_type e (mm_size total_vm mm) PT_UINT32 $
  put_type e (mm_size rss mm) PT_UINT32 $ put_type e (mm_size swap mm) PT_UINT32 bdone.

Definition bpf_siginfo_not_a_pointer (info : Z) : bool :=
  match send_sig_forced with
  | Some forced => (info =? 0) || (info =? 1) || negb (forced =? 0)
  | None => (info =? 0) || (info =? 1)
  end.

(** The sender of a signal: the code at offset 8 of the [siginfo], the process at
    offset 16 in each of its variants. *)
Definition bpf_signal_spid : Z :=
  let pid := sfield (fst (probe_read e (ev_info + 16) 4)) 0 4 in
  let si_code := sfield (fst (probe_read e (ev_info + 8) 4)) 0 4 in
  if bpf_siginfo_not_a_pointer ev_info then 0
  else if ev_sig =? 9 then pid
  else if (ev_sig =? 15) || (ev_sig =? 1) || (ev_sig =? 2) || (ev_sig =? 20) || (ev_sig =? 3) then
    if (si_code =? 0) || (si_code =? -1) || (si_code <=? 0) then pid else 0
  else if ev_sig =? 17 then pid
  else if (32 <=? ev_sig) && (ev_sig <=? 64) then pid
  else 0.

Definition bpf_sys_signaldeliver_e : bcont :=
  put e bpf_signal_spid $ put e (Z.land (pid_tgid e) 0xffffffff) $ put e ev_sig bdone.

(** ** ptrace, bpf, semaphores. *)

Definition bpf_sys_ptrace_e : bcont :=
  put e (ptrace_requests_to_scap (arg 0)) $ put e (arg 1) bdone.

Definition bpf_parse_ptrace_addr (next : bcont) : bcont :=
  put_dyn e (arg 2) PT_UINT64 PPM_PTRACE_IDX_UINT64 next.

Definition bpf_parse_ptrace_data (request : Z) (next : bcont) : bcont :=
  let val := arg 3 in
  if (request =? PPM_PTRACE_PEEKTEXT) || (request =? PPM_PTRACE_PEEKDATA)
     || (request =? PPM_PTRACE_PEEKUSR) then
    bread e val 8 (fun dst => put_dyn e (field dst 0 8) PT_UINT64 PPM_PTRACE_IDX_UINT64 next)
  else if (request =? PPM_PTRACE_CONT) || (request =? PPM_PTRACE_SINGLESTEP)
       || (request =? PPM_PTRACE_DETACH) || (request =? PPM_PTRACE_SYSCALL) then
    put_dyn e val PT_SIGTYPE PPM_PTRACE_IDX_SIGTYPE next
  else put_dyn e val PT_UINT64 PPM_PTRACE_IDX_UINT64 next.

Definition bpf_sys_ptrace_x : bcont :=
  put_type e retval PT_ERRNO $
  if retval <? 0 then put_dyn e 0 PT_UINT64 0 $ put_dyn e 0 PT_UINT64 0 bdone
  else
    bpf_parse_ptrace_addr $ bpf_parse_ptrace_data (u16 (ptrace_requests_to_scap (arg 0))) bdone.

Definition bpf_sys_bpf_x : bcont :=
  if (0 <=? retval) && ((arg 0 =? BPF_MAP_CREATE) || (arg 0 =? BPF_PROG_LOAD))
  then put_dyn e retval PT_FD PPM_BPF_IDX_FD bdone
  else put_dyn e retval PT_ERRNO PPM_BPF_IDX_RES bdone.

(** A turn of the loop of [sys_semop_x]; [more] is the counter as the code tests it. *)
Definition bpf_semop_turn (more : bool) (ptr : Z) (next : bcont) : bcont :=
  let put_sops num op flg :=
    put_type e num PT_UINT16 $ put_type e op PT_INT16 $
    put_type e (semop_flags_to_scap flg) PT_FLAGS16 next in
  if more then bread e ptr 6 (fun b => put_sops (field b 0 2) (sfield b 2 2) (sfield b 4 2))
  else put_sops 0 0 0.

Definition bpf_sys_semop_x : bcont :=
  let nsops := arg 2 in
  let ptr := arg 1 in
  put_type e retval PT_ERRNO $ put_type e nsops PT_UINT32 $
  if negb (nsops =? 0) && negb (ptr =? 0) then
    bpf_semop_turn true ptr $ bpf_semop_turn (negb (nsops =? 1)) (ptr + 6) bdone
  else bdone.

Definition bpf_sys_semget_e : bcont :=
  put e (arg 0) $ put e (arg 1) $ put e (semget_flags_to_scap (arg 2)) bdone.

Definition bpf_sys_semctl_e : bcont :=
  put e (arg 0) $ put e (arg 1) $ put e (semctl_cmd_to_scap (arg 2)) $
  put e (if arg 2 =? SETVAL then arg 3 else 0) bdone.

(** ** Events of the driver itself. *)

Definition bpf_sys_sysdigevent_e : bcont := bfail PPM_FAILURE_BUG.

Definition bpf_cpu_hotplug_e : bcont := with_data (fun d =>
  put e (hotplug_cpu d) $ put e 0 (fun '(st, d) => bdone (st, with_hotplug d 0))).

Definition bpf_sched_drop : bcont := fun s => put e (st_sampling_ratio (fst s)) bdone s.

(** The 64 bit arguments of pread and pwrite have fillers on other platforms only. *)
Definition bpf_sys_pread64_e : bcont := bfail PPM_FAILURE_BUG.
Definition bpf_sys_preadv64_e : bcont := bfail PPM_FAILURE_BUG.
Definition bpf_sys_pwrite64_e : bcont := bfail PPM_FAILURE_BUG.

(** The tracepoint programs of the TCP events, which the probes on functions fill. *)
Definition bpf_tcp_retransmit_skb_e : bcont := bdone.
Definition bpf_tcp_rcv_established_e : bcont := bdone.
Definition bpf_tcp_drop_e : bcont := bdone.
Definition bpf_tcp_connect_x : bcont := bdone.
Definition bpf_tcp_set_state_e : bcont := bdone.
Definition bpf_cpu_analysis_e : bcont := bdone.
End fillers.

(** ** The program array. *)

(** What the programs see beside [bpf_env]. *)
Record bpf_view : Type := mk_view {
  bv_kernel_5_6 : bool;
  bv_task : task_env;
  bv_sc_nr : Z;
  bv_routing : Z -> option Z;
  bv_sig : Z;
  bv_info : Z;
  bv_sig_forced : option Z;
  bv_next_task : Z;
  bv_stale : Z }.

(** The entries of [tail_map] modelled here. *)
Definition bpf_tail_map (v : bpf_view) (id : ppm_filler_id) : option bpf_filler :=
  let tk := bv_task v in
  match id with
  | F_sys_autofill => Some (fun e => bpf_sys_autofill e (bv_stale v))
  | F_sys_generic => Some (fun e => bpf_sys_generic (bv_sc_nr v) (bv_routing v) e)
  | F_sys_empty => Some (fun e => bpf_sys_empty)
  | F_sys_single => Some bpf_sys_single
  | F_sys_single_x => Some bpf_sys_single_x
  | F_sys_open_x => Some bpf_sys_open_x
  | F_sys_openat_x => Some bpf_sys_openat_x
  | F_sys_creat_x => Some bpf_sys_creat_x
  | F_sys_read_x => Some bpf_sys_read_x
  | F_sys_write_x => Some bpf_sys_write_x
  | F_sys_unlinkat_x => Some bpf_sys_unlinkat_x
  | F_sys_mkdirat_x => Some bpf_sys_mkdirat_x
  | F_sys_linkat_x => Some bpf_sys_linkat_x
  | F_sys_renameat_x => Some bpf_sys_renameat_x
  | F_sys_renameat2_x => Some bpf_sys_renameat2_x
  | F_sys_symlinkat_x => Some bpf_sys_symlinkat_x
  | F_sys_fchmodat_x => Some bpf_sys_fchmodat_x
  | F_sys_chmod_x => Some bpf_sys_chmod_x
  | F_sys_fchmod_x => Some bpf_sys_fchmod_x
  | F_sys_mount_e => Some bpf_sys_mount_e
  | F_sys_lseek_e => Some bpf_sys_lseek_e
  | F_sys_llseek_e => Some bpf_sys_llseek_e
  | F_sys_fcntl_e => Some bpf_sys_fcntl_e
  | F_sys_flock_e => Some bpf_sys_flock_e
  | F_sys_access_e => Some bpf_sys_access_e
  | F_sys_pipe_x => Some bpf_sys_pipe_x
  | F_sys_eventfd_e => Some bpf_sys_eventfd_e
  | F_sys_sendfile_e => Some bpf_sys_sendfile_e
  | F_sys_sendfile_x => Some bpf_sys_sendfile_x
  | F_sys_nanosleep_e => Some (bpf_sys_nanosleep_e (bv_kernel_5_6 v))
  | F_sys_futex_e => Some bpf_sys_futex_e
  | F_sys_brk_munmap_mmap_x => Some (bpf_sys_brk_munmap_mmap_x tk)
  | F_sys_mmap_e => Some bpf_sys_mmap_e
  | F_sys_pagefault_e => Some (bpf_sys_pagefault_e tk)
  | F_sys_getrlimit_setrlimit_e => Some bpf_sys_getrlimit_setrlimit_e
  | F_sys_getrlimit_setrlrimit_x => Some bpf_sys_getrlimit_setrlrimit_x
  | F_sys_prlimit_e => Some bpf_sys_prlimit_e
  | F_sys_prlimit_x => Some bpf_sys_prlimit_x
  | F_sys_accept4_e => Some bpf_sys_accept4_e
  | F_sys_shutdown_e => Some bpf_sys_shutdown_e
  | F_sys_socket_x => Some bpf_sys_socket_x
  | F_sys_setns_e => Some bpf_sys_setns_e
  | F_sys_unshare_e => Some bpf_sys_unshare_e
  | F_sys_getresuid_and_gid_x => Some bpf_sys_getresuid_and_gid_x
  | F_sys_procexit_e => Some (bpf_sys_procexit_e tk)
  | F_sched_switch_e => Some (fun e => bpf_sched_switch_e tk e (bv_next_task v))
  | F_sys_signaldeliver_e =>
      Some (bpf_sys_signaldeliver_e (bv_sig v) (bv_info v) (bv_sig_forced v))
  | F_sys_ptrace_e => Some bpf_sys_ptrace_e
  | F_sys_ptrace_x => Some bpf_sys_ptrace_x
  | F_sys_bpf_x => Some bpf_sys_bpf_x
  | F_sys_semop_x => Some bpf_sys_semop_x
  | F_sys_semget_e => Some bpf_sys_semget_e
  | F_sys_semctl_e => Some bpf_sys_semctl_e
  | F_sys_sysdigevent_e => Some (fun e => bpf_sys_sysdigevent_e)
  | F_cpu_hotplug_e => Some bpf_cpu_hotplug_e
  | F_sched_drop => Some bpf_sched_drop
  | F_sys_pread64_e => Some (fun e => bpf_sys_pread64_e)
  | F_sys_preadv64_e => Some (fun e => bpf_sys_preadv64_e)
  | F_sys_pwrite64_e => Some (fun e => bpf_sys_pwrite64_e)
  | F_tcp_retransmit_skb_e => Some (fun e => bpf_tcp_retransmit_skb_e)
  | F_tcp_rcv_established_e => Some (fun e => bpf_tcp_rcv_established_e)
  | F_tcp_drop_e => Some (fun e => bpf_tcp_drop_e)
  | F_tcp_connect_x => Some (fun e => bpf_tcp_connect_x)
  | F_tcp_set_state_e => Some (fun e => bpf_tcp_set_state_e)
  | F_cpu_analysis_e => Some (fun e => bpf_cpu_analysis_e)
  | _ => None
  end.
