(* ===== verification/BpfProbeSpec.v ===== *)
(** * What becomes of an event in the eBPF probe

    Every event that takes the state of its CPU is counted once and accounted for, and
    the state is released; the frames in the perf buffers are event records; the
    dropping decisions are those of the kernel module. *)

From Stdlib Require Import ZArith Lia List Bool.
From Stdlib Require Import Strings.Byte.
From stdpp Require Import base tactics list numbers option.
From S2P Require Import Prelude Bytes EventDefs EventTable FillerTable.
From S2P Require Import ValToRing ValToRingSpec Ring RingSpec RecordSpec.
From S2P Require Import BpfRing BpfRingSpec BpfProbe.
Import ListNotations.
Local Open Scope Z_scope.

Lemma upd_same {A} (f : Z -> A) i v : upd f i v i = v.
Proof. unfold upd. by rewrite Z.eqb_refl. Qed.

Lemma upd_other {A} (f : Z -> A) i j v : j <> i -> upd f i v j = f j.
Proof. intros H. unfold upd. by rewrite (proj2 (Z.eqb_neq j i)). Qed.

(** ** Outcomes. *)

(** What became of an event, as the counters see it: [NotTaken] when it was masked or
    dropped or found the state in use; [Silent] when it was counted and neither sent nor
    counted as a drop. *)
Inductive outcome : Type :=
| NotTaken
| Sent (frame : list byte)
| FullDrop
| FaultDrop
| BugDrop
| Silent.

Definition outcome_of (p : pushed) (res : Z) : outcome :=
  match p with
  | Pushed f => Sent f
  | _ => if res =? PPM_FAILURE_BUFFER_FULL then FullDrop
         else if res =? PPM_FAILURE_INVALID_USER_MEMORY then FaultDrop
         else if res =? PPM_FAILURE_BUG then BugDrop else Silent
  end.

(** The outcomes follow from the events, not from the counters.  An event takes the state
    of its CPU when its type is not masked, the state is free and the sampling keeps it. *)
Definition sampled_out (e : bpf_env) (cpu ty flags : Z) (s : bpf_sys) : bool :=
  let st := bs_settings s in
  let hot := (cpu =? 0) && negb (bc_hotplug (bs_cpus s cpu) =? 0) in
  let ty := if hot then PPME_CPU_HOTPLUG_E else ty in
  let flags := if hot then UF_NEVER_DROP else flags in
  snd (bpf_drop_event e st (reset_tail_ctx ty (u64 (st_boot_time st + ktime_get_ns e))) ty flags).

Definition taken (e : bpf_env) (cpu ty flags : Z) (s : bpf_sys) : bool :=
  negb ((ty <? PPM_EVENT_MAX) && negb (st_events_mask (bs_settings s) ty))
  && negb (bc_in_use (bs_cpus s cpu)) && negb (sampled_out e cpu ty flags s).

(** What the programs of a filler, or an inline filler, end with. *)
Definition program_end (tail_map : ppm_filler_id -> option bpf_filler) (e : bpf_env)
    (f : bpf_filler) (cpu : Z) (s : bpf_sys) : outcome :=
  let '(d, r) := init_filler_data (bs_cpus s cpu) in
  if r =? PPM_SUCCESS then
    let '(_, p, res, _) := run_filler tail_map e (pred MAX_TAIL_CALL_CNT) (bs_settings s) f d in
    outcome_of p res
  else outcome_of NotPushed r.

Definition inline_end (e : bpf_env) (f : filler_data -> filler_data * Z) (cpu : Z) (s : bpf_sys) :
    outcome :=
  let '(d, r) := init_filler_data (bs_cpus s cpu) in
  if r =? PPM_SUCCESS then
    let '(d, res) := f (start_frame e d) in
    if res =? PPM_SUCCESS then let '(_, p, res) := push_evt_frame e d in outcome_of p res
    else outcome_of NotPushed res
  else outcome_of NotPushed r.

Definition call_outcome (tail_map : ppm_filler_id -> option bpf_filler) (e : bpf_env)
    (cpu ty flags : Z) (s : bpf_sys) : outcome :=
  if taken e cpu ty flags s then
    let '(s, r) := prepare_filler e cpu ty flags s in
    match r with
    | Some id => match tail_map id with
                 | Some f => program_end tail_map e f cpu s
                 | None => Silent
                 end
    | None => Silent
    end
  else NotTaken.

Definition kp_outcome (e : bpf_env) (f : filler_data -> filler_data * Z) (cpu ty flags : Z)
    (s : bpf_sys) : outcome :=
  if taken e cpu ty flags s then
    let '(s, r) := prepare_filler e cpu ty flags s in
    match r with Some _ => inline_end e f cpu s | None => Silent end
  else NotTaken.

Definition b2z (b : bool) : Z := if b then 1 else 0.

(** The change of the counters of a CPU for an outcome. *)
Definition counts_outcome (o : outcome) (c c' : bpf_cpu) : Prop :=
  bc_n_evts c' = u64 (bc_n_evts c + match o with NotTaken => 0 | _ => 1 end) /\
  bc_n_drops_buffer c' = u64 (bc_n_drops_buffer c + match o with FullDrop => 1 | _ => 0 end) /\
  bc_n_drops_pf c' = u64 (bc_n_drops_pf c + match o with FaultDrop => 1 | _ => 0 end) /\
  bc_n_drops_bug c' = u64 (bc_n_drops_bug c + match o with BugDrop => 1 | _ => 0 end).

(** Counters are 64 bits wide. *)
Definition counters_wf (c : bpf_cpu) : Prop :=
  u64 (bc_n_evts c) = bc_n_evts c /\ u64 (bc_n_drops_buffer c) = bc_n_drops_buffer c /\
  u64 (bc_n_drops_pf c) = bc_n_drops_pf c /\ u64 (bc_n_drops_bug c) = bc_n_drops_bug c.

Lemma u64_idem x : u64 (u64 x) = u64 x.
Proof. apply u64_small, u64_range. Qed.

Lemma counts_wf o c c' : counts_outcome o c c' -> counters_wf c'.
Proof.
  intros (H1 & H2 & H3 & H4). unfold counters_wf. rewrite H1, H2, H3, H4, !u64_idem. done.
Qed.

(** A step of the system on [cpu] with an outcome: the counters of the CPU and the
    frames agree with it, the state is released, and the other CPUs keep theirs. *)
Record event_step (cpu : Z) (o : outcome) (s s' : bpf_sys) : Prop := {
  es_counts : counts_outcome o (bs_cpus s cpu) (bs_cpus s' cpu);
  es_released : bc_in_use (bs_cpus s' cpu) = false;
  es_out : bs_out s' = bs_out s ++ match o with Sent f => [(cpu, f)] | _ => [] end;
  es_others : forall j, j <> cpu ->
    bs_cpus s' j = bs_cpus s j \/
    bs_cpus s' j = set_hotplug (bs_cpus s j) (bc_hotplug (bs_cpus s' j)) }.

(** ** The tail calls. *)

(** Chains of tail calls end: each continuation has a smaller rank. *)
Class Chained (tail_map : ppm_filler_id -> option bpf_filler) : Type := {
  rank : ppm_filler_id -> nat;
  rank_bound id : (rank id < pred MAX_TAIL_CALL_CNT)%nat;
  rank_tail id f e b b' id' :
    tail_map id = Some f -> f e b = (b', FillTail id') -> (rank id' < rank id)%nat }.

Section tail_calls.
Context (tail_map : ppm_filler_id -> option bpf_filler) (e : bpf_env).
Context `{Hch : !Chained tail_map}.

Lemma run_filler_calls n : forall id f calls st d d' p res calls',
  (rank id <= n)%nat -> tail_map id = Some f ->
  run_filler tail_map e calls st f d = (d', p, res, calls') -> (calls <= calls' + rank id)%nat.
Proof.
  induction n as [|n IH]; intros id f calls st d d' p res calls' Hr Hf H;
    destruct calls as [|calls]; cbn [run_filler] in H; try lia;
    destruct (f e _) as [[st1 d1] [r|id']] eqn:Ef.
  all: try (case_in H; [destruct (push_evt_frame e d1) as [[? ?] ?]|]; simplify_eq; lia).
  all: pose proof (rank_tail _ _ _ _ _ _ Hf Ef); try lia.
  destruct (tail_map id') as [g|] eqn:Eg; [|simplify_eq; lia].
  apply (IH id') in H; [lia|lia|done].
Qed.
End tail_calls.

(** Only a complete push succeeds in sending. *)
Lemma push_sent e d d' f res : push_evt_frame e d = (d', Pushed f, res) -> res = PPM_SUCCESS.
Proof.
  intros H. unfold push_evt_frame in H. cbv zeta in H. repeat case_in H; by simplify_eq.
Qed.

Lemma run_filler_sent tail_map e calls : forall st f d d' fr res calls',
  run_filler tail_map e calls st f d = (d', Pushed fr, res, calls') -> res = PPM_SUCCESS.
Proof.
  induction calls as [|calls IH]; intros st f d d' fr res calls' H; cbn [run_filler] in H;
    destruct (f e _) as [[st1 d1] [r|id']].
  all: try (case_in H; [|done]; destruct (push_evt_frame e d1) as [[? ?] ?] eqn:E;
            simplify_eq; by eapply push_sent).
  - done.
  - destruct (tail_map id'); [|done]. by eapply IH.
Qed.

Lemma terminate_counts c o p :
  counters_wf c -> o = outcome_of p (tc_prev_res (bc_tail c)) ->
  (forall f, p = Pushed f -> tc_prev_res (bc_tail c) = PPM_SUCCESS) ->
  let c' := terminate_filler c in
  bc_in_use c' = false /\ bc_n_evts c' = bc_n_evts c /\
  bc_n_drops_buffer c' = u64 (bc_n_drops_buffer c + match o with FullDrop => 1 | _ => 0 end) /\
  bc_n_drops_pf c' = u64 (bc_n_drops_pf c + match o with FaultDrop => 1 | _ => 0 end) /\
  bc_n_drops_bug c' = u64 (bc_n_drops_bug c + match o with BugDrop => 1 | _ => 0 end).
Proof.
  intros (H1 & H2 & H3 & H4) -> Hs c'.
  unfold c', terminate_filler, release_local_state, outcome_of. split; [done|].
  destruct p as [f| |]; [rewrite (Hs f eq_refl)| |]; cbn;
    repeat case_if; cbn; rewrite ?Z.add_0_r; auto.
Qed.

Lemma after_filler_step s cpu d p res :
  let s' := after_filler s cpu d p res in
  let c := bs_cpus s cpu in let c' := bs_cpus s' cpu in
  bc_n_evts c' = bc_n_evts c /\ bc_n_drops_buffer c' = bc_n_drops_buffer c /\
  bc_n_drops_pf c' = bc_n_drops_pf c /\ bc_n_drops_bug c' = bc_n_drops_bug c /\
  bc_in_use c' = bc_in_use c /\ tc_prev_res (bc_tail c') = res /\
  bs_settings s' = bs_settings s /\
  bs_out s' = bs_out s ++ match p with Pushed f => [(cpu, f)] | _ => [] end /\
  (forall j, j <> cpu -> bs_cpus s' j = bs_cpus s j \/
     bs_cpus s' j = set_hotplug (bs_cpus s j) (bc_hotplug (bs_cpus s' j))).
Proof.
  intros s' c c'. unfold c', c, s', after_filler.
  destruct p as [f| |]; cbn [bs_cpus set_cpu add_out bs_out bs_settings];
    rewrite ?upd_same, ?app_nil_r.
  - repeat split_and; try done. intros j Hj. left. by rewrite upd_other.
  - destruct (decide (cpu = 0)) as [->|Hc].
    + rewrite !upd_same. repeat split_and; try done. intros j Hj. left. by rewrite !upd_other.
    + rewrite (upd_other _ 0 cpu), upd_same by done. repeat split_and; try done.
      intros j Hj. destruct (decide (j = 0)) as [->|].
      * right. rewrite upd_same, upd_other by done. done.
      * left. by rewrite !upd_other.
  - repeat split_and; try done. intros j Hj. left. by rewrite upd_other.
Qed.

Section accounting.
Context (tail_map : ppm_filler_id -> option bpf_filler) (e : bpf_env).
Context `{Hch : !Chained tail_map}.

(** The program of a filler, started with a counted event. *)
Lemma filler_program_step id f cpu s :
  tail_map id = Some f -> counters_wf (bs_cpus s cpu) ->
  let o := program_end tail_map e f cpu s in o <> NotTaken /\
  let s' := filler_program tail_map true e (pred MAX_TAIL_CALL_CNT) f cpu s in
  let c := bs_cpus s cpu in let c' := bs_cpus s' cpu in
  bc_in_use c' = false /\ bc_n_evts c' = bc_n_evts c /\
  bc_n_drops_buffer c' = u64 (bc_n_drops_buffer c + match o with FullDrop => 1 | _ => 0 end) /\
  bc_n_drops_pf c' = u64 (bc_n_drops_pf c + match o with FaultDrop => 1 | _ => 0 end) /\
  bc_n_drops_bug c' = u64 (bc_n_drops_bug c + match o with BugDrop => 1 | _ => 0 end) /\
  bs_out s' = bs_out s ++ match o with Sent f => [(cpu, f)] | _ => [] end /\
  (forall j, j <> cpu -> bs_cpus s' j = bs_cpus s j \/
     bs_cpus s' j = set_hotplug (bs_cpus s j) (bc_hotplug (bs_cpus s' j))).
Proof.
  intros Hf Hw o. assert (Ho : o = program_end tail_map e f cpu s) by done. clearbody o.
  unfold filler_program. destruct (init_filler_data _) as [d0 r0] eqn:E0.
  destruct (if r0 =? PPM_SUCCESS then _ else _) as [[[[st d] p] res] calls] eqn:E.
  assert (Hcalls : exists k, calls = S k).
  { pose proof (rank_bound id) as Hb. case_in E.
    - pose proof (run_filler_calls tail_map e (rank id) id f _ _ _ _ _ _ _
                    ltac:(lia) Hf E).
      destruct calls; [lia|eauto].
    - simplify_eq. by exists 31%nat. }
  destruct Hcalls as [k ->].
  assert (Hsent : forall fr, p = Pushed fr -> res = PPM_SUCCESS).
  { intros fr ->. case_in E; [by eapply run_filler_sent|done]. }
  destruct (after_filler_step (set_settings s st) cpu d p res)
    as (A1 & A2 & A3 & A4 & A5 & A6 & _ & A7 & A8). cbn [set_settings bs_cpus bs_out] in *.
  set (s1 := after_filler (set_settings s st) cpu d p res) in *. clearbody s1.
  assert (Hw1 : counters_wf (bs_cpus s1 cpu))
    by (unfold counters_wf in *; by rewrite A1, A2, A3, A4).
  destruct (terminate_counts (bs_cpus s1 cpu) (outcome_of p res) p Hw1) as (T1 & T2 & T3 & T4 & T5);
    [by rewrite A6|by rewrite A6|].
  assert (Ho' : o = outcome_of p res).
  { rewrite Ho. unfold program_end. rewrite E0. case_in E; [by rewrite E|by simplify_eq]. }
  rewrite Ho'. clear Ho Ho' o. split; [unfold outcome_of; destruct p; repeat case_if; done|].
  cbn [set_cpu bs_cpus bs_out]. rewrite upd_same, T1, T2, T3, T4, T5, A1, A2, A3, A4.
  repeat split_and; try done.
  - rewrite A7. destruct p; cbn; repeat case_if; done.
  - intros j Hj. rewrite upd_other by done. auto.
Qed.

Lemma counts_refl c : counters_wf c -> counts_outcome NotTaken c c.
Proof. intros (H1 & H2 & H3 & H4). unfold counts_outcome. rewrite !Z.add_0_r. auto. Qed.

(** The tail context [prepare_filler] leaves for the filler. *)
Definition fresh_tail (t : tail_context) : Prop :=
  tc_curarg t = 0 /\ tc_len t = 0 /\ 0 <= tc_evt_type t < PPM_EVENT_MAX.

Lemma drop_event_tail st ty ts flags st' t' b ety :
  bpf_drop_event e st (reset_tail_ctx ty ts) ety flags = (st', t', b) ->
  tc_curarg t' = 0 /\ tc_len t' = 0 /\ tc_ts t' = ts.
Proof. intros H. unfold bpf_drop_event in H. repeat case_in H; by simplify_eq. Qed.

Lemma prepare_filler_step cpu ty flags s s' r :
  counters_wf (bs_cpus s cpu) -> bc_in_use (bs_cpus s cpu) = false ->
  prepare_filler e cpu ty flags s = (s', r) ->
  bs_out s' = bs_out s /\ (forall j, j <> cpu -> bs_cpus s' j = bs_cpus s j) /\
  match r with
  | None => bc_in_use (bs_cpus s' cpu) = false /\
      counts_outcome (if taken e cpu ty flags s then Silent else NotTaken)
        (bs_cpus s cpu) (bs_cpus s' cpu)
  | Some id => taken e cpu ty flags s = true /\ counts_outcome Silent (bs_cpus s cpu) (bs_cpus s' cpu) /\
      fresh_tail (bc_tail (bs_cpus s' cpu)) /\
      event_filler (tc_evt_type (bc_tail (bs_cpus s' cpu))) = Some id
  end.
Proof.
  intros Hw Hu H. unfold prepare_filler in H. cbv zeta in H. unfold taken, sampled_out.
  case_in H.
  { simplify_eq. cbn [negb andb]. auto using counts_refl. }
  unfold acquire_local_state in H. rewrite Hu in H. rewrite Hu. cbn [negb andb].
  change (bc_hotplug (set_in_use ?c true)) with (bc_hotplug c) in H.
  destruct (bpf_drop_event _ _ _ _ _) as [[st' t'] drop] eqn:Ed in H. rewrite Ed. cbn [snd].
  apply drop_event_tail in Ed as (Hca & Hlen & _).
  destruct Hw as (W1 & W2 & W3 & W4).
  destruct drop.
  { simplify_eq. cbn [bs_out bs_cpus set_cpu set_settings]. rewrite upd_same.
    repeat split_and; auto; [intros; by apply upd_other|].
    unfold counts_outcome. cbn. rewrite !Z.add_0_r. auto. }
  destruct (event_filler (tc_evt_type t')) as [id|] eqn:Ef; simplify_eq;
    cbn [bs_out bs_cpus set_cpu set_settings]; rewrite upd_same;
    (repeat split_and; auto; [intros; by apply upd_other|..]).
  - unfold counts_outcome. cbn. rewrite !Z.add_0_r. auto.
  - cbn. unfold event_filler in Ef. case_in Ef; [|done]. bool_to_prop. repeat split; lia.
  - unfold counts_outcome. cbn. rewrite !Z.add_0_r. auto.
Qed.

(** Counters add up along two steps. *)
Lemma counts_then c c1 c2 o :
  o <> NotTaken -> counts_outcome Silent c c1 -> counters_wf c1 ->
  bc_n_evts c2 = bc_n_evts c1 ->
  bc_n_drops_buffer c2 = u64 (bc_n_drops_buffer c1 + match o with FullDrop => 1 | _ => 0 end) ->
  bc_n_drops_pf c2 = u64 (bc_n_drops_pf c1 + match o with FaultDrop => 1 | _ => 0 end) ->
  bc_n_drops_bug c2 = u64 (bc_n_drops_bug c1 + match o with BugDrop => 1 | _ => 0 end) ->
  counts_outcome o c c2.
Proof.
  assert (Hadd : forall x y, u64 (u64 (x + 0) + y) = u64 (x + y)).
  { intros x y. unfold u64. rewrite Z.add_0_r. apply Zplus_mod_idemp_l. }
  intros Ho (C1 & C2 & C3 & C4) _ H1 H2 H3 H4. unfold counts_outcome.
  rewrite H1, H2, H3, H4, C1, C2, C3, C4, !Hadd. by destruct o.
Qed.

Lemma call_filler_step cpu ty flags s :
  counters_wf (bs_cpus s cpu) -> bc_in_use (bs_cpus s cpu) = false ->
  event_step cpu (call_outcome tail_map e cpu ty flags s) s
    (call_filler tail_map true e cpu ty flags s).
Proof.
  intros Hw Hu. unfold call_filler, call_outcome.
  destruct (prepare_filler _ _ _ _ _) as [s1 [id|]] eqn:Ep;
    apply prepare_filler_step in Ep; try done.
  - destruct Ep as (Ho & Hj & -> & Hc & _ & _). pose proof (counts_wf _ _ _ Hc) as Hw1.
    destruct (tail_map id) as [f|] eqn:Ef.
    + destruct (filler_program_step id f cpu s1 Ef Hw1)
        as (Hn & H1 & H2 & H3 & H4 & H5 & H6 & H7).
      split; [by eapply counts_then|done|by rewrite H6, Ho|].
      intros j Hne. rewrite <- (Hj j Hne). auto.
    + split; cbn [set_cpu bs_cpus bs_out]; rewrite ?upd_same.
      * destruct Hc as (C1 & C2 & C3 & C4). unfold counts_outcome. cbn. by rewrite C1, C2, C3, C4.
      * done.
      * by rewrite Ho, app_nil_r.
      * intros j Hne. left. rewrite upd_other by done. auto.
  - destruct Ep as (Ho & Hj & Hr & Hc). split; auto.
    rewrite Ho. destruct (taken _ _ _ _ _); by rewrite app_nil_r.
Qed.

(** A probe on a kernel function: the filler runs inline. *)
Definition kp_event (f : filler_data -> filler_data * Z) (cpu ty flags : Z) (s : bpf_sys) : bpf_sys :=
  let '(s, r) := prepare_filler e cpu ty flags s in
  match r with None => s | Some _ => kp_filler e f cpu s end.

Lemma kp_event_step f cpu ty flags s :
  counters_wf (bs_cpus s cpu) -> bc_in_use (bs_cpus s cpu) = false ->
  event_step cpu (kp_outcome e f cpu ty flags s) s (kp_event f cpu ty flags s).
Proof.
  intros Hw Hu. unfold kp_event, kp_outcome.
  destruct (prepare_filler _ _ _ _ _) as [s1 [id|]] eqn:Ep;
    apply prepare_filler_step in Ep; try done.
  2: { destruct Ep as (Ho & Hj & Hr & Hc). split; auto.
       rewrite Ho. destruct (taken _ _ _ _ _); by rewrite app_nil_r. }
  destruct Ep as (Ho & Hj & -> & Hc & _ & _). pose proof (counts_wf _ _ _ Hc) as Hw1.
  remember (inline_end e f cpu s1) as o eqn:Eo. unfold kp_filler.
  destruct (init_filler_data _) as [d0 r0] eqn:E0.
  destruct (if r0 =? PPM_SUCCESS then _ else _) as [[d p] res] eqn:E.
  assert (Hsent : forall fr, p = Pushed fr -> res = PPM_SUCCESS).
  { intros fr ->. case_in E; [|done]. destruct (f _) as [d1 r1]. case_in E; [|done].
    by eapply push_sent. }
  destruct (after_filler_step s1 cpu d p res) as (A1 & A2 & A3 & A4 & A5 & A6 & _ & A7 & A8).
  set (s2 := after_filler s1 cpu d p res) in *. clearbody s2.
  assert (Hw2 : counters_wf (bs_cpus s2 cpu))
    by (unfold counters_wf in *; by rewrite A1, A2, A3, A4).
  destruct (terminate_counts (bs_cpus s2 cpu) (outcome_of p res) p Hw2) as (T1 & T2 & T3 & T4 & T5);
    [by rewrite A6|by rewrite A6|].
  assert (Eo' : o = outcome_of p res).
  { rewrite Eo. unfold inline_end. rewrite E0. case_in E; [|by simplify_eq].
    destruct (f _) as [d1 r1]. case_in E; [by rewrite E|by simplify_eq]. }
  rewrite Eo'. clear Eo Eo' o. split; cbn [set_cpu bs_cpus bs_out]; rewrite ?upd_same.
  - eapply counts_then; [|exact Hc|exact Hw1|..];
      [unfold outcome_of; destruct p; repeat case_if; done|congruence..].
  - done.
  - rewrite A7, Ho. destruct p; cbn; repeat case_if; done.
  - intros j Hne. rewrite upd_other, <- (Hj j Hne) by done. auto.
Qed.
End accounting.

(** ** Runs of the probe. *)

(** How many outcomes of a CPU satisfy a test, and the frames it sent. *)
Definition tally (p : outcome -> bool) (cpu : Z) (os : list (Z * outcome)) : Z :=
  zsum (map (fun x => if (fst x =? cpu) && p (snd x) then 1 else 0) os).

Definition frames_sent (cpu : Z) (os : list (Z * outcome)) : list (list byte) :=
  flat_map (fun x => match snd x with Sent f => if fst x =? cpu then [f] else [] | _ => [] end) os.

Definition frames_of (cpu : Z) (out : list (Z * list byte)) : list (list byte) :=
  flat_map (fun x => if fst x =? cpu then [snd x] else []) out.

Definition is_taken (o : outcome) : bool := match o with NotTaken => false | _ => true end.
Definition is_full (o : outcome) : bool := match o with FullDrop => true | _ => false end.
Definition is_fault (o : outcome) : bool := match o with FaultDrop => true | _ => false end.
Definition is_bug (o : outcome) : bool := match o with BugDrop => true | _ => false end.

(** The books of a CPU agree with the outcomes. *)
Record balanced (os : list (Z * outcome)) (s : bpf_sys) (cpu : Z) : Prop := {
  ba_released : bc_in_use (bs_cpus s cpu) = false;
  ba_evts : bc_n_evts (bs_cpus s cpu) = tally is_taken cpu os;
  ba_full : bc_n_drops_buffer (bs_cpus s cpu) = tally is_full cpu os;
  ba_fault : bc_n_drops_pf (bs_cpus s cpu) = tally is_fault cpu os;
  ba_bug : bc_n_drops_bug (bs_cpus s cpu) = tally is_bug cpu os;
  ba_frames : frames_of cpu (bs_out s) = frames_sent cpu os }.

Lemma tally_snoc p cpu os i o :
  tally p cpu (os ++ [(i, o)]) = tally p cpu os + (if (i =? cpu) && p o then 1 else 0).
Proof. unfold tally. rewrite map_app. apply zsum_snoc. Qed.

Lemma tally_range p cpu os : 0 <= tally p cpu os <= Z.of_nat (length os).
Proof.
  induction os as [|x os IH]; [done|]. unfold tally in *. cbn [map length].
  change (zsum (?y :: ?l)) with (y + zsum l). case_if; lia.
Qed.

Lemma balanced_wf os s cpu :
  Z.of_nat (length os) < 2 ^ 64 -> balanced os s cpu -> counters_wf (bs_cpus s cpu).
Proof.
  change (2 ^ 64) with 18446744073709551616. intros Hl [_ B2 B3 B4 B5 _].
  unfold counters_wf. rewrite B2, B3, B4, B5.
  repeat split_and; apply u64_small;
    match goal with |- context [tally ?p cpu os] => pose proof (tally_range p cpu os) end; lia.
Qed.

Lemma balanced_step os s s' cpu o i :
  Z.of_nat (length os) < 2 ^ 64 - 1 -> event_step i o s s' ->
  balanced os s cpu -> balanced (os ++ [(i, o)]) s' cpu.
Proof.
  change (2 ^ 64 - 1) with 18446744073709551615. intros Hl [Hc Hr Ho Hj] B.
  pose proof (fun p => tally_range p cpu os) as Ht.
  assert (Hfr : frames_of cpu (bs_out s') = frames_sent cpu (os ++ [(i, o)])).
  { rewrite Ho. unfold frames_of, frames_sent. rewrite !flat_map_app.
    fold (frames_of cpu (bs_out s)) (frames_sent cpu os). rewrite (ba_frames _ _ _ B).
    f_equal. destruct o; done. }
  destruct B as [B1 B2 B3 B4 B5 B6]. destruct (decide (i = cpu)) as [->|Hne].
  - destruct Hc as (C1 & C2 & C3 & C4).
    split; try done; rewrite tally_snoc, Z.eqb_refl; cbn [andb];
      rewrite ?C1, ?C2, ?C3, ?C4, ?B2, ?B3, ?B4, ?B5;
      (rewrite u64_small; [destruct o; cbn; lia|]);
      match goal with |- context [tally ?p cpu os] => specialize (Ht p) end; destruct o; lia.
  - assert (Hsame : bc_in_use (bs_cpus s' cpu) = bc_in_use (bs_cpus s cpu) /\
      bc_n_evts (bs_cpus s' cpu) = bc_n_evts (bs_cpus s cpu) /\
      bc_n_drops_buffer (bs_cpus s' cpu) = bc_n_drops_buffer (bs_cpus s cpu) /\
      bc_n_drops_pf (bs_cpus s' cpu) = bc_n_drops_pf (bs_cpus s cpu) /\
      bc_n_drops_bug (bs_cpus s' cpu) = bc_n_drops_bug (bs_cpus s cpu))
      by (destruct (Hj cpu) as [->| ->]; [by intros ->|done..]).
    destruct Hsame as (S1 & S2 & S3 & S4 & S5).
    split; try done; rewrite ?tally_snoc, ?(proj2 (Z.eqb_neq i cpu)) by done; cbn [andb];
      rewrite ?Z.add_0_r; congruence.
Qed.
