(* ===== verification/BpfFillersSpec.v ===== *)
(** * The fillers of the eBPF probe build event records

    [FrameOK n f]: the continuation [f], on a frame under construction, appends at most
    [n] parameters and leaves a frame under construction.  It is derived for the
    fillers by composing instances for their steps; from it, every frame in the perf
    buffers is an event record. *)

From Stdlib Require Import ZArith Lia List Bool.
From Stdlib Require Import Strings.Byte.
From stdpp Require Import base tactics list numbers option.
From S2P Require Import Prelude Bytes EventDefs EventTable FillerTable ValToRing.
From S2P Require Import ValToRingSpec FlagDefs Flags Fillers FillerOps SyscallFillers AllFillers.
From S2P Require Import Ring RingSpec RingSystem BpfRing BpfRingSpec BpfProbe BpfFillers BpfProbeSpec.
Import ListNotations.
Local Open Scope Z_scope.

(** ** Frames that a failed call leaves behind. *)

Section steps.
Context (e : bpf_env) (as_ : mem).
Context `{He : !BpfOK e as_}.

(** A put keeps what is before the cursor, whatever it returns. *)
Record kept (d d' : filler_data) : Prop := {
  kp_tail : tail_ctx d' = tail_ctx d;
  kp_frame : curarg_already_on_frame d' = curarg_already_on_frame d;
  kp_before : forall x, x < tc_curoff (tail_ctx d) -> buf d' x = buf d x }.

#[local] Instance kept_preorder : PreOrder kept.
Proof.
  split; [by intros d; split|]. intros d1 d2 d3 [T1 F1 B1] [T2 F2 B2].
  split; [congruence|congruence|]. intros x Hx. rewrite B2 by (by rewrite T1). auto.
Qed.

Lemma put_at_curoff_kept d bs :
  0 <= tc_curoff (tail_ctx d) -> curoff_full d = false -> kept d (put_at_curoff d bs).
Proof.
  intros H0 Hf. destruct (put_value_put d bs H0 Hf) as [? ? ? ? ?]. by split.
Qed.

Lemma read_at_curoff_kept d val n d' r :
  0 <= tc_curoff (tail_ctx d) -> read_at_curoff e d val n = (d', r) -> kept d d'.
Proof.
  intros H0 H. unfold read_at_curoff in H. case_in H; [by simplify_eq|].
  destruct (probe_read _ _ _). simplify_eq. by apply put_at_curoff_kept.
Qed.

Lemma bpf_put_value_kept st d t val vl en d' r :
  0 <= tc_curoff (tail_ctx d) -> bpf_put_value e st d t val vl en = (d', r) -> kept d d'.
Proof.
  intros H0.
  assert (Hs : bpf_put_string e d val vl = (d', r) -> kept d d').
  { unfold bpf_put_string. intros H. case_in H; [|by simplify_eq]. case_in H; [by simplify_eq|].
    destruct (probe_read_str _ _ _). simplify_eq. by apply put_at_curoff_kept. }
  assert (Hb : bpf_put_bytebuf e st d val vl en = (d', r) -> kept d d').
  { unfold bpf_put_bytebuf. intros H. case_in H; [by simplify_eq|].
    destruct (if en then _ else _) as [d1 r1] eqn:E1.
    assert (H1 : kept d d1).
    { destruct en; [|by simplify_eq]. unfold bpf_enforce_snaplen in E1. cbv zeta in E1.
      destruct (if curarg_already_on_frame d then _ else _) as [d2 r2] eqn:E2.
      assert (H2 : kept d d2) by (case_in E2; [by simplify_eq|by eapply read_at_curoff_kept]).
      destruct r2; [|by simplify_eq].
      destruct (bpf_compute_snaplen _ _ _ _) as [d3 sl] eqn:E3. simplify_eq.
      eapply bpf_compute_snaplen_tmp in E3 as (tmp & -> & _); [|exact He].
      etrans; [exact H2|]. by split. }
    destruct r1; [|by simplify_eq]. case_in H; [by simplify_eq|].
    destruct (read_at_curoff _ _ _ _) as [d2 r2] eqn:E2.
    apply read_at_curoff_kept in E2; [|by rewrite (kp_tail _ _ H1)].
    destruct r2; simplify_eq; by etrans. }
  intros H. destruct t; cbn [bpf_put_value scalar_width] in H; auto;
    try (case_in H; simplify_eq; first [done|by apply put_at_curoff_kept]); by simplify_eq.
Qed.

Lemma framed_kept tid d d' ps : framed tid d ps -> kept d d' -> framed tid d' ps.
Proof.
  intros F [Ht Hf Hb]. pose proof (framed_bounds _ _ _ F) as [Hn Hoff].
  pose proof (framed_offset _ _ _ F) as Ho.
  destruct F as [F Hl Hr [m0 Hh]]. unfold sizeof_ppm_evt_hdr, PPM_MAX_EVENT_PARAMS in *.
  assert (Hevt : evt d' = evt d) by (unfold evt; by rewrite Ht).
  split; rewrite ?Ht; try done.
  - destruct F as [Fc Fn Fm Fo Fs Fr Fsn Fu Fl Fd].
    cbn [frame_view args curarg nargs arg_data_offset arg_data_size buffer_size consumer snaplen
         buffer rmem] in *.
    split; cbn [frame_view args curarg nargs arg_data_offset arg_data_size buffer_size consumer
                snaplen buffer rmem]; rewrite ?Hevt, ?Ht; try done.
    + intros i p Hp. rewrite <- (Fl i p Hp). unfold ld16. f_equal. apply mem_read_ext.
      intros x Hx. apply Hb. assert (i < length ps)%nat by (apply nth_error_Some; congruence).
      unfold sizeof_ppm_evt_hdr in *. lia.
    + rewrite <- Fd at 2. apply mem_read_ext. intros x Hx. apply Hb.
      rewrite length_concat_lens in Hx. unfold sizeof_ppm_evt_hdr in *. lia.
  - exists m0. rewrite Hevt. intros x Hx. unfold sizeof_ppm_evt_hdr in Hx.
    rewrite Hb by lia. apply Hh. unfold sizeof_ppm_evt_hdr. lia.
Qed.
End steps.

(** ** Continuations. *)

(** A frame under construction, or one with more parameters than the event has, or one
    too long for the perf buffer: the last two are never pushed. *)
Definition tracked (tid : Z) (d : filler_data) : Prop :=
  (exists ps, framed tid d ps) \/
  (ei_nparams (evt d) < tc_curarg (tail_ctx d) /\ 0 <= tc_curoff (tail_ctx d)) \/
  (PERF_EVENT_MAX_SIZE < tc_len (tail_ctx d) /\ tc_len (tail_ctx d) = tc_curoff (tail_ctx d)).

Lemma tracked_offset tid d : tracked tid d -> 0 <= tc_curoff (tail_ctx d).
Proof.
  intros [[ps F]|[[_ H]|[H <-]]]; [|done|unfold PERF_EVENT_MAX_SIZE, sizeof_perf_event_sample in H; lia].
  pose proof (framed_bounds _ _ _ F). unfold sizeof_ppm_evt_hdr in *. lia.
Qed.

(** Bytes put behind the cursor.  The places are masked, so in a frame that is already
    too long they may wrap to its start. *)
Record scribbled (d d' : filler_data) : Prop := {
  sc_tail : tail_ctx d' = tail_ctx d;
  sc_before : tc_curoff (tail_ctx d) <= PERF_EVENT_MAX_SIZE ->
    forall x, x < tc_curoff (tail_ctx d) -> buf d' x = buf d x }.

#[export] Instance scribbled_preorder : PreOrder scribbled.
Proof.
  split; [by intros d; split|]. intros d1 d2 d3 [T1 B1] [T2 B2].
  split; [congruence|]. intros Hp x Hx. rewrite B2 by (by rewrite T1). auto.
Qed.

Lemma tracked_scribbled tid d d' : tracked tid d -> scribbled d d' -> tracked tid d'.
Proof.
  intros Ht [Hs Hb]. pose proof (framed_kept tid d (with_on_frame d' (curarg_already_on_frame d))) as Hk.
  destruct Ht as [[ps F]|Ho]; [|right; unfold evt in *; by rewrite Hs].
  destruct (decide (tc_curoff (tail_ctx d) <= PERF_EVENT_MAX_SIZE)) as [Hle|Hgt].
  - left. exists ps. destruct (Hk ps F) as [? ? ? ?]; [split; cbn; auto|]. by split.
  - right. right. rewrite Hs, (fr_len _ _ _ F). split; [lia|done].
Qed.

Definition goes_on (r : fill_res) : Prop :=
  match r with FillDone res => res = PPM_SUCCESS | FillTail _ => True end.

Class FrameOK (e : bpf_env) (n : nat) (f : bcont) : Prop :=
  frame_ok tid st d st' d' r :
    0 <= st_snaplen st -> curarg_already_on_frame d = false -> tracked tid d ->
    0 <= tc_curarg (tail_ctx d) -> tc_curarg (tail_ctx d) + Z.of_nat n < 2 ^ 32 ->
    f (st, d) = ((st', d'), r) ->
    st_snaplen st' = st_snaplen st /\
    tc_ts (tail_ctx d') = tc_ts (tail_ctx d) /\
    tc_evt_type (tail_ctx d') = tc_evt_type (tail_ctx d) /\
    (goes_on r -> tracked tid d' /\ curarg_already_on_frame d' = false /\
                  0 <= tc_curarg (tail_ctx d') <= tc_curarg (tail_ctx d) + Z.of_nat n).

Section instances.
Context (e : bpf_env) (as_ : mem).
Context `{He : !BpfOK e as_}.

Lemma val_to_ring_success st d val vl t dyn en d' :
  __bpf_val_to_ring e st d val vl t dyn en = (d', PPM_SUCCESS) ->
  tc_curarg (tail_ctx d') = u64 (tc_curarg (tail_ctx d) + 1) /\
  curarg_already_on_frame d' = false /\ 0 <= tc_curoff (tail_ctx d').
Proof.
  rewrite val_to_ring_unfold. cbv zeta. case_if; [done|].
  destruct (bpf_put_value _ _ _ _ _ _ _) as [d1 [len|c]] eqn:E; intros H.
  - case_in H; [done|]. simplify_eq. cbn [bpf_commit_arg tail_ctx next_arg advance_tail tc_curarg
      tc_curoff curarg_already_on_frame]. split; [|split; [done|apply u64_range]].
    eapply bpf_put_value_tail in E; [|exact He]. rewrite E. unfold after_dyn. case_if; done.
  - simplify_eq. apply bpf_put_value_err in E as [?|[?|[? _]]]; done.
Qed.

Lemma val_to_ring_advance st d val vl t dyn en d' :
  0 <= st_snaplen st -> __bpf_val_to_ring e st d val vl t dyn en = (d', PPM_SUCCESS) ->
  tc_curoff (tail_ctx d) <= SCRATCH_SIZE_HALF /\ exists n, 0 <= n < 2 ^ 32 + 1 /\
    tc_curoff (tail_ctx d') = u64 (tc_curoff (tail_ctx d) + n) /\
    tc_len (tail_ctx d') = u64 (tc_len (tail_ctx d) + n).
Proof.
  intros Hs. rewrite val_to_ring_unfold. cbv zeta. change (2 ^ 32 + 1) with 4294967297.
  destruct (curoff_full d) eqn:Hf; [done|]. unfold curoff_full in Hf. bool_to_prop.
  destruct (bpf_put_value _ _ _ _ _ _ _) as [d1 [len|c]] eqn:E; intros H.
  2: { simplify_eq. apply bpf_put_value_err in E as [?|[?|[? _]]]; done. }
  case_in H; [done|]. simplify_eq. split; [done|].
  assert (Hlen : 0 <= len < 4294967296).
  { eapply (bpf_put_value_len e as_ st Hs); [done| |exact E]. intros _. apply u32_range. }
  eapply bpf_put_value_tail in E; [|exact He].
  cbn [bpf_commit_arg tail_ctx next_arg advance_tail tc_curoff tc_len]. rewrite E. unfold after_dyn.
  assert (Hadd : forall x y, u64 (u64 (x + 1) + y) = u64 (x + (1 + y))).
  { intros x y. unfold u64. rewrite Zplus_mod_idemp_l. f_equal. lia. }
  case_if; [exists len|exists (1 + len)]; (split; [lia|]); [done|]. cbn. by rewrite !Hadd.
Qed.

Lemma val_to_ring_tracked tid st d val vl t dyn en d' :
  0 <= st_snaplen st -> (curarg_already_on_frame d = true -> u8 dyn = dyn_none) -> tracked tid d ->
  0 <= tc_curarg (tail_ctx d) < 2 ^ 32 ->
  __bpf_val_to_ring e st d val vl t dyn en = (d', PPM_SUCCESS) ->
  tracked tid d' /\ curarg_already_on_frame d' = false /\
  tc_curarg (tail_ctx d') = tc_curarg (tail_ctx d) + 1.
Proof.
  change (2 ^ 32) with 4294967296. intros Hs Hf Ht Hc H.
  destruct (val_to_ring_success _ _ _ _ _ _ _ _ H) as (Hc' & Hf' & Hoff').
  rewrite u64_small in Hc' by lia. split; [|done].
  destruct (val_to_ring_tail e as_ st _ _ _ _ _ _ _ _ H) as [_ Hty].
  destruct Ht as [[ps F]|[Hover|[Hlong Heq]]].
  - destruct (decide (tc_curarg (tail_ctx d) < ei_nparams (evt d))) as [Hlt|Hge].
    + apply (val_to_ring_framed e as_ st Hs tid d ps) in H; [|done..].
      destruct H as [(_ & F' & _)|[?|[?|[? _]]]]; [|done..]. left. eauto.
    + right. left. unfold evt in *. rewrite Hty. lia.
  - right. left. unfold evt in *. rewrite Hty. lia.
  - right. right. destruct (val_to_ring_advance _ _ _ _ _ _ _ _ Hs H) as (Hh & n & Hn & H1 & H2).
    rewrite scratch_half in Hh. change (2 ^ 32 + 1) with 4294967297 in Hn.
    unfold PERF_EVENT_MAX_SIZE, sizeof_perf_event_sample in *. rewrite H1, H2, Heq.
    rewrite u64_small by lia. lia.
Qed.

(** A step that is one call. *)
Lemma bstep_ok n (f : sysdig_bpf_settings -> filler_data -> filler_data * Z) next :
  (forall st d, exists d0 val vl t dyn en, tail_ctx d0 = tail_ctx d /\
     (forall tid, tracked tid d -> tracked tid d0) /\
     (curarg_already_on_frame d = false -> curarg_already_on_frame d0 = true -> u8 dyn = dyn_none) /\
     (f st d = __bpf_val_to_ring e st d0 val vl t dyn en \/
      exists d1 r1, f st d = (d1, r1) /\ r1 <> PPM_SUCCESS /\ tail_ctx d1 = tail_ctx d)) ->
  FrameOK e n next -> FrameOK e (S n) (bstep f next).
Proof.
  intros Hf Hn tid st d st' d' r Hs Hfr Ht H0 Hc H. unfold bstep in H.
  change (2 ^ 32) with 4294967296 in *.
  destruct (Hf st d) as (d0 & val & vl & t & dyn & en & Ht0 & Htr0 & Hf0 & [E|E]).
  2: { destruct E as (d1 & r1 & E & Hr1 & Ht1). rewrite E in H.
       rewrite (proj2 (Z.eqb_neq _ _) Hr1) in H. simplify_eq.
       rewrite Ht1. repeat split_and; try done. all: intros Hr; by destruct Hr1. }
  rewrite E in H.
  destruct (__bpf_val_to_ring _ _ _ _ _ _ _ _) as [d1 r1] eqn:E1.
  destruct (val_to_ring_tail e as_ st _ _ _ _ _ _ _ _ E1) as [Hts Hty]. rewrite Ht0 in Hts, Hty.
  case_in H; bool_to_prop.
  - subst r1. apply (val_to_ring_tracked tid) in E1 as (Ht1 & Hf1 & Hc1); auto; try congruence.
    2: { rewrite Ht0. change (2 ^ 32) with 4294967296. lia. }
    rewrite Ht0 in Hc1.
    destruct (Hn tid st d1 st' d' r Hs Hf1 Ht1 ltac:(lia) ltac:(change (2 ^ 32) with 4294967296; lia) H)
      as (S1 & S2 & S3 & S4).
    repeat split_and; try congruence. intros Hr. destruct (S4 Hr) as (? & ? & ?).
    repeat split_and; try done; lia.
  - simplify_eq. repeat split_and; try done. all: intros Hr; done.
Qed.

#[local] Ltac one_call := intros st d; do 6 eexists; split; [reflexivity|]; split; [by intros|];
  split; [congruence|].

Lemma put_ok n val next : FrameOK e n next -> FrameOK e (S n) (put e val next).
Proof.
  apply bstep_ok. intros st d. unfold bpf_val_to_ring. case_if.
  - exists d, 0, 0, PT_NONE, dyn_none, false. repeat split_and; auto. right. by exists d, PPM_FAILURE_BUG.
  - do 6 eexists. split; [reflexivity|]. split; [by intros|]. split; [congruence|]. by left.
Qed.

Lemma put_type_ok n val t next : FrameOK e n next -> FrameOK e (S n) (put_type e val t next).
Proof. apply bstep_ok. one_call. by left. Qed.

Lemma put_dyn_ok n val t i next : FrameOK e n next -> FrameOK e (S n) (put_dyn e val t i next).
Proof. apply bstep_ok. one_call. by left. Qed.

Lemma put_data_ok n fd val len next : FrameOK e n next -> FrameOK e (S n) (put_data e fd val len next).
Proof.
  apply bstep_ok. intros st d. do 6 eexists. split; [|split; [|split; [|by left; reflexivity]]]; try done.
  intros tid Ht. eapply tracked_scribbled; [exact Ht|]. by split.
Qed.

Lemma bdone_ok : FrameOK e 0 bdone.
Proof.
  intros tid st d st' d' r Hs Hf Ht H0 Hc H. unfold bdone in H. simplify_eq.
  repeat split_and; try done. intros _. repeat split_and; try done. lia.
Qed.

Lemma bfail_ok res : FrameOK e 0 (bfail res).
Proof.
  intros tid st d st' d' r Hs Hf Ht H0 Hc H. unfold bfail in H. simplify_eq.
  repeat split_and; try done. intros _. repeat split_and; try done. lia.
Qed.

Lemma with_data_ok n f : (forall d, FrameOK e n (f d)) -> FrameOK e n (with_data f).
Proof. intros Hf tid st d st' d' r Hs Hfr Ht H0 Hc H. by eapply (Hf d). Qed.

Lemma with_both_ok n (f : bstate -> bcont) : (forall s, FrameOK e n (f s)) -> FrameOK e n (fun s => f s s).
Proof. intros Hf tid st d st' d' r Hs Hfr Ht H0 Hc H. by eapply (Hf (st, d)). Qed.

Lemma bread_ok n from len next : (forall bs, FrameOK e n (next bs)) -> FrameOK e n (bread e from len next).
Proof.
  intros Hn tid st d st' d' r Hs Hf Ht H0 Hc H. unfold bread in H.
  destruct (probe_read _ _ _) as [bs r0]. case_in H; [by eapply (Hn bs)|].
  unfold bfail in H. simplify_eq. repeat split_and; try done. all: by intros ?.
Qed.

Lemma frame_ok_weaken n m f : (n <= m)%nat -> FrameOK e n f -> FrameOK e m f.
Proof.
  intros Hle Hf tid st d st' d' r Hs Hfr Ht H0 Hc H.
  destruct (Hf tid st d st' d' r Hs Hfr Ht H0 ltac:(lia) H) as (S1 & S2 & S3 & S4).
  repeat split_and; try done. intros Hr. destruct (S4 Hr) as (? & ? & ?).
  repeat split_and; try done; lia.
Qed.

Lemma if_ok n m (b : bool) f g :
  FrameOK e n f -> FrameOK e m g -> FrameOK e (Nat.max n m) (if b then f else g).
Proof. intros Hf Hg. destruct b; (eapply frame_ok_weaken; [|eassumption]; lia). Qed.

(** A call whose result is ignored appends a parameter or keeps the frame. *)
Lemma put_unchecked_ok n val next : FrameOK e n next -> FrameOK e (S n) (put_unchecked e val next).
Proof.
  intros Hn tid st d st' d' r Hs Hf Ht H0 Hc H. unfold put_unchecked in H.
  change (2 ^ 32) with 4294967296 in Hc.
  destruct (bpf_val_to_ring e st d val) as [d1 r1] eqn:E. cbn [fst] in H.
  unfold bpf_val_to_ring in E. case_in E.
  { simplify_eq. eapply (frame_ok_weaken n) in H; eauto. }
  destruct (val_to_ring_tail e as_ st _ _ _ _ _ _ _ _ E) as [Hts Hty].
  assert (Hd1 : tracked tid d1 /\ curarg_already_on_frame d1 = false /\
                0 <= tc_curarg (tail_ctx d1) <= tc_curarg (tail_ctx d) + 1).
  { destruct (decide (r1 = PPM_SUCCESS)) as [->|Hr].
    - apply (val_to_ring_tracked tid) in E as (? & ? & ?); auto;
        [|change (2 ^ 32) with 4294967296; lia]. repeat split_and; auto; lia.
    - pose proof (tracked_offset _ _ Ht) as Hoff.
      rewrite val_to_ring_unfold in E. cbv zeta in E. change (after_dyn d dyn_none) with d in E.
      assert (Hk : kept d d1).
      { case_in E; [simplify_eq; by split|].
        destruct (bpf_put_value _ _ _ _ _ _ _) as [d2 r2] eqn:E2.
        eapply bpf_put_value_kept in E2; [|exact He|done].
        destruct r2; [case_in E|]; by simplify_eq. }
      split; [|split; [by rewrite (kp_frame _ _ Hk)|rewrite (kp_tail _ _ Hk); lia]].
      eapply tracked_scribbled; [exact Ht|]. destruct Hk. by split. }
  destruct Hd1 as (Ht1 & Hf1 & Hc1).
  destruct (Hn tid st d1 st' d' r Hs Hf1 Ht1 ltac:(lia) ltac:(change (2 ^ 32) with 4294967296; lia) H)
    as (S1 & S2 & S3 & S4).
  repeat split_and; try congruence. intros Hr. destruct (S4 Hr) as (? & ? & ?).
  repeat split_and; try done; lia.
Qed.
End instances.

Lemma done_any e n : FrameOK e n bdone.
Proof. eapply frame_ok_weaken; [|apply bdone_ok]. lia. Qed.

Lemma fail_any e n res : FrameOK e n (bfail res).
Proof. eapply frame_ok_weaken; [|apply bfail_ok]. lia. Qed.

(** The end of [sys_socket_x] and of [cpu_hotplug_e]: a setting or a field of the CPU
    changes, the frame does not. *)
Lemma socket_ops_ok e n (g : sysdig_bpf_settings -> filler_data -> sysdig_bpf_settings) :
  (forall st d, st_snaplen (g st d) = st_snaplen st) ->
  FrameOK e n (fun '(st, d) => bdone (g st d, d)).
Proof.
  intros Hg tid st d st' d' r Hs Hf Ht H0 Hc H. unfold bdone in H. simplify_eq.
  repeat split_and; try done. intros _. repeat split_and; try done. lia.
Qed.

Lemma hotplug_ok e n : FrameOK e n (fun '(st, d) => bdone (st, with_hotplug d 0)).
Proof.
  intros tid st d st' d' r Hs Hf Ht H0 Hc H. unfold bdone in H. simplify_eq.
  repeat split_and; try done. intros _. repeat split_and; try done; [|cbn; lia].
  eapply tracked_scribbled; [exact Ht|]. by split.
Qed.

Lemma autofill_ok e as_ `{He : !BpfOK e as_} m n l :
  FrameOK e (m + n) (bpf_autofill_loop e l m bdone).
Proof.
  revert l; induction m as [|m IH]; intros [|a l]; try apply done_any. cbn [bpf_autofill_loop Nat.add].
  eapply put_ok; [exact He|]. apply IH.
Qed.

Ltac frame_steps He :=
  repeat first
    [ apply done_any | apply fail_any | apply hotplug_ok
    | eapply put_ok; [exact He|] | eapply put_type_ok; [exact He|] | eapply put_dyn_ok; [exact He|]
    | eapply put_data_ok; [exact He|] | eapply put_unchecked_ok; [exact He|]
    | apply with_data_ok; intros ? | apply bread_ok; intros ?
    | apply socket_ops_ok; intros; repeat case_if; done
    | match goal with
      | |- FrameOK _ _ (if ?b then _ else _) => destruct b
      | |- FrameOK _ _ ((if ?b then _ else _) _) => destruct b
      | |- FrameOK _ _ (match ?o with _ => _ end) => destruct o
      end ].

#[local] Create HintDb bpf_fillers.
#[local] Hint Unfold
  bpf_sys_empty bpf_sys_single bpf_sys_single_x bpf_sys_autofill bpf_sys_generic
  bpf_sys_open_x bpf_sys_openat_x bpf_sys_creat_x bpf_sys_read_x bpf_sys_write_x
  bpf_sys_unlinkat_x bpf_sys_mkdirat_x bpf_sys_linkat_x bpf_sys_renameat_x
  bpf_sys_renameat2_x bpf_sys_symlinkat_x bpf_sys_fchmodat_x bpf_sys_chmod_x
  bpf_sys_fchmod_x bpf_sys_mount_e bpf_sys_lseek_e bpf_sys_llseek_e bpf_sys_fcntl_e
  bpf_sys_flock_e bpf_sys_access_e bpf_sys_pipe_x bpf_sys_eventfd_e bpf_sys_sendfile_e
  bpf_sys_sendfile_x bpf_timespec_parse bpf_sys_nanosleep_e bpf_sys_futex_e
  bpf_sys_brk_munmap_mmap_x bpf_sys_mmap_e bpf_sys_pagefault_e
  bpf_sys_getrlimit_setrlimit_e bpf_sys_getrlimit_setrlrimit_x bpf_sys_prlimit_e
  bpf_sys_prlimit_x bpf_sys_accept4_e bpf_sys_shutdown_e bpf_sys_socket_x
  bpf_sys_setns_e bpf_sys_unshare_e bpf_sys_getresuid_and_gid_x bpf_sys_procexit_e
  bpf_sched_switch_e bpf_sys_signaldeliver_e bpf_sys_ptrace_e bpf_parse_ptrace_addr
  bpf_parse_ptrace_data bpf_sys_ptrace_x bpf_sys_bpf_x bpf_semop_turn bpf_sys_semop_x
  bpf_sys_semget_e bpf_sys_semctl_e bpf_sys_sysdigevent_e bpf_cpu_hotplug_e
  bpf_sched_drop bpf_sys_pread64_e bpf_sys_preadv64_e bpf_sys_pwrite64_e
  bpf_tcp_retransmit_skb_e bpf_tcp_rcv_established_e bpf_tcp_drop_e bpf_tcp_connect_x
  bpf_tcp_set_state_e bpf_cpu_analysis_e
  : bpf_fillers.

(** Every program of the table keeps the frame well formed. *)
Lemma bpf_tail_map_ok v id f e as_ :
  BpfOK e as_ -> bpf_tail_map v id = Some f -> FrameOK e 16 (f e).
Proof.
  intros He H. destruct id; cbn [bpf_tail_map] in H; simplify_eq;
    autounfold with bpf_fillers; frame_steps He.
  - eapply frame_ok_weaken; [|eapply (autofill_ok _ _ _ 0)].
    unfold PPM_MAX_AUTOFILL_ARGS. lia.
  - apply (with_both_ok e 16 (fun s => put e (st_sampling_ratio (fst s)) bdone)).
    intros s. frame_steps He.
Qed.

(** No program of the table tail calls another one. *)
Definition ends (f : bcont) : Prop := forall s s' id, f s <> (s', FillTail id).

Lemma bstep_ends f next : ends next -> ends (bstep f next).
Proof.
  intros Hn [st d] s' id. unfold bstep. destruct (f st d) as [d1 r]. case_if; [apply Hn|done].
Qed.

Lemma bread_ends e from n next : (forall bs, ends (next bs)) -> ends (bread e from n next).
Proof. intros Hn s s' id. unfold bread. destruct (probe_read _ _ _). case_if; [apply Hn|done]. Qed.

Lemma put_unchecked_ends e v next : ends next -> ends (put_unchecked e v next).
Proof. intros Hn [st d] s' id. apply Hn. Qed.

Lemma with_data_ends f : (forall d, ends (f d)) -> ends (with_data f).
Proof. intros Hf s s' id. apply Hf. Qed.

Lemma autofill_ends e l n : ends (bpf_autofill_loop e l n bdone).
Proof. revert n; induction l as [|a l IH]; intros [|n]; try done. cbn. apply bstep_ends, IH. Qed.

Ltac ends_steps :=
  repeat first
    [ apply autofill_ends
    | match goal with
      | |- ends bdone => intros ? ? ?; discriminate
      | |- ends (bfail _) => intros ? ? ?; discriminate
      | |- ends (put _ _ _) => apply bstep_ends
      | |- ends (put_type _ _ _ _) => apply bstep_ends
      | |- ends (put_dyn _ _ _ _ _) => apply bstep_ends
      | |- ends (put_data _ _ _ _ _) => apply bstep_ends
      | |- ends (put_unchecked _ _ _) => apply put_unchecked_ends
      | |- ends (with_data _) => apply with_data_ends; intros ?
      | |- ends (bread _ _ _ _) => apply bread_ends; intros ?
      | |- ends (if ?b then _ else _) => destruct b
      | |- ends ((if ?b then _ else _) _) => destruct b
      | |- ends (match ?o with _ => _ end) => destruct o
      | |- ends (fun _ => _) => intros [? ?] ? ?; cbn [bdone]
      end ].

Lemma bpf_tail_map_ends v id f e : bpf_tail_map v id = Some f -> ends (f e).
Proof.
  intros H. destruct id; cbn [bpf_tail_map] in H; simplify_eq;
    autounfold with bpf_fillers; ends_steps; try done.
  apply bstep_ends. by intros ? ? ?.
Qed.

#[export] Instance bpf_tail_map_chained v : Chained (bpf_tail_map v).
Proof.
  refine {| rank := fun _ => 0%nat |}; [intros; unfold MAX_TAIL_CALL_CNT; lia|].
  intros id f e b b' id' Hf H. by destruct (bpf_tail_map_ends v id f e Hf b b' id').
Qed.

(** ** The frames of a run. *)

Lemma tracked_start tid e d :
  tid = event_tid e -> tracked tid d -> tracked tid (start_frame e d).
Proof.
  intros -> Ht. unfold start_frame. case_if; [|done]. bool_to_prop.
  destruct Ht as [[ps F]|[[Ho _]|[Ho _]]].
  - pose proof (framed_bounds _ _ _ F) as [Hn Hoff]. rewrite <- (fr_len _ _ _ F) in Hoff.
    unfold sizeof_ppm_evt_hdr in *. lia.
  - right. left. split; [done|]. cbn [write_evt_hdr tail_ctx tc_curoff]. unfold sizeof_ppm_evt_hdr.
    pose proof (ei_nparams_range (tc_evt_type (tail_ctx d))). unfold evt. lia.
  - unfold PERF_EVENT_MAX_SIZE, sizeof_perf_event_sample in Ho. lia.
Qed.

Lemma start_frame_keeps e d :
  tc_curarg (tail_ctx (start_frame e d)) = tc_curarg (tail_ctx d) /\
  curarg_already_on_frame (start_frame e d) = curarg_already_on_frame d /\
  tc_ts (tail_ctx (start_frame e d)) = tc_ts (tail_ctx d) /\
  tc_evt_type (tail_ctx (start_frame e d)) = tc_evt_type (tail_ctx d).
Proof. unfold start_frame. by case_if. Qed.

(** A pushed frame is the record of an event of the tail context's type and time. *)
Definition record_of (e : bpf_env) (ts ty : Z) (f : list byte) : Prop :=
  exists ev, f = bytes_of_event ev /\ ev_ts ev = ts /\ ev_tid ev = event_tid e /\
    ev_type ev = ty /\ Z.of_nat (length (ev_params ev)) = ei_nparams (g_event_info ty).

Lemma push_tracked e d d' f res :
  tracked (event_tid e) d -> push_evt_frame e d = (d', Pushed f, res) ->
  record_of e (tc_ts (tail_ctx d)) (tc_evt_type (tail_ctx d)) f.
Proof.
  intros Ht H. assert (Hn : tc_curarg (tail_ctx d) = ei_nparams (evt d)).
  { unfold push_evt_frame in H. cbv zeta in H. case_in H; [done|]. by bool_to_prop. }
  assert (Hm : tc_len (tail_ctx d) <= PERF_EVENT_MAX_SIZE).
  { unfold push_evt_frame in H. cbv zeta in H. case_in H; [done|]. case_in H; [done|]. bool_to_prop. lia. }
  destruct Ht as [[ps F]|[[Ho _]|[Ho _]]]; [|lia..].
  destruct (push_evt_frame_bytes _ _ _ _ _ _ _ F H) as (-> & _ & _ & _).
  pose proof (filled_curarg _ _ (fr_filled _ _ _ F)) as Hc. simpl in Hc.
  exists (mk_evt (tc_ts (tail_ctx d)) (event_tid e) (tc_evt_type (tail_ctx d)) ps).
  repeat split_and; try done. cbn [ev_params]. unfold evt in Hn. lia.
Qed.

(** Programs whose continuations are all well behaved. *)
Definition table_ok (e : bpf_env) (tail_map : ppm_filler_id -> option bpf_filler) : Prop :=
  forall id f, tail_map id = Some f -> FrameOK e 16 (f e).

Lemma run_filler_records e tail_map calls : table_ok e tail_map -> forall st f d st' d' p res calls',
  FrameOK e 16 (f e) ->
  0 <= st_snaplen st -> curarg_already_on_frame d = false ->
  tracked (event_tid e) (start_frame e d) ->
  0 <= tc_curarg (tail_ctx d) -> tc_curarg (tail_ctx d) + 16 * (Z.of_nat calls + 1) < 2 ^ 32 ->
  run_filler tail_map e calls st f d = ((st', d'), p, res, calls') ->
  st_snaplen st' = st_snaplen st /\
  forall fr, p = Pushed fr -> record_of e (tc_ts (tail_ctx d)) (tc_evt_type (tail_ctx d)) fr.
Proof.
  intros Htab. induction calls as [|calls IH];
    intros st f d st' d' p res calls' Hf Hs Hfr Ht H0 Hc H; cbn [run_filler] in H;
    destruct (start_frame_keeps e d) as (K1 & K2 & K3 & K4);
    destruct (f e _) as [[st1 d1] r] eqn:Ef;
    (edestruct (Hf (event_tid e)) as (S1 & S2 & S3 & S4); [exact Hs|by rewrite K2|exact Ht
       |by rewrite K1|rewrite K1; lia|exact Ef|]); rewrite K3 in S2; rewrite K4 in S3.
  all: destruct r as [r0|id'].
  all: try (case_in H; [|by simplify_eq]; bool_to_prop; destruct (S4 ltac:(done)) as (T & _);
            destruct (push_evt_frame e d1) as [[d2 p2] r1] eqn:Ep; simplify_eq; split; [done|];
            intros fr ->; apply push_tracked in Ep; [|done]; by rewrite <- S2, <- S3).
  - by simplify_eq.
  - destruct (tail_map id') as [g|] eqn:Eg; [|by simplify_eq]. destruct (S4 I) as (T & T1 & T2).
    rewrite K1 in T2.
    set (d2 := with_fd (with_on_frame d1 false) (-1)) in H.
    assert (Ht2 : tracked (event_tid e) d2) by (eapply tracked_scribbled; [exact T|]; by split).
    apply IH in H as [H H']; auto.
    + split; [by rewrite H|]. by rewrite <- S2, <- S3.
    + by eapply Htab.
    + by rewrite S1.
    + by apply tracked_start.
    + cbn. lia.
    + cbn. lia.
Qed.

(** The types an event can be recorded under. *)
Definition recorded_type (cpu hotplug ty ty' : Z) : Prop :=
  if (cpu =? 0) && negb (hotplug =? 0) then ty' = PPME_CPU_HOTPLUG_E
  else ty' = ty \/ ty' = PPME_DROP_E \/ ty' = PPME_DROP_X.

Lemma prepare_filler_tail e cpu ty flags s s' id :
  prepare_filler e cpu ty flags s = (s', Some id) ->
  let t := bc_tail (bs_cpus s' cpu) in
  tc_curarg t = 0 /\ tc_len t = 0 /\
  tc_ts t = u64 (st_boot_time (bs_settings s) + ktime_get_ns e) /\
  recorded_type cpu (bc_hotplug (bs_cpus s cpu)) ty (tc_evt_type t) /\
  st_snaplen (bs_settings s') = st_snaplen (bs_settings s) /\ bs_out s' = bs_out s.
Proof.
  intros H. unfold prepare_filler in H. cbv zeta in H. case_in H; [done|].
  unfold acquire_local_state in H. destruct (bc_in_use (bs_cpus s cpu)); [done|].
  unfold recorded_type. cbn [set_in_use bc_hotplug] in H.
  set (hot := (cpu =? 0) && negb (bc_hotplug (bs_cpus s cpu) =? 0)) in *.
  destruct (bpf_drop_event _ _ _ _ _) as [[st' t'] drop] eqn:Ed.
  destruct drop; [done|]. case_in H; [|done].
  injection H as <- <-. cbn [set_cpu bs_cpus bs_settings set_settings bs_out].
  rewrite upd_same. cbn [set_counters set_tail bc_tail].
  assert (Hty : if hot then tc_evt_type t' = PPME_CPU_HOTPLUG_E
                else tc_evt_type t' = ty \/ tc_evt_type t' = PPME_DROP_E \/ tc_evt_type t' = PPME_DROP_X).
  { destruct hot; unfold bpf_drop_event in Ed.
    - change (has_flag UF_NEVER_DROP UF_NEVER_DROP) with true in Ed.
      repeat case_in Ed; by simplify_eq.
    - repeat case_in Ed; simplify_eq; auto. }
  assert (Hst : st_snaplen st' = st_snaplen (bs_settings s))
    by (unfold bpf_drop_event in Ed; repeat case_in Ed; by simplify_eq).
  apply drop_event_tail in Ed as (? & ? & ?). done.
Qed.

Lemma prepare_filler_out e cpu ty flags s s' r :
  prepare_filler e cpu ty flags s = (s', r) ->
  bs_out s' = bs_out s /\ st_snaplen (bs_settings s') = st_snaplen (bs_settings s).
Proof.
  intros Ep. unfold prepare_filler, acquire_local_state in Ep. cbv zeta in Ep.
  destruct (_ && _); [by simplify_eq|]. destruct (bc_in_use _); [by simplify_eq|].
  destruct (bpf_drop_event _ _ _ _ _) as [[st' t'] drop] eqn:Ed.
  assert (Hst : st_snaplen st' = st_snaplen (bs_settings s))
    by (unfold bpf_drop_event in Ed; repeat case_in Ed; by simplify_eq).
  destruct drop; [by simplify_eq|]. destruct (event_filler _); by simplify_eq.
Qed.

(** The frames one call adds. *)
Lemma call_filler_records tail_map tl e cpu ty flags s :
  table_ok e tail_map -> 0 <= st_snaplen (bs_settings s) ->
  let s' := call_filler tail_map tl e cpu ty flags s in
  st_snaplen (bs_settings s') = st_snaplen (bs_settings s) /\
  exists new, bs_out s' = bs_out s ++ new /\ (length new <= 1)%nat /\
    Forall (fun x => fst x = cpu /\ exists ty',
      recorded_type cpu (bc_hotplug (bs_cpus s cpu)) ty ty' /\
      record_of e (u64 (st_boot_time (bs_settings s) + ktime_get_ns e)) ty' (snd x)) new.
Proof.
  intros He Hs s'. unfold s', call_filler.
  destruct (prepare_filler _ _ _ _ _) as [s1 [id|]] eqn:Ep.
  2: { apply prepare_filler_out in Ep as [Ho Hsn]. split; [done|]. exists []. rewrite app_nil_r. auto. }
  apply prepare_filler_tail in Ep as (H1 & H2 & H3 & H4 & H5 & H6).
  destruct (tail_map id) as [f|] eqn:Ef.
  2: { split; [done|]. exists []. split; [|auto]. cbn [set_cpu bs_out]. by rewrite app_nil_r. }
  unfold filler_program. set (c := bs_cpus s1 cpu) in *.
  destruct (init_filler_data c) as [d0 r0] eqn:Ei. unfold init_filler_data in Ei.
  injection Ei as Ed Er.
  destruct (if r0 =? PPM_SUCCESS then _ else _) as [[[[st d] p] res] calls] eqn:E.
  set (s2 := after_filler (set_settings s1 st) cpu d p res).
  destruct (after_filler_step (set_settings s1 st) cpu d p res) as (_ & _ & _ & _ & _ & _ & Hst & Ho & _).
  fold s2 in Ho, Hst. cbn [set_settings bs_out bs_settings] in Ho, Hst. rewrite H6 in Ho.
  assert (Hrun : st_snaplen st = st_snaplen (bs_settings s) /\
    forall fr, p = Pushed fr -> record_of e (tc_ts (bc_tail c)) (tc_evt_type (bc_tail c)) fr).
  { case_in E; [|by simplify_eq]. subst d0. eapply run_filler_records in E; cbn [tail_ctx] in E.
    - by rewrite H5 in E.
    - exact He.
    - by eapply He.
    - by rewrite H5.
    - done.
    - unfold start_frame. cbn [tail_ctx]. rewrite H2. cbn [Z.eqb].
      left. exists []. by apply write_evt_hdr_framed.
    - cbn [tail_ctx]. by rewrite H1.
    - cbn [tail_ctx]. by rewrite H1. }
  destruct Hrun as [Hsn Hrec]. split.
  { destruct calls; [|destruct tl; cbn [set_cpu bs_settings]]; by rewrite Hst. }
  exists (match p with Pushed fr => [(cpu, fr)] | _ => [] end). split.
  - destruct calls; [done|]. by destruct tl.
  - split; [destruct p; cbn; lia|]. destruct p as [fr| |]; [|done..]. constructor; [|constructor].
    split; [done|]. exists (tc_evt_type (bc_tail c)). split; [done|]. cbn [snd].
    rewrite <- H3. by apply Hrec.
Qed.

(** ** The properties. *)

Definition idle_cpu : bpf_cpu :=
  mk_bcpu (mk_tail 0 0 0 0 0 0) 0 0 0 0 0 false mem_zero mem_zero.

(** The probe when the capture starts. *)
Definition bpf_start (st : sysdig_bpf_settings) : bpf_sys := mk_bsys st (fun _ => idle_cpu) [].

Definition sample_view : bpf_view :=
  mk_view false sample_task 8 (fun _ => None) 0 0 None 0 0.
