(* ===== verification/BpfModule.v ===== *)
(** * The two drivers record the same events

    The kernel module ([ppm_fillers.c]) and the eBPF probe ([bpf/fillers.h]) implement
    each filler twice.  [Same t i f g] relates the rest of a module filler to the rest
    of an eBPF one when [i] parameters of an event of type [t] are written: if both
    succeed they have recorded the same parameters.  It is found for a pair of fillers
    by composing lemmas for their steps. *)

From Stdlib Require Import Strings.Byte.
From Stdlib Require Import ZArith Lia List Bool.
From stdpp Require Import base tactics list numbers option.
From S2P Require Import Prelude Bytes EventDefs EventTable FillerTable ValToRing.
From S2P Require Import ValToRingSpec FlagDefs Flags Fillers FillerOps SyscallFillers.
From S2P Require Import SockFillers ProcFillers AllFillers FillerStorage FillerFaults FillerData.
From S2P Require Import Ring RingSpec BpfRing BpfRingSpec BpfProbe BpfFillers BpfProbeSpec.
From S2P Require Import BpfFillersSpec.
Import ListNotations.
Local Open Scope Z_scope.

(** [new_encode_dev] of the kernel, by which the module gets the number of a device. *)
Definition new_encode_dev (dev : Z) : Z :=
  let major := Z.shiftr dev 20 in
  let minor := Z.land dev (Z.shiftl 1 20 - 1) in
  u32 (Z.lor (Z.lor (Z.land minor 255) (Z.shiftl major 8))
         (Z.shiftl (minor - Z.land minor 255) 12)).

(** The inode of an open file and the device it is on. *)
Definition file_inode (e : bpf_env) (fd : Z) : option bpf_inode :=
  match fdtable e fd with Some file => f_inode file | None => None end.
Definition file_dev (e : bpf_env) (fd : Z) : option Z :=
  match file_inode e fd with
  | Some ino => option_map new_encode_dev (i_sb_dev ino)
  | None => None
  end.

(** One kernel seen by both drivers: the same memory of the task, the same arguments and
    result of the call, and one table of open files, whose files have the device and the
    inode the kernel says they have.  The files are asked for only inside the table;
    [fget], which the module uses for a pipe, finds none behind it. *)
Class SameKernel (k : kenv) (e : bpf_env) (user : mem) (tk : task_env) : Prop := {
  sk_kernel : KernelOK k user;
  sk_bpf : BpfOK e user;
  sk_args : sc_args e = syscall_args k;
  sk_retval : sc_retval e = syscall_retval k;
  sk_null : snd (probe_read_str e 0 PPM_MAX_ARG_SIZE) = - EFAULT;
  sk_max_fds : files_max_fds e = Some (max_fds k);
  sk_table_size : 0 <= max_fds k < 2 ^ 31;
  sk_file_dev fd : 0 <= fd < max_fds k ->
    fd_sb_dev k fd = file_dev e fd;
  sk_file_ino fd : 0 <= fd < max_fds k -> fd_ino tk fd = option_map i_ino (file_inode e fd);
  sk_fget fd : max_fds k <= fd -> fd_ino tk fd = None;
  sk_super fd ino : file_inode e fd = Some ino -> is_Some (i_sb_dev ino) }.

(** What the kernel says of the descriptors a call has made: one that [open] and its like
    return is in the table, and those [pipe] stores are not negative. *)
Definition own_fds (k : kenv) (user : mem) (t : Z) : Prop :=
  (t ∈ [PPME_SYSCALL_OPEN_X; PPME_SYSCALL_OPENAT_2_X; PPME_SYSCALL_CREAT_X] ->
     syscall_retval k < max_fds k) /\
  (t = PPME_SYSCALL_PIPE_X -> 0 <= sfield (mem_read user (sc_arg k 0) 8) 0 4).

#[export] Existing Instance sk_kernel.
#[export] Existing Instance sk_bpf.

(** The two states after [i] parameters: the same list, and as much room in the ring as
    the scratch area has. *)
Record related (tid t : Z) (i : nat) (s : fstate) (b : bstate) (ps : list (list byte)) : Prop := {
  re_filled : filled s ps;
  re_framed : framed tid (snd b) ps;
  re_type : event_type (args s) = t;
  re_btype : tc_evt_type (tail_ctx (snd b)) = t;
  re_nargs : nargs (args s) = ei_nparams (g_event_info t);
  re_room : 2 ^ 18 <= buffer_size (args s);
  re_compat : compat (args s) = false;
  re_socketcall : is_socketcall (args s) = false;
  re_frame : curarg_already_on_frame (snd b) = false;
  re_snaplen : 0 <= st_snaplen (fst b);
  re_len : length ps = i }.

Class Same (t : Z) (i : nat) (f : filler) (g : bcont) : Prop :=
  same_params tid s b ps s' b' :
    related tid t i s b ps -> f s = (s', PPM_SUCCESS) -> g b = (b', FillDone PPM_SUCCESS) ->
    exists ps', filled s' ps' /\ framed tid (snd b') ps' /\
      tc_ts (tail_ctx (snd b')) = tc_ts (tail_ctx (snd b)) /\
      tc_evt_type (tail_ctx (snd b')) = t /\ nargs (args s') = ei_nparams (g_event_info t).

Section same.
Context (k : kenv) (e : bpf_env) (user : mem) (tk : task_env).
Context `{HS : !SameKernel k e user tk}.
Context (t : Z).

Lemma same_done i : Same t i add_sentinel bdone.
Proof.
  intros tid s b ps s' b' R Hf Hg. unfold add_sentinel, bdone in *. simplify_eq.
  exists ps. by destruct R.
Qed.

(** A module push and an eBPF call that write the same bytes. *)
Lemma same_push i v vl fu di (call : sysdig_bpf_settings -> filler_data -> filler_data * Z) f g
    pt v' dyn :
  (forall st d, tc_curarg (tail_ctx d) = Z.of_nat i -> tc_evt_type (tail_ctx d) = t ->
     (i < 32)%nat -> call st d = __bpf_val_to_ring e st d v' 0 pt dyn false) ->
  (forall tid s b ps, related tid t i s b ps -> curarg (args s) < nargs (args s) ->
     (exists d1, __bpf_val_to_ring e (fst b) (snd b) v' 0 pt dyn false = (d1, PPM_SUCCESS)) ->
     val_encoding k user s v vl fu di = bpf_param e user (fst b) (snd b) pt v' 0 dyn false) ->
  Same t (S i) f g -> Same t i (push k v vl fu di f) (bstep call g).
Proof.
  intros Hcall Henc Hn tid s [st d] ps s' b' R Hf Hg.
  destruct R as [R1 R2 R3 R4 R5 R6 R7 R8 R8' R9 R10]; cbn [fst snd] in *.
  pose proof (filled_curarg _ _ R1) as Hc1.
  pose proof (filled_curarg _ _ (fr_filled _ _ _ R2)) as Hc2. simpl in Hc2.
  destruct (push_success k user _ _ _ _ _ _ _ _ R1 Hf) as (s1 & F1 & _ & (c & o & z & Ha) & Hf1).
  assert (Hlt : curarg (args s) < nargs (args s)).
  { pose proof (filled_curarg _ _ F1) as Hc. pose proof (filled_nargs _ _ F1) as Hn1.
    rewrite length_app in Hc. rewrite Ha in Hc, Hn1. cbn [set_cursor curarg nargs length] in *. lia. }
  pose proof (ei_nparams_range t) as Hr. unfold PPM_MAX_EVENT_PARAMS in Hr.
  unfold bstep in Hg. rewrite Hcall in Hg by lia.
  destruct (__bpf_val_to_ring _ _ _ _ _ _ _ _) as [d1 r1] eqn:E.
  case_in Hg; [|simplify_eq]. bool_to_prop. subst r1.
  assert (Hev : evt d = g_event_info t) by (unfold evt; by rewrite R4).
  destruct (val_to_ring_tail e user st _ _ _ _ _ _ _ _ E) as [Hts Hty].
  pose proof E as E'.
  apply (val_to_ring_framed e user st R9 tid d ps) in E'; [|done|rewrite Hev; lia|congruence].
  destruct E' as [(_ & F2 & Hf2)|[?|[?|[? _]]]]; [|done..].
  assert (Henc' : val_encoding k user s v vl fu di = bpf_param e user st d pt v' 0 dyn false)
    by (apply (Henc tid s (st, d) ps); [by split|done|by eauto]).
  rewrite <- Henc' in F2.
  destruct (Hn tid s1 (st, d1) _ s' b' ltac:(split; cbn [fst snd]; try done; rewrite ?Ha; cbn; try done;
              [congruence|rewrite length_app; cbn; lia]) Hf1 Hg) as (ps' & H1 & H2 & H3 & H4 & H5).
  exists ps'. repeat split_and; try done. by rewrite H3.
Qed.

(** The encodings, by the type of the parameter. *)

Lemma value_encoding s pt v vl fu di :
  event_type (args s) = t -> pi_type (event_param t (curarg (args s))) = pt -> pt <> PT_DYN ->
  val_encoding k user s v vl fu di
  = param_encoding k user (args s) (kmem s) pt (arg_room (args s)) v (u32 vl) fu.
Proof.
  intros Ht Hp Hd. unfold val_encoding, param_alternative. rewrite Ht, Hp. by destruct pt.
Qed.

Lemma scalar_encoding w pt v vl fu s max :
  scalar_width pt = Some w ->
  param_encoding k user (args s) (kmem s) pt max v vl fu = le_bytes w v.
Proof. intros H. by destruct pt; cbn in H |- *; simplify_eq. Qed.

Lemma scalar_param w pt v d st :
  scalar_width pt = Some w -> bpf_param e user st d pt v 0 dyn_none false = le_bytes w v.
Proof. intros H. unfold bpf_param. by destruct pt; cbn in H |- *; simplify_eq. Qed.

Lemma same_scalar i w pt v vl fu di v' f g :
  pi_type (event_param t (Z.of_nat i)) = pt -> scalar_width pt = Some w ->
  le_bytes w v = le_bytes w v' ->
  Same t (S i) f g -> Same t i (push k v vl fu di f) (put e v' g).
Proof.
  intros Hp Hw Hv. apply (same_push i v vl fu di _ f g pt v' dyn_none).
  - intros st d Hc Ht Hi. unfold bpf_val_to_ring. rewrite Hc. unfold PPM_MAX_EVENT_PARAMS.
    rewrite (proj2 (Z.leb_gt _ _)) by lia. unfold bpf_param_type. rewrite Ht, Hc.
    rewrite land_slot, Z.mod_small by lia. by rewrite Hp.
  - intros tid s b ps R _ _. pose proof (filled_curarg _ _ (re_filled _ _ _ _ _ _ R)) as Hc.
    rewrite (re_len _ _ _ _ _ _ R) in Hc.
    rewrite (value_encoding s pt); [|by destruct R|by rewrite Hc|by intros ->].
    by rewrite (scalar_encoding w), (scalar_param w), Hv.
Qed.

Lemma same_scalar_type i w pt pt' v vl fu di v' f g :
  pi_type (event_param t (Z.of_nat i)) = pt -> scalar_width pt = Some w ->
  scalar_width pt' = Some w -> le_bytes w v = le_bytes w v' ->
  Same t (S i) f g -> Same t i (push k v vl fu di f) (put_type e v' pt' g).
Proof.
  intros Hp Hw Hw' Hv. apply (same_push i v vl fu di _ f g pt' v' dyn_none); [done|].
  intros tid s b ps R _ _. pose proof (filled_curarg _ _ (re_filled _ _ _ _ _ _ R)) as Hc.
  rewrite (re_len _ _ _ _ _ _ R) in Hc.
  rewrite (value_encoding s pt); [|by destruct R|by rewrite Hc|by intros ->].
  by rewrite (scalar_encoding w), (scalar_param w), Hv.
Qed.

Definition is_string (pt : ppm_param_type) : bool :=
  match pt with PT_CHARBUF | PT_FSPATH | PT_FSRELPATH => true | _ => false end.

(** The ring has room for the longest string the probe can write. *)
Lemma related_room tid i s b ps :
  related tid t i s b ps -> arg_room (args s) = PPM_MAX_ARG_SIZE.
Proof.
  intros R. pose proof (framed_offset _ _ _ (re_framed _ _ _ _ _ _ R)) as Ho.
  pose proof (fr_room _ _ _ (re_framed _ _ _ _ _ _ R)) as Hr.
  destruct R as [F _ Ht Hbt Hn Hroom _ _ _ _ _].
  pose proof (filled_offset _ _ F) as Ho1. pose proof (filled_size _ _ F) as Hs1.
  unfold evt in Ho. rewrite Hbt in Ho. rewrite Hn in Ho1.
  rewrite scratch_half in Hr. unfold arg_room, PPM_MAX_ARG_SIZE, sizeof_ppm_evt_hdr in *.
  change (2 ^ 18) with 262144 in Hroom. lia.
Qed.

(** A null string never gets through the eBPF call. *)
Lemma null_string_fails st d pt d1 :
  is_string pt = true -> curarg_already_on_frame d = false ->
  __bpf_val_to_ring e st d 0 0 pt dyn_none false = (d1, PPM_SUCCESS) -> False.
Proof.
  intros Hp Hf H. rewrite val_to_ring_unfold in H. cbv zeta in H. case_in H; [done|].
  change (after_dyn d dyn_none) with d in H.
  assert (Hs : bpf_put_value e st d pt 0 0 false = bpf_put_string e d 0 0) by by destruct pt.
  rewrite Hs in H. unfold bpf_put_string in H. rewrite Hf in H. cbn [negb] in H.
  case_in H; [done|]. pose proof sk_null as Hn.
  destruct (probe_read_str e 0 PPM_MAX_ARG_SIZE) as [bs r]. cbn [snd] in Hn. subst r.
  by change (- EFAULT =? - EFAULT) with true in H.
Qed.

Lemma same_string_enc i pt v vl di :
  is_string pt = true -> pi_type (event_param t (Z.of_nat i)) = pt ->
  forall pt', is_string pt' = true -> forall tid s b ps, related tid t i s b ps ->
  (exists d1, __bpf_val_to_ring e (fst b) (snd b) v 0 pt' dyn_none false = (d1, PPM_SUCCESS)) ->
  val_encoding k user s v vl true di = bpf_param e user (fst b) (snd b) pt' v 0 dyn_none false.
Proof.
  intros Hs Hp pt' Hs' tid s b ps R [d1 Hd].
  pose proof (filled_curarg _ _ (re_filled _ _ _ _ _ _ R)) as Hc.
  rewrite (re_len _ _ _ _ _ _ R) in Hc.
  rewrite (value_encoding s pt); [|by destruct R|by rewrite Hc|by intros ->].
  rewrite (related_room _ _ _ _ _ R).
  assert (Hv : v <> 0).
  { intros ->. eapply null_string_fails; [exact Hs'|by destruct R|exact Hd]. }
  unfold bpf_param. change (after_dyn (snd b) dyn_none) with (snd b).
  assert (Hfr : curarg_already_on_frame (snd b) = false) by by destruct R.
  unfold param_encoding, bpf_value. rewrite Hfr, (proj2 (Z.eqb_neq v 0)) by done.
  by destruct pt, pt'.
Qed.

Lemma same_string i pt v vl di f g :
  pi_type (event_param t (Z.of_nat i)) = pt -> is_string pt = true ->
  Same t (S i) f g -> Same t i (push k v vl true di f) (put e v g).
Proof.
  intros Hp Hs. apply (same_push i v vl true di _ f g pt v dyn_none).
  - intros st d Hc Ht Hi. unfold bpf_val_to_ring. rewrite Hc. unfold PPM_MAX_EVENT_PARAMS.
    rewrite (proj2 (Z.leb_gt _ _)) by lia. unfold bpf_param_type. rewrite Ht, Hc.
    rewrite land_slot, Z.mod_small by lia. by rewrite Hp.
  - intros tid s b ps R _ Hd. exact (same_string_enc i pt v vl di Hs Hp pt Hs tid s b ps R Hd).
Qed.

Lemma same_string_type i pt pt' v vl di f g :
  pi_type (event_param t (Z.of_nat i)) = pt -> is_string pt = true -> is_string pt' = true ->
  Same t (S i) f g -> Same t i (push k v vl true di f) (put_type e v pt' g).
Proof.
  intros Hp Hs Hs'. apply (same_push i v vl true di _ f g pt' v dyn_none); [done|].
  intros tid s b ps R _ Hd. exact (same_string_enc i pt v vl di Hs Hp pt' Hs' tid s b ps R Hd).
Qed.

Lemma copy_local_value p n bs :
  0 <= n -> copy_local k p n = Some bs -> bs = mem_read user p (Z.to_nat n).
Proof.
  intros Hn H. unfold copy_local, ppm_copy_from_user in H.
  destruct (access_ok k p n).
  - pose proof (copy_content (k := k) (user := user) p n) as Hc.
    case_in H; [|done]. bool_to_prop. injection H as <-.
    replace (Z.to_nat n) with (length (copy_inatomic k p n)) by lia.
    by rewrite mem_read_write_same.
  - case_in H; [|done]. bool_to_prop. injection H as <-. by subst n.
Qed.

(** A structure copied from the task: both drivers have its bytes, or one has given up. *)
Lemma same_copy i p n f g :
  0 <= n -> Same t i (f (mem_read user p (Z.to_nat n))) (g (mem_read user p (Z.to_nat n))) ->
  Same t i (copy_or_fail k p n f) (bread e p n g).
Proof.
  intros Hn Hfg tid s b ps s' b' R Hf Hg. unfold copy_or_fail in Hf.
  destruct (copy_local k p n) as [bs|] eqn:E; [|by simplify_eq].
  apply copy_local_value in E; [|done]. unfold bread in Hg.
  pose proof (pr_ok (e := e) (as_ := user) p n Hn) as Hp.
  destruct (probe_read e p n) as [bs' r]. cbn [fst snd] in Hp.
  case_in Hg; [|by simplify_eq]. bool_to_prop.
  rewrite Hp in Hg by done. subst bs. exact (Hfg tid s b ps s' b' R Hf Hg).
Qed.

Lemma same_user_ptr i v f g : Same t i (f v) g -> Same t i (with_user_ptr v f) g.
Proof.
  intros Hs tid s b ps s' b' R Hf Hg. unfold with_user_ptr, with_state in Hf.
  rewrite (re_compat _ _ _ _ _ _ R) in Hf. exact (Hs tid s b ps s' b' R Hf Hg).
Qed.

Lemma same_sock_arg i n f g : Same t i (f (sc_arg k n)) g -> Same t i (with_sock_arg k n f) g.
Proof.
  intros Hs tid s b ps s' b' R Hf Hg. unfold with_sock_arg, with_state, sock_arg in Hf.
  rewrite (re_socketcall _ _ _ _ _ _ R) in Hf. exact (Hs tid s b ps s' b' R Hf Hg).
Qed.

(** The device of a descriptor of the table, and the inode of any. *)
Lemma same_dev fd : fd < max_fds k -> get_fd_dev k fd = bpf_fd_dev e fd.
Proof.
  intros Hlt. pose proof (sk_table_size (e := e)) as Hm. unfold get_fd_dev, bpf_fd_dev.
  destruct (fd <? 0) eqn:H0; [done|]. bool_to_prop. rewrite (proj2 (Z.ltb_ge _ _)) by lia.
  unfold s32. rewrite Z.mod_small by lia. replace (fd + 2 ^ 31 - 2 ^ 31) with fd by lia.
  unfold bpf_get_fd_dev_ino, bpf_fget. rewrite (sk_max_fds (e := e)), (proj2 (Z.leb_gt _ _)) by lia.
  rewrite (sk_file_dev (e := e)) by lia. unfold file_dev, file_inode.
  destruct (fdtable e fd) as [file|]; [|done]. destruct (f_inode file) as [ino|]; [|done].
  destruct (i_sb_dev ino) as [dev|]; [|done]. cbn [option_map]. unfold new_encode_dev, bpf_encode_dev. unfold u32.
  by rewrite Z.mod_mod.
Qed.

Lemma same_ino fd :
  0 <= fd -> (match fd_ino tk fd with Some ino => ino | None => 0 end) = bpf_fd_ino e fd.
Proof.
  intros H0. unfold bpf_fd_ino, bpf_get_fd_dev_ino, bpf_fget. rewrite (sk_max_fds (e := e)).
  destruct (max_fds k <=? fd) eqn:Hm; bool_to_prop; [by rewrite (sk_fget (e := e))|].
  rewrite (sk_file_ino (e := e)) by lia. pose proof (sk_super (e := e) fd) as Hs.
  unfold file_inode in *. destruct (fdtable e fd) as [file|]; [|done].
  destruct (f_inode file) as [ino|]; [|done]. by destruct (Hs _ eq_refl) as [dev ->].
Qed.

(** Both drivers branch on the state before them. *)
Lemma same_state i f g :
  (forall tid s b ps, related tid t i s b ps -> Same t i (f s) (g (snd b))) ->
  Same t i (with_state f) (with_data g).
Proof.
  intros Hs tid s b ps s' b' R Hf Hg. exact (Hs tid s b ps R tid s b ps s' b' R Hf Hg).
Qed.

Lemma same_arg n : (n <= 5)%nat -> bpf_syscall_get_argument e n = sc_arg k n.
Proof.
  intros Hn. unfold bpf_syscall_get_argument, sc_arg.
  rewrite (proj2 (Nat.leb_le n 5)) by done. by rewrite (sk_args (e := e)).
Qed.
End same.

(** ** Values cut to the width of their parameter. *)

Lemma le_bytes_mod w v : le_bytes w (v mod 256 ^ Z.of_nat w) = le_bytes w v.
Proof.
  rewrite <- (le_bytes_val (le_bytes w v)) at 1. by rewrite length_le_bytes, le_val_bytes.
Qed.

Lemma le_bytes_cut w n v : (w <= n)%nat -> le_bytes w (v mod 256 ^ Z.of_nat n) = le_bytes w v.
Proof.
  intros H. rewrite <- (le_bytes_mod w (v mod _)), <- (le_bytes_mod w v). f_equal.
  apply Z.mod_mod_divide. exists (256 ^ Z.of_nat (n - w)).
  rewrite <- Z.pow_add_r by lia. f_equal. lia.
Qed.

Lemma le_bytes_u32 w v : (w <= 4)%nat -> le_bytes w (u32 v) = le_bytes w v.
Proof. apply (le_bytes_cut w 4). Qed.

Lemma le_bytes_u8 v : le_bytes 1 (u8 v) = le_bytes 1 v.
Proof. apply (le_bytes_cut 1 1). lia. Qed.

(** ** Events with a filler of their own in both drivers. *)

Definition own_events : list Z := [
  PPME_SYSCALL_OPEN_X; PPME_SYSCALL_OPENAT_2_X; PPME_SYSCALL_CREAT_X; PPME_SYSCALL_UNLINKAT_2_X;
  PPME_SYSCALL_MKDIRAT_X; PPME_SYSCALL_LINKAT_2_X; PPME_SYSCALL_RENAMEAT_X;
  PPME_SYSCALL_SYMLINKAT_X; PPME_SYSCALL_FCHMODAT_X; PPME_SYSCALL_MOUNT_E; PPME_SYSCALL_LSEEK_E;
  PPME_SYSCALL_LLSEEK_E; PPME_SYSCALL_FCNTL_E; PPME_SYSCALL_FLOCK_E; PPME_SYSCALL_ACCESS_E;
  PPME_SYSCALL_PIPE_X; PPME_SYSCALL_EVENTFD_E; PPME_SYSCALL_FUTEX_E; PPME_SYSCALL_MMAP_E;
  PPME_SYSCALL_MMAP2_E; PPME_SYSCALL_GETRLIMIT_E; PPME_SYSCALL_SETRLIMIT_E;
  PPME_SYSCALL_PRLIMIT_E;
  PPME_SOCKET_SHUTDOWN_E; PPME_SYSCALL_SETNS_E; PPME_SYSCALL_UNSHARE_E; PPME_SYSCALL_SEMGET_E;
  PPME_SYSCALL_SEMCTL_E; PPME_SYSCALL_SEMOP_X; PPME_SYSCALL_PTRACE_E; PPME_SYSCALL_BRK_4_X;
  PPME_SYSCALL_MMAP_X; PPME_SYSCALL_MMAP2_X; PPME_SYSCALL_MUNMAP_X; PPME_SOCKET_ACCEPT4_5_E;
  PPME_PAGE_FAULT_E].

Create HintDb drivers.
#[local] Hint Unfold pushv pushu f_sys_open_x f_sys_openat_x f_sys_creat_x f_sys_unlinkat_x
  f_sys_mkdirat_x f_sys_linkat_x f_sys_renameat_x f_sys_symlinkat_x f_sys_fchmodat_x f_sys_mount_e
  f_sys_lseek_e f_sys_llseek_e f_sys_fcntl_e f_sys_flock_e f_sys_access_e f_sys_pipe_x
  f_sys_eventfd_e f_sys_futex_e f_sys_mmap_e f_sys_getrlimit_setrlimit_e f_sys_prlimit_e
  f_sys_shutdown_e f_sys_setns_e f_sys_unshare_e f_sys_semget_e f_sys_semctl_e f_sys_semop_x
  semop_turn f_sys_ptrace_e f_sys_brk_munmap_mmap_x f_sys_accept4_e f_sys_pagefault_e : drivers.
#[local] Hint Unfold bpf_sys_open_x bpf_sys_openat_x bpf_sys_creat_x bpf_sys_unlinkat_x
  bpf_sys_mkdirat_x bpf_sys_linkat_x bpf_sys_renameat_x bpf_sys_symlinkat_x bpf_sys_fchmodat_x
  bpf_sys_mount_e bpf_sys_lseek_e bpf_sys_llseek_e bpf_sys_fcntl_e bpf_sys_flock_e
  bpf_sys_access_e bpf_sys_pipe_x bpf_sys_eventfd_e bpf_sys_futex_e bpf_sys_mmap_e
  bpf_sys_getrlimit_setrlimit_e bpf_sys_prlimit_e bpf_sys_shutdown_e bpf_sys_setns_e
  bpf_sys_unshare_e bpf_sys_semget_e bpf_sys_semctl_e bpf_sys_semop_x bpf_semop_turn
  bpf_sys_ptrace_e bpf_sys_brk_munmap_mmap_x bpf_sys_accept4_e bpf_sys_pagefault_e : drivers.

Section agree.
Context (v : bpf_view) (k : kenv) (e : bpf_env) (user : mem).
Context `{HS : !SameKernel k e user (bv_task v)}.

(** The programs the two drivers run for an event of type [t] agree. *)
Definition Agree (t : Z) : Prop :=
  own_fds k user t -> forall en g, g_ppm_events t = Some en -> bpf_tail_map v (filler_id en) = Some g ->
  Same t 0 (kmod_fillers k (bv_task v) (filler_id en)) (g e).

Lemma same_mode flags mode w :
  (w <= 4)%nat ->
  le_bytes w (open_modes_to_scap flags mode) = le_bytes w (u32 (open_modes_to_scap flags (u32 mode))).
Proof.
  intros Hw. rewrite le_bytes_u32 by done. unfold open_modes_to_scap. cbv zeta.
  by rewrite or_flags_u32.
Qed.

Lemma same_chmod_mode mode w :
  (w <= 4)%nat ->
  le_bytes w (chmod_mode_to_scap mode) = le_bytes w (u32 (chmod_mode_to_scap (u32 mode))).
Proof.
  intros Hw. rewrite le_bytes_u32 by done. unfold chmod_mode_to_scap. by rewrite or_flags_u32.
Qed.

Ltac same_value :=
  match goal with
  | |- ?x = ?x => reflexivity
  | |- _ = le_bytes _ (u32 (open_modes_to_scap _ (u32 _))) => apply same_mode; lia
  | |- _ = le_bytes _ (u32 (chmod_mode_to_scap (u32 _))) => apply same_chmod_mode; lia
  | |- _ = le_bytes _ (u32 ?x) => rewrite (le_bytes_u32 _ x) by lia; reflexivity
  | |- _ = le_bytes _ (u8 ?x) => rewrite (le_bytes_u8 x); reflexivity
  | |- le_bytes _ (get_fd_dev _ _) = _ => 
      rewrite (same_dev k e user (bv_task v)); [reflexivity|];
      match goal with Hfd : own_fds _ _ _ |- _ => apply (proj1 Hfd), list_elem_of_In; vm_compute; tauto end
  | |- le_bytes _ (match fd_ino _ _ with _ => _ end) = _ => 
      rewrite (same_ino k e user (bv_task v)); [reflexivity|];
      match goal with Hfd : own_fds _ _ _ |- _ => exact (proj2 Hfd eq_refl) end
  end.

Ltac same_step :=
  first [ apply same_done
        | apply same_user_ptr | apply same_sock_arg
        | apply (same_copy k e user (bv_task v)); [lia|]
        | eapply (same_scalar k e user (bv_task v));
            [vm_compute; reflexivity|reflexivity|same_value|]
        | eapply (same_scalar_type k e user (bv_task v));
            [vm_compute; reflexivity|reflexivity|reflexivity|same_value|]
        | eapply (same_string k e user (bv_task v)); [vm_compute; reflexivity|reflexivity|]
        | eapply (same_string_type k e user (bv_task v));
            [vm_compute; reflexivity|reflexivity|reflexivity|]
        | match goal with
          | |- context [if ?b then _ else _] => destruct b
          end ].

Ltac same_program :=
  let en := fresh "en" in let g := fresh "g" in let Hen := fresh "Hen" in let Hg := fresh "Hg" in
  let Hfd := fresh "Hfd" in
  intros Hfd en g Hen Hg; vm_compute in Hen; injection Hen as <-;
  cbn [filler_id bpf_tail_map kmod_fillers] in *; injection Hg as <-.

Lemma own_agree : Forall Agree own_events.
Proof.
  repeat constructor; same_program; autounfold with drivers;
    rewrite ?(same_arg k e user (bv_task v)), ?(sk_retval (e := e)) by lia; cbv zeta;
    repeat same_step.
Qed.

(** The limits of a process are read by both drivers behind the same pointer. *)
Lemma rlimit_agree t :
  t = PPME_SYSCALL_GETRLIMIT_X \/ t = PPME_SYSCALL_SETRLIMIT_X -> Agree t.
Proof.
  intros [-> | ->]; same_program;
    unfold f_sys_getrlimit_setrlrimit_x, bpf_sys_getrlimit_setrlrimit_x, pushv;
    rewrite ?(same_arg k e user (bv_task v)), ?(sk_retval (e := e)) by lia; same_step;
    apply same_state; intros tid s b ps R;
    rewrite (re_compat _ _ _ _ _ _ R), (re_type _ _ _ _ _ _ R), (re_btype _ _ _ _ _ _ R);
    destruct ((_ <=? _) || _); [|repeat same_step| |repeat same_step].
  all: unfold rlimit_pair; cbn [negb].
  all: match goal with |- Same ?t ?i (match match copy_local ?k ?p ?n with _ => _ end with _ => _ end) ?g =>
       enough (Hs : Same t i (copy_or_fail k p n (fun bs =>
         push k (field bs 0 8) 0 false 0 (push k (field bs 8 8) 0 false 0 add_sentinel))) g)
         by (unfold copy_or_fail in Hs; by destruct (copy_local k p n)) end.
  all: repeat same_step.
Qed.
(** ** Events of the automatic and the single-parameter fillers. *)

(** The two drivers encode parameter [i] in the same way; a string is read from the
    task, or it is not. *)
Definition recordable (t : Z) (i : nat) (from_user : bool) : bool :=
  let pt := pi_type (event_param t (Z.of_nat i)) in
  match scalar_width pt with Some _ => true | None => from_user && is_string pt end.

Lemma same_recordable t i x fu f g :
  recordable t i fu = true -> Same t (S i) f g -> Same t i (push k x 0 fu 0 f) (put e x g).
Proof.
  unfold recordable. intros H Hn. destruct (scalar_width _) as [w|] eqn:Ew.
  - by eapply (same_scalar k e user (bv_task v)).
  - apply andb_prop in H as [-> Hs]. by eapply (same_string k e user (bv_task v)).
Qed.

Fixpoint autofill_agrees (t : Z) (i : nat) (l : list ppm_autofill_arg) : bool :=
  match l with
  | [] => true
  | a :: l' =>
      (if 0 <=? af_id a then (af_id a <=? 5) && recordable t i true
       else ((af_id a =? AF_ID_RETVAL) || (af_id a =? AF_ID_USEDEFAULT)) && recordable t i false)
      && autofill_agrees t (S i) l'
  end.

Lemma same_autofill t pt l n i :
  autofill_agrees t i (take n l) = true ->
  Same t i (Fillers.autofill_loop k pt (take n l)) (bpf_autofill_loop e l n bdone).
Proof.
  revert n i. induction l as [|a l IH]; intros [|n] i H;
    try (rewrite ?take_nil; cbn [take Fillers.autofill_loop bpf_autofill_loop]; apply same_done).
  cbn [take autofill_agrees] in H. apply andb_prop in H as [H Hl]. specialize (IH n (S i) Hl).
  cbn [take Fillers.autofill_loop bpf_autofill_loop]. destruct (0 <=? af_id a) eqn:E0.
  - apply andb_prop in H as [H5 Hr]. bool_to_prop.
    intros tid s b ps s' b' R Hf Hg. unfold with_state in Hf.
    rewrite (re_socketcall _ _ _ _ _ _ R) in Hf. cbn [andb] in Hf.
    rewrite (same_arg k e user (bv_task v)) in Hg by lia.
    exact (same_recordable t i _ true _ _ Hr IH tid s b ps s' b' R Hf Hg).
  - apply andb_prop in H as [Hid Hr]. destruct (af_id a =? AF_ID_RETVAL).
    + rewrite (sk_retval (e := e)). by apply same_recordable.
    + cbn [orb] in Hid. rewrite Hid. by apply same_recordable.
Qed.

Definition generic_agrees (t : Z) (en : ppm_event_entry) : bool :=
  match filler_id en with
  | F_sys_empty => true
  | F_sys_single => recordable t 0 true
  | F_sys_single_x => recordable t 0 false
  | F_sys_autofill =>
      (0 <? n_autofill_args en) && (n_autofill_args en <=? PPM_MAX_AUTOFILL_ARGS)
      && autofill_agrees t 0 (take (Z.to_nat (n_autofill_args en)) (autofill_args en))
  | _ => false
  end.

Lemma generic_agree t en :
  g_ppm_events t = Some en -> generic_agrees t en = true -> Agree t.
Proof.
  intros Hen H _ en' g Hen' Hg. rewrite Hen in Hen'. injection Hen' as <-.
  unfold generic_agrees in H. destruct (filler_id en) eqn:Ei; try done;
    cbn [bpf_tail_map kmod_fillers] in *; injection Hg as <-.
  - apply andb_prop in H as [H Ha]. apply andb_prop in H as [H1 H2]. bool_to_prop.
    intros tid s b ps s' b' R Hf Hg. unfold f_sys_autofill, with_state in Hf.
    unfold bpf_sys_autofill, with_data in Hg.
    rewrite (re_type _ _ _ _ _ _ R), Hen in Hf. rewrite (re_btype _ _ _ _ _ _ R), Hen in Hg.
    rewrite (proj2 (Z.eqb_neq _ _)) in Hg by lia. rewrite Z.min_l in Hg by lia.
    exact (same_autofill t _ _ _ 0 Ha tid s b ps s' b' R Hf Hg).
  - apply same_done.
  - unfold f_sys_single, bpf_sys_single. rewrite (same_arg k e user (bv_task v)) by lia.
    by apply same_recordable, same_done.
  - unfold f_sys_single_x, bpf_sys_single_x. rewrite (sk_retval (e := e)).
    by apply same_recordable, same_done.
Qed.
End agree.

(** The types of event for which the two drivers are compared. *)
Definition agrees (t : Z) : bool :=
  existsb (Z.eqb t) (PPME_SYSCALL_GETRLIMIT_X :: PPME_SYSCALL_SETRLIMIT_X :: own_events)
  || match g_ppm_events t with Some en => generic_agrees t en | None => false end.

Lemma agrees_agree v k e user t :
  SameKernel k e user (bv_task v) -> agrees t = true -> Agree v k e user t.
Proof.
  intros HS H. unfold agrees in H. apply orb_prop in H as [H|H].
  - apply existsb_exists in H as (x & Hx & Hxt). bool_to_prop. subst x.
    destruct Hx as [<-|[<-|Hx]]; [by apply (rlimit_agree v k e user); auto..|].
    pose proof (own_agree v k e user) as Ho. rewrite List.Forall_forall in Ho. by apply Ho.
  - destruct (g_ppm_events t) as [en|] eqn:E; [|done]. by apply (generic_agree v k e user t en).
Qed.

(** What the module left in the ring for an event of which the probe sent [f]. *)
Lemma same_bytes tid t s (b : bstate) ps e d' f r :
  filled s ps -> framed tid (snd b) ps -> tc_evt_type (tail_ctx (snd b)) = t ->
  nargs (args s) = ei_nparams (g_event_info t) ->
  push_evt_frame e (snd b) = (d', Pushed f, r) ->
  f = event_bytes (tc_ts (tail_ctx (snd b))) tid t ps /\
  mem_read (rmem s) (buffer (args s)) (Z.to_nat (arg_data_offset (args s))) = drop 26 f.
Proof.
  intros F FB Ht Hn Hp. pose proof Hp as Hc.
  apply (push_evt_frame_bytes e tid _ ps) in Hp as (-> & _); [|done]. rewrite Ht.
  split; [done|]. unfold push_evt_frame in Hc. cbv zeta in Hc. case_in Hc; [done|]. bool_to_prop.
  pose proof (filled_curarg _ _ F) as H1. pose proof (filled_curarg _ _ (fr_filled _ _ _ FB)) as H2.
  cbn [frame_view args curarg] in H2. unfold evt in *. rewrite Ht in *.
  rewrite (filled_offset _ _ F). replace (nargs (args s)) with (curarg (args s)) by congruence.
  pose proof (length_concat_lens ps) as Hl.
  assert (Hw : Z.to_nat (2 * curarg (args s) + zsum (lens ps)) = (2 * length ps + length (concat ps))%nat)
    by lia.
  rewrite Hw.
  by rewrite filled_layout by (done || congruence).
Qed.


Example agreeing_events : length (filter agrees (map Z.of_nat (seq 0 (Z.to_nat PPM_EVENT_MAX)))) = 192%nat.
Proof. vm_compute. reflexivity. Qed.

(** open("/etc/hosts") returning 3, a file of device (8, 1), seen by both drivers. *)
Definition open_dev : Z := Z.lor (Z.shiftl 8 20) 1.
Definition open_file : bpf_file := mk_file 0 (Some (mk_inode 0 77 (Some open_dev))) None.

Definition open_kenv : kenv :=
  mk_kenv (access_ok sample_kenv) (copy_inatomic sample_kenv) false (fd_rdev sample_kenv)
    (fun fd => if fd =? 3 then Some (new_encode_dev open_dev) else None)
    (literal_addr sample_kenv) (sockfd_lookup sample_kenv) (uninit sample_kenv)
    (syscall_args sample_kenv) 3 42 1024 (fd_is_open sample_kenv) 0 0
    (stale_socketcall_args sample_kenv).

Definition open_benv : bpf_env :=
  let e := mem_benv sample_user [4096; 0; 0; 0; 0; 0] 3 99 in
  mk_benv (probe_read e) (probe_read_str e) (Some 1024)
    (fun fd => if fd =? 3 then Some open_file else None) (fdt_open_fds e) (sc_args e)
    (sc_retval e) (pid_tgid e) (ktime_get_ns e) (perf_event_output e).

Definition open_task : task_env :=
  let t := sample_task in
  mk_task_env (cur t) (task_at t) (rlimit_nofile t) (cur_euid t) (cur_egid t) (cur_vtid t)
    (cur_vpid t) (in_child_pidns t) (cur_pgid t) (cur_loginuid t) (cur_tty t) (cgroups t)
    (fun fd => if fd =? 3 then Some 77 else None) (sk_backlog t) (unix_sock t) (lookup_err t)
    (FillerOps.sampling_ratio t) (fault_address t) (fault_ip t) (fault_error_code t) (ev_sk t)
    (ev_skb t) (ev_dev t) (skb_head t) (skb_mac_header t) (skb_network_header t)
    (empty_literal t) (na_literal t).
Definition open_view : bpf_view :=
  mk_view (bv_kernel_5_6 sample_view) open_task (bv_sc_nr sample_view) (bv_routing sample_view)
    (bv_sig sample_view) (bv_info sample_view) (bv_sig_forced sample_view)
    (bv_next_task sample_view) (bv_stale sample_view).

Lemma open_same_kernel : SameKernel open_kenv open_benv sample_user (bv_task open_view).
Proof.
  pose proof sample_kenv_ok as [HK1 HK2].
  destruct (mem_benv_ok sample_user [4096; 0; 0; 0; 0; 0] 3 99) as [HB1 HB2 HB3 HB4].
  split; try done; cbn -[new_encode_dev].
  - intros fd _. unfold file_dev, file_inode. cbn -[new_encode_dev]. by case_if.
  - intros fd _. unfold file_inode. cbn. by case_if.
  - intros fd Hfd. rewrite (proj2 (Z.eqb_neq _ _)) by lia. done.
  - intros fd ino H. unfold file_inode in H. cbn in H. destruct (fd =? 3); [|done].
    injection H as <-. by eexists.
Qed.

Lemma open_own_fds : own_fds open_kenv sample_user PPME_SYSCALL_OPEN_X.
Proof. split; [reflexivity|discriminate]. Qed.

Definition open_kmod : fstate := sample_state PPME_SYSCALL_OPEN_X (2 ^ 19).
Definition open_probe : bstate :=
  (sample_settings, write_evt_hdr open_benv (sample_data PPME_SYSCALL_OPEN_X)).

Lemma open_related : related 99 PPME_SYSCALL_OPEN_X 0 open_kmod open_probe [].
Proof.
  split; try done; [apply sample_filled; vm_compute; congruence|].
  exact (write_evt_hdr_framed open_benv (sample_data PPME_SYSCALL_OPEN_X) eq_refl).
Qed.

Lemma open_kmod_success : snd (f_sys_open_x open_kenv open_kmod) = PPM_SUCCESS.
Proof. vm_compute. reflexivity. Qed.

Lemma open_probe_success : snd (bpf_sys_open_x open_benv open_probe) = FillDone PPM_SUCCESS.
Proof. vm_compute. reflexivity. Qed.

Definition frame_of (x : filler_data * pushed * Z) : list byte :=
  match snd (fst x) with Pushed f => f | _ => [] end.
Definition is_pushed (x : filler_data * pushed * Z) : bool :=
  match snd (fst x) with Pushed _ => true | _ => false end.

Lemma pushed_frame x : is_pushed x = true -> x = (fst (fst x), Pushed (frame_of x), snd x).
Proof. destruct x as [[d [f| |]] r]; by cbn. Qed.

Definition open_frame : list byte :=
  frame_of (push_evt_frame open_benv (snd (fst (bpf_sys_open_x open_benv open_probe)))).

Lemma open_pushed :
  is_pushed (push_evt_frame open_benv (snd (fst (bpf_sys_open_x open_benv open_probe)))) = true.
Proof. vm_compute. reflexivity. Qed.

