(* ===== verification/BpfLive.v ===== *)
(** * The eBPF probe delivers

    The other properties of the probe say what a frame is when one is sent.  Here: that
    one is sent.  An event whose parameters are numbers, taken from the registers by the
    generic fillers, is in the perf buffer after its call, with the values the table of
    [filler_events.c] names; [BpfTraceSpec] has this for the states of the whole probe. *)

From Stdlib Require Import Strings.Byte.
From Stdlib Require Import ZArith Lia List Bool.
From stdpp Require Import base tactics list numbers option.
From S2P Require Import Prelude Bytes EventDefs EventTable FillerTable ValToRing.
From S2P Require Import ValToRingSpec FlagDefs Flags Fillers FillerOps SyscallFillers AllFillers.
From S2P Require Import Ring RingSpec RingSystem BpfRing BpfRingSpec BpfProbe BpfFillers BpfProbeSpec.
From S2P Require Import BpfFillersSpec.
Import ListNotations.
Local Open Scope Z_scope.

(** ** The values of an event, and their encodings. *)

(** What [sys_autofill] records for an argument of the table. *)
Definition autofill_value (e : bpf_env) (a : ppm_autofill_arg) : Z :=
  if 0 <=? af_id a then bpf_syscall_get_argument e (Z.to_nat (af_id a))
  else if af_id a =? AF_ID_RETVAL then sc_retval e else default_val a.

Definition generic_values (e : bpf_env) (en : ppm_event_entry) : list Z :=
  match filler_id en with
  | F_sys_single => [bpf_syscall_get_argument e 0]
  | F_sys_single_x => [sc_retval e]
  | F_sys_autofill =>
      map (autofill_value e) (take (Z.to_nat (n_autofill_args en)) (autofill_args en))
  | _ => []
  end.

(** The numbers [vs] as parameters [i], [i + 1], ... of an event of type [t]. *)
Fixpoint number_params (t : Z) (i : nat) (vs : list Z) : list (list byte) :=
  match vs with
  | [] => []
  | x :: vs' =>
      match scalar_width (pi_type (event_param t (Z.of_nat i))) with
      | Some w => le_bytes w x
      | None => []
      end :: number_params t (S i) vs'
  end.

Lemma number_params_length t vs : forall i, length (number_params t i vs) = length vs.
Proof. induction vs as [|x vs IH]; intros i; [done|]. cbn. by rewrite IH. Qed.

(** The types whose parameters are all numbers the generic fillers find. *)
Definition number_event (t : Z) (en : ppm_event_entry) : bool :=
  match filler_id en with
  | F_sys_empty => ei_nparams (g_event_info t) =? 0
  | F_sys_single | F_sys_single_x => ei_nparams (g_event_info t) =? 1
  | F_sys_autofill =>
      (0 <? n_autofill_args en) && (n_autofill_args en <=? PPM_MAX_AUTOFILL_ARGS)
      && (ei_nparams (g_event_info t) =?
          Z.of_nat (length (take (Z.to_nat (n_autofill_args en)) (autofill_args en))))
  | _ => false
  end
  && forallb (fun i => match scalar_width (pi_type (event_param t (Z.of_nat i))) with
                       | Some _ => true | None => false end)
       (seq 0 (Z.to_nat (ei_nparams (g_event_info t)))).

(** Parameters of at most eight bytes. *)
Definition short (ps : list (list byte)) : Prop := Forall (fun p => (length p <= 8)%nat) ps.

Lemma short_zsum ps : short ps -> 0 <= zsum (lens ps) <= 8 * Z.of_nat (length ps).
Proof.
  induction 1 as [|p ps Hp _ IH]; [done|]. cbn [lens map length].
  change (zsum (?y :: ?l)) with (y + zsum l). unfold lens in IH. lia.
Qed.

Lemma scalar_width_le t w : scalar_width t = Some w -> (w <= 8)%nat.
Proof. destruct t; cbn; intros; simplify_eq; lia. Qed.

(** ** A frame for numbers is filled without failing. *)

Section deliver.
Context (e : bpf_env) (as_ : mem).
Context `{He : !BpfOK e as_}.

Lemma put_number st tid d ps t w x :
  0 <= st_snaplen st -> framed tid d ps -> short ps -> curarg_already_on_frame d = false ->
  tc_evt_type (tail_ctx d) = t -> Z.of_nat (length ps) < ei_nparams (g_event_info t) ->
  scalar_width (pi_type (event_param t (Z.of_nat (length ps)))) = Some w ->
  exists d', bpf_val_to_ring e st d x = (d', PPM_SUCCESS) /\
    framed tid d' (ps ++ [le_bytes w x]) /\ curarg_already_on_frame d' = false /\
    tc_ts (tail_ctx d') = tc_ts (tail_ctx d) /\ tc_evt_type (tail_ctx d') = t.
Proof.
  intros Hst F Hsh Hon Ht Hlt Hw.
  pose proof (filled_curarg _ _ (fr_filled _ _ _ F)) as Hc. cbn [frame_view args curarg] in Hc.
  pose proof (framed_offset _ _ _ F) as Ho. pose proof (short_zsum _ Hsh) as Hz.
  pose proof (ei_nparams_range t) as Hr. pose proof (scalar_width_le _ _ Hw) as Hw8.
  assert (Hev : evt d = g_event_info t) by (unfold evt; by rewrite Ht). rewrite Hev in Ho.
  unfold PPM_MAX_EVENT_PARAMS, sizeof_ppm_evt_hdr in *.
  assert (Hroom : curoff_full d = false)
    by (unfold curoff_full; rewrite scratch_half; apply Z.ltb_ge; lia).
  unfold bpf_val_to_ring. rewrite Hc. unfold PPM_MAX_EVENT_PARAMS.
  rewrite (proj2 (Z.leb_gt _ _)) by lia. unfold bpf_param_type.
  rewrite Ht, Hc, land_slot, Z.mod_small by lia.
  set (pt := pi_type (event_param t (Z.of_nat (length ps)))) in *. clearbody pt.
  destruct (__bpf_val_to_ring e st d x 0 pt dyn_none false) as [d' r] eqn:E.
  assert (Hok : r = PPM_SUCCESS).
  { rewrite val_to_ring_unfold in E. cbv zeta in E. rewrite Hroom in E.
    change (after_dyn d dyn_none) with d in E.
    assert (Hp : bpf_put_value e st d pt x 0 false = (put_at_curoff d (le_bytes w x), Put (Z.of_nat w)))
      by (destruct pt; cbn in Hw; simplify_eq; unfold bpf_put_value; cbn [scalar_width];
          by rewrite Hroom).
    rewrite Hp in E. change (if u8 dyn_none =? dyn_none then 0 else 1) with 0 in E.
    rewrite u32_small in E by lia. unfold PPM_MAX_ARG_SIZE in E.
    rewrite (proj2 (Z.ltb_ge _ _)) in E by lia. by simplify_eq. }
  subst r. exists d'. destruct (val_to_ring_tail e as_ st _ _ _ _ _ _ _ _ E) as [Hts Hty].
  apply (val_to_ring_framed e as_ st Hst tid d ps) in E; [|done|rewrite Hev; lia|congruence].
  destruct E as [(_ & F' & Hon')|[?|[?|[? _]]]]; [|done..].
  assert (Hp : bpf_param e as_ st d pt x 0 dyn_none false = le_bytes w x)
    by (unfold bpf_param; destruct pt; cbn in Hw; simplify_eq; done).
  rewrite Hp in F'. repeat split_and; try done. by rewrite Hty.
Qed.

Definition puts (vs : list Z) (next : bcont) : bcont := fold_right (put e) next vs.

(** Every parameter from [i] up to [i + n] is a number. *)
Definition numbers (t : Z) (i n : nat) : Prop :=
  forall j, (i <= j < i + n)%nat -> scalar_width (pi_type (event_param t (Z.of_nat j))) <> None.

Lemma puts_numbers st tid t vs : forall d ps,
  0 <= st_snaplen st -> framed tid d ps -> short ps -> curarg_already_on_frame d = false ->
  tc_evt_type (tail_ctx d) = t ->
  Z.of_nat (length ps + length vs) <= ei_nparams (g_event_info t) ->
  numbers t (length ps) (length vs) ->
  exists d', puts vs bdone (st, d) = ((st, d'), FillDone PPM_SUCCESS) /\
    framed tid d' (ps ++ number_params t (length ps) vs) /\
    short (ps ++ number_params t (length ps) vs) /\
    tc_ts (tail_ctx d') = tc_ts (tail_ctx d) /\ tc_evt_type (tail_ctx d') = t.
Proof.
  induction vs as [|x vs IH]; intros d ps Hst F Hsh Hon Ht Hlen Hn; cbn [length] in *.
  - exists d. cbn [number_params]. by rewrite app_nil_r.
  - cbn [puts fold_right number_params].
    destruct (scalar_width (pi_type (event_param t (Z.of_nat (length ps))))) as [w|] eqn:Hw;
      [|exfalso; apply (Hn (length ps)); [lia|done]].
    destruct (put_number st tid d ps t w x) as (d1 & E & F1 & Hon1 & Hts1 & Ht1); try done; [lia|].
    destruct (IH d1 (ps ++ [le_bytes w x])) as (d2 & E2 & F2 & S2 & Hts2 & Ht2); try done.
    + apply Forall_app. split; [done|]. constructor; [|done].
      rewrite length_le_bytes. by eapply scalar_width_le.
    + rewrite length_app. cbn [length]. lia.
    + rewrite length_app. cbn [length]. intros j Hj. apply Hn. lia.
    + rewrite length_app in F2, S2. cbn [length] in F2, S2.
      rewrite (Nat.add_1_r (length ps)), <- app_assoc in F2, S2.
      exists d2. unfold put, bstep. rewrite E. cbn [Z.eqb PPM_SUCCESS].
      repeat split_and; try done. by rewrite Hts2.
Qed.

(** The generic fillers are such sequences. *)
Lemma autofill_puts l : forall n next,
  bpf_autofill_loop e l n next = puts (map (autofill_value e) (take n l)) next.
Proof. induction l as [|a l IH]; intros [|n] next; try done. cbn. f_equal. apply IH. Qed.

Lemma generic_puts v t en prog st d :
  g_ppm_events t = Some en -> number_event t en = true ->
  bpf_tail_map v (filler_id en) = Some prog -> tc_evt_type (tail_ctx d) = t ->
  prog e (st, d) = puts (generic_values e en) bdone (st, d) /\
  Z.of_nat (length (generic_values e en)) = ei_nparams (g_event_info t).
Proof.
  intros Hen Hn Hp Ht. unfold number_event in Hn. apply andb_prop in Hn as [Hn _].
  unfold generic_values. destruct (filler_id en) eqn:Ef; try done;
    cbn [bpf_tail_map] in Hp; injection Hp as <-; bool_to_prop.
  2-4: split; [done|cbn [length]; lia].
  split; [|by rewrite length_map].
  unfold bpf_sys_autofill, with_data. cbn [snd]. rewrite Ht, Hen.
  rewrite (proj2 (Z.eqb_neq _ _)) by lia. rewrite Z.min_l by lia. by rewrite autofill_puts.
Qed.

Lemma number_event_numbers t en :
  number_event t en = true -> numbers t 0 (Z.to_nat (ei_nparams (g_event_info t))).
Proof.
  intros H j Hj. apply andb_prop in H as [_ H]. rewrite forallb_forall in H.
  specialize (H j ltac:(apply in_seq; lia)). by destruct (scalar_width _).
Qed.

(** ** From a fresh tail context to the frame. *)

Lemma run_number tm v st t en prog calls d :
  (forall f, perf_event_output e f = 0) -> 0 <= st_snaplen st ->
  g_ppm_events t = Some en -> number_event t en = true ->
  bpf_tail_map v (filler_id en) = Some prog -> tc_evt_type (tail_ctx d) = t ->
  tc_len (tail_ctx d) = 0 -> tc_curarg (tail_ctx d) = 0 -> curarg_already_on_frame d = false ->
  exists b, run_filler tm e calls st prog d =
    (b, Pushed (event_bytes (tc_ts (tail_ctx d)) (event_tid e) t
                  (number_params t 0 (generic_values e en))), PPM_SUCCESS, calls).
Proof.
  intros Hout Hst Hen Hn Hp Ht Hl Hc Hon.
  pose proof (write_evt_hdr_framed e d Hc) as F0.
  destruct (generic_puts v t en prog st (write_evt_hdr e d) Hen Hn Hp Ht) as [Eq Hlen].
  destruct (puts_numbers st (event_tid e) t (generic_values e en) (write_evt_hdr e d) [] Hst F0
              (List.Forall_nil _) Hon Ht ltac:(cbn [length]; lia))
    as (d1 & E & F1 & S1 & Hts & Hty).
  { intros j Hj. apply (number_event_numbers t en Hn). cbn [length] in Hj. lia. }
  cbn [app length] in *. destruct calls; cbn [run_filler]; unfold start_frame; rewrite Hl;
    cbn [Z.eqb]; rewrite Eq, E; cbn [Z.eqb PPM_SUCCESS].
  all: destruct (push_evt_frame e d1) as [[d2 p] r] eqn:Epush.
  all: assert (Hpush : p = Pushed (event_bytes (tc_ts (tail_ctx d)) (event_tid e) t
                  (number_params t 0 (generic_values e en))) /\ r = PPM_SUCCESS).
  all: try (destruct Hpush as [-> ->]; by eexists).
  all: pose proof (framed_offset _ _ _ F1) as Ho; pose proof (short_zsum _ S1) as Hz;
       pose proof (filled_curarg _ _ (fr_filled _ _ _ F1)) as Hca;
       pose proof (ei_nparams_range t) as Hr; cbn [frame_view args curarg] in Hca;
       rewrite number_params_length in *.
  all: assert (Hev : evt d1 = g_event_info t) by (unfold evt; by rewrite Hty).
  all: rewrite Hev in Ho; unfold PPM_MAX_EVENT_PARAMS, sizeof_ppm_evt_hdr in *.
  all: pose proof (fr_len _ _ _ F1) as Hfl; pose proof Epush as Epush';
       unfold push_evt_frame in Epush'; cbv zeta in Epush';
       rewrite Hev, Hca, Hlen, Z.eqb_refl, Hout in Epush'; cbn [negb] in Epush';
       change PERF_EVENT_MAX_SIZE with 65523 in Epush';
       rewrite (proj2 (Z.ltb_ge _ _)) in Epush' by lia; cbn in Epush'.
  all: injection Epush' as _ <- <-; split; [|done].
  all: apply (push_evt_frame_bytes e (event_tid e) d1 _ _ _ _ F1) in Epush as (Hf & _);
       by rewrite Hf, Hts, Hty.
Qed.
End deliver.

(** What [prepare_filler] leaves for an event nothing holds back. *)
Lemma prepare_filler_taken e cpu t flags s :
  0 <= t < PPM_EVENT_MAX -> st_events_mask (bs_settings s) t = true ->
  st_dropping_mode (bs_settings s) = false -> bc_in_use (bs_cpus s cpu) = false ->
  cpu <> 0 \/ bc_hotplug (bs_cpus s cpu) = 0 ->
  exists s1, prepare_filler e cpu t flags s = (s1, event_filler t) /\
    bs_out s1 = bs_out s /\ bs_settings s1 = bs_settings s /\
    bc_tail (bs_cpus s1 cpu) =
      reset_tail_ctx t (u64 (st_boot_time (bs_settings s) + ktime_get_ns e)) /\
    bc_n_evts (bs_cpus s1 cpu) = u64 (bc_n_evts (bs_cpus s cpu) + 1).
Proof.
  intros Ht Hm Hd Hu Hh. unfold prepare_filler. cbv zeta.
  rewrite Hm, andb_false_r. unfold acquire_local_state. rewrite Hu.
  assert (Hhot : (cpu =? 0) && negb (bc_hotplug (bs_cpus s cpu) =? 0) = false).
  { destruct Hh as [Hc| ->]; [by rewrite (proj2 (Z.eqb_neq _ _) Hc)|by rewrite andb_false_r]. }
  cbn [bc_hotplug set_in_use]. rewrite Hhot. unfold bpf_drop_event. rewrite Hd. cbn [negb].
  assert (Hf : exists id, event_filler t = Some id).
  { unfold event_filler. rewrite (proj2 (Z.leb_le _ _)), (proj2 (Z.ltb_lt _ _)) by lia. by eexists. }
  destruct Hf as [id Hf]. cbn [reset_tail_ctx tc_evt_type]. rewrite Hf.
  eexists. split; [reflexivity|]. cbn [set_cpu set_settings bs_out bs_settings bs_cpus].
  rewrite upd_same. done.
Qed.

(** An event whose filler is one of the generic ones is delivered by any table of programs
    that has them. *)
Lemma number_call_delivered (tm : ppm_filler_id -> option bpf_filler) (v : bpf_view)
    (s : bpf_sys) (e : bpf_env) (as_ : mem) (cpu t flags : Z) (en : ppm_event_entry) :
  bc_in_use (bs_cpus s cpu) = false -> tm (filler_id en) = bpf_tail_map v (filler_id en) ->
  BpfOK e as_ -> (forall f, perf_event_output e f = 0) ->
  g_ppm_events t = Some en -> number_event t en = true -> 0 <= t < PPM_EVENT_MAX ->
  st_events_mask (bs_settings s) t = true -> st_dropping_mode (bs_settings s) = false ->
  0 <= st_snaplen (bs_settings s) ->
  cpu <> 0 \/ bc_hotplug (bs_cpus s cpu) = 0 ->
  let s' := call_filler tm true e cpu t flags s in
  bs_out s' = bs_out s ++
    [(cpu, event_bytes (u64 (st_boot_time (bs_settings s) + ktime_get_ns e)) (event_tid e) t
             (number_params t 0 (generic_values e en)))] /\
  bc_in_use (bs_cpus s' cpu) = false /\
  bc_n_evts (bs_cpus s' cpu) = u64 (bc_n_evts (bs_cpus s cpu) + 1).
Proof.
  intros Hu Htm He Hout Hen Hnum Ht Hm Hd Hsn Hh s'.
  destruct (prepare_filler_taken e cpu t flags s Ht Hm Hd Hu Hh) as (s1 & Hp & Ho & Hst & Htl & Hev).
  assert (Hid : event_filler t = Some (filler_id en)).
  { unfold event_filler. by rewrite (proj2 (Z.leb_le _ _)), (proj2 (Z.ltb_lt _ _)), Hen by lia. }
  assert (Hprog : exists prog, bpf_tail_map v (filler_id en) = Some prog).
  { unfold number_event in Hnum. destruct (filler_id en); try done; by eexists. }
  destruct Hprog as [prog Hprog].
  unfold s', call_filler. rewrite Hp, Hid, Htm, Hprog. unfold filler_program, init_filler_data.
  rewrite Htl. unfold reset_tail_ctx. cbn [tc_evt_type].
  rewrite (proj2 (Z.leb_le _ _)), (proj2 (Z.ltb_lt _ _)) by lia. cbn [andb Z.eqb PPM_SUCCESS].
  rewrite Hst.
  destruct (run_number e as_ tm v (bs_settings s) t en prog (pred MAX_TAIL_CALL_CNT)
    (mk_data (reset_tail_ctx t (u64 (st_boot_time (bs_settings s) + ktime_get_ns e)))
       (bc_frame (bs_cpus s1 cpu)) (bc_tmp (bs_cpus s1 cpu)) false (-1) (bc_hotplug (bs_cpus s1 cpu))))
    as [[st' d'] Hr]; try done.
  unfold reset_tail_ctx in Hr. rewrite Hr. cbn [tail_ctx tc_ts pred MAX_TAIL_CALL_CNT].
  set (f := event_bytes _ _ _ _).
  destruct (after_filler_step (set_settings s1 st') cpu d' (Pushed f) PPM_SUCCESS)
    as (A1 & _ & _ & _ & _ & A6 & _ & A7 & _).
  cbn [set_cpu bs_cpus bs_out]. rewrite upd_same, A7. cbn [set_settings bs_out]. rewrite Ho.
  split; [done|]. split; [done|]. unfold terminate_filler. rewrite A6.
  change (bc_n_evts (bs_cpus (after_filler (set_settings s1 st') cpu d' (Pushed f) PPM_SUCCESS) cpu)
          = u64 (bc_n_evts (bs_cpus s cpu) + 1)).
  rewrite A1. exact Hev.
Qed.
