(* ===== verification/BpfSock.v ===== *)
(** * Socket fillers of [driver/bpf/fillers.h]

    Parameters that a filler builds on the frame itself, behind the cursor, before it
    appends them: socket addresses and tuples ([bpf_pack_addr], [bpf_fd_to_socktuple]),
    and the fillers of the socket calls. *)

From Stdlib Require Import ZArith Lia List Bool.
From Stdlib Require Import Strings.Byte.
From stdpp Require Import base tactics list numbers option.
From S2P Require Import Prelude Bytes EventDefs EventTable FillerTable ValToRing.
From S2P Require Import ValToRingSpec FlagDefs Flags Fillers FillerOps SyscallFillers SockFillers.
From S2P Require Import Ring BpfRing BpfProbe BpfFillers.
Import ListNotations.
Local Open Scope Z_scope.

(** ** Steps on the frame. *)

(** [memcpy(&data->buf[(curoff + o) & SCRATCH_SIZE_HALF], ...)] for each pair, in
    order. *)
Definition fill_frame (d : filler_data) (ws : list (Z * list byte)) : filler_data :=
  fold_left (fun d w => with_buf d (mem_write (buf d) (frame_at d (fst w)) (snd w))) ws d.

(** A call that prepares the frame or the temporary area, and one that can fail. *)
Definition frame_step {A} (f : sysdig_bpf_settings -> filler_data -> filler_data * A)
    (next : A -> bcont) : bcont :=
  fun '(st, d) => let '(d, a) := f st d in next a (st, d).
Definition frame_try {A} (f : sysdig_bpf_settings -> filler_data -> filler_data * (A + Z))
    (next : A -> bcont) : bcont :=
  frame_step f (fun r => match r with inl a => next a | inr code => bfail code end).

(** What follows depends on the settings. *)
Definition with_settings (f : sysdig_bpf_settings -> bcont) : bcont := fun s => f (fst s) s.

(** [data->curarg_already_on_frame = true] and the call that appends [len] bytes. *)
Definition put_frame (e : bpf_env) (len : Z) (t : ppm_param_type) : bcont -> bcont :=
  bstep (fun st d => __bpf_val_to_ring e st (with_on_frame d true) 0 len t dyn_none false).
Definition put_frame_len (e : bpf_env) (len : Z) : bcont -> bcont :=
  bstep (fun st d => bpf_val_to_ring_len e st (with_on_frame d true) 0 len).
Definition put_frame_data (e : bpf_env) (fd len : Z) : bcont -> bcont :=
  bstep (fun st d =>
    __bpf_val_to_ring e st (with_on_frame (with_fd d fd) true) 0 len PT_BYTEBUF dyn_none true).

(** A string in memory of the probe itself, as the helper reads it: up to [n] bytes
    with its terminator. *)
Definition local_str (m : mem) (a n : Z) : list byte := cut_string n (cstr m a (Z.to_nat n)).

(** The helpers on pointers into such memory: the stack or the temporary area. *)
Definition local_env (e : bpf_env) (m : mem) : bpf_env :=
  mk_benv (fun a n => (mem_read m a (Z.to_nat n), 0))
    (fun a n => let s := local_str m a n in (s, Z.of_nat (length s)))
    (files_max_fds e) (fdtable e) (fdt_open_fds e) (sc_args e) (sc_retval e) (pid_tgid e)
    (ktime_get_ns e) (perf_event_output e).

Definition empty_mem : mem := mem_zero.
Definition na_mem : mem := mem_write mem_zero 0 [x3c; x4e; x41; x3e; x00].

(** ** Addresses and tuples. *)

(** Fields of a socket address in the temporary area: the port in host order. *)
Definition sa_family_at (m : mem) (a : Z) : Z := ld16 m a.
Definition port_at (m : mem) (a : Z) : Z := Z_of_byte (m (a + 2)) * 256 + Z_of_byte (m (a + 3)).
Definition addr4_at (m : mem) (a : Z) : list byte := mem_read m (a + 4) 4.
Definition addr6_at (m : mem) (a : Z) : list byte := mem_read m (a + 8) 16.

Definition fam_byte (family : Z) : list byte := le_bytes 1 (socket_family_to_scap (u8 family)).

(** The zero put after a user address of [ulen] bytes at the start of the area. *)
Definition bpf_terminate (m : mem) (ulen : Z) : mem :=
  mem_write m (Z.land (if ulen =? sizeof_sockaddr_storage then ulen - 1 else ulen) SCRATCH_SIZE_MAX)
    [x00].

Definition SUN_PATH : Z := 2.
Definition UNIX_PATH : Z := Z.of_nat UNIX_PATH_MAX.

(** [bpf_pack_addr] on the address at the start of the temporary area; the size is 16
    bits wide. *)
Definition bpf_pack_addr (d : filler_data) (ulen : Z) : filler_data * Z :=
  let m := tmp_scratch d in
  let family := sa_family_at m 0 in
  if family =? AF_INET then
    (fill_frame d [(0, fam_byte family); (1, addr4_at m 0); (5, le16 (port_at m 0))], 7)
  else if family =? AF_INET6 then
    (fill_frame d [(0, fam_byte family); (1, addr6_at m 0); (17, le16 (port_at m 0))], 19)
  else if family =? AF_UNIX then
    let m := bpf_terminate m ulen in
    let name := local_str m SUN_PATH UNIX_PATH in
    (fill_frame (with_tmp d m) [(0, fam_byte family); (1, name)], u16 (1 + Z.of_nat (length name)))
  else (d, 0).

(** The two endpoints of a tuple, laid out as the code does. *)
Definition fill_tuple4 (d : filler_data) (family : Z) (sip : list byte) (sport : Z)
    (dip : list byte) (dport : Z) : filler_data :=
  fill_frame d [(0, fam_byte family); (1, sip); (5, le16 sport); (7, dip); (11, le16 dport)].
Definition fill_tuple6 (d : filler_data) (family : Z) (sip : list byte) (sport : Z)
    (dip : list byte) (dport : Z) : filler_data :=
  fill_frame d [(0, fam_byte family); (1, sip); (17, le16 sport); (19, dip); (35, le16 dport)].

(** From the address [other] to the local one at [local], or the other way. *)
Definition ends4 (d : filler_data) (family other local : Z) (is_inbound : bool) : filler_data :=
  let m := tmp_scratch d in
  let '(src, dst) := if is_inbound then (other, local) else (local, other) in
  fill_tuple4 d family (addr4_at m src) (port_at m src) (addr4_at m dst) (port_at m dst).
Definition ends6 (d : filler_data) (family other local : Z) (is_inbound : bool) : filler_data :=
  let m := tmp_scratch d in
  let '(src, dst) := if is_inbound then (other, local) else (local, other) in
  fill_tuple6 d family (addr6_at m src) (port_at m src) (addr6_at m dst) (port_at m dst).

Definition zeros (n : nat) : list byte := replicate n x00.

(** [bpf_fd_to_socktuple]: [user] is the length of the user address at the start of the
    temporary area when [use_userdata] is set, [area] the offset of [tmp_area]; the
    size is returned. *)
Definition bpf_fd_to_socktuple (e : bpf_env) (st : sysdig_bpf_settings) (d : filler_data)
    (fd : Z) (user : option Z) (is_inbound : bool) (area : Z) : filler_data * Z :=
  let sock_address := area in
  let peer_address := area + sizeof_sockaddr_storage in
  match bpf_sockfd_lookup e st fd with
  | None => (d, 0)
  | Some sock =>
      match bpf_getsockname sock (tmp_scratch d) sock_address false with
      | None => (d, 0)
      | Some tmp =>
          let d := with_tmp d tmp in
          match sock with
          | None => (d, 0)
          | Some sk =>
              let family := sk_family sk in
              if family =? AF_INET then
                (match user with
                 | None =>
                     match bpf_getsockname sock tmp peer_address true with
                     | Some tmp => ends4 (with_tmp d tmp) family peer_address sock_address is_inbound
                     | None => fill_tuple4 d family (zeros 4) 0 (zeros 4) 0
                     end
                 | Some _ => ends4 d family 0 sock_address is_inbound
                 end, 13)
              else if family =? AF_INET6 then
                (match user with
                 | None =>
                     match bpf_getsockname sock tmp peer_address true with
                     | Some tmp => ends6 (with_tmp d tmp) family peer_address sock_address is_inbound
                     | None =>
                         fill_tuple6 (with_tmp d (mem_write tmp peer_address (zeros 16))) family
                           (zeros 16) 0 (zeros 16) 0
                     end
                 | Some _ => ends6 d family 0 sock_address is_inbound
                 end, 37)
              else if family =? AF_UNIX then
                let us := le64 (sk_addr sk) in
                let speer := le64 (unix_peer sk) in
                let d := fill_frame d ((0, fam_byte family) ::
                           if is_inbound then [(1, us); (9, speer)] else [(1, speer); (9, us)]) in
                let '(tmp, us_name) :=
                  match user with
                  | None =>
                      if is_inbound then (tmp, sock_address + SUN_PATH)
                      else (default tmp (bpf_getsockname sock tmp peer_address true),
                            peer_address + SUN_PATH)
                  | Some ulen =>
                      (bpf_terminate tmp ulen,
                       if is_inbound then sock_address + SUN_PATH else SUN_PATH)
                  end in
                let name := local_str tmp us_name UNIX_PATH in
                (fill_frame (with_tmp d tmp) [(17, name)], 17 + Z.of_nat (length name))
              else (d, 0)
          end
      end
  end.

(** [bpf_addr_to_kernel] of a user address into the temporary area, and what is done
    with it when it was read. *)
Definition bpf_read_addr (e : bpf_env) (uaddr ulen : Z)
    (f : filler_data -> filler_data * Z) (d : filler_data) : filler_data * Z :=
  let '(m, err) := bpf_addr_to_kernel e (tmp_scratch d) 0 uaddr ulen in
  let d := with_tmp d m in
  if 0 <=? err then f d else (d, 0).
Definition bpf_with_addr (e : bpf_env) (uaddr ulen : Z)
    (f : filler_data -> filler_data * Z) (d : filler_data) : filler_data * Z :=
  if negb (uaddr =? 0) && negb (ulen =? 0) then bpf_read_addr e uaddr ulen f d else (d, 0).

Definition bpf_user_tuple (e : bpf_env) (fd uaddr ulen : Z) (is_inbound : bool)
    (st : sysdig_bpf_settings) (d : filler_data) : filler_data * Z :=
  bpf_with_addr e uaddr ulen
    (fun d => bpf_fd_to_socktuple e st d fd (Some (s32 ulen)) is_inbound sizeof_sockaddr_storage) d.

Section sock_fillers.
(** [sk_ack_backlog] and [sk_max_ack_backlog] of a socket. *)
Context (KERNEL_5_6 : bool) (backlog : bpf_sock -> Z * Z).
Context (e : bpf_env).

Let retval : Z := sc_retval e.
Let arg (i : nat) : Z := bpf_syscall_get_argument e i.

Definition bpf_sys_socket_bind_x : bcont :=
  put e retval $
  frame_step (fun st d => bpf_with_addr e (arg 1) (arg 2) (fun d => bpf_pack_addr d (s32 (arg 2))) d)
    (fun size => put_frame_len e (u16 size) bdone).

Definition bpf_sys_connect_x : bcont :=
  put e retval $
  frame_step
    (fun st d => if 0 <=? s32 (arg 0) then bpf_user_tuple e (s32 (arg 0)) (arg 1) (arg 2) false st d
                 else (d, 0))
    (fun size => put_frame_len e size bdone).

(** The rest of [sys_socketpair_x], with the descriptors and the two sockets. *)
Definition bpf_socketpair_params (fds : list byte) (us speer : Z) : bcont :=
  put_type e (sfield fds 0 4) PT_FD $ put_type e (sfield fds 4 4) PT_FD $
  put_type e us PT_UINT64 $ put_type e speer PT_UINT64 bdone.

(** A socket without [sk] is read through a null pointer, which gives zero. *)
Definition bpf_sys_socketpair_x : bcont :=
  put_type e retval PT_ERRNO $
  if 0 <=? retval then
    bread e (arg 3) 8 (fun fds => with_settings (fun st =>
      let '(us, speer) :=
        match bpf_sockfd_lookup e st (sfield fds 0 4) with
        | Some (Some sk) => (sk_addr sk, unix_peer sk)
        | _ => (0, 0)
        end in
      bpf_socketpair_params fds us speer))
  else bpf_socketpair_params (zeros 8) 0 0.

(** [struct timeval]: of two 32 bit fields since Linux 5.6, when the product is one of
    [int]s. *)
Definition bpf_timeval (b : list byte) : Z :=
  if KERNEL_5_6 then s32 (s32 (sfield b 0 4 * 1000000000) + s32 (sfield b 4 4 * 1000))
  else sfield b 0 8 * 1000000000 + sfield b 8 8 * 1000.
Definition sizeof_timeval : Z := if KERNEL_5_6 then 8 else 16.

(** The data of an option of unknown type, with its index. *)
Definition put_opt (val len : Z) : bcont -> bcont :=
  bstep (fun st d => __bpf_val_to_ring e st d val len PT_BYTEBUF PPM_SOCKOPT_IDX_UNKNOWN false).

Definition bpf_parse_sockopt (level optname optval optlen : Z) (next : bcont) : bcont :=
  if level =? SOL_SOCKET then
    if optname =? SO_ERROR then
      bread e optval 4 (fun b =>
        put_dyn e (u32 (- field b 0 4)) PT_ERRNO PPM_SOCKOPT_IDX_ERRNO next)
    else if (optname =? SO_RCVTIMEO) || (optname =? SO_SNDTIMEO) then
      bread e optval sizeof_timeval (fun b =>
        put_dyn e (bpf_timeval b) PT_RELTIME PPM_SOCKOPT_IDX_TIMEVAL next)
    else if optname =? SO_COOKIE then
      bread e optval 8 (fun b => put_dyn e (field b 0 8) PT_UINT64 PPM_SOCKOPT_IDX_UINT64 next)
    else if existsb (Z.eqb optname) sockopt_uint32 then
      bread e optval 4 (fun b => put_dyn e (field b 0 4) PT_UINT32 PPM_SOCKOPT_IDX_UINT32 next)
    else put_opt optval optlen next
  else put_opt optval optlen next.

(** The four parameters that [setsockopt] and [getsockopt] begin with. *)
Definition bpf_sockopt_head (next : bcont) : bcont :=
  put_type e retval PT_ERRNO $ put_type e (arg 0) PT_FD $
  put_type e (sockopt_level_to_scap (arg 1)) PT_FLAGS8 $
  put_type e (sockopt_optname_to_scap (arg 1) (arg 2)) PT_FLAGS8 next.

Definition bpf_sys_setsockopt_x : bcont :=
  bpf_sockopt_head $
  bpf_parse_sockopt (s32 (arg 1)) (s32 (arg 2)) (arg 3) (s32 (arg 4)) $
  put_type e (arg 4) PT_UINT32 bdone.

(** The length is read as an [unsigned long]. *)
Definition bpf_sys_getsockopt_x : bcont :=
  bpf_sockopt_head $
  bread e (arg 4) 8 (fun b =>
    bpf_parse_sockopt (s32 (arg 1)) (s32 (arg 2)) (arg 3) (s32 (field b 0 8)) $
    put_type e (field b 0 8) PT_UINT32 bdone).

Definition bpf_f_sys_send_e_common (fd : Z) (next : bcont) : bcont :=
  put e fd $ put e (arg 2) next.

Definition bpf_sys_send_e : bcont := bpf_f_sys_send_e_common (s32 (arg 0)) bdone.

Definition bpf_sys_sendto_e : bcont :=
  bpf_f_sys_send_e_common (s32 (arg 0)) $
  frame_step (bpf_user_tuple e (s32 (arg 0)) (arg 4) (arg 5) false)
    (fun size => put_frame_len e size bdone).

(** The data of a completed transfer; nothing when the call failed. *)
Definition bpf_transfer_data (next : bcont) : bcont :=
  put_type e retval PT_ERRNO $
  (if retval <? 0 then put_data e (s32 (arg 0)) 0 0 else put_data e (s32 (arg 0)) (arg 1) retval)
  next.

Definition bpf_sys_send_x : bcont := bpf_transfer_data bdone.

Definition bpf_f_sys_recv_x_common (next : bcont) : bcont := bpf_transfer_data next.

Definition bpf_sys_recv_x : bcont := bpf_f_sys_recv_x_common bdone.

(** A tuple of 16 bit size appended as [PT_SOCKTUPLE]. *)
Definition put_tuple (f : sysdig_bpf_settings -> filler_data -> filler_data * Z) : bcont :=
  frame_step f (fun size => put_frame e (u16 size) PT_SOCKTUPLE bdone).
Definition no_tuple (st : sysdig_bpf_settings) (d : filler_data) : filler_data * Z := (d, 0).

Definition bpf_sys_recvfrom_x : bcont :=
  bpf_f_sys_recv_x_common $
  if 0 <=? retval then
    if negb (arg 4 =? 0) && negb (arg 5 =? 0) then
      bread e (arg 5) 4 (fun b =>
        let addrlen := sfield b 0 4 in
        put_tuple (fun st =>
          bpf_read_addr e (arg 4) addrlen (fun d =>
            bpf_fd_to_socktuple e st d (s32 (arg 0)) (Some addrlen) true sizeof_sockaddr_storage)))
    else put_tuple no_tuple
  else put_tuple no_tuple.

Definition bpf_sys_accept_x : bcont :=
  let fd := s32 retval in
  put_type e fd PT_FD $
  frame_step (fun st d => bpf_fd_to_socktuple e st d fd None true 0) (fun size =>
  put_frame e size PT_SOCKTUPLE $ with_settings (fun st =>
    let '(ack_backlog, max_ack_backlog) :=
      match bpf_sockfd_lookup e st fd with Some (Some sk) => backlog sk | _ => (0, 0) end in
    let queuepct := if max_ack_backlog =? 0 then 0 else u64 (ack_backlog * 100) / max_ack_backlog in
    put_type e queuepct PT_UINT8 $ put_type e ack_backlog PT_UINT32 $
    put_type e max_ack_backlog PT_UINT32 bdone)).

(** The path of the program, or a placeholder when it cannot be read. *)
Definition bpf_sys_execve_e : bcont := fun '(st, d) =>
  let '(d, r) := bpf_val_to_ring e st d (arg 0) in
  if r =? PPM_FAILURE_INVALID_USER_MEMORY then put (local_env e na_mem) 0 bdone (st, d)
  else ((st, d), FillDone r).
End sock_fillers.
