(* ===== verification/BpfData.v ===== *)
(** * Vectored I/O, polling and quota fillers of [driver/bpf/fillers.h]

    The parsers of descriptor lists ([bpf_poll_parse_fds], [bpf_epoll_parse_fds]) and
    of I/O vectors ([bpf_parse_readv_writev_bufs]), which copy user memory to the
    temporary area and build the parameter on the frame, and the fillers that use
    them. *)

From Stdlib Require Import ZArith Lia List Bool.
From Stdlib Require Import Strings.Byte.
From stdpp Require Import base tactics list numbers option.
From S2P Require Import Prelude Bytes EventDefs EventTable FillerTable ValToRing.
From S2P Require Import ValToRingSpec FlagDefs Flags Fillers FillerOps SyscallFillers SockFillers.
From S2P Require Import Ring BpfRing BpfProbe BpfFillers BpfSock.
Import ListNotations.
Local Open Scope Z_scope.

Definition EPOLL_MAXFDS : nat := 16.
Definition POLL_MAXFDS : nat := 16.
Definition MAX_IOVCNT : nat := 32.
Definition MAX_MSG_LEN : nat := 4.
Definition MAX_SENDMMSG_IOVCNT : nat := 7.
Definition LONG_MAX : Z := 2 ^ 63 - 1.

(** A copy of [size] bytes of user memory to the start of the temporary area. *)
Definition read_tmp (e : bpf_env) (d : filler_data) (from size : Z) : filler_data * option Z :=
  if SCRATCH_SIZE_MAX <? size then (d, Some PPM_FAILURE_BUFFER_FULL)
  else
    let '(bs, r) := probe_read e from (Z.land size SCRATCH_SIZE_MAX) in
    (with_tmp d (mem_write (tmp_scratch d) 0 bs),
     if r =? 0 then None else Some PPM_FAILURE_INVALID_USER_MEMORY).

(** ** Lists of descriptors. *)

(** The loop of both parsers over entries [j] .. [limit]: [entry j] is the descriptor
    and what is stored, one over the other, in the place of its flags. *)
Fixpoint fdlist_loop (turns : nat) (entry : Z -> list byte * list (list byte)) (j limit off count : Z)
    (b : mem) : mem * (Z * Z + Z) :=
  match turns with
  | O => (b, inl (off, count))
  | S turns' =>
      if SCRATCH_SIZE_HALF <? off then (b, inr PPM_FAILURE_BUFFER_FULL)
      else if j =? limit then (b, inl (off, count))
      else
        let '(fd, flags) := entry j in
        let b := mem_write b (Z.land off SCRATCH_SIZE_HALF) fd in
        let off := u64 (off + 8) in
        if SCRATCH_SIZE_HALF <? off then (b, inr PPM_FAILURE_BUFFER_FULL)
        else
          let b := fold_left (fun b f => mem_write b (Z.land off SCRATCH_SIZE_HALF) f) flags b in
          fdlist_loop turns' entry (j + 1) limit (u64 (off + 2)) (u32 (count + 1)) b
  end.

(** What the two parsers do around the loop; the length of the list is returned. *)
Definition bpf_parse_fdlist (e : bpf_env) (turns : nat) (from size limit : Z)
    (entry : mem -> Z -> list byte * list (list byte)) (st : sysdig_bpf_settings) (d : filler_data) :
    filler_data * (Z + Z) :=
  let '(d, err) := read_tmp e d from size in
  match err with
  | Some code => (d, inr code)
  | None =>
      if curoff_full d then (d, inr PPM_FAILURE_BUFFER_FULL)
      else
        let curoff := tc_curoff (tail_ctx d) in
        let '(b, r) := fdlist_loop turns (entry (tmp_scratch d)) 0 limit (u64 (curoff + 2)) 0 (buf d) in
        match r with
        | inr code => (with_buf d b, inr code)
        | inl (off, count) =>
            (with_buf d (mem_write b (Z.land curoff SCRATCH_SIZE_HALF) (le16 count)),
             inl (u64 (off - curoff)))
        end
  end.

(** [struct pollfd], and the packed [struct epoll_event], whose flags are overwritten. *)
Definition poll_entry (enter_event : bool) (m : mem) (j : Z) : list byte * list (list byte) :=
  let flags := poll_events_to_scap (ld16 m (8 * j + if enter_event then 4 else 6)) in
  (le64 (s32 (ld32 m (8 * j))), [le16 flags]).
Definition epoll_entry (m : mem) (j : Z) : list byte * list (list byte) :=
  let flags := epoll_events_to_scap (ld32 m (12 * j)) in
  (le64 (s32 (ld64 m (12 * j + 4))), [le16 flags; le16 0]).

(** ** I/O vectors. *)

(** Base and length of vector [j] in the temporary area. *)
Definition bpf_iov_base (m : mem) (j : Z) : Z := ld64 m (16 * j).
Definition bpf_iov_len (m : mem) (j : Z) : Z := ld64 m (16 * j + 8).

(** The loop that adds up the lengths, in a [long]. *)
Fixpoint bpf_iov_total (turns : nat) (m : mem) (j iovcnt size : Z) : Z :=
  match turns with
  | O => size
  | S turns' =>
      if (j =? iovcnt) || (size =? LONG_MAX) then size
      else bpf_iov_total turns' m (j + 1) iovcnt (s64 (size + bpf_iov_len m j))
  end.

(** The loop that copies the data to the frame: the frame and the offset after it, or
    [None] when a read failed. *)
Fixpoint gather_loop (e : bpf_env) (turns : nat) (m : mem) (j iovcnt off remaining : Z) (b : mem) :
    mem * option Z :=
  match turns with
  | O => (b, Some off)
  | S turns' =>
      if (j =? iovcnt) || (SCRATCH_SIZE_HALF <? off) then (b, Some off)
      else
        let to_read := u32 (if bpf_iov_len m j <=? remaining then bpf_iov_len m j else remaining) in
        let to_read := if SCRATCH_SIZE_HALF <? to_read then SCRATCH_SIZE_HALF else to_read in
        let '(bs, r) := probe_read e (bpf_iov_base m j) (Z.land to_read SCRATCH_SIZE_HALF) in
        let b := mem_write b (Z.land off SCRATCH_SIZE_HALF) bs in
        if negb (r =? 0) then (b, None)
        else gather_loop e turns' m (j + 1) iovcnt (u64 (off + to_read)) (u64 (remaining - to_read)) b
  end.

(** The vectors themselves. *)
Definition bpf_read_iov (e : bpf_env) (iovsrc iovcnt : Z) (st : sysdig_bpf_settings)
    (d : filler_data) : filler_data * (Z + Z) :=
  let '(d, err) := read_tmp e d iovsrc (u32 (iovcnt * 16)) in
  match err with
  | Some code => (d, inr code)
  | None => (d, inl (bpf_iov_total MAX_IOVCNT (tmp_scratch d) 0 iovcnt 0))
  end.

(** Their data, [size] bytes of it, at the cursor. *)
Definition bpf_gather (e : bpf_env) (iovcnt size : Z) (st : sysdig_bpf_settings) (d : filler_data) :
    filler_data * (Z + Z) :=
  if 0 <? size then
    let '(b, r) := gather_loop e MAX_IOVCNT (tmp_scratch d) 0 iovcnt (tc_curoff (tail_ctx d)) size
                     (buf d) in
    (with_buf d b, match r with Some _ => inl size | None => inr PPM_FAILURE_INVALID_USER_MEMORY end)
  else (d, inl 0).

Definition bpf_parse_readv_writev_bufs (e : bpf_env) (iovsrc iovcnt limit flags : Z) (next : bcont) :
    bcont :=
  frame_try (bpf_read_iov e iovsrc iovcnt) (fun total =>
    let size := if negb (has_flag flags PRB_FLAG_IS_WRITE) && (limit <? total) then limit else total in
    let push_data : bcont :=
      if has_flag flags PRB_FLAG_PUSH_DATA then
        frame_try (bpf_gather e iovcnt size) (fun size =>
          put_frame_data e (s32 (bpf_syscall_get_argument e 0)) size next)
      else next in
    if has_flag flags PRB_FLAG_PUSH_SIZE then put_type e size PT_UINT32 push_data else push_data).

(** ** sendmmsg. *)

(** The loop over the messages: the frame and the total size, or an error.  The size
    is not reset between messages. *)
Fixpoint bpf_mmsg_loop (e : bpf_env) (turns : nat) (retval msgs i off size totalsize : Z)
    (d : filler_data) : filler_data * (Z + Z) :=
  match turns with
  | O => (d, inl totalsize)
  | S turns' =>
      if i =? retval then (d, inl totalsize)
      else
        let '(mmh, r) := probe_read e (msgs + 64 * i) 64 in
        if negb (r =? 0) then (d, inr PPM_FAILURE_INVALID_USER_MEMORY)
        else
          let iovsrc := field mmh 16 8 in
          let iovcnt := field mmh 24 8 in
          let msglen := field mmh 56 4 in
          let '(d, err) := read_tmp e d iovsrc (u32 (iovcnt * 16)) in
          match err with
          | Some code => (d, inr code)
          | None =>
              let m := tmp_scratch d in
              let size := bpf_iov_total MAX_SENDMMSG_IOVCNT m 0 iovcnt size in
              let size := if msglen <? size then msglen else size in
              if 0 <? size then
                if SCRATCH_SIZE_HALF <? off then (d, inl totalsize)
                else
                  let b := mem_write (buf d) (Z.land off SCRATCH_SIZE_HALF) (le_bytes 4 size) in
                  let '(b, r) := gather_loop e MAX_SENDMMSG_IOVCNT m 0 iovcnt (u64 (off + 4)) size b in
                  let d := with_buf d b in
                  match r with
                  | None => (d, inr PPM_FAILURE_INVALID_USER_MEMORY)
                  | Some off =>
                      bpf_mmsg_loop e turns' retval msgs (i + 1) off size (u32 (totalsize + 4 + size)) d
                  end
              else bpf_mmsg_loop e turns' retval msgs (i + 1) off 0 totalsize d
          end
  end.

Section data_fillers.
Context (KERNEL_5_6 : bool).
Context (e : bpf_env).

Let retval : Z := sc_retval e.
Let arg (i : nat) : Z := bpf_syscall_get_argument e i.

Definition bpf_epoll_parse_fds (next : bcont) : bcont :=
  frame_try (bpf_parse_fdlist e EPOLL_MAXFDS (arg 1) (u32 (u64 retval * 12)) (u64 retval) epoll_entry)
    (fun len => put_frame e len PT_FDLIST next).

Definition bpf_poll_parse_fds (enter_event : bool) (next : bcont) : bcont :=
  frame_try (bpf_parse_fdlist e POLL_MAXFDS (arg 0) (u32 (arg 1 * 8)) (arg 1) (poll_entry enter_event))
    (fun len => put_frame e len PT_FDLIST next).

Definition bpf_sys_epoll_wait_x : bcont := put_type e retval PT_ERRNO $ bpf_epoll_parse_fds bdone.
Definition bpf_sys_poll_e : bcont := bpf_poll_parse_fds true $ put e (arg 2) bdone.
Definition bpf_sys_poll_x : bcont := put_type e retval PT_ERRNO $ bpf_poll_parse_fds false bdone.

Definition bpf_sys_ppoll_e : bcont :=
  bpf_poll_parse_fds true $
  (if arg 2 =? 0 then put_type e (-1) PT_RELTIME else bpf_timespec_parse KERNEL_5_6 e (arg 2)) $
  if arg 3 =? 0 then put_type e 0 PT_SIGSET bdone
  else bread e (arg 3) 8 (fun b => put_type e (field b 0 8) PT_SIGSET bdone).

Definition bpf_sys_readv_preadv_x : bcont :=
  put_type e retval PT_ERRNO $
  bpf_parse_readv_writev_bufs e (arg 1) (arg 2) retval PRB_FLAG_PUSH_ALL bdone.

Definition bpf_sys_writev_e : bcont :=
  put e (arg 0) $
  bpf_parse_readv_writev_bufs e (arg 1) (arg 2) 0 (Z.lor PRB_FLAG_PUSH_SIZE PRB_FLAG_IS_WRITE) bdone.

Definition bpf_sys_writev_pwritev_x : bcont :=
  put e retval $
  bpf_parse_readv_writev_bufs e (arg 1) (arg 2) 0 (Z.lor PRB_FLAG_PUSH_DATA PRB_FLAG_IS_WRITE) bdone.

Definition bpf_sys_pwritev_e : bcont :=
  put e (arg 0) $
  bpf_parse_readv_writev_bufs e (arg 1) (arg 2) 0 (Z.lor PRB_FLAG_PUSH_SIZE PRB_FLAG_IS_WRITE) $
  put_type e (arg 3) PT_UINT64 bdone.

Definition bpf_sys_sendmsg_e : bcont :=
  put_type e (s32 (arg 0)) PT_FD $
  bread e (arg 1) 56 (fun b => let mh := msghdr_of b in
    bpf_parse_readv_writev_bufs e (msg_iov mh) (msg_iovlen mh) 0
      (Z.lor PRB_FLAG_PUSH_SIZE PRB_FLAG_IS_WRITE) $
    put_tuple e (bpf_user_tuple e (s32 (arg 0)) (msg_name mh) (msg_namelen mh) false)).

Definition bpf_sys_sendmsg_x : bcont :=
  put_type e retval PT_ERRNO $
  bread e (arg 1) 56 (fun b => let mh := msghdr_of b in
    bpf_parse_readv_writev_bufs e (msg_iov mh) (msg_iovlen mh) retval
      (Z.lor PRB_FLAG_PUSH_DATA PRB_FLAG_IS_WRITE) bdone).

(** The end of a filler that goes on in another program. *)
Definition bgoto (id : ppm_filler_id) : bcont := fun s => (s, FillTail id).

Definition bpf_sys_recvmsg_x : bcont :=
  put_type e retval PT_ERRNO $
  bread e (arg 1) 56 (fun b => let mh := msghdr_of b in
    bpf_parse_readv_writev_bufs e (msg_iov mh) (msg_iovlen mh) retval PRB_FLAG_PUSH_ALL $
    bgoto F_sys_recvmsg_x_2).

Definition bpf_sys_recvmsg_x_2 : bcont :=
  if 0 <=? retval then
    bread e (arg 1) 56 (fun b => let mh := msghdr_of b in
      put_tuple e (bpf_user_tuple e (s32 (arg 0)) (msg_name mh) (msg_namelen mh) true))
  else put_tuple e no_tuple.

Definition bpf_sys_sendmmsg_x : bcont :=
  put_type e retval PT_ERRNO $ put_type e (arg 2) PT_UINT32 $
  frame_try (fun st d => bpf_mmsg_loop e MAX_MSG_LEN retval (arg 1) 0 (tc_curoff (tail_ctx d)) 0 0 d)
    (fun totalsize => put_frame_data e (s32 (arg 0)) totalsize bdone).

(** ** Quotas. *)

Definition bpf_sys_quotactl_e : bcont :=
  let cmd := quotactl_cmd_to_scap (arg 0) in
  put_type e cmd PT_FLAGS16 $ put_type e (quotactl_type_to_scap (arg 0)) PT_FLAGS8 $
  put_type e (if (cmd =? PPM_Q_GETQUOTA) || (cmd =? PPM_Q_SETQUOTA)
                 || (cmd =? PPM_Q_XGETQUOTA) || (cmd =? PPM_Q_XSETQLIM)
              then u32 (arg 2) else 0) PT_UINT32 $
  put_type e (if cmd =? PPM_Q_QUOTAON then quotactl_fmt_to_scap (arg 2) else PPM_QFMT_NOT_USED)
    PT_FLAGS8 bdone.

(** A structure read when the command has one, zero otherwise. *)
Definition bread_when (b : bool) (n : Z) (next : list byte -> bcont) : bcont :=
  if b then bread e (arg 3) n next else next [].

Definition bpf_sys_quotactl_x : bcont :=
  let cmd := quotactl_cmd_to_scap (arg 0) in
  put_type e retval PT_ERRNO $ put_type e (arg 1) PT_CHARBUF $
  (if cmd =? PPM_Q_QUOTAON then put_type e (arg 3) PT_CHARBUF
   else put_type (local_env e empty_mem) 0 PT_CHARBUF) $
  bread_when ((cmd =? PPM_Q_GETQUOTA) || (cmd =? PPM_Q_SETQUOTA)) 72 (fun b =>
    let valid := field b 64 4 in
    put_type e (if_valid valid QIF_BLIMITS (field b 0 8)) PT_UINT64 $
    put_type e (if_valid valid QIF_BLIMITS (field b 8 8)) PT_UINT64 $
    put_type e (if_valid valid QIF_SPACE (field b 16 8)) PT_UINT64 $
    put_type e (if_valid valid QIF_ILIMITS (field b 24 8)) PT_UINT64 $
    put_type e (if_valid valid QIF_ILIMITS (field b 32 8)) PT_UINT64 $
    put_type e (if_valid valid QIF_BTIME (field b 48 8)) PT_RELTIME $
    put_type e (if_valid valid QIF_ITIME (field b 56 8)) PT_RELTIME $
  bread_when ((cmd =? PPM_Q_GETINFO) || (cmd =? PPM_Q_SETINFO)) 24 (fun i =>
    let ivalid := field i 20 4 in
    put_type e (if_valid ivalid IIF_BGRACE (field i 0 8)) PT_RELTIME $
    put_type e (if_valid ivalid IIF_IGRACE (field i 8 8)) PT_RELTIME $
    put_type e (if_valid ivalid IIF_FLAGS (field i 16 4)) PT_FLAGS8 $
  bread_when (cmd =? PPM_Q_GETFMT) 4 (fun f =>
    put_type e (if cmd =? PPM_Q_GETFMT then quotactl_fmt_to_scap (field f 0 4)
                else PPM_QFMT_NOT_USED) PT_FLAGS8 bdone))).
End data_fillers.
