(* ===== verification/BpfProc.v ===== *)
(** * Process fillers of [driver/bpf/fillers.h]: clone, fork and execve

    The three programs of [proc_startupdate], which tail call one another, with the
    strings of the arguments and of the environment, the cgroup paths and the process
    ids in the task's namespace.  The configuration is that of [BpfRing], so Linux 4.19
    and later for the process ids, and no RHEL 7 kernel. *)

From Stdlib Require Import ZArith Lia List Bool.
From Stdlib Require Import Strings.Byte.
From stdpp Require Import base tactics list numbers option.
From S2P Require Import Prelude Bytes EventDefs EventTable FillerTable ValToRing.
From S2P Require Import ValToRingSpec FlagDefs Flags Fillers FillerOps SyscallFillers ProcFillers.
From S2P Require Import Ring BpfRing BpfProbe BpfFillers BpfSock BpfData.
Import ListNotations.
Local Open Scope Z_scope.

Definition MAX_CGROUP_PATHS : nat := 6.
Definition ARGS_ENV_SIZE_MAX : Z := 4096.
Definition FAILED_ARGS_ENV_ITEMS_MAX : nat := 16.

(** [struct pid]: its level, and the number and the namespace at each level. *)
Record bpf_pid : Type := mk_pid {
  pid_level : Z;
  pid_numbers : Z -> Z * Z }.

(** What the programs read of the task beside [task_env]: its process ids, the level
    of the namespace behind a pointer, the namespace of its children, its credentials,
    and for each subsystem the name and the names of the cgroup and its ancestors. *)
Record bpf_proc : Type := mk_bproc {
  bp_thread_pid : option bpf_pid;
  bp_tgid : option bpf_pid;
  bp_pgid : option bpf_pid;
  bp_ns_level : Z -> Z;
  bp_ns_for_children : option Z;
  bp_euid : Z;
  bp_egid : Z;
  bp_loginuid : Z;
  bp_css : list (Z * list Z) }.

Section process.
Context (tk : task_env) (pr : bpf_proc) (e : bpf_env).

Let retval : Z := sc_retval e.
Let arg (i : nat) : Z := bpf_syscall_get_argument e i.

(** ** Process ids. *)

Definition bpf_ns_of_pid (pid : option bpf_pid) : Z :=
  match pid with Some p => snd (pid_numbers p (pid_level p)) | None => 0 end.

Definition bpf_task_active_pid_ns : Z := bpf_ns_of_pid (bp_thread_pid pr).

Definition bpf_pid_nr_ns (pid : option bpf_pid) (ns : Z) : Z :=
  let ns_level := bp_ns_level pr ns in
  match pid with
  | Some p =>
      if ns_level <=? pid_level p then
        let '(nr, ns') := pid_numbers p ns_level in if ns' =? ns then nr else 0
      else 0
  | None => 0
  end.

(** [bpf_task_pid_nr_ns] with no namespace given. *)
Definition bpf_task_pid_nr_ns (pid : option bpf_pid) : Z := bpf_pid_nr_ns pid bpf_task_active_pid_ns.

Definition bpf_task_pid_vnr : Z := bpf_task_pid_nr_ns (bp_thread_pid pr).
Definition bpf_task_tgid_vnr : Z := bpf_task_pid_nr_ns (bp_tgid pr).
Definition bpf_task_pgrp_vnr : Z := bpf_task_pid_nr_ns (bp_pgid pr).

(** ** cgroups. *)

(** Bytes stored at [off & SCRATCH_SIZE_HALF]. *)
Definition put_off (b : mem) (off : Z) (bs : list byte) : mem :=
  mem_write b (Z.land off SCRATCH_SIZE_HALF) bs.

(** The second loop of [__bpf_append_cgroup], over the names from the outermost in. *)
Fixpoint cgroup_path_loop (names : list Z) (prev_empty : bool) (off : Z) (b : mem) : mem * (Z + Z) :=
  match names with
  | [] => (b, inl off)
  | name :: names' =>
      if name =? 0 then cgroup_path_loop names' prev_empty off b
      else if negb prev_empty && (SCRATCH_SIZE_HALF <? off) then (b, inr PPM_FAILURE_BUFFER_FULL)
      else
        let '(b, off) := if prev_empty then (b, off) else (put_off b off [x2f], off + 1) in
        if SCRATCH_SIZE_HALF <? off then (b, inr PPM_FAILURE_BUFFER_FULL)
        else
          let '(bs, res) := probe_read_str e name SCRATCH_SIZE_HALF in
          let b := put_off b off bs in
          if 1 <? res then cgroup_path_loop names' false (off + (res - 1)) b
          else if res =? 1 then cgroup_path_loop names' true off b
          else (b, inr PPM_FAILURE_INVALID_USER_MEMORY)
  end.

(** [__bpf_append_cgroup]: the buffer and the length after it. *)
Definition __bpf_append_cgroup (css : Z * list Z) (off : Z) (b : mem) : mem * (Z + Z) :=
  let '(subsys_name, kns) := css in
  if SCRATCH_SIZE_HALF <? off then (b, inr PPM_FAILURE_BUFFER_FULL)
  else
    let '(bs, res) := probe_read_str e subsys_name SCRATCH_SIZE_HALF in
    let b := put_off b off bs in
    if res =? - EFAULT then (b, inr PPM_FAILURE_INVALID_USER_MEMORY)
    else
      let off := off + (res - 1) in
      if SCRATCH_SIZE_HALF <? off then (b, inr PPM_FAILURE_BUFFER_FULL)
      else
        let '(b, r) := cgroup_path_loop (rev (take MAX_CGROUP_PATHS kns)) false (off + 1)
                         (put_off b off [x3d]) in
        match r with
        | inr code => (b, inr code)
        | inl off =>
            if SCRATCH_SIZE_HALF <? off then (b, inr PPM_FAILURE_BUFFER_FULL)
            else (put_off b off [x00], inl (off + 1))
        end.

Fixpoint bpf_append_cgroup (csss : list (Z * list Z)) (off : Z) (b : mem) : mem * (Z + Z) :=
  match csss with
  | [] => (b, inl off)
  | css :: csss' =>
      match __bpf_append_cgroup css off b with
      | (b, inl off) => bpf_append_cgroup csss' off b
      | (b, inr code) => (b, inr code)
      end
  end.

(** ** Arguments and environment. *)

(** The loop of [bpf_accumulate_argv_or_env]: [None] for an error. *)
Fixpoint accumulate_argv_loop (turns : nat) (argv curoff off args_len : Z) (b : mem) : mem * option Z :=
  match turns with
  | O => (b, Some args_len)
  | S turns' =>
      let arg := READ e argv 8 in
      if arg =? 0 then (b, Some args_len)
      else if SCRATCH_SIZE_HALF <? off then (b, None)
      else
        let '(bs, len) := probe_read_str e arg SCRATCH_SIZE_HALF in
        let b := put_off b off bs in
        if len =? - EFAULT then (b, None)
        else
          let args_len := args_len + len in
          if ARGS_ENV_SIZE_MAX <? args_len then
            (mem_write b (Z.land (u64 (curoff + ARGS_ENV_SIZE_MAX - 1)) SCRATCH_SIZE_MAX) [x00],
             Some ARGS_ENV_SIZE_MAX)
          else accumulate_argv_loop turns' (argv + 8) curoff (s32 (off + len)) args_len b
  end.

(** The strings behind the pointers at [argv], none on an error. *)
Definition bpf_failed_strings (argv : Z) (d : filler_data) : filler_data * Z :=
  let curoff := tc_curoff (tail_ctx d) in
  let '(b, r) := accumulate_argv_loop FAILED_ARGS_ENV_ITEMS_MAX argv curoff (s32 curoff) 0 (buf d) in
  (with_buf d b, default 0 r).

(** The strings of a running process: [len] bytes of user memory at [start]. *)
Definition bpf_user_strings (start len : Z) (d : filler_data) : filler_data * Z :=
  if len =? 0 then (d, 0)
  else
    let len := if ARGS_ENV_SIZE_MAX <? len then ARGS_ENV_SIZE_MAX else len in
    let curoff := tc_curoff (tail_ctx d) in
    let '(bs, r) := probe_read e start (Z.land len SCRATCH_SIZE_HALF) in
    let d := put_at_curoff d bs in
    if negb (r =? 0) then (d, 0)
    else (with_buf d (mem_write (buf d) (Z.land (u64 (curoff + len - 1)) SCRATCH_SIZE_MAX) [x00]), len).

(** The length of a memory area of the task, as a [long]. *)
Definition area_len (from to : Z) : Z := s64 (to - from).

(** [bpf_val_to_ring_type(data, (unsigned long)&empty, PT_CHARBUF)] *)
Definition put_empty : bcont -> bcont := put_type (local_env e empty_mem) 0 PT_CHARBUF.

(** Executable and arguments from the [args_len] bytes at the cursor. *)
Definition put_exe_args (args_len : Z) (next : bcont) : bcont :=
  if negb (args_len =? 0) then
    frame_step (fun st d =>
      let at_ := Z.land (tc_curoff (tail_ctx d)) SCRATCH_SIZE_HALF in
      let exe := local_str (buf d) at_ SCRATCH_SIZE_HALF in
      (put_at_curoff d exe, Z.of_nat (length exe)))
      (fun exe_len => put_frame e exe_len PT_CHARBUF $
                      put_frame e (args_len - exe_len) PT_BYTEBUF next)
  else put_empty $ put_type e 0 PT_BYTEBUF next.

Definition bpf_proc_startupdate : bcont :=
  put_type e retval PT_ERRNO $
  match task_mm (cur tk) with
  | None => bfail PPM_FAILURE_BUG
  | Some mm =>
      let rest args_len :=
        put_exe_args args_len $
        put_type e (task_pid (cur tk)) PT_PID $ put_type e (task_tgid (cur tk)) PT_PID $
        put_type e (match task_real_parent (cur tk) with Some p => p | None => 0 end) PT_PID $
        put_empty $ put_type e (rlimit_nofile tk) PT_UINT64 $
        put_type e (task_maj_flt (cur tk)) PT_UINT64 $ put_type e (task_min_flt (cur tk)) PT_UINT64 $
        put_type e (mm_size total_vm (Some mm)) PT_UINT32 $
        put_type e (mm_size rss (Some mm)) PT_UINT32 $
        put_type e (mm_size swap (Some mm)) PT_UINT32 $
        put_type e (task_comm (cur tk)) PT_CHARBUF $ bgoto F_proc_startupdate_2 in
      if 0 <=? retval then
        if arg_end mm =? 0 then bfail PPM_FAILURE_BUG
        else frame_step (fun st d =>
               bpf_user_strings (arg_start mm) (area_len (arg_start mm) (arg_end mm)) d) rest
      else with_data (fun d =>
        if tc_evt_type (tail_ctx d) =? PPME_SYSCALL_EXECVE_19_X
        then frame_step (fun st d => bpf_failed_strings (arg 1) d) rest
        else rest 0)
  end.

Definition bpf_proc_startupdate_2 : bcont :=
  frame_try (fun st d => let '(m, r) := bpf_append_cgroup (bp_css pr) 0 (tmp_scratch d) in
                         (with_tmp d m, r))
    (fun cgroups_len =>
       bstep (fun st d => __bpf_val_to_ring (local_env e (tmp_scratch d)) st d 0 cgroups_len PT_BYTEBUF
                            dyn_none false) $
       bgoto F_proc_startupdate_3).

(** Does a child of the task live in another process namespace? *)
Definition child_in_pidns : bool :=
  let pidns := bpf_task_active_pid_ns in
  if negb (bp_ns_level pr pidns =? 0) then true
  else match bp_ns_for_children pr with Some ns => negb (ns =? pidns) | None => false end.

Definition put_clone_params (flags : Z) : bcont :=
  put_type e (Z.lor (clone_flags_to_scap flags) (if child_in_pidns then PPM_CL_CHILD_IN_PIDNS else 0))
    PT_FLAGS32 $
  put_type e (bp_euid pr) PT_UINT32 $ put_type e (bp_egid pr) PT_UINT32 $
  put_type e bpf_task_pid_vnr PT_PID $ put_type e bpf_task_tgid_vnr PT_PID bdone.

Definition put_execve_params (mm : mm_struct) : bcont :=
  frame_step (fun st d =>
    if 0 <=? retval then bpf_user_strings (env_start mm) (area_len (env_start mm) (env_end mm)) d
    else bpf_failed_strings (arg 2) d)
    (fun env_len =>
       put_frame e env_len PT_BYTEBUF $ put_type e (ppm_get_tty tk) PT_INT32 $
       put_type e bpf_task_pgrp_vnr PT_PID $ put_type e (bp_loginuid pr) PT_INT32 bdone).

(** The result is uninitialised for other types than those of the event table. *)
Definition bpf_proc_startupdate_3 (stale : Z) : bcont :=
  match task_mm (cur tk) with
  | None => bfail PPM_FAILURE_BUG
  | Some mm => with_data (fun d =>
      let t := tc_evt_type (tail_ctx d) in
      if (t =? PPME_SYSCALL_CLONE_20_X) || (t =? PPME_SYSCALL_FORK_20_X)
         || (t =? PPME_SYSCALL_VFORK_20_X)
      then put_clone_params (if t =? PPME_SYSCALL_CLONE_20_X then arg 0 else 0)
      else if t =? PPME_SYSCALL_EXECVE_19_X then put_execve_params mm
      else bfail stale)
  end.
End process.
