(* ===== verification/BpfNet.v ===== *)
(** * Network fillers of the eBPF probe: [driver/bpf/filler_helpers.h], [fillers.h]

    The tuples of sockets and packets ([sock_to_ring], [iphdr_to_ring]), the fillers of
    the probes on TCP functions, of the transmit tracepoints and of the TCP resets, and
    the filter of captured packets ([check_skb]). *)

From Stdlib Require Import ZArith Lia List Bool.
From Stdlib Require Import Strings.Byte.
From stdpp Require Import base tactics list numbers option.
From S2P Require Import Prelude Bytes EventDefs EventTable FillerTable ValToRing.
From S2P Require Import ValToRingSpec FlagDefs Flags Probes Ring BpfRing BpfProbe BpfFillers BpfSock.
Import ListNotations.
Local Open Scope Z_scope.

(** ** Sockets. *)

(** A TCP socket as the probes read it: the fields of [bpf_sock], the smoothed round
    trip time, and the eight bytes at [skc_state]. *)
Record tcp_view : Type := mk_tcp {
  tv_sock : bpf_sock;
  tv_srtt_us : Z;
  tv_state : list byte }.

Definition ntohs (x : Z) : Z := u16 x mod 256 * 256 + u16 x / 256.

(** [struct tuple], ports in network order. *)
Record tuple : Type := mk_tuple {
  tp_sport : Z;
  tp_dport : Z;
  tp_saddr : Z;
  tp_daddr : Z;
  tp_family : Z;
  tp_pad : Z }.

#[export] Instance tuple_eq_dec : EqDecision tuple.
Proof. solve_decision. Defined.

(** The tuple the probes build of a socket. *)
Definition sock_tuple (sk : bpf_sock) : tuple :=
  mk_tuple (inet_sport sk) (inet_dport sk) (inet_saddr sk) (inet_daddr sk) (sk_family sk) 1.

Definition fill_tuple (d : filler_data) (tp : tuple) : filler_data :=
  fill_tuple4 d (tp_family tp) (le_bytes 4 (tp_saddr tp)) (ntohs (tp_sport tp))
    (le_bytes 4 (tp_daddr tp)) (ntohs (tp_dport tp)).

Section net.
Context (e : bpf_env).

Definition tuple_to_ring (tp : tuple) (next : bcont) : bcont :=
  frame_step (fun st d => (fill_tuple d tp, 13)) (fun size => put_frame_len e size next).

Definition sock_to_ring (sk : bpf_sock) (next : bcont) : bcont := tuple_to_ring (sock_tuple sk) next.

(** ** The fillers of the probes on TCP functions. *)

Definition bpf_tcp_drop_kprobe_e (sk : tcp_view) : bcont := sock_to_ring (tv_sock sk) bdone.

Definition bpf_rtt_kprobe_e (sk : tcp_view) : bcont :=
  sock_to_ring (tv_sock sk) $ put e (Z.shiftr (u32 (tv_srtt_us sk)) 3) bdone.

Definition bpf_tcp_retransmit_skb_kprobe_e (sk : tcp_view) (segs : Z) : bcont :=
  sock_to_ring (tv_sock sk) $ put e (s32 segs) bdone.

Definition bpf_tcp_send_loss_probe_e (sk : tcp_view) : bcont :=
  sock_to_ring (tv_sock sk) $ put e 1 bdone.

(** [stash] is what [stash_tuple_map] holds for the thread. *)
Definition bpf_tcp_connect_kprobe_x (stash : option tuple) (retval : Z) : bcont :=
  match stash with
  | None => bdone
  | Some tp => put e (s32 retval) $ tuple_to_ring tp bdone
  end.

Definition old_state (sk : tcp_view) : Z := le_val (take 1 (tv_state sk)).

Definition bpf_tcp_set_state_kprobe_e (sk : tcp_view) (new_state : Z) : bcont :=
  sock_to_ring (tv_sock sk) $ put e (old_state sk) $ put e (s32 new_state) bdone.

(** The state is read as an [unsigned long]. *)
Definition bpf_tcp_send_reset_e (sk : tcp_view) : bcont :=
  sock_to_ring (tv_sock sk) $ put e (le_val (tv_state sk)) bdone.
Definition bpf_tcp_receive_reset_e (sk : tcp_view) : bcont :=
  sock_to_ring (tv_sock sk) $ put e (le_val (tv_state sk)) bdone.

(** ** Packets. *)

(** [struct sk_buff]: its address and the fields that are read. *)
Record bpf_skb : Type := mk_bskb {
  bk_addr : Z;
  bk_data : Z;
  bk_head : Z;
  bk_len : Z;
  bk_network_header : Z;
  bk_mac_header : Z }.

Definition ip_protocol (iph : Z) : Z := READ e (iph + 9) 1.
Definition ip_saddr (iph : Z) : list byte := le_bytes 4 (READ e (iph + 12) 4).
Definition ip_daddr (iph : Z) : list byte := le_bytes 4 (READ e (iph + 16) 4).
Definition READ_be16 (a : Z) : Z := ntohs (READ e a 2).

(** [iphdr_to_ring]: a packet of another protocol ends the filler without error and
    without the parameter. *)
Definition iphdr_to_ring (iph : Z) (next : bcont) : bcont :=
  let l4 := u64 (iph + sizeof_iphdr) in
  let ipp := ip_protocol iph in
  let fill sport dport :=
    frame_step (fun st d =>
      (fill_tuple4 d AF_INET (ip_saddr iph) sport (ip_daddr iph) dport, 13))
      (fun size => put_frame_len e size next) in
  if (ipp =? IPPROTO_TCP) || (ipp =? IPPROTO_UDP) then fill (READ_be16 l4) (READ_be16 (l4 + 2))
  else if ipp =? IPPROTO_IPIP then fill 0 0
  else next.

(** A MAC address of six bytes. *)
Definition put_mac (addr : Z) : bcont -> bcont :=
  bstep (fun st d => bpf_val_to_ring_len e st d addr 6).

Definition bk_iph (skb : bpf_skb) : Z := u64 (bk_head skb + u16 (bk_network_header skb)).

Definition parse_tuple (skb : bpf_skb) (next : bcont) : bcont :=
  let ethh := u64 (bk_head skb + u16 (bk_mac_header skb)) in
  (if negb (u16 (bk_mac_header skb) =? 65535) then fun c => put_mac (ethh + 6) $ put_mac ethh c
   else fun c => c) $ iphdr_to_ring (bk_iph skb) next.

(** [parse_inner_tuple] *)
Definition parse_inner_tuple (skb : bpf_skb) (next : bcont) : bcont :=
  let iph := bk_iph skb in
  let ipp := ip_protocol iph in
  if ipp =? IPPROTO_TCP then iphdr_to_ring iph next
  else if ipp =? IPPROTO_IPIP then iphdr_to_ring (iph + sizeof_iphdr) next
  else if ipp =? IPPROTO_UDP then
    let udph := iph + sizeof_iphdr in
    let vxlan_port := READ_be16 (udph + 2) in
    if (vxlan_port =? 4789) || (vxlan_port =? 8472)
    then iphdr_to_ring (udph + VXLAN_HLEN + sizeof_ethhdr) next
    else bfail (-1)
  else bfail (-1).

(** The device name is in a buffer of the probe's stack. *)
Definition dev_mem (dev_name : list byte) : mem := mem_write mem_zero 0 (take 16 dev_name).

Definition bpf_net_dev_start_xmit_e (dev_name : list byte) (skb : bpf_skb) : bcont :=
  put_type (local_env e (dev_mem dev_name)) 0 PT_CHARBUF $
  put_type e (bk_addr skb) PT_UINT64 $ parse_tuple skb bdone.

Definition bpf_netif_receive_skb_e (dev_name : list byte) (skb : bpf_skb) : bcont :=
  put_type (local_env e (dev_mem dev_name)) 0 PT_CHARBUF $
  put_type e (bk_addr skb) PT_UINT64 $ parse_tuple skb bdone.

(** [check_skb]: the loop over the names is that of the module. *)
Definition bpf_check_skb (skb : bpf_skb) (dev_name setting_name : list byte) : Z :=
  if name_matches 16 dev_name setting_name then -1
  else
    let data_end := u64 (u32 (bk_len skb) + bk_data skb) in
    let iph := bk_iph skb in
    if data_end <? u64 (iph + 1) then -1
    else
      let ipp := ip_protocol iph in
      if ipp =? IPPROTO_TCP then
        let tcph := u64 (iph + sizeof_iphdr) in
        if data_end <? u64 (tcph + 1) then -1 else 0
      else if ipp =? IPPROTO_IPIP then
        let iph2 := u64 (iph + sizeof_iphdr) in
        if data_end <? u64 (iph2 + 1) then -1
        else
          let tcph := u64 (iph2 + sizeof_iphdr) in
          if data_end <? u64 (tcph + 1) then -1 else 0
      else if ipp =? IPPROTO_UDP then
        let udph := u64 (iph + sizeof_iphdr) in
        if data_end <? u64 (udph + 1) then -1
        else
          let vxlan_port := READ_be16 (udph + 2) in
          if (vxlan_port =? 4789) || (vxlan_port =? 8472) then
            let eth2 := u64 (udph + VXLAN_HLEN) in
            if data_end <? u64 (eth2 + sizeof_ethhdr) then 0
            else if negb (READ_be16 (eth2 + 12) =? 2048) then -1
            else
              let iph2 := u64 (eth2 + sizeof_ethhdr) in
              if data_end <? u64 (iph2 + 1) then -1
              else
                let tcph := u64 (iph2 + sizeof_iphdr) in
                if data_end <? u64 (tcph + 1) then -1 else 0
          else -1
      else -1.
End net.
