(* ===== verification/BpfPrograms.v ===== *)
(** * All programs of the eBPF probe

    The program array with every filler of [driver/bpf/fillers.h], and the proofs that
    each of them keeps the frame well formed ([FrameOK]) and that their chains of tail
    calls end.  A filler that builds a parameter on the frame writes behind the cursor:
    [scribbled] is derived for its steps. *)

From Stdlib Require Import ZArith Lia List Bool.
From Stdlib Require Import Strings.Byte.
From stdpp Require Import base tactics list numbers option.
From S2P Require Import Prelude Bytes EventDefs EventTable FillerTable ValToRing.
From S2P Require Import ValToRingSpec FlagDefs Flags Fillers FillerOps SyscallFillers SockFillers.
From S2P Require Import ProcFillers Ring RingSpec RingSystem Probes BpfRing BpfRingSpec BpfProbe.
From S2P Require Import BpfFillers BpfProbeSpec BpfFillersSpec BpfSock BpfData BpfProc BpfNet.
Import ListNotations.
Local Open Scope Z_scope.

(** ** The program array. *)

(** What the programs see: that of [bpf_tail_map], the task, and the socket or packet of
    a network event. *)
Record prog_view : Type := mk_pview {
  pv_view : bpf_view;
  pv_proc : bpf_proc;
  pv_backlog : bpf_sock -> Z * Z;
  pv_sk : tcp_view;
  pv_skb : bpf_skb;
  pv_dev_name : list byte }.

Definition bpf_programs (w : prog_view) (id : ppm_filler_id) : option bpf_filler :=
  let v := pv_view w in
  let tk := bv_task v in
  match id with
  | F_sys_socket_bind_x => Some bpf_sys_socket_bind_x
  | F_sys_connect_x => Some bpf_sys_connect_x
  | F_sys_socketpair_x => Some bpf_sys_socketpair_x
  | F_sys_setsockopt_x => Some (bpf_sys_setsockopt_x (bv_kernel_5_6 v))
  | F_sys_getsockopt_x => Some (bpf_sys_getsockopt_x (bv_kernel_5_6 v))
  | F_sys_accept_x => Some (bpf_sys_accept_x (pv_backlog w))
  | F_sys_send_e => Some bpf_sys_send_e
  | F_sys_send_x => Some bpf_sys_send_x
  | F_sys_sendto_e => Some bpf_sys_sendto_e
  | F_sys_recv_x => Some bpf_sys_recv_x
  | F_sys_recvfrom_x => Some bpf_sys_recvfrom_x
  | F_sys_execve_e => Some bpf_sys_execve_e
  | F_sys_sendmsg_e => Some bpf_sys_sendmsg_e
  | F_sys_sendmsg_x => Some bpf_sys_sendmsg_x
  | F_sys_sendmmsg_x => Some bpf_sys_sendmmsg_x
  | F_sys_recvmsg_x => Some bpf_sys_recvmsg_x
  | F_sys_recvmsg_x_2 => Some bpf_sys_recvmsg_x_2
  | F_sys_poll_e => Some bpf_sys_poll_e
  | F_sys_poll_x => Some bpf_sys_poll_x
  | F_sys_ppoll_e => Some (bpf_sys_ppoll_e (bv_kernel_5_6 v))
  | F_sys_epoll_wait_x => Some bpf_sys_epoll_wait_x
  | F_sys_writev_e => Some bpf_sys_writev_e
  | F_sys_readv_preadv_x => Some bpf_sys_readv_preadv_x
  | F_sys_writev_pwritev_x => Some bpf_sys_writev_pwritev_x
  | F_sys_pwritev_e => Some bpf_sys_pwritev_e
  | F_sys_quotactl_e => Some bpf_sys_quotactl_e
  | F_sys_quotactl_x => Some bpf_sys_quotactl_x
  | F_proc_startupdate => Some (bpf_proc_startupdate tk)
  | F_proc_startupdate_2 => Some (bpf_proc_startupdate_2 (pv_proc w))
  | F_proc_startupdate_3 => Some (fun e => bpf_proc_startupdate_3 tk (pv_proc w) e (bv_stale v))
  | F_netif_receive_skb_e => Some (fun e => bpf_netif_receive_skb_e e (pv_dev_name w) (pv_skb w))
  | F_net_dev_start_xmit_e => Some (fun e => bpf_net_dev_start_xmit_e e (pv_dev_name w) (pv_skb w))
  | F_tcp_receive_reset_e => Some (fun e => bpf_tcp_receive_reset_e e (pv_sk w))
  | F_tcp_send_reset_e => Some (fun e => bpf_tcp_send_reset_e e (pv_sk w))
  | _ => bpf_tail_map v id
  end.

(** Every filler has a program; the terminating one is not a filler. *)
Lemma bpf_programs_complete w id : id <> F_terminate_filler -> is_Some (bpf_programs w id).
Proof. intros H. destruct id; try done; by eexists. Qed.

(** ** Writes behind the cursor. *)

Lemma frame_at_high d o :
  0 <= tc_curoff (tail_ctx d) <= PERF_EVENT_MAX_SIZE -> 0 <= o <= 1000 ->
  tc_curoff (tail_ctx d) <= frame_at d o.
Proof.
  unfold PERF_EVENT_MAX_SIZE, sizeof_perf_event_sample, frame_at. intros H Ho.
  rewrite land_half, u64_small by lia. rewrite Z.mod_small by lia. lia.
Qed.

Lemma fill_frame_scribbled ws : forall d,
  0 <= tc_curoff (tail_ctx d) -> Forall (fun w => 0 <= fst w <= 1000) ws ->
  scribbled d (fill_frame d ws) /\
  curarg_already_on_frame (fill_frame d ws) = curarg_already_on_frame d.
Proof.
  induction ws as [|[o bs] ws IH]; intros d H0 Hw; [done|].
  inversion Hw as [|? ? Ho Hws]; subst. cbn [fst snd] in Ho. cbn [fill_frame fold_left].
  destruct (IH (with_buf d (mem_write (buf d) (frame_at d o) bs))) as [Hs Hf]; [done..|].
  split; [|done]. etrans; [|exact Hs]. split; [done|]. intros Hp x Hx. cbn [with_buf buf].
  apply mem_write_out. pose proof (frame_at_high d o). lia.
Qed.

Lemma put_at_curoff_scribbled d bs :
  0 <= tc_curoff (tail_ctx d) -> scribbled d (put_at_curoff d bs).
Proof.
  intros H0. split; [done|]. unfold PERF_EVENT_MAX_SIZE, sizeof_perf_event_sample.
  intros Hp x Hx. cbn [put_at_curoff with_buf buf]. apply mem_write_out.
  rewrite land_half, Z.mod_small by lia. lia.
Qed.

(** Memory that is the same below an address. *)
Definition above (lo : Z) (b b' : mem) : Prop := forall x, x < lo -> b' x = b x.

#[local] Instance above_preorder lo : PreOrder (above lo).
Proof. split; [by intros b x|]. intros b1 b2 b3 H1 H2 x Hx. rewrite H2, H1; done. Qed.

Lemma above_write lo b a bs : lo <= a -> above lo b (mem_write b a bs).
Proof. intros H x Hx. apply mem_write_out. lia. Qed.

Lemma above_put_off lo b off bs :
  0 <= lo <= off -> off <= SCRATCH_SIZE_HALF -> above lo b (put_off b off bs).
Proof.
  rewrite scratch_half. intros H1 H2. apply above_write. rewrite land_half, Z.mod_small; lia.
Qed.

Lemma above_scribbled d b : above (tc_curoff (tail_ctx d)) (buf d) b -> scribbled d (with_buf d b).
Proof. intros H. split; [done|]. intros _ x Hx. by apply H. Qed.

Lemma above_flags lo off flags : forall b,
  0 <= lo <= off -> off <= SCRATCH_SIZE_HALF ->
  above lo b (fold_left (fun b f => mem_write b (Z.land off SCRATCH_SIZE_HALF) f) flags b).
Proof.
  induction flags as [|f flags IH]; intros b H1 H2; cbn [fold_left]; [done|].
  etrans; [|by apply IH]. by apply above_put_off.
Qed.

Lemma fdlist_loop_above entry limit lo turns : forall j off count b b' r,
  0 <= lo <= off -> fdlist_loop turns entry j limit off count b = (b', r) -> above lo b b'.
Proof.
  induction turns as [|turns IH]; intros j off count b b' r Hlo H; cbn [fdlist_loop] in H; [by simplify_eq|].
  case_in H; [by simplify_eq|]. bool_to_prop. case_in H; [by simplify_eq|].
  destruct (entry j) as [fd flags]. rewrite scratch_half in *.
  rewrite (u64_small (off + 8)) in H by lia.
  assert (H1 : above lo b (mem_write b (Z.land off SCRATCH_SIZE_HALF) fd))
    by (apply above_put_off; rewrite ?scratch_half; lia).
  case_in H; [by simplify_eq|]. bool_to_prop. rewrite scratch_half in *.
  etrans; [exact H1|]. etrans; [|eapply IH; [|exact H]; rewrite u64_small; lia].
  apply above_flags; rewrite ?scratch_half; lia.
Qed.

Lemma gather_loop_above e m iovcnt lo turns : forall j off remaining b b' r,
  0 <= lo <= off -> gather_loop e turns m j iovcnt off remaining b = (b', r) ->
  above lo b b' /\ match r with Some off' => lo <= off' | None => True end.
Proof.
  induction turns as [|turns IH]; intros j off remaining b b' r Hlo H; cbn [gather_loop] in H;
    [simplify_eq; split; [done|lia]|].
  destruct (_ || _) eqn:Eo in H; [simplify_eq; split; [done|lia]|].
  apply orb_false_iff in Eo as [_ Hoff]. apply Z.ltb_ge in Hoff.
  rewrite if_ltb_min in H.
  destruct (probe_read _ _ _) as [bs r0].
  assert (H1 : above lo b (mem_write b (Z.land off SCRATCH_SIZE_HALF) bs))
    by (apply above_put_off; lia).
  case_in H; [by simplify_eq|].
  rewrite scratch_half in *.
  match type of H with context [u64 (off + ?n)] =>
    assert (Hn : 0 <= n <= 131071) by (pose proof (u32_range (if bpf_iov_len m j <=? remaining
       then bpf_iov_len m j else remaining)); lia) end.
  apply IH in H as [H2 H3]; [|rewrite u64_small; lia]. split; [by etrans|done].
Qed.

(** ** Steps. *)

(** A call that only prepares the frame. *)
Class Prepares {A} (f : sysdig_bpf_settings -> filler_data -> filler_data * A) : Prop :=
  prepares st d : 0 <= tc_curoff (tail_ctx d) ->
    scribbled d (fst (f st d)) /\
    curarg_already_on_frame (fst (f st d)) = curarg_already_on_frame d.

Lemma frame_step_ok {A} e n (f : sysdig_bpf_settings -> filler_data -> filler_data * A) next :
  Prepares f -> (forall a, FrameOK e n (next a)) -> FrameOK e n (frame_step f next).
Proof.
  intros Hf Hn tid st d st' d' r Hs Hfr Ht H0 Hc H. unfold frame_step in H.
  destruct (Hf st d (tracked_offset _ _ Ht)) as [Hsc Hon].
  destruct (f st d) as [d1 a]. cbn [fst] in *. pose proof (sc_tail _ _ Hsc) as Htl.
  rewrite <- Htl in *.
  eapply (Hn a tid); [exact Hs|congruence|by eapply tracked_scribbled|done|done|exact H].
Qed.

Lemma frame_try_ok {A} e n (f : sysdig_bpf_settings -> filler_data -> filler_data * (A + Z)) next :
  Prepares f -> (forall a, FrameOK e n (next a)) -> FrameOK e n (frame_try f next).
Proof. intros Hf Hn. apply frame_step_ok; [done|]. intros [a|c]; [done|apply fail_any]. Qed.

Lemma bgoto_ok e n id : FrameOK e n (bgoto id).
Proof.
  intros tid st d st' d' r Hs Hf Ht H0 Hc H. unfold bgoto in H. simplify_eq.
  repeat split_and; try done. intros _. repeat split_and; try done. lia.
Qed.

Section steps.
Context (e : bpf_env) (as_ : mem).
Context `{He : !BpfOK e as_}.

#[local] Ltac on_frame_call := do 6 eexists; split; [|split; [|split; [|by left; reflexivity]]];
  [done|intros tid Ht; eapply tracked_scribbled; [exact Ht|by split]|done].

Lemma put_frame_ok n len t next : FrameOK e n next -> FrameOK e (S n) (put_frame e len t next).
Proof. eapply bstep_ok; [exact He|]. intros st d. on_frame_call. Qed.

Lemma put_frame_data_ok n fd len next :
  FrameOK e n next -> FrameOK e (S n) (put_frame_data e fd len next).
Proof. eapply bstep_ok; [exact He|]. intros st d. on_frame_call. Qed.

Lemma put_frame_len_ok n len next : FrameOK e n next -> FrameOK e (S n) (put_frame_len e len next).
Proof.
  eapply bstep_ok; [exact He|]. intros st d. unfold bpf_val_to_ring_len. case_if; [|on_frame_call].
  exists d, 0, 0, PT_NONE, dyn_none, false. repeat split_and; auto. right.
  by exists (with_on_frame d true), PPM_FAILURE_BUG.
Qed.

Lemma put_opt_ok n val len next : FrameOK e n next -> FrameOK e (S n) (put_opt e val len next).
Proof.
  eapply bstep_ok; [exact He|]. intros st d. do 6 eexists.
  split; [|split; [|split; [|by left; reflexivity]]]; [done|by intros|congruence].
Qed.

Lemma put_mac_ok n addr next : FrameOK e n next -> FrameOK e (S n) (put_mac e addr next).
Proof.
  eapply bstep_ok; [exact He|]. intros st d. unfold bpf_val_to_ring_len. case_if.
  - exists d, 0, 0, PT_NONE, dyn_none, false. repeat split_and; auto. right. by exists d, PPM_FAILURE_BUG.
  - do 6 eexists. split; [|split; [|split; [|by left; reflexivity]]]; [done|by intros|congruence].
Qed.

(** The helpers read the probe's own memory as they read the task's. *)
#[export] Instance local_env_ok m : BpfOK (local_env e m) m.
Proof.
  split; cbn [local_env probe_read probe_read_str fst snd].
  - intros a n Hn. rewrite length_mem_read. lia.
  - done.
  - intros a n Hn. by apply length_cut_string.
  - intros a n Hn. right. destruct (cut_string_cstr m a n Hn) as (cs & Hc & H). unfold local_str.
    rewrite Hc. eauto.
Qed.

(** A string of the probe's own memory, of the declared type or a given one. *)
Lemma put_local_ok m n val t next :
  FrameOK e n next -> FrameOK e (S n) (put_type (local_env e m) val t next).
Proof. intros H. exact (put_type_ok (local_env e m) m n val t next H). Qed.

Lemma put_local_any_ok m n val next :
  FrameOK e n next -> FrameOK e (S n) (put (local_env e m) val next).
Proof. intros H. exact (put_ok (local_env e m) m n val next H). Qed.

Lemma put_tmp_ok n len next :
  FrameOK e n next ->
  FrameOK e (S n) (bstep (fun st d => __bpf_val_to_ring (local_env e (tmp_scratch d)) st d 0 len
                                        PT_BYTEBUF dyn_none false) next).
Proof.
  intros Hn tid st d st' d' r. set (m := tmp_scratch d).
  apply (bstep_ok (local_env e m) m n (fun st0 d0 =>
    __bpf_val_to_ring (local_env e m) st0 d0 0 len PT_BYTEBUF dyn_none false) next); [|exact Hn].
  intros st0 d0. do 6 eexists. split; [|split; [|split; [|by left; reflexivity]]];
    [done|by intros|congruence].
Qed.
End steps.

(** ** What prepares the frame. *)

#[export] Typeclasses Opaque bpf_user_strings bpf_failed_strings bpf_append_cgroup bpf_fd_to_socktuple
  bpf_user_tuple bpf_mmsg_loop bpf_parse_fdlist bpf_gather bpf_read_iov bpf_with_addr bpf_read_addr
  no_tuple fill_tuple fill_tuple4 bpf_pack_addr put_at_curoff with_tmp.

(** [same_frame]: nothing but the temporary area and the scalar fields changed. *)
Lemma same_frame d d' :
  tail_ctx d' = tail_ctx d -> buf d' = buf d ->
  curarg_already_on_frame d' = curarg_already_on_frame d ->
  scribbled d d' /\ curarg_already_on_frame d' = curarg_already_on_frame d.
Proof. intros Ht Hb Hf. split; [|done]. split; [done|]. intros _ x _. by rewrite Hb. Qed.

(** A fill after such a change. *)
Lemma fill_prepared d d0 ws :
  tail_ctx d0 = tail_ctx d -> buf d0 = buf d ->
  curarg_already_on_frame d0 = curarg_already_on_frame d ->
  0 <= tc_curoff (tail_ctx d) -> Forall (fun w => 0 <= fst w <= 1000) ws ->
  scribbled d (fill_frame d0 ws) /\
  curarg_already_on_frame (fill_frame d0 ws) = curarg_already_on_frame d.
Proof.
  intros Ht Hb Hf H0 Hw. destruct (same_frame d d0 Ht Hb Hf) as [H1 H2].
  destruct (fill_frame_scribbled ws d0) as [H3 H4]; [by rewrite Ht|done|].
  split; [by etrans|congruence].
Qed.

#[local] Ltac offsets := repeat (constructor; [cbn [fst]; lia|]); constructor.
#[local] Ltac prepared := first
  [ done
  | apply same_frame; done
  | match goal with |- context [fill_frame ?x _] =>
      apply (fill_prepared _ x); [done|done|done|done|offsets] end ].

Lemma fill_tuple4_prepared d d0 f s sp t tp :
  tail_ctx d0 = tail_ctx d -> buf d0 = buf d ->
  curarg_already_on_frame d0 = curarg_already_on_frame d -> 0 <= tc_curoff (tail_ctx d) ->
  scribbled d (fill_tuple4 d0 f s sp t tp) /\
  curarg_already_on_frame (fill_tuple4 d0 f s sp t tp) = curarg_already_on_frame d.
Proof. intros. unfold fill_tuple4. apply fill_prepared; try done. offsets. Qed.

Lemma fill_tuple6_prepared d d0 f s sp t tp :
  tail_ctx d0 = tail_ctx d -> buf d0 = buf d ->
  curarg_already_on_frame d0 = curarg_already_on_frame d -> 0 <= tc_curoff (tail_ctx d) ->
  scribbled d (fill_tuple6 d0 f s sp t tp) /\
  curarg_already_on_frame (fill_tuple6 d0 f s sp t tp) = curarg_already_on_frame d.
Proof. intros. unfold fill_tuple6. apply fill_prepared; try done. offsets. Qed.

Lemma pack_addr_prepared d ulen :
  0 <= tc_curoff (tail_ctx d) ->
  scribbled d (fst (bpf_pack_addr d ulen)) /\
  curarg_already_on_frame (fst (bpf_pack_addr d ulen)) = curarg_already_on_frame d.
Proof.
  intros H0. unfold bpf_pack_addr. cbv zeta. repeat case_if; cbn [fst];
    first [by apply same_frame | apply fill_prepared; try done; offsets].
Qed.

Lemma socktuple_prepared e st d fd user inb area :
  0 <= tc_curoff (tail_ctx d) ->
  scribbled d (fst (bpf_fd_to_socktuple e st d fd user inb area)) /\
  curarg_already_on_frame (fst (bpf_fd_to_socktuple e st d fd user inb area))
  = curarg_already_on_frame d.
Proof.
  intros H0. unfold bpf_fd_to_socktuple. cbv zeta.
  destruct (bpf_sockfd_lookup e st fd) as [sock|]; [|by apply same_frame].
  destruct (bpf_getsockname sock _ area false) as [tmp|]; [|by apply same_frame].
  destruct sock as [sk|]; [|by apply same_frame]. case_if.
  { cbn [fst]. destruct user; [|case_match]; unfold ends4; try destruct inb;
      by apply fill_tuple4_prepared. }
  case_if.
  { cbn [fst]. destruct user; [|case_match]; unfold ends6; try destruct inb;
      by apply fill_tuple6_prepared. }
  case_if; [|by apply same_frame].
  match goal with |- context [let '(_, _) := ?x in _] => destruct x as [tmp' name] end.
  cbn [fst].
  match goal with |- context [with_tmp (fill_frame ?a ?b) tmp'] => set (d1 := fill_frame a b) end.
  destruct (fill_prepared d (with_tmp d tmp) ((0, fam_byte (sk_family sk)) ::
    if inb then [(1, le64 (sk_addr sk)); (9, le64 (unix_peer sk))]
    else [(1, le64 (unix_peer sk)); (9, le64 (sk_addr sk))])) as [S1 F1]; try done.
  { destruct inb; offsets. }
  fold d1 in S1, F1. pose proof (sc_tail _ _ S1) as T1. clearbody d1.
  destruct (fill_prepared d1 (with_tmp d1 tmp') [(17, local_str tmp' name UNIX_PATH)]) as [S2 F2];
    try done; [by rewrite T1|offsets|].
  split; [by etrans|congruence].
Qed.

Lemma read_addr_prepared e uaddr ulen f d :
  (forall d1, 0 <= tc_curoff (tail_ctx d1) -> scribbled d1 (fst (f d1)) /\
     curarg_already_on_frame (fst (f d1)) = curarg_already_on_frame d1) ->
  0 <= tc_curoff (tail_ctx d) ->
  scribbled d (fst (bpf_read_addr e uaddr ulen f d)) /\
  curarg_already_on_frame (fst (bpf_read_addr e uaddr ulen f d)) = curarg_already_on_frame d.
Proof.
  intros Hf H0. unfold bpf_read_addr.
  destruct (bpf_addr_to_kernel _ _ _ _ _) as [m err]. case_if; [|by apply same_frame].
  destruct (same_frame d (with_tmp d m)) as [S1 F1]; [done..|].
  destruct (Hf (with_tmp d m)) as [S2 F2]; [done|]. split; [by etrans|congruence].
Qed.

Lemma with_addr_prepared e uaddr ulen f d :
  (forall d1, 0 <= tc_curoff (tail_ctx d1) -> scribbled d1 (fst (f d1)) /\
     curarg_already_on_frame (fst (f d1)) = curarg_already_on_frame d1) ->
  0 <= tc_curoff (tail_ctx d) ->
  scribbled d (fst (bpf_with_addr e uaddr ulen f d)) /\
  curarg_already_on_frame (fst (bpf_with_addr e uaddr ulen f d)) = curarg_already_on_frame d.
Proof.
  intros Hf H0. unfold bpf_with_addr. case_if; [|by apply same_frame]. by apply read_addr_prepared.
Qed.

#[export] Instance user_tuple_prepares e fd uaddr ulen inb : Prepares (bpf_user_tuple e fd uaddr ulen inb).
Proof.
  intros st d H0. unfold bpf_user_tuple. apply with_addr_prepared; [|done]. intros d1 H1.
  by apply socktuple_prepared.
Qed.

#[export] Instance tuple4_prepares f (sip dip : list byte) sport dport size :
  Prepares (fun (_ : sysdig_bpf_settings) d => (fill_tuple4 d f sip sport dip dport, size : Z)).
Proof. intros st d H0. by apply fill_tuple4_prepared. Qed.

#[export] Instance tuple_prepares tp size :
  Prepares (fun (_ : sysdig_bpf_settings) d => (fill_tuple d tp, size : Z)).
Proof. intros st d H0. by apply fill_tuple4_prepared. Qed.

#[export] Instance bind_prepares e uaddr ulen n :
  Prepares (fun (_ : sysdig_bpf_settings) d =>
    bpf_with_addr e uaddr ulen (fun d0 => bpf_pack_addr d0 n) d).
Proof. intros st d H0. apply with_addr_prepared; [|done]. intros d1 H1. by apply pack_addr_prepared. Qed.

#[export] Instance recvfrom_prepares e uaddr ulen fd user inb area :
  Prepares (fun st => bpf_read_addr e uaddr ulen (fun d =>
    bpf_fd_to_socktuple e st d fd user inb area)).
Proof. intros st d H0. apply read_addr_prepared; [|done]. intros d1 H1. by apply socktuple_prepared. Qed.

#[export] Instance no_tuple_prepares : Prepares no_tuple.
Proof. intros st d H0. by apply same_frame. Qed.

Lemma read_tmp_same e d from size d' err :
  read_tmp e d from size = (d', err) ->
  tail_ctx d' = tail_ctx d /\ buf d' = buf d /\
  curarg_already_on_frame d' = curarg_already_on_frame d.
Proof.
  unfold read_tmp. intros H. case_in H; [by simplify_eq|].
  destruct (probe_read _ _ _). by simplify_eq.
Qed.

#[export] Instance parse_fdlist_prepares e turns from size limit entry :
  Prepares (bpf_parse_fdlist e turns from size limit entry).
Proof.
  intros st d H0. unfold bpf_parse_fdlist. destruct (read_tmp e d from size) as [d1 err] eqn:E.
  apply read_tmp_same in E as (T1 & B1 & F1).
  destruct err; [by apply same_frame|]. destruct (curoff_full d1) eqn:Hf; [by apply same_frame|].
  unfold curoff_full in Hf. bool_to_prop. rewrite T1 in *. rewrite scratch_half in Hf.
  destruct (fdlist_loop _ _ _ _ _ _ _) as [b r] eqn:El.
  apply (fdlist_loop_above _ _ (tc_curoff (tail_ctx d))) in El; [|rewrite u64_small; lia].
  rewrite B1 in El.
  assert (Hs : forall b', above (tc_curoff (tail_ctx d)) (buf d) b' ->
    scribbled d (with_buf d1 b') /\
    curarg_already_on_frame (with_buf d1 b') = curarg_already_on_frame d).
  { intros b' Hb. split; [|done]. split; [done|]. intros _ x Hx. by apply Hb. }
  destruct r as [[off count]|c]; cbn [fst]; apply Hs; [|done].
  etrans; [exact El|]. apply above_put_off; rewrite ?scratch_half; lia.
Qed.

#[export] Instance read_iov_prepares e iovsrc iovcnt : Prepares (bpf_read_iov e iovsrc iovcnt).
Proof.
  intros st d H0. unfold bpf_read_iov. destruct (read_tmp _ _ _ _) as [d1 err] eqn:E.
  apply read_tmp_same in E as (T1 & B1 & F1). destruct err; by apply same_frame.
Qed.

#[export] Instance gather_prepares e iovcnt size : Prepares (bpf_gather e iovcnt size).
Proof.
  intros st d H0. unfold bpf_gather. case_if; [|by apply same_frame].
  destruct (gather_loop _ _ _ _ _ _ _ _) as [b r] eqn:E.
  eapply gather_loop_above in E as [E _]; [|split; [exact H0|reflexivity]].
  cbn [fst]. split; [by apply above_scribbled|done].
Qed.

Lemma mmsg_loop_prepared e retval msgs turns : forall i off size total d d' r,
  0 <= tc_curoff (tail_ctx d) <= off ->
  bpf_mmsg_loop e turns retval msgs i off size total d = (d', r) ->
  scribbled d d' /\ curarg_already_on_frame d' = curarg_already_on_frame d.
Proof.
  induction turns as [|turns IH]; intros i off size total d d' r H0 H; cbn [bpf_mmsg_loop] in H;
    [by simplify_eq; apply same_frame|].
  case_in H; [by simplify_eq; apply same_frame|].
  destruct (probe_read _ _ _) as [mmh r0]. case_in H; [by simplify_eq; apply same_frame|].
  destruct (read_tmp _ _ _ _) as [d1 err] eqn:Er. apply read_tmp_same in Er as (T1 & B1 & F1).
  destruct (same_frame d d1) as [S1 _]; [done..|].
  destruct err; [by simplify_eq|]. cbv zeta in H.
  match type of H with context [if 0 <? ?s then _ else _] => set (size1 := s) in * end.
  case_in H.
  2: { apply IH in H as [S2 F2]; [|by rewrite T1]. split; [by etrans|congruence]. }
  case_in H; [by simplify_eq|]. bool_to_prop. rewrite scratch_half in *.
  destruct (gather_loop _ _ _ _ _ _ _ _) as [b r1] eqn:Eg.
  apply (gather_loop_above _ _ _ (tc_curoff (tail_ctx d1))) in Eg as [Eg Hoff];
    [|rewrite T1, u64_small; lia].
  assert (S2 : scribbled d1 (with_buf d1 b)).
  { apply above_scribbled. etrans; [|exact Eg]. apply above_put_off; rewrite ?scratch_half, ?T1; lia. }
  destruct r1 as [off1|]; [|simplify_eq; split; [by etrans|done]].
  apply IH in H as [S3 F3]; [|cbn [with_buf tail_ctx]; rewrite T1 in *; lia].
  split; [by etrans; [|etrans]|]. rewrite F3. cbn. congruence.
Qed.

(** The kernel keeps the argument and environment areas of a process ordered. *)
Class AreasOK (tk : task_env) : Prop :=
  areas_ok mm : task_mm (cur tk) = Some mm ->
    0 <= area_len (arg_start mm) (arg_end mm) /\ 0 <= area_len (env_start mm) (env_end mm).

Lemma user_strings_prepared e start len d :
  0 <= len -> 0 <= tc_curoff (tail_ctx d) ->
  scribbled d (fst (bpf_user_strings e start len d)) /\
  curarg_already_on_frame (fst (bpf_user_strings e start len d)) = curarg_already_on_frame d.
Proof.
  intros Hl H0. unfold bpf_user_strings. destruct (len =? 0) eqn:El; [by apply same_frame|].
  bool_to_prop. rewrite if_ltb_min. destruct (probe_read _ _ _) as [bs r].
  pose proof (put_at_curoff_scribbled d bs H0) as S1. case_if; cbn [fst]; [done|]. split; [|done].
  etrans; [exact S1|]. split; [done|]. unfold PERF_EVENT_MAX_SIZE, sizeof_perf_event_sample.
  cbn [put_at_curoff with_buf tail_ctx buf].
  intros Hp x Hx. apply mem_write_out. rewrite land_max. unfold ARGS_ENV_SIZE_MAX.
  rewrite u64_small, Z.mod_small by lia. lia.
Qed.

Lemma accumulate_above e as_ `{He : !BpfOK e as_} curoff turns : forall argv off len b b' r,
  0 <= curoff <= off -> off <= 2 ^ 20 -> 0 <= len ->
  accumulate_argv_loop e turns argv curoff off len b = (b', r) ->
  curoff <= PERF_EVENT_MAX_SIZE -> above curoff b b'.
Proof.
  change (2 ^ 20) with 1048576.
  induction turns as [|turns IH]; intros argv off len b b' r H0 Ho Hl H Hp;
    cbn [accumulate_argv_loop] in H; [by simplify_eq|].
  case_in H; [by simplify_eq|]. case_in H; [by simplify_eq|]. bool_to_prop.
  rewrite scratch_half in *.
  destruct (probe_read_str _ _ _) as [bs n] eqn:Es.
  assert (H1 : above curoff b (put_off b off bs)) by (apply above_put_off; rewrite ?scratch_half; lia).
  assert (Hn : n = - EFAULT \/ 0 <= n <= 131071).
  { pose proof (prs_res (e := e) (as_ := as_) (READ e argv 8) 131071 ltac:(lia)) as Hr.
    pose proof (prs_len (e := e) (as_ := as_) (READ e argv 8) 131071 ltac:(lia)) as Hb.
    rewrite Es in Hr, Hb. cbn [fst snd] in Hr, Hb. destruct Hr as [->|(cs & -> & -> & _)]; [by left|].
    right. lia. }
  unfold PERF_EVENT_MAX_SIZE, sizeof_perf_event_sample in *.
  case_in H; [by simplify_eq|]. bool_to_prop. destruct Hn as [?|Hn]; [done|].
  case_in H; [simplify_eq|].
  - etrans; [exact H1|]. apply above_write. rewrite land_max. unfold ARGS_ENV_SIZE_MAX.
    rewrite u64_small, Z.mod_small by lia. lia.
  - etrans; [exact H1|]. assert (Hs : s32 (off + n) = off + n) by (apply s32_small; lia).
    rewrite Hs in H. eapply IH; [| | |exact H|]; lia.
Qed.

Lemma failed_strings_prepared e as_ `{He : !BpfOK e as_} argv d :
  0 <= tc_curoff (tail_ctx d) ->
  scribbled d (fst (bpf_failed_strings e argv d)) /\
  curarg_already_on_frame (fst (bpf_failed_strings e argv d)) = curarg_already_on_frame d.
Proof.
  intros H0. unfold bpf_failed_strings. destruct (accumulate_argv_loop _ _ _ _ _ _ _) as [b r] eqn:E.
  cbn [fst]. split; [|done]. split; [done|]. intros Hp x Hx.
  unfold PERF_EVENT_MAX_SIZE, sizeof_perf_event_sample in *.
  rewrite s32_small in E by lia.
  eapply accumulate_above in E; [by apply E|exact He| | | |].
  all: unfold PERF_EVENT_MAX_SIZE, sizeof_perf_event_sample; change (2 ^ 20) with 1048576; lia.
Qed.

Lemma put_exe_args_ok e as_ `{He : !BpfOK e as_} n args_len next :
  FrameOK e n next -> FrameOK e (S (S n)) (put_exe_args e args_len next).
Proof.
  intros Hn. unfold put_exe_args. case_if.
  - apply frame_step_ok.
    + intros st d H0. cbn [fst]. split; [by apply put_at_curoff_scribbled|done].
    + intros a. eapply put_frame_ok; [exact He|]. eapply put_frame_ok; [exact He|]. done.
  - apply put_local_ok. eapply put_type_ok; [exact He|]. done.
Qed.

Lemma with_settings_ok e n f : (forall st, FrameOK e n (f st)) -> FrameOK e n (with_settings f).
Proof. intros H. apply (with_both_ok e n (fun s => f (fst s))). intros s. apply H. Qed.

(** ** Every program keeps the frame well formed. *)

Ltac prog_steps He :=
  repeat first
    [ apply done_any | apply fail_any | apply bgoto_ok
    | eapply put_ok; [exact He|] | eapply put_type_ok; [exact He|] | eapply put_dyn_ok; [exact He|]
    | eapply put_data_ok; [exact He|] | eapply put_frame_ok; [exact He|]
    | eapply put_frame_len_ok; [exact He|] | eapply put_frame_data_ok; [exact He|]
    | eapply put_opt_ok; [exact He|] | eapply put_mac_ok; [exact He|]
    | eapply put_exe_args_ok; [exact He|]
    | apply put_local_ok | apply put_local_any_ok | apply put_tmp_ok
    | apply with_data_ok; intros ? | apply bread_ok; intros ? | apply with_settings_ok; intros ?
    | apply frame_try_ok; [try exact _|intros ?]
    | apply frame_step_ok; [try exact _|intros ?]
    | match goal with
      | |- FrameOK _ _ (if ?b then _ else _) => destruct b
      | |- FrameOK _ _ ((if ?b then _ else _) _) => destruct b
      | |- FrameOK _ _ (match ?o with _ => _ end) => destruct o eqn:?
      end ].

#[local] Create HintDb bpf_progs.
#[local] Hint Unfold
  bpf_sys_socket_bind_x bpf_sys_connect_x bpf_socketpair_params bpf_sys_socketpair_x
  bpf_parse_sockopt bpf_sockopt_head bpf_sys_setsockopt_x bpf_sys_getsockopt_x
  bpf_f_sys_send_e_common bpf_sys_send_e bpf_sys_sendto_e bpf_transfer_data bpf_sys_send_x
  bpf_f_sys_recv_x_common bpf_sys_recv_x put_tuple bpf_sys_recvfrom_x bpf_sys_accept_x
  bpf_parse_readv_writev_bufs bpf_epoll_parse_fds bpf_poll_parse_fds bpf_sys_epoll_wait_x
  bpf_sys_poll_e bpf_sys_poll_x bpf_sys_ppoll_e bpf_sys_readv_preadv_x bpf_sys_writev_e
  bpf_sys_writev_pwritev_x bpf_sys_pwritev_e bpf_sys_sendmsg_e bpf_sys_sendmsg_x
  bpf_sys_recvmsg_x bpf_sys_recvmsg_x_2 bpf_sys_sendmmsg_x bpf_sys_quotactl_e bread_when
  bpf_sys_quotactl_x put_empty bpf_proc_startupdate bpf_proc_startupdate_2 put_clone_params
  put_execve_params bpf_proc_startupdate_3 tuple_to_ring sock_to_ring iphdr_to_ring parse_tuple
  bpf_net_dev_start_xmit_e bpf_netif_receive_skb_e bpf_tcp_send_reset_e bpf_tcp_receive_reset_e
  bpf_timespec_parse : bpf_progs.

Lemma execve_e_ok e as_ `{He : !BpfOK e as_} : FrameOK e 1 (bpf_sys_execve_e e).
Proof.
  intros tid st d st' d' r Hs Hf Ht H0 Hc H. unfold bpf_sys_execve_e in H.
  destruct (bpf_val_to_ring e st d _) as [d1 r1] eqn:E. case_in H.
  - bool_to_prop. subst r1.
    assert (Hk : kept d d1).
    { unfold bpf_val_to_ring in E. case_in E; [done|]. rewrite val_to_ring_unfold in E. cbv zeta in E.
      change (after_dyn d dyn_none) with d in E. case_in E; [done|].
      destruct (bpf_put_value _ _ _ _ _ _ _) as [d2 r2] eqn:E2.
      eapply bpf_put_value_kept in E2; [|exact He|by eapply tracked_offset].
      destruct r2; [case_in E|]; by simplify_eq. }
    destruct Hk as [K1 K2 K3].
    assert (Ht1 : tracked tid d1) by (eapply tracked_scribbled; [exact Ht|]; by split).
    rewrite <- K1 in *.
    refine (put_local_any_ok e na_mem 0 0 bdone (done_any e 0) tid st d1 st' d' r Hs _ Ht1 H0 _ H);
      [congruence|done].
  - injection H as <- <- <-. eapply (put_ok e as_ 0 _ bdone (done_any e 0) tid st d); try done.
    unfold put, bstep. rewrite E. case_if; [|done]. bool_to_prop. by subst.
Qed.

Lemma bpf_programs_ok w id f e as_ :
  AreasOK (bv_task (pv_view w)) -> BpfOK e as_ -> bpf_programs w id = Some f -> FrameOK e 16 (f e).
Proof.
  intros Ha He H.
  destruct id; cbn [bpf_programs] in H; try (by eapply bpf_tail_map_ok); simplify_eq;
    autounfold with bpf_progs; prog_steps He.

  - eapply frame_ok_weaken; [|by eapply execve_e_ok]. lia.
  - intros st1 d1 H1. apply user_strings_prepared; [|done]. by apply (Ha m).
  - intros st1 d1 H1. by eapply failed_strings_prepared.
  - intros st1 d1 H1. destruct (bpf_append_cgroup _ _ _ _). by apply same_frame.
  - intros st1 d1 H1. case_if; [apply user_strings_prepared; [by apply (Ha m)|done]|].
    by eapply failed_strings_prepared.
  - intros st1 d1 H1. case_if; [by apply prepares|by apply same_frame].
  - intros st1 d1 H1. by apply socktuple_prepared.
  - intros st1 d1 H1.
    destruct (bpf_mmsg_loop _ _ _ _ _ _ _ _ _) as [d2 r] eqn:E. cbn [fst].
    eapply mmsg_loop_prepared; [|exact E]. lia.
Qed.

(** ** The chains of tail calls end. *)

(** The programs a continuation can tail call. *)
Definition leads (P : ppm_filler_id -> Prop) (f : bcont) : Prop :=
  forall s s' id, f s = (s', FillTail id) -> P id.

Section leads.
Context (P : ppm_filler_id -> Prop).

Lemma bstep_leads f next : leads P next -> leads P (bstep f next).
Proof.
  intros Hn [st d] s' id H. unfold bstep in H. destruct (f st d) as [d1 r].
  case_in H; [by eapply Hn|done].
Qed.

Lemma bread_leads e from n next : (forall bs, leads P (next bs)) -> leads P (bread e from n next).
Proof.
  intros Hn s s' id H. unfold bread in H. destruct (probe_read _ _ _).
  case_in H; [by eapply Hn|done].
Qed.

Lemma frame_step_leads {A} (f : sysdig_bpf_settings -> filler_data -> filler_data * A) next :
  (forall a, leads P (next a)) -> leads P (frame_step f next).
Proof.
  intros Hn [st d] s' id H. unfold frame_step in H. destruct (f st d) as [d1 a]. by eapply Hn.
Qed.

Lemma bfail_leads c : leads P (bfail c).
Proof. by intros s s' id H. Qed.

Lemma frame_try_leads {A} (f : sysdig_bpf_settings -> filler_data -> filler_data * (A + Z)) next :
  (forall a, leads P (next a)) -> leads P (frame_try f next).
Proof. intros Hn. apply frame_step_leads. intros [a|c]; [done|apply bfail_leads]. Qed.

Lemma with_data_leads f : (forall d, leads P (f d)) -> leads P (with_data f).
Proof. intros Hf s s' id H. by eapply Hf. Qed.

Lemma with_settings_leads f : (forall st, leads P (f st)) -> leads P (with_settings f).
Proof. intros Hf s s' id H. by eapply Hf. Qed.

Lemma bgoto_leads id : P id -> leads P (bgoto id).
Proof. intros Hp s s' id' H. unfold bgoto in H. by simplify_eq. Qed.
End leads.

Ltac leads_steps :=
  repeat first
    [ apply bfail_leads | apply bgoto_leads; simpl; lia
    | match goal with
      | |- leads _ bdone => by intros ? ? ?
      | |- leads _ (bstep _ _) => apply bstep_leads
      | |- leads _ (put _ _ _) => apply bstep_leads
      | |- leads _ (put_type _ _ _ _) => apply bstep_leads
      | |- leads _ (put_dyn _ _ _ _ _) => apply bstep_leads
      | |- leads _ (put_data _ _ _ _ _) => apply bstep_leads
      | |- leads _ (put_frame _ _ _ _) => apply bstep_leads
      | |- leads _ (put_frame_len _ _ _) => apply bstep_leads
      | |- leads _ (put_frame_data _ _ _ _) => apply bstep_leads
      | |- leads _ (put_opt _ _ _ _) => apply bstep_leads
      | |- leads _ (put_mac _ _ _) => apply bstep_leads
      | |- leads _ (bread _ _ _ _) => apply bread_leads; intros ?
      | |- leads _ (with_data _) => apply with_data_leads; intros ?
      | |- leads _ (with_settings _) => apply with_settings_leads; intros ?
      | |- leads _ (frame_try _ _) => apply frame_try_leads; intros ?
      | |- leads _ (frame_step _ _) => apply frame_step_leads; intros ?
      | |- leads _ (if ?b then _ else _) => destruct b
      | |- leads _ ((if ?b then _ else _) _) => destruct b
      | |- leads _ (match ?o with _ => _ end) => destruct o
      end ].

Definition prog_rank (id : ppm_filler_id) : nat :=
  match id with
  | F_proc_startupdate => 2
  | F_proc_startupdate_2 | F_sys_recvmsg_x => 1
  | _ => 0
  end%nat.

#[local] Hint Unfold put_exe_args : bpf_progs.

Lemma execve_e_leads P e : leads P (bpf_sys_execve_e e).
Proof.
  intros [st d] s' id H. unfold bpf_sys_execve_e in H. destruct (bpf_val_to_ring _ _ _ _) as [d1 r].
  case_in H; [|done]. eapply (bstep_leads P _ bdone); [by intros ? ? ?|exact H].
Qed.

Lemma bpf_programs_lead w id f e :
  bpf_programs w id = Some f -> leads (fun id' => (prog_rank id' < prog_rank id)%nat) (f e).
Proof.
  intros H.
  destruct id; cbn [bpf_programs] in H;
    try (intros b b' id' Hb; by destruct (bpf_tail_map_ends (pv_view w) _ f e H b b' id'));
    simplify_eq; try apply execve_e_leads; autounfold with bpf_progs; leads_steps.
Qed.

#[export] Instance bpf_programs_chained w : Chained (bpf_programs w).
Proof.
  refine {| rank := prog_rank |}.
  - intros id. unfold MAX_TAIL_CALL_CNT. destruct id; cbn; lia.
  - intros id f e b b' id' Hf H. by eapply bpf_programs_lead.
Qed.

(** ** The records. *)

(** C13: an event handled by the probe adds at most one frame, to its own CPU, and the
    frame is an event record with the time of the event, the calling thread, and as
    many parameters as the event table says for its type: the type asked for, one of
    the two drop markers that replace it, or the hotplug event when one is pending on
    CPU 0. *)
Theorem bpf_call_records_event (w : prog_view) (terminate_loaded : bool) (e : bpf_env) (as_ : mem)
    (cpu ty flags : Z) (s : bpf_sys) :
  AreasOK (bv_task (pv_view w)) -> BpfOK e as_ -> 0 <= st_snaplen (bs_settings s) ->
  exists new, bs_out (call_filler (bpf_programs w) terminate_loaded e cpu ty flags s) = bs_out s ++ new /\
    (length new <= 1)%nat /\
    Forall (fun x => fst x = cpu /\ exists ev : event,
      snd x = bytes_of_event ev /\
      ev_ts ev = u64 (st_boot_time (bs_settings s) + ktime_get_ns e) /\
      ev_tid ev = Z.land (pid_tgid e) 0xffffffff /\
      Z.of_nat (length (ev_params ev)) = ei_nparams (g_event_info (ev_type ev)) /\
      recorded_type cpu (bc_hotplug (bs_cpus s cpu)) ty (ev_type ev)) new.
Proof.
  intros Ha He Hs. assert (Ht : table_ok e (bpf_programs w))
    by (intros id f Hid; by eapply bpf_programs_ok).
  destruct (call_filler_records (bpf_programs w) terminate_loaded e cpu ty flags s Ht Hs)
    as (_ & new & Ho & Hl & Hf).
  exists new. split; [done|]. split; [done|]. eapply List.Forall_impl; [|exact Hf].
  intros x (Hx & ty' & Hty & ev & H1 & H2 & H3 & H4 & H5). split; [done|]. exists ev.
  rewrite H4 in *. by repeat split_and.
Qed.

(** The probe's view of a task without memory, with no socket or packet. *)
Definition sample_pview : prog_view :=
  mk_pview sample_view (mk_bproc None None None (fun _ => 0) None 0 0 0 []) (fun _ => (0, 0))
    (mk_tcp (mk_bsock 0 2 20480 47873 16777343 0 33554559 [] [] [] 0 None None) 8000 (le_bytes 8 1))
    (mk_bskb 0 0 0 0 0 0) [].

#[export] Instance sample_areas : AreasOK (bv_task (pv_view sample_pview)).
Proof. intros mm H. vm_compute in H. simplify_eq; vm_compute; split; discriminate. Qed.

(** poll(4096, 2, 0) entered on CPU 2: two descriptors with their events. *)
Definition poll_mem : mem :=
  mem_write mem_zero 4096 (le32 7 ++ le16 1 ++ le16 0 ++ le32 9 ++ le16 4 ++ le16 0).
Definition sample_poll : bpf_sys :=
  call_filler (bpf_programs sample_pview) true (mem_benv poll_mem [4096; 2; 0] 0 99) 2
    PPME_SYSCALL_POLL_E UF_USED (bpf_start sample_settings).

Lemma sample_poll_one : length (bs_out sample_poll) = 1%nat.
Proof. vm_compute. reflexivity. Qed.

Lemma bpf_call_records_event_witness :
  exists ev, bs_out sample_poll = [(2, bytes_of_event ev)] /\
    Z.of_nat (length (ev_params ev)) = ei_nparams (g_event_info (ev_type ev)).
Proof.
  destruct (bpf_call_records_event sample_pview true (mem_benv poll_mem [4096; 2; 0] 0 99) poll_mem 2
              PPME_SYSCALL_POLL_E UF_USED (bpf_start sample_settings) _ _ ltac:(simpl; lia))
    as (new & Ho & _ & Hf).
  assert (Hs : bs_out sample_poll = new) by exact Ho. clear Ho.
  pose proof sample_poll_one as Hl. rewrite Hs in Hl. rewrite Hs. clear Hs.
  destruct new as [|[c f] [|y new]]; try discriminate.
  destruct (List.Forall_inv Hf) as [Hc (ev & H1 & _ & _ & H4 & _)]. exists ev.
  split; [|exact H4]. cbn [fst snd] in Hc, H1. rewrite Hc, H1. reflexivity.
Defined.
