(* ===== verification/BpfHash.v ===== *)
(** * Hash maps of the kernel, as the eBPF probe uses them

    [bpf_map_lookup_elem], [bpf_map_update_elem] and [bpf_map_delete_elem] are the
    kernel's.  [BpfHash] has the operations and [BpfHashOK] what their documentation
    promises; the probe's theorems are proved against it.  [bounded] is an instance: a
    finite map that refuses a new key when it is full. *)

From Stdlib Require Import ZArith Lia List Bool.
From stdpp Require Import base tactics list numbers option gmap.
From S2P Require Import Prelude BpfRing.
Local Open Scope Z_scope.

Class BpfHash (K : Type) (H : Type -> Type) : Type := {
  hash_lookup {V} : H V -> K -> option V;
  hash_update {V} : H V -> K -> V -> H V * Z;
  hash_update_noexist {V} : H V -> K -> V -> H V * Z;
  hash_delete {V} : H V -> K -> H V;
  hash_store {V} : H V -> K -> V -> H V }.

(** An update succeeds or changes nothing, and cannot fail for a key that is present;
    [hash_store] is a store through the pointer a lookup returned. *)
Class BpfHashOK (K : Type) `{EqDecision K} (H : Type -> Type) `{BpfHash K H} : Prop := {
  hash_update_ok {V} (m : H V) k v :
    (snd (hash_update m k v) = 0 /\
     forall k', hash_lookup (fst (hash_update m k v)) k' = if decide (k' = k) then Some v else hash_lookup m k') \/
    (snd (hash_update m k v) <> 0 /\ hash_lookup m k = None /\
     forall k', hash_lookup (fst (hash_update m k v)) k' = hash_lookup m k');
  hash_noexist_ok {V} (m : H V) k v k' :
    hash_lookup (fst (hash_update_noexist m k v)) k' =
    if decide (k' = k) then
      match hash_lookup m k with
      | Some w => Some w
      | None => if snd (hash_update_noexist m k v) =? 0 then Some v else None
      end
    else hash_lookup m k';
  hash_delete_ok {V} (m : H V) k k' :
    hash_lookup (hash_delete m k) k' = if decide (k' = k) then None else hash_lookup m k';
  hash_store_ok {V} (m : H V) k v k' :
    hash_lookup (hash_store m k v) k' =
    if decide (k' = k) then (match hash_lookup m k with Some _ => Some v | None => None end)
    else hash_lookup m k' }.

(** Two maps that answer alike. *)
Definition hash_equiv {K H} `{BpfHash K H} {V} (m m' : H V) : Prop :=
  forall k, hash_lookup m' k = hash_lookup m k.

#[export] Instance hash_equiv_equivalence {K H} `{BpfHash K H} {V} :
  Equivalence (hash_equiv (H := H) (V := V)).
Proof.
  split; [by intros m k|by intros m m' E k; rewrite E|]. intros m1 m2 m3 E1 E2 k. by rewrite E2, E1.
Qed.

Section laws.
Context {K : Type} `{EqDecision K} {H : Type -> Type} `{BpfHash K H} `{!BpfHashOK K H}.

#[export] Instance hash_delete_proper {V} :
  Proper (hash_equiv (H := H) (V := V) ==> (=) ==> hash_equiv) hash_delete.
Proof. intros m m' E k ? <- k'. rewrite !hash_delete_ok. by rewrite E. Qed.

#[export] Instance hash_store_proper {V} :
  Proper (hash_equiv (H := H) (V := V) ==> (=) ==> (=) ==> hash_equiv) hash_store.
Proof. intros m m' E k ? <- v ? <- k'. rewrite !hash_store_ok. by rewrite !E. Qed.

(** An update seen from one key. *)
Lemma hash_update_same {V} (m : H V) k v :
  hash_lookup (fst (hash_update m k v)) k = Some v \/
  (hash_lookup (fst (hash_update m k v)) k = None /\ hash_lookup m k = None).
Proof.
  destruct (hash_update_ok m k v) as [[_ E]|(_ & Hn & E)]; rewrite E.
  - rewrite decide_True by done. by left.
  - by right.
Qed.

Lemma hash_update_other {V} (m : H V) k v k' :
  k' <> k -> hash_lookup (fst (hash_update m k v)) k' = hash_lookup m k'.
Proof.
  intros Hk. destruct (hash_update_ok m k v) as [[_ E]|(_ & _ & E)]; rewrite E; [|done].
  by rewrite decide_False.
Qed.

(** A store through a pointer to an element that is present. *)
Lemma hash_store_present {V} (m : H V) k v w :
  hash_lookup m k = Some w -> hash_lookup (hash_store m k v) k = Some v.
Proof. intros E. rewrite hash_store_ok, decide_True, E by done. done. Qed.

Lemma hash_store_other {V} (m : H V) k v k' :
  k' <> k -> hash_lookup (hash_store m k v) k' = hash_lookup m k'.
Proof. intros E. by rewrite hash_store_ok, decide_False. Qed.
End laws.

(** ** A bounded finite map. *)

Definition E2BIG : Z := 7.
Definition EEXIST : Z := 17.

Section bounded.
Context {K : Type} `{Countable K} (max_entries : nat).

Definition bounded (V : Type) : Type := gmap K V.

#[local] Instance bounded_hash : BpfHash K bounded := {
  hash_lookup V m k := (m : gmap K V) !! k;
  hash_update V m k v :=
    match (m : gmap K V) !! k with
    | Some _ => (<[k:=v]> m, 0)
    | None => if (size m <? max_entries)%nat then (<[k:=v]> m, 0) else (m, - E2BIG)
    end;
  hash_update_noexist V m k v :=
    match (m : gmap K V) !! k with
    | Some _ => (m, - EEXIST)
    | None => if (size m <? max_entries)%nat then (<[k:=v]> m, 0) else (m, - E2BIG)
    end;
  hash_delete V m k := delete k m;
  hash_store V m k v := alter (fun _ => v) k m }.

#[local] Instance bounded_hash_ok : BpfHashOK K bounded.
Proof.
  split; intros V m k v; cbn [hash_lookup hash_update hash_update_noexist hash_delete hash_store bounded_hash].
  - destruct ((m : gmap K V) !! k) eqn:E; [|case_if]; cbn [fst snd].
    + left. split; [done|]. intros k'. case_decide; [subst; by rewrite lookup_insert_eq|].
      by rewrite lookup_insert_ne.
    + left. split; [done|]. intros k'. case_decide; [subst; by rewrite lookup_insert_eq|].
      by rewrite lookup_insert_ne.
    + by right.
  - intros k'. destruct ((m : gmap K V) !! k) eqn:E; [|case_if]; cbn [fst snd]; case_decide; subst; try done.
    + by rewrite lookup_insert_eq.
    + by rewrite lookup_insert_ne.
  - case_decide; [subst; by rewrite lookup_delete_eq|]. by rewrite lookup_delete_ne.
  - intros k'. case_decide; [subst k'|by rewrite lookup_alter_ne].
    rewrite lookup_alter_eq. by destruct ((m : gmap K V) !! k).
Qed.
End bounded.
