(* ===== verification/CpuAnalysis.v ===== *)
(** * CPU analysis of the eBPF probe: [plumbing_helpers.h], [maps.h], [fillers.h]

    With [CPU_ANALYSIS], which the build sets, the probe records for each thread how
    long it was on and off the CPU, why it was off, and how long it waited for the run
    queue, and sends the record when it is full, old, or covers an event of interest.
    The state is in hash maps of the kernel ([BpfHash]). *)

From Stdlib Require Import ZArith Lia List Bool.
From Stdlib Require Import Strings.Byte Strings.String.
From stdpp Require Import base tactics list numbers option.
From S2P Require Import Prelude Bytes EventDefs EventTable FillerTable ValToRing Ring BpfRing BpfProbe.
From S2P Require Import BpfFillers BpfSock BpfHash.
Import ListNotations.
Local Open Scope Z_scope.

(** [enum offcpu_type] *)
Definition OFF_ON : Z := 0.
Definition OFF_DISK : Z := 1.
Definition OFF_NET : Z := 2.
Definition OFF_LOCK : Z := 3.
Definition OFF_IDLE : Z := 4.
Definition OFF_OTHER : Z := 5.
Definition OFF_EPOLL : Z := 6.

Definition NUM : Z := 16.
Definition HALF_NUM : Z := Z.shiftr NUM 1.
Definition MINBLOCK_US : Z := 1.
Definition MAXBLOCK_US : Z := 2 ^ 48 - 1.

Record info_t : Type := mk_info {
  in_pid : Z;
  in_tid : Z;
  in_start_ts : Z;
  in_end_ts : Z;
  in_index : Z;
  in_times_specs : list Z;
  in_rq : list Z;
  in_time_type : list Z }.

Definition zero_times : list Z := replicate (Z.to_nat NUM) 0.
Definition zero_rq : list Z := replicate (Z.to_nat HALF_NUM) 0.

(** [array[i & (n - 1)] = v] *)
Definition set_slot (l : list Z) (i n v : Z) : list Z := <[Z.to_nat (Z.land i (n - 1)) := v]> l.

Section cpu.
Context {H : Type -> Type} `{BpfHash Z H}.

Record cpu_maps : Type := mk_maps {
  type_map : H Z;
  on_start_ts : H Z;
  off_start_ts : H Z;
  cpu_runq : H Z;
  syscall_map : H Z;
  cpu_focus_threads : H Z;
  cpu_records : H info_t }.

Definition set_type_map (m : cpu_maps) (x : H Z) : cpu_maps :=
  mk_maps x (on_start_ts m) (off_start_ts m) (cpu_runq m) (syscall_map m) (cpu_focus_threads m)
    (cpu_records m).
Definition set_on_start_ts (m : cpu_maps) (x : H Z) : cpu_maps :=
  mk_maps (type_map m) x (off_start_ts m) (cpu_runq m) (syscall_map m) (cpu_focus_threads m)
    (cpu_records m).
Definition set_off_start_ts (m : cpu_maps) (x : H Z) : cpu_maps :=
  mk_maps (type_map m) (on_start_ts m) x (cpu_runq m) (syscall_map m) (cpu_focus_threads m)
    (cpu_records m).
Definition set_cpu_runq (m : cpu_maps) (x : H Z) : cpu_maps :=
  mk_maps (type_map m) (on_start_ts m) (off_start_ts m) x (syscall_map m) (cpu_focus_threads m)
    (cpu_records m).
Definition set_syscall_map (m : cpu_maps) (x : H Z) : cpu_maps :=
  mk_maps (type_map m) (on_start_ts m) (off_start_ts m) (cpu_runq m) x (cpu_focus_threads m)
    (cpu_records m).
Definition set_focus_threads (m : cpu_maps) (x : H Z) : cpu_maps :=
  mk_maps (type_map m) (on_start_ts m) (off_start_ts m) (cpu_runq m) (syscall_map m) x
    (cpu_records m).
Definition set_cpu_records (m : cpu_maps) (x : H info_t) : cpu_maps :=
  mk_maps (type_map m) (on_start_ts m) (off_start_ts m) (cpu_runq m) (syscall_map m)
    (cpu_focus_threads m) x.

(** [clear_map]: the run queue entry of the thread stays. *)
Definition clear_map (m : cpu_maps) (tid : Z) : cpu_maps :=
  mk_maps (hash_delete (type_map m) tid) (hash_delete (on_start_ts m) tid)
    (hash_delete (off_start_ts m) tid) (cpu_runq m) (syscall_map m)
    (hash_delete (cpu_focus_threads m) tid) (hash_delete (cpu_records m) tid).

(** [check_filter] returns before it looks at its lists. *)
Definition check_filter (pid : Z) : bool := true.

(** The [switch] of [get_syscall_type] over the numbers of the target. *)
Definition syscall_types (nr : String.string -> option Z) : list (Z * Z) :=
  let row t l := flat_map (fun s => match nr s with Some n => [(n, t)] | None => [] end) l in
  row OFF_DISK ["read"; "pread64"; "readv"; "preadv"; "write"; "pwrite64"; "writev"; "pwritev"; "sync";
                "sync_file_range"; "fsync"; "msync"; "open"; "close"]%string ++
  row OFF_NET ["recvfrom"; "recvmmsg"; "recvmsg"; "sendto"; "sendmsg"; "sendmmsg"; "connect";
               "accept"]%string ++
  row OFF_LOCK ["futex"]%string ++
  row OFF_IDLE ["pselect6"; "select"; "nanosleep"; "io_getevents"]%string ++
  row OFF_EPOLL ["poll"; "ppoll"; "epoll_pwait"; "epoll_wait"]%string.

Definition syscall_type (nr : String.string -> option Z) (id : Z) : Z :=
  match find (fun x => fst x =? id) (syscall_types nr) with
  | Some (_, t) => t
  | None => OFF_OTHER
  end.

(** [get_syscall_type]: the type is kept in [syscall_map]. *)
Definition get_syscall_type (nr : String.string -> option Z) (m : cpu_maps) (id : Z) : cpu_maps * Z :=
  match hash_lookup (syscall_map m) id with
  | Some t => (m, t)
  | None =>
      let t := syscall_type nr id in
      (set_syscall_map m (fst (hash_update (syscall_map m) id t)), t)
  end.

(** [get_cpu_info]: the maps, and the record unless there is no room for it. *)
Definition get_cpu_info (m : cpu_maps) (pid tid real_start_ts : Z) : cpu_maps * option info_t :=
  match hash_lookup (cpu_records m) tid with
  | Some info => (m, Some info)
  | None =>
      let info := mk_info pid tid real_start_ts 0 0 zero_times zero_rq zero_times in
      let m := set_cpu_records m (fst (hash_update (cpu_records m) tid info)) in
      (m, hash_lookup (cpu_records m) tid)
  end.

Definition with_end_ts (i : info_t) (ts : Z) : info_t :=
  mk_info (in_pid i) (in_tid i) (in_start_ts i) ts (in_index i) (in_times_specs i) (in_rq i)
    (in_time_type i).

(** An interval off the CPU appended to a record, and one on it. *)
Definition push_offtime (i : info_t) (delta type latency : Z) : info_t :=
  mk_info (in_pid i) (in_tid i) (in_start_ts i) (in_end_ts i) (u32 (in_index i + 1))
    (set_slot (in_times_specs i) (in_index i) NUM delta)
    (set_slot (in_rq i) (in_index i / 2) HALF_NUM latency)
    (set_slot (in_time_type i) (in_index i) NUM (u8 type)).
Definition push_ontime (i : info_t) (delta : Z) : info_t :=
  mk_info (in_pid i) (in_tid i) (in_start_ts i) (in_end_ts i) (u32 (in_index i + 1))
    (set_slot (in_times_specs i) (in_index i) NUM delta) (in_rq i) (in_time_type i).

(** [record_cpu_offtime]; [now] is the clock. *)
Definition record_cpu_offtime (m : cpu_maps) (st : sysdig_bpf_settings)
    (pid tid start_ts latency delta now : Z) : cpu_maps :=
  let '(m, infop) := get_cpu_info m pid tid (u64 (st_boot_time st + start_ts)) in
  match infop with
  | None => m
  | Some i =>
      let i :=
        if in_index i <? st_switch_agg_num st then
          push_offtime i delta (default OFF_OTHER (hash_lookup (type_map m) tid)) latency
        else i in
      set_cpu_records m
        (hash_store (cpu_records m) tid (with_end_ts i (u64 (st_boot_time st + now))))
  end.

(** ** The event. *)

Definition bytes_of_u64s (l : list Z) : list byte := flat_map le64 l.
Definition bytes_of_u8s (l : list Z) : list byte := flat_map (le_bytes 1) l.

(** A call whose result is overwritten. *)
Definition unchecked (f : sysdig_bpf_settings -> filler_data -> filler_data * Z) (next : bcont) : bcont :=
  fun '(st, d) => next (st, fst (f st d)).

(** An array copied to the frame and appended. *)
Definition put_array (e : bpf_env) (bs : list byte) : bcont -> bcont :=
  unchecked (fun st d =>
    bpf_val_to_ring_len e st (with_on_frame (put_at_curoff d bs) true) 0 (Z.of_nat (length bs))).

(** [__bpf_cpu_analysis] *)
Definition __bpf_cpu_analysis (e : bpf_env) (m : cpu_maps) (tid : Z) : bcont :=
  match hash_lookup (cpu_records m) tid with
  | None => bdone
  | Some i =>
      if in_index i =? 0 then bdone
      else
        put_unchecked e (in_start_ts i) $ put_unchecked e (in_end_ts i) $
        put_unchecked e (in_index i) $
        put_array e (bytes_of_u64s (in_times_specs i)) $
        put_array e (bytes_of_u64s (in_rq i)) $
        put_array e (bytes_of_u8s (in_time_type i)) bdone
  end.

(** A filler run inline by a probe: the settings do not change. *)
Definition kp_run (f : bcont) (st : sysdig_bpf_settings) (d : filler_data) : filler_data * Z :=
  let '((_, d), r) := f (st, d) in
  (d, match r with FillDone c => c | FillTail _ => PPM_FAILURE_BUG end).

(** [bpf_cpu_analysis]: in the configuration with raw tracepoints the header keeps the
    current thread. *)
Definition bpf_cpu_analysis (e : bpf_env) (m : cpu_maps) (tid cpu : Z) (s : bpf_sys) : bpf_sys :=
  kp_filler e (kp_run (__bpf_cpu_analysis e m tid) (bs_settings s)) cpu s.

(** [if (prepare_filler(...)) bpf_cpu_analysis(...);] *)
Definition cpu_analysis_out (e : bpf_env) (m : cpu_maps) (tid cpu : Z) (s : bpf_sys) : bpf_sys :=
  let '(s, r) := prepare_filler e cpu PPME_CPU_ANALYSIS_E 0 s in
  match r with None => s | Some _ => bpf_cpu_analysis e m tid cpu s end.

(** The condition under which a record is sent. *)
Definition out_due (m : cpu_maps) (st : sysdig_bpf_settings) (i : info_t) (tid start_ts delta : Z) : bool :=
  let offset_ts := s32 (in_end_ts i - in_start_ts i) in
  let have_focus_events :=
    match hash_lookup (cpu_focus_threads m) tid with
    | Some focus_time => (start_ts <? focus_time) && (focus_time <? u64 (start_ts + delta))
    | None => false
    end in
  (0 <? in_index i) &&
  (have_focus_events || (in_index i =? st_switch_agg_num st)
   || (in_index i =? u32 (st_switch_agg_num st - 1)) || (2000000000 <? offset_ts)).

Definition cleared (i : info_t) : info_t :=
  mk_info (in_pid i) (in_tid i) (in_end_ts i) (in_end_ts i) 0 zero_times zero_rq zero_times.

(** [record_cpu_ontime_and_out]: the record is cleared whether or not it was sent. *)
Definition record_cpu_ontime_and_out (e : bpf_env) (cpu : Z) (m : cpu_maps)
    (pid tid start_ts delta now : Z) (s : bpf_sys) : cpu_maps * bpf_sys :=
  let st := bs_settings s in
  let '(m, infop) := get_cpu_info m pid tid start_ts in
  match infop with
  | None => (m, s)
  | Some i =>
      let i := if in_index i <? st_switch_agg_num st then push_ontime i delta else i in
      let i := with_end_ts i (u64 (st_boot_time st + now)) in
      let m := set_cpu_records m (hash_store (cpu_records m) tid i) in
      if out_due m st i tid start_ts delta then
        let s := cpu_analysis_out e m (in_tid i) cpu s in
        (set_cpu_records m (hash_store (cpu_records m) tid (cleared i)), s)
      else (m, s)
  end.

(** ** The probes. *)

Definition in_block_range (delta : Z) : bool :=
  let delta_us := delta / 1000 in (MINBLOCK_US <=? delta_us) && (delta_us <=? MAXBLOCK_US).

(** The thread that leaves the CPU.  [clock i] is the [i]th reading of the clock;
    [reread] is what the pointer into [on_start_ts] gives after the element was
    deleted. *)
Definition switch_prev (e : bpf_env) (cpu : Z) (clock : nat -> Z) (reread : Z -> Z)
    (pid tid : Z) (running : bool) (m : cpu_maps) (s : bpf_sys) : cpu_maps * bpf_sys :=
  if tid =? 0 then (m, s)
  else
    let ts := clock 0%nat in
    let m := set_off_start_ts m (fst (hash_update (off_start_ts m) tid ts)) in
    let '(m, s) :=
      match hash_lookup (on_start_ts m) tid with
      | None => (m, s)
      | Some on_ts =>
          let delta := u64 (ts - on_ts) in
          let m := set_on_start_ts m (hash_delete (on_start_ts m) tid) in
          if in_block_range delta && check_filter pid
          then record_cpu_ontime_and_out e cpu m pid tid (reread on_ts) delta (clock 1%nat) s
          else (m, s)
      end in
    (if running then set_cpu_runq m (fst (hash_update (cpu_runq m) tid (clock 2%nat))) else m, s).

(** The thread that gets it. *)
Definition switch_next (clock : nat -> Z) (pid tid : Z) (m : cpu_maps) (s : bpf_sys) : cpu_maps :=
  if tid =? 0 then m
  else
    let on_ts := clock 3%nat in
    let m := set_on_start_ts m (fst (hash_update (on_start_ts m) tid on_ts)) in
    match hash_lookup (off_start_ts m) tid with
    | None => m
    | Some off_ts =>
        let m := set_off_start_ts m (hash_delete (off_start_ts m) tid) in
        let delta := u64 (on_ts - off_ts) in
        if in_block_range delta && check_filter pid then
          let '(m, rq_la) :=
            match hash_lookup (cpu_runq m) tid with
            | None => (m, 0)
            | Some rq_ts =>
                (set_cpu_runq m (hash_delete (cpu_runq m) tid),
                 if rq_ts <? on_ts then u64 (on_ts - rq_ts) / 1000 else 0)
            end in
          record_cpu_offtime m (bs_settings s) pid tid off_ts rq_la delta (clock 4%nat)
        else m
    end.

(** [bpf_sched_switch], after the settings were found. *)
Definition cpu_sched_switch (e : bpf_env) (cpu : Z) (clock : nat -> Z) (reread : Z -> Z)
    (prev_pid prev_tid : Z) (running : bool) (next_pid next_tid : Z) (m : cpu_maps) (s : bpf_sys) :
    cpu_maps * bpf_sys :=
  let st := bs_settings s in
  if negb (st_capture_enabled st) then (m, s)
  else if (PPME_CPU_ANALYSIS_E <? PPM_EVENT_MAX) && negb (st_events_mask st PPME_CPU_ANALYSIS_E)
  then (m, s)
  else
    let '(m, s) := switch_prev e cpu clock reread prev_pid prev_tid running m s in
    (switch_next clock next_pid next_tid m s, s).

(** [bpf_trace_enqueue] *)
Definition bpf_trace_enqueue (pid now : Z) (m : cpu_maps) : cpu_maps :=
  if pid =? 0 then m else set_cpu_runq m (fst (hash_update (cpu_runq m) pid now)).

(** The probes on [sock_recvmsg] and [sock_sendmsg]. *)
Definition kp_sock_msg (tid now : Z) (m : cpu_maps) : cpu_maps :=
  if tid =? 0 then m
  else
    let m := set_focus_threads m (fst (hash_update (cpu_focus_threads m) tid now)) in
    set_type_map m (fst (hash_update (type_map m) tid OFF_NET)).

(** What the syscall probes note. *)
Definition note_focus (type tid now : Z) (m : cpu_maps) : cpu_maps :=
  if (type =? OFF_NET) || (type =? OFF_DISK)
  then set_focus_threads m (fst (hash_update (cpu_focus_threads m) tid now)) else m.
Definition note_enter (nr : String.string -> option Z) (id tid now : Z) (m : cpu_maps) : cpu_maps :=
  let '(m, type) := get_syscall_type nr m id in
  note_focus type tid now (set_type_map m (fst (hash_update (type_map m) tid type))).
Definition note_exit (nr : String.string -> option Z) (id tid now : Z) (m : cpu_maps) : cpu_maps :=
  let '(m, type) := get_syscall_type nr m id in
  note_focus type tid now (set_type_map m (hash_delete (type_map m) tid)).
End cpu.
Arguments cpu_maps : clear implicits.
