(* ===== verification/CpuAnalysisSpec.v ===== *)
(** * The CPU records hold the intervals of their threads

    The abstract record of a thread is the list of its intervals since the last event.
    [holds] relates the arrays of a record to it, [tracks] the maps of the probe to the
    lists of all threads; every task switch of the probe is one of the specification,
    and a record that is sent has its list in the event. *)

From Stdlib Require Import ZArith Lia List Bool.
From Stdlib Require Import Strings.Byte.
From stdpp Require Import base tactics list numbers option gmap.
From S2P Require Import Prelude Bytes EventDefs EventTable FillerTable ValToRing ValToRingSpec.
From S2P Require Import Ring RingSpec RingSystem BpfRing BpfRingSpec BpfProbe BpfProbeSpec BpfFillers.
From S2P Require Import BpfFillersSpec BpfSock BpfPrograms BpfLive BpfHash CpuAnalysis.
Import ListNotations.
Local Open Scope Z_scope.

(** ** Intervals. *)

(** A time on the CPU, or off it with its reason and the wait for the run queue. *)
Inductive interval : Type :=
| OnCpu (delta : Z)
| OffCpu (delta type latency : Z).

Definition iv_delta (v : interval) : Z := match v with OnCpu d | OffCpu d _ _ => d end.
Definition iv_type (v : interval) : Z := match v with OnCpu _ => OFF_ON | OffCpu _ t _ => u8 t end.
Definition is_off (v : interval) : bool := match v with OnCpu _ => false | _ => true end.

(** The arrays of a record have the intervals in order.  Two intervals share a place in
    the array of latencies, and the later one off the CPU has it. *)
Record holds (i : info_t) (log : list interval) : Prop := {
  ho_index : in_index i = Z.of_nat (length log);
  ho_len : (length log <= 16)%nat;
  ho_times_len : length (in_times_specs i) = 16%nat;
  ho_rq_len : length (in_rq i) = 8%nat;
  ho_types_len : length (in_time_type i) = 16%nat;
  ho_times : take (length log) (in_times_specs i) = map iv_delta log;
  ho_types : take (length log) (in_time_type i) = map iv_type log;
  ho_rest : drop (length log) (in_time_type i) = replicate (16 - length log) 0;
  ho_rq : forall n d t l, log !! n = Some (OffCpu d t l) ->
    (Nat.odd n = true \/ from_option is_off false (log !! S n) = false) ->
    in_rq i !! (n / 2)%nat = Some l }.

Lemma holds_cleared i : holds (cleared i) [].
Proof. split; try done. cbn. lia. Qed.

Lemma holds_fresh pid tid ts : holds (mk_info pid tid ts 0 0 zero_times zero_rq zero_times) [].
Proof. split; try done. cbn. lia. Qed.

Lemma holds_end_ts i ts log : holds i log -> holds (with_end_ts i ts) log.
Proof. intros [? ? ? ? ? ? ? ? ?]. by split. Qed.

Lemma land_num n : (n < 16)%nat -> Z.to_nat (Z.land (Z.of_nat n) (NUM - 1)) = n.
Proof.
  intros Hn. change (NUM - 1) with (Z.ones 4). rewrite Z.land_ones by lia.
  change (2 ^ 4) with 16. rewrite Z.mod_small; lia.
Qed.

Lemma land_half_num n :
  (n < 16)%nat -> Z.to_nat (Z.land (Z.of_nat n / 2) (HALF_NUM - 1)) = (n / 2)%nat.
Proof.
  intros Hn. change (HALF_NUM - 1) with (Z.ones 3). rewrite Z.land_ones by lia.
  change (2 ^ 3) with 8. change 2 with (Z.of_nat 2) at 1. rewrite <- Nat2Z.inj_div.
  rewrite Z.mod_small; [lia|]. split; [lia|].
  assert (n / 2 < 8)%nat by (apply Nat.Div0.div_lt_upper_bound; lia). lia.
Qed.

Lemma take_set {A} (l : list A) n v :
  (n < length l)%nat -> take (S n) (<[n := v]> l) = take n l ++ [v].
Proof.
  intros Hn. rewrite (take_S_r _ n v) by (by apply list_lookup_insert_eq).
  by rewrite take_insert_ge by lia.
Qed.

Lemma drop_set {A} (l : list A) n v : drop (S n) (<[n := v]> l) = drop (S n) l.
Proof. by rewrite drop_insert_lt by lia. Qed.

(** A new interval at the end of a record. *)
Section push.
Context (i : info_t) (log : list interval) (v : interval) (i' : info_t).
Context (Hi : holds i log) (Hroom : (length log < 16)%nat).

Lemma holds_push :
  in_index i' = u32 (in_index i + 1) ->
  in_times_specs i' = set_slot (in_times_specs i) (in_index i) NUM (iv_delta v) ->
  in_time_type i' = set_slot (in_time_type i) (in_index i) NUM (iv_type v) ->
  in_rq i' = match v with
             | OnCpu _ => in_rq i
             | OffCpu _ _ l => set_slot (in_rq i) (in_index i / 2) HALF_NUM l
             end ->
  holds i' (log ++ [v]).
Proof using Hi Hroom.
  destruct Hi as [H1 H2 H3 H4 H5 H6 H7 H8 H9]. intros E1 E2 E3 E4.
  rewrite H1 in *. unfold set_slot in *. rewrite land_num in E2, E3 by done.
  assert (Hl : length (log ++ [v]) = S (length log)) by (rewrite length_app; cbn; lia).
  split; rewrite ?Hl.
  - rewrite E1, u32_small by lia. lia.
  - lia.
  - by rewrite E2, length_insert.
  - rewrite E4. destruct v; [done|]. by rewrite length_insert.
  - by rewrite E3, length_insert.
  - rewrite E2, take_set, H6, map_app by lia. done.
  - rewrite E3, take_set, H7, map_app by lia. done.
  - rewrite E3, drop_set. replace (S (length log)) with (length log + 1)%nat by lia.
    rewrite <- drop_drop, H8. rewrite drop_replicate. f_equal. lia.
  - intros n d t l Hn Hlast. rewrite E4.
    apply lookup_app_Some in Hn as [Hn|[Hge Hn]].
    + pose proof (lookup_lt_Some _ _ _ Hn) as Hlt.
      assert (Hq : in_rq i !! (n / 2)%nat = Some l /\
        (Nat.odd n = true \/ S n <> length log \/ is_off v = false)).
      { destruct (decide (S n = length log)) as [He|He].
        - rewrite (lookup_app_r log [v] (S n)), He, Nat.sub_diag in Hlast by lia. cbn in Hlast.
          split; [|tauto]. apply (H9 n d t l Hn). right. by rewrite lookup_ge_None_2 by lia.
        - rewrite (lookup_app_l log [v] (S n)) in Hlast by lia. split; [|tauto]. by eapply H9. }
      destruct Hq as [Hq Hne]. destruct v as [|d' t' l']; [done|].
      rewrite land_half_num by done. rewrite list_lookup_insert_ne; [done|].
      intros He. destruct Hne as [Ho|[Ho|Ho]]; [| |done].
      * apply Nat.odd_spec in Ho as [q Hq']. subst n.
        pose proof (Nat.div_mod_eq (length log) 2). pose proof (Nat.mod_upper_bound (length log) 2).
        pose proof (Nat.div_mod_eq (2 * q + 1) 2). pose proof (Nat.mod_upper_bound (2 * q + 1) 2). lia.
      * pose proof (Nat.div_mod_eq (length log) 2). pose proof (Nat.mod_upper_bound (length log) 2).
        pose proof (Nat.div_mod_eq n 2). pose proof (Nat.mod_upper_bound n 2). lia.
    + destruct (n - length log)%nat as [|k] eqn:Hk; [|by destruct k]. cbn in Hn. simplify_eq.
      replace n with (length log) by lia. rewrite land_half_num by done.
      apply list_lookup_insert_eq. rewrite H4. apply Nat.Div0.div_lt_upper_bound. lia.
Qed.
End push.

Lemma holds_offtime i log d t l :
  holds i log -> (length log < 16)%nat -> holds (push_offtime i d t l) (log ++ [OffCpu d t l]).
Proof. intros Hi Hr. by apply (holds_push i log (OffCpu d t l)). Qed.

(** The type of a place that was not used yet is that of a time on the CPU. *)
Lemma holds_ontime i log d :
  holds i log -> (length log < 16)%nat -> holds (push_ontime i d) (log ++ [OnCpu d]).
Proof.
  intros Hi Hr. apply (holds_push i log (OnCpu d)); try done.
  destruct Hi as [H1 H2 H3 H4 H5 H6 H7 H8 H9]. cbn [push_ontime in_time_type iv_type].
  unfold set_slot. rewrite H1, land_num by done. symmetry. apply list_insert_id.
  rewrite <- (take_drop (length log) (in_time_type i)), H8.
  rewrite lookup_app_r; rewrite length_take, H5, Nat.min_l by lia; [|lia].
  rewrite Nat.sub_diag. destruct (16 - length log)%nat eqn:E; [lia|]. done.
Qed.

(** ** The specification of a task switch. *)

(** What is kept of a thread: the time its list starts, and the intervals since. *)
Record thread_log : Type := mk_log { tl_start : Z; tl_ivs : list interval }.

(** A thread without a list gets an empty one if there is room for it in the map. *)
Definition opened (room : bool) (start : Z) (l : option thread_log) : option thread_log :=
  match l with
  | Some x => Some x
  | None => if room then Some (mk_log start []) else None
  end.

(** A list that is full takes no further interval. *)
Definition append (agg : nat) (v : interval) (x : thread_log) : thread_log :=
  if (length (tl_ivs x) <? agg)%nat then mk_log (tl_start x) (tl_ivs x ++ [v]) else x.

(** A list with intervals is due when it has all its places or all but one, when it spans
    more than two seconds, or when something of interest happened in the last interval. *)
Definition due (agg : nat) (focus : option Z) (start delta now : Z) (x : thread_log) : bool :=
  let n := length (tl_ivs x) in
  (0 <? n)%nat &&
  (match focus with
   | Some t => (start <? t) && (t <? u64 (start + delta))
   | None => false
   end
   || (n =? agg)%nat || (S n =? agg)%nat || (2000000000 <? s32 (now - tl_start x))).

(** The thread that leaves the CPU, with the start and the length of its time on it if one
    was measured: its list afterwards, and the list sent.  [now] is when this happens. *)
Definition on_spec (agg : nat) (room : Z -> bool) (focus : option Z) (now : Z)
    (measured : option (Z * Z)) (l : option thread_log) : option thread_log * option (list interval) :=
  match measured with
  | None => (l, None)
  | Some (start, delta) =>
      match opened (room start) start l with
      | None => (None, None)
      | Some x =>
          let x := append agg (OnCpu delta) x in
          if due agg focus start delta now x then (Some (mk_log now []), Some (tl_ivs x))
          else (Some x, None)
      end
  end.

(** The thread that gets the CPU, with the start of its time off it and the interval. *)
Definition off_spec (agg : nat) (room : Z -> bool) (measured : option (Z * interval))
    (l : option thread_log) : option thread_log :=
  match measured with
  | None => l
  | Some (start, v) => append agg v <$> opened (room start) start l
  end.

Definition set_log (logs : Z -> option thread_log) (tid : Z) (log : option thread_log) :
    Z -> option thread_log :=
  fun t => if decide (t = tid) then log else logs t.

(** The time measured for a thread: a reading of the clock against the one in the map.
    Times below a microsecond are not recorded. *)
Definition time_since (start : option Z) (now : Z) : option (Z * Z) :=
  match start with
  | Some t => let d := u64 (now - t) in if in_block_range d then Some (t, d) else None
  | None => None
  end.

Section tracks.
Context {H : Type -> Type} `{BpfHash Z H} `{!BpfHashOK Z H}.

(** The record of a thread has its list. *)
Definition thread_ok (agg : nat) (tid : Z) (r : option info_t) (l : option thread_log) : Prop :=
  match r, l with
  | Some i, Some x =>
      holds i (tl_ivs x) /\ in_start_ts i = tl_start x /\ in_tid i = tid /\
      (length (tl_ivs x) <= agg)%nat
  | None, None => True
  | _, _ => False
  end.

(** The maps have the lists of all threads. *)
Definition tracks (agg : nat) (m : cpu_maps H) (logs : Z -> option thread_log) : Prop :=
  forall tid, thread_ok agg tid (hash_lookup (cpu_records m) tid) (logs tid).

(** The map takes a new record for the thread. *)
Definition room_for (m : cpu_maps H) (pid tid start : Z) : bool :=
  snd (hash_update (cpu_records m) tid (mk_info pid tid start 0 0 zero_times zero_rq zero_times)) =? 0.

(** What the maps say was measured.  [reread] gives the start of a time on the CPU. *)
Definition on_interval (m : cpu_maps H) (reread : Z -> Z) (tid now : Z) : option (Z * Z) :=
  if tid =? 0 then None
  else (fun x => (reread (fst x), snd x)) <$> time_since (hash_lookup (on_start_ts m) tid) now.

(** The wait for the run queue that ended now. *)
Definition runq_latency (m : cpu_maps H) (tid now : Z) : Z :=
  match hash_lookup (cpu_runq m) tid with
  | Some t => if t <? now then u64 (now - t) / 1000 else 0
  | None => 0
  end.

Definition off_interval (m : cpu_maps H) (boot tid now : Z) : option (Z * interval) :=
  if tid =? 0 then None
  else (fun x => (u64 (boot + fst x),
                  OffCpu (snd x) (default OFF_OTHER (hash_lookup (type_map m) tid)) (runq_latency m tid now)))
       <$> time_since (hash_lookup (off_start_ts m) tid) now.

(** The record of a thread, made when there is none. *)
Lemma get_cpu_info_holds agg m logs pid tid ts m' r :
  tracks agg m logs -> get_cpu_info m pid tid ts = (m', r) ->
  type_map m' = type_map m /\ cpu_focus_threads m' = cpu_focus_threads m /\
  hash_lookup (cpu_records m') tid = r /\
  (forall t, t <> tid -> hash_lookup (cpu_records m') t = hash_lookup (cpu_records m) t) /\
  thread_ok agg tid r (opened (room_for m pid tid ts) ts (logs tid)).
Proof.
  intros Ht E. unfold get_cpu_info in E. pose proof (Ht tid) as Hi.
  destruct (hash_lookup (cpu_records m) tid) as [i|] eqn:El; injection E as <- <-.
  { repeat split_and; try done. by destruct (logs tid). }
  cbn [set_cpu_records cpu_records type_map cpu_focus_threads].
  repeat split_and; try done; [intros t Hne; by apply hash_update_other|].
  destruct (logs tid); [done|]. unfold opened, room_for.
  set (i := mk_info _ _ _ _ _ _ _ _).
  destruct (hash_update_ok (cpu_records m) tid i) as [[-> ->]|(Hne & _ & ->)].
  - rewrite decide_True by done. cbn. repeat split_and; [apply holds_fresh|done..|lia].
  - rewrite El, (proj2 (Z.eqb_neq _ _)) by done. done.
Qed.

(** A store of a record, and the list it has. *)
Lemma tracks_store agg m m' logs tid i i' x :
  tracks agg m logs ->
  hash_lookup (cpu_records m') tid = Some i ->
  (forall t, t <> tid -> hash_lookup (cpu_records m') t = hash_lookup (cpu_records m) t) ->
  thread_ok agg tid (Some i') (Some x) ->
  tracks agg (set_cpu_records m' (hash_store (cpu_records m') tid i')) (set_log logs tid (Some x)).
Proof.
  intros Ht El Ho Hi t. cbn [set_cpu_records cpu_records]. unfold set_log.
  case_decide as Hd; [subst t; by rewrite (hash_store_present _ _ _ _ El)|].
  rewrite hash_store_other, Ho by done. apply Ht.
Qed.

Lemma tracks_absent agg m m' logs tid :
  tracks agg m logs -> hash_lookup (cpu_records m') tid = None ->
  (forall t, t <> tid -> hash_lookup (cpu_records m') t = hash_lookup (cpu_records m) t) ->
  tracks agg m' (set_log logs tid None).
Proof.
  intros Ht El Ho t. unfold set_log. case_decide as Hd; [subst t; by rewrite El|].
  rewrite Ho by done. apply Ht.
Qed.

(** A record with an interval more, when it is not full. *)
Lemma append_ok agg tid i x v (push : info_t) ts :
  thread_ok agg tid (Some i) (Some x) -> (agg <= 16)%nat ->
  ((length (tl_ivs x) < 16)%nat -> holds push (tl_ivs x ++ [v])) ->
  in_start_ts push = in_start_ts i -> in_tid push = in_tid i ->
  thread_ok agg tid (Some (with_end_ts (if in_index i <? Z.of_nat agg then push else i) ts))
    (Some (append agg v x)).
Proof.
  intros (Hi & Hs & Hid & Hle) Ha Hp Ps Pid. unfold append. rewrite (ho_index _ _ Hi).
  destruct (Nat.ltb_spec (length (tl_ivs x)) agg).
  - rewrite (proj2 (Z.ltb_lt _ _)) by lia. cbn. repeat split_and; try congruence.
    + apply holds_end_ts, Hp. lia.
    + rewrite length_app. cbn. lia.
  - rewrite (proj2 (Z.ltb_ge _ _)) by lia. cbn. repeat split_and; try done. by apply holds_end_ts.
Qed.

Lemma record_cpu_offtime_step agg m logs st pid tid start lat d now :
  tracks agg m logs -> (agg <= 16)%nat -> st_switch_agg_num st = Z.of_nat agg ->
  tracks agg (record_cpu_offtime m st pid tid start lat d now)
    (set_log logs tid (off_spec agg (room_for m pid tid)
      (Some (u64 (st_boot_time st + start),
             OffCpu d (default OFF_OTHER (hash_lookup (type_map m) tid)) lat)) (logs tid))).
Proof.
  intros Ht Ha Hst. unfold record_cpu_offtime, off_spec.
  destruct (get_cpu_info _ _ _ _) as [m1 r] eqn:Eg.
  destruct (get_cpu_info_holds _ _ _ _ _ _ _ _ Ht Eg) as (Hty & _ & El & Ho & Hr). rewrite Hty, Hst.
  destruct r as [i|], (opened _ _ _) as [x|]; try done; cbn [fmap option_fmap option_map].
  - eapply tracks_store; try done. apply append_ok; try done. intros Hl. apply holds_offtime; [apply Hr|done].
  - by eapply tracks_absent.
Qed.

(** An event of the probe for a record that has the list sent. *)
Inductive sends (e : bpf_env) (cpu tid : Z) (s : bpf_sys) : option (list interval) -> bpf_sys -> Prop :=
| sends_nothing : sends e cpu tid s None s
| sends_record m i log :
    hash_lookup (cpu_records m) tid = Some i -> holds i log -> log <> [] ->
    sends e cpu tid s (Some log) (cpu_analysis_out e m tid cpu s).

(** The probe's test is that of the specification. *)
Lemma out_due_spec agg m st i x tid start d now :
  thread_ok agg tid (Some i) (Some x) -> (1 <= agg <= 16)%nat -> st_switch_agg_num st = Z.of_nat agg ->
  in_end_ts i = now ->
  out_due m st i tid start d = due agg (hash_lookup (cpu_focus_threads m) tid) start d now x.
Proof.
  intros (Hi & Hs & Hid & Hle) Ha Hst <-. unfold out_due, due. cbv zeta.
  rewrite (ho_index _ _ Hi), Hst, Hs, (u32_small (Z.of_nat agg - 1)) by lia.
  set (n := length (tl_ivs x)) in *. f_equal; [|f_equal; f_equal; [f_equal|]].
  - destruct (Nat.ltb_spec 0 n); [apply Z.ltb_lt|apply Z.ltb_ge]; lia.
  - destruct (Nat.eqb_spec n agg); [apply Z.eqb_eq|apply Z.eqb_neq]; lia.
  - destruct (Nat.eqb_spec (S n) agg); [apply Z.eqb_eq|apply Z.eqb_neq]; lia.
Qed.

Lemma record_cpu_ontime_step agg m logs e cpu pid tid start d now s m' s' :
  tracks agg m logs -> (1 <= agg <= 16)%nat -> st_switch_agg_num (bs_settings s) = Z.of_nat agg ->
  record_cpu_ontime_and_out e cpu m pid tid start d now s = (m', s') ->
  let r := on_spec agg (room_for m pid tid) (hash_lookup (cpu_focus_threads m) tid)
    (u64 (st_boot_time (bs_settings s) + now)) (Some (start, d)) (logs tid) in
  tracks agg m' (set_log logs tid (fst r)) /\ sends e cpu tid s (snd r) s'.
Proof.
  intros Ht Ha Hst E. unfold record_cpu_ontime_and_out in E. unfold on_spec. cbv zeta in E |- *.
  destruct (get_cpu_info _ _ _ _) as [m1 r] eqn:Eg.
  destruct (get_cpu_info_holds _ _ _ _ _ _ _ _ Ht Eg) as (_ & Hfo & El & Ho & Hr).
  destruct r as [i|], (opened _ _ _) as [x|]; try done.
  2: { injection E as <- <-. split; [by eapply tracks_absent|constructor]. }
  rewrite Hst in E. set (now' := u64 (_ + now)) in *.
  assert (Hok : thread_ok agg tid
    (Some (with_end_ts (if in_index i <? Z.of_nat agg then push_ontime i d else i) now'))
    (Some (append agg (OnCpu d) x))).
  { apply append_ok; try done; [lia|]. intros Hl. apply holds_ontime; [apply Hr|done]. }
  set (i1 := with_end_ts _ _) in *. assert (Hend : in_end_ts i1 = now') by done. clearbody i1.
  set (x1 := append _ _ _) in *. clearbody x1. clear Hr.
  rewrite (out_due_spec agg _ _ i1 x1 tid start d now') in E by done.
  cbn [set_cpu_records cpu_focus_threads] in E. rewrite Hfo in E.
  pose proof Hok as (Hi1 & Hs1 & Hid1 & Hle1).
  destruct (due _ _ _ _ _ _) eqn:Hd in E; injection E as <- <-; rewrite Hd; cbn [fst snd].
  - assert (Hpos : tl_ivs x1 <> []).
    { intros E. unfold due in Hd. by rewrite E in Hd. }
    split.
    + eapply tracks_store; try done; cbn [set_cpu_records cpu_records].
      * by eapply hash_store_present.
      * intros t Hne. rewrite hash_store_other by done. auto.
      * unfold thread_ok. repeat split_and; [apply holds_cleared|exact Hend|done|cbn; lia].
    + rewrite Hid1. eapply sends_record; [|done|done]. by eapply hash_store_present.
  - split; [by eapply tracks_store|constructor].
Qed.

(** The records are all that changes in it. *)
Lemma record_cpu_ontime_maps e cpu m pid tid start d now s :
  let m' := fst (record_cpu_ontime_and_out e cpu m pid tid start d now s) in
  type_map m' = type_map m /\ off_start_ts m' = off_start_ts m /\ cpu_runq m' = cpu_runq m.
Proof.
  unfold record_cpu_ontime_and_out, get_cpu_info. cbv zeta.
  destruct (hash_lookup (cpu_records m) tid); [by case_if|].
  destruct (hash_lookup _ tid); [by case_if|done].
Qed.

Lemma tracks_same agg m logs tid :
  tracks agg m logs -> tracks agg m (set_log logs tid (logs tid)).
Proof. intros Ht t. unfold set_log. case_decide; [subst t|]; apply Ht. Qed.

Lemma switch_prev_step agg m logs e cpu clock reread pid tid running s m' s' :
  tracks agg m logs -> (1 <= agg <= 16)%nat -> st_switch_agg_num (bs_settings s) = Z.of_nat agg ->
  switch_prev e cpu clock reread pid tid running m s = (m', s') ->
  let r := on_spec agg (room_for m pid tid) (hash_lookup (cpu_focus_threads m) tid)
    (u64 (st_boot_time (bs_settings s) + clock 1%nat)) (on_interval m reread tid (clock 0%nat)) (logs tid) in
  tracks agg m' (set_log logs tid (fst r)) /\ sends e cpu tid s (snd r) s' /\
  forall boot now t, t <> tid -> off_interval m' boot t now = off_interval m boot t now.
Proof.
  intros Ht Ha Hst E r. unfold switch_prev in E. unfold r, on_interval. clear r.
  case_if. { simplify_eq. repeat split_and; [by apply tracks_same|constructor|done]. }
  set (m0 := set_off_start_ts m _) in E.
  change (hash_lookup (on_start_ts m0) tid) with (hash_lookup (on_start_ts m) tid) in E.
  destruct (match hash_lookup (on_start_ts m) tid with Some _ => _ | None => _ end) as [m1 s1] eqn:E1.
  set (r := on_spec _ _ _ _ _ _).
  assert (Hmid : tracks agg m1 (set_log logs tid (fst r)) /\ sends e cpu tid s (snd r) s1 /\
    type_map m1 = type_map m /\ off_start_ts m1 = off_start_ts m0 /\ cpu_runq m1 = cpu_runq m).
  { unfold r, time_since. destruct (hash_lookup (on_start_ts m) tid) as [on_ts|].
    2: { simplify_eq. repeat split_and; try done; [by apply tracks_same|constructor]. }
    unfold check_filter in E1. rewrite andb_true_r in E1. destruct (in_block_range _) eqn:Hb.
    2: { simplify_eq. repeat split_and; try done; [by apply tracks_same|constructor]. }
    pose proof E1 as E2. apply (record_cpu_ontime_step agg _ logs) in E2 as (H1 & H2); try done.
    pose proof (record_cpu_ontime_maps e cpu (set_on_start_ts m0 (hash_delete (on_start_ts m0) tid)) pid tid
      (reread on_ts) (u64 (clock 0%nat - on_ts)) (clock 1%nat) s) as Hm. rewrite E1 in Hm.
    destruct Hm as (? & ? & ?). by repeat split_and. }
  clearbody r. destruct Hmid as (H2 & H3 & Hty & Hoff & Hrq).
  injection E as <- <-. split; [by case_if|]. split; [done|].
  intros boot now t Hne. unfold off_interval, runq_latency.
  replace (type_map (if running then _ else _)) with (type_map m) by (by case_if).
  replace (off_start_ts (if running then _ else _)) with (off_start_ts m0) by (by case_if).
  unfold m0 at 1. cbn [set_off_start_ts off_start_ts]. rewrite hash_update_other by done.
  destruct running; cbn [set_cpu_runq cpu_runq]; rewrite ?hash_update_other by done; by rewrite Hrq.
Qed.

Lemma switch_next_step agg m logs clock pid tid s :
  tracks agg m logs -> (agg <= 16)%nat -> st_switch_agg_num (bs_settings s) = Z.of_nat agg ->
  tracks agg (switch_next clock pid tid m s)
    (set_log logs tid (off_spec agg (room_for m pid tid)
      (off_interval m (st_boot_time (bs_settings s)) tid (clock 3%nat)) (logs tid))).
Proof.
  intros Ht Ha Hst. unfold switch_next, off_interval, time_since.
  case_if. { by apply tracks_same. }
  set (m0 := set_on_start_ts m _).
  change (hash_lookup (off_start_ts m0) tid) with (hash_lookup (off_start_ts m) tid).
  destruct (hash_lookup (off_start_ts m) tid) as [off_ts|]; [|by apply tracks_same].
  unfold check_filter. rewrite andb_true_r.
  destruct (in_block_range _); [|by apply tracks_same].
  unfold runq_latency. cbn [fmap option_fmap option_map cpu_runq set_off_start_ts m0 set_on_start_ts fst snd].
  destruct (hash_lookup (cpu_runq m) tid) as [rq_ts|];
    match goal with |- context [record_cpu_offtime ?m1 _ _ _ _ _ _ _] =>
      by apply (record_cpu_offtime_step agg m1 logs) end.
Qed.

(** The settings the analysis reads do not change when an event is sent. *)
Definition same_analysis (st st' : sysdig_bpf_settings) : Prop :=
  st_switch_agg_num st' = st_switch_agg_num st /\ st_boot_time st' = st_boot_time st.

Lemma prepare_filler_agg e cpu ty flags s :
  same_analysis (bs_settings s) (bs_settings (fst (prepare_filler e cpu ty flags s))).
Proof.
  unfold prepare_filler. cbv zeta. case_if; [done|]. unfold acquire_local_state. case_if; [done|].
  destruct (bpf_drop_event _ _ _ _ _) as [[st t] drop] eqn:E.
  assert (Hs : same_analysis (bs_settings s) st).
  { unfold bpf_drop_event in E. repeat case_in E; by simplify_eq. }
  destruct drop; [done|]. by destruct (event_filler _).
Qed.

Lemma cpu_analysis_out_agg e m tid cpu s :
  same_analysis (bs_settings s) (bs_settings (cpu_analysis_out e m tid cpu s)).
Proof.
  unfold cpu_analysis_out. pose proof (prepare_filler_agg e cpu PPME_CPU_ANALYSIS_E 0 s) as Hp.
  destruct (prepare_filler _ _ _ _ _) as [s1 [id|]]; [|done]. cbn [fst] in Hp.
  unfold bpf_cpu_analysis, kp_filler. destruct (init_filler_data _) as [d r].
  destruct (if r =? PPM_SUCCESS then _ else _) as [[d1 p] res].
  cbn [set_cpu bs_settings]. unfold after_filler. by destruct p.
Qed.

Lemma sends_agg e cpu tid s out s' :
  sends e cpu tid s out s' -> same_analysis (bs_settings s) (bs_settings s').
Proof. destruct 1; [done|]. apply cpu_analysis_out_agg. Qed.
End tracks.

(** C14: the CPU analysis keeps, for each thread, the intervals since its last event.
    While the capture is on and the event wanted, with an aggregation number of at most 16,
    every task switch between two threads does what the specification says.  A time on the
    CPU of the first thread is appended to its list, which is opened before if there is
    room in the map and left as it is when full; then the list is sent and emptied exactly
    when it is due.  A time off the CPU of the second thread is appended to its list in the
    same way, with the type of its system call and its wait for the run queue.  No other
    list changes, and an event that is sent is that of a record with the list. *)
Theorem cpu_switch_refines {H : Type -> Type} `{BpfHash Z H} `{!BpfHashOK Z H}
    (e : bpf_env) (agg : nat) (m : cpu_maps H) (logs : Z -> option thread_log) (cpu : Z)
    (clock : nat -> Z) (reread : Z -> Z) (ppid prev : Z) (running : bool) (npid next : Z)
    (s : bpf_sys) (m' : cpu_maps H) (s' : bpf_sys) :
  (1 <= agg <= 16)%nat -> st_switch_agg_num (bs_settings s) = Z.of_nat agg ->
  st_capture_enabled (bs_settings s) = true ->
  st_events_mask (bs_settings s) PPME_CPU_ANALYSIS_E = true -> prev <> next ->
  tracks agg m logs ->
  cpu_sched_switch e cpu clock reread ppid prev running npid next m s = (m', s') ->
  let boot := st_boot_time (bs_settings s) in
  let m1 := fst (switch_prev e cpu clock reread ppid prev running m s) in
  let '(logp, out) :=
    on_spec agg (room_for m ppid prev) (hash_lookup (cpu_focus_threads m) prev)
      (u64 (boot + clock 1%nat)) (on_interval m reread prev (clock 0%nat)) (logs prev) in
  let logn :=
    off_spec agg (room_for m1 npid next) (off_interval m boot next (clock 3%nat)) (logs next) in
  tracks agg m' (set_log (set_log logs prev logp) next logn) /\
  sends (H := H) e cpu prev s out s' /\ st_switch_agg_num (bs_settings s') = Z.of_nat agg.
Proof.
  intros Ha Hst Hen Hm Hne Ht E boot. unfold cpu_sched_switch in E. cbv zeta in E.
  rewrite Hen, Hm, andb_false_r in E. cbn [negb] in E.
  destruct (switch_prev _ _ _ _ _ _ _ _ _) as [m1 s1] eqn:Ep. cbn [fst].
  apply (switch_prev_step agg m logs) in Ep as (Ht1 & Hs & Hoff); try done.
  fold boot in Ht1, Hs. destruct (on_spec _ _ _ _ _ _) as [logp out]. cbn [fst snd] in Ht1, Hs.
  destruct (sends_agg _ _ _ _ _ _ Hs) as [Hagg Hboot]. rewrite Hst in Hagg. injection E as <- <-.
  pose proof (switch_next_step agg m1 _ clock npid next s1 Ht1 (proj2 Ha) Hagg) as Ht2.
  rewrite Hoff, Hboot in Ht2 by congruence. fold boot in Ht2.
  replace (set_log logs prev logp next) with (logs next) in Ht2; [done|].
  unfold set_log. by rewrite decide_False by congruence.
Qed.

(** ** The event of a record. *)

Section deliver.
Context (e : bpf_env) (as_ : mem).
Context `{He : !BpfOK e as_}.

(** Bytes already on the frame are appended as they are. *)
Lemma put_bytes st tid d ps t bs :
  0 <= st_snaplen st -> framed tid d ps -> zsum (lens ps) <= 1000 ->
  tc_evt_type (tail_ctx d) = t -> Z.of_nat (length ps) < ei_nparams (g_event_info t) ->
  pi_type (event_param t (Z.of_nat (length ps))) = PT_BYTEBUF ->
  (0 < length bs <= 1000)%nat ->
  exists d', bpf_val_to_ring_len e st (with_on_frame (put_at_curoff d bs) true) 0
               (Z.of_nat (length bs)) = (d', PPM_SUCCESS) /\
    framed tid d' (ps ++ [bs]) /\ curarg_already_on_frame d' = false /\
    tc_ts (tail_ctx d') = tc_ts (tail_ctx d) /\ tc_evt_type (tail_ctx d') = t.
Proof.
  intros Hst F0 Hz Ht Hlt Hty Hbs.
  pose proof (filled_curarg _ _ (fr_filled _ _ _ F0)) as Hc. cbn [frame_view args curarg] in Hc.
  pose proof (framed_offset _ _ _ F0) as Ho. pose proof (framed_bounds _ _ _ F0) as [Hr Hge].
  unfold PPM_MAX_EVENT_PARAMS, sizeof_ppm_evt_hdr in *.
  assert (Hev : evt d = g_event_info t) by (unfold evt; by rewrite Ht).
  rewrite Hev in Hr, Ho, Hge. set (d1 := with_on_frame (put_at_curoff d bs) true).
  assert (Hroom : curoff_full d = false)
    by (unfold curoff_full; rewrite scratch_half; apply Z.ltb_ge; lia).
  assert (F : framed tid d1 ps).
  { pose proof (framed_kept tid d (put_at_curoff d bs) ps F0) as Hk.
    destruct Hk as [? ? ? ?]; [by apply put_at_curoff_kept; [lia|]|by split]. }
  assert (Hread : mem_read (buf d1) (tc_curoff (tail_ctx d1)) (length bs) = bs).
  { exact (vp_read _ _ _ _ (put_value_put d bs ltac:(lia) Hroom)). }
  unfold bpf_val_to_ring_len. change (tail_ctx d1) with (tail_ctx d). rewrite Hc.
  unfold PPM_MAX_EVENT_PARAMS. rewrite (proj2 (Z.leb_gt _ _)) by lia. unfold bpf_param_type.
  change (tail_ctx d1) with (tail_ctx d). rewrite Ht, Hc, land_slot, Z.mod_small, Hty by lia.
  destruct (__bpf_val_to_ring e st d1 0 (Z.of_nat (length bs)) PT_BYTEBUF dyn_none false) as [d' r] eqn:E.
  assert (Hok : r = PPM_SUCCESS).
  { rewrite val_to_ring_unfold in E. cbv zeta in E. change (curoff_full d1) with (curoff_full d) in E.
    rewrite Hroom in E. change (after_dyn d1 dyn_none) with d1 in E.
    assert (Hp : bpf_put_value e st d1 PT_BYTEBUF 0 (Z.of_nat (length bs)) false
                 = (d1, Put (Z.of_nat (length bs)))).
    { unfold bpf_put_value, bpf_put_bytebuf. rewrite (proj2 (Z.eqb_neq _ _)) by lia.
      rewrite u32_small by lia. unfold PPM_MAX_ARG_SIZE. by rewrite (proj2 (Z.ltb_ge _ _)) by lia. }
    rewrite Hp in E. change (if u8 dyn_none =? dyn_none then 0 else 1) with 0 in E.
    rewrite u32_small in E by lia. unfold PPM_MAX_ARG_SIZE in E.
    rewrite (proj2 (Z.ltb_ge _ _)) in E by lia. by simplify_eq. }
  subst r. exists d'. destruct (val_to_ring_tail e as_ st _ _ _ _ _ _ _ _ E) as [Hts Hty'].
  apply (val_to_ring_framed e as_ st Hst tid d1 ps) in E; [|done|..|done].
  2: { change (tail_ctx d1) with (tail_ctx d). change (evt d1) with (evt d). rewrite Hev. lia. }
  destruct E as [(_ & F' & Hon')|[?|[?|[? _]]]]; [|done..].
  assert (Hp : bpf_param e as_ st d1 PT_BYTEBUF 0 (Z.of_nat (length bs)) dyn_none false = bs).
  { unfold bpf_param, bpf_value. change (after_dyn d1 dyn_none) with d1.
    rewrite (proj2 (Z.eqb_neq _ 0)) by lia. cbn [app Z.eqb u8 dyn_none].
    change (curarg_already_on_frame d1) with true. cbv iota.
    unfold bpf_captured_len. rewrite u32_small, Z.min_l, Nat2Z.id by (unfold PPM_MAX_ARG_SIZE; lia).
    exact Hread. }
  rewrite Hp in F'. repeat split_and; try done. by rewrite Hty'.
Qed.

(** The parameters of the event of a record. *)
Definition record_params (i : info_t) : list (list byte) :=
  [le64 (in_start_ts i); le64 (in_end_ts i); le32 (in_index i);
   bytes_of_u64s (in_times_specs i); bytes_of_u64s (in_rq i); bytes_of_u8s (in_time_type i)].

Lemma length_u64s l : length (bytes_of_u64s l) = (8 * length l)%nat.
Proof.
  induction l as [|x l IH]; [done|]. unfold bytes_of_u64s in *. cbn [flat_map length].
  rewrite length_app, IH. unfold le64. rewrite length_le_bytes. lia.
Qed.

Lemma length_u8s l : length (bytes_of_u8s l) = length l.
Proof.
  induction l as [|x l IH]; [done|]. unfold bytes_of_u8s in *. cbn [flat_map length].
  rewrite length_app, IH, length_le_bytes. lia.
Qed.

Lemma zsum_lens_app l l' : zsum (lens (l ++ l')) = zsum (lens l) + zsum (lens l').
Proof. unfold lens. by rewrite map_app, zsum_app. Qed.

(** The filler appends them to a frame it just started. *)
Lemma cpu_analysis_filled {H : Type -> Type} `{BpfHash Z H} (m : cpu_maps H) tid st d i log :
  0 <= st_snaplen st -> framed (event_tid e) d [] -> curarg_already_on_frame d = false ->
  tc_evt_type (tail_ctx d) = PPME_CPU_ANALYSIS_E ->
  hash_lookup (cpu_records m) tid = Some i -> holds i log -> log <> [] ->
  exists d', kp_run (__bpf_cpu_analysis e m tid) st d = (d', PPM_SUCCESS) /\
    framed (event_tid e) d' (record_params i) /\ tc_ts (tail_ctx d') = tc_ts (tail_ctx d) /\
    tc_evt_type (tail_ctx d') = PPME_CPU_ANALYSIS_E.
Proof.
  intros Hst F Hon Ht El Hi Hne. unfold kp_run, __bpf_cpu_analysis. rewrite El.
  assert (Hi0 : in_index i =? 0 = false).
  { rewrite (ho_index _ _ Hi). destruct log; [done|]. apply Z.eqb_neq. cbn. lia. }
  rewrite Hi0.
  assert (Hn : ei_nparams (g_event_info PPME_CPU_ANALYSIS_E) = 6) by (vm_compute; reflexivity).
  destruct (put_number e as_ st (event_tid e) d [] PPME_CPU_ANALYSIS_E 8 (in_start_ts i))
    as (d1 & E1 & F1 & On1 & Ts1 & T1); try done; [constructor|].
  destruct (put_number e as_ st (event_tid e) d1 [le64 (in_start_ts i)] PPME_CPU_ANALYSIS_E 8 (in_end_ts i))
    as (d2 & E2 & F2 & On2 & Ts2 & T2); try done; [repeat constructor|].
  destruct (put_number e as_ st (event_tid e) d2 [le64 (in_start_ts i); le64 (in_end_ts i)]
              PPME_CPU_ANALYSIS_E 4 (in_index i))
    as (d3 & E3 & F3 & On3 & Ts3 & T3); try done; [repeat constructor|].
  cbn [app] in F3. destruct (put_bytes st (event_tid e) d3
    [le64 (in_start_ts i); le64 (in_end_ts i); le32 (in_index i)] PPME_CPU_ANALYSIS_E
    (bytes_of_u64s (in_times_specs i))) as (d4 & E4 & F4 & On4 & Ts4 & T4); try done.
  { rewrite length_u64s, (ho_times_len _ _ Hi). lia. }
  destruct (put_bytes st (event_tid e) d4
    ([le64 (in_start_ts i); le64 (in_end_ts i); le32 (in_index i)] ++ [bytes_of_u64s (in_times_specs i)])
    PPME_CPU_ANALYSIS_E (bytes_of_u64s (in_rq i))) as (d5 & E5 & F5 & On5 & Ts5 & T5); try done.
  { rewrite zsum_lens_app. cbn [lens map zsum]. rewrite length_u64s, (ho_times_len _ _ Hi). cbn. lia. }
  { rewrite length_u64s, (ho_rq_len _ _ Hi). lia. }
  destruct (put_bytes st (event_tid e) d5
    (([le64 (in_start_ts i); le64 (in_end_ts i); le32 (in_index i)] ++ [bytes_of_u64s (in_times_specs i)])
     ++ [bytes_of_u64s (in_rq i)])
    PPME_CPU_ANALYSIS_E (bytes_of_u8s (in_time_type i))) as (d6 & E6 & F6 & On6 & Ts6 & T6); try done.
  { rewrite !zsum_lens_app. cbn [lens map zsum].
    rewrite !length_u64s, (ho_times_len _ _ Hi), (ho_rq_len _ _ Hi). cbn. lia. }
  { rewrite length_u8s, (ho_types_len _ _ Hi). lia. }
  exists d6. unfold put_unchecked, put_array, unchecked. rewrite E1. cbn [fst]. rewrite E2. cbn [fst].
  rewrite E3. cbn [fst]. rewrite E4. cbn [fst]. rewrite E5. cbn [fst]. rewrite E6. cbn [fst].
  repeat split_and; [done|exact F6|congruence|done].
Qed.

(** A complete frame of a moderate size is sent. *)
Lemma push_delivered tid d ps :
  (forall f, perf_event_output e f = 0) -> framed tid d ps -> zsum (lens ps) <= 1000 ->
  Z.of_nat (length ps) = ei_nparams (evt d) ->
  exists d', push_evt_frame e d =
    (d', Pushed (event_bytes (tc_ts (tail_ctx d)) tid (tc_evt_type (tail_ctx d)) ps), PPM_SUCCESS).
Proof.
  intros Hout F Hz Hn. destruct (push_evt_frame e d) as [[d' p] r] eqn:E. exists d'.
  pose proof (framed_offset _ _ _ F) as Ho. pose proof (framed_bounds _ _ _ F) as [Hr _].
  pose proof (filled_curarg _ _ (fr_filled _ _ _ F)) as Hc. cbn [frame_view args curarg] in Hc.
  pose proof (fr_len _ _ _ F) as Hl. pose proof E as E'. unfold push_evt_frame in E'. cbv zeta in E'.
  unfold PPM_MAX_EVENT_PARAMS, sizeof_ppm_evt_hdr in *.
  rewrite Hc, Hn, Z.eqb_refl, Hout in E'. cbn [negb] in E'. change PERF_EVENT_MAX_SIZE with 65523 in E'.
  rewrite (proj2 (Z.ltb_ge _ _)) in E' by lia. cbn in E'. injection E' as _ <- <-.
  apply (push_evt_frame_bytes e tid d _ _ _ _ F) in E as (Hf & _). by rewrite Hf.
Qed.
End deliver.

(** C15: a record that is due is delivered.  While no sampling is in force and no hotplug
    event is pending on the CPU, whose state is free, and the kernel accepts the sample:
    the event with the times, the latencies and the types of the record, and how many
    there are, is at the end of the perf buffer, it is counted, and the state of the
    CPU is free again. *)
Theorem cpu_record_delivered {H : Type -> Type} `{BpfHash Z H} (e : bpf_env) (as_ : mem)
    (m : cpu_maps H) (tid cpu : Z) (i : info_t) (log : list interval) (s : bpf_sys) :
  BpfOK e as_ -> (forall f, perf_event_output e f = 0) ->
  hash_lookup (cpu_records m) tid = Some i -> holds i log -> log <> [] ->
  st_events_mask (bs_settings s) PPME_CPU_ANALYSIS_E = true ->
  st_dropping_mode (bs_settings s) = false -> 0 <= st_snaplen (bs_settings s) ->
  bc_in_use (bs_cpus s cpu) = false -> cpu <> 0 \/ bc_hotplug (bs_cpus s cpu) = 0 ->
  let s' := cpu_analysis_out e m tid cpu s in
  bs_out s' = bs_out s ++
    [(cpu, event_bytes (u64 (st_boot_time (bs_settings s) + ktime_get_ns e)) (event_tid e)
             PPME_CPU_ANALYSIS_E (record_params i))] /\
  bc_in_use (bs_cpus s' cpu) = false /\
  bc_n_evts (bs_cpus s' cpu) = u64 (bc_n_evts (bs_cpus s cpu) + 1).
Proof.
  intros He Hout El Hi Hne Hm Hd Hsn Hu Hh s'.
  destruct (prepare_filler_taken e cpu PPME_CPU_ANALYSIS_E 0 s) as (s1 & Hp & Ho & Hst & Htl & Hev);
    try done.
  unfold s', cpu_analysis_out. rewrite Hp. change (event_filler PPME_CPU_ANALYSIS_E) with (Some F_cpu_analysis_e).
  unfold bpf_cpu_analysis, kp_filler, init_filler_data. rewrite Htl, Hst.
  cbn [reset_tail_ctx tc_evt_type]. change (0 <=? PPME_CPU_ANALYSIS_E) with true.
  change (PPME_CPU_ANALYSIS_E <? PPM_EVENT_MAX) with true. cbn [andb Z.eqb PPM_SUCCESS].
  set (d0 := mk_data _ _ _ _ _ _). unfold start_frame. change (tc_len (tail_ctx d0) =? 0) with true. cbv iota.
  pose proof (write_evt_hdr_framed e d0 eq_refl) as F0.
  destruct (cpu_analysis_filled e as_ m tid (bs_settings s) (write_evt_hdr e d0) i log) as (d1 & E1 & F1 & Ts & Ty);
    try done.
  rewrite E1. cbn [Z.eqb PPM_SUCCESS].
  assert (Hz : zsum (lens (record_params i)) <= 1000).
  { unfold record_params. cbn [lens map]. unfold le64, le32.
    rewrite !length_u64s, length_u8s, !length_le_bytes, (ho_times_len _ _ Hi), (ho_rq_len _ _ Hi),
      (ho_types_len _ _ Hi). done. }
  destruct (push_delivered e (event_tid e) d1 (record_params i) Hout F1 Hz) as [d2 E2].
  { unfold evt. by rewrite Ty. }
  rewrite E2, Ts, Ty. cbn [write_evt_hdr tail_ctx tc_ts d0 reset_tail_ctx].
  set (f := event_bytes _ _ _ _).
  destruct (after_filler_step s1 cpu d2 (Pushed f) PPM_SUCCESS) as (A1 & _ & _ & _ & _ & A6 & _ & A7 & _).
  cbn [set_cpu bs_cpus bs_out]. rewrite upd_same, A7, Ho. split; [done|]. split; [done|].
  rewrite <- Hev, <- A1. unfold terminate_filler. by rewrite A6.
Qed.

(** ** A run on a map of four entries. *)

Definition sample_hash : Type -> Type := bounded (K := Z).
#[local] Instance sample_hash_ops : BpfHash Z sample_hash := bounded_hash 4.
#[local] Instance sample_hash_ok : BpfHashOK Z sample_hash := bounded_hash_ok 4.

(** Thread 7 has had the CPU since 1000, thread 9 waits since 500 and is in the queue
    since 2000; the clock counts on from 5000. *)
Definition sample_maps : cpu_maps sample_hash :=
  mk_maps ∅ ({[7 := 1000]} : gmap Z Z) ({[9 := 500]} : gmap Z Z) ({[9 := 2000]} : gmap Z Z) ∅ ∅ ∅.
Definition sample_clock (n : nat) : Z := 5000 + Z.of_nat n.
Definition pair_settings : sysdig_bpf_settings :=
  mk_settings 1000 7 80 1 true true false false false false 0 0 8125 2 (fun _ => true).
Definition sample_switch : cpu_maps sample_hash * bpf_sys :=
  cpu_sched_switch sample_benv 3 sample_clock id 7 7 false 9 9 sample_maps (bpf_start pair_settings).

Lemma sample_maps_track agg : tracks agg sample_maps (fun _ => None).
Proof. intros tid. cbn [sample_maps cpu_records hash_lookup sample_hash_ops bounded_hash]. done. Qed.

(** The list of thread 7 is sent at once, that of thread 9 has its wait. *)
Definition sample_logs : Z -> option thread_log :=
  set_log (set_log (fun _ => None) 7 (Some (mk_log 6001 []))) 9
    (Some (mk_log 1500 [OffCpu 4503 OFF_OTHER 3])).

Lemma cpu_switch_refines_witness :
  tracks 2 (fst sample_switch) sample_logs /\
  sends (H := sample_hash) sample_benv 3 7 (bpf_start pair_settings) (Some [OnCpu 4000]) (snd sample_switch).
Proof.
  pose proof (cpu_switch_refines sample_benv 2 sample_maps (fun _ => None) 3 sample_clock id 7 7 false 9 9
    (bpf_start pair_settings) (fst sample_switch) (snd sample_switch) ltac:(lia) eq_refl eq_refl eq_refl
    ltac:(lia) (sample_maps_track 2) (surjective_pairing _)) as Hs.
  cbv beta zeta in Hs.
  match type of Hs with context [on_spec ?a ?b ?c ?d ?f ?l] =>
    assert (Hon : on_spec a b c d f l = (Some (mk_log 6001 []), Some [OnCpu 4000]))
      by (vm_compute; reflexivity) end.
  match type of Hs with context [off_spec ?a ?b ?c ?l] =>
    assert (Hoff : off_spec a b c l = Some (mk_log 1500 [OffCpu 4503 OFF_OTHER 3]))
      by (vm_compute; reflexivity) end.
  rewrite Hon, Hoff in Hs. destruct Hs as (H1 & H2 & _). split; [exact H1|exact H2].
Defined.

(** A record of one interval. *)
Definition sample_record : info_t := push_ontime (mk_info 7 7 1000 6001 0 zero_times zero_rq zero_times) 4000.

Lemma cpu_record_delivered_witness :
  bs_out (cpu_analysis_out (H := sample_hash) sample_benv
            (set_cpu_records sample_maps ({[7 := sample_record]} : gmap Z info_t)) 7 3
            (bpf_start pair_settings))
  = [(3, event_bytes 6000 (event_tid sample_benv) PPME_CPU_ANALYSIS_E (record_params sample_record))].
Proof.
  assert (He : BpfOK sample_benv sample_user) by by apply mem_benv_ok.
  assert (Hi : holds sample_record ([] ++ [OnCpu 4000]))
    by (apply holds_ontime; [apply holds_fresh || (split; try done; cbn; lia)|cbn; lia]).
  destruct (cpu_record_delivered sample_benv sample_user
    (set_cpu_records sample_maps ({[7 := sample_record]} : gmap Z info_t)) 7 3 sample_record
    [OnCpu 4000] (bpf_start pair_settings) He (fun _ => eq_refl)) as [H1 _].
  - reflexivity.
  - exact Hi.
  - discriminate.
  - reflexivity.
  - reflexivity.
  - simpl. lia.
  - reflexivity.
  - left. lia.
  - exact H1.
Defined.
