(* ===== verification/BpfTrace.v ===== *)
(** * The tracepoints of the eBPF probe: [driver/bpf/probe.c]

    The programs the kernel runs on a tracepoint or on the entry or return of a kernel
    function: each tests the settings, keeps its notes in the hash maps, and hands its
    event to the filler by a tail call or inline.  The configuration is that with raw
    tracepoints and [CPU_ANALYSIS].  Array maps always have their elements, so the
    settings and the tables are always found. *)

From Stdlib Require Import ZArith Lia List Bool.
From Stdlib Require Import Strings.Byte Strings.String.
From stdpp Require Import base tactics list numbers option.
From S2P Require Import Prelude Bytes EventDefs EventTable FillerTable SyscallTable ValToRing.
From S2P Require Import Ring RingSpec Probes BpfRing BpfRingSpec BpfProbe BpfProbeSpec.
From S2P Require Import Fillers BpfFillers BpfFillersSpec BpfSock BpfNet BpfPrograms BpfHash CpuAnalysis.
Import ListNotations.
Local Open Scope Z_scope.

(** What a program finds when it runs: the kernel's answers, the CPU, the readings of
    the clock, and the objects of the event. *)
Record hit : Type := mk_hit {
  h_env : bpf_env;
  h_cpu : Z;
  h_clock : nat -> Z;
  h_view : prog_view }.

Definition h_tid (h : hit) : Z := u32 (pid_tgid (h_env h)).
Definition h_sk (h : hit) : tcp_view := pv_sk (h_view h).

(** The tracepoints and probed functions, with the arguments of their contexts. *)
Inductive tracepoint : Type :=
| TP_sys_enter (in_ia32 : bool) (id : Z)
| TP_sys_exit (in_ia32 : bool) (id : Z)
| TP_sched_process_exit (kthread : bool) (tid : Z)
| TP_sched_switch (prev_pid prev_tid : Z) (running : bool) (next_pid next_tid : Z) (reread : Z -> Z)
| TP_sched_wakeup (pid : Z)
| TP_page_fault
| TP_signal_deliver
| TP_net_dev_start_xmit
| TP_tcp_send_reset
| TP_tcp_receive_reset
| KP_tcp_drop
| KP_tcp_rcv_established
| KP_tcp_close
| KP_tcp_retransmit_skb (segs : Z)
| KP_tcp_send_loss_probe
| KP_tcp_connect
| KRET_tcp_connect (retval : Z)
| KP_tcp_set_state (new_state : Z)
| KP_sock_recvmsg
| KP_sock_sendmsg.

Section trace.
Context {H HT : Type -> Type} `{BpfHash Z H} `{BpfHash tuple HT}.
Context (nr : string -> option Z).

(** The maps of the probe; [rtt_static_map] has the [last_time] of a connection.  The
    settings for packets are apart from those of [sysdig_bpf_settings]. *)
Record trace_state : Type := mk_trace {
  tr_sys : bpf_sys;
  tr_maps : cpu_maps H;
  rtt_static_map : HT Z;
  stash_tuple_map : H tuple;
  skb_capture : bool;
  if_name : list byte }.

Definition set_sys (t : trace_state) (s : bpf_sys) : trace_state :=
  mk_trace s (tr_maps t) (rtt_static_map t) (stash_tuple_map t) (skb_capture t) (if_name t).
Definition set_maps (t : trace_state) (m : cpu_maps H) : trace_state :=
  mk_trace (tr_sys t) m (rtt_static_map t) (stash_tuple_map t) (skb_capture t) (if_name t).
Definition set_rtt (t : trace_state) (r : HT Z) : trace_state :=
  mk_trace (tr_sys t) (tr_maps t) r (stash_tuple_map t) (skb_capture t) (if_name t).
Definition set_stash (t : trace_state) (x : H tuple) : trace_state :=
  mk_trace (tr_sys t) (tr_maps t) (rtt_static_map t) x (skb_capture t) (if_name t).

Definition tr_settings (t : trace_state) : sysdig_bpf_settings := bs_settings (tr_sys t).
Definition capturing (t : trace_state) : bool := st_capture_enabled (tr_settings t).

(** [call_filler(ctx, ctx, evt_type, settings, drop_flags);] *)
Definition tp_event (h : hit) (evt_type drop_flags : Z) (t : trace_state) : trace_state :=
  set_sys t (call_filler (bpf_programs (h_view h)) true (h_env h) (h_cpu h) evt_type drop_flags (tr_sys t)).

(** [if (prepare_filler(ctx, ctx, evt_type, settings, UF_NEVER_DROP)) filler(ctx);] *)
Definition kp_call (e : bpf_env) (f : bcont) (cpu evt_type drop_flags : Z) (s : bpf_sys) : bpf_sys :=
  let '(s, r) := prepare_filler e cpu evt_type drop_flags s in
  match r with None => s | Some _ => kp_filler e (kp_run f (bs_settings s)) cpu s end.
Definition kp_tcp_event (h : hit) (f : bcont) (evt_type : Z) (t : trace_state) : trace_state :=
  set_sys t (kp_call (h_env h) f (h_cpu h) evt_type UF_NEVER_DROP (tr_sys t)).

(** ** Syscalls. *)

Definition get_syscall_info (id : Z) : syscall_evt_pair :=
  table_entry nr SYSCALL_TABLE_ID0 g_syscall_table_rows id.

(** The event and the drop flags of a syscall. *)
Definition syscall_event (pick : syscall_evt_pair -> Z) (generic : Z) (id : Z) : Z * Z :=
  let sc_evt := get_syscall_info id in
  if has_flag (sp_flags sc_evt) UF_USED then (pick sc_evt, sp_flags sc_evt)
  else (generic, UF_ALWAYS_DROP).

Definition bad_syscall (in_ia32 : bool) (id : Z) : bool :=
  in_ia32 || (id <? 0) || (SYSCALL_TABLE_SIZE <=? id).

Definition bpf_sys_enter (h : hit) (in_ia32 : bool) (id : Z) (t : trace_state) : trace_state :=
  if bad_syscall in_ia32 id then t
  else if negb (capturing t) then t
  else
    let t := set_maps t (note_enter nr (s32 id) (h_tid h) (h_clock h 0%nat) (tr_maps t)) in
    let '(evt_type, drop_flags) := syscall_event enter_event_type PPME_GENERIC_E id in
    tp_event h evt_type drop_flags t.

(** The exit is noted even while nothing is captured. *)
Definition bpf_sys_exit (h : hit) (in_ia32 : bool) (id : Z) (t : trace_state) : trace_state :=
  if bad_syscall in_ia32 id then t
  else
    let t := set_maps t (note_exit nr (s32 id) (h_tid h) (h_clock h 0%nat) (tr_maps t)) in
    if negb (capturing t) then t
    else
      let '(evt_type, drop_flags) := syscall_event exit_event_type PPME_GENERIC_X id in
      tp_event h evt_type drop_flags t.

(** ** Tasks, faults and signals. *)

Definition bpf_sched_process_exit (h : hit) (kthread : bool) (tid : Z) (t : trace_state) : trace_state :=
  if kthread then t
  else if negb (capturing t) then t
  else
    let t := set_sys t (cpu_analysis_out (h_env h) (tr_maps t) tid (h_cpu h) (tr_sys t)) in
    let t := set_maps t (clear_map (tr_maps t) tid) in
    tp_event h PPME_PROCEXIT_1_E UF_NEVER_DROP t.

Definition bpf_sched_switch (h : hit) (prev_pid prev_tid : Z) (running : bool)
    (next_pid next_tid : Z) (reread : Z -> Z) (t : trace_state) : trace_state :=
  let '(m, s) := cpu_sched_switch (h_env h) (h_cpu h) (h_clock h) reread prev_pid prev_tid running
                   next_pid next_tid (tr_maps t) (tr_sys t) in
  set_maps (set_sys t s) m.

Definition bpf_page_fault (h : hit) (t : trace_state) : trace_state :=
  if negb (st_page_faults (tr_settings t)) then t
  else if negb (capturing t) then t
  else tp_event h PPME_PAGE_FAULT_E UF_ALWAYS_DROP t.

Definition bpf_signal_deliver (h : hit) (t : trace_state) : trace_state :=
  if negb (capturing t) then t else tp_event h PPME_SIGNALDELIVER_E UF_ALWAYS_DROP t.

(** ** The network. *)

Definition bpf_net_dev_start_xmit (h : hit) (t : trace_state) : trace_state :=
  if negb (capturing t) then t
  else if negb (skb_capture t) then t
  else if bpf_check_skb (h_env h) (pv_skb (h_view h)) (pv_dev_name (h_view h)) (if_name t) <? 0 then t
  else tp_event h PPME_NET_DEV_XMIT_E UF_NEVER_DROP t.

Definition bpf_tcp_send_reset (h : hit) (t : trace_state) : trace_state :=
  if negb (capturing t) then t else tp_event h PPME_TCP_SEND_RESET_E UF_NEVER_DROP t.
Definition bpf_tcp_receive_reset (h : hit) (t : trace_state) : trace_state :=
  if negb (capturing t) then t else tp_event h PPME_TCP_RECEIVE_RESET_E UF_NEVER_DROP t.

Definition bpf_kp_tcp_drop (h : hit) : trace_state -> trace_state :=
  kp_tcp_event h (bpf_tcp_drop_kprobe_e (h_env h) (h_sk h)) PPME_TCP_DROP_E.

Definition tp_unwanted (tp : tuple) : bool :=
  (ntohs (tp_sport tp) =? 22) || (ntohs (tp_dport tp) =? 22)
  || (ntohs (tp_sport tp) =? 0) || (ntohs (tp_dport tp) =? 0).

(** The round trip time of a connection is sent at most every five seconds. *)
Definition bpf_kp_tcp_rcv_established (h : hit) (t : trace_state) : trace_state :=
  let tp := sock_tuple (tv_sock (h_sk h)) in
  if tp_unwanted tp then t
  else match hash_lookup (rtt_static_map t) tp with
  | None => set_rtt t (fst (hash_update_noexist (rtt_static_map t) tp (h_clock h 0%nat)))
  | Some last_time =>
      if 5000000000 <? u64 (h_clock h 0%nat - last_time) then
        kp_tcp_event h (bpf_rtt_kprobe_e (h_env h) (h_sk h)) PPME_TCP_RCV_ESTABLISHED_E
          (set_rtt t (hash_store (rtt_static_map t) tp (h_clock h 1%nat)))
      else t
  end.

Definition bpf_kp_tcp_close (h : hit) (t : trace_state) : trace_state :=
  let tp := sock_tuple (tv_sock (h_sk h)) in
  let t := set_rtt t (hash_delete (rtt_static_map t) tp) in
  if tp_unwanted tp then t
  else kp_tcp_event h (bpf_rtt_kprobe_e (h_env h) (h_sk h)) PPME_TCP_CLOSE_E t.

Definition bpf_kp_tcp_retransmit_skb (h : hit) (segs : Z) : trace_state -> trace_state :=
  kp_tcp_event h (bpf_tcp_retransmit_skb_kprobe_e (h_env h) (h_sk h) segs) PPME_TCP_RETRANCESMIT_SKB_E.

Definition bpf_kp_tcp_send_loss_probe (h : hit) : trace_state -> trace_state :=
  kp_tcp_event h (bpf_tcp_send_loss_probe_e (h_env h) (h_sk h)) PPME_TCP_RETRANCESMIT_SKB_E.

(** A connection attempt: the entry leaves the tuple for the return. *)
Definition bpf_kp_tcp_connect (h : hit) (t : trace_state) : trace_state :=
  set_stash t (fst (hash_update (stash_tuple_map t) (h_tid h) (sock_tuple (tv_sock (h_sk h))))).

Definition bpf_kret_tcp_connect (h : hit) (retval : Z) (t : trace_state) : trace_state :=
  kp_tcp_event h
    (bpf_tcp_connect_kprobe_x (h_env h) (hash_lookup (stash_tuple_map t) (h_tid h)) retval)
    PPME_TCP_CONNECT_X t.

Definition TCP_ESTABLISHED : Z := 1.

Definition bpf_kp_tcp_set_state (h : hit) (new_state : Z) (t : trace_state) : trace_state :=
  if negb (sk_family (tv_sock (h_sk h)) =? AF_INET) then t
  else if (old_state (h_sk h) =? TCP_ESTABLISHED) || (s32 new_state =? TCP_ESTABLISHED)
  then kp_tcp_event h (bpf_tcp_set_state_kprobe_e (h_env h) (h_sk h) new_state) PPME_TCP_SET_STATE_E t
  else t.

(** ** The whole probe. *)

Definition bpf_hit (h : hit) (p : tracepoint) (t : trace_state) : trace_state :=
  match p with
  | TP_sys_enter in_ia32 id => bpf_sys_enter h in_ia32 id t
  | TP_sys_exit in_ia32 id => bpf_sys_exit h in_ia32 id t
  | TP_sched_process_exit kthread tid => bpf_sched_process_exit h kthread tid t
  | TP_sched_switch pp pt r np nt reread => bpf_sched_switch h pp pt r np nt reread t
  | TP_sched_wakeup pid => set_maps t (bpf_trace_enqueue pid (h_clock h 0%nat) (tr_maps t))
  | TP_page_fault => bpf_page_fault h t
  | TP_signal_deliver => bpf_signal_deliver h t
  | TP_net_dev_start_xmit => bpf_net_dev_start_xmit h t
  | TP_tcp_send_reset => bpf_tcp_send_reset h t
  | TP_tcp_receive_reset => bpf_tcp_receive_reset h t
  | KP_tcp_drop => bpf_kp_tcp_drop h t
  | KP_tcp_rcv_established => bpf_kp_tcp_rcv_established h t
  | KP_tcp_close => bpf_kp_tcp_close h t
  | KP_tcp_retransmit_skb segs => bpf_kp_tcp_retransmit_skb h segs t
  | KP_tcp_send_loss_probe => bpf_kp_tcp_send_loss_probe h t
  | KP_tcp_connect => bpf_kp_tcp_connect h t
  | KRET_tcp_connect retval => bpf_kret_tcp_connect h retval t
  | KP_tcp_set_state new_state => bpf_kp_tcp_set_state h new_state t
  | KP_sock_recvmsg | KP_sock_sendmsg =>
      set_maps t (kp_sock_msg (h_tid h) (h_clock h 0%nat) (tr_maps t))
  end.

Definition bpf_hits (hs : list (hit * tracepoint)) (t : trace_state) : trace_state :=
  foldl (fun t x => bpf_hit (fst x) (snd x) t) t hs.
End trace.
Arguments trace_state : clear implicits.
