(* ===== verification/BpfTraceSpec.v ===== *)
(** * The eBPF probe as a whole

    Every sequence of tracepoint hits keeps the books of the CPUs: each event is
    accounted for once, and the frames in the perf buffers are event records.  For
    native tasks the syscall probes choose the events and drop flags of the kernel
    module. *)

From Stdlib Require Import ZArith Lia List Bool.
From Stdlib Require Import Strings.Byte Strings.String.
From stdpp Require Import base tactics list numbers option gmap relations.
From S2P Require Import Prelude Bytes EventDefs EventTable FillerTable SyscallTable ValToRing ValToRingSpec.
From S2P Require Import Fillers Ring RingSpec RingSystem RecordSpec Probes BpfRing BpfRingSpec BpfProbe BpfProbeSpec.
From S2P Require Import BpfFillers BpfFillersSpec BpfSock BpfNet BpfPrograms BpfHash CpuAnalysis BpfTrace BpfLive.
Import ListNotations.
Local Open Scope Z_scope.

(** ** Inline fillers. *)

(** The settings an inline filler runs with. *)
Definition kp_body (e : bpf_env) (f : bcont) (cpu ty flags : Z) (s : bpf_sys) :
    filler_data -> filler_data * Z :=
  kp_run f (bs_settings (fst (prepare_filler e cpu ty flags s))).

Lemma kp_call_event e f cpu ty flags s :
  kp_call e f cpu ty flags s = kp_event e (kp_body e f cpu ty flags s) cpu ty flags s.
Proof.
  unfold kp_call, kp_event, kp_body. by destruct (prepare_filler _ _ _ _ _) as [s1 [id|]].
Qed.

Lemma cpu_analysis_out_call {H : Type -> Type} `{BpfHash Z H} e (m : cpu_maps H) tid cpu s :
  cpu_analysis_out e m tid cpu s = kp_call e (__bpf_cpu_analysis e m tid) cpu PPME_CPU_ANALYSIS_E 0 s.
Proof. done. Qed.

(** A filler that leaves a frame when it succeeds; that a parameter was announced on the
    frame does not matter to it. *)
Definition frame_end (e : bpf_env) (n : nat) (f : bcont) : Prop :=
  forall tid st d st' d' r,
    0 <= st_snaplen st -> tracked tid d ->
    0 <= tc_curarg (tail_ctx d) -> tc_curarg (tail_ctx d) + Z.of_nat n < 2 ^ 32 ->
    f (st, d) = ((st', d'), r) ->
    tc_ts (tail_ctx d') = tc_ts (tail_ctx d) /\
    tc_evt_type (tail_ctx d') = tc_evt_type (tail_ctx d) /\ tracked tid d'.

Section ends.
Context (e : bpf_env) (as_ : mem).
Context `{He : !BpfOK e as_}.

(** A call whose result is overwritten appends a parameter or scribbles. *)
Lemma unchecked_end n (g : sysdig_bpf_settings -> filler_data -> filler_data * Z) next :
  (forall st d, 0 <= tc_curoff (tail_ctx d) -> exists d0, scribbled d d0 /\
     ((exists val vl t, g st d = __bpf_val_to_ring e st d0 val vl t dyn_none false) \/ fst (g st d) = d0)) ->
  frame_end e n next -> frame_end e (S n) (unchecked g next).
Proof.
  intros Hg Hn tid st d st' d' r Hs Ht H0 Hc Hrun. unfold unchecked in Hrun.
  change (2 ^ 32) with 4294967296 in Hc.
  destruct (Hg st d (tracked_offset _ _ Ht)) as (d0 & Hsc & Hcall).
  pose proof (tracked_scribbled _ _ _ Ht Hsc) as Ht0. pose proof (sc_tail _ _ Hsc) as Htl.
  assert (Hd1 : tracked tid (fst (g st d)) /\
    0 <= tc_curarg (tail_ctx (fst (g st d))) <= tc_curarg (tail_ctx d) + 1 /\
    tc_ts (tail_ctx (fst (g st d))) = tc_ts (tail_ctx d) /\
    tc_evt_type (tail_ctx (fst (g st d))) = tc_evt_type (tail_ctx d)).
  { destruct Hcall as [(val & vl & t & E)| ->]; [|rewrite Htl; by repeat split_and; try lia].
    destruct (g st d) as [d1 r1]. symmetry in E. cbn [fst].
    destruct (val_to_ring_tail e as_ st _ _ _ _ _ _ _ _ E) as [Hts Hty]. rewrite Htl in Hts, Hty.
    destruct (decide (r1 = PPM_SUCCESS)) as [->|Hr].
    - apply (val_to_ring_tracked e as_ tid) in E as (? & _ & E); auto;
        [|rewrite Htl; change (2 ^ 32) with 4294967296; lia]. rewrite Htl in E.
      repeat split_and; auto; lia.
    - pose proof (tracked_offset _ _ Ht0) as Hoff.
      rewrite val_to_ring_unfold in E. cbv zeta in E. change (after_dyn d0 dyn_none) with d0 in E.
      assert (Hk : kept d0 d1).
      { case_in E; [simplify_eq; by split|].
        destruct (bpf_put_value _ _ _ _ _ _ _) as [d2 r2] eqn:E2.
        eapply bpf_put_value_kept in E2; [|exact He|done].
        destruct r2; [case_in E|]; by simplify_eq. }
      destruct Hk as [K1 K2 K3]. repeat split_and; try congruence; rewrite ?K1, ?Htl; try lia.
      eapply tracked_scribbled; [exact Ht0|]. by split. }
  destruct Hd1 as (T1 & C1 & Ts1 & Ty1).
  destruct (Hn tid st _ st' d' r Hs T1 ltac:(lia) ltac:(change (2 ^ 32) with 4294967296; lia) Hrun)
    as (S1 & S2 & S3).
  repeat split_and; congruence.
Qed.

Lemma put_unchecked_end n val next : frame_end e n next -> frame_end e (S n) (put_unchecked e val next).
Proof.
  apply (unchecked_end n (fun st d => bpf_val_to_ring e st d val)).
  intros st d _. exists d. split; [done|]. unfold bpf_val_to_ring. case_if; [by right|left; by eexists _, _, _].
Qed.

Lemma put_array_end n bs next : frame_end e n next -> frame_end e (S n) (put_array e bs next).
Proof.
  apply unchecked_end. intros st d H0. exists (with_on_frame (put_at_curoff d bs) true). split.
  - destruct (put_at_curoff_scribbled d bs H0). by split.
  - unfold bpf_val_to_ring_len. case_if; [by right|left; by eexists _, _, _].
Qed.

Lemma bdone_end n : frame_end e n bdone.
Proof. intros tid st d st' d' r _ Ht _ _ H. unfold bdone in H. by simplify_eq. Qed.

Lemma cpu_analysis_end {H : Type -> Type} `{BpfHash Z H} (m : cpu_maps H) tid :
  frame_end e 6 (__bpf_cpu_analysis e m tid).
Proof.
  unfold __bpf_cpu_analysis. destruct (hash_lookup _ tid) as [i|]; [|apply bdone_end].
  case_if; [apply bdone_end|].
  do 3 apply put_unchecked_end. do 3 apply put_array_end. apply bdone_end.
Qed.
End ends.

(** What an inline filler must do for its frame to be a record. *)
Definition inline_ok (e : bpf_env) (f : bcont) : Prop :=
  forall tid st d d' r,
    0 <= st_snaplen st -> curarg_already_on_frame d = false -> tracked tid d ->
    tc_curarg (tail_ctx d) = 0 -> kp_run f st d = (d', r) ->
    tc_ts (tail_ctx d') = tc_ts (tail_ctx d) /\
    tc_evt_type (tail_ctx d') = tc_evt_type (tail_ctx d) /\ (r = PPM_SUCCESS -> tracked tid d').

Lemma frame_ok_inline e f : FrameOK e 16 f -> inline_ok e f.
Proof.
  intros Hf tid st d d' r Hs Hon Ht Hc E. unfold kp_run in E.
  destruct (f (st, d)) as [[st1 d1] r1] eqn:Ef. injection E as <- <-.
  destruct (Hf tid st d st1 d1 r1) as (_ & H2 & H3 & H4); try done; [lia|rewrite Hc; done|].
  repeat split_and; try done. intros Hr. destruct r1; [|done]. by apply H4.
Qed.

Lemma frame_end_inline e n f : (n <= 16)%nat -> frame_end e n f -> inline_ok e f.
Proof.
  intros Hn Hf tid st d d' r Hs Hon Ht Hc E. unfold kp_run in E.
  destruct (f (st, d)) as [[st1 d1] r1] eqn:Ef. injection E as <- <-.
  destruct (Hf tid st d st1 d1 r1) as (H2 & H3 & H4); try done; [lia|].
  rewrite Hc. change (2 ^ 32) with 4294967296. lia.
Qed.

(** The frames one inline call adds. *)
Lemma kp_call_records e f cpu ty flags s :
  inline_ok e f -> 0 <= st_snaplen (bs_settings s) ->
  let s' := kp_call e f cpu ty flags s in
  st_snaplen (bs_settings s') = st_snaplen (bs_settings s) /\
  exists new, bs_out s' = bs_out s ++ new /\
    Forall (fun x => fst x = cpu /\ exists ty',
      recorded_type cpu (bc_hotplug (bs_cpus s cpu)) ty ty' /\
      record_of e (u64 (st_boot_time (bs_settings s) + ktime_get_ns e)) ty' (snd x)) new.
Proof.
  intros Hf Hs s'. unfold s', kp_call. destruct (prepare_filler _ _ _ _ _) as [s1 [id|]] eqn:Ep.
  2: { apply prepare_filler_out in Ep as [Ho Hsn]. split; [done|]. exists []. by rewrite app_nil_r. }
  apply prepare_filler_tail in Ep as (H1 & H2 & H3 & H4 & H5 & H6).
  unfold kp_filler. set (c := bs_cpus s1 cpu) in *.
  destruct (init_filler_data c) as [d0 r0] eqn:Ei. unfold init_filler_data in Ei. injection Ei as Ed Er.
  destruct (if r0 =? PPM_SUCCESS then _ else _) as [[d p] res] eqn:E.
  destruct (after_filler_step s1 cpu d p res) as (_ & _ & _ & _ & _ & _ & Hst & Ho & _).
  split; [cbn [set_cpu bs_settings]; by rewrite Hst|].
  exists (match p with Pushed fr => [(cpu, fr)] | _ => [] end).
  split; [cbn [set_cpu bs_out]; by rewrite Ho, H6|].
  destruct p as [fr| |]; [|done..]. constructor; [|constructor]. split; [done|].
  exists (tc_evt_type (bc_tail c)). split; [done|]. cbn [snd].
  case_in E; [|done]. destruct (kp_run f (bs_settings s1) (start_frame e d0)) as [d1 r1] eqn:Ef.
  case_in E; [|done]. bool_to_prop. subst d0.
  edestruct (Hf (event_tid e)) as (S2 & S3 & S4); [| | | |exact Ef|].
  - by rewrite H5.
  - by rewrite (proj1 (proj2 (start_frame_keeps e _))).
  - unfold start_frame. cbn [tail_ctx]. rewrite H2. cbn [Z.eqb]. left. exists [].
    by apply write_evt_hdr_framed.
  - rewrite (proj1 (start_frame_keeps e _)). done.
  - apply push_tracked in E; [|by apply S4]. rewrite S2, S3 in E.
    destruct (start_frame_keeps e (mk_data (bc_tail c) (bc_frame c) (bc_tmp c) false (-1) (bc_hotplug c)))
      as (_ & _ & K3 & K4). rewrite K3, K4 in E. cbn [tail_ctx] in E. by rewrite H3 in E.
Qed.

(** ** What a hit does to the state shared with the reader. *)

(** The task and the memory a hit finds are those of a kernel. *)
Definition hit_ok (h : hit) : Prop :=
  AreasOK (bv_task (pv_view (h_view h))) /\ exists as_, BpfOK (h_env h) as_.

(** The event of a hit: a tail call or an inline filler. *)
Inductive hit_event (h : hit) : bpf_sys -> bpf_sys -> Prop :=
| hit_tail ty fl s :
    hit_event h s (call_filler (bpf_programs (h_view h)) true (h_env h) (h_cpu h) ty fl s)
| hit_inline f ty fl s :
    (hit_ok h -> inline_ok (h_env h) f) -> hit_event h s (kp_call (h_env h) f (h_cpu h) ty fl s).

Section hits.
Context {H HT : Type -> Type} `{BpfHash Z H} `{BpfHash tuple HT}.
Context (nr : string -> option Z).

Lemma kp_frame_ok h f :
  (forall as_, BpfOK (h_env h) as_ -> FrameOK (h_env h) 16 f) -> hit_ok h -> inline_ok (h_env h) f.
Proof. intros Hf [_ [as_ He]]. by apply frame_ok_inline, (Hf as_). Qed.

Lemma cpu_out_event h (m : cpu_maps H) tid s :
  hit_event h s (cpu_analysis_out (h_env h) m tid (h_cpu h) s).
Proof.
  rewrite cpu_analysis_out_call. apply hit_inline. intros [_ [as_ He]].
  eapply frame_end_inline; [|by eapply cpu_analysis_end]. lia.
Qed.

Lemma sched_switch_events h (m : cpu_maps H) reread pp pt r np nt s :
  bsteps (hit_event h) 1 s
    (snd (cpu_sched_switch (h_env h) (h_cpu h) (h_clock h) reread pp pt r np nt m s)).
Proof.
  assert (Hon : forall m pid tid start d now, bsteps (hit_event h) 1 s
    (snd (record_cpu_ontime_and_out (H := H) (h_env h) (h_cpu h) m pid tid start d now s))).
  { intros m' pid tid start d now. unfold record_cpu_ontime_and_out. cbv zeta.
    destruct (get_cpu_info _ _ _ _) as [m1 [i|]]; [|apply bsteps_refl].
    case_if; [|apply bsteps_refl]. apply bsteps_once, cpu_out_event. }
  unfold cpu_sched_switch. cbv zeta. case_if; [apply bsteps_refl|]. case_if; [apply bsteps_refl|].
  unfold switch_prev. case_if; [apply bsteps_refl|].
  destruct (hash_lookup _ pt) as [on_ts|]; [|apply bsteps_refl].
  case_if; [|apply bsteps_refl].
  specialize (Hon (set_on_start_ts (set_off_start_ts m (fst (hash_update (off_start_ts m) pt (h_clock h 0%nat))))
    (hash_delete (on_start_ts (set_off_start_ts m (fst (hash_update (off_start_ts m) pt (h_clock h 0%nat))))) pt))
    pp pt (reread on_ts) (u64 (h_clock h 0%nat - on_ts)) (h_clock h 1%nat)).
  by destruct (record_cpu_ontime_and_out _ _ _ _ _ _ _ _ _) as [m1 s1].
Qed.

#[local] Create HintDb kp_fillers.
#[local] Hint Unfold bpf_tcp_drop_kprobe_e bpf_rtt_kprobe_e bpf_tcp_retransmit_skb_kprobe_e
  bpf_tcp_send_loss_probe_e bpf_tcp_connect_kprobe_x bpf_tcp_set_state_kprobe_e sock_to_ring
  tuple_to_ring : kp_fillers.

(** One event of a hit at most, but two when a task exits. *)
Lemma bpf_hit_events h p (t : trace_state H HT) :
  bsteps (hit_event h) 2 (tr_sys t) (tr_sys (bpf_hit nr h p t)).
Proof.
  assert (Htp : forall ty fl (t : trace_state H HT),
    bsteps (hit_event h) 2 (tr_sys t) (tr_sys (tp_event h ty fl t)))
    by (intros; apply (bsteps_weaken 1 2); [lia|apply bsteps_once, hit_tail]).
  assert (Hkp : forall f ty (t : trace_state H HT),
    (forall as_, BpfOK (h_env h) as_ -> FrameOK (h_env h) 16 f) ->
    bsteps (hit_event h) 2 (tr_sys t) (tr_sys (kp_tcp_event h f ty t)))
    by (intros; apply (bsteps_weaken 1 2); [lia|by apply bsteps_once, hit_inline, kp_frame_ok]).
  destruct p; cbn [bpf_hit].
  - unfold bpf_sys_enter. case_if; [apply bsteps_refl|]. case_if; [apply bsteps_refl|].
    destruct (syscall_event _ _ _ _) as [ty fl]. exact (Htp ty fl (set_maps t _)).
  - unfold bpf_sys_exit. case_if; [apply bsteps_refl|]. cbv zeta. case_if; [apply bsteps_refl|].
    destruct (syscall_event _ _ _ _) as [ty fl]. exact (Htp ty fl (set_maps t _)).
  - unfold bpf_sched_process_exit. case_if; [apply bsteps_refl|]. case_if; [apply bsteps_refl|].
    eapply bsteps_l; [apply cpu_out_event|]. apply bsteps_once, hit_tail.
  - unfold bpf_sched_switch.
    pose proof (sched_switch_events h (tr_maps t) reread prev_pid prev_tid running next_pid next_tid
      (tr_sys t)) as Hs.
    destruct (cpu_sched_switch _ _ _ _ _ _ _ _ _ _ _) as [m s].
    by apply (bsteps_weaken 1 2); [lia|].
  - apply bsteps_refl.
  - unfold bpf_page_fault. case_if; [apply bsteps_refl|]. case_if; [apply bsteps_refl|apply Htp].
  - unfold bpf_signal_deliver. case_if; [apply bsteps_refl|apply Htp].
  - unfold bpf_net_dev_start_xmit. do 3 (case_if; [apply bsteps_refl|]). apply Htp.
  - unfold bpf_tcp_send_reset. case_if; [apply bsteps_refl|apply Htp].
  - unfold bpf_tcp_receive_reset. case_if; [apply bsteps_refl|apply Htp].
  - apply Hkp. intros as_ He. autounfold with kp_fillers. prog_steps He.
  - unfold bpf_kp_tcp_rcv_established. cbv zeta. case_if; [apply bsteps_refl|].
    destruct (hash_lookup _ _) as [last|]; [|apply bsteps_refl]. case_if; [|apply bsteps_refl].
    refine (Hkp _ _ (set_rtt t _) _). intros as_ He. autounfold with kp_fillers. prog_steps He.
  - unfold bpf_kp_tcp_close. cbv zeta. case_if; [apply bsteps_refl|].
    refine (Hkp _ _ (set_rtt t _) _). intros as_ He. autounfold with kp_fillers. prog_steps He.
  - apply Hkp. intros as_ He. autounfold with kp_fillers. prog_steps He.
  - apply Hkp. intros as_ He. autounfold with kp_fillers. prog_steps He.
  - apply bsteps_refl.
  - apply Hkp. intros as_ He. autounfold with kp_fillers. prog_steps He.
  - unfold bpf_kp_tcp_set_state. case_if; [apply bsteps_refl|]. case_if; [|apply bsteps_refl].
    apply Hkp. intros as_ He. autounfold with kp_fillers. prog_steps He.
  - apply bsteps_refl.
  - apply bsteps_refl.
Qed.
End hits.

(** ** Runs. *)

(** The outcome of an event of a hit is what its programs end with. *)
Inductive hit_outcome (h : hit) : outcome -> bpf_sys -> bpf_sys -> Prop :=
| outcome_tail ty fl s :
    hit_outcome h (call_outcome (bpf_programs (h_view h)) (h_env h) (h_cpu h) ty fl s) s
      (call_filler (bpf_programs (h_view h)) true (h_env h) (h_cpu h) ty fl s)
| outcome_inline f ty fl s :
    hit_outcome h
      (kp_outcome (h_env h) (kp_body (h_env h) f (h_cpu h) ty fl s) (h_cpu h) ty fl s) s
      (kp_call (h_env h) f (h_cpu h) ty fl s).

(** The events of a sequence of hits, at most two for each, with their outcomes. *)
Inductive hit_outcomes (h : hit) : list (Z * outcome) -> bpf_sys -> bpf_sys -> Prop :=
| outcomes_end s : hit_outcomes h [] s s
| outcomes_more o os s s1 s2 :
    hit_outcome h o s s1 -> hit_outcomes h os s1 s2 -> hit_outcomes h ((h_cpu h, o) :: os) s s2.

Inductive trace_outcomes : list hit -> list (Z * outcome) -> bpf_sys -> bpf_sys -> Prop :=
| trace_end s : trace_outcomes [] [] s s
| trace_hit h hs os os' s s1 s2 :
    hit_outcomes h os s s1 -> (length os <= 2)%nat -> trace_outcomes hs os' s1 s2 ->
    trace_outcomes (h :: hs) (os ++ os') s s2.

Lemma hit_events_outcomes h n s s' :
  bsteps (hit_event h) n s s' ->
  exists os, hit_outcomes h os s s' /\ (length os <= n)%nat.
Proof.
  induction 1 as [n s|n s s1 s2 He _ (os & IH & Hl)]; [exists []; split; [constructor|cbn; lia]|].
  destruct He as [ty fl s|f ty fl s _]; eexists (_ :: os);
    (split; [econstructor; [econstructor|exact IH]|cbn [length]; lia]).
Qed.

Lemma hit_outcome_balanced h o os s s' :
  Z.of_nat (length os) < 2 ^ 64 - 1 -> hit_outcome h o s s' -> (forall cpu, balanced os s cpu) ->
  forall cpu, balanced (os ++ [(h_cpu h, o)]) s' cpu.
Proof.
  intros Hl He Hb cpu. assert (Hw : counters_wf (bs_cpus s (h_cpu h)))
    by (eapply balanced_wf; [|apply Hb]; lia).
  pose proof (ba_released _ _ _ (Hb (h_cpu h))) as Hr. eapply balanced_step; [done| |apply Hb].
  destruct He as [ty fl s|f ty fl s]; [by apply call_filler_step; [exact _|..]|].
  rewrite kp_call_event. by apply kp_event_step.
Qed.

Lemma hit_outcomes_balanced h os' : forall os s s',
  Z.of_nat (length os + length os') < 2 ^ 64 -> hit_outcomes h os' s s' ->
  (forall cpu, balanced os s cpu) -> forall cpu, balanced (os ++ os') s' cpu.
Proof.
  induction os' as [|[c o] os' IH]; intros os s s' Hl Hs Hb; inversion Hs; subst;
    [by rewrite app_nil_r|]. cbn [length] in Hl. rewrite cons_middle, app_assoc.
  eapply IH; [|eassumption|eapply hit_outcome_balanced; try eassumption; lia].
  rewrite length_app. cbn [length]. lia.
Qed.

Lemma trace_outcomes_balanced hs : forall os os' s s',
  Z.of_nat (length os + length os') < 2 ^ 64 -> trace_outcomes hs os' s s' ->
  (forall cpu, balanced os s cpu) -> forall cpu, balanced (os ++ os') s' cpu.
Proof.
  induction hs as [|h hs IH]; intros os os' s s' Hl Hs Hb; inversion Hs; subst;
    [by rewrite app_nil_r|]. rewrite length_app in Hl. rewrite app_assoc.
  eapply IH; [rewrite length_app; lia|eassumption|].
  eapply hit_outcomes_balanced; try eassumption. lia.
Qed.

Lemma trace_outcomes_length hs os s s' :
  trace_outcomes hs os s s' -> (length os <= 2 * length hs)%nat.
Proof.
  induction 1 as [s|h hs os os' s s1 s2 _ Hl _ IH]; [done|].
  rewrite length_app. cbn [length]. lia.
Qed.

Section runs.
Context {H HT : Type -> Type} `{BpfHash Z H} `{BpfHash tuple HT}.
Context (nr : string -> option Z).

Lemma bpf_hits_outcomes hs : forall t : trace_state H HT,
  exists os, trace_outcomes (map fst hs) os (tr_sys t) (tr_sys (bpf_hits nr hs t)).
Proof.
  induction hs as [|[h p] hs IH]; intros t; [exists []; constructor|].
  cbn [bpf_hits foldl map fst snd].
  destruct (hit_events_outcomes h 2 _ _ (bpf_hit_events nr h p t)) as (os & Ho & Hl).
  destruct (IH (bpf_hit nr h p t)) as (os' & Ho'). exists (os ++ os'). by econstructor.
Qed.

(** A frame is an event record with the parameters of its type. *)
Definition is_record (f : list byte) : Prop :=
  exists ev : event, f = bytes_of_event ev /\
    Z.of_nat (length (ev_params ev)) = ei_nparams (g_event_info (ev_type ev)).

Definition records_ok (s : bpf_sys) : Prop :=
  0 <= st_snaplen (bs_settings s) /\ Forall (fun x => is_record (snd x)) (bs_out s).

Lemma hit_event_records h s s' : hit_ok h -> hit_event h s s' -> records_ok s -> records_ok s'.
Proof.
  intros Hok He [Hs Ho].
  assert (Hnew : exists ty, st_snaplen (bs_settings s') = st_snaplen (bs_settings s) /\
    exists new, bs_out s' = bs_out s ++ new /\
    Forall (fun x => fst x = h_cpu h /\ exists ty',
      recorded_type (h_cpu h) (bc_hotplug (bs_cpus s (h_cpu h))) ty ty' /\
      record_of (h_env h) (u64 (st_boot_time (bs_settings s) + ktime_get_ns (h_env h))) ty' (snd x)) new).
  { destruct He as [ty fl s|f ty fl s Hf]; exists ty.
    - destruct Hok as [Ha [as_ He]].
      destruct (call_filler_records (bpf_programs (h_view h)) true (h_env h) (h_cpu h) ty fl s)
        as (R1 & new & R2 & _ & R3); [intros id f Hid; by eapply bpf_programs_ok|done|eauto].
    - by apply kp_call_records; [apply Hf|]. }
  destruct Hnew as (ty & Hsn & new & Hout & Hr). split; [by rewrite Hsn|]. rewrite Hout.
  apply Forall_app. split; [done|]. eapply List.Forall_impl; [|exact Hr].
  intros x (_ & ty' & _ & ev & E1 & _ & _ & E4 & E5). exists ev. by rewrite E4.
Qed.

Lemma bpf_hits_records hs : forall t : trace_state H HT,
  Forall (fun x => hit_ok (fst x)) hs -> records_ok (tr_sys t) ->
  records_ok (tr_sys (bpf_hits nr hs t)).
Proof.
  induction hs as [|[h p] hs IH]; intros t Hok Hr; [done|].
  inversion Hok as [|? ? Hh Hhs]; subst. cbn [bpf_hits foldl fst snd] in *. apply IH; [done|].
  pose proof (bpf_hit_events nr h p t) as Hs. induction Hs as [|n s1 s2 s3 He _ IHs]; [done|].
  apply IHs. by eapply hit_event_records.
Qed.
End runs.

(** C10: the whole probe is accounted for.  Whatever sequence of tracepoints and probed
    functions is hit, on whatever CPUs, and whatever the tasks, packets, sockets and
    clocks: the hits make events, each hit at most two on its CPU.  The outcome of an event
    is what happened to it: not taken when it is masked or sampled out, else what the
    programs of its filler end with, that is a frame sent or a failure for want of space,
    for a fault or for an inconsistency.  Afterwards the state of every CPU is free,
    [n_evts] is the number of events that were taken on it, each drop counter the number of
    the events that failed for its reason, and the frames in the perf buffer of the CPU are
    those of the events sent, in order.  (The numbers of events are below 2^64.) *)
Theorem bpf_trace_accounted {H HT : Type -> Type} `{BpfHash Z H} `{BpfHash tuple HT}
    (nr : string -> option Z) (hs : list (hit * tracepoint)) (t : trace_state H HT)
    (st : sysdig_bpf_settings) :
  tr_sys t = bpf_start st -> Z.of_nat (2 * length hs) < 2 ^ 64 ->
  let s := tr_sys (bpf_hits nr hs t) in
  exists os : list (Z * outcome), trace_outcomes (map fst hs) os (bpf_start st) s /\ forall cpu,
    bc_in_use (bs_cpus s cpu) = false /\
    bc_n_evts (bs_cpus s cpu) = tally is_taken cpu os /\
    bc_n_drops_buffer (bs_cpus s cpu) = tally is_full cpu os /\
    bc_n_drops_pf (bs_cpus s cpu) = tally is_fault cpu os /\
    bc_n_drops_bug (bs_cpus s cpu) = tally is_bug cpu os /\
    frames_of cpu (bs_out s) = frames_sent cpu os.
Proof.
  intros Ht Hl s. destruct (bpf_hits_outcomes nr hs t) as (os & Ho). rewrite Ht in Ho.
  exists os. split; [done|]. pose proof (trace_outcomes_length _ _ _ _ Ho) as Hlen.
  rewrite length_map in Hlen. intros cpu.
  assert (B : balanced ([] ++ os) s cpu); [|by destruct B].
  eapply trace_outcomes_balanced; [cbn [length]; lia|exact Ho|]. by intros c.
Qed.

(** C11: everything the probe sends is well formed.  In any run of the tracepoints, with
    the inline fillers of the TCP probes and of the CPU analysis among them, every frame
    in the perf buffers is the bytes of an event with exactly as many parameters as the
    event table says for its type. *)
Theorem bpf_trace_records {H HT : Type -> Type} `{BpfHash Z H} `{BpfHash tuple HT}
    (nr : string -> option Z) (hs : list (hit * tracepoint)) (t : trace_state H HT)
    (st : sysdig_bpf_settings) :
  tr_sys t = bpf_start st -> 0 <= st_snaplen st -> Forall (fun x => hit_ok (fst x)) hs ->
  Forall (fun x => exists ev : event, snd x = bytes_of_event ev /\
            Z.of_nat (length (ev_params ev)) = ei_nparams (g_event_info (ev_type ev)))
    (bs_out (tr_sys (bpf_hits nr hs t))).
Proof.
  intros Ht Hs Hok. apply bpf_hits_records; [done|]. rewrite Ht. split; [done|constructor].
Qed.

(** ** The probe is live. *)

(** The states of the whole probe: hits, and changes of the settings by libscap. *)
Inductive traced {H HT : Type -> Type} `{BpfHash Z H} `{BpfHash tuple HT} (nr : string -> option Z) :
    trace_state H HT -> Prop :=
| traced_start t st : tr_sys t = bpf_start st -> traced nr t
| traced_hit h p t : traced nr t -> traced nr (bpf_hit nr h p t)
| traced_settings st t : traced nr t -> traced nr (set_sys t (set_settings (tr_sys t) st)).

Definition all_free (s : bpf_sys) : Prop :=
  forall cpu, bc_in_use (bs_cpus s cpu) = false /\ counters_wf (bs_cpus s cpu).

Lemma hit_event_free h s s' : hit_event h s s' -> all_free s -> all_free s'.
Proof.
  intros He Hf. destruct (Hf (h_cpu h)) as [Hu Hw].
  assert (Hs : exists o, event_step (h_cpu h) o s s').
  { destruct He as [ty fl s|f ty fl s _]; [eexists; by apply call_filler_step; [exact _|..]|].
    rewrite kp_call_event. eexists. by apply kp_event_step. }
  destruct Hs as [o [Hc Hr _ Hj]]. intros cpu. destruct (decide (cpu = h_cpu h)) as [->|Hne].
  - split; [done|by eapply counts_wf].
  - destruct (Hj cpu Hne) as [-> | ->]; apply Hf.
Qed.

Lemma traced_free {H HT : Type -> Type} `{BpfHash Z H} `{BpfHash tuple HT} nr (t : trace_state H HT) :
  traced nr t -> all_free (tr_sys t).
Proof.
  induction 1 as [t st ->|h p t _ IH|st t _ IH]; [done| |done].
  pose proof (bpf_hit_events nr h p t) as Hs. induction Hs as [|n s1 s2 s3 He _ IHs]; [done|].
  apply IHs. by eapply hit_event_free.
Qed.

(** The table of all programs has the generic fillers. *)
Lemma generic_programs w t en :
  number_event t en = true -> bpf_programs w (filler_id en) = bpf_tail_map (pv_view w) (filler_id en).
Proof. intros H. unfold number_event in H. by destruct (filler_id en). Qed.

(** C12: the probe is live.  Take any state the whole probe can reach by hits of its
    tracepoints and by changes of its settings, in which the dropping mode is off, and an
    event that is not masked and whose parameters are numbers of the generic fillers, on a
    CPU without a pending hotplug event (only CPU 0 can have one).  If the kernel accepts
    the sample, then after the call the record with the values of the call is at the end
    of the perf buffer, the event is counted, and the state of the CPU is free for the
    next. *)
Theorem bpf_event_delivered {H HT : Type -> Type} `{BpfHash Z H} `{BpfHash tuple HT}
    (nr : string -> option Z) (tr : trace_state H HT) (h : hit) (as_ : mem) (t flags : Z)
    (en : ppm_event_entry) :
  let s := tr_sys tr in let e := h_env h in let cpu := h_cpu h in
  traced nr tr -> BpfOK e as_ -> (forall f, perf_event_output e f = 0) ->
  g_ppm_events t = Some en -> number_event t en = true -> 0 <= t < PPM_EVENT_MAX ->
  st_events_mask (bs_settings s) t = true -> st_dropping_mode (bs_settings s) = false ->
  0 <= st_snaplen (bs_settings s) ->
  cpu <> 0 \/ bc_hotplug (bs_cpus s cpu) = 0 ->
  let s' := tr_sys (tp_event h t flags tr) in
  bs_out s' = bs_out s ++
    [(cpu, event_bytes (u64 (st_boot_time (bs_settings s) + ktime_get_ns e)) (event_tid e) t
             (number_params t 0 (generic_values e en)))] /\
  bc_in_use (bs_cpus s' cpu) = false /\
  bc_n_evts (bs_cpus s' cpu) = u64 (bc_n_evts (bs_cpus s cpu) + 1).
Proof.
  intros s e cpu Ht He Hout Hen Hnum. apply traced_free in Ht. destruct (Ht cpu) as [Hu _].
  by apply (number_call_delivered _ (pv_view (h_view h)) s e as_ cpu t flags en);
    [|eapply generic_programs|..].
Qed.

(** C16: for native tasks the syscall probes of the two drivers agree.  While the capture
    is on, the event and the drop flags the eBPF probe hands to its filler are those the
    kernel module records for the same syscall, on entry and on exit, unless the syscall
    is [epoll_wait], which the module skips, or the multiplexer [socketcall]; a syscall
    outside the table makes no event, nor does one of a compatibility task. *)
Theorem bpf_syscalls_as_module {H HT : Type -> Type} `{BpfHash Z H} `{BpfHash tuple HT}
    (nr nr32 : string -> option Z) (h : hit) (id : Z) (t : trace_state H HT) :
  capturing t = true -> id <> default (-1) (nr "socketcall"%string) ->
  enter_event_type (get_syscall_info nr id) <> PPME_SYSCALL_EPOLLWAIT_E ->
  exit_event_type (get_syscall_info nr id) <> PPME_SYSCALL_EPOLLWAIT_X ->
  let call ty fl := call_filler (bpf_programs (h_view h)) true (h_env h) (h_cpu h) ty fl (tr_sys t) in
  tr_sys (bpf_sys_enter nr h false id t) =
    match enter_decision nr nr32 false false id with Some (ty, fl) => call ty fl | None => tr_sys t end /\
  tr_sys (bpf_sys_exit nr h false id t) =
    match exit_decision nr nr32 false false id with Some (ty, fl) => call ty fl | None => tr_sys t end /\
  tr_sys (bpf_sys_enter nr h true id t) = tr_sys t /\ tr_sys (bpf_sys_exit nr h true id t) = tr_sys t.
Proof.
  intros Hcap Hsc He Hx call.
  unfold enter_decision, exit_decision, enter_route, exit_route, probe_decision. cbn [andb native_route rt_table rt_socketcall].
  unfold bpf_sys_enter, bpf_sys_exit, bad_syscall. cbn [orb]. unfold SYSCALL_TABLE_ID0. rewrite Z.sub_0_r.
  change EventDefs.SYSCALL_TABLE_SIZE with 512. change SYSCALL_TABLE_SIZE with 512.
  rewrite (Z.ltb_antisym 0 id), (Z.ltb_antisym 512 id).
  destruct (0 <=? id), (512 <=? id); cbn [andb orb negb]; try done.
  unfold capturing, tr_settings in *. cbn [set_maps tr_sys]. rewrite Hcap. cbn [negb].
  rewrite (proj2 (Z.eqb_neq _ _) Hsc). fold SYSCALL_TABLE_ID0. fold (get_syscall_info nr id).
  rewrite (proj2 (Z.eqb_neq _ _) He), (proj2 (Z.eqb_neq _ _) Hx). unfold syscall_event.
  by destruct (has_flag _ UF_USED).
Qed.

(** ** A run: a read, a dropped segment, and the exit of the task. *)

#[export] Instance tuple_countable : Countable tuple.
Proof.
  refine (inj_countable' (fun t => (tp_sport t, tp_dport t, tp_saddr t, tp_daddr t, tp_family t, tp_pad t))
    (fun '(a, b, c, d, f, g) => mk_tuple a b c d f g) _). by intros [].
Defined.

Definition hash_of_tids : Type -> Type := bounded (K := Z).
Definition hash_of_tuples : Type -> Type := bounded (K := tuple).
#[local] Instance tid_hash : BpfHash Z hash_of_tids := bounded_hash 4.
#[local] Instance tuple_hash : BpfHash tuple hash_of_tuples := bounded_hash 4.

Definition empty_maps : cpu_maps hash_of_tids := mk_maps ∅ ∅ ∅ ∅ ∅ ∅ ∅.
Definition sample_trace : trace_state hash_of_tids hash_of_tuples :=
  mk_trace (bpf_start sample_settings) empty_maps ∅ ∅ false [].
Definition sample_hit : hit :=
  mk_hit (mem_benv sample_user [3; 4096; 10] 0 99) 2 (fun n => 5000 + Z.of_nat n) sample_pview.
Definition sample_hits : list (hit * tracepoint) :=
  [(sample_hit, TP_sys_enter false 0); (sample_hit, KP_tcp_drop);
   (sample_hit, TP_sched_process_exit false 99)].
Definition sample_traced : bpf_sys := tr_sys (bpf_hits sample_nr sample_hits sample_trace).

Lemma sample_hit_ok : hit_ok sample_hit.
Proof. split; [exact sample_areas|]. exists sample_user. by apply mem_benv_ok. Qed.

(** Three frames; the exit of a thread without a CPU record counts as an inconsistency. *)
Lemma sample_traced_counts :
  bc_n_evts (bs_cpus sample_traced 2) = 4 /\ bc_n_drops_bug (bs_cpus sample_traced 2) = 1 /\
  length (bs_out sample_traced) = 3%nat.
Proof. vm_compute. repeat split. Qed.

Lemma bpf_trace_accounted_witness :
  exists os : list (Z * outcome),
    trace_outcomes [sample_hit; sample_hit; sample_hit] os (bpf_start sample_settings) sample_traced /\
    tally is_taken 2 os = 4 /\
    tally is_bug 2 os = 1 /\ bc_in_use (bs_cpus sample_traced 2) = false.
Proof.
  destruct (bpf_trace_accounted sample_nr sample_hits sample_trace sample_settings eq_refl
              ltac:(vm_compute; reflexivity)) as (os & Hl & Hb).
  exists os. split; [exact Hl|]. destruct (Hb 2) as (H1 & H2 & _ & _ & H5 & _).
  destruct sample_traced_counts as (C1 & C2 & _).
  split; [rewrite <- C1; symmetry; exact H2|]. split; [rewrite <- C2; symmetry; exact H5|exact H1].
Defined.

(** close(3) on CPU 2 after the three hits. *)
Definition close_hit : hit :=
  mk_hit (mem_benv sample_user [3] 0 99) 2 (fun n => 5000 + Z.of_nat n) sample_pview.

Definition traced_state : trace_state hash_of_tids hash_of_tuples :=
  bpf_hits sample_nr sample_hits sample_trace.

Lemma traced_settings_same : bs_settings (tr_sys traced_state) = sample_settings.
Proof. vm_compute. reflexivity. Qed.

Lemma bpf_event_delivered_witness :
  bs_out (tr_sys (tp_event close_hit PPME_SYSCALL_CLOSE_E UF_USED traced_state))
  = bs_out (tr_sys traced_state) ++ [(2, event_bytes 6000 99 PPME_SYSCALL_CLOSE_E [le_bytes 8 3])].
Proof.
  assert (Ht : traced sample_nr traced_state)
    by (do 3 apply traced_hit; by eapply traced_start).
  assert (Hen : g_ppm_events PPME_SYSCALL_CLOSE_E = Some (mk_entry F_sys_single 0 APT_REG []))
    by (vm_compute; reflexivity).
  assert (Hnum : number_event PPME_SYSCALL_CLOSE_E (mk_entry F_sys_single 0 APT_REG []) = true)
    by (vm_compute; reflexivity).
  assert (He : BpfOK (h_env close_hit) sample_user) by by apply mem_benv_ok.
  assert (Hf : event_bytes (u64 (st_boot_time sample_settings + ktime_get_ns (h_env close_hit)))
      (event_tid (h_env close_hit)) PPME_SYSCALL_CLOSE_E
      (number_params PPME_SYSCALL_CLOSE_E 0 (generic_values (h_env close_hit) (mk_entry F_sys_single 0 APT_REG [])))
    = event_bytes 6000 99 PPME_SYSCALL_CLOSE_E [le_bytes 8 3]) by (vm_compute; reflexivity).
  pose proof (bpf_event_delivered sample_nr traced_state close_hit
    sample_user PPME_SYSCALL_CLOSE_E UF_USED (mk_entry F_sys_single 0 APT_REG []) Ht He
    (fun _ => eq_refl) Hen Hnum ltac:(vm_compute; split; congruence)) as H.
  rewrite traced_settings_same, Hf in H. clear Ht. revert H. generalize traced_state. intros t H.
  exact (proj1 (H eq_refl eq_refl ltac:(simpl; lia) ltac:(left; cbn; lia))).
Defined.

Lemma bpf_trace_records_witness :
  length (bs_out sample_traced) = 3%nat /\
  Forall (fun x => exists ev : event, snd x = bytes_of_event ev /\
            Z.of_nat (length (ev_params ev)) = ei_nparams (g_event_info (ev_type ev)))
    (bs_out sample_traced).
Proof.
  split; [exact (proj2 (proj2 sample_traced_counts))|].
  assert (Hok : Forall (fun x : hit * tracepoint => hit_ok (fst x)) sample_hits)
    by (repeat apply List.Forall_cons; [exact sample_hit_ok..|apply List.Forall_nil]).
  pose proof (bpf_trace_records sample_nr sample_hits sample_trace sample_settings eq_refl
                ltac:(simpl; lia) Hok) as Hr.
  unfold sample_traced. exact Hr.
Defined.

Lemma bpf_syscalls_as_module_witness :
  tr_sys (bpf_sys_enter sample_nr sample_hit false 0 sample_trace) =
  call_filler (bpf_programs sample_pview) true (h_env sample_hit) 2 PPME_SYSCALL_READ_E UF_USED
    (bpf_start sample_settings).
Proof.
  destruct (bpf_syscalls_as_module sample_nr sample_nr sample_hit 0 sample_trace) as (H1 & _).
  - reflexivity.
  - vm_compute. discriminate.
  - vm_compute. discriminate.
  - vm_compute. discriminate.
  - rewrite H1.
    assert (Hd : enter_decision sample_nr sample_nr false false 0 = Some (PPME_SYSCALL_READ_E, UF_USED))
      by (vm_compute; reflexivity).
    rewrite Hd. reflexivity.
Defined.
