(* ===== verification/BpfControl.v ===== *)
(** * Controlling the eBPF driver: [libscap/scap_bpf.c]

    libscap controls the eBPF probe through the only entry of [settings_map]: it reads
    the entry with one system call, changes a copy and writes it back with another.
    Every control operation of the file is here, with the statistics it reads from the
    states of the CPUs and the table of loaded programs that can be switched on and off
    one by one.  What bpf(2) answers is an argument. *)

From Stdlib Require Import ZArith Lia List Bool String.
From Stdlib Require Import Strings.Byte.
From stdpp Require Import base tactics list numbers option strings.
From S2P Require Import Prelude Bytes EventDefs EventTable ValToRing Ring Reader Consumers.
From S2P Require Import BpfRing BpfProbe PerfReader.
Import ListNotations.
Local Open Scope Z_scope.

(** ** The settings. *)

(** The entry of [settings_map]: the settings the probe reads for every event, and the
    two fields of the capture of packets. *)
Record settings_value : Type := mk_sv {
  sv_settings : sysdig_bpf_settings;
  sv_skb_capture : bool;
  sv_if_name : list byte }.

(** What bpf(2) answers to a lookup and an update, and whether [socket] gives the
    calibration a descriptor. *)
Record map_env : Type := mk_menv {
  me_lookup : Z;
  me_update : Z;
  me_socket : Z }.

Definition on_settings (f : sysdig_bpf_settings -> sysdig_bpf_settings) (s : settings_value) :
    settings_value := mk_sv (f (sv_settings s)) (sv_skb_capture s) (sv_if_name s).

(** The lookup, the change of the copy and the update, which all operations share. *)
Definition edit_settings (e : map_env) (edit : settings_value -> settings_value)
    (s : settings_value) : settings_value * Z :=
  if negb (me_lookup e =? 0) then (s, SCAP_FAILURE)
  else if negb (me_update e =? 0) then (s, SCAP_FAILURE)
  else (edit s, SCAP_SUCCESS).

Definition set_capture_enabled (b : bool) (st : sysdig_bpf_settings) : sysdig_bpf_settings :=
  mk_settings (st_boot_time st) (st_socket_file_ops st) (st_snaplen st) (st_sampling_ratio st) b
    (st_do_dynamic_snaplen st) (st_page_faults st) (st_dropping_mode st) (st_is_dropping st)
    (st_tracers_enabled st) (st_fullcapture_port_range_start st) (st_fullcapture_port_range_end st)
    (st_statsd_port st) (st_switch_agg_num st) (st_events_mask st).
Definition set_snaplen (n : Z) (st : sysdig_bpf_settings) : sysdig_bpf_settings :=
  mk_settings (st_boot_time st) (st_socket_file_ops st) n (st_sampling_ratio st)
    (st_capture_enabled st) (st_do_dynamic_snaplen st) (st_page_faults st) (st_dropping_mode st)
    (st_is_dropping st) (st_tracers_enabled st) (st_fullcapture_port_range_start st)
    (st_fullcapture_port_range_end st) (st_statsd_port st) (st_switch_agg_num st) (st_events_mask st).
Definition set_ports (a b : Z) (st : sysdig_bpf_settings) : sysdig_bpf_settings :=
  mk_settings (st_boot_time st) (st_socket_file_ops st) (st_snaplen st) (st_sampling_ratio st)
    (st_capture_enabled st) (st_do_dynamic_snaplen st) (st_page_faults st) (st_dropping_mode st)
    (st_is_dropping st) (st_tracers_enabled st) a b (st_statsd_port st) (st_switch_agg_num st)
    (st_events_mask st).
Definition set_statsd (p : Z) (st : sysdig_bpf_settings) : sysdig_bpf_settings :=
  mk_settings (st_boot_time st) (st_socket_file_ops st) (st_snaplen st) (st_sampling_ratio st)
    (st_capture_enabled st) (st_do_dynamic_snaplen st) (st_page_faults st) (st_dropping_mode st)
    (st_is_dropping st) (st_tracers_enabled st) (st_fullcapture_port_range_start st)
    (st_fullcapture_port_range_end st) p (st_switch_agg_num st) (st_events_mask st).
Definition set_dynamic (b : bool) (st : sysdig_bpf_settings) : sysdig_bpf_settings :=
  mk_settings (st_boot_time st) (st_socket_file_ops st) (st_snaplen st) (st_sampling_ratio st)
    (st_capture_enabled st) b (st_page_faults st) (st_dropping_mode st) (st_is_dropping st)
    (st_tracers_enabled st) (st_fullcapture_port_range_start st) (st_fullcapture_port_range_end st)
    (st_statsd_port st) (st_switch_agg_num st) (st_events_mask st).
Definition set_sampling (ratio : Z) (mode : bool) (st : sysdig_bpf_settings) : sysdig_bpf_settings :=
  mk_settings (st_boot_time st) (st_socket_file_ops st) (st_snaplen st) ratio (st_capture_enabled st)
    (st_do_dynamic_snaplen st) (st_page_faults st) mode (st_is_dropping st) (st_tracers_enabled st)
    (st_fullcapture_port_range_start st) (st_fullcapture_port_range_end st) (st_statsd_port st)
    (st_switch_agg_num st) (st_events_mask st).
Definition set_page_faults (st : sysdig_bpf_settings) : sysdig_bpf_settings :=
  mk_settings (st_boot_time st) (st_socket_file_ops st) (st_snaplen st) (st_sampling_ratio st)
    (st_capture_enabled st) (st_do_dynamic_snaplen st) true (st_dropping_mode st) (st_is_dropping st)
    (st_tracers_enabled st) (st_fullcapture_port_range_start st) (st_fullcapture_port_range_end st)
    (st_statsd_port st) (st_switch_agg_num st) (st_events_mask st).
Definition set_tracers (st : sysdig_bpf_settings) : sysdig_bpf_settings :=
  mk_settings (st_boot_time st) (st_socket_file_ops st) (st_snaplen st) (st_sampling_ratio st)
    (st_capture_enabled st) (st_do_dynamic_snaplen st) (st_page_faults st) (st_dropping_mode st)
    (st_is_dropping st) true (st_fullcapture_port_range_start st) (st_fullcapture_port_range_end st)
    (st_statsd_port st) (st_switch_agg_num st) (st_events_mask st).
Definition set_events_mask (m : Z -> bool) (st : sysdig_bpf_settings) : sysdig_bpf_settings :=
  mk_settings (st_boot_time st) (st_socket_file_ops st) (st_snaplen st) (st_sampling_ratio st)
    (st_capture_enabled st) (st_do_dynamic_snaplen st) (st_page_faults st) (st_dropping_mode st)
    (st_is_dropping st) (st_tracers_enabled st) (st_fullcapture_port_range_start st)
    (st_fullcapture_port_range_end st) (st_statsd_port st) (st_switch_agg_num st) m.

(** ** The operations. *)

(** [calibrate_socket_file_ops]: the probe sees the system call. *)
Definition calibrate_socket_file_ops (e : map_env) : Z :=
  if me_socket e =? -1 then SCAP_FAILURE else SCAP_SUCCESS.

Definition scap_bpf_start_capture (e : map_env) (s : settings_value) : settings_value * Z :=
  let '(s, res) := edit_settings e (on_settings (set_capture_enabled true)) s in
  if negb (res =? SCAP_SUCCESS) then (s, res)
  else if negb (calibrate_socket_file_ops e =? SCAP_SUCCESS) then (s, SCAP_FAILURE)
  else (s, SCAP_SUCCESS).

Definition scap_bpf_stop_capture (e : map_env) (s : settings_value) : settings_value * Z :=
  edit_settings e (on_settings (set_capture_enabled false)) s.

Definition scap_bpf_set_snaplen (e : map_env) (n : Z) (s : settings_value) : settings_value * Z :=
  if RW_MAX_SNAPLEN <? n then (s, SCAP_FAILURE) else edit_settings e (on_settings (set_snaplen n)) s.

Definition scap_bpf_set_fullcapture_port_range (e : map_env) (range_start range_end : Z)
    (s : settings_value) : settings_value * Z :=
  edit_settings e (on_settings (set_ports range_start range_end)) s.

Definition scap_bpf_set_statsd_port (e : map_env) (port : Z) (s : settings_value) : settings_value * Z :=
  edit_settings e (on_settings (set_statsd port)) s.

Definition scap_bpf_disable_dynamic_snaplen (e : map_env) (s : settings_value) : settings_value * Z :=
  edit_settings e (on_settings (set_dynamic false)) s.

Definition scap_bpf_enable_dynamic_snaplen (e : map_env) (s : settings_value) : settings_value * Z :=
  edit_settings e (on_settings (set_dynamic true)) s.

Definition scap_bpf_start_dropping_mode (e : map_env) (ratio : Z) (s : settings_value) :
    settings_value * Z :=
  if negb (valid_sampling_ratio ratio) then (s, SCAP_FAILURE)
  else edit_settings e (on_settings (set_sampling ratio true)) s.

Definition scap_bpf_stop_dropping_mode (e : map_env) (s : settings_value) : settings_value * Z :=
  edit_settings e (on_settings (set_sampling 1 false)) s.

Definition scap_bpf_enable_page_faults (e : map_env) (s : settings_value) : settings_value * Z :=
  edit_settings e (on_settings set_page_faults) s.

Definition scap_bpf_enable_tracers_capture (e : map_env) (s : settings_value) : settings_value * Z :=
  edit_settings e (on_settings set_tracers) s.

(** [if_name] is what is in memory from the name on: sixteen bytes are copied. *)
Definition scap_bpf_enable_skb_capture (e : map_env) (if_name : list byte) (s : settings_value) :
    settings_value * Z :=
  edit_settings e (fun s => mk_sv (sv_settings s) true (take 16 if_name)) s.

Definition scap_bpf_disable_skb_capture (e : map_env) (s : settings_value) : settings_value * Z :=
  edit_settings e (fun s => mk_sv (sv_settings s) false (replicate 16 x00)) s.

(** The loop that leaves the events that change state alone. *)
Definition mask_zero (m : Z -> bool) : Z -> bool :=
  foldl (fun m j => if modifies_state j then m else clear_bit j m) m (seqZ 0 PPM_EVENT_MAX).

Definition mask_edit (op event_id : Z) (m : Z -> bool) : Z -> bool :=
  if op =? PPM_IOCTL_MASK_ZERO_EVENTS then mask_zero m
  else if op =? PPM_IOCTL_MASK_SET_EVENT then set_bit event_id m
  else if op =? PPM_IOCTL_MASK_UNSET_EVENT then
    if modifies_state event_id then m else clear_bit event_id m
  else m.

Definition scap_bpf_handle_eventmask (e : map_env) (op event_id : Z) (s : settings_value) :
    settings_value * Z :=
  if (PPM_EVENT_MAX <=? event_id) || (event_id <? 0) then (s, SCAP_FAILURE)
  else edit_settings e
    (on_settings (fun st => set_events_mask (mask_edit op event_id (st_events_mask st)) st)) s.

(** ** The start. *)

(** The clocks [set_boot_time] reads, seconds and parts of a second; [None] is a call
    that fails. *)
Record boot_env : Type := mk_boot {
  be_gettimeofday : option (Z * Z);
  be_clock_gettime : option (Z * Z);
  be_switch_agg_num : option Z;
  be_update : Z }.

Definition set_boot_time (e : boot_env) : option Z :=
  '(sec, usec) ← be_gettimeofday e;
  let now := u64 (u64 (sec * 1000000000) + usec * 1000) in
  '(up_sec, up_nsec) ← be_clock_gettime e;
  let uptime := u64 (u64 (up_sec * 1000000000) + up_nsec) in
  Some (u64 (now - uptime)).

(** [set_default_settings]: the new entry of the map, which had [s]; [be_switch_agg_num]
    is what [atoi] makes of the variable of the environment when it is set. *)
Definition set_default_settings (e : boot_env) (s : settings_value) : settings_value * Z :=
  match set_boot_time e with
  | None => (s, SCAP_FAILURE)
  | Some boot =>
      let agg := match be_switch_agg_num e with Some n => u16 n | None => 16 end in
      let st := mk_settings boot 0 RW_SNAPLEN 1 false false false false false false 0 0 8125 agg
                  (fun t => (0 <=? t) && (t <? PPM_EVENT_MAX)) in
      if negb (be_update e =? 0) then (s, SCAP_FAILURE)
      else (mk_sv st false (replicate 16 x00), SCAP_SUCCESS)
  end.

(** ** The statistics. *)

(** What a lookup of [local_state_map] answers for a CPU. *)
Definition add_cpu_stats (lost : Z) (v : bpf_cpu) (s : scap_stats) : scap_stats :=
  mk_stats (u64 (st_n_evts s + bc_n_evts v))
    (u64 (st_n_drops s + u64 (lost + bc_n_drops_buffer v + bc_n_drops_pf v + bc_n_drops_bug v)))
    (u64 (st_n_drops_buffer s + u64 (lost + bc_n_drops_buffer v)))
    (u64 (st_n_drops_pf s + bc_n_drops_pf v))
    (u64 (st_n_drops_bug s + bc_n_drops_bug v))
    (st_n_preemptions s) (st_n_suppressed s) (st_n_tids_suppressed s).

(** The loop over [n] CPUs from [j] on; a device index behind the array is undefined. *)
Fixpoint bpf_stats_loop (lookup : Z -> option bpf_cpu) (devs : list perf_device) (n : nat) (j : Z)
    (s : scap_stats) : option (scap_stats * Z) :=
  match n with
  | O => Some (s, SCAP_SUCCESS)
  | S n' =>
      match lookup j with
      | None => Some (s, SCAP_FAILURE)
      | Some v =>
          d ← devs !! Z.to_nat j;
          bpf_stats_loop lookup devs n' (j + 1) (add_cpu_stats (m_evt_lost d) v s)
      end
  end.

Definition scap_bpf_get_stats (lookup : Z -> option bpf_cpu) (devs : list perf_device) (m_ncpus : nat)
    (s : scap_stats) : option (scap_stats * Z) :=
  bpf_stats_loop lookup devs m_ncpus 0 s.

Fixpoint n_tracepoint_hit_loop (lookup : Z -> option bpf_cpu) (n : nat) (j : Z) : list Z * Z :=
  match n with
  | O => ([], SCAP_SUCCESS)
  | S n' =>
      match lookup j with
      | None => ([], SCAP_FAILURE)
      | Some v => let '(l, r) := n_tracepoint_hit_loop lookup n' (j + 1) in (s64 (bc_n_evts v) :: l, r)
      end
  end.

(** [scap_bpf_get_n_tracepoint_hit]: what it writes through [ret]. *)
Definition scap_bpf_get_n_tracepoint_hit (lookup : Z -> option bpf_cpu) (m_ncpus : nat) : list Z * Z :=
  n_tracepoint_hit_loop lookup m_ncpus 0.
