(* ===== verification/LiveControl.v ===== *)
(** * The control operations of libscap: [libscap/scap.c]

    The operations an application calls on a live handle.  With the eBPF driver they
    change the entry of [settings_map] ([BpfControl]); with the kernel module they are
    ioctls on the first device ([ppm_ioctl]), some followed by a flush of the read
    buffers.  Handles of udig are not modelled. *)

From Stdlib Require Import ZArith Lia List Bool.
From Stdlib Require Import Strings.Byte.
From stdpp Require Import base tactics list numbers option gmap.
From S2P Require Import Prelude Bytes EventDefs EventTable FillerTable ValToRing ValToRingSpec Fillers Ring Reader.
From S2P Require Import Consumers BpfRing BpfControl.
Import ListNotations.
Local Open Scope Z_scope.

(** [scap_mode_t] *)
Inductive scap_mode_t : Set := SCAP_MODE_NONE | SCAP_MODE_CAPTURE | SCAP_MODE_LIVE | SCAP_MODE_NODRIVER.

Definition is_live (m : scap_mode_t) : bool :=
  match m with SCAP_MODE_LIVE => true | _ => false end.

(** The handle: what the operations read of it, and the state of its driver.  A device of
    the module has its file and its read buffer. *)
Inductive live_driver : Type :=
| on_bpf (ndevs : nat) (s : settings_value)
| on_module (fds : list (Z * nat)) (devs : list scap_device) (d : driver).

Record scap_t : Type := mk_scap {
  m_mode : scap_mode_t;
  m_driver : live_driver }.

(** What the kernel answers, and the fillers of the module, which record an event when
    the dropping mode ends. *)
Record ctl_env : Type := mk_cenv {
  ce_map : map_env;
  ce_fillers : ppm_filler_id -> filler;
  ce_ioctl : ioctl_env }.

Definition ioctl_arg (e : ioctl_env) (arg : Z) : ioctl_env :=
  mk_ioctl_env (ie_event e) arg (ie_proclist e) (ie_vmalloc e) (ie_copy_to_user e) (ie_tasks e)
    (ie_put e) (ie_vids e) (ie_tid e) (ie_tgid e) (ie_register e) (ie_stale e).

Section control.
Context (e : ctl_env).

(** [ioctl] on the file of a device. *)
Definition ioctl (f : Z * nat) (cmd arg : Z) (d : driver) : option (driver * Z) :=
  '(d', ret, _) ← ppm_ioctl (ce_fillers e) f cmd (ioctl_arg (ce_ioctl e) arg) d;
  Some (d', ret).

(** The flush of the read buffers that follows some ioctls. *)
Definition flush_dev (d : scap_device) : scap_device :=
  let d' := scap_readbuf d in
  mk_device (m_bufinfo d') (m_buffer d') (m_lastreadsize d') (m_sn_next_event d') 0.
Definition flush_devs (ds : list scap_device) : list scap_device := map flush_dev ds.

Definition bpf_result (h : scap_t) (ndevs : nat) (r : settings_value * Z) : option (scap_t * Z) :=
  Some (mk_scap (m_mode h) (on_bpf ndevs (fst r)), snd r).

(** An ioctl on the first device; a handle without devices reads behind the array. *)
Definition first_ioctl (h : scap_t) (fds : list (Z * nat)) (devs : list scap_device) (d : driver)
    (cmd arg : Z) (flush : bool) : option (scap_t * Z) :=
  f ← fds !! O;
  '(d', ret) ← ioctl f cmd arg d;
  if negb (ret =? 0) then Some (mk_scap (m_mode h) (on_module fds devs d'), SCAP_FAILURE)
  else Some (mk_scap (m_mode h) (on_module fds (if flush then flush_devs devs else devs) d'), SCAP_SUCCESS).

(** The same when the code first asks whether there are devices. *)
Definition checked_ioctl (h : scap_t) (fds : list (Z * nat)) (devs : list scap_device) (d : driver)
    (cmd arg : Z) : option (scap_t * Z) :=
  match fds with [] => Some (h, SCAP_SUCCESS) | _ => first_ioctl h fds devs d cmd arg false end.

(** The loop over the devices in [scap_stop_capture] and [scap_start_capture]. *)
Fixpoint each_ioctl (fds : list (Z * nat)) (cmd : Z) (d : driver) : option (driver * Z) :=
  match fds with
  | [] => Some (d, SCAP_SUCCESS)
  | f :: fds' =>
      '(d', ret) ← ioctl f cmd 0 d;
      if negb (ret =? 0) then Some (d', SCAP_FAILURE) else each_ioctl fds' cmd d'
  end.

Definition scap_stop_capture (h : scap_t) : option (scap_t * Z) :=
  if negb (is_live (m_mode h)) then Some (h, SCAP_FAILURE)
  else match m_driver h with
       | on_bpf O s => Some (h, SCAP_SUCCESS)
       | on_bpf n s => bpf_result h n (scap_bpf_stop_capture (ce_map e) s)
       | on_module fds devs d =>
           '(d', res) ← each_ioctl fds PPM_IOCTL_DISABLE_CAPTURE d;
           Some (mk_scap (m_mode h) (on_module fds devs d'), res)
       end.

Definition scap_start_capture (h : scap_t) : option (scap_t * Z) :=
  if negb (is_live (m_mode h)) then Some (h, SCAP_FAILURE)
  else match m_driver h with
       | on_bpf n s => bpf_result h n (scap_bpf_start_capture (ce_map e) s)
       | on_module fds devs d =>
           '(d', res) ← each_ioctl fds PPM_IOCTL_ENABLE_CAPTURE d;
           Some (mk_scap (m_mode h) (on_module fds devs d'), res)
       end.

Definition scap_set_dropping_mode (h : scap_t) (fds : list (Z * nat)) (devs : list scap_device)
    (d : driver) (request sampling_ratio : Z) : option (scap_t * Z) :=
  if negb (is_live (m_mode h)) then Some (h, SCAP_FAILURE)
  else checked_ioctl h fds devs d request sampling_ratio.

Definition scap_enable_tracers_capture (h : scap_t) : option (scap_t * Z) :=
  if negb (is_live (m_mode h)) then Some (h, SCAP_FAILURE)
  else match m_driver h with
       | on_bpf O s => Some (h, SCAP_SUCCESS)
       | on_bpf n s => bpf_result h n (scap_bpf_enable_tracers_capture (ce_map e) s)
       | on_module fds devs d => checked_ioctl h fds devs d PPM_IOCTL_SET_TRACERS_CAPTURE 0
       end.

Definition scap_enable_page_faults (h : scap_t) : option (scap_t * Z) :=
  if negb (is_live (m_mode h)) then Some (h, SCAP_FAILURE)
  else match m_driver h with
       | on_bpf O s => Some (h, SCAP_SUCCESS)
       | on_bpf n s => bpf_result h n (scap_bpf_enable_page_faults (ce_map e) s)
       | on_module fds devs d => checked_ioctl h fds devs d PPM_IOCTL_ENABLE_PAGE_FAULTS 0
       end.

Definition scap_stop_dropping_mode (h : scap_t) : option (scap_t * Z) :=
  match m_driver h with
  | on_bpf n s => bpf_result h n (scap_bpf_stop_dropping_mode (ce_map e) s)
  | on_module fds devs d => scap_set_dropping_mode h fds devs d PPM_IOCTL_DISABLE_DROPPING_MODE 0
  end.

Definition scap_start_dropping_mode (h : scap_t) (sampling_ratio : Z) : option (scap_t * Z) :=
  match m_driver h with
  | on_bpf n s => bpf_result h n (scap_bpf_start_dropping_mode (ce_map e) sampling_ratio s)
  | on_module fds devs d =>
      scap_set_dropping_mode h fds devs d PPM_IOCTL_ENABLE_DROPPING_MODE sampling_ratio
  end.

Definition scap_set_snaplen (h : scap_t) (n : Z) : option (scap_t * Z) :=
  if negb (is_live (m_mode h)) then Some (h, SCAP_FAILURE)
  else match m_driver h with
       | on_bpf k s => bpf_result h k (scap_bpf_set_snaplen (ce_map e) n s)
       | on_module fds devs d => first_ioctl h fds devs d PPM_IOCTL_SET_SNAPLEN n true
       end.

Definition scap_handle_eventmask (h : scap_t) (op event_id : Z) : option (scap_t * Z) :=
  if negb (is_live (m_mode h)) then Some (h, SCAP_FAILURE)
  else if negb ((op =? PPM_IOCTL_MASK_ZERO_EVENTS) || (op =? PPM_IOCTL_MASK_SET_EVENT)
                || (op =? PPM_IOCTL_MASK_UNSET_EVENT)) then Some (h, SCAP_FAILURE)
  else match m_driver h with
       | on_bpf n s => bpf_result h n (scap_bpf_handle_eventmask (ce_map e) op event_id s)
       | on_module fds devs d => first_ioctl h fds devs d op event_id true
       end.

Definition scap_clear_eventmask (h : scap_t) : option (scap_t * Z) :=
  scap_handle_eventmask h PPM_IOCTL_MASK_ZERO_EVENTS 0.
Definition scap_set_eventmask (h : scap_t) (event_id : Z) : option (scap_t * Z) :=
  scap_handle_eventmask h PPM_IOCTL_MASK_SET_EVENT event_id.
Definition scap_unset_eventmask (h : scap_t) (event_id : Z) : option (scap_t * Z) :=
  scap_handle_eventmask h PPM_IOCTL_MASK_UNSET_EVENT event_id.

Definition scap_enable_dynamic_snaplen (h : scap_t) : option (scap_t * Z) :=
  if negb (is_live (m_mode h)) then Some (h, SCAP_FAILURE)
  else match m_driver h with
       | on_bpf n s => bpf_result h n (scap_bpf_enable_dynamic_snaplen (ce_map e) s)
       | on_module fds devs d => first_ioctl h fds devs d PPM_IOCTL_ENABLE_DYNAMIC_SNAPLEN 0 false
       end.

Definition scap_disable_dynamic_snaplen (h : scap_t) : option (scap_t * Z) :=
  if negb (is_live (m_mode h)) then Some (h, SCAP_FAILURE)
  else match m_driver h with
       | on_bpf n s => bpf_result h n (scap_bpf_disable_dynamic_snaplen (ce_map e) s)
       | on_module fds devs d => first_ioctl h fds devs d PPM_IOCTL_DISABLE_DYNAMIC_SNAPLEN 0 false
       end.

Definition scap_enable_simpledriver_mode (h : scap_t) : option (scap_t * Z) :=
  if negb (is_live (m_mode h)) then Some (h, SCAP_FAILURE)
  else match m_driver h with
       | on_bpf n s => Some (h, SCAP_FAILURE)
       | on_module fds devs d => first_ioctl h fds devs d PPM_IOCTL_SET_SIMPLE_MODE 0 false
       end.

(** The port range travels to the module in one word; the shift is done on an [int]. *)
Definition scap_set_fullcapture_port_range (h : scap_t) (range_start range_end : Z) :
    option (scap_t * Z) :=
  if negb (is_live (m_mode h)) then Some (h, SCAP_FAILURE)
  else match m_driver h with
       | on_bpf n s =>
           bpf_result h n (scap_bpf_set_fullcapture_port_range (ce_map e) range_start range_end s)
       | on_module fds devs d =>
           let arg := u32 (u32 (Z.shiftl range_end 16) + range_start) in
           first_ioctl h fds devs d PPM_IOCTL_SET_FULLCAPTURE_PORT_RANGE arg true
       end.

Definition scap_set_statsd_port (h : scap_t) (port : Z) : option (scap_t * Z) :=
  if negb (is_live (m_mode h)) then Some (h, SCAP_FAILURE)
  else match m_driver h with
       | on_bpf n s => bpf_result h n (scap_bpf_set_statsd_port (ce_map e) port s)
       | on_module fds devs d => first_ioctl h fds devs d PPM_IOCTL_SET_STATSD_PORT port true
       end.

(** [name] is the memory from the value of the environment variable on, when it is set;
    [lo_literal] the memory from the literal ["lo"] on. *)
Definition scap_enable_skb_capture (lo_literal : list byte) (name : option (list byte)) (h : scap_t) :
    option (scap_t * Z) :=
  if negb (is_live (m_mode h)) then Some (h, SCAP_FAILURE)
  else match m_driver h with
       | on_bpf n s =>
           bpf_result h n (scap_bpf_enable_skb_capture (ce_map e) (default lo_literal name) s)
       | on_module _ _ _ => Some (h, SCAP_FAILURE)
       end.

Definition scap_disable_skb_capture (h : scap_t) : option (scap_t * Z) :=
  if negb (is_live (m_mode h)) then Some (h, SCAP_FAILURE)
  else match m_driver h with
       | on_bpf n s => bpf_result h n (scap_bpf_disable_skb_capture (ce_map e) s)
       | on_module _ _ _ => Some (h, SCAP_FAILURE)
       end.
End control.
