(* ===== verification/LiveControlSpec.v ===== *)
(** * The two drivers are controlled alike

    [agree] relates a handle of the eBPF driver and a handle of the kernel module whose
    drivers have the same settings: the snaplen and its ports, the sampling, the events
    mask, the tracers, the page faults and the capture.  Every control operation keeps
    the relation and gives the same result on both. *)

From Stdlib Require Import ZArith Lia List Bool.
From Stdlib Require Import Strings.Byte.
From stdpp Require Import base tactics list numbers option gmap.
From S2P Require Import Prelude Bytes EventDefs EventTable FillerTable ValToRing ValToRingSpec Fillers Ring Reader.
From S2P Require Import Consumers ConsumersSpec BpfRing BpfProbe PerfReader BpfControl LiveControl.
Import ListNotations.
Local Open Scope Z_scope.

(** ** The same settings. *)

(** The markers of dropped events have no place in the relation: clearing the mask keeps
    them in the module only. *)
Record same_settings (st : sysdig_bpf_settings) (c : ppm_consumer) (g : globals) : Prop := {
  ss_cfg : cs_cfg c = mk_cfg (st_snaplen st) (st_do_dynamic_snaplen st)
    (st_fullcapture_port_range_start st) (st_fullcapture_port_range_end st) (st_statsd_port st);
  ss_mode : dropping_mode c = if st_dropping_mode st then 1 else 0;
  ss_ratio : sampling_ratio c = st_sampling_ratio st;
  ss_interval : st_dropping_mode st = true -> sampling_interval c = 1000000000 / st_sampling_ratio st;
  ss_mask : forall t, 0 <= t < PPM_EVENT_MAX -> t <> PPME_DROP_E -> t <> PPME_DROP_X ->
    g_events_mask g t = st_events_mask st t;
  ss_state : forall t, 0 <= t < PPM_EVENT_MAX -> modifies_state t = true -> st_events_mask st t = true;
  ss_tracers : g_tracers g = st_tracers_enabled st;
  ss_faults : g_fault_tracepoint_registered g = st_page_faults st }.

(** Whether the capture is on in the ring of a CPU. *)
Definition ring_flag (c : ppm_consumer_t) (n : nat) : option bool :=
  r ← ring_buffers c !! n; Some (capture_enabled (ctx r)).

Definition rings_ready (cpus : list nat) (c : ppm_consumer_t) : Prop :=
  forall k, k ∈ cpus -> exists r, ring_buffers c !! k = Some r /\ ring_ready r = true.

(** The files of the module's handle belong to one consumer, whose rings on
    the CPUs the operations run on can be written. *)
Record module_ok (cpus : list nat) (fds : list (Z * nat)) (d : driver) (a : Z) (c : ppm_consumer_t) : Prop := {
  mo_files : fds <> [];
  mo_find : forall f, f ∈ fds -> ppm_find_consumer d f.1 = Some (Some a);
  mo_heap : heap d !! a = Some c;
  mo_faults : g_fault_tracepoint_disabled (glob d) = false;
  mo_cpu : rings_ready cpus c }.

Inductive agree (cpus : list nat) : scap_t -> scap_t -> Prop :=
| agree_intro n s fds devs d a c :
    module_ok cpus fds d a c -> same_settings (sv_settings s) (settings c) (glob d) ->
    (forall f, f ∈ fds -> ring_flag c f.2 = Some (st_capture_enabled (sv_settings s))) ->
    agree cpus (mk_scap SCAP_MODE_LIVE (on_bpf (S n) s)) (mk_scap SCAP_MODE_LIVE (on_module fds devs d)).

(** ** Finding the consumer again. *)

Lemma find_insert h cid a c c' l :
  h !! a = Some c -> consumer_id c' = consumer_id c ->
  find_consumer_in (<[a := c']> h) cid l = find_consumer_in h cid l.
Proof.
  intros Ha Hid. induction l as [|b l IH]; [done|]. cbn [find_consumer_in].
  destruct (decide (a = b)) as [<-|Hne].
  - rewrite lookup_insert_eq, Ha. cbn [mbind option_bind]. by rewrite Hid, IH.
  - rewrite lookup_insert_ne by done. destruct (h !! b); [|done]. cbn [mbind option_bind]. by rewrite IH.
Qed.

Lemma module_set_consumer cpus fds d a c c' :
  module_ok cpus fds d a c -> consumer_id c' = consumer_id c ->
  rings_ready cpus c' ->
  module_ok cpus fds (set_consumer d a c') a c'.
Proof.
  intros [H1 H2 H3 H4 H5] Hid Hc. split; [done| | |done|done].
  - intros f Hf. rewrite <- (H2 f Hf). unfold ppm_find_consumer, set_consumer. cbn [heap g_consumer_list].
    by eapply find_insert.
  - apply lookup_insert_eq.
Qed.

Lemma module_set_glob cpus fds d a c g :
  module_ok cpus fds d a c -> g_fault_tracepoint_disabled g = false -> module_ok cpus fds (set_glob d g) a c.
Proof. intros [H1 H2 H3 H4 H5] Hg. by split. Qed.

Lemma rings_ready_insert cpus c c' n r r' :
  rings_ready cpus c -> ring_buffers c !! n = Some r -> ring_buffers c' = <[n := r']> (ring_buffers c) ->
  ring_ready r' = ring_ready r -> rings_ready cpus c'.
Proof.
  intros Hc Hn Hb Hr k Hk. destruct (Hc k Hk) as (r0 & Hr0 & Hready). rewrite Hb.
  destruct (decide (n = k)) as [<-|Hne].
  - rewrite list_lookup_insert_eq by (by eapply lookup_lt_Some). exists r'. split; [done|].
    rewrite Hr. congruence.
  - rewrite list_lookup_insert_ne by done. eauto.
Qed.

(** ** The ioctls of the module. *)

(** Commands that need the consumer, and no more than its settings or the globals. *)
Definition plain (cmd : Z) : bool :=
  negb ((cmd =? PPM_IOCTL_GET_PROCLIST) || (cmd =? PPM_IOCTL_GET_N_TRACEPOINT_HIT)
        || (cmd =? PPM_IOCTL_GET_PROBE_VERSION) || (cmd =? PPM_IOCTL_DISABLE_CAPTURE)
        || (cmd =? PPM_IOCTL_ENABLE_CAPTURE) || (cmd =? PPM_IOCTL_DISABLE_DROPPING_MODE)).

Section steps.
Context (e : ctl_env) (cpus : list nat) (fds : list (Z * nat)) (d : driver) (a : Z) (c : ppm_consumer_t).
Context (Hok : module_ok cpus fds d a c).

Lemma ioctl_plain f cmd arg :
  f ∈ fds -> plain cmd = true ->
  ioctl e f cmd arg d =
  match ioctl_settings cmd arg with
  | Some act => Some (set_consumer d a (mk_consumer_t (consumer_id c) (ring_buffers c) (fst (act (settings c)))),
                      snd (act (settings c)))
  | None => let r := ioctl_globals cmd (ioctl_arg (ce_ioctl e) arg) (glob d) in
            Some (set_glob d (fst r), snd r)
  end.
Proof using Hok.
  intros Hf Hp. unfold plain in Hp. rewrite negb_true_iff, !orb_false_iff in Hp.
  destruct Hp as (((((H1 & H2) & H3) & H4) & H5) & H6).
  destruct f as [cid n]. unfold ioctl, ppm_ioctl. rewrite H1, H2, H3.
  change cid with ((cid, n).1). rewrite (mo_find _ _ _ _ _ Hok _ Hf). cbn [mbind option_bind].
  rewrite (mo_heap _ _ _ _ _ Hok). cbn [mbind option_bind]. rewrite H4, H5, H6. cbn [orb ioctl_arg ie_arg].
  destruct (ioctl_settings cmd arg) as [act|].
  - by destruct (act (settings c)).
  - by destruct (ioctl_globals cmd _ (glob d)).
Qed.

Lemma ioctl_capture_step f cmd r :
  f ∈ fds -> cmd = PPM_IOCTL_DISABLE_CAPTURE \/ cmd = PPM_IOCTL_ENABLE_CAPTURE ->
  ring_buffers c !! f.2 = Some r ->
  ioctl e f cmd 0 d =
  Some (set_consumer d a (mk_consumer_t (consumer_id c)
          (<[f.2 := set_flags r (cpu_online (ctx r)) (open_ (ctx r)) (cmd =? PPM_IOCTL_ENABLE_CAPTURE)]>
             (ring_buffers c)) (settings c)), 0).
Proof using Hok.
  intros Hf Hcmd Hr. destruct f as [cid n]. cbn [snd] in *. unfold ioctl, ppm_ioctl, ioctl_capture.
  destruct Hcmd as [-> | ->]; change cid with ((cid, n).1);
    (change (?x =? ?y) with false at 1); cbn [Z.eqb];
    rewrite (mo_find _ _ _ _ _ Hok _ Hf); cbn [mbind option_bind]; rewrite (mo_heap _ _ _ _ _ Hok);
    cbn [mbind option_bind]; rewrite Hr; done.
Qed.
End steps.

(** Ending the dropping mode records an event, which changes nothing of this. *)
Lemma ioctl_stop_dropping_step e cpus fds d a c f :
  module_ok cpus fds d a c -> ee_cpu (ie_event (ce_ioctl e)) ∈ cpus -> f ∈ fds ->
  exists c', ioctl e f PPM_IOCTL_DISABLE_DROPPING_MODE 0 d = Some (set_consumer d a c', 0) /\
    consumer_id c' = consumer_id c /\
    settings_frame (set_dropping (settings c) 0 1000000000 1) (settings c') /\
    (forall n, ring_flag c' n = ring_flag c n) /\
    rings_ready cpus c'.
Proof.
  intros Hok Hcpu Hf. destruct f as [cid n]. unfold ioctl, ppm_ioctl.
  destruct (mo_cpu _ _ _ _ _ Hok _ Hcpu) as (r & Hr & Hready).
  change cid with ((cid, n).1). cbn [Z.eqb].
  replace (PPM_IOCTL_DISABLE_DROPPING_MODE =? PPM_IOCTL_GET_PROCLIST) with false by reflexivity.
  replace (PPM_IOCTL_DISABLE_DROPPING_MODE =? PPM_IOCTL_GET_N_TRACEPOINT_HIT) with false by reflexivity.
  replace (PPM_IOCTL_DISABLE_DROPPING_MODE =? PPM_IOCTL_GET_PROBE_VERSION) with false by reflexivity.
  rewrite (mo_find _ _ _ _ _ Hok _ Hf). cbn [mbind option_bind].
  rewrite (mo_heap _ _ _ _ _ Hok). cbn [mbind option_bind].
  replace (PPM_IOCTL_DISABLE_DROPPING_MODE =? PPM_IOCTL_DISABLE_CAPTURE) with false by reflexivity.
  replace (PPM_IOCTL_DISABLE_DROPPING_MODE =? PPM_IOCTL_ENABLE_CAPTURE) with false by reflexivity.
  rewrite Z.eqb_refl. cbn [orb]. unfold ioctl_disable_dropping_mode, record_for.
  cbn [ioctl_arg ie_event ring_buffers]. rewrite Hr. cbn [mbind option_bind]. rewrite Hready, andb_false_r.
  destruct (record_event_consumer _ _ _ _ _ _ _ _) as [[s' r'] res] eqn:E.
  apply record_event_consumer_frame in E as [Hs (_ & _ & Hcap)]. cbn [fst snd settings] in *.
  eexists. split; [reflexivity|]. split; [done|]. split; [exact Hs|]. split.
  - intros i. unfold ring_flag. cbn [ring_buffers].
    destruct (decide (ee_cpu (ie_event (ce_ioctl e)) = i)) as [<-|Hne].
    + rewrite Hr, list_lookup_insert_eq by (by eapply lookup_lt_Some). cbn [mbind option_bind].
      f_equal. exact Hcap.
    + by rewrite list_lookup_insert_ne.
  - by eapply rings_ready_insert; [apply (mo_cpu _ _ _ _ _ Hok)|exact Hr|done|].
Qed.

(** The loop that turns the capture on or off ring by ring. *)
Lemma each_ioctl_ok e cpus cmd v todo : forall fds (past : list nat) d a c,
  cmd = PPM_IOCTL_DISABLE_CAPTURE \/ cmd = PPM_IOCTL_ENABLE_CAPTURE ->
  v = (cmd =? PPM_IOCTL_ENABLE_CAPTURE) ->
  module_ok cpus fds d a c -> (forall f, f ∈ todo -> f ∈ fds) ->
  (forall f, f ∈ fds -> is_Some (ring_flag c f.2)) ->
  (forall n, n ∈ past -> ring_flag c n = Some v) ->
  exists d' c', each_ioctl e todo cmd d = Some (d', SCAP_SUCCESS) /\ module_ok cpus fds d' a c' /\
    settings c' = settings c /\ glob d' = glob d /\
    (forall n, n ∈ past \/ n ∈ map snd todo -> ring_flag c' n = Some v).
Proof.
  intros fds past d a c Hcmd Hv. revert past d c.
  induction todo as [|f todo IH]; intros past d c Hok Hin Hsome Hdone.
  - exists d, c. split; [done|]. split; [done|]. split; [done|]. split; [done|].
    intros n [Hn|Hn]; [auto|by apply elem_of_nil in Hn].
  - cbn [each_ioctl]. assert (Hf : f ∈ fds) by (apply Hin, list_elem_of_here).
    destruct (Hsome f Hf) as [b Hb]. unfold ring_flag in Hb.
    destruct (ring_buffers c !! f.2) as [r|] eqn:Hr; [|done].
    rewrite (ioctl_capture_step e cpus fds d a c Hok f cmd r Hf Hcmd Hr). cbn [mbind option_bind].
    replace (negb (0 =? 0)) with false by reflexivity. rewrite <- Hv.
    set (r1 := set_flags r (cpu_online (ctx r)) (open_ (ctx r)) v).
    set (c1 := mk_consumer_t (consumer_id c) (<[f.2 := r1]> (ring_buffers c)) (settings c)).
    assert (Hflag : forall n, ring_flag c1 n = if decide (n = f.2) then Some v else ring_flag c n).
    { intros n. unfold ring_flag, c1. cbn [ring_buffers]. case_decide as Hn.
      - subst n. by rewrite list_lookup_insert_eq by (by eapply lookup_lt_Some).
      - by rewrite list_lookup_insert_ne by done. }
    destruct (IH (f.2 :: past) (set_consumer d a c1) c1) as (d' & c' & E & Hok' & Hs & Hg & Hfl).
    + apply (module_set_consumer cpus fds d a c); [done|done|].
      by eapply rings_ready_insert; [apply (mo_cpu _ _ _ _ _ Hok)|exact Hr|done|].
    + intros f' Hf'. apply Hin. by apply list_elem_of_further.
    + intros f' Hf'. rewrite Hflag. case_decide; [done|by apply Hsome].
    + intros n Hn. rewrite Hflag. case_decide as Hd; [done|]. apply elem_of_cons in Hn as [->|Hn]; [done|auto].
    + exists d', c'. split; [exact E|]. split; [done|]. split; [by rewrite Hs|]. split; [by rewrite Hg|].
      intros n Hn. apply Hfl. cbn [map] in Hn. rewrite !elem_of_cons in *. tauto.
Qed.

(** ** Every operation. *)

Inductive control : Type :=
| Start | Stop | SetSnaplen (n : Z) | EnableDynamic | DisableDynamic
| StartDropping (ratio : Z) | StopDropping | ClearMask | SetMask (t : Z) | UnsetMask (t : Z)
| SetPorts (a b : Z) | SetStatsd (p : Z) | EnableTracers | EnablePageFaults.

Definition run_control (e : ctl_env) (op : control) (h : scap_t) : option (scap_t * Z) :=
  match op with
  | Start => scap_start_capture e h
  | Stop => scap_stop_capture e h
  | SetSnaplen n => scap_set_snaplen e h n
  | EnableDynamic => scap_enable_dynamic_snaplen e h
  | DisableDynamic => scap_disable_dynamic_snaplen e h
  | StartDropping r => scap_start_dropping_mode e h r
  | StopDropping => scap_stop_dropping_mode e h
  | ClearMask => scap_clear_eventmask e h
  | SetMask t => scap_set_eventmask e h t
  | UnsetMask t => scap_unset_eventmask e h t
  | SetPorts a b => scap_set_fullcapture_port_range e h a b
  | SetStatsd p => scap_set_statsd_port e h p
  | EnableTracers => scap_enable_tracers_capture e h
  | EnablePageFaults => scap_enable_page_faults e h
  end.

(** The arguments have the types of the C functions; a sampling ratio is one the
    documentation allows. *)
Definition control_ok (op : control) : Prop :=
  match op with
  | SetSnaplen n | SetMask n | UnsetMask n => 0 <= n < 4294967296
  | StartDropping r => valid_sampling_ratio r = true
  | SetPorts a b => 0 <= a < 65536 /\ 0 <= b < 65536
  | SetStatsd p => 0 <= p < 65536
  | _ => True
  end.

(** The kernel grants the calls. *)
Record grants (e : ctl_env) : Prop := {
  gr_lookup : me_lookup (ce_map e) = 0;
  gr_update : me_update (ce_map e) = 0;
  gr_socket : me_socket (ce_map e) <> -1;
  gr_register : forall p, ie_register (ce_ioctl e) p = 0 }.

Lemma first_of {A} (l : list A) : l <> [] -> exists x, l !! O = Some x /\ x ∈ l.
Proof. destruct l as [|x l]; [done|]. exists x. split; [done|apply list_elem_of_here]. Qed.

Section agrees.
Context (e : ctl_env) (Hg : grants e) (n : nat) (s : settings_value).
Context (fds : list (Z * nat)) (devs : list scap_device) (d : driver) (a : Z) (c : ppm_consumer_t).
Context (cpus : list nat) (Hcpu : ee_cpu (ie_event (ce_ioctl e)) ∈ cpus).
Context (Hok : module_ok cpus fds d a c).
Context (Hflags : forall f, f ∈ fds -> ring_flag c f.2 = Some (st_capture_enabled (sv_settings s))).

Notation hb s := (mk_scap SCAP_MODE_LIVE (on_bpf (S n) s)).
Notation hm d := (mk_scap SCAP_MODE_LIVE (on_module fds devs d)).
Definition result (ret : Z) : Z := if ret =? 0 then SCAP_SUCCESS else SCAP_FAILURE.

Lemma bpf_edit edit : edit_settings (ce_map e) edit s = (edit s, SCAP_SUCCESS).
Proof using Hg. unfold edit_settings. by rewrite (gr_lookup _ Hg), (gr_update _ Hg). Qed.

Lemma first_file : exists f, fds !! O = Some f /\ f ∈ fds.
Proof using Hok. apply first_of, (mo_files _ _ _ _ _ Hok). Qed.

Lemma first_result cmd arg flush d' ret :
  (forall f, f ∈ fds -> ioctl e f cmd arg d = Some (d', ret)) ->
  exists devs', first_ioctl e (hm d) fds devs d cmd arg flush =
    Some (mk_scap SCAP_MODE_LIVE (on_module fds devs' d'), result ret).
Proof using Hok.
  intros H. destruct first_file as (f & Hf & Hin). unfold first_ioctl.
  rewrite Hf. cbn [mbind option_bind]. rewrite (H f Hin). cbn [mbind option_bind]. unfold result.
  destruct (ret =? 0); cbn [negb]; eauto.
Qed.

(** A command that changes the settings of the consumer. *)
Lemma first_settings cmd arg act flush s' :
  plain cmd = true -> ioctl_settings cmd arg = Some act ->
  same_settings (sv_settings s') (fst (act (settings c))) (glob d) ->
  st_capture_enabled (sv_settings s') = st_capture_enabled (sv_settings s) ->
  exists hm', first_ioctl e (hm d) fds devs d cmd arg flush = Some (hm', result (snd (act (settings c)))) /\
    agree cpus (hb s') hm'.
Proof using Hok Hflags.
  intros Hp Hact Hss Hce.
  destruct (first_result cmd arg flush _ _ (fun f Hf =>
    eq_trans (ioctl_plain e cpus fds d a c Hok f cmd arg Hf Hp) (f_equal (fun o => match o with
      | Some act => _ | None => _ end) Hact))) as (devs' & E).
  eexists. split; [exact E|]. eapply agree_intro.
  - apply (module_set_consumer cpus fds d a c); [done|done|]. apply (mo_cpu _ _ _ _ _ Hok).
  - exact Hss.
  - intros f Hf. rewrite Hce. exact (Hflags f Hf).
Qed.

(** A command that changes the globals. *)
Lemma first_globals cmd arg flush s' :
  plain cmd = true -> ioctl_settings cmd arg = None ->
  let r := ioctl_globals cmd (ioctl_arg (ce_ioctl e) arg) (glob d) in
  same_settings (sv_settings s') (settings c) (fst r) ->
  g_fault_tracepoint_disabled (fst r) = false ->
  st_capture_enabled (sv_settings s') = st_capture_enabled (sv_settings s) ->
  exists hm', first_ioctl e (hm d) fds devs d cmd arg flush = Some (hm', result (snd r)) /\
    agree cpus (hb s') hm'.
Proof using Hok Hflags.
  intros Hp Hact r Hss Hfd Hce.
  destruct (first_result cmd arg flush _ _ (fun f Hf =>
    eq_trans (ioctl_plain e cpus fds d a c Hok f cmd arg Hf Hp) (f_equal (fun o => match o with
      | Some act => _ | None => _ end) Hact))) as (devs' & E).
  eexists. split; [exact E|]. eapply agree_intro.
  - by apply (module_set_glob cpus fds d a c).
  - exact Hss.
  - intros f Hf. rewrite Hce. exact (Hflags f Hf).
Qed.

End agrees.

Lemma checked_first e h fds devs d cmd arg :
  fds <> [] -> checked_ioctl e h fds devs d cmd arg = first_ioctl e h fds devs d cmd arg false.
Proof. by destruct fds. Qed.

(** ** The events mask. *)

Lemma fold_clear_bits l : forall m t,
  foldl (fun m j => if modifies_state j then m else clear_bit j m) m l t =
  m t && negb (bool_decide (t ∈ l) && negb (modifies_state t)).
Proof.
  induction l as [|j l IH]; intros m t; cbn [foldl].
  - rewrite bool_decide_false by apply not_elem_of_nil. by rewrite andb_true_r.
  - rewrite IH. destruct (Z.eq_dec t j) as [->|Hne].
    + rewrite (bool_decide_true (j ∈ j :: l)) by apply list_elem_of_here.
      destruct (modifies_state j); cbn [negb andb]; [by rewrite !andb_false_r|].
      unfold clear_bit. by rewrite Z.eqb_refl, andb_false_r.
    + rewrite (bool_decide_ext (t ∈ j :: l) (t ∈ l)) by (rewrite elem_of_cons; tauto).
      destruct (modifies_state j); [done|]. unfold clear_bit. by rewrite (proj2 (Z.eqb_neq t j) Hne).
Qed.

Lemma mask_zero_kept m t : 0 <= t < PPM_EVENT_MAX -> mask_zero m t = m t && modifies_state t.
Proof.
  intros Ht. unfold mask_zero. rewrite fold_clear_bits, bool_decide_true by (by apply elem_of_seqZ).
  cbn [andb]. by rewrite negb_involutive.
Qed.

Section masks.
Context (st : sysdig_bpf_settings) (c : ppm_consumer) (g : globals).
Context (Hss : same_settings st c g).

Lemma same_mask_update mb mg :
  (forall t, 0 <= t < PPM_EVENT_MAX -> t <> PPME_DROP_E -> t <> PPME_DROP_X -> mg t = mb t) ->
  (forall t, 0 <= t < PPM_EVENT_MAX -> modifies_state t = true -> mb t = true) ->
  same_settings (set_events_mask mb st) c (set_mask g mg).
Proof using Hss. intros H1 H2. destruct Hss. by split. Qed.

Lemma same_mask_zero :
  same_settings (set_events_mask (mask_zero (st_events_mask st)) st) c (set_mask g ioctl_mask_zero_events).
Proof using Hss.
  apply same_mask_update; intros t Ht.
  - intros H1 H2. rewrite mask_zero_kept, mask_zero_spec by done.
    rewrite (proj2 (Z.eqb_neq _ _) H1), (proj2 (Z.eqb_neq _ _) H2). cbn [orb].
    destruct (modifies_state t) eqn:E; [|by rewrite andb_false_r]. by rewrite (ss_state _ _ _ Hss).
  - intros Hm. rewrite mask_zero_kept, Hm by done. by rewrite (ss_state _ _ _ Hss).
Qed.

Lemma same_mask_set x :
  same_settings (set_events_mask (set_bit x (st_events_mask st)) st) c (set_mask g (set_bit x (g_events_mask g))).
Proof using Hss.
  apply same_mask_update; unfold set_bit; intros t Ht.
  - intros H1 H2. by rewrite (ss_mask _ _ _ Hss).
  - intros Hm. by rewrite (ss_state _ _ _ Hss), orb_true_r.
Qed.

Lemma same_mask_unset x :
  modifies_state x = false ->
  same_settings (set_events_mask (clear_bit x (st_events_mask st)) st) c
    (set_mask g (clear_bit x (g_events_mask g))).
Proof using Hss.
  intros Hx. apply same_mask_update; unfold clear_bit; intros t Ht.
  - intros H1 H2. by rewrite (ss_mask _ _ _ Hss).
  - intros Hm. rewrite (ss_state _ _ _ Hss) by done. destruct (Z.eqb_spec t x); [congruence|done].
Qed.
End masks.

(** ** One operation on both handles. *)

Lemma port_word_start a b : 0 <= a < 65536 -> 0 <= b < 65536 ->
  u32 (u32 (u32 (Z.shiftl b 16) + a)) = Z.shiftl b 16 + a.
Proof.
  intros Ha Hb. rewrite Z.shiftl_mul_pow2 by lia. change (2 ^ 16) with 65536.
  rewrite (u32_small (b * 65536)) by lia. by rewrite !u32_small by (rewrite ?u32_small; lia).
Qed.

Lemma same_ports st c g a b :
  same_settings st c g -> 0 <= a < 65536 -> 0 <= b < 65536 ->
  same_settings (set_ports a b st)
    (fst (ioctl_set_fullcapture_port_range (u32 (u32 (Z.shiftl b 16) + a)) c)) g.
Proof.
  intros Hss Ha Hb. unfold ioctl_set_fullcapture_port_range. rewrite port_word_start by done.
  rewrite Z.shiftl_mul_pow2 by lia. rewrite Z.shiftr_div_pow2 by lia.
  replace (Z.land (b * 2 ^ 16 + a) 65535) with a.
  2: { change 65535 with (Z.ones 16). rewrite Z.land_ones by lia. rewrite Z.add_comm, Z_mod_plus_full.
       by rewrite Z.mod_small. }
  replace ((b * 2 ^ 16 + a) / 2 ^ 16) with b.
  2: { rewrite Z.add_comm, Z_div_plus_full by lia. rewrite Z.div_small by (change (2 ^ 16) with 65536; lia). lia. }
  rewrite u16_small by lia. destruct Hss. split; try done. cbn. by rewrite ss_cfg0.
Qed.

Section one.
Context (e : ctl_env) (Hg : grants e).
Context (cpus : list nat) (Hcpu : ee_cpu (ie_event (ce_ioctl e)) ∈ cpus).

(** The eBPF side always answers; what is left is the module's side. *)
Lemma agree_step op n s fds devs d s' r :
  run_control e op (mk_scap SCAP_MODE_LIVE (on_bpf (S n) s)) =
    Some (mk_scap SCAP_MODE_LIVE (on_bpf (S n) s'), r) ->
  (exists hm', run_control e op (mk_scap SCAP_MODE_LIVE (on_module fds devs d)) = Some (hm', r) /\
     agree cpus (mk_scap SCAP_MODE_LIVE (on_bpf (S n) s')) hm') ->
  exists hb' hm' r, run_control e op (mk_scap SCAP_MODE_LIVE (on_bpf (S n) s)) = Some (hb', r) /\
    run_control e op (mk_scap SCAP_MODE_LIVE (on_module fds devs d)) = Some (hm', r) /\ agree cpus hb' hm'.
Proof. intros Hb (hm' & Hm & Ha). eauto 10. Qed.

Context (n : nat) (s : settings_value) (fds : list (Z * nat)) (devs : list scap_device) (d : driver).
Context (a : Z) (c : ppm_consumer_t) (Hok : module_ok cpus fds d a c).
Context (Hss : same_settings (sv_settings s) (settings c) (glob d)).
Context (Hflags : forall f, f ∈ fds -> ring_flag c f.2 = Some (st_capture_enabled (sv_settings s))).

Notation goal op := (exists hb' hm' r,
  run_control e op (mk_scap SCAP_MODE_LIVE (on_bpf (S n) s)) = Some (hb', r) /\
  run_control e op (mk_scap SCAP_MODE_LIVE (on_module fds devs d)) = Some (hm', r) /\ agree cpus hb' hm').

Lemma capture_agrees v : goal (if v : bool then Start else Stop).
Proof using Hg Hok Hss Hflags.
  set (cmd := if v then PPM_IOCTL_ENABLE_CAPTURE else PPM_IOCTL_DISABLE_CAPTURE).
  destruct (each_ioctl_ok e cpus cmd v fds fds [] d a c) as (d' & c' & E & Hok' & Hs & Hgl & Hfl).
  - destruct v; auto.
  - by destruct v.
  - done.
  - done.
  - intros f Hf. by rewrite (Hflags f Hf).
  - intros m Hm. by apply elem_of_nil in Hm.
  - apply (agree_step _ _ _ _ _ _ (on_settings (set_capture_enabled v) s) SCAP_SUCCESS).
    + destruct v; cbn [run_control].
      * unfold scap_start_capture, scap_bpf_start_capture, calibrate_socket_file_ops. cbn [m_mode is_live negb m_driver].
        rewrite bpf_edit by done. rewrite (proj2 (Z.eqb_neq _ _) (gr_socket _ Hg)). done.
      * unfold scap_stop_capture, scap_bpf_stop_capture. cbn [m_mode is_live negb m_driver].
        by rewrite bpf_edit by done.
    + exists (mk_scap SCAP_MODE_LIVE (on_module fds devs d')). split.
      * destruct v; cbn [run_control]; unfold scap_start_capture, scap_stop_capture;
          cbn [m_mode is_live negb m_driver]; fold cmd; by rewrite E.
      * eapply agree_intro; [exact Hok'| |].
        -- rewrite Hs, Hgl. by destruct Hss; split.
        -- intros f Hf. apply Hfl. right. by apply (list_elem_of_fmap_2 snd).
Qed.

(** The other operations: what the eBPF side does is known, and the module does one
    ioctl on its first file. *)
Lemma settings_agrees op cmd arg act flush s' r :
  run_control e op (mk_scap SCAP_MODE_LIVE (on_bpf (S n) s)) =
    Some (mk_scap SCAP_MODE_LIVE (on_bpf (S n) s'), r) ->
  run_control e op (mk_scap SCAP_MODE_LIVE (on_module fds devs d)) =
    first_ioctl e (mk_scap SCAP_MODE_LIVE (on_module fds devs d)) fds devs d cmd arg flush ->
  plain cmd = true -> ioctl_settings cmd arg = Some act -> result (snd (act (settings c))) = r ->
  same_settings (sv_settings s') (fst (act (settings c))) (glob d) ->
  st_capture_enabled (sv_settings s') = st_capture_enabled (sv_settings s) -> goal op.
Proof using Hok Hflags.
  intros Hb Hm Hp Hact <- Hs Hc. eapply agree_step; [exact Hb|]. rewrite Hm.
  by apply (first_settings e n s fds devs d a c cpus Hok Hflags).
Qed.

Lemma globals_agrees op cmd arg flush s' r :
  let g := ioctl_globals cmd (ioctl_arg (ce_ioctl e) arg) (glob d) in
  run_control e op (mk_scap SCAP_MODE_LIVE (on_bpf (S n) s)) =
    Some (mk_scap SCAP_MODE_LIVE (on_bpf (S n) s'), r) ->
  run_control e op (mk_scap SCAP_MODE_LIVE (on_module fds devs d)) =
    first_ioctl e (mk_scap SCAP_MODE_LIVE (on_module fds devs d)) fds devs d cmd arg flush ->
  plain cmd = true -> ioctl_settings cmd arg = None -> result (snd g) = r ->
  same_settings (sv_settings s') (settings c) (fst g) -> g_fault_tracepoint_disabled (fst g) = false ->
  st_capture_enabled (sv_settings s') = st_capture_enabled (sv_settings s) -> goal op.
Proof using Hok Hflags.
  intros g Hb Hm Hp Hact <- Hs Hf Hc. eapply agree_step; [exact Hb|]. rewrite Hm.
  by apply (first_globals e n s fds devs d a c cpus Hok Hflags).
Qed.

Lemma snaplen_agrees x : 0 <= x < 4294967296 -> goal (SetSnaplen x).
Proof using Hg Hok Hss Hflags.
  intros Hx. destruct (RW_MAX_SNAPLEN <? x) eqn:Ex.
  - eapply (settings_agrees _ PPM_IOCTL_SET_SNAPLEN x (ioctl_set_snaplen x) true s SCAP_FAILURE); try done.
    + cbn [run_control]. unfold scap_set_snaplen, scap_bpf_set_snaplen. cbn [m_mode is_live negb m_driver].
      by rewrite Ex.
    + unfold ioctl_set_snaplen. by rewrite u32_small, Ex by lia.
    + unfold ioctl_set_snaplen. by rewrite u32_small, Ex by lia.
  - eapply (settings_agrees _ PPM_IOCTL_SET_SNAPLEN x (ioctl_set_snaplen x) true
              (on_settings (set_snaplen x) s) SCAP_SUCCESS); try done.
    + cbn [run_control]. unfold scap_set_snaplen, scap_bpf_set_snaplen. cbn [m_mode is_live negb m_driver].
      by rewrite Ex, bpf_edit.
    + unfold ioctl_set_snaplen. by rewrite u32_small, Ex by lia.
    + unfold ioctl_set_snaplen. rewrite u32_small, Ex by lia. destruct Hss. split; try done.
      cbn. by rewrite ss_cfg0.
Qed.

Lemma dynamic_agrees v : goal (if v : bool then EnableDynamic else DisableDynamic).
Proof using Hg Hok Hss Hflags.
  eapply (settings_agrees _ (if v then PPM_IOCTL_ENABLE_DYNAMIC_SNAPLEN else PPM_IOCTL_DISABLE_DYNAMIC_SNAPLEN) 0
            (ioctl_dynamic_snaplen v) false (on_settings (set_dynamic v) s) SCAP_SUCCESS); try (by destruct v).
  - destruct v; cbn [run_control];
      unfold scap_enable_dynamic_snaplen, scap_disable_dynamic_snaplen, scap_bpf_enable_dynamic_snaplen,
        scap_bpf_disable_dynamic_snaplen; cbn [m_mode is_live negb m_driver]; by rewrite bpf_edit.
  - destruct Hss. split; try done. cbn. by rewrite ss_cfg0.
Qed.

Lemma start_dropping_agrees r : valid_sampling_ratio r = true -> goal (StartDropping r).
Proof using Hg Hok Hss Hflags.
  intros Hr. assert (Hr32 : u32 r = r).
  { apply u32_small. unfold valid_sampling_ratio in Hr. rewrite !orb_true_iff, !Z.eqb_eq in Hr. lia. }
  eapply (settings_agrees _ PPM_IOCTL_ENABLE_DROPPING_MODE r (ioctl_enable_dropping_mode r) false
            (on_settings (set_sampling r true) s) SCAP_SUCCESS); try done.
  - cbn [run_control]. unfold scap_start_dropping_mode, scap_bpf_start_dropping_mode.
    cbn [m_driver]. rewrite Hr. cbn [negb]. by rewrite bpf_edit.
  - cbn [run_control]. unfold scap_start_dropping_mode, scap_set_dropping_mode. cbn [m_driver m_mode is_live negb].
    apply checked_first, (mo_files _ _ _ _ _ Hok).
  - unfold ioctl_enable_dropping_mode. by rewrite Hr32, Hr.
  - unfold ioctl_enable_dropping_mode. rewrite Hr32, Hr. destruct Hss. by split.
Qed.

Lemma stop_dropping_agrees : goal StopDropping.
Proof using Hg Hok Hss Hflags Hcpu.
  destruct (first_of fds (mo_files _ _ _ _ _ Hok)) as (f & Hf & Hin).
  destruct (ioctl_stop_dropping_step e cpus fds d a c f Hok Hcpu Hin) as (c' & E & Hid & Hs & Hfl & Hready).
  apply (agree_step _ _ _ _ _ _ (on_settings (set_sampling 1 false) s) SCAP_SUCCESS).
  - cbn [run_control]. unfold scap_stop_dropping_mode, scap_bpf_stop_dropping_mode. cbn [m_driver].
    by rewrite bpf_edit.
  - eexists. split.
    + cbn [run_control]. unfold scap_stop_dropping_mode, scap_set_dropping_mode. cbn [m_driver m_mode is_live negb].
      rewrite checked_first by apply (mo_files _ _ _ _ _ Hok). unfold first_ioctl. rewrite Hf.
      cbn [mbind option_bind]. rewrite E. reflexivity.
    + eapply agree_intro; [by apply (module_set_consumer cpus fds d a c)| |].
      * destruct Hs as (H1 & H2 & H3 & H4). destruct Hss. split; cbn in *; try done; congruence.
      * intros f' Hf'. rewrite Hfl. by apply Hflags.
Qed.

Lemma ports_agrees x y : 0 <= x < 65536 -> 0 <= y < 65536 -> goal (SetPorts x y).
Proof using Hg Hok Hss Hflags.
  intros Hx Hy. set (arg := u32 (u32 (Z.shiftl y 16) + x)).
  eapply (settings_agrees _ PPM_IOCTL_SET_FULLCAPTURE_PORT_RANGE arg (ioctl_set_fullcapture_port_range arg) true
            (on_settings (set_ports x y) s) SCAP_SUCCESS); try done.
  - cbn [run_control]. unfold scap_set_fullcapture_port_range, scap_bpf_set_fullcapture_port_range.
    cbn [m_mode is_live negb m_driver]. by rewrite bpf_edit.
  - by apply same_ports.
Qed.

Lemma statsd_agrees p : 0 <= p < 65536 -> goal (SetStatsd p).
Proof using Hg Hok Hss Hflags.
  intros Hp. eapply (settings_agrees _ PPM_IOCTL_SET_STATSD_PORT p (ioctl_set_statsd_port p) true
            (on_settings (set_statsd p) s) SCAP_SUCCESS); try done.
  - cbn [run_control]. unfold scap_set_statsd_port, scap_bpf_set_statsd_port.
    cbn [m_mode is_live negb m_driver]. by rewrite bpf_edit.
  - unfold ioctl_set_statsd_port. rewrite u16_small by lia. destruct Hss. split; try done. cbn. by rewrite ss_cfg0.
Qed.

(** The three commands on the mask. *)
Lemma bpf_mask op cmd t :
  run_control e op (mk_scap SCAP_MODE_LIVE (on_bpf (S n) s)) =
    scap_handle_eventmask e (mk_scap SCAP_MODE_LIVE (on_bpf (S n) s)) cmd t ->
  cmd = PPM_IOCTL_MASK_ZERO_EVENTS \/ cmd = PPM_IOCTL_MASK_SET_EVENT \/ cmd = PPM_IOCTL_MASK_UNSET_EVENT ->
  run_control e op (mk_scap SCAP_MODE_LIVE (on_bpf (S n) s)) =
    if (PPM_EVENT_MAX <=? t) || (t <? 0) then Some (mk_scap SCAP_MODE_LIVE (on_bpf (S n) s), SCAP_FAILURE)
    else Some (mk_scap SCAP_MODE_LIVE (on_bpf (S n)
      (on_settings (fun st => set_events_mask (mask_edit cmd t (st_events_mask st)) st) s)), SCAP_SUCCESS).
Proof using Hg.
  intros -> Hcmd. unfold scap_handle_eventmask, scap_bpf_handle_eventmask. cbn [m_mode is_live negb m_driver].
  assert ((cmd =? PPM_IOCTL_MASK_ZERO_EVENTS) || (cmd =? PPM_IOCTL_MASK_SET_EVENT)
          || (cmd =? PPM_IOCTL_MASK_UNSET_EVENT) = true) as -> by (by destruct Hcmd as [->|[->| ->]]).
  cbn [negb]. destruct (_ || _); [done|]. by rewrite bpf_edit.
Qed.

Lemma clear_mask_agrees : goal ClearMask.
Proof using Hg Hok Hss Hflags.
  pose proof (bpf_mask ClearMask PPM_IOCTL_MASK_ZERO_EVENTS 0 eq_refl (or_introl eq_refl)) as Hb.
  eapply (globals_agrees _ PPM_IOCTL_MASK_ZERO_EVENTS 0 true _ SCAP_SUCCESS); [exact Hb|reflexivity..| | |done].
  - cbn [fst ioctl_globals on_settings sv_settings]. by apply same_mask_zero.
  - exact (mo_faults _ _ _ _ _ Hok).
Qed.

Lemma set_mask_agrees t : 0 <= t < 4294967296 -> goal (SetMask t).
Proof using Hg Hok Hss Hflags.
  intros Ht. pose proof (bpf_mask (SetMask t) PPM_IOCTL_MASK_SET_EVENT t eq_refl (or_intror (or_introl eq_refl))) as Hb.
  rewrite (proj2 (Z.ltb_ge t 0)), orb_false_r in Hb by lia. destruct (PPM_EVENT_MAX <=? t) eqn:Em.
  - eapply (globals_agrees _ PPM_IOCTL_MASK_SET_EVENT t true s SCAP_FAILURE); try done;
      unfold ioctl_globals, ioctl_mask_set_event; cbn -[u32]; rewrite u32_small, Em by lia; try done.
    exact (mo_faults _ _ _ _ _ Hok).
  - eapply (globals_agrees _ PPM_IOCTL_MASK_SET_EVENT t true _ SCAP_SUCCESS); [exact Hb|reflexivity..| | | |done];
      unfold ioctl_globals, ioctl_mask_set_event; cbn -[u32]; rewrite u32_small, Em by lia; try done.
    + by apply same_mask_set.
    + exact (mo_faults _ _ _ _ _ Hok).
Qed.

Lemma unset_mask_agrees t : 0 <= t < 4294967296 -> goal (UnsetMask t).
Proof using Hg Hok Hss Hflags.
  intros Ht. pose proof (bpf_mask (UnsetMask t) PPM_IOCTL_MASK_UNSET_EVENT t eq_refl (or_intror (or_intror eq_refl))) as Hb.
  rewrite (proj2 (Z.ltb_ge t 0)), orb_false_r in Hb by lia. destruct (PPM_EVENT_MAX <=? t) eqn:Em.
  - eapply (globals_agrees _ PPM_IOCTL_MASK_UNSET_EVENT t true s SCAP_FAILURE); try done;
      unfold ioctl_globals, ioctl_mask_unset_event; cbn -[u32]; rewrite u32_small, Em by lia; try done.
    exact (mo_faults _ _ _ _ _ Hok).
  - eapply (globals_agrees _ PPM_IOCTL_MASK_UNSET_EVENT t true _ SCAP_SUCCESS); [exact Hb|reflexivity..| | | |done];
      unfold ioctl_globals, ioctl_mask_unset_event, mask_edit; cbn -[u32]; rewrite u32_small, Em by lia; try done;
      cbn [fst]; destruct (modifies_state t) eqn:Es; try exact (mo_faults _ _ _ _ _ Hok).
    + by destruct Hss; split.
    + by apply same_mask_unset.
Qed.

Lemma tracers_agrees : goal EnableTracers.
Proof using Hg Hok Hss Hflags.
  eapply (globals_agrees _ PPM_IOCTL_SET_TRACERS_CAPTURE 0 false (on_settings set_tracers s) SCAP_SUCCESS); try done.
  - cbn [run_control]. unfold scap_enable_tracers_capture, scap_bpf_enable_tracers_capture.
    cbn [m_mode is_live negb m_driver]. by rewrite bpf_edit.
  - cbn [run_control]. unfold scap_enable_tracers_capture. cbn [m_mode is_live negb m_driver].
    apply checked_first, (mo_files _ _ _ _ _ Hok).
  - by destruct Hss; split.
  - exact (mo_faults _ _ _ _ _ Hok).
Qed.

Lemma page_faults_agrees : goal EnablePageFaults.
Proof using Hg Hok Hss Hflags.
  assert (Hr : forall p, ie_register (ioctl_arg (ce_ioctl e) 0) p = 0) by exact (gr_register _ Hg).
  eapply (globals_agrees _ PPM_IOCTL_ENABLE_PAGE_FAULTS 0 false (on_settings set_page_faults s) SCAP_SUCCESS); try done;
    try (unfold ioctl_globals, ioctl_enable_page_faults; cbn -[ioctl_arg compat_register_trace];
         rewrite (mo_faults _ _ _ _ _ Hok); unfold compat_register_trace; rewrite !Hr; cbn;
         destruct (g_fault_tracepoint_registered (glob d)) eqn:Er; cbn; try done;
         try exact (mo_faults _ _ _ _ _ Hok)).
  - cbn [run_control]. unfold scap_enable_page_faults, scap_bpf_enable_page_faults.
    cbn [m_mode is_live negb m_driver]. by rewrite bpf_edit.
  - cbn [run_control]. unfold scap_enable_page_faults. cbn [m_mode is_live negb m_driver].
    apply checked_first, (mo_files _ _ _ _ _ Hok).
  - by destruct Hss; split.
  - by destruct Hss; split.
Qed.
End one.

Lemma run_control_agrees cpus e op hb hm :
  grants e -> ee_cpu (ie_event (ce_ioctl e)) ∈ cpus -> control_ok op -> agree cpus hb hm ->
  exists hb' hm' r, run_control e op hb = Some (hb', r) /\ run_control e op hm = Some (hm', r) /\
    agree cpus hb' hm'.
Proof.
  intros Hg Hcpu Hop Ha. destruct Ha as [n s fds devs d a c Hok Hss Hfl].
  destruct op; cbn [control_ok] in Hop.
  - by eapply (capture_agrees e Hg cpus n s fds devs d a c Hok Hss Hfl true).
  - by eapply (capture_agrees e Hg cpus n s fds devs d a c Hok Hss Hfl false).
  - by eapply snaplen_agrees.
  - by eapply (dynamic_agrees e Hg cpus n s fds devs d a c Hok Hss Hfl true).
  - by eapply (dynamic_agrees e Hg cpus n s fds devs d a c Hok Hss Hfl false).
  - by eapply start_dropping_agrees.
  - by eapply stop_dropping_agrees.
  - by eapply clear_mask_agrees.
  - by eapply set_mask_agrees.
  - by eapply unset_mask_agrees.
  - destruct Hop. by eapply ports_agrees.
  - by eapply statsd_agrees.
  - by eapply tracers_agrees.
  - by eapply page_faults_agrees.
Qed.

(** ** Sequences of operations. *)

Fixpoint run_controls (ops : list (ctl_env * control)) (h : scap_t) : option (scap_t * list Z) :=
  match ops with
  | [] => Some (h, [])
  | (e, op) :: ops' =>
      '(h1, r) ← run_control e op h; '(h2, rs) ← run_controls ops' h1; Some (h2, r :: rs)
  end.

(** A call as an application makes it. *)
Definition call_ok (cpus : list nat) (x : ctl_env * control) : Prop :=
  grants (fst x) /\ ee_cpu (ie_event (ce_ioctl (fst x))) ∈ cpus /\ control_ok (snd x).

(** The settings [set_default_settings] writes are those [ppm_open] gives a consumer. *)
Lemma default_settings_same be s s' g :
  set_default_settings be s = (s', SCAP_SUCCESS) ->
  g_tracers g = false -> g_fault_tracepoint_registered g = false -> g_events_mask g = bitmap_fill ->
  same_settings (sv_settings s') open_settings g /\ st_capture_enabled (sv_settings s') = false.
Proof.
  unfold set_default_settings. destruct (set_boot_time be); [|done]. destruct (negb _); [done|].
  intros [= <-] Ht Hf Hm. split; [|done]. split; try done.
  - intros t H1 _ _. rewrite Hm. cbn. rewrite (proj2 (Z.leb_le 0 t)), (proj2 (Z.ltb_lt t _)) by apply H1. done.
  - intros t H1 _. cbn. rewrite (proj2 (Z.leb_le 0 t)), (proj2 (Z.ltb_lt t _)) by apply H1. done.
Qed.

(** C19: the two drivers are controlled alike.  Take a handle whose eBPF settings are the
    defaults and a handle of the kernel module whose consumer has just opened its
    devices.  Whatever an application then does with the operations of libscap (start and
    stop the capture, set snaplens, fixed or dynamic, ports and the dropping mode with a
    valid ratio, clear, set and unset events of the mask, valid or not, enable tracers and
    page faults), as long as the kernel grants the calls both handles give the same results, and at the end the two
    drivers have the same settings, the same mask but for the drop markers, and the
    capture on in the rings of the module exactly when it is on in the probe. *)
Theorem control_drivers_agree (cpus : list nat) (be : boot_env) (n : nat) (s0 s : settings_value)
    (fds : list (Z * nat)) (devs : list scap_device) (d : driver) (a : Z) (c : ppm_consumer_t)
    (ops : list (ctl_env * control)) :
  set_default_settings be s0 = (s, SCAP_SUCCESS) ->
  module_ok cpus fds d a c -> settings c = open_settings -> g_events_mask (glob d) = bitmap_fill ->
  g_tracers (glob d) = false -> g_fault_tracepoint_registered (glob d) = false ->
  (forall f, f ∈ fds -> ring_flag c f.2 = Some false) -> Forall (call_ok cpus) ops ->
  exists hb hm rs,
    run_controls ops (mk_scap SCAP_MODE_LIVE (on_bpf (S n) s)) = Some (hb, rs) /\
    run_controls ops (mk_scap SCAP_MODE_LIVE (on_module fds devs d)) = Some (hm, rs) /\
    agree cpus hb hm.
Proof.
  intros Hs Hok Hset Hm Ht Hf Hfl. pose proof (default_settings_same be s0 s _ Hs Ht Hf Hm) as [Hss Hce].
  assert (Hag : agree cpus (mk_scap SCAP_MODE_LIVE (on_bpf (S n) s))
                           (mk_scap SCAP_MODE_LIVE (on_module fds devs d))).
  { eapply agree_intro; [done|by rewrite Hset|]. intros f Hin. by rewrite (Hfl f Hin), Hce. }
  clear -Hag. revert Hag. generalize (mk_scap SCAP_MODE_LIVE (on_bpf (S n) s)).
  generalize (mk_scap SCAP_MODE_LIVE (on_module fds devs d)). induction ops as [|[e op] ops' IH]; intros hm hb Hag Hops.
  - by exists hb, hm, [].
  - apply Forall_cons in Hops as [(Hg & Hcpu & Hop) Hops]. cbn [run_controls].
    destruct (run_control_agrees cpus e op hb hm Hg Hcpu Hop Hag) as (hb1 & hm1 & r & -> & -> & Hag1).
    cbn [mbind option_bind]. destruct (IH hm1 hb1 Hag1 Hops) as (hb2 & hm2 & rs & -> & -> & Hag2).
    by exists hb2, hm2, (r :: rs).
Qed.

(** A consumer with one ring, and an application that starts the capture, samples, asks
    for an event that does not exist, and clears the mask. *)
Definition sample_cenv : ctl_env := mk_cenv (mk_menv 0 0 3) (fun _ => add_sentinel) (sample_ioctl 3).
Definition sample_boot : boot_env := mk_boot (Some (1700000000, 5)) (Some (1000, 7)) None 0.
Definition sample_ops : list (ctl_env * control) :=
  map (pair sample_cenv)
    [Start; SetSnaplen 200; SetSnaplen 70000; StartDropping 4; SetMask 9999; ClearMask; SetPorts 80 443;
     StopDropping; EnablePageFaults; Stop].

Lemma sample_module_ok :
  module_ok [0%nat] [(7, 0%nat)] sample_driver 100 (mk_consumer_t 7 [sample_ring_slot] open_settings).
Proof.
  split; [done| |done|done|].
  - intros f Hf. apply list_elem_of_singleton in Hf as ->. done.
  - intros k Hk. apply list_elem_of_singleton in Hk as ->. by exists sample_ring_slot.
Qed.

Lemma sample_calls_ok : Forall (call_ok [0%nat]) sample_ops.
Proof.
  unfold sample_ops. apply Forall_map. repeat constructor; try done; apply list_elem_of_here.
Qed.

Lemma control_drivers_agree_witness :
  exists hb hm rs s,
    run_controls sample_ops (mk_scap SCAP_MODE_LIVE (on_bpf 1 s)) = Some (hb, rs) /\
    run_controls sample_ops (mk_scap SCAP_MODE_LIVE (on_module [(7, 0%nat)] [] sample_driver)) = Some (hm, rs) /\
    rs = [0; 0; 1; 0; 1; 0; 0; 0; 0; 0].
Proof.
  set (s0 := mk_sv (mk_settings 0 0 0 0 false false false false false false 0 0 0 0 (fun _ => false)) false []).
  assert (Hfl : forall f, f ∈ [(7, 0%nat)] ->
    ring_flag (mk_consumer_t 7 [sample_ring_slot] open_settings) f.2 = Some false)
    by (intros f Hf; apply list_elem_of_singleton in Hf as ->; reflexivity).
  destruct (control_drivers_agree [0%nat] sample_boot 0 s0 (fst (set_default_settings sample_boot s0))
              [(7, 0%nat)] [] sample_driver 100 (mk_consumer_t 7 [sample_ring_slot] open_settings) sample_ops
              eq_refl sample_module_ok eq_refl eq_refl eq_refl eq_refl Hfl sample_calls_ok)
    as (hb & hm & rs & H1 & H2 & _).
  exists hb, hm, rs, (fst (set_default_settings sample_boot s0)). split; [exact H1|]. split; [exact H2|].
  apply (f_equal (fmap snd)) in H1. vm_compute in H1. injection H1 as <-. reflexivity.
Defined.

(** ** The statistics of the eBPF driver. *)

Lemma u64_fold a b c : u64 (u64 (a + b) + c) = u64 (a + b + c).
Proof. unfold u64. by rewrite Zplus_mod_idemp_l. Qed.
Lemma u64_fold2 a b c : u64 (u64 (a + u64 b) + c) = u64 (a + b + c).
Proof. unfold u64. by rewrite Zplus_mod_idemp_r, Zplus_mod_idemp_l. Qed.

Section stats.
Context (cpus : Z -> bpf_cpu) (devs : list perf_device).

(** The sums of CPUs [j], ..., [j + n - 1] with their devices. *)
Definition cpu_sum (f : bpf_cpu -> Z) (n : nat) (j : Z) : Z := zsum (map (fun i => f (cpus i)) (seqZ j (Z.of_nat n))).
Definition lost_sum (ds : list perf_device) : Z := zsum (map m_evt_lost ds).

Lemma seqZ_S j n : seqZ j (Z.of_nat (S n)) = j :: seqZ (j + 1) (Z.of_nat n).
Proof. rewrite seqZ_cons by lia. f_equal. f_equal; lia. Qed.

Lemma stats_loop_sum n : forall j s,
  0 <= j -> (Z.to_nat j + n <= length devs)%nat ->
  exists s', bpf_stats_loop (fun i => Some (cpus i)) devs n j s = Some (s', SCAP_SUCCESS) /\
    u64 (st_n_evts s') = u64 (st_n_evts s + cpu_sum bc_n_evts n j) /\
    u64 (st_n_drops_buffer s') =
      u64 (st_n_drops_buffer s + (lost_sum (take n (drop (Z.to_nat j) devs)) + cpu_sum bc_n_drops_buffer n j)) /\
    u64 (st_n_drops s') =
      u64 (st_n_drops s + (lost_sum (take n (drop (Z.to_nat j) devs)) + cpu_sum bc_n_drops_buffer n j +
        cpu_sum bc_n_drops_pf n j + cpu_sum bc_n_drops_bug n j)).
Proof.
  unfold cpu_sum, lost_sum. induction n as [|n IH]; intros j s Hj Hl.
  - exists s. cbn [bpf_stats_loop take]. change (seqZ j (Z.of_nat 0)) with (@nil Z). cbn [map zsum foldr].
    rewrite !Z.add_0_r. done.
  - cbn [bpf_stats_loop]. destruct (lookup_lt_is_Some_2 devs (Z.to_nat j)) as [d Hd]; [lia|]. rewrite Hd.
    cbn [mbind option_bind]. rewrite (drop_S _ _ _ Hd), seqZ_S.
    replace (S (Z.to_nat j)) with (Z.to_nat (j + 1)) by lia. cbn [take map].
    destruct (IH (j + 1) (add_cpu_stats (m_evt_lost d) (cpus j) s)) as (s' & E & H1 & H2 & H3); [lia|lia|].
    exists s'. split; [exact E|]. rewrite H1, H2, H3.
    cbn [add_cpu_stats st_n_evts st_n_drops_buffer st_n_drops zsum foldr].
    rewrite u64_fold, !u64_fold2. unfold zsum. cbn [map foldr]. split; [|split]; f_equal; lia.
Qed.

(** With a device for each CPU, the drops reported are the events the kernel lost in the
    perf buffers and those the probe refused. *)
Theorem bpf_stats_sum (s : scap_stats) :
  st_n_evts s = 0 -> st_n_drops_buffer s = 0 -> st_n_drops s = 0 ->
  exists s', scap_bpf_get_stats (fun i => Some (cpus i)) devs (length devs) s = Some (s', SCAP_SUCCESS) /\
    u64 (st_n_evts s') = u64 (cpu_sum bc_n_evts (length devs) 0) /\
    u64 (st_n_drops s') = u64 (lost_sum devs + cpu_sum bc_n_drops_buffer (length devs) 0 +
      cpu_sum bc_n_drops_pf (length devs) 0 + cpu_sum bc_n_drops_bug (length devs) 0).
Proof.
  intros H1 H2 H3. destruct (stats_loop_sum (length devs) 0 s ltac:(lia) ltac:(lia)) as (s' & E & A & _ & C).
  exists s'. split; [exact E|]. rewrite A, C, H1, H3, drop_0, take_ge by lia. done.
Qed.

(** With a CPU offline there are fewer devices than CPUs, and the loop reads behind the
    devices. *)
Theorem bpf_stats_offline_cpu s :
  scap_bpf_get_stats (fun i => Some (cpus i)) devs (S (length devs)) s = None.
Proof.
  unfold scap_bpf_get_stats. enough (H : forall n j s, 0 <= j -> (Z.to_nat j + n = length devs)%nat ->
    bpf_stats_loop (fun i => Some (cpus i)) devs (S n) j s = None) by (apply H; lia).
  induction n as [|n IH]; intros j s0 Hj Hn; cbn [bpf_stats_loop].
  - rewrite lookup_ge_None_2 by lia. done.
  - destruct (devs !! Z.to_nat j) as [d|]; [|done]. cbn [mbind option_bind]. apply IH; lia.
Qed.
End stats.
