(* ===== verification/BpfLoader.v ===== *)
(** * Loading the eBPF probe: [libscap/scap_bpf.c], [libsinsp/sinsp_tp.cpp]

    libscap reads the probe from an ELF file: it creates the maps, patches the
    instructions that refer to them, loads a program per section and attaches it, and
    keeps a table of the programs so that single tracepoints can be switched off and on
    again.  What libelf decodes of the file and what the kernel answers are arguments; an
    index behind an array has no result.  Allocations do not fail, and the names of the
    sections are shorter than the 255 bytes of the tables. *)

From Stdlib Require Import ZArith Lia List Bool String Ascii.
From stdpp Require Import base tactics list numbers option strings gmap sorting.
From S2P Require Import Prelude Bytes EventDefs EventTable FillerTable Reader BpfRing BpfControl.
Import ListNotations.
Local Open Scope Z_scope.

Definition SCAP_UNKNOWN_KPROBE : Z := -2.
Definition BPF_PROGS_MAX : Z := 128.
Definition BPF_MAPS_MAX : Z := 32.
Definition BPF_MAP_TYPE_PROG_ARRAY : Z := 3.
Definition BPF_PSEUDO_MAP_FD : Z := 1.
(** [BPF_LD | BPF_IMM | BPF_DW] *)
Definition LD_IMM_DW : Z := 24.
Definition SHT_SYMTAB : Z := 2.
Definition SHT_REL : Z := 9.

Definition SYSDIG_PERF_MAP : Z := 0.
Definition SYSDIG_SYSCALL_CODE_ROUTING_TABLE : Z := 2.
Definition SYSDIG_SYSCALL_TABLE : Z := 3.
Definition SYSDIG_EVENT_INFO_TABLE : Z := 4.
Definition SYSDIG_FILLERS_TABLE : Z := 5.
Definition SYSDIG_FRAME_SCRATCH_MAP : Z := 6.
Definition SYSDIG_TMP_SCRATCH_MAP : Z := 7.
Definition SYSDIG_LOCAL_STATE_MAP : Z := 9.

(** ** Data. *)

Record bpf_map_def : Type := mk_map_def {
  mdef_type : Z;
  mdef_key_size : Z;
  mdef_value_size : Z;
  mdef_max_entries : Z;
  mdef_flags : Z }.

Record bpf_map_data : Type := mk_map_data {
  map_fd : Z;
  elf_offset : Z;
  map_def : bpf_map_def }.

Record bpf_insn : Type := mk_insn {
  code : Z;
  dst_reg : Z;
  src_reg : Z;
  insn_off : Z;
  imm : Z }.

Record bpf_prog : Type := mk_prog {
  prog_fd : Z;
  prog_efd : Z;
  prog_name : string }.
Definition no_prog : bpf_prog := mk_prog 0 0 "".

Record kt_index : Type := mk_kt {
  kt_name : string;
  kt_idx : Z;
  kt_interest : bool }.

(** The part of the handle the loader keeps; [closed] are the descriptors of
    programs and maps it has closed, oldest first. *)
Record loader : Type := mk_loader {
  m_bpf_progs : list bpf_prog;
  m_bpf_prog_cnt : Z;
  m_bpf_fillers : list bool;
  m_bpf_map_fds : list Z;
  m_bpf_prog_array_map_idx : Z;
  kt_indices : list kt_index;
  m_bpf_prog_real_size : Z;
  closed : list Z }.

Definition set_progs (h : loader) (ps : list bpf_prog) (n : Z) : loader :=
  mk_loader ps n (m_bpf_fillers h) (m_bpf_map_fds h) (m_bpf_prog_array_map_idx h) (kt_indices h)
    (m_bpf_prog_real_size h) (closed h).
Definition set_kt (h : loader) (l : list kt_index) (n : Z) : loader :=
  mk_loader (m_bpf_progs h) (m_bpf_prog_cnt h) (m_bpf_fillers h) (m_bpf_map_fds h)
    (m_bpf_prog_array_map_idx h) l n (closed h).
Definition set_fillers (h : loader) (l : list bool) : loader :=
  mk_loader (m_bpf_progs h) (m_bpf_prog_cnt h) l (m_bpf_map_fds h) (m_bpf_prog_array_map_idx h)
    (kt_indices h) (m_bpf_prog_real_size h) (closed h).
Definition set_map_fds (h : loader) (l : list Z) (arr : Z) : loader :=
  mk_loader (m_bpf_progs h) (m_bpf_prog_cnt h) (m_bpf_fillers h) l arr (kt_indices h)
    (m_bpf_prog_real_size h) (closed h).
Definition add_closed (h : loader) (l : list Z) : loader :=
  mk_loader (m_bpf_progs h) (m_bpf_prog_cnt h) (m_bpf_fillers h) (m_bpf_map_fds h)
    (m_bpf_prog_array_map_idx h) (kt_indices h) (m_bpf_prog_real_size h) (closed h ++ l).

(** The handle as [calloc] gives it. *)
Definition no_kt : kt_index := mk_kt "" 0 false.
Definition new_loader : loader :=
  mk_loader (replicate 128 no_prog) 0 (replicate 128 false) (replicate 32 0) 0
    (replicate 128 no_kt) 0 [].

(** ** Names. *)

Definition g_filler_names : list string :=
  ["sys_autofill"; "sys_generic"; "sys_empty"; "sys_single"; "sys_single_x"; "sys_open_x";
   "sys_read_x"; "sys_write_x"; "sys_execve_e"; "proc_startupdate"; "proc_startupdate_2";
   "proc_startupdate_3"; "sys_socketpair_x"; "sys_setsockopt_x"; "sys_getsockopt_x";
   "sys_connect_x"; "sys_accept4_e"; "sys_accept_x"; "sys_send_e"; "sys_send_x"; "sys_sendto_e";
   "sys_sendmsg_e"; "sys_sendmsg_x"; "sys_sendmmsg_x"; "sys_recv_x"; "sys_recvfrom_x";
   "sys_recvmsg_x"; "sys_recvmsg_x_2"; "sys_shutdown_e"; "sys_creat_x"; "sys_pipe_x";
   "sys_eventfd_e"; "sys_futex_e"; "sys_lseek_e"; "sys_llseek_e"; "sys_socket_bind_x";
   "sys_poll_e"; "sys_poll_x"; "sys_pread64_e"; "sys_preadv64_e"; "sys_writev_e";
   "sys_pwrite64_e"; "sys_readv_preadv_x"; "sys_writev_pwritev_x"; "sys_pwritev_e";
   "sys_nanosleep_e"; "sys_getrlimit_setrlimit_e"; "sys_getrlimit_setrlrimit_x"; "sys_prlimit_e";
   "sys_prlimit_x"; "sched_switch_e"; "sched_drop"; "sys_fcntl_e"; "sys_ptrace_e";
   "sys_ptrace_x"; "sys_mmap_e"; "sys_brk_munmap_mmap_x"; "sys_renameat_x"; "sys_renameat2_x";
   "sys_symlinkat_x"; "sys_procexit_e"; "sys_sendfile_e"; "sys_sendfile_x"; "sys_quotactl_e";
   "sys_quotactl_x"; "sys_sysdigevent_e"; "sys_getresuid_and_gid_x"; "sys_signaldeliver_e";
   "sys_pagefault_e"; "sys_setns_e"; "sys_unshare_e"; "sys_flock_e"; "cpu_hotplug_e";
   "sys_semop_x"; "sys_semget_e"; "sys_semctl_e"; "sys_ppoll_e"; "sys_mount_e"; "sys_access_e";
   "sys_socket_x"; "sys_bpf_x"; "sys_unlinkat_x"; "sys_fchmodat_x"; "sys_chmod_x";
   "sys_fchmod_x"; "sys_mkdirat_x"; "sys_openat_x"; "sys_linkat_x"; "tcp_rcv_established_e";
   "tcp_drop_e"; "tcp_retransmit_skb_e"; "netif_receive_skb_e"; "net_dev_start_xmit_e";
   "tcp_connect_x"; "tcp_set_state_e"; "tcp_receive_reset_e"; "tcp_send_reset_e";
   "cpu_analysis_e"; "sys_epoll_wait_x"; "terminate_filler"]%string.

Fixpoint lookup_filler_id_from (j : Z) (l : list string) (name : string) : Z :=
  match l with
  | [] => -1
  | x :: l' => if String.eqb name x then j else lookup_filler_id_from (j + 1) l' name
  end.

Definition lookup_filler_id (name : string) : Z := lookup_filler_id_from 0 g_filler_names name.

(** The text behind a prefix, when it is one. *)
Fixpoint after (p s : string) : option string :=
  match p, s with
  | EmptyString, _ => Some s
  | String a p', String b s' => if Ascii.eqb a b then after p' s' else None
  | String _ _, EmptyString => None
  end.

(** ** One program. *)

(** What the kernel answers while a program is loaded: whether the kprobe event was
    created or exists, the descriptor of the program, the update of the program array,
    the raw tracepoint, the descriptor of the event's id file, the length read from it,
    the perf event and its two ioctls. *)
Record tp_env : Type := mk_tp {
  te_kprobe : bool;
  te_prog : Z;
  te_array : Z;
  te_raw_open : Z;
  te_open : Z;
  te_read : Z;
  te_perf : Z;
  te_enable : Z;
  te_set_bpf : Z }.

(** The kind of a section, with the event behind the prefix. *)
Inductive tp_kind : Set := raw_tp | plain_tp | kprobe_tp | kretprobe_tp | unspec_tp.

Definition split_event (event : string) : tp_kind * string :=
  match after "raw_tracepoint/" event with
  | Some ev => (raw_tp, ev)
  | None =>
      match after "tracepoint/" event with
      | Some ev => (plain_tp, ev)
      | None =>
          match after "kprobe/" event with
          | Some ev => (kprobe_tp, ev)
          | None =>
              match after "kretprobe/" event with
              | Some ev => (kretprobe_tp, ev)
              | None => (unspec_tp, event)
              end
          end
      end
  end.

Definition is_kp (k : tp_kind) : bool := match k with kprobe_tp | kretprobe_tp => true | _ => false end.
Definition is_raw (k : tp_kind) : bool := match k with raw_tp => true | _ => false end.

(** The table entries of a program that was loaded. *)
Definition add_prog (h : loader) (fd : Z) (full_event : string) : option loader :=
  let n := m_bpf_prog_cnt h in
  if (n <? 0) || (BPF_PROGS_MAX <=? n) then None
  else
    old ← m_bpf_progs h !! Z.to_nat n;
    let ps := <[Z.to_nat n := mk_prog fd (prog_efd old) full_event]> (m_bpf_progs h) in
    let r := m_bpf_prog_real_size h in
    if r <? n + 1 then
      if (r <? 0) || (BPF_PROGS_MAX <=? r) then None
      else Some (set_progs (set_kt h (<[Z.to_nat r := mk_kt full_event n true]> (kt_indices h)) (r + 1)) ps (n + 1))
    else Some (set_progs h ps (n + 1)).

(** The rest for a filler: its slot of the program array. *)
Definition load_filler (e : tp_env) (h : loader) (name : string) : option (loader * Z) :=
  if String.eqb name "" then Some (h, SCAP_FAILURE)
  else
    let prog_id := lookup_filler_id name in
    if prog_id =? -1 then Some (h, SCAP_FAILURE)
    else if te_array e <? 0 then Some (h, SCAP_FAILURE)
    else Some (set_fillers h (<[Z.to_nat prog_id := true]> (m_bpf_fillers h)), SCAP_SUCCESS).

(** The rest for an event: attaching; [efd] is stored last. *)
Definition attach (e : tp_env) (h : loader) (k : tp_kind) (event : string) : option (loader * Z) :=
  let store h efd :=
    let i := Z.to_nat (m_bpf_prog_cnt h - 1) in
    p ← m_bpf_progs h !! i;
    Some (set_progs h (<[i := mk_prog (prog_fd p) efd (prog_name p)]> (m_bpf_progs h)) (m_bpf_prog_cnt h),
          SCAP_SUCCESS) in
  if is_raw k then
    if te_raw_open e <? 0 then Some (h, SCAP_FAILURE) else store h (te_raw_open e)
  else if te_open e <? 0 then
    if String.eqb event "exceptions/page_fault_user" || String.eqb event "exceptions/page_fault_kernel"
    then Some (h, SCAP_SUCCESS)
    else Some (h, if is_kp k then SCAP_UNKNOWN_KPROBE else SCAP_FAILURE)
  else if (te_read e <? 0) || (256 <=? te_read e) then Some (h, SCAP_FAILURE)
  else if te_perf e <? 0 then Some (h, SCAP_FAILURE)
  else if negb (te_enable e =? 0) then Some (h, SCAP_FAILURE)
  else if negb (te_set_bpf e =? 0) then Some (h, SCAP_FAILURE)
  else store h (te_perf e).

Definition load_tracepoint (e : tp_env) (h : loader) (full_event : string) : option (loader * Z) :=
  let '(k, event) := split_event full_event in
  if is_kp k && negb (match after "filler/" event with Some _ => true | None => te_kprobe e end)
  then Some (h, SCAP_UNKNOWN_KPROBE)
  else if String.eqb event "" then Some (h, SCAP_FAILURE)
  else if te_prog e <? 0 then Some (h, SCAP_FAILURE)
  else
    h ← add_prog h (te_prog e) full_event;
    match after "filler/" event with
    | Some name => load_filler e h name
    | None => attach e h k event
    end.

(** ** The file. *)

(** A section as libelf decodes it: its name, type and [sh_info]; the relocations of a
    section of type [SHT_REL], each with the offset it patches and the value of its
    symbol; and the contents, as the code reads them: instructions, text, or the map
    definition at an offset. *)
Record elf_section : Type := mk_section {
  shname : string;
  sh_type : Z;
  sh_info : Z;
  sh_rels : list (Z * Z);
  d_insns : list bpf_insn;
  d_text : string;
  d_maps : Z -> bpf_map_def }.

(** The sections, where [get_elf_section] succeeds, and the symbols, each with its value
    and the index of its section. *)
Record elf_file : Type := mk_elf {
  sections : list (option elf_section);
  elf_symbols : list (Z * Z) }.

(** The static variables of [load_bpf_file], which outlive the handle. *)
Record load_statics : Type := mk_statics {
  first_load_map : bool;
  ls_maps : list bpf_map_data }.
Definition start_statics : load_statics := mk_statics true [].

(** What the kernel answers while the file is loaded. *)
Record load_env : Type := mk_load {
  le_release : option string;
  le_probe_version : string;
  le_open : bool;
  le_elf : option elf_file;
  le_map_create : nat -> Z;
  le_tp : string -> list bpf_insn -> tp_env }.

Definition cmp_symbols (l r : Z * Z) : Prop := fst l <= fst r.
#[global] Instance cmp_symbols_dec l r : Decision (cmp_symbols l r).
Proof. unfold cmp_symbols. apply _. Defined.

(** [load_elf_maps_section]: the maps in the order of their offsets. *)
Definition load_elf_maps_section (elf : elf_file) (maps_shndx : Z) : option (list bpf_map_data) :=
  sec ← sections elf !! Z.to_nat maps_shndx; sec ← sec;
  let syms := merge_sort cmp_symbols (base.filter (fun s => snd s = maps_shndx) (elf_symbols elf)) in
  Some (map (fun s => mk_map_data 0 (fst s) (d_maps sec (fst s))) syms).

Definition per_cpu_map (j : nat) : bool :=
  let j := Z.of_nat j in
  (j =? SYSDIG_PERF_MAP) || (j =? SYSDIG_LOCAL_STATE_MAP) || (j =? SYSDIG_FRAME_SCRATCH_MAP)
  || (j =? SYSDIG_TMP_SCRATCH_MAP).

Definition with_entries (d : bpf_map_def) (n : Z) : bpf_map_def :=
  mk_map_def (mdef_type d) (mdef_key_size d) (mdef_value_size d) n (mdef_flags d).

(** [load_maps] from the [j]-th map on. *)
Fixpoint load_maps (create : nat -> Z) (ncpus : Z) (j : nat) (maps : list bpf_map_data) (h : loader) :
    option (list bpf_map_data * loader * Z) :=
  match maps with
  | [] => Some ([], h, SCAP_SUCCESS)
  | m :: maps' =>
      if BPF_MAPS_MAX <=? Z.of_nat j then None
      else
        let d := if per_cpu_map j then with_entries (map_def m) ncpus else map_def m in
        let fd := create j in
        let m := mk_map_data fd (elf_offset m) d in
        let fds := <[j := fd]> (m_bpf_map_fds h) in
        if fd <? 0 then Some (m :: maps', set_map_fds h fds (m_bpf_prog_array_map_idx h), SCAP_FAILURE)
        else
          let arr := if mdef_type d =? BPF_MAP_TYPE_PROG_ARRAY then Z.of_nat j
                     else m_bpf_prog_array_map_idx h in
          '(rest, h, res) ← load_maps create ncpus (S j) maps' (set_map_fds h fds arr);
          Some (m :: rest, h, res)
  end.

Definition find_map (maps : list bpf_map_data) (value : Z) : option bpf_map_data :=
  List.find (fun m => elf_offset m =? value) maps.

(** [parse_relocations]; the instructions change before an error is found. *)
Fixpoint parse_relocations (maps : list bpf_map_data) (rels : list (Z * Z)) (insns : list bpf_insn) :
    option (list bpf_insn * Z) :=
  match rels with
  | [] => Some (insns, SCAP_SUCCESS)
  | (r_offset, st_value) :: rels' =>
      let i := Z.to_nat (r_offset / 8) in
      x ← insns !! i;
      if negb (code x =? LD_IMM_DW) then Some (insns, SCAP_FAILURE)
      else
        let x1 := mk_insn (code x) (dst_reg x) BPF_PSEUDO_MAP_FD (insn_off x) (imm x) in
        match find_map maps st_value with
        | Some m =>
            let x2 := mk_insn (code x1) (dst_reg x1) (src_reg x1) (insn_off x1) (s32 (map_fd m)) in
            parse_relocations maps rels' (<[i := x2]> insns)
        | None => Some (<[i := x1]> insns, SCAP_FAILURE)
        end
  end.

(** The first loop over the sections; [None] when a version does not match. *)
Record scan_result : Type := mk_scan { maps_shndx : Z; has_symbols : bool }.

Fixpoint scan_sections (e : load_env) (release : string) (j : Z) (l : list (option elf_section))
    (r : scan_result) : option scan_result :=
  match l with
  | [] => Some r
  | None :: l' => scan_sections e release (j + 1) l' r
  | Some s :: l' =>
      if String.eqb (shname s) "maps" then scan_sections e release (j + 1) l' (mk_scan j (has_symbols r))
      else if sh_type s =? SHT_SYMTAB then scan_sections e release (j + 1) l' (mk_scan (maps_shndx r) true)
      else if String.eqb (shname s) "kernel_version" && negb (String.eqb release (d_text s)) then None
      else if String.eqb (shname s) "probe_version" && negb (String.eqb (le_probe_version e) (d_text s)) then None
      else scan_sections e release (j + 1) l' r
  end.

(** The second loop: a section whose relocations fail is left as it is then. *)
Fixpoint relocate (maps : list bpf_map_data) (rels : list (option elf_section))
    (l : list (option elf_section)) : option (list (option elf_section)) :=
  match rels with
  | [] => Some l
  | Some s :: rels' =>
      if sh_type s =? SHT_REL then
        match l !! Z.to_nat (sh_info s) with
        | Some (Some t) =>
            '(insns, _) ← parse_relocations maps (sh_rels s) (d_insns t);
            relocate maps rels'
              (<[Z.to_nat (sh_info s) := Some (mk_section (shname t) (sh_type t) (sh_info t) (sh_rels t)
                   insns (d_text t) (d_maps t))]> l)
        | _ => relocate maps rels' l
        end
      else relocate maps rels' l
  | None :: rels' => relocate maps rels' l
  end.

(** [is_kt_enabled], and whether a program of that name is loaded. *)
Fixpoint kt_enabled_in (l : list kt_index) (name : string) : bool :=
  match l with
  | [] => true
  | k :: l' => if String.eqb name (kt_name k) then kt_interest k else kt_enabled_in l' name
  end.
Definition is_kt_enabled (h : loader) (name : string) : bool :=
  kt_enabled_in (take (Z.to_nat (m_bpf_prog_real_size h)) (kt_indices h)) name.
Definition already_attached (h : loader) (name : string) : bool :=
  existsb (fun p => String.eqb (prog_name p) name) (take (Z.to_nat (m_bpf_prog_cnt h)) (m_bpf_progs h)).

Definition is_program (name : string) : bool :=
  match split_event name with (unspec_tp, _) => false | _ => true end.

(** The third loop. *)
Fixpoint load_sections (e : load_env) (l : list (option elf_section)) (h : loader) :
    option (loader * Z) :=
  match l with
  | [] => Some (h, SCAP_SUCCESS)
  | None :: l' => load_sections e l' h
  | Some s :: l' =>
      if is_kt_enabled h (shname s) && negb (already_attached h (shname s)) && is_program (shname s) then
        '(h, res) ← load_tracepoint (le_tp e (shname s) (d_insns s)) h (shname s);
        if is_kp (fst (split_event (shname s))) && (res =? SCAP_UNKNOWN_KPROBE) then load_sections e l' h
        else if negb (res =? SCAP_SUCCESS) then Some (h, SCAP_FAILURE)
        else load_sections e l' h
      else load_sections e l' h
  end.

Definition load_bpf_file (e : load_env) (ncpus : Z) (st : load_statics) (h : loader) :
    option (load_statics * loader * Z) :=
  match le_release e with
  | None => Some (st, h, SCAP_FAILURE)
  | Some release =>
      if negb (le_open e) then Some (st, h, SCAP_FAILURE)
      else
        match le_elf e with
        | None => Some (st, h, SCAP_FAILURE)
        | Some elf =>
            match scan_sections e release 0 (sections elf) (mk_scan 0 false) with
            | None => Some (st, h, SCAP_FAILURE)
            | Some r =>
                if negb (has_symbols r) then Some (st, h, SCAP_FAILURE)
                else
                  let rest st h :=
                    l ← relocate (ls_maps st) (sections elf) (sections elf);
                    '(h, res) ← load_sections e l h;
                    Some (st, h, res) in
                  if negb (maps_shndx r =? 0) && first_load_map st then
                    match load_elf_maps_section elf (maps_shndx r) with
                    | None => Some (mk_statics false (ls_maps st), h, SCAP_FAILURE)
                    | Some maps =>
                        '(maps, h, res) ← load_maps (le_map_create e) ncpus 0 maps h;
                        if negb (res =? SCAP_SUCCESS) then Some (mk_statics false maps, h, SCAP_FAILURE)
                        else rest (mk_statics false maps) h
                    end
                  else rest st h
            end
        end
  end.

(** ** Switching programs off and on. *)

(** [close_prog]: the descriptors it closes; the slot is cleared. *)
Definition close_prog (p : bpf_prog) : list Z :=
  (if 0 <? prog_efd p then [prog_efd p] else []) ++ (if 0 <? prog_fd p then [prog_fd p] else []).

Definition PPM_IOCTL_MASK_SET_TP : Z := Z.lor (Z.shiftl 115 8) 24.
Definition PPM_IOCTL_MASK_UNSET_TP : Z := Z.lor (Z.shiftl 115 8) 25.

(** The array without the program at [i]: [memmove] and [memset]; a negative number of
    programs to move has no result. *)
Definition remove_prog (ps : list bpf_prog) (i : nat) (cnt : Z) : list bpf_prog :=
  let n := Z.to_nat cnt in
  take i ps ++ take (n - i) (drop (S i) ps) ++ [no_prog] ++ drop (S n) ps.

(** [scap_bpf_handle_kt_mask]; [load] is [load_bpf_file] on this handle. *)
Definition scap_bpf_handle_kt_mask (load : loader -> option (loader * Z)) (op kt_index : Z) (h : loader) :
    option (loader * Z) :=
  if (kt_index <? 0) || (m_bpf_prog_real_size h <? kt_index) then Some (h, SCAP_SUCCESS)
  else
    k ← kt_indices h !! Z.to_nat kt_index;
    let prg_idx := kt_idx k in
    if (prg_idx =? -1) && negb (op =? PPM_IOCTL_MASK_SET_TP) then Some (h, SCAP_SUCCESS)
    else if (0 <=? prg_idx) && negb (op =? PPM_IOCTL_MASK_UNSET_TP) then Some (h, SCAP_SUCCESS)
    else if op =? PPM_IOCTL_MASK_UNSET_TP then
      let kts := <[Z.to_nat kt_index := mk_kt (kt_name k) (-1) false]> (kt_indices h) in
      p ← m_bpf_progs h !! Z.to_nat prg_idx;
      let cnt := m_bpf_prog_cnt h - 1 in
      if cnt <? prg_idx then None else
      let h := set_kt h kts (m_bpf_prog_real_size h) in
      Some (add_closed (set_progs h (remove_prog (m_bpf_progs h) (Z.to_nat prg_idx) cnt) cnt) (close_prog p),
            SCAP_SUCCESS)
    else
      load (set_kt h (<[Z.to_nat kt_index := mk_kt (kt_name k) (kt_idx k) true]> (kt_indices h))
              (m_bpf_prog_real_size h)).

Definition scap_handle_ktmask (load : loader -> option (loader * Z)) (op kt : Z) (h : loader) :
    option (loader * Z) :=
  if negb ((op =? PPM_IOCTL_MASK_SET_TP) || (op =? PPM_IOCTL_MASK_UNSET_TP)) then Some (h, SCAP_FAILURE)
  else if BPF_PROGS_MAX <=? kt then Some (h, SCAP_FAILURE)
  else scap_bpf_handle_kt_mask load op kt h.

Definition scap_set_ktmask_bpf (load : loader -> option (loader * Z)) (kt : Z) (enabled : bool)
    (h : loader) : option (loader * Z) :=
  scap_handle_ktmask load (if enabled then PPM_IOCTL_MASK_SET_TP else PPM_IOCTL_MASK_UNSET_TP) kt h.

(** ** [sinsp_tp.cpp] *)

Fixpoint contains (p s : string) : bool :=
  match after p s with
  | Some _ => true
  | None => match s with EmptyString => false | String _ s' => contains p s' end
  end.

Definition kt_names (h : loader) : list (string * Z) :=
  imap (fun i k => (kt_name k, Z.of_nat i)) (take (Z.to_nat (m_bpf_prog_real_size h)) (kt_indices h)).

(** [get_all_kt]: a later entry replaces an earlier one of the same name. *)
Definition get_all_kt (h : loader) : gmap string Z :=
  foldl (fun m x => if contains "/filler/" (fst x) then m else <[fst x := snd x]> m) ∅ (kt_names h).

(** [update_ktindex] with its static map, filled by the first call; looking up a name
    that is not there adds it with the value 0. *)
Definition fill_kt_map (m : gmap string Z) (h : loader) : gmap string Z :=
  if decide (m = ∅) then foldl (fun m x => <[fst x := snd x]> m) ∅ (kt_names h) else m.

Fixpoint reindex (m : gmap string Z) (i : Z) (ps : list bpf_prog) (kts : list kt_index) :
    gmap string Z * list kt_index :=
  match ps with
  | [] => (m, kts)
  | p :: ps' =>
      let k := default 0 (m !! prog_name p) in
      let m := <[prog_name p := k]> m in
      let kts := alter (fun x => mk_kt (kt_name x) i (kt_interest x)) (Z.to_nat k) kts in
      reindex m (i + 1) ps' kts
  end.

Definition update_ktindex (m : gmap string Z) (h : loader) : gmap string Z * loader :=
  let m := fill_kt_map m h in
  let '(m, kts) := reindex m 0 (take (Z.to_nat (m_bpf_prog_cnt h)) (m_bpf_progs h)) (kt_indices h) in
  (m, set_kt h kts (m_bpf_prog_real_size h)).

(** [mark_kt_of_interest] on a live inspector; a failure is thrown after the update. *)
Definition mark_kt_of_interest (load : loader -> option (loader * Z)) (m : gmap string Z) (tp : Z)
    (enable : bool) (h : loader) : option (gmap string Z * loader * bool) :=
  '(h, ret) ← scap_set_ktmask_bpf load tp enable h;
  let '(m, h) := update_ktindex m h in
  Some (m, h, ret =? SCAP_SUCCESS).

(** ** [scap_bpf_load] *)

(** Writing a table of [n] entries to a map: what was written, and the result. *)
Fixpoint populate_map {A} (update : Z -> Z) (table : Z -> A) (n : nat) (j : Z) : list (Z * A) * Z :=
  match n with
  | O => ([], SCAP_SUCCESS)
  | S n' =>
      if negb (update j =? 0) then ([], SCAP_FAILURE)
      else let '(l, res) := populate_map update table n' (j + 1) in ((j, table j) :: l, res)
  end.

Definition populate_syscall_routing_table_map (update : Z -> Z) (routing : Z -> Z) : list (Z * Z) * Z :=
  populate_map update routing (Z.to_nat SYSCALL_TABLE_SIZE) 0.

Definition populate_syscall_table_map {P} (update : Z -> Z) (pairs : Z -> P) : list (Z * P) * Z :=
  populate_map update pairs (Z.to_nat SYSCALL_TABLE_SIZE) 0.

Definition populate_event_table_map (update : Z -> Z) : list (Z * ppm_event_info) * Z :=
  populate_map update g_event_info (Z.to_nat PPM_EVENT_MAX) 0.

(** [PPM_FILLER_MAX] fillers have to be loaded. *)
Definition populate_fillers_table_map (update : Z -> Z) (h : loader) :
    list (Z * option ppm_event_entry) * Z :=
  let '(l, res) := populate_map update g_ppm_events (Z.to_nat PPM_EVENT_MAX) 0 in
  if negb (res =? SCAP_SUCCESS) then (l, res)
  else (l, if forallb id (take (length g_filler_names) (m_bpf_fillers h)) then SCAP_SUCCESS else SCAP_FAILURE).

(** The files [set_runtime_params] writes: [None] when one cannot be opened, else whether
    it could be written. *)
Record runtime_env : Type := mk_runtime {
  re_setrlimit : Z;
  re_jit_enable : option bool;
  re_jit_harden : option bool;
  re_jit_kallsyms : option bool }.

Definition set_runtime_params (e : runtime_env) : Z :=
  if negb (re_setrlimit e =? 0) then SCAP_FAILURE
  else
    match re_jit_enable e with
    | None => SCAP_SUCCESS
    | Some false => SCAP_FAILURE
    | Some true =>
        match re_jit_harden e with
        | None | Some false => SCAP_FAILURE
        | Some true =>
            match re_jit_kallsyms e with
            | None => SCAP_SUCCESS
            | Some b => if b then SCAP_SUCCESS else SCAP_FAILURE
            end
        end
    end.

(** What the kernel answers while the perf buffers are opened: whether a CPU is online,
    when its file can be read, the perf event, its entry of the perf map, its ioctl and
    its mapping. *)
Record dev_env : Type := mk_dev_env {
  de_online : nat -> option bool;
  de_perf : nat -> Z;
  de_update : nat -> Z;
  de_enable : nat -> Z;
  de_mmap : nat -> bool }.

(** The loop over the CPUs from [j] on: the devices, each the perf buffer of a CPU. *)
Fixpoint open_devices (e : dev_env) (ndevs : nat) (todo j : nat) (devs : list (nat * Z)) :
    list (nat * Z) * Z :=
  match todo with
  | O => (devs, if negb (Nat.eqb (length devs) ndevs) then SCAP_FAILURE else SCAP_SUCCESS)
  | S todo' =>
      match (if Nat.eqb j 0 then Some true else de_online e j) with
      | None => (devs, SCAP_FAILURE)
      | Some false => open_devices e ndevs todo' (S j) devs
      | Some true =>
          if (ndevs <=? length devs)%nat then (devs, SCAP_FAILURE)
          else if de_perf e j <? 0 then (devs, SCAP_FAILURE)
          else
            let devs := devs ++ [(j, de_perf e j)] in
            if negb (de_update e j =? 0) then (devs, SCAP_FAILURE)
            else if negb (de_enable e j =? 0) then (devs, SCAP_FAILURE)
            else if negb (de_mmap e j) then (devs, SCAP_FAILURE)
            else open_devices e ndevs todo' (S j) devs
      end
  end.

(** [scap_bpf_load] of a probe on a handle for [ncpus] CPUs and [ndevs] devices; [update]
    is what the kernel answers to an update of a key of a map, and the settings are the
    entry of the settings map. *)
Definition scap_bpf_load {P} (routing : Z -> Z) (pairs : Z -> P) (re : runtime_env) (le : load_env)
    (update : Z -> Z -> Z) (de : dev_env) (be : boot_env) (ncpus ndevs : nat) (st : load_statics) (h : loader) (s : settings_value) :
    option (load_statics * loader * list (nat * Z) * settings_value * Z) :=
  if negb (set_runtime_params re =? SCAP_SUCCESS) then Some (st, h, [], s, SCAP_FAILURE)
  else
    let h := set_map_fds h (m_bpf_map_fds h) (-1) in
    '(st, h, res) ← load_bpf_file le (Z.of_nat ncpus) st h;
    if negb (res =? SCAP_SUCCESS) then Some (st, h, [], s, SCAP_FAILURE)
    else if negb ((snd (populate_syscall_routing_table_map (update SYSDIG_SYSCALL_CODE_ROUTING_TABLE) routing) =? SCAP_SUCCESS)
                  && (snd (populate_syscall_table_map (update SYSDIG_SYSCALL_TABLE) pairs) =? SCAP_SUCCESS)
                  && (snd (populate_event_table_map (update SYSDIG_EVENT_INFO_TABLE)) =? SCAP_SUCCESS)
                  && (snd (populate_fillers_table_map (update SYSDIG_FILLERS_TABLE) h) =? SCAP_SUCCESS))
    then Some (st, h, [], s, SCAP_FAILURE)
    else
      let '(devs, res) := open_devices de ndevs ncpus 0 [] in
      if negb (res =? SCAP_SUCCESS) then Some (st, h, devs, s, SCAP_FAILURE)
      else let '(s, res) := set_default_settings be s in Some (st, h, devs, s, res).

(** [scap_bpf_close]: the programs and the maps; the static variables stay. *)
Definition scap_bpf_close (h : loader) : loader :=
  mk_loader (replicate 128 no_prog) 0 (m_bpf_fillers h)
    (map (fun fd => if 0 <? fd then 0 else fd) (m_bpf_map_fds h)) (-1)
    (imap (fun i k => if Z.of_nat i <? m_bpf_prog_real_size h then mk_kt (kt_name k) (-1) (kt_interest k) else k)
       (kt_indices h))
    (m_bpf_prog_real_size h)
    (closed h ++ flat_map close_prog (m_bpf_progs h) ++ base.filter (fun fd => 0 < fd) (m_bpf_map_fds h)).
