(* ===== verification/BpfLoaderSpec.v ===== *)
(** * Switching eBPF programs off and on

    The table of loaded programs against an abstract set of programs that are wanted:
    whatever programs an application switches off and on, those loaded are exactly those
    wanted, each once, and the indices libscap keeps point at them.  The file also has
    what the relocations do to the instructions, and the ways in which the table and the
    static variables of the loader go wrong. *)

From Stdlib Require Import ZArith Lia List Bool String Ascii.
From stdpp Require Import base tactics list numbers option strings gmap sorting.
From S2P Require Import Prelude Bytes EventDefs EventTable FillerTable Reader BpfRing BpfControl BpfLoader.
Import ListNotations.
Local Open Scope Z_scope.

(** ** The table. *)

Definition attached (h : loader) : list string :=
  map prog_name (take (Z.to_nat (m_bpf_prog_cnt h)) (m_bpf_progs h)).
Definition known (h : loader) : list string :=
  map kt_name (take (Z.to_nat (m_bpf_prog_real_size h)) (kt_indices h)).

(** What [kt_indices] says of a program. *)
Definition kt_right (l : list string) (k : kt_index) : Prop :=
  (kt_name k ∉ l -> kt_idx k = -1) /\
  (forall j, l !! j = Some (kt_name k) -> kt_idx k = Z.of_nat j) /\
  (kt_interest k = true <-> kt_name k ∈ l).

Record kt_shape (h : loader) : Prop := {
  ks_cnt : 0 <= m_bpf_prog_cnt h <= m_bpf_prog_real_size h;
  ks_real : m_bpf_prog_real_size h <= 128;
  ks_progs : length (m_bpf_progs h) = 128%nat;
  ks_kts : length (kt_indices h) = 128%nat;
  ks_known : NoDup (known h);
  ks_attached : NoDup (attached h);
  ks_sub : attached h ⊆ known h }.

Record kt_inv (h : loader) : Prop := {
  ki_shape : kt_shape h;
  ki_right : Forall (kt_right (attached h)) (take (Z.to_nat (m_bpf_prog_real_size h)) (kt_indices h)) }.

Lemma known_lookup h i k :
  (i < Z.to_nat (m_bpf_prog_real_size h))%nat -> kt_indices h !! i = Some k -> known h !! i = Some (kt_name k).
Proof. intros Hi Hk. unfold known. rewrite list_lookup_fmap, lookup_take_lt by done. by rewrite Hk. Qed.

Lemma known_inv h i name :
  known h !! i = Some name ->
  (i < Z.to_nat (m_bpf_prog_real_size h))%nat /\ exists k, kt_indices h !! i = Some k /\ kt_name k = name.
Proof.
  unfold known. rewrite list_lookup_fmap, fmap_Some. intros (k & Hk & ->).
  apply lookup_take_Some in Hk as [Hk Hi]. eauto.
Qed.

Lemma attached_lookup h j name :
  attached h !! j = Some name ->
  (j < Z.to_nat (m_bpf_prog_cnt h))%nat /\ exists p, m_bpf_progs h !! j = Some p /\ prog_name p = name.
Proof.
  unfold attached. rewrite list_lookup_fmap, fmap_Some. intros (k & Hk & ->).
  apply lookup_take_Some in Hk as [Hk Hi]. eauto.
Qed.

Lemma length_attached h :
  kt_shape h -> length (attached h) = Z.to_nat (m_bpf_prog_cnt h).
Proof.
  intros [H1 H2 H3 _ _ _ _]. unfold attached. rewrite length_map, length_take, H3. lia.
Qed.

Lemma length_known h : kt_shape h -> length (known h) = Z.to_nat (m_bpf_prog_real_size h).
Proof.
  intros [H1 H2 _ H4 _ _ _]. unfold known. rewrite length_map, length_take, H4. lia.
Qed.

(** ** The map from names to indices. *)

(** The static map of [update_ktindex] is empty or right. *)
Definition map_right (m : gmap string Z) (names : list string) : Prop :=
  forall name q, m !! name = Some q <-> 0 <= q /\ names !! Z.to_nat q = Some name.

Lemma fold_names (l : list (string * Z)) : forall m : gmap string Z,
  NoDup (map fst l) ->
  forall name q, foldl (fun m x => <[fst x := snd x]> m) m l !! name = Some q <->
    (name, q) ∈ l \/ (name ∉ map fst l /\ m !! name = Some q).
Proof.
  induction l as [|[n v] l IH]; intros m Hnd name q; cbn [foldl map fst snd] in *.
  - rewrite elem_of_nil. split; [intros H; right; split; [apply not_elem_of_nil|done]|]. by intros [[]|[_ ?]].
  - apply NoDup_cons in Hnd as [Hn Hnd]. rewrite IH by done. rewrite elem_of_cons, not_elem_of_cons.
    split.
    + intros [H|[H1 H2]]; [by left; right|]. apply lookup_insert_Some in H2 as [[-> ->]|[Hne H2]]; [by left; left|].
      right. by split.
    + intros [[H|H]|[[H1 H2] H3]]; [|by left|].
      * simplify_eq. right. split; [done|]. by rewrite lookup_insert_eq.
      * right. split; [done|]. by rewrite lookup_insert_ne.
Qed.

Lemma kt_names_fst h : map fst (kt_names h) = known h.
Proof.
  unfold kt_names, known.
  apply list_eq. intros i. change (map fst) with (fmap (M := list) (@fst string Z)).
  change (map kt_name) with (fmap (M := list) kt_name).
  rewrite !list_lookup_fmap, list_lookup_imap. by destruct (_ !! i).
Qed.

Lemma fill_right m h :
  NoDup (known h) -> m = ∅ \/ map_right m (known h) -> map_right (fill_kt_map m h) (known h).
Proof.
  intros Hnd Hm. unfold fill_kt_map. case_decide as E; [|by destruct Hm].
  intros name q. rewrite fold_names by (by rewrite kt_names_fst). rewrite lookup_empty. unfold kt_names.
  assert (Hlook : forall i, imap (fun i k => (kt_name k, Z.of_nat i))
      (take (Z.to_nat (m_bpf_prog_real_size h)) (kt_indices h)) !! i =
      (fun n => (n, Z.of_nat i)) <$> known h !! i).
  { intros i. rewrite list_lookup_imap. unfold known.
    change (map kt_name) with (fmap (M := list) kt_name). rewrite list_lookup_fmap. by destruct (_ !! i). }
  split.
  - intros [H|[_ H]]; [|done]. apply list_elem_of_lookup in H as [i Hi]. rewrite Hlook in Hi.
    apply fmap_Some in Hi as (n & Hn & [= -> ->]). rewrite Nat2Z.id. split; [lia|done].
  - intros [Hq Hn]. left. apply list_elem_of_lookup. exists (Z.to_nat q). rewrite Hlook, Hn. cbn.
    by rewrite Z2Nat.id.
Qed.

(** ** Writing the indices again. *)

(** The entry of the table for the program [names !! q], when the loaded programs from
    index [i] on are [ps]. *)
Definition reindexed (names : list string) (i : Z) (ps : list string) (q : nat) (k k' : kt_index) : Prop :=
  kt_name k' = kt_name k /\ kt_interest k' = kt_interest k /\
  match names !! q with
  | Some name => (name ∉ ps -> kt_idx k' = kt_idx k) /\
                 (forall j, ps !! j = Some name -> kt_idx k' = i + Z.of_nat j)
  | None => kt_idx k' = kt_idx k
  end.

Lemma reindex_spec names m ps : forall i kts,
  NoDup names -> map_right m names -> NoDup (map prog_name ps) -> map prog_name ps ⊆ names ->
  (length names <= length kts)%nat ->
  exists kts', reindex m i ps kts = (m, kts') /\ length kts' = length kts /\
    forall q k, kts !! q = Some k -> exists k', kts' !! q = Some k' /\
      reindexed names i (map prog_name ps) q k k'.
Proof.
  induction ps as [|p ps IH]; intros i kts Hnd Hm Hps Hsub Hlen; cbn [reindex map] in *.
  - exists kts. split; [done|]. split; [done|]. intros q k Hk. exists k. split; [done|]. split; [done|].
    split; [done|]. destruct (names !! q); [|done]. split; [done|]. intros j Hj. by rewrite lookup_nil in Hj.
  - apply NoDup_cons in Hps as [Hp Hps].
    assert (Hin : prog_name p ∈ names) by (apply Hsub, list_elem_of_here).
    apply list_elem_of_lookup in Hin as [q0 Hq0].
    assert (Hmq : m !! prog_name p = Some (Z.of_nat q0)) by (apply Hm; rewrite Nat2Z.id; split; [lia|done]).
    rewrite Hmq. change (default 0 (Some (Z.of_nat q0))) with (Z.of_nat q0). rewrite insert_id by done. rewrite Nat2Z.id.
    set (kts1 := alter (fun x => mk_kt (kt_name x) i (kt_interest x)) q0 kts).
    destruct (IH (i + 1) kts1 Hnd Hm Hps) as (kts' & E & Hl & Hspec).
    { intros x Hx. apply Hsub. by apply list_elem_of_further. }
    { unfold kts1. by rewrite length_alter. }
    exists kts'. split; [exact E|]. split; [rewrite Hl; unfold kts1; by rewrite length_alter|].
    intros q k Hk. destruct (decide (q0 = q)) as [<-|Hne].
    + destruct (Hspec q0 (mk_kt (kt_name k) i (kt_interest k))) as (k' & Hk' & H1 & H2 & H3).
      { unfold kts1. by rewrite list_lookup_alter_eq, Hk. }
      exists k'. split; [done|]. split; [done|]. split; [done|]. rewrite Hq0 in *. destruct H3 as [H3 _].
      split; [intros Hn; destruct Hn; apply list_elem_of_here|]. intros j Hj. rewrite H3 by done.
      destruct j as [|j]; [cbn; lia|]. cbn in Hj. destruct Hp. by eapply list_elem_of_lookup_2.
    + destruct (Hspec q k) as (k' & Hk' & H1 & H2 & H3).
      { unfold kts1. by rewrite list_lookup_alter_ne. }
      exists k'. split; [done|]. split; [done|]. split; [done|]. destruct (names !! q) as [name|] eqn:Hq; [|done].
      assert (Hnp : name <> prog_name p).
      { intros ->. apply Hne. by eapply (NoDup_lookup names). }
      destruct H3 as [H3 H4]. split.
      * intros Hn. apply H3. intros Hx. apply Hn. by apply list_elem_of_further.
      * intros [|j] Hj; [cbn in Hj; congruence|]. cbn in Hj. rewrite (H4 j Hj). lia.
Qed.

(** After the update the table is right when the entries of the programs that are not
    loaded say so, and the wishes are those of the loaded ones. *)
Lemma update_ktindex_right m h :
  kt_shape h -> m = ∅ \/ map_right m (known h) ->
  Forall (fun k => (kt_name k ∉ attached h -> kt_idx k = -1) /\ (kt_interest k = true <-> kt_name k ∈ attached h))
    (take (Z.to_nat (m_bpf_prog_real_size h)) (kt_indices h)) ->
  exists m' h', update_ktindex m h = (m', h') /\ kt_inv h' /\ map_right m' (known h') /\
    known h' = known h /\ m_bpf_progs h' = m_bpf_progs h /\ m_bpf_prog_cnt h' = m_bpf_prog_cnt h /\
    closed h' = closed h.
Proof.
  intros Hs Hm Hk. pose proof (fill_right m h (ks_known _ Hs) Hm) as Hm'. unfold update_ktindex.
  set (n := Z.to_nat (m_bpf_prog_real_size h)) in *.
  assert (Hatt : map prog_name (take (Z.to_nat (m_bpf_prog_cnt h)) (m_bpf_progs h)) = attached h) by done.
  destruct (reindex_spec (known h) (fill_kt_map m h) (take (Z.to_nat (m_bpf_prog_cnt h)) (m_bpf_progs h)) 0
              (kt_indices h) (ks_known _ Hs) Hm') as (kts' & -> & Hl & Hspec).
  { rewrite Hatt. apply Hs. }
  { rewrite Hatt. apply Hs. }
  { rewrite (length_known h Hs), (ks_kts _ Hs). pose proof (ks_real _ Hs). lia. }
  assert (Hname : map kt_name (take n kts') = known h).
  { apply list_eq. intros q. unfold known. fold n. change (map kt_name) with (fmap (M := list) kt_name).
    rewrite !list_lookup_fmap. destruct (decide (q < n)%nat) as [Hq|Hq].
    - rewrite !lookup_take_lt by done. destruct (kt_indices h !! q) as [k|] eqn:Hkq.
      + destruct (Hspec q k Hkq) as (k' & -> & H1 & _). cbn. by rewrite H1.
      + rewrite (lookup_ge_None_2 kts'); [done|]. rewrite Hl. by apply lookup_ge_None.
    - by rewrite !lookup_take_ge by lia. }
  eexists _, _. split; [reflexivity|].
  split; [split|]; [ | |split; [|split; [|done]]].
  - destruct Hs as [S1 S2 S3 S4 S5 S6 S7]. split; try done; unfold known; cbn [set_kt kt_indices m_bpf_prog_real_size].
    + by rewrite Hl.
    + fold n. by rewrite Hname.
    + fold n. by rewrite Hname.
  - cbn [set_kt kt_indices m_bpf_prog_real_size]. fold n. apply Forall_lookup. intros q k' Hq.
    apply lookup_take_Some in Hq as [Hq Hqn].
    destruct (kt_indices h !! q) as [k|] eqn:Hkq.
    2: { apply lookup_ge_None in Hkq. apply lookup_lt_Some in Hq. lia. }
    destruct (Hspec q k Hkq) as (k1 & Hk1 & H1 & H2 & H3). assert (k1 = k') as -> by congruence.
    rewrite (known_lookup h q k Hqn Hkq), Hatt in H3. destruct H3 as [H3 H4].
    eapply Forall_lookup_1 in Hk as [H5 H6]; [|rewrite lookup_take_lt by done; exact Hkq].
    unfold kt_right. rewrite H1, H2. change (attached (set_kt h kts' (m_bpf_prog_real_size h))) with (attached h).
    split; [intros Hn; rewrite H3 by done; by apply H5|]. split; [intros j Hj; rewrite (H4 j Hj); lia|exact H6].
  - unfold known at 1. cbn [set_kt kt_indices m_bpf_prog_real_size]. fold n. by rewrite Hname.
  - unfold known at 1. cbn [set_kt kt_indices m_bpf_prog_real_size]. fold n. by rewrite Hname.
Qed.

(** ** Switching a program off. *)

Lemma filter_out_none {A} `{EqDecision A} (x : A) (l : list A) :
  x ∉ l -> base.filter (fun y => y <> x) l = l.
Proof.
  induction l as [|y l IH]; intros Hx; [done|]. apply not_elem_of_cons in Hx as [Hn Hx].
  rewrite filter_cons_True by congruence. by rewrite IH.
Qed.

Lemma filter_out_one {A} `{EqDecision A} (x : A) (l : list A) : forall j,
  NoDup l -> l !! j = Some x -> base.filter (fun y => y <> x) l = take j l ++ drop (S j) l.
Proof.
  induction l as [|y l IH]; intros j Hnd Hj; [done|]. apply NoDup_cons in Hnd as [Hy Hnd].
  destruct j as [|j]; cbn in Hj.
  - simplify_eq. rewrite filter_cons_False by (intros H; by apply H). cbn. rewrite drop_0. by apply filter_out_none.
  - rewrite filter_cons_True; [cbn; f_equal; by apply IH|]. intros ->. apply Hy. by eapply list_elem_of_lookup_2.
Qed.

Lemma length_remove_prog ps i cnt :
  (i <= Z.to_nat cnt < length ps)%nat -> length (remove_prog ps i cnt) = length ps.
Proof.
  intros H. unfold remove_prog. rewrite !length_app, !length_take, !length_drop. cbn [length]. lia.
Qed.

Lemma remove_prog_take ps i cnt :
  (i <= Z.to_nat cnt < length ps)%nat ->
  take (Z.to_nat cnt) (remove_prog ps i cnt) =
  take i (take (S (Z.to_nat cnt)) ps) ++ drop (S i) (take (S (Z.to_nat cnt)) ps).
Proof.
  intros H. unfold remove_prog. set (n := Z.to_nat cnt) in *.
  rewrite app_assoc, take_app_le, take_ge by (rewrite length_app, !length_take, length_drop; lia).
  f_equal.
  - by rewrite take_take, Nat.min_l by lia.
  - by rewrite skipn_firstn_comm.
Qed.

Lemma off_shape h i name kts :
  kt_shape h -> attached h !! i = Some name -> length kts = 128%nat ->
  map kt_name (take (Z.to_nat (m_bpf_prog_real_size h)) kts) = known h ->
  let cnt := m_bpf_prog_cnt h - 1 in
  let h' := set_progs (set_kt h kts (m_bpf_prog_real_size h)) (remove_prog (m_bpf_progs h) i cnt) cnt in
  kt_shape h' /\ known h' = known h /\ attached h' = base.filter (fun y => y <> name) (attached h).
Proof.
  intros Hs Hi Hl Hk cnt h'. pose proof Hs as [S1 S2 S3 S4 S5 S6 S7].
  destruct (attached_lookup h i name Hi) as [Hlt _].
  assert (Hrange : (i <= Z.to_nat cnt < length (m_bpf_progs h))%nat) by (unfold cnt; lia).
  assert (Hatt : attached h' = base.filter (fun y => y <> name) (attached h)).
  { rewrite (filter_out_one name (attached h) i) by done. unfold attached. cbn [h' set_progs m_bpf_prog_cnt m_bpf_progs].
    rewrite remove_prog_take by done. rewrite map_app, <- firstn_map, <- skipn_map.
    replace (S (Z.to_nat cnt)) with (Z.to_nat (m_bpf_prog_cnt h)) by (unfold cnt; lia). done. }
  split; [|done]. split; cbn [h' set_progs set_kt m_bpf_prog_cnt m_bpf_prog_real_size m_bpf_progs kt_indices]; try done.
  - unfold cnt. lia.
  - by rewrite length_remove_prog.
  - unfold known. cbn [h' set_progs set_kt m_bpf_prog_real_size kt_indices]. by rewrite Hk.
  - fold h'. rewrite Hatt. by apply NoDup_filter.
  - fold h'. rewrite Hatt. unfold known at 1. cbn [h' set_progs set_kt m_bpf_prog_real_size kt_indices]. rewrite Hk.
    intros x Hx. apply list_elem_of_filter in Hx as [_ Hx]. by apply S7.
Qed.

(** Removing one name and its entry leaves the others right. *)
Lemma right_after_off h tp k :
  kt_inv h -> kt_indices h !! tp = Some k -> (tp < Z.to_nat (m_bpf_prog_real_size h))%nat ->
  Forall (fun k' => (kt_name k' ∉ base.filter (fun y => y <> kt_name k) (attached h) ->
                       kt_name k' <> kt_name k -> kt_idx k' = -1) /\
                    (kt_name k' <> kt_name k ->
                       kt_interest k' = true <-> kt_name k' ∈ base.filter (fun y => y <> kt_name k) (attached h)))
    (take (Z.to_nat (m_bpf_prog_real_size h)) (kt_indices h)).
Proof.
  intros [_ Hr] _ _. eapply List.Forall_impl; [|exact Hr]. intros k' (H1 & _ & H3). split.
  - intros Hn Hne. apply H1. intros Hin. apply Hn. by apply list_elem_of_filter.
  - intros Hne. rewrite H3, list_elem_of_filter. tauto.
Qed.

Lemma known_set h tp k idx b :
  kt_indices h !! tp = Some k ->
  map kt_name (take (Z.to_nat (m_bpf_prog_real_size h)) (<[tp := mk_kt (kt_name k) idx b]> (kt_indices h))) = known h.
Proof.
  intros Hk. unfold known. change (map kt_name) with (fmap (M := list) kt_name).
  rewrite !fmap_take. f_equal. rewrite list_fmap_insert. cbn [kt_name].
  apply list_insert_id. by rewrite list_lookup_fmap, Hk.
Qed.

(** The entries but one. *)
Lemma Forall_set h tp k k0 (P : kt_index -> Prop) :
  kt_shape h -> kt_indices h !! tp = Some k -> kt_name k0 = kt_name k ->
  (tp < Z.to_nat (m_bpf_prog_real_size h))%nat ->
  Forall (fun k' => kt_name k' <> kt_name k -> P k') (take (Z.to_nat (m_bpf_prog_real_size h)) (kt_indices h)) ->
  P k0 -> Forall P (take (Z.to_nat (m_bpf_prog_real_size h)) (<[tp := k0]> (kt_indices h))).
Proof.
  intros Hs Hk Hn Htp Hall H0. apply Forall_lookup. intros q k' Hq. apply lookup_take_Some in Hq as [Hq Hqn].
  apply list_lookup_insert_Some in Hq as [(<- & <- & _)|[Hne Hq]]; [done|].
  eapply Forall_lookup_1 in Hall; [|rewrite lookup_take_lt by done; exact Hq]. apply Hall.
  intros E. apply Hne. apply (NoDup_lookup (known h) tp q (kt_name k) (ks_known _ Hs)).
  - by apply known_lookup.
  - rewrite <- E. by apply known_lookup.
Qed.

Definition programs_named (h : loader) (name : string) : list bpf_prog :=
  base.filter (fun p => prog_name p = name) (take (Z.to_nat (m_bpf_prog_cnt h)) (m_bpf_progs h)).

Lemma programs_named_one h j p :
  NoDup (attached h) -> (j < Z.to_nat (m_bpf_prog_cnt h))%nat -> m_bpf_progs h !! j = Some p ->
  programs_named h (prog_name p) = [p].
Proof.
  unfold attached, programs_named. intros Hnd Hj Hp.
  assert (Hp' : take (Z.to_nat (m_bpf_prog_cnt h)) (m_bpf_progs h) !! j = Some p) by (by rewrite lookup_take_lt).
  revert Hnd Hp'. generalize (take (Z.to_nat (m_bpf_prog_cnt h)) (m_bpf_progs h)). clear Hj Hp. intros l. revert j.
  induction l as [|x l IH]; intros j Hnd Hj; [done|]. cbn [map] in Hnd. apply NoDup_cons in Hnd as [Hx Hnd].
  destruct j as [|j]; cbn in Hj.
  - simplify_eq. rewrite filter_cons_True by done. f_equal.
    clear -Hx. induction l as [|y l IHl]; [done|]. cbn [map] in Hx. apply not_elem_of_cons in Hx as [H1 H2].
    rewrite filter_cons_False by congruence. by apply IHl.
  - rewrite filter_cons_False; [by eapply IH|]. intros E. apply Hx. rewrite E.
    apply (list_elem_of_fmap_2 prog_name). by eapply list_elem_of_lookup_2.
Qed.

Lemma programs_named_none h name : name ∉ attached h -> programs_named h name = [].
Proof.
  unfold attached, programs_named. generalize (take (Z.to_nat (m_bpf_prog_cnt h)) (m_bpf_progs h)).
  intros l Hn. induction l as [|y l IH]; [done|]. cbn [map] in Hn. apply not_elem_of_cons in Hn as [H1 H2].
  rewrite filter_cons_False by congruence. by apply IH.
Qed.

Lemma switch_off load m tp k h :
  kt_inv h -> m = ∅ \/ map_right m (known h) ->
  0 <= tp < m_bpf_prog_real_size h -> kt_indices h !! Z.to_nat tp = Some k ->
  exists m' h', mark_kt_of_interest load m tp false h = Some (m', h', true) /\ kt_inv h' /\
    map_right m' (known h') /\ known h' = known h /\
    attached h' = base.filter (fun y => y <> kt_name k) (attached h) /\
    closed h' = closed h ++ flat_map close_prog (programs_named h (kt_name k)).
Proof.
  intros Hi Hm Htp Hk. pose proof Hi as [Hs Hr]. pose proof (ks_real _ Hs) as Hreal.
  assert (Htp' : (Z.to_nat tp < Z.to_nat (m_bpf_prog_real_size h))%nat) by lia.
  pose proof (Forall_lookup_1 _ _ (Z.to_nat tp) k Hr) as Hkr. rewrite lookup_take_lt in Hkr by done.
  specialize (Hkr Hk) as (Hk1 & Hk2 & Hk3).
  unfold mark_kt_of_interest, scap_set_ktmask_bpf, scap_handle_ktmask, scap_bpf_handle_kt_mask.
  replace (negb (_ || _)) with false by reflexivity.
  rewrite (proj2 (Z.leb_gt BPF_PROGS_MAX tp)) by (unfold BPF_PROGS_MAX; lia).
  rewrite (proj2 (Z.ltb_ge tp 0)), (proj2 (Z.ltb_ge (m_bpf_prog_real_size h) tp)) by lia. cbn [orb].
  rewrite Hk. cbn [mbind option_bind].
  replace (PPM_IOCTL_MASK_UNSET_TP =? PPM_IOCTL_MASK_SET_TP) with false by reflexivity.
  rewrite Z.eqb_refl. cbn [negb]. rewrite andb_true_r, andb_false_r.
  destruct (decide (kt_name k ∈ attached h)) as [Hin|Hout].
  - apply list_elem_of_lookup in Hin as [j Hj]. rewrite (Hk2 j Hj).
    rewrite (proj2 (Z.eqb_neq (Z.of_nat j) (-1))) by lia. rewrite Nat2Z.id.
    destruct (attached_lookup h j _ Hj) as (Hjc & p & Hp & Hpn). rewrite Hp. cbn [mbind option_bind].
    rewrite (proj2 (Z.ltb_ge _ _)) by lia.
    set (k0 := mk_kt (kt_name k) (-1) false).
    set (h1 := set_progs (set_kt h (<[Z.to_nat tp := k0]> (kt_indices h)) (m_bpf_prog_real_size h))
                 (remove_prog (m_bpf_progs h) j (m_bpf_prog_cnt h - 1)) (m_bpf_prog_cnt h - 1)).
    destruct (off_shape h j (kt_name k) (<[Z.to_nat tp := k0]> (kt_indices h)) Hs Hj) as (Hs1 & Hkn1 & Ha1).
    { by rewrite length_insert, (ks_kts _ Hs). }
    { by apply known_set. }
    fold h1 in Hs1, Hkn1, Ha1. set (h2 := add_closed h1 (close_prog p)).
    destruct (update_ktindex_right m h2) as (m' & h' & E & Hi' & Hm' & Hkn' & Hp' & Hc' & Hcl').
    + by destruct Hs1; split.
    + change (known h2) with (known h1). by rewrite Hkn1.
    + change (attached h2) with (attached h1). rewrite Ha1.
      change (kt_indices h2) with (<[Z.to_nat tp := k0]> (kt_indices h)).
      change (m_bpf_prog_real_size h2) with (m_bpf_prog_real_size h).
      apply (Forall_set h (Z.to_nat tp) k k0); try done.
      * eapply List.Forall_impl; [|by eapply right_after_off]. intros k' [H1 H2] Hne. split; [intros; by apply H1|by apply H2].
      * cbn [k0 kt_name kt_idx kt_interest]. split; [done|]. split; [done|]. intros Hx.
        apply list_elem_of_filter in Hx as [[] _]. done.
    + exists m', h'.
      split; [transitivity (let '(a, b) := update_ktindex m h2 in Some (a, b, true)); [done|by rewrite E]|].
      split; [done|]. split; [done|].
      split; [by rewrite Hkn'|]. split.
      * unfold attached at 1. rewrite Hp', Hc'. exact Ha1.
      * rewrite Hcl'. rewrite <- Hpn, (programs_named_one h j p (ks_attached _ Hs) Hjc Hp). cbn [flat_map].
        by rewrite app_nil_r.
  - rewrite (Hk1 Hout).
    destruct (update_ktindex_right m h) as (m' & h' & E & Hi' & Hm' & Hkn' & Hp' & Hc' & Hcl'); [done..| |].
    + eapply List.Forall_impl; [|exact Hr]. intros k' (H1 & _ & H3). by split.
    + exists m', h'.
      split; [transitivity (let '(a, b) := update_ktindex m h in Some (a, b, true)); [done|by rewrite E]|].
      split; [done|]. split; [done|]. split; [done|].
      rewrite (filter_out_none _ _ Hout), (programs_named_none _ _ Hout), Hcl', app_nil_r. split; [|done].
      unfold attached. by rewrite Hp', Hc'.
Qed.

(** ** Switching a program on. *)

(** The kernel accepts the program of a section and attaches it. *)
Definition tp_succeeds (e : tp_env) (name : string) : bool :=
  let '(k, event) := split_event name in
  let filler := after "filler/" event in
  (negb (is_kp k) || match filler with Some _ => true | None => te_kprobe e end)
  && negb (String.eqb event "") && (0 <=? te_prog e)
  && match filler with
     | Some f => negb (String.eqb f "") && negb (lookup_filler_id f =? -1) && (0 <=? te_array e)
     | None =>
         if is_raw k then 0 <=? te_raw_open e
         else (0 <=? te_open e) && (0 <=? te_read e) && (te_read e <? 256) && (0 <=? te_perf e)
              && (te_enable e =? 0) && (te_set_bpf e =? 0)
     end.

(** A program was added at the end of the table, which knew its name. *)
Record added (h h' : loader) (name : string) : Prop := {
  ad_kts : kt_indices h' = kt_indices h;
  ad_real : m_bpf_prog_real_size h' = m_bpf_prog_real_size h;
  ad_cnt : m_bpf_prog_cnt h' = m_bpf_prog_cnt h + 1;
  ad_len : length (m_bpf_progs h') = length (m_bpf_progs h);
  ad_attached : attached h' = attached h ++ [name];
  ad_closed : closed h' = closed h }.

Lemma add_prog_added h fd name :
  0 <= m_bpf_prog_cnt h < m_bpf_prog_real_size h -> m_bpf_prog_real_size h <= 128 ->
  length (m_bpf_progs h) = 128%nat ->
  exists h', add_prog h fd name = Some h' /\ added h h' name /\ m_bpf_fillers h' = m_bpf_fillers h.
Proof.
  intros Hc Hr Hl. unfold add_prog. rewrite (proj2 (Z.ltb_ge (m_bpf_prog_cnt h) 0)) by lia.
  rewrite (proj2 (Z.leb_gt BPF_PROGS_MAX _)) by (unfold BPF_PROGS_MAX; lia). cbn [orb].
  destruct (m_bpf_progs h !! Z.to_nat (m_bpf_prog_cnt h)) as [old|] eqn:Eo.
  2: { apply lookup_ge_None in Eo. lia. }
  cbn [mbind option_bind]. rewrite (proj2 (Z.ltb_ge _ _)) by lia.
  eexists. split; [reflexivity|]. split; [|done]. split; try done.
  - cbn [set_progs m_bpf_progs]. by rewrite length_insert.
  - unfold attached. cbn [set_progs m_bpf_progs m_bpf_prog_cnt].
    replace (Z.to_nat (m_bpf_prog_cnt h + 1)) with (S (Z.to_nat (m_bpf_prog_cnt h))) by lia.
    erewrite take_S_r by (apply list_lookup_insert_eq; lia). rewrite take_insert_ge by lia.
    by rewrite map_app.
Qed.

(** What is left of loading a program changes neither names nor indices. *)
Record same_table (h h' : loader) : Prop := {
  st_kts : kt_indices h' = kt_indices h;
  st_real : m_bpf_prog_real_size h' = m_bpf_prog_real_size h;
  st_cnt : m_bpf_prog_cnt h' = m_bpf_prog_cnt h;
  st_names : map prog_name (m_bpf_progs h') = map prog_name (m_bpf_progs h);
  st_closed : closed h' = closed h }.

Lemma same_table_attached h h' : same_table h h' -> attached h' = attached h.
Proof. intros [_ _ Hc Hn _]. unfold attached. by rewrite <- !firstn_map, Hc, Hn. Qed.

Lemma set_efd_same h efd p i :
  m_bpf_progs h !! i = Some p ->
  same_table h (set_progs h (<[i := mk_prog (prog_fd p) efd (prog_name p)]> (m_bpf_progs h)) (m_bpf_prog_cnt h)).
Proof.
  intros Hp. split; try done. cbn [set_progs m_bpf_progs].
  change (map prog_name) with (fmap (M := list) prog_name). rewrite list_fmap_insert. cbn [prog_name].
  apply list_insert_id. by rewrite list_lookup_fmap, Hp.
Qed.

Lemma load_tracepoint_table e h h1 name :
  tp_succeeds e name = true -> add_prog h (te_prog e) name = Some h1 ->
  (Z.to_nat (m_bpf_prog_cnt h1 - 1) < length (m_bpf_progs h1))%nat ->
  exists h', load_tracepoint e h name = Some (h', SCAP_SUCCESS) /\ same_table h1 h'.
Proof.
  intros Ht E1 Hl. unfold tp_succeeds in Ht. unfold load_tracepoint.
  destruct (split_event name) as [k event]. rewrite !andb_true_iff in Ht. destruct Ht as [[[H1 H2] H3] H4].
  assert (is_kp k && negb (match after "filler/" event with Some _ => true | None => te_kprobe e end) = false) as ->.
  { destruct (is_kp k); [|done]. cbn [negb orb andb] in *. by rewrite H1. }
  apply negb_true_iff in H2. rewrite H2. rewrite (proj2 (Z.ltb_ge _ 0)) by (by apply Z.leb_le). rewrite E1.
  cbn [mbind option_bind]. destruct (after "filler/" event) as [f|].
  - rewrite !andb_true_iff, !negb_true_iff in H4. destruct H4 as [[F1 F2] F3]. unfold load_filler.
    rewrite F1, F2, (proj2 (Z.ltb_ge _ 0)) by (by apply Z.leb_le). eexists. split; [reflexivity|]. by split.
  - destruct (lookup_lt_is_Some_2 _ _ Hl) as [p Hp].
    assert (Hst : forall efd, exists h', (p ← m_bpf_progs h1 !! Z.to_nat (m_bpf_prog_cnt h1 - 1);
        Some (set_progs h1 (<[Z.to_nat (m_bpf_prog_cnt h1 - 1) := mk_prog (prog_fd p) efd (prog_name p)]> (m_bpf_progs h1))
                (m_bpf_prog_cnt h1), SCAP_SUCCESS)) = Some (h', SCAP_SUCCESS) /\ same_table h1 h').
    { intros efd. rewrite Hp. eexists. split; [reflexivity|]. by apply set_efd_same. }
    unfold attach. destruct (is_raw k).
    + rewrite (proj2 (Z.ltb_ge _ 0)) by (by apply Z.leb_le). apply Hst.
    + rewrite !andb_true_iff in H4. destruct H4 as [[[[[F1 F2] F3] F4] F5] F6].
      rewrite !(proj2 (Z.ltb_ge _ 0)) by (by apply Z.leb_le). apply Z.ltb_lt in F3.
      rewrite (proj2 (Z.leb_gt 256 _)) by lia. rewrite F5, F6. cbn [orb negb]. apply Hst.
Qed.

Lemma load_tracepoint_added e h name :
  tp_succeeds e name = true -> 0 <= m_bpf_prog_cnt h < m_bpf_prog_real_size h ->
  m_bpf_prog_real_size h <= 128 -> length (m_bpf_progs h) = 128%nat ->
  exists h', load_tracepoint e h name = Some (h', SCAP_SUCCESS) /\ added h h' name.
Proof.
  intros Ht Hc Hr Hl. destruct (add_prog_added h (te_prog e) name Hc Hr Hl) as (h1 & E1 & [A1 A2 A3 A4 A5 A6] & _).
  destruct (load_tracepoint_table e h h1 name Ht E1) as (h' & E & Hst); [rewrite A3, A4; lia|].
  exists h'. split; [done|]. pose proof (same_table_attached _ _ Hst) as Ha. destruct Hst as [T1 T2 T3 T4 T5].
  split; try congruence. by rewrite <- (length_map prog_name), T4, length_map.
Qed.

(** A section is passed over. *)
Definition passed_over (h : loader) (s : elf_section) : Prop :=
  is_program (shname s) = true -> is_kt_enabled h (shname s) = false \/ already_attached h (shname s) = true.

Lemma load_sections_app e l1 l2 h :
  (forall s, Some s ∈ l1 -> passed_over h s) -> load_sections e (l1 ++ l2) h = load_sections e l2 h.
Proof.
  induction l1 as [|[s|] l IH]; intros Hp; cbn [load_sections app]; [done| |].
  - assert (is_kt_enabled h (shname s) && negb (already_attached h (shname s)) && is_program (shname s) = false) as ->.
    { destruct (is_program (shname s)) eqn:E; [|by rewrite andb_false_r].
      destruct (Hp s (list_elem_of_here _ _) E) as [-> | ->]; [done|]. by rewrite andb_false_r. }
    apply IH. intros s' Hs'. apply Hp. by apply list_elem_of_further.
  - apply IH. intros s' Hs'. apply Hp. by apply list_elem_of_further.
Qed.

Lemma already_attached_spec h name : already_attached h name = true <-> name ∈ attached h.
Proof.
  unfold already_attached, attached. rewrite existsb_exists. split.
  - intros (p & Hp & E). apply String.eqb_eq in E as <-. apply (list_elem_of_fmap_2 prog_name). by apply list_elem_of_In.
  - intros Hin. apply (list_elem_of_fmap_1 prog_name) in Hin as (p & -> & Hp). exists p.
    split; [by apply list_elem_of_In|apply String.eqb_refl].
Qed.

Lemma kt_enabled_lookup l name k i :
  NoDup (map kt_name l) -> l !! i = Some k -> kt_name k = name -> kt_enabled_in l name = kt_interest k.
Proof.
  revert i. induction l as [|x l IH]; intros i Hnd Hi Hn; [done|]. cbn [map] in Hnd. apply NoDup_cons in Hnd as [Hx Hnd].
  cbn [kt_enabled_in]. destruct i as [|i]; cbn in Hi.
  - simplify_eq. by rewrite String.eqb_refl.
  - destruct (String.eqb_spec name (kt_name x)) as [E|Hne]; [|by eapply IH].
    destruct Hx. rewrite <- E, <- Hn. apply (list_elem_of_fmap_2 kt_name). by eapply list_elem_of_lookup_2.
Qed.

(** The programs of the probe's sections are those the table knows, each in one section,
    and the kernel accepts them. *)
Definition program_names (l : list (option elf_section)) : list string :=
  omap (fun s => s ← s; if is_program (shname s) then Some (shname s) else None) l.

Record probe_ok (e : load_env) (l : list (option elf_section)) (names : list string) : Prop := {
  po_nodup : NoDup (program_names l);
  po_known : forall name, name ∈ program_names l <-> name ∈ names;
  po_loads : forall s, Some s ∈ l -> is_program (shname s) = true ->
    tp_succeeds (le_tp e (shname s) (d_insns s)) (shname s) = true }.

Lemma program_names_app l1 l2 : program_names (l1 ++ l2) = program_names l1 ++ program_names l2.
Proof. apply omap_app. Qed.

Lemma program_names_in l s : Some s ∈ l -> is_program (shname s) = true -> shname s ∈ program_names l.
Proof.
  intros Hs Hp. unfold program_names. apply list_elem_of_omap. exists (Some s). split; [done|]. cbn. by rewrite Hp.
Qed.

(** The section of a program. *)
Lemma program_section l name :
  name ∈ program_names l -> exists s l1 l2, l = l1 ++ Some s :: l2 /\ shname s = name /\ is_program name = true.
Proof.
  intros Hn. apply list_elem_of_omap in Hn as ([s|] & Hs & E); [|done]. cbn in E.
  destruct (is_program (shname s)) eqn:Ep; [|done]. simplify_eq.
  apply list_elem_of_split in Hs as (l1 & l2 & ->). eauto 10.
Qed.

Lemma passed_over_known h l s name :
  kt_shape h -> (forall x, x ∈ program_names l <-> x ∈ known h) ->
  Forall (fun k => kt_name k <> name -> kt_interest k = true -> kt_name k ∈ attached h)
    (take (Z.to_nat (m_bpf_prog_real_size h)) (kt_indices h)) ->
  Some s ∈ l -> (is_program (shname s) = true -> shname s <> name) -> passed_over h s.
Proof.
  intros Hs Hk Hall Hin Hne Hp. specialize (Hne Hp).
  assert (Hkn : shname s ∈ known h) by (apply Hk; by apply program_names_in).
  apply list_elem_of_lookup in Hkn as [i Hi]. destruct (known_inv h i _ Hi) as (Hlt & k & Hki & Hkn).
  assert (Hti : take (Z.to_nat (m_bpf_prog_real_size h)) (kt_indices h) !! i = Some k) by (by rewrite lookup_take_lt).
  unfold is_kt_enabled. rewrite (kt_enabled_lookup _ _ k i (ks_known _ Hs) Hti Hkn).
  destruct (kt_interest k) eqn:Ek; [right|by left]. apply already_attached_spec. rewrite <- Hkn.
  apply (Forall_lookup_1 _ _ i k Hall); [done|congruence|done].
Qed.

Lemma added_shape h h' name :
  kt_shape h -> added h h' name -> name ∉ attached h -> name ∈ known h ->
  m_bpf_prog_cnt h < m_bpf_prog_real_size h -> kt_shape h' /\ known h' = known h.
Proof.
  intros [S1 S2 S3 S4 S5 S6 S7] [A1 A2 A3 A4 A5 A6] Hn Hk Hc.
  assert (Hkn : known h' = known h) by (unfold known; by rewrite A1, A2).
  split; [|done]. split; rewrite ?A1, ?A2, ?A3, ?A4, ?A5, ?Hkn; try done; try lia.
  - apply NoDup_app. split; [done|]. split; [|apply NoDup_singleton].
    intros x Hx Hx'. apply list_elem_of_singleton in Hx' as ->. done.
  - intros x Hx. apply elem_of_app in Hx as [Hx|Hx]; [by apply S7|]. by apply list_elem_of_singleton in Hx as ->.
Qed.

(** One program is wanted and not loaded. *)
Lemma load_one e l h name :
  kt_shape h -> probe_ok e l (known h) -> name ∉ attached h -> name ∈ known h ->
  is_kt_enabled h name = true ->
  Forall (fun k => kt_name k <> name -> kt_interest k = true -> kt_name k ∈ attached h)
    (take (Z.to_nat (m_bpf_prog_real_size h)) (kt_indices h)) ->
  exists h', load_sections e l h = Some (h', SCAP_SUCCESS) /\ added h h' name /\ kt_shape h' /\ known h' = known h.
Proof.
  intros Hs [P1 P2 P3] Hn Hk Hen Hall.
  assert (Hcnt : m_bpf_prog_cnt h < m_bpf_prog_real_size h).
  { assert (Hle : (length (name :: attached h) <= length (known h))%nat).
    { apply submseteq_length, NoDup_submseteq; [apply NoDup_cons; split; [done|apply Hs]|].
      intros x Hx. apply elem_of_cons in Hx as [->|Hx]; [done|by apply (ks_sub _ Hs)]. }
    cbn [length] in Hle. rewrite (length_attached h Hs), (length_known h Hs) in Hle. pose proof (ks_cnt _ Hs). lia. }
  destruct (program_section l name) as (s & l1 & l2 & -> & Hsn & Hp); [by apply P2|].
  destruct (load_tracepoint_added (le_tp e name (d_insns s)) h name) as (h1 & E1 & A1).
  { rewrite <- Hsn. apply P3; [|by rewrite Hsn]. apply elem_of_app. right. apply list_elem_of_here. }
  { pose proof (ks_cnt _ Hs). lia. } { apply Hs. } { apply Hs. }
  destruct (added_shape h h1 name Hs A1 Hn Hk Hcnt) as [Hs1 Hk1].
  rewrite program_names_app in P1.
  assert (Hone : program_names (Some s :: l2) = name :: program_names l2)
    by (unfold program_names; cbn; by rewrite Hsn, Hp).
  rewrite Hone in P1. apply NoDup_app in P1 as (_ & Hd1 & Hnd2). apply NoDup_cons in Hnd2 as [Hd2 _].
  exists h1. split; [|done].
  rewrite load_sections_app.
  2: { intros s' Hs'. eapply (passed_over_known h (l1 ++ Some s :: l2) s' name Hs P2 Hall).
       - apply elem_of_app. by left.
       - intros Hp' E. apply (Hd1 name); [|apply list_elem_of_here]. rewrite <- E. by apply program_names_in. }
  cbn [load_sections]. rewrite Hsn, Hen, Hp.
  assert (already_attached h name = false) as -> by (apply not_true_is_false; by rewrite already_attached_spec).
  cbn [negb andb mbind option_bind]. rewrite E1. cbn [mbind option_bind].
  replace (SCAP_SUCCESS =? SCAP_UNKNOWN_KPROBE) with false by reflexivity. rewrite andb_false_r.
  replace (negb (SCAP_SUCCESS =? SCAP_SUCCESS)) with false by reflexivity.
  rewrite <- (app_nil_r l2), load_sections_app; [done|].
  intros s' Hs'. eapply (passed_over_known h1 (l1 ++ Some s :: l2) s' name Hs1).
  - by rewrite Hk1.
  - rewrite (ad_kts _ _ _ A1), (ad_real _ _ _ A1), (ad_attached _ _ _ A1). eapply List.Forall_impl; [|exact Hall].
    intros k H1 H2 H3. apply elem_of_app. left. by apply H1.
  - apply elem_of_app. right. by apply list_elem_of_further.
  - intros Hp' E. apply Hd2. rewrite <- E. by apply program_names_in.
Qed.

Lemma switch_on e l m tp k h :
  kt_inv h -> m = ∅ \/ map_right m (known h) -> probe_ok e l (known h) ->
  0 <= tp < m_bpf_prog_real_size h -> kt_indices h !! Z.to_nat tp = Some k ->
  exists m' h', mark_kt_of_interest (load_sections e l) m tp true h = Some (m', h', true) /\ kt_inv h' /\
    map_right m' (known h') /\ known h' = known h /\
    attached h' = (if decide (kt_name k ∈ attached h) then attached h else attached h ++ [kt_name k]) /\
    closed h' = closed h.
Proof.
  intros Hi Hm Hpo Htp Hk. pose proof Hi as [Hs Hr]. pose proof (ks_real _ Hs) as Hreal.
  assert (Htp' : (Z.to_nat tp < Z.to_nat (m_bpf_prog_real_size h))%nat) by lia.
  pose proof (Forall_lookup_1 _ _ (Z.to_nat tp) k Hr) as Hkr. rewrite lookup_take_lt in Hkr by done.
  specialize (Hkr Hk) as (Hk1 & Hk2 & Hk3).
  unfold mark_kt_of_interest, scap_set_ktmask_bpf, scap_handle_ktmask, scap_bpf_handle_kt_mask.
  replace (negb (_ || _)) with false by reflexivity.
  rewrite (proj2 (Z.leb_gt BPF_PROGS_MAX tp)) by (unfold BPF_PROGS_MAX; lia).
  rewrite (proj2 (Z.ltb_ge tp 0)), (proj2 (Z.ltb_ge (m_bpf_prog_real_size h) tp)) by lia. cbn [orb].
  rewrite Hk. cbn [mbind option_bind].
  replace (PPM_IOCTL_MASK_SET_TP =? PPM_IOCTL_MASK_UNSET_TP) with false by reflexivity.
  rewrite Z.eqb_refl. cbn [negb]. rewrite andb_true_r, andb_false_r.
  case_decide as Hin.
  - apply list_elem_of_lookup in Hin as [j Hj]. rewrite (Hk2 j Hj), (proj2 (Z.leb_le 0 (Z.of_nat j))) by lia.
    destruct (update_ktindex_right m h) as (m' & h' & E & Hi' & Hm' & Hkn' & Hp' & Hc' & Hcl'); [done..| |].
    + eapply List.Forall_impl; [|exact Hr]. intros k' (H1 & _ & H3). by split.
    + exists m', h'.
      split; [transitivity (let '(a, b) := update_ktindex m h in Some (a, b, true)); [done|by rewrite E]|].
      split; [done|]. split; [done|]. split; [done|]. split; [|done]. unfold attached. by rewrite Hp', Hc'.
  - rewrite (Hk1 Hin). replace (0 <=? -1) with false by reflexivity.
    set (k0 := mk_kt (kt_name k) (-1) true).
    set (h0 := set_kt h (<[Z.to_nat tp := k0]> (kt_indices h)) (m_bpf_prog_real_size h)).
    assert (Hkn0 : known h0 = known h) by exact (known_set h (Z.to_nat tp) k (-1) true Hk).
    assert (Hkn : kt_name k ∈ known h) by (eapply list_elem_of_lookup_2; by apply known_lookup).
    assert (Hs0 : kt_shape h0).
    { destruct Hs as [S1 S2 S3 S4 S5 S6 S7]. split; try done; cbn [h0 set_kt kt_indices]; rewrite ?Hkn0; try done.
      by rewrite length_insert. }
    assert (Hen : is_kt_enabled h0 (kt_name k) = true).
    { unfold is_kt_enabled. rewrite (kt_enabled_lookup _ _ k0 (Z.to_nat tp) (ks_known _ Hs0)); [done| |done].
      cbn [h0 set_kt kt_indices m_bpf_prog_real_size]. rewrite lookup_take_lt by done.
      apply list_lookup_insert_eq. rewrite (ks_kts _ Hs). lia. }
    destruct (load_one e l h0 (kt_name k)) as (h1 & E1 & A1 & Hs1 & Hkn1); try done.
    { by rewrite Hkn0. } { by rewrite Hkn0. }
    { apply (Forall_set h (Z.to_nat tp) k k0); try done.
      eapply List.Forall_impl; [|exact Hr]. intros k' (_ & _ & H3) _ _ Hint. by apply H3. }
    change (attached h0) with (attached h) in *. pose proof (ad_attached _ _ _ A1) as Hatt.
    change (attached h0) with (attached h) in Hatt. change (closed h0) with (closed h) in *.
    destruct (update_ktindex_right m h1) as (m' & h' & E & Hi' & Hm' & Hkn' & Hp' & Hc' & Hcl'); [done| | |].
    + by rewrite Hkn1, Hkn0.
    + rewrite (ad_kts _ _ _ A1), (ad_real _ _ _ A1), Hatt. apply (Forall_set h (Z.to_nat tp) k k0); try done.
      * eapply List.Forall_impl; [|exact Hr]. intros k' (H1 & _ & H3) Hne. rewrite not_elem_of_app, elem_of_app.
        rewrite list_elem_of_singleton. split; [intros [? _]; by apply H1|]. rewrite H3. tauto.
      * cbn [k0 kt_name kt_idx kt_interest]. rewrite not_elem_of_app, elem_of_app, list_elem_of_singleton.
        split; [done|]. split; [by right|done].
    + exists m', h'. split.
      { transitivity ('(h, ret) ← load_sections e l h0; let '(a, b) := update_ktindex m h in Some (a, b, ret =? SCAP_SUCCESS)); [done|].
        rewrite E1. cbn [mbind option_bind]. by rewrite E. }
      split; [done|]. split; [done|]. split; [by rewrite Hkn', Hkn1, Hkn0|]. split.
      * unfold attached at 1. by rewrite Hp', Hc', <- Hatt.
      * rewrite Hcl', (ad_closed _ _ _ A1). done.
Qed.

(** ** The first load. *)

(** The table while the probe is loaded for the first time: the programs so far, in the
    order of their sections, all wanted. *)
Record fresh (h : loader) (ns : list string) : Prop := {
  fr_cnt : m_bpf_prog_cnt h = Z.of_nat (length ns);
  fr_real : m_bpf_prog_real_size h = Z.of_nat (length ns);
  fr_progs : length (m_bpf_progs h) = 128%nat;
  fr_attached : attached h = ns;
  fr_klen : length (kt_indices h) = 128%nat;
  fr_kts : take (length ns) (kt_indices h) = imap (fun i n => mk_kt n (Z.of_nat i) true) ns }.

Lemma fresh_known h ns : fresh h ns -> known h = ns.
Proof.
  intros [_ F2 _ _ _ F6]. unfold known. rewrite F2, Nat2Z.id, F6. apply list_eq. intros i.
  change (map kt_name) with (fmap (M := list) kt_name). rewrite list_lookup_fmap, list_lookup_imap.
  by destruct (ns !! i).
Qed.

Lemma fresh_inv h ns : fresh h ns -> NoDup ns -> (length ns <= 128)%nat -> kt_inv h.
Proof.
  intros F Hnd Hl. pose proof (fresh_known h ns F) as Hk. destruct F as [F1 F2 F3 F4 F5 F6].
  split; [split; rewrite ?Hk, ?F4; try done; lia|]. rewrite F2, Nat2Z.id, F6, F4.
  apply Forall_lookup. intros i k Hi. rewrite list_lookup_imap in Hi. apply fmap_Some in Hi as (n & Hn & ->).
  assert (Hin : n ∈ ns) by (by eapply list_elem_of_lookup_2). unfold kt_right. cbn [kt_name kt_idx kt_interest].
  split; [done|]. split; [|done]. intros j Hj. f_equal. by eapply NoDup_lookup.
Qed.

Lemma add_prog_fresh h ns fd name :
  fresh h ns -> (length ns < 128)%nat ->
  exists h', add_prog h fd name = Some h' /\ fresh h' (ns ++ [name]) /\ closed h' = closed h.
Proof.
  intros [F1 F2 F3 F4 F5 F6] Hl. unfold add_prog. rewrite F1, F2, Nat2Z.id.
  rewrite (proj2 (Z.ltb_ge _ 0)), (proj2 (Z.leb_gt BPF_PROGS_MAX _)) by (unfold BPF_PROGS_MAX; lia).
  cbn [orb]. destruct (lookup_lt_is_Some_2 (m_bpf_progs h) (length ns)) as [old Ho]; [lia|].
  rewrite Ho. cbn [mbind option_bind]. rewrite (proj2 (Z.ltb_lt _ _)) by lia.
  eexists. split; [reflexivity|]. split; [|done].
  assert (Hlen : length (ns ++ [name]) = S (length ns)) by (rewrite length_app; cbn; lia).
  split; cbn [set_progs set_kt m_bpf_prog_cnt m_bpf_prog_real_size m_bpf_progs kt_indices]; rewrite ?Hlen; try lia.
  - by rewrite length_insert.
  - transitivity (attached h ++ [name]); [|by rewrite F4]. unfold attached.
    cbn [set_progs m_bpf_prog_cnt m_bpf_progs]. rewrite F1, Nat2Z.id.
    replace (Z.to_nat (Z.of_nat (length ns) + 1)) with (S (length ns)) by lia.
    erewrite take_S_r by (apply list_lookup_insert_eq; lia). rewrite take_insert_ge by lia. by rewrite map_app.
  - by rewrite length_insert.
  - erewrite take_S_r by (apply list_lookup_insert_eq; lia). rewrite take_insert_ge, F6 by lia.
    rewrite imap_app. cbn. by rewrite Nat.add_0_r.
Qed.

Lemma load_tracepoint_fresh e h ns name :
  tp_succeeds e name = true -> fresh h ns -> (length ns < 128)%nat ->
  exists h', load_tracepoint e h name = Some (h', SCAP_SUCCESS) /\ fresh h' (ns ++ [name]) /\ closed h' = closed h.
Proof.
  intros Ht F Hl. destruct (add_prog_fresh h ns (te_prog e) name F Hl) as (h1 & E1 & F1 & C1).
  destruct (load_tracepoint_table e h h1 name Ht E1) as (h' & E & Hst).
  { rewrite (fr_cnt _ _ F1), (fr_progs _ _ F1), length_app. cbn [length]. lia. }
  exists h'. split; [done|]. pose proof (same_table_attached _ _ Hst) as Ha. destruct Hst as [T1 T2 T3 T4 T5].
  split; [|congruence]. destruct F1 as [G1 G2 G3 G4 G5 G6]. split; try congruence.
  by rewrite <- (length_map prog_name), T4, length_map.
Qed.

Lemma kt_enabled_unknown l name : name ∉ map kt_name l -> kt_enabled_in l name = true.
Proof.
  induction l as [|k l IH]; intros Hn; [done|]. cbn [map kt_enabled_in] in *. apply not_elem_of_cons in Hn as [H1 H2].
  rewrite (proj2 (String.eqb_neq _ _) H1). by apply IH.
Qed.

Lemma load_sections_fresh e l : forall h ns,
  fresh h ns -> NoDup (ns ++ program_names l) -> (length (ns ++ program_names l) <= 128)%nat ->
  (forall s, Some s ∈ l -> is_program (shname s) = true ->
     tp_succeeds (le_tp e (shname s) (d_insns s)) (shname s) = true) ->
  exists h', load_sections e l h = Some (h', SCAP_SUCCESS) /\ fresh h' (ns ++ program_names l) /\ closed h' = closed h.
Proof.
  induction l as [|[s|] l IH]; intros h ns F Hnd Hl Hok; cbn [load_sections].
  - exists h. split; [done|]. by rewrite app_nil_r.
  - assert (Hok' : forall s, Some s ∈ l -> is_program (shname s) = true ->
      tp_succeeds (le_tp e (shname s) (d_insns s)) (shname s) = true).
    { intros s' Hs'. apply Hok. by apply list_elem_of_further. }
    destruct (is_program (shname s)) eqn:Ep.
    2: { assert (Hpn : program_names (Some s :: l) = program_names l) by (unfold program_names; cbn; by rewrite Ep).
         rewrite Hpn in *. rewrite andb_false_r. by apply IH. }
    assert (Hpn : program_names (Some s :: l) = shname s :: program_names l) by (unfold program_names; cbn; by rewrite Ep).
    assert (Happ : ns ++ program_names (Some s :: l) = (ns ++ [shname s]) ++ program_names l)
      by (rewrite Hpn; by rewrite <- app_assoc).
    rewrite Happ in *.
    assert (Hn : shname s ∉ ns).
    { rewrite <- app_assoc in Hnd. apply NoDup_app in Hnd as (_ & H & _). intros Hx. apply (H _ Hx). apply list_elem_of_here. }
    unfold is_kt_enabled. rewrite kt_enabled_unknown by (change (shname s ∉ known h); by rewrite (fresh_known h ns F)).
    assert (already_attached h (shname s) = false) as ->.
    { apply not_true_is_false. by rewrite already_attached_spec, (fr_attached _ _ F). }
    cbn [negb andb]. destruct (load_tracepoint_fresh (le_tp e (shname s) (d_insns s)) h ns (shname s)) as (h1 & E1 & F1 & C1).
    { apply Hok; [apply list_elem_of_here|done]. } { done. }
    { rewrite !length_app in Hl. cbn [length] in Hl. lia. }
    rewrite E1. cbn [mbind option_bind].
    replace (SCAP_SUCCESS =? SCAP_UNKNOWN_KPROBE) with false by reflexivity. rewrite andb_false_r.
    replace (negb (SCAP_SUCCESS =? SCAP_SUCCESS)) with false by reflexivity.
    destruct (IH h1 (ns ++ [shname s]) F1 Hnd Hl Hok') as (h' & E' & F' & C'). exists h'. by rewrite C', C1.
  - apply IH; [done..|]. intros s' Hs'. apply Hok. by apply list_elem_of_further.
Qed.

(** ** The whole life of a handle. *)

Lemma load_maps_fresh create ncpus ms : forall j h ns ms' h' r,
  load_maps create ncpus j ms h = Some (ms', h', r) -> fresh h ns -> fresh h' ns /\ closed h' = closed h.
Proof.
  induction ms as [|x ms IH]; intros j h ns ms' h' r E F; cbn [load_maps] in E; [by simplify_eq|].
  case_match; [done|]. assert (F' : forall l a, fresh (set_map_fds h l a) ns) by (intros; destruct F; by split).
  case_match; [simplify_eq; by split|].
  match type of E with (load_maps _ _ _ _ ?h1) ≫= _ = _ => destruct (load_maps create ncpus (S j) ms h1)
    as [[[ms1 h2] r1]|] eqn:E1; [|done] end.
  cbn [mbind option_bind] in E. simplify_eq. apply IH with (ns := ns) in E1; [|apply F']. done.
Qed.

(** A probe the loader accepts: the sections of the file once the maps [maps] are created
    and the instructions are patched are [l]. *)
Record probe_file (e : load_env) (ncpus : Z) (maps : list bpf_map_data) (l : list (option elf_section))
    (elf : elf_file) (r : scan_result) : Prop := {
  pf_release : exists release, le_release e = Some release /\
    scan_sections e release 0 (sections elf) (mk_scan 0 false) = Some r;
  pf_open : le_open e = true;
  pf_elf : le_elf e = Some elf;
  pf_symbols : has_symbols r = true;
  pf_maps : exists defs h, load_elf_maps_section elf (maps_shndx r) = Some defs /\ maps_shndx r <> 0 /\
    load_maps (le_map_create e) ncpus 0 defs new_loader = Some (maps, h, SCAP_SUCCESS);
  pf_sections : relocate maps (sections elf) (sections elf) = Some l;
  pf_programs : NoDup (program_names l) /\ (length (program_names l) <= 128)%nat;
  pf_loads : forall s, Some s ∈ l -> is_program (shname s) = true ->
    tp_succeeds (le_tp e (shname s) (d_insns s)) (shname s) = true }.

(** [load_bpf_file] as [scap_bpf_handle_kt_mask] calls it. *)
Definition reload (e : load_env) (ncpus : Z) (st : load_statics) (h : loader) : option (loader * Z) :=
  '(_, h, res) ← load_bpf_file e ncpus st h; Some (h, res).

Section life.
Context (e : load_env) (ncpus : Z) (maps : list bpf_map_data) (l : list (option elf_section)).
Context (elf : elf_file) (r : scan_result) (Hf : probe_file e ncpus maps l elf r).

Lemma first_load :
  exists h, load_bpf_file e ncpus start_statics new_loader = Some (mk_statics false maps, h, SCAP_SUCCESS) /\
    fresh h (program_names l).
Proof using Hf.
  destruct Hf as [(rel & H1 & H2) H3 H4 H5 (defs & h1 & H6 & H7 & H8) H9 [H10 H11] H12].
  assert (Fn : fresh new_loader []) by (by split).
  destruct (load_maps_fresh _ _ _ _ _ _ _ _ _ H8 Fn) as [F1 _].
  destruct (load_sections_fresh e l h1 [] F1 H10 H11 H12) as (h2 & E2 & F2 & _).
  exists h2. split; [|done]. unfold load_bpf_file. rewrite H1, H3, H4, H2, H5. cbn [negb].
  rewrite (proj2 (Z.eqb_neq _ _) H7). cbn [negb andb start_statics first_load_map].
  rewrite H6, H8. cbn [mbind option_bind]. replace (negb (SCAP_SUCCESS =? SCAP_SUCCESS)) with false by reflexivity.
  cbn [ls_maps]. rewrite H9. cbn [mbind option_bind]. by rewrite E2.
Qed.

Lemma reload_sections h : reload e ncpus (mk_statics false maps) h = load_sections e l h.
Proof using Hf.
  destruct Hf as [(rel & H1 & H2) H3 H4 H5 _ H9 _ _]. unfold reload, load_bpf_file.
  rewrite H1, H3, H4, H2, H5. cbn [negb first_load_map]. rewrite andb_false_r. cbn [ls_maps]. rewrite H9.
  cbn [mbind option_bind]. by destruct (load_sections e l h) as [[h' res]|].
Qed.

Lemma mark_reload m tp b h :
  mark_kt_of_interest (reload e ncpus (mk_statics false maps)) m tp b h =
  mark_kt_of_interest (load_sections e l) m tp b h.
Proof using Hf.
  unfold mark_kt_of_interest, scap_set_ktmask_bpf, scap_handle_ktmask, scap_bpf_handle_kt_mask.
  destruct (kt_indices h !! Z.to_nat tp); [|done]. cbn [mbind option_bind]. by rewrite reload_sections.
Qed.
End life.

(** Switching programs one after the other; [None] when a call fails. *)
Fixpoint switches (load : loader -> option (loader * Z)) (m : gmap string Z) (ops : list (Z * bool))
    (h : loader) : option loader :=
  match ops with
  | [] => Some h
  | (tp, enable) :: ops' =>
      '(m, h, ok) ← mark_kt_of_interest load m tp enable h;
      if (ok : bool) then switches load m ops' h else None
  end.

(** The specification: the set of programs that are wanted. *)
Definition want (names : list string) (ops : list (Z * bool)) (w : gset string) : gset string :=
  foldl (fun w x => match names !! Z.to_nat (fst x) with
                    | Some n => if snd x : bool then w ∪ {[n]} else w ∖ {[n]}
                    | None => w
                    end) w ops.

Lemma switches_refine e l ops : forall m h,
  kt_inv h -> m = ∅ \/ map_right m (known h) -> probe_ok e l (known h) ->
  Forall (fun x => 0 <= fst x < m_bpf_prog_real_size h) ops ->
  exists h', switches (load_sections e l) m ops h = Some h' /\ kt_inv h' /\
    forall name, name ∈ attached h' <-> name ∈ want (known h) ops (list_to_set (attached h)).
Proof.
  induction ops as [|[tp b] ops IH]; intros m h Hi Hm Hpo Hops; cbn [switches].
  - exists h. split; [done|]. split; [done|]. intros name. cbn [want foldl]. by rewrite elem_of_list_to_set.
  - apply Forall_cons in Hops as [Htp Hops]. cbn [fst] in Htp.
    destruct (lookup_lt_is_Some_2 (kt_indices h) (Z.to_nat tp)) as [k Hk].
    { rewrite (ks_kts _ (ki_shape _ Hi)). pose proof (ks_real _ (ki_shape _ Hi)). lia. }
    assert (Hstep : exists m' h', mark_kt_of_interest (load_sections e l) m tp b h = Some (m', h', true) /\ kt_inv h' /\
      map_right m' (known h') /\ known h' = known h /\
      forall name, name ∈ attached h' <-> name ∈ (if b then list_to_set (attached h) ∪ {[kt_name k]}
                                                 else list_to_set (attached h) ∖ {[kt_name k]} : gset string)).
    { destruct b.
      - destruct (switch_on e l m tp k h Hi Hm Hpo Htp Hk) as (m' & h' & E & Hi' & Hm' & Hk' & Ha & _).
        exists m', h'. do 4 (split; [done|]). intros name. rewrite elem_of_union, elem_of_list_to_set, elem_of_singleton, Ha.
        case_decide; [|by rewrite elem_of_app, list_elem_of_singleton]. split; [by left|]. by intros [ | -> ].
      - destruct (switch_off (load_sections e l) m tp k h Hi Hm Htp Hk) as (m' & h' & E & Hi' & Hm' & Hk' & Ha & _).
        exists m', h'. do 4 (split; [done|]). intros name.
        rewrite elem_of_difference, elem_of_list_to_set, elem_of_singleton, Ha, list_elem_of_filter. tauto. }
    destruct Hstep as (m' & h' & -> & Hi' & Hm' & Hk' & Ha). cbn [mbind option_bind].
    assert (Hreal : m_bpf_prog_real_size h' = m_bpf_prog_real_size h).
    { apply (f_equal length) in Hk'. rewrite (length_known h' (ki_shape _ Hi')), (length_known h (ki_shape _ Hi)) in Hk'.
      pose proof (ks_cnt _ (ki_shape _ Hi)). pose proof (ks_cnt _ (ki_shape _ Hi')). lia. }
    destruct (IH m' h' Hi' (or_intror Hm')) as (h2 & E2 & Hi2 & Ha2).
    { by rewrite Hk'. } { by rewrite Hreal. }
    exists h2. split; [done|]. split; [done|]. intros name. rewrite Ha2, Hk'. cbn [want foldl fst snd].
    rewrite (known_lookup h (Z.to_nat tp) k) by (done || lia). fold (want (known h) ops).
    assert (list_to_set (attached h') = (if b then list_to_set (attached h) ∪ {[kt_name k]}
                                        else list_to_set (attached h) ∖ {[kt_name k]} : gset string)) as ->; [|done].
    apply set_eq. intros x. by rewrite elem_of_list_to_set.
Qed.

(** C20: an application controls which eBPF programs run.  libscap loads a probe it accepts
    with every program of the file, in the order of the sections; whatever programs the
    application then switches off and on, in any order, every call succeeds, and the
    programs loaded are exactly those that are wanted, each loaded once, with the index
    libscap keeps for each pointing at it (or being -1 when it is off). *)
Theorem kt_switches_refine (e : load_env) (ncpus : Z) (maps : list bpf_map_data)
    (l : list (option elf_section)) (elf : elf_file) (r : scan_result) (ops : list (Z * bool)) :
  probe_file e ncpus maps l elf r ->
  Forall (fun x => 0 <= fst x < Z.of_nat (length (program_names l))) ops ->
  exists st h0 h, load_bpf_file e ncpus start_statics new_loader = Some (st, h0, SCAP_SUCCESS) /\
    attached h0 = program_names l /\
    switches (reload e ncpus st) ∅ ops h0 = Some h /\ NoDup (attached h) /\
    (forall name, name ∈ attached h <->
       name ∈ want (program_names l) ops (list_to_set (program_names l))) /\
    forall i k, known h !! i = Some (kt_name k) -> kt_indices h !! i = Some k -> kt_right (attached h) k.
Proof.
  intros Hf Hops. destruct (first_load e ncpus maps l elf r Hf) as (h0 & E0 & F0).
  pose proof (pf_programs _ _ _ _ _ _ Hf) as [Hnd Hl]. pose proof (fresh_inv h0 _ F0 Hnd Hl) as Hi0.
  pose proof (fresh_known h0 _ F0) as Hk0. pose proof (fr_attached _ _ F0) as Ha0.
  destruct (switches_refine e l ops ∅ h0 Hi0 (or_introl eq_refl)) as (h & E & Hi & Ha).
  - rewrite Hk0. split; [done|done|apply (pf_loads _ _ _ _ _ _ Hf)].
  - by rewrite (fr_real _ _ F0).
  - exists (mk_statics false maps), h0, h. split; [done|]. split; [done|]. split.
    { rewrite <- E. clear -Hf. generalize (∅ : gmap string Z). revert h0. induction ops as [|[tp b] ops IH]; intros h0 m; [done|].
      cbn [switches]. rewrite (mark_reload e ncpus maps l elf r Hf).
      destruct (mark_kt_of_interest (load_sections e l) m tp b h0) as [[[m' h'] ok]|]; [|done].
      cbn [mbind option_bind]. destruct ok; [apply IH|done]. }
    split; [apply (ks_attached _ (ki_shape _ Hi))|]. split; [by rewrite Hk0, Ha0 in Ha|].
    intros i k Hkn Hk. destruct (known_inv h i _ Hkn) as [Hlt _].
    eapply Forall_lookup_1; [apply (ki_right _ Hi)|]. rewrite lookup_take_lt by done. exact Hk.
Qed.

(** A probe with a map, a tracepoint that refers to it and a kprobe; the application
    switches both off and the tracepoint on again. *)
Definition no_map_def : bpf_map_def := mk_map_def 0 0 0 0 0.
Definition sample_section (name : string) (type info : Z) (rels : list (Z * Z)) (insns : list bpf_insn) :
    option elf_section :=
  Some (mk_section name type info rels insns "" (fun _ => mk_map_def 4 4 4 0 0)).
Definition sample_elf : elf_file :=
  mk_elf [None; sample_section "maps" 1 0 [] [];
          sample_section "raw_tracepoint/sys_enter" 1 0 [] [mk_insn 183 0 0 0 0; mk_insn 24 1 0 0 0; mk_insn 149 0 0 0 0];
          sample_section ".relraw_tracepoint/sys_enter" SHT_REL 2 [(8, 0)] [];
          sample_section "kprobe/tcp_drop" 1 0 [] [mk_insn 149 0 0 0 0];
          sample_section ".symtab" SHT_SYMTAB 6 [] []]
    [(0, 1)].
Definition sample_load : load_env :=
  mk_load (Some "5.15"%string) "0.1" true (Some sample_elf) (fun j => 40 + Z.of_nat j)
    (fun name insns => mk_tp true (if String.eqb name "kprobe/tcp_drop" then 51 else 50) 0
       60 61 4 62 0 0).
Definition sample_maps : list bpf_map_data := [mk_map_data 40 0 (mk_map_def 4 4 4 8 0)].
Definition sample_sections : list (option elf_section) :=
  <[2%nat := sample_section "raw_tracepoint/sys_enter" 1 0 []
       [mk_insn 183 0 0 0 0; mk_insn 24 1 BPF_PSEUDO_MAP_FD 0 40; mk_insn 149 0 0 0 0]]> (sections sample_elf).

Lemma sample_probe_file :
  probe_file sample_load 8 sample_maps sample_sections sample_elf (mk_scan 1 true).
Proof.
  split; [by exists "5.15"%string|done|done|done| |done| |].
  - do 2 eexists. split; [reflexivity|]. split; [done|]. vm_compute. reflexivity.
  - split; [|vm_compute; lia]. vm_compute. repeat constructor; rewrite ?elem_of_cons, ?elem_of_nil; intuition discriminate.
  - intros s Hs. cbn in Hs. rewrite !elem_of_cons, elem_of_nil in Hs.
    destruct Hs as [Hs|[Hs|[Hs|[Hs|[Hs|[Hs|[]]]]]]]; [done|injection Hs as ->; by vm_compute..].
Qed.

Definition sample_switches : list (Z * bool) := [(0, false); (1, false); (0, true)].

Lemma kt_switches_refine_witness :
  exists st h0 h, load_bpf_file sample_load 8 start_statics new_loader = Some (st, h0, SCAP_SUCCESS) /\
    switches (reload sample_load 8 st) ∅ sample_switches h0 = Some h /\
    "raw_tracepoint/sys_enter"%string ∈ attached h /\ "kprobe/tcp_drop"%string ∉ attached h.
Proof.
  assert (Hops : Forall (fun x : Z * bool => 0 <= fst x < Z.of_nat (length (program_names sample_sections)))
                   sample_switches)
    by (vm_compute; repeat constructor; discriminate).
  destruct (kt_switches_refine sample_load 8 sample_maps sample_sections sample_elf (mk_scan 1 true)
              sample_switches sample_probe_file Hops) as (st & h0 & h & H1 & _ & H3 & _ & H5 & _).
  exists st, h0, h. split; [exact H1|]. split; [exact H3|]. split.
  - apply H5. vm_compute. reflexivity.
  - intros H. apply H5 in H. vm_compute in H. discriminate.
Defined.

(** ** Where the loader goes wrong. *)

(** The index behind the last program passes the bound check; its entry is as [calloc]
    left it, and switching it off takes the first program of the table down. *)
Theorem index_behind_table_closes_first load h p :
  0 < m_bpf_prog_cnt h -> 0 <= m_bpf_prog_real_size h < 128 ->
  kt_indices h !! Z.to_nat (m_bpf_prog_real_size h) = Some no_kt -> m_bpf_progs h !! O = Some p ->
  exists h', scap_set_ktmask_bpf load (m_bpf_prog_real_size h) false h = Some (h', SCAP_SUCCESS) /\
    closed h' = closed h ++ close_prog p.
Proof.
  intros Hc Hr Hk Hp. unfold scap_set_ktmask_bpf, scap_handle_ktmask, scap_bpf_handle_kt_mask.
  replace (negb (_ || _)) with false by reflexivity.
  rewrite (proj2 (Z.leb_gt BPF_PROGS_MAX _)) by (unfold BPF_PROGS_MAX; lia).
  rewrite (proj2 (Z.ltb_ge _ 0)), (proj2 (Z.ltb_ge (m_bpf_prog_real_size h) _)) by lia. cbn [orb].
  rewrite Hk. cbn [mbind option_bind no_kt kt_idx].
  replace (0 =? -1) with false by reflexivity. rewrite Z.eqb_refl. cbn [andb negb].
  replace (0 <=? 0) with true by reflexivity. cbn [andb]. change (Z.to_nat 0) with O. rewrite Hp. cbn [mbind option_bind].
  rewrite (proj2 (Z.ltb_ge _ 0)) by lia. eexists. split; reflexivity.
Qed.

(** Without the update of the indices between them, two calls of libscap's own function
    take the wrong program down. *)
Definition sample_three : loader :=
  mk_loader ([mk_prog 10 20 "raw_tracepoint/a"; mk_prog 11 21 "raw_tracepoint/b"; mk_prog 12 22 "raw_tracepoint/c"]
             ++ replicate 125 no_prog) 3 [] [] 0
    ([mk_kt "raw_tracepoint/a" 0 true; mk_kt "raw_tracepoint/b" 1 true; mk_kt "raw_tracepoint/c" 2 true]
     ++ replicate 125 no_kt) 3 [].

Example stale_index_closes_other :
  (h ← scap_set_ktmask_bpf (fun h => Some (h, 0)) 0 false sample_three;
   h ← scap_set_ktmask_bpf (fun h => Some (h, 0)) 1 false (fst h);
   Some (attached (fst h), closed (fst h))) =
  Some (["raw_tracepoint/b"%string], [20; 10; 22; 12]).
Proof. vm_compute. reflexivity. Qed.

Lemma load_tracepoint_map_fds e h name h' res :
  load_tracepoint e h name = Some (h', res) -> m_bpf_map_fds h' = m_bpf_map_fds h.
Proof.
  unfold load_tracepoint. destruct (split_event name) as [k event]. intros E.
  repeat (case_match; [by simplify_eq|]).
  destruct (add_prog h (te_prog e) name) as [h1|] eqn:Ea; [|done]. cbn [mbind option_bind] in E.
  assert (Hfds : m_bpf_map_fds h1 = m_bpf_map_fds h).
  { clear -Ea. unfold add_prog in Ea. destruct (_ || _); [done|].
    destruct (m_bpf_progs h !! Z.to_nat (m_bpf_prog_cnt h)) as [old|]; [|done]. cbn [mbind option_bind] in Ea.
    repeat case_match; by simplify_eq. }
  rewrite <- Hfds. destruct (after "filler/" event).
  - unfold load_filler in E. repeat case_match; by simplify_eq.
  - unfold attach in E. destruct (m_bpf_progs h1 !! Z.to_nat (m_bpf_prog_cnt h1 - 1)); cbn [mbind option_bind] in E;
      repeat case_match; by simplify_eq.
Qed.

Lemma load_sections_map_fds e l : forall h h' res,
  load_sections e l h = Some (h', res) -> m_bpf_map_fds h' = m_bpf_map_fds h.
Proof.
  induction l as [|[s|] l IH]; intros h h' res E; cbn [load_sections] in E; [by simplify_eq| |by eapply IH].
  case_match; [|by eapply IH].
  destruct (load_tracepoint _ h (shname s)) as [[h1 r1]|] eqn:E1; [|done]. cbn [mbind option_bind] in E.
  apply load_tracepoint_map_fds in E1. rewrite <- E1. repeat case_match; [by eapply IH|by simplify_eq|by eapply IH].
Qed.

(** The maps are created once in the life of the process: a handle that is opened after
    another one was closed has no map, whatever the result of the load. *)
Theorem reopened_handle_has_no_maps e ncpus maps h st h' res :
  load_bpf_file e ncpus (mk_statics false maps) (scap_bpf_close h) = Some (st, h', res) ->
  Forall (fun fd => fd <= 0) (m_bpf_map_fds h').
Proof.
  intros E. assert (Hfd : m_bpf_map_fds h' = m_bpf_map_fds (scap_bpf_close h)).
  { unfold load_bpf_file in E. cbn [first_load_map ls_maps] in E. rewrite ?andb_false_r in E.
    destruct (le_release e) as [rel|]; [|by simplify_eq]. case_match; [by simplify_eq|].
    destruct (le_elf e) as [elf|]; [|by simplify_eq].
    destruct (scan_sections _ _ _ _ _) as [r|]; [|by simplify_eq]. case_match; [by simplify_eq|].
    rewrite andb_false_r in E. destruct (relocate _ _ _) as [l|]; [|done]. cbn [mbind option_bind] in E.
    destruct (load_sections e l (scap_bpf_close h)) as [[h1 r1]|] eqn:E1; [|done]. cbn [mbind option_bind] in E.
    simplify_eq. by eapply load_sections_map_fds. }
  rewrite Hfd. cbn [scap_bpf_close m_bpf_map_fds]. apply List.Forall_map, List.Forall_forall. intros fd _.
  destruct (Z.ltb_spec 0 fd); lia.
Qed.

(** ** The relocations. *)

(** A relocation that succeeds makes the instruction refer to the map defined at the
    symbol's offset; the code and the registers it computes with stay. *)
Definition refers (maps : list bpf_map_data) (v : Z) (x : bpf_insn) : Prop :=
  src_reg x = BPF_PSEUDO_MAP_FD /\
  exists m, find_map maps v = Some m /\ elf_offset m = v /\ imm x = s32 (map_fd m).

Lemma find_map_offset maps v m : find_map maps v = Some m -> elf_offset m = v.
Proof. intros H. apply List.find_some in H as [_ H]. by apply Z.eqb_eq. Qed.

Theorem relocations_refer maps rels : forall insns insns',
  parse_relocations maps rels insns = Some (insns', SCAP_SUCCESS) ->
  length insns' = length insns /\
  (forall i x, insns !! i = Some x -> exists x', insns' !! i = Some x' /\ code x' = code x /\ dst_reg x' = dst_reg x /\
     insn_off x' = insn_off x) /\
  (forall i, (forall r, r ∈ rels -> Z.to_nat (fst r / 8) <> i) -> insns' !! i = insns !! i) /\
  (NoDup (map (fun r => Z.to_nat (fst r / 8)) rels) ->
   forall r, r ∈ rels -> exists x', insns' !! Z.to_nat (fst r / 8) = Some x' /\ refers maps (snd r) x').
Proof.
  induction rels as [|[off v] rels IH]; intros insns insns' E; cbn [parse_relocations] in E.
  - simplify_eq. split; [done|]. split; [eauto|]. split; [done|]. intros _ r Hr. by apply elem_of_nil in Hr.
  - set (i0 := Z.to_nat (off / 8)) in *. destruct (insns !! i0) as [x0|] eqn:Ex; [|done]. cbn [mbind option_bind] in E.
    case_match; [done|]. destruct (find_map maps v) as [m|] eqn:Em; [|done].
    cbn [code dst_reg src_reg insn_off] in E.
    set (x2 := mk_insn (code x0) (dst_reg x0) BPF_PSEUDO_MAP_FD (insn_off x0) (s32 (map_fd m))) in E. destruct (IH _ _ E) as (H1 & H2 & H3 & H4).
    rewrite length_insert in H1. split; [done|]. split; [|split].
    + intros i x Hx. destruct (decide (i0 = i)) as [<-|Hne].
      * simplify_eq. destruct (H2 i0 x2) as (x' & Hx' & C1 & C2 & C3); [apply list_lookup_insert_eq; by eapply lookup_lt_Some|].
        exists x'. done.
      * apply H2. by rewrite list_lookup_insert_ne.
    + intros i Hi. rewrite H3.
      * apply list_lookup_insert_ne. intros E0. apply (Hi (off, v)); [apply list_elem_of_here|exact E0].
      * intros r Hr. apply Hi. by apply list_elem_of_further.
    + intros Hnd r Hr. cbn [map] in Hnd. apply NoDup_cons in Hnd as [Hn Hnd].
      apply elem_of_cons in Hr as [->|Hr]; [|by apply H4]. cbn [fst snd]. fold i0. exists x2. split.
      * rewrite H3; [apply list_lookup_insert_eq; by eapply lookup_lt_Some|].
        intros r Hr E0. apply Hn. cbn [fst]. fold i0. rewrite <- E0.
        by apply (list_elem_of_fmap_2 (fun r : Z * Z => Z.to_nat (fst r / 8))).
      * split; [done|]. exists m. split; [done|]. split; [by eapply find_map_offset|done].
Qed.
